(* ===== verification/_CoqProject ===== *)
-Q . S2P
Prelude.v
Core.v
Effects.v
Redis.v
Lock.v
Idempotency.v
StateMachine.v
Saga.v
JsNumber.v
Rules.v
RuleLogic.v
Schema.v
Pagination.v
Database.v
Instant.v
Tables.v
Sample.v
Auth.v
AuthRules.v
Permissions.v
Inventory.v
Stock.v
Payments.v
Webhooks.v
Settlement.v
PaymentRules.v
SettlementRules.v
Orders.v
Checkout.v
CheckoutRules.v
Placement.v
OrderRules.v
Coupons.v
CouponRules.v
Growth.v
GrowthRules.v
Cases.v
CaseRules.v
Lives.v
Shipping.v
Carrier.v
ShippingRules.v
RateRules.v
Calendar.v
WarrantyStores.v
Warranty.v
Service.v
WarrantyRules.v
ServiceRules.v
CategoryTree.v
CatalogStores.v
Catalog.v
CatalogRules.v
SearchRules.v
CatalogRuns.v
Content.v
ContentRules.v
Insights.v
InsightRules.v
Analytics.v
Http.v
Guards.v
GuardRules.v
Reports.v
Providers.v
ProviderRules.v
AnalyticsRules.v
Metrics.v
MetricRules.v
Routes.v
RouteRules.v
Environment.v
Platform.v
PlatformRules.v
