(* ===== verification/Prelude.v ===== *)
(** * Electronics Cart backend: a verification library

    A model of the server under [src/backend/src] (NestJS, Prisma on PostgreSQL,
    Redis) with the theorems that make its transactional core correct. Each
    service method is one definition that runs its guards, queries, writes, locks,
    cache calls, events and gateway calls in the order of the source, on explicit
    tables, and may throw at every point where the source may.

    ** How the parts interact

    A request of a shop goes through these layers, from the bottom:

    - [Core] ([core/errors]): the closed set of error codes, [AppException], JSON.
    - [Effects]: the computations. [M S A] maps a state to an outcome ([Ok] or
      [Throw]) and the state left behind; a throw keeps earlier effects, only
      [transaction] undoes them. [stays] and the hints [kept] show that a
      computation respects a preorder on states on every path.
    - [Redis] ([shared/cache/cache.service.ts]): the commands the code issues, the
      environment of a request ([Env]: clock, Redis, events, jobs), [CacheService].
    - [Lock] ([shared/lock]), [Idempotency] ([shared/idempotency]),
      [StateMachine] ([shared/state-machine], six lifecycle graphs), [Saga]
      ([shared/workflow]), [Rules] and [RuleLogic] ([shared/rules]),
      [Pagination] ([common/utils/pagination.util.ts]), [Cases] and [CaseRules]
      ([shared/case-management]): the shared engines, each over any client.
    - [JsNumber]: JavaScript numbers, for the money arithmetic of the services.
    - [Schema], [Tables] ([database/schema.prisma], [database/sql]): rows as
      records, with the CHECK, unique and foreign-key constraints; [Database]
      the Prisma client on them, with the rules ([dwp]) that run a service
      symbolically; [Instant] ([iwp]) the same for runs that do not wait;
      [Sample] the concrete shop on which witnesses are evaluated.
    - The modules of the application, each with its definitions in one file and
      its theorems in another:
      [Auth], [AuthRules] ([modules/auth]);
      [Inventory], [Stock] ([modules/inventory]);
      [Payments], [Webhooks], [PaymentRules] ([modules/payments]);
      [Orders], [OrderRules] ([modules/orders]);
      [Checkout], [CheckoutRules], [Placement] ([checkout.service.ts]: the order
      placement saga, which calls carts, orders, inventory and payments);
      [Coupons], [CouponRules] (coupons on the rule engine and the lock);
      [Growth], [GrowthRules] (flags, loyalty, referrals, campaigns, search and
      A/B tests of [modules/marketing]);
      [Shipping] (shipments, labels, pickups, tracking), [Carrier] (webhooks of
      the carrier, reverse shipments, returns to origin, rates, the worker),
      [ShippingRules], [RateRules] ([modules/shipping]), on [Lives]: rows that
      never vanish and whose status follows a machine;
      [Settlement], [SettlementRules] (settlements, reconciliation, disputes and
      the worker of [modules/payments]);
      [WarrantyStores] (the four stores the case manager works on), [Warranty]
      (plans, registrations, claims), [Service] (RMAs, tickets, repairs, loans,
      spare parts, the worker), [WarrantyRules], [ServiceRules]
      ([modules/warranty]), on [Calendar] (months of local time) and on the case
      manager, the saga coordinator, refunds, shipping and inventory;
      [CategoryTree] (the category tree, with its theorem), [CatalogStores]
      (requests, events, repositories and cache of the catalogue), [Catalog] (its
      service), [CatalogRules], [SearchRules], [CatalogRuns] ([modules/catalog]);
      [Permissions] (the start-up of five modules);
      [Content], [ContentRules] (pages, settings, banners, navigation and blog of
      [modules/marketing]);
      [Insights] (funnel, trends, cohorts, RFM), [Analytics] (scorecards, alerts,
      dashboards), [Reports] (exports and the worker), [InsightRules],
      [AnalyticsRules] ([modules/analytics]), [Metrics], [MetricRules]
      ([shared/metrics] and its subscriber in the analytics module).
    - At the edges: [Http] (outbound requests), [Providers], [ProviderRules] (the
      gateway as an instance of the interface that [Payments] uses, and the
      carrier), [Guards], [GuardRules] (the guards before a handler, the throttler's
      counters, and the filters that answer what a handler throws), [Routes],
      [RouteRules] (the 25 controllers as the table of their 232 routes, each with its
      decorators and the call it delegates to, the router, and the path of a request
      through allowlist, guards and idempotency to its handler), [Platform],
      [PlatformRules] ([shared/context], [shared/queue], [shared/events]: the context of
      a request and its way through jobs and events), [Environment] ([config]: the check
      of the environment at start-up and the settings read from it).

    Names follow the source: [InventoryService.reserve] is [reserve] of
    [Inventory], [LockService.acquire] is [LockService.acquire] of [Lock];
    repository methods keep their name, prefixed where two repositories share it.

    ** What the theorems show

    - Shared engines: a lock that was acquired excludes every other acquisition until
      its TTL runs out, [withLock] releases it on both ends of its body as long as
      Redis answers (otherwise the failure replaces the body's result and the lock
      stays until its TTL), and acquisition ends ([Lock]); a repeated request gets the
      recorded answer ([Idempotency]); the engine changes a status only along the
      graph ([StateMachine]); the saga coordinator refines an
      abstract saga, and a run of reversible steps that fails leaves the state as
      it was ([Saga]); the evaluator computes the meaning of its condition
      ([RuleLogic]); pages partition the rows ([Pagination]); the timeline of a
      case explains its status ([CaseRules]).
    - Stock: on every path of every operation, what active reservations promise is
      backed by held stock; reserve, release, adjust, transfer and receipt change
      the ledger by exactly their quantity; overselling is refused.
    - Payments: what each of the nineteen writing operations does to the statuses, on
      error paths too: they move along the payment state machine, but for the
      cancellation of an expired or charged-back payment and the status that a gateway
      event reports, which do not ask it; refunds are exact although computed in
      binary64 and never exceed what is left; an event that was processed is not
      applied again.
    - Orders: a cancellation gives back what was reserved; returns stay within the
      order; a fulfilment takes each line once. Checkout neither creates nor
      destroys stock on any path, and a successful one leaves a confirmed order,
      its lines, its reservations and a captured payment that agree.
    - Accounts: a refresh token is exchanged once and its reuse ends the family;
      five wrong passwords that are answered lock the account, also when some writes
      fail (counting and locking are two writes); a reset ends all sessions.
    - Marketing: coupons are decided by the rule engine exactly as their
      restrictions say, discounts are bounded, redemptions are counted once and
      within the limits of the coupon's row, for caches that hold what [loadCoupon]
      stores of it; loyalty balances are the sum of their transactions.
    - Shipping: whatever the carrier reports and however an operation ends,
      shipments, returns to origin and reverse shipments follow their machines and
      the time columns agree with the status; a status change leaves its history;
      quotes come cheapest first and their binary64 total is near the exact price,
      unless the cache answers, whose key leaves out the declared value.
    - Settlement: a reconciliation stores the exact difference of its amounts and
      the verdict of the hundredths.
    - Warranty: whatever requests and jobs arrive, claims and RMAs move along their
      machines, tickets too while no technician is assigned (an assignment does not ask
      the machine), a serial number has one active registration, a
      registration one open claim, a device one loan; the refund of an RMA pays
      exactly what it says and completes it; no operation ever closes a ticket.
    - Catalogue: live slugs and SKUs stay distinct, what is deleted is archived and
      never changes again, references stay sound; a search counts exactly
      the products that each filter asks for and each page shows its part of them in
      order, each once over the pages when no two tie; the category
      tree has exactly the categories below a root; a collection gets exactly the
      products it is assigned or keeps its own; a breadcrumb leads down from the top.
    - Start-up: it never throws, adds permissions and links of its list only, and
      a second one changes nothing.
    - Content: pages, banners and posts shown are the published ones of the moment;
      settings are read back as they were written.
    - Analytics: RFM scores are exactly the fifths of the ranks of the customers among
      the first ten thousand orders; alerts keep their cooldown; an exported table can
      be read back, and a delivered export was put into the storage as it was rendered
      and is recorded with its number of rows. A shortcoming that is proved: the
      scorecards of a day cannot be computed again, though the API promises a refresh. The filter of metric metadata removes
      exactly the paths with a sensitive key.
    - Edges: amounts sent to the gateway are exact; a path is given to the most
      specific route that accepts it, and every route can be reached; a request reaches
      its handler exactly when the route admits its user; nobody but an administrator
      gets behind /api/admin, and administrators get there once the start-ups have run;
      the throttler never throws; server errors are hidden in production; a job is
      processed in the context it was enqueued with, or becomes one dead letter; the
      handlers of an event do not disturb each other; a process that starts for
      production mocks no provider and believes no unsigned webhook.

    Examples at the end of the rule files evaluate runs where the code falls short
    of its intent.

    ** Parameters, bounds and fuel

    What is not under [src/] is a type class with its documented behaviour as
    laws: [Redis], [Scheduler] (what others do to Redis while a request waits),
    [Postgres] (ordering, fresh keys, rounding, and [page_scan]: rows that tie may come
    in another order for every LIMIT and OFFSET; only the search, whose pages a theorem
    compares, uses it, the other listings cut their pages from one order), [Crypto], [MathRandom],
    [PaymentProvider] (the gateway), [ShippingProvider] (the carrier),
    [ServerText] (the order of texts on the server), [LocalTime] (the server's
    clock zone), [AuthLibraries], [JsLibrary], [DateText], [JsonText], [NumberText],
    [ClientText], [TextSearch], [TextEqual], [CaseRandom], [Sha1], [CatalogStorage]
    (object storage), [Network], [HmacSha256], [RandomUuid], [JsonParse],
    [UriText], [DateParse], [AuditTrail] (the rows of the audit log), [ServerNumber]
    (numbers as the server stores them), [JwtVerify], [WholeNumber]. Which texts are
    UUIDs is a parameter of the router's theorem. Those that a witness needs
    have a concrete instance, on which it runs. [db_fault] and the [Scheduler] are
    arbitrary functions, so the theorems hold for lost connections and for any
    interference in Redis while a request waits. The tables change only by
    the request that runs: two requests on one table are ordered by their locks.

    [LockService.acquire] loops until its deadline; its fuel [acquire_fuel] is one
    more than the waiting time in milliseconds, and [acquire_terminates] shows that
    it is enough when a retry waits at all. [withRetry] of the payments makes
    at most three attempts, as its loop does. The digits of a number in base 36 are
    computed with log2 + 1 rounds. The recursion through the category tree gets as
    many rounds as there are rows, and [tree_exact] shows that none is missing.
    [fetch_loop] makes as many attempts as the source's loop. [fl] rounds to 53 bits
    without exponent range; the amounts are far from both ends. Texts are 8-bit
    strings; lengths and [charCodeAt] are those of the source for ASCII.

    ** Not modelled

    Mail, sockets, logging, storage and the transports of queues and events are
    third-party; events, jobs and stored objects are recorded in the environment. Of
    the controllers, the handlers of health and of the code template, the tests that
    choose between two calls of a handler and the decorators of the documentation are
    left out, and so is the wiring of modules. Logging and the audit middleware write
    log lines only; time limits of requests are not modelled. The device history of the
    warranty module returns whole rows, of which the model keeps the columns that the
    code looks at. The recommendations of the marketing module keep their rules in the JSON column of the
    audit log, and the system analytics list log tables that no modelled service
    writes.
*)
From Stdlib Require Export Ascii String ZArith Lia.
From stdpp Require Export base tactics list gmap strings pretty sorting.

#[global] Open Scope list_scope.

#[global] Open Scope Z_scope.


(** ** Hint databases of the library *)

(** [kept] holds the rules that show a computation stays within a preorder on
    states (see [Effects.stays]); [sums] rewrites sums over rows. *)
Create HintDb kept.
Create HintDb sums.

(** ** Tactics *)

(** Case analysis on the first [match] or [if] of the goal or of a hypothesis. *)
Ltac cases_goal :=
  match goal with
  | |- context [match ?x with _ => _ end] => destruct x eqn:?
  end.

Ltac cases_in H :=
  match type of H with
  | context [match ?x with _ => _ end] => destruct x eqn:?
  end.

(** Turn boolean comparisons of the code into the propositions they decide. *)
Ltac bool_to_prop :=
  repeat match goal with
  | H : (_ && _) = true |- _ => apply andb_true_iff in H as [? ?]
  | H : (_ || _) = false |- _ => apply orb_false_iff in H as [? ?]
  | H : negb _ = true |- _ => apply negb_true_iff in H
  | H : negb _ = false |- _ => apply negb_false_iff in H
  | H : (_ <? _) = true |- _ => apply Z.ltb_lt in H
  | H : (_ <? _) = false |- _ => apply Z.ltb_ge in H
  | H : (_ <=? _) = true |- _ => apply Z.leb_le in H
  | H : (_ <=? _) = false |- _ => apply Z.leb_gt in H
  | H : (_ =? _) = true |- _ => apply Z.eqb_eq in H
  | H : (_ =? _) = false |- _ => apply Z.eqb_neq in H
  | H : String.eqb _ _ = true |- _ => apply String.eqb_eq in H
  | H : String.eqb _ _ = false |- _ => apply String.eqb_neq in H
  | H : bool_decide _ = true |- _ => apply bool_decide_eq_true in H
  | H : bool_decide _ = false |- _ => apply bool_decide_eq_false in H
  end.

(** ** Strings *)

(** [xs.join(sep)] of JavaScript. *)
Fixpoint join (sep : string) (xs : list string) : string :=
  match xs with
  | [] => ""
  | [x] => x
  | x :: rest => x +:+ sep +:+ join sep rest
  end.

(** [s.slice(0, n)] of JavaScript, for a non-negative [n]. *)
Definition slice0 (n : nat) (s : string) : string := String.substring 0 n s.

Lemma string_length_app (a b : string) :
  String.length (a +:+ b) = (String.length a + String.length b)%nat.
Proof.
  change (String.length (String.append a b) = (String.length a + String.length b)%nat).
  induction a as [|c a IH]; simpl; [done|by rewrite IH].
Qed.

Lemma slice0_short n s : (String.length s <= n)%nat → slice0 n s = s.
Proof.
  unfold slice0. revert n. induction s as [|c s IH]; intros [|n] Hn; simpl in *; try done; [lia|].
  f_equal. apply IH. lia.
Qed.

Lemma slice0_length n s : String.length (slice0 n s) = Nat.min n (String.length s).
Proof.
  unfold slice0. revert n. induction s as [|c s IH]; intros [|n]; simpl; try done.
  by rewrite IH.
Qed.

(** Two strings with prefixes of the same length agree on prefix and rest. *)
Lemma string_app_inj (a a' b b' : string) :
  String.length a = String.length a' → a +:+ b = a' +:+ b' → a = a' ∧ b = b'.
Proof.
  revert a'. induction a as [|c a IH]; intros [|c' a'] Hl E; simpl in *; try done.
  injection E as -> E. destruct (IH a') as [-> ->]; [lia|done|done].
Qed.

(** [hay.includes(needle)] *)
Definition includes_text (hay needle : string) : bool :=
  match String.index 0 needle hay with Some _ => true | None => false end.

(** ** Options and truthiness *)

(** [a ?? b] of JavaScript. *)
Definition coalesce {A} (a : option A) (b : A) : A :=
  match a with Some x => x | None => b end.

(** [if (s)] of a string or [undefined]. *)
Definition truthy_str (s : option string) : bool :=
  match s with None | Some "" => false | _ => true end.

(** [!l.length] *)
Definition is_nil {A} (l : list A) : bool := match l with [] => true | _ => false end.

(** [find] and [filter] with boolean tests, as the source writes them. *)
Fixpoint find_first {A} (p : A → bool) (l : list A) : option A :=
  match l with
  | [] => None
  | x :: rest => if p x then Some x else find_first p rest
  end.

Fixpoint where_ {A} (p : A → bool) (l : list A) : list A :=
  match l with
  | [] => []
  | x :: rest => if p x then x :: where_ p rest else where_ p rest
  end.

Lemma find_first_Some {A} (p : A → bool) l x :
  find_first p l = Some x → x ∈ l ∧ p x = true.
Proof.
  induction l as [|y l IH]; simpl; [done|].
  destruct (p y) eqn:E; intros H; simplify_eq.
  - split; [left|done].
  - destruct (IH H) as [? ?]. split; [by right|done].
Qed.

Lemma find_first_None {A} (p : A → bool) l :
  find_first p l = None ↔ Forall (λ x, p x = false) l.
Proof.
  induction l as [|y l IH]; simpl; [by split|].
  rewrite Forall_cons, <- IH. destruct (p y); naive_solver.
Qed.

Lemma elem_of_where {A} (p : A → bool) l x :
  x ∈ where_ p l ↔ x ∈ l ∧ p x = true.
Proof.
  induction l as [|y l IH]; simpl; [set_solver|].
  destruct (p y) eqn:E; rewrite ?elem_of_cons, IH; intuition (subst; congruence).
Qed.

Lemma where_app {A} (p : A → bool) l k : where_ p (l ++ k) = where_ p l ++ where_ p k.
Proof. induction l as [|x l IH]; simpl; [done|]. destruct (p x); simpl; by rewrite IH. Qed.

Lemma where_none {A} (p : A → bool) l : Forall (λ x, p x = false) l → where_ p l = [].
Proof. induction 1 as [|x l E _ IH]; simpl; [done|]. by rewrite E. Qed.

Lemma where_where {A} (p q : A → bool) l :
  where_ p (where_ q l) = where_ (λ x, q x && p x) l.
Proof.
  induction l as [|x l IH]; simpl; [done|].
  destruct (q x); simpl; [destruct (p x)|]; by rewrite IH.
Qed.

(** ** Sums over rows *)

Fixpoint sumZ {A} (f : A → Z) (l : list A) : Z :=
  match l with [] => 0 | x :: rest => f x + sumZ f rest end.

Lemma sumZ_app {A} (f : A → Z) l k : sumZ f (l ++ k) = sumZ f l + sumZ f k.
Proof. induction l; simpl; lia. Qed.

Lemma sumZ_perm {A} (f : A → Z) l k : l ≡ₚ k → sumZ f l = sumZ f k.
Proof. induction 1; simpl; lia. Qed.

Lemma sumZ_nonneg {A} (f : A → Z) l : Forall (λ x, 0 <= f x) l → 0 <= sumZ f l.
Proof. induction 1; simpl; lia. Qed.

Lemma sumZ_ext {A} (f g : A → Z) l : Forall (λ x, f x = g x) l → sumZ f l = sumZ g l.
Proof. induction 1; simpl; lia. Qed.

Lemma sumZ_map {A B} (f : B → Z) (g : A → B) l : sumZ f (map g l) = sumZ (λ x, f (g x)) l.
Proof. induction l; simpl; lia. Qed.

Lemma sumZ_elem {A} (f : A → Z) l x :
  Forall (λ y, 0 <= f y) l → x ∈ l → f x <= sumZ f l.
Proof.
  intros Hl Hx. induction Hx as [y l|y l x Hx IH]; simpl; inversion Hl; subst;
    [pose proof (sumZ_nonneg f l); naive_solver lia|].
  specialize (IH ltac:(done)). lia.
Qed.

#[export] Hint Rewrite @sumZ_app @where_app : sums.

(** ** Tables: lists of rows updated by key

    [update_rows key k f l] applies [f] to the rows whose key is [k]. *)
Definition update_rows {A} (key : A → string) (k : string) (f : A → A) (l : list A) : list A :=
  map (λ x, if String.eqb (key x) k then f x else x) l.

Lemma update_rows_length {A} (key : A → string) k f l :
  length (update_rows key k f l) = length l.
Proof. apply length_map. Qed.

Lemma update_rows_notin {A} (key : A → string) k f l :
  k ∉ map key l → update_rows key k f l = l.
Proof.
  unfold update_rows. induction l as [|x l IH]; simpl; [done|].
  intros Hk. rewrite IH by set_solver.
  destruct (String.eqb_spec (key x) k); [set_solver|done].
Qed.

Lemma update_rows_keys {A} (key : A → string) k f l :
  (∀ x, key (f x) = key x) → map key (update_rows key k f l) = map key l.
Proof.
  intros Hf. unfold update_rows. rewrite map_map. apply map_ext.
  intros x. destruct (String.eqb _ _); auto.
Qed.

(** The effect of a keyed update on a sum over a filtered table, when the key
    is unique and the update keeps the row inside the filter. *)
Lemma sum_where_update {A} (key : A → string) (p : A → bool) (g : A → Z) k f l x :
  NoDup (map key l) → x ∈ l → key x = k →
  p (f x) = p x →
  sumZ g (where_ p (update_rows key k f l)) =
  sumZ g (where_ p l) + (if p x then g (f x) - g x else 0).
Proof.
  unfold update_rows. induction l as [|y l IH]; simpl; [set_solver|].
  intros Hnd Hx Hk Hp. inversion Hnd as [|? ? Hny Hnd']; subst.
  apply elem_of_cons in Hx as [->|Hx].
  - rewrite String.eqb_refl, Hp.
    change (map (λ x, if String.eqb (key x) (key y) then f x else x) l)
      with (update_rows key (key y) f l).
    rewrite update_rows_notin by done.
    destruct (p y); simpl; lia.
  - destruct (String.eqb_spec (key y) (key x)) as [E|E].
    + exfalso. apply Hny. rewrite E. by apply list_elem_of_fmap_2.
    + specialize (IH Hnd' Hx eq_refl Hp).
      destruct (p y); simpl; lia.
Qed.

Lemma elem_of_update_rows {A} (key : A → string) k f l y :
  y ∈ update_rows key k f l →
  ∃ x, x ∈ l ∧ ((key x = k ∧ y = f x) ∨ (key x ≠ k ∧ y = x)).
Proof.
  unfold update_rows. intros (x & -> & Hx)%list_elem_of_fmap.
  exists x. split; [done|]. destruct (String.eqb_spec (key x) k); naive_solver.
Qed.

Lemma Forall_update_rows {A} (P : A → Prop) (key : A → string) k f l :
  Forall P l → (∀ x, x ∈ l → key x = k → P x → P (f x)) →
  Forall P (update_rows key k f l).
Proof.
  rewrite !Forall_forall. intros Hl Hf y Hy.
  apply elem_of_update_rows in Hy as (x & Hx & [[? ->]|[? ->]]); eauto.
Qed.

(** Rows of a table with unique keys are determined by their key. *)
Lemma NoDup_key_eq {A} (key : A → string) l x y :
  NoDup (map key l) → x ∈ l → y ∈ l → key x = key y → x = y.
Proof.
  induction l as [|z l IH]; simpl; intros Hnd Hx Hy E; [set_solver|].
  inversion Hnd as [|? ? Hz Hnd']; subst.
  apply elem_of_cons in Hx as [->|Hx]; apply elem_of_cons in Hy as [->|Hy]; [done| | |by apply IH].
  - destruct Hz. rewrite E. by apply list_elem_of_fmap_2.
  - destruct Hz. rewrite <- E. by apply list_elem_of_fmap_2.
Qed.

Lemma NoDup_snoc {A} (key : A → string) l x :
  NoDup (map key l) → key x ∉ map key l → NoDup (map key (l ++ [x])).
Proof.
  intros Hl Hx. rewrite map_app. apply NoDup_app. split_and!; [done| |apply NoDup_singleton].
  intros k Hk. simpl. set_solver.
Qed.

(** A keyed update that takes its row out of the filter. *)
Lemma sum_where_drop {A} (key : A → string) (p : A → bool) (g : A → Z) k f l x :
  NoDup (map key l) → x ∈ l → key x = k → p (f x) = false →
  sumZ g (where_ p (update_rows key k f l)) =
  sumZ g (where_ p l) - (if p x then g x else 0).
Proof.
  unfold update_rows. induction l as [|y l IH]; simpl; [set_solver|].
  intros Hnd Hx Hk Hp. inversion Hnd as [|? ? Hny Hnd']; subst.
  apply elem_of_cons in Hx as [->|Hx].
  - rewrite String.eqb_refl, Hp.
    change (map (λ x, if String.eqb (key x) (key y) then f x else x) l)
      with (update_rows key (key y) f l).
    rewrite update_rows_notin by done.
    destruct (p y); simpl; lia.
  - destruct (String.eqb_spec (key y) (key x)) as [E|E].
    + exfalso. apply Hny. rewrite E. by apply list_elem_of_fmap_2.
    + specialize (IH Hnd' Hx eq_refl Hp).
      destruct (p y); simpl; lia.
Qed.

Lemma NoDup_where {A} (key : A → string) (p : A → bool) l :
  NoDup (map key l) → NoDup (map key (where_ p l)).
Proof.
  induction l as [|x l IH]; simpl; intros Hnd; [constructor|].
  inversion Hnd as [|? ? Hx Hnd']; subst. destruct (p x); simpl; [|by apply IH].
  constructor; [|by apply IH]. intros (y & E & Hy)%list_elem_of_fmap.
  apply elem_of_where in Hy as [Hy _]. destruct Hx. rewrite E. by apply list_elem_of_fmap_2.
Qed.

Lemma update_rows_twice {A} (key : A → string) k f g l :
  (∀ x, key (f x) = key x) →
  update_rows key k g (update_rows key k f l) = update_rows key k (λ x, g (f x)) l.
Proof.
  intros Hf. unfold update_rows. rewrite map_map. apply map_ext. intros x.
  destruct (String.eqb (key x) k) eqn:E; rewrite ?Hf, E; done.
Qed.

Lemma update_rows_ext {A} (key : A → string) k f g l :
  (∀ x, x ∈ l → key x = k → f x = g x) → update_rows key k f l = update_rows key k g l.
Proof.
  intros E. apply map_ext_in. intros x Hx. apply list_elem_of_In in Hx.
  destruct (String.eqb_spec (key x) k); [by apply E|done].
Qed.

Lemma elem_of_updated {A} (key : A → string) (f : A → A) l x :
  x ∈ l → f x ∈ update_rows key (key x) f l.
Proof.
  intros Hx. apply list_elem_of_fmap. exists x. by rewrite String.eqb_refl.
Qed.
