(* ===== verification/Core.v ===== *)
(** * Core: error codes, exceptions and JSON values

    Models [backend/src/core/errors] (the closed set of error codes and the
    [AppException] the services throw) and the JSON values that the services
    store in Redis. *)
From S2P Require Import Prelude.
From Stdlib Require Import QArith.

#[local] Open Scope Z_scope.

(** [core/errors/error-codes.ts]. *)
Inductive ErrorCode :=
| VALIDATION_ERROR | UNAUTHORIZED | FORBIDDEN | NOT_FOUND | CONFLICT
| BAD_REQUEST | INTERNAL_ERROR | HTTP_ERROR
| AUTH_INVALID_CREDENTIALS | AUTH_ACCOUNT_LOCKED | AUTH_ACCOUNT_INACTIVE
| AUTH_EMAIL_TAKEN | AUTH_MOBILE_TAKEN | AUTH_WEAK_PASSWORD
| AUTH_INVALID_TOKEN | AUTH_TOKEN_REUSED | AUTH_OTP_INVALID
| AUTH_OTP_EXPIRED | AUTH_OTP_MAX_ATTEMPTS | AUTH_EMAIL_ALREADY_VERIFIED
| AUTH_CURRENT_PASSWORD_INVALID | AUTH_SESSION_NOT_FOUND
| IDEMPOTENCY_KEY_REQUIRED | IDEMPOTENCY_KEY_CONFLICT
| IDEMPOTENCY_IN_PROGRESS | LOCK_NOT_ACQUIRED.

#[export] Instance ErrorCode_eq_dec : EqDecision ErrorCode.
Proof. solve_decision. Defined.

(** What the database client throws: a missing row of an update or a
    [connect] (P2025), a violated CHECK, unique or range constraint, and a value
    that is not of the column's type, which the client refuses by itself. *)
Inductive DbErrorKind :=
| RecordNotFound
| ConstraintViolation (name : string)
| InvalidValue (column : string).

#[export] Instance DbErrorKind_eq_dec : EqDecision DbErrorKind.
Proof. solve_decision. Defined.

(** The exceptions that cross the modelled code: [AppException] of
    [core/errors/app.exception.ts], the framework's [ForbiddenException],
    a plain [Error], the [Error] with [status] and [retryable] that the payment
    gateway's client throws, an error of the database client and one of the Redis
    client.
    [Diverges] is no exception of the program: it marks that the bound of a
    modelled [while] loop was reached, and each such loop is shown never to. *)
Inductive exn :=
| AppException (code : ErrorCode) (message : string) (status : Z)
| ForbiddenException (code : ErrorCode) (message : string)
| JsError (message : string)
| GatewayError (message : string) (status : Z) (retryable : bool)
| DbError (kind : DbErrorKind)
| RedisError
| Diverges.

#[export] Instance exn_eq_dec : EqDecision exn.
Proof. solve_decision. Defined.

(** JSON values, as [JSON.stringify] writes them and [JSON.parse] reads them
    back; a finite number is the rational it denotes. *)
Inductive Json :=
| JNull
| JBool (b : bool)
| JNum (q : Q)
| JStr (s : string)
| JArr (xs : list Json)
| JObj (fields : list (string * Json)).

Definition JInt (z : Z) : Json := JNum (inject_Z z).

(** A field whose value is [undefined] is not written by [JSON.stringify]. *)
Definition jopt (k : string) (v : option string) : list (string * Json) :=
  match v with Some s => [(k, JStr s)] | None => [] end.

Definition jnullable (v : option string) : Json :=
  match v with Some s => JStr s | None => JNull end.

(** Member access [o.k]; [undefined] is [None]. *)
Definition jget (k : string) (j : Json) : option Json :=
  match j with
  | JObj fs => option_map snd (find_first (λ kv, String.eqb (fst kv) k) fs)
  | _ => None
  end.

(** ** Texts of errors *)

(** What the client libraries put in their messages. *)
Class ClientText := client_text : exn → string.

(** [errMsg] of [saga-coordinator.service.ts]: [err.message]. *)
Definition errMsg `{ClientText} (e : exn) : string :=
  match e with
  | AppException _ m _ | ForbiddenException _ m | JsError m | GatewayError m _ _ => m
  | _ => client_text e
  end.

(** [String(err)]: the error's name and message. *)
Definition err_string `{ClientText} (e : exn) : string :=
  match e with
  | AppException _ m _ => "AppException: " +:+ m
  | ForbiddenException _ m => "ForbiddenException: " +:+ m
  | JsError m | GatewayError m _ _ => "Error: " +:+ m
  | _ => client_text e
  end.

(** [JSON.stringify]. *)
Class JsonText := json_stringify : Json → string.

(** [Date.prototype.toISOString]. *)
Class DateText := iso_text : Z → string.

(** ** Strings *)

Definition upper_char (c : Ascii.ascii) : Ascii.ascii :=
  let n := Ascii.nat_of_ascii c in
  if (97 <=? n)%nat && (n <=? 122)%nat then Ascii.ascii_of_nat (n - 32) else c.

Fixpoint toUpperCase (s : string) : string :=
  match s with String c s => String (upper_char c) (toUpperCase s) | "" => "" end.

Definition lower_char (c : Ascii.ascii) : Ascii.ascii :=
  let n := Ascii.nat_of_ascii c in
  if (65 <=? n)%nat && (n <=? 90)%nat then Ascii.ascii_of_nat (n + 32) else c.

Fixpoint toLowerCase (s : string) : string :=
  match s with String c s => String (lower_char c) (toLowerCase s) | "" => "" end.

(** [s.replace(/c/g, r)] *)
Fixpoint replace_char (c : Ascii.ascii) (r : string) (s : string) : string :=
  match s with
  | "" => ""
  | String x rest => if Ascii.eqb x c then r +:+ replace_char c r rest else String x (replace_char c r rest)
  end.

Definition has_char (c : Ascii.ascii) (s : string) : bool :=
  existsb (Ascii.eqb c) (String.list_ascii_of_string s).

Definition is_space (c : Ascii.ascii) : bool :=
  let n := Ascii.nat_of_ascii c in (n =? 32)%nat || ((9 <=? n)%nat && (n <=? 13)%nat).

Fixpoint trimStart (s : list Ascii.ascii) : list Ascii.ascii :=
  match s with
  | c :: rest => if is_space c then trimStart rest else s
  | [] => []
  end.

(** [String.prototype.trim], ASCII white space. *)
Definition trim (s : string) : string :=
  String.string_of_list_ascii
    (reverse (trimStart (reverse (trimStart (String.list_ascii_of_string s))))).
