(* ===== verification/Effects.v ===== *)
(** * Effects: state, exceptions, transactions

    The services are [async] methods that mutate shared state (the database,
    Redis, the event bus) and may throw. A computation is a function of the
    state that returns an outcome and the state it leaves behind: a throw keeps
    the effects made before it, as in the source; only [transaction] undoes
    them. *)
From S2P Require Import Prelude Core.

Inductive outcome (A : Type) :=
| Ok (a : A)
| Throw (e : exn).
Arguments Ok {A} a.
Arguments Throw {A} e.

Definition M (S A : Type) : Type := S → outcome A * S.

#[export] Instance M_ret {S} : MRet (M S) := λ A a s, (Ok a, s).
#[export] Instance M_bind {S} : MBind (M S) := λ A B k m s,
  match m s with
  | (Ok a, s') => k a s'
  | (Throw e, s') => (Throw e, s')
  end.

Definition throw {S A} (e : exn) : M S A := λ s, (Throw e, s).
Definition gets {S A} (f : S → A) : M S A := λ s, (Ok (f s), s).
Definition modify {S} (f : S → S) : M S () := λ s, (Ok tt, f s).

(** [if (cond) throw e] *)
Definition throw_if {S} (cond : bool) (e : exn) : M S () :=
  if cond then throw e else mret tt.

(** [if (cond) { ... }] *)
Definition when_ {S} (cond : bool) (m : M S ()) : M S () :=
  if cond then m else mret tt.

(** [const x = ...; if (!x) throw e] *)
Definition require_ {S A} (o : option A) (e : exn) : M S A :=
  match o with Some a => mret a | None => throw e end.

(** [try { m } catch (e) { h(e) }] *)
Definition try_catch {S A} (m : M S A) (h : exn → M S A) : M S A := λ s,
  match m s with
  | (Ok a, s') => (Ok a, s')
  | (Throw e, s') => h e s'
  end.

(** [try { m } finally { f }]: [f] runs on both paths, and its own throw wins. *)
Definition try_finally {S A} (m : M S A) (f : M S ()) : M S A := λ s,
  match m s with
  | (o, s') => match f s' with
               | (Ok _, s'') => (o, s'')
               | (Throw e, s'') => (Throw e, s'')
               end
  end.

(** [for (const x of xs) { f(x) }] *)
Fixpoint for_each {S A} (xs : list A) (f : A → M S ()) : M S () :=
  match xs with
  | [] => mret tt
  | x :: rest => f x ;; for_each rest f
  end.

(** The same loop threading a local variable. *)
Fixpoint for_fold {S A B} (xs : list A) (b : B) (f : B → A → M S B) : M S B :=
  match xs with
  | [] => mret b
  | x :: rest => b' ← f b x; for_fold rest b' f
  end.

(** ** Lenses: a component's state inside a larger one *)

Record lens (S T : Type) := Lens {
  view : S → T;
  put : T → S → S;
  view_put : ∀ t s, view (put t s) = t;
  put_view : ∀ s, put (view s) s = s;
  put_put : ∀ t t' s, put t (put t' s) = put t s;
}.
Arguments Lens {S T} view put _ _ _.
Arguments view {S T} l s.
Arguments put {S T} l t s.
Arguments view_put {S T} l t s.
Arguments put_view {S T} l s.
Arguments put_put {S T} l t t' s.

(** Run a component's computation inside the larger state. *)
Definition zoom {S T A} (l : lens S T) (m : M T A) : M S A := λ s,
  match m (view l s) with (o, t) => (o, put l t s) end.

(** [prisma.$transaction(m)]: a throw undoes what [m] did to the database
    (the part of the state under the lens) and to nothing else. *)
Definition transaction {S T A} (db : lens S T) (m : M S A) : M S A := λ s,
  match m s with
  | (Ok a, s') => (Ok a, s')
  | (Throw e, s') => (Throw e, put db (view db s) s')
  end.

(** ** Staying within a preorder

    [stays R m] says that whatever [m] does and however it ends, the state it
    leaves is related to the state it found. With [R s s' := I s → I s'] this
    is preservation of an invariant on every path, errors included; with
    [R s s' := f s' = f s] it is a frame condition. *)
Definition stays {S A} (R : S → S → Prop) (m : M S A) : Prop :=
  ∀ s, R s (snd (m s)).

(** Preservation of an invariant, as a preorder. *)
Definition preserving {S} (I : S → Prop) : S → S → Prop := λ s s', I s → I s'.
(** A part of the state that does not change, as a preorder. *)
Definition framing {S T} (f : S → T) : S → S → Prop := λ s s', f s' = f s.

#[export] Instance preserving_preorder {S} (I : S → Prop) : PreOrder (preserving I).
Proof. unfold preserving. split; [by intros ?|intros ???; naive_solver]. Qed.
#[export] Instance framing_preorder {S T} (f : S → T) : PreOrder (framing f).
Proof. unfold framing. split; [by intros ?|intros ?? z; congruence]. Qed.

Section stays.
Context {S : Type} (R : S → S → Prop) `{!PreOrder R}.

Lemma stays_ret {A} (a : A) : stays R (mret a : M S A).
Proof. intros s. simpl. reflexivity. Qed.

Lemma stays_throw {A} e : stays R (throw e : M S A).
Proof. intros s. simpl. reflexivity. Qed.

Lemma stays_gets {A} (f : S → A) : stays R (gets f).
Proof. intros s. simpl. reflexivity. Qed.

Lemma stays_modify f : (∀ s, R s (f s)) → stays R (modify f).
Proof. intros H s. apply H. Qed.

Lemma stays_bind {A B} (m : M S A) (k : A → M S B) :
  stays R m → (∀ a, stays R (k a)) → stays R (m ≫= k).
Proof.
  intros Hm Hk s. specialize (Hm s). unfold mbind, M_bind.
  destruct (m s) as [[a|e] s']; simpl in *; [|done].
  etransitivity; [done|apply Hk].
Qed.

Lemma stays_throw_if c e : stays R (throw_if c e).
Proof. destruct c; [apply stays_throw|apply stays_ret]. Qed.

Lemma stays_when c m : stays R m → stays R (when_ c m).
Proof. destruct c; [done|intros _; apply stays_ret]. Qed.

Lemma stays_require {A} (o : option A) e : stays R (require_ o e).
Proof. destruct o; [apply stays_ret|apply stays_throw]. Qed.

Lemma stays_try_catch {A} (m : M S A) h :
  stays R m → (∀ e, stays R (h e)) → stays R (try_catch m h).
Proof.
  intros Hm Hh s. specialize (Hm s). unfold try_catch.
  destruct (m s) as [[a|e] s']; simpl in *; [done|].
  etransitivity; [done|apply Hh].
Qed.

Lemma stays_try_finally {A} (m : M S A) f :
  stays R m → stays R f → stays R (try_finally m f).
Proof.
  intros Hm Hf s. specialize (Hm s). unfold try_finally.
  destruct (m s) as [o s']. specialize (Hf s').
  destruct (f s') as [[]]; simpl in *; by etransitivity.
Qed.

Lemma stays_for_each {A} (xs : list A) f :
  (∀ x, x ∈ xs → stays R (f x)) → stays R (for_each xs f).
Proof.
  induction xs as [|x xs IH]; intros Hf; [apply stays_ret|].
  simpl. apply stays_bind; [apply Hf; set_solver|intros _; apply IH; set_solver].
Qed.

Lemma stays_for_fold {A B} (xs : list A) (b : B) f :
  (∀ b x, x ∈ xs → stays R (f b x)) → stays R (for_fold xs b f).
Proof.
  revert b. induction xs as [|x xs IH]; intros b Hf; [apply stays_ret|].
  simpl. apply stays_bind; [apply Hf; set_solver|intros b'; apply IH; set_solver].
Qed.
End stays.

Lemma stays_mono {S A} (R R' : S → S → Prop) (m : M S A) :
  stays R m → (∀ s s', R s s' → R' s s') → stays R' m.
Proof. intros Hm HR s. by apply HR. Qed.

#[export] Hint Resolve stays_ret stays_throw stays_gets stays_throw_if
  stays_require stays_for_each stays_for_fold : kept.
#[export] Hint Resolve stays_bind stays_when stays_try_catch stays_try_finally : kept.

(** ** Inverting runs *)

Lemma run_eta {S A} (m : M S A) s o : fst (m s) = o → m s = (o, snd (m s)).
Proof. by destruct (m s); simpl; intros ->. Qed.


Lemma bind_Ok {S A B} (m : M S A) (k : A → M S B) s b s'' :
  (m ≫= k) s = (Ok b, s'') ↔ ∃ a s', m s = (Ok a, s') ∧ k a s' = (Ok b, s'').
Proof.
  unfold mbind, M_bind. destruct (m s) as [[a|e] s']; naive_solver.
Qed.

Lemma bind_step {S A B} (m : M S A) (k : A → M S B) s a s' :
  m s = (Ok a, s') → (m ≫= k) s = k a s'.
Proof. unfold mbind, M_bind. by intros ->. Qed.

Lemma bind_abort {S A B} (m : M S A) (k : A → M S B) s e s' :
  m s = (Throw e, s') → (m ≫= k) s = (Throw e, s').
Proof. unfold mbind, M_bind. by intros ->. Qed.

Lemma transaction_Ok {S T A} (db : lens S T) (m : M S A) s a s' :
  transaction db m s = (Ok a, s') ↔ m s = (Ok a, s').
Proof. unfold transaction. destruct (m s) as [[]]; naive_solver. Qed.

(** A transaction that throws leaves the database as it found it. *)
Lemma transaction_atomic {S T A} (db : lens S T) (m : M S A) s e s' :
  transaction db m s = (Throw e, s') → view db s' = view db s.
Proof.
  unfold transaction. destruct (m s) as [[]]; intros ?; simplify_eq.
  apply view_put.
Qed.

Lemma zoom_Ok {S T A} (l : lens S T) (m : M T A) s a s' :
  zoom l m s = (Ok a, s') ↔ ∃ t, m (view l s) = (Ok a, t) ∧ s' = put l t s.
Proof. unfold zoom. destruct (m (view l s)) as [[]]; naive_solver. Qed.

(** Invert every bind, guard and read of a successful run. *)
Ltac run_inv :=
  repeat match goal with
  | H : (_ ≫= _) _ = (Ok _, _) |- _ => apply bind_Ok in H as (? & ? & ? & H)
  | H : (Ok _, _) = (Ok _, _) |- _ => injection H as H; subst
  | H : (Throw _, _) = (Ok _, _) |- _ => discriminate H
  | H : mret _ _ = (Ok _, _) |- _ => unfold mret, M_ret in H
  | H : throw _ _ = (Ok _, _) |- _ => discriminate H
  | H : gets _ _ = (Ok _, _) |- _ => unfold gets in H
  | H : modify _ _ = (Ok _, _) |- _ => unfold modify in H
  | H : throw_if ?c _ _ = (Ok _, _) |- _ => unfold throw_if in H; destruct c eqn:?
  | H : require_ ?o _ _ = (Ok _, _) |- _ => unfold require_ in H; destruct o eqn:?
  | H : transaction _ _ _ = (Ok _, _) |- _ => apply transaction_Ok in H
  | H : context [let (_, _) := ?p in _] |- _ => destruct p
  | H : @eq unit _ _ |- _ => clear H
  | u : unit |- _ => destruct u
  end.
