(* ===== verification/Redis.v ===== *)
(** * Redis, the process environment and the cache

    Models [backend/src/shared/cache/cache.service.ts] over an interface to the
    Redis server: [Redis] lists the commands the code issues with the documented
    behaviour it relies on, [gmap_redis] is a concrete server used to evaluate
    the definitions. The environment of a request (clock, Redis, published
    events, queued jobs) is the record [Env]; a component's state is [St D],
    that environment beside its own tables [D]. *)
From S2P Require Import Prelude Core Effects.

(** ** The Redis server *)

(** What is stored under a key: a raw string (a lock token) or the JSON text of
    a value, kept as the value it parses to. *)
Inductive RVal := RStr (s : string) | RJson (j : Json).

(** [rget t k r] is GET at time [t] (milliseconds), [rset t k v ttl r] is
    [SET k v PX ttl], [rdel] is DEL and [rkeys] is what a full SCAN returns. *)
Class Redis := {
  redis : Type;
  rget : Z → string → redis → option RVal;
  rset : Z → string → RVal → Z → redis → redis;
  rdel : string → redis → redis;
  rkeys : redis → list string;
  rget_set : ∀ t t' k v ttl r, t <= t' →
    rget t' k (rset t k v ttl r) = if t' <? t + ttl then Some v else None;
  rget_set_ne : ∀ t t' k k' v ttl r, k ≠ k' →
    rget t' k' (rset t k v ttl r) = rget t' k' r;
  rget_del : ∀ t k r, rget t k (rdel k r) = None;
  rget_del_ne : ∀ t k k' r, k ≠ k' → rget t k' (rdel k r) = rget t k' r;
  rget_expired : ∀ t t' k r v, t <= t' → rget t' k r = Some v → rget t k r = Some v;
  rkeys_get : ∀ t k r v, rget t k r = Some v → k ∈ rkeys r;
}.

Section commands.
Context `{Redis}.

(** [SET k v PX ttl NX]: [true] is the reply OK. *)
Definition rset_nx (t : Z) (k : string) (v : RVal) (ttl : Z) (r : redis) : bool * redis :=
  match rget t k r with
  | Some _ => (false, r)
  | None => (true, rset t k v ttl r)
  end.

(** [PEXPIRE k ttl]: 1 when the key exists. *)
Definition rpexpire (t : Z) (k : string) (ttl : Z) (r : redis) : Z * redis :=
  match rget t k r with
  | Some v => (1, rset t k v ttl r)
  | None => (0, r)
  end.

(** [DEL k] with the number of keys removed. *)
Definition rdel_count (t : Z) (k : string) (r : redis) : Z * redis :=
  match rget t k r with
  | Some _ => (1, rdel k r)
  | None => (0, r)
  end.
End commands.

(** A concrete server: each key with its value and expiry time. *)
Notation kv := (gmap string (RVal * Z)).

Section gmap_redis.
Definition kv_get (t : Z) (k : string) (r : kv) : option RVal :=
  match r !! k with
  | Some (v, expiry) => if t <? expiry then Some v else None
  | None => None
  end.
Definition kv_set (t : Z) (k : string) (v : RVal) (ttl : Z) (r : kv) : kv :=
  <[k := (v, t + ttl)]> r.
Definition kv_del (k : string) (r : kv) : kv := delete k r.
Definition kv_keys (r : kv) : list string := map fst (map_to_list r).
End gmap_redis.

Lemma kv_get_set t t' k v ttl r : t <= t' →
  kv_get t' k (kv_set t k v ttl r) = if t' <? t + ttl then Some v else None.
Proof. intros. unfold kv_get, kv_set. by rewrite lookup_insert_eq. Qed.

Lemma kv_get_set_ne t t' k k' v ttl r : k ≠ k' →
  kv_get t' k' (kv_set t k v ttl r) = kv_get t' k' r.
Proof. intros. unfold kv_get, kv_set. by rewrite lookup_insert_ne. Qed.

Lemma kv_get_del t k r : kv_get t k (kv_del k r) = None.
Proof. unfold kv_get, kv_del. by rewrite lookup_delete_eq. Qed.

Lemma kv_get_del_ne t k k' r : k ≠ k' → kv_get t k' (kv_del k r) = kv_get t k' r.
Proof. intros. unfold kv_get, kv_del. by rewrite lookup_delete_ne. Qed.

Lemma kv_get_expired t t' k r v : t <= t' → kv_get t' k r = Some v → kv_get t k r = Some v.
Proof.
  unfold kv_get. intros Ht Hg. destruct (r !! k) as [[v' x]|]; [|done].
  destruct (t' <? x) eqn:E; simplify_eq. bool_to_prop.
  destruct (Z.ltb_spec t x); [done|lia].
Qed.

Lemma kv_keys_get t k r v : kv_get t k r = Some v → k ∈ kv_keys r.
Proof.
  unfold kv_get, kv_keys. intros Hg. destruct (r !! k) as [[v' x]|] eqn:E; [|done].
  apply list_elem_of_fmap. exists (k, (v', x)). split; [done|].
  by apply elem_of_map_to_list.
Qed.

#[export] Instance gmap_redis : Redis := {|
  redis := kv; rget := kv_get; rset := kv_set; rdel := kv_del; rkeys := kv_keys;
  rget_set := kv_get_set; rget_set_ne := kv_get_set_ne;
  rget_del := kv_get_del; rget_del_ne := kv_get_del_ne;
  rget_expired := kv_get_expired; rkeys_get := kv_keys_get |}.

(** ** node:crypto *)

(** Hashing and randomness as the code uses them: a SHA-256 digest is 64 hex
    digits long, and the bytes drawn never repeat ([randomBytes_hex n] is the
    n-th draw). *)
Class Crypto := {
  sha256_hex : string → string;
  randomBytes_hex : nat → string;
  sha256_length : ∀ s, String.length (sha256_hex s) = 64%nat;
  randomBytes_inj : ∀ n m, randomBytes_hex n = randomBytes_hex m → n = m;
  randomBytes_nonempty : ∀ n, randomBytes_hex n ≠ "";
}.

(** A stand-in used to evaluate the definitions. *)
Fixpoint repeat_char (n : nat) (c : Ascii.ascii) : string :=
  match n with O => "" | S m => String c (repeat_char m c) end.

Lemma repeat_char_length n c : String.length (repeat_char n c) = n.
Proof. induction n; simpl; congruence. Qed.

Lemma repeat_char_inj c n m : repeat_char (S n) c = repeat_char (S m) c → n = m.
Proof.
  intros E. apply (f_equal String.length) in E. rewrite !repeat_char_length in E. lia.
Qed.

Lemma repeat_char_nonempty c n : repeat_char (S n) c ≠ "".
Proof. done. Qed.

Lemma padded_length s : String.length (slice0 64 (s +:+ repeat_char 64 "0"%char)) = 64%nat.
Proof. rewrite slice0_length, string_length_app, repeat_char_length. lia. Qed.

#[export] Instance counting_crypto : Crypto := {|
  sha256_hex s := slice0 64 (s +:+ repeat_char 64 "0"%char);
  randomBytes_hex n := repeat_char (S n) "f"%char;
  sha256_length := padded_length;
  randomBytes_inj := repeat_char_inj "f"%char;
  randomBytes_nonempty := repeat_char_nonempty "f"%char |}.

(** [Math.random()] as the numbering functions use it: the n-th draw as
    [Math.floor(Math.random() * 1000)] and as [toString(36).slice(2, 6)]. *)
Class MathRandom := {
  random_1000 : nat → Z;
  random_slice36 : nat → string;
}.

#[export] Instance counting_random : MathRandom | 100 := {|
  random_1000 n := Z.of_nat (n mod 1000);
  random_slice36 n := repeat_char (S n) "X"%char |}.

(** ** The environment of a request *)

(** A published domain event ([shared/events/domain-event.ts]). *)
Record DomainEvent := mkEvent { eventName : string; payload : Json }.

(** A job enqueued on a BullMQ queue. *)
Record Job := mkJob { queue : string; jobName : string; jobData : Json }.

Record Env `{Redis} := mkEnv {
  clock : Z;
  store : redis;
  redis_up : bool;
  bus : list DomainEvent;
  jobs : list Job;
  entropy : nat;
}.

(** What happens in the environment while this process sleeps: other clients may
    change Redis and publish events in any way; the clock advances by at least
    the delay of the timer, which is never below one millisecond. *)
Class Scheduler `{Redis} := {
  sleeping : Z → Env → Env;
  sleeping_clock : ∀ ms e, clock e + Z.max 1 ms <= clock (sleeping ms e);
}.

(** Nobody else runs. *)
#[export] Instance alone `{Redis} : Scheduler | 100.
Proof.
  refine {| sleeping ms e :=
    mkEnv _ (clock e + Z.max 1 ms) (store e) (redis_up e) (bus e) (jobs e) (entropy e) |}.
  intros ms e. simpl. lia.
Defined.

(** A component's state: the environment and its tables. *)
Record St `{Redis} (D : Type) := mkSt { env : Env; tables : D }.
Arguments mkSt {_ D} env tables.
Arguments env {_ D} s.
Arguments tables {_ D} s.

Section state.
Context `{Redis} {D : Type}.

Definition envL : lens (St D) Env.
Proof.
  refine (Lens env (λ e s, mkSt e (tables s)) _ _ _); by intros; try destruct s.
Defined.

Definition tablesL : lens (St D) D.
Proof.
  refine (Lens tables (λ t s, mkSt (env s) t) _ _ _); by intros; try destruct s.
Defined.

(** A component inside a larger database: the environment is shared. *)
Definition stL {G} (l : lens G D) : lens (St G) (St D).
Proof.
  refine (Lens (λ s, mkSt (env s) (view l (tables s)))
               (λ t s, mkSt (env t) (put l (tables t) (tables s))) _ _ _).
  - intros [e t] s. simpl. by rewrite view_put.
  - intros [e t]. simpl. by rewrite put_view.
  - intros t t' s. simpl. by rewrite put_put.
Defined.

Definition set_store (r : redis) (e : Env) : Env :=
  mkEnv _ (clock e) r (redis_up e) (bus e) (jobs e) (entropy e).

Definition Date_now : M (St D) Z := gets (λ s, clock (env s)).

(** [events.publish(e)], fire and forget. *)
Definition emit (ev : DomainEvent) : M (St D) () :=
  modify (λ s, mkSt (mkEnv _ (clock (env s)) (store (env s)) (redis_up (env s))
                           (bus (env s) ++ [ev]) (jobs (env s)) (entropy (env s))) (tables s)).

(** [queues.enqueue(queue, name, data)]: the queues live in Redis. *)
Definition enqueue (j : Job) : M (St D) () := λ s,
  if redis_up (env s) then
    (Ok tt, mkSt (mkEnv _ (clock (env s)) (store (env s)) (redis_up (env s))
                        (bus (env s)) (jobs (env s) ++ [j]) (entropy (env s))) (tables s))
  else (Throw RedisError, s).

(** [randomBytes(16).toString('hex')] *)
Definition random_hex `{!Crypto} : M (St D) string := λ s,
  (Ok (randomBytes_hex (entropy (env s))),
   mkSt (mkEnv _ (clock (env s)) (store (env s)) (redis_up (env s))
               (bus (env s)) (jobs (env s)) (S (entropy (env s)))) (tables s)).

(** A draw of [Math.random()], with what the code makes of it. *)
Definition draw {A} (f : nat → A) : M (St D) A := λ s,
  (Ok (f (entropy (env s))),
   mkSt (mkEnv _ (clock (env s)) (store (env s)) (redis_up (env s))
               (bus (env s)) (jobs (env s)) (S (entropy (env s)))) (tables s)).

Definition sleep `{!Scheduler} (ms : Z) : M (St D) () :=
  modify (λ s, mkSt (sleeping ms (env s)) (tables s)).

(** A command of the Redis client: throws when the server is unreachable. *)
Definition command {A} (f : Z → redis → A * redis) : M (St D) A := λ s,
  if redis_up (env s) then
    match f (clock (env s)) (store (env s)) with
    | (a, r) => (Ok a, mkSt (set_store r (env s)) (tables s))
    end
  else (Throw RedisError, s).

(** The database part is out of reach of the environment's operations. *)
Lemma emit_tables ev : stays (framing tables) (emit ev).
Proof. by intros s. Qed.
Lemma enqueue_tables j : stays (framing tables) (enqueue j).
Proof. intros s. unfold enqueue, framing. by destruct (redis_up _). Qed.
Lemma draw_tables {A} (f : nat → A) : stays (framing tables) (draw f).
Proof. by intros s. Qed.
Lemma random_hex_tables `{!Crypto} : stays (framing tables) random_hex.
Proof. by intros s. Qed.
Lemma sleep_tables `{!Scheduler} ms : stays (framing tables) (sleep ms).
Proof. by intros s. Qed.
Lemma command_tables {A} (f : Z → redis → A * redis) : stays (framing tables) (command f).
Proof.
  intros s. unfold command, framing. destruct (redis_up (env s)); [|done].
  by destruct (f _ _).
Qed.
End state.

#[export] Hint Resolve emit_tables enqueue_tables draw_tables random_hex_tables sleep_tables command_tables : kept.

(** ** CacheService *)
Module CacheService.
Section cache.
Context `{Redis} {D : Type}.

(** [get]: fail-open, Redis errors and unparsable values become a miss. *)
Definition get (key : string) : M (St D) (option Json) :=
  try_catch
    (v ← command (λ t r, (rget t key r, r));
     mret match v with
          | Some (RJson j) => Some j
          | _ => None
          end)
    (λ _, mret None).

(** [assertTtl] on the whole seconds the callers pass. *)
Definition assertTtl (ttlSeconds : Z) : M (St D) Z :=
  throw_if (ttlSeconds <=? 0) (JsError ("Invalid cache TTL: " +:+ pretty ttlSeconds)) ;;
  mret ttlSeconds.

(** [set]: fail-open, the caller keeps the value. *)
Definition set (key : string) (value : Json) (ttlSeconds : Z) : M (St D) () :=
  try_catch
    (ttl ← assertTtl ttlSeconds;
     command (λ t r, (tt, rset t key (RJson value) (ttl * 1000) r)))
    (λ _, mret tt).

Definition del (key : string) : M (St D) () :=
  try_catch (command (λ t r, (tt, rdel key r))) (λ _, mret tt).

(** [delByPrefix]: the SCAN loop collects the keys that match, DEL removes them. *)
Definition delByPrefix (prefix : string) : M (St D) Z :=
  try_catch
    (keys ← command (λ t r, (where_ (String.prefix prefix) (rkeys r), r));
     for_each keys (λ k, command (λ t r, (tt, rdel k r))) ;;
     mret (Z.of_nat (length keys)))
    (λ _, mret 0).

(** [getOrSet]: a cached [null] is a miss. *)
Definition getOrSet (key : string) (factory : M (St D) Json) (ttlSeconds : Z) : M (St D) Json :=
  hit ← get key;
  match hit with
  | Some JNull | None =>
      value ← factory;
      set key value ttlSeconds ;;
      mret value
  | Some v => mret v
  end.

Lemma get_tables key : stays (framing tables) (get key).
Proof. unfold get. eauto 8 with kept typeclass_instances. Qed.
Lemma set_tables key v ttl : stays (framing tables) (set key v ttl).
Proof. unfold set, assertTtl. eauto 10 with kept typeclass_instances. Qed.
Lemma del_tables key : stays (framing tables) (del key).
Proof. unfold del. eauto 8 with kept typeclass_instances. Qed.
Lemma delByPrefix_tables p : stays (framing tables) (delByPrefix p).
Proof. unfold delByPrefix. eauto 12 with kept typeclass_instances. Qed.

(** What a read of the cache finds. *)
Definition cached (key : string) (e : Env) : option Json :=
  if redis_up e then
    match rget (clock e) key (store e) with Some (RJson j) => Some j | _ => None end
  else None.

Lemma cache_get_run key s : get key s = (Ok (cached key (env s)), s).
Proof.
  assert (mkSt (set_store (store (env s)) (env s)) (tables s) = s) as E by by destruct s as [[] ?].
  unfold get, cached, try_catch, command, mbind, M_bind. destruct (redis_up (env s)); [|done].
  cbn [fst snd]. rewrite E. by destruct (rget _ _ _) as [[]|].
Qed.

(** The three writers never throw: a Redis outage is not visible to the caller. *)
Lemma del_total key s : ∃ s', del key s = (Ok tt, s').
Proof. unfold del, try_catch, command. destruct (redis_up _); simpl; eauto. Qed.
End cache.
#[export] Hint Resolve get_tables set_tables del_tables delByPrefix_tables : kept.
End CacheService.
Export (hints) CacheService.
