(* ===== verification/Lock.v ===== *)
(** * Distributed locks

    Models [backend/src/shared/lock/lock.service.ts]: a lock is a Redis key set
    with NX and a TTL to a random token; release and extension compare the token
    in a Lua script, which Redis runs as one step. *)
From S2P Require Import Prelude Core Effects Redis.

Module LockService.

Definition DEFAULT_TTL_MS : Z := 10000.
Definition DEFAULT_RETRY_MS : Z := 50.

Record LockOptions := mkLockOptions {
  ttlMs : option Z;
  waitMs : option Z;
  retryMs : option Z;
}.

(** [LockService.resourceKey]: parts joined by colons. *)
Definition resourceKey (parts : list string) : string := join ":" parts.

Definition dquote : string := String "034"%char "".

Section lock.
Context `{Redis, !Scheduler, !Crypto} {D : Type}.

(** [key]: the digest keeps long resources apart, the resource keeps it readable. *)
Definition key (resource : string) : string :=
  slice0 200 ("lock:" +:+ (slice0 32 (sha256_hex resource) +:+ (":" +:+ resource))).

(** The [while (true)] loop of [acquire]; [fuel] bounds its iterations. *)
Fixpoint acquire_loop (fuel : nat) (k token : string) (ttl retry deadline : Z)
  : M (St D) (option string) :=
  match fuel with
  | O => throw Diverges
  | S fuel =>
      ok ← command (λ t r, rset_nx t k (RStr token) ttl r);
      if (ok : bool) then mret (Some token)
      else
        now ← Date_now;
        if deadline <=? now then mret None
        else
          sleep retry ;;
          acquire_loop fuel k token ttl retry deadline
  end.

(** Each turn that does not return sleeps for a millisecond or more, so a wait
    of [w] milliseconds takes at most [w + 1] turns. *)
Definition acquire_fuel (wait : Z) : nat := S (Z.to_nat wait).

Definition acquire (resource : string) (options : LockOptions) : M (St D) (option string) :=
  let ttl := coalesce (ttlMs options) DEFAULT_TTL_MS in
  let wait := coalesce (waitMs options) 0 in
  let retry := coalesce (retryMs options) DEFAULT_RETRY_MS in
  token ← random_hex;
  now ← Date_now;
  acquire_loop (acquire_fuel wait) (key resource) token ttl retry (now + wait).

(** The compare-and-delete script. *)
Definition release_script (k token : string) (t : Z) (r : redis) : Z * redis :=
  match rget t k r with
  | Some (RStr v) => if String.eqb v token then rdel_count t k r else (0, r)
  | _ => (0, r)
  end.

Definition release (resource token : string) : M (St D) bool :=
  result ← command (release_script (key resource) token);
  mret (result =? 1).

(** The compare-and-expire script. *)
Definition extend_script (k token : string) (ttl t : Z) (r : redis) : Z * redis :=
  match rget t k r with
  | Some (RStr v) => if String.eqb v token then rpexpire t k ttl r else (0, r)
  | _ => (0, r)
  end.

Definition extend (resource token : string) (ttl : Z) : M (St D) bool :=
  result ← command (extend_script (key resource) token ttl);
  mret (result =? 1).

(** [withLock]: a lock that was not released is only logged. *)
Definition withLock {A} (resource : string) (fn : M (St D) A) (options : LockOptions)
  : M (St D) A :=
  token ← acquire resource options;
  match token with
  | None | Some "" =>
      throw (AppException LOCK_NOT_ACQUIRED
               ("Could not acquire lock for " +:+ dquote +:+ resource +:+ dquote) 409)
  | Some token =>
      try_finally fn (_ ← release resource token; mret tt)
  end.
End lock.

(** ** Lemmas *)
Section lemmas.
Context `{Redis, !Scheduler, !Crypto} {D : Type}.
Implicit Types s : St D.

Lemma command_run {A} (f : Z → redis → A * redis) s :
  redis_up (env s) = true →
  command f s = (Ok (fst (f (clock (env s)) (store (env s)))),
                 mkSt (set_store (snd (f (clock (env s)) (store (env s)))) (env s)) (tables s)).
Proof. unfold command. intros ->. by destruct (f _ _). Qed.

(** A loop with enough fuel for the time left ends without reaching the bound. *)
Lemma acquire_loop_ends fuel k token ttl retry deadline s :
  (Z.to_nat (deadline - clock (env s)) < fuel)%nat →
  fst (acquire_loop fuel k token ttl retry deadline s) ≠ Throw Diverges.
Proof.
  revert s. induction fuel as [|fuel IH]; intros s Hf; [lia|].
  simpl. unfold command, mbind, M_bind.
  destruct (redis_up (env s)); [|done].
  unfold rset_nx. destruct (rget _ _ _); [|done]. simpl.
  destruct (Z.leb_spec deadline (clock (env s))); [done|]. simpl.
  apply IH. simpl.
  pose proof (sleeping_clock retry (set_store (store (env s)) (env s))) as Hc.
  simpl in Hc. lia.
Qed.

(** The lock operations touch Redis only. *)
Lemma acquire_loop_tables fuel k token ttl retry deadline :
  stays (framing (tables (D := D))) (acquire_loop fuel k token ttl retry deadline).
Proof.
  induction fuel as [|fuel IH]; simpl; [auto with kept typeclass_instances|].
  apply stays_bind; [apply _|auto with kept|]. intros [].
  - auto with kept typeclass_instances.
  - unfold Date_now. apply stays_bind; [apply _|auto with kept typeclass_instances|].
    intros now. destruct (_ <=? _); [auto with kept typeclass_instances|].
    apply stays_bind; auto with kept typeclass_instances.
Qed.

Lemma acquire_loop_throws fuel k token ttl retry deadline s e s' :
  acquire_loop fuel k token ttl retry deadline s = (Throw e, s') → e = RedisError ∨ e = Diverges.
Proof.
  revert s. induction fuel as [|fuel IH]; intros s; simpl; [intros [= <- _]; by right|].
  unfold command, mbind, M_bind. destruct (redis_up (env s)); [|intros [= <- _]; by left].
  destruct (rset_nx _ _ _ _ _) as [[] r]; [done|]. simpl.
  destruct (_ <=? _); [done|]. simpl. apply IH.
Qed.

(** Nothing but Redis can make an acquisition throw. *)
Lemma acquire_throws resource options s e s' :
  acquire resource options s = (Throw e, s') → e = RedisError.
Proof.
  unfold acquire, Date_now, random_hex, gets, mbind, M_bind. cbn [env clock]. intros Hrun.
  destruct (acquire_loop_throws _ _ _ _ _ _ _ _ _ Hrun) as [->| ->]; [done|].
  exfalso. refine (acquire_loop_ends _ _ _ _ _ _ _ _ (f_equal fst Hrun)).
  unfold acquire_fuel. simpl. lia.
Qed.

(** A free lock is taken at once. *)
Lemma acquire_free resource options s :
  redis_up (env s) = true → rget (clock (env s)) (key resource) (store (env s)) = None →
  ∃ token s', acquire resource options s = (Ok (Some token), s') ∧ token ≠ ""
    ∧ redis_up (env s') = true ∧ bus (env s') = bus (env s) ∧ jobs (env s') = jobs (env s).
Proof.
  intros Hup Hg. unfold acquire, Date_now, random_hex, gets, acquire_fuel, mbind, M_bind.
  cbn [acquire_loop env tables clock]. unfold mbind, M_bind. rewrite command_run by done.
  cbn [env clock store]. unfold rset_nx. rewrite Hg. simpl. eexists _, _. split_and!; [done|apply randomBytes_nonempty|done..].
Qed.

Lemma acquire_tables resource options :
  stays (framing (tables (D := D))) (acquire resource options).
Proof.
  unfold acquire, Date_now.
  eauto using acquire_loop_tables with kept typeclass_instances.
Qed.

Lemma release_tables resource token :
  stays (framing (tables (D := D))) (release resource token).
Proof. unfold release. eauto with kept typeclass_instances. Qed.

(** A locked section keeps what its body keeps, for relations on the tables. *)
Lemma withLock_stays {A} (R : D → D → Prop) `{!PreOrder R} resource (fn : M (St D) A) options :
  stays (λ s s', R (tables s) (tables s')) fn →
  stays (λ s s', R (tables s) (tables s')) (withLock resource fn options).
Proof.
  intros Hfn.
  assert (PreOrder (λ s s' : St D, R (tables s) (tables s'))) as HR.
  { split; [intros s; reflexivity|intros ? ? ?; etransitivity; eauto]. }
  assert (∀ B (m : M (St D) B), stays (framing tables) m →
            stays (λ s s', R (tables s) (tables s')) m) as Hfr.
  { intros B m Hm s. specialize (Hm s). unfold framing in Hm. rewrite Hm. reflexivity. }
  unfold withLock. apply stays_bind; [done|apply Hfr, acquire_tables|].
  intros [[|c t]|]; [by apply stays_throw| |by apply stays_throw].
  apply stays_try_finally; [done|done|].
  apply stays_bind; [done|apply Hfr, release_tables|intros; by apply stays_ret].
Qed.

(** A successful locked section is a successful run of its body, started with
    the tables as they were. *)
Lemma withLock_Ok {A} resource (fn : M (St D) A) options s a s' :
  withLock resource fn options s = (Ok a, s') →
  ∃ token s1 s2, acquire resource options s = (Ok (Some token), s1) ∧ tables s1 = tables s
    ∧ fn s1 = (Ok a, s2) ∧ tables s' = tables s2.
Proof.
  unfold withLock. intros ([tok|] & s1 & Hacq & Hk)%bind_Ok; [|by destruct s1].
  pose proof (acquire_tables resource options s) as Ht. rewrite Hacq in Ht.
  destruct tok as [|c tok]; [done|]. unfold try_finally in Hk.
  destruct (fn s1) as [o s2] eqn:Hfn.
  pose proof (release_tables resource (String c tok) s2) as Hr.
  unfold mbind, M_bind in Hk. destruct (release _ _ s2) as [[] s3]; simpl in *; simplify_eq.
  exists (String c tok), s1, s2. split_and!; [done|exact Ht|done|exact Hr].
Qed.

(** What sleeping, a draw and a write to the lock's own key keep, an acquisition keeps. *)
Lemma acquire_keeps (I : Env → Prop) resource options s :
  (∀ ms e, I e → I (sleeping ms e)) →
  (∀ e v ttl, I e → I (set_store (rset (clock e) (key resource) v ttl (store e)) e)) →
  (∀ e n, I e → I (mkEnv _ (clock e) (store e) (redis_up e) (bus e) (jobs e) n)) →
  (∀ e, I e → I (set_store (store e) e)) →
  I (env s) → I (env (snd (acquire resource options s))).
Proof.
  intros Hsleep Hset Hdraw Hsame HI. unfold acquire, Date_now, random_hex, gets, mbind, M_bind.
  cbn [env tables clock]. apply (Hdraw _ (S (entropy (env s)))) in HI. revert HI.
  generalize (acquire_fuel (coalesce (waitMs options) 0)) (randomBytes_hex (entropy (env s)))
    (coalesce (ttlMs options) DEFAULT_TTL_MS) (clock (env s) + coalesce (waitMs options) 0).
  intros fuel token ttl deadline. generalize (tables s).
  generalize (mkEnv _ (clock (env s)) (store (env s)) (redis_up (env s)) (bus (env s)) (jobs (env s))
    (S (entropy (env s)))).
  induction fuel as [|fuel IH]; intros e d HI; simpl; [done|].
  unfold command, mbind, M_bind. cbn [env]. destruct (redis_up e); [|done].
  unfold rset_nx. destruct (rget _ _ _) eqn:Hg; simpl; [|by apply Hset].
  destruct (_ <=? _); simpl; [by apply Hsame|]. apply IH, Hsleep, Hsame, HI.
Qed.

(** The lock does not touch the tables: only what the body does on them counts. *)
Lemma withLock_ext {A} resource (fn fn' : M (St D) A) options s :
  (∀ s1, tables s1 = tables s → fn s1 = fn' s1) →
  withLock resource fn options s = withLock resource fn' options s.
Proof.
  intros Hfn. unfold withLock, mbind, M_bind.
  pose proof (acquire_tables resource options s) as Ht. unfold framing in Ht.
  destruct (acquire resource options s) as [[[[|c k]|]|e] s1]; [done| |done..]. simpl in Ht.
  unfold try_finally. by rewrite Hfn.
Qed.
End lemmas.

(** ** What other clients may do to a lock *)
Section others.
Context `{Redis, !Scheduler, !Crypto} {D : Type}.
Implicit Types s : St D.

(** One step of clients that do not hold [token] for key [k], by the operations of this
    service: time passes (and anything beside Redis changes), a turn of the loop of
    [acquire] (which sets the key or comes back, its deadline being now), a release, an
    extension. *)
Inductive other_step (k token : string) : St D → St D → Prop :=
| other_pass s s' : clock (env s) <= clock (env s') → store (env s') = store (env s) →
    other_step k token s s'
| other_turn s k' token' ttl retry :
    other_step k token s (snd (acquire_loop 1 k' token' ttl retry (clock (env s)) s))
| other_release s resource token' : token' ≠ token →
    other_step k token s (snd (release resource token' s))
| other_extend s resource token' ttl : token' ≠ token →
    other_step k token s (snd (extend resource token' ttl s)).

(** The lock of [k] is held with [token] until [until], as far as nobody changes Redis. *)
Definition held (k token : string) (until : Z) s : Prop :=
  ∀ t, clock (env s) <= t → t < until → rget t k (store (env s)) = Some (RStr token).

(** What a turn leaves in Redis: the key was free and is set, or nothing changed. *)
Lemma turn_store k token ttl retry s :
  clock (env (snd (acquire_loop 1 k token ttl retry (clock (env s)) s))) = clock (env s)
  ∧ (store (env (snd (acquire_loop 1 k token ttl retry (clock (env s)) s))) = store (env s)
     ∨ rget (clock (env s)) k (store (env s)) = None
       ∧ store (env (snd (acquire_loop 1 k token ttl retry (clock (env s)) s)))
         = rset (clock (env s)) k (RStr token) ttl (store (env s))).
Proof.
  simpl. unfold command, mbind, M_bind. destruct (redis_up (env s)); [|simpl; auto].
  unfold rset_nx. destruct (rget _ _ _) eqn:E; simpl; [|auto].
  rewrite Z.leb_refl. simpl. auto.
Qed.

Lemma other_step_held k token until s s' :
  other_step k token s s' → clock (env s) < until → held k token until s →
  clock (env s) <= clock (env s') ∧ held k token until s'.
Proof.
  intros Hstep Hlt Hheld.
  assert (Hnow : rget (clock (env s)) k (store (env s)) = Some (RStr token)) by (apply Hheld; lia).
  destruct Hstep as [s s' Hc Hs|s k' tok ttl retry|s resource tok Hne|s resource tok ttl Hne].
  - split; [done|]. intros u Hu Hu'. rewrite Hs. apply Hheld; [lia|done].
  - destruct (turn_store k' tok ttl retry s) as [Hc [Hs|[Hf Hs]]]; (split; [rewrite Hc; lia|]);
      intros u Hu Hu'; rewrite Hc in Hu; rewrite Hs; [by apply Hheld|].
    rewrite rget_set_ne; [by apply Hheld|]. intros ->. by rewrite Hnow in Hf.
  - unfold release, command, mbind, M_bind. destruct (redis_up (env s)); [|split; [simpl; lia|done]].
    unfold release_script, rdel_count. destruct (rget _ (key resource) _) as [[v|]|] eqn:E;
      simpl; try (split; [lia|done]). destruct (String.eqb_spec v tok) as [->|]; simpl; [|split; [lia|done]].
    split; [lia|]. intros u Hu Hu'. simpl. rewrite rget_del_ne; [by apply Hheld|].
    intros Hk. rewrite Hk in E. congruence.
  - unfold extend, command, mbind, M_bind. destruct (redis_up (env s)); [|split; [simpl; lia|done]].
    unfold extend_script, rpexpire. destruct (rget _ (key resource) _) as [[v|]|] eqn:E;
      simpl; try (split; [lia|done]). destruct (String.eqb_spec v tok) as [->|]; simpl; [|split; [lia|done]].
    split; [lia|]. intros u Hu Hu'. simpl. rewrite rget_set_ne; [by apply Hheld|].
    intros Hk. rewrite Hk in E. congruence.
Qed.

Lemma others_held k token until s s' :
  rtc (other_step k token) s s' → clock (env s') < until → held k token until s →
  clock (env s) <= clock (env s') ∧ held k token until s'.
Proof.
  assert (∀ a b, other_step k token a b → clock (env a) <= clock (env b)) as Hmono.
  { intros a b [|s0 k' tok ttl retry|s0 resource tok ?|s0 resource tok ttl ?]; [done|..].
    - by destruct (turn_store k' tok ttl retry s0) as [-> _].
    - unfold release, command, mbind, M_bind. destruct (redis_up (env s0)); [|simpl; lia].
      destruct (release_script _ _ _ _). simpl. lia.
    - unfold extend, command, mbind, M_bind. destruct (redis_up (env s0)); [|simpl; lia].
      destruct (extend_script _ _ _ _ _). simpl. lia. }
  assert (∀ a b, rtc (other_step k token) a b → clock (env a) <= clock (env b)) as Hmono'.
  { induction 1 as [|a b c Hab _ IH]; [lia|]. apply Hmono in Hab. lia. }
  induction 1 as [|a b c Hab Hbc IH]; intros Hlt Hheld; [split; [lia|done]|].
  pose proof (Hmono _ _ Hab). pose proof (Hmono' _ _ Hbc).
  destruct (other_step_held k token until a b) as [_ Hb]; [done|lia|done|].
  destruct (IH Hlt Hb). split; [lia|done].
Qed.

(** A whole acquisition of another client, however long it waits, is a sequence of such
    steps when what happens while it sleeps is. *)
Lemma acquire_is_others k token resource options s :
  (∀ ms t, rtc (other_step k token) t (mkSt (sleeping ms (env t)) (tables t))) →
  rtc (other_step k token) s (snd (acquire resource options s)).
Proof.
  intros Hsleep. unfold acquire. pose proof (other_pass k token s (snd (random_hex s))) as Hdraw.
  unfold random_hex in *. unfold Date_now, gets, mbind, M_bind. cbn [fst snd] in *.
  eapply rtc_l; [by apply Hdraw|]. clear Hdraw.
  generalize (clock (env (mkSt (mkEnv _ (clock (env s)) (store (env s)) (redis_up (env s)) (bus (env s))
    (jobs (env s)) (S (entropy (env s)))) (tables s))) + coalesce (waitMs options) 0).
  generalize (mkSt (mkEnv _ (clock (env s)) (store (env s)) (redis_up (env s)) (bus (env s)) (jobs (env s))
    (S (entropy (env s)))) (tables s)).
  generalize (acquire_fuel (coalesce (waitMs options) 0)).
  intros fuel u deadline. revert u. induction fuel as [|fuel IH]; intros u; [done|].
  pose proof (other_turn k token u (key resource) (randomBytes_hex (entropy (env s)))
    (coalesce (ttlMs options) DEFAULT_TTL_MS) (coalesce (retryMs options) DEFAULT_RETRY_MS)) as Ht.
  revert Ht. cbn [acquire_loop]. unfold command, mbind, M_bind.
  destruct (redis_up (env u)); [|by intros; apply rtc_once].
  destruct (rset_nx _ _ _ _ _) as [[] r]; [by intros; apply rtc_once|].
  unfold Date_now, gets. cbn [env set_store clock]. rewrite Z.leb_refl. cbn [fst snd].
  destruct (_ <=? _); [by intros; apply rtc_once|]. intros Ht.
  eapply rtc_l; [exact Ht|]. etrans; [apply (Hsleep (coalesce (retryMs options) DEFAULT_RETRY_MS))|].
  apply IH.
Qed.
End others.

Section acquired.
Context `{Redis, !Scheduler, !Crypto} {D : Type}.
Implicit Types s : St D.

Lemma acquire_loop_held fuel k token ttl retry deadline s token' s' :
  acquire_loop fuel k token ttl retry deadline s = (Ok (Some token'), s') →
  token' = token ∧ held k token (clock (env s') + ttl) s'.
Proof.
  revert s. induction fuel as [|fuel IH]; intros s; simpl; [done|].
  unfold command, mbind, M_bind. destruct (redis_up (env s)); [|done].
  unfold rset_nx. destruct (rget _ _ _) eqn:E; simpl.
  - destruct (_ <=? _); [done|]. apply IH.
  - intros [= <- <-]. split; [done|]. intros t' Ht Hlt. simpl in *.
    rewrite rget_set by done. by apply Z.ltb_lt in Hlt as ->.
Qed.
End acquired.

(** ** Properties *)

(** (C31) Once [acquire] has returned a token, then until the TTL runs out no sequence of
    other clients' steps (turns of their acquisitions, releases and extensions, time)
    takes the lock away: while Redis answers, the owner can still release it, and any
    acquisition that does not wait comes back without it. *)
Theorem acquire_excludes `{Redis, !Scheduler, !Crypto} {D} resource options (s s' t : St D) token :
  acquire resource options s = (Ok (Some token), s') →
  rtc (other_step (key resource) token) s' t →
  clock (env t) < clock (env s') + coalesce (ttlMs options) DEFAULT_TTL_MS →
  redis_up (env t) = true →
  release resource token t
    = (Ok true, mkSt (set_store (rdel (key resource) (store (env t))) (env t)) (tables t))
  ∧ ∀ options', coalesce (waitMs options') 0 <= 0 → fst (acquire resource options' t) = Ok None.
Proof.
  intros Hacq Hothers Hlt Hup. unfold acquire in Hacq. unfold Date_now in Hacq. run_inv.
  apply acquire_loop_held in Hacq as [-> Hheld].
  destruct (others_held _ _ _ _ _ Hothers Hlt Hheld) as [_ Hh].
  assert (Hg := Hh (clock (env t)) ltac:(lia) Hlt). split.
  - unfold release, mbind, M_bind. rewrite command_run by done.
    unfold release_script, rdel_count. by rewrite Hg, String.eqb_refl.
  - intros options' Hw. unfold acquire, acquire_fuel.
    replace (Z.to_nat (coalesce (waitMs options') 0)) with 0%nat by lia.
    unfold Date_now, random_hex, gets, mbind, M_bind. cbn [acquire_loop env tables clock].
    unfold mbind, M_bind. rewrite command_run by done. cbn [env clock store].
    unfold rset_nx. rewrite Hg. simpl. destruct (Z.leb_spec (clock (env t) + coalesce (waitMs options') 0)
      (clock (env t))); [done|lia].
Qed.

(** (C39) [acquire] always comes back: for every wait time the polling loop ends
    within its bound, whatever other clients do while it sleeps. *)
Theorem acquire_terminates `{Redis, !Scheduler, !Crypto} {D} resource options (s : St D) :
  fst (acquire resource options s) ≠ Throw Diverges.
Proof.
  refine (acquire_loop_ends _ _ _ _ _ _ _ _).
  unfold acquire_fuel. simpl. lia.
Qed.

(** (C32) What [withLock] does, in every case. When the lock is not acquired, or Redis
    fails on the way, the body does not run. Otherwise the body runs once, under a token
    that is never empty; if Redis answers when it ends, exactly what it returned or
    threw is the result, its own lock is gone, and a lock that another client took after
    the TTL expired is left alone. If Redis does not answer then, that failure takes the
    place of the body's result, whatever it was, and the lock stays. *)
Theorem withLock_releases `{Redis, !Scheduler, !Crypto} {D A} resource (fn : M (St D) A)
    options (s : St D) :
  match acquire resource options s with
  | (Throw e, s1) => withLock resource fn options s = (Throw e, s1)
  | (Ok None, s1) => ∃ message,
      withLock resource fn options s = (Throw (AppException LOCK_NOT_ACQUIRED message 409), s1)
  | (Ok (Some token), s1) => token ≠ "" ∧
      let (o, s2) := fn s1 in
      let mine := rget (clock (env s2)) (key resource) (store (env s2)) = Some (RStr token) in
      if redis_up (env s2) then
        ∃ s3, withLock resource fn options s = (o, s3) ∧ tables s3 = tables s2
          ∧ clock (env s3) = clock (env s2)
          ∧ (mine → rget (clock (env s3)) (key resource) (store (env s3)) = None)
          ∧ (¬ mine → store (env s3) = store (env s2))
      else withLock resource fn options s = (Throw RedisError, s2)
  end.
Proof.
  destruct (acquire resource options s) as [[[token|]|e] s1] eqn:Hacq;
    unfold withLock; [|by rewrite (bind_step _ _ _ _ _ Hacq); eexists|by rewrite (bind_abort _ _ _ _ _ Hacq)].
  rewrite (bind_step _ _ _ _ _ Hacq).
  assert (token ≠ "") as Htok.
  { unfold acquire, Date_now in Hacq. run_inv. apply acquire_loop_held in Hacq as [-> _].
    match goal with E : random_hex _ = _ |- _ => injection E as <- _ end. apply randomBytes_nonempty. }
  split; [done|]. destruct token as [|c tok]; [done|].
  unfold try_finally, release. destruct (fn s1) as [o s2]. unfold mbind, M_bind.
  destruct (redis_up (env s2)) eqn:Hup; [|unfold command; by rewrite Hup].
  rewrite command_run by done. simpl. eexists. split_and!; [done..| |]; simpl;
    unfold release_script, rdel_count.
  - intros Hg. rewrite Hg, String.eqb_refl. simpl. apply rget_del.
  - intros Hg. destruct (rget _ _ _) as [[v|]|]; [|done..].
    destruct (String.eqb_spec v (String c tok)); [congruence|done].
Qed.

(** resources of at most 162 characters never share a lock key, whatever
    the digests are. *)
Theorem key_injective `{Crypto} r1 r2 :
  (String.length r1 <= 162)%nat → (String.length r2 <= 162)%nat →
  r1 ≠ r2 → key r1 ≠ key r2.
Proof.
  intros H1 H2 Hne Hk. apply Hne. revert Hk. unfold key.
  assert (∀ r, String.length (slice0 32 (sha256_hex r)) = 32%nat) as Hd.
  { intros r. by rewrite slice0_length, sha256_length. }
  assert (∀ r, (String.length r <= 162)%nat →
    slice0 200 ("lock:" +:+ (slice0 32 (sha256_hex r) +:+ (":" +:+ r)))
    = "lock:" +:+ (slice0 32 (sha256_hex r) +:+ (":" +:+ r))) as Hs.
  { intros r Hr. apply slice0_short. rewrite !string_length_app, Hd. simpl. lia. }
  rewrite !Hs by done.
  intros [_ E]%string_app_inj; [|done].
  apply string_app_inj in E as [_ E]; [|by rewrite !Hd].
  by apply string_app_inj in E as [_ ?].
Qed.

(** ** Witnesses *)

Definition idle : St () :=
  mkSt (mkEnv gmap_redis 1000 (∅ : kv) true [] [] 0) tt.
Definition held_now : St () :=
  snd (acquire (D := ()) "inventory:w:v" (mkLockOptions (Some 15000) (Some 5000) None) idle).

Lemma acquire_excludes_witness :
  let later := mkSt (mkEnv gmap_redis 1500 (store (env held_now)) true [] [] 7) tt in
  release "inventory:w:v" "f" later
    = (Ok true, mkSt (set_store (rdel (key "inventory:w:v") (store (env later))) (env later)) tt)
  ∧ ∀ options', coalesce (waitMs options') 0 <= 0 → fst (acquire "inventory:w:v" options' later) = Ok None.
Proof.
  intros later.
  apply (acquire_excludes "inventory:w:v" (mkLockOptions (Some 15000) (Some 5000) None)
           idle held_now later "f").
  - apply run_eta. vm_compute. reflexivity.
  - apply rtc_once. apply other_pass; [vm_compute; discriminate|reflexivity].
  - vm_compute. reflexivity.
  - reflexivity.
Defined.

(** A release that Redis does not answer takes the place of what the body returned. *)
Example release_failure_wins :
  fst (withLock "r" (modify (λ s : St (), mkSt (mkEnv gmap_redis (clock (env s)) (store (env s)) false [] [] 1) tt))
         (mkLockOptions None None None) idle) = Throw RedisError.
Proof. vm_compute. reflexivity. Qed.

Lemma key_injective_witness : key "orders:1" ≠ key "orders:2".
Proof. apply (key_injective "orders:1" "orders:2"); [simpl; lia | simpl; lia | discriminate]. Defined.
End LockService.
