(* ===== verification/Idempotency.v ===== *)
(** * Idempotent requests

    Models [backend/src/shared/idempotency]: the records kept in Redis under an
    Idempotency-Key and the interceptor that wraps a handler with them. The
    handler is any computation that returns a status code and a body. A key is
    a byte string; its length is that of the source for ASCII keys. *)
From S2P Require Import Prelude Core Effects Redis Lock.
From Stdlib Require Import QArith Qround.

#[local] Open Scope Z_scope.

(** ** Constants and options ([idempotency.constants.ts], [idempotent.decorator.ts]) *)

Definition IDEMPOTENCY_DEFAULT_TTL_SECONDS : Z := 24 * 60 * 60.

Record IdempotentOptions := mkIdempotentOptions {
  io_required : option bool; io_ttlSeconds : option Z;
}.

(** What the interceptor reads of a request. *)
Record Request := mkRequest {
  rq_method : string; rq_url : string; rq_path : string; rq_route : option string;
  rq_user : option string; rq_key : option string; rq_body : option Json;
}.

Inductive PrepareResult :=
| passthrough
| replay (statusCode : Z) (body : Json)
| execute_ (scope key fingerprint : string) (ttlSeconds : Z).

(** A stored record. *)
Definition record_json `{DateText} (status fingerprint : string) (statusCode : Z) (body : Json)
  (now : Z) : Json :=
  JObj [("status", JStr status); ("fingerprint", JStr fingerprint); ("statusCode", JInt statusCode);
        ("body", body); ("createdAt", JStr (iso_text now))].

Definition text_is (v : option Json) (s : string) : bool :=
  match v with Some (JStr t) => String.eqb t s | _ => false end.

(** [record.statusCode || 200] *)
Definition code_or_200 (v : option Json) : Z :=
  match v with
  | Some (JNum q) => if Qeq_bool q 0 then 200 else Qfloor q
  | _ => 200
  end.

Definition field_or_null (k : string) (j : Json) : Json :=
  match jget k j with Some v => v | None => JNull end.

(** ** IdempotencyService ([idempotency.service.ts]) *)
Module IdempotencyService.
Section service.
  Context `{Redis, !Crypto, !DateText, !JsonText} {D : Type}.

Definition buildKey (scope key : string) : string := "idempotency:" +:+ scope +:+ ":" +:+ key.

Definition fingerprint (method path : string) (body : option Json) : string :=
  sha256_hex (json_stringify (JObj [("method", JStr method); ("path", JStr path);
    ("body", coalesce body JNull)])).

Definition get (scope key : string) : M (St D) (option Json) :=
  j ← CacheService.get (buildKey scope key);
  mret (match j with Some JNull => None | _ => j end).

(** [SET key record EX ttl NX], straight to the client: an outage throws. *)
Definition begin (scope key fp : string) (ttlSeconds : Z) : M (St D) bool :=
  now ← Date_now;
  command (λ t r, rset_nx t (buildKey scope key) (RJson (record_json "processing" fp 0 JNull now))
    (ttlSeconds * 1000) r).

Definition complete (scope key fp : string) (statusCode : Z) (body : Json) (ttlSeconds : Z)
  : M (St D) () :=
  now ← Date_now;
  CacheService.set (buildKey scope key) (record_json "completed" fp statusCode body now) ttlSeconds.

Definition clear (scope key : string) : M (St D) () := CacheService.del (buildKey scope key).
End service.
End IdempotencyService.

(** ** IdempotencyInterceptor ([idempotency.interceptor.ts]) *)
Section interceptor.
  Context `{Redis, !Crypto, !DateText, !JsonText} {D : Type}.

Definition scope_ (request : Request) : string :=
  coalesce (rq_user request) "anon" +:+ ":" +:+ rq_method request +:+ ":" +:+
  coalesce (rq_route request) (rq_path request).

Definition request_fingerprint (request : Request) : string :=
  IdempotencyService.fingerprint (toUpperCase (rq_method request)) (rq_url request) (rq_body request).

Definition in_progress : exn :=
  AppException IDEMPOTENCY_IN_PROGRESS "A request with this Idempotency-Key is still processing" 409.
Definition key_conflict : exn :=
  AppException IDEMPOTENCY_KEY_CONFLICT
    "Idempotency-Key was reused with a different request payload" 409.

(** [statusCode || 200] *)
Definition or_200 (statusCode : Z) : Z := if statusCode =? 0 then 200 else statusCode.

(** What a record found under the key means for the request. *)
Definition existing_result (fp : string) (existing : Json) : M (St D) PrepareResult :=
  throw_if (negb (text_is (jget "fingerprint" existing) fp)) key_conflict ;;
  throw_if (text_is (jget "status" existing) "processing") in_progress ;;
  mret (replay (code_or_200 (jget "statusCode" existing)) (field_or_null "body" existing)).

(** A key that was claimed by someone else in between. *)
Definition raced_result (fp : string) (raced : option Json) : M (St D) PrepareResult :=
  match raced with
  | Some r =>
      if text_is (jget "status" r) "completed" && text_is (jget "fingerprint" r) fp
      then mret (replay (code_or_200 (jget "statusCode" r)) (field_or_null "body" r))
      else throw in_progress
  | None => throw in_progress
  end.

Definition prepare (request : Request) (options : IdempotentOptions) : M (St D) PrepareResult :=
  let key := trim (coalesce (rq_key request) "") in
  let required := negb (bool_decide (io_required options = Some false)) in
  let ttlSeconds := coalesce (io_ttlSeconds options) IDEMPOTENCY_DEFAULT_TTL_SECONDS in
  if String.eqb key "" then
    throw_if required (AppException IDEMPOTENCY_KEY_REQUIRED
      "Idempotency-Key header is required for this operation" 400) ;;
    mret passthrough
  else
    throw_if ((String.length key <? 8)%nat || (128 <? String.length key)%nat)
      (AppException IDEMPOTENCY_KEY_REQUIRED "Idempotency-Key must be 8–128 characters" 400) ;;
    let scope := scope_ request in
    let fp := request_fingerprint request in
    existing ← IdempotencyService.get scope key;
    match existing with
    | Some e => existing_result fp e
    | None =>
        claimed ← IdempotencyService.begin scope key fp ttlSeconds;
        if (claimed : bool) then mret (execute_ scope key fp ttlSeconds)
        else
          raced ← IdempotencyService.get scope key;
          raced_result fp raced
    end.

Definition WRITE_METHODS : list string := ["POST"; "PUT"; "PATCH"; "DELETE"].

(** The status code (of the handler or of the replay) and the body. The clearing
    of a failed request's key is started and not awaited; it is modelled as done
    before the error is delivered. *)
Definition intercept (options : option IdempotentOptions) (request : Request)
  (handle : M (St D) (Z * Json)) : M (St D) (Z * Json) :=
  match options with
  | None => handle
  | Some options =>
      if negb (bool_decide (toUpperCase (rq_method request) ∈ WRITE_METHODS)) then handle
      else
        prepared ← prepare request options;
        match prepared with
        | passthrough => handle
        | replay statusCode body => mret (or_200 statusCode, body)
        | execute_ scope key fp ttlSeconds =>
            try_catch
              (r ← handle;
               IdempotencyService.complete scope key fp (or_200 r.1) r.2 ttlSeconds ;;
               mret r)
              (λ err, IdempotencyService.clear scope key ;; throw err)
        end
  end.
End interceptor.

(** ** Lemmas *)

(** A request the interceptor looks after: a write with a key of a valid length. *)
Definition keyed (request : Request) : Prop :=
  toUpperCase (rq_method request) ∈ WRITE_METHODS ∧
  (8 <= String.length (trim (coalesce (rq_key request) "")) <= 128)%nat.

Definition redis_key (request : Request) : string :=
  IdempotencyService.buildKey (scope_ request) (trim (coalesce (rq_key request) "")).

(** What a record means, as an outcome. *)
Definition recorded `{Crypto, JsonText} (request : Request) (j : Json) : outcome (Z * Json) :=
  if negb (text_is (jget "fingerprint" j) (request_fingerprint request)) then Throw key_conflict
  else if text_is (jget "status" j) "processing" then Throw in_progress
  else Ok (or_200 (code_or_200 (jget "statusCode" j)), field_or_null "body" j).

Section lemmas.
Context `{Redis, !Crypto, !DateText, !JsonText} {D : Type}.
Implicit Types s : St D.

Lemma record_not_null status fp code body now : record_json status fp code body now ≠ JNull.
Proof. done. Qed.

Lemma code_JInt n : code_or_200 (Some (JInt n)) = or_200 n.
Proof.
  unfold code_or_200, JInt, or_200, Qeq_bool. rewrite Qfloor_Z. simpl. by rewrite Z.mul_1_r.
Qed.

Lemma or_200_idem n : or_200 (or_200 n) = or_200 n.
Proof. unfold or_200. by destruct (Z.eqb_spec n 0) as [->|Hn]; [|destruct (Z.eqb_spec n 0)]. Qed.

Lemma set_store_same (e : Env) : set_store (store e) e = e.
Proof. by destruct e. Qed.

Lemma get_run scope key s :
  redis_up (env s) = true →
  IdempotencyService.get scope key s =
    (Ok (match rget (clock (env s)) (IdempotencyService.buildKey scope key) (store (env s)) with
         | Some (RJson JNull) => None
         | Some (RJson j) => Some j
         | _ => None end), s).
Proof.
  intros Hup. unfold IdempotencyService.get, CacheService.get, try_catch.
  unfold mbind, M_bind. rewrite (LockService.command_run _ s Hup). simpl.
  rewrite set_store_same. destruct s as [e d]. simpl.
  destruct (rget _ _ _) as [[|[]]|]; reflexivity.
Qed.

Lemma begin_run scope key fp ttl s :
  redis_up (env s) = true →
  rget (clock (env s)) (IdempotencyService.buildKey scope key) (store (env s)) = None →
  ∃ s', IdempotencyService.begin scope key fp ttl s = (Ok true, s').
Proof.
  intros Hup Hfree. unfold IdempotencyService.begin, Date_now, gets, mbind, M_bind.
  rewrite (LockService.command_run _ s Hup). unfold rset_nx. rewrite Hfree. simpl. eauto.
Qed.

(** A write that reached Redis is readable until it expires. *)
Lemma complete_run scope key fp code body ttl s s' :
  IdempotencyService.complete scope key fp code body ttl s = (Ok tt, s') →
  redis_up (env s') = true → 0 < ttl →
  clock (env s') = clock (env s) ∧
  ∀ t, clock (env s') <= t < clock (env s') + ttl * 1000 →
    rget t (IdempotencyService.buildKey scope key) (store (env s')) =
      Some (RJson (record_json "completed" fp code body (clock (env s)))).
Proof.
  unfold IdempotencyService.complete, Date_now, gets, CacheService.set, CacheService.assertTtl,
    try_catch, throw_if, mbind, M_bind. intros Hrun Hup Httl.
  destruct (Z.leb_spec ttl 0); [lia|]. simpl in Hrun. unfold command in Hrun.
  destruct (redis_up (env s)) eqn:Eup; simpl in Hrun; injection Hrun as <-; simpl in *; [|congruence].
  split; [done|]. intros t Ht. rewrite rget_set by lia.
  destruct (Z.ltb_spec t (clock (env s) + ttl * 1000)); [done|lia].
Qed.

Lemma complete_total scope key fp code body ttl s :
  ∃ s', IdempotencyService.complete scope key fp code body ttl s = (Ok tt, s').
Proof.
  unfold IdempotencyService.complete. erewrite bind_step by reflexivity.
  unfold CacheService.set, try_catch.
  match goal with |- context [(?m : M (St D) ()) s] =>
    lazymatch m with _ ≫= _ => destruct (m s) as [[[]|] ?] end end; unfold mret, M_ret; eauto.
Qed.

Lemma clear_run scope key s s' :
  IdempotencyService.clear scope key s = (Ok tt, s') → redis_up (env s') = true →
  ∀ t, rget t (IdempotencyService.buildKey scope key) (store (env s')) = None.
Proof.
  unfold IdempotencyService.clear, CacheService.del, try_catch, command. intros Hrun Hup t.
  destruct (redis_up (env s)) eqn:Eup; simpl in Hrun; injection Hrun as <-; simpl in *; [|congruence].
  apply rget_del.
Qed.

(** Reading the checks of a keyed request. *)
Lemma keyed_checks request options :
  keyed request → ∃ c k, trim (coalesce (rq_key request) "") = String c k ∧
    prepare (D := D) request options =
      (existing ← IdempotencyService.get (scope_ request) (String c k);
       match existing with
       | Some e => existing_result (request_fingerprint request) e
       | None =>
           claimed ← IdempotencyService.begin (scope_ request) (String c k)
             (request_fingerprint request)
             (coalesce (io_ttlSeconds options) IDEMPOTENCY_DEFAULT_TTL_SECONDS);
           if (claimed : bool) then mret (execute_ (scope_ request) (String c k)
             (request_fingerprint request)
             (coalesce (io_ttlSeconds options) IDEMPOTENCY_DEFAULT_TTL_SECONDS))
           else raced ← IdempotencyService.get (scope_ request) (String c k);
                raced_result (request_fingerprint request) raced
       end).
Proof.
  intros [_ Hlen]. unfold prepare. destruct (trim _) as [|c k]; [simpl in Hlen; lia|].
  exists c, k. split; [done|]. cbn [String.eqb].
  destruct (Nat.ltb_spec (String.length (String c k)) 8); [lia|].
  destruct (Nat.ltb_spec 128 (String.length (String c k))); [lia|]. done.
Qed.
End lemmas.

(** ** Theorems *)
Section theorems.
Context `{Redis, !Crypto, !DateText, !JsonText} {D : Type}.
Implicit Types s : St D.

Lemma recorded_run options request (handle : M (St D) (Z * Json)) s j :
  keyed request → redis_up (env s) = true → j ≠ JNull →
  rget (clock (env s)) (redis_key request) (store (env s)) = Some (RJson j) →
  intercept (Some options) request handle s = (recorded request j, s).
Proof.
  intros Hk Hup Hj Hget. unfold intercept. rewrite (bool_decide_true _ (proj1 Hk)). simpl.
  unfold redis_key in Hget. destruct (keyed_checks (D := D) request options Hk) as (c & k & Ek & ->).
  rewrite Ek in Hget. unfold mbind, M_bind. rewrite (get_run _ _ s Hup), Hget.
  assert (match j with JNull => None | _ => Some j end = Some j) as -> by (by destruct j).
  unfold existing_result, recorded, throw_if, mbind, M_bind.
  destruct (negb _); [done|]. by destruct (text_is _ "processing").
Qed.

(** A fresh key is claimed and the handler runs. *)
Lemma fresh_run options request (handle : M (St D) (Z * Json)) s o s' :
  keyed request → redis_up (env s) = true →
  rget (clock (env s)) (redis_key request) (store (env s)) = None →
  intercept (Some options) request handle s = (o, s') →
  ∃ s0 key, redis_key request = IdempotencyService.buildKey (scope_ request) key ∧
    try_catch (r ← handle;
      IdempotencyService.complete (scope_ request) key (request_fingerprint request) (or_200 r.1) r.2
        (coalesce (io_ttlSeconds options) IDEMPOTENCY_DEFAULT_TTL_SECONDS) ;; mret r)
      (λ err, IdempotencyService.clear (scope_ request) key ;; throw err) s0 = (o, s').
Proof.
  intros Hk Hup Hget. unfold intercept. rewrite (bool_decide_true _ (proj1 Hk)). simpl.
  unfold redis_key in *. destruct (keyed_checks (D := D) request options Hk) as (c & k & Ek & ->).
  rewrite Ek in *. intros Hrun.
  assert (IdempotencyService.get (scope_ request) (String c k) s = (Ok None, s)) as Eg
    by (rewrite (get_run _ _ s Hup), Hget; done).
  destruct (begin_run (scope_ request) (String c k) (request_fingerprint request)
    (coalesce (io_ttlSeconds options) IDEMPOTENCY_DEFAULT_TTL_SECONDS) s Hup Hget) as [s0 Eb].
  unfold mbind at 1, M_bind at 1 in Hrun. rewrite (bind_step _ _ _ _ _ Eg) in Hrun.
  rewrite (bind_step _ _ _ _ _ Eb) in Hrun. by exists s0, (String c k).
Qed.

(** (C37) A request is executed once per key: after a first execution under a fresh key
    succeeded, a repetition of the request while the record lives returns the
    recorded status and body whatever handler is given, and changes nothing. *)
Theorem repetition_replayed options request (handle : M (St D) (Z * Json)) s r s1 :
  keyed request → redis_up (env s) = true →
  rget (clock (env s)) (redis_key request) (store (env s)) = None →
  0 < coalesce (io_ttlSeconds options) IDEMPOTENCY_DEFAULT_TTL_SECONDS →
  intercept (Some options) request handle s = (Ok r, s1) → redis_up (env s1) = true →
  ∀ (other : M (St D) (Z * Json)) s2,
    redis_up (env s2) = true → store (env s2) = store (env s1) →
    clock (env s1) <= clock (env s2) <
      clock (env s1) + coalesce (io_ttlSeconds options) IDEMPOTENCY_DEFAULT_TTL_SECONDS * 1000 →
    intercept (Some options) request other s2 = (Ok (or_200 r.1, r.2), s2).
Proof.
  intros Hk Hup Hfree Httl Hrun Hup1 other s2 Hup2 Hst Ht.
  destruct (fresh_run _ _ _ _ _ _ Hk Hup Hfree Hrun) as (s0 & key & Ek & Htry).
  unfold try_catch in Htry. match type of Htry with context [match ?m s0 with _ => _ end] =>
    destruct (m s0) as [[r'|e] s'] eqn:E; [|run_inv] end.
  injection Htry as -> ->. apply bind_Ok in E as (r' & s3 & _ & E).
  apply bind_Ok in E as ([] & s4 & Ec & E). injection E as -> ->.
  destruct (complete_run _ _ _ _ _ _ _ _ Ec Hup1 Httl) as [_ Hget].
  specialize (Hget (clock (env s2)) Ht). rewrite <- Ek, <- Hst in Hget.
  rewrite (recorded_run _ _ _ _ _ Hk Hup2 (record_not_null _ _ _ _ _) Hget). f_equal.
  change (recorded request (record_json "completed" (request_fingerprint request) (or_200 r.1) r.2
    (clock (env s3)))) with
    (if negb (String.eqb (request_fingerprint request) (request_fingerprint request))
     then Throw key_conflict
     else Ok (or_200 (code_or_200 (Some (JInt (or_200 r.1)))), r.2)).
  by rewrite String.eqb_refl, code_JInt, !or_200_idem.
Qed.

(** A record decides: a request whose key holds a live record never runs its
    handler and changes nothing; another payload is a conflict, an unfinished
    request is reported as such, and a finished one is answered from the record. *)
Theorem recorded_key_decides options request (handle : M (St D) (Z * Json)) s j :
  keyed request → redis_up (env s) = true → j ≠ JNull →
  rget (clock (env s)) (redis_key request) (store (env s)) = Some (RJson j) →
  intercept (Some options) request handle s = (recorded request j, s).
Proof. apply recorded_run. Qed.

(** A failed request does not keep its key: when the handler of a request under a
    fresh key throws, that error is what the caller gets, and the key is free
    again, so that a retry executes. *)
Theorem failure_frees_key options request (handle : M (St D) (Z * Json)) s e s1 :
  keyed request → redis_up (env s) = true →
  rget (clock (env s)) (redis_key request) (store (env s)) = None →
  intercept (Some options) request handle s = (Throw e, s1) → redis_up (env s1) = true →
  (∃ s0, fst (handle s0) = Throw e) ∧ ∀ t, rget t (redis_key request) (store (env s1)) = None.
Proof.
  intros Hk Hup Hfree Hrun Hup1.
  destruct (fresh_run _ _ _ _ _ _ Hk Hup Hfree Hrun) as (s0 & key & Ek & Htry).
  unfold try_catch, mbind, M_bind in Htry.
  destruct (handle s0) as [[r|e'] s2] eqn:Eh.
  - exfalso. destruct (complete_total (scope_ request) key (request_fingerprint request)
      (or_200 r.1) r.2 (coalesce (io_ttlSeconds options) IDEMPOTENCY_DEFAULT_TTL_SECONDS) s2)
      as [s3 Ec]. by rewrite Ec in Htry.
  - destruct (IdempotencyService.clear (scope_ request) key s2) as [[[]|e2] s3] eqn:Ec;
      [|by destruct (CacheService.del_total (IdempotencyService.buildKey (scope_ request) key) s2)
          as [? Ed]; unfold IdempotencyService.clear in Ec; rewrite Ed in Ec].
    injection Htry as -> ->. rewrite Ek. split; [exists s0; by rewrite Eh|].
    by apply (clear_run _ _ _ _ Ec).
Qed.
End theorems.

(** ** The theorems at work *)
Section examples.
#[local] Existing Instances gmap_redis counting_crypto.
#[local] Instance iso0 : DateText := λ _, "1970-01-01T00:00:01.000Z".
#[local] Instance json1 : JsonText := λ _, "{}".

Definition post : Request :=
  mkRequest "post" "/api/orders" "/orders" None (Some "alice") (Some " order-0001 ") None.
Definition with_defaults : IdempotentOptions := mkIdempotentOptions None None.
Definition quiet : St nat := mkSt (mkEnv gmap_redis 1000 (∅ : kv) true [] [] 0) 0%nat.

(** A handler that counts its runs, and one that fails. *)
Definition count_run : M (St nat) (Z * Json) :=
  modify (λ s, mkSt (env s) (S (tables s))) ;; mret (201, JStr "created").
Definition failing : M (St nat) (Z * Json) := throw (JsError "no").

Definition after_first : St nat := snd (intercept (Some with_defaults) post count_run quiet).

Lemma post_keyed : keyed post.
Proof. split; [refine (bool_decide_unpack _ _); vm_compute; exact I|vm_compute; lia]. Qed.

Lemma repetition_replayed_witness :
  intercept (Some with_defaults) post failing after_first = (Ok (201, JStr "created"), after_first).
Proof.
  apply (repetition_replayed with_defaults post count_run quiet (201, JStr "created") after_first
           post_keyed); try reflexivity.
  split; vm_compute; congruence.
Defined.

Lemma recorded_key_decides_witness :
  intercept (Some with_defaults) post count_run after_first =
    (recorded post (record_json "completed" (request_fingerprint post) 201 (JStr "created") 1000),
     after_first).
Proof.
  apply (recorded_key_decides with_defaults post count_run after_first);
    [apply post_keyed|reflexivity|done|vm_compute; reflexivity].
Defined.

Lemma failure_frees_key_witness :
  (∃ s0, fst (failing s0) = Throw (JsError "no")) ∧
  ∀ t, rget t (redis_key post)
         (store (env (snd (intercept (Some with_defaults) post failing quiet)))) = None.
Proof.
  apply (failure_frees_key with_defaults post failing quiet);
    [apply post_keyed|reflexivity|reflexivity| |reflexivity].
  apply run_eta. vm_compute. reflexivity.
Defined.

(** The handler ran once. *)
Example ran_once : tables (snd (intercept (Some with_defaults) post count_run after_first)) = 1%nat.
Proof. vm_compute. reflexivity. Qed.
End examples.
