(* ===== verification/StateMachine.v ===== *)
(** * State machine engine and lifecycle graphs

    Models [backend/src/shared/state-machine]: the engine that validates a
    status change against a graph and runs the caller's hooks in order, and the
    graphs of the shipment, return, RMA, warranty claim, service ticket and
    support case lifecycles. *)
From S2P Require Import Prelude Core Effects Redis.

(** ** Data ([state-machine.types.ts]) *)

(** from → allowed targets, in the order of the object's keys. *)
Definition TransitionMap := list (string * list string).

Record StateMachineDefinition := mkMachine {
  name : string;
  transitions : TransitionMap;
  allowSameState : bool;
}.

Record TransitionContext := mkContext {
  ctx_machine : string;
  ctx_entityId : string;
  ctx_from : string;
  ctx_to : string;
  ctx_actorId : option string;
  ctx_reason : option string;
  ctx_metadata : option Json;
}.

Record TransitionResult (T : Type) := mkResult {
  res_from : string;
  res_to : string;
  res_skipped : bool;
  res_result : option T;
}.
Arguments mkResult {T}.
Arguments res_from {T}. Arguments res_to {T}.
Arguments res_skipped {T}. Arguments res_result {T}.

Section engine.
Context `{Redis} {D : Type}.

Definition TransitionHook := TransitionContext → M (St D) ().

Record TransitionOptions (T : Type) := mkOptions {
  entityId : string;
  from : string;
  to : string;
  actorId : option string;
  reason : option string;
  metadata : option Json;
  before : option TransitionHook;
  apply : TransitionContext → M (St D) T;
  audit : option TransitionHook;
  after : option TransitionHook;
  silent : bool;
}.

(** [definition.transitions[from] ?? []] *)
Definition allowedTargets (definition : StateMachineDefinition) (from : string) : list string :=
  match find_first (λ kv, String.eqb (fst kv) from) (transitions definition) with
  | Some (_, targets) => targets
  | None => []
  end.

Definition includes (x : string) (xs : list string) : bool := existsb (String.eqb x) xs.

Definition canTransition (definition : StateMachineDefinition) (from to : string) : bool :=
  if String.eqb from to then allowSameState definition
  else includes to (allowedTargets definition from).

Definition assertTransition (definition : StateMachineDefinition) (from to : string)
  : M (St D) () :=
  if canTransition definition from to then mret tt
  else throw (AppException CONFLICT
         ("Invalid " +:+ name definition +:+ " transition " +:+ from +:+ " → " +:+ to) 409).

(** [if (hook) await hook(ctx)] *)
Definition run_hook (hook : option TransitionHook) (ctx : TransitionContext) : M (St D) () :=
  match hook with Some h => h ctx | None => mret tt end.

Definition StateTransitionedEvent (ctx : TransitionContext) : DomainEvent :=
  mkEvent "state.transitioned" (JObj
    ([("machine", JStr (ctx_machine ctx)); ("entityId", JStr (ctx_entityId ctx));
      ("from", JStr (ctx_from ctx)); ("to", JStr (ctx_to ctx))]
     ++ jopt "actorId" (ctx_actorId ctx) ++ jopt "reason" (ctx_reason ctx)
     ++ match ctx_metadata ctx with Some m => [("metadata", m)] | None => [] end
     ++ [("skipped", JBool false)])).

Definition context_of {T} (definition : StateMachineDefinition) (options : TransitionOptions T)
  : TransitionContext :=
  mkContext (name definition) (entityId T options) (from T options) (to T options)
    (actorId T options) (reason T options) (metadata T options).

(** The part of [transition] after validation: before, apply, audit, event, after. *)
Definition transition_steps {T} (definition : StateMachineDefinition)
    (options : TransitionOptions T) : M (St D) (TransitionResult T) :=
  let ctx := context_of definition options in
  run_hook (before T options) ctx ;;
  result ← apply T options ctx;
  run_hook (audit T options) ctx ;;
  when_ (negb (silent T options)) (emit (StateTransitionedEvent ctx)) ;;
  run_hook (after T options) ctx ;;
  mret (mkResult (from T options) (to T options) false (Some result)).

(** [transition]: a same-state request short-circuits when it is allowed. *)
Definition transition {T} (definition : StateMachineDefinition) (options : TransitionOptions T)
  : M (St D) (TransitionResult T) :=
  assertTransition definition (from T options) (to T options) ;;
  if String.eqb (from T options) (to T options) && allowSameState definition then
    mret (mkResult (from T options) (to T options) true None)
  else transition_steps definition options.
End engine.
Arguments mkOptions {_ D T}.
Arguments TransitionOptions {_} D T.
Arguments TransitionHook {_} D.
Arguments entityId {_ D T}. Arguments from {_ D T}. Arguments to {_ D T}.
Arguments actorId {_ D T}. Arguments reason {_ D T}. Arguments metadata {_ D T}.
Arguments before {_ D T}. Arguments apply {_ D T}. Arguments audit {_ D T}.
Arguments after {_ D T}. Arguments silent {_ D T}.

(** ** The lifecycle graphs *)

Definition shipmentStateMachine : StateMachineDefinition := mkMachine "shipment"
  [("created", ["packed"; "cancelled"]);
   ("packed", ["dispatched"; "cancelled"]);
   ("dispatched", ["in_transit"; "cancelled"; "lost"; "damaged"]);
   ("in_transit", ["out_for_delivery"; "delivered"; "delivery_failed"; "returned";
                   "lost"; "damaged"; "cancelled"]);
   ("out_for_delivery", ["delivered"; "delivery_failed"; "returned"; "lost"; "damaged"]);
   ("delivered", []);
   ("delivery_failed", ["out_for_delivery"; "returned"; "cancelled"]);
   ("returned", []); ("lost", []); ("damaged", []); ("cancelled", [])] true.

Definition returnStateMachine : StateMachineDefinition := mkMachine "return"
  [("requested", ["approved"; "rejected"]);
   ("approved", ["picked_up"; "rejected"]);
   ("rejected", []);
   ("picked_up", ["received"]);
   ("received", ["inspection"]);
   ("inspection", ["refunded"; "completed"; "rejected"]);
   ("refunded", ["completed"]);
   ("completed", [])] true.

Definition rmaStateMachine : StateMachineDefinition := mkMachine "rma"
  [("requested", ["approved"; "rejected"; "cancelled"]);
   ("approved", ["in_transit"; "cancelled"]);
   ("in_transit", ["received"; "cancelled"]);
   ("received", ["completed"; "rejected"]);
   ("completed", []); ("rejected", []); ("cancelled", [])] true.

Definition warrantyClaimStateMachine : StateMachineDefinition := mkMachine "warranty_claim"
  [("submitted", ["under_review"; "cancelled"]);
   ("under_review", ["approved"; "rejected"; "cancelled"]);
   ("approved", ["in_service"; "cancelled"]);
   ("rejected", []);
   ("in_service", ["closed"; "cancelled"]);
   ("closed", []); ("cancelled", [])] true.

Definition serviceTicketStateMachine : StateMachineDefinition := mkMachine "service_ticket"
  [("created", ["assigned"; "cancelled"]);
   ("assigned", ["diagnosis"; "cancelled"]);
   ("diagnosis", ["waiting_for_parts"; "repair_in_progress"; "cancelled"]);
   ("waiting_for_parts", ["repair_in_progress"; "cancelled"]);
   ("repair_in_progress", ["testing"; "cancelled"]);
   ("testing", ["quality_check"; "repair_in_progress"; "cancelled"]);
   ("quality_check", ["ready_for_pickup"; "repair_in_progress"; "cancelled"]);
   ("ready_for_pickup", ["delivered"; "cancelled"]);
   ("delivered", ["closed"]);
   ("closed", []); ("cancelled", [])] true.

(** [shared/case-management/definitions/support-case.definition.ts] *)
Definition supportCaseStateMachine : StateMachineDefinition := mkMachine "support_case"
  [("open", ["assigned"; "escalated"; "cancelled"]);
   ("assigned", ["in_progress"; "escalated"; "cancelled"; "on_hold"]);
   ("in_progress", ["on_hold"; "resolved"; "escalated"; "cancelled"]);
   ("on_hold", ["in_progress"; "escalated"; "cancelled"]);
   ("escalated", ["assigned"; "in_progress"; "resolved"; "cancelled"]);
   ("resolved", ["closed"; "in_progress"]);
   ("closed", []); ("cancelled", [])] true.

Definition machines : list StateMachineDefinition :=
  [shipmentStateMachine; returnStateMachine; rmaStateMachine;
   warrantyClaimStateMachine; serviceTicketStateMachine; supportCaseStateMachine].

(** ** The graph of a machine *)

(** A change of status the engine accepts. *)
Definition edge (m : StateMachineDefinition) (a b : string) : Prop :=
  a ≠ b ∧ canTransition m a b = true.

Definition states (m : StateMachineDefinition) : list string := map fst (transitions m).
Definition terminal (m : StateMachineDefinition) (a : string) : Prop := ∀ b, ~ edge m a b.

(** A lifecycle that makes sense: no target outside the graph, every status can
    be reached from the first one, and from every status some final status. *)
Definition well_formed (m : StateMachineDefinition) : Prop :=
  (∀ a b, edge m a b → b ∈ states m)
  ∧ (∀ a, a ∈ states m → ∃ init, head (states m) = Some init ∧ rtc (edge m) init a)
  ∧ (∀ a, a ∈ states m → ∃ b, terminal m b ∧ rtc (edge m) a b).

(** Search of the graph, bounded by the number of steps. *)
Fixpoint reach (fuel : nat) (m : StateMachineDefinition) (a : string) : list string :=
  match fuel with
  | O => [a]
  | S fuel => a :: flat_map (λ b, if String.eqb a b then [] else reach fuel m b)
                            (allowedTargets m a)
  end.

Definition reaches (fuel : nat) (m : StateMachineDefinition) (a b : string) : bool :=
  includes b (reach fuel m a).

Definition check_machine (fuel : nat) (m : StateMachineDefinition) : bool :=
  forallb (λ kv, forallb (λ b, includes b (states m)) (snd kv)) (transitions m)
  && match head (states m) with
     | Some init => forallb (reaches fuel m init) (states m)
     | None => false
     end
  && forallb (λ a, existsb (λ b, bool_decide (allowedTargets m b = [])) (reach fuel m a))
       (states m).

Lemma includes_iff x xs : includes x xs = true ↔ x ∈ xs.
Proof.
  unfold includes. rewrite existsb_exists. split.
  - intros (y & Hy & ->%String.eqb_eq). by apply list_elem_of_In.
  - intros Hx. exists x. split; [by apply list_elem_of_In|apply String.eqb_refl].
Qed.

Lemma edge_target m a b : edge m a b ↔ a ≠ b ∧ b ∈ allowedTargets m a.
Proof.
  unfold edge, canTransition. destruct (String.eqb_spec a b); [naive_solver|].
  by rewrite includes_iff.
Qed.

Lemma reach_sound fuel m a b : b ∈ reach fuel m a → rtc (edge m) a b.
Proof.
  revert a. induction fuel as [|fuel IH]; intros a; simpl.
  - intros ->%list_elem_of_singleton. done.
  - intros [->|Hb]%elem_of_cons; [done|].
    apply list_elem_of_In, in_flat_map in Hb as (c & Hc & Hb).
    destruct (String.eqb_spec a c) as [->|Hne]; [done|].
    apply rtc_l with c; [|apply IH; by apply list_elem_of_In].
    apply edge_target. split; [done|by apply list_elem_of_In].
Qed.

Lemma allowedTargets_listed m a b :
  b ∈ allowedTargets m a → ∃ kv, kv ∈ transitions m ∧ b ∈ snd kv.
Proof.
  unfold allowedTargets. destruct (find_first _ _) as [[k ts]|] eqn:E; [|set_solver].
  apply find_first_Some in E as [? _]. intros. by exists (k, ts).
Qed.

Lemma check_machine_sound fuel m : check_machine fuel m = true → well_formed m.
Proof.
  unfold check_machine, well_formed. intros [[H1 H2]%andb_true_iff H3]%andb_true_iff.
  rewrite !forallb_forall in *. split_and!.
  - intros a b [_ (kv & Hkv & Hb)%allowedTargets_listed]%edge_target.
    apply list_elem_of_In in Hkv. specialize (H1 _ Hkv).
    rewrite forallb_forall in H1. apply includes_iff, H1. by apply list_elem_of_In.
  - intros a Ha. destruct (head (states m)) as [init|]; [|done].
    exists init. split; [done|]. rewrite forallb_forall in H2.
    eapply reach_sound, includes_iff, H2. by apply list_elem_of_In.
  - intros a Ha. apply list_elem_of_In in Ha. specialize (H3 a Ha).
    apply existsb_exists in H3 as (b & Hb & Ht).
    apply bool_decide_eq_true in Ht. exists b. split.
    + intros c [_ Hc]%edge_target. rewrite Ht in Hc. set_solver.
    + eapply reach_sound. by apply list_elem_of_In.
Qed.

(** ** Lemmas on the engine *)
Section runs.
Context `{Redis} {D T : Type}.
Implicit Types (s : St D) (o : TransitionOptions D T).

(** A run that is neither refused nor skipped starts the hooks along an edge. *)
Lemma transition_cases m o s :
  (canTransition m (from o) (to o) = false ∧
     ∃ msg, transition m o s = (Throw (AppException CONFLICT msg 409), s))
  ∨ (from o = to o ∧ transition m o s = (Ok (mkResult (from o) (to o) true None), s))
  ∨ (edge m (from o) (to o) ∧ transition m o s = transition_steps m o s).
Proof.
  unfold transition, assertTransition, edge.
  destruct (canTransition m (from o) (to o)) eqn:E.
  - right. destruct (String.eqb_spec (from o) (to o)) as [Heq|Hne]; [left|by right].
    split; [done|]. unfold mbind, M_bind. simpl.
    unfold canTransition in E. rewrite Heq, String.eqb_refl in E. by rewrite E.
  - left. split; [done|]. by eexists.
Qed.
End runs.

(** ** Properties *)

(** Each of the six lifecycle graphs is well formed: targets are declared
    statuses, every status is reachable from the initial one, and every status
    leads to a final one. *)
Lemma machines_well_formed : Forall well_formed machines.
Proof.
  unfold machines. repeat (apply Forall_cons_2; [apply (check_machine_sound 8); vm_compute; reflexivity|]).
  apply Forall_nil_2.
Qed.

(** the engine moves a persisted status only along an edge of the graph,
    whatever the hooks do besides: after a run that started from the stored
    status, the stored status is the old one, or the requested one with an edge
    between them, and a run that succeeds without being skipped has stored it. *)
Theorem transition_follows_graph `{Redis} {D T} (status : D → string) (m : StateMachineDefinition)
    (o : TransitionOptions D T) (s : St D) :
  from o = status (tables s) →
  (∀ ctx h, before o = Some h ∨ audit o = Some h ∨ after o = Some h →
     stays (framing (λ s, status (tables s))) (h ctx)) →
  (∀ s1, match apply o (context_of m o) s1 with
         | (Ok _, s2) => status (tables s2) = to o
         | (Throw _, s2) => status (tables s2) = status (tables s1)
         end) →
  let s' := snd (transition m o s) in
  (status (tables s') = status (tables s)
   ∨ status (tables s') = to o ∧ edge m (status (tables s)) (to o))
  ∧ (∀ r, fst (transition m o s) = Ok r → res_skipped r = false →
     status (tables s') = to o).
Proof.
  intros Hfrom Hhooks Happly. cbv zeta. rewrite <- Hfrom.
  destruct (transition_cases m o s) as [(_ & msg & ->)|[(_ & ->)|[Hedge ->]]];
    [simpl; split; [by left|done]|simpl; split; [by left|naive_solver]|].
  set (R := framing (λ s : St D, status (tables s))).
  assert (∀ h ctx, h = before o ∨ h = audit o ∨ h = after o → stays R (run_hook h ctx)) as Hrun.
  { intros [h|] ctx Hh; [apply Hhooks; naive_solver|apply stays_ret, _]. }
  unfold transition_steps.
  pose proof (Hrun (before o) (context_of m o) ltac:(naive_solver) s) as Hb.
  destruct (run_hook (before o) _ s) as [[[]|e] s1] eqn:Eb;
    [rewrite (bind_step _ _ _ _ _ Eb)|rewrite (bind_abort _ _ _ _ _ Eb)];
    unfold R, framing in Hb; simpl in Hb; [|split; [left; simpl; congruence|done]].
  specialize (Happly s1).
  destruct (apply o _ s1) as [[r|e] s2] eqn:Ea;
    [rewrite (bind_step _ _ _ _ _ Ea)|rewrite (bind_abort _ _ _ _ _ Ea)];
    [|split; [left; simpl; congruence|done]].
  match goal with |- context [snd (?k s2)] => assert (stays R k) as Htail end.
  { apply stays_bind; [apply _|apply Hrun; naive_solver|intros _].
    apply stays_bind; [apply _|apply stays_when; [apply _|by intros ?]|intros _].
    apply stays_bind; [apply _|apply Hrun; naive_solver|intros _; apply stays_ret, _]. }
  specialize (Htail s2). unfold R, framing in Htail. rewrite Htail, Happly.
  split; [by right|done].
Qed.

(** ** Witnesses *)
Definition status_of (d : string) : string := d.
Definition set_status_options : TransitionOptions string () :=
  mkOptions "id" "created" "packed" None None None None
    (λ ctx, modify (λ s, mkSt (env s) (ctx_to ctx))) None None false.

Lemma transition_follows_graph_witness :
  let s := mkSt (mkEnv gmap_redis 0 (∅ : kv) true [] [] 0) "created" in
  status_of (tables (snd (transition shipmentStateMachine set_status_options s))) = "packed".
Proof.
  intros s.
  destruct (transition_follows_graph status_of shipmentStateMachine set_status_options s)
    as [_ Hok].
  - reflexivity.
  - intros ctx h [Hh|[Hh|Hh]]; discriminate Hh.
  - intros s1. reflexivity.
  - eapply Hok; reflexivity.
Defined.
