(* ===== verification/Saga.v ===== *)
(** * Saga coordinator

    Models [backend/src/shared/workflow]: the in-memory workflow store, and the
    coordinator that runs the steps of a workflow forward with retries and
    timeouts and, when a step fails, compensates the completed ones backwards.

    A step's [execute] and [compensate] are computations on the application
    state [St D]; the coordinator runs them inside its own state, which adds the
    workflow store. Times are milliseconds. A step whose promise resolves after
    its timer fired is modelled by the schedule in which the late promise
    finishes before the next attempt or the compensation starts. *)
From S2P Require Import Prelude Core Effects Redis.

(** ** Data ([workflow.types.ts]) *)

Inductive WorkflowStatus :=
| wf_pending | wf_running | wf_compensating | wf_completed | wf_failed | wf_timed_out.

Inductive StepStatus :=
| st_pending | st_running | st_completed | st_failed | st_compensated | st_skipped.

#[export] Instance WorkflowStatus_eq_dec : EqDecision WorkflowStatus.
Proof. solve_decision. Defined.
#[export] Instance StepStatus_eq_dec : EqDecision StepStatus.
Proof. solve_decision. Defined.

Record RetryPolicy := mkRetry {
  maxAttempts : option Z;
  delayMs : option Z;
  backoffFactor : option Z;
}.

Record StepRecord := mkStepRecord {
  rec_name : string;
  rec_status : StepStatus;
  rec_attempts : Z;
  rec_error : option string;
  rec_startedAt : option Z;
  rec_finishedAt : option Z;
}.

Record WorkflowInstance (C : Type) := mkInstance {
  inst_id : string;
  inst_name : string;
  inst_status : WorkflowStatus;
  inst_context : C;
  inst_steps : list StepRecord;
  inst_currentStepIndex : nat;
  inst_error : option string;
  inst_createdAt : Z;
  inst_updatedAt : Z;
  inst_finishedAt : option Z;
}.
Arguments mkInstance {C}.
Arguments inst_id {C}. Arguments inst_name {C}. Arguments inst_status {C}.
Arguments inst_context {C}. Arguments inst_steps {C}. Arguments inst_currentStepIndex {C}.
Arguments inst_error {C}. Arguments inst_createdAt {C}. Arguments inst_updatedAt {C}.
Arguments inst_finishedAt {C}.

(** ** WorkflowStore: the [Map] keeps insertion order *)
Module WorkflowStore.
Section store.
Context {C : Type}.
Implicit Types m : list (WorkflowInstance C).

Definition get (id : string) m : option (WorkflowInstance C) :=
  find_first (λ i, String.eqb (inst_id i) id) m.

Definition save (i : WorkflowInstance C) m : list (WorkflowInstance C) :=
  match get (inst_id i) m with
  | Some _ => update_rows inst_id (inst_id i) (λ _, i) m
  | None => m ++ [i]
  end.

(** Insertion before the first entry that is strictly older: a stable sort by
    [updatedAt], newest first. *)
Fixpoint insert_by_updated (i : WorkflowInstance C) m : list (WorkflowInstance C) :=
  match m with
  | [] => [i]
  | j :: rest => if inst_updatedAt j <=? inst_updatedAt i then i :: j :: rest
                 else j :: insert_by_updated i rest
  end.

Definition list_ (limit : nat) m : list (WorkflowInstance C) :=
  take limit (foldr insert_by_updated [] m).

Definition delete (id : string) m : bool * list (WorkflowInstance C) :=
  (match get id m with Some _ => true | None => false end,
   where_ (λ i, negb (String.eqb (inst_id i) id)) m).

Definition clear m : list (WorkflowInstance C) := [].
Definition size m : nat := length m.
End store.
End WorkflowStore.

(** The coordinator's state: its store beside the application's tables. *)
Record WfSt (C D : Type) := mkWfSt { workflows : list (WorkflowInstance C); app : D }.
Arguments mkWfSt {C D}. Arguments workflows {C D}. Arguments app {C D}.

Definition appL {C D} : lens (WfSt C D) D.
Proof. refine (Lens app (λ d w, mkWfSt (workflows w) d) _ _ _); by intros; try destruct s. Defined.

(** The fields of the contexts are merged by [Object.assign]. *)
Class Assign (C P : Type) := assign : C → P → C.

Section saga.
Context `{Redis, !Scheduler, !Crypto, !ClientText} {C P D : Type} `{!Assign C P}.

Record WorkflowStep := mkStep {
  step_name : string;
  execute : C → M (St D) (option P);
  compensate : option (C → M (St D) ());
  step_retry : option RetryPolicy;
  step_timeoutMs : option Z;
}.

Record WorkflowDefinition := mkWorkflow {
  def_name : string;
  steps : list WorkflowStep;
  def_timeoutMs : option Z;
  def_retry : option RetryPolicy;
}.

Definition DEFAULT_WORKFLOW_TIMEOUT_MS : Z := 60000.

Notation S' := (St (WfSt C D)).
Notation Inst := (WorkflowInstance C).

(** [{ ...DEFAULT_RETRY, ...definition.retry, ...step.retry }], one field. *)
Definition policy_field (f : RetryPolicy → option Z) (default : Z)
    (definition : WorkflowDefinition) (step : WorkflowStep) : Z :=
  coalesce (step_retry step ≫= f) (coalesce (def_retry definition ≫= f) default).

Definition policy_maxAttempts := policy_field maxAttempts 1.
Definition policy_delayMs := policy_field delayMs 100.
Definition policy_backoffFactor := policy_field backoffFactor 2.

(** Field updates of the mutable instance and of the record of step [i]. *)
Definition set_status (st : WorkflowStatus) (i : Inst) : Inst :=
  mkInstance (inst_id i) (inst_name i) st (inst_context i) (inst_steps i)
    (inst_currentStepIndex i) (inst_error i) (inst_createdAt i) (inst_updatedAt i)
    (inst_finishedAt i).
Definition set_context (c : C) (i : Inst) : Inst :=
  mkInstance (inst_id i) (inst_name i) (inst_status i) c (inst_steps i)
    (inst_currentStepIndex i) (inst_error i) (inst_createdAt i) (inst_updatedAt i)
    (inst_finishedAt i).
Definition set_steps (ss : list StepRecord) (i : Inst) : Inst :=
  mkInstance (inst_id i) (inst_name i) (inst_status i) (inst_context i) ss
    (inst_currentStepIndex i) (inst_error i) (inst_createdAt i) (inst_updatedAt i)
    (inst_finishedAt i).
Definition set_index (n : nat) (i : Inst) : Inst :=
  mkInstance (inst_id i) (inst_name i) (inst_status i) (inst_context i) (inst_steps i)
    n (inst_error i) (inst_createdAt i) (inst_updatedAt i) (inst_finishedAt i).
Definition set_error (e : option string) (i : Inst) : Inst :=
  mkInstance (inst_id i) (inst_name i) (inst_status i) (inst_context i) (inst_steps i)
    (inst_currentStepIndex i) e (inst_createdAt i) (inst_updatedAt i) (inst_finishedAt i).
Definition set_updatedAt (t : Z) (i : Inst) : Inst :=
  mkInstance (inst_id i) (inst_name i) (inst_status i) (inst_context i) (inst_steps i)
    (inst_currentStepIndex i) (inst_error i) (inst_createdAt i) t (inst_finishedAt i).
Definition set_finishedAt (t : Z) (i : Inst) : Inst :=
  mkInstance (inst_id i) (inst_name i) (inst_status i) (inst_context i) (inst_steps i)
    (inst_currentStepIndex i) (inst_error i) (inst_createdAt i) (inst_updatedAt i) (Some t).

Definition set_record (n : nat) (f : StepRecord → StepRecord) (i : Inst) : Inst :=
  set_steps (alter f n (inst_steps i)) i.

Definition rec_set_status (st : StepStatus) (r : StepRecord) : StepRecord :=
  mkStepRecord (rec_name r) st (rec_attempts r) (rec_error r) (rec_startedAt r) (rec_finishedAt r).
Definition rec_set_attempts (n : Z) (r : StepRecord) : StepRecord :=
  mkStepRecord (rec_name r) (rec_status r) n (rec_error r) (rec_startedAt r) (rec_finishedAt r).
Definition rec_set_error (e : string) (r : StepRecord) : StepRecord :=
  mkStepRecord (rec_name r) (rec_status r) (rec_attempts r) (Some e) (rec_startedAt r) (rec_finishedAt r).
Definition rec_set_started (t : Z) (r : StepRecord) : StepRecord :=
  mkStepRecord (rec_name r) (rec_status r) (rec_attempts r) (rec_error r) (Some t) (rec_finishedAt r).
Definition rec_set_finished (t : Z) (r : StepRecord) : StepRecord :=
  mkStepRecord (rec_name r) (rec_status r) (rec_attempts r) (rec_error r) (rec_startedAt r) (Some t).

(** [touch] *)
Definition touch (i : Inst) : M S' Inst :=
  now ← Date_now;
  let i := set_updatedAt now i in
  modify (λ s, mkSt (env s) (mkWfSt (WorkflowStore.save i (workflows (tables s))) (app (tables s)))) ;;
  mret i.

(** [withTimeout] around a step's promise. *)
Definition withTimeout {A} (m : M (St D) A) (ms : Z) (message : string) : M (St D) A := λ s,
  match m s with
  | (o, s') => if ms <? clock (env s') - clock (env s) then (Throw (JsError message), s')
               else (o, s')
  end.

(** Run application code from the coordinator, keeping what it throws. *)
Definition attempt {A} (m : M (St D) A) : M S' (exn + A) :=
  try_catch (a ← zoom (stL appL) m; mret (inr a)) (λ e, mret (inl e)).

(** The retry loop of one step: [n] attempts are left. *)
Fixpoint attempts (n : nat) (attemptNo : Z) (definition : WorkflowDefinition)
    (step : WorkflowStep) (index : nat) (stepTimeout : Z) (lastError : option exn) (i : Inst)
  : M S' (Inst * option exn) :=
  match n with
  | O => mret (i, lastError)
  | S n =>
      let i := set_record index (rec_set_attempts attemptNo) i in
      r ← attempt (withTimeout (execute step (inst_context i)) stepTimeout
             ("Step " +:+ String "034"%char "" +:+ step_name step +:+ String "034"%char "" +:+ " timed out"));
      match r with
      | inr patch =>
          let i := match patch with
                   | Some p => set_context (assign (inst_context i) p) i
                   | None => i
                   end in
          now ← Date_now;
          let i := set_record index (rec_set_status st_completed) i in
          let i := set_record index (rec_set_finished now) i in
          i ← touch i;
          mret (i, None)
      | inl err =>
          when_ (attemptNo <? policy_maxAttempts definition step)
            (sleep (policy_delayMs definition step *
                    policy_backoffFactor definition step ^ (attemptNo - 1))) ;;
          attempts n (attemptNo + 1) definition step index stepTimeout (Some err) i
      end
  end.

(** The compensation loop of [failAndCompensate], over the steps before the
    failed one, last first, each with its index. *)
Fixpoint compensations (todo : list (nat * WorkflowStep)) (i : Inst) : M S' Inst :=
  match todo with
  | [] => mret i
  | (n, step) :: rest =>
      match inst_steps i !! n, compensate step with
      | Some record, Some comp =>
          if bool_decide (rec_status record = st_completed) then
            r ← attempt (comp (inst_context i));
            let i := match r with
                     | inr _ => set_record n (rec_set_status st_compensated) i
                     | inl compErr => set_record n (rec_set_error ("compensate: " +:+ errMsg compErr)) i
                     end in
            i ← touch i;
            compensations rest i
          else compensations rest i
      | _, _ => compensations rest i
      end
  end.

(** The steps [failedIndex - 1, ..., 0] of the loop. *)
Definition to_compensate (definition : WorkflowDefinition) (failedIndex : nat)
  : list (nat * WorkflowStep) :=
  reverse (zip (seq 0 failedIndex) (take failedIndex (steps definition))).

Definition failAndCompensate (definition : WorkflowDefinition) (i : Inst) (failedIndex : nat)
    (message : string) (status : WorkflowStatus) : M S' Inst :=
  let i := set_error (Some message) (set_status wf_compensating i) in
  i ← touch i;
  i ← compensations (to_compensate definition failedIndex) i;
  now ← Date_now;
  touch (set_finishedAt now (set_status status i)).

(** The [for] loop over the steps, from step number [index]. *)
Fixpoint run_steps (todo : list WorkflowStep) (index : nat) (definition : WorkflowDefinition)
    (workflowDeadline : Z) (i : Inst) : M S' Inst :=
  match todo with
  | [] =>
      now ← Date_now;
      touch (set_finishedAt now (set_status wf_completed i))
  | step :: rest =>
      now ← Date_now;
      if workflowDeadline <? now then
        failAndCompensate definition i index "Workflow timed out" wf_timed_out
      else
        let i := set_index index i in
        let stepTimeout := coalesce (step_timeoutMs step) (Z.max 1000 (workflowDeadline - now)) in
        let i := set_record index (rec_set_status st_running) i in
        let i := set_record index (rec_set_started now) i in
        i ← touch i;
        r ← attempts (Z.to_nat (policy_maxAttempts definition step)) 1 definition step index
              stepTimeout None i;
        let '(i, lastError) := r in
        match lastError with
        | Some err =>
            now ← Date_now;
            let i := set_record index (rec_set_status st_failed) i in
            let i := set_record index (rec_set_error (errMsg err)) i in
            let i := set_record index (rec_set_finished now) i in
            failAndCompensate definition i index (errMsg err) wf_failed
        | None => run_steps rest (S index) definition workflowDeadline i
        end
  end.

Definition new_instance (definition : WorkflowDefinition) (initialContext : C)
    (id : string) (now : Z) : Inst :=
  mkInstance id (def_name definition) wf_running initialContext
    (map (λ s, mkStepRecord (step_name s) st_pending 0 None None None) (steps definition))
    0 None now now None.

(** [run]: the outer [catch] marks the instance failed and rethrows. *)
Definition run (definition : WorkflowDefinition) (initialContext : C) : M S' Inst :=
  now ← Date_now;
  id ← random_hex;
  let i := new_instance definition initialContext id now in
  modify (λ s, mkSt (env s) (mkWfSt (WorkflowStore.save i (workflows (tables s))) (app (tables s)))) ;;
  now ← Date_now;
  let workflowDeadline := now + coalesce (def_timeoutMs definition) DEFAULT_WORKFLOW_TIMEOUT_MS in
  try_catch (run_steps (steps definition) 0 definition workflowDeadline i)
    (λ err,
       now ← Date_now;
       _ ← touch (set_finishedAt now (set_error (Some (errMsg err)) (set_status wf_failed i)));
       throw (JsError (errMsg err))).
End saga.
Arguments WorkflowStep {_} C P D.
Arguments WorkflowDefinition {_} C P D.
Arguments mkStep {_ C P D}.
Arguments mkWorkflow {_ C P D}.

(** ** The abstract saga

    What the coordinator promises, without instances, records and the store:
    run the steps in order, and when one fails (or the deadline passes) run the
    compensations of the steps done so far, last first, ignoring what they throw. *)
Section abstract.
Context `{Redis, !Scheduler} {C P D : Type} `{!Assign C P}.
Notation step_t := (WorkflowStep C P D).

Definition a_attempt {A} (m : M (St D) A) : M (St D) (exn + A) :=
  try_catch (a ← m; mret (inr a)) (λ e, mret (inl e)).

Definition patched (c : C) (p : option P) : C :=
  match p with Some p => assign c p | None => c end.

Fixpoint a_attempts (n : nat) (attemptNo : Z) (definition : WorkflowDefinition C P D)
    (step : step_t) (stepTimeout : Z) (lastError : option exn) (c : C)
  : M (St D) (C * option exn) :=
  match n with
  | O => mret (c, lastError)
  | S n =>
      r ← a_attempt (withTimeout (execute step c) stepTimeout
            ("Step " +:+ String "034"%char "" +:+ step_name step +:+ String "034"%char "" +:+ " timed out"));
      match r with
      | inr patch => mret (patched c patch, None)
      | inl err =>
          when_ (attemptNo <? policy_maxAttempts definition step)
            (sleep (policy_delayMs definition step *
                    policy_backoffFactor definition step ^ (attemptNo - 1))) ;;
          a_attempts n (attemptNo + 1) definition step stepTimeout (Some err) c
      end
  end.

Fixpoint a_undo (done : list step_t) (c : C) : M (St D) () :=
  match done with
  | [] => mret tt
  | step :: rest =>
      match compensate step with
      | Some comp => _ ← a_attempt (comp c); a_undo rest c
      | None => a_undo rest c
      end
  end.

Fixpoint a_run (todo done : list step_t) (definition : WorkflowDefinition C P D)
    (deadline : Z) (c : C) : M (St D) (WorkflowStatus * C) :=
  match todo with
  | [] => mret (wf_completed, c)
  | step :: rest =>
      now ← Date_now;
      if deadline <? now then a_undo done c ;; mret (wf_timed_out, c)
      else
        r ← a_attempts (Z.to_nat (policy_maxAttempts definition step)) 1 definition step
              (coalesce (step_timeoutMs step) (Z.max 1000 (deadline - now))) None c;
        match r with
        | (c, Some _) => a_undo done c ;; mret (wf_failed, c)
        | (c, None) => a_run rest (step :: done) definition deadline c
        end
  end.
End abstract.

(** ** Simulation: a computation of the coordinator against an abstract one *)
Section simulation.
Context `{Redis, !Scheduler, !Crypto, !ClientText} {C P D : Type} `{!Assign C P}.
Notation S' := (St (WfSt C D)).
Notation Inst := (WorkflowInstance C).

(** The application's view of the coordinator's state. *)
Definition vw (s : S') : St D := view (stL appL) s.

(** Neither side throws, they end in the same application state, and [Q]
    relates the results and the coordinator's final state. *)
Definition sim {A B} (m : M S' A) (m' : M (St D) B) (Q : A → B → S' → Prop) : Prop :=
  ∀ s, ∃ a s' b, m s = (Ok a, s') ∧ m' (vw s) = (Ok b, vw s') ∧ Q a b s'.

Lemma sim_ret {A B} (a : A) (b : B) (Q : A → B → S' → Prop) :
  (∀ s, Q a b s) → sim (mret a) (mret b) Q.
Proof. intros HQ s. exists a, s, b. split_and!; [done|done|apply HQ]. Qed.

Lemma sim_bind {A B A' B'} (m : M S' A) (k : A → M S' B) (m' : M (St D) A')
    (k' : A' → M (St D) B') R Q :
  sim m m' (λ a b _, R a b) → (∀ a b, R a b → sim (k a) (k' b) Q) →
  sim (m ≫= k) (m' ≫= k') Q.
Proof.
  intros Hm Hk s. destruct (Hm s) as (a & s1 & b & Em & Em' & HR).
  destruct (Hk a b HR s1) as (a2 & s2 & b2 & Ek & Ek' & HQ).
  exists a2, s2, b2. by rewrite (bind_step _ _ _ _ _ Em), (bind_step _ _ _ _ _ Em').
Qed.

(** A step of the coordinator that the application does not see. *)
Lemma sim_bind_l {A B B'} (m : M S' A) (k : A → M S' B) (m' : M (St D) B') R Q :
  sim m (mret tt) (λ a _ _, R a) → (∀ a, R a → sim (k a) m' Q) → sim (m ≫= k) m' Q.
Proof.
  intros Hm Hk s. destruct (Hm s) as (a & s1 & [] & Em & Em' & HR).
  assert (vw s = vw s1) as Ev by exact (f_equal snd Em').
  destruct (Hk a HR s1) as (a2 & s2 & b2 & Ek & Ek' & HQ).
  exists a2, s2, b2. rewrite (bind_step _ _ _ _ _ Em), Ev. done.
Qed.

Lemma sim_Date_now : sim Date_now Date_now (λ a b _, a = b).
Proof. intros s. by eexists _, _, _. Qed.

Lemma sim_Date_now_l : sim Date_now (mret tt) (λ _ _ _, True).
Proof. intros s. by eexists _, _, _. Qed.

Lemma sim_sleep ms : sim (sleep ms) (sleep ms) (λ _ _ _, True).
Proof. intros s. by eexists _, _, _. Qed.

Lemma sim_attempt {A} (m : M (St D) A) : sim (attempt m) (a_attempt m) (λ a b _, a = b).
Proof.
  intros s. unfold attempt, a_attempt, try_catch, mbind, M_bind, zoom, vw.
  destruct (m (view (stL appL) s)) as [[a|e] s1]; simpl; eexists _, _, _;
    (split_and!; [done| |done]); by destruct s1.
Qed.

(** What [touch] leaves: the store holds the instance it returns. *)
Definition stored (i : Inst) (s : S') : Prop :=
  WorkflowStore.get (inst_id i) (workflows (tables s)) = Some i.

Lemma get_update (i : Inst) m :
  is_Some (WorkflowStore.get (inst_id i) m) →
  WorkflowStore.get (inst_id i) (update_rows inst_id (inst_id i) (λ _, i) m) = Some i.
Proof.
  unfold WorkflowStore.get, update_rows. induction m as [|j m IH]; simpl; [by intros []|].
  destruct (String.eqb (inst_id j) (inst_id i)) eqn:E; simpl.
  - by rewrite String.eqb_refl.
  - by rewrite E.
Qed.

Lemma get_append (i : Inst) m :
  WorkflowStore.get (inst_id i) m = None → WorkflowStore.get (inst_id i) (m ++ [i]) = Some i.
Proof.
  unfold WorkflowStore.get. induction m as [|j m IH]; simpl; [by rewrite String.eqb_refl|].
  by destruct (String.eqb (inst_id j) (inst_id i)).
Qed.

Lemma get_save (i : Inst) m : WorkflowStore.get (inst_id i) (WorkflowStore.save i m) = Some i.
Proof.
  unfold WorkflowStore.save. destruct (WorkflowStore.get (inst_id i) m) eqn:E.
  - apply get_update. by rewrite E.
  - by apply get_append.
Qed.

Lemma sim_touch (i : Inst) :
  sim (touch i) (mret tt) (λ i' _ s', (∃ t, i' = set_updatedAt t i) ∧ stored i' s').
Proof.
  intros s. set (i' := set_updatedAt (clock (env s)) i).
  exists i', (mkSt (env s) (mkWfSt (WorkflowStore.save i' (workflows (tables s))) (app (tables s)))), tt.
  split_and!; [done|done|by eexists|]. apply (get_save i').
Qed.

Lemma sim_weaken {A B} (m : M S' A) (m' : M (St D) B) (Q Q' : A → B → S' → Prop) :
  sim m m' Q → (∀ a b s, Q a b s → Q' a b s) → sim m m' Q'.
Proof. intros Hm HQ s. destruct (Hm s) as (a & s' & b & ? & ? & ?). naive_solver. Qed.

Lemma sim_when (c : bool) m m' :
  sim m m' (λ _ _ _, True) → sim (when_ c m) (when_ c m') (λ _ _ _, True).
Proof. destruct c; [done|]. intros _. by apply sim_ret. Qed.

(** The records of the steps before [n] say [completed]. *)
Definition done_upto (n : nat) (rs : list StepRecord) : Prop :=
  ∀ j, (j < n)%nat → ∃ r, rs !! j = Some r ∧ rec_status r = st_completed.

Lemma done_upto_other n j f rs : (n <= j)%nat → done_upto n rs → done_upto n (alter f j rs).
Proof.
  intros Hj Hd k Hk. destruct (Hd k Hk) as (r & Hr & Hs). exists r.
  rewrite list_lookup_alter_ne by lia. done.
Qed.

Lemma done_upto_S n rs : (n < length rs)%nat → done_upto n rs → ∀ t,
  done_upto (S n) (alter (rec_set_finished t) n (alter (rec_set_status st_completed) n rs)).
Proof.
  intros Hlt Hd t j Hj. destruct (decide (j = n)) as [->|].
  - destruct (lookup_lt_is_Some_2 _ _ Hlt) as [r Hr].
    rewrite !list_lookup_alter_eq, Hr. by eexists.
  - apply (done_upto_other n n _ _ ltac:(lia)); [|lia]. by apply done_upto_other.
Qed.

Lemma sim_attempts n no (definition : WorkflowDefinition C P D) step index timeout last (i : Inst) :
  (index < length (inst_steps i))%nat → done_upto index (inst_steps i) →
  (n ≠ 0%nat ∨ last ≠ None) →
  sim (attempts n no definition step index timeout last i)
      (a_attempts n no definition step timeout last (inst_context i))
      (λ r r' _, inst_context (fst r) = fst r' ∧ snd r = snd r'
         ∧ length (inst_steps (fst r)) = length (inst_steps i)
         ∧ done_upto index (inst_steps (fst r))
         ∧ (snd r = None → done_upto (S index) (inst_steps (fst r)))).
Proof.
  revert no last i. induction n as [|n IH]; intros no last i Hlt Hdone Hn; simpl.
  { apply sim_ret. intros s. simpl. split_and!; [done..|]. naive_solver. }
  eapply sim_bind; [apply sim_attempt|]. intros r ? <-. destruct r as [err|patch].
  - eapply (sim_bind _ _ _ _ (λ _ _, True)); [apply sim_when, sim_sleep|]. intros _ _ _.
    eapply sim_weaken; [apply (IH (no + 1) (Some err)
      (set_record index (rec_set_attempts no) i))|].
    + simpl. by rewrite length_alter.
    + by apply done_upto_other.
    + by right.
    + simpl. rewrite length_alter. naive_solver.
  - match goal with |- context [set_record index (rec_set_status st_completed) ?x] => set (i1 := x) end.
    assert (inst_context i1 = patched (inst_context i) patch
            ∧ inst_steps i1 = alter (rec_set_attempts no) index (inst_steps i)) as [Hc Hs]
      by (unfold i1; by destruct patch).
    eapply sim_bind_l; [apply sim_Date_now_l|]. intros now _.
    eapply (sim_bind_l _ _ _ (λ i', ∃ t, i' = set_updatedAt t _)).
    { eapply sim_weaken; [apply sim_touch|]. simpl. naive_solver. }
    intros ? [t ->]. apply sim_ret. intros s. simpl. rewrite Hs, !length_alter.
    split_and!; [done..| |intros _].
    + do 3 (apply done_upto_other; [lia|]). done.
    + apply done_upto_S; [by rewrite length_alter|]. by apply done_upto_other.
Qed.

(** The compensation loop runs exactly the compensations of the listed steps. *)
Lemma sim_compensations (todo : list (nat * WorkflowStep C P D)) (i : Inst) :
  NoDup (map fst todo) →
  (∀ n, n ∈ map fst todo → ∃ r, inst_steps i !! n = Some r ∧ rec_status r = st_completed) →
  sim (compensations todo i) (a_undo (map snd todo) (inst_context i))
      (λ i' _ _, inst_context i' = inst_context i).
Proof.
  revert i. induction todo as [|[n step] todo IH]; intros i Hnd Hdone; simpl.
  { by apply sim_ret. }
  apply NoDup_cons in Hnd as [Hn Hnd].
  destruct (Hdone n) as (r & Hr & Hst); [left|]. rewrite Hr.
  destruct (compensate step) as [comp|];
    [|apply (IH i); [done|]; intros k Hk; apply Hdone; by right].
  rewrite bool_decide_eq_true_2 by done.
  eapply sim_bind; [apply sim_attempt|]. intros o ? <-.
  match goal with |- context [touch ?x] => set (i1 := x) end.
  assert (inst_context i1 = inst_context i ∧
    ∀ k, k ≠ n → inst_steps i1 !! k = inst_steps i !! k) as [Hc Hs].
  { unfold i1. destruct o; (split; [done|]); intros k Hk; simpl;
      by rewrite list_lookup_alter_ne. }
  eapply (sim_bind_l _ _ _ (λ i', ∃ t, i' = set_updatedAt t i1)).
  { eapply sim_weaken; [apply sim_touch|]. simpl. naive_solver. }
  intros ? [t ->]. rewrite <- Hc. apply (IH (set_updatedAt t i1)); [done|].
  intros k Hk. simpl. rewrite Hs by set_solver. apply Hdone. by right.
Qed.

Lemma to_compensate_fst (definition : WorkflowDefinition C P D) n :
  (n <= length (steps definition))%nat →
  map fst (to_compensate definition n) = reverse (seq 0 n).
Proof.
  intros Hn. unfold to_compensate.
  change (map fst ?l) with (fst <$> l). rewrite fmap_reverse, fst_zip; [done|].
  rewrite length_take, length_seq. lia.
Qed.

Lemma to_compensate_snd (definition : WorkflowDefinition C P D) n :
  (n <= length (steps definition))%nat →
  map snd (to_compensate definition n) = reverse (take n (steps definition)).
Proof.
  intros Hn. unfold to_compensate.
  change (map snd ?l) with (snd <$> l). rewrite fmap_reverse, snd_zip; [done|].
  rewrite length_take, length_seq. lia.
Qed.

Lemma sim_fail (definition : WorkflowDefinition C P D) (i : Inst) n message status :
  (n <= length (steps definition))%nat → done_upto n (inst_steps i) →
  sim (failAndCompensate definition i n message status)
      (a_undo (reverse (take n (steps definition))) (inst_context i) ;;
       mret (status, inst_context i))
      (λ i' r s', (inst_status i', inst_context i') = r ∧ stored i' s').
Proof.
  intros Hn Hdone. unfold failAndCompensate.
  eapply (sim_bind_l _ _ _ (λ i', inst_context i' = inst_context i ∧ inst_steps i' = inst_steps i)).
  { eapply sim_weaken; [apply sim_touch|]. simpl. intros ? ? ? [[t ->] _]. done. }
  intros i1 [Hc Hs]. rewrite <- Hc, <- to_compensate_snd by done.
  eapply (sim_bind _ _ _ _ (λ i' _, inst_context i' = inst_context i1)).
  { apply sim_compensations.
    - rewrite to_compensate_fst by done. rewrite reverse_Permutation. apply NoDup_seq.
    - intros k Hk. rewrite to_compensate_fst in Hk by done.
      rewrite elem_of_reverse, elem_of_seq in Hk. rewrite Hs. apply Hdone. lia. }
  intros i2 _ Hc2. eapply sim_bind_l; [apply sim_Date_now_l|]. intros now _.
  intros s. destruct (sim_touch (set_finishedAt now (set_status status i2)) s)
    as (i3 & s' & [] & E & E' & [t ->] & Hst).
  eexists _, s', (status, inst_context i1). split_and!; [exact E| |by simpl; rewrite Hc2|done].
  apply (f_equal snd) in E'. simpl in E'. by rewrite <- E'.
Qed.

Lemma sim_run_steps (definition : WorkflowDefinition C P D) deadline todo index (i : Inst) :
  Forall (λ step, 1 <= policy_maxAttempts definition step) (steps definition) →
  drop index (steps definition) = todo →
  length (inst_steps i) = length (steps definition) →
  done_upto index (inst_steps i) →
  sim (run_steps todo index definition deadline i)
      (a_run todo (reverse (take index (steps definition))) definition deadline (inst_context i))
      (λ i' r s', (inst_status i', inst_context i') = r ∧ stored i' s').
Proof.
  intros Hmax. revert index i. induction todo as [|step rest IH]; intros index i Hdrop Hlen Hdone; simpl.
  { eapply sim_bind_l; [apply sim_Date_now_l|]. intros now _ s.
    destruct (sim_touch (set_finishedAt now (set_status wf_completed i)) s)
      as (i3 & s' & [] & E & E' & [t ->] & Hst).
    eexists _, s', _. split_and!; [exact E| |done|done].
    apply (f_equal snd) in E'. simpl in E'. by rewrite <- E'. }
  assert (Hlk : steps definition !! index = Some step).
  { rewrite <- (Nat.add_0_r index), <- lookup_drop, Hdrop. done. }
  pose proof (lookup_lt_Some _ _ _ Hlk) as Hlt.
  rewrite Forall_forall in Hmax.
  specialize (Hmax step (list_elem_of_lookup_2 _ _ _ Hlk)) as Hstep.
  eapply sim_bind; [apply sim_Date_now|]. intros now ? <-.
  destruct (deadline <? now); [apply sim_fail; [lia|done]|].
  match goal with |- context [touch ?x] => set (i1 := x) end.
  assert (Hd1 : done_upto index (inst_steps i1)).
  { do 2 (apply done_upto_other; [lia|]). done. }
  assert (Hl1 : length (inst_steps i1) = length (steps definition)).
  { unfold i1. simpl. by rewrite !length_alter. }
  assert (Hc1 : inst_context i1 = inst_context i) by done.
  clearbody i1.
  eapply (sim_bind_l _ _ _ (λ i', ∃ t, i' = set_updatedAt t i1)).
  { eapply sim_weaken; [apply sim_touch|]. simpl. naive_solver. }
  intros ? [t ->]. rewrite <- Hc1.
  eapply (sim_bind _ _ _ _ (λ r r', inst_context (fst r) = fst r' ∧ snd r = snd r'
         ∧ length (inst_steps (fst r)) = length (steps definition)
         ∧ done_upto index (inst_steps (fst r))
         ∧ (snd r = None → done_upto (S index) (inst_steps (fst r))))).
  { eapply sim_weaken; [apply (sim_attempts _ _ _ _ index _ _ (set_updatedAt t i1))|].
    - simpl. lia.
    - done.
    - left. lia.
    - simpl. rewrite Hl1. done. }
  intros [i2 last] [c last'] (Hc & Hlast & Hl & Hd & Hd'). simpl in *. subst c last'.
  destruct last as [err|].
  - eapply sim_bind_l; [apply sim_Date_now_l|]. intros now' _.
    apply (sim_fail definition (set_record index (rec_set_finished now')
      (set_record index (rec_set_error (errMsg err))
        (set_record index (rec_set_status st_failed) i2)))); [lia|].
    do 3 (apply done_upto_other; [lia|]). done.
  - rewrite <- reverse_snoc, <- take_S_r by done.
    apply IH; [|done|by apply Hd'].
    rewrite <- (Nat.add_1_r index), <- drop_drop, Hdrop. done.
Qed.
End simulation.

(** ** A saga of reversible steps undoes itself *)
Section reversible.
Context `{Redis, !Scheduler} {C P D : Type} `{!Assign C P}.

(** [ext] orders contexts by what later patches may add. A step is reversible
    when a failed attempt leaves the tables as they were, and its compensation,
    run with any later context on the tables the step left, restores those it
    found. *)
Definition reversible (ext : C → C → Prop) (step : WorkflowStep C P D) : Prop :=
  (∀ t, step_timeoutMs step = Some t → 0 <= t)
  ∧ (∀ c t msg s e s', 0 <= t → withTimeout (execute step c) t msg s = (Throw e, s') →
     tables s' = tables s)
  ∧ (∀ c t msg s p s', withTimeout (execute step c) t msg s = (Ok p, s') →
     ∀ c' s1, ext (patched c p) c' → tables s1 = tables s' →
     tables (snd (a_undo [step] c' s1)) = tables s).

Context (ext : C → C → Prop) `{!PreOrder ext} (ext_patch : ∀ c p, ext c (patched c p)).

(** The compensations in [done] lead from tables [d] back to [d0]. *)
Definition leads_back (done : list (WorkflowStep C P D)) (c : C) (d0 d : D) : Prop :=
  ∀ c' s, ext c c' → tables s = d → tables (snd (a_undo done c' s)) = d0.

Lemma a_undo_Ok (done : list (WorkflowStep C P D)) c s : ∃ s', a_undo done c s = (Ok tt, s').
Proof.
  revert s. induction done as [|step done IH]; intros s; simpl; [by eexists|].
  destruct (compensate step) as [comp|]; [|apply IH].
  unfold a_attempt, try_catch, mbind, M_bind.
  destruct (comp c s) as [[] s1]; simpl; apply IH.
Qed.

Lemma a_undo_cons step (done : list (WorkflowStep C P D)) c s :
  a_undo (step :: done) c s = a_undo done c (snd (a_undo [step] c s)).
Proof.
  simpl. destruct (compensate step) as [comp|]; [|done].
  unfold a_attempt, try_catch, mbind, M_bind. by destruct (comp c s) as [[] s1].
Qed.

Lemma leads_back_cons step done c c1 d0 d d1 :
  ext c c1 →
  (∀ c' s1, ext c1 c' → tables s1 = d1 → tables (snd (a_undo [step] c' s1)) = d) →
  leads_back done c d0 d → leads_back (step :: done) c1 d0 d1.
Proof.
  intros Hext Hstep Hback c' s Hc' Hs. rewrite a_undo_cons.
  apply Hback; [by etransitivity|]. by apply Hstep.
Qed.

Lemma a_attempt_Ok {A} (m : M (St D) A) s a s' :
  m s = (Ok a, s') → a_attempt m s = (Ok (inr a), s').
Proof. unfold a_attempt, try_catch, mbind, M_bind. by intros ->. Qed.

Lemma a_attempt_Throw {A} (m : M (St D) A) s e s' :
  m s = (Throw e, s') → a_attempt m s = (Ok (inl e), s').
Proof. unfold a_attempt, try_catch, mbind, M_bind. by intros ->. Qed.

(** One step with its retries: it fails and changes no table, or succeeds once. *)
Lemma a_attempts_reversible n no definition step t last c s :
  reversible ext step → 0 <= t →
  ∃ c' last' s', a_attempts n no definition step t last c s = (Ok (c', last'), s')
    ∧ ext c c'
    ∧ match last' with
      | Some _ => tables s' = tables s
      | None => last = None ∧ n = 0%nat ∧ tables s' = tables s ∨
                ∀ c2 s1, ext c' c2 → tables s1 = tables s' →
                  tables (snd (a_undo [step] c2 s1)) = tables s
      end.
Proof.
  intros (_ & Hfail & Hundo) Ht0. revert no last s. induction n as [|n IH]; intros no last s; simpl.
  { eexists _, _, _. split_and!; [done|done|]. destruct last; [done|by left]. }
  match goal with |- context [withTimeout ?m ?x ?msg] =>
    destruct (withTimeout m x msg s) as [[p|e] s1] eqn:E end.
  - rewrite (bind_step _ _ _ _ _ (a_attempt_Ok _ _ _ _ E)).
    eexists _, _, _. split_and!; [done|apply ext_patch|]. right. eauto.
  - apply Hfail in E as Ht; [|done]. rewrite (bind_step _ _ _ _ _ (a_attempt_Throw _ _ _ _ E)).
    set (s2 := snd (when_ (S := St D) (no <? policy_maxAttempts definition step)
      (sleep (policy_delayMs definition step * policy_backoffFactor definition step ^ (no - 1))) s1)).
    assert (tables s2 = tables s) as Ht2.
    { rewrite <- Ht. unfold s2, when_. by destruct (_ <? _). }
    rewrite (bind_step _ _ _ tt s2) by (unfold s2, when_; by destruct (_ <? _)).
    destruct (IH (no + 1) (Some e) s2) as (c' & last' & s' & -> & Hext & Hl).
    eexists _, _, _. split_and!; [done|done|]. rewrite <- Ht2.
    destruct last'; [done|]. destruct Hl as [(? & _)|Hl]; [done|by right].
Qed.

Lemma a_run_reversible todo done definition deadline c s d0 :
  Forall (reversible ext) todo →
  Forall (λ step, 1 <= policy_maxAttempts definition step) todo →
  leads_back done c d0 (tables s) →
  ∃ st c' s', a_run todo done definition deadline c s = (Ok (st, c'), s')
    ∧ (st = wf_completed ∨ (st = wf_failed ∨ st = wf_timed_out) ∧ tables s' = d0).
Proof.
  revert done c s. induction todo as [|step todo IH]; intros done c s Hrev Hmax Hback; simpl.
  { eexists _, _, _. split; [done|by left]. }
  apply Forall_cons in Hrev as [Hstep Hrev]. apply Forall_cons in Hmax as [Hm Hmax].
  rewrite (bind_step _ _ _ (clock (env s)) s) by done.
  destruct (deadline <? clock (env s)).
  { destruct (a_undo_Ok done c s) as [s' E]. rewrite (bind_step _ _ _ _ _ E).
    eexists _, _, _. split; [done|]. right. split; [by right|].
    specialize (Hback c s ltac:(reflexivity) eq_refl). by rewrite E in Hback. }
  match goal with |- context [a_attempts ?n 1 definition step ?t None c] =>
    assert (0 <= t) as Ht;
    [destruct Hstep as [Ht _]; destruct (step_timeoutMs step); simpl; [by apply Ht|lia]|];
    destruct (a_attempts_reversible n 1 definition step t None c s Hstep Ht)
      as (c1 & last & s1 & E & Hext & Hl); rewrite (bind_step _ _ _ _ _ E) end.
  destruct last as [e|].
  - destruct (a_undo_Ok done c1 s1) as [s' E']. rewrite (bind_step _ _ _ _ _ E').
    eexists _, _, _. split; [done|]. right. split; [by left|].
    specialize (Hback c1 s1 Hext Hl). by rewrite E' in Hback.
  - destruct Hl as [(_ & ? & _)|Hl]; [lia|]. apply IH; [done|done|].
    by apply (leads_back_cons _ _ c _ _ (tables s)).
Qed.
End reversible.

(** The whole run against the abstract saga. *)
Lemma run_simulates `{Redis, !Scheduler, !Crypto, !ClientText} {C P D} `{!Assign C P}
    (definition : WorkflowDefinition C P D) (c0 : C) (s : St (WfSt C D)) :
  Forall (λ step, 1 <= policy_maxAttempts definition step) (steps definition) →
  ∃ i s', run definition c0 s = (Ok i, s')
    ∧ a_run (steps definition) [] definition
        (clock (env s) + coalesce (def_timeoutMs definition) DEFAULT_WORKFLOW_TIMEOUT_MS) c0
        (snd (random_hex (vw s)))
      = (Ok (inst_status i, inst_context i), vw s')
    ∧ WorkflowStore.get (inst_id i) (workflows (tables s')) = Some i.
Proof.
  intros Hmax. unfold run.
  rewrite (bind_step _ _ _ (clock (env s)) s) by done.
  rewrite (bind_step _ _ _ (fst (randomBytes_hex (entropy (env s)), tt)) (snd (random_hex s))) by done.
  set (i0 := new_instance definition c0 _ _).
  rewrite (bind_step _ _ _ tt (mkSt (env (snd (random_hex s)))
    (mkWfSt (WorkflowStore.save i0 (workflows (tables s))) (app (tables s))))) by done.
  rewrite (bind_step _ _ _ (clock (env s)) (mkSt (env (snd (random_hex s)))
    (mkWfSt (WorkflowStore.save i0 (workflows (tables s))) (app (tables s))))) by done.
  match goal with |- context [try_catch ?m ?h ?s1] =>
    assert (Hsim := sim_run_steps definition
      (clock (env s) + coalesce (def_timeoutMs definition) DEFAULT_WORKFLOW_TIMEOUT_MS)
      (steps definition) 0 i0 Hmax eq_refl ltac:(by simpl; rewrite length_map)
      ltac:(intros ? ?; lia) s1) end.
  destruct Hsim as (i & s' & b & E & E' & <- & Hst).
  exists i, s'. split_and!; [unfold try_catch; by rewrite E|exact E'|exact Hst].
Qed.

(** ** Properties *)

(** (C7) [run] never throws and implements the abstract saga: if every step is
    tried at least once, it returns an instance whose status and context are
    those of the abstract run, in the application state the abstract run ends in
    (so on failure exactly the completed steps are compensated, last first), and
    the store holds that instance. *)
Theorem run_implements_saga `{Redis, !Scheduler, !Crypto, !ClientText} {C P D} `{!Assign C P}
    (definition : WorkflowDefinition C P D) (c0 : C) (s : St (WfSt C D)) :
  Forall (λ step, 1 <= policy_maxAttempts definition step) (steps definition) →
  ∃ i s', run definition c0 s = (Ok i, s')
    ∧ a_run (steps definition) [] definition
        (clock (env s) + coalesce (def_timeoutMs definition) DEFAULT_WORKFLOW_TIMEOUT_MS) c0
        (snd (random_hex (vw s)))
      = (Ok (inst_status i, inst_context i), vw s')
    ∧ WorkflowStore.get (inst_id i) (workflows (tables s')) = Some i.
Proof. apply run_simulates. Qed.

(** all or nothing: when every step is reversible, a run that does not
    complete ends with the status [failed] or [timed_out] and the application's
    tables exactly as they were before it. *)
Theorem reversible_run_atomic `{Redis, !Scheduler, !Crypto, !ClientText} {C P D} `{!Assign C P}
    (definition : WorkflowDefinition C P D) (ext : C → C → Prop) `{!PreOrder ext}
    (c0 : C) (s : St (WfSt C D)) :
  Forall (λ step, 1 <= policy_maxAttempts definition step) (steps definition) →
  (∀ c (p : option P), ext c (patched c p)) →
  Forall (reversible ext) (steps definition) →
  ∃ i s', run definition c0 s = (Ok i, s')
    ∧ (inst_status i = wf_completed
       ∨ (inst_status i = wf_failed ∨ inst_status i = wf_timed_out)
         ∧ app (tables s') = app (tables s)).
Proof.
  intros Hmax Hext Hrev. destruct (run_simulates definition c0 s Hmax)
    as (i & s' & E & Ea & _).
  exists i, s'. split; [done|].
  destruct (a_run_reversible ext Hext (steps definition) [] definition
    (clock (env s) + coalesce (def_timeoutMs definition) DEFAULT_WORKFLOW_TIMEOUT_MS) c0
    (snd (random_hex (vw s))) (app (tables s)) Hrev Hmax) as (st & c' & s1 & E1 & Hst).
  { by intros c' s1 _ Hs1. }
  rewrite Ea in E1. simplify_eq. destruct Hst as [?|[? Ht]]; [by left|right; split; [done|exact Ht]].
Qed.

(** ** Witnesses: a deposit followed by a step that always fails *)
Section example.
#[local] Instance ex_text : ClientText := λ _, "".
#[local] Instance ex_assign : Assign () () := λ c _, c.

Definition deposit_step : WorkflowStep () () Z :=
  mkStep "deposit"
    (λ _, modify (λ s, mkSt (env s) (tables s + 5)) ;; mret None)
    (Some (λ _, modify (λ s, mkSt (env s) (tables s - 5)))) None None.
Definition failing_step : WorkflowStep () () Z :=
  mkStep "fail" (λ _, throw (JsError "no")) None
    (Some (mkRetry (Some 2) None None)) (Some 100).
Definition example_saga : WorkflowDefinition () () Z :=
  mkWorkflow "example" [deposit_step; failing_step] None None.
Definition example_state : St (WfSt () Z) :=
  mkSt (mkEnv gmap_redis 0 (∅ : kv) true [] [] 0) (mkWfSt [] 7).

Lemma run_implements_saga_witness :
  ∃ i s', run example_saga tt example_state = (Ok i, s')
    ∧ a_run (steps example_saga) [] example_saga 60000 tt (snd (random_hex (vw example_state)))
      = (Ok (inst_status i, inst_context i), vw s')
    ∧ WorkflowStore.get (inst_id i) (workflows (tables s')) = Some i.
Proof.
  apply (run_implements_saga example_saga tt example_state).
  repeat constructor; vm_compute; discriminate.
Defined.

Lemma reversible_run_atomic_witness :
  ∃ i s', run example_saga tt example_state = (Ok i, s')
    ∧ (inst_status i = wf_completed
       ∨ (inst_status i = wf_failed ∨ inst_status i = wf_timed_out) ∧ app (tables s') = 7).
Proof.
  apply (reversible_run_atomic example_saga (λ _ _, True) tt example_state).
  - repeat constructor; vm_compute; discriminate.
  - done.
  - constructor; [|constructor; [|constructor]]; (split_and!; [|intros c t msg s e s' Ht|]).
    + intros t [=].
    + unfold withTimeout, mbind, M_bind. simpl. rewrite Z.sub_diag.
      destruct (Z.ltb_spec t 0); [lia|intros [=]].
    + intros c t msg s p s'. unfold withTimeout, mbind, M_bind. simpl.
      destruct (t <? _); intros [= <- <-]. intros c' s1 _ Hs. simpl in *. lia.
    + intros t [= <-]. lia.
    + unfold withTimeout. simpl. destruct (t <? _); by intros [= <- <-].
    + intros c t msg s p s'. unfold withTimeout. simpl. by destruct (t <? _).
Defined.

(** The deposit is undone and the failing step was tried twice. *)
Example example_run :
  let '(o, s') := run example_saga tt example_state in
  match o with
  | Ok i => inst_status i = wf_failed ∧ app (tables s') = 7
            ∧ map rec_status (inst_steps i) = [st_compensated; st_failed]
            ∧ map rec_attempts (inst_steps i) = [1; 2]
  | Throw _ => False
  end.
Proof. vm_compute. done. Qed.
End example.
