(* ===== verification/JsNumber.v ===== *)
(** * JavaScript numbers

    The services compute money in IEEE 754 binary64. A finite number is the
    rational it denotes; every operation computes exactly and rounds to the
    nearest 53-bit significand, ties to even ([fl]). The exponent range is not
    bounded: the amounts of this program stay far from both ends of it. *)
From S2P Require Import Prelude.
From Stdlib Require Import QArith Qabs Qround Qpower Lqa.

#[local] Open Scope Z_scope.

(** The integer nearest to [n / d], ties to even ([d] positive). *)
Definition round_half_even (n d : Z) : Z :=
  let q := n / d in
  let r := n mod d in
  match Z.compare (2 * r) d with
  | Lt => q
  | Gt => q + 1
  | Eq => if Z.even q then q else q + 1
  end.

(** The exponent [k] with [2^k <= n/d < 2^(k+1)], for positive [n] and [d]. *)
Definition qlog2 (n d : Z) : Z :=
  let k := Z.log2 n - Z.log2 d in
  if (if 0 <=? k then d * 2 ^ k <=? n else d <=? n * 2 ^ (- k)) then k else k - 1.

(** [2 ^ e] as a rational. *)
Definition pow2 (e : Z) : Q := if 0 <=? e then inject_Z (2 ^ e) else / inject_Z (2 ^ (- e)).

(** Rounding of a positive fraction. *)
Definition fl_pos (n d : Z) : Q :=
  let e := qlog2 n d - 52 in
  let m := if 0 <=? e then round_half_even n (d * 2 ^ e) else round_half_even (n * 2 ^ (- e)) d in
  inject_Z m * pow2 e.

Definition fl (x : Q) : Q :=
  if Qnum x =? 0 then 0%Q
  else if 0 <? Qnum x then fl_pos (Qnum x) (Zpos (Qden x))
  else Qopp (fl_pos (- Qnum x) (Zpos (Qden x))).

(** The operators of the language. *)
Definition js_add (a b : Q) : Q := fl (a + b).
Definition js_sub (a b : Q) : Q := fl (a - b).
Definition js_mul (a b : Q) : Q := fl (a * b).
Definition js_div (a b : Q) : Q := fl (a / b).
Definition js_lt (a b : Q) : bool := negb (Qle_bool b a).
Definition js_le (a b : Q) : bool := Qle_bool a b.

(** [Number(decimal)] of a NUMERIC(_, 2) column holding [c] hundredths. *)
Definition cents (c : Z) : Q := fl (inject_Z c / 100).

(** [Number(decimal)] of a NUMERIC(_, 3) column holding [c] thousandths. *)
Definition grams (c : Z) : Q := fl (inject_Z c / 1000).

(** [x.toFixed(2)] in hundredths: the nearest whole number, the larger of two for a
    positive [x] (below 10^21); [Number] of that text is [cents] of it. *)
Definition toFixed2 (x : Q) : Z :=
  if Qle_bool 0 x then Qfloor (x * 100 + (1 # 2)) else - Qfloor (- x * 100 + (1 # 2)).

(** [Math.min], [Math.max] on finite numbers. *)
Definition js_min (a b : Q) : Q := if js_lt b a then b else a.
Definition js_max (a b : Q) : Q := if js_lt a b then b else a.

(** ** Rounding error *)

Lemma round_half_even_error n d : 0 < d →
  2 * Z.abs (round_half_even n d * d - n) <= d.
Proof.
  intros Hd. unfold round_half_even.
  pose proof (Z.div_mod n d ltac:(lia)) as Hn. pose proof (Z.mod_pos_bound n d Hd) as Hr.
  destruct (Z.compare_spec (2 * (n mod d)) d); [destruct (Z.even _)| |]; nia.
Qed.

Lemma qlog2_spec n d : 0 < n → 0 < d →
  (0 <= qlog2 n d → d * 2 ^ qlog2 n d <= n) ∧ (qlog2 n d < 0 → d <= n * 2 ^ (- qlog2 n d)).
Proof.
  intros Hn Hd. unfold qlog2.
  pose proof (Z.log2_spec n Hn) as [Hn1 Hn2]. pose proof (Z.log2_spec d Hd) as [Hd1 Hd2].
  set (a := Z.log2 n) in *. set (b := Z.log2 d) in *.
  assert (0 <= a) by apply Z.log2_nonneg. assert (0 <= b) by apply Z.log2_nonneg.
  assert (H2 : ∀ x, 0 <= x → 2 ^ (Z.succ x) = 2 * 2 ^ x) by (intros; by rewrite Z.pow_succ_r).
  rewrite H2 in Hn2, Hd2 by lia.
  destruct (Z.leb_spec 0 (a - b)) as [Hk|Hk].
  - destruct (Z.leb_spec (d * 2 ^ (a - b)) n); [split; [done|lia]|].
    assert (2 ^ a = 2 ^ b * 2 ^ (a - b)) as Hab by (rewrite <- Z.pow_add_r by lia; f_equal; lia).
    split; intros Hk'.
    + replace (a - b) with (Z.succ (a - b - 1)) in Hab by lia. rewrite H2 in Hab by lia.
      pose proof (Z.pow_nonneg 2 (a - b - 1)). nia.
    + assert (a = b) as -> by lia. rewrite Z.sub_diag. simpl. change (2 ^ 1) with 2. lia.
  - destruct (Z.leb_spec d (n * 2 ^ (- (a - b)))); [split; [lia|done]|].
    assert (2 ^ b = 2 ^ a * 2 ^ (- (a - b))) as Hab by (rewrite <- Z.pow_add_r by lia; f_equal; lia).
    split; [lia|]. intros _.
    replace (- (a - b - 1)) with (Z.succ (- (a - b))) by lia. rewrite H2 by lia.
    pose proof (Z.pow_nonneg 2 (- (a - b))). nia.
Qed.

Lemma fl_pos_int_bounds n d : 0 < n → 0 < d →
  let e := qlog2 n d - 52 in
  if 0 <=? e
  then Z.abs (round_half_even n (d * 2 ^ e) * 2 ^ e * d - n) * 2 ^ 53 <= n
  else Z.abs (round_half_even (n * 2 ^ (- e)) d * d - n * 2 ^ (- e)) * 2 ^ 53 <= n * 2 ^ (- e).
Proof.
  intros Hn Hd. cbv zeta. set (k := qlog2 n d).
  destruct (qlog2_spec n d Hn Hd) as [Hk0 Hk1]. fold k in Hk0, Hk1.
  change (2 ^ 53) with (2 * 2 ^ 52).
  destruct (Z.leb_spec 0 (k - 52)) as [He|He].
  - assert (0 < d * 2 ^ (k - 52)) as Hpos by (pose proof (Z.pow_pos_nonneg 2 (k - 52)); nia).
    pose proof (round_half_even_error n _ Hpos) as Herr.
    specialize (Hk0 ltac:(lia)).
    replace k with ((k - 52) + 52) in Hk0 by lia. rewrite Z.pow_add_r in Hk0 by lia.
    set (m := round_half_even _ _) in *. 
    replace (m * 2 ^ (k - 52) * d) with (m * (d * 2 ^ (k - 52))) by ring. nia.
  - pose proof (round_half_even_error (n * 2 ^ (- (k - 52))) d Hd) as Herr.
    assert (d * 2 ^ 52 <= n * 2 ^ (- (k - 52))); [|nia].
    destruct (Z.le_gt_cases 0 k) as [H0|H0].
    + specialize (Hk0 H0). replace 52 with (k + - (k - 52)) at 1 by lia.
      rewrite Z.pow_add_r by lia. pose proof (Z.pow_nonneg 2 (- (k - 52))). nia.
    + specialize (Hk1 H0). replace (- (k - 52)) with (- k + 52) by lia.
      rewrite Z.pow_add_r by lia. nia.
Qed.

Lemma Q_error_of_Z (a b : Z) (c d : positive) (E : positive) :
  Z.abs (a * Zpos d - b * Zpos c) * Zpos E <= b * Zpos c →
  (Qabs ((a # c) - (b # d)) <= (b # d) / inject_Z (Zpos E))%Q.
Proof.
  intros Hz. unfold Qle, Qabs, Qminus, Qplus, Qopp, Qdiv, Qinv, Qmult, inject_Z. simpl.
  replace (a * Zpos d + - b * Zpos c) with (a * Zpos d - b * Zpos c) by ring.
  rewrite Z.mul_1_r, !Pos2Z.inj_mul.
  set (x := Z.abs _) in *.
  assert (x * (Zpos d * Zpos E) <= b * Zpos c * Zpos d) by nia. nia.
Qed.

Lemma fl_pos_error n (d : positive) : 0 < n →
  (Qabs (fl_pos n (Zpos d) - (n # d)) <= (n # d) / inject_Z (2 ^ 53))%Q.
Proof.
  intros Hn. pose proof (fl_pos_int_bounds n (Zpos d) Hn ltac:(lia)) as Hb. cbv zeta in Hb.
  unfold fl_pos, pow2. destruct (0 <=? qlog2 n (Zpos d) - 52) eqn:He.
  - set (e := qlog2 n (Zpos d) - 52) in *. set (m := round_half_even _ _) in *.
    assert (inject_Z m * inject_Z (2 ^ e) == (m * 2 ^ e) # 1)%Q as ->
      by (rewrite <- inject_Z_mult; reflexivity).
    apply (Q_error_of_Z _ _ 1 d (2 ^ 53)). lia.
  - set (e := qlog2 n (Zpos d) - 52) in *. set (m := round_half_even _ _) in *. bool_to_prop.
    assert (0 < 2 ^ (- e)) as Hp by (apply Z.pow_pos_nonneg; lia).
    destruct (2 ^ (- e)) as [|p|] eqn:Ep; [lia| |lia].
    assert (inject_Z m * / inject_Z (Zpos p) == m # p)%Q as ->
      by (unfold Qeq, Qmult, Qinv, inject_Z; simpl; lia).
    apply (Q_error_of_Z _ _ p d (2 ^ 53)). lia.
Qed.

(** The result of rounding is within half a unit in the last place. *)
Lemma fl_error x : (Qabs (fl x - x) <= Qabs x / inject_Z (2 ^ 53))%Q.
Proof.
  destruct x as [n d]. unfold fl. simpl Qnum. simpl Qden.
  destruct (Z.eqb_spec n 0) as [->|Hne].
  { unfold Qle, Qabs, Qdiv, Qinv, Qmult, Qminus, Qplus, Qopp. simpl. lia. }
  destruct (Z.ltb_spec 0 n) as [Hpos|Hneg].
  - pose proof (fl_pos_error n d Hpos) as He.
    rewrite (Qabs_pos (n # d)) by (unfold Qle; simpl; lia). exact He.
  - pose proof (fl_pos_error (- n) d ltac:(lia)) as He.
    rewrite (Qabs_neg (n # d)) by (unfold Qle; simpl; lia).
    rewrite <- Qabs_opp.
    assert (- (- fl_pos (- n) (Zpos d) - (n # d)) == fl_pos (- n) (Zpos d) - (- n # d))%Q as ->;
      [|exact He].
    change (- n # d)%Q with (- (n # d))%Q. ring.
Qed.

(** For magnitudes up to [B] the error is at most [B / 2^53]. *)
Lemma fl_error_bound (B : Z) x : (Qabs x <= inject_Z B)%Q →
  (x - inject_Z B / inject_Z (2 ^ 53) <= fl x)%Q ∧ (fl x <= x + inject_Z B / inject_Z (2 ^ 53))%Q.
Proof.
  intros HB. pose proof (fl_error x) as He.
  assert (Qabs x / inject_Z (2 ^ 53) <= inject_Z B / inject_Z (2 ^ 53))%Q as Hle.
  { apply Qmult_le_compat_r; [done|]. unfold Qle. simpl. lia. }
  apply (Qle_trans _ _ _ He) in Hle. apply Qabs_Qle_condition in Hle as [H1 H2].
  split; lra.
Qed.

Lemma round_half_even_exact c d : 0 < d → round_half_even (c * d) d = c.
Proof.
  intros Hd. unfold round_half_even. rewrite Z.div_mul, Z_mod_mult by lia.
  by destruct (Z.compare_spec (2 * 0) d); [lia| |lia].
Qed.

(** Integers below 2^53 are not rounded, in whatever fraction they are written. *)
Lemma fl_exact (k : Z) (d : positive) : 0 < k < 2 ^ 53 → (fl (k * Zpos d # d) == inject_Z k)%Q.
Proof.
  intros [Hk Hlt]. unfold fl. cbn [Qnum Qden].
  destruct (Z.eqb_spec (k * Zpos d) 0); [lia|]. destruct (Z.ltb_spec 0 (k * Zpos d)); [|lia].
  unfold fl_pos. set (e := qlog2 (k * Zpos d) (Zpos d) - 52).
  assert (e <= 0) as He.
  { pose proof (qlog2_spec (k * Zpos d) (Zpos d) ltac:(lia) ltac:(lia)) as [Hs _].
    unfold e. clear e. set (q := qlog2 (k * Zpos d) (Zpos d)) in *.
    destruct (Z.le_gt_cases q 52) as [|Hgt]; [lia|]. specialize (Hs ltac:(lia)).
    assert (2 ^ q <= k).
    { apply (Z.mul_le_mono_pos_l _ _ (Zpos d)); [lia|]. by rewrite (Z.mul_comm _ k). }
    assert (2 ^ 53 <= 2 ^ q) by (apply Z.pow_le_mono_r; lia). lia. }
  clearbody e. unfold pow2. destruct (Z.leb_spec 0 e) as [H0|H0].
  - assert (e = 0) as -> by lia. rewrite Z.pow_0_r, Z.mul_1_r, round_half_even_exact by lia.
    change (inject_Z 1) with 1%Q. ring.
  - replace (k * Zpos d * 2 ^ (- e)) with (k * 2 ^ (- e) * Zpos d) by ring.
    rewrite round_half_even_exact by lia. rewrite inject_Z_mult. field.
    pose proof (Z.pow_pos_nonneg 2 (- e) ltac:(lia) ltac:(lia)). intros E.
    unfold Qeq in E. simpl in E. lia.
Qed.

(** Comparisons. *)
Lemma js_lt_iff a b : js_lt a b = true ↔ (a < b)%Q.
Proof.
  unfold js_lt. rewrite negb_true_iff. split.
  - intros Hf. apply Qnot_le_lt. intros Hle%Qle_bool_iff. congruence.
  - intros Hlt. destruct (Qle_bool b a) eqn:E; [|done]. apply Qle_bool_iff in E. lra.
Qed.

Lemma js_le_iff a b : js_le a b = true ↔ (a <= b)%Q.
Proof. unfold js_le. apply Qle_bool_iff. Qed.

Lemma js_lt_false a b : js_lt a b = false ↔ (b <= a)%Q.
Proof. unfold js_lt. rewrite negb_false_iff. apply Qle_bool_iff. Qed.

(** Rounding keeps the sign, so a rounded difference compares as the numbers do. *)
Lemma fl_nonneg x : (0 <= x)%Q → (0 <= fl x)%Q.
Proof.
  intros Hx. pose proof (fl_error x) as He. rewrite (Qabs_pos x) in He by done.
  apply Qabs_Qle_condition in He as [He _].
  assert (x / inject_Z (2 ^ 53) == x * (1 # 9007199254740992))%Q as E by (unfold Qdiv; by f_equiv).
  rewrite E in He. lra.
Qed.

Lemma fl_neg x : (x < 0)%Q → (fl x < 0)%Q.
Proof.
  intros Hx. pose proof (fl_error x) as He. rewrite (Qabs_neg x) in He by lra.
  apply Qabs_Qle_condition in He as [_ He].
  assert (- x / inject_Z (2 ^ 53) == - x * (1 # 9007199254740992))%Q as E by (unfold Qdiv; by f_equiv).
  rewrite E in He. lra.
Qed.

Lemma js_min_spec a b : (js_min a b <= a ∧ js_min a b <= b ∧ (js_min a b = a ∨ js_min a b = b))%Q.
Proof.
  unfold js_min. destruct (js_lt b a) eqn:E.
  - apply js_lt_iff in E. split_and!; [lra..|by right].
  - apply js_lt_false in E. split_and!; [lra..|by left].
Qed.

Lemma js_max_spec a b : (a <= js_max a b ∧ b <= js_max a b ∧ (js_max a b = a ∨ js_max a b = b))%Q.
Proof.
  unfold js_max. destruct (js_lt a b) eqn:E.
  - apply js_lt_iff in E. split_and!; [lra..|by right].
  - apply js_lt_false in E. split_and!; [lra..|by left].
Qed.

Lemma js_le_sub a b : js_le 0 (js_sub a b) = Qle_bool b a.
Proof.
  unfold js_le, js_sub. destruct (Qle_bool b a) eqn:E.
  - apply Qle_bool_iff in E. apply Qle_bool_iff, fl_nonneg. lra.
  - destruct (Qle_bool 0 _) eqn:E'; [|done]. apply Qle_bool_iff in E'.
    assert (a < b)%Q as Hlt by (apply Qnot_le_lt; intros Hle; apply Qle_bool_iff in Hle; congruence).
    pose proof (fl_neg (a - b) ltac:(lra)). lra.
Qed.

(** ** Rounding is monotone *)

Lemma round_half_even_tie n d : 0 < d →
  2 * Z.abs (round_half_even n d * d - n) = d → Z.even (round_half_even n d) = true.
Proof.
  intros Hd. unfold round_half_even.
  pose proof (Z.div_mod n d ltac:(lia)) as Hn. pose proof (Z.mod_pos_bound n d Hd) as Hr.
  destruct (Z.compare_spec (2 * (n mod d)) d); [|nia..].
  destruct (Z.even (n / d)) eqn:E; intros _; [done|].
  rewrite Z.add_1_r, Z.even_succ, <- Z.negb_even, E. done.
Qed.

Lemma round_half_even_mono n d n' d' : 0 < d → 0 < d' → n * d' <= n' * d →
  round_half_even n d <= round_half_even n' d'.
Proof.
  intros Hd Hd' Hle. destruct (Z.le_gt_cases (round_half_even n d) (round_half_even n' d')) as [|Hgt]; [done|].
  pose proof (round_half_even_error n d Hd) as H1. pose proof (round_half_even_error n' d' Hd') as H2.
  pose proof (round_half_even_tie n d Hd) as T1. pose proof (round_half_even_tie n' d' Hd') as T2.
  set (a := round_half_even n d) in *. set (b := round_half_even n' d') in *. clearbody a b.
  assert ((2 * b + 1) * d <= 2 * n) as B1 by nia.
  assert (2 * n' <= (2 * b + 1) * d') as B2 by nia.
  assert (2 * n * d' <= 2 * n' * d) as B3 by lia.
  assert (2 * n = (2 * b + 1) * d) as E1 by nia.
  assert (2 * n' = (2 * b + 1) * d') as E2 by nia.
  assert (a = b + 1) as -> by nia.
  specialize (T1 ltac:(lia)). specialize (T2 ltac:(lia)).
  rewrite Z.add_1_r, Z.even_succ, <- Z.negb_even, T2 in T1. done.
Qed.

Lemma qlog2_upper n d : 0 < n → 0 < d →
  (0 <= qlog2 n d + 1 → n < d * 2 ^ (qlog2 n d + 1))
  ∧ (qlog2 n d + 1 < 0 → n * 2 ^ (- (qlog2 n d + 1)) < d).
Proof.
  intros Hn Hd. unfold qlog2.
  pose proof (Z.log2_spec n Hn) as [_ Hn2]. pose proof (Z.log2_spec d Hd) as [Hd1 _].
  set (a := Z.log2 n) in *. set (b := Z.log2 d) in *.
  assert (0 <= a) by apply Z.log2_nonneg. assert (0 <= b) by apply Z.log2_nonneg.
  assert ((0 <= a - b + 1 → n < d * 2 ^ (a - b + 1))
          ∧ (a - b + 1 < 0 → n * 2 ^ (- (a - b + 1)) < d)) as [U1 U2].
  { split; intros Hk.
    - assert (2 ^ Z.succ a = 2 ^ b * 2 ^ (a - b + 1)) as E by (rewrite <- Z.pow_add_r by lia; f_equal; lia).
      pose proof (Z.pow_pos_nonneg 2 (a - b + 1) ltac:(lia) Hk). nia.
    - assert (2 ^ b = 2 ^ Z.succ a * 2 ^ (- (a - b + 1))) as E
        by (rewrite <- Z.pow_add_r by lia; f_equal; lia).
      pose proof (Z.pow_pos_nonneg 2 (- (a - b + 1)) ltac:(lia) ltac:(lia)). nia. }
  destruct (Z.leb_spec 0 (a - b)) as [Hk|Hk].
  - destruct (Z.leb_spec (d * 2 ^ (a - b)) n); [done|].
    replace (a - b - 1 + 1) with (a - b) by lia. by split; [|lia].
  - destruct (Z.leb_spec d (n * 2 ^ (- (a - b)))); [done|].
    replace (a - b - 1 + 1) with (a - b) by lia. by split; [lia|].
Qed.

Lemma pow2_power e : (pow2 e == 2 ^ e)%Q.
Proof.
  unfold pow2. destruct (Z.leb_spec 0 e).
  - change 2%Q with (inject_Z 2). by rewrite <- Zpower_Qpower.
  - rewrite <- (Z.opp_involutive e) at 2. rewrite Qpower_opp. change 2%Q with (inject_Z 2).
    by rewrite <- Zpower_Qpower by lia.
Qed.

Lemma power2_pos e : (0 < 2 ^ e)%Q.
Proof. by apply Qpower_0_lt. Qed.

Lemma power2_le e f : e <= f → (2 ^ e <= 2 ^ f)%Q.
Proof. intros. by apply Qpower_le_compat_l. Qed.

Lemma power2_lt_inv e f : (2 ^ e < 2 ^ f)%Q → e < f.
Proof.
  intros Hlt. destruct (Z.lt_ge_cases e f) as [|Hge]; [done|].
  apply power2_le in Hge. lra.
Qed.

Lemma power2_shift i e : 0 <= i → (2 ^ (e + i) == inject_Z (2 ^ i) * 2 ^ e)%Q.
Proof.
  intros. rewrite Qpower_plus, (Zpower_Qpower 2 i) by done. change (inject_Z 2) with 2%Q. ring.
Qed.

(** [2 ^ qlog2 n d <= n / d < 2 ^ (qlog2 n d + 1)] *)
Lemma qlog2_bounds n (d : positive) : 0 < n →
  (2 ^ qlog2 n (Zpos d) <= n # d)%Q ∧ (n # d < 2 ^ (qlog2 n (Zpos d) + 1))%Q.
Proof.
  intros Hn. set (k := qlog2 n (Zpos d)).
  assert ((n # d == inject_Z n / inject_Z (Zpos d))%Q) as ->.
  { by rewrite Qmake_Qdiv. }
  assert (0 < inject_Z (Zpos d))%Q as Hd by done.
  pose proof (qlog2_spec n (Zpos d) Hn ltac:(lia)) as [L1 L2].
  pose proof (qlog2_upper n (Zpos d) Hn ltac:(lia)) as [U1 U2]. fold k in L1, L2, U1, U2.
  split.
  - apply Qle_shift_div_l; [done|]. destruct (Z.le_gt_cases 0 k) as [H0|H0].
    + change 2%Q with (inject_Z 2). rewrite <- Zpower_Qpower, <- inject_Z_mult, <- Zle_Qle by done.
      specialize (L1 H0). lia.
    + specialize (L2 H0). rewrite <- (Z.opp_involutive k) at 1. rewrite Qpower_opp, Qmult_comm.
      apply Qle_shift_div_r; [apply power2_pos|]. change 2%Q with (inject_Z 2).
      rewrite <- Zpower_Qpower, <- inject_Z_mult, <- Zle_Qle by lia. done.
  - apply Qlt_shift_div_r; [done|]. destruct (Z.le_gt_cases 0 (k + 1)) as [H0|H0].
    + change 2%Q with (inject_Z 2). rewrite <- Zpower_Qpower, <- inject_Z_mult, <- Zlt_Qlt by done.
      specialize (U1 H0). lia.
    + specialize (U2 H0). rewrite <- (Z.opp_involutive (k + 1)). rewrite Qpower_opp, Qmult_comm.
      apply Qlt_shift_div_l; [apply power2_pos|]. change 2%Q with (inject_Z 2).
      rewrite <- Zpower_Qpower, <- inject_Z_mult, <- Zlt_Qlt by lia. done.
Qed.

Lemma round_int_bounds N D (lo hi : Z) : 0 < D →
  (inject_Z lo <= inject_Z N / inject_Z D <= inject_Z hi)%Q → lo <= round_half_even N D <= hi.
Proof.
  intros HD [Hlo Hhi]. assert (0 < inject_Z D)%Q as HD' by (by rewrite (Zlt_Qlt 0 D) in HD).
  assert (lo * D <= N) as Lo.
  { rewrite Zle_Qle, inject_Z_mult. apply (Qmult_le_compat_r _ _ (inject_Z D)) in Hlo; [|lra].
    assert (inject_Z N / inject_Z D * inject_Z D == inject_Z N)%Q as E by (field; lra). lra. }
  assert (N <= hi * D) as Hi.
  { rewrite Zle_Qle, inject_Z_mult. apply (Qmult_le_compat_r _ _ (inject_Z D)) in Hhi; [|lra].
    assert (inject_Z N / inject_Z D * inject_Z D == inject_Z N)%Q as E by (field; lra). lra. }
  split.
  - rewrite <- (round_half_even_exact lo D HD). apply round_half_even_mono; nia.
  - rewrite <- (round_half_even_exact hi D HD). apply round_half_even_mono; nia.
Qed.

(** The rounding as a significand of 53 bits and an exponent. *)
Lemma fl_pos_form n (d : positive) : 0 < n →
  ∃ N D, 0 < D ∧ let e := qlog2 n (Zpos d) - 52 in
    (fl_pos n (Zpos d) == inject_Z (round_half_even N D) * 2 ^ e)%Q
    ∧ (inject_Z N / inject_Z D * 2 ^ e == n # d)%Q.
Proof.
  intros Hn. unfold fl_pos. set (e := qlog2 n (Zpos d) - 52).
  destruct (Z.leb_spec 0 e) as [He|He].
  - exists n, (Zpos d * 2 ^ e). pose proof (Z.pow_pos_nonneg 2 e ltac:(lia) He) as Hp.
    split; [lia|]. cbv zeta. rewrite pow2_power. split; [done|].
    rewrite (Qmake_Qdiv n d), inject_Z_mult, (Zpower_Qpower 2 e) by done.
    change (inject_Z 2) with 2%Q. pose proof (power2_pos e) as P. revert P.
    generalize (2 ^ e)%Q as p. intros p P. field. split; first [done|intros E; lra].
  - exists (n * 2 ^ (- e)), (Zpos d). split; [lia|]. cbv zeta. rewrite pow2_power. split; [done|].
    rewrite (Qmake_Qdiv n d), inject_Z_mult, (Zpower_Qpower 2 (- e)) by lia.
    change (inject_Z 2) with 2%Q. rewrite Qpower_opp. pose proof (power2_pos e) as P. revert P.
    generalize (2 ^ e)%Q as p. intros p P. field. split; first [done|intros E; lra].
Qed.

Lemma significand_bounds n (d : positive) N D : 0 < n → 0 < D →
  (inject_Z N / inject_Z D * 2 ^ (qlog2 n (Zpos d) - 52) == n # d)%Q →
  2 ^ 52 <= round_half_even N D <= 2 ^ 53.
Proof.
  intros Hn HD V. destruct (qlog2_bounds n d Hn) as [L U]. set (k := qlog2 n (Zpos d)) in *.
  pose proof (power2_shift 52 (k - 52) ltac:(lia)) as E1.
  pose proof (power2_shift 53 (k - 52) ltac:(lia)) as E2.
  replace (k - 52 + 52) with k in E1 by lia. replace (k - 52 + 53) with (k + 1) in E2 by lia.
  pose proof (power2_pos (k - 52)) as P. set (p := (2 ^ (k - 52))%Q) in *.
  apply round_int_bounds; [done|]. split; apply (Qmult_le_r _ _ p P); lra.
Qed.

(** Fractions scaled by the same power. *)
Lemma significand_mono N D N' D' p : (0 < p)%Q → 0 < D → 0 < D' →
  (inject_Z N / inject_Z D * p <= inject_Z N' / inject_Z D' * p)%Q →
  round_half_even N D <= round_half_even N' D'.
Proof.
  intros P HD HD' Hp. apply round_half_even_mono; [done..|].
  assert (inject_Z N / inject_Z D <= inject_Z N' / inject_Z D')%Q as Hx by (apply (Qmult_le_r _ _ p P); lra).
  rewrite Zle_Qle, !inject_Z_mult.
  assert (0 < inject_Z D)%Q as Hd by (by rewrite (Zlt_Qlt 0 D) in HD).
  assert (0 < inject_Z D')%Q as Hd' by (by rewrite (Zlt_Qlt 0 D') in HD').
  assert (inject_Z N == inject_Z N / inject_Z D * inject_Z D)%Q as EN by (field; lra).
  assert (inject_Z N' == inject_Z N' / inject_Z D' * inject_Z D')%Q as EN' by (field; lra).
  rewrite EN, EN'. set (u := (inject_Z N / inject_Z D)%Q) in *. set (u' := (inject_Z N' / inject_Z D')%Q) in *.
  assert (u * inject_Z D * inject_Z D' == u * (inject_Z D * inject_Z D'))%Q as -> by ring.
  assert (u' * inject_Z D' * inject_Z D == u' * (inject_Z D * inject_Z D'))%Q as -> by ring.
  apply Qmult_le_compat_r; [lra|]. apply Qlt_le_weak. nra.
Qed.

Lemma fl_pos_mono n (d : positive) n' (d' : positive) : 0 < n → 0 < n' →
  (n # d <= n' # d')%Q → (fl_pos n (Zpos d) <= fl_pos n' (Zpos d'))%Q.
Proof.
  intros Hn Hn' Hle. destruct (qlog2_bounds n d Hn) as [L _]. destruct (qlog2_bounds n' d' Hn') as [_ U'].
  destruct (fl_pos_form n d Hn) as (N & D & HD & F & V).
  destruct (fl_pos_form n' d' Hn') as (N' & D' & HD' & F' & V'). cbv zeta in *.
  destruct (significand_bounds n d N D Hn HD V) as [_ Bx].
  destruct (significand_bounds n' d' N' D' Hn' HD' V') as [Bx' _].
  set (k := qlog2 n (Zpos d)) in *. set (k' := qlog2 n' (Zpos d')) in *.
  assert (k < k' + 1) as Hk by (apply power2_lt_inv; lra).
  rewrite F, F'. clear F F'. rewrite Zle_Qle in Bx, Bx'.
  pose proof (power2_pos (k - 52)) as P. destruct (Z.eq_dec k k') as [Ek|Nk].
  - rewrite <- Ek in *. apply Qmult_le_compat_r; [|lra]. rewrite <- Zle_Qle.
    apply (significand_mono _ _ _ _ (2 ^ (k - 52))%Q P HD HD'). lra.
  - pose proof (power2_pos (k' - 52)) as P'.
    assert (2 * 2 ^ (k - 52) <= 2 ^ (k' - 52))%Q as Hp.
    { pose proof (power2_shift 1 (k - 52) ltac:(lia)) as E. change (inject_Z (2 ^ 1)) with 2%Q in E.
      pose proof (power2_le (k - 52 + 1) (k' - 52) ltac:(lia)). lra. }
    set (p := (2 ^ (k - 52))%Q) in *. set (p' := (2 ^ (k' - 52))%Q) in *.
    apply (Qle_trans _ (inject_Z (2 ^ 53) * p)); [by apply Qmult_le_compat_r; [|lra]|].
    apply (Qle_trans _ (inject_Z (2 ^ 52) * p')); [|by apply Qmult_le_compat_r; [|lra]].
    change (inject_Z (2 ^ 53)) with (inject_Z (2 ^ 52 * 2)). rewrite inject_Z_mult.
    change (inject_Z 2) with 2%Q. assert (0 < inject_Z (2 ^ 52))%Q as P52 by done. nra.
Qed.

Lemma fl_mono x y : (x <= y)%Q → (fl x <= fl y)%Q.
Proof.
  intros Hle. destruct (Qlt_le_dec x 0) as [Hx|Hx].
  - destruct (Qlt_le_dec y 0) as [Hy|Hy].
    + destruct x as [n d], y as [n' d']. unfold fl. cbn [Qnum Qden].
      assert (n < 0) by (unfold Qlt in Hx; cbn in Hx; lia). assert (n' < 0) by (unfold Qlt in Hy; cbn in Hy; lia).
      destruct (Z.eqb_spec n 0); [lia|]. destruct (Z.eqb_spec n' 0); [lia|].
      destruct (Z.ltb_spec 0 n); [lia|]. destruct (Z.ltb_spec 0 n'); [lia|].
      apply Qopp_le_compat. apply fl_pos_mono; [lia..|].
      apply Qopp_le_compat in Hle. exact Hle.
    + pose proof (fl_neg x Hx). pose proof (fl_nonneg y Hy). lra.
  - destruct (Qlt_le_dec 0 x) as [Hx'|Hx'].
    + destruct x as [n d], y as [n' d']. unfold fl. cbn [Qnum Qden].
      assert (0 < n) by (unfold Qlt in Hx'; cbn in Hx'; lia).
      assert (0 < n') by (pose proof (Qlt_le_trans _ _ _ Hx' Hle) as Hy; unfold Qlt in Hy; cbn in Hy; lia).
      destruct (Z.eqb_spec n 0); [lia|]. destruct (Z.eqb_spec n' 0); [lia|].
      destruct (Z.ltb_spec 0 n); [|lia]. destruct (Z.ltb_spec 0 n'); [|lia].
      by apply fl_pos_mono.
    + assert (fl x == 0)%Q as ->; [|apply fl_nonneg; lra].
      destruct x as [n d]. assert (n = 0) as -> by (unfold Qle in Hx, Hx'; cbn in Hx, Hx'; lia). done.
Qed.

#[export] Instance fl_proper : Proper (Qeq ==> Qeq) fl.
Proof. intros x y E. apply Qle_antisym; apply fl_mono; lra. Qed.

Example fl_tenth : Qeq_bool (fl (1 # 10)) (3602879701896397 # 36028797018963968) = true.
Proof. vm_compute. reflexivity. Qed.
Example fl_sum : js_lt (3 # 10) (js_add (cents 10) (cents 20)) = true.
Proof. vm_compute. reflexivity. Qed.

(** ** Numbers as text *)

(** [n.toString(36).toUpperCase()] of a non-negative integer. *)
Definition digit36 (d : Z) : Ascii.ascii :=
  Ascii.ascii_of_nat (Z.to_nat (if d <? 10 then 48 + d else 55 + d)).

Fixpoint digits36 (fuel : nat) (n : Z) (acc : string) : string :=
  match fuel with
  | O => acc
  | S fuel =>
      let acc := String (digit36 (n mod 36)) acc in
      if n / 36 =? 0 then acc else digits36 fuel (n / 36) acc
  end.

(** A number has no more base 36 digits than binary ones. *)
Definition toString36 (n : Z) : string := digits36 (S (Z.to_nat (Z.log2 n))) n "".

Example toString36_date : toString36 1700000000000 = "LOYW3V28".
Proof. vm_compute. reflexivity. Qed.

(** [Number.prototype.toString] in base ten, for numbers in messages. *)
Class NumberText := number_text : Q → string.
