(* ===== verification/Rules.v ===== *)
(** * Rule engine

    Models [backend/src/shared/rules]: conditions are trees of [all], [any] and
    [not] over leaves that apply an operator to a field of the facts; the engine
    validates the tree, evaluates it and, on a match, applies actions to a copy
    of the facts.

    Facts and conditions are JavaScript values ([FactValue]): numbers are finite
    and dates valid. Property names inherited from [Object.prototype] are outside
    the model. What ECMAScript leaves to the implementation (the strings
    [Date.parse] accepts, collation) and regular expressions are the parameters
    of [JsLibrary]. *)
From S2P Require Import Prelude Core JsNumber.
From Stdlib Require Import QArith.

#[local] Open Scope Z_scope.

(** ** Values ([types/rule.types.ts]) *)

#[local] Unset Elimination Schemes.
Inductive FactValue :=
| FUndef
| FNull
| FBool (b : bool)
| FNum (q : Q)
| FStr (s : string)
| FDate (t : Z)
| FArr (xs : list FactValue)
| FObj (fields : list (string * FactValue)).
#[local] Set Elimination Schemes.

(** Induction with a hypothesis for every element and every property. *)
Section FactValue_ind.
Variable P : FactValue → Prop.
Hypothesis on_undef : P FUndef.
Hypothesis on_null : P FNull.
Hypothesis on_bool : ∀ b, P (FBool b).
Hypothesis on_num : ∀ q, P (FNum q).
Hypothesis on_str : ∀ s, P (FStr s).
Hypothesis on_date : ∀ t, P (FDate t).
Hypothesis on_arr : ∀ xs, Forall P xs → P (FArr xs).
Hypothesis on_obj : ∀ fs, Forall (λ kv, P (snd kv)) fs → P (FObj fs).

Fixpoint FactValue_ind (v : FactValue) : P v :=
  match v with
  | FUndef => on_undef
  | FNull => on_null
  | FBool b => on_bool b
  | FNum q => on_num q
  | FStr s => on_str s
  | FDate t => on_date t
  | FArr xs =>
      on_arr xs ((fix elements l : Forall P l :=
        match l with
        | [] => Forall_nil_2 _
        | x :: l => Forall_cons_2 _ _ _ (FactValue_ind x) (elements l)
        end) xs)
  | FObj fs =>
      on_obj fs ((fix properties l : Forall (λ kv, P (snd kv)) l :=
        match l with
        | [] => Forall_nil_2 _
        | kv :: l => Forall_cons_2 _ _ _ (FactValue_ind (snd kv)) (properties l)
        end) fs)
  end.
End FactValue_ind.

Definition fields_ := list (string * FactValue).

(** [o[k]] *)
Definition prop (k : string) (fs : fields_) : FactValue :=
  match find_first (λ kv, String.eqb (fst kv) k) fs with Some kv => snd kv | None => FUndef end.

(** [o[k] = v] *)
Fixpoint set_prop (k : string) (v : FactValue) (fs : fields_) : fields_ :=
  match fs with
  | [] => [(k, v)]
  | kv :: rest => if String.eqb (fst kv) k then (k, v) :: rest else kv :: set_prop k v rest
  end.

Definition has_key (k : string) (fs : fields_) : bool :=
  existsb (λ kv, String.eqb (fst kv) k) fs.

(** Recursion into the property [k]: [f] is called on a part of the object. *)
Definition with_key {R} (k : string) (f : FactValue → R) (d : R) : fields_ → R :=
  fix go fs :=
    match fs with
    | [] => d
    | (k', v) :: rest => if String.eqb k' k then f v else go rest
    end.

(** What the language's library leaves open. [None]: not a date, a syntax error,
    not a finite number. *)
Class JsLibrary := {
  Date_parse : string → option Z;
  localeCompare : string → string → Z;
  regex_test : string → string → option bool;
  string_to_number : string → option Q;
  array_to_number : list FactValue → option Q;
}.

Record OperatorContext := mkOperatorContext {
  oc_field : string; oc_actual : FactValue; oc_expected : FactValue;
}.

Record OperatorEvalResult := mkOperatorEvalResult {
  or_matched : bool; or_reason : string; or_error : option string;
}.

Record RuleOperator := mkRuleOperator {
  op_name : string; op_evaluate : OperatorContext → OperatorEvalResult;
}.

Inductive RuleAction :=
| act_set (path : string) (value : FactValue)
| act_add (path : string) (value : Q)
| act_multiply (path : string) (value : Q)
| act_percent (path : string) (value : Q)
| act_append_tag (path : string) (value : string).

Record EvaluateOptions := mkEvaluateOptions {
  eo_collectReasons : option bool; eo_shortCircuit : option bool;
  eo_actions : option (list RuleAction); eo_matchScore : option Q;
}.

Definition no_options : EvaluateOptions := mkEvaluateOptions None None None None.

(** [option !== false] *)
Definition unless_false (o : option bool) : bool := coalesce o true.

(** ** Facts ([utils/facts.util.ts]) *)

Definition is_digit (c : Ascii.ascii) : bool :=
  let n := Ascii.nat_of_ascii c in (48 <=? n)%nat && (n <=? 57)%nat.

Definition is_alpha_ (c : Ascii.ascii) : bool :=
  let n := Ascii.nat_of_ascii c in
  ((65 <=? n)%nat && (n <=? 90)%nat) || ((97 <=? n)%nat && (n <=? 122)%nat) || (n =? 95)%nat.

(** [[A-Za-z_][A-Za-z0-9_]*] *)
Definition is_identifier (s : string) : bool :=
  match s with
  | "" => false
  | String c rest =>
      is_alpha_ c && forallb (λ c, is_alpha_ c || is_digit c) (String.list_ascii_of_string rest)
  end.

(** [path.split('.')] *)
Fixpoint split_dot (s : string) : list string :=
  match s with
  | "" => [""]
  | String c rest =>
      if Ascii.eqb c "." then "" :: split_dot rest
      else match split_dot rest with
           | part :: parts => String c part :: parts
           | [] => [String c ""]
           end
  end.

(** [PATH_RE]: identifiers separated by dots. *)
Definition isValidPath (path : string) : bool := forallb is_identifier (split_dot path).

Fixpoint walk (cur : FactValue) (parts : list string) : FactValue :=
  match parts with
  | [] => cur
  | part :: rest => match cur with FObj fs => walk (prop part fs) rest | _ => FUndef end
  end.

Definition PathCache := gmap string FactValue.

Definition resolvePath (facts : fields_) (path : string) (cache : PathCache)
  : (string + FactValue) * PathCache :=
  if negb (isValidPath path) then (inl ("Invalid field path: " +:+ path), cache)
  else
    match cache !! path with
    | Some v => (inr v, cache)
    | None => let v := walk (FObj facts) (split_dot path) in (inr v, <[path := v]> cache)
    end.

(** [/^\d{4}-\d{2}-\d{2}/] *)
Definition starts_like_date (s : string) : bool :=
  match String.list_ascii_of_string s with
  | a :: b :: c :: d :: "-"%char :: e :: f :: "-"%char :: g :: h :: _ =>
      forallb is_digit [a; b; c; d; e; f; g; h]
  | _ => false
  end.

Inductive Comparable :=
| c_number (q : Q) | c_string (s : string) | c_boolean (b : bool) | c_null | c_date (t : Z)
| c_other.

Section facts.
  Context `{!JsLibrary, !DateText, !JsonText, !NumberText}.

Definition toComparable (value : FactValue) : Comparable :=
  match value with
  | FNull | FUndef => c_null
  | FBool b => c_boolean b
  | FNum q => c_number q
  | FStr s =>
      match Date_parse s with
      | Some t => if starts_like_date s then c_date t else c_string s
      | None => c_string s
      end
  | FDate t => c_date t
  | FArr _ | FObj _ => c_other
  end.

Definition kind_text (c : Comparable) : string :=
  match c with
  | c_number _ => "number" | c_string _ => "string" | c_boolean _ => "boolean"
  | c_null => "null" | c_date _ => "date" | c_other => "other"
  end.

(** What [JSON.stringify] writes of a value; [None] is [undefined]. *)
Fixpoint fact_json (v : FactValue) : option Json :=
  match v with
  | FUndef => None
  | FNull => Some JNull
  | FBool b => Some (JBool b)
  | FNum q => Some (JNum q)
  | FStr s => Some (JStr s)
  | FDate t => Some (JStr (iso_text t))
  | FArr xs => Some (JArr (map (λ x, coalesce (fact_json x) JNull) xs))
  | FObj fs =>
      Some (JObj (flat_map (λ kv, match fact_json (snd kv) with
                                  | Some j => [(fst kv, j)]
                                  | None => []
                                  end) fs))
  end.

Definition json_text (v : FactValue) : string :=
  match fact_json v with Some j => json_stringify j | None => "undefined" end.

Definition valuesEqual (a b : FactValue) : bool :=
  match toComparable a, toComparable b with
  | c_null, c_null => true
  | c_date x, c_date y => x =? y
  | c_other, c_other => String.eqb (json_text a) (json_text b)
  | c_number x, c_number y => Qeq_bool x y
  | c_string x, c_string y => String.eqb x y
  | c_boolean x, c_boolean y => Bool.eqb x y
  | _, _ => false
  end.

Definition incomparable (a b : Comparable) : string + Q :=
  inl ("Incomparable types: " +:+ kind_text a +:+ " vs " +:+ kind_text b).

(** The last branch: numeric strings are coerced. *)
Definition compare_coerced (ca cb : Comparable) : string + Q :=
  let number_of c :=
    match c with c_number q => Some q | c_string s => string_to_number s | _ => None end in
  match number_of ca, number_of cb with
  | Some na, Some nb => inr (js_sub na nb)
  | _, _ => incomparable ca cb
  end.

Definition compareOrdered (a b : FactValue) : string + Q :=
  let ca := toComparable a in
  let cb := toComparable b in
  match ca, cb with
  | c_null, _ | _, c_null => inl "Cannot compare null/undefined"
  | c_number x, c_number y => inr (js_sub x y)
  | c_date x, c_date y => inr (inject_Z (x - y))
  | c_string x, c_string y => inr (inject_Z (localeCompare x y))
  | _, _ => compare_coerced ca cb
  end.

Definition asString (value : FactValue) : option string :=
  match value with
  | FStr s => Some s
  | FNum q => Some (number_text q)
  | FBool true => Some "true"
  | FBool false => Some "false"
  | _ => None
  end.

(** ** Operators ([operators/operators.ts]) *)

Definition ok_ (matched : bool) (reason : string) : OperatorEvalResult :=
  mkOperatorEvalResult matched reason None.
Definition fail_ (reason error : string) : OperatorEvalResult :=
  mkOperatorEvalResult false reason (Some error).

Definition stringify (v : FactValue) : string :=
  match v with FStr s => s | _ => json_text v end.

Definition EqOperator : RuleOperator := mkRuleOperator "eq" (λ ctx,
  ok_ (valuesEqual (oc_actual ctx) (oc_expected ctx))
    (oc_field ctx +:+ " == " +:+ stringify (oc_expected ctx))).

Definition NeqOperator : RuleOperator := mkRuleOperator "neq" (λ ctx,
  ok_ (negb (valuesEqual (oc_actual ctx) (oc_expected ctx)))
    (oc_field ctx +:+ " != " +:+ stringify (oc_expected ctx))).

Definition cmpOp (name symbol : string) (pred : Q → bool) : RuleOperator :=
  mkRuleOperator name (λ ctx,
    let reason := oc_field ctx +:+ " " +:+ symbol +:+ " " +:+ stringify (oc_expected ctx) in
    match compareOrdered (oc_actual ctx) (oc_expected ctx) with
    | inl error => fail_ reason error
    | inr cmp => ok_ (pred cmp) reason
    end).

Definition GtOperator : RuleOperator := cmpOp "gt" ">" (λ n, js_lt 0 n).
Definition GteOperator : RuleOperator := cmpOp "gte" ">=" (λ n, js_le 0 n).
Definition LtOperator : RuleOperator := cmpOp "lt" "<" (λ n, js_lt n 0).
Definition LteOperator : RuleOperator := cmpOp "lte" "<=" (λ n, js_le n 0).

Definition BetweenOperator : RuleOperator := mkRuleOperator "between" (λ ctx,
  match oc_expected ctx with
  | FArr [min; max] =>
      match compareOrdered (oc_actual ctx) min, compareOrdered (oc_actual ctx) max with
      | inl error, _ | inr _, inl error => fail_ (oc_field ctx +:+ " between") error
      | inr lo, inr hi =>
          ok_ (js_le 0 lo && js_le hi 0)
            (oc_field ctx +:+ " between " +:+ stringify min +:+ " and " +:+ stringify max)
      end
  | _ => fail_ (oc_field ctx +:+ " between ?") "between requires [min, max]"
  end).

Definition InOperator : RuleOperator := mkRuleOperator "in" (λ ctx,
  match oc_expected ctx with
  | FArr vs => ok_ (existsb (valuesEqual (oc_actual ctx)) vs)
                 (oc_field ctx +:+ " in " +:+ stringify (oc_expected ctx))
  | _ => fail_ (oc_field ctx +:+ " in ?") "in requires an array"
  end).

Definition ends_with (hay suffix : string) : bool :=
  String.prefix (String.rev suffix) (String.rev hay).

Definition ContainsOperator : RuleOperator := mkRuleOperator "contains" (λ ctx,
  match oc_actual ctx with
  | FArr vs => ok_ (existsb (λ v, valuesEqual v (oc_expected ctx)) vs)
                 (oc_field ctx +:+ " contains " +:+ stringify (oc_expected ctx))
  | actual =>
      match asString actual, asString (oc_expected ctx) with
      | Some hay, Some needle =>
          ok_ (includes_text hay needle) (oc_field ctx +:+ " contains " +:+ needle)
      | _, _ => fail_ (oc_field ctx +:+ " contains") "contains requires string or array actual"
      end
  end).

Definition text_op (name error : string) (test : string → string → bool) : RuleOperator :=
  mkRuleOperator name (λ ctx,
    match asString (oc_actual ctx), asString (oc_expected ctx) with
    | Some hay, Some affix =>
        ok_ (test hay affix) (oc_field ctx +:+ " " +:+ name +:+ " " +:+ affix)
    | _, _ => fail_ (oc_field ctx +:+ " " +:+ name) error
    end).

Definition StartsWithOperator : RuleOperator :=
  text_op "starts_with" "starts_with requires strings" (λ hay prefix, String.prefix prefix hay).
Definition EndsWithOperator : RuleOperator :=
  text_op "ends_with" "ends_with requires strings" ends_with.

Definition RegexOperator : RuleOperator := mkRuleOperator "matches_regex" (λ ctx,
  let label := oc_field ctx +:+ " matches_regex" in
  match asString (oc_actual ctx), asString (oc_expected ctx) with
  | Some hay, Some pattern =>
      if (256 <? String.length pattern)%nat then fail_ label "regex pattern too long"
      else match regex_test pattern hay with
           | Some b => ok_ b (oc_field ctx +:+ " matches /" +:+ pattern +:+ "/")
           | None => fail_ label "invalid regex"
           end
  | _, _ => fail_ label "matches_regex requires strings"
  end).

(** [Boolean(v)] *)
Definition to_boolean (v : FactValue) : bool :=
  match v with
  | FUndef | FNull | FBool false | FStr "" => false
  | FNum q => negb (Qeq_bool q 0)
  | _ => true
  end.

Definition is_nullish (v : FactValue) : bool :=
  match v with FUndef | FNull => true | _ => false end.

Definition ExistsOperator : RuleOperator := mkRuleOperator "exists" (λ ctx,
  let want := match oc_expected ctx with FUndef => true | e => to_boolean e end in
  let present := negb (is_nullish (oc_actual ctx)) in
  ok_ (if want then present else negb present)
    (oc_field ctx +:+ (if want then " exists" else " does not exist"))).

Definition test_op (name label : string) (test : FactValue → bool) : RuleOperator :=
  mkRuleOperator name (λ ctx, ok_ (test (oc_actual ctx)) (oc_field ctx +:+ label)).

Definition IsTrueOperator : RuleOperator :=
  test_op "is_true" " is true" (λ v, match v with FBool true => true | _ => false end).
Definition IsFalseOperator : RuleOperator :=
  test_op "is_false" " is false" (λ v, match v with FBool false => true | _ => false end).
Definition IsNullOperator : RuleOperator := test_op "is_null" " is null" is_nullish.
Definition IsNotNullOperator : RuleOperator :=
  test_op "is_not_null" " is not null" (λ v, negb (is_nullish v)).

Definition DEFAULT_OPERATORS : list RuleOperator :=
  [EqOperator; NeqOperator; GtOperator; GteOperator; LtOperator; LteOperator; BetweenOperator;
   InOperator; ContainsOperator; StartsWithOperator; EndsWithOperator; RegexOperator;
   ExistsOperator; IsTrueOperator; IsFalseOperator; IsNullOperator; IsNotNullOperator].

(** ** OperatorRegistry ([OperatorRegistry.ts]): the last registration of a name counts. *)
Definition register (ops : list (string * RuleOperator)) (op : RuleOperator)
  : list (string * RuleOperator) :=
  (op_name op, op) :: where_ (λ kv, negb (String.eqb (fst kv) (op_name op))) ops.

Definition registry : list (string * RuleOperator) := foldl register [] DEFAULT_OPERATORS.

Definition registry_get (name : string) : option RuleOperator :=
  option_map snd (find_first (λ kv, String.eqb (fst kv) name) registry).
End facts.

(** ** Condition language ([dsl/condition.dsl.ts]) *)

Definition LOGICAL : list string := ["all"; "any"; "not"].
Definition OPERATORS : list string :=
  ["eq"; "neq"; "gt"; "gte"; "lt"; "lte"; "between"; "in"; "contains"; "starts_with"; "ends_with";
   "matches_regex"; "exists"; "is_true"; "is_false"; "is_null"; "is_not_null"].

Definition among (names : list string) (k : string) : bool := existsb (String.eqb k) names.

Definition operator_keys (fs : fields_) : list string :=
  where_ (λ k, negb (String.eqb k "field")) (map fst fs).

Definition validate_leaf (fs : fields_) (path : string) : list string :=
  match prop "field" fs with
  | FStr (String _ _) =>
      let opKeys := operator_keys fs in
      match opKeys with
      | [] => [path +:+ ": leaf requires an operator"]
      | _ =>
          match where_ (λ k, negb (among OPERATORS k) && negb (among LOGICAL k)) opKeys with
          | [] =>
              match where_ (among OPERATORS) opKeys with
              | [_] => []
              | _ => [path +:+ ": leaf must have exactly one operator"]
              end
          | unknownOps => [path +:+ ": unknown operator(s): " +:+ join ", " unknownOps]
          end
      end
  | _ => [path +:+ ": leaf requires string field"]
  end.

(** [flatMap((c, i) => f(c, `${path}[${i}]`))] from index [i]. *)
Definition validate_children (f : FactValue → string → list string) (path : string)
  : nat → list FactValue → list string :=
  fix go i cs :=
    match cs with
    | [] => []
    | c :: rest => f c (path +:+ "[" +:+ pretty i +:+ "]") ++ go (S i) rest
    end.

Fixpoint validateConditionTree (node : FactValue) (path : string) : list string :=
  let group key w :=
    match w with
    | FArr cs => validate_children validateConditionTree (path +:+ "." +:+ key) 0 cs
    | _ => [path +:+ "." +:+ key +:+ " must be an array"]
    end in
  match node with
  | FObj fs =>
      if has_key "all" fs then with_key "all" (group "all") [] fs
      else if has_key "any" fs then with_key "any" (group "any") [] fs
      else if has_key "not" fs then
        with_key "not" (λ w, validateConditionTree w (path +:+ ".not")) [] fs
      else validate_leaf fs path
  | FDate _ => validate_leaf [] path
  | _ => [path +:+ ": condition must be an object"]
  end.

Definition leafOperator (fs : fields_) : string + (string * FactValue) :=
  match operator_keys fs with
  | [name] => inr (name, prop name fs)
  | _ => inl "leaf must have exactly one operator"
  end.

(** ** ConditionEvaluator ([ConditionEvaluator.ts]) *)

Record EvalInternal := mkEvalInternal {
  ei_matched : bool; ei_score : Q; ei_reasons : list string; ei_errors : list string;
}.

(** The evaluation of a part of a tree, with the cache it leaves. [None]: the part
    is no condition and the code throws; [evaluate] only gets there with
    validated trees. *)
Definition eval_result := option (EvalInternal * PathCache).

Definition has_errors (r : EvalInternal) : bool :=
  match ei_errors r with [] => false | _ => true end.

Definition reasons_if (collectReasons : bool) (reasons : list string) : list string :=
  if collectReasons then reasons else [].

Definition bool_text (b : bool) : string := if b then "true" else "false".

Inductive group_mode := mode_all | mode_any.

Definition mode_text (m : group_mode) : string :=
  match m with mode_all => "all" | mode_any => "any" end.

Section evaluator.
  Context `{!JsLibrary, !DateText, !JsonText, !NumberText}.
  Context (facts : fields_) (collectReasons shortCircuit : bool) (matchScore : Q).

Definition eval_error (reasons errors : list string) : EvalInternal :=
  mkEvalInternal false 0 reasons errors.

Definition leaf (fs : fields_) (cache : PathCache) : EvalInternal * PathCache :=
  match leafOperator fs with
  | inl error => (eval_error [] [error], cache)
  | inr (name, expected) =>
      match registry_get name with
      | None => (eval_error [] ["Unknown operator: " +:+ name], cache)
      | Some op =>
          let field := match prop "field" fs with FStr s => s | _ => "" end in
          match resolvePath facts field cache with
          | (inl error, cache) => (eval_error [] [error], cache)
          | (inr actual, cache) =>
              let result := op_evaluate op (mkOperatorContext field actual expected) in
              let reasons := reasons_if collectReasons [or_reason result] in
              match or_error result with
              | Some error => (eval_error reasons [error], cache)
              | None => (mkEvalInternal (or_matched result)
                           (if or_matched result then matchScore else 0%Q) reasons [], cache)
              end
          end
      end
  end.

(** The loop of [group] over the children left, with its local variables. *)
Definition group_loop (mode : group_mode) (node : FactValue → PathCache → eval_result)
  : list FactValue → PathCache → Q → list string → list string → Z → bool → eval_result :=
  fix go children cache score reasons errors matchedCount failed :=
    match children with
    | [] =>
        Some (match mode with
              | mode_all => mkEvalInternal (negb failed && is_nil errors) score reasons errors
              | mode_any =>
                  let matched := 0 <? matchedCount in
                  mkEvalInternal matched score reasons (if matched then [] else errors)
              end, cache)
    | child :: rest =>
        match node child cache with
        | None => None
        | Some (r, cache) =>
            let errors := errors ++ ei_errors r in
            let reasons := if collectReasons then reasons ++ ei_reasons r else reasons in
            match mode with
            | mode_all =>
                if has_errors r || negb (ei_matched r) then
                  if shortCircuit then Some (mkEvalInternal false score reasons errors, cache)
                  else go rest cache score reasons errors matchedCount true
                else go rest cache (js_add score (ei_score r)) reasons errors (matchedCount + 1) failed
            | mode_any =>
                if ei_matched r && negb (has_errors r) then
                  let score := js_add score (ei_score r) in
                  if shortCircuit then Some (mkEvalInternal true score reasons [], cache)
                  else go rest cache score reasons errors (matchedCount + 1) failed
                else go rest cache score reasons errors matchedCount failed
            end
        end
    end.

Definition group (mode : group_mode) (node : FactValue → PathCache → eval_result)
  (children : list FactValue) (cache : PathCache) : eval_result :=
  match children with
  | [] =>
      let matched := match mode with mode_all => true | mode_any => false end in
      Some (mkEvalInternal matched 0
              (reasons_if collectReasons [mode_text mode +:+ "([]) → " +:+ bool_text matched]) [],
            cache)
  | _ => group_loop mode node children cache 0 [] [] 0 false
  end.

Definition negated (inner : EvalInternal) : EvalInternal :=
  let matched := is_nil (ei_errors inner) && negb (ei_matched inner) in
  let inner_text := match join "; " (ei_reasons inner) with "" => "..." | t => t end in
  mkEvalInternal matched (if matched then matchScore else 0%Q)
    (reasons_if collectReasons ["not(" +:+ inner_text +:+ ") → " +:+ bool_text matched])
    (ei_errors inner).

Fixpoint node (n : FactValue) (cache : PathCache) : eval_result :=
  let children mode w :=
    match w with FArr cs => group mode node cs cache | _ => None end in
  match n with
  | FObj fs =>
      if has_key "all" fs then with_key "all" (children mode_all) None fs
      else if has_key "any" fs then with_key "any" (children mode_any) None fs
      else if has_key "not" fs then
        with_key "not" (λ w, match node w cache with
                             | Some (inner, cache) => Some (negated inner, cache)
                             | None => None
                             end) None fs
      else Some (leaf fs cache)
  | FDate _ => Some (leaf [] cache)
  | _ => None
  end.
End evaluator.

Section engine.
  Context `{!JsLibrary, !DateText, !JsonText, !NumberText}.

Definition evaluate_conditions (conditions : FactValue) (facts : fields_)
  (options : EvaluateOptions) : option EvalInternal :=
  let collectReasons := unless_false (eo_collectReasons options) in
  if is_nullish conditions then
    Some (mkEvalInternal true 0 (reasons_if collectReasons ["empty conditions → match"]) [])
  else
    match validateConditionTree conditions "$" with
    | [] =>
        option_map fst (node facts collectReasons (unless_false (eo_shortCircuit options))
                          (coalesce (eo_matchScore options) 1%Q) conditions ∅)
    | validation => Some (eval_error [] validation)
    end.

(** ** Actions ([utils/actions.util.ts]) *)

(** [Number(v ?? 0)]; [None] when the result is not finite. *)
Definition number_or_zero (v : FactValue) : option Q :=
  match v with
  | FUndef | FNull => Some 0%Q
  | FBool b => Some (if b then 1%Q else 0%Q)
  | FNum q => Some q
  | FStr s => string_to_number s
  | FDate t => Some (inject_Z t)
  | FArr xs => array_to_number xs
  | FObj _ => None
  end.

Definition action_path (a : RuleAction) : string :=
  match a with
  | act_set p _ | act_add p _ | act_multiply p _ | act_percent p _ | act_append_tag p _ => p
  end.

(** The [switch] of an action on the property [last] of its parent object. *)
Definition act_on (a : RuleAction) (last : string) (parent : fields_) : fields_ * list string :=
  let arith name (f : Q → Q) :=
    match number_or_zero (prop last parent) with
    | Some cur => (set_prop last (FNum (f cur)) parent, [])
    | None => (parent, [name +:+ " requires numeric " +:+ action_path a])
    end in
  match a with
  | act_set _ v => (set_prop last v parent, [])
  | act_add _ v => arith "add" (λ cur, js_add cur v)
  | act_multiply _ v => arith "multiply" (λ cur, js_mul cur v)
  | act_percent _ v => arith "percent" (λ cur, js_mul cur (js_add 1 (js_div v 100)))
  | act_append_tag _ v =>
      match prop last parent with
      | FUndef | FNull => (set_prop last (FArr [FStr v]) parent, [])
      | FArr xs => (set_prop last (FArr (xs ++ [FStr v])) parent, [])
      | _ => (parent, ["append_tag requires array at " +:+ action_path a])
      end
  end.

(** Walk to the parent of the last part, making plain objects on the way. *)
Fixpoint at_parent (parts : list string) (f : string → fields_ → fields_ * list string)
  (parent : fields_) : fields_ * list string :=
  match parts with
  | [] => (parent, [])
  | [last] => f last parent
  | key :: rest =>
      let next := match prop key parent with FObj fs => fs | _ => [] end in
      let '(next, errors) := at_parent rest f next in
      (set_prop key (FObj next) parent, errors)
  end.

Definition apply_action (a : RuleAction) (output : fields_) : fields_ * list string :=
  if negb (isValidPath (action_path a)) then (output, ["Invalid action path: " +:+ action_path a])
  else at_parent (split_dot (action_path a)) (act_on a) output.

Fixpoint applyActions (facts : fields_) (actions : list RuleAction) : fields_ * list string :=
  match actions with
  | [] => (facts, [])
  | a :: rest =>
      let '(output, errors) := apply_action a facts in
      let '(output, later) := applyActions output rest in
      (output, errors ++ later)
  end.

(** ** RuleEngine ([RuleEngine.ts], [RuleResult.ts]) *)

Inductive RuleMetadata :=
| md_none | md_invalid | md_actionsFailed | md_actionOutput (output : fields_).

Record RuleResult := mkRuleResult {
  rr_matched : bool; rr_score : option Q; rr_reasons : list string;
  rr_metadata : RuleMetadata; rr_errors : option (list string);
}.

Definition okResult (matched : bool) (reasons : list string) (score : Q) : RuleResult :=
  mkRuleResult matched (Some score) reasons md_none None.

Definition errorResult (errors reasons : list string) : RuleResult :=
  mkRuleResult false None reasons md_invalid (Some errors).

(** [thrown]: the text of the error if the evaluator throws. *)
Definition rules_evaluate (thrown : string) (conditions : FactValue) (facts : fields_)
  (options : EvaluateOptions) : RuleResult :=
  match evaluate_conditions conditions facts options with
  | None => errorResult ["Unexpected evaluation error: " +:+ thrown] []
  | Some internal =>
      if has_errors internal then errorResult (ei_errors internal) (ei_reasons internal)
      else
        let result := okResult (ei_matched internal) (ei_reasons internal) (ei_score internal) in
        match eo_actions options with
        | Some ((_ :: _) as actions) =>
            if ei_matched internal then
              match applyActions facts actions with
              | (output, []) =>
                  mkRuleResult true (rr_score result) (rr_reasons result) (md_actionOutput output) None
              | (_, errors) =>
                  mkRuleResult true (rr_score result) (rr_reasons result) md_actionsFailed (Some errors)
              end
            else result
        | _ => result
        end
  end.
End engine.
