(* ===== verification/RuleLogic.v ===== *)
(** * What conditions mean

    A reference semantics of conditions: a validated tree denotes a [Cond], and a
    condition has one of three verdicts. The evaluator of [Rules.v], with its
    path cache, its reasons, scores and early exits, computes that verdict.
    Setting a field by an action and reading it back gives the value. *)
From S2P Require Import Prelude Core JsNumber Rules.
From Stdlib Require Import QArith.

#[local] Open Scope Z_scope.

(** ** Reference semantics *)

#[local] Unset Elimination Schemes.
Inductive Cond :=
| CAll (cs : list Cond)
| CAny (cs : list Cond)
| CNot (c : Cond)
| CLeaf (field op : string) (expected : FactValue).
#[local] Set Elimination Schemes.

Section Cond_ind.
Variable P : Cond → Prop.
Hypothesis on_all : ∀ cs, Forall P cs → P (CAll cs).
Hypothesis on_any : ∀ cs, Forall P cs → P (CAny cs).
Hypothesis on_not : ∀ c, P c → P (CNot c).
Hypothesis on_leaf : ∀ f o e, P (CLeaf f o e).

Fixpoint Cond_ind (c : Cond) : P c :=
  let parts := fix parts l : Forall P l :=
    match l with [] => Forall_nil_2 _ | c :: l => Forall_cons_2 _ _ _ (Cond_ind c) (parts l) end in
  match c with
  | CAll cs => on_all cs (parts cs)
  | CAny cs => on_any cs (parts cs)
  | CNot c => on_not c (Cond_ind c)
  | CLeaf f o e => on_leaf f o e
  end.
End Cond_ind.

(** The condition a JavaScript value denotes. *)
Definition parse_leaf (fs : fields_) : option Cond :=
  match prop "field" fs, operator_keys fs with
  | FStr (String _ _ as f), [name] =>
      if among OPERATORS name then Some (CLeaf f name (prop name fs)) else None
  | _, _ => None
  end.

Fixpoint parse (v : FactValue) : option Cond :=
  let children w := match w with FArr cs => mapM parse cs | _ => None end in
  match v with
  | FObj fs =>
      if has_key "all" fs then with_key "all" (λ w, CAll <$> children w) None fs
      else if has_key "any" fs then with_key "any" (λ w, CAny <$> children w) None fs
      else if has_key "not" fs then with_key "not" (λ w, CNot <$> parse w) None fs
      else parse_leaf fs
  | _ => None
  end.

Inductive verdict := Yes | No | Err.

Definition is_yes (v : verdict) : bool := match v with Yes => true | _ => false end.
Definition is_err (v : verdict) : bool := match v with Err => true | _ => false end.

(** A conjunction that stops early has the verdict of its first part that is not
    [Yes]; one that does not is an error if any part is. *)
Fixpoint first_not_yes (vs : list verdict) : verdict :=
  match vs with [] => Yes | Yes :: rest => first_not_yes rest | v :: _ => v end.

Definition all_of (shortCircuit : bool) (vs : list verdict) : verdict :=
  if shortCircuit then first_not_yes vs
  else if existsb is_err vs then Err else if forallb is_yes vs then Yes else No.

Definition any_of (vs : list verdict) : verdict :=
  if existsb is_yes vs then Yes else if existsb is_err vs then Err else No.

Definition neg (v : verdict) : verdict := match v with Yes => No | No => Yes | Err => Err end.

Section semantics.
  Context `{!JsLibrary, !DateText, !JsonText, !NumberText} (facts : fields_).

Definition fact (path : string) : FactValue := walk (FObj facts) (split_dot path).

Definition leaf_verdict (f o : string) (expected : FactValue) : verdict :=
  match isValidPath f, registry_get o with
  | true, Some op =>
      let r := op_evaluate op (mkOperatorContext f (fact f) expected) in
      match or_error r with Some _ => Err | None => if or_matched r then Yes else No end
  | _, _ => Err
  end.

Fixpoint sem (shortCircuit : bool) (c : Cond) : verdict :=
  match c with
  | CAll cs => all_of shortCircuit (map (sem shortCircuit) cs)
  | CAny cs => any_of (map (sem shortCircuit) cs)
  | CNot c => neg (sem shortCircuit c)
  | CLeaf f o e => leaf_verdict f o e
  end.

(** Plain boolean reading, for conditions none of whose leaves is an error. *)
Fixpoint holds (c : Cond) : bool :=
  match c with
  | CAll cs => forallb holds cs
  | CAny cs => existsb holds cs
  | CNot c => negb (holds c)
  | CLeaf f o e => is_yes (leaf_verdict f o e)
  end.

Fixpoint defined (c : Cond) : bool :=
  match c with
  | CAll cs | CAny cs => forallb defined cs
  | CNot c => defined c
  | CLeaf f o e => negb (is_err (leaf_verdict f o e))
  end.

Definition of_bool (b : bool) : verdict := if b then Yes else No.

Lemma all_of_bools sc (bs : list bool) : all_of sc (map of_bool bs) = of_bool (forallb id bs).
Proof.
  destruct sc; simpl.
  - induction bs as [|[] bs IH]; simpl; [done|exact IH|done].
  - assert (existsb is_err (map of_bool bs) = false ∧
            forallb is_yes (map of_bool bs) = forallb id bs) as [-> ->];
      [|by destruct (forallb id bs)].
    induction bs as [|[] bs [IH1 IH2]]; simpl; by rewrite ?IH1, ?IH2.
Qed.

Lemma any_of_bools (bs : list bool) : any_of (map of_bool bs) = of_bool (existsb id bs).
Proof.
  unfold any_of. assert (existsb is_err (map of_bool bs) = false ∧
            existsb is_yes (map of_bool bs) = existsb id bs) as [-> ->];
    [|by destruct (existsb id bs)].
  induction bs as [|[] bs [IH1 IH2]]; simpl; by rewrite ?IH1, ?IH2.
Qed.

Lemma forallb_map {A} (f : A → bool) l : forallb f l = forallb id (map f l).
Proof. induction l; simpl; congruence. Qed.
Lemma existsb_map {A} (f : A → bool) l : existsb f l = existsb id (map f l).
Proof. induction l; simpl; congruence. Qed.

(** Where no leaf errs, the verdict is the boolean one, with or without early exits. *)
Lemma sem_defined sc c : defined c = true → sem sc c = of_bool (holds c).
Proof.
  assert (∀ cs, Forall (λ c, defined c = true → sem sc c = of_bool (holds c)) cs →
    forallb defined cs = true → map (sem sc) cs = map of_bool (map holds cs)) as Hmap.
  { intros cs Hcs. induction Hcs as [|c0 cs Hc _ IH]; simpl; [done|].
    intros [Hd Hds]%andb_true_iff. rewrite (Hc Hd). f_equal. auto. }
  induction c as [cs IH|cs IH|c IH|f o e] using Cond_ind; simpl; intros Hd.
  - by rewrite (Hmap cs IH Hd), all_of_bools, (forallb_map holds).
  - by rewrite (Hmap cs IH Hd), any_of_bools, (existsb_map holds).
  - rewrite IH by done. by destruct (holds c).
  - by destruct (leaf_verdict f o e).
Qed.
End semantics.

(** ** Validated trees denote conditions *)

Lemma with_key_prop {R} k (f : FactValue → R) d fs :
  has_key k fs = true → with_key k f d fs = f (prop k fs).
Proof.
  unfold has_key, prop. induction fs as [|[k' v] fs IH]; simpl; [done|].
  destruct (String.eqb k' k); simpl; [done|exact IH].
Qed.

Lemma prop_Forall (P : FactValue → Prop) k fs :
  Forall (λ kv, P (snd kv)) fs → has_key k fs = true → P (prop k fs).
Proof.
  unfold has_key, prop. induction 1 as [|[k' v] fs Hv _ IH]; simpl; [done|].
  destruct (String.eqb k' k); simpl; [done|exact IH].
Qed.

Lemma has_key_keys k fs : has_key k fs = among (map fst fs) k.
Proof.
  unfold has_key, among. induction fs as [|[k' v] fs IH]; simpl; [done|].
  by rewrite IH, String.eqb_sym.
Qed.

Lemma where_all {A} (p : A → bool) l : (∀ x, x ∈ l → p x = true) → where_ p l = l.
Proof.
  induction l as [|x l IH]; simpl; intros Hl; [done|].
  rewrite (Hl x) by set_solver. f_equal. apply IH. set_solver.
Qed.

Lemma where_nil {A} (p : A → bool) l x : where_ p l = [] → x ∈ l → p x = false.
Proof.
  induction l as [|y l IH]; simpl; [by intros _ ?%elem_of_nil|].
  destruct (p y) eqn:E; [done|]. intros Hl [->|]%elem_of_cons; auto.
Qed.

Lemma where_subset {A} (p : A → bool) l x : x ∈ where_ p l → x ∈ l ∧ p x = true.
Proof.
  induction l as [|y l IH]; simpl; [by intros ?%elem_of_nil|].
  destruct (p y) eqn:E; [intros [->|?]%elem_of_cons|]; set_solver.
Qed.

Lemma among_In names k : among names k = true ↔ k ∈ names.
Proof.
  unfold among. rewrite existsb_exists. split.
  - intros (x & Hx & ->%String.eqb_eq). by apply list_elem_of_In.
  - intros Hk. exists k. rewrite String.eqb_refl. split; [by apply list_elem_of_In|done].
Qed.

(** A leaf that passes validation has a field and exactly one known operator. *)
Lemma validate_leaf_parse fs path :
  has_key "all" fs = false → has_key "any" fs = false → has_key "not" fs = false →
  validate_leaf fs path = [] →
  ∃ c f name, prop "field" fs = FStr (String c f) ∧ operator_keys fs = [name] ∧
    among OPERATORS name = true.
Proof.
  rewrite !has_key_keys. intros Hall Hany Hnot. unfold validate_leaf.
  destruct (prop "field" fs) as [| | | |[|c f]| | |]; try done.
  destruct (operator_keys fs) as [|k0 ks] eqn:Hkeys; [done|]. rewrite <- Hkeys.
  destruct (where_ _ (operator_keys fs)) as [|] eqn:Hunknown; [|done].
  assert (∀ k, k ∈ operator_keys fs → among OPERATORS k = true) as Hknown.
  { intros k Hk. pose proof (where_nil _ _ _ Hunknown Hk) as Hu. cbv beta in Hu.
    apply where_subset in Hk as [Hk _].
    assert (∀ l, among (map fst fs) l = false → k ≠ l) as Hne.
    { intros l Hl ->. apply among_In in Hk. congruence. }
    destruct (among OPERATORS k); [done|]. apply negb_false_iff in Hu.
    apply among_In in Hu. unfold LOGICAL in Hu.
    apply Hne in Hall, Hany, Hnot. set_solver. }
  rewrite (where_all _ _ Hknown).
  destruct (operator_keys fs) as [|name [|]]; try done.
  intros _. exists c, f, name. split_and!; [done..|]. apply Hknown. set_solver.
Qed.

Lemma parse_leaf_spec fs c f name :
  prop "field" fs = FStr (String c f) → operator_keys fs = [name] →
  among OPERATORS name = true → parse_leaf fs = Some (CLeaf (String c f) name (prop name fs)).
Proof. unfold parse_leaf. by intros -> -> ->. Qed.

(** A property of a tree together with the same of its children. *)
Definition with_children (P : FactValue → Prop) (v : FactValue) : Prop :=
  P v ∧ match v with FArr xs => Forall P xs | _ => True end.

Lemma FactValue_children_ind (P : FactValue → Prop) :
  (∀ v, match v with FObj _ => False | _ => True end → P v) →
  (∀ fs, (∀ k, has_key k fs = true → with_children P (prop k fs)) → P (FObj fs)) →
  ∀ v, P v.
Proof.
  intros Hatom Hobj v. cut (with_children P v); [by intros []|].
  induction v as [| | | | | |xs IH|fs IH] using FactValue_ind;
    try (split; [by apply Hatom|done]).
  - split; [by apply Hatom|]. eapply Forall_impl; [exact IH|]. by intros x [].
  - split; [|done]. apply Hobj. intros k Hk. by apply (prop_Forall (with_children P)).
Qed.

(** ** The evaluator computes the verdict *)

Definition verdict_of (r : EvalInternal) : verdict :=
  if has_errors r then Err else of_bool (ei_matched r).

Section evaluation.
  Context `{!JsLibrary, !DateText, !JsonText, !NumberText}.
  Context (facts : fields_) (cr sc : bool) (ms : Q).

(** What the cache remembers is what the facts hold. *)
Definition cache_ok (cache : PathCache) : Prop := map_Forall (λ p v, v = fact facts p) cache.

(** An evaluation from any good cache returns, with the verdict [v], and leaves a
    good cache; a match carries no errors. *)
Definition gives (m : PathCache → eval_result) (v : verdict) : Prop :=
  ∀ cache, cache_ok cache → ∃ r cache', m cache = Some (r, cache') ∧ cache_ok cache' ∧
    verdict_of r = v ∧ (ei_matched r = true → ei_errors r = []).

Lemma resolvePath_spec path cache : cache_ok cache → isValidPath path = true →
  ∃ cache', resolvePath facts path cache = (inr (fact facts path), cache') ∧ cache_ok cache'.
Proof.
  intros Hc Hp. unfold resolvePath. rewrite Hp. simpl.
  destruct (cache !! path) as [v|] eqn:E.
  - rewrite (Hc _ _ E). eauto.
  - eexists. split; [done|]. by apply map_Forall_insert_2.
Qed.

Lemma operators_registered name : among OPERATORS name = true →
  ∃ op, registry_get name = Some op.
Proof.
  intros Hn%among_In. unfold OPERATORS in Hn.
  repeat (apply elem_of_cons in Hn as [->|Hn]; [eexists; reflexivity|]).
  by apply elem_of_nil in Hn.
Qed.

Lemma leaf_gives fs c f name :
  prop "field" fs = FStr (String c f) → operator_keys fs = [name] →
  among OPERATORS name = true →
  gives (λ cache, Some (leaf facts cr ms fs cache))
    (leaf_verdict facts (String c f) name (prop name fs)).
Proof.
  intros Hf Hk Ho cache Hc. destruct (operators_registered _ Ho) as [op Hop].
  unfold leaf, leafOperator, leaf_verdict. rewrite Hk, Hf, Hop.
  destruct (isValidPath (String c f)) eqn:Hp.
  - destruct (resolvePath_spec _ _ Hc Hp) as (cache' & -> & Hc').
    destruct (or_error _) eqn:He;
      do 2 eexists; (split_and!; [reflexivity|done|..]); unfold verdict_of; simpl; try done.
  - unfold resolvePath. rewrite Hp. do 2 eexists. by split_and!.
Qed.

Lemma negated_gives m v : gives m v →
  gives (λ cache, match m cache with
                  | Some (inner, cache) => Some (negated cr ms inner, cache)
                  | None => None
                  end) (neg v).
Proof.
  intros Hm cache Hc. destruct (Hm cache Hc) as (r & cache' & -> & Hc' & <- & Hr).
  do 2 eexists. split_and!; [reflexivity|done|..]; unfold verdict_of, has_errors, negated; simpl;
    destruct (ei_errors r); simpl; try done. by destruct (ei_matched r).
Qed.

Lemma verdict_Yes r : verdict_of r = Yes → ei_errors r = [] ∧ ei_matched r = true.
Proof. unfold verdict_of, has_errors. by destruct (ei_errors r), (ei_matched r). Qed.
Lemma verdict_No r : verdict_of r = No → ei_errors r = [] ∧ ei_matched r = false.
Proof. unfold verdict_of, has_errors. by destruct (ei_errors r), (ei_matched r). Qed.
Lemma verdict_Err r : verdict_of r = Err → ∃ e es, ei_errors r = e :: es.
Proof. unfold verdict_of, has_errors. destruct (ei_errors r), (ei_matched r); eauto; done. Qed.

(** Execute one child: its verdict decides the branch. *)
Ltac child Hchild :=
  let r := fresh "r" in let cache := fresh "cache" in
  let He := fresh "He" in let Hm := fresh "Hm" in let e := fresh "e" in let es := fresh "es" in
  match goal with Hc : cache_ok ?c |- _ =>
    destruct (Hchild c Hc) as (r & cache & -> & ? & ? & ?); clear Hc end;
  match goal with Hv : verdict_of r = ?v |- _ =>
    destruct v; [apply verdict_Yes in Hv as [He Hm]; unfold has_errors; rewrite ?He, ?Hm
                |apply verdict_No in Hv as [He Hm]; unfold has_errors; rewrite ?He, ?Hm
                |apply verdict_Err in Hv as (e & es & He); unfold has_errors; rewrite ?He] end;
  rewrite ?app_nil_r; simpl.

Lemma all_loop_short node_ cs vs : sc = true → Forall2 (λ c v, gives (node_ c) v) cs vs →
  ∀ score reasons count, gives (λ cache,
    group_loop cr sc mode_all node_ cs cache score reasons [] count false) (first_not_yes vs).
Proof.
  intros Hsc. rewrite Hsc. induction 1 as [|c v cs vs Hv _ IH]; intros score reasons count cache Hc.
  { do 2 eexists. by split_and!. }
  simpl. child Hv.
  - by apply IH.
  - do 2 eexists. by split_and!.
  - do 2 eexists. split_and!; [reflexivity|done|done|done].
Qed.

Lemma all_loop_full node_ cs vs : sc = false → Forall2 (λ c v, gives (node_ c) v) cs vs →
  ∀ score reasons errors count failed, gives (λ cache,
    group_loop cr sc mode_all node_ cs cache score reasons errors count failed)
    (if negb (is_nil errors) || existsb is_err vs then Err
     else if failed || negb (forallb is_yes vs) then No else Yes).
Proof.
  intros Hsc. rewrite Hsc.
  induction 1 as [|c v cs vs Hv _ IH]; intros score reasons errors count failed cache Hc.
  { do 2 eexists. split_and!; [reflexivity|done|..]; unfold verdict_of, has_errors; simpl;
      by destruct errors, failed. }
  simpl. child Hv.
  - by apply IH.
  - destruct (IH score (if cr then reasons ++ ei_reasons r else reasons) errors count true cache0)
      as (r' & c' & E & Hc' & Hv' & Hr'); [done|].
    do 2 eexists. split_and!; [exact E|done| |done]. rewrite Hv'. simpl. by destruct failed.
  - destruct (IH score (if cr then reasons ++ ei_reasons r else reasons) (errors ++ e :: es) count true cache0)
      as (r' & c' & E & Hc' & Hv' & Hr'); [done|].
    do 2 eexists. split_and!; [exact E|done| |done]. rewrite Hv'. simpl. by destruct errors.
Qed.

Lemma any_loop node_ cs vs : Forall2 (λ c v, gives (node_ c) v) cs vs →
  ∀ score reasons errors count failed, 0 <= count → gives (λ cache,
    group_loop cr sc mode_any node_ cs cache score reasons errors count failed)
    (if (0 <? count) || existsb is_yes vs then Yes
     else if negb (is_nil errors) || existsb is_err vs then Err else No).
Proof.
  induction 1 as [|c v cs vs Hv _ IH]; intros score reasons errors count failed Hn cache Hc.
  { do 2 eexists. split_and!; [reflexivity|done|..]; unfold verdict_of, has_errors; simpl;
      by destruct (0 <? count), errors. }
  simpl. child Hv.
  - rewrite orb_true_r. destruct sc.
    + do 2 eexists. by split_and!.
    + destruct (IH (js_add score (ei_score r)) (if cr then reasons ++ ei_reasons r else reasons)
        errors (count + 1) failed ltac:(lia) cache0) as (r' & c' & E & Hc' & Hv' & Hr'); [done|].
      do 2 eexists. split_and!; [exact E|done| |done]. rewrite Hv'.
      assert (0 <? count + 1 = true) as -> by lia. done.
  - by apply IH.
  - destruct (IH score (if cr then reasons ++ ei_reasons r else reasons) (errors ++ e :: es) count
      failed Hn cache0) as (r' & c' & E & Hc' & Hv' & Hr'); [done|].
    rewrite andb_false_r. do 2 eexists. split_and!; [exact E|done| |done]. rewrite Hv'.
    by destruct errors.
Qed.
End evaluation.

Section denotation.
  Context `{!JsLibrary, !DateText, !JsonText, !NumberText}.
  Context (facts : fields_) (cr sc : bool) (ms : Q).

(** Validation succeeds only on trees that denote a condition, and the evaluator
    gives its verdict. *)
Definition denotes (v : FactValue) : Prop :=
  ∀ path, validateConditionTree v path = [] →
    ∃ c, parse v = Some c ∧ gives facts (node facts cr sc ms v) (sem facts sc c).

Lemma children_denote cs : Forall denotes cs → ∀ path i,
  validate_children validateConditionTree path i cs = [] →
  ∃ conds, mapM parse cs = Some conds ∧
    Forall2 (λ c v, gives facts (node facts cr sc ms c) v) cs (map (sem facts sc) conds).
Proof.
  induction 1 as [|c cs Hc _ IH]; intros path i Hv; simpl in *.
  { exists []. by split. }
  apply app_eq_nil in Hv as [Hv1 Hv2].
  destruct (Hc _ Hv1) as (d & Hd & Hg). destruct (IH _ _ Hv2) as (ds & Hds & Hgs).
  exists (d :: ds). rewrite Hd. simpl. rewrite Hds. split; [done|by constructor].
Qed.

Lemma group_gives mode cs vs :
  Forall2 (λ c v, gives facts (node facts cr sc ms c) v) cs vs →
  gives facts (group cr sc mode (node facts cr sc ms) cs)
    (match mode with mode_all => all_of sc vs | mode_any => any_of vs end).
Proof.
  intros Hvs cache Hc. destruct Hvs as [|c v cs vs Hv Hvs].
  { destruct mode; do 2 eexists; split_and!; [reflexivity|done|..]; try done. by destruct sc. }
  assert (Forall2 (λ c v, gives facts (node facts cr sc ms c) v) (c :: cs) (v :: vs)) as Hall
    by by constructor.
  unfold group. destruct mode.
  - destruct sc eqn:Hsc.
    + by apply (all_loop_short facts cr true _ _ _ eq_refl Hall).
    + destruct (all_loop_full facts cr false _ _ _ eq_refl Hall 0 [] [] 0 false cache Hc)
        as (r & c' & E & Hc' & Hr & Hm).
      do 2 eexists. split_and!; [exact E|done| |done]. rewrite Hr.
      unfold all_of. destruct (existsb is_err (v :: vs)), (forallb is_yes (v :: vs)); done.
  - by apply (any_loop facts cr sc _ _ _ Hall).
Qed.

Lemma node_denotes v : denotes v.
Proof.
  induction v as [v Hv|fs IH] using FactValue_children_ind; intros path Hval.
  { by destruct v. }
  simpl in *.
  destruct (has_key "all" fs) eqn:Hall; [|destruct (has_key "any" fs) eqn:Hany;
    [|destruct (has_key "not" fs) eqn:Hnot]].
  - specialize (IH _ Hall) as [_ IH]. rewrite !with_key_prop in * by done.
    destruct (prop "all" fs) as [| | | | | |cs|] eqn:Hp; try done.
    destruct (children_denote cs IH _ _ Hval) as (conds & -> & Hg). exists (CAll conds).
    split; [done|]. intros cache Hc. rewrite with_key_prop, Hp by done.
    by apply (group_gives mode_all).
  - specialize (IH _ Hany) as [_ IH]. rewrite !with_key_prop in * by done.
    destruct (prop "any" fs) as [| | | | | |cs|] eqn:Hp; try done.
    destruct (children_denote cs IH _ _ Hval) as (conds & -> & Hg). exists (CAny conds).
    split; [done|]. intros cache Hc. rewrite with_key_prop, Hp by done.
    by apply (group_gives mode_any).
  - specialize (IH _ Hnot) as [IH _]. rewrite !with_key_prop in * by done.
    destruct (IH _ Hval) as (c & -> & Hg). exists (CNot c). split; [done|].
    intros cache Hc. rewrite with_key_prop by done. by apply (negated_gives facts).
  - destruct (validate_leaf_parse _ _ Hall Hany Hnot Hval) as (c & f & name & Hf & Hk & Ho).
    rewrite (parse_leaf_spec _ _ _ _ Hf Hk Ho). eexists. split; [done|].
    intros cache Hc. simpl. by apply (leaf_gives facts cr ms fs c f name Hf Hk Ho).
Qed.
End denotation.

(** ** Actions *)

Lemma prop_set k v fs : prop k (set_prop k v fs) = v.
Proof.
  unfold prop. induction fs as [|[k' w] fs IH]; simpl; [by rewrite String.eqb_refl|].
  destruct (String.eqb k' k) eqn:E; simpl; [by rewrite String.eqb_refl|by rewrite E].
Qed.

Lemma prop_set_other k k' v fs : k' ≠ k → prop k' (set_prop k v fs) = prop k' fs.
Proof.
  intros Hk. apply String.eqb_neq in Hk. rewrite String.eqb_sym in Hk. unfold prop.
  induction fs as [|[k0 w] fs IH]; simpl; [by rewrite Hk|].
  destruct (String.eqb k0 k) eqn:E; simpl.
  - apply String.eqb_eq in E as ->. by rewrite Hk.
  - by destruct (String.eqb k0 k').
Qed.

Lemma split_dot_nonempty s : split_dot s ≠ [].
Proof. destruct s as [|c s]; simpl; [done|]. destruct (Ascii.eqb c "."), (split_dot s); done. Qed.

Section actions.
  Context `{!JsLibrary}.
  Context (path : string) (v : FactValue).

Lemma at_parent_cons k parts f fs : parts ≠ [] →
  at_parent (k :: parts) f fs =
  let '(next, errors) := at_parent parts f (match prop k fs with FObj fs => fs | _ => [] end) in
  (set_prop k (FObj next) fs, errors).
Proof. by destruct parts. Qed.

Lemma at_parent_set parts fs : parts ≠ [] → ∃ out,
  at_parent parts (act_on (act_set path v)) fs = (out, []) ∧ walk (FObj out) parts = v.
Proof.
  revert fs. induction parts as [|k parts IH]; intros fs Hp; [done|].
  destruct parts as [|k' parts].
  { eexists. split; [done|]. simpl. by rewrite prop_set. }
  destruct (IH (match prop k fs with FObj fs => fs | _ => [] end)) as (out & E & Hw); [done|].
  exists (set_prop k (FObj out) fs). split.
  - by rewrite at_parent_cons, E.
  - simpl. rewrite prop_set. exact Hw.
Qed.

Lemma at_parent_other parts other fs :
  ¬ parts `prefix_of` other → ¬ other `prefix_of` parts →
  walk (FObj (fst (at_parent parts (act_on (act_set path v)) fs))) other = walk (FObj fs) other.
Proof.
  revert fs other. induction parts as [|k parts IH]; intros fs other Hp Ho.
  { by destruct Hp; apply prefix_nil. }
  destruct other as [|k' other]; [by destruct Ho; apply prefix_nil|].
  destruct (decide (k' = k)) as [->|Hk].
  2: { destruct parts as [|k2 parts]; [simpl; by rewrite prop_set_other|].
       rewrite at_parent_cons by done. destruct (at_parent _ _ _). simpl.
       by rewrite prop_set_other. }
  assert (¬ parts `prefix_of` other ∧ ¬ other `prefix_of` parts) as [Hp' Ho'].
  { split; intros Hpre; [apply Hp|apply Ho]; by apply prefix_cons. }
  destruct parts as [|k2 parts]; [by destruct Hp'; apply prefix_nil|].
  specialize (IH (match prop k fs with FObj fs => fs | _ => [] end) other Hp' Ho').
  rewrite at_parent_cons by done.
  destruct (at_parent (k2 :: parts) _ _) as [out es]. simpl fst in *. simpl walk at 1.
  rewrite prop_set, IH.
  destruct other as [|k3 other]; [by destruct Ho'; apply prefix_nil|].
  simpl. destruct (prop k fs); [by destruct other..|done].
Qed.
End actions.

(** ** Theorems *)

Section theorems.
  Context `{!JsLibrary, !DateText, !JsonText, !NumberText}.

(** What the engine reports, by the meaning of the tree. *)
Lemma evaluate_denotes thrown v facts options :
  is_nullish v = false → validateConditionTree v "$" = [] →
  let sc := unless_false (eo_shortCircuit options) in
  let result := rules_evaluate thrown v facts
    (mkEvaluateOptions (eo_collectReasons options) (eo_shortCircuit options) None
       (eo_matchScore options)) in
  ∃ c, parse v = Some c ∧
    rr_matched result = is_yes (sem facts sc c) ∧
    (is_Some (rr_errors result) ↔ sem facts sc c = Err) ∧
    (defined facts c = true → rr_matched result = holds facts c ∧ rr_errors result = None).
Proof.
  intros Hn Hv sc result.
  destruct (node_denotes facts (unless_false (eo_collectReasons options)) sc
    (coalesce (eo_matchScore options) 1%Q) v "$" Hv) as (c & Hp & Hg).
  destruct (Hg ∅) as (r & cache & E & _ & Hr & Hm); [by apply map_Forall_empty|].
  assert (evaluate_conditions v facts (mkEvaluateOptions (eo_collectReasons options)
    (eo_shortCircuit options) None (eo_matchScore options)) = Some r) as Ev.
  { unfold evaluate_conditions. rewrite Hn, Hv. simpl. fold sc. by rewrite E. }
  assert (rr_matched result = is_yes (sem facts sc c) ∧
    (is_Some (rr_errors result) ↔ sem facts sc c = Err)) as [H1' H2'].
  { unfold result, rules_evaluate. rewrite Ev, <- Hr. unfold verdict_of.
    destruct (has_errors r) eqn:He; simpl; [by eauto|].
    destruct (ei_matched r); simpl; split; try done; split; try done; by intros []. }
  exists c. split_and!; [done..|]. intros Hd.
  rewrite (sem_defined facts sc c Hd) in H1', H2'. split.
  - rewrite H1'. by destruct (holds facts c).
  - destruct (rr_errors result); [|done].
    destruct H2' as [H2' _]. specialize (H2' ltac:(eauto)). by destruct (holds facts c).
Qed.

(** (C8) The engine decides conditions: a validated tree denotes a condition, the
    engine reports a match exactly when the verdict of the condition is [Yes] and
    errors exactly when it is [Err], whatever reasons and scores are collected and
    whatever the path cache does; where no leaf errs the verdict is the plain
    boolean value, with or without early exits. *)
Theorem evaluate_decides thrown v facts options :
  is_nullish v = false → validateConditionTree v "$" = [] →
  let sc := unless_false (eo_shortCircuit options) in
  let result := rules_evaluate thrown v facts
    (mkEvaluateOptions (eo_collectReasons options) (eo_shortCircuit options) None
       (eo_matchScore options)) in
  ∃ c, parse v = Some c ∧
    rr_matched result = is_yes (sem facts sc c) ∧
    (is_Some (rr_errors result) ↔ sem facts sc c = Err) ∧
    (defined facts c = true → rr_matched result = holds facts c ∧ rr_errors result = None).
Proof. apply evaluate_denotes. Qed.

(** What an action sets is what a condition reads: after [set path v] on a valid
    path, the field [path] of the output is [v], and every field that is neither
    above nor below it is what it was. *)
Lemma set_then_read path v facts :
  isValidPath path = true →
  ∃ output, applyActions facts [act_set path v] = (output, []) ∧ fact output path = v ∧
    ∀ q, ¬ split_dot path `prefix_of` split_dot q → ¬ split_dot q `prefix_of` split_dot path →
      fact output q = fact facts q.
Proof.
  intros Hp. destruct (at_parent_set path v (split_dot path) facts) as (out & E & Hw);
    [apply split_dot_nonempty|].
  exists out. simpl. unfold apply_action. simpl. rewrite Hp. simpl. rewrite E. split_and!; [done..|].
  intros q Hq1 Hq2. pose proof (at_parent_other path v _ _ facts Hq1 Hq2) as Ho.
  by rewrite E in Ho.
Qed.
End theorems.

(** ** Runs *)

Section examples.

#[local] Instance js0 : JsLibrary := {
  Date_parse _ := None;
  localeCompare a b := match String.compare a b with Lt => -1 | Eq => 0 | Gt => 1 end;
  regex_test _ _ := None;
  string_to_number _ := None;
  array_to_number _ := None;
}.
#[local] Instance date0 : DateText := λ _, "".
#[local] Instance text0 : JsonText := λ _, "".
#[local] Instance num0 : NumberText := λ _, "".

Definition cart_facts : fields_ :=
  [("cart", FObj [("total", FNum 1500); ("tags", FArr [FStr "vip"])]); ("tier", FStr "gold")].

Definition leaf0 (field op : string) (expected : FactValue) : FactValue :=
  FObj [("field", FStr field); (op, expected)].

(** A cart of 1000 to 2000 that is tagged or of gold tier, and not empty. *)
Definition big_cart : FactValue :=
  FObj [("all", FArr [leaf0 "cart.total" "between" (FArr [FNum 1000; FNum 2000]);
                      FObj [("any", FArr [leaf0 "cart.tags" "contains" (FStr "b2b");
                                          leaf0 "tier" "eq" (FStr "gold")])];
                      FObj [("not", leaf0 "cart.total" "eq" (FNum 0))]])].

Example big_cart_matches :
  rr_matched (rules_evaluate "" big_cart cart_facts no_options) = true.
Proof. vm_compute. reflexivity. Qed.

Lemma evaluate_decides_witness :
  ∃ c, parse big_cart = Some c ∧
    rr_matched (rules_evaluate "" big_cart cart_facts no_options) = is_yes (sem cart_facts true c).
Proof.
  destruct (evaluate_decides "" big_cart cart_facts no_options) as (c & Hc & Hm & _);
    [reflexivity|vm_compute; reflexivity|].
  exists c. split; [exact Hc|exact Hm].
Defined.

Lemma set_then_read_witness :
  ∃ output, applyActions cart_facts [act_set "cart.total" (FNum 900)] = (output, []) ∧
    fact output "cart.total" = FNum 900.
Proof.
  destruct (set_then_read "cart.total" (FNum 900) cart_facts) as (out & E & Hr & _);
    [reflexivity|].
  exists out. split; [exact E|exact Hr].
Defined.

(** Early exits decide between a mismatch and an error: the second part cannot be
    compared, and only the evaluation without early exits gets there. *)
Example early_exit_hides_error :
  let c := FObj [("all", FArr [leaf0 "cart.total" "lt" (FNum 0);
                               leaf0 "cart.tags" "gt" (FNum 1)])] in
  rr_errors (rules_evaluate "" c cart_facts no_options) = None ∧
  is_Some (rr_errors (rules_evaluate "" c cart_facts
    (mkEvaluateOptions None (Some false) None None))).
Proof. split; [vm_compute; reflexivity|vm_compute; eauto]. Qed.

(** A tree that is not a condition is reported, not evaluated. *)
Example invalid_tree_reported :
  rr_errors (rules_evaluate "" (FObj [("all", FNum 1)]) cart_facts no_options) =
  Some ["$.all must be an array"].
Proof. vm_compute. reflexivity. Qed.
End examples.
