(* ===== verification/Schema.v ===== *)
(** * Database schema

    The rows of the tables that the modelled services read and write, after
    [database/schema.prisma] and [database/sql/*.sql]. A table is the
    list of its rows. Columns NUMERIC(_, 2) hold whole hundredths and columns
    NUMERIC(_, 3) whole thousandths; times are milliseconds; [deleted_at] marks soft deletion. The bookkeeping columns
    [created_at], [updated_at], [created_by], [updated_by] and
    [last_stock_update], which no modelled code reads back, are left out, except
    where a query orders by one of them, as are the JSON copies of gateway
    responses and audit metadata. *)
From S2P Require Import Prelude Core Effects.
From Stdlib Require Import QArith.

#[local] Open Scope Z_scope.

(** ** Enums *)

Inductive RecordStatus := rs_active | rs_inactive | rs_suspended | rs_pending | rs_archived.
Inductive ReservationStatus := rv_active | rv_consumed | rv_expired | rv_released | rv_cancelled.
Inductive StockMovementType :=
| mv_purchase | mv_sale | mv_transfer_out | mv_transfer_in | mv_adjustment
| mv_return_in | mv_return_out | mv_repair | mv_replacement
| mv_reservation | mv_reservation_release | mv_damage | mv_refurbish.
Inductive CartStatus := ct_active | ct_converted | ct_abandoned | ct_merged.
Inductive OrderStatus :=
| or_pending | or_confirmed | or_processing | or_packed | or_shipped
| or_delivered | or_completed | or_cancelled | or_returned | or_refunded.
Inductive PaymentStatus :=
| pm_pending | pm_authorized | pm_captured | pm_failed | pm_cancelled
| pm_expired | pm_refunded | pm_partially_refunded | pm_chargeback.
Inductive UserType := ut_customer | ut_admin | ut_vendor | ut_technician | ut_support | ut_system.
Inductive AuthProvider := ap_local | ap_google | ap_apple | ap_otp.
Inductive OtpPurpose :=
| op_login | op_register | op_reset_password | op_verify_email | op_verify_mobile | op_two_factor.
Inductive OtpChannel := oc_sms | oc_email | oc_whatsapp.
Inductive SessionStatus := se_active | se_revoked | se_expired.
Inductive TokenStatus := tk_active | tk_rotated | tk_revoked | tk_expired.
Inductive CouponDiscountType := cd_flat | cd_percentage.
Inductive CouponRuleType :=
| cr_brand | cr_category | cr_min_cart_value | cr_max_discount | cr_usage_limit | cr_per_user_limit.
Inductive LoyaltyTier := ly_bronze | ly_silver | ly_gold | ly_platinum.
Inductive LoyaltyTxType :=
| lt_earn | lt_redeem | lt_expire | lt_adjust | lt_referral_bonus | lt_refund.
Inductive FeatureFlagStatus := ff_enabled | ff_disabled | ff_conditional.
Inductive AbTestStatus := ab_draft | ab_running | ab_paused | ab_completed | ab_cancelled.
Inductive CampaignStatus :=
| cg_draft | cg_scheduled | cg_running | cg_paused | cg_completed | cg_cancelled.
Inductive ShippingPartnerCode :=
| sc_shiprocket | sc_delhivery | sc_bluedart | sc_dtdc | sc_xpressbees
| sc_india_post | sc_dhl | sc_fedex | sc_ups | sc_other.
Inductive ShipmentStatus :=
| ss_created | ss_packed | ss_dispatched | ss_in_transit | ss_out_for_delivery
| ss_delivered | ss_delivery_failed | ss_returned | ss_lost | ss_damaged | ss_cancelled.
Inductive ReverseShipmentType := rst_customer_return | rst_warranty_return | rst_exchange_pickup.
Inductive ReverseShipmentStatus :=
| rss_requested | rss_scheduled | rss_picked_up | rss_in_transit | rss_received
| rss_cancelled | rss_failed.
Inductive RtoStatus :=
| rto_initiated_ | rto_in_transit_ | rto_received_ | rto_closed_ | rto_cancelled_.
Inductive ShippingLabelFormat := lf_pdf | lf_zpl | lf_png.
Inductive SettlementStatus := sl_pending | sl_settled | sl_failed | sl_reversed.
Inductive ReconciliationStatus :=
| rc_matched | rc_variance | rc_missing_gateway | rc_missing_internal | rc_unresolved.
Inductive WarrantyTrackStatus := wts_not_applicable | wts_not_registered | wts_active |
  wts_expired | wts_claimed | wts_voided.
Inductive WarrantyPlanType := wpt_manufacturer | wpt_extended | wpt_adp | wpt_amc.
Inductive WarrantyRegistrationStatus := wrs_pending | wrs_active | wrs_expired | wrs_void |
  wrs_transferred.
Inductive WarrantyClaimStatus := wcs_submitted | wcs_under_review | wcs_approved | wcs_rejected |
  wcs_in_service | wcs_closed | wcs_cancelled.
Inductive ServiceTicketStatus := sts_created | sts_assigned | sts_diagnosis |
  sts_waiting_for_parts | sts_repair_in_progress | sts_testing | sts_quality_check |
  sts_ready_for_pickup | sts_delivered | sts_closed | sts_cancelled.
Inductive RepairOutcome := rpo_pending | rpo_repaired | rpo_irreparable | rpo_replaced |
  rpo_customer_declined.
Inductive RmaType := rmt_doa | rmt_warranty_repair | rmt_replacement | rmt_refund.
Inductive RmaStatus := rms_requested | rms_approved | rms_in_transit | rms_received |
  rms_completed | rms_rejected | rms_cancelled.
Inductive ReplacementType := rpt_same_variant | rpt_different_variant | rpt_upgrade |
  rpt_store_credit.
Inductive LoanDeviceStatus := lds_available | lds_allocated | lds_maintenance | lds_retired.
Inductive LoanAllocationStatus := las_active | las_returned | las_overdue | las_lost |
  las_cancelled.
Inductive StockStatus := sks_in_stock | sks_out_of_stock | sks_preorder | sks_discontinued |
  sks_made_to_order.
Inductive ProductCondition := pcd_new_sealed | pcd_like_new | pcd_excellent | pcd_good |
  pcd_fair | pcd_open_box | pcd_refurbished | pcd_certified_refurbished.
Inductive ProductGrade := pgr_a_plus | pgr_a | pgr_b | pgr_c | pgr_ungraded.
Inductive MediaKind := mk_image | mk_video | mk_document | mk_other.
Inductive AttributeDataType := adt_string | adt_number | adt_boolean | adt_enum_value.
Inductive CmsPageStatus := cps_draft | cps_published | cps_archived.
Inductive AnalyticsPeriod := pd_daily | pd_weekly | pd_monthly.
Inductive AlertSeverity := sv_info | sv_warning | sv_critical.
Inductive ReportExportFormat := xf_csv | xf_pdf | xf_xlsx.
Inductive ReportExportStatus := xs_queued | xs_processing | xs_completed | xs_failed | xs_expired.
Inductive SeoEntityType := sen_page | sen_product | sen_category | sen_collection | sen_blog
  | sen_buying_guide | sen_other.
Inductive DisputeStatus := dp_opened | dp_under_review | dp_won | dp_lost | dp_withdrawn.

#[export] Instance StockStatus_eq_dec : EqDecision StockStatus.
Proof. solve_decision. Defined.
#[export] Instance ProductCondition_eq_dec : EqDecision ProductCondition.
Proof. solve_decision. Defined.
#[export] Instance ProductGrade_eq_dec : EqDecision ProductGrade.
Proof. solve_decision. Defined.
#[export] Instance MediaKind_eq_dec : EqDecision MediaKind.
Proof. solve_decision. Defined.
#[export] Instance AttributeDataType_eq_dec : EqDecision AttributeDataType.
Proof. solve_decision. Defined.
#[export] Instance CmsPageStatus_eq_dec : EqDecision CmsPageStatus.
Proof. solve_decision. Defined.
#[export] Instance AnalyticsPeriod_eq_dec : EqDecision AnalyticsPeriod.
Proof. solve_decision. Defined.
#[export] Instance AlertSeverity_eq_dec : EqDecision AlertSeverity.
Proof. solve_decision. Defined.
#[export] Instance ReportExportFormat_eq_dec : EqDecision ReportExportFormat.
Proof. solve_decision. Defined.
#[export] Instance ReportExportStatus_eq_dec : EqDecision ReportExportStatus.
Proof. solve_decision. Defined.
#[export] Instance SeoEntityType_eq_dec : EqDecision SeoEntityType.
Proof. solve_decision. Defined.
#[export] Instance RecordStatus_eq_dec : EqDecision RecordStatus.
Proof. solve_decision. Defined.
#[export] Instance ReservationStatus_eq_dec : EqDecision ReservationStatus.
Proof. solve_decision. Defined.
#[export] Instance StockMovementType_eq_dec : EqDecision StockMovementType.
Proof. solve_decision. Defined.
#[export] Instance CartStatus_eq_dec : EqDecision CartStatus.
Proof. solve_decision. Defined.
#[export] Instance OrderStatus_eq_dec : EqDecision OrderStatus.
Proof. solve_decision. Defined.
#[export] Instance PaymentStatus_eq_dec : EqDecision PaymentStatus.
Proof. solve_decision. Defined.

#[export] Instance UserType_eq_dec : EqDecision UserType.
Proof. solve_decision. Defined.
#[export] Instance AuthProvider_eq_dec : EqDecision AuthProvider.
Proof. solve_decision. Defined.
#[export] Instance OtpPurpose_eq_dec : EqDecision OtpPurpose.
Proof. solve_decision. Defined.
#[export] Instance OtpChannel_eq_dec : EqDecision OtpChannel.
Proof. solve_decision. Defined.
#[export] Instance SessionStatus_eq_dec : EqDecision SessionStatus.
Proof. solve_decision. Defined.
#[export] Instance TokenStatus_eq_dec : EqDecision TokenStatus.
Proof. solve_decision. Defined.
#[export] Instance CouponDiscountType_eq_dec : EqDecision CouponDiscountType.
Proof. solve_decision. Defined.
#[export] Instance CouponRuleType_eq_dec : EqDecision CouponRuleType.
Proof. solve_decision. Defined.
#[export] Instance LoyaltyTier_eq_dec : EqDecision LoyaltyTier.
Proof. solve_decision. Defined.
#[export] Instance LoyaltyTxType_eq_dec : EqDecision LoyaltyTxType.
Proof. solve_decision. Defined.
#[export] Instance FeatureFlagStatus_eq_dec : EqDecision FeatureFlagStatus.
Proof. solve_decision. Defined.
#[export] Instance AbTestStatus_eq_dec : EqDecision AbTestStatus.
Proof. solve_decision. Defined.
#[export] Instance CampaignStatus_eq_dec : EqDecision CampaignStatus.
Proof. solve_decision. Defined.
#[export] Instance ShippingPartnerCode_eq_dec : EqDecision ShippingPartnerCode.
Proof. solve_decision. Defined.
#[export] Instance ShipmentStatus_eq_dec : EqDecision ShipmentStatus.
Proof. solve_decision. Defined.
#[export] Instance ReverseShipmentType_eq_dec : EqDecision ReverseShipmentType.
Proof. solve_decision. Defined.
#[export] Instance ReverseShipmentStatus_eq_dec : EqDecision ReverseShipmentStatus.
Proof. solve_decision. Defined.
#[export] Instance RtoStatus_eq_dec : EqDecision RtoStatus.
Proof. solve_decision. Defined.
#[export] Instance SettlementStatus_eq_dec : EqDecision SettlementStatus.
Proof. solve_decision. Defined.
#[export] Instance ReconciliationStatus_eq_dec : EqDecision ReconciliationStatus.
Proof. solve_decision. Defined.
#[export] Instance WarrantyTrackStatus_eq_dec : EqDecision WarrantyTrackStatus.
Proof. solve_decision. Defined.
#[export] Instance WarrantyPlanType_eq_dec : EqDecision WarrantyPlanType.
Proof. solve_decision. Defined.
#[export] Instance WarrantyRegistrationStatus_eq_dec : EqDecision WarrantyRegistrationStatus.
Proof. solve_decision. Defined.
#[export] Instance WarrantyClaimStatus_eq_dec : EqDecision WarrantyClaimStatus.
Proof. solve_decision. Defined.
#[export] Instance ServiceTicketStatus_eq_dec : EqDecision ServiceTicketStatus.
Proof. solve_decision. Defined.
#[export] Instance RepairOutcome_eq_dec : EqDecision RepairOutcome.
Proof. solve_decision. Defined.
#[export] Instance RmaType_eq_dec : EqDecision RmaType.
Proof. solve_decision. Defined.
#[export] Instance RmaStatus_eq_dec : EqDecision RmaStatus.
Proof. solve_decision. Defined.
#[export] Instance ReplacementType_eq_dec : EqDecision ReplacementType.
Proof. solve_decision. Defined.
#[export] Instance LoanDeviceStatus_eq_dec : EqDecision LoanDeviceStatus.
Proof. solve_decision. Defined.
#[export] Instance LoanAllocationStatus_eq_dec : EqDecision LoanAllocationStatus.
Proof. solve_decision. Defined.
#[export] Instance DisputeStatus_eq_dec : EqDecision DisputeStatus.
Proof. solve_decision. Defined.

Definition RecordStatus_text (st : RecordStatus) : string :=
  match st with
  | rs_active => "active" | rs_inactive => "inactive" | rs_suspended => "suspended"
  | rs_pending => "pending" | rs_archived => "archived"
  end.

Definition ReservationStatus_text (s : ReservationStatus) : string :=
  match s with
  | rv_active => "active" | rv_consumed => "consumed" | rv_expired => "expired"
  | rv_released => "released" | rv_cancelled => "cancelled"
  end.

Definition OrderStatus_text (s : OrderStatus) : string :=
  match s with
  | or_pending => "pending" | or_confirmed => "confirmed" | or_processing => "processing"
  | or_packed => "packed" | or_shipped => "shipped" | or_delivered => "delivered"
  | or_completed => "completed" | or_cancelled => "cancelled" | or_returned => "returned"
  | or_refunded => "refunded"
  end.

Definition PaymentStatus_text (s : PaymentStatus) : string :=
  match s with
  | pm_pending => "pending" | pm_authorized => "authorized" | pm_captured => "captured"
  | pm_failed => "failed" | pm_cancelled => "cancelled" | pm_expired => "expired"
  | pm_refunded => "refunded" | pm_partially_refunded => "partially_refunded"
  | pm_chargeback => "chargeback"
  end.

Definition ShippingPartnerCode_text (c : ShippingPartnerCode) : string :=
  match c with
  | sc_shiprocket => "shiprocket" | sc_delhivery => "delhivery" | sc_bluedart => "bluedart"
  | sc_dtdc => "dtdc" | sc_xpressbees => "xpressbees" | sc_india_post => "india_post"
  | sc_dhl => "dhl" | sc_fedex => "fedex" | sc_ups => "ups" | sc_other => "other"
  end.

Definition ShipmentStatus_text (s : ShipmentStatus) : string :=
  match s with
  | ss_created => "created" | ss_packed => "packed" | ss_dispatched => "dispatched"
  | ss_in_transit => "in_transit" | ss_out_for_delivery => "out_for_delivery"
  | ss_delivered => "delivered" | ss_delivery_failed => "delivery_failed"
  | ss_returned => "returned" | ss_lost => "lost" | ss_damaged => "damaged"
  | ss_cancelled => "cancelled"
  end.

Definition ReverseShipmentType_text (t : ReverseShipmentType) : string :=
  match t with
  | rst_customer_return => "customer_return" | rst_warranty_return => "warranty_return"
  | rst_exchange_pickup => "exchange_pickup"
  end.

Definition ReverseShipmentStatus_text (s : ReverseShipmentStatus) : string :=
  match s with
  | rss_requested => "requested" | rss_scheduled => "scheduled" | rss_picked_up => "picked_up"
  | rss_in_transit => "in_transit" | rss_received => "received"
  | rss_cancelled => "cancelled" | rss_failed => "failed"
  end.

Definition RtoStatus_text (s : RtoStatus) : string :=
  match s with
  | rto_initiated_ => "initiated" | rto_in_transit_ => "in_transit"
  | rto_received_ => "received" | rto_closed_ => "closed" | rto_cancelled_ => "cancelled"
  end.

Definition ShippingLabelFormat_text (f : ShippingLabelFormat) : string :=
  match f with lf_pdf => "pdf" | lf_zpl => "zpl" | lf_png => "png" end.

Definition SettlementStatus_text (s : SettlementStatus) : string :=
  match s with
  | sl_pending => "pending" | sl_settled => "settled" | sl_failed => "failed"
  | sl_reversed => "reversed"
  end.

Definition ReconciliationStatus_text (s : ReconciliationStatus) : string :=
  match s with
  | rc_matched => "matched" | rc_variance => "variance" | rc_missing_gateway => "missing_gateway"
  | rc_missing_internal => "missing_internal" | rc_unresolved => "unresolved"
  end.

Definition WarrantyTrackStatus_text (s : WarrantyTrackStatus) : string :=
  match s with
  | wts_not_applicable => "not_applicable" | wts_not_registered => "not_registered" | wts_active
  => "active" | wts_expired => "expired" | wts_claimed => "claimed" | wts_voided => "voided"
  end.

Definition WarrantyPlanType_text (s : WarrantyPlanType) : string :=
  match s with
  | wpt_manufacturer => "manufacturer" | wpt_extended => "extended" | wpt_adp => "adp" | wpt_amc
  => "amc"
  end.

Definition WarrantyRegistrationStatus_text (s : WarrantyRegistrationStatus) : string :=
  match s with
  | wrs_pending => "pending" | wrs_active => "active" | wrs_expired => "expired" | wrs_void =>
  "void" | wrs_transferred => "transferred"
  end.

Definition WarrantyClaimStatus_text (s : WarrantyClaimStatus) : string :=
  match s with
  | wcs_submitted => "submitted" | wcs_under_review => "under_review" | wcs_approved => "approved"
  | wcs_rejected => "rejected" | wcs_in_service => "in_service" | wcs_closed => "closed" |
  wcs_cancelled => "cancelled"
  end.

Definition ServiceTicketStatus_text (s : ServiceTicketStatus) : string :=
  match s with
  | sts_created => "created" | sts_assigned => "assigned" | sts_diagnosis => "diagnosis" |
  sts_waiting_for_parts => "waiting_for_parts" | sts_repair_in_progress => "repair_in_progress" |
  sts_testing => "testing" | sts_quality_check => "quality_check" | sts_ready_for_pickup =>
  "ready_for_pickup" | sts_delivered => "delivered" | sts_closed => "closed" | sts_cancelled =>
  "cancelled"
  end.

Definition RepairOutcome_text (s : RepairOutcome) : string :=
  match s with
  | rpo_pending => "pending" | rpo_repaired => "repaired" | rpo_irreparable => "irreparable" |
  rpo_replaced => "replaced" | rpo_customer_declined => "customer_declined"
  end.

Definition StockStatus_text (s : StockStatus) : string :=
  match s with
  | sks_in_stock => "in_stock" | sks_out_of_stock => "out_of_stock" | sks_preorder =>
  "preorder" | sks_discontinued => "discontinued" | sks_made_to_order => "made_to_order"
  end.

Definition ProductCondition_text (s : ProductCondition) : string :=
  match s with
  | pcd_new_sealed => "new_sealed" | pcd_like_new => "like_new" | pcd_excellent => "excellent"
  | pcd_good => "good" | pcd_fair => "fair" | pcd_open_box => "open_box" | pcd_refurbished =>
  "refurbished" | pcd_certified_refurbished => "certified_refurbished"
  end.

Definition ProductGrade_text (s : ProductGrade) : string :=
  match s with
  | pgr_a_plus => "a_plus" | pgr_a => "a" | pgr_b => "b" | pgr_c => "c" | pgr_ungraded =>
  "ungraded"
  end.

Definition MediaKind_text (s : MediaKind) : string :=
  match s with
  | mk_image => "image" | mk_video => "video" | mk_document => "document" | mk_other =>
  "other"
  end.

Definition AttributeDataType_text (s : AttributeDataType) : string :=
  match s with
  | adt_string => "string" | adt_number => "number" | adt_boolean => "boolean" |
  adt_enum_value => "enum_value"
  end.

Definition CmsPageStatus_text (s : CmsPageStatus) : string :=
  match s with
  | cps_draft => "draft" | cps_published => "published" | cps_archived => "archived"
  end.

Definition AnalyticsPeriod_text (p : AnalyticsPeriod) : string :=
  match p with pd_daily => "daily" | pd_weekly => "weekly" | pd_monthly => "monthly" end.

Definition AlertSeverity_text (s : AlertSeverity) : string :=
  match s with sv_info => "info" | sv_warning => "warning" | sv_critical => "critical" end.

Definition ReportExportFormat_text (f : ReportExportFormat) : string :=
  match f with xf_csv => "csv" | xf_pdf => "pdf" | xf_xlsx => "xlsx" end.

Definition SeoEntityType_text (s : SeoEntityType) : string :=
  match s with
  | sen_page => "page" | sen_product => "product" | sen_category => "category" |
  sen_collection => "collection" | sen_blog => "blog" | sen_buying_guide => "buying_guide" |
  sen_other => "other"
  end.

Definition RmaType_text (s : RmaType) : string :=
  match s with
  | rmt_doa => "doa" | rmt_warranty_repair => "warranty_repair" | rmt_replacement => "replacement"
  | rmt_refund => "refund"
  end.

Definition RmaStatus_text (s : RmaStatus) : string :=
  match s with
  | rms_requested => "requested" | rms_approved => "approved" | rms_in_transit => "in_transit" |
  rms_received => "received" | rms_completed => "completed" | rms_rejected => "rejected" |
  rms_cancelled => "cancelled"
  end.

Definition LoanDeviceStatus_text (s : LoanDeviceStatus) : string :=
  match s with
  | lds_available => "available" | lds_allocated => "allocated" | lds_maintenance => "maintenance"
  | lds_retired => "retired"
  end.

Definition LoanAllocationStatus_text (s : LoanAllocationStatus) : string :=
  match s with
  | las_active => "active" | las_returned => "returned" | las_overdue => "overdue" | las_lost =>
  "lost" | las_cancelled => "cancelled"
  end.

Definition DisputeStatus_text (s : DisputeStatus) : string :=
  match s with
  | dp_opened => "opened" | dp_under_review => "under_review" | dp_won => "won"
  | dp_lost => "lost" | dp_withdrawn => "withdrawn"
  end.

(** ** Inventory *)

Record Warehouse := mkWarehouse {
  wh_id : string; wh_name : string; wh_code : string; wh_address : option string;
  wh_city : option string; wh_state : option string; wh_country : option string;
  wh_postal_code : option string; wh_manager_id : option string; wh_status : RecordStatus;
  wh_deleted_at : option Z;
}.

Record Zone := mkZone {
  zn_id : string; zn_warehouse_id : string; zn_code : string; zn_name : option string;
  zn_deleted_at : option Z;
}.

Record Rack := mkRack {
  rk_id : string; rk_zone_id : string; rk_code : string; rk_deleted_at : option Z;
}.

Record Bin := mkBin {
  bn_id : string; bn_rack_id : string; bn_code : string; bn_barcode : option string;
  bn_deleted_at : option Z;
}.

Record Inventory := mkInventory {
  iv_id : string; iv_warehouse_id : string; iv_bin_id : string; iv_variant_id : string;
  iv_available : Z; iv_reserved : Z; iv_damaged : Z; iv_in_transit : Z; iv_reorder_level : Z;
  iv_status : RecordStatus; iv_deleted_at : option Z;
}.

Record StockReservation := mkStockReservation {
  rv_id : string; rv_warehouse_id : string; rv_variant_id : string; rv_quantity : Z;
  rv_cart_id : option string; rv_order_id : option string; rv_session_key : option string;
  rv_expires_at : Z; rv_status : ReservationStatus; rv_deleted_at : option Z;
}.

Record InventoryMovement := mkInventoryMovement {
  mv_id : string; mv_warehouse_id : string; mv_variant_id : string;
  mv_movement_type : StockMovementType; mv_quantity : Z; mv_reference_type : option string;
  mv_reference_id : option string; mv_notes : option string;
}.

Record InventoryAdjustment := mkInventoryAdjustment {
  ad_id : string; ad_warehouse_id : string; ad_variant_id : string; ad_quantity_delta : Z;
  ad_reason : string; ad_notes : option string;
}.

Record LowStockAlert := mkLowStockAlert {
  al_id : string; al_warehouse_id : string; al_variant_id : string; al_available : Z;
  al_reorder_level : Z; al_status : string; al_deleted_at : option Z;
}.

Record GoodsReceipt := mkGoodsReceipt {
  gr_id : string; gr_grn_number : string; gr_supplier_id : string; gr_warehouse_id : string;
  gr_purchase_order_id : option string; gr_notes : option string; gr_status : string;
  gr_deleted_at : option Z;
}.

Record GoodsReceiptItem := mkGoodsReceiptItem {
  gi_id : string; gi_goods_receipt_id : string; gi_variant_id : string;
  gi_purchase_order_item_id : option string; gi_quantity_received : Z; gi_unit_cost : option Z;
}.

Record PurchaseOrder := mkPurchaseOrder {
  po_id : string; po_po_number : string; po_supplier_id : string; po_warehouse_id : string;
  po_notes : option string; po_status : string; po_order_date : Z; po_subtotal : Z;
  po_tax_total : Z; po_grand_total : Z; po_currency : string; po_deleted_at : option Z;
}.

Record PurchaseOrderItem := mkPurchaseOrderItem {
  pi_id : string; pi_purchase_order_id : string; pi_variant_id : string; pi_quantity_ordered : Z;
  pi_quantity_received : Z; pi_unit_cost : Z; pi_tax_percent : Z; pi_line_total : Z;
}.

Record SerialNumber := mkSerialNumber {
  sn_id : string; sn_serial_number : string; sn_barcode : option string; sn_imei : option string;
  sn_warehouse_id : option string; sn_bin_id : option string; sn_variant_id : string;
  sn_purchase_order_item_id : option string; sn_status : string;
  sn_warranty_status : WarrantyTrackStatus; sn_refurbishment_status : option string;
  sn_deleted_at : option Z;
}.

Record StockTransfer := mkStockTransfer {
  tr_id : string; tr_transfer_number : string; tr_from_warehouse_id : string;
  tr_to_warehouse_id : string; tr_notes : option string; tr_status : string;
  tr_deleted_at : option Z;
}.

Record StockTransferItem := mkStockTransferItem {
  ti_id : string; ti_stock_transfer_id : string; ti_variant_id : string; ti_quantity : Z;
}.

Record CycleCountJob := mkCycleCountJob {
  cc_id : string; cc_warehouse_id : string; cc_job_number : string; cc_status : string;
  cc_deleted_at : option Z;
}.

Record ProductVariant := mkProductVariant {
  pv_id : string; pv_product_id : string; pv_sku : string; pv_barcode : option string;
  pv_ram : option string; pv_storage : option string; pv_processor : option string;
  pv_gpu : option string; pv_display_size : option string; pv_display_resolution : option string;
  pv_refresh_rate : option string; pv_operating_system : option string;
  pv_keyboard_layout : option string; pv_color : option string; pv_weight : option string;
  pv_battery_health : option Z; pv_condition : ProductCondition; pv_grade : ProductGrade;
  pv_mrp : Z; pv_sale_price : Z; pv_discount_percent : Z; pv_currency : string;
  pv_stock_status : StockStatus; pv_status : RecordStatus; pv_deleted_at : option Z;
}.

Record Supplier := mkSupplier {
  su_id : string; su_deleted_at : option Z;
}.

(** ** Orders *)

Record Cart := mkCart {
  ca_id : string; ca_user_id : option string; ca_session_key : option string;
  ca_currency : string; ca_status : CartStatus; ca_updated_at : Z; ca_deleted_at : option Z;
}.

Record CartItem := mkCartItem {
  ci_id : string; ci_cart_id : string; ci_variant_id : string; ci_quantity : Z;
  ci_unit_price : Z; ci_status : RecordStatus; ci_created_at : Z; ci_deleted_at : option Z;
}.

Record Order := mkOrder {
  od_id : string; od_order_number : string; od_customer_id : option string;
  od_cart_id : option string; od_coupon_id : option string;
  od_fulfillment_warehouse_id : option string; od_currency : string; od_subtotal : Z;
  od_discount_total : Z; od_tax_total : Z; od_shipping_charge : Z; od_grand_total : Z;
  od_placed_at : option Z; od_cancelled_at : option Z; od_cancellation_reason_id : option string;
  od_status : OrderStatus; od_created_at : Z; od_deleted_at : option Z;
}.

Record OrderItem := mkOrderItem {
  oi_id : string; oi_order_id : string; oi_variant_id : string; oi_name_snapshot : string;
  oi_sku_snapshot : string; oi_quantity : Z; oi_unit_price : Z; oi_line_total : Z;
  oi_deleted_at : option Z;
}.

Record OrderAddress := mkOrderAddress {
  oa_id : string; oa_order_id : string; oa_address_type : string; oa_full_name : string;
  oa_phone : option string; oa_line1 : string; oa_line2 : option string; oa_city : string;
  oa_state : string; oa_country : string; oa_postal_code : string; oa_gstin : option string;
  oa_created_at : Z; oa_deleted_at : option Z;
}.

Record OrderStatusHistory := mkOrderStatusHistory {
  oh_id : string; oh_order_id : string; oh_from_status : option OrderStatus;
  oh_to_status : OrderStatus; oh_note : option string; oh_changed_at : Z;
}.

Record OrderRiskScore := mkOrderRiskScore {
  ok_id : string; ok_order_id : string; ok_score : Z; ok_risk_level : string;
}.

Record GiftCard := mkGiftCard {
  gc_id : string; gc_code : string; gc_remaining_balance : Z; gc_status : RecordStatus;
  gc_deleted_at : option Z;
}.

Record Wallet := mkWallet {
  wa_id : string; wa_user_id : string; wa_balance : Z; wa_status : RecordStatus;
  wa_deleted_at : option Z;
}.

Record Return := mkReturn {
  rt_id : string; rt_return_number : string; rt_order_id : string; rt_reason : option string;
  rt_status : string;
}.

Record ReturnItem := mkReturnItem {
  rn_id : string; rn_return_id : string; rn_order_item_id : string; rn_quantity : Z;
  rn_reason : option string;
}.

Record ExchangeRequest := mkExchangeRequest {
  ex_id : string; ex_exchange_number : string; ex_order_id : string; ex_order_item_id : string;
  ex_exchange_type : string; ex_from_variant_id : string; ex_to_variant_id : option string;
  ex_reason : option string;
}.

Record FulfillmentOrder := mkFulfillmentOrder {
  fo_id : string; fo_fulfillment_number : string; fo_order_id : string; fo_warehouse_id : string;
  fo_status : string; fo_shipped_at : option Z; fo_delivered_at : option Z;
  fo_deleted_at : option Z;
}.

Record FulfillmentItem := mkFulfillmentItem {
  fi_id : string; fi_fulfillment_order_id : string; fi_order_item_id : string; fi_quantity : Z;
}.

Record WarehouseList := mkWarehouseList {
  wl_id : string; wl_fulfillment_order_id : string; wl_kind : string; wl_number : string;
  wl_status : string;
}.

Record Wishlist := mkWishlist {
  wi_id : string; wi_user_id : string; wi_name : string; wi_status : RecordStatus;
  wi_deleted_at : option Z;
}.

Record WishlistItem := mkWishlistItem {
  wk_id : string; wk_wishlist_id : string; wk_variant_id : string; wk_status : RecordStatus;
  wk_created_at : Z; wk_deleted_at : option Z;
}.

Record Invoice := mkInvoice {
  in_id : string; in_invoice_number : string; in_order_id : string; in_currency : string;
  in_subtotal : Z; in_discount_total : Z; in_shipping_charge : Z; in_grand_total : Z;
  in_status : string; in_invoice_date : Z; in_created_at : Z; in_deleted_at : option Z;
}.

Record InvoiceItem := mkInvoiceItem {
  ii_id : string; ii_invoice_id : string; ii_order_item_id : string; ii_variant_id : string;
  ii_description : string; ii_quantity : Z; ii_unit_price : Z; ii_line_total : Z;
}.

(** ** Payments *)

Record Gateway := mkGateway {
  gw_id : string; gw_code : string; gw_is_primary : bool; gw_status : RecordStatus;
  gw_deleted_at : option Z;
}.

Record Payment := mkPayment {
  pm_id : string; pm_order_id : string; pm_customer_id : option string; pm_gateway_id : string;
  pm_payment_method_id : option string; pm_saved_payment_method_id : option string;
  pm_gateway_order_id : option string; pm_gateway_payment_id : option string;
  pm_gateway_signature : option string; pm_amount : Z; pm_currency : string;
  pm_refunded_amount : Z; pm_status : PaymentStatus; pm_authorized_at : option Z;
  pm_captured_at : option Z; pm_failed_at : option Z; pm_deleted_at : option Z;
}.

Record PaymentAttempt := mkPaymentAttempt {
  pa_id : string; pa_payment_id : string; pa_attempt_number : Z;
  pa_error_message : option string; pa_status : PaymentStatus; pa_deleted_at : option Z;
}.

Record PaymentTransaction := mkPaymentTransaction {
  pt_id : string; pt_payment_id : string; pt_tx_type : string; pt_amount : Z;
  pt_currency : string; pt_gateway_reference : option string;
}.

Record PaymentAuditLog := mkPaymentAuditLog {
  pl_id : string; pl_payment_id : string; pl_action : string; pl_actor_id : option string;
  pl_from_status : option PaymentStatus; pl_to_status : option PaymentStatus;
}.

Record PaymentEvent := mkPaymentEvent {
  pe_id : string; pe_payment_id : string; pe_event : string;
}.

Record Refund := mkRefund {
  rf_id : string; rf_refund_number : string; rf_payment_id : string; rf_order_id : string;
  rf_requested_by_id : option string; rf_refund_type : string; rf_amount : Z;
  rf_currency : string; rf_reason_code : option string; rf_reason : option string;
  rf_gateway_refund_id : option string; rf_status : string; rf_processed_at : option Z;
  rf_approved_at : option Z; rf_deleted_at : option Z;
}.

Record RefundItem := mkRefundItem {
  ri_id : string; ri_refund_id : string; ri_order_item_id : option string; ri_amount : Z;
  ri_quantity : option Z;
}.

Record PaymentWebhook := mkPaymentWebhook {
  wb_id : string; wb_gateway_id : string; wb_event_id : option string; wb_event_type : string;
  wb_idempotency_key : string; wb_signature : string; wb_payload : Json;
  wb_processing_status : string; wb_error_message : option string; wb_retry_count : Z;
  wb_processed_at : option Z; wb_deleted_at : option Z;
}.

Record SavedPaymentMethod := mkSavedPaymentMethod {
  sp_id : string; sp_customer_id : string; sp_gateway_id : string; sp_token : string;
  sp_brand : option string; sp_last_four : option string; sp_expiry_month : option Z;
  sp_expiry_year : option Z; sp_is_default : bool; sp_status : RecordStatus; sp_created_at : Z;
  sp_deleted_at : option Z;
}.

Record PaymentSettlement := mkPaymentSettlement {
  pst_id : string; pst_gateway_id : string; pst_settlement_ref : string; pst_settlement_date : Z;
  pst_currency : string; pst_expected_amount : Z; pst_received_amount : Z; pst_fee_amount : Z;
  pst_tax_amount : Z; pst_status : SettlementStatus; pst_deleted_at : option Z;
}.

Record PaymentReconciliation := mkPaymentReconciliation {
  prc_id : string; prc_settlement_id : option string; prc_payment_id : option string;
  prc_gateway_reference : option string; prc_expected_amount : Z; prc_received_amount : Z;
  prc_variance_amount : Z; prc_status : ReconciliationStatus; prc_notes : option string;
  prc_reconciled_at : option Z; prc_created_at : Z; prc_deleted_at : option Z;
}.

Record PaymentDispute := mkPaymentDispute {
  pdi_id : string; pdi_payment_id : string; pdi_order_id : string;
  pdi_customer_id : option string; pdi_gateway_dispute_id : option string;
  pdi_reason : option string; pdi_amount : Z; pdi_currency : string; pdi_status : DisputeStatus;
  pdi_opened_at : Z; pdi_resolved_at : option Z; pdi_deleted_at : option Z;
}.

(** ** Authentication *)

Record User := mkUser {
  us_id : string; us_email : option string; us_mobile : option string;
  us_password_hash : option string; us_email_verified_at : option Z;
  us_mobile_verified_at : option Z; us_user_type : UserType; us_auth_provider : AuthProvider;
  us_last_login_at : option Z; us_last_login_ip : option string; us_failed_login_count : Z;
  us_locked_until : option Z; us_status : RecordStatus; us_created_at : Z;
  us_deleted_at : option Z;
}.

Record Role := mkRole {
  ro_id : string; ro_code : string; ro_status : RecordStatus; ro_deleted_at : option Z;
}.

Record Permission := mkPermission {
  pn_id : string; pn_code : string; pn_module : string; pn_action : string;
  pn_status : RecordStatus; pn_deleted_at : option Z;
}.

Record RolePermission := mkRolePermission {
  rp_id : string; rp_role_id : string; rp_permission_id : string; rp_status : RecordStatus;
  rp_deleted_at : option Z;
}.

Record UserRole := mkUserRole {
  ur_id : string; ur_user_id : string; ur_role_id : string; ur_status : RecordStatus;
  ur_deleted_at : option Z;
}.

Record RefreshToken := mkRefreshToken {
  tk_id : string; tk_user_id : string; tk_token_hash : string; tk_family_id : string;
  tk_replaced_by_id : option string; tk_user_agent : option string;
  tk_ip_address : option string; tk_expires_at : Z; tk_revoked_at : option Z;
  tk_status : TokenStatus; tk_deleted_at : option Z;
}.

Record Session := mkSession {
  se_id : string; se_user_id : string; se_session_token_hash : string;
  se_device_name : option string; se_device_type : option string; se_user_agent : option string;
  se_ip_address : option string; se_last_seen_at : Z; se_expires_at : Z;
  se_revoked_at : option Z; se_status : SessionStatus; se_created_at : Z;
  se_deleted_at : option Z;
}.

Record Otp := mkOtp {
  ot_id : string; ot_user_id : option string; ot_destination : string; ot_channel : OtpChannel;
  ot_purpose : OtpPurpose; ot_code_hash : string; ot_attempts : Z; ot_max_attempts : Z;
  ot_expires_at : Z; ot_consumed_at : option Z; ot_status : RecordStatus; ot_created_at : Z;
  ot_deleted_at : option Z;
}.

Record OauthAccount := mkOauthAccount {
  ou_id : string; ou_user_id : string; ou_provider : AuthProvider; ou_provider_user_id : string;
  ou_email : option string; ou_status : RecordStatus; ou_deleted_at : option Z;
}.

Record LoginAttempt := mkLoginAttempt {
  la_id : string; la_user_id : option string; la_identifier : string;
  la_ip_address : option string; la_user_agent : option string; la_success : bool;
  la_failure_reason : option string; la_status : RecordStatus;
}.

Record AuditLog := mkAuditLog {
  lg_id : string; lg_entity_type : string; lg_entity_id : option string; lg_action : string;
  lg_performed_by : option string;
}.

(** ** Marketing *)

Record Coupon := mkCoupon {
  co_id : string; co_code : string; co_name : string; co_discount_type : CouponDiscountType;
  co_discount_value : Z; co_min_cart_value : option Z; co_max_discount : option Z;
  co_usage_limit : option Z; co_per_user_limit : option Z; co_starts_at : option Z;
  co_expires_at : option Z; co_status : RecordStatus; co_deleted_at : option Z;
}.

Record CouponRule := mkCouponRule {
  cl_id : string; cl_coupon_id : string; cl_rule_type : CouponRuleType;
  cl_brand_id : option string; cl_category_id : option string; cl_rule_value : option Z;
  cl_status : RecordStatus; cl_deleted_at : option Z;
}.

Record CouponUsage := mkCouponUsage {
  cu_id : string; cu_coupon_id : string; cu_user_id : option string; cu_order_id : option string;
  cu_discount_amount : Z; cu_deleted_at : option Z;
}.

Record LoyaltyAccount := mkLoyaltyAccount {
  ly_id : string; ly_customer_id : string; ly_points_balance : Z; ly_lifetime_points : Z;
  ly_tier : LoyaltyTier; ly_deleted_at : option Z;
}.

Record LoyaltyTransaction := mkLoyaltyTransaction {
  lt_id : string; lt_account_id : string; lt_tx_type : LoyaltyTxType; lt_points : Z;
  lt_balance_after : Z; lt_reference_type : option string; lt_reference_id : option string;
  lt_expires_at : option Z; lt_notes : option string; lt_deleted_at : option Z;
}.

Record RewardRule := mkRewardRule {
  rw_id : string; rw_code : string; rw_name : string; rw_points_per_rupee : option Z;
  rw_fixed_points : option Z; rw_min_order_amount : option Z; rw_expiry_days : option Z;
  rw_tier_required : option LoyaltyTier; rw_status : RecordStatus; rw_created_at : Z;
  rw_deleted_at : option Z;
}.

Record ReferralProgram := mkReferralProgram {
  rg_id : string; rg_code : string; rg_name : string; rg_referrer_points : Z;
  rg_referee_points : Z; rg_status : RecordStatus; rg_deleted_at : option Z;
}.

Record ReferralReward := mkReferralReward {
  rx_id : string; rx_program_id : string; rx_referrer_id : string; rx_referee_id : string;
  rx_points_awarded : Z; rx_deleted_at : option Z;
}.

Record FeatureFlag := mkFeatureFlag {
  ff_id : string; ff_code : string; ff_name : string; ff_status : FeatureFlagStatus;
  ff_default_value : bool; ff_deleted_at : option Z;
}.

Record FeatureFlagRule := mkFeatureFlagRule {
  fr_id : string; fr_flag_id : string; fr_priority : Z; fr_conditions_json : option Json;
  fr_rollout_percent : option Z; fr_enabled_value : bool; fr_status : RecordStatus;
  fr_deleted_at : option Z;
}.

Record AbTest := mkAbTest {
  ab_id : string; ab_code : string; ab_name : string; ab_target_type : string;
  ab_target_key : option string; ab_status : AbTestStatus; ab_deleted_at : option Z;
}.

Record AbTestVariant := mkAbTestVariant {
  av_id : string; av_test_id : string; av_code : string; av_name : string; av_is_control : bool;
  av_weight_percent : Z; av_config_json : option Json; av_status : RecordStatus;
  av_deleted_at : option Z;
}.

Record AbTestResult := mkAbTestResult {
  ar_id : string; ar_test_id : string; ar_variant_id : string; ar_metric_key : string;
  ar_metric_value : Z; ar_sample_size : Z;
}.

Record Campaign := mkCampaign {
  cg_id : string; cg_kind : string; cg_name : string; cg_template_id : option string;
  cg_segment_id : option string; cg_subject : option string; cg_message : option string;
  cg_title : option string; cg_body : option string; cg_status : CampaignStatus;
  cg_scheduled_at : option Z; cg_started_at : option Z; cg_completed_at : option Z;
  cg_deleted_at : option Z;
}.

Record SearchKeyword := mkSearchKeyword {
  sk_id : string; sk_keyword : string; sk_is_autocomplete : bool; sk_boost : Z;
  sk_status : RecordStatus; sk_deleted_at : option Z;
}.

Record SearchSynonym := mkSearchSynonym {
  sy_id : string; sy_keyword_id : string; sy_synonym : string; sy_status : RecordStatus;
  sy_deleted_at : option Z;
}.

Record PopularSearch := mkPopularSearch {
  ps_id : string; ps_keyword : string; ps_search_count : Z; ps_last_searched_at : option Z;
  ps_status : RecordStatus; ps_deleted_at : option Z;
}.

(** ** Shipping *)

Record ShippingPartner := mkShippingPartner {
  spr_id : string; spr_code : ShippingPartnerCode; spr_name : string; spr_is_primary : bool;
  spr_config_json : option Json; spr_status : RecordStatus; spr_deleted_at : option Z;
}.

Record ShippingService := mkShippingService {
  ssv_id : string; ssv_partner_id : string; ssv_code : string; ssv_name : string;
  ssv_service_type : string; ssv_is_cod_supported : bool; ssv_status : RecordStatus;
  ssv_deleted_at : option Z;
}.

Record ShippingZone := mkShippingZone {
  szn_id : string; szn_code : string; szn_name : string; szn_pincode_from : option string;
  szn_pincode_to : option string; szn_status : RecordStatus; szn_deleted_at : option Z;
}.

Record ShippingRateCard := mkShippingRateCard {
  src_id : string; src_partner_id : string; src_service_id : option string; src_name : string;
  src_status : RecordStatus; src_deleted_at : option Z;
}.

Record ShippingRate := mkShippingRate {
  srt_id : string; srt_rate_card_id : string; srt_from_zone_id : option string;
  srt_to_zone_id : option string; srt_min_weight_kg : Z; srt_max_weight_kg : option Z;
  srt_base_rate : Z; srt_per_kg_rate : Z; srt_currency : string; srt_status : RecordStatus;
  srt_deleted_at : option Z;
}.

Record PickupRequest := mkPickupRequest {
  pkr_id : string; pkr_warehouse_id : string; pkr_partner_id : string;
  pkr_partner_pickup_ref : option string; pkr_scheduled_at : option Z; pkr_package_count : Z;
  pkr_status : string; pkr_notes : option string; pkr_deleted_at : option Z;
}.

Record PickupPoint := mkPickupPoint {
  ppt_id : string; ppt_partner_id : string; ppt_code : string; ppt_name : string;
  ppt_city : option string; ppt_postal_code : option string; ppt_point_type : string;
  ppt_status : RecordStatus; ppt_deleted_at : option Z;
}.

Record Shipment := mkShipment {
  shp_id : string; shp_shipment_number : string; shp_order_id : string;
  shp_fulfillment_order_id : option string; shp_warehouse_id : string; shp_partner_id : string;
  shp_service_id : option string; shp_pickup_request_id : option string;
  shp_shipping_address_id : option string; shp_tracking_number : option string;
  shp_awb_number : option string; shp_partner_shipment_ref : option string;
  shp_currency : string; shp_shipping_charge : Z; shp_declared_value : option Z;
  shp_total_weight_kg : option Z; shp_status : ShipmentStatus; shp_packed_at : option Z;
  shp_dispatched_at : option Z; shp_delivered_at : option Z;
  shp_estimated_delivery_at : option Z; shp_created_at : Z; shp_deleted_at : option Z;
}.

Record ShipmentPackage := mkShipmentPackage {
  spk_id : string; spk_shipment_id : string; spk_package_number : string; spk_weight_kg : Z;
  spk_length_cm : option Z; spk_width_cm : option Z; spk_height_cm : option Z;
  spk_declared_value : option Z; spk_deleted_at : option Z;
}.

Record ShipmentItem := mkShipmentItem {
  sit_id : string; sit_shipment_id : string; sit_order_item_id : string; sit_quantity : Z;
  sit_deleted_at : option Z;
}.

Record AwbNumber := mkAwbNumber {
  awb_id : string; awb_partner_id : string; awb_awb_number : string;
  awb_shipment_id : option string; awb_assigned_at : option Z; awb_status : string;
  awb_deleted_at : option Z;
}.

Record ShipmentLabel := mkShipmentLabel {
  slb_id : string; slb_shipment_id : string; slb_label_url : option string;
  slb_label_format : ShippingLabelFormat; slb_generated_at : Z; slb_deleted_at : option Z;
}.

Record ShipmentTracking := mkShipmentTracking {
  stk_id : string; stk_shipment_id : string; stk_current_status : ShipmentStatus;
  stk_last_location : option string; stk_last_event_at : option Z;
  stk_exception_code : option string; stk_exception_note : option string;
  stk_deleted_at : option Z;
}.

Record TrackingEvent := mkTrackingEvent {
  tev_id : string; tev_shipment_id : string; tev_tracking_id : option string;
  tev_event_status : ShipmentStatus; tev_event_code : option string;
  tev_description : option string; tev_location : option string; tev_occurred_at : Z;
  tev_deleted_at : option Z;
}.

Record ShipmentEtaHistory := mkShipmentEtaHistory {
  eta_id : string; eta_shipment_id : string; eta_old_eta : option Z; eta_new_eta : Z;
  eta_reason : option string; eta_source : option string; eta_deleted_at : option Z;
}.

Record DeliverySlot := mkDeliverySlot {
  dsl_id : string; dsl_shipment_id : string; dsl_slot_start : Z; dsl_slot_end : Z;
  dsl_is_confirmed : bool; dsl_status : RecordStatus; dsl_deleted_at : option Z;
}.

Record ReverseShipment := mkReverseShipment {
  rsh_id : string; rsh_reverse_number : string; rsh_reverse_type : ReverseShipmentType;
  rsh_order_id : string; rsh_return_id : option string; rsh_exchange_request_id : option string;
  rsh_warehouse_id : string; rsh_partner_id : string; rsh_shipment_id : option string;
  rsh_status : ReverseShipmentStatus; rsh_requested_at : Z; rsh_deleted_at : option Z;
}.

Record RtoShipment := mkRtoShipment {
  rto_id : string; rto_forward_shipment_id : string; rto_warehouse_id : string;
  rto_partner_id : string; rto_reason : option string; rto_tracking_number : option string;
  rto_awb_number : option string; rto_status : RtoStatus; rto_initiated_at : Z;
  rto_received_at : option Z; rto_deleted_at : option Z;
}.

Record ShippingWebhook := mkShippingWebhook {
  swh_id : string; swh_partner_id : string; swh_shipment_id : option string;
  swh_event_id : option string; swh_event_type : string; swh_idempotency_key : option string;
  swh_signature : option string; swh_payload : Json; swh_verified : bool;
  swh_processing_status : string; swh_retry_count : Z; swh_processed_at : option Z;
  swh_error_message : option string; swh_deleted_at : option Z;
}.

(** ** Warranty *)

Record WarrantyProvider := mkWarrantyProvider {
  wpv_id : string; wpv_code : string; wpv_name : string; wpv_status : RecordStatus;
  wpv_deleted_at : option Z;
}.

Record WarrantyPlan := mkWarrantyPlan {
  wpl_id : string; wpl_provider_id : string; wpl_code : string; wpl_name : string;
  wpl_plan_type : WarrantyPlanType; wpl_duration_months : Z; wpl_claim_limit : option Z;
  wpl_status : RecordStatus; wpl_deleted_at : option Z;
}.

Record WarrantyRegistration := mkWarrantyRegistration {
  wrg_id : string; wrg_registration_number : string; wrg_plan_id : string;
  wrg_customer_id : option string; wrg_order_id : option string;
  wrg_order_item_id : option string; wrg_serial_number_id : option string;
  wrg_variant_id : option string; wrg_purchase_date : option Z; wrg_start_date : Z;
  wrg_end_date : Z; wrg_status : WarrantyRegistrationStatus; wrg_deleted_at : option Z;
}.

Record WarrantyExtension := mkWarrantyExtension {
  wex_id : string; wex_registration_id : string; wex_plan_id : string; wex_start_date : Z;
  wex_end_date : Z; wex_purchase_amount : option Z; wex_deleted_at : option Z;
}.

Record WarrantyClaim := mkWarrantyClaim {
  wcl_id : string; wcl_claim_number : string; wcl_registration_id : string;
  wcl_customer_id : option string; wcl_serial_number_id : option string;
  wcl_issue_summary : string; wcl_issue_detail : option string; wcl_claim_amount : option Z;
  wcl_status : WarrantyClaimStatus; wcl_submitted_at : Z; wcl_resolved_at : option Z;
  wcl_deleted_at : option Z;
}.

Record ClaimDocument := mkClaimDocument {
  cdc_id : string; cdc_claim_id : string; cdc_media_file_id : option string;
  cdc_doc_type : string; cdc_label : option string; cdc_deleted_at : option Z;
}.

Record WarrantyStatusHistory := mkWarrantyStatusHistory {
  wsh_id : string; wsh_registration_id : option string; wsh_claim_id : option string;
  wsh_from_status : option string; wsh_to_status : string; wsh_notes : option string;
  wsh_changed_at : Z; wsh_actor_id : option string; wsh_deleted_at : option Z;
}.

Record ServiceCenter := mkServiceCenter {
  sce_id : string; sce_code : string; sce_name : string; sce_is_authorized : bool;
  sce_status : RecordStatus; sce_deleted_at : option Z;
}.

Record ServiceCenterLocation := mkServiceCenterLocation {
  scl_id : string; scl_service_center_id : string; scl_city : string; scl_state : string;
  scl_postal_code : string; scl_is_primary : bool; scl_deleted_at : option Z;
}.

Record Technician := mkTechnician {
  tch_id : string; tch_service_center_id : string; tch_employee_code : string;
  tch_display_name : string; tch_is_available : bool; tch_status : RecordStatus;
  tch_deleted_at : option Z;
}.

Record TechnicianSkill := mkTechnicianSkill {
  tks_id : string; tks_technician_id : string; tks_skill_code : string; tks_skill_name : string;
}.

Record ServiceSla := mkServiceSla {
  ssl_id : string; ssl_response_time_minutes : Z; ssl_resolution_time_minutes : Z;
}.

Record ServiceTicket := mkServiceTicket {
  stt_id : string; stt_ticket_number : string; stt_customer_id : option string;
  stt_registration_id : option string; stt_claim_id : option string;
  stt_service_center_id : string; stt_technician_id : option string;
  stt_serial_number_id : option string; stt_order_id : option string; stt_title : string;
  stt_description : option string; stt_status : ServiceTicketStatus; stt_priority : Z;
  stt_service_sla_id : option string; stt_opened_at : Z; stt_assigned_at : option Z;
  stt_closed_at : option Z; stt_deleted_at : option Z;
}.

Record TicketStatusHistory := mkTicketStatusHistory {
  tsh_id : string; tsh_ticket_id : string; tsh_from_status : option ServiceTicketStatus;
  tsh_to_status : ServiceTicketStatus; tsh_notes : option string; tsh_changed_at : Z;
  tsh_actor_id : option string; tsh_deleted_at : option Z;
}.

Record DiagnosticReport := mkDiagnosticReport {
  dgr_id : string; dgr_ticket_id : string; dgr_technician_id : option string;
  dgr_findings : string; dgr_root_cause : option string; dgr_recommended_action : option string;
  dgr_is_warranty_covered : bool;
}.

Record DeviceHealthReport := mkDeviceHealthReport {
  dhr_id : string; dhr_serial_number_id : option string; dhr_ticket_id : option string;
  dhr_notes : option string; dhr_reported_at : Z; dhr_deleted_at : option Z;
}.

Record RepairJob := mkRepairJob {
  rjb_id : string; rjb_repair_number : string; rjb_ticket_id : string;
  rjb_technician_id : option string; rjb_labor_cost : Z; rjb_started_at : option Z;
  rjb_completed_at : option Z; rjb_repair_minutes : option Z; rjb_outcome : RepairOutcome;
  rjb_repair_notes : option string; rjb_created_at : Z; rjb_deleted_at : option Z;
}.

Record RepairPart := mkRepairPart {
  rpa_id : string; rpa_sku : string; rpa_name : string; rpa_variant_id : option string;
  rpa_warehouse_id : option string; rpa_unit_cost : option Z; rpa_deleted_at : option Z;
}.

Record RepairPartUsage := mkRepairPartUsage {
  rpu_id : string; rpu_repair_job_id : string; rpu_repair_part_id : string;
  rpu_warehouse_id : option string; rpu_quantity : Z; rpu_unit_cost : option Z;
  rpu_is_warranty_covered : bool;
}.

Record ReplacementRequest := mkReplacementRequest {
  rpq_id : string; rpq_request_number : string; rpq_ticket_id : option string;
  rpq_claim_id : option string; rpq_replacement_type : ReplacementType;
  rpq_deleted_at : option Z;
}.

Record RmaRequest := mkRmaRequest {
  rma_id : string; rma_rma_number : string; rma_rma_type : RmaType;
  rma_customer_id : option string; rma_order_id : option string;
  rma_order_item_id : option string; rma_claim_id : option string; rma_ticket_id : option string;
  rma_serial_number_id : option string; rma_reason : option string; rma_status : RmaStatus;
  rma_requested_at : Z; rma_completed_at : option Z; rma_deleted_at : option Z;
}.

Record ServiceDocument := mkServiceDocument {
  sdc_id : string; sdc_ticket_id : option string; sdc_claim_id : option string;
  sdc_media_file_id : option string; sdc_doc_type : string; sdc_label : option string;
}.

Record ServiceAuditLog := mkServiceAuditLog {
  sal_id : string; sal_ticket_id : option string; sal_claim_id : option string;
  sal_repair_job_id : option string; sal_action : string; sal_actor_id : option string;
  sal_metadata : option Json; sal_created_at : Z; sal_deleted_at : option Z;
}.

Record LoanDevice := mkLoanDevice {
  lnd_id : string; lnd_asset_tag : string; lnd_status : LoanDeviceStatus;
  lnd_deleted_at : option Z;
}.

Record LoanAllocation := mkLoanAllocation {
  lna_id : string; lna_loan_device_id : string; lna_ticket_id : option string;
  lna_customer_id : option string; lna_due_back_at : option Z; lna_status : LoanAllocationStatus;
  lna_deleted_at : option Z;
}.

(** ** Catalog *)

Record MediaFile := mkMediaFile {
  kmf_id : string; kmf_bucket : string; kmf_object_key : string; kmf_mime_type : string;
  kmf_byte_size : Z; kmf_duration_ms : option Z; kmf_kind : MediaKind;
  kmf_original_name : option string; kmf_status : RecordStatus; kmf_deleted_at : option Z;
}.

Record Brand := mkBrand {
  kbr_id : string; kbr_name : string; kbr_slug : string; kbr_logo_file_id : option string;
  kbr_description : option string; kbr_country : option string; kbr_website : option string;
  kbr_sort_order : Z; kbr_status : RecordStatus; kbr_deleted_at : option Z;
}.

Record Category := mkCategory {
  kca_id : string; kca_parent_id : option string; kca_name : string; kca_slug : string;
  kca_icon_file_id : option string; kca_banner_file_id : option string;
  kca_description : option string; kca_sort_order : Z; kca_status : RecordStatus;
  kca_deleted_at : option Z;
}.

Record ProductType := mkProductType {
  kpt_id : string; kpt_code : string; kpt_name : string; kpt_description : option string;
  kpt_status : RecordStatus; kpt_deleted_at : option Z;
}.

Record Product := mkProduct {
  kpr_id : string; kpr_brand_id : string; kpr_category_id : string; kpr_product_type_id : string;
  kpr_name : string; kpr_slug : string; kpr_short_description : option string;
  kpr_description : option string; kpr_seo_title : option string;
  kpr_seo_description : option string; kpr_meta_keywords : option string;
  kpr_canonical_url : option string; kpr_is_featured : bool; kpr_is_refurbished : bool;
  kpr_is_open_box : bool; kpr_is_new_arrival : bool; kpr_rating_avg : Z; kpr_review_count : Z;
  kpr_status : RecordStatus; kpr_created_at : Z; kpr_deleted_at : option Z;
}.

Record Collection := mkCollection {
  kcn_id : string; kcn_slug : string; kcn_name : string; kcn_description : option string;
  kcn_media_file_id : option string; kcn_is_automatic : bool; kcn_status : RecordStatus;
  kcn_deleted_at : option Z;
}.

Record CollectionProduct := mkCollectionProduct {
  kcx_id : string; kcx_collection_id : string; kcx_product_id : string; kcx_sort_order : Z;
  kcx_status : RecordStatus; kcx_deleted_at : option Z;
}.

Record Attribute := mkAttribute {
  kat_id : string; kat_code : string; kat_name : string; kat_data_type : AttributeDataType;
  kat_unit : option string; kat_is_filterable : bool; kat_is_comparable : bool;
  kat_sort_order : Z; kat_status : RecordStatus; kat_deleted_at : option Z;
}.

Record AttributeValue := mkAttributeValue {
  kav_id : string; kav_attribute_id : string; kav_value : string; kav_slug : string;
  kav_sort_order : Z; kav_status : RecordStatus; kav_deleted_at : option Z;
}.

Record VariantAttributeValue := mkVariantAttributeValue {
  kva_id : string; kva_variant_id : string; kva_attribute_value_id : string;
  kva_status : RecordStatus; kva_deleted_at : option Z;
}.

Record SpecificationGroup := mkSpecificationGroup {
  ksg_id : string; ksg_code : string; ksg_name : string;
}.

Record ProductSpecification := mkProductSpecification {
  ksp_id : string; ksp_product_id : string; ksp_group_id : string; ksp_name : string;
  ksp_value : string; ksp_sort_order : Z; ksp_status : RecordStatus; ksp_deleted_at : option Z;
}.

Record ProductMedia := mkProductMedia {
  kmd_id : string; kmd_product_id : string; kmd_media_file_id : string; kmd_sort_order : Z;
  kmd_alt_text : option string; kmd_is_primary : bool; kmd_status : RecordStatus;
  kmd_deleted_at : option Z;
}.

Record ProductBadge := mkProductBadge {
  kbd_id : string; kbd_code : string; kbd_label : string; kbd_color_hex : option string;
  kbd_status : RecordStatus; kbd_deleted_at : option Z;
}.

Record ProductBadgeAssignment := mkProductBadgeAssignment {
  kba_id : string; kba_badge_id : string; kba_product_id : string; kba_deleted_at : option Z;
}.

Record SeoMetadata := mkSeoMetadata {
  ksm_id : string; ksm_entity_type : SeoEntityType; ksm_entity_id : option string;
  ksm_slug : option string; ksm_meta_title : option string; ksm_meta_description : option string;
  ksm_canonical_url : option string; ksm_og_title : option string;
  ksm_og_description : option string; ksm_og_image_file_id : option string;
  ksm_structured_data : option Json; ksm_status : RecordStatus; ksm_deleted_at : option Z;
}.

Record BuyingGuide := mkBuyingGuide {
  kbg_id : string; kbg_slug : string; kbg_title : string; kbg_excerpt : option string;
  kbg_body : string; kbg_cover_file_id : option string; kbg_status : CmsPageStatus;
  kbg_published_at : option Z; kbg_deleted_at : option Z;
}.

Record ProductReview := mkProductReview {
  krw_id : string; krw_product_id : string; krw_rating : Z; krw_title : option string;
  krw_body : option string; krw_is_verified_purchase : bool; krw_helpful_count : Z;
  krw_status : RecordStatus; krw_created_at : Z; krw_deleted_at : option Z;
}.

(** ** Content *)

Record CmsPage := mkCmsPage {
  cmp_id : string; cmp_slug : string; cmp_title : string; cmp_page_type : string;
  cmp_status : CmsPageStatus; cmp_published_at : option Z; cmp_deleted_at : option Z;
}.

Record CmsSection := mkCmsSection {
  cms_id : string; cms_page_id : string; cms_section_key : string; cms_section_type : string;
  cms_title : option string; cms_config_json : option Json; cms_sort_order : Z;
  cms_status : RecordStatus; cms_deleted_at : option Z;
}.

Record HomepageLayout := mkHomepageLayout {
  hpl_id : string; hpl_code : string; hpl_name : string; hpl_is_default : bool;
  hpl_status : RecordStatus; hpl_deleted_at : option Z;
}.

Record HomepageSectionItem := mkHomepageSectionItem {
  hpi_id : string; hpi_layout_id : string; hpi_section_key : string; hpi_section_type : string;
  hpi_title : option string; hpi_config_json : option Json; hpi_sort_order : Z;
  hpi_status : RecordStatus; hpi_deleted_at : option Z;
}.

Record BannerGroup := mkBannerGroup {
  bng_id : string; bng_code : string; bng_name : string; bng_placement : string;
  bng_status : RecordStatus; bng_deleted_at : option Z;
}.

Record Banner := mkBanner {
  bnr_id : string; bnr_group_id : option string; bnr_title : string;
  bnr_subtitle : option string; bnr_media_file_id : option string; bnr_link_url : option string;
  bnr_sort_order : Z; bnr_starts_at : option Z; bnr_ends_at : option Z;
  bnr_status : RecordStatus; bnr_deleted_at : option Z;
}.

Record BlogCategory := mkBlogCategory {
  blc_id : string; blc_slug : string; blc_name : string; blc_deleted_at : option Z;
}.

Record BlogTag := mkBlogTag {
  blt_id : string; blt_slug : string; blt_name : string; blt_deleted_at : option Z;
}.

Record Blog := mkBlog {
  blg_id : string; blg_slug : string; blg_title : string; blg_excerpt : option string;
  blg_body : string; blg_author_id : option string; blg_category_id : option string;
  blg_status : CmsPageStatus; blg_published_at : option Z; blg_deleted_at : option Z;
}.

Record BlogTagMap := mkBlogTagMap {
  btm_id : string; btm_blog_id : string; btm_tag_id : string; btm_deleted_at : option Z;
}.

Record BlogComment := mkBlogComment {
  bcm_id : string; bcm_blog_id : string; bcm_body : string; bcm_is_approved : bool;
  bcm_deleted_at : option Z;
}.

(** ** Analytics *)

Record SalesMetrics := mkSalesMetrics {
  msl_id : string; msl_metric_date : Z; msl_period : AnalyticsPeriod; msl_orders_count : Z;
  msl_revenue : Z; msl_refunds_amount : Z; msl_aov : option Z; msl_currency : string;
  msl_updated_at : Z; msl_deleted_at : option Z;
}.

Record PaymentMetrics := mkPaymentMetrics {
  mpy_id : string; mpy_metric_date : Z; mpy_period : AnalyticsPeriod; mpy_captured_amount : Z;
  mpy_failed_count : Z; mpy_refunded_amount : Z; mpy_success_rate : option Z;
  mpy_currency : string; mpy_updated_at : Z; mpy_deleted_at : option Z;
}.

Record InventoryMetrics := mkInventoryMetrics {
  miv_id : string; miv_metric_date : Z; miv_period : AnalyticsPeriod;
  miv_warehouse_id : option string; miv_units_on_hand : Z; miv_units_reserved : Z;
  miv_low_stock_skus : Z; miv_stockout_skus : Z; miv_updated_at : Z; miv_deleted_at : option Z;
}.

Record ShippingMetrics := mkShippingMetrics {
  msh_id : string; msh_metric_date : Z; msh_period : AnalyticsPeriod; msh_shipments_count : Z;
  msh_delivered_count : Z; msh_rto_count : Z; msh_avg_delivery_days : option Z;
  msh_updated_at : Z; msh_deleted_at : option Z;
}.

Record ServiceMetrics := mkServiceMetrics {
  msv_id : string; msv_metric_date : Z; msv_period : AnalyticsPeriod; msv_tickets_opened : Z;
  msv_tickets_closed : Z; msv_avg_turnaround_hours : option Z; msv_sla_breach_count : Z;
  msv_updated_at : Z; msv_deleted_at : option Z;
}.

Record MarketingMetrics := mkMarketingMetrics {
  mmk_id : string; mmk_metric_date : Z; mmk_period : AnalyticsPeriod; mmk_sessions : Z;
  mmk_new_customers : Z; mmk_email_sends : Z; mmk_attributed_revenue : Z; mmk_currency : string;
  mmk_updated_at : Z; mmk_deleted_at : option Z;
}.

Record KpiSnapshot := mkKpiSnapshot {
  kps_id : string; kps_metric_date : Z; kps_period : AnalyticsPeriod; kps_domain : string;
  kps_metrics_json : Json; kps_deleted_at : option Z;
}.

Record AlertRule := mkAlertRule {
  alr_id : string; alr_code : string; alr_name : string; alr_severity : AlertSeverity;
  alr_condition_json : Json; alr_cooldown_minutes : Z; alr_is_enabled : bool;
  alr_status : RecordStatus; alr_created_at : Z; alr_deleted_at : option Z;
}.

Record AlertHistory := mkAlertHistory {
  alh_id : string; alh_rule_id : string; alh_severity : AlertSeverity; alh_message : string;
  alh_triggered_at : Z;
}.

Record MetricStream := mkMetricStream {
  mst_id : string; mst_code : string; mst_name : string; mst_status : RecordStatus;
  mst_deleted_at : option Z;
}.

Record LiveMetric := mkLiveMetric {
  lvm_id : string; lvm_stream_id : string; lvm_metric_key : string; lvm_metric_value : Q;
  lvm_dimensions : option Json; lvm_observed_at : Z;
}.

Record ConversionEvent := mkConversionEvent {
  cve_id : string; cve_user_id : option string; cve_session_id : option string;
  cve_funnel_step : string; cve_amount : option Z; cve_properties : option Json;
  cve_created_at : Z;
}.

Record CohortAnalysis := mkCohortAnalysis {
  coh_id : string; coh_cohort_key : string; coh_cohort_month : Z; coh_period_offset : Z;
  coh_customers_count : Z; coh_retained_count : Z; coh_retention_rate : option Z;
  coh_revenue : Z; coh_currency : string; coh_deleted_at : option Z;
}.

Record CustomerLtv := mkCustomerLtv {
  clv_id : string; clv_customer_id : string; clv_as_of_date : Z; clv_orders_count : Z;
  clv_gross_revenue : Z; clv_net_revenue : Z; clv_predicted_ltv : option Z;
  clv_currency : string; clv_deleted_at : option Z;
}.

Record SavedReport := mkSavedReport {
  svr_id : string; svr_code : string; svr_name : string; svr_report_type : string;
  svr_query_json : option Json; svr_owner_id : option string; svr_status : RecordStatus;
  svr_created_at : Z; svr_deleted_at : option Z;
}.

Record ScheduledReport := mkScheduledReport {
  shr_id : string; shr_saved_report_id : string; shr_cron_expression : string;
  shr_timezone : string; shr_recipients_json : option Json; shr_next_run_at : option Z;
  shr_deleted_at : option Z;
}.

Record ReportExport := mkReportExport {
  rex_id : string; rex_saved_report_id : option string; rex_export_format : ReportExportFormat;
  rex_export_status : ReportExportStatus; rex_media_file_id : option string;
  rex_row_count : option Z; rex_error_message : option string; rex_completed_at : option Z;
  rex_requested_by : option string; rex_deleted_at : option Z;
}.

Record DashboardLayout := mkDashboardLayout {
  dbl_id : string; dbl_code : string; dbl_name : string; dbl_is_default : bool;
  dbl_deleted_at : option Z;
}.

Record DashboardWidget := mkDashboardWidget {
  dsw_id : string; dsw_code : string; dsw_name : string; dsw_widget_type : string;
  dsw_deleted_at : option Z;
}.

Record DashboardWidgetInstance := mkDashboardWidgetInstance {
  dwi_id : string; dwi_layout_id : string; dwi_widget_id : string; dwi_title : option string;
  dwi_config_json : option Json; dwi_sort_order : Z; dwi_grid_x : Z; dwi_grid_y : Z;
  dwi_grid_w : Z; dwi_grid_h : Z; dwi_deleted_at : option Z;
}.

Record SystemEvent := mkSystemEvent {
  sye_id : string; sye_event_type : string; sye_severity : string; sye_message : string;
  sye_payload : option Json;
}.

(** The inventory tables. *)
Record InvDb := mkInvDb {
  t_Warehouse : list Warehouse;
  t_Zone : list Zone;
  t_Rack : list Rack;
  t_Bin : list Bin;
  t_Inventory : list Inventory;
  t_StockReservation : list StockReservation;
  t_InventoryMovement : list InventoryMovement;
  t_InventoryAdjustment : list InventoryAdjustment;
  t_LowStockAlert : list LowStockAlert;
  t_GoodsReceipt : list GoodsReceipt;
  t_GoodsReceiptItem : list GoodsReceiptItem;
  t_PurchaseOrder : list PurchaseOrder;
  t_PurchaseOrderItem : list PurchaseOrderItem;
  t_SerialNumber : list SerialNumber;
  t_StockTransfer : list StockTransfer;
  t_StockTransferItem : list StockTransferItem;
  t_CycleCountJob : list CycleCountJob;
  t_ProductVariant : list ProductVariant;
  t_Supplier : list Supplier;
}.

(** The orders tables. *)
Record OrdDb := mkOrdDb {
  t_Cart : list Cart;
  t_CartItem : list CartItem;
  t_Order : list Order;
  t_OrderItem : list OrderItem;
  t_OrderAddress : list OrderAddress;
  t_OrderStatusHistory : list OrderStatusHistory;
  t_OrderRiskScore : list OrderRiskScore;
  t_GiftCard : list GiftCard;
  t_Wallet : list Wallet;
  t_Return : list Return;
  t_ReturnItem : list ReturnItem;
  t_ExchangeRequest : list ExchangeRequest;
  t_FulfillmentOrder : list FulfillmentOrder;
  t_FulfillmentItem : list FulfillmentItem;
  t_WarehouseList : list WarehouseList;
  t_Wishlist : list Wishlist;
  t_WishlistItem : list WishlistItem;
  t_Invoice : list Invoice;
  t_InvoiceItem : list InvoiceItem;
}.

(** The payments tables. *)
Record PayDb := mkPayDb {
  t_Gateway : list Gateway;
  t_Payment : list Payment;
  t_PaymentAttempt : list PaymentAttempt;
  t_PaymentTransaction : list PaymentTransaction;
  t_PaymentAuditLog : list PaymentAuditLog;
  t_PaymentEvent : list PaymentEvent;
  t_Refund : list Refund;
  t_RefundItem : list RefundItem;
  t_PaymentWebhook : list PaymentWebhook;
  t_SavedPaymentMethod : list SavedPaymentMethod;
  t_PaymentSettlement : list PaymentSettlement;
  t_PaymentReconciliation : list PaymentReconciliation;
  t_PaymentDispute : list PaymentDispute;
}.

(** The authentication tables. *)
Record AuthDb := mkAuthDb {
  t_User : list User;
  t_Role : list Role;
  t_Permission : list Permission;
  t_RolePermission : list RolePermission;
  t_UserRole : list UserRole;
  t_RefreshToken : list RefreshToken;
  t_Session : list Session;
  t_Otp : list Otp;
  t_OauthAccount : list OauthAccount;
  t_LoginAttempt : list LoginAttempt;
  t_AuditLog : list AuditLog;
}.

(** The marketing tables. *)
Record MktDb := mkMktDb {
  t_Coupon : list Coupon;
  t_CouponRule : list CouponRule;
  t_CouponUsage : list CouponUsage;
  t_LoyaltyAccount : list LoyaltyAccount;
  t_LoyaltyTransaction : list LoyaltyTransaction;
  t_RewardRule : list RewardRule;
  t_ReferralProgram : list ReferralProgram;
  t_ReferralReward : list ReferralReward;
  t_FeatureFlag : list FeatureFlag;
  t_FeatureFlagRule : list FeatureFlagRule;
  t_AbTest : list AbTest;
  t_AbTestVariant : list AbTestVariant;
  t_AbTestResult : list AbTestResult;
  t_Campaign : list Campaign;
  t_SearchKeyword : list SearchKeyword;
  t_SearchSynonym : list SearchSynonym;
  t_PopularSearch : list PopularSearch;
}.

(** The shipping tables. *)
Record ShipDb := mkShipDb {
  t_ShippingPartner : list ShippingPartner;
  t_ShippingService : list ShippingService;
  t_ShippingZone : list ShippingZone;
  t_ShippingRateCard : list ShippingRateCard;
  t_ShippingRate : list ShippingRate;
  t_PickupRequest : list PickupRequest;
  t_PickupPoint : list PickupPoint;
  t_Shipment : list Shipment;
  t_ShipmentPackage : list ShipmentPackage;
  t_ShipmentItem : list ShipmentItem;
  t_AwbNumber : list AwbNumber;
  t_ShipmentLabel : list ShipmentLabel;
  t_ShipmentTracking : list ShipmentTracking;
  t_TrackingEvent : list TrackingEvent;
  t_ShipmentEtaHistory : list ShipmentEtaHistory;
  t_DeliverySlot : list DeliverySlot;
  t_ReverseShipment : list ReverseShipment;
  t_RtoShipment : list RtoShipment;
  t_ShippingWebhook : list ShippingWebhook;
}.

(** The warranty tables. *)
Record WarDb := mkWarDb {
  t_WarrantyProvider : list WarrantyProvider;
  t_WarrantyPlan : list WarrantyPlan;
  t_WarrantyRegistration : list WarrantyRegistration;
  t_WarrantyExtension : list WarrantyExtension;
  t_WarrantyClaim : list WarrantyClaim;
  t_ClaimDocument : list ClaimDocument;
  t_WarrantyStatusHistory : list WarrantyStatusHistory;
  t_ServiceCenter : list ServiceCenter;
  t_ServiceCenterLocation : list ServiceCenterLocation;
  t_Technician : list Technician;
  t_TechnicianSkill : list TechnicianSkill;
  t_ServiceSla : list ServiceSla;
  t_ServiceTicket : list ServiceTicket;
  t_TicketStatusHistory : list TicketStatusHistory;
  t_DiagnosticReport : list DiagnosticReport;
  t_DeviceHealthReport : list DeviceHealthReport;
  t_RepairJob : list RepairJob;
  t_RepairPart : list RepairPart;
  t_RepairPartUsage : list RepairPartUsage;
  t_ReplacementRequest : list ReplacementRequest;
  t_RmaRequest : list RmaRequest;
  t_ServiceDocument : list ServiceDocument;
  t_ServiceAuditLog : list ServiceAuditLog;
  t_LoanDevice : list LoanDevice;
  t_LoanAllocation : list LoanAllocation;
}.

(** The catalog tables. *)
Record CatDb := mkCatDb {
  t_MediaFile : list MediaFile;
  t_Brand : list Brand;
  t_Category : list Category;
  t_ProductType : list ProductType;
  t_Product : list Product;
  t_Collection : list Collection;
  t_CollectionProduct : list CollectionProduct;
  t_Attribute : list Attribute;
  t_AttributeValue : list AttributeValue;
  t_VariantAttributeValue : list VariantAttributeValue;
  t_SpecificationGroup : list SpecificationGroup;
  t_ProductSpecification : list ProductSpecification;
  t_ProductMedia : list ProductMedia;
  t_ProductBadge : list ProductBadge;
  t_ProductBadgeAssignment : list ProductBadgeAssignment;
  t_SeoMetadata : list SeoMetadata;
  t_BuyingGuide : list BuyingGuide;
  t_ProductReview : list ProductReview;
}.

(** The content tables. *)
Record CmsDb := mkCmsDb {
  t_CmsPage : list CmsPage;
  t_CmsSection : list CmsSection;
  t_HomepageLayout : list HomepageLayout;
  t_HomepageSectionItem : list HomepageSectionItem;
  t_BannerGroup : list BannerGroup;
  t_Banner : list Banner;
  t_BlogCategory : list BlogCategory;
  t_BlogTag : list BlogTag;
  t_Blog : list Blog;
  t_BlogTagMap : list BlogTagMap;
  t_BlogComment : list BlogComment;
}.

(** The analytics tables. *)
Record AnaDb := mkAnaDb {
  t_SalesMetrics : list SalesMetrics;
  t_PaymentMetrics : list PaymentMetrics;
  t_InventoryMetrics : list InventoryMetrics;
  t_ShippingMetrics : list ShippingMetrics;
  t_ServiceMetrics : list ServiceMetrics;
  t_MarketingMetrics : list MarketingMetrics;
  t_KpiSnapshot : list KpiSnapshot;
  t_AlertRule : list AlertRule;
  t_AlertHistory : list AlertHistory;
  t_MetricStream : list MetricStream;
  t_LiveMetric : list LiveMetric;
  t_ConversionEvent : list ConversionEvent;
  t_CohortAnalysis : list CohortAnalysis;
  t_CustomerLtv : list CustomerLtv;
  t_SavedReport : list SavedReport;
  t_ScheduledReport : list ScheduledReport;
  t_ReportExport : list ReportExport;
  t_DashboardLayout : list DashboardLayout;
  t_DashboardWidget : list DashboardWidget;
  t_DashboardWidgetInstance : list DashboardWidgetInstance;
  t_SystemEvent : list SystemEvent;
}.

(** The database. *)
Record Db := mkDb {
  d_inv : InvDb; d_ord : OrdDb; d_pay : PayDb; d_auth : AuthDb; d_mkt : MktDb;
  d_ship : ShipDb; d_war : WarDb; d_cat : CatDb; d_cms : CmsDb; d_ana : AnaDb;
}.

(** ** One lens per table *)

Definition L_Warehouse : lens Db (list Warehouse).
Proof.
  refine (Lens (λ d, t_Warehouse (d_inv d))
    (λ l d, let x := d_inv d in mkDb (mkInvDb l (t_Zone x) (t_Rack x) (t_Bin x) (t_Inventory x)
    (t_StockReservation x) (t_InventoryMovement x) (t_InventoryAdjustment x) (t_LowStockAlert x)
    (t_GoodsReceipt x) (t_GoodsReceiptItem x) (t_PurchaseOrder x) (t_PurchaseOrderItem x)
    (t_SerialNumber x) (t_StockTransfer x) (t_StockTransferItem x) (t_CycleCountJob x)
    (t_ProductVariant x) (t_Supplier x)) (d_ord d) (d_pay d) (d_auth d) (d_mkt d) (d_ship d)
    (d_war d) (d_cat d) (d_cms d) (d_ana d)) _ _ _);
    [done|by intros [[] [] [] [] [] [] [] [] [] []]|done].
Defined.

Definition L_Zone : lens Db (list Zone).
Proof.
  refine (Lens (λ d, t_Zone (d_inv d))
    (λ l d, let x := d_inv d in mkDb (mkInvDb (t_Warehouse x) l (t_Rack x) (t_Bin x)
    (t_Inventory x) (t_StockReservation x) (t_InventoryMovement x) (t_InventoryAdjustment x)
    (t_LowStockAlert x) (t_GoodsReceipt x) (t_GoodsReceiptItem x) (t_PurchaseOrder x)
    (t_PurchaseOrderItem x) (t_SerialNumber x) (t_StockTransfer x) (t_StockTransferItem x)
    (t_CycleCountJob x) (t_ProductVariant x) (t_Supplier x)) (d_ord d) (d_pay d) (d_auth d)
    (d_mkt d) (d_ship d) (d_war d) (d_cat d) (d_cms d) (d_ana d)) _ _ _);
    [done|by intros [[] [] [] [] [] [] [] [] [] []]|done].
Defined.

Definition L_Rack : lens Db (list Rack).
Proof.
  refine (Lens (λ d, t_Rack (d_inv d))
    (λ l d, let x := d_inv d in mkDb (mkInvDb (t_Warehouse x) (t_Zone x) l (t_Bin x)
    (t_Inventory x) (t_StockReservation x) (t_InventoryMovement x) (t_InventoryAdjustment x)
    (t_LowStockAlert x) (t_GoodsReceipt x) (t_GoodsReceiptItem x) (t_PurchaseOrder x)
    (t_PurchaseOrderItem x) (t_SerialNumber x) (t_StockTransfer x) (t_StockTransferItem x)
    (t_CycleCountJob x) (t_ProductVariant x) (t_Supplier x)) (d_ord d) (d_pay d) (d_auth d)
    (d_mkt d) (d_ship d) (d_war d) (d_cat d) (d_cms d) (d_ana d)) _ _ _);
    [done|by intros [[] [] [] [] [] [] [] [] [] []]|done].
Defined.

Definition L_Bin : lens Db (list Bin).
Proof.
  refine (Lens (λ d, t_Bin (d_inv d))
    (λ l d, let x := d_inv d in mkDb (mkInvDb (t_Warehouse x) (t_Zone x) (t_Rack x) l
    (t_Inventory x) (t_StockReservation x) (t_InventoryMovement x) (t_InventoryAdjustment x)
    (t_LowStockAlert x) (t_GoodsReceipt x) (t_GoodsReceiptItem x) (t_PurchaseOrder x)
    (t_PurchaseOrderItem x) (t_SerialNumber x) (t_StockTransfer x) (t_StockTransferItem x)
    (t_CycleCountJob x) (t_ProductVariant x) (t_Supplier x)) (d_ord d) (d_pay d) (d_auth d)
    (d_mkt d) (d_ship d) (d_war d) (d_cat d) (d_cms d) (d_ana d)) _ _ _);
    [done|by intros [[] [] [] [] [] [] [] [] [] []]|done].
Defined.

Definition L_Inventory : lens Db (list Inventory).
Proof.
  refine (Lens (λ d, t_Inventory (d_inv d))
    (λ l d, let x := d_inv d in mkDb (mkInvDb (t_Warehouse x) (t_Zone x) (t_Rack x) (t_Bin x) l
    (t_StockReservation x) (t_InventoryMovement x) (t_InventoryAdjustment x) (t_LowStockAlert x)
    (t_GoodsReceipt x) (t_GoodsReceiptItem x) (t_PurchaseOrder x) (t_PurchaseOrderItem x)
    (t_SerialNumber x) (t_StockTransfer x) (t_StockTransferItem x) (t_CycleCountJob x)
    (t_ProductVariant x) (t_Supplier x)) (d_ord d) (d_pay d) (d_auth d) (d_mkt d) (d_ship d)
    (d_war d) (d_cat d) (d_cms d) (d_ana d)) _ _ _);
    [done|by intros [[] [] [] [] [] [] [] [] [] []]|done].
Defined.

Definition L_StockReservation : lens Db (list StockReservation).
Proof.
  refine (Lens (λ d, t_StockReservation (d_inv d))
    (λ l d, let x := d_inv d in mkDb (mkInvDb (t_Warehouse x) (t_Zone x) (t_Rack x) (t_Bin x)
    (t_Inventory x) l (t_InventoryMovement x) (t_InventoryAdjustment x) (t_LowStockAlert x)
    (t_GoodsReceipt x) (t_GoodsReceiptItem x) (t_PurchaseOrder x) (t_PurchaseOrderItem x)
    (t_SerialNumber x) (t_StockTransfer x) (t_StockTransferItem x) (t_CycleCountJob x)
    (t_ProductVariant x) (t_Supplier x)) (d_ord d) (d_pay d) (d_auth d) (d_mkt d) (d_ship d)
    (d_war d) (d_cat d) (d_cms d) (d_ana d)) _ _ _);
    [done|by intros [[] [] [] [] [] [] [] [] [] []]|done].
Defined.

Definition L_InventoryMovement : lens Db (list InventoryMovement).
Proof.
  refine (Lens (λ d, t_InventoryMovement (d_inv d))
    (λ l d, let x := d_inv d in mkDb (mkInvDb (t_Warehouse x) (t_Zone x) (t_Rack x) (t_Bin x)
    (t_Inventory x) (t_StockReservation x) l (t_InventoryAdjustment x) (t_LowStockAlert x)
    (t_GoodsReceipt x) (t_GoodsReceiptItem x) (t_PurchaseOrder x) (t_PurchaseOrderItem x)
    (t_SerialNumber x) (t_StockTransfer x) (t_StockTransferItem x) (t_CycleCountJob x)
    (t_ProductVariant x) (t_Supplier x)) (d_ord d) (d_pay d) (d_auth d) (d_mkt d) (d_ship d)
    (d_war d) (d_cat d) (d_cms d) (d_ana d)) _ _ _);
    [done|by intros [[] [] [] [] [] [] [] [] [] []]|done].
Defined.

Definition L_InventoryAdjustment : lens Db (list InventoryAdjustment).
Proof.
  refine (Lens (λ d, t_InventoryAdjustment (d_inv d))
    (λ l d, let x := d_inv d in mkDb (mkInvDb (t_Warehouse x) (t_Zone x) (t_Rack x) (t_Bin x)
    (t_Inventory x) (t_StockReservation x) (t_InventoryMovement x) l (t_LowStockAlert x)
    (t_GoodsReceipt x) (t_GoodsReceiptItem x) (t_PurchaseOrder x) (t_PurchaseOrderItem x)
    (t_SerialNumber x) (t_StockTransfer x) (t_StockTransferItem x) (t_CycleCountJob x)
    (t_ProductVariant x) (t_Supplier x)) (d_ord d) (d_pay d) (d_auth d) (d_mkt d) (d_ship d)
    (d_war d) (d_cat d) (d_cms d) (d_ana d)) _ _ _);
    [done|by intros [[] [] [] [] [] [] [] [] [] []]|done].
Defined.

Definition L_LowStockAlert : lens Db (list LowStockAlert).
Proof.
  refine (Lens (λ d, t_LowStockAlert (d_inv d))
    (λ l d, let x := d_inv d in mkDb (mkInvDb (t_Warehouse x) (t_Zone x) (t_Rack x) (t_Bin x)
    (t_Inventory x) (t_StockReservation x) (t_InventoryMovement x) (t_InventoryAdjustment x) l
    (t_GoodsReceipt x) (t_GoodsReceiptItem x) (t_PurchaseOrder x) (t_PurchaseOrderItem x)
    (t_SerialNumber x) (t_StockTransfer x) (t_StockTransferItem x) (t_CycleCountJob x)
    (t_ProductVariant x) (t_Supplier x)) (d_ord d) (d_pay d) (d_auth d) (d_mkt d) (d_ship d)
    (d_war d) (d_cat d) (d_cms d) (d_ana d)) _ _ _);
    [done|by intros [[] [] [] [] [] [] [] [] [] []]|done].
Defined.

Definition L_GoodsReceipt : lens Db (list GoodsReceipt).
Proof.
  refine (Lens (λ d, t_GoodsReceipt (d_inv d))
    (λ l d, let x := d_inv d in mkDb (mkInvDb (t_Warehouse x) (t_Zone x) (t_Rack x) (t_Bin x)
    (t_Inventory x) (t_StockReservation x) (t_InventoryMovement x) (t_InventoryAdjustment x)
    (t_LowStockAlert x) l (t_GoodsReceiptItem x) (t_PurchaseOrder x) (t_PurchaseOrderItem x)
    (t_SerialNumber x) (t_StockTransfer x) (t_StockTransferItem x) (t_CycleCountJob x)
    (t_ProductVariant x) (t_Supplier x)) (d_ord d) (d_pay d) (d_auth d) (d_mkt d) (d_ship d)
    (d_war d) (d_cat d) (d_cms d) (d_ana d)) _ _ _);
    [done|by intros [[] [] [] [] [] [] [] [] [] []]|done].
Defined.

Definition L_GoodsReceiptItem : lens Db (list GoodsReceiptItem).
Proof.
  refine (Lens (λ d, t_GoodsReceiptItem (d_inv d))
    (λ l d, let x := d_inv d in mkDb (mkInvDb (t_Warehouse x) (t_Zone x) (t_Rack x) (t_Bin x)
    (t_Inventory x) (t_StockReservation x) (t_InventoryMovement x) (t_InventoryAdjustment x)
    (t_LowStockAlert x) (t_GoodsReceipt x) l (t_PurchaseOrder x) (t_PurchaseOrderItem x)
    (t_SerialNumber x) (t_StockTransfer x) (t_StockTransferItem x) (t_CycleCountJob x)
    (t_ProductVariant x) (t_Supplier x)) (d_ord d) (d_pay d) (d_auth d) (d_mkt d) (d_ship d)
    (d_war d) (d_cat d) (d_cms d) (d_ana d)) _ _ _);
    [done|by intros [[] [] [] [] [] [] [] [] [] []]|done].
Defined.

Definition L_PurchaseOrder : lens Db (list PurchaseOrder).
Proof.
  refine (Lens (λ d, t_PurchaseOrder (d_inv d))
    (λ l d, let x := d_inv d in mkDb (mkInvDb (t_Warehouse x) (t_Zone x) (t_Rack x) (t_Bin x)
    (t_Inventory x) (t_StockReservation x) (t_InventoryMovement x) (t_InventoryAdjustment x)
    (t_LowStockAlert x) (t_GoodsReceipt x) (t_GoodsReceiptItem x) l (t_PurchaseOrderItem x)
    (t_SerialNumber x) (t_StockTransfer x) (t_StockTransferItem x) (t_CycleCountJob x)
    (t_ProductVariant x) (t_Supplier x)) (d_ord d) (d_pay d) (d_auth d) (d_mkt d) (d_ship d)
    (d_war d) (d_cat d) (d_cms d) (d_ana d)) _ _ _);
    [done|by intros [[] [] [] [] [] [] [] [] [] []]|done].
Defined.

Definition L_PurchaseOrderItem : lens Db (list PurchaseOrderItem).
Proof.
  refine (Lens (λ d, t_PurchaseOrderItem (d_inv d))
    (λ l d, let x := d_inv d in mkDb (mkInvDb (t_Warehouse x) (t_Zone x) (t_Rack x) (t_Bin x)
    (t_Inventory x) (t_StockReservation x) (t_InventoryMovement x) (t_InventoryAdjustment x)
    (t_LowStockAlert x) (t_GoodsReceipt x) (t_GoodsReceiptItem x) (t_PurchaseOrder x) l
    (t_SerialNumber x) (t_StockTransfer x) (t_StockTransferItem x) (t_CycleCountJob x)
    (t_ProductVariant x) (t_Supplier x)) (d_ord d) (d_pay d) (d_auth d) (d_mkt d) (d_ship d)
    (d_war d) (d_cat d) (d_cms d) (d_ana d)) _ _ _);
    [done|by intros [[] [] [] [] [] [] [] [] [] []]|done].
Defined.

Definition L_SerialNumber : lens Db (list SerialNumber).
Proof.
  refine (Lens (λ d, t_SerialNumber (d_inv d))
    (λ l d, let x := d_inv d in mkDb (mkInvDb (t_Warehouse x) (t_Zone x) (t_Rack x) (t_Bin x)
    (t_Inventory x) (t_StockReservation x) (t_InventoryMovement x) (t_InventoryAdjustment x)
    (t_LowStockAlert x) (t_GoodsReceipt x) (t_GoodsReceiptItem x) (t_PurchaseOrder x)
    (t_PurchaseOrderItem x) l (t_StockTransfer x) (t_StockTransferItem x) (t_CycleCountJob x)
    (t_ProductVariant x) (t_Supplier x)) (d_ord d) (d_pay d) (d_auth d) (d_mkt d) (d_ship d)
    (d_war d) (d_cat d) (d_cms d) (d_ana d)) _ _ _);
    [done|by intros [[] [] [] [] [] [] [] [] [] []]|done].
Defined.

Definition L_StockTransfer : lens Db (list StockTransfer).
Proof.
  refine (Lens (λ d, t_StockTransfer (d_inv d))
    (λ l d, let x := d_inv d in mkDb (mkInvDb (t_Warehouse x) (t_Zone x) (t_Rack x) (t_Bin x)
    (t_Inventory x) (t_StockReservation x) (t_InventoryMovement x) (t_InventoryAdjustment x)
    (t_LowStockAlert x) (t_GoodsReceipt x) (t_GoodsReceiptItem x) (t_PurchaseOrder x)
    (t_PurchaseOrderItem x) (t_SerialNumber x) l (t_StockTransferItem x) (t_CycleCountJob x)
    (t_ProductVariant x) (t_Supplier x)) (d_ord d) (d_pay d) (d_auth d) (d_mkt d) (d_ship d)
    (d_war d) (d_cat d) (d_cms d) (d_ana d)) _ _ _);
    [done|by intros [[] [] [] [] [] [] [] [] [] []]|done].
Defined.

Definition L_StockTransferItem : lens Db (list StockTransferItem).
Proof.
  refine (Lens (λ d, t_StockTransferItem (d_inv d))
    (λ l d, let x := d_inv d in mkDb (mkInvDb (t_Warehouse x) (t_Zone x) (t_Rack x) (t_Bin x)
    (t_Inventory x) (t_StockReservation x) (t_InventoryMovement x) (t_InventoryAdjustment x)
    (t_LowStockAlert x) (t_GoodsReceipt x) (t_GoodsReceiptItem x) (t_PurchaseOrder x)
    (t_PurchaseOrderItem x) (t_SerialNumber x) (t_StockTransfer x) l (t_CycleCountJob x)
    (t_ProductVariant x) (t_Supplier x)) (d_ord d) (d_pay d) (d_auth d) (d_mkt d) (d_ship d)
    (d_war d) (d_cat d) (d_cms d) (d_ana d)) _ _ _);
    [done|by intros [[] [] [] [] [] [] [] [] [] []]|done].
Defined.

Definition L_CycleCountJob : lens Db (list CycleCountJob).
Proof.
  refine (Lens (λ d, t_CycleCountJob (d_inv d))
    (λ l d, let x := d_inv d in mkDb (mkInvDb (t_Warehouse x) (t_Zone x) (t_Rack x) (t_Bin x)
    (t_Inventory x) (t_StockReservation x) (t_InventoryMovement x) (t_InventoryAdjustment x)
    (t_LowStockAlert x) (t_GoodsReceipt x) (t_GoodsReceiptItem x) (t_PurchaseOrder x)
    (t_PurchaseOrderItem x) (t_SerialNumber x) (t_StockTransfer x) (t_StockTransferItem x) l
    (t_ProductVariant x) (t_Supplier x)) (d_ord d) (d_pay d) (d_auth d) (d_mkt d) (d_ship d)
    (d_war d) (d_cat d) (d_cms d) (d_ana d)) _ _ _);
    [done|by intros [[] [] [] [] [] [] [] [] [] []]|done].
Defined.

Definition L_ProductVariant : lens Db (list ProductVariant).
Proof.
  refine (Lens (λ d, t_ProductVariant (d_inv d))
    (λ l d, let x := d_inv d in mkDb (mkInvDb (t_Warehouse x) (t_Zone x) (t_Rack x) (t_Bin x)
    (t_Inventory x) (t_StockReservation x) (t_InventoryMovement x) (t_InventoryAdjustment x)
    (t_LowStockAlert x) (t_GoodsReceipt x) (t_GoodsReceiptItem x) (t_PurchaseOrder x)
    (t_PurchaseOrderItem x) (t_SerialNumber x) (t_StockTransfer x) (t_StockTransferItem x)
    (t_CycleCountJob x) l (t_Supplier x)) (d_ord d) (d_pay d) (d_auth d) (d_mkt d) (d_ship d)
    (d_war d) (d_cat d) (d_cms d) (d_ana d)) _ _ _);
    [done|by intros [[] [] [] [] [] [] [] [] [] []]|done].
Defined.

Definition L_Supplier : lens Db (list Supplier).
Proof.
  refine (Lens (λ d, t_Supplier (d_inv d))
    (λ l d, let x := d_inv d in mkDb (mkInvDb (t_Warehouse x) (t_Zone x) (t_Rack x) (t_Bin x)
    (t_Inventory x) (t_StockReservation x) (t_InventoryMovement x) (t_InventoryAdjustment x)
    (t_LowStockAlert x) (t_GoodsReceipt x) (t_GoodsReceiptItem x) (t_PurchaseOrder x)
    (t_PurchaseOrderItem x) (t_SerialNumber x) (t_StockTransfer x) (t_StockTransferItem x)
    (t_CycleCountJob x) (t_ProductVariant x) l) (d_ord d) (d_pay d) (d_auth d) (d_mkt d) (d_ship
    d) (d_war d) (d_cat d) (d_cms d) (d_ana d)) _ _ _);
    [done|by intros [[] [] [] [] [] [] [] [] [] []]|done].
Defined.

Definition L_Cart : lens Db (list Cart).
Proof.
  refine (Lens (λ d, t_Cart (d_ord d))
    (λ l d, let x := d_ord d in mkDb (d_inv d) (mkOrdDb l (t_CartItem x) (t_Order x)
    (t_OrderItem x) (t_OrderAddress x) (t_OrderStatusHistory x) (t_OrderRiskScore x) (t_GiftCard
    x) (t_Wallet x) (t_Return x) (t_ReturnItem x) (t_ExchangeRequest x) (t_FulfillmentOrder x)
    (t_FulfillmentItem x) (t_WarehouseList x) (t_Wishlist x) (t_WishlistItem x) (t_Invoice x)
    (t_InvoiceItem x)) (d_pay d) (d_auth d) (d_mkt d) (d_ship d) (d_war d) (d_cat d) (d_cms d)
    (d_ana d)) _ _ _);
    [done|by intros [[] [] [] [] [] [] [] [] [] []]|done].
Defined.

Definition L_CartItem : lens Db (list CartItem).
Proof.
  refine (Lens (λ d, t_CartItem (d_ord d))
    (λ l d, let x := d_ord d in mkDb (d_inv d) (mkOrdDb (t_Cart x) l (t_Order x) (t_OrderItem x)
    (t_OrderAddress x) (t_OrderStatusHistory x) (t_OrderRiskScore x) (t_GiftCard x) (t_Wallet x)
    (t_Return x) (t_ReturnItem x) (t_ExchangeRequest x) (t_FulfillmentOrder x)
    (t_FulfillmentItem x) (t_WarehouseList x) (t_Wishlist x) (t_WishlistItem x) (t_Invoice x)
    (t_InvoiceItem x)) (d_pay d) (d_auth d) (d_mkt d) (d_ship d) (d_war d) (d_cat d) (d_cms d)
    (d_ana d)) _ _ _);
    [done|by intros [[] [] [] [] [] [] [] [] [] []]|done].
Defined.

Definition L_Order : lens Db (list Order).
Proof.
  refine (Lens (λ d, t_Order (d_ord d))
    (λ l d, let x := d_ord d in mkDb (d_inv d) (mkOrdDb (t_Cart x) (t_CartItem x) l (t_OrderItem
    x) (t_OrderAddress x) (t_OrderStatusHistory x) (t_OrderRiskScore x) (t_GiftCard x) (t_Wallet
    x) (t_Return x) (t_ReturnItem x) (t_ExchangeRequest x) (t_FulfillmentOrder x)
    (t_FulfillmentItem x) (t_WarehouseList x) (t_Wishlist x) (t_WishlistItem x) (t_Invoice x)
    (t_InvoiceItem x)) (d_pay d) (d_auth d) (d_mkt d) (d_ship d) (d_war d) (d_cat d) (d_cms d)
    (d_ana d)) _ _ _);
    [done|by intros [[] [] [] [] [] [] [] [] [] []]|done].
Defined.

Definition L_OrderItem : lens Db (list OrderItem).
Proof.
  refine (Lens (λ d, t_OrderItem (d_ord d))
    (λ l d, let x := d_ord d in mkDb (d_inv d) (mkOrdDb (t_Cart x) (t_CartItem x) (t_Order x) l
    (t_OrderAddress x) (t_OrderStatusHistory x) (t_OrderRiskScore x) (t_GiftCard x) (t_Wallet x)
    (t_Return x) (t_ReturnItem x) (t_ExchangeRequest x) (t_FulfillmentOrder x)
    (t_FulfillmentItem x) (t_WarehouseList x) (t_Wishlist x) (t_WishlistItem x) (t_Invoice x)
    (t_InvoiceItem x)) (d_pay d) (d_auth d) (d_mkt d) (d_ship d) (d_war d) (d_cat d) (d_cms d)
    (d_ana d)) _ _ _);
    [done|by intros [[] [] [] [] [] [] [] [] [] []]|done].
Defined.

Definition L_OrderAddress : lens Db (list OrderAddress).
Proof.
  refine (Lens (λ d, t_OrderAddress (d_ord d))
    (λ l d, let x := d_ord d in mkDb (d_inv d) (mkOrdDb (t_Cart x) (t_CartItem x) (t_Order x)
    (t_OrderItem x) l (t_OrderStatusHistory x) (t_OrderRiskScore x) (t_GiftCard x) (t_Wallet x)
    (t_Return x) (t_ReturnItem x) (t_ExchangeRequest x) (t_FulfillmentOrder x)
    (t_FulfillmentItem x) (t_WarehouseList x) (t_Wishlist x) (t_WishlistItem x) (t_Invoice x)
    (t_InvoiceItem x)) (d_pay d) (d_auth d) (d_mkt d) (d_ship d) (d_war d) (d_cat d) (d_cms d)
    (d_ana d)) _ _ _);
    [done|by intros [[] [] [] [] [] [] [] [] [] []]|done].
Defined.

Definition L_OrderStatusHistory : lens Db (list OrderStatusHistory).
Proof.
  refine (Lens (λ d, t_OrderStatusHistory (d_ord d))
    (λ l d, let x := d_ord d in mkDb (d_inv d) (mkOrdDb (t_Cart x) (t_CartItem x) (t_Order x)
    (t_OrderItem x) (t_OrderAddress x) l (t_OrderRiskScore x) (t_GiftCard x) (t_Wallet x)
    (t_Return x) (t_ReturnItem x) (t_ExchangeRequest x) (t_FulfillmentOrder x)
    (t_FulfillmentItem x) (t_WarehouseList x) (t_Wishlist x) (t_WishlistItem x) (t_Invoice x)
    (t_InvoiceItem x)) (d_pay d) (d_auth d) (d_mkt d) (d_ship d) (d_war d) (d_cat d) (d_cms d)
    (d_ana d)) _ _ _);
    [done|by intros [[] [] [] [] [] [] [] [] [] []]|done].
Defined.

Definition L_OrderRiskScore : lens Db (list OrderRiskScore).
Proof.
  refine (Lens (λ d, t_OrderRiskScore (d_ord d))
    (λ l d, let x := d_ord d in mkDb (d_inv d) (mkOrdDb (t_Cart x) (t_CartItem x) (t_Order x)
    (t_OrderItem x) (t_OrderAddress x) (t_OrderStatusHistory x) l (t_GiftCard x) (t_Wallet x)
    (t_Return x) (t_ReturnItem x) (t_ExchangeRequest x) (t_FulfillmentOrder x)
    (t_FulfillmentItem x) (t_WarehouseList x) (t_Wishlist x) (t_WishlistItem x) (t_Invoice x)
    (t_InvoiceItem x)) (d_pay d) (d_auth d) (d_mkt d) (d_ship d) (d_war d) (d_cat d) (d_cms d)
    (d_ana d)) _ _ _);
    [done|by intros [[] [] [] [] [] [] [] [] [] []]|done].
Defined.

Definition L_GiftCard : lens Db (list GiftCard).
Proof.
  refine (Lens (λ d, t_GiftCard (d_ord d))
    (λ l d, let x := d_ord d in mkDb (d_inv d) (mkOrdDb (t_Cart x) (t_CartItem x) (t_Order x)
    (t_OrderItem x) (t_OrderAddress x) (t_OrderStatusHistory x) (t_OrderRiskScore x) l (t_Wallet
    x) (t_Return x) (t_ReturnItem x) (t_ExchangeRequest x) (t_FulfillmentOrder x)
    (t_FulfillmentItem x) (t_WarehouseList x) (t_Wishlist x) (t_WishlistItem x) (t_Invoice x)
    (t_InvoiceItem x)) (d_pay d) (d_auth d) (d_mkt d) (d_ship d) (d_war d) (d_cat d) (d_cms d)
    (d_ana d)) _ _ _);
    [done|by intros [[] [] [] [] [] [] [] [] [] []]|done].
Defined.

Definition L_Wallet : lens Db (list Wallet).
Proof.
  refine (Lens (λ d, t_Wallet (d_ord d))
    (λ l d, let x := d_ord d in mkDb (d_inv d) (mkOrdDb (t_Cart x) (t_CartItem x) (t_Order x)
    (t_OrderItem x) (t_OrderAddress x) (t_OrderStatusHistory x) (t_OrderRiskScore x) (t_GiftCard
    x) l (t_Return x) (t_ReturnItem x) (t_ExchangeRequest x) (t_FulfillmentOrder x)
    (t_FulfillmentItem x) (t_WarehouseList x) (t_Wishlist x) (t_WishlistItem x) (t_Invoice x)
    (t_InvoiceItem x)) (d_pay d) (d_auth d) (d_mkt d) (d_ship d) (d_war d) (d_cat d) (d_cms d)
    (d_ana d)) _ _ _);
    [done|by intros [[] [] [] [] [] [] [] [] [] []]|done].
Defined.

Definition L_Return : lens Db (list Return).
Proof.
  refine (Lens (λ d, t_Return (d_ord d))
    (λ l d, let x := d_ord d in mkDb (d_inv d) (mkOrdDb (t_Cart x) (t_CartItem x) (t_Order x)
    (t_OrderItem x) (t_OrderAddress x) (t_OrderStatusHistory x) (t_OrderRiskScore x) (t_GiftCard
    x) (t_Wallet x) l (t_ReturnItem x) (t_ExchangeRequest x) (t_FulfillmentOrder x)
    (t_FulfillmentItem x) (t_WarehouseList x) (t_Wishlist x) (t_WishlistItem x) (t_Invoice x)
    (t_InvoiceItem x)) (d_pay d) (d_auth d) (d_mkt d) (d_ship d) (d_war d) (d_cat d) (d_cms d)
    (d_ana d)) _ _ _);
    [done|by intros [[] [] [] [] [] [] [] [] [] []]|done].
Defined.

Definition L_ReturnItem : lens Db (list ReturnItem).
Proof.
  refine (Lens (λ d, t_ReturnItem (d_ord d))
    (λ l d, let x := d_ord d in mkDb (d_inv d) (mkOrdDb (t_Cart x) (t_CartItem x) (t_Order x)
    (t_OrderItem x) (t_OrderAddress x) (t_OrderStatusHistory x) (t_OrderRiskScore x) (t_GiftCard
    x) (t_Wallet x) (t_Return x) l (t_ExchangeRequest x) (t_FulfillmentOrder x)
    (t_FulfillmentItem x) (t_WarehouseList x) (t_Wishlist x) (t_WishlistItem x) (t_Invoice x)
    (t_InvoiceItem x)) (d_pay d) (d_auth d) (d_mkt d) (d_ship d) (d_war d) (d_cat d) (d_cms d)
    (d_ana d)) _ _ _);
    [done|by intros [[] [] [] [] [] [] [] [] [] []]|done].
Defined.

Definition L_ExchangeRequest : lens Db (list ExchangeRequest).
Proof.
  refine (Lens (λ d, t_ExchangeRequest (d_ord d))
    (λ l d, let x := d_ord d in mkDb (d_inv d) (mkOrdDb (t_Cart x) (t_CartItem x) (t_Order x)
    (t_OrderItem x) (t_OrderAddress x) (t_OrderStatusHistory x) (t_OrderRiskScore x) (t_GiftCard
    x) (t_Wallet x) (t_Return x) (t_ReturnItem x) l (t_FulfillmentOrder x) (t_FulfillmentItem x)
    (t_WarehouseList x) (t_Wishlist x) (t_WishlistItem x) (t_Invoice x) (t_InvoiceItem x))
    (d_pay d) (d_auth d) (d_mkt d) (d_ship d) (d_war d) (d_cat d) (d_cms d) (d_ana d)) _ _ _);
    [done|by intros [[] [] [] [] [] [] [] [] [] []]|done].
Defined.

Definition L_FulfillmentOrder : lens Db (list FulfillmentOrder).
Proof.
  refine (Lens (λ d, t_FulfillmentOrder (d_ord d))
    (λ l d, let x := d_ord d in mkDb (d_inv d) (mkOrdDb (t_Cart x) (t_CartItem x) (t_Order x)
    (t_OrderItem x) (t_OrderAddress x) (t_OrderStatusHistory x) (t_OrderRiskScore x) (t_GiftCard
    x) (t_Wallet x) (t_Return x) (t_ReturnItem x) (t_ExchangeRequest x) l (t_FulfillmentItem x)
    (t_WarehouseList x) (t_Wishlist x) (t_WishlistItem x) (t_Invoice x) (t_InvoiceItem x))
    (d_pay d) (d_auth d) (d_mkt d) (d_ship d) (d_war d) (d_cat d) (d_cms d) (d_ana d)) _ _ _);
    [done|by intros [[] [] [] [] [] [] [] [] [] []]|done].
Defined.

Definition L_FulfillmentItem : lens Db (list FulfillmentItem).
Proof.
  refine (Lens (λ d, t_FulfillmentItem (d_ord d))
    (λ l d, let x := d_ord d in mkDb (d_inv d) (mkOrdDb (t_Cart x) (t_CartItem x) (t_Order x)
    (t_OrderItem x) (t_OrderAddress x) (t_OrderStatusHistory x) (t_OrderRiskScore x) (t_GiftCard
    x) (t_Wallet x) (t_Return x) (t_ReturnItem x) (t_ExchangeRequest x) (t_FulfillmentOrder x) l
    (t_WarehouseList x) (t_Wishlist x) (t_WishlistItem x) (t_Invoice x) (t_InvoiceItem x))
    (d_pay d) (d_auth d) (d_mkt d) (d_ship d) (d_war d) (d_cat d) (d_cms d) (d_ana d)) _ _ _);
    [done|by intros [[] [] [] [] [] [] [] [] [] []]|done].
Defined.

Definition L_WarehouseList : lens Db (list WarehouseList).
Proof.
  refine (Lens (λ d, t_WarehouseList (d_ord d))
    (λ l d, let x := d_ord d in mkDb (d_inv d) (mkOrdDb (t_Cart x) (t_CartItem x) (t_Order x)
    (t_OrderItem x) (t_OrderAddress x) (t_OrderStatusHistory x) (t_OrderRiskScore x) (t_GiftCard
    x) (t_Wallet x) (t_Return x) (t_ReturnItem x) (t_ExchangeRequest x) (t_FulfillmentOrder x)
    (t_FulfillmentItem x) l (t_Wishlist x) (t_WishlistItem x) (t_Invoice x) (t_InvoiceItem x))
    (d_pay d) (d_auth d) (d_mkt d) (d_ship d) (d_war d) (d_cat d) (d_cms d) (d_ana d)) _ _ _);
    [done|by intros [[] [] [] [] [] [] [] [] [] []]|done].
Defined.

Definition L_Wishlist : lens Db (list Wishlist).
Proof.
  refine (Lens (λ d, t_Wishlist (d_ord d))
    (λ l d, let x := d_ord d in mkDb (d_inv d) (mkOrdDb (t_Cart x) (t_CartItem x) (t_Order x)
    (t_OrderItem x) (t_OrderAddress x) (t_OrderStatusHistory x) (t_OrderRiskScore x) (t_GiftCard
    x) (t_Wallet x) (t_Return x) (t_ReturnItem x) (t_ExchangeRequest x) (t_FulfillmentOrder x)
    (t_FulfillmentItem x) (t_WarehouseList x) l (t_WishlistItem x) (t_Invoice x) (t_InvoiceItem
    x)) (d_pay d) (d_auth d) (d_mkt d) (d_ship d) (d_war d) (d_cat d) (d_cms d) (d_ana d)) _ _ _);
    [done|by intros [[] [] [] [] [] [] [] [] [] []]|done].
Defined.

Definition L_WishlistItem : lens Db (list WishlistItem).
Proof.
  refine (Lens (λ d, t_WishlistItem (d_ord d))
    (λ l d, let x := d_ord d in mkDb (d_inv d) (mkOrdDb (t_Cart x) (t_CartItem x) (t_Order x)
    (t_OrderItem x) (t_OrderAddress x) (t_OrderStatusHistory x) (t_OrderRiskScore x) (t_GiftCard
    x) (t_Wallet x) (t_Return x) (t_ReturnItem x) (t_ExchangeRequest x) (t_FulfillmentOrder x)
    (t_FulfillmentItem x) (t_WarehouseList x) (t_Wishlist x) l (t_Invoice x) (t_InvoiceItem x))
    (d_pay d) (d_auth d) (d_mkt d) (d_ship d) (d_war d) (d_cat d) (d_cms d) (d_ana d)) _ _ _);
    [done|by intros [[] [] [] [] [] [] [] [] [] []]|done].
Defined.

Definition L_Invoice : lens Db (list Invoice).
Proof.
  refine (Lens (λ d, t_Invoice (d_ord d))
    (λ l d, let x := d_ord d in mkDb (d_inv d) (mkOrdDb (t_Cart x) (t_CartItem x) (t_Order x)
    (t_OrderItem x) (t_OrderAddress x) (t_OrderStatusHistory x) (t_OrderRiskScore x) (t_GiftCard
    x) (t_Wallet x) (t_Return x) (t_ReturnItem x) (t_ExchangeRequest x) (t_FulfillmentOrder x)
    (t_FulfillmentItem x) (t_WarehouseList x) (t_Wishlist x) (t_WishlistItem x) l (t_InvoiceItem
    x)) (d_pay d) (d_auth d) (d_mkt d) (d_ship d) (d_war d) (d_cat d) (d_cms d) (d_ana d)) _ _ _);
    [done|by intros [[] [] [] [] [] [] [] [] [] []]|done].
Defined.

Definition L_InvoiceItem : lens Db (list InvoiceItem).
Proof.
  refine (Lens (λ d, t_InvoiceItem (d_ord d))
    (λ l d, let x := d_ord d in mkDb (d_inv d) (mkOrdDb (t_Cart x) (t_CartItem x) (t_Order x)
    (t_OrderItem x) (t_OrderAddress x) (t_OrderStatusHistory x) (t_OrderRiskScore x) (t_GiftCard
    x) (t_Wallet x) (t_Return x) (t_ReturnItem x) (t_ExchangeRequest x) (t_FulfillmentOrder x)
    (t_FulfillmentItem x) (t_WarehouseList x) (t_Wishlist x) (t_WishlistItem x) (t_Invoice x) l)
    (d_pay d) (d_auth d) (d_mkt d) (d_ship d) (d_war d) (d_cat d) (d_cms d) (d_ana d)) _ _ _);
    [done|by intros [[] [] [] [] [] [] [] [] [] []]|done].
Defined.

Definition L_Gateway : lens Db (list Gateway).
Proof.
  refine (Lens (λ d, t_Gateway (d_pay d))
    (λ l d, let x := d_pay d in mkDb (d_inv d) (d_ord d) (mkPayDb l (t_Payment x)
    (t_PaymentAttempt x) (t_PaymentTransaction x) (t_PaymentAuditLog x) (t_PaymentEvent x)
    (t_Refund x) (t_RefundItem x) (t_PaymentWebhook x) (t_SavedPaymentMethod x)
    (t_PaymentSettlement x) (t_PaymentReconciliation x) (t_PaymentDispute x)) (d_auth d) (d_mkt
    d) (d_ship d) (d_war d) (d_cat d) (d_cms d) (d_ana d)) _ _ _);
    [done|by intros [[] [] [] [] [] [] [] [] [] []]|done].
Defined.

Definition L_Payment : lens Db (list Payment).
Proof.
  refine (Lens (λ d, t_Payment (d_pay d))
    (λ l d, let x := d_pay d in mkDb (d_inv d) (d_ord d) (mkPayDb (t_Gateway x) l
    (t_PaymentAttempt x) (t_PaymentTransaction x) (t_PaymentAuditLog x) (t_PaymentEvent x)
    (t_Refund x) (t_RefundItem x) (t_PaymentWebhook x) (t_SavedPaymentMethod x)
    (t_PaymentSettlement x) (t_PaymentReconciliation x) (t_PaymentDispute x)) (d_auth d) (d_mkt
    d) (d_ship d) (d_war d) (d_cat d) (d_cms d) (d_ana d)) _ _ _);
    [done|by intros [[] [] [] [] [] [] [] [] [] []]|done].
Defined.

Definition L_PaymentAttempt : lens Db (list PaymentAttempt).
Proof.
  refine (Lens (λ d, t_PaymentAttempt (d_pay d))
    (λ l d, let x := d_pay d in mkDb (d_inv d) (d_ord d) (mkPayDb (t_Gateway x) (t_Payment x) l
    (t_PaymentTransaction x) (t_PaymentAuditLog x) (t_PaymentEvent x) (t_Refund x) (t_RefundItem
    x) (t_PaymentWebhook x) (t_SavedPaymentMethod x) (t_PaymentSettlement x)
    (t_PaymentReconciliation x) (t_PaymentDispute x)) (d_auth d) (d_mkt d) (d_ship d) (d_war d)
    (d_cat d) (d_cms d) (d_ana d)) _ _ _);
    [done|by intros [[] [] [] [] [] [] [] [] [] []]|done].
Defined.

Definition L_PaymentTransaction : lens Db (list PaymentTransaction).
Proof.
  refine (Lens (λ d, t_PaymentTransaction (d_pay d))
    (λ l d, let x := d_pay d in mkDb (d_inv d) (d_ord d) (mkPayDb (t_Gateway x) (t_Payment x)
    (t_PaymentAttempt x) l (t_PaymentAuditLog x) (t_PaymentEvent x) (t_Refund x) (t_RefundItem
    x) (t_PaymentWebhook x) (t_SavedPaymentMethod x) (t_PaymentSettlement x)
    (t_PaymentReconciliation x) (t_PaymentDispute x)) (d_auth d) (d_mkt d) (d_ship d) (d_war d)
    (d_cat d) (d_cms d) (d_ana d)) _ _ _);
    [done|by intros [[] [] [] [] [] [] [] [] [] []]|done].
Defined.

Definition L_PaymentAuditLog : lens Db (list PaymentAuditLog).
Proof.
  refine (Lens (λ d, t_PaymentAuditLog (d_pay d))
    (λ l d, let x := d_pay d in mkDb (d_inv d) (d_ord d) (mkPayDb (t_Gateway x) (t_Payment x)
    (t_PaymentAttempt x) (t_PaymentTransaction x) l (t_PaymentEvent x) (t_Refund x)
    (t_RefundItem x) (t_PaymentWebhook x) (t_SavedPaymentMethod x) (t_PaymentSettlement x)
    (t_PaymentReconciliation x) (t_PaymentDispute x)) (d_auth d) (d_mkt d) (d_ship d) (d_war d)
    (d_cat d) (d_cms d) (d_ana d)) _ _ _);
    [done|by intros [[] [] [] [] [] [] [] [] [] []]|done].
Defined.

Definition L_PaymentEvent : lens Db (list PaymentEvent).
Proof.
  refine (Lens (λ d, t_PaymentEvent (d_pay d))
    (λ l d, let x := d_pay d in mkDb (d_inv d) (d_ord d) (mkPayDb (t_Gateway x) (t_Payment x)
    (t_PaymentAttempt x) (t_PaymentTransaction x) (t_PaymentAuditLog x) l (t_Refund x)
    (t_RefundItem x) (t_PaymentWebhook x) (t_SavedPaymentMethod x) (t_PaymentSettlement x)
    (t_PaymentReconciliation x) (t_PaymentDispute x)) (d_auth d) (d_mkt d) (d_ship d) (d_war d)
    (d_cat d) (d_cms d) (d_ana d)) _ _ _);
    [done|by intros [[] [] [] [] [] [] [] [] [] []]|done].
Defined.

Definition L_Refund : lens Db (list Refund).
Proof.
  refine (Lens (λ d, t_Refund (d_pay d))
    (λ l d, let x := d_pay d in mkDb (d_inv d) (d_ord d) (mkPayDb (t_Gateway x) (t_Payment x)
    (t_PaymentAttempt x) (t_PaymentTransaction x) (t_PaymentAuditLog x) (t_PaymentEvent x) l
    (t_RefundItem x) (t_PaymentWebhook x) (t_SavedPaymentMethod x) (t_PaymentSettlement x)
    (t_PaymentReconciliation x) (t_PaymentDispute x)) (d_auth d) (d_mkt d) (d_ship d) (d_war d)
    (d_cat d) (d_cms d) (d_ana d)) _ _ _);
    [done|by intros [[] [] [] [] [] [] [] [] [] []]|done].
Defined.

Definition L_RefundItem : lens Db (list RefundItem).
Proof.
  refine (Lens (λ d, t_RefundItem (d_pay d))
    (λ l d, let x := d_pay d in mkDb (d_inv d) (d_ord d) (mkPayDb (t_Gateway x) (t_Payment x)
    (t_PaymentAttempt x) (t_PaymentTransaction x) (t_PaymentAuditLog x) (t_PaymentEvent x)
    (t_Refund x) l (t_PaymentWebhook x) (t_SavedPaymentMethod x) (t_PaymentSettlement x)
    (t_PaymentReconciliation x) (t_PaymentDispute x)) (d_auth d) (d_mkt d) (d_ship d) (d_war d)
    (d_cat d) (d_cms d) (d_ana d)) _ _ _);
    [done|by intros [[] [] [] [] [] [] [] [] [] []]|done].
Defined.

Definition L_PaymentWebhook : lens Db (list PaymentWebhook).
Proof.
  refine (Lens (λ d, t_PaymentWebhook (d_pay d))
    (λ l d, let x := d_pay d in mkDb (d_inv d) (d_ord d) (mkPayDb (t_Gateway x) (t_Payment x)
    (t_PaymentAttempt x) (t_PaymentTransaction x) (t_PaymentAuditLog x) (t_PaymentEvent x)
    (t_Refund x) (t_RefundItem x) l (t_SavedPaymentMethod x) (t_PaymentSettlement x)
    (t_PaymentReconciliation x) (t_PaymentDispute x)) (d_auth d) (d_mkt d) (d_ship d) (d_war d)
    (d_cat d) (d_cms d) (d_ana d)) _ _ _);
    [done|by intros [[] [] [] [] [] [] [] [] [] []]|done].
Defined.

Definition L_SavedPaymentMethod : lens Db (list SavedPaymentMethod).
Proof.
  refine (Lens (λ d, t_SavedPaymentMethod (d_pay d))
    (λ l d, let x := d_pay d in mkDb (d_inv d) (d_ord d) (mkPayDb (t_Gateway x) (t_Payment x)
    (t_PaymentAttempt x) (t_PaymentTransaction x) (t_PaymentAuditLog x) (t_PaymentEvent x)
    (t_Refund x) (t_RefundItem x) (t_PaymentWebhook x) l (t_PaymentSettlement x)
    (t_PaymentReconciliation x) (t_PaymentDispute x)) (d_auth d) (d_mkt d) (d_ship d) (d_war d)
    (d_cat d) (d_cms d) (d_ana d)) _ _ _);
    [done|by intros [[] [] [] [] [] [] [] [] [] []]|done].
Defined.

Definition L_PaymentSettlement : lens Db (list PaymentSettlement).
Proof.
  refine (Lens (λ d, t_PaymentSettlement (d_pay d))
    (λ l d, let x := d_pay d in mkDb (d_inv d) (d_ord d) (mkPayDb (t_Gateway x) (t_Payment x)
    (t_PaymentAttempt x) (t_PaymentTransaction x) (t_PaymentAuditLog x) (t_PaymentEvent x)
    (t_Refund x) (t_RefundItem x) (t_PaymentWebhook x) (t_SavedPaymentMethod x) l
    (t_PaymentReconciliation x) (t_PaymentDispute x)) (d_auth d) (d_mkt d) (d_ship d) (d_war d)
    (d_cat d) (d_cms d) (d_ana d)) _ _ _);
    [done|by intros [[] [] [] [] [] [] [] [] [] []]|done].
Defined.

Definition L_PaymentReconciliation : lens Db (list PaymentReconciliation).
Proof.
  refine (Lens (λ d, t_PaymentReconciliation (d_pay d))
    (λ l d, let x := d_pay d in mkDb (d_inv d) (d_ord d) (mkPayDb (t_Gateway x) (t_Payment x)
    (t_PaymentAttempt x) (t_PaymentTransaction x) (t_PaymentAuditLog x) (t_PaymentEvent x)
    (t_Refund x) (t_RefundItem x) (t_PaymentWebhook x) (t_SavedPaymentMethod x)
    (t_PaymentSettlement x) l (t_PaymentDispute x)) (d_auth d) (d_mkt d) (d_ship d) (d_war d)
    (d_cat d) (d_cms d) (d_ana d)) _ _ _);
    [done|by intros [[] [] [] [] [] [] [] [] [] []]|done].
Defined.

Definition L_PaymentDispute : lens Db (list PaymentDispute).
Proof.
  refine (Lens (λ d, t_PaymentDispute (d_pay d))
    (λ l d, let x := d_pay d in mkDb (d_inv d) (d_ord d) (mkPayDb (t_Gateway x) (t_Payment x)
    (t_PaymentAttempt x) (t_PaymentTransaction x) (t_PaymentAuditLog x) (t_PaymentEvent x)
    (t_Refund x) (t_RefundItem x) (t_PaymentWebhook x) (t_SavedPaymentMethod x)
    (t_PaymentSettlement x) (t_PaymentReconciliation x) l) (d_auth d) (d_mkt d) (d_ship d)
    (d_war d) (d_cat d) (d_cms d) (d_ana d)) _ _ _);
    [done|by intros [[] [] [] [] [] [] [] [] [] []]|done].
Defined.

Definition L_User : lens Db (list User).
Proof.
  refine (Lens (λ d, t_User (d_auth d))
    (λ l d, let x := d_auth d in mkDb (d_inv d) (d_ord d) (d_pay d) (mkAuthDb l (t_Role x)
    (t_Permission x) (t_RolePermission x) (t_UserRole x) (t_RefreshToken x) (t_Session x) (t_Otp
    x) (t_OauthAccount x) (t_LoginAttempt x) (t_AuditLog x)) (d_mkt d) (d_ship d) (d_war d)
    (d_cat d) (d_cms d) (d_ana d)) _ _ _);
    [done|by intros [[] [] [] [] [] [] [] [] [] []]|done].
Defined.

Definition L_Role : lens Db (list Role).
Proof.
  refine (Lens (λ d, t_Role (d_auth d))
    (λ l d, let x := d_auth d in mkDb (d_inv d) (d_ord d) (d_pay d) (mkAuthDb (t_User x) l
    (t_Permission x) (t_RolePermission x) (t_UserRole x) (t_RefreshToken x) (t_Session x) (t_Otp
    x) (t_OauthAccount x) (t_LoginAttempt x) (t_AuditLog x)) (d_mkt d) (d_ship d) (d_war d)
    (d_cat d) (d_cms d) (d_ana d)) _ _ _);
    [done|by intros [[] [] [] [] [] [] [] [] [] []]|done].
Defined.

Definition L_Permission : lens Db (list Permission).
Proof.
  refine (Lens (λ d, t_Permission (d_auth d))
    (λ l d, let x := d_auth d in mkDb (d_inv d) (d_ord d) (d_pay d) (mkAuthDb (t_User x) (t_Role
    x) l (t_RolePermission x) (t_UserRole x) (t_RefreshToken x) (t_Session x) (t_Otp x)
    (t_OauthAccount x) (t_LoginAttempt x) (t_AuditLog x)) (d_mkt d) (d_ship d) (d_war d) (d_cat
    d) (d_cms d) (d_ana d)) _ _ _);
    [done|by intros [[] [] [] [] [] [] [] [] [] []]|done].
Defined.

Definition L_RolePermission : lens Db (list RolePermission).
Proof.
  refine (Lens (λ d, t_RolePermission (d_auth d))
    (λ l d, let x := d_auth d in mkDb (d_inv d) (d_ord d) (d_pay d) (mkAuthDb (t_User x) (t_Role
    x) (t_Permission x) l (t_UserRole x) (t_RefreshToken x) (t_Session x) (t_Otp x)
    (t_OauthAccount x) (t_LoginAttempt x) (t_AuditLog x)) (d_mkt d) (d_ship d) (d_war d) (d_cat
    d) (d_cms d) (d_ana d)) _ _ _);
    [done|by intros [[] [] [] [] [] [] [] [] [] []]|done].
Defined.

Definition L_UserRole : lens Db (list UserRole).
Proof.
  refine (Lens (λ d, t_UserRole (d_auth d))
    (λ l d, let x := d_auth d in mkDb (d_inv d) (d_ord d) (d_pay d) (mkAuthDb (t_User x) (t_Role
    x) (t_Permission x) (t_RolePermission x) l (t_RefreshToken x) (t_Session x) (t_Otp x)
    (t_OauthAccount x) (t_LoginAttempt x) (t_AuditLog x)) (d_mkt d) (d_ship d) (d_war d) (d_cat
    d) (d_cms d) (d_ana d)) _ _ _);
    [done|by intros [[] [] [] [] [] [] [] [] [] []]|done].
Defined.

Definition L_RefreshToken : lens Db (list RefreshToken).
Proof.
  refine (Lens (λ d, t_RefreshToken (d_auth d))
    (λ l d, let x := d_auth d in mkDb (d_inv d) (d_ord d) (d_pay d) (mkAuthDb (t_User x) (t_Role
    x) (t_Permission x) (t_RolePermission x) (t_UserRole x) l (t_Session x) (t_Otp x)
    (t_OauthAccount x) (t_LoginAttempt x) (t_AuditLog x)) (d_mkt d) (d_ship d) (d_war d) (d_cat
    d) (d_cms d) (d_ana d)) _ _ _);
    [done|by intros [[] [] [] [] [] [] [] [] [] []]|done].
Defined.

Definition L_Session : lens Db (list Session).
Proof.
  refine (Lens (λ d, t_Session (d_auth d))
    (λ l d, let x := d_auth d in mkDb (d_inv d) (d_ord d) (d_pay d) (mkAuthDb (t_User x) (t_Role
    x) (t_Permission x) (t_RolePermission x) (t_UserRole x) (t_RefreshToken x) l (t_Otp x)
    (t_OauthAccount x) (t_LoginAttempt x) (t_AuditLog x)) (d_mkt d) (d_ship d) (d_war d) (d_cat
    d) (d_cms d) (d_ana d)) _ _ _);
    [done|by intros [[] [] [] [] [] [] [] [] [] []]|done].
Defined.

Definition L_Otp : lens Db (list Otp).
Proof.
  refine (Lens (λ d, t_Otp (d_auth d))
    (λ l d, let x := d_auth d in mkDb (d_inv d) (d_ord d) (d_pay d) (mkAuthDb (t_User x) (t_Role
    x) (t_Permission x) (t_RolePermission x) (t_UserRole x) (t_RefreshToken x) (t_Session x) l
    (t_OauthAccount x) (t_LoginAttempt x) (t_AuditLog x)) (d_mkt d) (d_ship d) (d_war d) (d_cat
    d) (d_cms d) (d_ana d)) _ _ _);
    [done|by intros [[] [] [] [] [] [] [] [] [] []]|done].
Defined.

Definition L_OauthAccount : lens Db (list OauthAccount).
Proof.
  refine (Lens (λ d, t_OauthAccount (d_auth d))
    (λ l d, let x := d_auth d in mkDb (d_inv d) (d_ord d) (d_pay d) (mkAuthDb (t_User x) (t_Role
    x) (t_Permission x) (t_RolePermission x) (t_UserRole x) (t_RefreshToken x) (t_Session x)
    (t_Otp x) l (t_LoginAttempt x) (t_AuditLog x)) (d_mkt d) (d_ship d) (d_war d) (d_cat d)
    (d_cms d) (d_ana d)) _ _ _);
    [done|by intros [[] [] [] [] [] [] [] [] [] []]|done].
Defined.

Definition L_LoginAttempt : lens Db (list LoginAttempt).
Proof.
  refine (Lens (λ d, t_LoginAttempt (d_auth d))
    (λ l d, let x := d_auth d in mkDb (d_inv d) (d_ord d) (d_pay d) (mkAuthDb (t_User x) (t_Role
    x) (t_Permission x) (t_RolePermission x) (t_UserRole x) (t_RefreshToken x) (t_Session x)
    (t_Otp x) (t_OauthAccount x) l (t_AuditLog x)) (d_mkt d) (d_ship d) (d_war d) (d_cat d)
    (d_cms d) (d_ana d)) _ _ _);
    [done|by intros [[] [] [] [] [] [] [] [] [] []]|done].
Defined.

Definition L_AuditLog : lens Db (list AuditLog).
Proof.
  refine (Lens (λ d, t_AuditLog (d_auth d))
    (λ l d, let x := d_auth d in mkDb (d_inv d) (d_ord d) (d_pay d) (mkAuthDb (t_User x) (t_Role
    x) (t_Permission x) (t_RolePermission x) (t_UserRole x) (t_RefreshToken x) (t_Session x)
    (t_Otp x) (t_OauthAccount x) (t_LoginAttempt x) l) (d_mkt d) (d_ship d) (d_war d) (d_cat d)
    (d_cms d) (d_ana d)) _ _ _);
    [done|by intros [[] [] [] [] [] [] [] [] [] []]|done].
Defined.

Definition L_Coupon : lens Db (list Coupon).
Proof.
  refine (Lens (λ d, t_Coupon (d_mkt d))
    (λ l d, let x := d_mkt d in mkDb (d_inv d) (d_ord d) (d_pay d) (d_auth d) (mkMktDb l
    (t_CouponRule x) (t_CouponUsage x) (t_LoyaltyAccount x) (t_LoyaltyTransaction x)
    (t_RewardRule x) (t_ReferralProgram x) (t_ReferralReward x) (t_FeatureFlag x)
    (t_FeatureFlagRule x) (t_AbTest x) (t_AbTestVariant x) (t_AbTestResult x) (t_Campaign x)
    (t_SearchKeyword x) (t_SearchSynonym x) (t_PopularSearch x)) (d_ship d) (d_war d) (d_cat d)
    (d_cms d) (d_ana d)) _ _ _);
    [done|by intros [[] [] [] [] [] [] [] [] [] []]|done].
Defined.

Definition L_CouponRule : lens Db (list CouponRule).
Proof.
  refine (Lens (λ d, t_CouponRule (d_mkt d))
    (λ l d, let x := d_mkt d in mkDb (d_inv d) (d_ord d) (d_pay d) (d_auth d) (mkMktDb (t_Coupon
    x) l (t_CouponUsage x) (t_LoyaltyAccount x) (t_LoyaltyTransaction x) (t_RewardRule x)
    (t_ReferralProgram x) (t_ReferralReward x) (t_FeatureFlag x) (t_FeatureFlagRule x) (t_AbTest
    x) (t_AbTestVariant x) (t_AbTestResult x) (t_Campaign x) (t_SearchKeyword x)
    (t_SearchSynonym x) (t_PopularSearch x)) (d_ship d) (d_war d) (d_cat d) (d_cms d) (d_ana d)) _ _ _);
    [done|by intros [[] [] [] [] [] [] [] [] [] []]|done].
Defined.

Definition L_CouponUsage : lens Db (list CouponUsage).
Proof.
  refine (Lens (λ d, t_CouponUsage (d_mkt d))
    (λ l d, let x := d_mkt d in mkDb (d_inv d) (d_ord d) (d_pay d) (d_auth d) (mkMktDb (t_Coupon
    x) (t_CouponRule x) l (t_LoyaltyAccount x) (t_LoyaltyTransaction x) (t_RewardRule x)
    (t_ReferralProgram x) (t_ReferralReward x) (t_FeatureFlag x) (t_FeatureFlagRule x) (t_AbTest
    x) (t_AbTestVariant x) (t_AbTestResult x) (t_Campaign x) (t_SearchKeyword x)
    (t_SearchSynonym x) (t_PopularSearch x)) (d_ship d) (d_war d) (d_cat d) (d_cms d) (d_ana d)) _ _ _);
    [done|by intros [[] [] [] [] [] [] [] [] [] []]|done].
Defined.

Definition L_LoyaltyAccount : lens Db (list LoyaltyAccount).
Proof.
  refine (Lens (λ d, t_LoyaltyAccount (d_mkt d))
    (λ l d, let x := d_mkt d in mkDb (d_inv d) (d_ord d) (d_pay d) (d_auth d) (mkMktDb (t_Coupon
    x) (t_CouponRule x) (t_CouponUsage x) l (t_LoyaltyTransaction x) (t_RewardRule x)
    (t_ReferralProgram x) (t_ReferralReward x) (t_FeatureFlag x) (t_FeatureFlagRule x) (t_AbTest
    x) (t_AbTestVariant x) (t_AbTestResult x) (t_Campaign x) (t_SearchKeyword x)
    (t_SearchSynonym x) (t_PopularSearch x)) (d_ship d) (d_war d) (d_cat d) (d_cms d) (d_ana d)) _ _ _);
    [done|by intros [[] [] [] [] [] [] [] [] [] []]|done].
Defined.

Definition L_LoyaltyTransaction : lens Db (list LoyaltyTransaction).
Proof.
  refine (Lens (λ d, t_LoyaltyTransaction (d_mkt d))
    (λ l d, let x := d_mkt d in mkDb (d_inv d) (d_ord d) (d_pay d) (d_auth d) (mkMktDb (t_Coupon
    x) (t_CouponRule x) (t_CouponUsage x) (t_LoyaltyAccount x) l (t_RewardRule x)
    (t_ReferralProgram x) (t_ReferralReward x) (t_FeatureFlag x) (t_FeatureFlagRule x) (t_AbTest
    x) (t_AbTestVariant x) (t_AbTestResult x) (t_Campaign x) (t_SearchKeyword x)
    (t_SearchSynonym x) (t_PopularSearch x)) (d_ship d) (d_war d) (d_cat d) (d_cms d) (d_ana d)) _ _ _);
    [done|by intros [[] [] [] [] [] [] [] [] [] []]|done].
Defined.

Definition L_RewardRule : lens Db (list RewardRule).
Proof.
  refine (Lens (λ d, t_RewardRule (d_mkt d))
    (λ l d, let x := d_mkt d in mkDb (d_inv d) (d_ord d) (d_pay d) (d_auth d) (mkMktDb (t_Coupon
    x) (t_CouponRule x) (t_CouponUsage x) (t_LoyaltyAccount x) (t_LoyaltyTransaction x) l
    (t_ReferralProgram x) (t_ReferralReward x) (t_FeatureFlag x) (t_FeatureFlagRule x) (t_AbTest
    x) (t_AbTestVariant x) (t_AbTestResult x) (t_Campaign x) (t_SearchKeyword x)
    (t_SearchSynonym x) (t_PopularSearch x)) (d_ship d) (d_war d) (d_cat d) (d_cms d) (d_ana d)) _ _ _);
    [done|by intros [[] [] [] [] [] [] [] [] [] []]|done].
Defined.

Definition L_ReferralProgram : lens Db (list ReferralProgram).
Proof.
  refine (Lens (λ d, t_ReferralProgram (d_mkt d))
    (λ l d, let x := d_mkt d in mkDb (d_inv d) (d_ord d) (d_pay d) (d_auth d) (mkMktDb (t_Coupon
    x) (t_CouponRule x) (t_CouponUsage x) (t_LoyaltyAccount x) (t_LoyaltyTransaction x)
    (t_RewardRule x) l (t_ReferralReward x) (t_FeatureFlag x) (t_FeatureFlagRule x) (t_AbTest x)
    (t_AbTestVariant x) (t_AbTestResult x) (t_Campaign x) (t_SearchKeyword x) (t_SearchSynonym
    x) (t_PopularSearch x)) (d_ship d) (d_war d) (d_cat d) (d_cms d) (d_ana d)) _ _ _);
    [done|by intros [[] [] [] [] [] [] [] [] [] []]|done].
Defined.

Definition L_ReferralReward : lens Db (list ReferralReward).
Proof.
  refine (Lens (λ d, t_ReferralReward (d_mkt d))
    (λ l d, let x := d_mkt d in mkDb (d_inv d) (d_ord d) (d_pay d) (d_auth d) (mkMktDb (t_Coupon
    x) (t_CouponRule x) (t_CouponUsage x) (t_LoyaltyAccount x) (t_LoyaltyTransaction x)
    (t_RewardRule x) (t_ReferralProgram x) l (t_FeatureFlag x) (t_FeatureFlagRule x) (t_AbTest
    x) (t_AbTestVariant x) (t_AbTestResult x) (t_Campaign x) (t_SearchKeyword x)
    (t_SearchSynonym x) (t_PopularSearch x)) (d_ship d) (d_war d) (d_cat d) (d_cms d) (d_ana d)) _ _ _);
    [done|by intros [[] [] [] [] [] [] [] [] [] []]|done].
Defined.

Definition L_FeatureFlag : lens Db (list FeatureFlag).
Proof.
  refine (Lens (λ d, t_FeatureFlag (d_mkt d))
    (λ l d, let x := d_mkt d in mkDb (d_inv d) (d_ord d) (d_pay d) (d_auth d) (mkMktDb (t_Coupon
    x) (t_CouponRule x) (t_CouponUsage x) (t_LoyaltyAccount x) (t_LoyaltyTransaction x)
    (t_RewardRule x) (t_ReferralProgram x) (t_ReferralReward x) l (t_FeatureFlagRule x)
    (t_AbTest x) (t_AbTestVariant x) (t_AbTestResult x) (t_Campaign x) (t_SearchKeyword x)
    (t_SearchSynonym x) (t_PopularSearch x)) (d_ship d) (d_war d) (d_cat d) (d_cms d) (d_ana d)) _ _ _);
    [done|by intros [[] [] [] [] [] [] [] [] [] []]|done].
Defined.

Definition L_FeatureFlagRule : lens Db (list FeatureFlagRule).
Proof.
  refine (Lens (λ d, t_FeatureFlagRule (d_mkt d))
    (λ l d, let x := d_mkt d in mkDb (d_inv d) (d_ord d) (d_pay d) (d_auth d) (mkMktDb (t_Coupon
    x) (t_CouponRule x) (t_CouponUsage x) (t_LoyaltyAccount x) (t_LoyaltyTransaction x)
    (t_RewardRule x) (t_ReferralProgram x) (t_ReferralReward x) (t_FeatureFlag x) l (t_AbTest x)
    (t_AbTestVariant x) (t_AbTestResult x) (t_Campaign x) (t_SearchKeyword x) (t_SearchSynonym
    x) (t_PopularSearch x)) (d_ship d) (d_war d) (d_cat d) (d_cms d) (d_ana d)) _ _ _);
    [done|by intros [[] [] [] [] [] [] [] [] [] []]|done].
Defined.

Definition L_AbTest : lens Db (list AbTest).
Proof.
  refine (Lens (λ d, t_AbTest (d_mkt d))
    (λ l d, let x := d_mkt d in mkDb (d_inv d) (d_ord d) (d_pay d) (d_auth d) (mkMktDb (t_Coupon
    x) (t_CouponRule x) (t_CouponUsage x) (t_LoyaltyAccount x) (t_LoyaltyTransaction x)
    (t_RewardRule x) (t_ReferralProgram x) (t_ReferralReward x) (t_FeatureFlag x)
    (t_FeatureFlagRule x) l (t_AbTestVariant x) (t_AbTestResult x) (t_Campaign x)
    (t_SearchKeyword x) (t_SearchSynonym x) (t_PopularSearch x)) (d_ship d) (d_war d) (d_cat d)
    (d_cms d) (d_ana d)) _ _ _);
    [done|by intros [[] [] [] [] [] [] [] [] [] []]|done].
Defined.

Definition L_AbTestVariant : lens Db (list AbTestVariant).
Proof.
  refine (Lens (λ d, t_AbTestVariant (d_mkt d))
    (λ l d, let x := d_mkt d in mkDb (d_inv d) (d_ord d) (d_pay d) (d_auth d) (mkMktDb (t_Coupon
    x) (t_CouponRule x) (t_CouponUsage x) (t_LoyaltyAccount x) (t_LoyaltyTransaction x)
    (t_RewardRule x) (t_ReferralProgram x) (t_ReferralReward x) (t_FeatureFlag x)
    (t_FeatureFlagRule x) (t_AbTest x) l (t_AbTestResult x) (t_Campaign x) (t_SearchKeyword x)
    (t_SearchSynonym x) (t_PopularSearch x)) (d_ship d) (d_war d) (d_cat d) (d_cms d) (d_ana d)) _ _ _);
    [done|by intros [[] [] [] [] [] [] [] [] [] []]|done].
Defined.

Definition L_AbTestResult : lens Db (list AbTestResult).
Proof.
  refine (Lens (λ d, t_AbTestResult (d_mkt d))
    (λ l d, let x := d_mkt d in mkDb (d_inv d) (d_ord d) (d_pay d) (d_auth d) (mkMktDb (t_Coupon
    x) (t_CouponRule x) (t_CouponUsage x) (t_LoyaltyAccount x) (t_LoyaltyTransaction x)
    (t_RewardRule x) (t_ReferralProgram x) (t_ReferralReward x) (t_FeatureFlag x)
    (t_FeatureFlagRule x) (t_AbTest x) (t_AbTestVariant x) l (t_Campaign x) (t_SearchKeyword x)
    (t_SearchSynonym x) (t_PopularSearch x)) (d_ship d) (d_war d) (d_cat d) (d_cms d) (d_ana d)) _ _ _);
    [done|by intros [[] [] [] [] [] [] [] [] [] []]|done].
Defined.

Definition L_Campaign : lens Db (list Campaign).
Proof.
  refine (Lens (λ d, t_Campaign (d_mkt d))
    (λ l d, let x := d_mkt d in mkDb (d_inv d) (d_ord d) (d_pay d) (d_auth d) (mkMktDb (t_Coupon
    x) (t_CouponRule x) (t_CouponUsage x) (t_LoyaltyAccount x) (t_LoyaltyTransaction x)
    (t_RewardRule x) (t_ReferralProgram x) (t_ReferralReward x) (t_FeatureFlag x)
    (t_FeatureFlagRule x) (t_AbTest x) (t_AbTestVariant x) (t_AbTestResult x) l (t_SearchKeyword
    x) (t_SearchSynonym x) (t_PopularSearch x)) (d_ship d) (d_war d) (d_cat d) (d_cms d) (d_ana
    d)) _ _ _);
    [done|by intros [[] [] [] [] [] [] [] [] [] []]|done].
Defined.

Definition L_SearchKeyword : lens Db (list SearchKeyword).
Proof.
  refine (Lens (λ d, t_SearchKeyword (d_mkt d))
    (λ l d, let x := d_mkt d in mkDb (d_inv d) (d_ord d) (d_pay d) (d_auth d) (mkMktDb (t_Coupon
    x) (t_CouponRule x) (t_CouponUsage x) (t_LoyaltyAccount x) (t_LoyaltyTransaction x)
    (t_RewardRule x) (t_ReferralProgram x) (t_ReferralReward x) (t_FeatureFlag x)
    (t_FeatureFlagRule x) (t_AbTest x) (t_AbTestVariant x) (t_AbTestResult x) (t_Campaign x) l
    (t_SearchSynonym x) (t_PopularSearch x)) (d_ship d) (d_war d) (d_cat d) (d_cms d) (d_ana d)) _ _ _);
    [done|by intros [[] [] [] [] [] [] [] [] [] []]|done].
Defined.

Definition L_SearchSynonym : lens Db (list SearchSynonym).
Proof.
  refine (Lens (λ d, t_SearchSynonym (d_mkt d))
    (λ l d, let x := d_mkt d in mkDb (d_inv d) (d_ord d) (d_pay d) (d_auth d) (mkMktDb (t_Coupon
    x) (t_CouponRule x) (t_CouponUsage x) (t_LoyaltyAccount x) (t_LoyaltyTransaction x)
    (t_RewardRule x) (t_ReferralProgram x) (t_ReferralReward x) (t_FeatureFlag x)
    (t_FeatureFlagRule x) (t_AbTest x) (t_AbTestVariant x) (t_AbTestResult x) (t_Campaign x)
    (t_SearchKeyword x) l (t_PopularSearch x)) (d_ship d) (d_war d) (d_cat d) (d_cms d) (d_ana
    d)) _ _ _);
    [done|by intros [[] [] [] [] [] [] [] [] [] []]|done].
Defined.

Definition L_PopularSearch : lens Db (list PopularSearch).
Proof.
  refine (Lens (λ d, t_PopularSearch (d_mkt d))
    (λ l d, let x := d_mkt d in mkDb (d_inv d) (d_ord d) (d_pay d) (d_auth d) (mkMktDb (t_Coupon
    x) (t_CouponRule x) (t_CouponUsage x) (t_LoyaltyAccount x) (t_LoyaltyTransaction x)
    (t_RewardRule x) (t_ReferralProgram x) (t_ReferralReward x) (t_FeatureFlag x)
    (t_FeatureFlagRule x) (t_AbTest x) (t_AbTestVariant x) (t_AbTestResult x) (t_Campaign x)
    (t_SearchKeyword x) (t_SearchSynonym x) l) (d_ship d) (d_war d) (d_cat d) (d_cms d) (d_ana
    d)) _ _ _);
    [done|by intros [[] [] [] [] [] [] [] [] [] []]|done].
Defined.

Definition L_ShippingPartner : lens Db (list ShippingPartner).
Proof.
  refine (Lens (λ d, t_ShippingPartner (d_ship d))
    (λ l d, let x := d_ship d in mkDb (d_inv d) (d_ord d) (d_pay d) (d_auth d) (d_mkt d)
    (mkShipDb l (t_ShippingService x) (t_ShippingZone x) (t_ShippingRateCard x) (t_ShippingRate
    x) (t_PickupRequest x) (t_PickupPoint x) (t_Shipment x) (t_ShipmentPackage x)
    (t_ShipmentItem x) (t_AwbNumber x) (t_ShipmentLabel x) (t_ShipmentTracking x)
    (t_TrackingEvent x) (t_ShipmentEtaHistory x) (t_DeliverySlot x) (t_ReverseShipment x)
    (t_RtoShipment x) (t_ShippingWebhook x)) (d_war d) (d_cat d) (d_cms d) (d_ana d)) _ _ _);
    [done|by intros [[] [] [] [] [] [] [] [] [] []]|done].
Defined.

Definition L_ShippingService : lens Db (list ShippingService).
Proof.
  refine (Lens (λ d, t_ShippingService (d_ship d))
    (λ l d, let x := d_ship d in mkDb (d_inv d) (d_ord d) (d_pay d) (d_auth d) (d_mkt d)
    (mkShipDb (t_ShippingPartner x) l (t_ShippingZone x) (t_ShippingRateCard x) (t_ShippingRate
    x) (t_PickupRequest x) (t_PickupPoint x) (t_Shipment x) (t_ShipmentPackage x)
    (t_ShipmentItem x) (t_AwbNumber x) (t_ShipmentLabel x) (t_ShipmentTracking x)
    (t_TrackingEvent x) (t_ShipmentEtaHistory x) (t_DeliverySlot x) (t_ReverseShipment x)
    (t_RtoShipment x) (t_ShippingWebhook x)) (d_war d) (d_cat d) (d_cms d) (d_ana d)) _ _ _);
    [done|by intros [[] [] [] [] [] [] [] [] [] []]|done].
Defined.

Definition L_ShippingZone : lens Db (list ShippingZone).
Proof.
  refine (Lens (λ d, t_ShippingZone (d_ship d))
    (λ l d, let x := d_ship d in mkDb (d_inv d) (d_ord d) (d_pay d) (d_auth d) (d_mkt d)
    (mkShipDb (t_ShippingPartner x) (t_ShippingService x) l (t_ShippingRateCard x)
    (t_ShippingRate x) (t_PickupRequest x) (t_PickupPoint x) (t_Shipment x) (t_ShipmentPackage
    x) (t_ShipmentItem x) (t_AwbNumber x) (t_ShipmentLabel x) (t_ShipmentTracking x)
    (t_TrackingEvent x) (t_ShipmentEtaHistory x) (t_DeliverySlot x) (t_ReverseShipment x)
    (t_RtoShipment x) (t_ShippingWebhook x)) (d_war d) (d_cat d) (d_cms d) (d_ana d)) _ _ _);
    [done|by intros [[] [] [] [] [] [] [] [] [] []]|done].
Defined.

Definition L_ShippingRateCard : lens Db (list ShippingRateCard).
Proof.
  refine (Lens (λ d, t_ShippingRateCard (d_ship d))
    (λ l d, let x := d_ship d in mkDb (d_inv d) (d_ord d) (d_pay d) (d_auth d) (d_mkt d)
    (mkShipDb (t_ShippingPartner x) (t_ShippingService x) (t_ShippingZone x) l (t_ShippingRate
    x) (t_PickupRequest x) (t_PickupPoint x) (t_Shipment x) (t_ShipmentPackage x)
    (t_ShipmentItem x) (t_AwbNumber x) (t_ShipmentLabel x) (t_ShipmentTracking x)
    (t_TrackingEvent x) (t_ShipmentEtaHistory x) (t_DeliverySlot x) (t_ReverseShipment x)
    (t_RtoShipment x) (t_ShippingWebhook x)) (d_war d) (d_cat d) (d_cms d) (d_ana d)) _ _ _);
    [done|by intros [[] [] [] [] [] [] [] [] [] []]|done].
Defined.

Definition L_ShippingRate : lens Db (list ShippingRate).
Proof.
  refine (Lens (λ d, t_ShippingRate (d_ship d))
    (λ l d, let x := d_ship d in mkDb (d_inv d) (d_ord d) (d_pay d) (d_auth d) (d_mkt d)
    (mkShipDb (t_ShippingPartner x) (t_ShippingService x) (t_ShippingZone x) (t_ShippingRateCard
    x) l (t_PickupRequest x) (t_PickupPoint x) (t_Shipment x) (t_ShipmentPackage x)
    (t_ShipmentItem x) (t_AwbNumber x) (t_ShipmentLabel x) (t_ShipmentTracking x)
    (t_TrackingEvent x) (t_ShipmentEtaHistory x) (t_DeliverySlot x) (t_ReverseShipment x)
    (t_RtoShipment x) (t_ShippingWebhook x)) (d_war d) (d_cat d) (d_cms d) (d_ana d)) _ _ _);
    [done|by intros [[] [] [] [] [] [] [] [] [] []]|done].
Defined.

Definition L_PickupRequest : lens Db (list PickupRequest).
Proof.
  refine (Lens (λ d, t_PickupRequest (d_ship d))
    (λ l d, let x := d_ship d in mkDb (d_inv d) (d_ord d) (d_pay d) (d_auth d) (d_mkt d)
    (mkShipDb (t_ShippingPartner x) (t_ShippingService x) (t_ShippingZone x) (t_ShippingRateCard
    x) (t_ShippingRate x) l (t_PickupPoint x) (t_Shipment x) (t_ShipmentPackage x)
    (t_ShipmentItem x) (t_AwbNumber x) (t_ShipmentLabel x) (t_ShipmentTracking x)
    (t_TrackingEvent x) (t_ShipmentEtaHistory x) (t_DeliverySlot x) (t_ReverseShipment x)
    (t_RtoShipment x) (t_ShippingWebhook x)) (d_war d) (d_cat d) (d_cms d) (d_ana d)) _ _ _);
    [done|by intros [[] [] [] [] [] [] [] [] [] []]|done].
Defined.

Definition L_PickupPoint : lens Db (list PickupPoint).
Proof.
  refine (Lens (λ d, t_PickupPoint (d_ship d))
    (λ l d, let x := d_ship d in mkDb (d_inv d) (d_ord d) (d_pay d) (d_auth d) (d_mkt d)
    (mkShipDb (t_ShippingPartner x) (t_ShippingService x) (t_ShippingZone x) (t_ShippingRateCard
    x) (t_ShippingRate x) (t_PickupRequest x) l (t_Shipment x) (t_ShipmentPackage x)
    (t_ShipmentItem x) (t_AwbNumber x) (t_ShipmentLabel x) (t_ShipmentTracking x)
    (t_TrackingEvent x) (t_ShipmentEtaHistory x) (t_DeliverySlot x) (t_ReverseShipment x)
    (t_RtoShipment x) (t_ShippingWebhook x)) (d_war d) (d_cat d) (d_cms d) (d_ana d)) _ _ _);
    [done|by intros [[] [] [] [] [] [] [] [] [] []]|done].
Defined.

Definition L_Shipment : lens Db (list Shipment).
Proof.
  refine (Lens (λ d, t_Shipment (d_ship d))
    (λ l d, let x := d_ship d in mkDb (d_inv d) (d_ord d) (d_pay d) (d_auth d) (d_mkt d)
    (mkShipDb (t_ShippingPartner x) (t_ShippingService x) (t_ShippingZone x) (t_ShippingRateCard
    x) (t_ShippingRate x) (t_PickupRequest x) (t_PickupPoint x) l (t_ShipmentPackage x)
    (t_ShipmentItem x) (t_AwbNumber x) (t_ShipmentLabel x) (t_ShipmentTracking x)
    (t_TrackingEvent x) (t_ShipmentEtaHistory x) (t_DeliverySlot x) (t_ReverseShipment x)
    (t_RtoShipment x) (t_ShippingWebhook x)) (d_war d) (d_cat d) (d_cms d) (d_ana d)) _ _ _);
    [done|by intros [[] [] [] [] [] [] [] [] [] []]|done].
Defined.

Definition L_ShipmentPackage : lens Db (list ShipmentPackage).
Proof.
  refine (Lens (λ d, t_ShipmentPackage (d_ship d))
    (λ l d, let x := d_ship d in mkDb (d_inv d) (d_ord d) (d_pay d) (d_auth d) (d_mkt d)
    (mkShipDb (t_ShippingPartner x) (t_ShippingService x) (t_ShippingZone x) (t_ShippingRateCard
    x) (t_ShippingRate x) (t_PickupRequest x) (t_PickupPoint x) (t_Shipment x) l (t_ShipmentItem
    x) (t_AwbNumber x) (t_ShipmentLabel x) (t_ShipmentTracking x) (t_TrackingEvent x)
    (t_ShipmentEtaHistory x) (t_DeliverySlot x) (t_ReverseShipment x) (t_RtoShipment x)
    (t_ShippingWebhook x)) (d_war d) (d_cat d) (d_cms d) (d_ana d)) _ _ _);
    [done|by intros [[] [] [] [] [] [] [] [] [] []]|done].
Defined.

Definition L_ShipmentItem : lens Db (list ShipmentItem).
Proof.
  refine (Lens (λ d, t_ShipmentItem (d_ship d))
    (λ l d, let x := d_ship d in mkDb (d_inv d) (d_ord d) (d_pay d) (d_auth d) (d_mkt d)
    (mkShipDb (t_ShippingPartner x) (t_ShippingService x) (t_ShippingZone x) (t_ShippingRateCard
    x) (t_ShippingRate x) (t_PickupRequest x) (t_PickupPoint x) (t_Shipment x)
    (t_ShipmentPackage x) l (t_AwbNumber x) (t_ShipmentLabel x) (t_ShipmentTracking x)
    (t_TrackingEvent x) (t_ShipmentEtaHistory x) (t_DeliverySlot x) (t_ReverseShipment x)
    (t_RtoShipment x) (t_ShippingWebhook x)) (d_war d) (d_cat d) (d_cms d) (d_ana d)) _ _ _);
    [done|by intros [[] [] [] [] [] [] [] [] [] []]|done].
Defined.

Definition L_AwbNumber : lens Db (list AwbNumber).
Proof.
  refine (Lens (λ d, t_AwbNumber (d_ship d))
    (λ l d, let x := d_ship d in mkDb (d_inv d) (d_ord d) (d_pay d) (d_auth d) (d_mkt d)
    (mkShipDb (t_ShippingPartner x) (t_ShippingService x) (t_ShippingZone x) (t_ShippingRateCard
    x) (t_ShippingRate x) (t_PickupRequest x) (t_PickupPoint x) (t_Shipment x)
    (t_ShipmentPackage x) (t_ShipmentItem x) l (t_ShipmentLabel x) (t_ShipmentTracking x)
    (t_TrackingEvent x) (t_ShipmentEtaHistory x) (t_DeliverySlot x) (t_ReverseShipment x)
    (t_RtoShipment x) (t_ShippingWebhook x)) (d_war d) (d_cat d) (d_cms d) (d_ana d)) _ _ _);
    [done|by intros [[] [] [] [] [] [] [] [] [] []]|done].
Defined.

Definition L_ShipmentLabel : lens Db (list ShipmentLabel).
Proof.
  refine (Lens (λ d, t_ShipmentLabel (d_ship d))
    (λ l d, let x := d_ship d in mkDb (d_inv d) (d_ord d) (d_pay d) (d_auth d) (d_mkt d)
    (mkShipDb (t_ShippingPartner x) (t_ShippingService x) (t_ShippingZone x) (t_ShippingRateCard
    x) (t_ShippingRate x) (t_PickupRequest x) (t_PickupPoint x) (t_Shipment x)
    (t_ShipmentPackage x) (t_ShipmentItem x) (t_AwbNumber x) l (t_ShipmentTracking x)
    (t_TrackingEvent x) (t_ShipmentEtaHistory x) (t_DeliverySlot x) (t_ReverseShipment x)
    (t_RtoShipment x) (t_ShippingWebhook x)) (d_war d) (d_cat d) (d_cms d) (d_ana d)) _ _ _);
    [done|by intros [[] [] [] [] [] [] [] [] [] []]|done].
Defined.

Definition L_ShipmentTracking : lens Db (list ShipmentTracking).
Proof.
  refine (Lens (λ d, t_ShipmentTracking (d_ship d))
    (λ l d, let x := d_ship d in mkDb (d_inv d) (d_ord d) (d_pay d) (d_auth d) (d_mkt d)
    (mkShipDb (t_ShippingPartner x) (t_ShippingService x) (t_ShippingZone x) (t_ShippingRateCard
    x) (t_ShippingRate x) (t_PickupRequest x) (t_PickupPoint x) (t_Shipment x)
    (t_ShipmentPackage x) (t_ShipmentItem x) (t_AwbNumber x) (t_ShipmentLabel x) l
    (t_TrackingEvent x) (t_ShipmentEtaHistory x) (t_DeliverySlot x) (t_ReverseShipment x)
    (t_RtoShipment x) (t_ShippingWebhook x)) (d_war d) (d_cat d) (d_cms d) (d_ana d)) _ _ _);
    [done|by intros [[] [] [] [] [] [] [] [] [] []]|done].
Defined.

Definition L_TrackingEvent : lens Db (list TrackingEvent).
Proof.
  refine (Lens (λ d, t_TrackingEvent (d_ship d))
    (λ l d, let x := d_ship d in mkDb (d_inv d) (d_ord d) (d_pay d) (d_auth d) (d_mkt d)
    (mkShipDb (t_ShippingPartner x) (t_ShippingService x) (t_ShippingZone x) (t_ShippingRateCard
    x) (t_ShippingRate x) (t_PickupRequest x) (t_PickupPoint x) (t_Shipment x)
    (t_ShipmentPackage x) (t_ShipmentItem x) (t_AwbNumber x) (t_ShipmentLabel x)
    (t_ShipmentTracking x) l (t_ShipmentEtaHistory x) (t_DeliverySlot x) (t_ReverseShipment x)
    (t_RtoShipment x) (t_ShippingWebhook x)) (d_war d) (d_cat d) (d_cms d) (d_ana d)) _ _ _);
    [done|by intros [[] [] [] [] [] [] [] [] [] []]|done].
Defined.

Definition L_ShipmentEtaHistory : lens Db (list ShipmentEtaHistory).
Proof.
  refine (Lens (λ d, t_ShipmentEtaHistory (d_ship d))
    (λ l d, let x := d_ship d in mkDb (d_inv d) (d_ord d) (d_pay d) (d_auth d) (d_mkt d)
    (mkShipDb (t_ShippingPartner x) (t_ShippingService x) (t_ShippingZone x) (t_ShippingRateCard
    x) (t_ShippingRate x) (t_PickupRequest x) (t_PickupPoint x) (t_Shipment x)
    (t_ShipmentPackage x) (t_ShipmentItem x) (t_AwbNumber x) (t_ShipmentLabel x)
    (t_ShipmentTracking x) (t_TrackingEvent x) l (t_DeliverySlot x) (t_ReverseShipment x)
    (t_RtoShipment x) (t_ShippingWebhook x)) (d_war d) (d_cat d) (d_cms d) (d_ana d)) _ _ _);
    [done|by intros [[] [] [] [] [] [] [] [] [] []]|done].
Defined.

Definition L_DeliverySlot : lens Db (list DeliverySlot).
Proof.
  refine (Lens (λ d, t_DeliverySlot (d_ship d))
    (λ l d, let x := d_ship d in mkDb (d_inv d) (d_ord d) (d_pay d) (d_auth d) (d_mkt d)
    (mkShipDb (t_ShippingPartner x) (t_ShippingService x) (t_ShippingZone x) (t_ShippingRateCard
    x) (t_ShippingRate x) (t_PickupRequest x) (t_PickupPoint x) (t_Shipment x)
    (t_ShipmentPackage x) (t_ShipmentItem x) (t_AwbNumber x) (t_ShipmentLabel x)
    (t_ShipmentTracking x) (t_TrackingEvent x) (t_ShipmentEtaHistory x) l (t_ReverseShipment x)
    (t_RtoShipment x) (t_ShippingWebhook x)) (d_war d) (d_cat d) (d_cms d) (d_ana d)) _ _ _);
    [done|by intros [[] [] [] [] [] [] [] [] [] []]|done].
Defined.

Definition L_ReverseShipment : lens Db (list ReverseShipment).
Proof.
  refine (Lens (λ d, t_ReverseShipment (d_ship d))
    (λ l d, let x := d_ship d in mkDb (d_inv d) (d_ord d) (d_pay d) (d_auth d) (d_mkt d)
    (mkShipDb (t_ShippingPartner x) (t_ShippingService x) (t_ShippingZone x) (t_ShippingRateCard
    x) (t_ShippingRate x) (t_PickupRequest x) (t_PickupPoint x) (t_Shipment x)
    (t_ShipmentPackage x) (t_ShipmentItem x) (t_AwbNumber x) (t_ShipmentLabel x)
    (t_ShipmentTracking x) (t_TrackingEvent x) (t_ShipmentEtaHistory x) (t_DeliverySlot x) l
    (t_RtoShipment x) (t_ShippingWebhook x)) (d_war d) (d_cat d) (d_cms d) (d_ana d)) _ _ _);
    [done|by intros [[] [] [] [] [] [] [] [] [] []]|done].
Defined.

Definition L_RtoShipment : lens Db (list RtoShipment).
Proof.
  refine (Lens (λ d, t_RtoShipment (d_ship d))
    (λ l d, let x := d_ship d in mkDb (d_inv d) (d_ord d) (d_pay d) (d_auth d) (d_mkt d)
    (mkShipDb (t_ShippingPartner x) (t_ShippingService x) (t_ShippingZone x) (t_ShippingRateCard
    x) (t_ShippingRate x) (t_PickupRequest x) (t_PickupPoint x) (t_Shipment x)
    (t_ShipmentPackage x) (t_ShipmentItem x) (t_AwbNumber x) (t_ShipmentLabel x)
    (t_ShipmentTracking x) (t_TrackingEvent x) (t_ShipmentEtaHistory x) (t_DeliverySlot x)
    (t_ReverseShipment x) l (t_ShippingWebhook x)) (d_war d) (d_cat d) (d_cms d) (d_ana d)) _ _ _);
    [done|by intros [[] [] [] [] [] [] [] [] [] []]|done].
Defined.

Definition L_ShippingWebhook : lens Db (list ShippingWebhook).
Proof.
  refine (Lens (λ d, t_ShippingWebhook (d_ship d))
    (λ l d, let x := d_ship d in mkDb (d_inv d) (d_ord d) (d_pay d) (d_auth d) (d_mkt d)
    (mkShipDb (t_ShippingPartner x) (t_ShippingService x) (t_ShippingZone x) (t_ShippingRateCard
    x) (t_ShippingRate x) (t_PickupRequest x) (t_PickupPoint x) (t_Shipment x)
    (t_ShipmentPackage x) (t_ShipmentItem x) (t_AwbNumber x) (t_ShipmentLabel x)
    (t_ShipmentTracking x) (t_TrackingEvent x) (t_ShipmentEtaHistory x) (t_DeliverySlot x)
    (t_ReverseShipment x) (t_RtoShipment x) l) (d_war d) (d_cat d) (d_cms d) (d_ana d)) _ _ _);
    [done|by intros [[] [] [] [] [] [] [] [] [] []]|done].
Defined.

Definition L_WarrantyProvider : lens Db (list WarrantyProvider).
Proof.
  refine (Lens (λ d, t_WarrantyProvider (d_war d))
    (λ l d, let x := d_war d in mkDb (d_inv d) (d_ord d) (d_pay d) (d_auth d) (d_mkt d) (d_ship
    d) (mkWarDb l (t_WarrantyPlan x) (t_WarrantyRegistration x) (t_WarrantyExtension x)
    (t_WarrantyClaim x) (t_ClaimDocument x) (t_WarrantyStatusHistory x) (t_ServiceCenter x)
    (t_ServiceCenterLocation x) (t_Technician x) (t_TechnicianSkill x) (t_ServiceSla x)
    (t_ServiceTicket x) (t_TicketStatusHistory x) (t_DiagnosticReport x) (t_DeviceHealthReport
    x) (t_RepairJob x) (t_RepairPart x) (t_RepairPartUsage x) (t_ReplacementRequest x)
    (t_RmaRequest x) (t_ServiceDocument x) (t_ServiceAuditLog x) (t_LoanDevice x)
    (t_LoanAllocation x)) (d_cat d) (d_cms d) (d_ana d)) _ _ _);
    [done|by intros [[] [] [] [] [] [] [] [] [] []]|done].
Defined.

Definition L_WarrantyPlan : lens Db (list WarrantyPlan).
Proof.
  refine (Lens (λ d, t_WarrantyPlan (d_war d))
    (λ l d, let x := d_war d in mkDb (d_inv d) (d_ord d) (d_pay d) (d_auth d) (d_mkt d) (d_ship
    d) (mkWarDb (t_WarrantyProvider x) l (t_WarrantyRegistration x) (t_WarrantyExtension x)
    (t_WarrantyClaim x) (t_ClaimDocument x) (t_WarrantyStatusHistory x) (t_ServiceCenter x)
    (t_ServiceCenterLocation x) (t_Technician x) (t_TechnicianSkill x) (t_ServiceSla x)
    (t_ServiceTicket x) (t_TicketStatusHistory x) (t_DiagnosticReport x) (t_DeviceHealthReport
    x) (t_RepairJob x) (t_RepairPart x) (t_RepairPartUsage x) (t_ReplacementRequest x)
    (t_RmaRequest x) (t_ServiceDocument x) (t_ServiceAuditLog x) (t_LoanDevice x)
    (t_LoanAllocation x)) (d_cat d) (d_cms d) (d_ana d)) _ _ _);
    [done|by intros [[] [] [] [] [] [] [] [] [] []]|done].
Defined.

Definition L_WarrantyRegistration : lens Db (list WarrantyRegistration).
Proof.
  refine (Lens (λ d, t_WarrantyRegistration (d_war d))
    (λ l d, let x := d_war d in mkDb (d_inv d) (d_ord d) (d_pay d) (d_auth d) (d_mkt d) (d_ship
    d) (mkWarDb (t_WarrantyProvider x) (t_WarrantyPlan x) l (t_WarrantyExtension x)
    (t_WarrantyClaim x) (t_ClaimDocument x) (t_WarrantyStatusHistory x) (t_ServiceCenter x)
    (t_ServiceCenterLocation x) (t_Technician x) (t_TechnicianSkill x) (t_ServiceSla x)
    (t_ServiceTicket x) (t_TicketStatusHistory x) (t_DiagnosticReport x) (t_DeviceHealthReport
    x) (t_RepairJob x) (t_RepairPart x) (t_RepairPartUsage x) (t_ReplacementRequest x)
    (t_RmaRequest x) (t_ServiceDocument x) (t_ServiceAuditLog x) (t_LoanDevice x)
    (t_LoanAllocation x)) (d_cat d) (d_cms d) (d_ana d)) _ _ _);
    [done|by intros [[] [] [] [] [] [] [] [] [] []]|done].
Defined.

Definition L_WarrantyExtension : lens Db (list WarrantyExtension).
Proof.
  refine (Lens (λ d, t_WarrantyExtension (d_war d))
    (λ l d, let x := d_war d in mkDb (d_inv d) (d_ord d) (d_pay d) (d_auth d) (d_mkt d) (d_ship
    d) (mkWarDb (t_WarrantyProvider x) (t_WarrantyPlan x) (t_WarrantyRegistration x) l
    (t_WarrantyClaim x) (t_ClaimDocument x) (t_WarrantyStatusHistory x) (t_ServiceCenter x)
    (t_ServiceCenterLocation x) (t_Technician x) (t_TechnicianSkill x) (t_ServiceSla x)
    (t_ServiceTicket x) (t_TicketStatusHistory x) (t_DiagnosticReport x) (t_DeviceHealthReport
    x) (t_RepairJob x) (t_RepairPart x) (t_RepairPartUsage x) (t_ReplacementRequest x)
    (t_RmaRequest x) (t_ServiceDocument x) (t_ServiceAuditLog x) (t_LoanDevice x)
    (t_LoanAllocation x)) (d_cat d) (d_cms d) (d_ana d)) _ _ _);
    [done|by intros [[] [] [] [] [] [] [] [] [] []]|done].
Defined.

Definition L_WarrantyClaim : lens Db (list WarrantyClaim).
Proof.
  refine (Lens (λ d, t_WarrantyClaim (d_war d))
    (λ l d, let x := d_war d in mkDb (d_inv d) (d_ord d) (d_pay d) (d_auth d) (d_mkt d) (d_ship
    d) (mkWarDb (t_WarrantyProvider x) (t_WarrantyPlan x) (t_WarrantyRegistration x)
    (t_WarrantyExtension x) l (t_ClaimDocument x) (t_WarrantyStatusHistory x) (t_ServiceCenter
    x) (t_ServiceCenterLocation x) (t_Technician x) (t_TechnicianSkill x) (t_ServiceSla x)
    (t_ServiceTicket x) (t_TicketStatusHistory x) (t_DiagnosticReport x) (t_DeviceHealthReport
    x) (t_RepairJob x) (t_RepairPart x) (t_RepairPartUsage x) (t_ReplacementRequest x)
    (t_RmaRequest x) (t_ServiceDocument x) (t_ServiceAuditLog x) (t_LoanDevice x)
    (t_LoanAllocation x)) (d_cat d) (d_cms d) (d_ana d)) _ _ _);
    [done|by intros [[] [] [] [] [] [] [] [] [] []]|done].
Defined.

Definition L_ClaimDocument : lens Db (list ClaimDocument).
Proof.
  refine (Lens (λ d, t_ClaimDocument (d_war d))
    (λ l d, let x := d_war d in mkDb (d_inv d) (d_ord d) (d_pay d) (d_auth d) (d_mkt d) (d_ship
    d) (mkWarDb (t_WarrantyProvider x) (t_WarrantyPlan x) (t_WarrantyRegistration x)
    (t_WarrantyExtension x) (t_WarrantyClaim x) l (t_WarrantyStatusHistory x) (t_ServiceCenter
    x) (t_ServiceCenterLocation x) (t_Technician x) (t_TechnicianSkill x) (t_ServiceSla x)
    (t_ServiceTicket x) (t_TicketStatusHistory x) (t_DiagnosticReport x) (t_DeviceHealthReport
    x) (t_RepairJob x) (t_RepairPart x) (t_RepairPartUsage x) (t_ReplacementRequest x)
    (t_RmaRequest x) (t_ServiceDocument x) (t_ServiceAuditLog x) (t_LoanDevice x)
    (t_LoanAllocation x)) (d_cat d) (d_cms d) (d_ana d)) _ _ _);
    [done|by intros [[] [] [] [] [] [] [] [] [] []]|done].
Defined.

Definition L_WarrantyStatusHistory : lens Db (list WarrantyStatusHistory).
Proof.
  refine (Lens (λ d, t_WarrantyStatusHistory (d_war d))
    (λ l d, let x := d_war d in mkDb (d_inv d) (d_ord d) (d_pay d) (d_auth d) (d_mkt d) (d_ship
    d) (mkWarDb (t_WarrantyProvider x) (t_WarrantyPlan x) (t_WarrantyRegistration x)
    (t_WarrantyExtension x) (t_WarrantyClaim x) (t_ClaimDocument x) l (t_ServiceCenter x)
    (t_ServiceCenterLocation x) (t_Technician x) (t_TechnicianSkill x) (t_ServiceSla x)
    (t_ServiceTicket x) (t_TicketStatusHistory x) (t_DiagnosticReport x) (t_DeviceHealthReport
    x) (t_RepairJob x) (t_RepairPart x) (t_RepairPartUsage x) (t_ReplacementRequest x)
    (t_RmaRequest x) (t_ServiceDocument x) (t_ServiceAuditLog x) (t_LoanDevice x)
    (t_LoanAllocation x)) (d_cat d) (d_cms d) (d_ana d)) _ _ _);
    [done|by intros [[] [] [] [] [] [] [] [] [] []]|done].
Defined.

Definition L_ServiceCenter : lens Db (list ServiceCenter).
Proof.
  refine (Lens (λ d, t_ServiceCenter (d_war d))
    (λ l d, let x := d_war d in mkDb (d_inv d) (d_ord d) (d_pay d) (d_auth d) (d_mkt d) (d_ship
    d) (mkWarDb (t_WarrantyProvider x) (t_WarrantyPlan x) (t_WarrantyRegistration x)
    (t_WarrantyExtension x) (t_WarrantyClaim x) (t_ClaimDocument x) (t_WarrantyStatusHistory x)
    l (t_ServiceCenterLocation x) (t_Technician x) (t_TechnicianSkill x) (t_ServiceSla x)
    (t_ServiceTicket x) (t_TicketStatusHistory x) (t_DiagnosticReport x) (t_DeviceHealthReport
    x) (t_RepairJob x) (t_RepairPart x) (t_RepairPartUsage x) (t_ReplacementRequest x)
    (t_RmaRequest x) (t_ServiceDocument x) (t_ServiceAuditLog x) (t_LoanDevice x)
    (t_LoanAllocation x)) (d_cat d) (d_cms d) (d_ana d)) _ _ _);
    [done|by intros [[] [] [] [] [] [] [] [] [] []]|done].
Defined.

Definition L_ServiceCenterLocation : lens Db (list ServiceCenterLocation).
Proof.
  refine (Lens (λ d, t_ServiceCenterLocation (d_war d))
    (λ l d, let x := d_war d in mkDb (d_inv d) (d_ord d) (d_pay d) (d_auth d) (d_mkt d) (d_ship
    d) (mkWarDb (t_WarrantyProvider x) (t_WarrantyPlan x) (t_WarrantyRegistration x)
    (t_WarrantyExtension x) (t_WarrantyClaim x) (t_ClaimDocument x) (t_WarrantyStatusHistory x)
    (t_ServiceCenter x) l (t_Technician x) (t_TechnicianSkill x) (t_ServiceSla x)
    (t_ServiceTicket x) (t_TicketStatusHistory x) (t_DiagnosticReport x) (t_DeviceHealthReport
    x) (t_RepairJob x) (t_RepairPart x) (t_RepairPartUsage x) (t_ReplacementRequest x)
    (t_RmaRequest x) (t_ServiceDocument x) (t_ServiceAuditLog x) (t_LoanDevice x)
    (t_LoanAllocation x)) (d_cat d) (d_cms d) (d_ana d)) _ _ _);
    [done|by intros [[] [] [] [] [] [] [] [] [] []]|done].
Defined.

Definition L_Technician : lens Db (list Technician).
Proof.
  refine (Lens (λ d, t_Technician (d_war d))
    (λ l d, let x := d_war d in mkDb (d_inv d) (d_ord d) (d_pay d) (d_auth d) (d_mkt d) (d_ship
    d) (mkWarDb (t_WarrantyProvider x) (t_WarrantyPlan x) (t_WarrantyRegistration x)
    (t_WarrantyExtension x) (t_WarrantyClaim x) (t_ClaimDocument x) (t_WarrantyStatusHistory x)
    (t_ServiceCenter x) (t_ServiceCenterLocation x) l (t_TechnicianSkill x) (t_ServiceSla x)
    (t_ServiceTicket x) (t_TicketStatusHistory x) (t_DiagnosticReport x) (t_DeviceHealthReport
    x) (t_RepairJob x) (t_RepairPart x) (t_RepairPartUsage x) (t_ReplacementRequest x)
    (t_RmaRequest x) (t_ServiceDocument x) (t_ServiceAuditLog x) (t_LoanDevice x)
    (t_LoanAllocation x)) (d_cat d) (d_cms d) (d_ana d)) _ _ _);
    [done|by intros [[] [] [] [] [] [] [] [] [] []]|done].
Defined.

Definition L_TechnicianSkill : lens Db (list TechnicianSkill).
Proof.
  refine (Lens (λ d, t_TechnicianSkill (d_war d))
    (λ l d, let x := d_war d in mkDb (d_inv d) (d_ord d) (d_pay d) (d_auth d) (d_mkt d) (d_ship
    d) (mkWarDb (t_WarrantyProvider x) (t_WarrantyPlan x) (t_WarrantyRegistration x)
    (t_WarrantyExtension x) (t_WarrantyClaim x) (t_ClaimDocument x) (t_WarrantyStatusHistory x)
    (t_ServiceCenter x) (t_ServiceCenterLocation x) (t_Technician x) l (t_ServiceSla x)
    (t_ServiceTicket x) (t_TicketStatusHistory x) (t_DiagnosticReport x) (t_DeviceHealthReport
    x) (t_RepairJob x) (t_RepairPart x) (t_RepairPartUsage x) (t_ReplacementRequest x)
    (t_RmaRequest x) (t_ServiceDocument x) (t_ServiceAuditLog x) (t_LoanDevice x)
    (t_LoanAllocation x)) (d_cat d) (d_cms d) (d_ana d)) _ _ _);
    [done|by intros [[] [] [] [] [] [] [] [] [] []]|done].
Defined.

Definition L_ServiceSla : lens Db (list ServiceSla).
Proof.
  refine (Lens (λ d, t_ServiceSla (d_war d))
    (λ l d, let x := d_war d in mkDb (d_inv d) (d_ord d) (d_pay d) (d_auth d) (d_mkt d) (d_ship
    d) (mkWarDb (t_WarrantyProvider x) (t_WarrantyPlan x) (t_WarrantyRegistration x)
    (t_WarrantyExtension x) (t_WarrantyClaim x) (t_ClaimDocument x) (t_WarrantyStatusHistory x)
    (t_ServiceCenter x) (t_ServiceCenterLocation x) (t_Technician x) (t_TechnicianSkill x) l
    (t_ServiceTicket x) (t_TicketStatusHistory x) (t_DiagnosticReport x) (t_DeviceHealthReport
    x) (t_RepairJob x) (t_RepairPart x) (t_RepairPartUsage x) (t_ReplacementRequest x)
    (t_RmaRequest x) (t_ServiceDocument x) (t_ServiceAuditLog x) (t_LoanDevice x)
    (t_LoanAllocation x)) (d_cat d) (d_cms d) (d_ana d)) _ _ _);
    [done|by intros [[] [] [] [] [] [] [] [] [] []]|done].
Defined.

Definition L_ServiceTicket : lens Db (list ServiceTicket).
Proof.
  refine (Lens (λ d, t_ServiceTicket (d_war d))
    (λ l d, let x := d_war d in mkDb (d_inv d) (d_ord d) (d_pay d) (d_auth d) (d_mkt d) (d_ship
    d) (mkWarDb (t_WarrantyProvider x) (t_WarrantyPlan x) (t_WarrantyRegistration x)
    (t_WarrantyExtension x) (t_WarrantyClaim x) (t_ClaimDocument x) (t_WarrantyStatusHistory x)
    (t_ServiceCenter x) (t_ServiceCenterLocation x) (t_Technician x) (t_TechnicianSkill x)
    (t_ServiceSla x) l (t_TicketStatusHistory x) (t_DiagnosticReport x) (t_DeviceHealthReport x)
    (t_RepairJob x) (t_RepairPart x) (t_RepairPartUsage x) (t_ReplacementRequest x)
    (t_RmaRequest x) (t_ServiceDocument x) (t_ServiceAuditLog x) (t_LoanDevice x)
    (t_LoanAllocation x)) (d_cat d) (d_cms d) (d_ana d)) _ _ _);
    [done|by intros [[] [] [] [] [] [] [] [] [] []]|done].
Defined.

Definition L_TicketStatusHistory : lens Db (list TicketStatusHistory).
Proof.
  refine (Lens (λ d, t_TicketStatusHistory (d_war d))
    (λ l d, let x := d_war d in mkDb (d_inv d) (d_ord d) (d_pay d) (d_auth d) (d_mkt d) (d_ship
    d) (mkWarDb (t_WarrantyProvider x) (t_WarrantyPlan x) (t_WarrantyRegistration x)
    (t_WarrantyExtension x) (t_WarrantyClaim x) (t_ClaimDocument x) (t_WarrantyStatusHistory x)
    (t_ServiceCenter x) (t_ServiceCenterLocation x) (t_Technician x) (t_TechnicianSkill x)
    (t_ServiceSla x) (t_ServiceTicket x) l (t_DiagnosticReport x) (t_DeviceHealthReport x)
    (t_RepairJob x) (t_RepairPart x) (t_RepairPartUsage x) (t_ReplacementRequest x)
    (t_RmaRequest x) (t_ServiceDocument x) (t_ServiceAuditLog x) (t_LoanDevice x)
    (t_LoanAllocation x)) (d_cat d) (d_cms d) (d_ana d)) _ _ _);
    [done|by intros [[] [] [] [] [] [] [] [] [] []]|done].
Defined.

Definition L_DiagnosticReport : lens Db (list DiagnosticReport).
Proof.
  refine (Lens (λ d, t_DiagnosticReport (d_war d))
    (λ l d, let x := d_war d in mkDb (d_inv d) (d_ord d) (d_pay d) (d_auth d) (d_mkt d) (d_ship
    d) (mkWarDb (t_WarrantyProvider x) (t_WarrantyPlan x) (t_WarrantyRegistration x)
    (t_WarrantyExtension x) (t_WarrantyClaim x) (t_ClaimDocument x) (t_WarrantyStatusHistory x)
    (t_ServiceCenter x) (t_ServiceCenterLocation x) (t_Technician x) (t_TechnicianSkill x)
    (t_ServiceSla x) (t_ServiceTicket x) (t_TicketStatusHistory x) l (t_DeviceHealthReport x)
    (t_RepairJob x) (t_RepairPart x) (t_RepairPartUsage x) (t_ReplacementRequest x)
    (t_RmaRequest x) (t_ServiceDocument x) (t_ServiceAuditLog x) (t_LoanDevice x)
    (t_LoanAllocation x)) (d_cat d) (d_cms d) (d_ana d)) _ _ _);
    [done|by intros [[] [] [] [] [] [] [] [] [] []]|done].
Defined.

Definition L_DeviceHealthReport : lens Db (list DeviceHealthReport).
Proof.
  refine (Lens (λ d, t_DeviceHealthReport (d_war d))
    (λ l d, let x := d_war d in mkDb (d_inv d) (d_ord d) (d_pay d) (d_auth d) (d_mkt d) (d_ship
    d) (mkWarDb (t_WarrantyProvider x) (t_WarrantyPlan x) (t_WarrantyRegistration x)
    (t_WarrantyExtension x) (t_WarrantyClaim x) (t_ClaimDocument x) (t_WarrantyStatusHistory x)
    (t_ServiceCenter x) (t_ServiceCenterLocation x) (t_Technician x) (t_TechnicianSkill x)
    (t_ServiceSla x) (t_ServiceTicket x) (t_TicketStatusHistory x) (t_DiagnosticReport x) l
    (t_RepairJob x) (t_RepairPart x) (t_RepairPartUsage x) (t_ReplacementRequest x)
    (t_RmaRequest x) (t_ServiceDocument x) (t_ServiceAuditLog x) (t_LoanDevice x)
    (t_LoanAllocation x)) (d_cat d) (d_cms d) (d_ana d)) _ _ _);
    [done|by intros [[] [] [] [] [] [] [] [] [] []]|done].
Defined.

Definition L_RepairJob : lens Db (list RepairJob).
Proof.
  refine (Lens (λ d, t_RepairJob (d_war d))
    (λ l d, let x := d_war d in mkDb (d_inv d) (d_ord d) (d_pay d) (d_auth d) (d_mkt d) (d_ship
    d) (mkWarDb (t_WarrantyProvider x) (t_WarrantyPlan x) (t_WarrantyRegistration x)
    (t_WarrantyExtension x) (t_WarrantyClaim x) (t_ClaimDocument x) (t_WarrantyStatusHistory x)
    (t_ServiceCenter x) (t_ServiceCenterLocation x) (t_Technician x) (t_TechnicianSkill x)
    (t_ServiceSla x) (t_ServiceTicket x) (t_TicketStatusHistory x) (t_DiagnosticReport x)
    (t_DeviceHealthReport x) l (t_RepairPart x) (t_RepairPartUsage x) (t_ReplacementRequest x)
    (t_RmaRequest x) (t_ServiceDocument x) (t_ServiceAuditLog x) (t_LoanDevice x)
    (t_LoanAllocation x)) (d_cat d) (d_cms d) (d_ana d)) _ _ _);
    [done|by intros [[] [] [] [] [] [] [] [] [] []]|done].
Defined.

Definition L_RepairPart : lens Db (list RepairPart).
Proof.
  refine (Lens (λ d, t_RepairPart (d_war d))
    (λ l d, let x := d_war d in mkDb (d_inv d) (d_ord d) (d_pay d) (d_auth d) (d_mkt d) (d_ship
    d) (mkWarDb (t_WarrantyProvider x) (t_WarrantyPlan x) (t_WarrantyRegistration x)
    (t_WarrantyExtension x) (t_WarrantyClaim x) (t_ClaimDocument x) (t_WarrantyStatusHistory x)
    (t_ServiceCenter x) (t_ServiceCenterLocation x) (t_Technician x) (t_TechnicianSkill x)
    (t_ServiceSla x) (t_ServiceTicket x) (t_TicketStatusHistory x) (t_DiagnosticReport x)
    (t_DeviceHealthReport x) (t_RepairJob x) l (t_RepairPartUsage x) (t_ReplacementRequest x)
    (t_RmaRequest x) (t_ServiceDocument x) (t_ServiceAuditLog x) (t_LoanDevice x)
    (t_LoanAllocation x)) (d_cat d) (d_cms d) (d_ana d)) _ _ _);
    [done|by intros [[] [] [] [] [] [] [] [] [] []]|done].
Defined.

Definition L_RepairPartUsage : lens Db (list RepairPartUsage).
Proof.
  refine (Lens (λ d, t_RepairPartUsage (d_war d))
    (λ l d, let x := d_war d in mkDb (d_inv d) (d_ord d) (d_pay d) (d_auth d) (d_mkt d) (d_ship
    d) (mkWarDb (t_WarrantyProvider x) (t_WarrantyPlan x) (t_WarrantyRegistration x)
    (t_WarrantyExtension x) (t_WarrantyClaim x) (t_ClaimDocument x) (t_WarrantyStatusHistory x)
    (t_ServiceCenter x) (t_ServiceCenterLocation x) (t_Technician x) (t_TechnicianSkill x)
    (t_ServiceSla x) (t_ServiceTicket x) (t_TicketStatusHistory x) (t_DiagnosticReport x)
    (t_DeviceHealthReport x) (t_RepairJob x) (t_RepairPart x) l (t_ReplacementRequest x)
    (t_RmaRequest x) (t_ServiceDocument x) (t_ServiceAuditLog x) (t_LoanDevice x)
    (t_LoanAllocation x)) (d_cat d) (d_cms d) (d_ana d)) _ _ _);
    [done|by intros [[] [] [] [] [] [] [] [] [] []]|done].
Defined.

Definition L_ReplacementRequest : lens Db (list ReplacementRequest).
Proof.
  refine (Lens (λ d, t_ReplacementRequest (d_war d))
    (λ l d, let x := d_war d in mkDb (d_inv d) (d_ord d) (d_pay d) (d_auth d) (d_mkt d) (d_ship
    d) (mkWarDb (t_WarrantyProvider x) (t_WarrantyPlan x) (t_WarrantyRegistration x)
    (t_WarrantyExtension x) (t_WarrantyClaim x) (t_ClaimDocument x) (t_WarrantyStatusHistory x)
    (t_ServiceCenter x) (t_ServiceCenterLocation x) (t_Technician x) (t_TechnicianSkill x)
    (t_ServiceSla x) (t_ServiceTicket x) (t_TicketStatusHistory x) (t_DiagnosticReport x)
    (t_DeviceHealthReport x) (t_RepairJob x) (t_RepairPart x) (t_RepairPartUsage x) l
    (t_RmaRequest x) (t_ServiceDocument x) (t_ServiceAuditLog x) (t_LoanDevice x)
    (t_LoanAllocation x)) (d_cat d) (d_cms d) (d_ana d)) _ _ _);
    [done|by intros [[] [] [] [] [] [] [] [] [] []]|done].
Defined.

Definition L_RmaRequest : lens Db (list RmaRequest).
Proof.
  refine (Lens (λ d, t_RmaRequest (d_war d))
    (λ l d, let x := d_war d in mkDb (d_inv d) (d_ord d) (d_pay d) (d_auth d) (d_mkt d) (d_ship
    d) (mkWarDb (t_WarrantyProvider x) (t_WarrantyPlan x) (t_WarrantyRegistration x)
    (t_WarrantyExtension x) (t_WarrantyClaim x) (t_ClaimDocument x) (t_WarrantyStatusHistory x)
    (t_ServiceCenter x) (t_ServiceCenterLocation x) (t_Technician x) (t_TechnicianSkill x)
    (t_ServiceSla x) (t_ServiceTicket x) (t_TicketStatusHistory x) (t_DiagnosticReport x)
    (t_DeviceHealthReport x) (t_RepairJob x) (t_RepairPart x) (t_RepairPartUsage x)
    (t_ReplacementRequest x) l (t_ServiceDocument x) (t_ServiceAuditLog x) (t_LoanDevice x)
    (t_LoanAllocation x)) (d_cat d) (d_cms d) (d_ana d)) _ _ _);
    [done|by intros [[] [] [] [] [] [] [] [] [] []]|done].
Defined.

Definition L_ServiceDocument : lens Db (list ServiceDocument).
Proof.
  refine (Lens (λ d, t_ServiceDocument (d_war d))
    (λ l d, let x := d_war d in mkDb (d_inv d) (d_ord d) (d_pay d) (d_auth d) (d_mkt d) (d_ship
    d) (mkWarDb (t_WarrantyProvider x) (t_WarrantyPlan x) (t_WarrantyRegistration x)
    (t_WarrantyExtension x) (t_WarrantyClaim x) (t_ClaimDocument x) (t_WarrantyStatusHistory x)
    (t_ServiceCenter x) (t_ServiceCenterLocation x) (t_Technician x) (t_TechnicianSkill x)
    (t_ServiceSla x) (t_ServiceTicket x) (t_TicketStatusHistory x) (t_DiagnosticReport x)
    (t_DeviceHealthReport x) (t_RepairJob x) (t_RepairPart x) (t_RepairPartUsage x)
    (t_ReplacementRequest x) (t_RmaRequest x) l (t_ServiceAuditLog x) (t_LoanDevice x)
    (t_LoanAllocation x)) (d_cat d) (d_cms d) (d_ana d)) _ _ _);
    [done|by intros [[] [] [] [] [] [] [] [] [] []]|done].
Defined.

Definition L_ServiceAuditLog : lens Db (list ServiceAuditLog).
Proof.
  refine (Lens (λ d, t_ServiceAuditLog (d_war d))
    (λ l d, let x := d_war d in mkDb (d_inv d) (d_ord d) (d_pay d) (d_auth d) (d_mkt d) (d_ship
    d) (mkWarDb (t_WarrantyProvider x) (t_WarrantyPlan x) (t_WarrantyRegistration x)
    (t_WarrantyExtension x) (t_WarrantyClaim x) (t_ClaimDocument x) (t_WarrantyStatusHistory x)
    (t_ServiceCenter x) (t_ServiceCenterLocation x) (t_Technician x) (t_TechnicianSkill x)
    (t_ServiceSla x) (t_ServiceTicket x) (t_TicketStatusHistory x) (t_DiagnosticReport x)
    (t_DeviceHealthReport x) (t_RepairJob x) (t_RepairPart x) (t_RepairPartUsage x)
    (t_ReplacementRequest x) (t_RmaRequest x) (t_ServiceDocument x) l (t_LoanDevice x)
    (t_LoanAllocation x)) (d_cat d) (d_cms d) (d_ana d)) _ _ _);
    [done|by intros [[] [] [] [] [] [] [] [] [] []]|done].
Defined.

Definition L_LoanDevice : lens Db (list LoanDevice).
Proof.
  refine (Lens (λ d, t_LoanDevice (d_war d))
    (λ l d, let x := d_war d in mkDb (d_inv d) (d_ord d) (d_pay d) (d_auth d) (d_mkt d) (d_ship
    d) (mkWarDb (t_WarrantyProvider x) (t_WarrantyPlan x) (t_WarrantyRegistration x)
    (t_WarrantyExtension x) (t_WarrantyClaim x) (t_ClaimDocument x) (t_WarrantyStatusHistory x)
    (t_ServiceCenter x) (t_ServiceCenterLocation x) (t_Technician x) (t_TechnicianSkill x)
    (t_ServiceSla x) (t_ServiceTicket x) (t_TicketStatusHistory x) (t_DiagnosticReport x)
    (t_DeviceHealthReport x) (t_RepairJob x) (t_RepairPart x) (t_RepairPartUsage x)
    (t_ReplacementRequest x) (t_RmaRequest x) (t_ServiceDocument x) (t_ServiceAuditLog x) l
    (t_LoanAllocation x)) (d_cat d) (d_cms d) (d_ana d)) _ _ _);
    [done|by intros [[] [] [] [] [] [] [] [] [] []]|done].
Defined.

Definition L_LoanAllocation : lens Db (list LoanAllocation).
Proof.
  refine (Lens (λ d, t_LoanAllocation (d_war d))
    (λ l d, let x := d_war d in mkDb (d_inv d) (d_ord d) (d_pay d) (d_auth d) (d_mkt d) (d_ship
    d) (mkWarDb (t_WarrantyProvider x) (t_WarrantyPlan x) (t_WarrantyRegistration x)
    (t_WarrantyExtension x) (t_WarrantyClaim x) (t_ClaimDocument x) (t_WarrantyStatusHistory x)
    (t_ServiceCenter x) (t_ServiceCenterLocation x) (t_Technician x) (t_TechnicianSkill x)
    (t_ServiceSla x) (t_ServiceTicket x) (t_TicketStatusHistory x) (t_DiagnosticReport x)
    (t_DeviceHealthReport x) (t_RepairJob x) (t_RepairPart x) (t_RepairPartUsage x)
    (t_ReplacementRequest x) (t_RmaRequest x) (t_ServiceDocument x) (t_ServiceAuditLog x)
    (t_LoanDevice x) l) (d_cat d) (d_cms d) (d_ana d)) _ _ _);
    [done|by intros [[] [] [] [] [] [] [] [] [] []]|done].
Defined.

Definition L_MediaFile : lens Db (list MediaFile).
Proof.
  refine (Lens (λ d, t_MediaFile (d_cat d))
    (λ l d, let x := d_cat d in mkDb (d_inv d) (d_ord d) (d_pay d) (d_auth d) (d_mkt d) (d_ship
    d) (d_war d) (mkCatDb l (t_Brand x) (t_Category x) (t_ProductType x) (t_Product x)
    (t_Collection x) (t_CollectionProduct x) (t_Attribute x) (t_AttributeValue x)
    (t_VariantAttributeValue x) (t_SpecificationGroup x) (t_ProductSpecification x)
    (t_ProductMedia x) (t_ProductBadge x) (t_ProductBadgeAssignment x) (t_SeoMetadata x)
    (t_BuyingGuide x) (t_ProductReview x)) (d_cms d) (d_ana d)) _ _ _);
    [done|by intros [[] [] [] [] [] [] [] [] [] []]|done].
Defined.

Definition L_Brand : lens Db (list Brand).
Proof.
  refine (Lens (λ d, t_Brand (d_cat d))
    (λ l d, let x := d_cat d in mkDb (d_inv d) (d_ord d) (d_pay d) (d_auth d) (d_mkt d) (d_ship
    d) (d_war d) (mkCatDb (t_MediaFile x) l (t_Category x) (t_ProductType x) (t_Product x)
    (t_Collection x) (t_CollectionProduct x) (t_Attribute x) (t_AttributeValue x)
    (t_VariantAttributeValue x) (t_SpecificationGroup x) (t_ProductSpecification x)
    (t_ProductMedia x) (t_ProductBadge x) (t_ProductBadgeAssignment x) (t_SeoMetadata x)
    (t_BuyingGuide x) (t_ProductReview x)) (d_cms d) (d_ana d)) _ _ _);
    [done|by intros [[] [] [] [] [] [] [] [] [] []]|done].
Defined.

Definition L_Category : lens Db (list Category).
Proof.
  refine (Lens (λ d, t_Category (d_cat d))
    (λ l d, let x := d_cat d in mkDb (d_inv d) (d_ord d) (d_pay d) (d_auth d) (d_mkt d) (d_ship
    d) (d_war d) (mkCatDb (t_MediaFile x) (t_Brand x) l (t_ProductType x) (t_Product x)
    (t_Collection x) (t_CollectionProduct x) (t_Attribute x) (t_AttributeValue x)
    (t_VariantAttributeValue x) (t_SpecificationGroup x) (t_ProductSpecification x)
    (t_ProductMedia x) (t_ProductBadge x) (t_ProductBadgeAssignment x) (t_SeoMetadata x)
    (t_BuyingGuide x) (t_ProductReview x)) (d_cms d) (d_ana d)) _ _ _);
    [done|by intros [[] [] [] [] [] [] [] [] [] []]|done].
Defined.

Definition L_ProductType : lens Db (list ProductType).
Proof.
  refine (Lens (λ d, t_ProductType (d_cat d))
    (λ l d, let x := d_cat d in mkDb (d_inv d) (d_ord d) (d_pay d) (d_auth d) (d_mkt d) (d_ship
    d) (d_war d) (mkCatDb (t_MediaFile x) (t_Brand x) (t_Category x) l (t_Product x)
    (t_Collection x) (t_CollectionProduct x) (t_Attribute x) (t_AttributeValue x)
    (t_VariantAttributeValue x) (t_SpecificationGroup x) (t_ProductSpecification x)
    (t_ProductMedia x) (t_ProductBadge x) (t_ProductBadgeAssignment x) (t_SeoMetadata x)
    (t_BuyingGuide x) (t_ProductReview x)) (d_cms d) (d_ana d)) _ _ _);
    [done|by intros [[] [] [] [] [] [] [] [] [] []]|done].
Defined.

Definition L_Product : lens Db (list Product).
Proof.
  refine (Lens (λ d, t_Product (d_cat d))
    (λ l d, let x := d_cat d in mkDb (d_inv d) (d_ord d) (d_pay d) (d_auth d) (d_mkt d) (d_ship
    d) (d_war d) (mkCatDb (t_MediaFile x) (t_Brand x) (t_Category x) (t_ProductType x) l
    (t_Collection x) (t_CollectionProduct x) (t_Attribute x) (t_AttributeValue x)
    (t_VariantAttributeValue x) (t_SpecificationGroup x) (t_ProductSpecification x)
    (t_ProductMedia x) (t_ProductBadge x) (t_ProductBadgeAssignment x) (t_SeoMetadata x)
    (t_BuyingGuide x) (t_ProductReview x)) (d_cms d) (d_ana d)) _ _ _);
    [done|by intros [[] [] [] [] [] [] [] [] [] []]|done].
Defined.

Definition L_Collection : lens Db (list Collection).
Proof.
  refine (Lens (λ d, t_Collection (d_cat d))
    (λ l d, let x := d_cat d in mkDb (d_inv d) (d_ord d) (d_pay d) (d_auth d) (d_mkt d) (d_ship
    d) (d_war d) (mkCatDb (t_MediaFile x) (t_Brand x) (t_Category x) (t_ProductType x)
    (t_Product x) l (t_CollectionProduct x) (t_Attribute x) (t_AttributeValue x)
    (t_VariantAttributeValue x) (t_SpecificationGroup x) (t_ProductSpecification x)
    (t_ProductMedia x) (t_ProductBadge x) (t_ProductBadgeAssignment x) (t_SeoMetadata x)
    (t_BuyingGuide x) (t_ProductReview x)) (d_cms d) (d_ana d)) _ _ _);
    [done|by intros [[] [] [] [] [] [] [] [] [] []]|done].
Defined.

Definition L_CollectionProduct : lens Db (list CollectionProduct).
Proof.
  refine (Lens (λ d, t_CollectionProduct (d_cat d))
    (λ l d, let x := d_cat d in mkDb (d_inv d) (d_ord d) (d_pay d) (d_auth d) (d_mkt d) (d_ship
    d) (d_war d) (mkCatDb (t_MediaFile x) (t_Brand x) (t_Category x) (t_ProductType x)
    (t_Product x) (t_Collection x) l (t_Attribute x) (t_AttributeValue x)
    (t_VariantAttributeValue x) (t_SpecificationGroup x) (t_ProductSpecification x)
    (t_ProductMedia x) (t_ProductBadge x) (t_ProductBadgeAssignment x) (t_SeoMetadata x)
    (t_BuyingGuide x) (t_ProductReview x)) (d_cms d) (d_ana d)) _ _ _);
    [done|by intros [[] [] [] [] [] [] [] [] [] []]|done].
Defined.

Definition L_Attribute : lens Db (list Attribute).
Proof.
  refine (Lens (λ d, t_Attribute (d_cat d))
    (λ l d, let x := d_cat d in mkDb (d_inv d) (d_ord d) (d_pay d) (d_auth d) (d_mkt d) (d_ship
    d) (d_war d) (mkCatDb (t_MediaFile x) (t_Brand x) (t_Category x) (t_ProductType x)
    (t_Product x) (t_Collection x) (t_CollectionProduct x) l (t_AttributeValue x)
    (t_VariantAttributeValue x) (t_SpecificationGroup x) (t_ProductSpecification x)
    (t_ProductMedia x) (t_ProductBadge x) (t_ProductBadgeAssignment x) (t_SeoMetadata x)
    (t_BuyingGuide x) (t_ProductReview x)) (d_cms d) (d_ana d)) _ _ _);
    [done|by intros [[] [] [] [] [] [] [] [] [] []]|done].
Defined.

Definition L_AttributeValue : lens Db (list AttributeValue).
Proof.
  refine (Lens (λ d, t_AttributeValue (d_cat d))
    (λ l d, let x := d_cat d in mkDb (d_inv d) (d_ord d) (d_pay d) (d_auth d) (d_mkt d) (d_ship
    d) (d_war d) (mkCatDb (t_MediaFile x) (t_Brand x) (t_Category x) (t_ProductType x)
    (t_Product x) (t_Collection x) (t_CollectionProduct x) (t_Attribute x) l
    (t_VariantAttributeValue x) (t_SpecificationGroup x) (t_ProductSpecification x)
    (t_ProductMedia x) (t_ProductBadge x) (t_ProductBadgeAssignment x) (t_SeoMetadata x)
    (t_BuyingGuide x) (t_ProductReview x)) (d_cms d) (d_ana d)) _ _ _);
    [done|by intros [[] [] [] [] [] [] [] [] [] []]|done].
Defined.

Definition L_VariantAttributeValue : lens Db (list VariantAttributeValue).
Proof.
  refine (Lens (λ d, t_VariantAttributeValue (d_cat d))
    (λ l d, let x := d_cat d in mkDb (d_inv d) (d_ord d) (d_pay d) (d_auth d) (d_mkt d) (d_ship
    d) (d_war d) (mkCatDb (t_MediaFile x) (t_Brand x) (t_Category x) (t_ProductType x)
    (t_Product x) (t_Collection x) (t_CollectionProduct x) (t_Attribute x) (t_AttributeValue x)
    l (t_SpecificationGroup x) (t_ProductSpecification x) (t_ProductMedia x) (t_ProductBadge x)
    (t_ProductBadgeAssignment x) (t_SeoMetadata x) (t_BuyingGuide x) (t_ProductReview x)) (d_cms
    d) (d_ana d)) _ _ _);
    [done|by intros [[] [] [] [] [] [] [] [] [] []]|done].
Defined.

Definition L_SpecificationGroup : lens Db (list SpecificationGroup).
Proof.
  refine (Lens (λ d, t_SpecificationGroup (d_cat d))
    (λ l d, let x := d_cat d in mkDb (d_inv d) (d_ord d) (d_pay d) (d_auth d) (d_mkt d) (d_ship
    d) (d_war d) (mkCatDb (t_MediaFile x) (t_Brand x) (t_Category x) (t_ProductType x)
    (t_Product x) (t_Collection x) (t_CollectionProduct x) (t_Attribute x) (t_AttributeValue x)
    (t_VariantAttributeValue x) l (t_ProductSpecification x) (t_ProductMedia x) (t_ProductBadge
    x) (t_ProductBadgeAssignment x) (t_SeoMetadata x) (t_BuyingGuide x) (t_ProductReview x))
    (d_cms d) (d_ana d)) _ _ _);
    [done|by intros [[] [] [] [] [] [] [] [] [] []]|done].
Defined.

Definition L_ProductSpecification : lens Db (list ProductSpecification).
Proof.
  refine (Lens (λ d, t_ProductSpecification (d_cat d))
    (λ l d, let x := d_cat d in mkDb (d_inv d) (d_ord d) (d_pay d) (d_auth d) (d_mkt d) (d_ship
    d) (d_war d) (mkCatDb (t_MediaFile x) (t_Brand x) (t_Category x) (t_ProductType x)
    (t_Product x) (t_Collection x) (t_CollectionProduct x) (t_Attribute x) (t_AttributeValue x)
    (t_VariantAttributeValue x) (t_SpecificationGroup x) l (t_ProductMedia x) (t_ProductBadge x)
    (t_ProductBadgeAssignment x) (t_SeoMetadata x) (t_BuyingGuide x) (t_ProductReview x)) (d_cms
    d) (d_ana d)) _ _ _);
    [done|by intros [[] [] [] [] [] [] [] [] [] []]|done].
Defined.

Definition L_ProductMedia : lens Db (list ProductMedia).
Proof.
  refine (Lens (λ d, t_ProductMedia (d_cat d))
    (λ l d, let x := d_cat d in mkDb (d_inv d) (d_ord d) (d_pay d) (d_auth d) (d_mkt d) (d_ship
    d) (d_war d) (mkCatDb (t_MediaFile x) (t_Brand x) (t_Category x) (t_ProductType x)
    (t_Product x) (t_Collection x) (t_CollectionProduct x) (t_Attribute x) (t_AttributeValue x)
    (t_VariantAttributeValue x) (t_SpecificationGroup x) (t_ProductSpecification x) l
    (t_ProductBadge x) (t_ProductBadgeAssignment x) (t_SeoMetadata x) (t_BuyingGuide x)
    (t_ProductReview x)) (d_cms d) (d_ana d)) _ _ _);
    [done|by intros [[] [] [] [] [] [] [] [] [] []]|done].
Defined.

Definition L_ProductBadge : lens Db (list ProductBadge).
Proof.
  refine (Lens (λ d, t_ProductBadge (d_cat d))
    (λ l d, let x := d_cat d in mkDb (d_inv d) (d_ord d) (d_pay d) (d_auth d) (d_mkt d) (d_ship
    d) (d_war d) (mkCatDb (t_MediaFile x) (t_Brand x) (t_Category x) (t_ProductType x)
    (t_Product x) (t_Collection x) (t_CollectionProduct x) (t_Attribute x) (t_AttributeValue x)
    (t_VariantAttributeValue x) (t_SpecificationGroup x) (t_ProductSpecification x)
    (t_ProductMedia x) l (t_ProductBadgeAssignment x) (t_SeoMetadata x) (t_BuyingGuide x)
    (t_ProductReview x)) (d_cms d) (d_ana d)) _ _ _);
    [done|by intros [[] [] [] [] [] [] [] [] [] []]|done].
Defined.

Definition L_ProductBadgeAssignment : lens Db (list ProductBadgeAssignment).
Proof.
  refine (Lens (λ d, t_ProductBadgeAssignment (d_cat d))
    (λ l d, let x := d_cat d in mkDb (d_inv d) (d_ord d) (d_pay d) (d_auth d) (d_mkt d) (d_ship
    d) (d_war d) (mkCatDb (t_MediaFile x) (t_Brand x) (t_Category x) (t_ProductType x)
    (t_Product x) (t_Collection x) (t_CollectionProduct x) (t_Attribute x) (t_AttributeValue x)
    (t_VariantAttributeValue x) (t_SpecificationGroup x) (t_ProductSpecification x)
    (t_ProductMedia x) (t_ProductBadge x) l (t_SeoMetadata x) (t_BuyingGuide x) (t_ProductReview
    x)) (d_cms d) (d_ana d)) _ _ _);
    [done|by intros [[] [] [] [] [] [] [] [] [] []]|done].
Defined.

Definition L_SeoMetadata : lens Db (list SeoMetadata).
Proof.
  refine (Lens (λ d, t_SeoMetadata (d_cat d))
    (λ l d, let x := d_cat d in mkDb (d_inv d) (d_ord d) (d_pay d) (d_auth d) (d_mkt d) (d_ship
    d) (d_war d) (mkCatDb (t_MediaFile x) (t_Brand x) (t_Category x) (t_ProductType x)
    (t_Product x) (t_Collection x) (t_CollectionProduct x) (t_Attribute x) (t_AttributeValue x)
    (t_VariantAttributeValue x) (t_SpecificationGroup x) (t_ProductSpecification x)
    (t_ProductMedia x) (t_ProductBadge x) (t_ProductBadgeAssignment x) l (t_BuyingGuide x)
    (t_ProductReview x)) (d_cms d) (d_ana d)) _ _ _);
    [done|by intros [[] [] [] [] [] [] [] [] [] []]|done].
Defined.

Definition L_BuyingGuide : lens Db (list BuyingGuide).
Proof.
  refine (Lens (λ d, t_BuyingGuide (d_cat d))
    (λ l d, let x := d_cat d in mkDb (d_inv d) (d_ord d) (d_pay d) (d_auth d) (d_mkt d) (d_ship
    d) (d_war d) (mkCatDb (t_MediaFile x) (t_Brand x) (t_Category x) (t_ProductType x)
    (t_Product x) (t_Collection x) (t_CollectionProduct x) (t_Attribute x) (t_AttributeValue x)
    (t_VariantAttributeValue x) (t_SpecificationGroup x) (t_ProductSpecification x)
    (t_ProductMedia x) (t_ProductBadge x) (t_ProductBadgeAssignment x) (t_SeoMetadata x) l
    (t_ProductReview x)) (d_cms d) (d_ana d)) _ _ _);
    [done|by intros [[] [] [] [] [] [] [] [] [] []]|done].
Defined.

Definition L_ProductReview : lens Db (list ProductReview).
Proof.
  refine (Lens (λ d, t_ProductReview (d_cat d))
    (λ l d, let x := d_cat d in mkDb (d_inv d) (d_ord d) (d_pay d) (d_auth d) (d_mkt d) (d_ship
    d) (d_war d) (mkCatDb (t_MediaFile x) (t_Brand x) (t_Category x) (t_ProductType x)
    (t_Product x) (t_Collection x) (t_CollectionProduct x) (t_Attribute x) (t_AttributeValue x)
    (t_VariantAttributeValue x) (t_SpecificationGroup x) (t_ProductSpecification x)
    (t_ProductMedia x) (t_ProductBadge x) (t_ProductBadgeAssignment x) (t_SeoMetadata x)
    (t_BuyingGuide x) l) (d_cms d) (d_ana d)) _ _ _);
    [done|by intros [[] [] [] [] [] [] [] [] [] []]|done].
Defined.

Definition L_CmsPage : lens Db (list CmsPage).
Proof.
  refine (Lens (λ d, t_CmsPage (d_cms d))
    (λ l d, let x := d_cms d in mkDb (d_inv d) (d_ord d) (d_pay d) (d_auth d) (d_mkt d) (d_ship
    d) (d_war d) (d_cat d) (mkCmsDb l (t_CmsSection x) (t_HomepageLayout x)
    (t_HomepageSectionItem x) (t_BannerGroup x) (t_Banner x) (t_BlogCategory x) (t_BlogTag x)
    (t_Blog x) (t_BlogTagMap x) (t_BlogComment x)) (d_ana d)) _ _ _);
    [done|by intros [[] [] [] [] [] [] [] [] [] []]|done].
Defined.

Definition L_CmsSection : lens Db (list CmsSection).
Proof.
  refine (Lens (λ d, t_CmsSection (d_cms d))
    (λ l d, let x := d_cms d in mkDb (d_inv d) (d_ord d) (d_pay d) (d_auth d) (d_mkt d) (d_ship
    d) (d_war d) (d_cat d) (mkCmsDb (t_CmsPage x) l (t_HomepageLayout x) (t_HomepageSectionItem
    x) (t_BannerGroup x) (t_Banner x) (t_BlogCategory x) (t_BlogTag x) (t_Blog x) (t_BlogTagMap
    x) (t_BlogComment x)) (d_ana d)) _ _ _);
    [done|by intros [[] [] [] [] [] [] [] [] [] []]|done].
Defined.

Definition L_HomepageLayout : lens Db (list HomepageLayout).
Proof.
  refine (Lens (λ d, t_HomepageLayout (d_cms d))
    (λ l d, let x := d_cms d in mkDb (d_inv d) (d_ord d) (d_pay d) (d_auth d) (d_mkt d) (d_ship
    d) (d_war d) (d_cat d) (mkCmsDb (t_CmsPage x) (t_CmsSection x) l (t_HomepageSectionItem x)
    (t_BannerGroup x) (t_Banner x) (t_BlogCategory x) (t_BlogTag x) (t_Blog x) (t_BlogTagMap x)
    (t_BlogComment x)) (d_ana d)) _ _ _);
    [done|by intros [[] [] [] [] [] [] [] [] [] []]|done].
Defined.

Definition L_HomepageSectionItem : lens Db (list HomepageSectionItem).
Proof.
  refine (Lens (λ d, t_HomepageSectionItem (d_cms d))
    (λ l d, let x := d_cms d in mkDb (d_inv d) (d_ord d) (d_pay d) (d_auth d) (d_mkt d) (d_ship
    d) (d_war d) (d_cat d) (mkCmsDb (t_CmsPage x) (t_CmsSection x) (t_HomepageLayout x) l
    (t_BannerGroup x) (t_Banner x) (t_BlogCategory x) (t_BlogTag x) (t_Blog x) (t_BlogTagMap x)
    (t_BlogComment x)) (d_ana d)) _ _ _);
    [done|by intros [[] [] [] [] [] [] [] [] [] []]|done].
Defined.

Definition L_BannerGroup : lens Db (list BannerGroup).
Proof.
  refine (Lens (λ d, t_BannerGroup (d_cms d))
    (λ l d, let x := d_cms d in mkDb (d_inv d) (d_ord d) (d_pay d) (d_auth d) (d_mkt d) (d_ship
    d) (d_war d) (d_cat d) (mkCmsDb (t_CmsPage x) (t_CmsSection x) (t_HomepageLayout x)
    (t_HomepageSectionItem x) l (t_Banner x) (t_BlogCategory x) (t_BlogTag x) (t_Blog x)
    (t_BlogTagMap x) (t_BlogComment x)) (d_ana d)) _ _ _);
    [done|by intros [[] [] [] [] [] [] [] [] [] []]|done].
Defined.

Definition L_Banner : lens Db (list Banner).
Proof.
  refine (Lens (λ d, t_Banner (d_cms d))
    (λ l d, let x := d_cms d in mkDb (d_inv d) (d_ord d) (d_pay d) (d_auth d) (d_mkt d) (d_ship
    d) (d_war d) (d_cat d) (mkCmsDb (t_CmsPage x) (t_CmsSection x) (t_HomepageLayout x)
    (t_HomepageSectionItem x) (t_BannerGroup x) l (t_BlogCategory x) (t_BlogTag x) (t_Blog x)
    (t_BlogTagMap x) (t_BlogComment x)) (d_ana d)) _ _ _);
    [done|by intros [[] [] [] [] [] [] [] [] [] []]|done].
Defined.

Definition L_BlogCategory : lens Db (list BlogCategory).
Proof.
  refine (Lens (λ d, t_BlogCategory (d_cms d))
    (λ l d, let x := d_cms d in mkDb (d_inv d) (d_ord d) (d_pay d) (d_auth d) (d_mkt d) (d_ship
    d) (d_war d) (d_cat d) (mkCmsDb (t_CmsPage x) (t_CmsSection x) (t_HomepageLayout x)
    (t_HomepageSectionItem x) (t_BannerGroup x) (t_Banner x) l (t_BlogTag x) (t_Blog x)
    (t_BlogTagMap x) (t_BlogComment x)) (d_ana d)) _ _ _);
    [done|by intros [[] [] [] [] [] [] [] [] [] []]|done].
Defined.

Definition L_BlogTag : lens Db (list BlogTag).
Proof.
  refine (Lens (λ d, t_BlogTag (d_cms d))
    (λ l d, let x := d_cms d in mkDb (d_inv d) (d_ord d) (d_pay d) (d_auth d) (d_mkt d) (d_ship
    d) (d_war d) (d_cat d) (mkCmsDb (t_CmsPage x) (t_CmsSection x) (t_HomepageLayout x)
    (t_HomepageSectionItem x) (t_BannerGroup x) (t_Banner x) (t_BlogCategory x) l (t_Blog x)
    (t_BlogTagMap x) (t_BlogComment x)) (d_ana d)) _ _ _);
    [done|by intros [[] [] [] [] [] [] [] [] [] []]|done].
Defined.

Definition L_Blog : lens Db (list Blog).
Proof.
  refine (Lens (λ d, t_Blog (d_cms d))
    (λ l d, let x := d_cms d in mkDb (d_inv d) (d_ord d) (d_pay d) (d_auth d) (d_mkt d) (d_ship
    d) (d_war d) (d_cat d) (mkCmsDb (t_CmsPage x) (t_CmsSection x) (t_HomepageLayout x)
    (t_HomepageSectionItem x) (t_BannerGroup x) (t_Banner x) (t_BlogCategory x) (t_BlogTag x) l
    (t_BlogTagMap x) (t_BlogComment x)) (d_ana d)) _ _ _);
    [done|by intros [[] [] [] [] [] [] [] [] [] []]|done].
Defined.

Definition L_BlogTagMap : lens Db (list BlogTagMap).
Proof.
  refine (Lens (λ d, t_BlogTagMap (d_cms d))
    (λ l d, let x := d_cms d in mkDb (d_inv d) (d_ord d) (d_pay d) (d_auth d) (d_mkt d) (d_ship
    d) (d_war d) (d_cat d) (mkCmsDb (t_CmsPage x) (t_CmsSection x) (t_HomepageLayout x)
    (t_HomepageSectionItem x) (t_BannerGroup x) (t_Banner x) (t_BlogCategory x) (t_BlogTag x)
    (t_Blog x) l (t_BlogComment x)) (d_ana d)) _ _ _);
    [done|by intros [[] [] [] [] [] [] [] [] [] []]|done].
Defined.

Definition L_BlogComment : lens Db (list BlogComment).
Proof.
  refine (Lens (λ d, t_BlogComment (d_cms d))
    (λ l d, let x := d_cms d in mkDb (d_inv d) (d_ord d) (d_pay d) (d_auth d) (d_mkt d) (d_ship
    d) (d_war d) (d_cat d) (mkCmsDb (t_CmsPage x) (t_CmsSection x) (t_HomepageLayout x)
    (t_HomepageSectionItem x) (t_BannerGroup x) (t_Banner x) (t_BlogCategory x) (t_BlogTag x)
    (t_Blog x) (t_BlogTagMap x) l) (d_ana d)) _ _ _);
    [done|by intros [[] [] [] [] [] [] [] [] [] []]|done].
Defined.

Definition L_SalesMetrics : lens Db (list SalesMetrics).
Proof.
  refine (Lens (λ d, t_SalesMetrics (d_ana d))
    (λ l d, let x := d_ana d in mkDb (d_inv d) (d_ord d) (d_pay d) (d_auth d) (d_mkt d) (d_ship
    d) (d_war d) (d_cat d) (d_cms d) (mkAnaDb l (t_PaymentMetrics x) (t_InventoryMetrics x)
    (t_ShippingMetrics x) (t_ServiceMetrics x) (t_MarketingMetrics x) (t_KpiSnapshot x)
    (t_AlertRule x) (t_AlertHistory x) (t_MetricStream x) (t_LiveMetric x) (t_ConversionEvent x)
    (t_CohortAnalysis x) (t_CustomerLtv x) (t_SavedReport x) (t_ScheduledReport x)
    (t_ReportExport x) (t_DashboardLayout x) (t_DashboardWidget x) (t_DashboardWidgetInstance x)
    (t_SystemEvent x))) _ _ _);
    [done|by intros [[] [] [] [] [] [] [] [] [] []]|done].
Defined.

Definition L_PaymentMetrics : lens Db (list PaymentMetrics).
Proof.
  refine (Lens (λ d, t_PaymentMetrics (d_ana d))
    (λ l d, let x := d_ana d in mkDb (d_inv d) (d_ord d) (d_pay d) (d_auth d) (d_mkt d) (d_ship
    d) (d_war d) (d_cat d) (d_cms d) (mkAnaDb (t_SalesMetrics x) l (t_InventoryMetrics x)
    (t_ShippingMetrics x) (t_ServiceMetrics x) (t_MarketingMetrics x) (t_KpiSnapshot x)
    (t_AlertRule x) (t_AlertHistory x) (t_MetricStream x) (t_LiveMetric x) (t_ConversionEvent x)
    (t_CohortAnalysis x) (t_CustomerLtv x) (t_SavedReport x) (t_ScheduledReport x)
    (t_ReportExport x) (t_DashboardLayout x) (t_DashboardWidget x) (t_DashboardWidgetInstance x)
    (t_SystemEvent x))) _ _ _);
    [done|by intros [[] [] [] [] [] [] [] [] [] []]|done].
Defined.

Definition L_InventoryMetrics : lens Db (list InventoryMetrics).
Proof.
  refine (Lens (λ d, t_InventoryMetrics (d_ana d))
    (λ l d, let x := d_ana d in mkDb (d_inv d) (d_ord d) (d_pay d) (d_auth d) (d_mkt d) (d_ship
    d) (d_war d) (d_cat d) (d_cms d) (mkAnaDb (t_SalesMetrics x) (t_PaymentMetrics x) l
    (t_ShippingMetrics x) (t_ServiceMetrics x) (t_MarketingMetrics x) (t_KpiSnapshot x)
    (t_AlertRule x) (t_AlertHistory x) (t_MetricStream x) (t_LiveMetric x) (t_ConversionEvent x)
    (t_CohortAnalysis x) (t_CustomerLtv x) (t_SavedReport x) (t_ScheduledReport x)
    (t_ReportExport x) (t_DashboardLayout x) (t_DashboardWidget x) (t_DashboardWidgetInstance x)
    (t_SystemEvent x))) _ _ _);
    [done|by intros [[] [] [] [] [] [] [] [] [] []]|done].
Defined.

Definition L_ShippingMetrics : lens Db (list ShippingMetrics).
Proof.
  refine (Lens (λ d, t_ShippingMetrics (d_ana d))
    (λ l d, let x := d_ana d in mkDb (d_inv d) (d_ord d) (d_pay d) (d_auth d) (d_mkt d) (d_ship
    d) (d_war d) (d_cat d) (d_cms d) (mkAnaDb (t_SalesMetrics x) (t_PaymentMetrics x)
    (t_InventoryMetrics x) l (t_ServiceMetrics x) (t_MarketingMetrics x) (t_KpiSnapshot x)
    (t_AlertRule x) (t_AlertHistory x) (t_MetricStream x) (t_LiveMetric x) (t_ConversionEvent x)
    (t_CohortAnalysis x) (t_CustomerLtv x) (t_SavedReport x) (t_ScheduledReport x)
    (t_ReportExport x) (t_DashboardLayout x) (t_DashboardWidget x) (t_DashboardWidgetInstance x)
    (t_SystemEvent x))) _ _ _);
    [done|by intros [[] [] [] [] [] [] [] [] [] []]|done].
Defined.

Definition L_ServiceMetrics : lens Db (list ServiceMetrics).
Proof.
  refine (Lens (λ d, t_ServiceMetrics (d_ana d))
    (λ l d, let x := d_ana d in mkDb (d_inv d) (d_ord d) (d_pay d) (d_auth d) (d_mkt d) (d_ship
    d) (d_war d) (d_cat d) (d_cms d) (mkAnaDb (t_SalesMetrics x) (t_PaymentMetrics x)
    (t_InventoryMetrics x) (t_ShippingMetrics x) l (t_MarketingMetrics x) (t_KpiSnapshot x)
    (t_AlertRule x) (t_AlertHistory x) (t_MetricStream x) (t_LiveMetric x) (t_ConversionEvent x)
    (t_CohortAnalysis x) (t_CustomerLtv x) (t_SavedReport x) (t_ScheduledReport x)
    (t_ReportExport x) (t_DashboardLayout x) (t_DashboardWidget x) (t_DashboardWidgetInstance x)
    (t_SystemEvent x))) _ _ _);
    [done|by intros [[] [] [] [] [] [] [] [] [] []]|done].
Defined.

Definition L_MarketingMetrics : lens Db (list MarketingMetrics).
Proof.
  refine (Lens (λ d, t_MarketingMetrics (d_ana d))
    (λ l d, let x := d_ana d in mkDb (d_inv d) (d_ord d) (d_pay d) (d_auth d) (d_mkt d) (d_ship
    d) (d_war d) (d_cat d) (d_cms d) (mkAnaDb (t_SalesMetrics x) (t_PaymentMetrics x)
    (t_InventoryMetrics x) (t_ShippingMetrics x) (t_ServiceMetrics x) l (t_KpiSnapshot x)
    (t_AlertRule x) (t_AlertHistory x) (t_MetricStream x) (t_LiveMetric x) (t_ConversionEvent x)
    (t_CohortAnalysis x) (t_CustomerLtv x) (t_SavedReport x) (t_ScheduledReport x)
    (t_ReportExport x) (t_DashboardLayout x) (t_DashboardWidget x) (t_DashboardWidgetInstance x)
    (t_SystemEvent x))) _ _ _);
    [done|by intros [[] [] [] [] [] [] [] [] [] []]|done].
Defined.

Definition L_KpiSnapshot : lens Db (list KpiSnapshot).
Proof.
  refine (Lens (λ d, t_KpiSnapshot (d_ana d))
    (λ l d, let x := d_ana d in mkDb (d_inv d) (d_ord d) (d_pay d) (d_auth d) (d_mkt d) (d_ship
    d) (d_war d) (d_cat d) (d_cms d) (mkAnaDb (t_SalesMetrics x) (t_PaymentMetrics x)
    (t_InventoryMetrics x) (t_ShippingMetrics x) (t_ServiceMetrics x) (t_MarketingMetrics x) l
    (t_AlertRule x) (t_AlertHistory x) (t_MetricStream x) (t_LiveMetric x) (t_ConversionEvent x)
    (t_CohortAnalysis x) (t_CustomerLtv x) (t_SavedReport x) (t_ScheduledReport x)
    (t_ReportExport x) (t_DashboardLayout x) (t_DashboardWidget x) (t_DashboardWidgetInstance x)
    (t_SystemEvent x))) _ _ _);
    [done|by intros [[] [] [] [] [] [] [] [] [] []]|done].
Defined.

Definition L_AlertRule : lens Db (list AlertRule).
Proof.
  refine (Lens (λ d, t_AlertRule (d_ana d))
    (λ l d, let x := d_ana d in mkDb (d_inv d) (d_ord d) (d_pay d) (d_auth d) (d_mkt d) (d_ship
    d) (d_war d) (d_cat d) (d_cms d) (mkAnaDb (t_SalesMetrics x) (t_PaymentMetrics x)
    (t_InventoryMetrics x) (t_ShippingMetrics x) (t_ServiceMetrics x) (t_MarketingMetrics x)
    (t_KpiSnapshot x) l (t_AlertHistory x) (t_MetricStream x) (t_LiveMetric x)
    (t_ConversionEvent x) (t_CohortAnalysis x) (t_CustomerLtv x) (t_SavedReport x)
    (t_ScheduledReport x) (t_ReportExport x) (t_DashboardLayout x) (t_DashboardWidget x)
    (t_DashboardWidgetInstance x) (t_SystemEvent x))) _ _ _);
    [done|by intros [[] [] [] [] [] [] [] [] [] []]|done].
Defined.

Definition L_AlertHistory : lens Db (list AlertHistory).
Proof.
  refine (Lens (λ d, t_AlertHistory (d_ana d))
    (λ l d, let x := d_ana d in mkDb (d_inv d) (d_ord d) (d_pay d) (d_auth d) (d_mkt d) (d_ship
    d) (d_war d) (d_cat d) (d_cms d) (mkAnaDb (t_SalesMetrics x) (t_PaymentMetrics x)
    (t_InventoryMetrics x) (t_ShippingMetrics x) (t_ServiceMetrics x) (t_MarketingMetrics x)
    (t_KpiSnapshot x) (t_AlertRule x) l (t_MetricStream x) (t_LiveMetric x) (t_ConversionEvent
    x) (t_CohortAnalysis x) (t_CustomerLtv x) (t_SavedReport x) (t_ScheduledReport x)
    (t_ReportExport x) (t_DashboardLayout x) (t_DashboardWidget x) (t_DashboardWidgetInstance x)
    (t_SystemEvent x))) _ _ _);
    [done|by intros [[] [] [] [] [] [] [] [] [] []]|done].
Defined.

Definition L_MetricStream : lens Db (list MetricStream).
Proof.
  refine (Lens (λ d, t_MetricStream (d_ana d))
    (λ l d, let x := d_ana d in mkDb (d_inv d) (d_ord d) (d_pay d) (d_auth d) (d_mkt d) (d_ship
    d) (d_war d) (d_cat d) (d_cms d) (mkAnaDb (t_SalesMetrics x) (t_PaymentMetrics x)
    (t_InventoryMetrics x) (t_ShippingMetrics x) (t_ServiceMetrics x) (t_MarketingMetrics x)
    (t_KpiSnapshot x) (t_AlertRule x) (t_AlertHistory x) l (t_LiveMetric x) (t_ConversionEvent
    x) (t_CohortAnalysis x) (t_CustomerLtv x) (t_SavedReport x) (t_ScheduledReport x)
    (t_ReportExport x) (t_DashboardLayout x) (t_DashboardWidget x) (t_DashboardWidgetInstance x)
    (t_SystemEvent x))) _ _ _);
    [done|by intros [[] [] [] [] [] [] [] [] [] []]|done].
Defined.

Definition L_LiveMetric : lens Db (list LiveMetric).
Proof.
  refine (Lens (λ d, t_LiveMetric (d_ana d))
    (λ l d, let x := d_ana d in mkDb (d_inv d) (d_ord d) (d_pay d) (d_auth d) (d_mkt d) (d_ship
    d) (d_war d) (d_cat d) (d_cms d) (mkAnaDb (t_SalesMetrics x) (t_PaymentMetrics x)
    (t_InventoryMetrics x) (t_ShippingMetrics x) (t_ServiceMetrics x) (t_MarketingMetrics x)
    (t_KpiSnapshot x) (t_AlertRule x) (t_AlertHistory x) (t_MetricStream x) l (t_ConversionEvent
    x) (t_CohortAnalysis x) (t_CustomerLtv x) (t_SavedReport x) (t_ScheduledReport x)
    (t_ReportExport x) (t_DashboardLayout x) (t_DashboardWidget x) (t_DashboardWidgetInstance x)
    (t_SystemEvent x))) _ _ _);
    [done|by intros [[] [] [] [] [] [] [] [] [] []]|done].
Defined.

Definition L_ConversionEvent : lens Db (list ConversionEvent).
Proof.
  refine (Lens (λ d, t_ConversionEvent (d_ana d))
    (λ l d, let x := d_ana d in mkDb (d_inv d) (d_ord d) (d_pay d) (d_auth d) (d_mkt d) (d_ship
    d) (d_war d) (d_cat d) (d_cms d) (mkAnaDb (t_SalesMetrics x) (t_PaymentMetrics x)
    (t_InventoryMetrics x) (t_ShippingMetrics x) (t_ServiceMetrics x) (t_MarketingMetrics x)
    (t_KpiSnapshot x) (t_AlertRule x) (t_AlertHistory x) (t_MetricStream x) (t_LiveMetric x) l
    (t_CohortAnalysis x) (t_CustomerLtv x) (t_SavedReport x) (t_ScheduledReport x)
    (t_ReportExport x) (t_DashboardLayout x) (t_DashboardWidget x) (t_DashboardWidgetInstance x)
    (t_SystemEvent x))) _ _ _);
    [done|by intros [[] [] [] [] [] [] [] [] [] []]|done].
Defined.

Definition L_CohortAnalysis : lens Db (list CohortAnalysis).
Proof.
  refine (Lens (λ d, t_CohortAnalysis (d_ana d))
    (λ l d, let x := d_ana d in mkDb (d_inv d) (d_ord d) (d_pay d) (d_auth d) (d_mkt d) (d_ship
    d) (d_war d) (d_cat d) (d_cms d) (mkAnaDb (t_SalesMetrics x) (t_PaymentMetrics x)
    (t_InventoryMetrics x) (t_ShippingMetrics x) (t_ServiceMetrics x) (t_MarketingMetrics x)
    (t_KpiSnapshot x) (t_AlertRule x) (t_AlertHistory x) (t_MetricStream x) (t_LiveMetric x)
    (t_ConversionEvent x) l (t_CustomerLtv x) (t_SavedReport x) (t_ScheduledReport x)
    (t_ReportExport x) (t_DashboardLayout x) (t_DashboardWidget x) (t_DashboardWidgetInstance x)
    (t_SystemEvent x))) _ _ _);
    [done|by intros [[] [] [] [] [] [] [] [] [] []]|done].
Defined.

Definition L_CustomerLtv : lens Db (list CustomerLtv).
Proof.
  refine (Lens (λ d, t_CustomerLtv (d_ana d))
    (λ l d, let x := d_ana d in mkDb (d_inv d) (d_ord d) (d_pay d) (d_auth d) (d_mkt d) (d_ship
    d) (d_war d) (d_cat d) (d_cms d) (mkAnaDb (t_SalesMetrics x) (t_PaymentMetrics x)
    (t_InventoryMetrics x) (t_ShippingMetrics x) (t_ServiceMetrics x) (t_MarketingMetrics x)
    (t_KpiSnapshot x) (t_AlertRule x) (t_AlertHistory x) (t_MetricStream x) (t_LiveMetric x)
    (t_ConversionEvent x) (t_CohortAnalysis x) l (t_SavedReport x) (t_ScheduledReport x)
    (t_ReportExport x) (t_DashboardLayout x) (t_DashboardWidget x) (t_DashboardWidgetInstance x)
    (t_SystemEvent x))) _ _ _);
    [done|by intros [[] [] [] [] [] [] [] [] [] []]|done].
Defined.

Definition L_SavedReport : lens Db (list SavedReport).
Proof.
  refine (Lens (λ d, t_SavedReport (d_ana d))
    (λ l d, let x := d_ana d in mkDb (d_inv d) (d_ord d) (d_pay d) (d_auth d) (d_mkt d) (d_ship
    d) (d_war d) (d_cat d) (d_cms d) (mkAnaDb (t_SalesMetrics x) (t_PaymentMetrics x)
    (t_InventoryMetrics x) (t_ShippingMetrics x) (t_ServiceMetrics x) (t_MarketingMetrics x)
    (t_KpiSnapshot x) (t_AlertRule x) (t_AlertHistory x) (t_MetricStream x) (t_LiveMetric x)
    (t_ConversionEvent x) (t_CohortAnalysis x) (t_CustomerLtv x) l (t_ScheduledReport x)
    (t_ReportExport x) (t_DashboardLayout x) (t_DashboardWidget x) (t_DashboardWidgetInstance x)
    (t_SystemEvent x))) _ _ _);
    [done|by intros [[] [] [] [] [] [] [] [] [] []]|done].
Defined.

Definition L_ScheduledReport : lens Db (list ScheduledReport).
Proof.
  refine (Lens (λ d, t_ScheduledReport (d_ana d))
    (λ l d, let x := d_ana d in mkDb (d_inv d) (d_ord d) (d_pay d) (d_auth d) (d_mkt d) (d_ship
    d) (d_war d) (d_cat d) (d_cms d) (mkAnaDb (t_SalesMetrics x) (t_PaymentMetrics x)
    (t_InventoryMetrics x) (t_ShippingMetrics x) (t_ServiceMetrics x) (t_MarketingMetrics x)
    (t_KpiSnapshot x) (t_AlertRule x) (t_AlertHistory x) (t_MetricStream x) (t_LiveMetric x)
    (t_ConversionEvent x) (t_CohortAnalysis x) (t_CustomerLtv x) (t_SavedReport x) l
    (t_ReportExport x) (t_DashboardLayout x) (t_DashboardWidget x) (t_DashboardWidgetInstance x)
    (t_SystemEvent x))) _ _ _);
    [done|by intros [[] [] [] [] [] [] [] [] [] []]|done].
Defined.

Definition L_ReportExport : lens Db (list ReportExport).
Proof.
  refine (Lens (λ d, t_ReportExport (d_ana d))
    (λ l d, let x := d_ana d in mkDb (d_inv d) (d_ord d) (d_pay d) (d_auth d) (d_mkt d) (d_ship
    d) (d_war d) (d_cat d) (d_cms d) (mkAnaDb (t_SalesMetrics x) (t_PaymentMetrics x)
    (t_InventoryMetrics x) (t_ShippingMetrics x) (t_ServiceMetrics x) (t_MarketingMetrics x)
    (t_KpiSnapshot x) (t_AlertRule x) (t_AlertHistory x) (t_MetricStream x) (t_LiveMetric x)
    (t_ConversionEvent x) (t_CohortAnalysis x) (t_CustomerLtv x) (t_SavedReport x)
    (t_ScheduledReport x) l (t_DashboardLayout x) (t_DashboardWidget x)
    (t_DashboardWidgetInstance x) (t_SystemEvent x))) _ _ _);
    [done|by intros [[] [] [] [] [] [] [] [] [] []]|done].
Defined.

Definition L_DashboardLayout : lens Db (list DashboardLayout).
Proof.
  refine (Lens (λ d, t_DashboardLayout (d_ana d))
    (λ l d, let x := d_ana d in mkDb (d_inv d) (d_ord d) (d_pay d) (d_auth d) (d_mkt d) (d_ship
    d) (d_war d) (d_cat d) (d_cms d) (mkAnaDb (t_SalesMetrics x) (t_PaymentMetrics x)
    (t_InventoryMetrics x) (t_ShippingMetrics x) (t_ServiceMetrics x) (t_MarketingMetrics x)
    (t_KpiSnapshot x) (t_AlertRule x) (t_AlertHistory x) (t_MetricStream x) (t_LiveMetric x)
    (t_ConversionEvent x) (t_CohortAnalysis x) (t_CustomerLtv x) (t_SavedReport x)
    (t_ScheduledReport x) (t_ReportExport x) l (t_DashboardWidget x) (t_DashboardWidgetInstance
    x) (t_SystemEvent x))) _ _ _);
    [done|by intros [[] [] [] [] [] [] [] [] [] []]|done].
Defined.

Definition L_DashboardWidget : lens Db (list DashboardWidget).
Proof.
  refine (Lens (λ d, t_DashboardWidget (d_ana d))
    (λ l d, let x := d_ana d in mkDb (d_inv d) (d_ord d) (d_pay d) (d_auth d) (d_mkt d) (d_ship
    d) (d_war d) (d_cat d) (d_cms d) (mkAnaDb (t_SalesMetrics x) (t_PaymentMetrics x)
    (t_InventoryMetrics x) (t_ShippingMetrics x) (t_ServiceMetrics x) (t_MarketingMetrics x)
    (t_KpiSnapshot x) (t_AlertRule x) (t_AlertHistory x) (t_MetricStream x) (t_LiveMetric x)
    (t_ConversionEvent x) (t_CohortAnalysis x) (t_CustomerLtv x) (t_SavedReport x)
    (t_ScheduledReport x) (t_ReportExport x) (t_DashboardLayout x) l (t_DashboardWidgetInstance
    x) (t_SystemEvent x))) _ _ _);
    [done|by intros [[] [] [] [] [] [] [] [] [] []]|done].
Defined.

Definition L_DashboardWidgetInstance : lens Db (list DashboardWidgetInstance).
Proof.
  refine (Lens (λ d, t_DashboardWidgetInstance (d_ana d))
    (λ l d, let x := d_ana d in mkDb (d_inv d) (d_ord d) (d_pay d) (d_auth d) (d_mkt d) (d_ship
    d) (d_war d) (d_cat d) (d_cms d) (mkAnaDb (t_SalesMetrics x) (t_PaymentMetrics x)
    (t_InventoryMetrics x) (t_ShippingMetrics x) (t_ServiceMetrics x) (t_MarketingMetrics x)
    (t_KpiSnapshot x) (t_AlertRule x) (t_AlertHistory x) (t_MetricStream x) (t_LiveMetric x)
    (t_ConversionEvent x) (t_CohortAnalysis x) (t_CustomerLtv x) (t_SavedReport x)
    (t_ScheduledReport x) (t_ReportExport x) (t_DashboardLayout x) (t_DashboardWidget x) l
    (t_SystemEvent x))) _ _ _);
    [done|by intros [[] [] [] [] [] [] [] [] [] []]|done].
Defined.

Definition L_SystemEvent : lens Db (list SystemEvent).
Proof.
  refine (Lens (λ d, t_SystemEvent (d_ana d))
    (λ l d, let x := d_ana d in mkDb (d_inv d) (d_ord d) (d_pay d) (d_auth d) (d_mkt d) (d_ship
    d) (d_war d) (d_cat d) (d_cms d) (mkAnaDb (t_SalesMetrics x) (t_PaymentMetrics x)
    (t_InventoryMetrics x) (t_ShippingMetrics x) (t_ServiceMetrics x) (t_MarketingMetrics x)
    (t_KpiSnapshot x) (t_AlertRule x) (t_AlertHistory x) (t_MetricStream x) (t_LiveMetric x)
    (t_ConversionEvent x) (t_CohortAnalysis x) (t_CustomerLtv x) (t_SavedReport x)
    (t_ScheduledReport x) (t_ReportExport x) (t_DashboardLayout x) (t_DashboardWidget x)
    (t_DashboardWidgetInstance x) l)) _ _ _);
    [done|by intros [[] [] [] [] [] [] [] [] [] []]|done].
Defined.

(** Tables are read and written through their lenses only. *)
#[global] Arguments view {S T} l s : simpl never.
#[global] Arguments put {S T} l t s : simpl never.
