(* ===== verification/Pagination.v ===== *)
(** * Pagination

    Models [backend/src/common/utils/pagination.util.ts]. *)
From S2P Require Import Prelude Core JsNumber.
From Stdlib Require Import QArith Qround Qabs Lqa.

#[local] Open Scope Z_scope.

Record PaginationParams := mkPaginationParams {
  pp_page : Z; pp_limit : Z; pp_skip : Z; pp_take : Z;
}.

(** [pg_totalPages] is [None] for Infinity. *)
Record PaginationMeta := mkPaginationMeta {
  pg_page : Z; pg_limit : Z; pg_total : Z; pg_totalPages : option Z;
  pg_hasNextPage : bool; pg_hasPreviousPage : bool;
}.

Definition DEFAULT_PAGE : Z := 1.
Definition DEFAULT_LIMIT : Z := 20.
Definition MAX_LIMIT : Z := 100.

(** [toPositiveInt] on what [Number(value)] gives: [None] is NaN or an infinity. *)
Definition toPositiveInt (parsed : option Q) (fallback : Z) : Z :=
  match parsed with
  | None => fallback
  | Some q => if Qle_bool q 0 then fallback else Qfloor q
  end.

Definition parsePaginationQuery (page limit : option Q) : PaginationParams :=
  let page := toPositiveInt page DEFAULT_PAGE in
  let limit := Z.min (toPositiveInt limit DEFAULT_LIMIT) MAX_LIMIT in
  mkPaginationParams page limit ((page - 1) * limit) limit.

(** [Math.ceil] of a binary64 quotient; a positive number divided by zero is
    Infinity. *)
Definition buildPaginationMeta (page limit total : Z) : PaginationMeta :=
  let totalPages :=
    if 0 <? total then
      if limit =? 0 then None
      else Some (Qceiling (js_div (inject_Z total) (inject_Z limit)))
    else Some 0 in
  mkPaginationMeta page limit total totalPages
    (match totalPages with Some n => page <? n | None => true end) (1 <? page).

Definition paginatedResult {T} (items : list T) (page limit total : Z)
  : list T * PaginationMeta :=
  (items, buildPaginationMeta page limit total).

(** The rows a query with [skip] and [take] returns. *)
Definition page_of {T} (skip take_ : Z) (l : list T) : list T :=
  take (Z.to_nat take_) (drop (Z.to_nat skip) l).

(** The same on the arguments of a request that nothing has checked: a negative
    [skip] is refused, a negative [take] counts from the end. *)
Definition page_of_args {T} (skip take_ : Z) (l : list T) : option (list T) :=
  if skip <? 0 then None
  else Some (if take_ <? 0 then reverse (page_of skip (- take_) (reverse l))
             else page_of skip take_ l).

(** ** The number of pages is exact *)

(** The rounded quotient is on the same side of every integer as the exact one. *)
Lemma pages_exact total limit :
  0 < total < 2 ^ 53 → 0 < limit →
  Qceiling (js_div (inject_Z total) (inject_Z limit)) = (total + limit - 1) / limit.
Proof.
  intros [Ht Hlt] Hl. destruct limit as [|l|]; [lia| |lia]. unfold js_div.
  assert (inject_Z total / inject_Z (Zpos l) = (total # l))%Q as ->.
  { unfold Qdiv, Qinv, Qmult, inject_Z. simpl. by rewrite Z.mul_1_r. }
  pose proof (Z.div_mod total (Zpos l) ltac:(lia)) as Hdm.
  pose proof (Z.mod_pos_bound total (Zpos l) ltac:(lia)) as Hr.
  set (k := total / Zpos l) in *. set (r := total mod Zpos l) in *.
  assert (0 <= k) as Hk by (apply Z.div_pos; lia).
  destruct (Z.eq_dec r 0) as [E|E].
  - assert (0 < k < 2 ^ 53) as Hkb by nia. replace total with (k * Zpos l) by lia.
    rewrite (fl_exact k l Hkb), Qceiling_Z.
    replace (k * Zpos l + Zpos l - 1) with ((Zpos l - 1) + k * Zpos l) by lia.
    rewrite Z.div_add, Z.div_small by lia. lia.
  - replace (total + Zpos l - 1) with ((r - 1) + (k + 1) * Zpos l) by lia.
    rewrite Z.div_add, Z.div_small, Z.add_0_l by lia.
    pose proof (fl_error (total # l)) as He. rewrite (Qabs_pos (total # l)) in He by (unfold Qle; simpl; lia).
    apply Qabs_Qle_condition in He as [Hlo Hhi].
    assert ((total # l) / inject_Z (2 ^ 53) < (1 # l))%Q as Hsmall.
    { change (inject_Z (2 ^ 53)) with (9007199254740992 # 1)%Q. unfold Qdiv, Qinv, Qmult, Qlt. cbn [Qnum Qden].
      change (2 ^ 53) with 9007199254740992 in Hlt. rewrite Z.mul_1_r, Pos2Z.inj_mul. nia. }
    assert ((total # l) == inject_Z k + (r # l))%Q as Ex.
    { unfold Qeq, Qplus, inject_Z. simpl. lia. }
    assert ((1 # l) <= (r # l) /\ (r # l) <= 1 - (1 # l))%Q as [Hr1 Hr2].
    { unfold Qle, Qminus, Qplus, Qopp. simpl. split; nia. }
    set (y := fl (total # l)) in *.
    assert (inject_Z k < y /\ y < inject_Z k + 1)%Q as [Hyl Hyu] by (split; lra).
    pose proof (Qle_ceiling y) as Hc1. pose proof (Qceiling_lt y) as Hc2.
    assert (inject_Z k < inject_Z (Qceiling y))%Q as Hkc by lra.
    assert (inject_Z (Qceiling y - 1) < inject_Z (k + 1))%Q as Hck
      by (rewrite (inject_Z_plus k); change (inject_Z 1) with 1%Q; lra).
    rewrite <- Zlt_Qlt in Hkc, Hck. lia.
Qed.

(** ** The pages cover the result *)

(** The pages 1, ..., [n] of size [limit]. *)
Definition pages {T} (limit : Z) (n : nat) (l : list T) : list T :=
  flat_map (λ i, page_of (Z.of_nat i * limit) limit l) (seq 0 n).

Lemma pages_prefix {T} limit n (l : list T) : 0 < limit →
  pages limit n l = take (n * Z.to_nat limit) l.
Proof.
  intros Hl. unfold pages. induction n as [|n IH]; [done|].
  rewrite seq_S, flat_map_app, IH. simpl. rewrite app_nil_r. unfold page_of.
  rewrite Z2Nat.inj_mul, Nat2Z.id by lia.
  rewrite <- (take_drop (n * Z.to_nat limit) l) at 3.
  rewrite take_app. f_equal; [rewrite take_take; f_equal; lia|].
  destruct (Nat.le_gt_cases (n * Z.to_nat limit) (length l)) as [Hle|Hgt].
  - rewrite length_take. f_equal. lia.
  - by rewrite !drop_ge, !take_nil by lia.
Qed.

(** Paging through a result loses and repeats nothing: for a result of fewer than
    2^53 rows and a positive limit, the pages 1 to [totalPages] of the metadata, each
    read with its [skip] and [take], are together the whole result, and exactly the
    last one has no next page. *)
Lemma pages_cover {T} (limit page : Z) (l : list T) :
  0 < limit → Z.of_nat (length l) < 2 ^ 53 → 1 <= page →
  ∃ n, pg_totalPages (buildPaginationMeta page limit (Z.of_nat (length l))) = Some n ∧
    pages limit (Z.to_nat n) l = l ∧
    (pg_hasNextPage (buildPaginationMeta page limit (Z.of_nat (length l))) = true ↔
     page_of (page * limit) limit l ≠ []).
Proof.
  intros Hl Hlen Hp. unfold buildPaginationMeta. cbn [pg_totalPages pg_hasNextPage].
  destruct (Z.ltb_spec 0 (Z.of_nat (length l))) as [Hpos|Hz].
  2: { exists 0. assert (l = []) as -> by (by destruct l; simpl in *; [|lia]).
       split_and!; [done|done|]. unfold page_of. rewrite drop_nil, take_nil.
       destruct (Z.ltb_spec page 0); [lia|]. intuition congruence. }
  destruct (Z.eqb_spec limit 0) as [|_]; [lia|]. rewrite pages_exact by lia.
  set (n := (Z.of_nat (length l) + limit - 1) / limit).
  assert (Z.of_nat (length l) <= n * limit ∧ (n - 1) * limit < Z.of_nat (length l)) as [Hn1 Hn2].
  { unfold n. pose proof (Z.div_mod (Z.of_nat (length l) + limit - 1) limit ltac:(lia)).
    pose proof (Z.mod_pos_bound (Z.of_nat (length l) + limit - 1) limit ltac:(lia)). nia. }
  assert (0 <= n) by nia. clearbody n. exists n. split_and!; [done| |].
  - rewrite pages_prefix by done. apply take_ge. nia.
  - unfold page_of. rewrite Z.ltb_lt.
    assert ((Z.to_nat limit ≠ 0)%nat) as Hlim by lia.
    split.
    + intros Hlt E. apply (f_equal length) in E. rewrite length_take, length_drop in E. simpl in E. nia.
    + intros Hne. destruct (Z.lt_ge_cases page n) as [|Hge]; [done|]. destruct Hne.
      rewrite drop_ge; [by rewrite take_nil|]. nia.
Qed.

(** The metadata of three rows in pages of two. *)
Lemma pages_cover_witness :
  ∃ n, pg_totalPages (buildPaginationMeta 1 2 3) = Some n ∧ pages 2 (Z.to_nat n) [7; 8; 9] = [7; 8; 9] ∧
    (pg_hasNextPage (buildPaginationMeta 1 2 3) = true ↔ page_of (1 * 2) 2 [7; 8; 9] ≠ []).
Proof. apply (pages_cover 2 1 [7; 8; 9]); simpl; lia. Defined.

(** A limit between zero and one passes the check for a positive number and is
    rounded down to zero: the page is empty and the number of pages infinite. *)
Example limit_rounded_to_zero :
  pp_limit (parsePaginationQuery None (Some (1 # 2))) = 0 ∧
  pg_totalPages (buildPaginationMeta 1 0 5) = None.
Proof. vm_compute. done. Qed.
