(* ===== verification/Database.v ===== *)
(** * The database client

    The services reach PostgreSQL through Prisma. [Postgres] states what the
    modelled code relies on of the two: the order of [ORDER BY], the freshness
    of generated keys and the rounding of NUMERIC columns; [db_fault] lets any
    write fail for a reason outside the model (a constraint on a table that is
    not modelled, a lost connection), so that what is proved of the services
    holds on those paths too. A [Table] names where its rows live, its primary
    key and the constraints that [database/sql] declares for it.

    [dwp m Q d] reads: started with the tables [d], whatever the clock, Redis
    and the other services do, [m] ends with an outcome and tables that satisfy
    [Q]. Its rules execute a service symbolically, throwing paths included. *)
From S2P Require Import Prelude Core Effects Redis Lock JsNumber Schema.
From Stdlib Require Import QArith Qabs Qround Lqa.

#[local] Open Scope Z_scope.

Class Postgres := {
  (** The rows of a query without ORDER BY come in an order of the server's choice. *)
  scan : ∀ {A : Type}, list A → list A;
  scan_perm : ∀ A (l : list A), scan l ≡ₚ l;
  (** In what order a query cut by OFFSET and LIMIT meets its rows before it sorts
      them: the plan, and with it the order of rows that tie, may be another one for
      another page. *)
  page_scan : ∀ {A : Type}, Z → Z → list A → list A;
  page_scan_perm : ∀ A skip take_ (l : list A), page_scan skip take_ l ≡ₚ l;
  (** ORDER BY f DESC. *)
  order_desc : ∀ {A : Type}, (A → Z) → list A → list A;
  order_desc_perm : ∀ A (f : A → Z) l, order_desc f l ≡ₚ l;
  order_desc_sorted : ∀ A (f : A → Z) l, StronglySorted (λ x y, f y <= f x) (order_desc f l);
  (** DEFAULT gen_random_uuid(), given the keys already taken. *)
  gen_random_uuid : list string → string;
  uuid_fresh : ∀ taken, gen_random_uuid taken ∉ taken;
  (** A number written to a NUMERIC(_, 2) column, in hundredths: a value within
      four thousandths of a whole number of hundredths is stored as that. *)
  numeric2 : Q → Z;
  numeric2_near : ∀ q c, (Qabs (q - inject_Z c / 100) <= 4 # 1000)%Q → numeric2 q = c;
  (** The same for NUMERIC(_, 3), in thousandths. *)
  numeric3 : Q → Z;
  numeric3_near : ∀ q c, (Qabs (q - inject_Z c / 1000) <= 4 # 10000)%Q → numeric3 q = c;
  (** Writes that the server refuses for reasons outside the model. *)
  db_fault : string → Db → option DbErrorKind;
}.

(** [text ILIKE '%' || query || '%'] and [text ILIKE query] as the database
    collates, of the query and the text. *)
Class TextSearch := icontains : string → string → bool.
Class TextEqual := iequals : string → string → bool.

(** INTEGER columns. *)
Definition int4 (z : Z) : bool := (-2147483648 <=? z) && (z <=? 2147483647).

(** The constraints of a row, in order, each with the name reported. *)
Definition constraints (cs : list (bool * string)) : option DbErrorKind :=
  match find_first (λ c, negb (fst c)) cs with
  | Some (_, name) => Some (ConstraintViolation name)
  | None => None
  end.

Record Table (A : Type) := mkTable {
  tname : string;
  tbl : lens Db (list A);
  pk : A → string;
  refused : Db → A → option DbErrorKind;
}.
Arguments mkTable {A} tname tbl pk refused.
Arguments tname {A} t.
Arguments tbl {A} t.
Arguments pk {A} t.
Arguments refused {A} t d a.

(** [x is NULL or references a row of T]. *)
Definition references {A} (T : Table A) (d : Db) (id : string) : bool :=
  existsb (λ r, String.eqb (pk T r) id) (view (tbl T) d).

Definition references_opt {A} (T : Table A) (d : Db) (id : option string) : bool :=
  match id with Some i => references T d i | None => true end.

(** No other row of [T] matches [p]: a (partial) unique index seen from [r]. *)
Definition unique_in {A} (T : Table A) (d : Db) (r : A) (p : A → bool) : bool :=
  negb (existsb (λ x, negb (String.eqb (pk T x) (pk T r)) && p x) (view (tbl T) d)).

Section client.
Context `{Redis, !Postgres}.

Definition db_findMany {A} (T : Table A) (p : A → bool) : M (St Db) (list A) :=
  gets (λ s, scan (where_ p (view (tbl T) (tables s)))).

Definition db_findMany_desc {A} (T : Table A) (p : A → bool) (f : A → Z)
  : M (St Db) (list A) :=
  gets (λ s, order_desc f (where_ p (view (tbl T) (tables s)))).

Definition db_findFirst {A} (T : Table A) (p : A → bool) : M (St Db) (option A) :=
  gets (λ s, head (scan (where_ p (view (tbl T) (tables s))))).

Definition db_findFirst_desc {A} (T : Table A) (p : A → bool) (f : A → Z)
  : M (St Db) (option A) :=
  gets (λ s, head (order_desc f (where_ p (view (tbl T) (tables s))))).

Definition db_count {A} (T : Table A) (p : A → bool) : M (St Db) Z :=
  gets (λ s, Z.of_nat (length (where_ p (view (tbl T) (tables s))))).

(** Store a new version of the tables unless the server refuses the row. *)
Definition db_write {A} (T : Table A) (r : A) (d' : Db) : M (St Db) A := λ s,
  match db_fault (tname T) (tables s) with
  | Some k => (Throw (DbError k), s)
  | None => match refused T (tables s) r with
            | Some k => (Throw (DbError k), s)
            | None => (Ok r, mkSt (env s) d')
            end
  end.

(** [create({ data })]: the row with a generated key. *)
Definition db_create {A} (T : Table A) (mk : string → A) : M (St Db) A := λ s,
  let d := tables s in
  let rows := view (tbl T) d in
  let r := mk (gen_random_uuid (map (pk T) rows)) in
  db_write T r (put (tbl T) (rows ++ [r]) d) s.

(** [createMany({ data })]: one statement, all rows or none. *)
Definition db_createMany {A} (T : Table A) (rows : list (string → A)) : M (St Db) () :=
  transaction tablesL (for_each rows (λ mk, _ ← db_create T mk; mret tt)).

(** [update({ where: { id }, data })]: P2025 when there is no such row. *)
Definition db_update {A} (T : Table A) (id : string) (f : A → A) : M (St Db) A := λ s,
  let d := tables s in
  let rows := view (tbl T) d in
  match find_first (λ r, String.eqb (pk T r) id) rows with
  | None => (Throw (DbError RecordNotFound), s)
  | Some r => db_write T (f r) (put (tbl T) (update_rows (pk T) id f rows) d) s
  end.

(** [updateMany({ where, data })] for updates no constraint looks at. *)
Definition db_updateMany {A} (T : Table A) (p : A → bool) (f : A → A) : M (St Db) () := λ s,
  let d := tables s in
  match db_fault (tname T) d with
  | Some k => (Throw (DbError k), s)
  | None => (Ok tt, mkSt (env s)
               (put (tbl T) (map (λ r, if p r then f r else r) (view (tbl T) d)) d))
  end.

(** [delete({ where: { id } })]. *)
Definition db_delete {A} (T : Table A) (id : string) : M (St Db) A := λ s,
  let d := tables s in
  let rows := view (tbl T) d in
  match find_first (λ r, String.eqb (pk T r) id) rows with
  | None => (Throw (DbError RecordNotFound), s)
  | Some r => match db_fault (tname T) d with
              | Some k => (Throw (DbError k), s)
              | None => (Ok r, mkSt (env s)
                          (put (tbl T) (where_ (λ x, negb (String.eqb (pk T x) id)) rows) d))
              end
  end.

(** [{ connect: { id } }] of a nested write: P2025 when there is no such row. *)
Definition connect {A} (T : Table A) (id : string) : M (St Db) () :=
  found ← gets (λ s, references T (tables s) id);
  throw_if (negb found) (DbError RecordNotFound).

Definition connect_opt {A} (T : Table A) (id : option string) : M (St Db) () :=
  match id with Some i => connect T i | None => mret tt end.

(** [prisma.$transaction(async (tx) => ...)] *)
Definition in_transaction {A} (m : M (St Db) A) : M (St Db) A := transaction tablesL m.
End client.

(** ** A server to evaluate the definitions with *)
Section sample.
Definition sample_uuid (taken : list string) : string :=
  repeat_char (S (foldr Nat.max O (map String.length taken))) "u"%char.

Lemma sample_uuid_fresh taken : sample_uuid taken ∉ taken.
Proof.
  unfold sample_uuid. intros Hin.
  assert (∀ x, x ∈ taken → (String.length x <= foldr Nat.max 0 (map String.length taken))%nat) as Hb.
  { clear Hin. induction taken as [|y l IH]; intros x Hx; simpl; [set_solver|].
    apply elem_of_cons in Hx as [->|Hx]; [lia|]. specialize (IH x Hx). lia. }
  apply Hb in Hin. rewrite repeat_char_length in Hin. lia.
Qed.

Definition at_least {A} (f : A → Z) : relation A := λ x y, f y <= f x.
#[local] Instance at_least_dec {A} (f : A → Z) : RelDecision (at_least f).
Proof. intros x y. unfold at_least. apply _. Defined.
#[local] Instance at_least_total {A} (f : A → Z) : Total (at_least f).
Proof. intros x y. unfold at_least. lia. Qed.
#[local] Instance at_least_trans {A} (f : A → Z) : Transitive (at_least f).
Proof. intros x y z. unfold at_least. lia. Qed.

Definition sample_order {A} (f : A → Z) (l : list A) : list A := merge_sort (at_least f) l.

Lemma sample_order_perm A (f : A → Z) l : sample_order f l ≡ₚ l.
Proof. apply merge_sort_Permutation. Qed.

Lemma sample_order_sorted A (f : A → Z) l :
  StronglySorted (λ x y, f y <= f x) (sample_order f l).
Proof. apply StronglySorted_merge_sort; apply _. Qed.

Definition sample_numeric2 (q : Q) : Z := Qfloor (q * 100 + (1 # 2)).

Lemma sample_numeric2_near q c :
  (Qabs (q - inject_Z c / 100) <= 4 # 1000)%Q → sample_numeric2 q = c.
Proof.
  intros [Hlo Hhi]%Qabs_Qle_condition. unfold sample_numeric2.
  assert (inject_Z c / 100 == inject_Z c * (1 # 100))%Q as E by field.
  rewrite E in Hlo, Hhi. clear E.
  pose proof (Qfloor_le (q * 100 + (1 # 2))) as Hf.
  pose proof (Qlt_floor (q * 100 + (1 # 2))) as Hg.
  set (k := Qfloor (q * 100 + (1 # 2))) in *.
  assert (inject_Z k < inject_Z (c + 1))%Q as H1.
  { rewrite inject_Z_plus. change (inject_Z 1) with 1%Q. lra. }
  assert (inject_Z c < inject_Z (k + 1))%Q as H2.
  { rewrite inject_Z_plus in *. change (inject_Z 1) with 1%Q in *. lra. }
  rewrite <- Zlt_Qlt in H1, H2. lia.
Qed.

Definition sample_numeric3 (q : Q) : Z := sample_numeric2 (q * 10).

Lemma sample_numeric3_near q c :
  (Qabs (q - inject_Z c / 1000) <= 4 # 10000)%Q → sample_numeric3 q = c.
Proof.
  intros Hq. apply sample_numeric2_near.
  assert (q * 10 - inject_Z c / 100 == 10 * (q - inject_Z c / 1000))%Q as -> by field.
  rewrite Qabs_Qmult. change (Qabs 10) with 10%Q. lra.
Qed.
End sample.

(** A server that refuses nothing on its own. *)
#[export] Instance sample_postgres : Postgres := {|
  scan _ l := l; scan_perm A l := reflexivity l;
  page_scan _ _ _ l := l; page_scan_perm A _ _ l := reflexivity l;
  order_desc := @sample_order; order_desc_perm := sample_order_perm;
  order_desc_sorted := sample_order_sorted;
  gen_random_uuid := sample_uuid; uuid_fresh := sample_uuid_fresh;
  numeric2 := sample_numeric2; numeric2_near := sample_numeric2_near;
  numeric3 := sample_numeric3; numeric3_near := sample_numeric3_near;
  db_fault _ _ := None |}.

(** ** Running a service from given tables *)
Section dwp.
Context `{Redis} {D : Type}.

Definition dwp {A} (m : M (St D) A) (Q : outcome A → D → Prop) (d : D) : Prop :=
  ∀ s, tables s = d → Q (fst (m s)) (tables (snd (m s))).

Lemma dwp_elim {A} (m : M (St D) A) Q s o s' :
  dwp m Q (tables s) → m s = (o, s') → Q o (tables s').
Proof. intros Hm E. specialize (Hm s eq_refl). by rewrite E in Hm. Qed.

Lemma dwp_mono {A} (m : M (St D) A) (Q Q' : outcome A → D → Prop) d :
  dwp m Q d → (∀ o d', Q o d' → Q' o d') → dwp m Q' d.
Proof. intros Hm HQ s Hs. by apply HQ, Hm. Qed.

Lemma dwp_and {A} (m : M (St D) A) (Q1 Q2 : outcome A → D → Prop) d :
  dwp m Q1 d → dwp m Q2 d → dwp m (λ o d', Q1 o d' ∧ Q2 o d') d.
Proof. intros Hm1 Hm2 s Hs. split; auto. Qed.

Lemma dwp_ret {A} (a : A) (Q : outcome A → D → Prop) d : Q (Ok a) d → dwp (mret a) Q d.
Proof. by intros HQ s <-. Qed.

Lemma dwp_throw {A} e (Q : outcome A → D → Prop) d : Q (Throw e) d → dwp (throw e) Q d.
Proof. by intros HQ s <-. Qed.

Lemma dwp_bind {A B} (m : M (St D) A) (k : A → M (St D) B) Q d :
  dwp m (λ o d', match o with Ok a => dwp (k a) Q d' | Throw e => Q (Throw e) d' end) d →
  dwp (m ≫= k) Q d.
Proof.
  intros Hm s Hs. specialize (Hm s Hs). unfold mbind, M_bind.
  destruct (m s) as [[a|e] s']; simpl in *; [by apply Hm|done].
Qed.

(** An invariant of the tables, step by step. *)
Lemma dwp_bind_keep {A B} (m : M (St D) A) (k : A → M (St D) B) (I : D → Prop) d :
  dwp m (λ _ d', I d') d → (∀ a d', I d' → dwp (k a) (λ _ d', I d') d') →
  dwp (m ≫= k) (λ _ d', I d') d.
Proof. intros Hm Hk. apply dwp_bind. eapply dwp_mono; [done|]. intros [a|e] d'; [apply Hk|done]. Qed.

(** What only touches the environment. *)
Lemma dwp_env {A} (m : M (St D) A) (Q : outcome A → D → Prop) d :
  stays (framing tables) m → (∀ o, Q o d) → dwp m Q d.
Proof. intros Hm HQ s <-. specialize (Hm s). unfold framing in Hm. rewrite Hm. apply HQ. Qed.

Lemma dwp_gets {A} (f : D → A) (Q : outcome A → D → Prop) d :
  Q (Ok (f d)) d → dwp (gets (λ s, f (tables s))) Q d.
Proof. by intros HQ s <-. Qed.

Lemma dwp_now (Q : outcome Z → D → Prop) d : (∀ t, Q (Ok t) d) → dwp Date_now Q d.
Proof. intros HQ s <-. apply HQ. Qed.

Lemma dwp_emit ev (Q : outcome () → D → Prop) d : Q (Ok tt) d → dwp (emit ev) Q d.
Proof. by intros HQ s <-. Qed.

Lemma dwp_throw_if c e (Q : outcome () → D → Prop) d :
  (c = true → Q (Throw e) d) → (c = false → Q (Ok tt) d) → dwp (throw_if c e) Q d.
Proof. intros ? ? s <-. destruct c; simpl; auto. Qed.

Lemma dwp_when c (m : M (St D) ()) Q d :
  (c = true → dwp m Q d) → (c = false → Q (Ok tt) d) → dwp (when_ c m) Q d.
Proof. intros H1 H2. destruct c; simpl; [by apply H1|]. intros s <-. by apply H2. Qed.

Lemma dwp_require {A} (o : option A) e Q d :
  (∀ a, o = Some a → Q (Ok a) d) → (o = None → Q (Throw e) d) → dwp (require_ o e) Q d.
Proof. intros ? ? s <-. destruct o; simpl; auto. Qed.

Lemma dwp_try_catch {A} (m : M (St D) A) h Q d :
  dwp m (λ o d', match o with Ok a => Q (Ok a) d' | Throw e => dwp (h e) Q d' end) d →
  dwp (try_catch m h) Q d.
Proof.
  intros Hm s Hs. specialize (Hm s Hs). unfold try_catch.
  destruct (m s) as [[a|e] s']; simpl in *; [done|by apply Hm].
Qed.

(** A transaction that throws puts the tables back. *)
Lemma dwp_transaction {A} (m : M (St D) A) Q d :
  dwp m (λ o d', match o with Ok a => Q (Ok a) d' | Throw e => Q (Throw e) d end) d →
  dwp (transaction tablesL m) Q d.
Proof.
  intros Hm s Hs. specialize (Hm s Hs). unfold transaction.
  destruct (m s) as [[a|e] s']; simpl in *; [done|by subst].
Qed.

(** Loops, by an invariant on the items left. *)
Lemma dwp_for_each {A} (xs : list A) (f : A → M (St D) ()) (I : list A → D → Prop)
  (Q : outcome () → D → Prop) d :
  I xs d →
  (∀ d', I [] d' → Q (Ok tt) d') →
  (∀ x rest d', I (x :: rest) d' →
     dwp (f x) (λ o d'', match o with Ok _ => I rest d'' | Throw e => Q (Throw e) d'' end) d') →
  dwp (for_each xs f) Q d.
Proof.
  intros HI H0 Hf. revert d HI. induction xs as [|x xs IH]; intros d HI; simpl.
  - by apply dwp_ret, H0.
  - apply dwp_bind. eapply dwp_mono; [by apply Hf|]. intros [[]|e] d'; [apply IH|done].
Qed.

Lemma dwp_for_fold {A B} (xs : list A) (b : B) (f : B → A → M (St D) B)
  (I : list A → B → D → Prop) (Q : outcome B → D → Prop) d :
  I xs b d →
  (∀ b d', I [] b d' → Q (Ok b) d') →
  (∀ x rest b d', I (x :: rest) b d' →
     dwp (f b x) (λ o d'', match o with Ok b' => I rest b' d'' | Throw e => Q (Throw e) d'' end) d') →
  dwp (for_fold xs b f) Q d.
Proof.
  intros HI H0 Hf. revert b d HI. induction xs as [|x xs IH]; intros b d HI; simpl.
  - by apply dwp_ret, H0.
  - apply dwp_bind. eapply dwp_mono; [by apply Hf|]. intros [b'|e] d'; [apply IH|done].
Qed.

(** A locked section: the lock may not be had, and its release may fail after
    the body is done. *)
Lemma dwp_withLock `{!Scheduler, !Crypto} {A} resource (m : M (St D) A) options Q d :
  (∀ e, Q (Throw e) d) →
  dwp m (λ o d', Q o d' ∧ ∀ e, Q (Throw e) d') d →
  dwp (LockService.withLock resource m options) Q d.
Proof.
  intros Hfail Hm. unfold LockService.withLock. apply dwp_bind.
  apply dwp_env; [apply LockService.acquire_tables|].
  intros [[[|c t]|]|e]; [by apply dwp_throw| |by apply dwp_throw|done].
  intros s Hs. specialize (Hm s Hs). unfold try_finally, mbind, M_bind.
  destruct (m s) as [o s1]; simpl in *.
  pose proof (LockService.release_tables resource (String c t) s1) as Hr.
  unfold framing in Hr. destruct (LockService.release _ _ s1) as [[] s2]; simpl in *;
    rewrite Hr; apply Hm.
Qed.
End dwp.

Section table_rules.
Context `{Redis, !Postgres} {A : Type} (T : Table A).

Lemma head_scan_Some (p : A → bool) l x :
  head (scan (where_ p l)) = Some x → x ∈ l ∧ p x = true.
Proof.
  intros Hh. apply elem_of_where. rewrite <- (scan_perm _ (where_ p l)).
  destruct (scan _); simplify_eq/=. left.
Qed.

Lemma head_scan_None (p : A → bool) l :
  head (scan (where_ p l)) = None → Forall (λ x, p x = false) l.
Proof.
  intros Hh. apply Forall_forall. intros x Hx. destruct (p x) eqn:E; [|done].
  assert (x ∈ scan (where_ p l)) as Hin by (rewrite scan_perm; by apply elem_of_where).
  destruct (scan _); [by apply not_elem_of_nil in Hin|done].
Qed.

Lemma dwp_findFirst p Q d :
  (∀ x, x ∈ view (tbl T) d → p x = true → Q (Ok (Some x)) d) →
  (Forall (λ x, p x = false) (view (tbl T) d) → Q (Ok None) d) →
  dwp (db_findFirst T p) Q d.
Proof.
  intros HS HN. unfold db_findFirst.
  apply (dwp_gets (λ d, head (scan (where_ p (view (tbl T) d))))).
  destruct (head _) as [x|] eqn:E.
  - apply head_scan_Some in E as []. by apply HS.
  - apply head_scan_None in E. by apply HN.
Qed.

Lemma dwp_findMany p Q d :
  (∀ l, l ≡ₚ where_ p (view (tbl T) d) → Q (Ok l) d) → dwp (db_findMany T p) Q d.
Proof.
  intros HQ. apply (dwp_gets (λ d, scan (where_ p (view (tbl T) d)))).
  apply HQ, scan_perm.
Qed.

Lemma dwp_findMany_desc p f Q d :
  (∀ l, l ≡ₚ where_ p (view (tbl T) d) → StronglySorted (λ x y, f y <= f x) l → Q (Ok l) d) →
  dwp (db_findMany_desc T p f) Q d.
Proof.
  intros HQ. apply (dwp_gets (λ d, order_desc f (where_ p (view (tbl T) d)))).
  apply HQ; [apply order_desc_perm|apply order_desc_sorted].
Qed.

Lemma dwp_create (mk : string → A) Q d :
  (∀ k, Q (Throw (DbError k)) d) →
  (∀ id, id ∉ map (pk T) (view (tbl T) d) → refused T d (mk id) = None →
     Q (Ok (mk id)) (put (tbl T) (view (tbl T) d ++ [mk id]) d)) →
  dwp (db_create T mk) Q d.
Proof.
  intros HE HO s <-. unfold db_create, db_write.
  destruct (db_fault _ _); [apply HE|]. destruct (refused _ _ _) eqn:E; [apply HE|].
  apply HO; [apply uuid_fresh|done].
Qed.

Lemma dwp_update id f Q d :
  (∀ k, Q (Throw (DbError k)) d) →
  (∀ r, r ∈ view (tbl T) d → pk T r = id → refused T d (f r) = None →
     Q (Ok (f r)) (put (tbl T) (update_rows (pk T) id f (view (tbl T) d)) d)) →
  dwp (db_update T id f) Q d.
Proof.
  intros HE HO s <-. unfold db_update, db_write.
  destruct (find_first _ _) as [r|] eqn:Ef; [|apply HE].
  destruct (db_fault _ _); [apply HE|]. destruct (refused _ _ _) eqn:E; [apply HE|].
  apply find_first_Some in Ef as [? ?]. bool_to_prop. by apply HO.
Qed.

Lemma dwp_updateMany (p : A → bool) (f : A → A) (Q : outcome () → Db → Prop) d :
  (∀ k, Q (Throw (DbError k)) d) →
  Q (Ok tt) (put (tbl T) (map (λ r, if p r then f r else r) (view (tbl T) d)) d) →
  dwp (db_updateMany T p f) Q d.
Proof. intros HE HO s <-. unfold db_updateMany. destruct (db_fault _ _); [apply HE|apply HO]. Qed.

Lemma dwp_connect id Q d :
  (∀ e, Q (Throw e) d) → Q (Ok tt) d → dwp (connect T id) Q d.
Proof.
  intros HE HO. unfold connect. apply dwp_bind, (dwp_gets (λ d, references T d id)).
  apply dwp_throw_if; auto.
Qed.

Lemma dwp_connect_opt id Q d :
  (∀ e, Q (Throw e) d) → Q (Ok tt) d → dwp (connect_opt T id) Q d.
Proof. intros HE HO. destruct id; [by apply dwp_connect|]. by apply dwp_ret. Qed.
End table_rules.

(** [createMany]: the rows that it stores, each accepted by the table as the ones
    before it left it, under a key that none of them has. *)
Section many.
Context `{Redis, !Postgres} {A : Type} (T : Table A).

Definition created (rows : list (string → A)) (d : Db) (new : list A) : Prop :=
  Forall2 (λ mk r, ∃ id, r = mk id) rows new
  ∧ ∀ pre r post, new = pre ++ r :: post →
      refused T (put (tbl T) (view (tbl T) d ++ pre) d) r = None
      ∧ pk T r ∉ map (pk T) (view (tbl T) d ++ pre).

Lemma created_nil d : created [] d [].
Proof. split; [constructor|]. by intros [|? ?] ? ? ?. Qed.

Lemma dwp_createMany_from rows d new0 (Q : outcome () → Db → Prop) :
  Forall (λ mk, ∀ id, pk T (mk id) = id) rows →
  (∀ k d', Q (Throw (DbError k)) d') →
  (∀ new, Forall2 (λ mk r, ∃ id, r = mk id) rows new →
     (∀ pre r post, new = pre ++ r :: post →
        refused T (put (tbl T) (view (tbl T) d ++ new0 ++ pre) d) r = None
        ∧ pk T r ∉ map (pk T) (view (tbl T) d ++ new0 ++ pre)) →
     Q (Ok tt) (put (tbl T) (view (tbl T) d ++ new0 ++ new) d)) →
  dwp (for_each rows (λ mk, _ ← db_create T mk; mret tt)) Q (put (tbl T) (view (tbl T) d ++ new0) d).
Proof.
  revert new0 Q. induction rows as [|mk rows IH]; intros new0 Q K HE HO; cbn [for_each].
  - apply dwp_ret. specialize (HO []). rewrite app_nil_r in HO. apply HO; [done|]. by intros [|? ?] ? ? ?.
  - apply Forall_cons in K as [Kmk K]. do 2 apply dwp_bind. apply dwp_create; [done|].
    intros id Fr Acc. apply dwp_ret. rewrite view_put, put_put, <- app_assoc in *.
    apply IH; [done..|]. intros new F S.
    rewrite <- app_assoc. apply HO; [constructor; [by exists id|done]|].
    intros [|x pre] r post; intros [= <- E]; [by rewrite app_nil_r, Kmk|].
    specialize (S pre r post E). by rewrite <- app_assoc in S.
Qed.

Lemma dwp_createMany rows (Q : outcome () → Db → Prop) d :
  Forall (λ mk, ∀ id, pk T (mk id) = id) rows →
  (∀ k, Q (Throw (DbError k)) d) →
  (∀ new, created rows d new → Q (Ok tt) (put (tbl T) (view (tbl T) d ++ new) d)) →
  dwp (db_createMany T rows) Q d.
Proof.
  intros K HE HO. unfold db_createMany. apply dwp_transaction.
  pose proof (dwp_createMany_from rows d []
    (λ o d', match o with Ok a => Q (Ok a) d' | Throw e => Q (Throw e) d end)) as X.
  rewrite app_nil_r, put_view in X. apply X; [done|by intros|]. intros new F S. by apply HO.
Qed.
End many.

(** ** Relations between the tables before and after, on every path *)

Definition on_tables `{Redis} {D} (R : D → D → Prop) : St D → St D → Prop :=
  λ s s', R (tables s) (tables s').

#[export] Instance on_tables_preorder `{Redis} {D} (R : D → D → Prop) `{!PreOrder R} :
  PreOrder (on_tables R).
Proof. split; unfold on_tables; [intros ?; reflexivity|intros ???; apply transitivity]. Qed.

Section on_tables.
Context `{Redis, !Postgres} (R : Db → Db → Prop) `{!PreOrder R}.

Lemma stays_env {A} (m : M (St Db) A) : stays (framing tables) m → stays (on_tables R) m.
Proof. intros Hm s. unfold on_tables. specialize (Hm s). unfold framing in Hm. rewrite Hm. reflexivity. Qed.

Lemma stays_withLock `{!Scheduler, !Crypto} {A} resource (m : M (St Db) A) options :
  stays (on_tables R) m → stays (on_tables R) (LockService.withLock resource m options).
Proof. intros Hm. by apply LockService.withLock_stays. Qed.

Lemma stays_transaction {A} (m : M (St Db) A) :
  stays (on_tables R) m → stays (on_tables R) (in_transaction m).
Proof.
  intros Hm s. specialize (Hm s). unfold in_transaction, transaction, on_tables in *.
  destruct (m s) as [[a|e] s']; simpl in *; [done|reflexivity].
Qed.

Section tables.
Context {A : Type} (T : Table A).
Hypothesis HT : ∀ d (l : list A), R d (put (tbl T) l d).

Lemma stays_create mk : stays (on_tables R) (db_create T mk).
Proof.
  intros s. unfold db_create, db_write, on_tables.
  destruct (db_fault _ _); [reflexivity|]. destruct (refused _ _ _); [reflexivity|apply HT].
Qed.

Lemma stays_update id f : stays (on_tables R) (db_update T id f).
Proof.
  intros s. unfold db_update, db_write, on_tables. destruct (find_first _ _); [|reflexivity].
  destruct (db_fault _ _); [reflexivity|]. destruct (refused _ _ _); [reflexivity|apply HT].
Qed.

Lemma stays_updateMany p f : stays (on_tables R) (db_updateMany T p f).
Proof.
  intros s. unfold db_updateMany, on_tables. destruct (db_fault _ _); [reflexivity|apply HT].
Qed.

Lemma stays_delete id : stays (on_tables R) (db_delete T id).
Proof.
  intros s. unfold db_delete, on_tables. destruct (find_first _ _); [|reflexivity].
  destruct (db_fault _ _); [reflexivity|apply HT].
Qed.
End tables.

(** Writes whose rows the relation looks at. *)
Lemma stays_create_row {A} (T : Table A) mk :
  (∀ d id, id ∉ map (pk T) (view (tbl T) d) → R d (put (tbl T) (view (tbl T) d ++ [mk id]) d)) →
  stays (on_tables R) (db_create T mk).
Proof.
  intros HT s. unfold db_create, db_write, on_tables.
  destruct (db_fault _ _); [reflexivity|]. destruct (refused _ _ _); [reflexivity|].
  apply HT, uuid_fresh.
Qed.

Lemma stays_update_row {A} (T : Table A) id f :
  (∀ d r, r ∈ view (tbl T) d → pk T r = id →
     R d (put (tbl T) (update_rows (pk T) id f (view (tbl T) d)) d)) →
  stays (on_tables R) (db_update T id f).
Proof.
  intros HT s. unfold db_update, db_write, on_tables.
  destruct (find_first _ _) as [r|] eqn:E; [|reflexivity].
  destruct (db_fault _ _); [reflexivity|]. destruct (refused _ _ _); [reflexivity|].
  apply find_first_Some in E as [? ?]. bool_to_prop. by eapply HT.
Qed.

Lemma stays_createMany {A} (T : Table A) rows :
  (∀ mk, mk ∈ rows → stays (on_tables R) (db_create T mk)) →
  stays (on_tables R) (db_createMany T rows).
Proof.
  intros HT. apply (stays_transaction (for_each _ _)), stays_for_each; [apply _|].
  intros mk Hmk. apply stays_bind; [apply _|by apply HT|intros _; apply stays_ret, _].
Qed.

Lemma stays_connect {A} (T : Table A) id : stays (on_tables R) (connect T id).
Proof.
  unfold connect. apply stays_bind; [apply _|apply stays_gets; apply _|].
  intros []; [apply stays_ret|apply stays_throw]; apply _.
Qed.

Lemma stays_getOrSet key (factory : M (St Db) Json) ttl :
  stays (on_tables R) factory → stays (on_tables R) (CacheService.getOrSet key factory ttl).
Proof.
  intros Hf. unfold CacheService.getOrSet.
  apply stays_bind; [apply _|apply stays_env, CacheService.get_tables|].
  assert (stays (on_tables R) (value ← factory; CacheService.set key value ttl ;; mret value)).
  { apply stays_bind; [apply _|done|]. intros v.
    apply stays_bind; [apply _|apply stays_env, CacheService.set_tables|].
    intros []. apply stays_ret; apply _. }
  intros [[]|]; try done; apply stays_ret; apply _.
Qed.

(** What a computation returns, whatever the state it runs in. *)
Definition results {A} (P : A → Prop) (m : M (St Db) A) : Prop :=
  ∀ s a s', m s = (Ok a, s') → P a.

Lemma results_ret {A} (P : A → Prop) a : P a → results P (mret a).
Proof. by intros HP s b s' [= <- _]. Qed.

Lemma results_throw {A} (P : A → Prop) e : results P (throw e).
Proof. by intros s a s'. Qed.

Lemma results_bind {A B} (P : B → Prop) (m : M (St Db) A) k :
  (∀ a, results P (k a)) → results P (m ≫= k).
Proof. intros Hk s b s' (a & s1 & _ & E)%bind_Ok. by eapply Hk. Qed.

Lemma dwp_results {A} (P : A → Prop) (m : M (St Db) A) (Q : outcome A → Db → Prop) d :
  stays (on_tables R) m → results P m →
  (∀ a d', P a → R d d' → Q (Ok a) d') → (∀ e d', R d d' → Q (Throw e) d') → dwp m Q d.
Proof.
  intros Hm HP HO HE s <-. specialize (Hm s). specialize (HP s). unfold on_tables in Hm.
  destruct (m s) as [[a|e] s']; simpl in *; [by eapply HO; [eapply HP|]|by apply HE].
Qed.

Lemma dwp_stays {A} (m : M (St Db) A) (Q : outcome A → Db → Prop) d :
  stays (on_tables R) m → (∀ o d', R d d' → Q o d') → dwp m Q d.
Proof. intros Hm HQ s <-. apply HQ, Hm. Qed.

(** A specification together with a frame. *)
Lemma dwp_keeping {A} (m : M (St Db) A) (Q : outcome A → Db → Prop) d :
  stays (on_tables R) m → dwp m Q d → dwp m (λ o d', Q o d' ∧ R d d') d.
Proof. intros Hm HQ. apply dwp_and; [done|]. intros s <-. apply Hm. Qed.
End on_tables.

(** Show that a computation stays within a relation on the tables, by its
    structure; [step] handles the operations of the component. *)
Ltac staying step :=
  repeat first
    [ step
    | apply stays_env; [apply _|]; solve [auto with kept typeclass_instances]
    | apply stays_withLock; [apply _|]
    | apply stays_transaction; [apply _|]
    | apply stays_getOrSet; [apply _|]
    | apply stays_connect; apply _
    | apply stays_create; [apply _|done]
    | apply stays_update; [apply _|done]
    | apply stays_updateMany; [apply _|done]
    | apply stays_delete; [apply _|done]
    | apply stays_gets; apply _
    | apply stays_ret; apply _
    | apply stays_throw; apply _
    | apply stays_throw_if; apply _
    | apply stays_require; apply _
    | apply stays_for_each; [apply _|]; intros ? ?
    | apply stays_for_fold; [apply _|]; intros ? ? ?
    | apply stays_try_catch; [apply _| |intros ?]
    | apply stays_when; [apply _|]
    | apply stays_bind; [apply _| |intros ?]
    | cases_goal ].

(** Split a run at its first operation. *)
Ltac dwp_step :=
  lazymatch goal with
  | |- dwp (_ ≫= _) _ _ => apply dwp_bind; dwp_step
  | |- dwp (mret _) _ _ => apply dwp_ret
  | |- dwp (throw _) _ _ => apply dwp_throw
  | |- dwp (throw_if _ _) _ _ => apply dwp_throw_if; intros ?
  | |- dwp (when_ _ _) _ _ => apply dwp_when; intros ?
  | |- dwp (require_ _ _) _ _ => apply dwp_require; [intros ? ?|intros ?]
  | |- dwp (in_transaction _) _ _ => apply dwp_transaction
  | |- dwp (LockService.withLock _ _ _) _ _ => apply dwp_withLock
  | |- dwp (try_catch _ _) _ _ => apply dwp_try_catch
  | |- dwp (db_findFirst _ _) _ _ => apply dwp_findFirst; [intros ? ? ?|intros ?]
  | |- dwp (db_findMany _ _) _ _ => apply dwp_findMany; intros ? ?
  | |- dwp (db_findMany_desc _ _ _) _ _ => apply dwp_findMany_desc; intros ? ? ?
  | |- dwp (db_create _ _) _ _ => apply dwp_create; [intros ?|intros ? ? ?]
  | |- dwp (db_update _ _ _) _ _ => apply dwp_update; [intros ?|intros ? ? ? ?]
  | |- dwp (connect _ _) _ _ => apply dwp_connect; [intros ?|]
  | |- dwp (connect_opt _ _) _ _ => apply dwp_connect_opt; [intros ?|]
  | |- dwp (emit _) _ _ => apply dwp_env; [apply emit_tables|intros [?|?]]
  | |- dwp (enqueue _) _ _ => apply dwp_env; [apply enqueue_tables|intros [?|?]]
  | |- dwp Date_now _ _ => apply dwp_env; [apply stays_gets; apply _|intros [?|?]]
  | |- dwp (CacheService.del _) _ _ => apply dwp_env; [apply CacheService.del_tables|intros [?|?]]
  end.
