(* ===== verification/Instant.v ===== *)
(** * Runs at one instant

    The requests of most services do not wait: the clock reads the same from
    their first step to their last. [iwp m Q t d] is [dwp] for such a run: started
    at time [t] with the tables [d], [m] leaves the clock at [t] and ends with an
    outcome and tables that satisfy [Q]. The second half runs the writes of the
    database client on a server that refuses nothing by itself. *)
From S2P Require Import Prelude Core Effects Redis Lock Schema Database.

#[local] Open Scope Z_scope.

Section iwp.
Context `{Redis}.

Definition instant (s : St Db) : Z := clock (env s).

(** The computation does not wait. *)
Definition timeless {A} (m : M (St Db) A) : Prop := stays (framing instant) m.

Definition iwp {A} (m : M (St Db) A) (Q : outcome A → Db → Prop) (t : Z) (d : Db) : Prop :=
  ∀ s, tables s = d → instant s = t →
    Q (fst (m s)) (tables (snd (m s))) ∧ instant (snd (m s)) = t.

Lemma iwp_elim {A} (m : M (St Db) A) Q s o s' :
  iwp m Q (instant s) (tables s) → m s = (o, s') → Q o (tables s') ∧ instant s' = instant s.
Proof. intros Hm E. specialize (Hm s eq_refl eq_refl). by rewrite E in Hm. Qed.

Lemma iwp_dwp {A} (m : M (St Db) A) Q t d : timeless m → dwp m Q d → iwp m Q t d.
Proof. intros Ht Hm s Hs <-. split; [by apply Hm|apply Ht]. Qed.

Lemma dwp_iwp {A} (m : M (St Db) A) Q d : (∀ t, iwp m Q t d) → dwp m Q d.
Proof. intros Hm s Hs. by apply (Hm (instant s) s Hs eq_refl). Qed.

Lemma iwp_mono {A} (m : M (St Db) A) (Q Q' : outcome A → Db → Prop) t d :
  iwp m Q t d → (∀ o d', Q o d' → Q' o d') → iwp m Q' t d.
Proof. intros Hm HQ s Hs Ht. destruct (Hm s Hs Ht). auto. Qed.

Lemma iwp_bind {A B} (m : M (St Db) A) (k : A → M (St Db) B) Q t d :
  iwp m (λ o d', match o with Ok a => iwp (k a) Q t d' | Throw e => Q (Throw e) d' end) t d →
  iwp (m ≫= k) Q t d.
Proof.
  intros Hm s Hs Ht. destruct (Hm s Hs Ht) as [HQ Ht']. unfold mbind, M_bind.
  destruct (m s) as [[a|e] s']; simpl in *; [by apply HQ|done].
Qed.

Lemma iwp_now Q t d : Q (Ok t) d → iwp Date_now Q t d.
Proof. by intros HQ s <- <-. Qed.

Lemma iwp_when c m Q t d :
  (c = true → iwp m Q t d) → (c = false → Q (Ok tt) d) → iwp (when_ c m) Q t d.
Proof. intros H1 H2. destruct c; simpl; [by apply H1|]. intros s <- <-. split; [by apply H2|done]. Qed.

Lemma iwp_try_catch {A} (m : M (St Db) A) h Q t d :
  iwp m (λ o d', match o with Ok a => Q (Ok a) d' | Throw e => iwp (h e) Q t d' end) t d →
  iwp (try_catch m h) Q t d.
Proof.
  intros Hm s Hs Ht. destruct (Hm s Hs Ht) as [HQ Ht']. unfold try_catch.
  destruct (m s) as [[a|e] s']; simpl in *; [done|by apply HQ].
Qed.

Lemma iwp_emit ev (Q : outcome () → Db → Prop) t d : Q (Ok tt) d → iwp (emit ev) Q t d.
Proof. by intros HQ s <- <-. Qed.

Lemma iwp_draw {A} (f : nat → A) (Q : outcome A → Db → Prop) t d :
  (∀ n, Q (Ok (f n)) d) → iwp (draw f) Q t d.
Proof. intros HQ s <- <-. split; [apply HQ|done]. Qed.

Lemma iwp_random_hex `{!Crypto} (Q : outcome string → Db → Prop) t d :
  (∀ n, Q (Ok (randomBytes_hex n)) d) → iwp random_hex Q t d.
Proof. intros HQ s <- <-. split; [apply HQ|done]. Qed.

(** Reads, pure steps and writes leave the environment alone. *)
Lemma timeless_ret {A} (a : A) : timeless (mret a).
Proof. by intros s. Qed.
Lemma timeless_throw {A} e : timeless (throw e : M (St Db) A).
Proof. by intros s. Qed.
Lemma timeless_gets {A} (f : St Db → A) : timeless (gets f).
Proof. by intros s. Qed.
Lemma timeless_throw_if c e : timeless (throw_if c e).
Proof. by destruct c. Qed.
Lemma timeless_require {A} (o : option A) e : timeless (require_ o e).
Proof. by destruct o. Qed.
Lemma timeless_bind {A B} (m : M (St Db) A) (k : A → M (St Db) B) :
  timeless m → (∀ a, timeless (k a)) → timeless (m ≫= k).
Proof. apply stays_bind, _. Qed.
Lemma timeless_when c m : timeless m → timeless (when_ c m).
Proof. by destruct c. Qed.
Lemma timeless_try_catch {A} (m : M (St Db) A) h :
  timeless m → (∀ e, timeless (h e)) → timeless (try_catch m h).
Proof. apply stays_try_catch, _. Qed.
Lemma timeless_emit ev : timeless (emit ev).
Proof. by intros s. Qed.
Lemma timeless_draw {A} (f : nat → A) : timeless (draw f).
Proof. by intros s. Qed.
Lemma timeless_random_hex `{!Crypto} : timeless random_hex.
Proof. by intros s. Qed.
Lemma timeless_enqueue j : timeless (enqueue j).
Proof. intros s. unfold enqueue, framing. by destruct (redis_up _). Qed.

Section writes.
Context `{!Postgres} {A : Type} (T : Table A).
Lemma timeless_findFirst p : timeless (db_findFirst T p).
Proof. by intros s. Qed.
Lemma timeless_findMany p : timeless (db_findMany T p).
Proof. by intros s. Qed.
Lemma timeless_findFirst_desc p f : timeless (db_findFirst_desc T p f).
Proof. by intros s. Qed.
Lemma timeless_findMany_desc p f : timeless (db_findMany_desc T p f).
Proof. by intros s. Qed.
Lemma timeless_count p : timeless (db_count T p).
Proof. by intros s. Qed.
Lemma timeless_create mk : timeless (db_create T mk).
Proof.
  intros s. unfold db_create, db_write, framing. destruct (db_fault _ _); [done|].
  by destruct (refused _ _ _).
Qed.
Lemma timeless_update id f : timeless (db_update T id f).
Proof.
  intros s. unfold db_update, db_write, framing. destruct (find_first _ _); [|done].
  destruct (db_fault _ _); [done|]. by destruct (refused _ _ _).
Qed.
Lemma timeless_updateMany p f : timeless (db_updateMany T p f).
Proof. intros s. unfold db_updateMany, framing. by destruct (db_fault _ _). Qed.
End writes.

(** What only touches the environment and does not wait. *)
Lemma iwp_env {A} (m : M (St Db) A) (Q : outcome A → Db → Prop) t d :
  timeless m → stays (framing tables) m → (∀ o, Q o d) → iwp m Q t d.
Proof. intros Ht Hm HQ. by apply iwp_dwp, dwp_env. Qed.
End iwp.

#[export] Hint Resolve timeless_ret timeless_throw timeless_gets timeless_throw_if timeless_require
  timeless_emit timeless_draw timeless_random_hex timeless_enqueue timeless_create timeless_update
  timeless_updateMany timeless_findFirst timeless_findMany timeless_findFirst_desc
  timeless_findMany_desc timeless_count : kept.

(** Show that a computation does not wait, by its structure. *)
Ltac timeless_ step :=
  repeat first
    [ step
    | apply timeless_bind; [|intros ?]
    | apply timeless_when
    | apply timeless_try_catch; [|intros ?]
    | solve [unfold Date_now; auto with kept]
    | cases_goal ].

(** Split a run at its first operation, keeping the time. *)
Ltac iwp_step :=
  lazymatch goal with
  | |- iwp (_ ≫= _) _ _ _ => apply iwp_bind; iwp_step
  | |- iwp Date_now _ _ _ => apply iwp_now
  | |- iwp (when_ _ _) _ _ _ => apply iwp_when; intros ?
  | |- iwp (try_catch _ _) _ _ _ => apply iwp_try_catch
  | |- iwp (emit _) _ _ _ => apply iwp_emit
  | |- iwp (draw _) _ _ _ => apply iwp_draw; intros ?
  | |- iwp random_hex _ _ _ => apply iwp_random_hex; intros ?
  | |- iwp (enqueue _) _ _ _ =>
      apply iwp_env; [apply timeless_enqueue|apply enqueue_tables|intros [?|?]]
  | |- iwp _ _ _ _ => apply iwp_dwp; [solve [auto with kept]|dwp_step]
  end.

(** ** Exact runs of the client *)
Section exact.
Context `{Redis, !Postgres} {A : Type} (T : Table A).
Implicit Types s : St Db.

(** A query that only one row answers. *)
Lemma findFirst_run p s x :
  x ∈ view (tbl T) (tables s) → p x = true →
  (∀ y, y ∈ view (tbl T) (tables s) → p y = true → y = x) →
  db_findFirst T p s = (Ok (Some x), s).
Proof.
  intros Hx Hp Hu. unfold db_findFirst, gets. do 2 f_equal.
  destruct (head _) as [y|] eqn:E.
  - apply head_scan_Some in E as [Hy Hpy]. f_equal. auto.
  - apply head_scan_None in E. rewrite Forall_forall in E. specialize (E x Hx). congruence.
Qed.
End exact.
