(* ===== verification/Tables.v ===== *)
(** * The tables and their constraints

    One [Table] per modelled table: the CHECK constraints, the integer ranges,
    the foreign keys between modelled tables and the unique indexes that
    [database/sql/*.sql] declares ([WHERE deleted_at IS NULL] where they say
    so). A constraint on a table outside the model (a user, say) is left to
    [db_fault]. *)
From S2P Require Import Prelude Core Effects Schema Database.

Definition live (deleted_at : option Z) : bool :=
  match deleted_at with None => true | Some _ => false end.

(** [x IS NOT NULL]. *)
Definition given (x : option string) : bool := match x with Some _ => true | None => false end.

Definition one_of (xs : list string) (x : string) : bool := existsb (String.eqb x) xs.

Definition same_opt (a b : option string) : bool :=
  match a, b with Some x, Some y => String.eqb x y | _, _ => false end.

(** A unique index on the live rows, seen from the row [r]. *)
Definition unique_live {A} (L : lens Db (list A)) (id : A → string) (deleted : A → option Z)
  (d : Db) (r : A) (same : A → bool) : bool :=
  negb (live (deleted r)) ||
  unique_in (mkTable "" L id (λ _ _, None)) d r (λ x, live (deleted x) && same x).

(** ** Catalogue ([004_catalog.sql], [005_catalog_indexes.sql], [034_marketing.sql]) *)

Definition T_MediaFile : Table MediaFile := mkTable "media_files" L_MediaFile kmf_id
  (λ d r, constraints
    [(0 <=? kmf_byte_size r, "media_files_byte_size_check");
     (unique_live L_MediaFile kmf_id kmf_deleted_at d r
        (λ x, String.eqb (kmf_bucket x) (kmf_bucket r) && String.eqb (kmf_object_key x) (kmf_object_key r)),
      "uq_media_files_bucket_key_active")]).

Definition T_Brand : Table Brand := mkTable "brands" L_Brand kbr_id
  (λ d r, constraints
    [(int4 (kbr_sort_order r), "brands_sort_order");
     (references_opt T_MediaFile d (kbr_logo_file_id r), "brands_logo_file_id_fkey");
     (unique_live L_Brand kbr_id kbr_deleted_at d r
        (λ x, String.eqb (kbr_slug x) (kbr_slug r)),
      "uq_brands_slug_active")]).

(** A category may refer to itself by its parent: the parents are those of the table
    with the row in it. *)
Definition T_Category : Table Category := mkTable "categories" L_Category kca_id
  (λ d r, constraints
    [(int4 (kca_sort_order r), "categories_sort_order");
     (negb (same_opt (kca_parent_id r) (Some (kca_id r))), "chk_categories_not_self");
     (match kca_parent_id r with
      | Some p => existsb (λ x, String.eqb (kca_id x) p) (view L_Category d)
      | None => true
      end, "categories_parent_id_fkey");
     (references_opt T_MediaFile d (kca_icon_file_id r), "categories_icon_file_id_fkey");
     (references_opt T_MediaFile d (kca_banner_file_id r), "categories_banner_file_id_fkey");
     (unique_live L_Category kca_id kca_deleted_at d r
        (λ x, String.eqb (kca_slug x) (kca_slug r)),
      "uq_categories_slug_active")]).

Definition T_ProductType : Table ProductType := mkTable "product_types" L_ProductType kpt_id
  (λ d r, constraints
    [(unique_live L_ProductType kpt_id kpt_deleted_at d r
        (λ x, String.eqb (kpt_code x) (kpt_code r)),
      "uq_product_types_code_active")]).

Definition T_Product : Table Product := mkTable "products" L_Product kpr_id
  (λ d r, constraints
    [((0 <=? kpr_rating_avg r) && (kpr_rating_avg r <=? 500), "products_rating_avg_check");
     ((0 <=? kpr_review_count r) && int4 (kpr_review_count r), "products_review_count_check");
     (references T_Brand d (kpr_brand_id r), "products_brand_id_fkey");
     (references T_Category d (kpr_category_id r), "products_category_id_fkey");
     (references T_ProductType d (kpr_product_type_id r), "products_product_type_id_fkey");
     (unique_live L_Product kpr_id kpr_deleted_at d r
        (λ x, String.eqb (kpr_slug x) (kpr_slug r)),
      "uq_products_slug_active")]).

Definition T_ProductVariant : Table ProductVariant := mkTable "product_variants" L_ProductVariant pv_id
  (λ d r, constraints
    [(match pv_battery_health r with
      | Some b => (0 <=? b) && (b <=? 100)
      | None => true
      end, "product_variants_battery_health_check");
     (0 <=? pv_mrp r, "product_variants_mrp_check");
     (0 <=? pv_sale_price r, "product_variants_sale_price_check");
     ((0 <=? pv_discount_percent r) && (pv_discount_percent r <=? 10000),
      "product_variants_discount_percent_check");
     (pv_sale_price r <=? pv_mrp r, "chk_variant_sale_lte_mrp");
     (references T_Product d (pv_product_id r), "product_variants_product_id_fkey");
     (unique_live L_ProductVariant pv_id pv_deleted_at d r
        (λ x, String.eqb (pv_sku x) (pv_sku r)),
      "uq_product_variants_sku_active");
     (unique_live L_ProductVariant pv_id pv_deleted_at d r
        (λ x, same_opt (pv_barcode x) (pv_barcode r)),
      "uq_product_variants_barcode_active")]).

Definition T_Collection : Table Collection := mkTable "collections" L_Collection kcn_id
  (λ d r, constraints
    [(references_opt T_MediaFile d (kcn_media_file_id r), "collections_media_file_id_fkey");
     (unique_live L_Collection kcn_id kcn_deleted_at d r
        (λ x, String.eqb (kcn_slug x) (kcn_slug r)),
      "uq_collections_slug_active")]).

Definition T_CollectionProduct : Table CollectionProduct := mkTable "collection_products" L_CollectionProduct kcx_id
  (λ d r, constraints
    [(int4 (kcx_sort_order r), "collection_products_sort_order");
     (references T_Collection d (kcx_collection_id r), "collection_products_collection_id_fkey");
     (references T_Product d (kcx_product_id r), "collection_products_product_id_fkey");
     (unique_live L_CollectionProduct kcx_id kcx_deleted_at d r
        (λ x, String.eqb (kcx_collection_id x) (kcx_collection_id r)
              && String.eqb (kcx_product_id x) (kcx_product_id r)),
      "uq_collection_products_active")]).

Definition T_Attribute : Table Attribute := mkTable "attributes" L_Attribute kat_id
  (λ d r, constraints
    [(unique_live L_Attribute kat_id kat_deleted_at d r
        (λ x, String.eqb (kat_code x) (kat_code r)),
      "uq_attributes_code_active")]).

Definition T_AttributeValue : Table AttributeValue := mkTable "attribute_values" L_AttributeValue kav_id
  (λ d r, constraints
    [(references T_Attribute d (kav_attribute_id r), "attribute_values_attribute_id_fkey");
     (unique_live L_AttributeValue kav_id kav_deleted_at d r
        (λ x, String.eqb (kav_attribute_id x) (kav_attribute_id r) && String.eqb (kav_slug x) (kav_slug r)),
      "uq_attribute_values_attr_slug_active")]).

Definition T_VariantAttributeValue : Table VariantAttributeValue := mkTable "variant_attribute_values" L_VariantAttributeValue kva_id
  (λ d r, constraints
    [(references T_ProductVariant d (kva_variant_id r), "variant_attribute_values_variant_id_fkey");
     (references T_AttributeValue d (kva_attribute_value_id r), "variant_attribute_values_attribute_value_id_fkey");
     (unique_live L_VariantAttributeValue kva_id kva_deleted_at d r
        (λ x, String.eqb (kva_variant_id x) (kva_variant_id r)
              && String.eqb (kva_attribute_value_id x) (kva_attribute_value_id r)),
      "uq_variant_attribute_values_active")]).

Definition T_SpecificationGroup : Table SpecificationGroup := mkTable "specification_groups" L_SpecificationGroup ksg_id
  (λ _ _, None).

Definition T_ProductSpecification : Table ProductSpecification := mkTable "product_specifications" L_ProductSpecification ksp_id
  (λ d r, constraints
    [(int4 (ksp_sort_order r), "product_specifications_sort_order");
     (references T_Product d (ksp_product_id r), "product_specifications_product_id_fkey");
     (references T_SpecificationGroup d (ksp_group_id r), "product_specifications_group_id_fkey")]).

Definition T_ProductMedia : Table ProductMedia := mkTable "product_media" L_ProductMedia kmd_id
  (λ d r, constraints
    [(int4 (kmd_sort_order r), "product_media_sort_order");
     (references T_Product d (kmd_product_id r), "product_media_product_id_fkey");
     (references T_MediaFile d (kmd_media_file_id r), "product_media_media_file_id_fkey")]).

Definition T_ProductBadge : Table ProductBadge := mkTable "product_badges" L_ProductBadge kbd_id
  (λ d r, constraints
    [(unique_live L_ProductBadge kbd_id kbd_deleted_at d r
        (λ x, String.eqb (kbd_code x) (kbd_code r)),
      "uq_product_badges_code_active")]).

Definition T_ProductBadgeAssignment : Table ProductBadgeAssignment := mkTable "product_badge_assignments" L_ProductBadgeAssignment kba_id
  (λ d r, constraints
    [(references T_ProductBadge d (kba_badge_id r), "product_badge_assignments_badge_id_fkey");
     (references T_Product d (kba_product_id r), "product_badge_assignments_product_id_fkey");
     (unique_live L_ProductBadgeAssignment kba_id kba_deleted_at d r
        (λ x, String.eqb (kba_badge_id x) (kba_badge_id r)
              && String.eqb (kba_product_id x) (kba_product_id r)),
      "uq_product_badge_assignments_active")]).

Definition T_SeoMetadata : Table SeoMetadata := mkTable "seo_metadata" L_SeoMetadata ksm_id
  (λ d r, constraints
    [(references_opt T_MediaFile d (ksm_og_image_file_id r), "seo_metadata_og_image_file_id_fkey")]).

Definition T_BuyingGuide : Table BuyingGuide := mkTable "buying_guides" L_BuyingGuide kbg_id
  (λ d r, constraints
    [(references_opt T_MediaFile d (kbg_cover_file_id r), "buying_guides_cover_file_id_fkey");
     (unique_live L_BuyingGuide kbg_id kbg_deleted_at d r
        (λ x, String.eqb (kbg_slug x) (kbg_slug r)),
      "uq_buying_guides_slug_active")]).

Definition T_ProductReview : Table ProductReview := mkTable "product_reviews" L_ProductReview krw_id
  (λ d r, constraints
    [((1 <=? krw_rating r) && (krw_rating r <=? 5), "product_reviews_rating_check");
     (0 <=? krw_helpful_count r, "product_reviews_helpful_count_check");
     (references T_Product d (krw_product_id r), "product_reviews_product_id_fkey")]).

(** ** Inventory ([007_inventory.sql], [008_inventory_indexes.sql]) *)

Definition T_Warehouse : Table Warehouse := mkTable "warehouses" L_Warehouse wh_id
  (λ d r, constraints
    [(negb (live (wh_deleted_at r)) ||
      unique_in (mkTable "" L_Warehouse wh_id (λ _ _, None)) d r
        (λ x, live (wh_deleted_at x) && String.eqb (wh_code x) (wh_code r)),
      "uq_warehouses_code_active")]).

Definition T_Zone : Table Zone := mkTable "warehouse_zones" L_Zone zn_id
  (λ d r, constraints
    [(references T_Warehouse d (zn_warehouse_id r), "warehouse_zones_warehouse_id_fkey");
     (negb (live (zn_deleted_at r)) ||
      unique_in (mkTable "" L_Zone zn_id (λ _ _, None)) d r
        (λ x, live (zn_deleted_at x) && String.eqb (zn_warehouse_id x) (zn_warehouse_id r)
              && String.eqb (zn_code x) (zn_code r)),
      "uq_warehouse_zones_wh_code_active")]).

Definition T_Rack : Table Rack := mkTable "warehouse_racks" L_Rack rk_id
  (λ d r, constraints
    [(references T_Zone d (rk_zone_id r), "warehouse_racks_zone_id_fkey");
     (negb (live (rk_deleted_at r)) ||
      unique_in (mkTable "" L_Rack rk_id (λ _ _, None)) d r
        (λ x, live (rk_deleted_at x) && String.eqb (rk_zone_id x) (rk_zone_id r)
              && String.eqb (rk_code x) (rk_code r)),
      "uq_warehouse_racks_zone_code_active")]).

Definition T_Bin : Table Bin := mkTable "warehouse_bins" L_Bin bn_id
  (λ d r, constraints
    [(references T_Rack d (bn_rack_id r), "warehouse_bins_rack_id_fkey");
     (negb (live (bn_deleted_at r)) ||
      unique_in (mkTable "" L_Bin bn_id (λ _ _, None)) d r
        (λ x, live (bn_deleted_at x) && String.eqb (bn_rack_id x) (bn_rack_id r)
              && String.eqb (bn_code x) (bn_code r)),
      "uq_warehouse_bins_rack_code_active");
     (negb (live (bn_deleted_at r)) ||
      unique_in (mkTable "" L_Bin bn_id (λ _ _, None)) d r
        (λ x, live (bn_deleted_at x) && same_opt (bn_barcode x) (bn_barcode r)),
      "uq_warehouse_bins_barcode_active")]).


Definition T_Supplier : Table Supplier := mkTable "suppliers" L_Supplier su_id (λ _ _, None).

Definition T_Inventory : Table Inventory := mkTable "inventory" L_Inventory iv_id
  (λ d r, constraints
    [((0 <=? iv_available r) && int4 (iv_available r), "inventory_available_quantity_check");
     ((0 <=? iv_reserved r) && int4 (iv_reserved r), "inventory_reserved_quantity_check");
     ((0 <=? iv_damaged r) && int4 (iv_damaged r), "inventory_damaged_quantity_check");
     ((0 <=? iv_in_transit r) && int4 (iv_in_transit r), "inventory_in_transit_quantity_check");
     ((0 <=? iv_reorder_level r) && int4 (iv_reorder_level r), "inventory_reorder_level_check");
     (references T_Warehouse d (iv_warehouse_id r), "inventory_warehouse_id_fkey");
     (references T_Bin d (iv_bin_id r), "inventory_bin_id_fkey");
     (references T_ProductVariant d (iv_variant_id r), "inventory_variant_id_fkey");
     (negb (live (iv_deleted_at r)) ||
      unique_in (mkTable "" L_Inventory iv_id (λ _ _, None)) d r
        (λ x, live (iv_deleted_at x) && String.eqb (iv_bin_id x) (iv_bin_id r)
              && String.eqb (iv_variant_id x) (iv_variant_id r)),
      "uq_inventory_bin_variant_active")]).

Definition T_StockReservation : Table StockReservation :=
  mkTable "stock_reservations" L_StockReservation rv_id
  (λ d r, constraints
    [((0 <? rv_quantity r) && int4 (rv_quantity r), "stock_reservations_quantity_check");
     (references T_Warehouse d (rv_warehouse_id r), "stock_reservations_warehouse_id_fkey");
     (references T_ProductVariant d (rv_variant_id r), "stock_reservations_variant_id_fkey")]).

Definition T_InventoryMovement : Table InventoryMovement :=
  mkTable "inventory_movements" L_InventoryMovement mv_id
  (λ d r, constraints
    [(negb (mv_quantity r =? 0) && int4 (mv_quantity r), "inventory_movements_quantity_check");
     (references T_Warehouse d (mv_warehouse_id r), "inventory_movements_warehouse_id_fkey");
     (references T_ProductVariant d (mv_variant_id r), "inventory_movements_variant_id_fkey")]).

Definition T_InventoryAdjustment : Table InventoryAdjustment :=
  mkTable "inventory_adjustments" L_InventoryAdjustment ad_id
  (λ d r, constraints
    [(negb (ad_quantity_delta r =? 0) && int4 (ad_quantity_delta r),
      "inventory_adjustments_quantity_delta_check");
     (one_of ["cycle_count"; "damage"; "theft"; "write_off"; "found"; "correction"; "other"]
        (ad_reason r), "adjustment_reason");
     (references T_Warehouse d (ad_warehouse_id r), "inventory_adjustments_warehouse_id_fkey");
     (references T_ProductVariant d (ad_variant_id r), "inventory_adjustments_variant_id_fkey")]).

Definition T_LowStockAlert : Table LowStockAlert :=
  mkTable "low_stock_alerts" L_LowStockAlert al_id
  (λ d r, constraints
    [((0 <=? al_available r) && int4 (al_available r), "low_stock_alerts_available_quantity_check");
     ((0 <=? al_reorder_level r) && int4 (al_reorder_level r),
      "low_stock_alerts_reorder_level_check")]).

Definition T_PurchaseOrder : Table PurchaseOrder :=
  mkTable "purchase_orders" L_PurchaseOrder po_id
  (λ d r, constraints
    [(0 <=? po_subtotal r, "purchase_orders_subtotal_check");
     (0 <=? po_tax_total r, "purchase_orders_tax_total_check");
     (0 <=? po_grand_total r, "purchase_orders_grand_total_check");
     (references T_Supplier d (po_supplier_id r), "purchase_orders_supplier_id_fkey");
     (references T_Warehouse d (po_warehouse_id r), "purchase_orders_warehouse_id_fkey");
     (negb (live (po_deleted_at r)) ||
      unique_in (mkTable "" L_PurchaseOrder po_id (λ _ _, None)) d r
        (λ x, live (po_deleted_at x) && String.eqb (po_po_number x) (po_po_number r)),
      "uq_purchase_orders_po_number_active")]).

Definition T_PurchaseOrderItem : Table PurchaseOrderItem :=
  mkTable "purchase_order_items" L_PurchaseOrderItem pi_id
  (λ d r, constraints
    [((0 <? pi_quantity_ordered r) && int4 (pi_quantity_ordered r),
      "purchase_order_items_quantity_ordered_check");
     ((0 <=? pi_quantity_received r) && int4 (pi_quantity_received r),
      "purchase_order_items_quantity_received_check");
     (0 <=? pi_unit_cost r, "purchase_order_items_unit_cost_check");
     (0 <=? pi_tax_percent r, "purchase_order_items_tax_percent_check");
     (0 <=? pi_line_total r, "purchase_order_items_line_total_check");
     (pi_quantity_received r <=? pi_quantity_ordered r, "chk_po_item_received_lte_ordered");
     (references T_ProductVariant d (pi_variant_id r), "purchase_order_items_variant_id_fkey")]).

Definition T_SerialNumber : Table SerialNumber :=
  mkTable "serial_numbers" L_SerialNumber sn_id
  (λ d r, constraints
    [(references T_ProductVariant d (sn_variant_id r), "serial_numbers_variant_id_fkey");
     (match sn_refurbishment_status r with
      | Some x => one_of ["received"; "inspection"; "repair"; "testing"; "ready_for_sale";
                          "rejected"] x
      | None => true
      end, "refurbishment_status");
     (negb (live (sn_deleted_at r)) ||
      unique_in (mkTable "" L_SerialNumber sn_id (λ _ _, None)) d r
        (λ x, live (sn_deleted_at x) && String.eqb (sn_serial_number x) (sn_serial_number r)),
      "uq_serial_numbers_serial_active")]).

Definition T_GoodsReceipt : Table GoodsReceipt := mkTable "goods_receipts" L_GoodsReceipt gr_id
  (λ d r, constraints
    [(references_opt T_PurchaseOrder d (gr_purchase_order_id r),
      "goods_receipts_purchase_order_id_fkey");
     (references T_Supplier d (gr_supplier_id r), "goods_receipts_supplier_id_fkey");
     (references T_Warehouse d (gr_warehouse_id r), "goods_receipts_warehouse_id_fkey");
     (negb (live (gr_deleted_at r)) ||
      unique_in (mkTable "" L_GoodsReceipt gr_id (λ _ _, None)) d r
        (λ x, live (gr_deleted_at x) && String.eqb (gr_grn_number x) (gr_grn_number r)),
      "uq_goods_receipts_grn_number_active")]).

Definition T_GoodsReceiptItem : Table GoodsReceiptItem :=
  mkTable "goods_receipt_items" L_GoodsReceiptItem gi_id
  (λ d r, constraints
    [((0 <? gi_quantity_received r) && int4 (gi_quantity_received r),
      "goods_receipt_items_quantity_received_check");
     (match gi_unit_cost r with Some c => 0 <=? c | None => true end,
      "goods_receipt_items_unit_cost_check");
     (references_opt T_PurchaseOrderItem d (gi_purchase_order_item_id r),
      "goods_receipt_items_purchase_order_item_id_fkey");
     (references T_ProductVariant d (gi_variant_id r), "goods_receipt_items_variant_id_fkey")]).

Definition T_StockTransfer : Table StockTransfer :=
  mkTable "stock_transfers" L_StockTransfer tr_id
  (λ d r, constraints
    [(negb (String.eqb (tr_from_warehouse_id r) (tr_to_warehouse_id r)),
      "chk_transfer_different_wh");
     (references T_Warehouse d (tr_from_warehouse_id r), "stock_transfers_from_warehouse_id_fkey");
     (references T_Warehouse d (tr_to_warehouse_id r), "stock_transfers_to_warehouse_id_fkey");
     (negb (live (tr_deleted_at r)) ||
      unique_in (mkTable "" L_StockTransfer tr_id (λ _ _, None)) d r
        (λ x, live (tr_deleted_at x) && String.eqb (tr_transfer_number x) (tr_transfer_number r)),
      "uq_stock_transfers_number_active")]).

Definition T_StockTransferItem : Table StockTransferItem :=
  mkTable "stock_transfer_items" L_StockTransferItem ti_id
  (λ d r, constraints
    [((0 <? ti_quantity r) && int4 (ti_quantity r), "stock_transfer_items_quantity_check");
     (references T_ProductVariant d (ti_variant_id r), "stock_transfer_items_variant_id_fkey")]).

Definition T_CycleCountJob : Table CycleCountJob :=
  mkTable "cycle_count_jobs" L_CycleCountJob cc_id
  (λ d r, constraints
    [(references T_Warehouse d (cc_warehouse_id r), "cycle_count_jobs_warehouse_id_fkey");
     (negb (live (cc_deleted_at r)) ||
      unique_in (mkTable "" L_CycleCountJob cc_id (λ _ _, None)) d r
        (λ x, live (cc_deleted_at x) && String.eqb (cc_job_number x) (cc_job_number r)),
      "uq_cycle_count_jobs_number_active")]).

(** ** Users and authentication ([001_initial.sql], [002_indexes.sql]) *)

(** [u.email] is CITEXT: it is compared without regard to case. *)
Definition same_citext (a b : option string) : bool :=
  match a, b with Some x, Some y => String.eqb (toLowerCase x) (toLowerCase y) | _, _ => false end.

Definition T_User : Table User := mkTable "users" L_User us_id
  (λ d r, constraints
    [((0 <=? us_failed_login_count r) && int4 (us_failed_login_count r),
      "users_failed_login_count_check");
     (match us_email r, us_mobile r with None, None => false | _, _ => true end,
      "chk_users_contact");
     (negb (live (us_deleted_at r)) ||
      unique_in (mkTable "" L_User us_id (λ _ _, None)) d r
        (λ x, live (us_deleted_at x) && same_citext (us_email x) (us_email r)),
      "uq_users_email_active");
     (negb (live (us_deleted_at r)) ||
      unique_in (mkTable "" L_User us_id (λ _ _, None)) d r
        (λ x, live (us_deleted_at x) && same_opt (us_mobile x) (us_mobile r)),
      "uq_users_mobile_active")]).

Definition T_Role : Table Role := mkTable "roles" L_Role ro_id (λ _ _, None).

Definition T_Permission : Table Permission := mkTable "permissions" L_Permission pn_id
  (λ d r, constraints
    [(unique_live L_Permission pn_id pn_deleted_at d r (λ x, String.eqb (pn_code x) (pn_code r)),
      "uq_permissions_code_active");
     (unique_live L_Permission pn_id pn_deleted_at d r
        (λ x, String.eqb (pn_module x) (pn_module r) && String.eqb (pn_action x) (pn_action r)),
      "uq_permissions_module_action_active")]).

Definition T_RolePermission : Table RolePermission :=
  mkTable "role_permissions" L_RolePermission rp_id
  (λ d r, constraints
    [(references T_Role d (rp_role_id r), "role_permissions_role_id_fkey");
     (references T_Permission d (rp_permission_id r), "role_permissions_permission_id_fkey");
     (unique_live L_RolePermission rp_id rp_deleted_at d r
        (λ x, String.eqb (rp_role_id x) (rp_role_id r)
              && String.eqb (rp_permission_id x) (rp_permission_id r)),
      "uq_role_permissions_active")]).

Definition T_UserRole : Table UserRole := mkTable "user_roles" L_UserRole ur_id
  (λ d r, constraints
    [(references T_User d (ur_user_id r), "user_roles_user_id_fkey");
     (references T_Role d (ur_role_id r), "user_roles_role_id_fkey");
     (negb (live (ur_deleted_at r)) ||
      unique_in (mkTable "" L_UserRole ur_id (λ _ _, None)) d r
        (λ x, live (ur_deleted_at x) && String.eqb (ur_user_id x) (ur_user_id r)
              && String.eqb (ur_role_id x) (ur_role_id r)),
      "uq_user_roles_active")]).

Definition T_RefreshToken : Table RefreshToken := mkTable "refresh_tokens" L_RefreshToken tk_id
  (λ d r, constraints
    [(references T_User d (tk_user_id r), "refresh_tokens_user_id_fkey");
     (negb (live (tk_deleted_at r)) ||
      unique_in (mkTable "" L_RefreshToken tk_id (λ _ _, None)) d r
        (λ x, live (tk_deleted_at x) && String.eqb (tk_token_hash x) (tk_token_hash r)),
      "uq_refresh_tokens_token_hash")]).

Definition T_Session : Table Session := mkTable "sessions" L_Session se_id
  (λ d r, constraints
    [(references T_User d (se_user_id r), "sessions_user_id_fkey");
     (negb (live (se_deleted_at r)) ||
      unique_in (mkTable "" L_Session se_id (λ _ _, None)) d r
        (λ x, live (se_deleted_at x) &&
              String.eqb (se_session_token_hash x) (se_session_token_hash r)),
      "uq_sessions_token_hash")]).

Definition T_Otp : Table Otp := mkTable "otps" L_Otp ot_id
  (λ d r, constraints
    [((0 <=? ot_attempts r) && int4 (ot_attempts r), "otps_attempts_check");
     ((0 <? ot_max_attempts r) && int4 (ot_max_attempts r), "otps_max_attempts_check");
     (references_opt T_User d (ot_user_id r), "otps_user_id_fkey")]).

Definition T_OauthAccount : Table OauthAccount :=
  mkTable "oauth_accounts" L_OauthAccount ou_id
  (λ d r, constraints
    [(match ou_provider r with ap_google | ap_apple => true | _ => false end,
      "chk_oauth_provider");
     (references T_User d (ou_user_id r), "oauth_accounts_user_id_fkey");
     (negb (live (ou_deleted_at r)) ||
      unique_in (mkTable "" L_OauthAccount ou_id (λ _ _, None)) d r
        (λ x, live (ou_deleted_at x) && bool_decide (ou_provider x = ou_provider r)
              && String.eqb (ou_provider_user_id x) (ou_provider_user_id r)),
      "uq_oauth_accounts_provider_user_active")]).

Definition T_LoginAttempt : Table LoginAttempt :=
  mkTable "login_attempts" L_LoginAttempt la_id
  (λ d r, constraints
    [(references_opt T_User d (la_user_id r), "login_attempts_user_id_fkey")]).

Definition T_AuditLog : Table AuditLog := mkTable "audit_logs" L_AuditLog lg_id
  (λ _ _, None).

(** ** Coupons ([010_orders.sql], [011_order_indexes.sql]) *)

Definition at_least_opt (lo : Z) (z : option Z) : bool :=
  match z with Some z => lo <=? z | None => true end.

Definition T_Coupon : Table Coupon := mkTable "coupons" L_Coupon co_id
  (λ d r, constraints
    [(0 <=? co_discount_value r, "coupons_discount_value_check");
     (at_least_opt 0 (co_min_cart_value r), "coupons_min_cart_value_check");
     (at_least_opt 0 (co_max_discount r), "coupons_max_discount_check");
     (at_least_opt 1 (co_usage_limit r) && from_option int4 true (co_usage_limit r),
      "coupons_usage_limit_check");
     (at_least_opt 1 (co_per_user_limit r) && from_option int4 true (co_per_user_limit r),
      "coupons_per_user_limit_check");
     (match co_expires_at r, co_starts_at r with Some e, Some b => b <=? e | _, _ => true end,
      "chk_coupon_dates");
     (negb (live (co_deleted_at r)) ||
      unique_in (mkTable "" L_Coupon co_id (λ _ _, None)) d r
        (λ x, live (co_deleted_at x) && String.eqb (co_code x) (co_code r)),
      "uq_coupons_code_active")]).

Definition T_CouponRule : Table CouponRule := mkTable "coupon_rules" L_CouponRule cl_id
  (λ d r, constraints
    [(references T_Coupon d (cl_coupon_id r), "coupon_rules_coupon_id_fkey")]).

(** ** Orders ([010_orders.sql], [011_order_indexes.sql], [013_order_extensions.sql]) *)

Definition T_Cart : Table Cart := mkTable "carts" L_Cart ca_id (λ _ _, None).

Definition T_CartItem : Table CartItem := mkTable "cart_items" L_CartItem ci_id
  (λ d r, constraints
    [((0 <? ci_quantity r) && int4 (ci_quantity r), "cart_items_quantity_check");
     (0 <=? ci_unit_price r, "cart_items_unit_price_check");
     (references T_Cart d (ci_cart_id r), "cart_items_cart_id_fkey");
     (references T_ProductVariant d (ci_variant_id r), "cart_items_variant_id_fkey");
     (negb (live (ci_deleted_at r)) ||
      unique_in (mkTable "" L_CartItem ci_id (λ _ _, None)) d r
        (λ x, live (ci_deleted_at x) && String.eqb (ci_cart_id x) (ci_cart_id r)
              && String.eqb (ci_variant_id x) (ci_variant_id r)),
      "uq_cart_items_cart_variant_active")]).

Definition T_Order : Table Order := mkTable "orders" L_Order od_id
  (λ d r, constraints
    [(0 <=? od_subtotal r, "orders_subtotal_check");
     (0 <=? od_discount_total r, "orders_discount_total_check");
     (0 <=? od_tax_total r, "orders_tax_total_check");
     (0 <=? od_shipping_charge r, "orders_shipping_charge_check");
     (0 <=? od_grand_total r, "orders_grand_total_check");
     (references_opt T_Cart d (od_cart_id r), "orders_cart_id_fkey");
     (references_opt T_Coupon d (od_coupon_id r), "orders_coupon_id_fkey");
     (references_opt T_Warehouse d (od_fulfillment_warehouse_id r),
      "orders_fulfillment_warehouse_id_fkey");
     (negb (live (od_deleted_at r)) ||
      unique_in (mkTable "" L_Order od_id (λ _ _, None)) d r
        (λ x, live (od_deleted_at x) && String.eqb (od_order_number x) (od_order_number r)),
      "uq_orders_order_number_active")]).

Definition T_CouponUsage : Table CouponUsage := mkTable "coupon_usage" L_CouponUsage cu_id
  (λ d r, constraints
    [(0 <=? cu_discount_amount r, "coupon_usage_discount_amount_check");
     (references T_Coupon d (cu_coupon_id r), "coupon_usage_coupon_id_fkey");
     (references_opt T_User d (cu_user_id r), "coupon_usage_user_id_fkey");
     (references_opt T_Order d (cu_order_id r), "coupon_usage_order_id_fkey")]).

Definition T_OrderItem : Table OrderItem := mkTable "order_items" L_OrderItem oi_id
  (λ d r, constraints
    [((0 <? oi_quantity r) && int4 (oi_quantity r), "order_items_quantity_check");
     (0 <=? oi_unit_price r, "order_items_unit_price_check");
     (0 <=? oi_line_total r, "order_items_line_total_check");
     (references T_Order d (oi_order_id r), "order_items_order_id_fkey");
     (references T_ProductVariant d (oi_variant_id r), "order_items_variant_id_fkey")]).

Definition T_OrderAddress : Table OrderAddress := mkTable "order_addresses" L_OrderAddress oa_id
  (λ d r, constraints
    [(references T_Order d (oa_order_id r), "order_addresses_order_id_fkey");
     (negb (live (oa_deleted_at r)) ||
      unique_in (mkTable "" L_OrderAddress oa_id (λ _ _, None)) d r
        (λ x, live (oa_deleted_at x) && String.eqb (oa_order_id x) (oa_order_id r)
              && String.eqb (oa_address_type x) (oa_address_type r)),
      "uq_order_addresses_order_type_active")]).

Definition T_OrderStatusHistory : Table OrderStatusHistory :=
  mkTable "order_status_history" L_OrderStatusHistory oh_id
  (λ d r, constraints
    [(references T_Order d (oh_order_id r), "order_status_history_order_id_fkey")]).

Definition T_OrderRiskScore : Table OrderRiskScore :=
  mkTable "order_risk_scores" L_OrderRiskScore ok_id
  (λ d r, constraints
    [((0 <=? ok_score r) && (ok_score r <=? 100), "order_risk_scores_score_check");
     (references T_Order d (ok_order_id r), "order_risk_scores_order_id_fkey");
     (unique_in (mkTable "" L_OrderRiskScore ok_id (λ _ _, None)) d r
        (λ x, String.eqb (ok_order_id x) (ok_order_id r)), "order_risk_scores_order_id_key")]).

Definition T_GiftCard : Table GiftCard := mkTable "gift_cards" L_GiftCard gc_id
  (λ d r, constraints [(0 <=? gc_remaining_balance r, "gift_cards_remaining_balance_check")]).

Definition T_Wallet : Table Wallet := mkTable "wallets" L_Wallet wa_id
  (λ d r, constraints [(0 <=? wa_balance r, "wallets_balance_check")]).

Definition T_Return : Table Return := mkTable "returns" L_Return rt_id
  (λ d r, constraints
    [(references T_Order d (rt_order_id r), "returns_order_id_fkey");
     (unique_in (mkTable "" L_Return rt_id (λ _ _, None)) d r
        (λ x, String.eqb (rt_return_number x) (rt_return_number r)),
      "uq_returns_return_number_active")]).

Definition T_ReturnItem : Table ReturnItem := mkTable "return_items" L_ReturnItem rn_id
  (λ d r, constraints
    [((0 <? rn_quantity r) && int4 (rn_quantity r), "return_items_quantity_check");
     (references T_Return d (rn_return_id r), "return_items_return_id_fkey");
     (references T_OrderItem d (rn_order_item_id r), "return_items_order_item_id_fkey")]).

Definition T_ExchangeRequest : Table ExchangeRequest :=
  mkTable "exchange_requests" L_ExchangeRequest ex_id
  (λ d r, constraints
    [(references T_Order d (ex_order_id r), "exchange_requests_order_id_fkey");
     (references T_OrderItem d (ex_order_item_id r), "exchange_requests_order_item_id_fkey");
     (references T_ProductVariant d (ex_from_variant_id r),
      "exchange_requests_from_variant_id_fkey");
     (references_opt T_ProductVariant d (ex_to_variant_id r),
      "exchange_requests_to_variant_id_fkey");
     (unique_in (mkTable "" L_ExchangeRequest ex_id (λ _ _, None)) d r
        (λ x, String.eqb (ex_exchange_number x) (ex_exchange_number r)),
      "uq_exchange_requests_number_active")]).

Definition T_FulfillmentOrder : Table FulfillmentOrder :=
  mkTable "fulfillment_orders" L_FulfillmentOrder fo_id
  (λ d r, constraints
    [(references T_Order d (fo_order_id r), "fulfillment_orders_order_id_fkey");
     (references T_Warehouse d (fo_warehouse_id r), "fulfillment_orders_warehouse_id_fkey");
     (negb (live (fo_deleted_at r)) ||
      unique_in (mkTable "" L_FulfillmentOrder fo_id (λ _ _, None)) d r
        (λ x, live (fo_deleted_at x) &&
              String.eqb (fo_fulfillment_number x) (fo_fulfillment_number r)),
      "uq_fulfillment_orders_number_active")]).

Definition T_FulfillmentItem : Table FulfillmentItem :=
  mkTable "fulfillment_items" L_FulfillmentItem fi_id
  (λ d r, constraints
    [((0 <? fi_quantity r) && int4 (fi_quantity r), "fulfillment_items_quantity_check");
     (references T_OrderItem d (fi_order_item_id r), "fulfillment_items_order_item_id_fkey")]).

(** Pick lists and packing lists, told apart by [wl_kind]. *)
Definition T_WarehouseList : Table WarehouseList :=
  mkTable "pick_lists, packing_lists" L_WarehouseList wl_id
  (λ d r, constraints
    [(references T_FulfillmentOrder d (wl_fulfillment_order_id r),
      "pick_lists_fulfillment_order_id_fkey");
     (unique_in (mkTable "" L_WarehouseList wl_id (λ _ _, None)) d r
        (λ x, String.eqb (wl_kind x) (wl_kind r) && String.eqb (wl_number x) (wl_number r)),
      "uq_pick_lists_number_active")]).

Definition T_Wishlist : Table Wishlist := mkTable "wishlists" L_Wishlist wi_id (λ _ _, None).

Definition T_WishlistItem : Table WishlistItem := mkTable "wishlist_items" L_WishlistItem wk_id
  (λ d r, constraints
    [(references T_Wishlist d (wk_wishlist_id r), "wishlist_items_wishlist_id_fkey");
     (references T_ProductVariant d (wk_variant_id r), "wishlist_items_variant_id_fkey");
     (negb (live (wk_deleted_at r)) ||
      unique_in (mkTable "" L_WishlistItem wk_id (λ _ _, None)) d r
        (λ x, live (wk_deleted_at x) && String.eqb (wk_wishlist_id x) (wk_wishlist_id r)
              && String.eqb (wk_variant_id x) (wk_variant_id r)),
      "uq_wishlist_items_wishlist_variant_active")]).

Definition T_Invoice : Table Invoice := mkTable "invoices" L_Invoice in_id
  (λ d r, constraints
    [(0 <=? in_subtotal r, "invoices_subtotal_check");
     (0 <=? in_discount_total r, "invoices_discount_total_check");
     (0 <=? in_shipping_charge r, "invoices_shipping_charge_check");
     (0 <=? in_grand_total r, "invoices_grand_total_check");
     (references T_Order d (in_order_id r), "invoices_order_id_fkey");
     (negb (live (in_deleted_at r)) ||
      unique_in (mkTable "" L_Invoice in_id (λ _ _, None)) d r
        (λ x, live (in_deleted_at x) && String.eqb (in_invoice_number x) (in_invoice_number r)),
      "uq_invoices_invoice_number_active")]).

Definition T_InvoiceItem : Table InvoiceItem := mkTable "invoice_items" L_InvoiceItem ii_id
  (λ d r, constraints
    [((0 <? ii_quantity r) && int4 (ii_quantity r), "invoice_items_quantity_check");
     (0 <=? ii_unit_price r, "invoice_items_unit_price_check");
     (0 <=? ii_line_total r, "invoice_items_line_total_check");
     (references T_ProductVariant d (ii_variant_id r), "invoice_items_variant_id_fkey")]).

(** ** Marketing ([034_marketing.sql] to [038_marketing_extension_indexes.sql]) *)

Definition T_LoyaltyAccount : Table LoyaltyAccount :=
  mkTable "loyalty_accounts" L_LoyaltyAccount ly_id
  (λ d r, constraints
    [((0 <=? ly_points_balance r) && int4 (ly_points_balance r),
      "loyalty_accounts_points_balance_check");
     ((0 <=? ly_lifetime_points r) && int4 (ly_lifetime_points r),
      "loyalty_accounts_lifetime_points_check");
     (references T_User d (ly_customer_id r), "loyalty_accounts_customer_id_fkey");
     (unique_live L_LoyaltyAccount ly_id ly_deleted_at d r
        (λ x, String.eqb (ly_customer_id x) (ly_customer_id r)),
      "uq_loyalty_accounts_customer_active")]).

Definition T_LoyaltyTransaction : Table LoyaltyTransaction :=
  mkTable "loyalty_transactions" L_LoyaltyTransaction lt_id
  (λ d r, constraints
    [(int4 (lt_points r), "loyalty_transactions_points_range");
     ((0 <=? lt_balance_after r) && int4 (lt_balance_after r),
      "loyalty_transactions_balance_after_check");
     (references T_LoyaltyAccount d (lt_account_id r), "loyalty_transactions_account_id_fkey")]).

Definition T_RewardRule : Table RewardRule := mkTable "reward_rules" L_RewardRule rw_id
  (λ d r, constraints
    [(at_least_opt 0 (rw_points_per_rupee r), "reward_rules_points_per_rupee_check");
     (at_least_opt 0 (rw_fixed_points r), "reward_rules_fixed_points_check");
     (at_least_opt 0 (rw_min_order_amount r), "reward_rules_min_order_amount_check");
     (at_least_opt 1 (rw_expiry_days r), "reward_rules_expiry_days_check");
     (unique_live L_RewardRule rw_id rw_deleted_at d r (λ x, String.eqb (rw_code x) (rw_code r)),
      "uq_reward_rules_code_active")]).

Definition T_ReferralProgram : Table ReferralProgram :=
  mkTable "referral_programs" L_ReferralProgram rg_id
  (λ d r, constraints
    [((0 <=? rg_referrer_points r) && int4 (rg_referrer_points r),
      "referral_programs_referrer_points_check");
     ((0 <=? rg_referee_points r) && int4 (rg_referee_points r),
      "referral_programs_referee_points_check");
     (unique_live L_ReferralProgram rg_id rg_deleted_at d r
        (λ x, String.eqb (rg_code x) (rg_code r)), "uq_referral_programs_code_active")]).

Definition T_ReferralReward : Table ReferralReward :=
  mkTable "referral_rewards" L_ReferralReward rx_id
  (λ d r, constraints
    [((0 <=? rx_points_awarded r) && int4 (rx_points_awarded r),
      "referral_rewards_points_awarded_check");
     (references T_ReferralProgram d (rx_program_id r), "referral_rewards_program_id_fkey");
     (references T_User d (rx_referrer_id r), "referral_rewards_referrer_id_fkey");
     (references T_User d (rx_referee_id r), "referral_rewards_referee_id_fkey")]).

Definition T_FeatureFlag : Table FeatureFlag := mkTable "feature_flags" L_FeatureFlag ff_id
  (λ d r, constraints
    [(unique_live L_FeatureFlag ff_id ff_deleted_at d r (λ x, String.eqb (ff_code x) (ff_code r)),
      "uq_feature_flags_code_active")]).

Definition T_FeatureFlagRule : Table FeatureFlagRule :=
  mkTable "feature_flag_rules" L_FeatureFlagRule fr_id
  (λ d r, constraints
    [(match fr_rollout_percent r with Some p => (0 <=? p) && (p <=? 10000) | None => true end,
      "feature_flag_rules_rollout_percent_check");
     (references T_FeatureFlag d (fr_flag_id r), "feature_flag_rules_flag_id_fkey")]).

Definition T_AbTest : Table AbTest := mkTable "ab_tests" L_AbTest ab_id
  (λ d r, constraints
    [(unique_live L_AbTest ab_id ab_deleted_at d r (λ x, String.eqb (ab_code x) (ab_code r)),
      "uq_ab_tests_code_active")]).

Definition T_AbTestVariant : Table AbTestVariant :=
  mkTable "ab_test_variants" L_AbTestVariant av_id
  (λ d r, constraints
    [((0 <? av_weight_percent r) && (av_weight_percent r <=? 10000),
      "ab_test_variants_weight_percent_check");
     (references T_AbTest d (av_test_id r), "ab_test_variants_test_id_fkey");
     (unique_live L_AbTestVariant av_id av_deleted_at d r
        (λ x, String.eqb (av_test_id x) (av_test_id r) && String.eqb (av_code x) (av_code r)),
      "uq_ab_test_variants_test_code_active")]).

Definition T_AbTestResult : Table AbTestResult := mkTable "ab_test_results" L_AbTestResult ar_id
  (λ d r, constraints
    [(0 <=? ar_sample_size r, "ab_test_results_sample_size_check");
     (references T_AbTest d (ar_test_id r), "ab_test_results_test_id_fkey");
     (references T_AbTestVariant d (ar_variant_id r), "ab_test_results_variant_id_fkey")]).

(** The campaigns of the four channels, told apart by [cg_kind]. *)
Definition T_Campaign : Table Campaign := mkTable "campaigns" L_Campaign cg_id (λ _ _, None).

Definition T_SearchKeyword : Table SearchKeyword :=
  mkTable "search_keywords" L_SearchKeyword sk_id
  (λ d r, constraints
    [(int4 (sk_boost r), "search_keywords_boost_range");
     (unique_live L_SearchKeyword sk_id sk_deleted_at d r
        (λ x, String.eqb (sk_keyword x) (sk_keyword r)), "uq_search_keywords_keyword_active")]).

Definition T_SearchSynonym : Table SearchSynonym :=
  mkTable "search_synonyms" L_SearchSynonym sy_id
  (λ d r, constraints
    [(references T_SearchKeyword d (sy_keyword_id r), "search_synonyms_keyword_id_fkey");
     (unique_live L_SearchSynonym sy_id sy_deleted_at d r
        (λ x, String.eqb (sy_keyword_id x) (sy_keyword_id r)
              && String.eqb (sy_synonym x) (sy_synonym r)),
      "uq_search_synonyms_keyword_synonym_active")]).

Definition T_PopularSearch : Table PopularSearch :=
  mkTable "popular_searches" L_PopularSearch ps_id
  (λ d r, constraints
    [(0 <=? ps_search_count r, "popular_searches_search_count_check");
     (unique_live L_PopularSearch ps_id ps_deleted_at d r
        (λ x, String.eqb (ps_keyword x) (ps_keyword r)), "uq_popular_searches_keyword_active")]).

(** ** Payments ([016_payments.sql], [017_payment_indexes.sql], [019], [020]) *)

Definition T_Gateway : Table Gateway := mkTable "payment_gateways" L_Gateway gw_id
  (λ _ _, None).

Definition T_Payment : Table Payment := mkTable "payments" L_Payment pm_id
  (λ d r, constraints
    [(0 <=? pm_amount r, "payments_amount_check");
     (0 <=? pm_refunded_amount r, "payments_refunded_amount_check");
     (pm_refunded_amount r <=? pm_amount r, "chk_payment_refunded_lte_amount");
     (references T_Order d (pm_order_id r), "payments_order_id_fkey");
     (references T_Gateway d (pm_gateway_id r), "payments_gateway_id_fkey");
     (negb (live (pm_deleted_at r)) ||
      unique_in (mkTable "" L_Payment pm_id (λ _ _, None)) d r
        (λ x, live (pm_deleted_at x) &&
              same_opt (pm_gateway_payment_id x) (pm_gateway_payment_id r)),
      "uq_payments_gateway_payment_id_active")]).

Definition T_PaymentAttempt : Table PaymentAttempt :=
  mkTable "payment_attempts" L_PaymentAttempt pa_id
  (λ d r, constraints
    [((0 <? pa_attempt_number r) && int4 (pa_attempt_number r),
      "payment_attempts_attempt_number_check");
     (references T_Payment d (pa_payment_id r), "payment_attempts_payment_id_fkey");
     (negb (live (pa_deleted_at r)) ||
      unique_in (mkTable "" L_PaymentAttempt pa_id (λ _ _, None)) d r
        (λ x, live (pa_deleted_at x) && String.eqb (pa_payment_id x) (pa_payment_id r)
              && (pa_attempt_number x =? pa_attempt_number r)),
      "uq_payment_attempts_payment_number_active")]).

Definition T_PaymentTransaction : Table PaymentTransaction :=
  mkTable "payment_transactions" L_PaymentTransaction pt_id
  (λ d r, constraints
    [(0 <=? pt_amount r, "payment_transactions_amount_check");
     (references T_Payment d (pt_payment_id r), "payment_transactions_payment_id_fkey")]).

Definition T_PaymentAuditLog : Table PaymentAuditLog :=
  mkTable "payment_audit_logs" L_PaymentAuditLog pl_id
  (λ d r, constraints
    [(references T_Payment d (pl_payment_id r), "payment_audit_logs_payment_id_fkey")]).

Definition T_PaymentEvent : Table PaymentEvent := mkTable "payment_events" L_PaymentEvent pe_id
  (λ d r, constraints
    [(references T_Payment d (pe_payment_id r), "payment_events_payment_id_fkey")]).

Definition T_Refund : Table Refund := mkTable "refunds" L_Refund rf_id
  (λ d r, constraints
    [(0 <? rf_amount r, "refunds_amount_check");
     (references T_Payment d (rf_payment_id r), "refunds_payment_id_fkey");
     (references T_Order d (rf_order_id r), "refunds_order_id_fkey");
     (negb (live (rf_deleted_at r)) ||
      unique_in (mkTable "" L_Refund rf_id (λ _ _, None)) d r
        (λ x, live (rf_deleted_at x) && String.eqb (rf_refund_number x) (rf_refund_number r)),
      "uq_refunds_refund_number_active")]).

Definition T_PaymentSettlement : Table PaymentSettlement :=
  mkTable "payment_settlements" L_PaymentSettlement pst_id
  (λ d r, constraints
    [(0 <=? pst_expected_amount r, "payment_settlements_expected_amount_check");
     (0 <=? pst_received_amount r, "payment_settlements_received_amount_check");
     (0 <=? pst_fee_amount r, "payment_settlements_fee_amount_check");
     (0 <=? pst_tax_amount r, "payment_settlements_tax_amount_check");
     (references T_Gateway d (pst_gateway_id r), "payment_settlements_gateway_id_fkey");
     (negb (live (pst_deleted_at r)) ||
      unique_in (mkTable "" L_PaymentSettlement pst_id (λ _ _, None)) d r
        (λ x, live (pst_deleted_at x) && String.eqb (pst_gateway_id x) (pst_gateway_id r)
              && String.eqb (pst_settlement_ref x) (pst_settlement_ref r)),
      "uq_payment_settlements_ref_active")]).

Definition T_PaymentReconciliation : Table PaymentReconciliation :=
  mkTable "payment_reconciliation" L_PaymentReconciliation prc_id
  (λ d r, constraints
    [(references_opt T_PaymentSettlement d (prc_settlement_id r),
      "payment_reconciliation_settlement_id_fkey");
     (references_opt T_Payment d (prc_payment_id r), "payment_reconciliation_payment_id_fkey")]).

Definition T_PaymentDispute : Table PaymentDispute :=
  mkTable "payment_disputes" L_PaymentDispute pdi_id
  (λ d r, constraints
    [(0 <? pdi_amount r, "payment_disputes_amount_check");
     (references T_Payment d (pdi_payment_id r), "payment_disputes_payment_id_fkey");
     (references T_Order d (pdi_order_id r), "payment_disputes_order_id_fkey")]).

Definition T_RefundItem : Table RefundItem := mkTable "refund_items" L_RefundItem ri_id
  (λ d r, constraints
    [(0 <=? ri_amount r, "refund_items_amount_check");
     (match ri_quantity r with Some q => (0 <? q) && int4 q | None => true end,
      "refund_items_quantity_check");
     (references_opt T_OrderItem d (ri_order_item_id r), "refund_items_order_item_id_fkey")]).

Definition T_PaymentWebhook : Table PaymentWebhook :=
  mkTable "payment_webhooks" L_PaymentWebhook wb_id
  (λ d r, constraints
    [((0 <=? wb_retry_count r) && int4 (wb_retry_count r), "payment_webhooks_retry_count_check");
     (references T_Gateway d (wb_gateway_id r), "payment_webhooks_gateway_id_fkey");
     (negb (live (wb_deleted_at r)) ||
      unique_in (mkTable "" L_PaymentWebhook wb_id (λ _ _, None)) d r
        (λ x, live (wb_deleted_at x) && String.eqb (wb_gateway_id x) (wb_gateway_id r)
              && String.eqb (wb_idempotency_key x) (wb_idempotency_key r)),
      "uq_payment_webhooks_idempotency_active")]).

Definition T_SavedPaymentMethod : Table SavedPaymentMethod :=
  mkTable "saved_payment_methods" L_SavedPaymentMethod sp_id
  (λ d r, constraints
    [(match sp_expiry_month r with Some m => (1 <=? m) && (m <=? 12) | None => true end,
      "saved_payment_methods_expiry_month_check");
     (match sp_expiry_year r with Some y => (2000 <=? y) && int4 y | None => true end,
      "saved_payment_methods_expiry_year_check");
     (references T_Gateway d (sp_gateway_id r), "saved_payment_methods_gateway_id_fkey");
     (negb (live (sp_deleted_at r)) ||
      unique_in (mkTable "" L_SavedPaymentMethod sp_id (λ _ _, None)) d r
        (λ x, live (sp_deleted_at x) && String.eqb (sp_gateway_id x) (sp_gateway_id r)
              && String.eqb (sp_token x) (sp_token r)),
      "uq_saved_payment_methods_gateway_token_active");
     (negb (live (sp_deleted_at r) && sp_is_default r) ||
      unique_in (mkTable "" L_SavedPaymentMethod sp_id (λ _ _, None)) d r
        (λ x, live (sp_deleted_at x) && sp_is_default x
              && String.eqb (sp_customer_id x) (sp_customer_id r)),
      "uq_saved_payment_methods_customer_default_active")]).

(** ** Shipping ([022_shipping.sql], [023_shipping_indexes.sql],
    [025_shipping_extensions.sql], [026_shipping_extension_indexes.sql]) *)

Definition non_negative (v : option Z) : bool := match v with Some z => 0 <=? z | None => true end.
Definition positive (v : option Z) : bool := match v with Some z => 0 <? z | None => true end.

Definition T_ShippingPartner : Table ShippingPartner :=
  mkTable "shipping_partners" L_ShippingPartner spr_id
  (λ d r, constraints
    [(negb (live (spr_deleted_at r)) ||
      unique_in (mkTable "" L_ShippingPartner spr_id (λ _ _, None)) d r
        (λ x, live (spr_deleted_at x) && bool_decide (spr_code x = spr_code r)),
      "uq_shipping_partners_code_active");
     (negb (live (spr_deleted_at r) && spr_is_primary r) ||
      unique_in (mkTable "" L_ShippingPartner spr_id (λ _ _, None)) d r
        (λ x, live (spr_deleted_at x) && spr_is_primary x),
      "uq_shipping_partners_primary_active")]).

Definition T_ShippingService : Table ShippingService :=
  mkTable "shipping_services" L_ShippingService ssv_id
  (λ d r, constraints
    [(references T_ShippingPartner d (ssv_partner_id r), "shipping_services_partner_id_fkey");
     (negb (live (ssv_deleted_at r)) ||
      unique_in (mkTable "" L_ShippingService ssv_id (λ _ _, None)) d r
        (λ x, live (ssv_deleted_at x) && String.eqb (ssv_partner_id x) (ssv_partner_id r)
              && String.eqb (ssv_code x) (ssv_code r)),
      "uq_shipping_services_partner_code_active")]).

Definition T_ShippingZone : Table ShippingZone :=
  mkTable "shipping_zones" L_ShippingZone szn_id
  (λ d r, constraints
    [(negb (live (szn_deleted_at r)) ||
      unique_in (mkTable "" L_ShippingZone szn_id (λ _ _, None)) d r
        (λ x, live (szn_deleted_at x) && String.eqb (szn_code x) (szn_code r)),
      "uq_shipping_zones_code_active")]).

Definition T_ShippingRateCard : Table ShippingRateCard :=
  mkTable "shipping_rate_cards" L_ShippingRateCard src_id
  (λ d r, constraints
    [(references T_ShippingPartner d (src_partner_id r), "shipping_rate_cards_partner_id_fkey");
     (references_opt T_ShippingService d (src_service_id r),
      "shipping_rate_cards_service_id_fkey")]).

Definition T_ShippingRate : Table ShippingRate :=
  mkTable "shipping_rates" L_ShippingRate srt_id
  (λ d r, constraints
    [(0 <=? srt_min_weight_kg r, "shipping_rates_min_weight_kg_check");
     (match srt_max_weight_kg r with Some m => srt_min_weight_kg r <=? m | None => true end,
      "shipping_rates_check");
     (0 <=? srt_base_rate r, "shipping_rates_base_rate_check");
     (0 <=? srt_per_kg_rate r, "shipping_rates_per_kg_rate_check");
     (references T_ShippingRateCard d (srt_rate_card_id r), "shipping_rates_rate_card_id_fkey");
     (references_opt T_ShippingZone d (srt_from_zone_id r), "shipping_rates_from_zone_id_fkey");
     (references_opt T_ShippingZone d (srt_to_zone_id r), "shipping_rates_to_zone_id_fkey")]).

Definition T_PickupRequest : Table PickupRequest :=
  mkTable "pickup_requests" L_PickupRequest pkr_id
  (λ d r, constraints
    [((0 <? pkr_package_count r) && int4 (pkr_package_count r),
      "pickup_requests_package_count_check");
     (references T_Warehouse d (pkr_warehouse_id r), "pickup_requests_warehouse_id_fkey");
     (references T_ShippingPartner d (pkr_partner_id r), "pickup_requests_partner_id_fkey")]).

Definition T_PickupPoint : Table PickupPoint := mkTable "pickup_points" L_PickupPoint ppt_id
  (λ d r, constraints
    [(references T_ShippingPartner d (ppt_partner_id r), "pickup_points_partner_id_fkey");
     (negb (live (ppt_deleted_at r)) ||
      unique_in (mkTable "" L_PickupPoint ppt_id (λ _ _, None)) d r
        (λ x, live (ppt_deleted_at x) && String.eqb (ppt_partner_id x) (ppt_partner_id r)
              && String.eqb (ppt_code x) (ppt_code r)),
      "uq_pickup_points_partner_code_active")]).

Definition T_Shipment : Table Shipment := mkTable "shipments" L_Shipment shp_id
  (λ d r, constraints
    [(0 <=? shp_shipping_charge r, "shipments_shipping_charge_check");
     (non_negative (shp_declared_value r), "shipments_declared_value_check");
     (non_negative (shp_total_weight_kg r), "shipments_total_weight_kg_check");
     (references T_Order d (shp_order_id r), "shipments_order_id_fkey");
     (references_opt T_FulfillmentOrder d (shp_fulfillment_order_id r),
      "shipments_fulfillment_order_id_fkey");
     (references T_Warehouse d (shp_warehouse_id r), "shipments_warehouse_id_fkey");
     (references T_ShippingPartner d (shp_partner_id r), "shipments_partner_id_fkey");
     (references_opt T_ShippingService d (shp_service_id r), "shipments_service_id_fkey");
     (references_opt T_PickupRequest d (shp_pickup_request_id r),
      "shipments_pickup_request_id_fkey");
     (references_opt T_OrderAddress d (shp_shipping_address_id r),
      "shipments_shipping_address_id_fkey");
     (negb (live (shp_deleted_at r)) ||
      unique_in (mkTable "" L_Shipment shp_id (λ _ _, None)) d r
        (λ x, live (shp_deleted_at x) && String.eqb (shp_shipment_number x) (shp_shipment_number r)),
      "uq_shipments_number_active")]).

Definition T_ShipmentPackage : Table ShipmentPackage :=
  mkTable "shipment_packages" L_ShipmentPackage spk_id
  (λ d r, constraints
    [(positive (spk_length_cm r), "shipment_packages_length_cm_check");
     (positive (spk_width_cm r), "shipment_packages_width_cm_check");
     (positive (spk_height_cm r), "shipment_packages_height_cm_check");
     (0 <? spk_weight_kg r, "shipment_packages_weight_kg_check");
     (non_negative (spk_declared_value r), "shipment_packages_declared_value_check");
     (references T_Shipment d (spk_shipment_id r), "shipment_packages_shipment_id_fkey");
     (negb (live (spk_deleted_at r)) ||
      unique_in (mkTable "" L_ShipmentPackage spk_id (λ _ _, None)) d r
        (λ x, live (spk_deleted_at x) && String.eqb (spk_shipment_id x) (spk_shipment_id r)
              && String.eqb (spk_package_number x) (spk_package_number r)),
      "uq_shipment_packages_number_active")]).

Definition T_ShipmentItem : Table ShipmentItem := mkTable "shipment_items" L_ShipmentItem sit_id
  (λ d r, constraints
    [((0 <? sit_quantity r) && int4 (sit_quantity r), "shipment_items_quantity_check");
     (references T_Shipment d (sit_shipment_id r), "shipment_items_shipment_id_fkey");
     (references T_OrderItem d (sit_order_item_id r), "shipment_items_order_item_id_fkey")]).

Definition T_AwbNumber : Table AwbNumber := mkTable "awb_numbers" L_AwbNumber awb_id
  (λ d r, constraints
    [(references T_ShippingPartner d (awb_partner_id r), "awb_numbers_partner_id_fkey");
     (references_opt T_Shipment d (awb_shipment_id r), "awb_numbers_shipment_id_fkey");
     (negb (live (awb_deleted_at r)) ||
      unique_in (mkTable "" L_AwbNumber awb_id (λ _ _, None)) d r
        (λ x, live (awb_deleted_at x) && String.eqb (awb_partner_id x) (awb_partner_id r)
              && String.eqb (awb_awb_number x) (awb_awb_number r)),
      "uq_awb_numbers_partner_awb_active")]).

Definition T_ShipmentLabel : Table ShipmentLabel :=
  mkTable "shipment_labels" L_ShipmentLabel slb_id
  (λ d r, constraints
    [(references T_Shipment d (slb_shipment_id r), "shipment_labels_shipment_id_fkey")]).

(** Prisma declares [shipment_id] unique, the SQL among live rows only. *)
Definition T_ShipmentTracking : Table ShipmentTracking :=
  mkTable "shipment_tracking" L_ShipmentTracking stk_id
  (λ d r, constraints
    [(references T_Shipment d (stk_shipment_id r), "shipment_tracking_shipment_id_fkey");
     (negb (live (stk_deleted_at r)) ||
      unique_in (mkTable "" L_ShipmentTracking stk_id (λ _ _, None)) d r
        (λ x, live (stk_deleted_at x) && String.eqb (stk_shipment_id x) (stk_shipment_id r)),
      "uq_shipment_tracking_shipment_active")]).

Definition T_TrackingEvent : Table TrackingEvent :=
  mkTable "tracking_events" L_TrackingEvent tev_id
  (λ d r, constraints
    [(references T_Shipment d (tev_shipment_id r), "tracking_events_shipment_id_fkey");
     (references_opt T_ShipmentTracking d (tev_tracking_id r),
      "tracking_events_tracking_id_fkey")]).

Definition T_ShipmentEtaHistory : Table ShipmentEtaHistory :=
  mkTable "shipment_eta_history" L_ShipmentEtaHistory eta_id
  (λ d r, constraints
    [(references T_Shipment d (eta_shipment_id r), "shipment_eta_history_shipment_id_fkey")]).

Definition T_DeliverySlot : Table DeliverySlot := mkTable "delivery_slots" L_DeliverySlot dsl_id
  (λ d r, constraints
    [(dsl_slot_start r <? dsl_slot_end r, "chk_delivery_slot_window");
     (references T_Shipment d (dsl_shipment_id r), "delivery_slots_shipment_id_fkey")]).

Definition T_ReverseShipment : Table ReverseShipment :=
  mkTable "reverse_shipments" L_ReverseShipment rsh_id
  (λ d r, constraints
    [(references T_Order d (rsh_order_id r), "reverse_shipments_order_id_fkey");
     (references_opt T_Return d (rsh_return_id r), "reverse_shipments_return_id_fkey");
     (references_opt T_ExchangeRequest d (rsh_exchange_request_id r),
      "reverse_shipments_exchange_request_id_fkey");
     (references T_Warehouse d (rsh_warehouse_id r), "reverse_shipments_warehouse_id_fkey");
     (references T_ShippingPartner d (rsh_partner_id r), "reverse_shipments_partner_id_fkey");
     (references_opt T_Shipment d (rsh_shipment_id r), "reverse_shipments_shipment_id_fkey");
     (negb (live (rsh_deleted_at r)) ||
      unique_in (mkTable "" L_ReverseShipment rsh_id (λ _ _, None)) d r
        (λ x, live (rsh_deleted_at x) && String.eqb (rsh_reverse_number x) (rsh_reverse_number r)),
      "uq_reverse_shipments_number_active")]).

Definition T_RtoShipment : Table RtoShipment := mkTable "rto_shipments" L_RtoShipment rto_id
  (λ d r, constraints
    [(references T_Shipment d (rto_forward_shipment_id r),
      "rto_shipments_forward_shipment_id_fkey");
     (references T_Warehouse d (rto_warehouse_id r), "rto_shipments_warehouse_id_fkey");
     (references T_ShippingPartner d (rto_partner_id r), "rto_shipments_partner_id_fkey")]).

Definition T_ShippingWebhook : Table ShippingWebhook :=
  mkTable "shipping_webhooks" L_ShippingWebhook swh_id
  (λ d r, constraints
    [((0 <=? swh_retry_count r) && int4 (swh_retry_count r),
      "shipping_webhooks_retry_count_check");
     (references T_ShippingPartner d (swh_partner_id r), "shipping_webhooks_partner_id_fkey");
     (references_opt T_Shipment d (swh_shipment_id r), "shipping_webhooks_shipment_id_fkey");
     (negb (live (swh_deleted_at r)) ||
      unique_in (mkTable "" L_ShippingWebhook swh_id (λ _ _, None)) d r
        (λ x, live (swh_deleted_at x) && String.eqb (swh_partner_id x) (swh_partner_id r)
              && same_opt (swh_idempotency_key x) (swh_idempotency_key r)),
      "uq_shipping_webhooks_idempotency_active")]).

(** ** Rows that passed their constraints *)

Lemma constraints_None cs : constraints cs = None → Forall (λ c, fst c = true) cs.
Proof.
  unfold constraints. destruct (find_first _ cs) as [[? ?]|] eqn:E; [done|]. intros _.
  apply find_first_None in E. eapply Forall_impl; [done|]. simpl. intros c.
  by intros ?%negb_false_iff.
Qed.

(** What a unique index says of the other rows. *)
Lemma unique_in_spec {A} (T : Table A) d r (p : A → bool) x :
  unique_in T d r p = true → x ∈ view (tbl T) d → pk T x ≠ pk T r → p x = false.
Proof.
  unfold unique_in. intros Hu%negb_true_iff Hx Hne. destruct (p x) eqn:Hp; [|done].
  rewrite <- Hu. symmetry. apply existsb_exists. exists x. split; [by apply list_elem_of_In|].
  rewrite Hp. by destruct (String.eqb_spec (pk T x) (pk T r)).
Qed.

(** Every checked condition of an accepted row, as hypotheses. *)
Ltac accepted H :=
  cbn [refused T_Inventory T_StockReservation T_InventoryMovement T_InventoryAdjustment
       T_PurchaseOrderItem T_StockTransferItem T_StockTransfer T_GoodsReceiptItem] in H;
  apply constraints_None in H;
  repeat match goal with
  | H : Forall _ (_ :: _) |- _ => apply Forall_cons in H as [? H]; cbn [fst] in *
  end; bool_to_prop.

(** A row the inventory table accepted has no negative quantity. *)
Definition quantities_ok (r : Inventory) : Prop :=
  0 <= iv_available r ∧ 0 <= iv_reserved r ∧ 0 <= iv_damaged r ∧ 0 <= iv_in_transit r.

Lemma accepted_quantities d r : refused T_Inventory d r = None → quantities_ok r.
Proof. intros Hr. accepted Hr. unfold quantities_ok. auto. Qed.

(** ** Warranty and service ([028_warranty.sql], [029_warranty_indexes.sql],
    [031_warranty_extensions.sql], [032_warranty_extension_indexes.sql]) *)

Definition T_WarrantyProvider : Table WarrantyProvider :=
  mkTable "warranty_providers" L_WarrantyProvider wpv_id
  (λ d r, constraints
    [(negb (live (wpv_deleted_at r)) ||
      unique_in (mkTable "" L_WarrantyProvider wpv_id (λ _ _, None)) d r
        (λ x, live (wpv_deleted_at x) && String.eqb (wpv_code x) (wpv_code r)),
      "uq_warranty_providers_code_active")]).

Definition T_WarrantyPlan : Table WarrantyPlan :=
  mkTable "warranty_plans" L_WarrantyPlan wpl_id
  (λ d r, constraints
    [((0 <? wpl_duration_months r) && int4 (wpl_duration_months r),
      "warranty_plans_duration_months_check");
     (non_negative (wpl_claim_limit r), "warranty_plans_claim_limit_check");
     (references T_WarrantyProvider d (wpl_provider_id r),
      "warranty_plans_provider_id_fkey");
     (negb (live (wpl_deleted_at r)) ||
      unique_in (mkTable "" L_WarrantyPlan wpl_id (λ _ _, None)) d r
        (λ x, live (wpl_deleted_at x) && String.eqb (wpl_provider_id x) (wpl_provider_id r) && String.eqb (wpl_code x) (wpl_code r)),
      "uq_warranty_plans_provider_code_active")]).

Definition T_WarrantyRegistration : Table WarrantyRegistration :=
  mkTable "warranty_registrations" L_WarrantyRegistration wrg_id
  (λ d r, constraints
    [(wrg_start_date r <=? wrg_end_date r, "chk_warranty_registration_dates");
     (references T_WarrantyPlan d (wrg_plan_id r),
      "warranty_registrations_plan_id_fkey");
     (references_opt T_Order d (wrg_order_id r),
      "warranty_registrations_order_id_fkey");
     (references_opt T_OrderItem d (wrg_order_item_id r),
      "warranty_registrations_order_item_id_fkey");
     (references_opt T_SerialNumber d (wrg_serial_number_id r),
      "warranty_registrations_serial_number_id_fkey");
     (references_opt T_ProductVariant d (wrg_variant_id r),
      "warranty_registrations_variant_id_fkey");
     (negb (live (wrg_deleted_at r)) ||
      unique_in (mkTable "" L_WarrantyRegistration wrg_id (λ _ _, None)) d r
        (λ x, live (wrg_deleted_at x) && String.eqb (wrg_registration_number x) (wrg_registration_number r)),
      "uq_warranty_registrations_number_active")]).

Definition T_WarrantyExtension : Table WarrantyExtension :=
  mkTable "warranty_extensions" L_WarrantyExtension wex_id
  (λ d r, constraints
    [(wex_start_date r <=? wex_end_date r, "chk_warranty_extension_dates");
     (non_negative (wex_purchase_amount r), "warranty_extensions_purchase_amount_check");
     (references T_WarrantyRegistration d (wex_registration_id r),
      "warranty_extensions_registration_id_fkey");
     (references T_WarrantyPlan d (wex_plan_id r),
      "warranty_extensions_plan_id_fkey")]).

Definition T_WarrantyClaim : Table WarrantyClaim :=
  mkTable "warranty_claims" L_WarrantyClaim wcl_id
  (λ d r, constraints
    [(non_negative (wcl_claim_amount r), "warranty_claims_claim_amount_check");
     (references T_WarrantyRegistration d (wcl_registration_id r),
      "warranty_claims_registration_id_fkey");
     (references_opt T_SerialNumber d (wcl_serial_number_id r),
      "warranty_claims_serial_number_id_fkey");
     (negb (live (wcl_deleted_at r)) ||
      unique_in (mkTable "" L_WarrantyClaim wcl_id (λ _ _, None)) d r
        (λ x, live (wcl_deleted_at x) && String.eqb (wcl_claim_number x) (wcl_claim_number r)),
      "uq_warranty_claims_number_active")]).

Definition T_ClaimDocument : Table ClaimDocument :=
  mkTable "claim_documents" L_ClaimDocument cdc_id
  (λ d r, constraints
    [(references T_WarrantyClaim d (cdc_claim_id r),
      "claim_documents_claim_id_fkey")]).

Definition T_WarrantyStatusHistory : Table WarrantyStatusHistory :=
  mkTable "warranty_status_history" L_WarrantyStatusHistory wsh_id
  (λ d r, constraints
    [(given (wsh_registration_id r) || given (wsh_claim_id r),
      "chk_warranty_status_history_target");
     (references_opt T_WarrantyRegistration d (wsh_registration_id r),
      "warranty_status_history_registration_id_fkey");
     (references_opt T_WarrantyClaim d (wsh_claim_id r),
      "warranty_status_history_claim_id_fkey")]).

Definition T_ServiceCenter : Table ServiceCenter :=
  mkTable "service_centers" L_ServiceCenter sce_id (λ _ _, None).

Definition T_ServiceCenterLocation : Table ServiceCenterLocation :=
  mkTable "service_center_locations" L_ServiceCenterLocation scl_id (λ _ _, None).

Definition T_Technician : Table Technician :=
  mkTable "technicians" L_Technician tch_id (λ _ _, None).

Definition T_TechnicianSkill : Table TechnicianSkill :=
  mkTable "technician_skills" L_TechnicianSkill tks_id (λ _ _, None).

Definition T_ServiceSla : Table ServiceSla :=
  mkTable "service_sla" L_ServiceSla ssl_id (λ _ _, None).

Definition T_ServiceTicket : Table ServiceTicket :=
  mkTable "service_tickets" L_ServiceTicket stt_id
  (λ d r, constraints
    [((1 <=? stt_priority r) && (stt_priority r <=? 5), "service_tickets_priority_check");
     (references_opt T_WarrantyRegistration d (stt_registration_id r),
      "service_tickets_registration_id_fkey");
     (references_opt T_WarrantyClaim d (stt_claim_id r),
      "service_tickets_claim_id_fkey");
     (references T_ServiceCenter d (stt_service_center_id r),
      "service_tickets_service_center_id_fkey");
     (references_opt T_Technician d (stt_technician_id r),
      "service_tickets_technician_id_fkey");
     (references_opt T_SerialNumber d (stt_serial_number_id r),
      "service_tickets_serial_number_id_fkey");
     (references_opt T_Order d (stt_order_id r),
      "service_tickets_order_id_fkey");
     (references_opt T_ServiceSla d (stt_service_sla_id r),
      "service_tickets_service_sla_id_fkey");
     (negb (live (stt_deleted_at r)) ||
      unique_in (mkTable "" L_ServiceTicket stt_id (λ _ _, None)) d r
        (λ x, live (stt_deleted_at x) && String.eqb (stt_ticket_number x) (stt_ticket_number r)),
      "uq_service_tickets_number_active")]).

Definition T_TicketStatusHistory : Table TicketStatusHistory :=
  mkTable "ticket_status_history" L_TicketStatusHistory tsh_id
  (λ d r, constraints
    [(references T_ServiceTicket d (tsh_ticket_id r),
      "ticket_status_history_ticket_id_fkey")]).

Definition T_DiagnosticReport : Table DiagnosticReport :=
  mkTable "diagnostic_reports" L_DiagnosticReport dgr_id
  (λ d r, constraints
    [(references T_ServiceTicket d (dgr_ticket_id r),
      "diagnostic_reports_ticket_id_fkey");
     (references_opt T_Technician d (dgr_technician_id r),
      "diagnostic_reports_technician_id_fkey")]).

Definition T_DeviceHealthReport : Table DeviceHealthReport :=
  mkTable "device_health_reports" L_DeviceHealthReport dhr_id
  (λ d r, constraints
    [(references_opt T_SerialNumber d (dhr_serial_number_id r),
      "device_health_reports_serial_number_id_fkey");
     (references_opt T_ServiceTicket d (dhr_ticket_id r),
      "device_health_reports_ticket_id_fkey")]).

Definition T_RepairJob : Table RepairJob :=
  mkTable "repair_jobs" L_RepairJob rjb_id
  (λ d r, constraints
    [(0 <=? rjb_labor_cost r, "repair_jobs_labor_cost_check");
     (match rjb_repair_minutes r with Some n => (0 <=? n) && int4 n | None => true end,
      "repair_jobs_repair_minutes_check");
     (references T_ServiceTicket d (rjb_ticket_id r),
      "repair_jobs_ticket_id_fkey");
     (references_opt T_Technician d (rjb_technician_id r),
      "repair_jobs_technician_id_fkey");
     (negb (live (rjb_deleted_at r)) ||
      unique_in (mkTable "" L_RepairJob rjb_id (λ _ _, None)) d r
        (λ x, live (rjb_deleted_at x) && String.eqb (rjb_repair_number x) (rjb_repair_number r)),
      "uq_repair_jobs_number_active")]).

Definition T_RepairPart : Table RepairPart :=
  mkTable "repair_parts" L_RepairPart rpa_id (λ _ _, None).

Definition T_RepairPartUsage : Table RepairPartUsage :=
  mkTable "repair_part_usage" L_RepairPartUsage rpu_id
  (λ d r, constraints
    [((0 <? rpu_quantity r) && int4 (rpu_quantity r), "repair_part_usage_quantity_check");
     (non_negative (rpu_unit_cost r), "repair_part_usage_unit_cost_check");
     (references T_RepairJob d (rpu_repair_job_id r),
      "repair_part_usage_repair_job_id_fkey");
     (references T_RepairPart d (rpu_repair_part_id r),
      "repair_part_usage_repair_part_id_fkey");
     (references_opt T_Warehouse d (rpu_warehouse_id r),
      "repair_part_usage_warehouse_id_fkey")]).

Definition T_ReplacementRequest : Table ReplacementRequest :=
  mkTable "replacement_requests" L_ReplacementRequest rpq_id
  (λ d r, constraints
    [(references_opt T_ServiceTicket d (rpq_ticket_id r),
      "replacement_requests_ticket_id_fkey");
     (references_opt T_WarrantyClaim d (rpq_claim_id r),
      "replacement_requests_claim_id_fkey");
     (negb (live (rpq_deleted_at r)) ||
      unique_in (mkTable "" L_ReplacementRequest rpq_id (λ _ _, None)) d r
        (λ x, live (rpq_deleted_at x) && String.eqb (rpq_request_number x) (rpq_request_number r)),
      "uq_replacement_requests_number_active")]).

Definition T_RmaRequest : Table RmaRequest :=
  mkTable "rma_requests" L_RmaRequest rma_id
  (λ d r, constraints
    [(references_opt T_Order d (rma_order_id r),
      "rma_requests_order_id_fkey");
     (references_opt T_OrderItem d (rma_order_item_id r),
      "rma_requests_order_item_id_fkey");
     (references_opt T_WarrantyClaim d (rma_claim_id r),
      "rma_requests_claim_id_fkey");
     (references_opt T_ServiceTicket d (rma_ticket_id r),
      "rma_requests_ticket_id_fkey");
     (references_opt T_SerialNumber d (rma_serial_number_id r),
      "rma_requests_serial_number_id_fkey");
     (negb (live (rma_deleted_at r)) ||
      unique_in (mkTable "" L_RmaRequest rma_id (λ _ _, None)) d r
        (λ x, live (rma_deleted_at x) && String.eqb (rma_rma_number x) (rma_rma_number r)),
      "uq_rma_requests_number_active")]).

Definition T_ServiceDocument : Table ServiceDocument :=
  mkTable "service_documents" L_ServiceDocument sdc_id
  (λ d r, constraints
    [(given (sdc_ticket_id r) || given (sdc_claim_id r), "chk_service_documents_target");
     (references_opt T_ServiceTicket d (sdc_ticket_id r),
      "service_documents_ticket_id_fkey");
     (references_opt T_WarrantyClaim d (sdc_claim_id r),
      "service_documents_claim_id_fkey")]).

Definition T_ServiceAuditLog : Table ServiceAuditLog :=
  mkTable "service_audit_logs" L_ServiceAuditLog sal_id
  (λ d r, constraints
    [(references_opt T_ServiceTicket d (sal_ticket_id r),
      "service_audit_logs_ticket_id_fkey");
     (references_opt T_WarrantyClaim d (sal_claim_id r),
      "service_audit_logs_claim_id_fkey");
     (references_opt T_RepairJob d (sal_repair_job_id r),
      "service_audit_logs_repair_job_id_fkey")]).

Definition T_LoanDevice : Table LoanDevice :=
  mkTable "loan_devices" L_LoanDevice lnd_id (λ _ _, None).

Definition T_LoanAllocation : Table LoanAllocation :=
  mkTable "loan_allocations" L_LoanAllocation lna_id
  (λ d r, constraints
    [(references T_LoanDevice d (lna_loan_device_id r),
      "loan_allocations_loan_device_id_fkey");
     (references_opt T_ServiceTicket d (lna_ticket_id r),
      "loan_allocations_ticket_id_fkey")]).

(** ** Content ([034_marketing.sql], [035_marketing_indexes.sql]) *)

Definition T_CmsPage : Table CmsPage := mkTable "cms_pages" L_CmsPage cmp_id
  (λ d r, constraints
    [(unique_live L_CmsPage cmp_id cmp_deleted_at d r (λ x, String.eqb (cmp_slug x) (cmp_slug r)),
      "uq_cms_pages_slug_active")]).

Definition T_CmsSection : Table CmsSection := mkTable "cms_sections" L_CmsSection cms_id
  (λ d r, constraints
    [(int4 (cms_sort_order r), "cms_sections_sort_order");
     (references T_CmsPage d (cms_page_id r), "cms_sections_page_id_fkey")]).

Definition T_HomepageLayout : Table HomepageLayout :=
  mkTable "homepage_layouts" L_HomepageLayout hpl_id (λ _ _, None).
Definition T_HomepageSectionItem : Table HomepageSectionItem :=
  mkTable "homepage_section_items" L_HomepageSectionItem hpi_id (λ _ _, None).

Definition T_BannerGroup : Table BannerGroup := mkTable "banner_groups" L_BannerGroup bng_id
  (λ d r, constraints
    [(unique_live L_BannerGroup bng_id bng_deleted_at d r (λ x, String.eqb (bng_code x) (bng_code r)),
      "uq_banner_groups_code_active")]).

Definition T_Banner : Table Banner := mkTable "banners" L_Banner bnr_id
  (λ d r, constraints
    [(int4 (bnr_sort_order r), "banners_sort_order");
     (references_opt T_BannerGroup d (bnr_group_id r), "banners_group_id_fkey");
     (references_opt T_MediaFile d (bnr_media_file_id r), "banners_media_file_id_fkey")]).

Definition T_BlogCategory : Table BlogCategory :=
  mkTable "blog_categories" L_BlogCategory blc_id (λ _ _, None).
Definition T_BlogTag : Table BlogTag := mkTable "blog_tags" L_BlogTag blt_id (λ _ _, None).

Definition T_Blog : Table Blog := mkTable "blogs" L_Blog blg_id
  (λ d r, constraints
    [(references_opt T_BlogCategory d (blg_category_id r), "blogs_category_id_fkey");
     (unique_live L_Blog blg_id blg_deleted_at d r (λ x, String.eqb (blg_slug x) (blg_slug r)),
      "uq_blogs_slug_active")]).

Definition T_BlogTagMap : Table BlogTagMap :=
  mkTable "blog_tag_map" L_BlogTagMap btm_id (λ _ _, None).
Definition T_BlogComment : Table BlogComment :=
  mkTable "blog_comments" L_BlogComment bcm_id (λ _ _, None).

(** ** Analytics ([040_analytics.sql], [041_analytics_indexes.sql]) *)

(** The daily figures are computed outside the application. *)
Definition T_SalesMetrics : Table SalesMetrics :=
  mkTable "sales_metrics" L_SalesMetrics msl_id (λ _ _, None).
Definition T_PaymentMetrics : Table PaymentMetrics :=
  mkTable "payment_metrics" L_PaymentMetrics mpy_id (λ _ _, None).
Definition T_InventoryMetrics : Table InventoryMetrics :=
  mkTable "inventory_metrics" L_InventoryMetrics miv_id (λ _ _, None).
Definition T_ShippingMetrics : Table ShippingMetrics :=
  mkTable "shipping_metrics" L_ShippingMetrics msh_id (λ _ _, None).
Definition T_ServiceMetrics : Table ServiceMetrics :=
  mkTable "service_metrics" L_ServiceMetrics msv_id (λ _ _, None).
Definition T_MarketingMetrics : Table MarketingMetrics :=
  mkTable "marketing_metrics" L_MarketingMetrics mmk_id (λ _ _, None).
Definition T_CohortAnalysis : Table CohortAnalysis :=
  mkTable "cohort_analysis" L_CohortAnalysis coh_id (λ _ _, None).
Definition T_CustomerLtv : Table CustomerLtv :=
  mkTable "customer_ltv" L_CustomerLtv clv_id (λ _ _, None).

Definition T_KpiSnapshot : Table KpiSnapshot := mkTable "kpi_snapshots" L_KpiSnapshot kps_id
  (λ d r, constraints
    [(unique_live L_KpiSnapshot kps_id kps_deleted_at d r
        (λ x, (kps_metric_date x =? kps_metric_date r) && bool_decide (kps_period x = kps_period r)
              && String.eqb (kps_domain x) (kps_domain r)),
      "uq_kpi_snapshots_date_period_domain_active")]).

Definition T_AlertRule : Table AlertRule := mkTable "alert_rules" L_AlertRule alr_id
  (λ d r, constraints
    [((0 <=? alr_cooldown_minutes r) && int4 (alr_cooldown_minutes r),
      "alert_rules_cooldown_minutes_check");
     (unique_live L_AlertRule alr_id alr_deleted_at d r (λ x, String.eqb (alr_code x) (alr_code r)),
      "uq_alert_rules_code_active")]).

Definition T_AlertHistory : Table AlertHistory := mkTable "alert_history" L_AlertHistory alh_id
  (λ d r, constraints [(references T_AlertRule d (alh_rule_id r), "alert_history_rule_id_fkey")]).

Definition T_MetricStream : Table MetricStream := mkTable "metric_streams" L_MetricStream mst_id
  (λ d r, constraints
    [(unique_live L_MetricStream mst_id mst_deleted_at d r
        (λ x, String.eqb (mst_code x) (mst_code r)), "uq_metric_streams_code_active")]).

Definition T_LiveMetric : Table LiveMetric := mkTable "live_metrics" L_LiveMetric lvm_id
  (λ d r, constraints [(references T_MetricStream d (lvm_stream_id r), "live_metrics_stream_id_fkey")]).

Definition T_ConversionEvent : Table ConversionEvent :=
  mkTable "conversion_events" L_ConversionEvent cve_id
  (λ _ r, constraints
    [(match cve_amount r with Some a => 0 <=? a | None => true end,
      "conversion_events_amount_check")]).

Definition T_SavedReport : Table SavedReport := mkTable "saved_reports" L_SavedReport svr_id
  (λ d r, constraints
    [(unique_live L_SavedReport svr_id svr_deleted_at d r (λ x, String.eqb (svr_code x) (svr_code r)),
      "uq_saved_reports_code_active")]).

Definition T_ScheduledReport : Table ScheduledReport :=
  mkTable "scheduled_reports" L_ScheduledReport shr_id
  (λ d r, constraints
    [(references T_SavedReport d (shr_saved_report_id r), "scheduled_reports_saved_report_id_fkey")]).

Definition T_ReportExport : Table ReportExport := mkTable "report_exports" L_ReportExport rex_id
  (λ d r, constraints
    [(match rex_row_count r with Some n => (0 <=? n) && int4 n | None => true end,
      "report_exports_row_count_check");
     (references_opt T_SavedReport d (rex_saved_report_id r), "report_exports_saved_report_id_fkey");
     (references_opt T_MediaFile d (rex_media_file_id r), "report_exports_media_file_id_fkey")]).

Definition T_DashboardLayout : Table DashboardLayout :=
  mkTable "dashboard_layouts" L_DashboardLayout dbl_id
  (λ d r, constraints
    [(unique_live L_DashboardLayout dbl_id dbl_deleted_at d r
        (λ x, String.eqb (dbl_code x) (dbl_code r)), "uq_dashboard_layouts_code_active")]).

Definition T_DashboardWidget : Table DashboardWidget :=
  mkTable "dashboard_widgets" L_DashboardWidget dsw_id
  (λ d r, constraints
    [(unique_live L_DashboardWidget dsw_id dsw_deleted_at d r
        (λ x, String.eqb (dsw_code x) (dsw_code r)), "uq_dashboard_widgets_code_active")]).

Definition T_DashboardWidgetInstance : Table DashboardWidgetInstance :=
  mkTable "dashboard_widget_instances" L_DashboardWidgetInstance dwi_id
  (λ d r, constraints
    [(int4 (dwi_grid_x r) && int4 (dwi_grid_y r) && int4 (dwi_grid_w r) && int4 (dwi_grid_h r),
      "dashboard_widget_instances_grid");
     (references T_DashboardLayout d (dwi_layout_id r), "dashboard_widget_instances_layout_id_fkey");
     (references T_DashboardWidget d (dwi_widget_id r), "dashboard_widget_instances_widget_id_fkey")]).

Definition T_SystemEvent : Table SystemEvent :=
  mkTable "system_events" L_SystemEvent sye_id (λ _ _, None).
