(* ===== verification/Sample.v ===== *)
(** * A small shop

    A concrete database and environment on which the definitions are evaluated:
    two warehouses with one bin each, two variants, some stock and a reservation. *)
From S2P Require Import Prelude Core Effects Redis Lock Schema Database.

Definition env0 : Env (H := gmap_redis) := mkEnv gmap_redis 1000 (∅ : kv) true [] [] 0.

(** A variant of the sample's product, sold at its list price. *)
Definition variant0 (id sku : string) (price : Z) (deleted : option Z) : ProductVariant :=
  mkProductVariant id "pr1" sku None None None None None None None None None None None None None
    pcd_new_sealed pgr_ungraded price price 0 "INR" sks_in_stock rs_active deleted.

Definition sample_inv : InvDb := {|
  t_Warehouse := [mkWarehouse "w1" "Main" "MAIN" None (Some "Pune") None None None None rs_active None;
                  mkWarehouse "w2" "Back" "BACK" None None None None None None rs_active None];
  t_Zone := [mkZone "z1" "w1" "Z" None None; mkZone "z2" "w2" "Z" None None];
  t_Rack := [mkRack "r1" "z1" "R" None; mkRack "r2" "z2" "R" None];
  t_Bin := [mkBin "b1" "r1" "B1" None None; mkBin "b2" "r2" "B2" None None;
            mkBin "b3" "r1" "B3" None None];
  t_Inventory := [mkInventory "i1" "w1" "b1" "v1" 10 3 0 0 4 rs_active None;
                  mkInventory "i2" "w1" "b3" "v1" 5 0 0 0 0 rs_active None;
                  mkInventory "i3" "w2" "b2" "v2" 7 0 0 0 0 rs_active None];
  t_StockReservation := [mkStockReservation "s1" "w1" "v1" 3 None None None 999999 rv_active None];
  t_InventoryMovement := []; t_InventoryAdjustment := []; t_LowStockAlert := [];
  t_GoodsReceipt := []; t_GoodsReceiptItem := []; t_PurchaseOrder := [];
  t_PurchaseOrderItem := []; t_SerialNumber := []; t_StockTransfer := [];
  t_StockTransferItem := []; t_CycleCountJob := [];
  t_ProductVariant := [variant0 "v1" "SKU1" 10010 None; variant0 "v2" "SKU2" 2005 None];
  t_Supplier := [mkSupplier "u1" None] |}.

Definition sample_ord : OrdDb := {|
  t_Cart := [mkCart "c1" (Some "alice") None "INR" ct_active 0 None];
  t_CartItem := [mkCartItem "ci1" "c1" "v1" 2 10010 rs_active 1 None;
                 mkCartItem "ci2" "c1" "v2" 1 2005 rs_active 2 None];
  t_Order := []; t_OrderItem := []; t_OrderAddress := []; t_OrderStatusHistory := [];
  t_OrderRiskScore := [];
  t_GiftCard := [mkGiftCard "g1" "GIFT" 5000 rs_active None];
  t_Wallet := [mkWallet "wa1" "alice" 3000 rs_active None];
  t_Return := []; t_ReturnItem := []; t_ExchangeRequest := []; t_FulfillmentOrder := [];
  t_FulfillmentItem := []; t_WarehouseList := []; t_Wishlist := [];
  t_WishlistItem := []; t_Invoice := []; t_InvoiceItem := [] |}.

Definition sample_pay : PayDb := {|
  t_Gateway := [mkGateway "gw1" "razorpay" true rs_active None];
  t_Payment := []; t_PaymentAttempt := []; t_PaymentTransaction := []; t_PaymentAuditLog := [];
  t_PaymentEvent := []; t_Refund := []; t_RefundItem := []; t_PaymentWebhook := [];
  t_SavedPaymentMethod := []; t_PaymentSettlement := []; t_PaymentReconciliation := [];
  t_PaymentDispute := [] |}.

Definition sample_auth : AuthDb := {|
  t_User := [mkUser "alice" (Some "alice@example.com") None (Some "hashed:Secret1!") (Some 1) None
               ut_customer ap_local None None 0 None rs_active 0 None;
             mkUser "bob" None (Some "+911") None None None
               ut_customer ap_otp None None 0 None rs_pending 0 None];
  t_Role := [mkRole "10000000-0000-0000-0000-000000000003" "customer" rs_active None];
  t_Permission := [mkPermission "p1" "orders.read" "orders" "read" rs_active None];
  t_RolePermission :=
    [mkRolePermission "rp1" "10000000-0000-0000-0000-000000000003" "p1" rs_active None];
  t_UserRole := [mkUserRole "ur1" "alice" "10000000-0000-0000-0000-000000000003" rs_active None];
  t_RefreshToken := []; t_Session := []; t_Otp := []; t_OauthAccount := [];
  t_LoginAttempt := []; t_AuditLog := [] |}.

Definition sample_mkt : MktDb := {|
  t_Coupon := [mkCoupon "k1" "SAVE10" "Ten percent" cd_percentage 1000 (Some 10000) (Some 1500)
                 (Some 2) (Some 1) None None rs_active None];
  t_CouponRule := []; t_CouponUsage := [];
  t_LoyaltyAccount := [mkLoyaltyAccount "la1" "alice" 100 100 ly_bronze None];
  t_LoyaltyTransaction := [mkLoyaltyTransaction "lt1" "la1" lt_earn 100 100 None None None None None];
  t_RewardRule := [mkRewardRule "rr1" "STANDARD" "One point per ten rupees" (Some 1000) None
                     (Some 10000) (Some 365) None rs_active 0 None];
  t_ReferralProgram := [mkReferralProgram "rp1" "FRIENDS" "Friends" 50 20 rs_active None];
  t_ReferralReward := [];
  t_FeatureFlag := [mkFeatureFlag "f1" "new-cart" "New cart" ff_conditional false None];
  t_FeatureFlagRule := [mkFeatureFlagRule "fr1" "f1" 1 None (Some 5000) true rs_active None];
  t_AbTest := [mkAbTest "t1" "hero" "Hero banner" "page" None ab_running None];
  t_AbTestVariant := [mkAbTestVariant "va" "t1" "A" "Control" true 3000 None rs_active None;
                      mkAbTestVariant "vb" "t1" "B" "Bold" false 7000 None rs_active None];
  t_AbTestResult := []; t_Campaign := []; t_SearchKeyword := []; t_SearchSynonym := [];
  t_PopularSearch := [] |}.

Definition sample_ship : ShipDb := {|
  t_ShippingPartner := [mkShippingPartner "sr" sc_shiprocket "Shiprocket" true None rs_active None];
  t_ShippingService := [];
  t_ShippingZone := [mkShippingZone "zs" "SOUTH" "South" (Some "500000") (Some "599999") rs_active None;
                     mkShippingZone "zn" "NORTH" "North" (Some "100000") (Some "199999") rs_active None];
  t_ShippingRateCard := [mkShippingRateCard "rc" "sr" None "Standard" rs_active None];
  t_ShippingRate := [mkShippingRate "ra" "rc" None None 500 (Some 20000) 9000 3000 "INR" rs_active None;
                     mkShippingRate "rb" "rc" (Some "zs") (Some "zn") 0 None 4500 2550 "INR" rs_active None];
  t_PickupRequest := []; t_PickupPoint := []; t_Shipment := []; t_ShipmentPackage := [];
  t_ShipmentItem := []; t_AwbNumber := []; t_ShipmentLabel := []; t_ShipmentTracking := [];
  t_TrackingEvent := []; t_ShipmentEtaHistory := []; t_DeliverySlot := [];
  t_ReverseShipment := []; t_RtoShipment := []; t_ShippingWebhook := [] |}.

Definition sample_war : WarDb := {|
  t_WarrantyProvider := [mkWarrantyProvider "wp" "ACME" "Acme Cover" rs_active None];
  t_WarrantyPlan := [mkWarrantyPlan "pl12" "wp" "ONE" "One year" wpt_manufacturer 12 (Some 500000)
                       rs_active None;
                     mkWarrantyPlan "pl6" "wp" "HALF" "Half a year" wpt_extended 6 None rs_active None];
  t_WarrantyRegistration := []; t_WarrantyExtension := []; t_WarrantyClaim := [];
  t_ClaimDocument := []; t_WarrantyStatusHistory := [];
  t_ServiceCenter := [mkServiceCenter "sc" "HYD" "Hyderabad" true rs_active None];
  t_ServiceCenterLocation := [];
  t_Technician := [mkTechnician "tom" "sc" "E1" "Tom" true rs_active None];
  t_TechnicianSkill := []; t_ServiceSla := []; t_ServiceTicket := []; t_TicketStatusHistory := [];
  t_DiagnosticReport := []; t_DeviceHealthReport := []; t_RepairJob := [];
  t_RepairPart := [mkRepairPart "rp" "SCR" "Screen" (Some "v1") (Some "w1") (Some 900) None];
  t_RepairPartUsage := []; t_ReplacementRequest := []; t_RmaRequest := []; t_ServiceDocument := [];
  t_ServiceAuditLog := []; t_LoanDevice := [mkLoanDevice "ld" "LOAN-1" lds_available None];
  t_LoanAllocation := [] |}.

Definition sample_cat : CatDb := {|
  t_MediaFile := [];
  t_Brand := [mkBrand "br1" "Acme" "acme" None None None None 0 rs_active None];
  t_Category := [mkCategory "ca1" None "Phones" "phones" None None None 0 rs_active None;
                 mkCategory "ca2" (Some "ca1") "Smart" "smart" None None None 0 rs_active None];
  t_ProductType := [mkProductType "pt1" "PHONE" "Phone" None rs_active None];
  t_Product := [mkProduct "pr1" "br1" "ca2" "pt1" "Acme One" "acme-one" None None None None None None
                  false false false false 0 0 rs_active 0 None];
  t_Collection := []; t_CollectionProduct := [];
  t_Attribute := [mkAttribute "at1" "color" "Colour" adt_string None true true 0 rs_active None];
  t_AttributeValue := [mkAttributeValue "av1" "at1" "Red" "red" 0 rs_active None;
                       mkAttributeValue "av2" "at1" "Blue" "blue" 1 rs_active None];
  t_VariantAttributeValue := []; t_SpecificationGroup := []; t_ProductSpecification := [];
  t_ProductMedia := []; t_ProductBadge := []; t_ProductBadgeAssignment := [];
  t_SeoMetadata := []; t_BuyingGuide := []; t_ProductReview := [] |}.

Definition sample_cms : CmsDb := {|
  t_CmsPage := [mkCmsPage "pg" "about" "About" "page" cps_published (Some 0) None];
  t_CmsSection := [mkCmsSection "sec" "pg" "intro" "text" None None 0 rs_active None];
  t_HomepageLayout := [mkHomepageLayout "hl" "DEFAULT" "Default" true rs_active None];
  t_HomepageSectionItem := [mkHomepageSectionItem "hi" "hl" "main" "menu" (Some "Main") None 0 rs_active None];
  t_BannerGroup := []; t_Banner := [];
  t_BlogCategory := [mkBlogCategory "bc" "news" "News" None];
  t_BlogTag := [mkBlogTag "bt" "phones" "Phones" None];
  t_Blog := [mkBlog "bl" "hello" "Hello" None "Body" None (Some "bc") cps_published (Some 0) None];
  t_BlogTagMap := [mkBlogTagMap "bm" "bl" "bt" None]; t_BlogComment := [] |}.

Definition sample_ana : AnaDb := {|
  t_SalesMetrics := []; t_PaymentMetrics := []; t_InventoryMetrics := []; t_ShippingMetrics := [];
  t_ServiceMetrics := []; t_MarketingMetrics := []; t_KpiSnapshot := []; t_AlertRule := [];
  t_AlertHistory := []; t_MetricStream := []; t_LiveMetric := []; t_ConversionEvent := [];
  t_CohortAnalysis := []; t_CustomerLtv := []; t_SavedReport := []; t_ScheduledReport := [];
  t_ReportExport := []; t_DashboardLayout := []; t_DashboardWidget := [];
  t_DashboardWidgetInstance := []; t_SystemEvent := [] |}.

Definition sample_db : Db :=
  mkDb sample_inv sample_ord sample_pay sample_auth sample_mkt sample_ship sample_war sample_cat
    sample_cms sample_ana.

Definition sample : St Db := mkSt env0 sample_db.

(** Close a decidable goal by evaluation. *)
Ltac decided := refine (bool_decide_unpack _ _); vm_compute; exact I.
