(* ===== verification/Auth.v ===== *)
(** * Authentication: accounts, refresh tokens, sessions, one-time codes

    Models [backend/src/modules/auth]: the repositories, the password, token,
    session, one-time-code, audit and mail services and every operation of
    [services/auth.service.ts]. Argon2, the JWT library, [node:crypto] and the
    SMTP transport are parameters ([AuthLibraries]). Texts are ASCII. The
    theorems are in [AuthRules]. *)
From S2P Require Import Prelude Core Effects Redis Lock JsNumber Pagination Schema Database Tables.
From Stdlib Require Import QArith.

#[local] Open Scope Z_scope.

(** ** Constants ([constants/auth.constants.ts]) *)

Definition CUSTOMER_ROLE_ID : string := "10000000-0000-0000-0000-000000000003".
Definition MAX_FAILED_LOGINS : Z := 5.
Definition LOCKOUT_MINUTES : Z := 30.
Definition OTP_TTL_MINUTES : Z := 10.
Definition REFRESH_DAYS : Z := 7.
Definition SESSION_DAYS : Z := 7.

(** [common/utils/date.util.ts], on times in milliseconds: the setters work in
    UTC, where a day has 24 hours. *)
Definition addDays (date days : Z) : Z := date + days * 86400000.
Definition addMinutes (date minutes : Z) : Z := date + minutes * 60000.

(** [utils/request-meta.util.ts] *)
Record RequestMeta := mkRequestMeta {
  ipAddress : option string; userAgent : option string; requestId : option string;
}.

(** A header of the request: absent, sent once, or sent several times. *)
Inductive HeaderValue := HNone | HOne (v : string) | HMany (vs : list string).

Fixpoint before_comma (s : string) : string :=
  match s with
  | "" => ""
  | String c rest => if Ascii.eqb c "," then "" else String c (before_comma rest)
  end.

Definition extractRequestMeta (forwarded : HeaderValue) (ip agent : option string)
  (request : HeaderValue) : RequestMeta :=
  let forwardedIp := match forwarded with
                     | HOne v => Some (trim (before_comma v))
                     | HMany vs => head vs
                     | HNone => None
                     end in
  mkRequestMeta (match forwardedIp with Some i => Some i | None => ip end) agent
    (match request with HOne v => Some v | _ => None end).

(** ** Libraries *)

(** The claims of an access token ([common/types/auth-user.type.ts]). *)
Record JwtPayload := mkJwtPayload {
  jp_sub : string; jp_email : option string; jp_mobile : option string;
  jp_roles : list string; jp_permissions : list string; jp_sessionId : option string;
  jp_tokenFamilyId : option string;
}.

(** A mail as [MailService.sendMail] takes it. *)
Record SendMailOptions := mkSendMailOptions {
  sm_to : string; sm_subject : string; sm_template : string; sm_context : list (string * string);
}.

(** The claims of a Firebase ID token; only [sub] has a declared type. *)
Record FirebaseClaims := mkFirebaseClaims {
  fc_sub : option string; fc_email : option Json; fc_email_verified : option Json;
  fc_phone_number : option Json; fc_firebase : option Json;
}.

Class AuthLibraries := {
  (** [argon2.hash] draws a salt: the n-th draw. *)
  argon2_hash : nat → string → string;
  argon2_verify : string → string → outcome bool;
  (** A hash verifies the password it was made from. *)
  argon2_sound : ∀ n p, argon2_verify (argon2_hash n p) p = Ok true;
  (** [jwtService.signAsync] *)
  jwt_sign : JwtPayload → string;
  (** [config.getOrThrow('jwt.accessExpiresIn')] *)
  jwt_accessExpiresIn : string;
  (** [randomInt(min, max)]: the n-th draw, [max] excluded. *)
  randomInt : Z → Z → nat → Z;
  randomInt_range : ∀ lo hi n, lo < hi → lo <= randomInt lo hi n < hi;
  (** [config.get('app.firebaseProjectId')] and the environment variable. *)
  firebaseProjectId : option string;
  FIREBASE_PROJECT_ID : option string;
  (** [jwtVerify(idToken, keys, { issuer, audience })]: the payload. *)
  jwtVerify : string → string → string → outcome FirebaseClaims;
  (** [mailService.sendMail]: a rendered template handed to SMTP. *)
  sendMail : SendMailOptions → outcome ();
}.

(** ** Repositories *)

(** [notDeleted] *)
Definition user_live (u : User) : bool := live (us_deleted_at u).

(** The columns that [UserUpdateInput] sets; [undefined] leaves a column as it is. *)
Inductive UserField :=
| uf_mobile (v : string)
| uf_password_hash (v : string)
| uf_email_verified_at (t : Z)
| uf_mobile_verified_at (t : Z)
| uf_last_login_at (t : Z)
| uf_last_login_ip (v : option string)
| uf_failed_login_count (n : Z)
| uf_locked_until (t : option Z)
| uf_status (st : RecordStatus).

Definition set_user_field (u : User) (f : UserField) : User :=
  mkUser (us_id u) (us_email u)
    (match f with uf_mobile v => Some v | _ => us_mobile u end)
    (match f with uf_password_hash v => Some v | _ => us_password_hash u end)
    (match f with uf_email_verified_at t => Some t | _ => us_email_verified_at u end)
    (match f with uf_mobile_verified_at t => Some t | _ => us_mobile_verified_at u end)
    (us_user_type u) (us_auth_provider u)
    (match f with uf_last_login_at t => Some t | _ => us_last_login_at u end)
    (match f with uf_last_login_ip (Some v) => Some v | _ => us_last_login_ip u end)
    (match f with uf_failed_login_count n => n | _ => us_failed_login_count u end)
    (match f with uf_locked_until t => t | _ => us_locked_until u end)
    (match f with uf_status st => st | _ => us_status u end)
    (us_created_at u) (us_deleted_at u).

Definition set_user (data : list UserField) (u : User) : User := foldl set_user_field u data.

Section repositories.
Context `{Redis, !Crypto, !Postgres}.

(** [updateMany] with the number of rows it changed. *)
Definition db_updateMany_count {A} (T : Table A) (p : A → bool) (f : A → A) : M (St Db) Z :=
  count ← db_count T p;
  db_updateMany T p f ;;
  mret count.

(** *** [repositories/user.repository.ts] *)

Definition user_findById (id : string) : M (St Db) (option User) :=
  db_findFirst T_User (λ u, String.eqb (us_id u) id && user_live u).

Definition findByEmail (email : string) : M (St Db) (option User) :=
  db_findFirst T_User (λ u, same_citext (us_email u) (Some (toLowerCase email)) && user_live u).

Definition findByMobile (mobile : string) : M (St Db) (option User) :=
  db_findFirst T_User (λ u, same_opt (us_mobile u) (Some mobile) && user_live u).

Definition findByIdentifier (identifier : string) : M (St Db) (option User) :=
  let trimmed := trim identifier in
  if includes_text trimmed "@" then findByEmail trimmed else findByMobile trimmed.

Definition user_create (email mobile : option string) (passwordHash : string)
  : M (St Db) User :=
  now ← Date_now;
  db_create T_User (λ id, mkUser id (option_map toLowerCase email) mobile (Some passwordHash)
    None None ut_customer ap_local None None 0 None rs_pending now None).

Definition createFromSocial (email mobile : option string) (authProvider : AuthProvider)
  (emailVerified mobileVerified : bool) : M (St Db) User :=
  now ← Date_now;
  db_create T_User (λ id, mkUser id (option_map toLowerCase email) mobile None
    (if emailVerified then Some now else None) (if mobileVerified then Some now else None)
    ut_customer authProvider None None 0 None rs_active now None).

(** The account with its user: the foreign key makes the user exist. *)
Definition findByOauth (provider : AuthProvider) (providerUserId : string)
  : M (St Db) (option User) :=
  account ← db_findFirst T_OauthAccount (λ a, bool_decide (ou_provider a = provider)
    && String.eqb (ou_provider_user_id a) providerUserId && live (ou_deleted_at a));
  match account with
  | Some a => gets (λ s, find_first (λ u, String.eqb (us_id u) (ou_user_id a))
                           (view L_User (tables s)))
  | None => mret None
  end.

Definition set_oauth (userId : string) (email : option string) (a : OauthAccount)
  : OauthAccount :=
  mkOauthAccount (ou_id a) userId (ou_provider a) (ou_provider_user_id a) email rs_active None.

(** [INSERT ... ON CONFLICT (provider, provider_user_id) WHERE deleted_at IS NULL
    DO UPDATE] *)
Definition upsertOauth (userId : string) (provider : AuthProvider) (providerUserId : string)
  (email : option string) : M (St Db) () :=
  let email := option_map toLowerCase email in
  existing ← db_findFirst T_OauthAccount (λ a, bool_decide (ou_provider a = provider)
    && String.eqb (ou_provider_user_id a) providerUserId && live (ou_deleted_at a));
  match existing with
  | Some a => _ ← db_update T_OauthAccount (ou_id a) (set_oauth userId email); mret tt
  | None =>
      _ ← db_create T_OauthAccount (λ id,
            mkOauthAccount id userId provider providerUserId email rs_active None);
      mret tt
  end.

Definition user_update (id : string) (data : list UserField) : M (St Db) User :=
  db_update T_User id (set_user data).

Definition increment_failed (u : User) : User :=
  set_user [uf_failed_login_count (us_failed_login_count u + 1)] u.

Definition incrementFailedLogin (id : string) : M (St Db) User :=
  db_update T_User id increment_failed.

Definition resetFailedLogin (id : string) : M (St Db) User :=
  db_update T_User id (set_user [uf_failed_login_count 0; uf_locked_until None]).

Definition lockUntil (id : string) (until : Z) : M (St Db) User :=
  db_update T_User id (set_user [uf_locked_until (Some until)]).

Definition set_role_active (r : UserRole) : UserRole :=
  mkUserRole (ur_id r) (ur_user_id r) (ur_role_id r) rs_active None.

(** [INSERT ... ON CONFLICT (user_id, role_id) WHERE deleted_at IS NULL DO UPDATE] *)
Definition assignRole (userId roleId : string) : M (St Db) () :=
  existing ← db_findFirst T_UserRole (λ r, String.eqb (ur_user_id r) userId
    && String.eqb (ur_role_id r) roleId && live (ur_deleted_at r));
  match existing with
  | Some r => _ ← db_update T_UserRole (ur_id r) set_role_active; mret tt
  | None => _ ← db_create T_UserRole (λ id, mkUserRole id userId roleId rs_active None); mret tt
  end.

(** *** [repositories/role.repository.ts] *)

Definition role_on (r : Role) : bool :=
  live (ro_deleted_at r) && bool_decide (ro_status r = rs_active).

Definition role_of (d : Db) (id : string) : option Role :=
  find_first (λ r, String.eqb (ro_id r) id) (view L_Role d).

Definition role_findByCode (code : string) : M (St Db) (option Role) :=
  db_findFirst T_Role (λ r, String.eqb (ro_code r) code && live (ro_deleted_at r)).

Definition grants (d : Db) (userId : string) (ur : UserRole) : bool :=
  String.eqb (ur_user_id ur) userId && bool_decide (ur_status ur = rs_active)
  && live (ur_deleted_at ur) && from_option role_on false (role_of d (ur_role_id ur)).

Definition role_codes (d : Db) (userId : string) : list string :=
  omap (λ ur, option_map ro_code (role_of d (ur_role_id ur)))
    (scan (where_ (grants d userId) (view L_UserRole d))).

Definition getUserRoleCodes (userId : string) : M (St Db) (list string) :=
  gets (λ s, role_codes (tables s) userId).

Definition permission_of (d : Db) (id : string) : option Permission :=
  find_first (λ p, String.eqb (pn_id p) id) (view L_Permission d).

Definition permits (d : Db) (userId : string) (rp : RolePermission) : bool :=
  live (rp_deleted_at rp) && bool_decide (rp_status rp = rs_active)
  && from_option role_on false (role_of d (rp_role_id rp))
  && existsb (λ ur, String.eqb (ur_role_id ur) (rp_role_id rp)
        && String.eqb (ur_user_id ur) userId && bool_decide (ur_status ur = rs_active)
        && live (ur_deleted_at ur)) (view L_UserRole d)
  && match permission_of d (rp_permission_id rp) with
     | Some p => live (pn_deleted_at p) && bool_decide (pn_status p = rs_active)
     | None => false
     end.

(** [distinct: ['permission_id']]: the first row of each permission. *)
Fixpoint distinct_permissions (seen : list string) (rows : list RolePermission)
  : list RolePermission :=
  match rows with
  | [] => []
  | r :: rest => if existsb (String.eqb (rp_permission_id r)) seen then distinct_permissions seen rest
                 else r :: distinct_permissions (rp_permission_id r :: seen) rest
  end.

Definition permission_codes (d : Db) (userId : string) : list string :=
  omap (λ rp, option_map pn_code (permission_of d (rp_permission_id rp)))
    (distinct_permissions [] (scan (where_ (permits d userId) (view L_RolePermission d)))).

Definition getUserPermissionCodes (userId : string) : M (St Db) (list string) :=
  gets (λ s, permission_codes (tables s) userId).

(** *** [repositories/refresh-token.repository.ts] *)

Definition token_create (userId tokenHash familyId : string) (agent ip : option string)
  (expiresAt : Z) : M (St Db) RefreshToken :=
  db_create T_RefreshToken (λ id, mkRefreshToken id userId tokenHash familyId None agent ip
    expiresAt None tk_active None).

Definition findByHash (tokenHash : string) : M (St Db) (option RefreshToken) :=
  db_findFirst T_RefreshToken (λ t, String.eqb (tk_token_hash t) tokenHash && live (tk_deleted_at t)).

Definition end_token (st : TokenStatus) (replacedBy : option string) (now : Z) (t : RefreshToken)
  : RefreshToken :=
  mkRefreshToken (tk_id t) (tk_user_id t) (tk_token_hash t) (tk_family_id t)
    (match replacedBy with Some r => Some r | None => tk_replaced_by_id t end)
    (tk_user_agent t) (tk_ip_address t) (tk_expires_at t) (Some now) st (tk_deleted_at t).

Definition token_revoke (id : string) : M (St Db) RefreshToken :=
  now ← Date_now;
  db_update T_RefreshToken id (end_token tk_revoked None now).

Definition rotate (id replacedById : string) : M (St Db) RefreshToken :=
  now ← Date_now;
  db_update T_RefreshToken id (end_token tk_rotated (Some replacedById) now).

Definition usable (t : RefreshToken) : bool :=
  bool_decide (tk_status t = tk_active) && live (tk_deleted_at t).

Definition revokeFamily (familyId : string) : M (St Db) Z :=
  now ← Date_now;
  db_updateMany_count T_RefreshToken (λ t, String.eqb (tk_family_id t) familyId && usable t)
    (end_token tk_revoked None now).

Definition token_revokeAllForUser (userId : string) : M (St Db) Z :=
  now ← Date_now;
  db_updateMany_count T_RefreshToken (λ t, String.eqb (tk_user_id t) userId && usable t)
    (end_token tk_revoked None now).

(** *** [repositories/session.repository.ts] *)

Definition session_create (userId sessionTokenHash : string)
  (agent ip deviceName deviceType : option string) (expiresAt : Z) : M (St Db) Session :=
  now ← Date_now;
  db_create T_Session (λ id, mkSession id userId sessionTokenHash deviceName deviceType agent ip
    now expiresAt None se_active now None).

(** Active, not revoked and not deleted. *)
Definition session_open (s : Session) : bool :=
  bool_decide (se_status s = se_active) && live (se_revoked_at s) && live (se_deleted_at s).

Definition session_findActiveByUser (userId : string) : M (St Db) (list Session) :=
  now ← Date_now;
  db_findMany_desc T_Session (λ s, String.eqb (se_user_id s) userId && session_open s
    && (now <? se_expires_at s)) se_last_seen_at.

Definition findByIdForUser (sessionId userId : string) : M (St Db) (option Session) :=
  db_findFirst T_Session (λ s, String.eqb (se_id s) sessionId && String.eqb (se_user_id s) userId
    && live (se_deleted_at s)).

Definition end_session (now : Z) (s : Session) : Session :=
  mkSession (se_id s) (se_user_id s) (se_session_token_hash s) (se_device_name s)
    (se_device_type s) (se_user_agent s) (se_ip_address s) (se_last_seen_at s) (se_expires_at s)
    (Some now) se_revoked (se_created_at s) (se_deleted_at s).

Definition session_revoke (sessionId : string) : M (St Db) Session :=
  now ← Date_now;
  db_update T_Session sessionId (end_session now).

(** The sessions of the user to close: all of them, or all but one. *)
Definition closing (userId : string) (exceptSessionId : option string) (s : Session) : bool :=
  String.eqb (se_user_id s) userId && session_open s
  && match exceptSessionId with
     | None | Some "" => true
     | Some id => negb (String.eqb (se_id s) id)
     end.

Definition session_revokeAllForUser (userId : string) (exceptSessionId : option string)
  : M (St Db) Z :=
  now ← Date_now;
  db_updateMany_count T_Session (closing userId exceptSessionId) (end_session now).

Definition seen_session (now : Z) (s : Session) : Session :=
  mkSession (se_id s) (se_user_id s) (se_session_token_hash s) (se_device_name s)
    (se_device_type s) (se_user_agent s) (se_ip_address s) now (se_expires_at s)
    (se_revoked_at s) (se_status s) (se_created_at s) (se_deleted_at s).

Definition touchLastSeen (sessionId : string) : M (St Db) () :=
  now ← Date_now;
  _ ← db_update T_Session sessionId (seen_session now);
  mret tt.

(** *** [repositories/otp.repository.ts] *)

Definition otp_create (userId : option string) (destination : string) (channel : OtpChannel)
  (purpose : OtpPurpose) (codeHash : string) (expiresAt : Z) (maxAttempts : option Z)
  : M (St Db) Otp :=
  now ← Date_now;
  db_create T_Otp (λ id, mkOtp id userId destination channel purpose codeHash 0
    (coalesce maxAttempts 5) expiresAt None rs_active now None).

(** The rows [findLatestActive] chooses from. *)
Definition otp_open (destination : string) (purpose : OtpPurpose) (now : Z) (o : Otp) : bool :=
  String.eqb (ot_destination o) destination && bool_decide (ot_purpose o = purpose)
  && live (ot_consumed_at o) && bool_decide (ot_status o = rs_active) && (now <? ot_expires_at o)
  && live (ot_deleted_at o).

Definition findLatestActive (destination : string) (purpose : OtpPurpose)
  : M (St Db) (option Otp) :=
  now ← Date_now;
  db_findFirst_desc T_Otp (otp_open destination purpose now) ot_created_at.

Definition consumed (now : Z) (o : Otp) : Otp :=
  mkOtp (ot_id o) (ot_user_id o) (ot_destination o) (ot_channel o) (ot_purpose o) (ot_code_hash o)
    (ot_attempts o) (ot_max_attempts o) (ot_expires_at o) (Some now) rs_inactive
    (ot_created_at o) (ot_deleted_at o).

Definition consume (id : string) : M (St Db) Otp :=
  now ← Date_now;
  db_update T_Otp id (consumed now).

Definition attempted (o : Otp) : Otp :=
  mkOtp (ot_id o) (ot_user_id o) (ot_destination o) (ot_channel o) (ot_purpose o) (ot_code_hash o)
    (ot_attempts o + 1) (ot_max_attempts o) (ot_expires_at o) (ot_consumed_at o) (ot_status o)
    (ot_created_at o) (ot_deleted_at o).

Definition incrementAttempts (id : string) : M (St Db) Otp := db_update T_Otp id attempted.

(** *** [repositories/login-attempt.repository.ts], [repositories/audit.repository.ts] *)

Definition attempt_create (userId : option string) (identifier : string) (meta : RequestMeta)
  (success : bool) (failureReason : option string) : M (St Db) () :=
  _ ← db_create T_LoginAttempt (λ id, mkLoginAttempt id userId identifier (ipAddress meta)
        (userAgent meta) success failureReason rs_active);
  mret tt.

(** [AuditService.log] through [AuditRepository.create]: the entity is a user. *)
Definition audit_log (action : string) (userId : string) : M (St Db) () :=
  _ ← db_create T_AuditLog (λ id, mkAuditLog id "user" (Some userId) action (Some userId));
  mret tt.
End repositories.

(** ** [services/password.service.ts] *)

Definition in_range (lo hi : nat) (c : Ascii.ascii) : bool :=
  let n := Ascii.nat_of_ascii c in (lo <=? n)%nat && (n <=? hi)%nat.
Definition is_lower := in_range 97 122.
Definition is_upper := in_range 65 90.
Definition is_decimal := in_range 48 57.
Definition is_other (c : Ascii.ascii) : bool := negb (is_lower c || is_upper c || is_decimal c).
Definition is_newline (c : Ascii.ascii) : bool :=
  let n := Ascii.nat_of_ascii c in (n =? 10)%nat || (n =? 13)%nat.

(** [STRONG_PASSWORD_PATTERN]: one character of each class, eight or more in
    all, and no line break, which [.] does not match. *)
Definition isStrongPassword (plain : string) : bool :=
  let cs := String.list_ascii_of_string plain in
  existsb is_lower cs && existsb is_upper cs && existsb is_decimal cs && existsb is_other cs
  && (8 <=? length cs)%nat && negb (existsb is_newline cs).

(** ** Results *)

(** [mappers/user.mapper.ts] *)
Record PublicUser := mkPublicUser {
  pu_id : string; pu_email : option string; pu_mobile : option string;
  pu_emailVerifiedAt : option Z; pu_mobileVerifiedAt : option Z; pu_userType : UserType;
  pu_status : RecordStatus; pu_lastLoginAt : option Z; pu_createdAt : Z;
}.

Definition toPublicUser (u : User) : PublicUser :=
  mkPublicUser (us_id u) (us_email u) (us_mobile u) (us_email_verified_at u)
    (us_mobile_verified_at u) (us_user_type u) (us_status u) (us_last_login_at u)
    (us_created_at u).

Record AuthTokensResponse := mkAuthTokensResponse {
  at_accessToken : string; at_refreshToken : string; at_expiresIn : Q;
}.

Record LoginResponse := mkLoginResponse {
  lr_tokens : AuthTokensResponse; lr_user : PublicUser; lr_roles : list string;
  lr_permissions : list string;
}.

Record TokenPairResult := mkTokenPairResult {
  tp_tokens : AuthTokensResponse; tp_sessionId : option string; tp_tokenFamilyId : string;
}.

Record SessionSummary := mkSessionSummary {
  ss_id : string; ss_deviceName : option string; ss_deviceType : option string;
  ss_ipAddress : option string; ss_userAgent : option string; ss_lastSeenAt : Z;
  ss_expiresAt : Z; ss_createdAt : Z; ss_current : bool;
}.

Record IssueOtpResult := mkIssueOtpResult { io_code : string; io_expiresAt : Z; io_otpId : string }.

Record VerifiedFirebaseIdentity := mkIdentity {
  fi_uid : string; fi_email : option string; fi_emailVerified : bool; fi_phone : option string;
  fi_signInProvider : string;
}.

Definition OtpPurpose_text (p : OtpPurpose) : string :=
  match p with
  | op_login => "login" | op_register => "register" | op_reset_password => "reset_password"
  | op_verify_email => "verify_email" | op_verify_mobile => "verify_mobile"
  | op_two_factor => "two_factor"
  end.

(** ** Events ([events/auth.events.ts]) *)

Definition UserRegisteredEvent (u : User) : DomainEvent :=
  mkEvent "auth.user.registered" (JObj [("userId", JStr (us_id u)); ("email", jnullable (us_email u));
    ("mobile", jnullable (us_mobile u))]).
Definition UserLoggedInEvent (userId sessionId : string) (ip : option string) : DomainEvent :=
  mkEvent "auth.user.logged_in" (JObj ([("userId", JStr userId); ("sessionId", JStr sessionId)]
    ++ jopt "ipAddress" ip)).
Definition UserLoggedOutEvent (userId : string) (sessionId : option string) : DomainEvent :=
  mkEvent "auth.user.logged_out" (JObj (("userId", JStr userId) :: jopt "sessionId" sessionId)).
Definition PasswordChangedEvent (userId : string) : DomainEvent :=
  mkEvent "auth.password.changed" (JObj [("userId", JStr userId)]).
Definition EmailVerifiedEvent (userId email : string) : DomainEvent :=
  mkEvent "auth.email.verified" (JObj [("userId", JStr userId); ("email", JStr email)]).
Definition TokenReuseDetectedEvent (userId familyId : string) : DomainEvent :=
  mkEvent "auth.token.reuse_detected" (JObj [("userId", JStr userId); ("familyId", JStr familyId)]).

Section services.
Context `{Redis, !Crypto, !Postgres, !AuthLibraries}.

Definition password_hash (plain : string) : M (St Db) string := draw (λ n, argon2_hash n plain).

(** [PasswordService.verify]: an error of the library is a mismatch. *)
Definition password_verify (hash plain : string) : bool :=
  match argon2_verify hash plain with Ok b => b | Throw _ => false end.

(** ** [services/token.service.ts] *)

(** [common/utils/crypto.util.ts] *)
Definition hashToken (raw : string) : string := sha256_hex raw.
Definition generateRawToken : M (St Db) string := random_hex.

(** The text as a decimal number, when it is one or more digits. *)
Fixpoint decimal (acc : Z) (cs : list Ascii.ascii) : option Z :=
  match cs with
  | [] => Some acc
  | c :: rest => if is_decimal c
                 then decimal (acc * 10 + (Z.of_nat (Ascii.nat_of_ascii c) - 48)) rest else None
  end.

Definition unit_seconds (c : Ascii.ascii) : option Z :=
  if Ascii.eqb c "s" then Some 1 else if Ascii.eqb c "m" then Some 60
  else if Ascii.eqb c "h" then Some 3600 else if Ascii.eqb c "d" then Some 86400 else None.

(** [/^(\d+)([smhd])$/] on the trimmed text; 900 when it does not match. *)
Definition parseDurationToSeconds (value : string) : Q :=
  match reverse (String.list_ascii_of_string (trim value)) with
  | u :: ((_ :: _) as digits) =>
      match unit_seconds u, decimal 0 (reverse digits) with
      | Some k, Some amount => js_mul (fl (inject_Z amount)) (inject_Z k)
      | _, _ => 900%Q
      end
  | _ => 900%Q
  end.

Definition getAccessExpiresInSeconds : Q := parseDurationToSeconds jwt_accessExpiresIn.

Definition createRefreshPair (user : User) (meta : RequestMeta) (sessionId familyId : option string)
  : M (St Db) TokenPairResult :=
  familyId ← match familyId with Some f => mret f | None => random_hex end;
  rawRefresh ← generateRawToken;
  now ← Date_now;
  roles ← getUserRoleCodes (us_id user);
  permissions ← getUserPermissionCodes (us_id user);
  _ ← token_create (us_id user) (hashToken rawRefresh) familyId (userAgent meta) (ipAddress meta)
        (addDays now REFRESH_DAYS);
  let accessToken := jwt_sign (mkJwtPayload (us_id user) (us_email user) (us_mobile user) roles
                                 permissions sessionId (Some familyId)) in
  mret (mkTokenPairResult (mkAuthTokensResponse accessToken rawRefresh getAccessExpiresInSeconds)
          sessionId familyId).

(** ** [services/session.service.ts] *)

Definition parseDeviceName (agent : option string) : option string :=
  if negb (truthy_str agent) then None
  else let ua := toLowerCase (coalesce agent "") in
       if includes_text ua "mobile" then Some "Mobile"
       else if includes_text ua "tablet" then Some "Tablet" else Some "Desktop".

Definition parseDeviceType (agent : option string) : option string :=
  if negb (truthy_str agent) then None
  else let ua := toLowerCase (coalesce agent "") in
       if includes_text ua "android" then Some "android"
       else if includes_text ua "iphone" || includes_text ua "ipad" || includes_text ua "ios"
       then Some "ios"
       else if includes_text ua "windows" then Some "windows"
       else if includes_text ua "mac os" then Some "macos"
       else if includes_text ua "linux" then Some "linux" else Some "unknown".

Definition createSession (userId : string) (meta : RequestMeta) : M (St Db) (Session * string) :=
  rawToken ← random_hex;
  let sessionTokenHash := hashToken rawToken in
  now ← Date_now;
  session ← session_create userId sessionTokenHash (userAgent meta) (ipAddress meta)
              (parseDeviceName (userAgent meta)) (parseDeviceType (userAgent meta))
              (addDays now SESSION_DAYS);
  mret (session, sessionTokenHash).

Definition listSessions (userId : string) (currentSessionId : option string)
  : M (St Db) (list SessionSummary) :=
  sessions ← session_findActiveByUser userId;
  mret (map (λ s, mkSessionSummary (se_id s) (se_device_name s) (se_device_type s)
    (se_ip_address s) (se_user_agent s) (se_last_seen_at s) (se_expires_at s) (se_created_at s)
    (same_opt (Some (se_id s)) currentSessionId)) sessions).

Definition revokeSession (userId sessionId : string) : M (St Db) () :=
  session ← findByIdForUser sessionId userId;
  match session with
  | Some s => if live (se_revoked_at s) then _ ← session_revoke sessionId; mret tt else mret tt
  | None => mret tt
  end.

Definition revokeAll (userId : string) (exceptSessionId : option string) : M (St Db) Z :=
  session_revokeAllForUser userId exceptSessionId.

(** ** [services/otp.service.ts] *)

Definition generateCode : M (St Db) string := draw (λ n, pretty (randomInt 100000 999999 n)).

Definition normalizeDestination (destination : string) (channel : OtpChannel) : string :=
  match channel with
  | oc_email => trim (toLowerCase destination)
  | _ => trim destination
  end.

Definition issueOtp (destination : string) (channel : OtpChannel) (purpose : OtpPurpose)
  (userId : option string) : M (St Db) IssueOtpResult :=
  code ← generateCode;
  now ← Date_now;
  let expiresAt := addMinutes now OTP_TTL_MINUTES in
  otp ← otp_create userId (normalizeDestination destination channel) channel purpose
          (sha256_hex code) expiresAt None;
  mret (mkIssueOtpResult code expiresAt (ot_id otp)).

(** How [verifyOtp] reads the destination it is given. *)
Definition otp_destination (destination : string) : string :=
  if includes_text destination "@" then toLowerCase destination else trim destination.

Definition otp_verify (destination : string) (purpose : OtpPurpose) (code : string)
  : M (St Db) (option string * string) :=
  otp ← findLatestActive (otp_destination destination) purpose;
  otp ← require_ otp (AppException AUTH_OTP_EXPIRED "OTP expired or not found" 400);
  throw_if (ot_max_attempts otp <=? ot_attempts otp)
    (AppException AUTH_OTP_MAX_ATTEMPTS "Maximum OTP attempts exceeded" 400) ;;
  (if negb (String.eqb (sha256_hex code) (ot_code_hash otp)) then
     _ ← incrementAttempts (ot_id otp);
     throw (AppException AUTH_OTP_INVALID "Invalid OTP code" 400)
   else mret tt) ;;
  _ ← consume (ot_id otp);
  mret (ot_user_id otp, ot_id otp).

(** ** [services/auth-mail.service.ts]: a mail that cannot be sent is only logged. *)

Definition mail_job (m : SendMailOptions) : Json :=
  JObj [("jobType", JStr "send-mail"); ("to", JStr (sm_to m)); ("subject", JStr (sm_subject m));
        ("template", JStr (sm_template m));
        ("context", JObj (map (λ kv, (fst kv, JStr (snd kv))) (sm_context m)))].

Definition mail_send (template to subject : string) (context : list (string * string))
  : M (St Db) () :=
  let payload := mkSendMailOptions to subject template context in
  try_catch (enqueue (mkJob "email" ("auth." +:+ template) (mail_job payload)))
    (λ _, try_catch (match sendMail payload with Ok _ => mret tt | Throw e => throw e end)
            (λ _, mret tt)).

Definition sendVerificationEmail (email code : string) : M (St Db) () :=
  mail_send "verify-email" email "Verify your email" [("code", code); ("email", email)].

Definition sendPasswordResetEmail (email code : string) : M (St Db) () :=
  mail_send "reset-password" email "Reset your password" [("code", code); ("email", email)].

Definition sendOtpEmail (email code : string) (purpose : OtpPurpose) : M (St Db) () :=
  mail_send "otp" email ("Your verification code (" +:+ OtpPurpose_text purpose +:+ ")")
    [("code", code); ("email", email); ("purpose", OtpPurpose_text purpose)].

(** ** [services/firebase-auth.service.ts] *)

Definition json_text_of (j : option Json) : option string :=
  match j with Some (JStr s) => Some s | _ => None end.

Definition claimed (claims : FirebaseClaims) : M (St Db) VerifiedFirebaseIdentity :=
  let uid := coalesce (fc_sub claims) "" in
  throw_if (String.eqb uid "") (JsError "missing sub") ;;
  mret (mkIdentity uid (json_text_of (fc_email claims))
          (match fc_email_verified claims with Some (JBool true) => true | _ => false end)
          (json_text_of (fc_phone_number claims))
          (coalesce (json_text_of (from_option (jget "sign_in_provider") None (fc_firebase claims)))
             "unknown")).

Definition verifyIdToken (idToken : string) : M (St Db) VerifiedFirebaseIdentity :=
  let configured := option_map trim firebaseProjectId in
  let projectId := if truthy_str configured then coalesce configured ""
                   else coalesce (option_map trim FIREBASE_PROJECT_ID) "" in
  throw_if (String.eqb projectId "")
    (AppException INTERNAL_ERROR "FIREBASE_PROJECT_ID is not configured" 503) ;;
  try_catch
    (claims ← match jwtVerify idToken ("https://securetoken.google.com/" +:+ projectId) projectId with
              | Ok c => mret c | Throw e => throw e end;
     claimed claims)
    (λ e, match e with
          | AppException _ _ _ => throw e
          | _ => throw (AppException UNAUTHORIZED "Invalid Firebase ID token" 401)
          end).
End services.

(** ** [services/auth.service.ts] *)
Module AuthService.
Section auth.
Context `{Redis, !Crypto, !Postgres, !AuthLibraries, !ClientText}.

Definition INVALID_CREDENTIALS : exn :=
  AppException AUTH_INVALID_CREDENTIALS "Invalid credentials" 401.
Definition WEAK_PASSWORD : exn :=
  AppException AUTH_WEAK_PASSWORD "Password does not meet policy requirements" 400.
Definition USER_NOT_FOUND : exn := AppException NOT_FOUND "User not found" 404.
Definition MOBILE_TAKEN : exn :=
  AppException AUTH_MOBILE_TAKEN "Mobile number is already registered" 409.
Definition INVALID_REFRESH : exn := AppException AUTH_INVALID_TOKEN "Invalid refresh token" 401.
Definition CURRENT_PASSWORD_INVALID : exn :=
  AppException AUTH_CURRENT_PASSWORD_INVALID "Current password is invalid" 400.

Definition locked (u : User) (now : Z) : bool :=
  match us_locked_until u with Some t => now <? t | None => false end.

Definition disabled (u : User) : bool :=
  match us_status u with rs_inactive | rs_suspended | rs_archived => true | _ => false end.

Definition assertAccountAccessible (user : User) : M (St Db) () :=
  now ← Date_now;
  throw_if (locked user now) (AppException AUTH_ACCOUNT_LOCKED "Account is temporarily locked" 403) ;;
  throw_if (disabled user) (AppException AUTH_ACCOUNT_INACTIVE "Account is inactive" 403).

Definition handleFailedLogin (user : User) (identifier : string) (meta : RequestMeta)
  (reason : string) : M (St Db) () :=
  attempt_create (Some (us_id user)) identifier meta false (Some reason) ;;
  updated ← incrementFailedLogin (us_id user);
  if MAX_FAILED_LOGINS <=? us_failed_login_count updated then
    now ← Date_now;
    _ ← lockUntil (us_id user) (addMinutes now LOCKOUT_MINUTES);
    mret tt
  else mret tt.

(** The session the tokens belong to comes with the response. *)
Definition createAuthResponse (user : User) (meta : RequestMeta)
  : M (St Db) (LoginResponse * string) :=
  '(session, _) ← createSession (us_id user) meta;
  tokens ← createRefreshPair user meta (Some (se_id session)) None;
  roles ← getUserRoleCodes (us_id user);
  permissions ← getUserPermissionCodes (us_id user);
  mret (mkLoginResponse (tp_tokens tokens) (toPublicUser user) roles permissions, se_id session).

Definition issueAuthResponse (user : User) (meta : RequestMeta) : M (St Db) LoginResponse :=
  '(response, sessionId) ← createAuthResponse user meta;
  emit (UserLoggedInEvent (us_id user) sessionId (ipAddress meta)) ;;
  mret response.

(** [if (input.x) { const existing = await find(input.x); if (existing) throw e }] *)
Definition refuse_taken (value : option string) (find : string → M (St Db) (option User)) (e : exn)
  : M (St Db) () :=
  if truthy_str value then
    existing ← find (coalesce value "");
    throw_if (bool_decide (is_Some existing)) e
  else mret tt.

Definition register (email mobile : option string) (password : string) (meta : RequestMeta)
  : M (St Db) LoginResponse :=
  throw_if (negb (truthy_str email) && negb (truthy_str mobile))
    (AppException VALIDATION_ERROR "Email or mobile is required" 400) ;;
  throw_if (negb (isStrongPassword password)) WEAK_PASSWORD ;;
  refuse_taken email findByEmail (AppException AUTH_EMAIL_TAKEN "Email is already registered" 409) ;;
  refuse_taken mobile findByMobile MOBILE_TAKEN ;;
  passwordHash ← password_hash password;
  user ← user_create email mobile passwordHash;
  assignRole (us_id user) CUSTOMER_ROLE_ID ;;
  audit_log "REGISTER" (us_id user) ;;
  emit (UserRegisteredEvent user) ;;
  when_ (truthy_str (us_email user))
    (try_catch
       (otp ← issueOtp (coalesce (us_email user) "") oc_email op_verify_email (Some (us_id user));
        sendVerificationEmail (coalesce (us_email user) "") (io_code otp))
       (λ _, mret tt)) ;;
  '(response, _) ← createAuthResponse user meta;
  mret response.

(** [user.password_hash ? await verify(user.password_hash, password) : false] *)
Definition passwordValid (user : User) (password : string) : bool :=
  match us_password_hash user with
  | None | Some "" => false
  | Some h => password_verify h password
  end.

Definition login (identifier password : string) (meta : RequestMeta) : M (St Db) LoginResponse :=
  user ← findByIdentifier identifier;
  match user with
  | None =>
      attempt_create None identifier meta false (Some "user_not_found") ;;
      throw INVALID_CREDENTIALS
  | Some user =>
      assertAccountAccessible user ;;
      (if negb (passwordValid user password) then
         handleFailedLogin user identifier meta "invalid_password" ;;
         throw INVALID_CREDENTIALS
       else mret tt) ;;
      _ ← resetFailedLogin (us_id user);
      now ← Date_now;
      _ ← user_update (us_id user) [uf_last_login_at now; uf_last_login_ip (ipAddress meta)];
      roles ← getUserRoleCodes (us_id user);
      when_ (is_nil roles) (assignRole (us_id user) CUSTOMER_ROLE_ID) ;;
      attempt_create (Some (us_id user)) identifier meta true None ;;
      response ← issueAuthResponse user meta;
      audit_log "LOGIN" (us_id user) ;;
      mret response
  end.

Definition mapFirebaseProvider (signInProvider : string) : AuthProvider :=
  if String.eqb signInProvider "phone" then ap_otp
  else if String.eqb signInProvider "google.com" then ap_google
  else if String.eqb signInProvider "apple.com" then ap_apple
  else ap_google.

(** The user found so far, or the one that [find] knows under [value]. *)
Definition or_find (user : option User) (value : option string)
  (find : string → M (St Db) (option User)) : M (St Db) (option User) :=
  match user with
  | Some u => mret (Some u)
  | None => if truthy_str value then find (coalesce value "") else mret None
  end.

(** No account yet: create one, or take the one that a concurrent sign-up made. *)
Definition social_signup (identity : VerifiedFirebaseIdentity) (provider : AuthProvider)
  : M (St Db) User :=
  '(user, created) ← try_catch
    (u ← createFromSocial (fi_email identity) (fi_phone identity) provider
           (fi_emailVerified identity) (truthy_str (fi_phone identity));
     mret (u, true))
    (λ _, u ← or_find None (fi_email identity) findByEmail;
          u ← or_find u (fi_phone identity) findByMobile;
          u ← require_ u (AppException INTERNAL_ERROR "Could not create or link Firebase user" 500);
          mret (u, false));
  when_ created
    (assignRole (us_id user) CUSTOMER_ROLE_ID ;;
     emit (UserRegisteredEvent user)) ;;
  mret user.

Definition social_patch (identity : VerifiedFirebaseIdentity) (user : User) (now : Z)
  (meta : RequestMeta) : list UserField :=
  [uf_last_login_at now; uf_last_login_ip (ipAddress meta)]
  ++ (if fi_emailVerified identity && live (us_email_verified_at user)
      then [uf_email_verified_at now] else [])
  ++ (if truthy_str (fi_phone identity) && live (us_mobile_verified_at user)
      then [uf_mobile_verified_at now] else [])
  ++ (if bool_decide (us_status user = rs_pending) then [uf_status rs_active] else []).

Definition loginWithFirebaseInner (idToken : string) (meta : RequestMeta)
  : M (St Db) LoginResponse :=
  identity ← verifyIdToken idToken;
  let provider := mapFirebaseProvider (fi_signInProvider identity) in
  throw_if (negb (truthy_str (fi_email identity)) && negb (truthy_str (fi_phone identity)))
    (AppException VALIDATION_ERROR "Firebase account must have an email or phone number" 400) ;;
  oauth ← findByOauth provider (fi_uid identity);
  let user := match oauth with Some u => if user_live u then Some u else None | None => None end in
  user ← or_find user (fi_email identity) findByEmail;
  user ← or_find user (fi_phone identity) findByMobile;
  user ← match user with
         | None => social_signup identity provider
         | Some u =>
             assertAccountAccessible u ;;
             now ← Date_now;
             user_update (us_id u) (social_patch identity u now meta)
         end;
  match provider with
  | ap_google | ap_apple =>
      upsertOauth (us_id user) provider (fi_uid identity) (fi_email identity)
  | _ => mret tt
  end ;;
  _ ← resetFailedLogin (us_id user);
  attempt_create (Some (us_id user))
    (coalesce (fi_email identity) (coalesce (fi_phone identity) (fi_uid identity))) meta true None ;;
  response ← issueAuthResponse user meta;
  audit_log "LOGIN_FIREBASE" (us_id user) ;;
  mret response.

Definition loginWithFirebase (idToken : string) (meta : RequestMeta) : M (St Db) LoginResponse :=
  try_catch (loginWithFirebaseInner idToken meta)
    (λ e, match e with
          | AppException _ _ _ => throw e
          | _ => throw (AppException INTERNAL_ERROR (errMsg e) 500)
          end).

Definition spent (t : RefreshToken) : bool :=
  match tk_status t with tk_rotated | tk_revoked => true | _ => false end.

Definition refresh (refreshToken : string) : M (St Db) AuthTokensResponse :=
  stored ← findByHash (hashToken refreshToken);
  stored ← require_ stored INVALID_REFRESH;
  (if spent stored then
     _ ← revokeFamily (tk_family_id stored);
     emit (TokenReuseDetectedEvent (tk_user_id stored) (tk_family_id stored)) ;;
     throw (AppException AUTH_TOKEN_REUSED "Refresh token reuse detected" 401)
   else mret tt) ;;
  now ← Date_now;
  throw_if (negb (bool_decide (tk_status stored = tk_active)) || (tk_expires_at stored <=? now))
    (AppException AUTH_INVALID_TOKEN "Refresh token expired" 401) ;;
  user ← user_findById (tk_user_id stored);
  user ← require_ user INVALID_REFRESH;
  assertAccountAccessible user ;;
  rawRefresh ← generateRawToken;
  now ← Date_now;
  newToken ← token_create (us_id user) (hashToken rawRefresh) (tk_family_id stored)
               (tk_user_agent stored) (tk_ip_address stored) (addDays now REFRESH_DAYS);
  _ ← rotate (tk_id stored) (tk_id newToken);
  roles ← getUserRoleCodes (us_id user);
  permissions ← getUserPermissionCodes (us_id user);
  let accessToken := jwt_sign (mkJwtPayload (us_id user) (us_email user) (us_mobile user) roles
                                 permissions None (Some (tk_family_id stored))) in
  mret (mkAuthTokensResponse accessToken rawRefresh getAccessExpiresInSeconds).

Definition logout (userId : string) (refreshToken sessionId : option string) : M (St Db) () :=
  when_ (truthy_str refreshToken)
    (stored ← findByHash (hashToken (coalesce refreshToken ""));
     match stored with
     | Some t => when_ (String.eqb (tk_user_id t) userId) (_ ← token_revoke (tk_id t); mret tt)
     | None => mret tt
     end) ;;
  when_ (truthy_str sessionId) (revokeSession userId (coalesce sessionId "")) ;;
  audit_log "LOGOUT" userId ;;
  emit (UserLoggedOutEvent userId sessionId).

Definition me (userId : string) (sessionId : option string)
  : M (St Db) (PublicUser * list string * list string * option string) :=
  user ← user_findById userId;
  user ← require_ user USER_NOT_FOUND;
  roles ← getUserRoleCodes userId;
  permissions ← getUserPermissionCodes userId;
  mret (toPublicUser user, roles, permissions, sessionId).

Definition updateProfile (userId : string) (mobile : option string) : M (St Db) PublicUser :=
  (if truthy_str mobile then
     existing ← findByMobile (coalesce mobile "");
     match existing with
     | Some u => throw_if (negb (String.eqb (us_id u) userId)) MOBILE_TAKEN
     | None => mret tt
     end
   else mret tt) ;;
  user ← user_update userId (match mobile with Some m => [uf_mobile m] | None => [] end);
  audit_log "UPDATE_PROFILE" userId ;;
  mret (toPublicUser user).

Definition changePassword (userId currentPassword newPassword : string)
  (keepSessionId : option string) : M (St Db) () :=
  user ← user_findById userId;
  hash ← match user with
         | Some u => match us_password_hash u with
                     | None | Some "" => throw CURRENT_PASSWORD_INVALID
                     | Some h => mret h
                     end
         | None => throw CURRENT_PASSWORD_INVALID
         end;
  throw_if (negb (password_verify hash currentPassword)) CURRENT_PASSWORD_INVALID ;;
  throw_if (negb (isStrongPassword newPassword)) WEAK_PASSWORD ;;
  passwordHash ← password_hash newPassword;
  _ ← user_update userId [uf_password_hash passwordHash];
  _ ← token_revokeAllForUser userId;
  _ ← revokeAll userId keepSessionId;
  audit_log "CHANGE_PASSWORD" userId ;;
  emit (PasswordChangedEvent userId).

Definition forgotPassword (identifier : string) : M (St Db) string :=
  user ← findByIdentifier identifier;
  match user with
  | Some u =>
      when_ (truthy_str (us_email u))
        (otp ← issueOtp (coalesce (us_email u) "") oc_email op_reset_password (Some (us_id u));
         sendPasswordResetEmail (coalesce (us_email u) "") (io_code otp))
  | None => mret tt
  end ;;
  mret "If an account exists for that identifier, password reset instructions have been sent.".

Definition resetPassword (destination code newPassword : string) : M (St Db) () :=
  throw_if (negb (isStrongPassword newPassword)) WEAK_PASSWORD ;;
  _ ← otp_verify destination op_reset_password code;
  user ← findByIdentifier destination;
  user ← require_ user USER_NOT_FOUND;
  passwordHash ← password_hash newPassword;
  _ ← user_update (us_id user) [uf_password_hash passwordHash];
  _ ← token_revokeAllForUser (us_id user);
  _ ← revokeAll (us_id user) None;
  audit_log "RESET_PASSWORD" (us_id user).

Definition verifyEmail (email code : string) : M (St Db) () :=
  user ← findByEmail email;
  user ← require_ user USER_NOT_FOUND;
  throw_if (negb (live (us_email_verified_at user)))
    (AppException AUTH_EMAIL_ALREADY_VERIFIED "Email is already verified" 400) ;;
  _ ← otp_verify email op_verify_email code;
  now ← Date_now;
  _ ← user_update (us_id user) [uf_email_verified_at now; uf_status rs_active];
  audit_log "VERIFY_EMAIL" (us_id user) ;;
  emit (EmailVerifiedEvent (us_id user) email).

Definition resendVerification (email : string) : M (St Db) string :=
  user ← findByEmail email;
  match user with
  | Some u =>
      when_ (truthy_str (us_email u) && live (us_email_verified_at u))
        (otp ← issueOtp (coalesce (us_email u) "") oc_email op_verify_email (Some (us_id u));
         sendVerificationEmail (coalesce (us_email u) "") (io_code otp))
  | None => mret tt
  end ;;
  mret "If an unverified account exists for that email, a verification code has been sent.".

Definition sendOtp (destination : string) (channel : OtpChannel) (purpose : OtpPurpose)
  (userId : option string) : M (St Db) string :=
  otp ← issueOtp destination channel purpose userId;
  when_ (bool_decide (channel = oc_email)) (sendOtpEmail destination (io_code otp) purpose) ;;
  mret "OTP sent if destination is valid.".

Definition verifyOtp (destination : string) (purpose : OtpPurpose) (code : string)
  : M (St Db) bool :=
  _ ← otp_verify destination purpose code;
  mret true.
End auth.
End AuthService.

(** ** [services/customer-admin.service.ts] *)

Record CustomerSummary := mkCustomerSummary {
  cs_id : string; cs_name : string; cs_email : option string; cs_mobile : option string;
  cs_status : RecordStatus; cs_orders : Z; cs_ltv : Q; cs_createdAt : Z;
  cs_lastLoginAt : option Z;
}.

Fixpoint before_at (s : string) : string :=
  match s with
  | "" => ""
  | String c rest => if Ascii.eqb c "@" then "" else String c (before_at rest)
  end.

(** [u.email?.split('@')[0] || u.mobile || 'Customer'] *)
Definition customer_name (u : User) : string :=
  let local := option_map before_at (us_email u) in
  if truthy_str local then coalesce local ""
  else if truthy_str (us_mobile u) then coalesce (us_mobile u) "" else "Customer".

Definition customer_summary (d : Db) (u : User) : CustomerSummary :=
  let orders := where_ (λ o, same_opt (od_customer_id o) (Some (us_id u))) (view L_Order d) in
  let ltv := foldl (λ s o, js_add s (cents (od_grand_total o))) 0%Q
               (where_ (λ o, live (od_deleted_at o)) orders) in
  mkCustomerSummary (us_id u) (customer_name u) (us_email u) (us_mobile u) (us_status u)
    (Z.of_nat (length orders)) ltv (us_created_at u) (us_last_login_at u).

Section customers.
Context `{Redis, !Postgres}.

Definition customer_list (page limit : Z) : M (St Db) (list CustomerSummary * PaginationMeta) :=
  let take_ := Z.min (Z.max limit 1) 100 in
  let skip := (Z.max page 1 - 1) * take_ in
  let isCustomer := λ u, live (us_deleted_at u) && bool_decide (us_user_type u = ut_customer) in
  total ← db_count T_User isCustomer;
  rows ← db_findMany_desc T_User isCustomer us_created_at;
  d ← gets tables;
  mret (paginatedResult (map (customer_summary d) (page_of skip take_ rows))
          (Z.max page 1) take_ total).
End customers.
