(* ===== verification/AuthRules.v ===== *)
(** * Authentication rules

    What [AuthService] guarantees: a refresh token is exchanged once, and showing
    it again ends its whole family; five wrong passwords that are answered lock
    the account, also when writes fail; a
    password reset spends its one-time code and ends every token and session; the
    rows of the token and one-time-code tables stay well formed under every
    operation, on every path. *)
From S2P Require Import Prelude Core Effects Redis Lock JsNumber Pagination Schema Database Instant Tables Sample Auth.
From Stdlib Require Import QArith.

#[local] Open Scope Z_scope.
Import AuthService.

Notation tokens d := (view L_RefreshToken d).

(** ** Well-formed tokens, sessions and codes *)

(** An active token was never ended; a rotated one points to the token of the
    same family and user that took its place. *)
Definition token_ok (ts : list RefreshToken) (x : RefreshToken) : Prop :=
  (tk_status x = tk_active → tk_revoked_at x = None ∧ tk_replaced_by_id x = None) ∧
  (tk_status x = tk_rotated → ∃ y, y ∈ ts ∧ tk_replaced_by_id x = Some (tk_id y) ∧
     tk_family_id y = tk_family_id x ∧ tk_user_id y = tk_user_id x).

Record tokens_ok (ts : list RefreshToken) : Prop := {
  to_ids : NoDup (map tk_id ts);
  to_hashes : ∀ x y, x ∈ ts → y ∈ ts → tk_deleted_at x = None → tk_deleted_at y = None →
    tk_token_hash x = tk_token_hash y → x = y;
  to_rows : Forall (token_ok ts) ts;
}.

Definition session_ok (s : Session) : Prop := se_revoked_at s = None ↔ se_status s ≠ se_revoked.

Definition otp_ok (o : Otp) : Prop := 0 <= ot_attempts o <= ot_max_attempts o.

Record auth_ok (d : Db) : Prop := {
  ao_tokens : tokens_ok (tokens d);
  ao_sessions : Forall session_ok (view L_Session d);
  ao_otp_ids : NoDup (map ot_id (view L_Otp d));
  ao_otps : Forall otp_ok (view L_Otp d);
}.

(** The fields no update changes. *)
Definition same_token (x y : RefreshToken) : Prop :=
  tk_id y = tk_id x ∧ tk_user_id y = tk_user_id x ∧ tk_token_hash y = tk_token_hash x ∧
  tk_family_id y = tk_family_id x ∧ tk_deleted_at y = tk_deleted_at x.

Lemma token_ok_map (f : RefreshToken → RefreshToken) ts x :
  (∀ x, same_token x (f x)) → token_ok ts x → token_ok (map f ts) x.
Proof.
  intros Hf [Ha Hr]. split; [done|]. intros Hx. destruct (Hr Hx) as (y & Hy & -> & Hfam & Hu).
  exists (f y). destruct (Hf y) as (-> & -> & _ & -> & _). split; [|done]. by apply list_elem_of_fmap_2.
Qed.

(** Ending tokens, each by revocation or by a rotation to a token of its family. *)
Lemma tokens_ok_map f ts :
  tokens_ok ts → (∀ x, same_token x (f x)) →
  (∀ x, x ∈ ts → f x = x ∨ tk_status (f x) = tk_revoked ∨
     tk_status (f x) = tk_rotated ∧ ∃ y, y ∈ ts ∧ tk_replaced_by_id (f x) = Some (tk_id y) ∧
       tk_family_id y = tk_family_id x ∧ tk_user_id y = tk_user_id x) →
  tokens_ok (map f ts).
Proof.
  intros [Hids Hhash Hrows] Hf Hx. split.
  - rewrite map_map. erewrite map_ext; [done|]. intros x. apply Hf.
  - intros x' y' (x & -> & Hxin)%list_elem_of_fmap (y & -> & Hyin)%list_elem_of_fmap.
    destruct (Hf x) as (_ & _ & -> & _ & ->), (Hf y) as (_ & _ & -> & _ & ->). intros.
    f_equal. by apply Hhash.
  - apply Forall_forall. intros x' (x & -> & Hxin)%list_elem_of_fmap.
    rewrite Forall_forall in Hrows. destruct (Hx x Hxin) as [->|[E|[E (y & Hy & Er & Hfam & Hu)]]].
    + by apply token_ok_map, Hrows.
    + split; congruence.
    + split; [congruence|]. intros _. exists (f y). rewrite Er.
      destruct (Hf y) as (-> & -> & _ & -> & _), (Hf x) as (_ & -> & _ & -> & _).
      split; [by apply list_elem_of_fmap_2|done].
Qed.

(** The unique index on hashes, read off an accepted row. *)
Lemma token_accepted d r y :
  refused T_RefreshToken d r = None → tk_deleted_at r = None → tk_id r ∉ map tk_id (tokens d) →
  y ∈ tokens d → tk_deleted_at y = None → tk_token_hash y ≠ tk_token_hash r.
Proof.
  cbn [refused T_RefreshToken]. intros Hr Hl Hid Hy Hly E. accepted Hr. rewrite Hl in *. simpl in *.
  rename select (unique_in _ _ _ _ = true) into Hu.
  assert (tk_id y ≠ tk_id r) as Hne by (intros Ei; apply Hid; rewrite <- Ei; by apply list_elem_of_fmap_2).
  pose proof (unique_in_spec _ _ _ _ _ Hu Hy Hne) as Hp. simpl in Hp.
  by rewrite Hly, E, String.eqb_refl in Hp.
Qed.

Lemma tokens_ok_create d r :
  tokens_ok (tokens d) → refused T_RefreshToken d r = None → tk_id r ∉ map tk_id (tokens d) →
  tk_deleted_at r = None → tk_status r = tk_active → tk_revoked_at r = None →
  tk_replaced_by_id r = None → tokens_ok (tokens d ++ [r]).
Proof.
  intros [Hids Hhash Hrows] Hacc Hid Hl Hst Hrev Hrep.
  pose proof (λ y, token_accepted d r y Hacc Hl Hid) as Hne. split.
  - by apply NoDup_snoc.
  - intros x y Hx Hy Hlx Hly E. rewrite elem_of_app, list_elem_of_singleton in Hx, Hy.
    destruct Hx as [Hx| ->], Hy as [Hy| ->]; [by apply Hhash|..|done]; exfalso; by eapply Hne.
  - apply Forall_app. split.
    + eapply Forall_impl; [done|]. intros x [Ha Hr]. split; [done|]. intros Hx.
      destruct (Hr Hx) as (y & Hy & ?). exists y. split; [set_solver|done].
    + apply Forall_singleton. split; [done|congruence].
Qed.

Lemma live_None z : live z = true ↔ z = None.
Proof. by destruct z. Qed.

(** ** Every operation keeps the rows well formed *)

Definition same_auth (d d' : Db) : Prop :=
  tokens d' = tokens d ∧ view L_Session d' = view L_Session d ∧ view L_Otp d' = view L_Otp d.

Lemma auth_ok_same d d' : same_auth d d' → auth_ok d → auth_ok d'.
Proof.
  intros (Et & Es & Eo) [[Hi Hh Hr] ? ? ?]. by repeat split; rewrite ?Et, ?Es, ?Eo.
Qed.

Lemma auth_ok_tokens d l :
  auth_ok d → tokens_ok l → auth_ok (put L_RefreshToken l d).
Proof. by intros [] ?. Qed.

Notation keeping := (on_tables (preserving auth_ok)).

Section preserved.
Context `{Redis, !Crypto, !Postgres, !AuthLibraries, !ClientText}.

Lemma stays_dwp {A} (R : Db → Db → Prop) (m : M (St Db) A) :
  (∀ d, dwp m (λ _ d', R d d') d) → stays (on_tables R) m.
Proof. intros Hm s. by apply Hm. Qed.

(** Writes to the other tables. *)
Section frame.
Context {A : Type} (T : Table A).
Hypothesis HT : ∀ d (l : list A), same_auth d (put (tbl T) l d).

Lemma keep_put d (l : list A) : preserving auth_ok d (put (tbl T) l d).
Proof. intros Hok. by eapply auth_ok_same. Qed.

Lemma keep_create mk : stays keeping (db_create T mk).
Proof. apply stays_create; [apply _|apply keep_put]. Qed.

Lemma keep_update id f : stays keeping (db_update T id f).
Proof. apply stays_update; [apply _|apply keep_put]. Qed.
End frame.

Lemma end_token_same st rep now x : same_token x (end_token st rep now x).
Proof. done. Qed.

Lemma tokens_revoked (p : RefreshToken → bool) now ts :
  tokens_ok ts → tokens_ok (map (λ y, if p y then end_token tk_revoked None now y else y) ts).
Proof.
  intros Hok. apply tokens_ok_map; [done|intros x; by destruct (p x)|].
  intros x _. destruct (p x); [by right; left|by left].
Qed.

Lemma token_revoke_keeps id : stays keeping (token_revoke id).
Proof.
  apply stays_bind; [apply _|apply stays_env; [apply _|]; by intros s|]. intros now.
  apply stays_dwp. intros d. dwp_step; [done|]. intros Hok.
  apply auth_ok_tokens; [done|]. by apply (tokens_revoked (λ y, String.eqb (tk_id y) id)), Hok.
Qed.

Lemma updateMany_count_timeless {A} (T : Table A) (p : A → bool) (f : A → A) :
  timeless (db_updateMany_count T p f).
Proof. unfold db_updateMany_count. timeless_ fail. Qed.

(** Rows of one table changed by [f] where [p] holds, or nothing. *)
Lemma updateMany_count_spec {A} (T : Table A) (p : A → bool) (f : A → A)
  (Q : outcome Z → Db → Prop) t d :
  (∀ k, Q (Throw (DbError k)) d) →
  (∀ n, Q (Ok n) (put (tbl T) (map (λ r, if p r then f r else r) (view (tbl T) d)) d)) →
  iwp (db_updateMany_count T p f) Q t d.
Proof.
  intros HE HO. apply iwp_dwp; [apply updateMany_count_timeless|].
  unfold db_updateMany_count. apply dwp_bind.
  apply (dwp_gets (λ d, Z.of_nat (length (where_ p (view (tbl T) d))))).
  apply dwp_bind, dwp_updateMany; [done|]. by apply dwp_ret.
Qed.

Lemma updateMany_count_keeps {A} (T : Table A) (p : A → bool) (f : A → A) :
  (∀ d, auth_ok d → auth_ok (put (tbl T) (map (λ r, if p r then f r else r) (view (tbl T) d)) d)) →
  stays keeping (db_updateMany_count T p f).
Proof.
  intros HT. apply stays_dwp. intros d. apply dwp_iwp. intros t.
  apply updateMany_count_spec; [done|]. intros n Hok. by apply HT.
Qed.

Lemma revokeFamily_keeps family : stays keeping (revokeFamily family).
Proof.
  unfold revokeFamily, Date_now. apply stays_bind; [apply _|apply stays_gets, _|]. intros now.
  apply updateMany_count_keeps. intros d Hok. by apply auth_ok_tokens, tokens_revoked, Hok.
Qed.

Lemma revokeTokens_keeps userId : stays keeping (token_revokeAllForUser userId).
Proof.
  unfold token_revokeAllForUser, Date_now. apply stays_bind; [apply _|apply stays_gets, _|].
  intros now. apply updateMany_count_keeps. intros d Hok.
  by apply auth_ok_tokens, tokens_revoked, Hok.
Qed.

Lemma token_create_keeps u h fam ua ip exp : stays keeping (token_create u h fam ua ip exp).
Proof.
  apply stays_dwp. intros d. unfold token_create. dwp_step; [done|]. intros Hok.
  apply auth_ok_tokens; [done|]. by apply tokens_ok_create; [apply Hok|..].
Qed.

Lemma auth_ok_sessions d l : auth_ok d → Forall session_ok l → auth_ok (put L_Session l d).
Proof. by intros [] ?. Qed.

Lemma end_session_ok now s : session_ok (end_session now s).
Proof. by split. Qed.

Lemma session_create_keeps u h ua ip dn dt exp : stays keeping (session_create u h ua ip dn dt exp).
Proof.
  unfold session_create, Date_now. apply stays_bind; [apply _|apply stays_gets, _|]. intros now.
  apply stays_dwp. intros d. dwp_step; [done|]. intros Hok. apply auth_ok_sessions; [done|].
  apply Forall_app. split; [apply Hok|]. by apply Forall_singleton.
Qed.

Lemma session_revoke_keeps id : stays keeping (session_revoke id).
Proof.
  unfold session_revoke, Date_now. apply stays_bind; [apply _|apply stays_gets, _|]. intros now.
  apply stays_dwp. intros d. dwp_step; [done|]. intros Hok. apply auth_ok_sessions; [done|].
  apply Forall_update_rows; [apply Hok|]. intros. apply end_session_ok.
Qed.

Lemma revokeSessions_keeps u e : stays keeping (session_revokeAllForUser u e).
Proof.
  unfold session_revokeAllForUser, Date_now. apply stays_bind; [apply _|apply stays_gets, _|].
  intros now. apply updateMany_count_keeps. intros d Hok. apply auth_ok_sessions; [done|].
  pose proof (ao_sessions _ Hok) as Hs. rewrite Forall_forall in *.
  intros s' (s & -> & Hin)%list_elem_of_fmap.
  destruct (closing u e s); [apply end_session_ok|by apply Hs].
Qed.

Lemma otps_ok (f : Otp → Otp) id d :
  (∀ o, ot_id (f o) = ot_id o) →
  (∀ o, o ∈ view L_Otp d → ot_id o = id → otp_ok o → otp_ok (f o)) →
  auth_ok d → auth_ok (put L_Otp (update_rows ot_id id f (view L_Otp d)) d).
Proof.
  intros Hid Hf [? ? Hnd Ho]. split; [done..| |]; rewrite view_put.
  - by rewrite update_rows_keys.
  - by apply Forall_update_rows.
Qed.

Lemma otp_create_keeps u dest ch p h exp : stays keeping (otp_create u dest ch p h exp None).
Proof.
  unfold otp_create, Date_now. apply stays_bind; [apply _|apply stays_gets, _|]. intros now.
  apply stays_dwp. intros d. dwp_step; [done|]. intros [? ? Hnd Ho]. split; [done..| |]; rewrite view_put.
  - by apply NoDup_snoc.
  - apply Forall_app. split; [done|]. apply Forall_singleton. unfold otp_ok. simpl. lia.
Qed.

Lemma findLatestActive_spec dest p Q t d :
  (∀ o, o ∈ view L_Otp d → otp_open dest p t o = true → Q (Ok (Some o)) d) → Q (Ok None) d →
  iwp (findLatestActive dest p) Q t d.
Proof.
  intros HS HN. unfold findLatestActive. iwp_step. apply iwp_dwp; [auto with kept|].
  unfold db_findFirst_desc.
  apply (dwp_gets (λ d, head (order_desc ot_created_at (where_ (otp_open dest p t) (view L_Otp d))))).
  destruct (head _) as [o|] eqn:E; [|done].
  assert (o ∈ where_ (otp_open dest p t) (view L_Otp d)) as [? ?]%elem_of_where; [|by apply HS].
  rewrite <- (order_desc_perm _ ot_created_at). destruct (order_desc _ _); simplify_eq/=. left.
Qed.

(** A code is taken only while attempts are left, and an attempt is counted. *)
Lemma otp_verify_spec dest p code Q t d :
  (∀ e, Q (Throw e) d) →
  (∀ o, o ∈ view L_Otp d → otp_open (otp_destination dest) p t o = true →
     ot_attempts o < ot_max_attempts o → sha256_hex code ≠ ot_code_hash o →
     Q (Throw (AppException AUTH_OTP_INVALID "Invalid OTP code" 400))
       (put L_Otp (update_rows ot_id (ot_id o) attempted (view L_Otp d)) d)) →
  (∀ o, o ∈ view L_Otp d → otp_open (otp_destination dest) p t o = true →
     ot_attempts o < ot_max_attempts o → sha256_hex code = ot_code_hash o →
     Q (Ok (ot_user_id o, ot_id o))
       (put L_Otp (update_rows ot_id (ot_id o) (consumed t) (view L_Otp d)) d)) →
  iwp (otp_verify dest p code) Q t d.
Proof.
  intros HE HI HO. unfold otp_verify.
  apply iwp_bind, findLatestActive_spec; [intros o Ho Hopen|by iwp_step; [done|apply HE]].
  iwp_step; [simplify_eq|done]. iwp_step; [apply HE|]. rename a into o. bool_to_prop.
  destruct (String.eqb_spec (sha256_hex code) (ot_code_hash o)) as [Ec|Ec]; simpl.
  - iwp_step. unfold consume. apply iwp_bind. iwp_step. iwp_step; [apply HE|].
    iwp_step. by apply HO.
  - apply iwp_bind. unfold incrementAttempts. iwp_step; [apply HE|]. iwp_step. by apply HI.
Qed.

Lemma otp_verify_keeps dest p code : stays keeping (otp_verify dest p code).
Proof.
  intros s Hok. eapply (iwp_elim _ (λ _ d', auth_ok d')); [|apply surjective_pairing].
  apply otp_verify_spec; [done|..].
  - intros o Ho _ Hlt _. apply otps_ok; [done| |done]. intros x Hx Hid [? ?].
    assert (x = o) as -> by (eapply (NoDup_key_eq ot_id); [apply Hok|done..]).
    unfold otp_ok. simpl. lia.
  - intros o _ _ _ _. by apply otps_ok.
Qed.

End preserved.

(** ** Refresh tokens *)

(** The tokens of a family that can still be exchanged. *)
Definition family_open (d : Db) (family : string) : list RefreshToken :=
  where_ (λ t, String.eqb (tk_family_id t) family && usable t) (tokens d).

Section refresh.
Context `{Redis, !Crypto, !Postgres, !AuthLibraries}.

(** The token was good, its user may log in, one new token of the same family and
    user is there and the old one points to it; no other row changed. *)
Record exchanged (raw : string) (r : AuthTokensResponse) (t : Z) (d d' : Db)
  (old new : RefreshToken) (u : User) : Prop := {
  ex_old : old ∈ tokens d;
  ex_old_good : tk_token_hash old = hashToken raw ∧ tk_status old = tk_active ∧
    tk_deleted_at old = None ∧ t < tk_expires_at old;
  ex_user : u ∈ view L_User d ∧ us_id u = tk_user_id old ∧ us_deleted_at u = None ∧
    locked u t = false ∧ disabled u = false;
  ex_new : new = mkRefreshToken (tk_id new) (tk_user_id old) (hashToken (at_refreshToken r))
    (tk_family_id old) None (tk_user_agent old) (tk_ip_address old) (t + 7 * 86400000) None
    tk_active None;
  ex_fresh : tk_id new ∉ map tk_id (tokens d);
  ex_accepted : refused T_RefreshToken d new = None;
  ex_tables : d' = put L_RefreshToken (update_rows tk_id (tk_id old)
    (end_token tk_rotated (Some (tk_id new)) t) (tokens d ++ [new])) d;
  ex_access : at_accessToken r = jwt_sign (mkJwtPayload (us_id u) (us_email u) (us_mobile u)
    (role_codes d' (us_id u)) (permission_codes d' (us_id u)) None (Some (tk_family_id old)));
}.

Lemma assert_spec u Q t d :
  (locked u t = false → disabled u = false → Q (Ok tt) d) →
  (∀ e, Q (Throw e) d) → iwp (assertAccountAccessible u) Q t d.
Proof.
  intros HQ HE. unfold assertAccountAccessible. iwp_step. iwp_step; [apply HE|].
  iwp_step; [apply HE|by apply HQ].
Qed.

Lemma refresh_spec raw t d :
  iwp (refresh raw) (λ o d', match o with
    | Ok r => ∃ old new u, exchanged raw r t d d' old new u
    | Throw _ => auth_ok d → auth_ok d' end) t d.
Proof.
  unfold refresh, findByHash. iwp_step; [|by iwp_step]. bool_to_prop. iwp_step; [simplify_eq|done].
  rename a into old. destruct (spent old) eqn:Hs.
  { unfold revokeFamily. apply iwp_bind, iwp_bind. iwp_step.
    apply updateMany_count_spec; [done|intros k]. iwp_step. iwp_step.
    intros Hok. by apply auth_ok_tokens, tokens_revoked, Hok. }
  iwp_step. iwp_step. iwp_step; [done|].
  rename select (_ || _ = false) into Hgood. apply orb_false_iff in Hgood as [Hact Hexp].
  rename select (live _ = true) into Hlive. apply live_None in Hlive. bool_to_prop.
  unfold user_findById. iwp_step; [|by iwp_step]. iwp_step; [simplify_eq|done]. bool_to_prop.
  rename select (user_live _ = true) into Hu. apply live_None in Hu. rename a into u.
  apply iwp_bind, assert_spec; [intros Hl Hd|done].
  unfold generateRawToken, token_create. iwp_step. iwp_step. iwp_step; [done|].
  set (fresh := randomBytes_hex n) in *. rename select (us_id u = _) into Eu. rename select (_ = None) into Hacc.
  unfold rotate. apply iwp_bind. iwp_step. iwp_step.
  { intros Hok. by apply auth_ok_tokens, tokens_ok_create; [|apply Hok|..]. }
  do 2 (apply iwp_bind, iwp_dwp; [by apply timeless_gets|];
        apply (dwp_gets (λ d, _ d _))). iwp_step.
  exists old, (mkRefreshToken id (us_id u) (hashToken fresh) (tk_family_id old) None (tk_user_agent old)
    (tk_ip_address old) (addDays t REFRESH_DAYS) None tk_active None), u.
  split; try done; cbn [tbl T_RefreshToken pk tk_id at_refreshToken] in *.
  by rewrite Eu.
Qed.

(** A spent token shown again: nothing is issued, and the family is closed. *)
Lemma refresh_spent_spec raw t d x :
  tokens_ok (tokens d) → x ∈ tokens d → tk_deleted_at x = None → tk_token_hash x = hashToken raw →
  spent x = true →
  iwp (refresh raw) (λ o d',
    (∃ k, o = Throw (DbError k) ∧ d' = d) ∨
    (o = Throw (AppException AUTH_TOKEN_REUSED "Refresh token reuse detected" 401) ∧
     d' = put L_RefreshToken (map (λ y, if String.eqb (tk_family_id y) (tk_family_id x) && usable y
                                        then end_token tk_revoked None t y else y) (tokens d)) d)) t d.
Proof.
  intros Hok Hx Hl Hh Hs. unfold refresh, findByHash. iwp_step.
  - bool_to_prop. rename select (live _ = true) into Hlive. apply live_None in Hlive.
    rename x0 into y. assert (y = x) as -> by (apply (to_hashes _ Hok); [done..|congruence]).
    iwp_step; [simplify_eq|done]. rewrite Hs.
    unfold revokeFamily. apply iwp_bind, iwp_bind. iwp_step.
    apply updateMany_count_spec; [by left; eauto|intros n]. iwp_step.
    iwp_step. by right.
  - exfalso. rename select (Forall _ _) into Hnone. rewrite Forall_forall in Hnone.
    specialize (Hnone x Hx). simpl in Hnone. by rewrite Hh, String.eqb_refl, Hl in Hnone.
Qed.

Lemma no_family_open d family t :
  family_open (put L_RefreshToken (map (λ y, if String.eqb (tk_family_id y) family && usable y
    then end_token tk_revoked None t y else y) (tokens d)) d) family = [].
Proof.
  unfold family_open. rewrite view_put. induction (tokens d) as [|y l IH]; [done|].
  cbn [map where_]. destruct (String.eqb (tk_family_id y) family && usable y) eqn:E; [|by rewrite E].
  by rewrite andb_comm.
Qed.

Lemma exchanged_keeps raw r t d d' old new u :
  exchanged raw r t d d' old new u → auth_ok d → auth_ok d'.
Proof.
  intros [Ho _ _ En Hf Ha -> _] Hok.
  assert (tokens_ok (tokens d ++ [new])) as Hok1
    by (rewrite En in *; by apply tokens_ok_create; [apply Hok|..]).
  apply auth_ok_tokens; [done|]. apply tokens_ok_map; [done|intros x; by destruct (String.eqb _ _)|].
  intros x Hx. destruct (String.eqb_spec (tk_id x) (tk_id old)) as [E|]; [|by left]. right; right.
  assert (x = old) as -> by (eapply (NoDup_key_eq tk_id); [apply Hok1|done|set_solver|done]).
  split; [done|]. exists new. rewrite En. split; [set_solver|done].
Qed.

(** Both ends of an exchange are in the table afterwards. *)
Lemma exchanged_rows raw r t d d' old new u :
  exchanged raw r t d d' old new u →
  end_token tk_rotated (Some (tk_id new)) t old ∈ tokens d' ∧ new ∈ tokens d'.
Proof.
  intros [Ho _ _ _ Hf _ -> _]. rewrite view_put. split.
  - apply (elem_of_updated tk_id). set_solver.
  - apply list_elem_of_fmap. exists new. split; [|set_solver].
    destruct (String.eqb_spec (tk_id new) (tk_id old)) as [E|]; [|done].
    destruct Hf. rewrite E. by apply list_elem_of_fmap_2.
Qed.

Lemma refresh_keeps raw : stays keeping (refresh raw).
Proof.
  intros s Hok. eapply (iwp_elim _ (λ _ d', auth_ok d')); [|apply surjective_pairing].
  eapply iwp_mono; [apply refresh_spec|]. intros [r|e] d'; [|auto].
  intros (old & new & u & E). by eapply exchanged_keeps.
Qed.
End refresh.

(** ** The operations of the service *)

Inductive AuthOp :=
| op_register_ (email mobile : option string) (password : string) (meta : RequestMeta)
| op_login_ (identifier password : string) (meta : RequestMeta)
| op_loginWithFirebase (idToken : string) (meta : RequestMeta)
| op_refresh (refreshToken : string)
| op_logout (userId : string) (refreshToken sessionId : option string)
| op_updateProfile (userId : string) (mobile : option string)
| op_changePassword (userId currentPassword newPassword : string) (keepSessionId : option string)
| op_forgotPassword (identifier : string)
| op_resetPassword (destination code newPassword : string)
| op_verifyEmail (email code : string)
| op_resendVerification (email : string)
| op_sendOtp (destination : string) (channel : OtpChannel) (purpose : OtpPurpose) (userId : option string)
| op_verifyOtp (destination : string) (purpose : OtpPurpose) (code : string)
| op_revokeSession (userId sessionId : string)
| op_revokeAllSessions (userId : string) (exceptSessionId : option string).

Section invariant.
Context `{Redis, !Crypto, !Postgres, !AuthLibraries, !ClientText}.

Definition run_auth_op (op : AuthOp) : M (St Db) () :=
  match op with
  | op_register_ e m p meta => _ ← register e m p meta; mret tt
  | op_login_ i p meta => _ ← login i p meta; mret tt
  | op_loginWithFirebase t meta => _ ← loginWithFirebase t meta; mret tt
  | op_refresh t => _ ← refresh t; mret tt
  | op_logout u t i => logout u t i
  | op_updateProfile u m => _ ← updateProfile u m; mret tt
  | op_changePassword u c n k => changePassword u c n k
  | op_forgotPassword i => _ ← forgotPassword i; mret tt
  | op_resetPassword x c n => resetPassword x c n
  | op_verifyEmail e c => verifyEmail e c
  | op_resendVerification e => _ ← resendVerification e; mret tt
  | op_sendOtp x ch p u => _ ← sendOtp x ch p u; mret tt
  | op_verifyOtp x p c => _ ← verifyOtp x p c; mret tt
  | op_revokeSession u i => revokeSession u i
  | op_revokeAllSessions u e => _ ← revokeAll u e; mret tt
  end.

Ltac keeps_step := idtac;
  lazymatch goal with
  | |- stays _ (token_create _ _ _ _ _ _) => apply token_create_keeps
  | |- stays _ (token_revoke _) => apply token_revoke_keeps
  | |- stays _ (token_revokeAllForUser _) => apply revokeTokens_keeps
  | |- stays _ (session_create _ _ _ _ _ _ _) => apply session_create_keeps
  | |- stays _ (session_revoke _) => apply session_revoke_keeps
  | |- stays _ (session_revokeAllForUser _ _) => apply revokeSessions_keeps
  | |- stays _ (otp_create _ _ _ _ _ _ _) => apply otp_create_keeps
  | |- stays _ (otp_verify _ _ _) => apply otp_verify_keeps
  | |- stays _ (db_create _ _) => apply keep_create; done
  | |- stays _ (db_update _ _ _) => apply keep_update; done
  | |- stays _ (_ ≫= _) => apply stays_bind; [apply _| |intros ?]
  | |- stays _ (mret _) => apply stays_ret, _
  | |- stays _ (throw _) => apply stays_throw, _
  | |- stays _ (gets _) => apply stays_gets, _
  end.
Ltac keep := staying keeps_step.

Lemma mail_keeps t to s c : stays keeping (mail_send t to s c).
Proof. unfold mail_send. keep. Qed.

Lemma issueOtp_keeps dest ch p u : stays keeping (issueOtp dest ch p u).
Proof. unfold issueOtp, generateCode. keep. Qed.

Lemma response_keeps u meta : stays keeping (createAuthResponse u meta).
Proof.
  unfold createAuthResponse, createSession, createRefreshPair, generateRawToken, Date_now,
    getUserRoleCodes, getUserPermissionCodes. keep.
Qed.

Lemma lookups_keep x : stays keeping (findByEmail x) ∧ stays keeping (findByMobile x) ∧
  stays keeping (findByIdentifier x).
Proof. unfold findByIdentifier, findByEmail, findByMobile, db_findFirst. split_and!; keep. Qed.

Ltac keep2 := staying ltac:(first [keeps_step | apply mail_keeps | apply issueOtp_keeps
  | apply response_keeps | apply lookups_keep]).

Lemma assign_keeps u r : stays keeping (assignRole u r).
Proof. unfold assignRole, db_findFirst. keep2. Qed.

Lemma login_keeps i p meta : stays keeping (login i p meta).
Proof.
  unfold login, assertAccountAccessible, handleFailedLogin, attempt_create, incrementFailedLogin,
    lockUntil, resetFailedLogin, user_update, getUserRoleCodes, issueAuthResponse, audit_log, Date_now.
  staying ltac:(first [keeps_step | apply lookups_keep | apply response_keeps | apply assign_keeps]).
Qed.

Lemma firebase_keeps t meta : stays keeping (loginWithFirebase t meta).
Proof.
  unfold loginWithFirebase, loginWithFirebaseInner, verifyIdToken, claimed, findByOauth,
    social_signup, or_find, createFromSocial, assertAccountAccessible, user_update, upsertOauth, resetFailedLogin,
    attempt_create, issueAuthResponse, audit_log, Date_now, db_findFirst.
  staying ltac:(first [keeps_step | apply lookups_keep | apply response_keeps | apply assign_keeps]).
Qed.

Lemma run_keeps op : stays keeping (run_auth_op op).
Proof.
  destruct op; simpl; (apply stays_bind; [apply _| |intros ?; apply stays_ret, _]) || idtac.
  all: try solve [apply login_keeps | apply firebase_keeps | apply refresh_keeps].
  all: unfold register, refuse_taken, user_create, logout, findByHash, updateProfile,
    changePassword, forgotPassword, resetPassword, verifyEmail, resendVerification, sendOtp, verifyOtp,
    revokeSession, revokeAll, findByIdForUser, user_findById, user_update, audit_log,
    sendVerificationEmail, sendPasswordResetEmail, sendOtpEmail, password_hash, Date_now, db_findFirst.
  all: staying ltac:(first [keeps_step | apply mail_keeps | apply issueOtp_keeps
    | apply response_keeps | apply lookups_keep | apply assign_keeps]).
Qed.
End invariant.

(** ** Five wrong passwords lock the account *)

(** What the constraints of the user table promise. *)
Record users_ok (us : list User) : Prop := {
  uo_ids : NoDup (map us_id us);
  uo_emails : ∀ x y, x ∈ us → y ∈ us → user_live x = true → user_live y = true →
    same_citext (us_email x) (us_email y) = true → x = y;
  uo_mobiles : ∀ x y, x ∈ us → y ∈ us → user_live x = true → user_live y = true →
    same_opt (us_mobile x) (us_mobile y) = true → x = y;
}.

(** Who [findByIdentifier] looks for. *)
Definition known_as (identifier : string) (u : User) : bool :=
  let i := trim identifier in
  (if includes_text i "@" then same_citext (us_email u) (Some (toLowerCase i))
   else same_opt (us_mobile u) (Some i)) && user_live u.

Lemma same_citext_trans a b c : same_citext a b = true → same_citext c b = true → same_citext a c = true.
Proof.
  destruct a, b, c; simpl; try done. intros E1%String.eqb_eq E2%String.eqb_eq.
  apply String.eqb_eq. congruence.
Qed.

Lemma same_opt_trans a b c : same_opt a b = true → same_opt c b = true → same_opt a c = true.
Proof.
  destruct a, b, c; simpl; try done. intros E1%String.eqb_eq E2%String.eqb_eq.
  apply String.eqb_eq. congruence.
Qed.

Lemma known_as_unique us i x y :
  users_ok us → x ∈ us → y ∈ us → known_as i x = true → known_as i y = true → x = y.
Proof.
  intros Hok Hx Hy. unfold known_as. intros [Ex Hlx]%andb_true_iff [Ey Hly]%andb_true_iff.
  destruct (includes_text _ _).
  - apply (uo_emails _ Hok); try done. by eapply same_citext_trans.
  - apply (uo_mobiles _ Hok); try done. by eapply same_opt_trans.
Qed.

(** The columns the constraints look at, the counter apart. *)
Definition same_user (x y : User) : Prop :=
  us_id y = us_id x ∧ us_email y = us_email x ∧ us_mobile y = us_mobile x ∧
  us_deleted_at y = us_deleted_at x.

Lemma users_ok_update us id f :
  users_ok us → (∀ x, same_user x (f x)) → users_ok (update_rows us_id id f us).
Proof.
  intros [Hids He Hm] Hf.
  set (g := λ x, if String.eqb (us_id x) id then f x else x).
  assert (∀ x, same_user x (g x)) as Hs by (intros x; unfold g; by destruct (String.eqb _ _)).
  unfold update_rows. fold g. split.
  - rewrite map_map. erewrite map_ext; [done|]. intros x. apply Hs.
  - intros x' y' (x & -> & Hx)%list_elem_of_fmap (y & -> & Hy)%list_elem_of_fmap. unfold user_live.
    destruct (Hs x) as (_ & -> & _ & ->), (Hs y) as (_ & -> & _ & ->). intros. f_equal. by apply He.
  - intros x' y' (x & -> & Hx)%list_elem_of_fmap (y & -> & Hy)%list_elem_of_fmap. unfold user_live.
    destruct (Hs x) as (_ & _ & -> & ->), (Hs y) as (_ & _ & -> & ->). intros. f_equal. by apply Hm.
Qed.

Section lockout.
Context `{Redis, !Crypto, !Postgres, !AuthLibraries}.
Implicit Types s : St Db.

Definition ACCOUNT_LOCKED : exn := AppException AUTH_ACCOUNT_LOCKED "Account is temporarily locked" 403.

Lemma findByIdentifier_run i u s :
  users_ok (view L_User (tables s)) → u ∈ view L_User (tables s) → known_as i u = true →
  findByIdentifier i s = (Ok (Some u), s).
Proof.
  intros Hok Hu Hk. unfold findByIdentifier, findByEmail, findByMobile.
  pose proof (findFirst_run T_User (known_as i) s u Hu Hk
    (λ y Hy Hky, known_as_unique _ i y u Hok Hy Hu Hky Hk)) as Hr.
  unfold known_as in Hr. by destruct (includes_text (trim i) "@").
Qed.

(** A locked account answers every password the same way and nothing changes. *)
Lemma login_locked_run i u p meta s :
  users_ok (view L_User (tables s)) → u ∈ view L_User (tables s) → known_as i u = true →
  locked u (instant s) = true → login i p meta s = (Throw ACCOUNT_LOCKED, s).
Proof.
  intros Hok Hu Hk Hl. unfold login. erewrite bind_step; [|by eapply findByIdentifier_run]. cbv beta iota.
  erewrite bind_abort; [done|]. unfold assertAccountAccessible.
  erewrite bind_step; [|done]. erewrite bind_abort; [done|].
  unfold throw_if. fold (instant s). by rewrite Hl.
Qed.

(** The row after a wrong password. *)
Definition failed_once (t : Z) (u : User) : User :=
  let u' := increment_failed u in
  if 5 <=? us_failed_login_count u + 1 then set_user [uf_locked_until (Some (t + 30 * 60000))] u'
  else u'.

(** The error of a database write. *)
Definition db_failed {A} (o : outcome A) : bool := match o with Throw (DbError _) => true | _ => false end.

(** A wrong password is answered as such, and counted; or a write failed, and at most
    the counter moved. *)
Definition refused_at {A} (u : User) (t : Z) (o : outcome A) (us us' : list User) : Prop :=
  (o = Throw INVALID_CREDENTIALS ∧ us' = update_rows us_id (us_id u) (failed_once t) us) ∨
  (db_failed o = true ∧ (us' = us ∨ us' = update_rows us_id (us_id u) increment_failed us)).

Lemma handleFailedLogin_spec {A} u i meta t d :
  users_ok (view L_User d) → u ∈ view L_User d →
  iwp (handleFailedLogin u i meta "invalid_password" ;; throw INVALID_CREDENTIALS)
    (λ (o : outcome A) d', refused_at u t o (view L_User d) (view L_User d')) t d.
Proof.
  intros Hok Hu. pose proof (NoDup_key_eq us_id (view L_User d)) as Hkey.
  assert (∀ x, x ∈ view L_User d → us_id x = us_id u → x = u) as Hone
    by (intros x Hx Hid; by apply Hkey; [apply Hok|..]).
  apply iwp_bind. unfold handleFailedLogin, attempt_create. apply iwp_bind. iwp_step; [by right; split; [|left]|].
  iwp_step. unfold incrementFailedLogin. iwp_step; [by right; split; [|left]|].
  rewrite (Hone r) by done. change (us_failed_login_count (increment_failed u)) with (us_failed_login_count u + 1).
  unfold MAX_FAILED_LOGINS. destruct (5 <=? us_failed_login_count u + 1) eqn:Hfive.
  - iwp_step. unfold lockUntil, addMinutes, LOCKOUT_MINUTES. iwp_step; [by right; split; [|right]|].
    iwp_step. iwp_step. left. split; [done|]. cbn [tbl T_User pk].
    rewrite !view_put, update_rows_twice by done. apply update_rows_ext. intros x Hx Hid.
    rewrite (Hone x Hx Hid). unfold failed_once. by rewrite Hfive.
  - iwp_step. iwp_step. left. split; [done|]. apply update_rows_ext. intros x Hx Hid.
    rewrite (Hone x Hx Hid). unfold failed_once. by rewrite Hfive.
Qed.

Lemma login_wrong_spec i u p meta t d :
  users_ok (view L_User d) → u ∈ view L_User d → known_as i u = true →
  locked u t = false → disabled u = false → passwordValid u p = false →
  iwp (login i p meta) (λ o d', refused_at u t o (view L_User d) (view L_User d')) t d.
Proof.
  intros Hok Hu Hk Hl Hd Hp. unfold login. apply iwp_bind.
  assert (∀ s, tables s = d → findByIdentifier i s = (Ok (Some u), s)) as Hfind
    by (intros s <-; by apply findByIdentifier_run).
  intros s Hs <-. rewrite (Hfind s Hs). cbn [fst snd]. split; [|done]. subst d.
  apply iwp_bind. intros s' Ht Hi.
  assert (assertAccountAccessible u s' = (Ok tt, s')) as ->.
  { unfold assertAccountAccessible. erewrite bind_step; [|done]. unfold throw_if. fold (instant s').
    by rewrite Hi, Hl, Hd. }
  cbn [fst snd]. split; [|done]. rewrite Hp. cbn [negb]. apply iwp_bind. rewrite Ht.
  eapply iwp_mono; [by apply handleFailedLogin_spec|]. intros [[]|e] d' [[E Hv]|[E Hv]]; try done.
  - injection E as ->. by left.
  - by right.
Qed.

(** Attempts to log in, one after the other, with what each of them ends in. *)
Fixpoint guesses (i : string) (meta : RequestMeta) (ps : list string) (s : St Db)
  : list (outcome LoginResponse) * St Db :=
  match ps with
  | [] => ([], s)
  | p :: ps =>
      let (o, s1) := login i p meta s in
      let (os, s2) := guesses i meta ps s1 in (o :: os, s2)
  end.

(** The attempts that were answered: a write that failed answers nothing. *)
Definition answered (os : list (outcome LoginResponse)) : Z :=
  Z.of_nat (length (where_ (λ o, negb (db_failed o)) os)).

(** The account during the attempts: its lock is set, or [k] failures at least are counted. *)
Record guessed (i : string) (u : User) (k t : Z) (s : St Db) (u' : User) : Prop := {
  gs_ok : users_ok (view L_User (tables s));
  gs_in : u' ∈ view L_User (tables s);
  gs_known : known_as i u' = true;
  gs_enabled : disabled u' = false;
  gs_hash : us_password_hash u' = us_password_hash u;
  gs_time : instant s = t;
  gs_state : us_locked_until u' = Some (t + 30 * 60000) ∨
    locked u' t = false ∧ k <= us_failed_login_count u';
}.

Definition refusal (o : outcome LoginResponse) : Prop :=
  o = Throw INVALID_CREDENTIALS ∨ o = Throw ACCOUNT_LOCKED ∨ db_failed o = true.

(** A row changed as an attempt may change it keeps what identifies the account. *)
Lemma guessed_update i u k k' t s s' u' f :
  guessed i u k t s u' → instant s' = t →
  (∀ x, same_user x (f x)) → us_password_hash (f u') = us_password_hash u' →
  disabled (f u') = disabled u' →
  view L_User (tables s') = update_rows us_id (us_id u') f (view L_User (tables s)) →
  us_locked_until (f u') = Some (t + 30 * 60000) ∨
    locked (f u') t = false ∧ k' <= us_failed_login_count (f u') →
  guessed i u k' t s' (f u').
Proof.
  intros [Hok Hin Hk Hd Hh Ht _] Ht' Hf Hpw Hdis Hv Hst. split; [| | | | |done|done].
  - rewrite Hv. by apply users_ok_update.
  - rewrite Hv. by apply (elem_of_updated us_id).
  - unfold known_as, user_live in *. destruct (Hf u') as (_ & -> & -> & ->). done.
  - by rewrite Hdis.
  - by rewrite Hpw.
Qed.

Lemma failed_once_same t x : same_user x (failed_once t x).
Proof. unfold failed_once. by destruct (_ <=? _). Qed.

(** One attempt: an answer counts, and the fifth one locks. *)
Lemma guess_step i u k t p meta s u' o s' :
  guessed i u k t s u' → passwordValid u p = false → login i p meta s = (o, s') →
  refusal o ∧
  ∃ k' u'', guessed i u k' t s' u'' ∧ k <= k' ∧
    (db_failed o = false → k + 1 <= k' ∧ (5 <= k + 1 → us_locked_until u'' = Some (t + 30 * 60000))) ∧
    (us_locked_until u' = Some (t + 30 * 60000) → us_locked_until u'' = Some (t + 30 * 60000)).
Proof.
  intros Hg Hp Hrun. pose proof Hg as [Hok Hin Hk Hd Hh Ht Hst]. subst t.
  destruct Hst as [Hl|[Hl Hc]].
  - erewrite login_locked_run in Hrun; [|done..|]; [|unfold locked; rewrite Hl; apply Z.ltb_lt; lia].
    injection Hrun as <- <-. split; [by right; left|]. exists (k + 1), u'.
    split_and!; [by split; auto|lia|by intros _|done].
  - apply (iwp_elim _ (λ o d', refused_at u' (instant s) o (view L_User (tables s)) (view L_User d'))) in Hrun
      as [Hr Ht']; [|apply login_wrong_spec; try done; unfold passwordValid in *; by rewrite Hh].
    assert (us_locked_until u' ≠ Some (instant s + 30 * 60000)) as Hnl.
    { intros E. unfold locked in Hl. rewrite E in Hl. apply Z.ltb_ge in Hl. lia. }
    destruct Hr as [[-> Hv]|[Hf [Hv|Hv]]].
    + split; [by left|]. exists (k + 1), (failed_once (instant s) u'). split_and!; [|lia| |done].
      * eapply guessed_update; try done; [apply failed_once_same| | |]; unfold failed_once;
          destruct (5 <=? us_failed_login_count u' + 1); simpl; try done; [by left|].
        right. split; [done|lia].
      * intros _. split; [lia|]. intros Hk5. unfold failed_once.
        destruct (Z.leb_spec 5 (us_failed_login_count u' + 1)); [done|lia].
    + split; [by right; right|]. exists k, u'. split_and!; [|lia|congruence|done].
      split; rewrite ?Hv; auto.
    + split; [by right; right|]. exists k, (increment_failed u'). split_and!; [|lia|congruence|done].
      eapply guessed_update; try done. right. split; [done|simpl; lia].
Qed.

Lemma guesses_lock i u t meta ps : ∀ k s u' os s',
  guessed i u k t s u' → Forall (λ p, passwordValid u p = false) ps →
  guesses i meta ps s = (os, s') →
  Forall refusal os ∧ ∃ k' u'', guessed i u k' t s' u'' ∧
    (us_locked_until u' = Some (t + 30 * 60000) ∨ 1 <= answered os ∧ 5 <= k + answered os →
     us_locked_until u'' = Some (t + 30 * 60000)).
Proof.
  induction ps as [|p ps IH]; intros k s u' os s' Hg Hps Hrun.
  - injection Hrun as <- <-. split; [constructor|]. exists k, u'. split; [done|].
    intros [?|[? _]]; [done|]. unfold answered in *. simpl in *. lia.
  - apply Forall_cons in Hps as [Hp Hps]. cbn [guesses] in Hrun.
    destruct (login i p meta s) as [o s1] eqn:E1.
    destruct (guesses i meta ps s1) as [os1 s2] eqn:E2. injection Hrun as <- <-.
    destruct (guess_step _ _ _ _ _ _ _ _ _ _ Hg Hp E1) as (Hr & k1 & u1 & Hg1 & Hle & Hans & Hkeep).
    destruct (IH _ _ _ _ _ Hg1 Hps E2) as (Hrs & k2 & u2 & Hg2 & Hlock).
    split; [by constructor|]. exists k2, u2. split; [done|]. intros Hc. apply Hlock.
    destruct Hc as [Hc|[H1' H5']]; [by left; apply Hkeep|].
    unfold answered in *. simpl in H1', H5'. destruct (db_failed o); simpl in *; [right; lia|].
    destruct (Hans eq_refl) as [Hk1 Hk5]. destruct (where_ _ os1) eqn:Ew; simpl in *.
    + left. apply Hk5. lia.
    + right. lia.
Qed.
End lockout.

(** ** A password reset *)
Section reset.
Context `{Redis, !Crypto, !Postgres, !AuthLibraries}.

(** The code was open and matched and is spent; the user's password is the new
    one, and none of their tokens and sessions is left. *)
Record reset_done (dest code newPassword : string) (t : Z) (d d' : Db) (o : Otp) (u : User)
  (h : string) : Prop := {
  rd_code : o ∈ view L_Otp d ∧ otp_open (otp_destination dest) op_reset_password t o = true ∧
    ot_attempts o < ot_max_attempts o ∧ ot_code_hash o = sha256_hex code;
  rd_spent : ∀ x, x ∈ view L_Otp d' → ot_id x = ot_id o → ot_consumed_at x = Some t;
  rd_user : u ∈ view L_User d ∧ known_as dest u = true;
  rd_strong : isStrongPassword newPassword = true;
  rd_password : argon2_verify h newPassword = Ok true ∧
    ∀ x, x ∈ view L_User d' → us_id x = us_id u → us_password_hash x = Some h;
  rd_tokens : where_ (λ x, String.eqb (tk_user_id x) (us_id u) && usable x) (tokens d') = [];
  rd_sessions : where_ (λ x, String.eqb (se_user_id x) (us_id u) && session_open x)
    (view L_Session d') = [];
}.

Lemma findByIdentifier_spec i Q t d :
  (∀ u, u ∈ view L_User d → known_as i u = true → Q (Ok (Some u)) d) → Q (Ok None) d →
  iwp (findByIdentifier i) Q t d.
Proof.
  intros HS HN. unfold findByIdentifier, findByEmail, findByMobile, known_as in *.
  destruct (includes_text _ _); iwp_step; auto.
Qed.

Lemma where_ended {A} (p q : A → bool) (f : A → A) l :
  (∀ x, q (f x) = false) →
  where_ (λ x, p x && q x) (map (λ x, if p x && q x then f x else x) l) = [].
Proof.
  intros Hf. induction l as [|x l IH]; simpl; [done|].
  destruct (p x && q x) eqn:E; [by rewrite Hf, andb_false_r|by rewrite E].
Qed.

Lemma sessions_closed userId t l :
  where_ (λ x, String.eqb (se_user_id x) userId && session_open x)
    (map (λ x, if closing userId None x then end_session t x else x) l) = [].
Proof.
  erewrite map_ext; [apply (where_ended _ session_open (end_session t)); done|].
  intros x. unfold closing. by rewrite andb_true_r.
Qed.

Lemma resetPassword_spec dest code new t d :
  iwp (resetPassword dest code new) (λ o d', match o with
    | Ok _ => ∃ o u h, reset_done dest code new t d d' o u h
    | Throw _ => True end) t d.
Proof.
  unfold resetPassword. iwp_step; [done|]. bool_to_prop.
  apply iwp_bind, otp_verify_spec; [done|done|]. intros o Ho Hopen Hlt Hc.
  apply iwp_bind, findByIdentifier_spec; [intros u Hu Hk|by iwp_step].
  iwp_step; [simplify_eq|done]. rename a into u.
  unfold password_hash. iwp_step. unfold user_update. iwp_step; [done|].
  unfold token_revokeAllForUser. apply iwp_bind. iwp_step.
  apply updateMany_count_spec; [done|intros _].
  unfold revokeAll, session_revokeAllForUser. apply iwp_bind. iwp_step.
  apply updateMany_count_spec; [done|intros _].
  unfold audit_log. iwp_step; [done|]. iwp_step.
  exists o, u, (argon2_hash n new). split; [done|..].
  - intros x Hx Hid. apply elem_of_update_rows in Hx as (y & _ & [[_ ->]|[Hne ->]]); done.
  - done.
  - done.
  - split; [apply argon2_sound|]. intros x Hx Hid.
    apply elem_of_update_rows in Hx as (y & _ & [[_ ->]|[Hne ->]]); done.
  - apply (where_ended _ usable (end_token tk_revoked None t)). done.
  - apply (sessions_closed (us_id u) t (view L_Session d)).
Qed.
End reset.

(** ** Theorems *)
Section theorems.
Context `{Redis, !Crypto, !Postgres, !AuthLibraries, !ClientText}.

(** (C40) Every operation of the service, on every path, errors and refused writes
    included, keeps the rows well formed: token identifiers and live token hashes
    stay unique, an active token was never ended, a rotated token points to a token
    of the same family and user, a session is revoked exactly when it has a
    revocation time, and no one-time code has more attempts than it allows. *)
Theorem auth_rows_kept op s :
  auth_ok (tables s) → auth_ok (tables (snd (run_auth_op op s))).
Proof. apply run_keeps. Qed.

(** A refresh that succeeds was given a live, active, unexpired token of a
    user who may log in; it adds exactly one token, of the same family and user and
    good for seven days, marks the old one as rotated to it, changes nothing else,
    and signs an access token with the user's current roles and permissions. *)
Lemma refresh_rotates raw r s s' :
  refresh raw s = (Ok r, s') →
  ∃ old new u, exchanged raw r (instant s) (tables s) (tables s') old new u.
Proof. intros E. by apply (iwp_elim _ _ _ _ _ (refresh_spec raw _ _)) in E as [? _]. Qed.

(** (C9) A refresh token is good for one exchange: shown again it is refused, and
    unless the server refuses the write itself the refusal also ends every token of
    its family, the one issued in exchange for it included. *)
Theorem refresh_once raw r o s s1 s2 :
  auth_ok (tables s) → refresh raw s = (Ok r, s1) → refresh raw s1 = (o, s2) →
  (∃ k, o = Throw (DbError k) ∧ tables s2 = tables s1) ∨
  o = Throw (AppException AUTH_TOKEN_REUSED "Refresh token reuse detected" 401) ∧
  ∃ new, new ∈ tokens (tables s1) ∧ tk_token_hash new = hashToken (at_refreshToken r) ∧
    family_open (tables s2) (tk_family_id new) = [].
Proof.
  intros Hok E1 E2. pose proof (refresh_keeps raw s Hok) as Hok1. rewrite E1 in Hok1. simpl in Hok1.
  apply (iwp_elim _ _ _ _ _ (refresh_spec raw _ _)) in E1 as [(old & new & u & Ex) Et].
  destruct (ex_old_good _ _ _ _ _ _ _ _ Ex) as (Hh & _ & Hl & _).
  destruct (exchanged_rows _ _ _ _ _ _ _ _ Ex) as [Hold Hnew].
  set (x := end_token _ _ _ old) in Hold.
  apply (iwp_elim _ _ _ _ _ (refresh_spent_spec raw _ _ x (ao_tokens _ Hok1) Hold Hl Hh eq_refl)) in E2
    as [[?|[-> Ed]] _]; [by left|right].
  split; [done|]. exists new. split; [done|].
  rewrite (ex_new _ _ _ _ _ _ _ _ Ex), Ed. split; [done|apply no_family_open].
Qed.

(** (C19) Wrong passwords lock the account, also when some of the writes fail: every
    attempt ends with invalid credentials, with a locked account or with the error of
    a failed write; once the failures counted since the last login and the attempts that
    were answered reach five, the account is locked for thirty minutes, and until
    then every attempt, the right password included, is refused and changes nothing.
    (An attempt whose write of the lock fails is answered with that error and leaves
    the account unlocked: it is the next answered one that locks.) *)
Theorem wrong_passwords_lock i u meta ps s os s' :
  users_ok (view L_User (tables s)) → u ∈ view L_User (tables s) → known_as i u = true →
  disabled u = false → locked u (instant s) = false →
  Forall (λ p, passwordValid u p = false) ps → guesses i meta ps s = (os, s') →
  Forall refusal os ∧
  (1 <= answered os → 5 <= us_failed_login_count u + answered os →
   ∀ p meta' later, tables later = tables s' → instant later < instant s + 30 * 60000 →
     login i p meta' later = (Throw ACCOUNT_LOCKED, later)).
Proof.
  intros Hok Hu Hk Hd Hl Hps Hrun.
  destruct (guesses_lock i u (instant s) meta ps (us_failed_login_count u) s u os s')
    as (Hrs & k & v & [Gok Gin Gk _ _ _ _] & Hlock); [split; try done; right; split; [done|lia]|done|done|].
  split; [done|]. intros H1' H5' p meta' later Etab Htime.
  rewrite <- Etab in Gok, Gin. eapply login_locked_run; [done..|]. unfold locked.
  rewrite Hlock by auto. by apply Z.ltb_lt.
Qed.

(** (C20) A password reset that succeeds spent an open, unexpired code with
    attempts left that was sent to the address given, to the account known under
    that address; afterwards the account has the new, strong password, no refresh
    token of it can be exchanged and no session of it is open. *)
Theorem reset_closes_account dest code new s s' :
  resetPassword dest code new s = (Ok tt, s') →
  ∃ o u h, reset_done dest code new (instant s) (tables s) (tables s') o u h.
Proof. intros E. by apply (iwp_elim _ _ _ _ _ (resetPassword_spec dest code new _ _)) in E as [? _]. Qed.
End theorems.

(** ** The theorems on the sample shop *)
Section examples.
#[local] Existing Instances gmap_redis counting_crypto sample_postgres.
#[local] Instance client0 : ClientText := λ _, "database error".

Definition sample_verify (h p : string) : outcome bool := Ok (String.eqb h ("hashed:" +:+ p)).
Definition sample_int (lo hi : Z) (n : nat) : Z := lo + Z.of_nat n mod (hi - lo).

Lemma sample_sound (n : nat) p : sample_verify ("hashed:" +:+ p) p = Ok true.
Proof. unfold sample_verify. by rewrite String.eqb_refl. Qed.

Lemma sample_int_range lo hi n : lo < hi → lo <= sample_int lo hi n < hi.
Proof. intros Hlt. unfold sample_int. pose proof (Z.mod_pos_bound (Z.of_nat n) (hi - lo)). lia. Qed.

#[local] Instance libs0 : AuthLibraries := {|
  argon2_hash _ p := "hashed:" +:+ p; argon2_verify := sample_verify; argon2_sound := sample_sound;
  jwt_sign p := "jwt:" +:+ jp_sub p; jwt_accessExpiresIn := "2h";
  randomInt := sample_int; randomInt_range := sample_int_range;
  firebaseProjectId := Some "shop"; FIREBASE_PROJECT_ID := None;
  jwtVerify _ _ _ := Ok (mkFirebaseClaims (Some "g1") (Some (JStr "carol@example.com"))
    (Some (JBool true)) None (Some (JObj [("sign_in_provider", JStr "google.com")])));
  sendMail _ := Ok tt |}.

Definition meta0 : RequestMeta := mkRequestMeta (Some "10.0.0.1") (Some "Mozilla (Android; Mobile)") None.

Lemma sample_auth_ok : auth_ok sample_db.
Proof. split; [split|..]; try constructor. intros x y Hx. by apply not_elem_of_nil in Hx. Qed.

(** Alice has logged in: her session and her first refresh token are there. *)
Definition signed_in : St Db := snd (login "alice@example.com" "Secret1!" meta0 sample).

Example login_session : listSessions "alice" (Some "u") signed_in =
  (Ok [mkSessionSummary "u" (Some "Mobile") (Some "android") (Some "10.0.0.1")
         (Some "Mozilla (Android; Mobile)") 1000 604801000 1000 true], signed_in).
Proof. vm_compute. reflexivity. Qed.

Example two_hours : Qeq_bool getAccessExpiresInSeconds 7200 = true.
Proof. vm_compute. reflexivity. Qed.

(** An account that signs in with Google for the first time is created, active and
    with the customer's role. *)
Example google_signup :
  lr_roles <$> match fst (loginWithFirebase "token" meta0 sample) with Ok r => Some r | _ => None end =
  Some ["customer"].
Proof. vm_compute. reflexivity. Qed.

Lemma signed_in_ok : auth_ok (tables signed_in).
Proof. apply (login_keeps _ _ _ sample), sample_auth_ok. Qed.

Definition refreshed : St Db := snd (refresh "fff" signed_in).

Lemma auth_rows_kept_witness :
  auth_ok (tables (snd (run_auth_op (op_changePassword "alice" "Secret1!" "Better2?" None) signed_in))).
Proof.
  apply (auth_rows_kept (op_changePassword "alice" "Secret1!" "Better2?" None) signed_in).
  apply signed_in_ok.
Defined.

Lemma refresh_rotates_witness : ∃ old new u,
  exchanged "fff" (mkAuthTokensResponse "jwt:alice" "ffff" getAccessExpiresInSeconds)
    (instant signed_in) (tables signed_in)
    (tables refreshed) old new u.
Proof.
  apply (refresh_rotates "fff" (mkAuthTokensResponse "jwt:alice" "ffff" getAccessExpiresInSeconds) signed_in refreshed).
  unfold refreshed. apply (run_eta (refresh "fff")). vm_compute. reflexivity.
Defined.

Lemma refresh_once_witness :
  (∃ k, fst (refresh "fff" refreshed) = Throw (DbError k) ∧
     tables (snd (refresh "fff" refreshed)) = tables refreshed) ∨
  fst (refresh "fff" refreshed) =
    Throw (AppException AUTH_TOKEN_REUSED "Refresh token reuse detected" 401) ∧
  ∃ new, new ∈ tokens (tables refreshed) ∧ tk_token_hash new = hashToken "ffff" ∧
    family_open (tables (snd (refresh "fff" refreshed))) (tk_family_id new) = [].
Proof.
  apply (refresh_once "fff" (mkAuthTokensResponse "jwt:alice" "ffff" getAccessExpiresInSeconds) _ signed_in refreshed);
    [apply signed_in_ok|unfold refreshed; apply (run_eta (refresh "fff")); vm_compute; reflexivity
    |apply surjective_pairing].
Defined.

Definition wrong5 : list string := ["a"; "b"; "c"; "d"; "e"].
Definition locked_out : St Db := snd (guesses "alice@example.com" meta0 wrong5 sample).

Definition alice : User :=
  mkUser "alice" (Some "alice@example.com") None (Some "hashed:Secret1!") (Some 1) None ut_customer
    ap_local None None 0 None rs_active 0 None.

Lemma sample_users_ok : users_ok (view L_User sample_db).
Proof.
  split.
  - decided.
  - intros x y Hx Hy. repeat (apply elem_of_cons in Hx as [->|Hx]); [..|by apply not_elem_of_nil in Hx];
      repeat (apply elem_of_cons in Hy as [->|Hy]); try done; by apply not_elem_of_nil in Hy.
  - intros x y Hx Hy. repeat (apply elem_of_cons in Hx as [->|Hx]); [..|by apply not_elem_of_nil in Hx];
      repeat (apply elem_of_cons in Hy as [->|Hy]); try done; by apply not_elem_of_nil in Hy.
Qed.

Lemma wrong_passwords_lock_witness :
  login "alice@example.com" "Secret1!" meta0 locked_out = (Throw ACCOUNT_LOCKED, locked_out).
Proof.
  apply (wrong_passwords_lock "alice@example.com" alice meta0 wrong5 sample
           (fst (guesses "alice@example.com" meta0 wrong5 sample)) locked_out);
    [apply sample_users_ok|left|reflexivity|reflexivity|reflexivity|repeat constructor
    |apply surjective_pairing|vm_compute; discriminate|vm_compute; discriminate|reflexivity
    |vm_compute; reflexivity].
Defined.

(** The counter and the lock are separate writes: when the lock cannot be written,
    five failures are counted and the account stays open to the right password. *)
Definition lock_not_written : Postgres :=
  {| scan _ l := l; scan_perm A l := reflexivity l;
     page_scan _ _ _ l := l; page_scan_perm A _ _ l := reflexivity l;
     order_desc := @sample_order; order_desc_perm := sample_order_perm;
     order_desc_sorted := sample_order_sorted;
     gen_random_uuid := sample_uuid; uuid_fresh := sample_uuid_fresh;
     numeric2 := sample_numeric2; numeric2_near := sample_numeric2_near;
     numeric3 := sample_numeric3; numeric3_near := sample_numeric3_near;
     db_fault t d := if String.eqb t "users"
                        && existsb (λ u, us_failed_login_count u =? 5) (view L_User d)
                     then Some (ConstraintViolation "connection lost") else None |}.

Example lock_is_a_second_write :
  let (os, s') := guesses (H1 := lock_not_written) "alice@example.com" meta0 wrong5 sample in
  map db_failed os = [false; false; false; false; true] ∧
  map (λ u, (us_failed_login_count u, locked u (instant s'))) (take 1 (view L_User (tables s')))
    = [(5, false)].
Proof. vm_compute. split; reflexivity. Qed.

(** Alice asked for a reset while signed in; the code is in the mail queue. *)
Definition asked : St Db := snd (forgotPassword "alice@example.com" signed_in).

Lemma reset_closes_account_witness : ∃ o u h,
  reset_done "alice@example.com" "100003" "Better2?" (instant asked) (tables asked)
    (tables (snd (resetPassword "alice@example.com" "100003" "Better2?" asked))) o u h.
Proof.
  apply (reset_closes_account "alice@example.com" "100003" "Better2?" asked).
  apply (run_eta (resetPassword _ _ _)). vm_compute. reflexivity.
Defined.

(** The exchange is two writes and no transaction: when the second one fails, both
    the old and the new token can be exchanged. *)
Definition failing_rotation : Postgres :=
  {| scan _ l := l; scan_perm A l := reflexivity l;
     page_scan _ _ _ l := l; page_scan_perm A _ _ l := reflexivity l;
     order_desc := @sample_order; order_desc_perm := sample_order_perm;
     order_desc_sorted := sample_order_sorted;
     gen_random_uuid := sample_uuid; uuid_fresh := sample_uuid_fresh;
     numeric2 := sample_numeric2; numeric2_near := sample_numeric2_near;
     numeric3 := sample_numeric3; numeric3_near := sample_numeric3_near;
     db_fault t d := if String.eqb t "refresh_tokens" && (length (tokens d) =? 2)%nat
                     then Some (ConstraintViolation "connection lost") else None |}.

Example refresh_not_atomic :
  let s := snd (refresh (H1 := failing_rotation) "fff" signed_in) in
  map tk_id (family_open (tables s) "ff") = ["u"; "uu"].
Proof. vm_compute. reflexivity. Qed.

(** A code is stored under the trimmed address and looked up under the address as
    it was typed. *)
Example padded_address_fails :
  let s := snd (sendOtp " dave@example.com" oc_email op_login None sample) in
  fst (verifyOtp " dave@example.com" op_login "100000" s) =
    Throw (AppException AUTH_OTP_EXPIRED "OTP expired or not found" 400) ∧
  fst (verifyOtp "dave@example.com" op_login "100000" s) = Ok true.
Proof. vm_compute. split; reflexivity. Qed.
End examples.
