(* ===== verification/Permissions.v ===== *)
(** * Permissions at start-up

    Models the [onModuleInit] of the bootstrap services of payments, shipping,
    warranty, marketing and analytics: each makes sure that its permissions exist and
    that the administrators' roles hold them. A failure is logged and swallowed. *)
From S2P Require Import Prelude Core Effects Redis Lock Schema Database Tables Sample.

#[local] Open Scope Z_scope.

(** An entry of [defs]. *)
Record PermissionDef := mkPermissionDef { df_code : string; df_module : string; df_action : string }.

Definition PAYMENTS_PERMISSIONS : list PermissionDef :=
  [mkPermissionDef "payments.read" "payments" "read";
   mkPermissionDef "payments.write" "payments" "write"].
Definition SHIPPING_PERMISSIONS : list PermissionDef :=
  [mkPermissionDef "shipping.read" "shipping" "read";
   mkPermissionDef "shipping.write" "shipping" "write"].
Definition WARRANTY_PERMISSIONS : list PermissionDef :=
  [mkPermissionDef "warranty.read" "warranty" "read";
   mkPermissionDef "warranty.write" "warranty" "write";
   mkPermissionDef "service.read" "service" "read";
   mkPermissionDef "service.write" "service" "write"].
Definition MARKETING_PERMISSIONS : list PermissionDef :=
  [mkPermissionDef "cms.read" "cms" "read"; mkPermissionDef "cms.write" "cms" "write";
   mkPermissionDef "marketing.read" "marketing" "read";
   mkPermissionDef "marketing.write" "marketing" "write"].
Definition ANALYTICS_PERMISSIONS : list PermissionDef :=
  [mkPermissionDef "analytics.read" "analytics" "read";
   mkPermissionDef "analytics.write" "analytics" "write";
   mkPermissionDef "report.read" "report" "read";
   mkPermissionDef "report.write" "report" "write"].

Definition admin_role (r : Role) : bool :=
  one_of ["admin"; "super_admin"] (ro_code r) && live (ro_deleted_at r).

Definition has_code (code : string) (p : Permission) : bool :=
  String.eqb (pn_code p) code && live (pn_deleted_at p).

Definition links (roleId permissionId : string) (l : RolePermission) : bool :=
  String.eqb (rp_role_id l) roleId && String.eqb (rp_permission_id l) permissionId
  && live (rp_deleted_at l).

Section bootstrap.
Context `{Redis, !Postgres}.

Definition ensure_permission (d : PermissionDef) : M (St Db) () :=
  existing ← db_findFirst T_Permission (has_code (df_code d));
  match existing with
  | Some _ => mret tt
  | None => _ ← db_create T_Permission (λ id,
              mkPermission id (df_code d) (df_module d) (df_action d) rs_active None);
            mret tt
  end.

Definition ensure_link (role : Role) (perm : Permission) : M (St Db) () :=
  link ← db_findFirst T_RolePermission (links (ro_id role) (pn_id perm));
  match link with
  | Some _ => mret tt
  | None => _ ← db_create T_RolePermission (λ id,
              mkRolePermission id (ro_id role) (pn_id perm) rs_active None);
            mret tt
  end.

Definition seed_permissions (defs : list PermissionDef) : M (St Db) () :=
  for_each defs ensure_permission ;;
  roles ← db_findMany T_Role admin_role;
  perms ← db_findMany T_Permission
    (λ p, one_of (map df_code defs) (pn_code p) && live (pn_deleted_at p));
  for_each roles (λ role, for_each perms (ensure_link role)).

(** [try { … } catch (err) { this.logger.warn(…) }] *)
Definition onModuleInit (defs : list PermissionDef) : M (St Db) () :=
  try_catch (seed_permissions defs) (λ _, mret tt).

Definition payments_onModuleInit : M (St Db) () := onModuleInit PAYMENTS_PERMISSIONS.
Definition shipping_onModuleInit : M (St Db) () := onModuleInit SHIPPING_PERMISSIONS.
Definition warranty_onModuleInit : M (St Db) () := onModuleInit WARRANTY_PERMISSIONS.
Definition marketing_onModuleInit : M (St Db) () := onModuleInit MARKETING_PERMISSIONS.
Definition analytics_onModuleInit : M (St Db) () := onModuleInit ANALYTICS_PERMISSIONS.

(** ** What a start-up changes *)

(** Permissions and links are only added: permissions of [defs], and links from a live
    administrator's role to a live permission of [defs]. *)
Definition added (defs : list PermissionDef) (d d' : Db) : Prop :=
  view L_Role d' = view L_Role d
  ∧ (∃ ps, view L_Permission d' = view L_Permission d ++ ps
       ∧ Forall (λ p, ∃ x, x ∈ defs ∧ p = mkPermission (pn_id p) (df_code x) (df_module x)
                              (df_action x) rs_active None) ps)
  ∧ (∃ ls, view L_RolePermission d' = view L_RolePermission d ++ ls
       ∧ Forall (λ l, rp_status l = rs_active ∧ rp_deleted_at l = None
            ∧ (∃ r, r ∈ view L_Role d ∧ admin_role r = true ∧ rp_role_id l = ro_id r)
            ∧ (∃ p x, p ∈ view L_Permission d' ∧ x ∈ defs ∧ has_code (df_code x) p = true
                      ∧ rp_permission_id l = pn_id p)) ls).

(** Every permission of [defs] exists and every administrator's role holds it. *)
Definition granted (defs : list PermissionDef) (d : Db) : Prop :=
  (∀ x, x ∈ defs → ∃ p, p ∈ view L_Permission d ∧ has_code (df_code x) p = true)
  ∧ (∀ r p x, r ∈ view L_Role d → admin_role r = true → x ∈ defs →
       p ∈ view L_Permission d → has_code (df_code x) p = true →
       ∃ l, l ∈ view L_RolePermission d ∧ links (ro_id r) (pn_id p) l = true).

Lemma added_refl defs d : added defs d d.
Proof. split; [done|]. split; exists []; by rewrite app_nil_r. Qed.

Lemma added_trans defs : Transitive (added defs).
Proof.
  intros d1 d2 d3 (R1 & (ps1 & P1 & F1) & ls1 & L1 & G1) (R2 & (ps2 & P2 & F2) & ls2 & L2 & G2).
  split; [congruence|]. split.
  - exists (ps1 ++ ps2). rewrite P2, P1, app_assoc. split; [done|]. by apply Forall_app.
  - exists (ls1 ++ ls2). rewrite L2, L1, app_assoc. split; [done|]. apply Forall_app. split.
    + eapply Forall_impl; [exact G1|]. intros l (? & ? & ? & p & x & Hp & ?).
      split_and!; [done..|]. exists p, x. split; [|done]. rewrite P2. apply elem_of_app. by left.
    + eapply Forall_impl; [exact G2|]. rewrite R1. by intros l (? & ? & ? & ?).
Qed.

#[local] Instance added_preorder defs : PreOrder (added defs).
Proof. split; [intros ?; apply added_refl|apply added_trans]. Qed.

Lemma ensure_permission_spec defs x d : x ∈ defs →
  dwp (ensure_permission x) (λ o d', added defs d d'
    ∧ (o = Ok tt → ∃ p, p ∈ view L_Permission d' ∧ has_code (df_code x) p = true)) d.
Proof.
  intros Hx. unfold ensure_permission. apply dwp_bind, dwp_findFirst.
  - intros p Hp E. apply dwp_ret. split; [apply added_refl|]. intros _. by exists p.
  - intros _. apply dwp_bind, dwp_create; [intros k; split; [apply added_refl|done]|].
    intros id _ _. apply dwp_ret. cbn [tbl T_Permission].
    assert (has_code (df_code x) (mkPermission id (df_code x) (df_module x) (df_action x)
      rs_active None) = true) as Hc by (unfold has_code; cbn; by rewrite String.eqb_refl).
    split.
    + split; [done|]. split.
      * eexists. split; [by rewrite view_put|]. constructor; [|constructor]. exists x. by cbn.
      * exists []. by rewrite app_nil_r.
    + intros _. eexists. split; [|done]. rewrite view_put. set_solver.
Qed.

Lemma ensure_permissions_spec defs xs d : (∀ x, x ∈ xs → x ∈ defs) →
  dwp (for_each xs ensure_permission) (λ o d', added defs d d'
    ∧ (o = Ok tt → ∀ x, x ∈ xs → ∃ p, p ∈ view L_Permission d' ∧ has_code (df_code x) p = true)) d.
Proof.
  intros Hin.
  apply (dwp_for_each xs ensure_permission (λ rest d', added defs d d' ∧ ∃ pre, xs = pre ++ rest
    ∧ ∀ x, x ∈ pre → ∃ p, p ∈ view L_Permission d' ∧ has_code (df_code x) p = true)).
  - split; [apply added_refl|]. exists []. split; [done|]. intros x Hx. by apply not_elem_of_nil in Hx.
  - intros d' (A & pre & -> & Hp). split; [done|]. intros _. by rewrite app_nil_r.
  - intros x rest d' (A & pre & E & Hp).
    eapply dwp_mono; [apply (ensure_permission_spec defs x); apply Hin; rewrite E; set_solver|].
    intros [[]|e] d'' (A' & Hx).
    + split; [by etrans|]. exists (pre ++ [x]). rewrite E, <- app_assoc. split; [done|].
      intros y [Hy| ->%list_elem_of_singleton]%elem_of_app; [|by apply Hx].
      destruct (Hp y Hy) as (p & Hpp & Hc). exists p. split; [|done].
      destruct A' as (_ & (ps & -> & _) & _). apply elem_of_app. by left.
    + split; [by etrans|done].
Qed.

Lemma ensure_link_spec defs r p x d :
  r ∈ view L_Role d → admin_role r = true → p ∈ view L_Permission d → x ∈ defs →
  has_code (df_code x) p = true →
  dwp (ensure_link r p) (λ o d', (added defs d d' ∧ view L_Permission d' = view L_Permission d)
    ∧ (o = Ok tt → ∃ l, l ∈ view L_RolePermission d' ∧ links (ro_id r) (pn_id p) l = true)) d.
Proof.
  intros Hr Ha Hp Hx Hc. unfold ensure_link. apply dwp_bind, dwp_findFirst.
  - intros l Hl E. apply dwp_ret. split; [split; [apply added_refl|done]|]. intros _. by exists l.
  - intros _. apply dwp_bind, dwp_create; [intros k; split; [split; [apply added_refl|done]|done]|].
    intros id _ _. apply dwp_ret. cbn [tbl T_RolePermission]. split.
    + split; [|done]. split; [done|]. split; [exists []; by rewrite app_nil_r|].
      eexists. split; [by rewrite view_put|]. constructor; [|constructor].
      split_and!; [done|done|by exists r|]. exists p, x. by split_and!.
    + intros _. eexists. split; [rewrite view_put; apply elem_of_app; right; apply list_elem_of_here|].
      unfold links. cbn. by rewrite !String.eqb_refl.
Qed.

(** Every pair of [rs] and [ps] is linked. *)
Definition linked (rs : list Role) (ps : list Permission) (d : Db) : Prop :=
  ∀ r p, r ∈ rs → p ∈ ps → ∃ l, l ∈ view L_RolePermission d ∧ links (ro_id r) (pn_id p) l = true.

Lemma linked_added defs rs ps d d' : added defs d d' → linked rs ps d → linked rs ps d'.
Proof.
  intros (_ & _ & ls & E & _) L r p Hr Hp. destruct (L r p Hr Hp) as (l & Hl & ?).
  exists l. rewrite E. split; [apply elem_of_app; by left|done].
Qed.

Lemma link_one_spec defs r ps d :
  r ∈ view L_Role d → admin_role r = true →
  (∀ p, p ∈ ps → p ∈ view L_Permission d ∧ ∃ x, x ∈ defs ∧ has_code (df_code x) p = true) →
  dwp (for_each ps (ensure_link r)) (λ o d',
    (added defs d d' ∧ view L_Permission d' = view L_Permission d)
    ∧ (o = Ok tt → linked [r] ps d')) d.
Proof.
  intros Hr Ha Hps.
  apply (dwp_for_each ps (ensure_link r) (λ rest d',
    (added defs d d' ∧ view L_Permission d' = view L_Permission d)
    ∧ ∃ pre, ps = pre ++ rest ∧ linked [r] pre d')).
  - split; [split; [apply added_refl|done]|]. exists []. split; [done|].
    intros ? p _ Hp. by apply not_elem_of_nil in Hp.
  - intros d' (A & pre & -> & L). split; [done|]. intros _. by rewrite app_nil_r.
  - intros p rest d' ([A Ep] & pre & E & L).
    destruct (Hps p) as [Hp (x & Hx & Hc)]; [rewrite E; set_solver|].
    eapply dwp_mono; [apply (ensure_link_spec defs r p x); [by rewrite (proj1 A)|done|by rewrite Ep|done..]|].
    intros [[]|e] d'' ([A' Ep'] & Hl); (split; [split; [by etrans|congruence]|]); [|done].
    exists (pre ++ [p]). rewrite E, <- app_assoc. split; [done|].
    intros r' p' Hr' [Hp'| ->%list_elem_of_singleton]%elem_of_app.
    + by eapply linked_added.
    + apply list_elem_of_singleton in Hr' as ->. by apply Hl.
Qed.

Lemma link_all_spec defs rs ps d :
  (∀ r, r ∈ rs → r ∈ view L_Role d ∧ admin_role r = true) →
  (∀ p, p ∈ ps → p ∈ view L_Permission d ∧ ∃ x, x ∈ defs ∧ has_code (df_code x) p = true) →
  dwp (for_each rs (λ r, for_each ps (ensure_link r))) (λ o d',
    (added defs d d' ∧ view L_Permission d' = view L_Permission d)
    ∧ (o = Ok tt → linked rs ps d')) d.
Proof.
  intros Hrs Hps.
  apply (dwp_for_each rs _ (λ rest d',
    (added defs d d' ∧ view L_Permission d' = view L_Permission d)
    ∧ ∃ pre, rs = pre ++ rest ∧ linked pre ps d')).
  - split; [split; [apply added_refl|done]|]. exists []. split; [done|].
    intros r p Hr. by apply not_elem_of_nil in Hr.
  - intros d' (A & pre & -> & L). split; [done|]. intros _. by rewrite app_nil_r.
  - intros r rest d' ([A Ep] & pre & E & L).
    destruct (Hrs r) as [Hr Ha]; [rewrite E; set_solver|].
    eapply dwp_mono; [apply (link_one_spec defs r ps); [by rewrite (proj1 A)|done|by rewrite Ep]|].
    intros [[]|e] d'' ([A' Ep'] & Hl); (split; [split; [by etrans|congruence]|]); [|done].
    exists (pre ++ [r]). rewrite E, <- app_assoc. split; [done|].
    intros r' p' [Hr'| ->%list_elem_of_singleton]%elem_of_app Hp'.
    + by apply (linked_added defs pre ps d').
    + apply Hl; [done|set_solver|done].
Qed.

Lemma one_of_def defs p :
  one_of (map df_code defs) (pn_code p) && live (pn_deleted_at p) = true ↔
  ∃ x, x ∈ defs ∧ has_code (df_code x) p = true.
Proof.
  unfold one_of, has_code. rewrite andb_true_iff, existsb_exists. split.
  - intros [(c & Hc & E) L]. apply list_elem_of_In, list_elem_of_fmap in Hc as (x & -> & Hx).
    exists x. split; [done|]. apply String.eqb_eq in E as ->. by rewrite String.eqb_refl, L.
  - intros (x & Hx & [E L]%andb_true_iff). split; [|done]. exists (df_code x).
    split; [apply list_elem_of_In, list_elem_of_fmap; by exists x|done].
Qed.

Lemma seed_spec defs d :
  dwp (seed_permissions defs) (λ o d', added defs d d' ∧ (o = Ok tt → granted defs d')) d.
Proof.
  unfold seed_permissions. apply dwp_bind.
  eapply dwp_mono; [apply (ensure_permissions_spec defs); done|].
  intros [[]|e] d1 [A1 H1]; [|by split]. specialize (H1 eq_refl).
  apply dwp_bind, dwp_findMany. intros rs Hrs. cbn [tbl T_Role] in Hrs.
  apply dwp_bind, dwp_findMany. intros ps Hps. cbn [tbl T_Permission] in Hps.
  eapply dwp_mono; [apply (link_all_spec defs rs ps)|].
  - intros r Hr. rewrite Hrs in Hr. by apply elem_of_where in Hr.
  - intros p Hp. rewrite Hps in Hp. apply elem_of_where in Hp as [Hp E].
    split; [done|]. by apply one_of_def.
  - intros o d2 [[A2 Ep] HL]. split; [by etrans|]. intros Ho. specialize (HL Ho). split.
    + intros x Hx. rewrite Ep. by apply H1.
    + intros r p x Hr Ha Hx Hp Hc. apply HL.
      * rewrite Hrs. apply elem_of_where. by rewrite <- (proj1 A2).
      * rewrite Hps. apply elem_of_where. rewrite <- Ep. split; [done|]. apply one_of_def. by exists x.
Qed.

(** Where nothing is missing, nothing is written. *)
Lemma seed_again defs d : granted defs d →
  dwp (seed_permissions defs) (λ o d', o = Ok tt ∧ d' = d) d.
Proof.
  intros [Hp Hl].
  assert (∀ {A} (xs : list A) (f : A → M (St Db) ()),
    (∀ x, x ∈ xs → dwp (f x) (λ o d', o = Ok tt ∧ d' = d) d) →
    dwp (for_each xs f) (λ o d', o = Ok tt ∧ d' = d) d) as Loop.
  { intros A xs f Hf. apply (dwp_for_each xs f (λ rest d', d' = d ∧ ∀ x, x ∈ rest → x ∈ xs));
      [done|by intros ? [-> _]|].
    intros x rest d' [-> Hin]. eapply dwp_mono; [apply Hf, Hin; set_solver|].
    intros ? ? [-> ->]. split; [done|]. set_solver. }
  unfold seed_permissions. apply dwp_bind. eapply dwp_mono; [apply Loop|].
  - intros x Hx. apply dwp_bind, dwp_findFirst; [by intros; apply dwp_ret|].
    intros HN. destruct (Hp x Hx) as (p & Hin & Hc).
    rewrite Forall_forall in HN. specialize (HN p Hin). congruence.
  - intros ? ? [-> ->]. apply dwp_bind, dwp_findMany. intros rs Hrs.
    apply dwp_bind, dwp_findMany. intros ps Hps. cbn [tbl T_Role T_Permission] in *.
    apply Loop. intros r Hr. apply Loop. intros p Hpp. rewrite Hrs in Hr. rewrite Hps in Hpp.
    apply elem_of_where in Hr as [Hr Ha]. apply elem_of_where in Hpp as [Hpp E].
    apply one_of_def in E as (x & Hx & Hc).
    apply dwp_bind, dwp_findFirst; [by intros; apply dwp_ret|].
    intros HN. destruct (Hl r p x Hr Ha Hx Hpp Hc) as (l & Hin & E).
    rewrite Forall_forall in HN. specialize (HN l Hin). congruence.
Qed.

(** (C35) A start-up never throws, and adds nothing but permissions of [defs] and links from an
    administrator's role to them. When no write fails, afterwards every permission of [defs]
    exists and every administrator's role holds it; and a start-up that finds it so
    changes nothing. *)
Theorem startup_grants (defs : list PermissionDef) (s : St Db) :
  fst (onModuleInit defs s) = Ok tt
  ∧ added defs (tables s) (tables (snd (onModuleInit defs s)))
  ∧ (fst (seed_permissions defs s) = Ok tt → granted defs (tables (snd (onModuleInit defs s))))
  ∧ (granted defs (tables s) → tables (snd (onModuleInit defs s)) = tables s).
Proof.
  pose proof (seed_spec defs (tables s) s eq_refl) as [A G].
  pose proof (λ X, seed_again defs (tables s) X s eq_refl) as N.
  unfold onModuleInit, try_catch. destruct (seed_permissions defs s) as [[[]|e] s']; cbn [fst snd] in *.
  - split_and!; [done|done|apply G|by intros [_ ->]%N].
  - by split_and!; [| | |intros [? _]%N].
Qed.
End bootstrap.

(** The five modules start on the sample tables, which have no administrator's role: the
    permissions appear and nobody holds them. *)
Example startups_run : ∀ d, d ∈ [PAYMENTS_PERMISSIONS; SHIPPING_PERMISSIONS; WARRANTY_PERMISSIONS;
  MARKETING_PERMISSIONS; ANALYTICS_PERMISSIONS] →
  forallb (λ x, existsb (has_code (df_code x))
    (view L_Permission (tables (snd (onModuleInit d sample))))) d = true.
Proof.
  intros d Hd. repeat (apply elem_of_cons in Hd as [->|Hd]; [vm_compute; reflexivity|]).
  by apply not_elem_of_nil in Hd.
Qed.
