(* ===== verification/Inventory.v ===== *)
(** * Inventory: warehouses, stock, reservations

    Models [backend/src/modules/inventory]: the repositories, the cache keys, the
    events and every operation of [services/inventory.service.ts]. The actor of a
    request only reaches the bookkeeping columns and is left out. The theorems
    are in [Stock]. *)
From S2P Require Import Prelude Core Effects Redis Lock JsNumber Pagination Schema Database Tables.
From Stdlib Require Import QArith.

#[local] Open Scope Z_scope.

(** ** Constants ([constants/inventory.constants.ts]) *)
Module INVENTORY_CACHE.
Definition TTL : Z := 60.
Definition warehouses : string := "inventory:warehouses:list".
Definition warehouse (id : string) : string := "inventory:warehouse:" +:+ id.
Definition stock (warehouseId variantId : string) : string :=
  "inventory:stock:" +:+ warehouseId +:+ ":" +:+ variantId.
Definition availability (variantId : string) : string := "inventory:availability:" +:+ variantId.
Definition serial (serial : string) : string := "inventory:serial:" +:+ serial.
End INVENTORY_CACHE.

Definition DEFAULT_RESERVATION_TTL_MINUTES : Z := 30.

(** [IsPositiveQtyConstraint.validate] on the JSON value of a request. *)
Definition isPositiveQty (value : Json) : bool :=
  match value with
  | JNum q => Qeq_bool q (inject_Z (Qround.Qfloor q)) && negb (Qle_bool q 0)
  | _ => false
  end.

(** ** Requests ([dto/warehouse.dto.ts], [dto/stock.dto.ts]) *)

Record CreateWarehouseDto := mkCreateWarehouseDto {
  cw_name : string; cw_code : string; cw_address : option string; cw_city : option string;
  cw_state : option string; cw_country : option string; cw_postalCode : option string;
  cw_managerUserId : option string;
}.

Record UpdateWarehouseDto := mkUpdateWarehouseDto {
  uw_name : option string; uw_code : option string; uw_address : option string;
  uw_city : option string; uw_state : option string; uw_country : option string;
  uw_postalCode : option string;
}.

Record CreateLocationDto := mkCreateLocationDto {
  cl_warehouseId : string; cl_zoneCode : string; cl_zoneName : option string;
  cl_rackCode : string; cl_binCode : string; cl_binBarcode : option string;
}.

Record ReserveStockDto := mkReserveStockDto {
  rs_warehouseId : string; rs_variantId : string; rs_quantity : Z; rs_cartId : option string;
  rs_orderId : option string; rs_sessionKey : option string; rs_ttlMinutes : option Z;
}.

Record AdjustStockDto := mkAdjustStockDto {
  aj_warehouseId : string; aj_binId : string; aj_variantId : string; aj_quantityDelta : Z;
  aj_reason : option string; aj_notes : option string;
}.

Record GoodsReceiptItemDto := mkGoodsReceiptItemDto {
  ri_variantId : string; ri_quantityReceived : Z; ri_binId : string;
  ri_purchaseOrderItemId : option string; ri_unitCost : option Q; ri_serialNumbers : list string;
}.

Record CreateGoodsReceiptDto := mkCreateGoodsReceiptDto {
  cg_grnNumber : string; cg_supplierId : string; cg_warehouseId : string;
  cg_purchaseOrderId : option string; cg_notes : option string;
  cg_items : list GoodsReceiptItemDto;
}.

Record TransferItemDto := mkTransferItemDto {
  tf_variantId : string; tf_quantity : Z; tf_fromBinId : string; tf_toBinId : string;
}.

Record CreateTransferDto := mkCreateTransferDto {
  ct_transferNumber : string; ct_fromWarehouseId : string; ct_toWarehouseId : string;
  ct_notes : option string; ct_items : list TransferItemDto;
}.

Record PurchaseOrderItemDto := mkPurchaseOrderItemDto {
  pd_variantId : string; pd_quantityOrdered : Z; pd_unitCost : Q; pd_taxPercent : option Q;
}.

Record CreatePurchaseOrderDto := mkCreatePurchaseOrderDto {
  cp_poNumber : string; cp_supplierId : string; cp_warehouseId : string;
  cp_notes : option string; cp_items : list PurchaseOrderItemDto;
}.

(** ** Row updates *)

(** [available_quantity: { increment: da }, reserved_quantity: { increment: dr }] *)
Definition move_stock (da dr : Z) (r : Inventory) : Inventory :=
  mkInventory (iv_id r) (iv_warehouse_id r) (iv_bin_id r) (iv_variant_id r)
    (iv_available r + da) (iv_reserved r + dr) (iv_damaged r) (iv_in_transit r)
    (iv_reorder_level r) (iv_status r) (iv_deleted_at r).

(** A new stock row; the other quantities take the column default 0. *)
Definition new_inventory (warehouseId binId variantId : string) (available : Z) (id : string)
  : Inventory :=
  mkInventory id warehouseId binId variantId available 0 0 0 0 rs_active None.

Definition set_reservation_status (st : ReservationStatus) (r : StockReservation)
  : StockReservation :=
  mkStockReservation (rv_id r) (rv_warehouse_id r) (rv_variant_id r) (rv_quantity r)
    (rv_cart_id r) (rv_order_id r) (rv_session_key r) (rv_expires_at r) st (rv_deleted_at r).

Definition receive_items (n : Z) (r : PurchaseOrderItem) : PurchaseOrderItem :=
  mkPurchaseOrderItem (pi_id r) (pi_purchase_order_id r) (pi_variant_id r)
    (pi_quantity_ordered r) (pi_quantity_received r + n) (pi_unit_cost r) (pi_tax_percent r)
    (pi_line_total r).

Definition update_wh (dto : UpdateWarehouseDto) (w : Warehouse) : Warehouse :=
  let keep (new old : option string) := match new with Some x => Some x | None => old end in
  mkWarehouse (wh_id w) (coalesce (uw_name dto) (wh_name w)) (coalesce (uw_code dto) (wh_code w))
    (keep (uw_address dto) (wh_address w)) (keep (uw_city dto) (wh_city w))
    (keep (uw_state dto) (wh_state w)) (keep (uw_country dto) (wh_country w))
    (keep (uw_postalCode dto) (wh_postal_code w)) (wh_manager_id w) (wh_status w)
    (wh_deleted_at w).

Definition archive_wh (now : Z) (w : Warehouse) : Warehouse :=
  mkWarehouse (wh_id w) (wh_name w) (wh_code w) (wh_address w) (wh_city w) (wh_state w)
    (wh_country w) (wh_postal_code w) (wh_manager_id w) rs_archived (Some now).

Definition set_refurb (status : string) (r : SerialNumber) : SerialNumber :=
  mkSerialNumber (sn_id r) (sn_serial_number r) (sn_barcode r) (sn_imei r) (sn_warehouse_id r)
    (sn_bin_id r)
    (sn_variant_id r) (sn_purchase_order_item_id r)
    (if String.eqb status "ready_for_sale" then "refurbished_ready" else sn_status r)
    (sn_warranty_status r) (Some status) (sn_deleted_at r).

Definition is_active (st : RecordStatus) : bool :=
  match st with rs_active => true | _ => false end.

Section inventory.
  Context `{Redis, !Scheduler, !Crypto, !Postgres}.

(** ** WarehouseRepository ([repositories/warehouse.repository.ts]) *)

Definition wh_findById (id : string) : M (St Db) (option Warehouse) :=
  db_findFirst T_Warehouse (λ w, String.eqb (wh_id w) id && live (wh_deleted_at w)).

Definition wh_findByCode (code : string) : M (St Db) (option Warehouse) :=
  db_findFirst T_Warehouse (λ w, String.eqb (wh_code w) code && live (wh_deleted_at w)).

Definition wh_list : M (St Db) (list Warehouse) :=
  db_findMany T_Warehouse (λ w, live (wh_deleted_at w) && is_active (wh_status w)).

Definition wh_softDelete (id : string) : M (St Db) Warehouse :=
  now ← Date_now;
  db_update T_Warehouse id (archive_wh now).

(** [bin.rack.zone.warehouse_id], through the two relations. *)
Definition bin_warehouse (d : Db) (b : Bin) : option string :=
  match find_first (λ r, String.eqb (rk_id r) (bn_rack_id b)) (view L_Rack d) with
  | None => None
  | Some r => option_map zn_warehouse_id
                (find_first (λ z, String.eqb (zn_id z) (rk_zone_id r)) (view L_Zone d))
  end.

Definition findBin (binId : string) : M (St Db) (option Bin) :=
  db_findFirst T_Bin (λ b, String.eqb (bn_id b) binId && live (bn_deleted_at b)).

(** [!bin || bin.rack.zone.warehouse_id !== warehouseId] *)
Definition bin_outside (bin : option Bin) (warehouseId : string) : M (St Db) bool :=
  gets (λ s, match bin with
             | None => true
             | Some b => negb (same_opt (bin_warehouse (tables s) b) (Some warehouseId))
             end).

Definition repo_createLocation (input : CreateLocationDto) : M (St Db) (Zone * Rack * Bin) :=
  in_transaction
    (zone ← db_findFirst T_Zone (λ z, String.eqb (zn_warehouse_id z) (cl_warehouseId input)
               && String.eqb (zn_code z) (cl_zoneCode input) && live (zn_deleted_at z));
     zone ← match zone with
            | Some z => mret z
            | None => db_create T_Zone (λ id, mkZone id (cl_warehouseId input)
                        (cl_zoneCode input) (cl_zoneName input) None)
            end;
     rack ← db_findFirst T_Rack (λ r, String.eqb (rk_zone_id r) (zn_id zone)
               && String.eqb (rk_code r) (cl_rackCode input) && live (rk_deleted_at r));
     rack ← match rack with
            | Some r => mret r
            | None => db_create T_Rack (λ id, mkRack id (zn_id zone) (cl_rackCode input) None)
            end;
     bin ← db_create T_Bin (λ id, mkBin id (rk_id rack) (cl_binCode input)
             (cl_binBarcode input) None);
     mret (zone, rack, bin)).

(** ** InventoryRepository ([repositories/inventory.repository.ts]) *)

(** The rows of a variant in a warehouse that count as stock. *)
Definition is_stock (warehouseId variantId : string) (r : Inventory) : bool :=
  String.eqb (iv_warehouse_id r) warehouseId && String.eqb (iv_variant_id r) variantId
  && live (iv_deleted_at r) && is_active (iv_status r).

Definition findRows (warehouseId variantId : string) : M (St Db) (list Inventory) :=
  db_findMany_desc T_Inventory (is_stock warehouseId variantId) iv_available.

Definition findRow (binId variantId : string) : M (St Db) (option Inventory) :=
  db_findFirst T_Inventory (λ r, String.eqb (iv_bin_id r) binId
    && String.eqb (iv_variant_id r) variantId && live (iv_deleted_at r)).

(** [list]: the order by [updated_at] is left to the server. *)
Definition inv_list (warehouseId variantId : option string) (skip take_ : Z)
  : M (St Db) (Z * list Inventory) :=
  let matches r := live (iv_deleted_at r) && is_active (iv_status r)
    && match warehouseId with Some w => String.eqb (iv_warehouse_id r) w | None => true end
    && match variantId with Some v => String.eqb (iv_variant_id r) v | None => true end in
  total ← db_count T_Inventory matches;
  rows ← db_findMany T_Inventory matches;
  mret (total, Pagination.page_of skip take_ rows).

Record StockSum := mkStockSum {
  ss_available : Z; ss_reserved : Z; ss_damaged : Z; ss_in_transit : Z;
}.

Definition sum_stock (rows : list Inventory) : StockSum :=
  mkStockSum (sumZ iv_available rows) (sumZ iv_reserved rows) (sumZ iv_damaged rows)
    (sumZ iv_in_transit rows).

(** [availabilityByVariant]: GROUP BY warehouse_id. *)
Definition availabilityByVariant (variantId : string) : M (St Db) (list (string * StockSum)) :=
  rows ← db_findMany T_Inventory (λ r, String.eqb (iv_variant_id r) variantId
           && live (iv_deleted_at r) && is_active (iv_status r));
  mret (map (λ w, (w, sum_stock (where_ (λ r, String.eqb (iv_warehouse_id r) w) rows)))
            (remove_dups (map iv_warehouse_id rows))).

Definition stockSummary (warehouseId variantId : string) : M (St Db) StockSum :=
  rows ← db_findMany T_Inventory (is_stock warehouseId variantId);
  mret (sum_stock rows).

Definition createMovement (warehouseId variantId : string) (movementType : StockMovementType)
  (quantity : Z) (referenceType referenceId notes : option string)
  : M (St Db) InventoryMovement :=
  db_create T_InventoryMovement (λ id, mkInventoryMovement id warehouseId variantId movementType
    quantity referenceType referenceId notes).

Definition findReservation (id : string) : M (St Db) (option StockReservation) :=
  db_findFirst T_StockReservation (λ r, String.eqb (rv_id r) id && live (rv_deleted_at r)).

Definition createAdjustment (warehouseId variantId : string) (quantityDelta : Z)
  (reason : string) (notes : option string) : M (St Db) InventoryAdjustment :=
  db_create T_InventoryAdjustment (λ id, mkInventoryAdjustment id warehouseId variantId
    quantityDelta reason notes).

Definition upsertLowStockAlert (warehouseId variantId : string) (available reorder : Z)
  : M (St Db) LowStockAlert :=
  db_create T_LowStockAlert (λ id, mkLowStockAlert id warehouseId variantId available reorder
    "open" None).

Definition openLowStock (warehouseId variantId : string) : M (St Db) (option LowStockAlert) :=
  db_findFirst T_LowStockAlert (λ a, String.eqb (al_warehouse_id a) warehouseId
    && String.eqb (al_variant_id a) variantId && String.eqb (al_status a) "open"
    && live (al_deleted_at a)).

(** ** ProcurementRepository ([repositories/procurement.repository.ts]) *)

Definition findSerial (serial : string) : M (St Db) (option SerialNumber) :=
  db_findFirst T_SerialNumber
    (λ r, String.eqb (sn_serial_number r) serial && live (sn_deleted_at r)).

Definition findSerialById (id : string) : M (St Db) (option SerialNumber) :=
  db_findFirst T_SerialNumber (λ r, String.eqb (sn_id r) id && live (sn_deleted_at r)).

Definition updateSerialRefurb (id status : string) : M (St Db) SerialNumber :=
  db_update T_SerialNumber id (set_refurb status).

Definition findPoByNumber (poNumber : string) : M (St Db) (option PurchaseOrder) :=
  db_findFirst T_PurchaseOrder
    (λ r, String.eqb (po_po_number r) poNumber && live (po_deleted_at r)).

Definition findGrnByNumber (grnNumber : string) : M (St Db) (option GoodsReceipt) :=
  db_findFirst T_GoodsReceipt
    (λ r, String.eqb (gr_grn_number r) grnNumber && live (gr_deleted_at r)).

Definition findTransferByNumber (transferNumber : string) : M (St Db) (option StockTransfer) :=
  db_findFirst T_StockTransfer
    (λ r, String.eqb (tr_transfer_number r) transferNumber && live (tr_deleted_at r)).

(** ** InventoryCacheService ([services/inventory-cache.service.ts]) *)

Definition invalidateStock (warehouseId variantId : string) : M (St Db) () :=
  CacheService.del (INVENTORY_CACHE.stock warehouseId variantId) ;;
  CacheService.del (INVENTORY_CACHE.availability variantId).

Definition invalidateWarehouses : M (St Db) () :=
  CacheService.del INVENTORY_CACHE.warehouses ;;
  _ ← CacheService.delByPrefix "inventory:warehouse:";
  mret tt.

Definition invalidateSerial (serial : string) : M (St Db) () :=
  CacheService.del (INVENTORY_CACHE.serial serial).

Definition inv_getOrSet (key : string) (factory : M (St Db) Json) : M (St Db) Json :=
  CacheService.getOrSet key factory INVENTORY_CACHE.TTL.

(** ** InventoryService ([services/inventory.service.ts]) *)

Definition requireWarehouse (id : string) : M (St Db) Warehouse :=
  w ← wh_findById id;
  require_ w (AppException NOT_FOUND "Warehouse not found" 404).

Definition sum_available (rows : list Inventory) : Z := sumZ iv_available rows.

(** [Math.max(...rows.map((r) => r.reorder_level), 0)] *)
Definition max_reorder (rows : list Inventory) : Z :=
  foldr Z.max 0 (map iv_reorder_level rows).

Definition LowStockDetectedEvent (alertId warehouseId variantId : string)
  (available reorderLevel : Z) : DomainEvent :=
  mkEvent "inventory.low_stock_detected"
    (JObj [("alertId", JStr alertId); ("warehouseId", JStr warehouseId);
           ("variantId", JStr variantId); ("available", JInt available);
           ("reorderLevel", JInt reorderLevel)]).

Definition maybeLowStock (warehouseId variantId : string) : M (St Db) () :=
  rows ← findRows warehouseId variantId;
  let available := sum_available rows in
  let reorder := max_reorder rows in
  if (reorder <=? 0) || (reorder <? available) then mret tt
  else
    existing ← openLowStock warehouseId variantId;
    match existing with
    | Some _ => mret tt
    | None =>
        alert ← upsertLowStockAlert warehouseId variantId available reorder;
        emit (LowStockDetectedEvent (al_id alert) warehouseId variantId available reorder)
    end.

(** *** Reads *)

Definition listWarehouses : M (St Db) Json :=
  inv_getOrSet INVENTORY_CACHE.warehouses
    (rows ← wh_list;
     mret (JArr (map (λ w, JObj
       [("id", JStr (wh_id w)); ("name", JStr (wh_name w)); ("code", JStr (wh_code w));
        ("city", jnullable (wh_city w)); ("state", jnullable (wh_state w));
        ("country", jnullable (wh_country w));
        ("status", JStr (RecordStatus_text (wh_status w)))]) rows))).

(** The nested [zones], [racks] and [bins] of [getWarehouse]. *)
Definition location_tree (d : Db) (warehouseId : string) : Json :=
  JArr (map (λ z, JObj
    [("zoneId", JStr (zn_id z)); ("zoneCode", JStr (zn_code z));
     ("zoneName", jnullable (zn_name z));
     ("racks", JArr (map (λ r, JObj
        [("rackId", JStr (rk_id r)); ("rackCode", JStr (rk_code r));
         ("bins", JArr (map (λ b, JObj
            [("binId", JStr (bn_id b)); ("binCode", JStr (bn_code b));
             ("barcode", jnullable (bn_barcode b))])
            (scan (where_ (λ b, String.eqb (bn_rack_id b) (rk_id r) && live (bn_deleted_at b))
                          (view L_Bin d)))))])
        (scan (where_ (λ r, String.eqb (rk_zone_id r) (zn_id z) && live (rk_deleted_at r))
                      (view L_Rack d)))))])
    (scan (where_ (λ z, String.eqb (zn_warehouse_id z) warehouseId && live (zn_deleted_at z))
                  (view L_Zone d)))).

Definition getWarehouse (id : string) : M (St Db) Json :=
  inv_getOrSet (INVENTORY_CACHE.warehouse id)
    (w ← requireWarehouse id;
     locations ← gets (λ s, location_tree (tables s) (wh_id w));
     mret (JObj
       [("id", JStr (wh_id w)); ("name", JStr (wh_name w)); ("code", JStr (wh_code w));
        ("address", jnullable (wh_address w)); ("city", jnullable (wh_city w));
        ("state", jnullable (wh_state w)); ("country", jnullable (wh_country w));
        ("postalCode", jnullable (wh_postal_code w)); ("locations", locations)])).

(** One line of [listInventory]; the codes come from the included relations. *)
Record InventoryView := mkInventoryView {
  vw_id : string; vw_warehouseId : string; vw_warehouseCode : option string; vw_binId : string;
  vw_binCode : option string; vw_variantId : string; vw_sku : option string; vw_available : Z;
  vw_reserved : Z; vw_damaged : Z; vw_inTransit : Z; vw_reorderLevel : Z;
}.

Definition inventory_view (d : Db) (r : Inventory) : InventoryView :=
  mkInventoryView (iv_id r) (iv_warehouse_id r)
    (option_map wh_code (find_first (λ w, String.eqb (wh_id w) (iv_warehouse_id r))
                                    (view L_Warehouse d)))
    (iv_bin_id r)
    (option_map bn_code (find_first (λ b, String.eqb (bn_id b) (iv_bin_id r)) (view L_Bin d)))
    (iv_variant_id r)
    (option_map pv_sku (find_first (λ v, String.eqb (pv_id v) (iv_variant_id r))
                                   (view L_ProductVariant d)))
    (iv_available r) (iv_reserved r) (iv_damaged r) (iv_in_transit r) (iv_reorder_level r).

Definition listInventory (page limit : option Z) (warehouseId variantId : option string)
  : M (St Db) (list InventoryView * PaginationMeta) :=
  let page := coalesce page 1 in
  let limit := Z.min (coalesce limit 20) 100 in
  '(total, rows) ← inv_list warehouseId variantId ((page - 1) * limit) limit;
  d ← gets tables;
  mret (paginatedResult (map (inventory_view d) rows) page limit total).

Definition stock_json (warehouseId variantId : string) (agg : StockSum) : Json :=
  JObj [("warehouseId", JStr warehouseId); ("variantId", JStr variantId);
        ("available", JInt (ss_available agg)); ("reserved", JInt (ss_reserved agg));
        ("damaged", JInt (ss_damaged agg)); ("inTransit", JInt (ss_in_transit agg))].

Definition getStock (warehouseId variantId : string) : M (St Db) Json :=
  _ ← requireWarehouse warehouseId;
  inv_getOrSet (INVENTORY_CACHE.stock warehouseId variantId)
    (agg ← stockSummary warehouseId variantId;
     mret (stock_json warehouseId variantId agg)).

Definition warehouseAvailability (variantId : string) : M (St Db) Json :=
  inv_getOrSet (INVENTORY_CACHE.availability variantId)
    (groups ← availabilityByVariant variantId;
     warehouses ← db_findMany T_Warehouse (λ w, one_of (map fst groups) (wh_id w)
                    && live (wh_deleted_at w));
     mret (JArr (map (λ g,
       let w := find_first (λ w, String.eqb (wh_id w) (fst g)) warehouses in
       JObj [("warehouseId", JStr (fst g));
             ("warehouseCode", JStr (coalesce (option_map wh_code w) ""));
             ("warehouseName", JStr (coalesce (option_map wh_name w) ""));
             ("variantId", JStr variantId);
             ("available", JInt (ss_available (snd g))); ("reserved", JInt (ss_reserved (snd g)));
             ("damaged", JInt (ss_damaged (snd g))); ("inTransit", JInt (ss_in_transit (snd g)))])
       groups))).

Definition serialLookup (serial : string) : M (St Db) Json :=
  inv_getOrSet (INVENTORY_CACHE.serial serial)
    (row ← findSerial serial;
     row ← require_ row (AppException NOT_FOUND "Serial not found" 404);
     d ← gets tables;
     let warehouse := match sn_warehouse_id row with
       | Some w => find_first (λ x, String.eqb (wh_id x) w) (view L_Warehouse d)
       | None => None
       end in
     mret (JObj
       [("id", JStr (sn_id row)); ("serialNumber", JStr (sn_serial_number row));
        ("barcode", jnullable (sn_barcode row)); ("imei", jnullable (sn_imei row));
        ("status", JStr (sn_status row));
        ("refurbishmentStatus", jnullable (sn_refurbishment_status row));
        ("warehouseId", jnullable (sn_warehouse_id row));
        ("warehouseCode", jnullable (option_map wh_code warehouse));
        ("binId", jnullable (sn_bin_id row)); ("variantId", JStr (sn_variant_id row));
        ("sku", jnullable (option_map pv_sku
           (find_first (λ v, String.eqb (pv_id v) (sn_variant_id row))
                       (view L_ProductVariant d))))])).

(** *** Warehouse administration *)

Definition createWarehouse (dto : CreateWarehouseDto) : M (St Db) Warehouse :=
  existing ← wh_findByCode (cw_code dto);
  throw_if (match existing with Some _ => true | None => false end)
    (AppException CONFLICT "Warehouse code already exists" 409) ;;
  wh ← db_create T_Warehouse (λ id, mkWarehouse id (cw_name dto) (cw_code dto) (cw_address dto)
         (cw_city dto) (cw_state dto) (cw_country dto) (cw_postalCode dto)
         (cw_managerUserId dto) rs_active None);
  invalidateWarehouses ;;
  mret wh.

Definition updateWarehouse (id : string) (dto : UpdateWarehouseDto) : M (St Db) Warehouse :=
  _ ← requireWarehouse id;
  match uw_code dto with
  | Some ((String _ _) as code) =>
      existing ← wh_findByCode code;
      throw_if (match existing with Some w => negb (String.eqb (wh_id w) id) | None => false end)
        (AppException CONFLICT "Warehouse code already exists" 409)
  | _ => mret tt
  end ;;
  wh ← db_update T_Warehouse id (update_wh dto);
  invalidateWarehouses ;;
  mret wh.

Definition deleteWarehouse (id : string) : M (St Db) string :=
  _ ← requireWarehouse id;
  _ ← wh_softDelete id;
  invalidateWarehouses ;;
  mret id.

Definition createLocation (dto : CreateLocationDto) : M (St Db) (Zone * Rack * Bin) :=
  _ ← requireWarehouse (cl_warehouseId dto);
  loc ← repo_createLocation dto;
  invalidateWarehouses ;;
  mret loc.

(** *** Reserve and release *)

Definition stock_lock (warehouseId variantId : string) : string :=
  LockService.resourceKey ["inventory"; warehouseId; variantId].

Definition lock_short : LockService.LockOptions :=
  LockService.mkLockOptions (Some 15000) (Some 5000) None.
Definition lock_long : LockService.LockOptions :=
  LockService.mkLockOptions (Some 30000) (Some 8000) None.

(** One turn of the loop of [reserve]: [break] when nothing is left to take. *)
Definition reserve_row (remaining : Z) (row : Inventory) : M (St Db) Z :=
  if remaining <=? 0 then mret remaining
  else
    let take := Z.min (iv_available row) remaining in
    if take <=? 0 then mret remaining
    else
      _ ← db_update T_Inventory (iv_id row) (move_stock (- take) take);
      mret (remaining - take).

(** One turn of the loop of [releaseReservation]. *)
Definition release_row (remaining : Z) (row : Inventory) : M (St Db) Z :=
  if remaining <=? 0 then mret remaining
  else
    let take := Z.min (iv_reserved row) remaining in
    if take <=? 0 then mret remaining
    else
      _ ← db_update T_Inventory (iv_id row) (move_stock take (- take));
      mret (remaining - take).

Definition InventoryReservedEvent (reservationId warehouseId variantId : string) (quantity : Z)
  : DomainEvent :=
  mkEvent "inventory.reserved"
    (JObj [("reservationId", JStr reservationId); ("warehouseId", JStr warehouseId);
           ("variantId", JStr variantId); ("quantity", JInt quantity)]).

Definition InventoryReleasedEvent (reservationId warehouseId variantId : string) (quantity : Z)
  : DomainEvent :=
  mkEvent "inventory.released"
    (JObj [("reservationId", JStr reservationId); ("warehouseId", JStr warehouseId);
           ("variantId", JStr variantId); ("quantity", JInt quantity)]).

(** [createReservation] with its nested [connect]s, in one statement. *)
Definition createReservation (dto : ReserveStockDto) (expires_at : Z)
  : M (St Db) StockReservation :=
  in_transaction
    (connect T_Warehouse (rs_warehouseId dto) ;;
     connect T_ProductVariant (rs_variantId dto) ;;
     connect_opt T_Cart (rs_cartId dto) ;;
     connect_opt T_Order (rs_orderId dto) ;;
     db_create T_StockReservation (λ id, mkStockReservation id (rs_warehouseId dto)
       (rs_variantId dto) (rs_quantity dto) (rs_cartId dto) (rs_orderId dto)
       (rs_sessionKey dto) expires_at rv_active None)).

Record ReservationView := mkReservationView {
  rw_id : string; rw_warehouseId : string; rw_variantId : string; rw_quantity : Z;
  rw_expiresAt : Z; rw_status : ReservationStatus;
}.

Definition reserve (dto : ReserveStockDto) : M (St Db) ReservationView :=
  LockService.withLock (stock_lock (rs_warehouseId dto) (rs_variantId dto))
    (_ ← requireWarehouse (rs_warehouseId dto);
     rows ← findRows (rs_warehouseId dto) (rs_variantId dto);
     let available := sum_available rows in
     throw_if (available <? rs_quantity dto)
       (AppException CONFLICT ("Insufficient stock: available " +:+ pretty available +:+
          ", requested " +:+ pretty (rs_quantity dto)) 409) ;;
     _ ← in_transaction (for_fold rows (rs_quantity dto) reserve_row);
     let ttl := coalesce (rs_ttlMinutes dto) DEFAULT_RESERVATION_TTL_MINUTES in
     now ← Date_now;
     reservation ← createReservation dto (now + ttl * 60000);
     _ ← createMovement (rs_warehouseId dto) (rs_variantId dto) mv_reservation (rs_quantity dto)
           (Some "stock_reservation") (Some (rv_id reservation)) None;
     invalidateStock (rs_warehouseId dto) (rs_variantId dto) ;;
     maybeLowStock (rs_warehouseId dto) (rs_variantId dto) ;;
     emit (InventoryReservedEvent (rv_id reservation) (rs_warehouseId dto) (rs_variantId dto)
             (rs_quantity dto)) ;;
     mret (mkReservationView (rv_id reservation) (rv_warehouse_id reservation)
             (rv_variant_id reservation) (rv_quantity reservation) (rv_expires_at reservation)
             (rv_status reservation)))
    lock_short.

(** The checks of [releaseReservation] made before the lock is taken. *)
Definition release_check (reservationId : string) : M (St Db) StockReservation :=
  reservation ← findReservation reservationId;
  reservation ← require_ reservation (AppException NOT_FOUND "Reservation not found" 404);
  throw_if (negb (bool_decide (rv_status reservation = rv_active)))
    (AppException CONFLICT ("Reservation is " +:+ ReservationStatus_text (rv_status reservation)
       +:+ ", cannot release") 409) ;;
  mret reservation.

(** Its locked part. *)
Definition release_locked (reservationId : string) (reservation : StockReservation)
  : M (St Db) string :=
  LockService.withLock (stock_lock (rv_warehouse_id reservation) (rv_variant_id reservation))
    (rows ← findRows (rv_warehouse_id reservation) (rv_variant_id reservation);
     _ ← in_transaction
           (_ ← for_fold rows (rv_quantity reservation) release_row;
            db_update T_StockReservation reservationId (set_reservation_status rv_released));
     _ ← createMovement (rv_warehouse_id reservation) (rv_variant_id reservation)
           mv_reservation_release (rv_quantity reservation) (Some "stock_reservation")
           (Some reservationId) None;
     invalidateStock (rv_warehouse_id reservation) (rv_variant_id reservation) ;;
     emit (InventoryReleasedEvent reservationId (rv_warehouse_id reservation)
             (rv_variant_id reservation) (rv_quantity reservation)) ;;
     mret reservationId)
    lock_short.

Definition releaseReservation (reservationId : string) : M (St Db) string :=
  reservation ← release_check reservationId;
  release_locked reservationId reservation.

(** *** Adjustments *)

Definition InventoryAdjustedEvent (adjustmentId warehouseId variantId : string)
  (quantityDelta : Z) (reason : string) : DomainEvent :=
  mkEvent "inventory.adjusted"
    (JObj [("adjustmentId", JStr adjustmentId); ("warehouseId", JStr warehouseId);
           ("variantId", JStr variantId); ("quantityDelta", JInt quantityDelta);
           ("reason", JStr reason)]).

Record AdjustmentView := mkAdjustmentView {
  av_id : string; av_available : Z; av_quantityDelta : Z;
}.

(** The row of [adjust], created or updated. *)
Definition adjust_row (dto : AdjustStockDto) (row : option Inventory) : M (St Db) Inventory :=
  match row with
  | None =>
      throw_if (aj_quantityDelta dto <? 0)
        (AppException CONFLICT "No inventory row to decrement" 409) ;;
      db_create T_Inventory (new_inventory (aj_warehouseId dto) (aj_binId dto)
        (aj_variantId dto) (aj_quantityDelta dto))
  | Some r => db_update T_Inventory (iv_id r) (move_stock (aj_quantityDelta dto) 0)
  end.

Definition adjust (dto : AdjustStockDto) : M (St Db) AdjustmentView :=
  LockService.withLock (stock_lock (aj_warehouseId dto) (aj_variantId dto))
    (_ ← requireWarehouse (aj_warehouseId dto);
     bin ← findBin (aj_binId dto);
     outside ← bin_outside bin (aj_warehouseId dto);
     throw_if outside (AppException BAD_REQUEST "Bin does not belong to warehouse" 400) ;;
     row ← findRow (aj_binId dto) (aj_variantId dto);
     let nextAvailable := coalesce (option_map iv_available row) 0 + aj_quantityDelta dto in
     throw_if (nextAvailable <? 0)
       (AppException CONFLICT "Adjustment would make available quantity negative" 409) ;;
     row ← adjust_row dto row;
     let reason := coalesce (aj_reason dto) "correction" in
     adjustment ← createAdjustment (aj_warehouseId dto) (aj_variantId dto)
                    (aj_quantityDelta dto) reason (aj_notes dto);
     _ ← createMovement (aj_warehouseId dto) (aj_variantId dto) mv_adjustment
           (aj_quantityDelta dto) (Some "inventory_adjustment") (Some (ad_id adjustment))
           (aj_notes dto);
     invalidateStock (aj_warehouseId dto) (aj_variantId dto) ;;
     maybeLowStock (aj_warehouseId dto) (aj_variantId dto) ;;
     emit (InventoryAdjustedEvent (ad_id adjustment) (aj_warehouseId dto) (aj_variantId dto)
             (aj_quantityDelta dto) reason) ;;
     mret (mkAdjustmentView (ad_id adjustment) (iv_available row) (aj_quantityDelta dto)))
    lock_short.

(** *** Goods receipts *)

Definition add_stock (warehouseId binId variantId : string) (existing : option Inventory)
  (quantity : Z) : M (St Db) Inventory :=
  match existing with
  | Some r => db_update T_Inventory (iv_id r) (move_stock quantity 0)
  | None => db_create T_Inventory (new_inventory warehouseId binId variantId quantity)
  end.

Definition receive_serial (dto : CreateGoodsReceiptDto) (item : GoodsReceiptItemDto)
  (serial : string) : M (St Db) () :=
  dup ← findSerial serial;
  throw_if (match dup with Some _ => true | None => false end)
    (AppException CONFLICT ("Serial already exists: " +:+ serial) 409) ;;
  _ ← db_create T_SerialNumber (λ id, mkSerialNumber id serial None None
        (Some (cg_warehouseId dto)) (Some (ri_binId item)) (ri_variantId item)
        (ri_purchaseOrderItemId item) "in_stock" wts_not_registered None None);
  mret tt.

(** The body of the loop over the items of a receipt. *)
Definition receive_item (dto : CreateGoodsReceiptDto) (receipt : GoodsReceipt)
  (item : GoodsReceiptItemDto) : M (St Db) () :=
  bin ← findBin (ri_binId item);
  outside ← bin_outside bin (cg_warehouseId dto);
  throw_if outside
    (AppException BAD_REQUEST ("Bin " +:+ ri_binId item +:+ " not in warehouse") 400) ;;
  _ ← db_create T_GoodsReceiptItem (λ id, mkGoodsReceiptItem id (gr_id receipt)
        (ri_variantId item) (ri_purchaseOrderItemId item) (ri_quantityReceived item)
        (option_map numeric2 (ri_unitCost item)));
  existing ← findRow (ri_binId item) (ri_variantId item);
  _ ← add_stock (cg_warehouseId dto) (ri_binId item) (ri_variantId item) existing
        (ri_quantityReceived item);
  _ ← createMovement (cg_warehouseId dto) (ri_variantId item) mv_purchase
        (ri_quantityReceived item) (Some "goods_receipt") (Some (gr_id receipt)) None;
  match ri_purchaseOrderItemId item with
  | Some ((String _ _) as poi) =>
      _ ← db_update T_PurchaseOrderItem poi (receive_items (ri_quantityReceived item)); mret tt
  | _ => mret tt
  end ;;
  for_each (ri_serialNumbers item) (receive_serial dto item).

Definition GoodsReceivedEvent (goodsReceiptId grnNumber warehouseId : string) : DomainEvent :=
  mkEvent "inventory.goods_received"
    (JObj [("goodsReceiptId", JStr goodsReceiptId); ("grnNumber", JStr grnNumber);
           ("warehouseId", JStr warehouseId)]).

Definition createGoodsReceipt (dto : CreateGoodsReceiptDto) : M (St Db) GoodsReceipt :=
  existing ← findGrnByNumber (cg_grnNumber dto);
  throw_if (match existing with Some _ => true | None => false end)
    (AppException CONFLICT "GRN number already exists" 409) ;;
  throw_if (is_nil (cg_items dto)) (AppException BAD_REQUEST "GRN requires items" 400) ;;
  LockService.withLock (LockService.resourceKey ["inventory"; "grn"; cg_warehouseId dto])
    (_ ← requireWarehouse (cg_warehouseId dto);
     grn ← in_transaction
             (receipt ← db_create T_GoodsReceipt (λ id, mkGoodsReceipt id (cg_grnNumber dto)
                (cg_supplierId dto) (cg_warehouseId dto) (cg_purchaseOrderId dto) (cg_notes dto)
                "posted" None);
              for_each (cg_items dto) (receive_item dto receipt) ;;
              mret receipt);
     for_each (cg_items dto) (λ item, invalidateStock (cg_warehouseId dto) (ri_variantId item)) ;;
     emit (GoodsReceivedEvent (gr_id grn) (gr_grn_number grn) (cg_warehouseId dto)) ;;
     mret grn)
    lock_long.

(** *** Transfers *)

(** The body of the loop over the items of a transfer. *)
Definition transfer_item (dto : CreateTransferDto) (t : StockTransfer) (item : TransferItemDto)
  : M (St Db) () :=
  source ← findRow (tf_fromBinId item) (tf_variantId item);
  source ← require_ (match source with
                     | Some r => if iv_available r <? tf_quantity item then None else Some r
                     | None => None
                     end)
             (AppException CONFLICT
                ("Insufficient stock in source bin for variant " +:+ tf_variantId item) 409);
  throw_if (negb (String.eqb (iv_warehouse_id source) (ct_fromWarehouseId dto)))
    (AppException BAD_REQUEST "fromBin not in from warehouse" 400) ;;
  destBin ← findBin (tf_toBinId item);
  outside ← bin_outside destBin (ct_toWarehouseId dto);
  throw_if outside (AppException BAD_REQUEST "toBin not in to warehouse" 400) ;;
  _ ← db_update T_Inventory (iv_id source) (move_stock (- tf_quantity item) 0);
  dest ← findRow (tf_toBinId item) (tf_variantId item);
  _ ← add_stock (ct_toWarehouseId dto) (tf_toBinId item) (tf_variantId item) dest
        (tf_quantity item);
  _ ← db_create T_StockTransferItem (λ id, mkStockTransferItem id (tr_id t) (tf_variantId item)
        (tf_quantity item));
  _ ← createMovement (ct_fromWarehouseId dto) (tf_variantId item) mv_transfer_out
        (tf_quantity item) (Some "stock_transfer") (Some (tr_id t)) None;
  _ ← createMovement (ct_toWarehouseId dto) (tf_variantId item) mv_transfer_in
        (tf_quantity item) (Some "stock_transfer") (Some (tr_id t)) None;
  mret tt.

Definition TransferCompletedEvent (transferId transferNumber fromId toId : string)
  : DomainEvent :=
  mkEvent "inventory.transfer_completed"
    (JObj [("transferId", JStr transferId); ("transferNumber", JStr transferNumber);
           ("fromWarehouseId", JStr fromId); ("toWarehouseId", JStr toId)]).

(** [[a, b].sort().join(':')] *)
Definition sorted_pair (a b : string) : string :=
  if String.leb a b then join ":" [a; b] else join ":" [b; a].

Definition createTransfer (dto : CreateTransferDto) : M (St Db) StockTransfer :=
  throw_if (String.eqb (ct_fromWarehouseId dto) (ct_toWarehouseId dto))
    (AppException BAD_REQUEST "Warehouses must differ" 400) ;;
  existing ← findTransferByNumber (ct_transferNumber dto);
  throw_if (match existing with Some _ => true | None => false end)
    (AppException CONFLICT "Transfer number already exists" 409) ;;
  let lockKey := sorted_pair (ct_fromWarehouseId dto) (ct_toWarehouseId dto) in
  LockService.withLock (LockService.resourceKey ["inventory"; "transfer"; lockKey])
    (_ ← requireWarehouse (ct_fromWarehouseId dto);
     _ ← requireWarehouse (ct_toWarehouseId dto);
     transfer ← in_transaction
       (t ← db_create T_StockTransfer (λ id, mkStockTransfer id (ct_transferNumber dto)
              (ct_fromWarehouseId dto) (ct_toWarehouseId dto) (ct_notes dto) "received" None);
        for_each (ct_items dto) (transfer_item dto t) ;;
        mret t);
     for_each (ct_items dto) (λ item,
       invalidateStock (ct_fromWarehouseId dto) (tf_variantId item) ;;
       invalidateStock (ct_toWarehouseId dto) (tf_variantId item)) ;;
     emit (TransferCompletedEvent (tr_id transfer) (tr_transfer_number transfer)
             (ct_fromWarehouseId dto) (ct_toWarehouseId dto)) ;;
     mret transfer)
    lock_long.

(** *** Purchase orders *)

(** [line] and [line + tax] of an item, in binary64. *)
Definition po_line (item : PurchaseOrderItemDto) : Q :=
  js_mul (inject_Z (pd_quantityOrdered item)) (pd_unitCost item).
Definition po_line_total (item : PurchaseOrderItemDto) : Q :=
  js_add (po_line item) (js_mul (po_line item) (js_div (coalesce (pd_taxPercent item) 0%Q) 100)).

Definition po_subtotal_of (items : list PurchaseOrderItemDto) : Q :=
  foldl (λ subtotal item, js_add subtotal (po_line_total item)) 0%Q items.

Definition create_po_item (po : PurchaseOrder) (item : PurchaseOrderItemDto) : M (St Db) () :=
  connect T_ProductVariant (pd_variantId item) ;;
  _ ← db_create T_PurchaseOrderItem (λ id, mkPurchaseOrderItem id (po_id po) (pd_variantId item)
        (pd_quantityOrdered item) 0 (numeric2 (pd_unitCost item))
        (numeric2 (coalesce (pd_taxPercent item) 0%Q)) (numeric2 (po_line_total item)));
  mret tt.

Record PurchaseOrderView := mkPurchaseOrderView {
  pw_id : string; pw_poNumber : string; pw_status : string; pw_grandTotal : Q; pw_itemCount : Z;
}.

Definition createPurchaseOrder (dto : CreatePurchaseOrderDto) : M (St Db) PurchaseOrderView :=
  existing ← findPoByNumber (cp_poNumber dto);
  throw_if (match existing with Some _ => true | None => false end)
    (AppException CONFLICT "PO number already exists" 409) ;;
  _ ← requireWarehouse (cp_warehouseId dto);
  let subtotal := po_subtotal_of (cp_items dto) in
  now ← Date_now;
  po ← in_transaction
    (connect T_Supplier (cp_supplierId dto) ;;
     connect T_Warehouse (cp_warehouseId dto) ;;
     po ← db_create T_PurchaseOrder (λ id, mkPurchaseOrder id (cp_poNumber dto)
            (cp_supplierId dto) (cp_warehouseId dto) (cp_notes dto) "approved" now
            (numeric2 subtotal) 0 (numeric2 subtotal) "INR" None);
     for_each (cp_items dto) (create_po_item po) ;;
     mret po);
  mret (mkPurchaseOrderView (po_id po) (po_po_number po) (po_status po)
          (cents (po_grand_total po)) (Z.of_nat (length (cp_items dto)))).

(** *** Refurbishment and cycle counts *)

Definition updateRefurbishment (serialId refurbishmentStatus : string) : M (St Db) SerialNumber :=
  serial ← findSerialById serialId;
  serial ← require_ serial (AppException NOT_FOUND "Serial not found" 404);
  updated ← updateSerialRefurb serialId refurbishmentStatus;
  invalidateSerial (sn_serial_number serial) ;;
  mret updated.

Definition createCycleCount (warehouseId jobNumber : string) : M (St Db) CycleCountJob :=
  _ ← requireWarehouse warehouseId;
  in_transaction
    (connect T_Warehouse warehouseId ;;
     db_create T_CycleCountJob (λ id, mkCycleCountJob id warehouseId jobNumber "planned" None)).
End inventory.
