(* ===== verification/Stock.v ===== *)
(** * Stock: what the inventory service guarantees

    The quantities of [Inventory] as an abstract ledger: per warehouse and
    variant, the stock on hand, the stock held, and the stock promised by active
    reservations. [moved] describes what an operation does to the ledger; the
    theorems give it for every operation, and show that every promise stays
    backed by held stock on every path of every operation. *)
From S2P Require Import Prelude Core Effects Redis Lock JsNumber Pagination Schema Database Tables Sample Inventory.

(** ** The ledger *)

Definition on_hand (d : Db) (w v : string) : Z :=
  sumZ iv_available (where_ (is_stock w v) (view L_Inventory d)).

Definition held (d : Db) (w v : string) : Z :=
  sumZ iv_reserved (where_ (is_stock w v) (view L_Inventory d)).

(** An active reservation of the variant in the warehouse. *)
Definition is_promise (w v : string) (r : StockReservation) : bool :=
  bool_decide (rv_status r = rv_active) && live (rv_deleted_at r)
  && String.eqb (rv_warehouse_id r) w && String.eqb (rv_variant_id r) v.

Definition promised (d : Db) (w v : string) : Z :=
  sumZ rv_quantity (where_ (is_promise w v) (view L_StockReservation d)).

(** Keys are unique, no quantity is negative, reservations are for something. *)
Record stock_ok (d : Db) : Prop := {
  ok_inventory_ids : NoDup (map iv_id (view L_Inventory d));
  ok_reservation_ids : NoDup (map rv_id (view L_StockReservation d));
  ok_quantities : Forall quantities_ok (view L_Inventory d);
  ok_reservations : Forall (λ r, 0 < rv_quantity r) (view L_StockReservation d);
}.

(** Every promise is backed by held stock. *)
Definition backed (d : Db) : Prop := stock_ok d ∧ ∀ w v, promised d w v <= held d w v.

(** [n] at the entry of warehouse [w] and variant [v], zero elsewhere. *)
Definition at_ (w v : string) (n : Z) (w' v' : string) : Z :=
  if String.eqb w' w && String.eqb v' v then n else 0.

Lemma at_add w v n m w' v' : at_ w v (n + m) w' v' = at_ w v n w' v' + at_ w v m w' v'.
Proof. unfold at_. destruct (_ && _); lia. Qed.

Lemma at_opp w v n w' v' : at_ w v (- n) w' v' = - at_ w v n w' v'.
Proof. unfold at_. destruct (_ && _); lia. Qed.

Lemma at_0 w v w' v' : at_ w v 0 w' v' = 0.
Proof. unfold at_. by destruct (_ && _). Qed.

Lemma at_same w v n : at_ w v n w v = n.
Proof. unfold at_. by rewrite !String.eqb_refl. Qed.

Lemma at_nonneg w v n w' v' : 0 <= n → 0 <= at_ w v n w' v'.
Proof. unfold at_. destruct (_ && _); lia. Qed.

#[export] Hint Rewrite at_add at_opp at_0 at_same : sums.

(** From [d] to [d'] only the inventory table changed, and the ledger by [da] on
    hand and [dh] held. *)
Record moved (da dh : string → string → Z) (d d' : Db) : Prop := {
  mv_only : ∃ rows, d' = put L_Inventory rows d;
  mv_ok : stock_ok d';
  mv_on_hand : ∀ w v, on_hand d' w v = on_hand d w v + da w v;
  mv_held : ∀ w v, held d' w v = held d w v + dh w v;
}.

Lemma moved_refl d : stock_ok d → moved (λ _ _, 0) (λ _ _, 0) d d.
Proof.
  intros Hd. split; [|done|intros; lia|intros; lia].
  exists (view L_Inventory d). by rewrite put_view.
Qed.

Lemma moved_trans a h a' h' d d' d'' :
  moved a h d d' → moved a' h' d' d'' →
  moved (λ w v, a w v + a' w v) (λ w v, h w v + h' w v) d d''.
Proof.
  intros [[r ->] Hok Ha Hh] [[r' ->] Hok' Ha' Hh'].
  split; [exists r'; apply put_put|done| |]; intros w v;
    [rewrite Ha', Ha|rewrite Hh', Hh]; lia.
Qed.

Lemma moved_ext a h a' h' d d' :
  moved a h d d' → (∀ w v, a w v = a' w v) → (∀ w v, h w v = h' w v) → moved a' h' d d'.
Proof.
  intros [Ho Hok Ha Hh] Ea Eh. split; [done..| |]; intros w v;
    [by rewrite Ha, Ea|by rewrite Hh, Eh].
Qed.

(** A change of stock does not touch the reservations. *)
Lemma moved_promised a h d d' w v : moved a h d d' → promised d' w v = promised d w v.
Proof. by intros [[r ->] _ _ _]. Qed.

(** ** The elementary moves *)

Definition counted (r : Inventory) : bool := live (iv_deleted_at r) && is_active (iv_status r).

Lemma is_stock_move da dr w v r : is_stock w v (move_stock da dr r) = is_stock w v r.
Proof. done. Qed.

Lemma is_stock_iff w v r :
  is_stock w v r =
  String.eqb w (iv_warehouse_id r) && String.eqb v (iv_variant_id r) && counted r.
Proof.
  unfold is_stock, counted. rewrite (String.eqb_sym w), (String.eqb_sym v).
  by rewrite <- !andb_assoc.
Qed.

(** What a change of one row adds to the ledger. *)
Definition row_delta (r : Inventory) (n : Z) : string → string → Z :=
  at_ (iv_warehouse_id r) (iv_variant_id r) (if counted r then n else 0).

Lemma row_delta_stock w v r n w' v' :
  is_stock w v r = true → row_delta r n w' v' = at_ w v n w' v'.
Proof.
  rewrite is_stock_iff. intros H. bool_to_prop. subst. unfold row_delta.
  by match goal with E : counted r = true |- _ => rewrite E end.
Qed.

Lemma if_row_delta r n w v :
  (if is_stock w v r then n else 0) = row_delta r n w v.
Proof.
  rewrite is_stock_iff. unfold row_delta, at_.
  by destruct (String.eqb w _), (String.eqb v _), (counted r).
Qed.

(** [db_update] of a stock row. *)
Lemma update_moves d x da dr :
  stock_ok d → x ∈ view L_Inventory d → refused T_Inventory d (move_stock da dr x) = None →
  moved (row_delta x da) (row_delta x dr) d
    (put L_Inventory (update_rows iv_id (iv_id x) (move_stock da dr) (view L_Inventory d)) d).
Proof.
  intros [Hi Hr Hq Hp] Hx Hacc%accepted_quantities. split; [eauto| | |].
  - split; rewrite ?view_put; [|done| |done].
    + by rewrite update_rows_keys.
    + apply Forall_update_rows; [done|]. intros y Hy Hk _.
      assert (y = x) as ->; [|done].
      by eapply (NoDup_key_eq iv_id).
  - intros w v. unfold on_hand. rewrite view_put.
    rewrite (sum_where_update iv_id _ iv_available _ _ _ x) by done.
    rewrite <- if_row_delta. destruct (is_stock w v x); simpl; lia.
  - intros w v. unfold held. rewrite view_put.
    rewrite (sum_where_update iv_id _ iv_reserved _ _ _ x) by done.
    rewrite <- if_row_delta. destruct (is_stock w v x); simpl; lia.
Qed.

(** [db_create] of a stock row. *)
Lemma create_moves d w v bin n id :
  stock_ok d → id ∉ map iv_id (view L_Inventory d) →
  refused T_Inventory d (new_inventory w bin v n id) = None →
  moved (at_ w v n) (λ _ _, 0) d
    (put L_Inventory (view L_Inventory d ++ [new_inventory w bin v n id]) d).
Proof.
  intros [Hi Hr Hq Hp] Hid Hacc%accepted_quantities. split; [eauto| | |].
  - split; rewrite ?view_put; [|done| |done].
    + by apply NoDup_snoc.
    + apply Forall_app; split; [done|]. by constructor.
  - intros w' v'. unfold on_hand. rewrite view_put. autorewrite with sums.
    simpl. unfold is_stock, at_; simpl.
    rewrite (String.eqb_sym w w'), (String.eqb_sym v v').
    destruct (String.eqb w' w), (String.eqb v' v); simpl; lia.
  - intros w' v'. unfold held. rewrite view_put. autorewrite with sums. simpl.
    destruct (is_stock _ _ _); simpl; lia.
Qed.

(** ** Taking a quantity from the rows, largest first *)
Section take_rows.
Context `{Redis, !Postgres}.
(** The quantity taken from, and what a take does to the two columns. *)
Variables (f : Inventory → Z) (a b : Z → Z).
Hypothesis f_nonneg : ∀ r, quantities_ok r → 0 <= f r.
Hypothesis a_add : ∀ n m, a (n + m) = a n + a m.
Hypothesis b_add : ∀ n m, b (n + m) = b n + b m.

Definition take_row (remaining : Z) (row : Inventory) : M (St Db) Z :=
  if remaining <=? 0 then mret remaining
  else
    let take := Z.min (f row) remaining in
    if take <=? 0 then mret remaining
    else
      _ ← db_update T_Inventory (iv_id row) (move_stock (a take) (b take));
      mret (remaining - take).

(** The loop's invariant: what was taken so far is moved, and the rows ahead
    are as they were read and hold what is left to take. *)
Record taking (w v : string) (q : Z) (d : Db) (rest : list Inventory) (rem : Z) (d' : Db)
  : Prop := {
  tk_moved : moved (at_ w v (a (q - rem))) (at_ w v (b (q - rem))) d d';
  tk_rem : 0 <= rem;
  tk_rest : ∀ x, x ∈ rest → x ∈ view L_Inventory d' ∧ is_stock w v x = true;
  tk_nodup : NoDup (map iv_id rest);
  tk_enough : rem <= sumZ f rest;
}.

Lemma taking_rest_nonneg w v q d x rest rem d' :
  taking w v q d (x :: rest) rem d' → 0 <= f x ∧ 0 <= sumZ f rest.
Proof.
  intros [[_ [_ _ Hq _] _ _] _ Hin _ _]. rewrite Forall_forall in Hq. split.
  - apply f_nonneg, Hq, Hin. left.
  - apply sumZ_nonneg, Forall_forall. intros y Hy. apply f_nonneg, Hq, Hin. by right.
Qed.

Lemma taking_skip w v q d x rest rem d' :
  taking w v q d (x :: rest) rem d' → Z.min (f x) rem <= 0 → taking w v q d rest rem d'.
Proof.
  intros Ht Hle. pose proof (taking_rest_nonneg _ _ _ _ _ _ _ _ Ht) as [Hx Hr].
  destruct Ht as [Hm Hrem Hin Hnd Hen]. simpl in Hnd, Hen. inversion Hnd; subst.
  split; [done|done| |done|lia]. intros y Hy. apply Hin. by right.
Qed.

Lemma taking_step w v q d x rest rem d' :
  taking w v q d (x :: rest) rem d' →
  dwp (take_row rem x) (λ o d'', match o with
    | Ok rem' => taking w v q d rest rem' d'' | Throw _ => True end) d'.
Proof.
  intros Ht. unfold take_row.
  destruct (Z.leb_spec rem 0); [apply dwp_ret; apply (taking_skip _ _ _ _ _ _ _ _ Ht); lia|].
  destruct (Z.leb_spec (Z.min (f x) rem) 0) as [Hz|Hpos];
    [apply dwp_ret; by apply (taking_skip _ _ _ _ _ _ _ _ Ht)|].
  pose proof (taking_rest_nonneg _ _ _ _ _ _ _ _ Ht) as [Hx Hr].
  destruct Ht as [Hm Hrem Hin Hnd Hen]. set (n := Z.min (f x) rem) in *.
  dwp_step; [done|]. apply dwp_ret.
  destruct (Hin x) as [Hxin Hxst]; [left|].
  pose proof Hm as [_ Hok _ _].
  assert (r = x) as -> by (by apply (NoDup_key_eq iv_id _ r x (ok_inventory_ids _ Hok))).
  simpl in Hnd, Hen. inversion Hnd as [|? ? Hnx Hnd']; subst. split; [|lia| |done|lia].
  - eapply moved_ext; [eapply moved_trans; [exact Hm|by apply update_moves]| |];
      intros w' v'; simpl; rewrite (row_delta_stock w v) by done; rewrite <- at_add.
    + f_equal. rewrite <- a_add. f_equal. lia.
    + f_equal. rewrite <- b_add. f_equal. lia.
  - intros y Hy. destruct (Hin y) as [Hyin Hyst]; [by right|]. split; [|done].
    apply list_elem_of_fmap. exists y. split; [|done]. simpl.
    destruct (String.eqb_spec (iv_id y) (iv_id x)) as [E|]; [|done].
    destruct Hnx. rewrite <- E. by apply list_elem_of_fmap_2.
Qed.

(** When the rows hold enough, all of it is taken. *)
Lemma take_rows_spec w v q d rows :
  stock_ok d → 0 <= q → a 0 = 0 → b 0 = 0 →
  rows ≡ₚ where_ (is_stock w v) (view L_Inventory d) → q <= sumZ f rows →
  dwp (for_fold rows q take_row) (λ o d', match o with
    | Ok rem => rem = 0 ∧ moved (at_ w v (a q)) (at_ w v (b q)) d d' | Throw _ => True end) d.
Proof.
  intros Hok Hq Ha0 Hb0 Hp Hen. apply (dwp_for_fold _ _ _ (taking w v q d)).
  - split; [|done| | |done].
    + eapply moved_ext; [by apply moved_refl| |]; intros; simpl; rewrite Z.sub_diag, ?Ha0, ?Hb0;
        by rewrite at_0.
    + intros x. by rewrite Hp, elem_of_where.
    + rewrite Hp. destruct Hok as [Hi _ _ _].
      revert Hi. generalize (view L_Inventory d) as l. induction l as [|y l IH]; simpl; [done|].
      intros Hnd. inversion Hnd; subst. specialize (IH ltac:(done)).
      destruct (is_stock w v y); simpl; [|done]. constructor; [|done].
      intros (z & E & [Hz _]%elem_of_where)%list_elem_of_fmap.
      match goal with X : _ ∉ _ |- _ => apply X end. rewrite E. by apply list_elem_of_fmap_2.
  - intros rem d' [Hm Hrem _ _ Hlast]. simpl in Hlast. assert (rem = 0) as -> by lia.
    rewrite Z.sub_0_r in Hm. done.
  - intros x rest rem d' Ht. eapply dwp_mono; [by apply taking_step|]. intros [|] ?; done.
Qed.
End take_rows.

(** ** What an operation does to the ledger *)

(** The tables the ledger is read from are unchanged. *)
Definition same_stock (d d' : Db) : Prop :=
  view L_Inventory d' = view L_Inventory d ∧
  view L_StockReservation d' = view L_StockReservation d.

#[export] Instance same_stock_preorder : PreOrder same_stock.
Proof. split; unfold same_stock; [done|intros ???; intuition congruence]. Qed.

(** On hand changes by [da], held by [dh], promised by [dp]. *)
Record ledger (da dh dp : string → string → Z) (d d' : Db) : Prop := {
  lg_ok : stock_ok d';
  lg_on_hand : ∀ w v, on_hand d' w v = on_hand d w v + da w v;
  lg_held : ∀ w v, held d' w v = held d w v + dh w v;
  lg_promised : ∀ w v, promised d' w v = promised d w v + dp w v;
}.

Definition none : string → string → Z := λ _ _, 0.

Lemma stock_ok_same d d' : same_stock d d' → stock_ok d → stock_ok d'.
Proof. intros [E E'] []. split; by rewrite ?E, ?E'. Qed.

Lemma ledger_same d d' : stock_ok d → same_stock d d' → ledger none none none d d'.
Proof.
  intros Hok Hs. split; [by eapply stock_ok_same|..]; intros w v; unfold none;
    unfold on_hand, held, promised; destruct Hs as [E E']; rewrite ?E, ?E'; lia.
Qed.

Lemma ledger_moved a h d d' : moved a h d d' → ledger a h none d d'.
Proof.
  intros Hm. split; [apply Hm..|]. intros w v. unfold none.
  rewrite (moved_promised _ _ _ _ _ _ Hm). lia.
Qed.

Lemma ledger_trans a h p a' h' p' d d' d'' :
  ledger a h p d d' → ledger a' h' p' d' d'' →
  ledger (λ w v, a w v + a' w v) (λ w v, h w v + h' w v) (λ w v, p w v + p' w v) d d''.
Proof.
  intros [_ A1 H1 P1] [Hok A2 H2 P2]. split; [done|..]; intros w v;
    [rewrite A2, A1|rewrite H2, H1|rewrite P2, P1]; lia.
Qed.

Lemma ledger_ext a h p a' h' p' d d' :
  ledger a h p d d' → (∀ w v, a w v = a' w v) → (∀ w v, h w v = h' w v) →
  (∀ w v, p w v = p' w v) → ledger a' h' p' d d'.
Proof.
  intros [Hok A1 H1 P1] Ea Eh Ep. split; [done|..]; intros w v;
    [by rewrite A1, Ea|by rewrite H1, Eh|by rewrite P1, Ep].
Qed.

(** A step that leaves the stock tables alone can be added at either end. *)
Lemma ledger_then_same a h p d d' d'' :
  ledger a h p d d' → same_stock d' d'' → ledger a h p d d''.
Proof.
  intros Hl Hs. eapply ledger_ext; [eapply ledger_trans; [exact Hl|apply ledger_same; [apply Hl|exact Hs]]|..];
    intros; unfold none; simpl; lia.
Qed.

(** A new active reservation. *)
Lemma create_promises d r :
  stock_ok d → rv_id r ∉ map rv_id (view L_StockReservation d) →
  refused T_StockReservation d r = None → rv_status r = rv_active → rv_deleted_at r = None →
  ledger none none (at_ (rv_warehouse_id r) (rv_variant_id r) (rv_quantity r)) d
    (put L_StockReservation (view L_StockReservation d ++ [r]) d).
Proof.
  intros [Hi Hr Hq Hp] Hid Hacc Hst Hdel. accepted Hacc.
  split; [split; rewrite ?view_put; [done| |done|]| | |].
  - by apply NoDup_snoc.
  - apply Forall_app; split; [done|]. by constructor.
  - intros w v. change (on_hand d w v = on_hand d w v + 0). lia.
  - intros w v. change (held d w v = held d w v + 0). lia.
  - intros w v. unfold promised. rewrite view_put. autorewrite with sums. simpl.
    unfold is_promise at 2. rewrite Hst, Hdel, bool_decide_true by done. simpl.
    unfold at_. rewrite (String.eqb_sym w), (String.eqb_sym v).
    destruct (String.eqb _ w), (String.eqb _ v); simpl; lia.
Qed.

(** An active reservation released. *)
Lemma release_promise d r st :
  stock_ok d → r ∈ view L_StockReservation d → rv_status r = rv_active →
  rv_deleted_at r = None → st ≠ rv_active →
  ledger none none (at_ (rv_warehouse_id r) (rv_variant_id r) (- rv_quantity r)) d
    (put L_StockReservation
       (update_rows rv_id (rv_id r) (set_reservation_status st) (view L_StockReservation d)) d).
Proof.
  intros [Hi Hr Hq Hp] Hin Hst Hdel Hne.
  split; [split; rewrite ?view_put; [done| |done|]| | |].
  - by rewrite update_rows_keys.
  - by apply Forall_update_rows.
  - intros w v. change (on_hand d w v = on_hand d w v + 0). lia.
  - intros w v. change (held d w v = held d w v + 0). lia.
  - intros w v. unfold promised. rewrite view_put.
    rewrite (sum_where_drop rv_id _ rv_quantity _ _ _ r); [|done..|].
    + unfold is_promise at 2. rewrite Hst, Hdel, bool_decide_true by done. simpl.
      unfold at_. rewrite (String.eqb_sym w), (String.eqb_sym v).
      destruct (String.eqb _ w), (String.eqb _ v); simpl; lia.
    + unfold is_promise. simpl. by rewrite bool_decide_false.
Qed.

(** ** Stock by bin *)

(** The rows of a variant in a bin, whatever their status. *)
Definition in_bin_row (b v : string) (r : Inventory) : bool :=
  String.eqb b (iv_bin_id r) && String.eqb v (iv_variant_id r) && live (iv_deleted_at r).

Definition in_bin (d : Db) (b v : string) : Z :=
  sumZ iv_available (where_ (in_bin_row b v) (view L_Inventory d)).

(** All the available stock of a variant, in whatever bin. *)
Definition total_row (v : string) (r : Inventory) : bool :=
  String.eqb v (iv_variant_id r) && live (iv_deleted_at r).

Definition total (d : Db) (v : string) : Z :=
  sumZ iv_available (where_ (total_row v) (view L_Inventory d)).

Definition of_variant (v : string) (n : Z) (v' : string) : Z := if String.eqb v' v then n else 0.

(** From [d] to [d'] the available stock changed by [db] per bin and [dt] in all,
    and neither the held stock nor the reservations changed. *)
Record bins_moved (db : string → string → Z) (dt : string → Z) (d d' : Db) : Prop := {
  bm_ok : stock_ok d';
  bm_in_bin : ∀ b v, in_bin d' b v = in_bin d b v + db b v;
  bm_total : ∀ v, total d' v = total d v + dt v;
  bm_held : ∀ w v, held d' w v = held d w v;
  bm_reservations : view L_StockReservation d' = view L_StockReservation d;
}.

Lemma bins_moved_same d d' :
  stock_ok d → same_stock d d' → bins_moved (λ _ _, 0) (λ _, 0) d d'.
Proof.
  intros Hok [E E']. split; [by apply (stock_ok_same d)|..|done]; intros;
    unfold in_bin, total, held; rewrite E; lia.
Qed.

Lemma bins_moved_trans f t f' t' d d' d'' :
  bins_moved f t d d' → bins_moved f' t' d' d'' →
  bins_moved (λ b v, f b v + f' b v) (λ v, t v + t' v) d d''.
Proof.
  intros [O1 B1 T1 H1 R1] [O2 B2 T2 H2 R2]. split; [done|..]; intros.
  - rewrite B2, B1. lia.
  - rewrite T2, T1. lia.
  - by rewrite H2.
  - by rewrite R2.
Qed.

Lemma bins_moved_ext f t f' t' d d' :
  bins_moved f t d d' → (∀ b v, f b v = f' b v) → (∀ v, t v = t' v) → bins_moved f' t' d d'.
Proof.
  intros [O1 B1 T1 H1 R1] Ef Et. split; [done|..|done|done]; intros.
  - by rewrite B1, Ef.
  - by rewrite T1, Et.
Qed.

Lemma bins_moved_then f t d d' d'' :
  bins_moved f t d d' → same_stock d' d'' → bins_moved f t d d''.
Proof.
  intros Hm Hs. eapply bins_moved_ext;
    [eapply bins_moved_trans; [exact Hm|apply bins_moved_same; [apply Hm|done]]|..];
    intros; simpl; lia.
Qed.

Lemma bins_moved_after d d' d'' f t :
  stock_ok d → same_stock d d' → bins_moved f t d' d'' → bins_moved f t d d''.
Proof.
  intros Hok Hs Hm. eapply bins_moved_ext;
    [eapply bins_moved_trans; [by apply bins_moved_same|exact Hm]|..];
    intros; simpl; lia.
Qed.

(** A change of the available stock keeps every promise backed. *)
Lemma bins_moved_backed f t d d' : bins_moved f t d d' → backed d → backed d'.
Proof.
  intros [Hok _ _ Hh Hr] [_ Hb]. split; [done|]. intros w v.
  unfold promised in *. rewrite Hr, Hh. apply Hb.
Qed.

Lemma bins_moved_update d x n :
  stock_ok d → x ∈ view L_Inventory d → live (iv_deleted_at x) = true →
  refused T_Inventory d (move_stock n 0 x) = None →
  bins_moved (at_ (iv_bin_id x) (iv_variant_id x) n) (of_variant (iv_variant_id x) n) d
    (put L_Inventory (update_rows iv_id (iv_id x) (move_stock n 0) (view L_Inventory d)) d).
Proof.
  intros Hok Hx Hl Hacc. pose proof (update_moves d x n 0 Hok Hx Hacc) as [_ Hok' _ Hh].
  destruct Hok as [Hi _ _ _]. split; [done|..|done].
  - intros b v. unfold in_bin. rewrite view_put.
    rewrite (sum_where_update iv_id _ iv_available _ _ _ x) by done.
    unfold in_bin_row at 2, at_. rewrite Hl. destruct (String.eqb b _), (String.eqb v _); simpl; lia.
  - intros v. unfold total. rewrite view_put.
    rewrite (sum_where_update iv_id _ iv_available _ _ _ x) by done.
    unfold total_row at 2, of_variant. rewrite Hl. destruct (String.eqb v _); simpl; lia.
  - intros w v. rewrite Hh. unfold row_delta. destruct (counted x); rewrite at_0; lia.
Qed.

Lemma bins_moved_create d w bin v n id :
  stock_ok d → id ∉ map iv_id (view L_Inventory d) →
  refused T_Inventory d (new_inventory w bin v n id) = None →
  bins_moved (at_ bin v n) (of_variant v n) d
    (put L_Inventory (view L_Inventory d ++ [new_inventory w bin v n id]) d).
Proof.
  intros Hok Hid Hacc. pose proof (create_moves d w v bin n id Hok Hid Hacc) as [_ Hok' _ Hh].
  split; [done|..|done].
  - intros b v'. unfold in_bin. rewrite view_put. autorewrite with sums. simpl.
    unfold in_bin_row at 2, at_. simpl. destruct (String.eqb b _), (String.eqb v' _); simpl; lia.
  - intros v'. unfold total. rewrite view_put. autorewrite with sums. simpl.
    unfold total_row at 2, of_variant. simpl. destruct (String.eqb v' _); simpl; lia.
  - intros w' v'. rewrite Hh. lia.
Qed.

Section service.
Context `{Redis, !Scheduler, !Crypto, !Postgres}.

Notation keeps_stock := (stays (on_tables same_stock)).

(** ** The operations that leave the stock alone *)

Lemma dwp_requireWarehouse id Q d :
  (∀ w, Q (Ok w) d) → (∀ e, Q (Throw e) d) → dwp (requireWarehouse id) Q d.
Proof.
  intros HO HE. unfold requireWarehouse, wh_findById.
  dwp_step; dwp_step; auto.
Qed.

Lemma invalidateStock_tables w v : stays (framing tables) (invalidateStock w v).
Proof. unfold invalidateStock. eauto with kept typeclass_instances. Qed.

Lemma createMovement_stock w v t q rt ri n : keeps_stock (createMovement w v t q rt ri n).
Proof. unfold createMovement. staying fail. Qed.

Lemma maybeLowStock_stock w v : keeps_stock (maybeLowStock w v).
Proof.
  unfold maybeLowStock, findRows, openLowStock, upsertLowStockAlert, db_findMany_desc, db_findFirst.
  staying fail.
Qed.

(** ** Reserve *)

Lemma reserve_rows d w v q rows :
  stock_ok d → 0 <= q → rows ≡ₚ where_ (is_stock w v) (view L_Inventory d) →
  q <= sum_available rows →
  dwp (for_fold rows q reserve_row) (λ o d', match o with
    | Ok _ => moved (at_ w v (- q)) (at_ w v q) d d' | Throw _ => True end) d.
Proof.
  intros Hok Hq Hp Hen.
  eapply dwp_mono; [apply (take_rows_spec iv_available Z.opp (λ n, n)) with (w := w) (v := v);
    [by intros r []|lia..|done|done|done|done|done|done]|].
  intros [rem|e] d'; [by intros [_ ?]|done].
Qed.

(** What [reserve] may leave behind when it throws: nothing, the stock held
    without its reservation, or the whole effect (a later write or the release
    of the lock failed). *)
Definition reserve_partial (dto : ReserveStockDto) (d d' : Db) : Prop :=
  ∃ n r, (n = 0 ∧ r = 0 ∨ n = rs_quantity dto ∧ (r = 0 ∨ r = rs_quantity dto)) ∧
    ledger (at_ (rs_warehouseId dto) (rs_variantId dto) (- n))
           (at_ (rs_warehouseId dto) (rs_variantId dto) n)
           (at_ (rs_warehouseId dto) (rs_variantId dto) r) d d'.

(** The reservation the caller gets: a new active row for what was asked. *)
Definition reserve_done (dto : ReserveStockDto) (view_ : ReservationView) (d d' : Db) : Prop :=
  ∃ row, view L_StockReservation d' = view L_StockReservation d ++ [row] ∧
    rv_id row = rw_id view_ ∧ rv_id row ∉ map rv_id (view L_StockReservation d) ∧
    rv_status row = rv_active ∧ rv_deleted_at row = None ∧
    rv_warehouse_id row = rs_warehouseId dto ∧ rv_variant_id row = rs_variantId dto ∧
    rv_quantity row = rs_quantity dto ∧
    ledger (at_ (rs_warehouseId dto) (rs_variantId dto) (- rs_quantity dto))
           (at_ (rs_warehouseId dto) (rs_variantId dto) (rs_quantity dto))
           (at_ (rs_warehouseId dto) (rs_variantId dto) (rs_quantity dto)) d d'.

Definition reserve_post (dto : ReserveStockDto) (d : Db) (o : outcome ReservationView) (d' : Db)
  : Prop :=
  match o with
  | Ok view_ => rs_quantity dto <= on_hand d (rs_warehouseId dto) (rs_variantId dto) ∧
                reserve_done dto view_ d d'
  | Throw _ => reserve_partial dto d d'
  end.

Lemma reserve_done_partial dto view_ d d' : reserve_done dto view_ d d' → reserve_partial dto d d'.
Proof. intros (row & _ & _ & _ & _ & _ & _ & _ & _ & Hl). exists (rs_quantity dto), (rs_quantity dto). auto. Qed.

Lemma reserve_nothing dto d : stock_ok d → reserve_partial dto d d.
Proof.
  intros Hok. exists 0, 0. split; [auto|].
  eapply ledger_ext; [by apply ledger_same|..]; intros; unfold none; by rewrite at_0.
Qed.

(** The stock is taken, the reservation not yet made. *)
Lemma moved_partial dto d d1 :
  moved (at_ (rs_warehouseId dto) (rs_variantId dto) (- rs_quantity dto))
        (at_ (rs_warehouseId dto) (rs_variantId dto) (rs_quantity dto)) d d1 →
  reserve_partial dto d d1.
Proof.
  intros Hm. exists (rs_quantity dto), 0. split; [auto|].
  eapply ledger_ext; [by apply ledger_moved|done|done|]. intros. unfold none. by rewrite at_0.
Qed.

Lemma reserve_done_then dto view_ d d' d'' :
  reserve_done dto view_ d d' → same_stock d' d'' → reserve_done dto view_ d d''.
Proof.
  intros (row & E & Hid & Hfresh & Hst & Hdel & Hw & Hv & Hq & Hl) Hs.
  exists row. split_and!; try done; [by rewrite (proj2 Hs)|by eapply ledger_then_same].
Qed.

(** [createReservation] after the stock was taken. *)
Lemma createReservation_spec dto expires d d1 :
  moved (at_ (rs_warehouseId dto) (rs_variantId dto) (- rs_quantity dto))
        (at_ (rs_warehouseId dto) (rs_variantId dto) (rs_quantity dto)) d d1 →
  dwp (createReservation dto expires) (λ o d', match o with
    | Ok row => reserve_done dto (mkReservationView (rv_id row) (rv_warehouse_id row)
                  (rv_variant_id row) (rv_quantity row) (rv_expires_at row) (rv_status row)) d d'
    | Throw _ => reserve_partial dto d d' end) d1.
Proof.
  intros Hm. pose proof (moved_partial dto d d1 Hm) as Hpart.
  unfold createReservation. dwp_step. repeat (dwp_step; [done|]).
  destruct Hm as [[rows ->] Hok Ha Hh]. eexists. split_and!; try done; simpl.
  eapply ledger_ext; [eapply ledger_trans; [apply ledger_moved; split; eauto|apply create_promises]|..];
    try done; intros; unfold none; simpl; lia.
Qed.

Lemma reserve_spec dto d :
  stock_ok d → 0 < rs_quantity dto → dwp (reserve dto) (reserve_post dto d) d.
Proof.
  intros Hok Hq. unfold reserve. dwp_step; [intros e; by apply reserve_nothing|].
  apply dwp_bind, dwp_requireWarehouse; [intros wh|by split; intros; apply reserve_nothing].
  unfold findRows. dwp_step. dwp_step; [by split; intros; apply reserve_nothing|].
  bool_to_prop. dwp_step. eapply dwp_mono; [apply reserve_rows; [done|lia|done|lia]|].
  intros [rem|e] d1; [intros Hm|by split; intros; apply reserve_nothing].
  assert (rs_quantity dto <= on_hand d (rs_warehouseId dto) (rs_variantId dto)).
  { unfold on_hand. erewrite <- sumZ_perm by done. done. }
  dwp_step; [|by split; intros; apply (moved_partial dto d d1)].
  apply dwp_bind. eapply dwp_mono; [by apply createReservation_spec|].
  intros [row|e] d2; [intros Hdone|by split].
  apply dwp_bind, (dwp_stays same_stock); [apply createMovement_stock|].
  intros [mv|e] d3 Hs3; [|by split; intros; eapply reserve_done_partial, reserve_done_then].
  apply dwp_bind, dwp_env; [apply invalidateStock_tables|].
  intros [[]|e]; [|by split; intros; eapply reserve_done_partial, reserve_done_then].
  apply dwp_bind, (dwp_stays same_stock); [apply maybeLowStock_stock|].
  intros [[]|e] d4 Hs4; (assert (same_stock d2 d4) by (by etransitivity));
    [|by split; intros; eapply reserve_done_partial, reserve_done_then].
  dwp_step; [dwp_step|]; split; intros; simpl; eauto using reserve_done_then,
    reserve_done_partial.
Qed.

(** ** Release *)

Lemma release_check_spec id Q d :
  (∀ r, r ∈ view L_StockReservation d → rv_id r = id → rv_deleted_at r = None →
     rv_status r = rv_active → Q (Ok r) d) →
  (∀ e, Q (Throw e) d) → dwp (release_check id) Q d.
Proof.
  intros HO HE. unfold release_check, findReservation.
  dwp_step; (dwp_step; [|auto]); [|done]. dwp_step; [auto|]. apply dwp_ret. simplify_eq.
  bool_to_prop. destruct (rv_deleted_at a) eqn:?; [done|]. by apply HO.
Qed.

Lemma release_rows d w v q rows :
  stock_ok d → 0 <= q → rows ≡ₚ where_ (is_stock w v) (view L_Inventory d) →
  q <= sumZ iv_reserved rows →
  dwp (for_fold rows q release_row) (λ o d', match o with
    | Ok _ => moved (at_ w v q) (at_ w v (- q)) d d' | Throw _ => True end) d.
Proof.
  intros Hok Hq Hp Hen.
  eapply dwp_mono; [apply (take_rows_spec iv_reserved (λ n, n) Z.opp) with (w := w) (v := v);
    [by intros r (?&?&?&?)|lia..|done|done|done|done|done|done]|].
  intros [rem|e] d'; [by intros [_ ?]|done].
Qed.

(** A promise is part of what is promised. *)
Lemma promise_le d r :
  stock_ok d → r ∈ view L_StockReservation d → rv_status r = rv_active →
  rv_deleted_at r = None → rv_quantity r <= promised d (rv_warehouse_id r) (rv_variant_id r).
Proof.
  intros [_ _ _ Hp] Hr Hst Hdel. apply sumZ_elem.
  - apply Forall_forall. intros y [Hy _]%elem_of_where.
    rewrite Forall_forall in Hp. specialize (Hp y Hy). lia.
  - apply elem_of_where. split; [done|]. unfold is_promise.
    rewrite Hst, Hdel, !String.eqb_refl, bool_decide_true by done. done.
Qed.

(** The effect of a release: the stock returns and the reservation is released. *)
Definition release_done (r : StockReservation) (d d' : Db) : Prop :=
  view L_StockReservation d' =
    update_rows rv_id (rv_id r) (set_reservation_status rv_released)
      (view L_StockReservation d) ∧
  ledger (at_ (rv_warehouse_id r) (rv_variant_id r) (rv_quantity r))
         (at_ (rv_warehouse_id r) (rv_variant_id r) (- rv_quantity r))
         (at_ (rv_warehouse_id r) (rv_variant_id r) (- rv_quantity r)) d d'.

Definition release_post (id : string) (d : Db) (o : outcome string) (d' : Db) : Prop :=
  match o with
  | Ok id' => id' = id ∧ ∃ r, r ∈ view L_StockReservation d ∧ rv_id r = id ∧
              rv_status r = rv_active ∧ rv_deleted_at r = None ∧ release_done r d d'
  | Throw _ => d' = d ∨ ∃ r, r ∈ view L_StockReservation d ∧ rv_id r = id ∧
               rv_status r = rv_active ∧ rv_deleted_at r = None ∧ release_done r d d'
  end.

Lemma release_transaction d r rows :
  backed d → r ∈ view L_StockReservation d → rv_status r = rv_active →
  rv_deleted_at r = None →
  rows ≡ₚ where_ (is_stock (rv_warehouse_id r) (rv_variant_id r)) (view L_Inventory d) →
  dwp (in_transaction
         (_ ← for_fold rows (rv_quantity r) release_row;
          db_update T_StockReservation (rv_id r) (set_reservation_status rv_released)))
    (λ o d', match o with Ok _ => release_done r d d' | Throw _ => d' = d end) d.
Proof.
  intros [Hok Hb] Hr Hst Hdel Hp. dwp_step. apply dwp_bind.
  pose proof (promise_le d r Hok Hr Hst Hdel) as Hle.
  specialize (Hb (rv_warehouse_id r) (rv_variant_id r)).
  pose proof (ok_reservations _ Hok) as Hpos. rewrite Forall_forall in Hpos. specialize (Hpos r Hr).
  eapply dwp_mono; [apply release_rows; [done|lia|exact Hp|]|].
  { rewrite (sumZ_perm _ _ _ Hp). unfold held in Hb. lia. }
  intros [rem|e] d1; [intros Hm|done]. dwp_step; [done|].
  pose proof Hm as [[inv ->] Hok1 _ _].
  assert (r0 = r) as -> by (by apply (NoDup_key_eq rv_id _ r0 r (ok_reservation_ids _ Hok1))).
  split; [done|].
  eapply ledger_ext; [eapply ledger_trans; [apply ledger_moved, Hm|by apply release_promise]|..];
    intros; unfold none; simpl; lia.
Qed.

Lemma release_done_then r d d' d'' :
  release_done r d d' → same_stock d' d'' → release_done r d d''.
Proof. intros [E Hl] Hs. split; [by rewrite (proj2 Hs)|by eapply ledger_then_same]. Qed.

Lemma release_locked_spec d r :
  backed d → r ∈ view L_StockReservation d → rv_status r = rv_active →
  rv_deleted_at r = None →
  dwp (release_locked (rv_id r) r) (release_post (rv_id r) d) d.
Proof.
  intros Hb Hr Hst Hdel.
  assert (∀ d', release_done r d d' → release_post (rv_id r) d (Ok (rv_id r)) d' ∧
            ∀ e, release_post (rv_id r) d (Throw e) d') as Hdone.
  { intros d' Hd. split; [split; [done|]; eauto 10|]. intros e. right. eauto 10. }
  unfold release_locked. dwp_step; [by left|]. unfold findRows. dwp_step. apply dwp_bind.
  eapply dwp_mono; [by apply release_transaction|].
  intros [x|e] d1; [intros Hd|intros ->; split; by left].
  apply dwp_bind, (dwp_stays same_stock); [apply createMovement_stock|].
  intros o d2 Hs2. pose proof (release_done_then _ _ _ _ Hd Hs2) as Hd2.
  destruct o; [|split; intros; by apply Hdone].
  apply dwp_bind, dwp_env; [apply invalidateStock_tables|].
  intros [[]|e]; [|split; intros; by apply Hdone].
  dwp_step; [dwp_step|]; split; intros; by apply Hdone.
Qed.

Lemma release_spec id d : backed d → dwp (releaseReservation id) (release_post id d) d.
Proof.
  intros Hb. unfold releaseReservation. apply dwp_bind, release_check_spec; [|by left].
  intros r Hr <- Hdel Hst. by apply release_locked_spec.
Qed.

(** ** Adding stock to a bin *)

(** What [findRow] returned: a row of that bin and variant, or nothing. *)
Definition found_row (d : Db) (bin v : string) (row : option Inventory) : Prop :=
  ∀ x, row = Some x → x ∈ view L_Inventory d ∧ iv_bin_id x = bin ∧ iv_variant_id x = v ∧
    live (iv_deleted_at x) = true.

Lemma dwp_findRow bin v Q d :
  (∀ row, found_row d bin v row → Q (Ok row) d) → dwp (findRow bin v) Q d.
Proof.
  intros HQ. unfold findRow. dwp_step; apply HQ; intros y ?; simplify_eq.
  bool_to_prop. auto.
Qed.

Lemma add_stock_spec w bin v row n d :
  stock_ok d → found_row d bin v row →
  dwp (add_stock w bin v row n) (λ o d', match o with
    | Ok _ => bins_moved (at_ bin v n) (of_variant v n) d d' | Throw _ => d' = d end) d.
Proof.
  intros Hok Hrow. unfold add_stock. destruct row as [x|].
  - destruct (Hrow x eq_refl) as (Hx & <- & <- & Hl). dwp_step; [done|].
    assert (r = x) as -> by (by apply (NoDup_key_eq iv_id _ r x (ok_inventory_ids _ Hok))).
    by apply bins_moved_update.
  - dwp_step; [done|]. by apply bins_moved_create.
Qed.

Lemma dwp_findBin bin Q d : (∀ b, Q (Ok b) d) → dwp (findBin bin) Q d.
Proof. intros HQ. unfold findBin. dwp_step; auto. Qed.

Lemma dwp_bin_outside b w Q d : (∀ x, Q (Ok x) d) → dwp (bin_outside b w) Q d.
Proof. intros HQ s <-. apply HQ. Qed.

(** ** Goods receipts *)

Lemma receive_serial_stock dto item serial : keeps_stock (receive_serial dto item serial).
Proof. unfold receive_serial, findSerial, db_findFirst. staying fail. Qed.

Lemma receive_item_spec dto receipt item d :
  stock_ok d →
  dwp (receive_item dto receipt item) (λ o d', match o with
    | Ok _ => bins_moved (at_ (ri_binId item) (ri_variantId item) (ri_quantityReceived item))
                (of_variant (ri_variantId item) (ri_quantityReceived item)) d d'
    | Throw _ => True end) d.
Proof.
  intros Hok. unfold receive_item. apply dwp_bind, dwp_findBin. intros b.
  apply dwp_bind, dwp_bin_outside. intros out. dwp_step; [done|]. dwp_step; [done|].
  apply dwp_bind, dwp_findRow. intros row Hrow. apply dwp_bind.
  eapply dwp_mono; [apply add_stock_spec; [by apply (stock_ok_same d)|done]|].
  intros [y|] d2; [intros Hm|done]. apply (dwp_stays same_stock).
  - staying ltac:(first [apply createMovement_stock|apply receive_serial_stock]).
  - intros [[]|] d3 Hs; [|done]. eapply bins_moved_then; [|done].
    by eapply (bins_moved_after d); [done| |exact Hm].
Qed.

(** What a list of received items adds. *)
Definition received (items : list GoodsReceiptItemDto) (b v : string) : Z :=
  sumZ (λ i, at_ (ri_binId i) (ri_variantId i) (ri_quantityReceived i) b v) items.
Definition received_total (items : list GoodsReceiptItemDto) (v : string) : Z :=
  sumZ (λ i, of_variant (ri_variantId i) (ri_quantityReceived i) v) items.

Definition receipt_post (dto : CreateGoodsReceiptDto) (d : Db) (o : outcome GoodsReceipt)
  (d' : Db) : Prop :=
  match o with
  | Ok _ => bins_moved (received (cg_items dto)) (received_total (cg_items dto)) d d'
  | Throw _ => d' = d ∨
               bins_moved (received (cg_items dto)) (received_total (cg_items dto)) d d'
  end.

Lemma receive_items_spec dto receipt items d :
  stock_ok d →
  dwp (for_each items (receive_item dto receipt)) (λ o d', match o with
    | Ok _ => bins_moved (received items) (received_total items) d d' | Throw _ => True end) d.
Proof.
  intros Hok. apply (dwp_for_each _ _ (λ rest d',
    bins_moved (λ b v, received items b v - received rest b v)
               (λ v, received_total items v - received_total rest v) d d')).
  - eapply bins_moved_ext; [by apply bins_moved_same|..]; intros; simpl; lia.
  - intros d' Hm. eapply bins_moved_ext; [exact Hm|..]; intros; unfold received, received_total; simpl; lia.
  - intros x rest d' Hm. eapply dwp_mono; [apply receive_item_spec, Hm|].
    intros [[]|] d'' Hx; [|done].
    eapply bins_moved_ext; [by eapply bins_moved_trans|..]; intros; unfold received, received_total; simpl; lia.
Qed.

Lemma receipt_spec dto d : stock_ok d → dwp (createGoodsReceipt dto) (receipt_post dto d) d.
Proof.
  intros Hok. unfold createGoodsReceipt, findGrnByNumber.
  dwp_step; (dwp_step; [by left|]); [done|]. dwp_step; [by left|].
  dwp_step; [by left|]. apply dwp_bind, dwp_requireWarehouse; [intros wh|by split; intros; left].
  dwp_step. dwp_step; [by split; intros; left|]. apply dwp_bind.
  eapply dwp_mono; [apply receive_items_spec; by apply (stock_ok_same d)|].
  intros [[]|e] d2; [intros Hm|by split; intros; left]. apply dwp_ret.
  eapply (bins_moved_after d) in Hm; [|done..].
  apply dwp_bind, dwp_env.
  { apply stays_for_each; [apply _|]. intros; apply invalidateStock_tables. }
  intros [[]|e]; [|by split; [right|intros; right]].
  dwp_step; [dwp_step|]; split; intros; simpl; auto.
Qed.

(** ** Transfers *)

Definition transferred (items : list TransferItemDto) (b v : string) : Z :=
  sumZ (λ i, at_ (tf_toBinId i) (tf_variantId i) (tf_quantity i) b v
           - at_ (tf_fromBinId i) (tf_variantId i) (tf_quantity i) b v) items.

Definition transfer_post (dto : CreateTransferDto) (d : Db) (o : outcome StockTransfer)
  (d' : Db) : Prop :=
  match o with
  | Ok _ => bins_moved (transferred (ct_items dto)) (λ _, 0) d d'
  | Throw _ => d' = d ∨ bins_moved (transferred (ct_items dto)) (λ _, 0) d d'
  end.

Lemma transfer_item_spec dto t item d :
  stock_ok d →
  dwp (transfer_item dto t item) (λ o d', match o with
    | Ok _ => bins_moved (transferred [item]) (λ _, 0) d d' | Throw _ => True end) d.
Proof.
  intros Hok. unfold transfer_item. apply dwp_bind, dwp_findRow. intros src Hsrc.
  dwp_step; [|done]. destruct src as [x|]; [|done].
  match goal with E : (if ?c then _ else _) = Some a |- _ => destruct c; simplify_eq end.
  destruct (Hsrc a eq_refl) as (Hx & Hb & Hv & Hl).
  dwp_step; [done|]. apply dwp_bind, dwp_findBin. intros bn.
  apply dwp_bind, dwp_bin_outside. intros out. dwp_step; [done|]. dwp_step; [done|].
  assert (r = a) as -> by (by apply (NoDup_key_eq iv_id _ r a (ok_inventory_ids _ Hok))).
  pose proof (bins_moved_update d a (- tf_quantity item)) as Hm1.
  rewrite Hb, Hv in Hm1. specialize (Hm1 Hok Hx Hl ltac:(done)).
  apply dwp_bind, dwp_findRow. intros dest Hdest. apply dwp_bind.
  eapply dwp_mono; [apply add_stock_spec; [apply Hm1|done]|].
  intros [y|] d2; [intros Hm2|done]. apply (dwp_stays same_stock).
  - staying ltac:(first [apply createMovement_stock]).
  - intros [[]|] d3 Hs; [|done]. eapply bins_moved_then; [|done].
    eapply bins_moved_ext; [by eapply bins_moved_trans|..]; intros; unfold transferred, of_variant;
      simpl; rewrite ?at_opp; [lia|].
    destruct (String.eqb v (tf_variantId item)); lia.
Qed.

Lemma transfer_items_spec dto t items d :
  stock_ok d →
  dwp (for_each items (transfer_item dto t)) (λ o d', match o with
    | Ok _ => bins_moved (transferred items) (λ _, 0) d d' | Throw _ => True end) d.
Proof.
  intros Hok. apply (dwp_for_each _ _ (λ rest d',
    bins_moved (λ b v, transferred items b v - transferred rest b v) (λ _, 0) d d')).
  - eapply bins_moved_ext; [by apply bins_moved_same|..]; intros; simpl; lia.
  - intros d' Hm. eapply bins_moved_ext; [exact Hm|..]; intros; unfold transferred; simpl; lia.
  - intros x rest d' Hm. eapply dwp_mono; [apply transfer_item_spec, Hm|].
    intros [[]|] d'' Hx; [|done].
    eapply bins_moved_ext; [by eapply bins_moved_trans|..]; intros; unfold transferred; simpl; lia.
Qed.

Lemma transfer_spec dto d : stock_ok d → dwp (createTransfer dto) (transfer_post dto d) d.
Proof.
  intros Hok. unfold createTransfer, findTransferByNumber. dwp_step; [by left|].
  dwp_step; (dwp_step; [by left|]); [done|].
  dwp_step; [by left|]. apply dwp_bind, dwp_requireWarehouse; [intros wh|by split; intros; left].
  apply dwp_bind, dwp_requireWarehouse; [intros wh'|by split; intros; left].
  dwp_step. dwp_step; [by split; intros; left|]. apply dwp_bind.
  eapply dwp_mono; [apply transfer_items_spec; by apply (stock_ok_same d)|].
  intros [[]|e] d2; [intros Hm|by split; intros; left]. apply dwp_ret.
  eapply (bins_moved_after d) in Hm; [|done..].
  apply dwp_bind, dwp_env.
  { apply stays_for_each; [apply _|]. intros.
    apply stays_bind; [apply _| |intros ?]; apply invalidateStock_tables. }
  intros [[]|e]; [|by split; [right|intros; right]].
  dwp_step; [dwp_step|]; split; intros; simpl; auto.
Qed.

(** ** Adjustments *)

Definition adjust_effect (dto : AdjustStockDto) (d d' : Db) : Prop :=
  bins_moved (at_ (aj_binId dto) (aj_variantId dto) (aj_quantityDelta dto))
             (of_variant (aj_variantId dto) (aj_quantityDelta dto)) d d'.

Definition adjust_post (dto : AdjustStockDto) (d : Db) (o : outcome AdjustmentView) (d' : Db)
  : Prop :=
  match o with
  | Ok view_ => av_quantityDelta view_ = aj_quantityDelta dto ∧ 0 <= av_available view_ ∧
                adjust_effect dto d d'
  | Throw _ => d' = d ∨ adjust_effect dto d d'
  end.

Lemma adjust_row_spec dto row d :
  stock_ok d → found_row d (aj_binId dto) (aj_variantId dto) row →
  dwp (adjust_row dto row) (λ o d', match o with
    | Ok r => 0 <= iv_available r ∧ adjust_effect dto d d' | Throw _ => d' = d end) d.
Proof.
  intros Hok Hrow. unfold adjust_row. destruct row as [x|].
  - destruct (Hrow x eq_refl) as (Hx & Hb & Hv & Hl). dwp_step; [done|].
    assert (r = x) as -> by (by apply (NoDup_key_eq iv_id _ r x (ok_inventory_ids _ Hok))).
    pose proof (bins_moved_update d x (aj_quantityDelta dto)) as Hm. rewrite Hb, Hv in Hm.
    split; [by eapply accepted_quantities|by apply Hm].
  - dwp_step; [done|]. dwp_step; [done|].
    split; [by eapply accepted_quantities|by apply bins_moved_create].
Qed.

Lemma adjust_spec dto d : stock_ok d → dwp (adjust dto) (adjust_post dto d) d.
Proof.
  intros Hok. unfold adjust. dwp_step; [by left|].
  apply dwp_bind, dwp_requireWarehouse; [intros wh|by split; intros; left].
  apply dwp_bind, dwp_findBin. intros b. apply dwp_bind, dwp_bin_outside. intros out.
  dwp_step; [by split; intros; left|]. apply dwp_bind, dwp_findRow. intros row Hrow.
  dwp_step; [by split; intros; left|]. apply dwp_bind.
  eapply dwp_mono; [by apply adjust_row_spec|].
  intros [r|e] d1; [intros [Hr Hm]|intros ->; by split; intros; left].
  apply dwp_bind, (dwp_stays same_stock); [unfold createAdjustment; staying fail|].
  intros o d2 Hs2. apply (bins_moved_then _ _ _ _ _ Hm) in Hs2 as Hm2.
  destruct o as [adj|]; [|by split; intros; right].
  apply dwp_bind, (dwp_stays same_stock); [apply createMovement_stock|].
  intros o d3 Hs3. apply (bins_moved_then _ _ _ _ _ Hm2) in Hs3 as Hm3.
  destruct o; [|by split; intros; right].
  apply dwp_bind, dwp_env; [apply invalidateStock_tables|].
  intros [[]|e]; [|by split; intros; right].
  apply dwp_bind, (dwp_stays same_stock); [apply maybeLowStock_stock|].
  intros o d4 Hs4. apply (bins_moved_then _ _ _ _ _ Hm3) in Hs4 as Hm4.
  destruct o; [|by split; intros; right].
  dwp_step; [dwp_step|]; split; intros; simpl; auto.
Qed.
End service.

(** ** The operations of the service *)

Inductive inv_op :=
| op_reserve (dto : ReserveStockDto)
| op_release (reservationId : string)
| op_adjust (dto : AdjustStockDto)
| op_receive (dto : CreateGoodsReceiptDto)
| op_transfer (dto : CreateTransferDto)
| op_purchase (dto : CreatePurchaseOrderDto)
| op_refurbish (serialId status : string)
| op_count (warehouseId jobNumber : string)
| op_create_warehouse (dto : CreateWarehouseDto)
| op_update_warehouse (id : string) (dto : UpdateWarehouseDto)
| op_delete_warehouse (id : string)
| op_create_location (dto : CreateLocationDto)
| op_list_warehouses
| op_get_warehouse (id : string)
| op_get_stock (warehouseId variantId : string)
| op_availability (variantId : string)
| op_serial (serial : string).

(** What the request validation guarantees: [@IsPositiveQty()] of [ReserveStockDto]. *)
Definition valid_op (op : inv_op) : Prop :=
  match op with op_reserve dto => 0 < rs_quantity dto | _ => True end.

Section operations.
Context `{Redis, !Scheduler, !Crypto, !Postgres}.

Definition ignore {A} (m : M (St Db) A) : M (St Db) () := _ ← m; mret tt.

Definition run_op (op : inv_op) : M (St Db) () :=
  match op with
  | op_reserve dto => ignore (reserve dto)
  | op_release id => ignore (releaseReservation id)
  | op_adjust dto => ignore (adjust dto)
  | op_receive dto => ignore (createGoodsReceipt dto)
  | op_transfer dto => ignore (createTransfer dto)
  | op_purchase dto => ignore (createPurchaseOrder dto)
  | op_refurbish id st => ignore (updateRefurbishment id st)
  | op_count w n => ignore (createCycleCount w n)
  | op_create_warehouse dto => ignore (createWarehouse dto)
  | op_update_warehouse id dto => ignore (updateWarehouse id dto)
  | op_delete_warehouse id => ignore (deleteWarehouse id)
  | op_create_location dto => ignore (createLocation dto)
  | op_list_warehouses => ignore listWarehouses
  | op_get_warehouse id => ignore (getWarehouse id)
  | op_get_stock w v => ignore (getStock w v)
  | op_availability v => ignore (warehouseAvailability v)
  | op_serial sn => ignore (serialLookup sn)
  end.

(** A history of requests, each of which may succeed or fail. *)
Fixpoint run_ops (ops : list inv_op) (s : St Db) : St Db :=
  match ops with
  | [] => s
  | op :: rest => run_ops rest (snd (run_op op s))
  end.

Lemma ignore_backed {A} (m : M (St Db) A) (Q : outcome A → Db → Prop) s :
  dwp m Q (tables s) → (∀ o d', Q o d' → backed d') → backed (tables (snd (ignore m s))).
Proof.
  intros Hm HQ. specialize (Hm s eq_refl). unfold ignore, mbind, M_bind.
  destruct (m s) as [[]]; by eapply HQ.
Qed.

Lemma backed_same d d' : same_stock d d' → backed d → backed d'.
Proof.
  intros Hs [Hok Hb]. split; [by eapply stock_ok_same|].
  destruct (ledger_same d d' Hok Hs) as [_ _ Hh Hp]. intros w v. rewrite Hh, Hp.
  unfold none. specialize (Hb w v). lia.
Qed.

Lemma ignore_same {A} (m : M (St Db) A) s :
  stays (on_tables same_stock) m → backed (tables s) → backed (tables (snd (ignore m s))).
Proof.
  intros Hm Hb. eapply ignore_backed; [apply (dwp_stays same_stock); [exact Hm|]|].
  - intros o d' Hs. exact (backed_same _ _ Hs Hb).
  - by intros o d'.
Qed.

Lemma ledger_backed w v a h p d d' :
  ledger (at_ w v a) (at_ w v h) (at_ w v p) d d' → p <= h → backed d → backed d'.
Proof.
  intros [Hok _ Hh Hp] Hle [_ Hb]. split; [done|]. intros w' v'. rewrite Hh, Hp.
  specialize (Hb w' v'). unfold at_. destruct (_ && _); lia.
Qed.

Lemma reserve_backed dto d o d' :
  0 < rs_quantity dto → backed d → reserve_post dto d o d' → backed d'.
Proof.
  intros Hq Hb Hpost.
  assert (reserve_partial dto d d') as (n & r & Hnr & Hl).
  { destruct o; [|done]. by eapply reserve_done_partial, Hpost. }
  eapply ledger_backed; [done| |done]. lia.
Qed.

Lemma release_backed id d o d' : backed d → release_post id d o d' → backed d'.
Proof.
  assert (∀ r, release_done r d d' → backed d → backed d') as Hr.
  { intros r [_ Hl] Hb. eapply ledger_backed; [done| |done]. lia. }
  destruct o; simpl; [|intros Hb [->|?]]; naive_solver.
Qed.

Lemma invalidateWarehouses_stock : stays (on_tables same_stock) invalidateWarehouses.
Proof. unfold invalidateWarehouses. staying fail. Qed.

Lemma requireWarehouse_stock id : stays (on_tables same_stock) (requireWarehouse id).
Proof. unfold requireWarehouse, wh_findById, db_findFirst. staying fail. Qed.

Lemma run_op_backed op s :
  valid_op op → backed (tables s) → backed (tables (snd (run_op op s))).
Proof.
  intros Hv Hb. pose proof Hb as [Hok _]. destruct op; cbn [run_op].
  6-17: apply ignore_same; [|done].
  - eapply ignore_backed; [by apply reserve_spec|]. intros o d'. by apply reserve_backed.
  - eapply ignore_backed; [by apply release_spec|]. intros o d'. by apply release_backed.
  - eapply ignore_backed; [by apply adjust_spec|].
    intros [] d'; [intros (_ & _ & Hm)|intros [->|Hm]]; by eauto using bins_moved_backed.
  - eapply ignore_backed; [by apply receipt_spec|].
    intros [] d'; [intros Hm|intros [->|Hm]]; by eauto using bins_moved_backed.
  - eapply ignore_backed; [by apply transfer_spec|].
    intros [] d'; [intros Hm|intros [->|Hm]]; by eauto using bins_moved_backed.
  - unfold createPurchaseOrder, findPoByNumber, create_po_item, db_findFirst, Date_now.
    staying ltac:(apply requireWarehouse_stock).
  - unfold updateRefurbishment, findSerialById, updateSerialRefurb, invalidateSerial,
      db_findFirst. staying fail.
  - unfold createCycleCount. staying ltac:(apply requireWarehouse_stock).
  - unfold createWarehouse, wh_findByCode, db_findFirst.
    staying ltac:(apply invalidateWarehouses_stock).
  - unfold updateWarehouse, wh_findByCode, db_findFirst.
    staying ltac:(first [apply invalidateWarehouses_stock|apply requireWarehouse_stock]).
  - unfold deleteWarehouse, wh_softDelete, Date_now.
    staying ltac:(first [apply invalidateWarehouses_stock|apply requireWarehouse_stock]).
  - unfold createLocation, repo_createLocation, db_findFirst.
    staying ltac:(first [apply invalidateWarehouses_stock|apply requireWarehouse_stock]).
  - unfold listWarehouses, wh_list, inv_getOrSet, db_findMany. staying fail.
  - unfold getWarehouse, inv_getOrSet. staying ltac:(apply requireWarehouse_stock).
  - unfold getStock, inv_getOrSet, stockSummary, db_findMany.
    staying ltac:(apply requireWarehouse_stock).
  - unfold warehouseAvailability, inv_getOrSet, availabilityByVariant, db_findMany. staying fail.
  - unfold serialLookup, inv_getOrSet, findSerial, db_findFirst. staying fail.
Qed.
End operations.

(** ** Theorems *)
Section theorems.
Context `{Redis, !Scheduler, !Crypto, !Postgres}.
Implicit Types s : St Db.

(** (C2) Every promise stays backed: from tables where each active reservation is
    covered by held stock, any history of valid requests to the inventory service,
    each of which may succeed or fail at any point, leads to such tables again. *)
Theorem promises_stay_backed ops s :
  Forall valid_op ops → backed (tables s) → backed (tables (run_ops ops s)).
Proof.
  revert s. induction ops as [|op ops IH]; intros s Hv Hb; simpl; [done|].
  inversion Hv; subst. apply IH; [done|]. by apply run_op_backed.
Qed.

(** (C6) A successful reservation was covered by the stock on hand, moves exactly
    the quantity asked for from on hand to held, in that warehouse and variant
    only, and leaves one new active reservation of that quantity, whose id the
    caller gets. *)
Theorem reserve_exact dto s view_ s' :
  stock_ok (tables s) → 0 < rs_quantity dto → reserve dto s = (Ok view_, s') →
  rs_quantity dto <= on_hand (tables s) (rs_warehouseId dto) (rs_variantId dto) ∧
  reserve_done dto view_ (tables s) (tables s').
Proof.
  intros Hok Hq Hrun. exact (dwp_elim _ _ _ _ _ (reserve_spec dto (tables s) Hok Hq) Hrun).
Qed.

Lemma insufficient_spec dto d :
  on_hand d (rs_warehouseId dto) (rs_variantId dto) < rs_quantity dto →
  dwp (reserve dto) (λ o d', (∃ e, o = Throw e) ∧ d' = d) d.
Proof.
  intros Hlt. unfold reserve. dwp_step; [by eauto|].
  apply dwp_bind, dwp_requireWarehouse; [intros wh|by split; eauto].
  unfold findRows. dwp_step. dwp_step; [by split; eauto|].
  bool_to_prop. exfalso. unfold on_hand in Hlt. erewrite <- sumZ_perm in Hlt by done.
  unfold sum_available in *. lia.
Qed.

(** A reservation for more than the stock on hand fails and changes no table. *)
Theorem reserve_refuses_oversell dto s :
  on_hand (tables s) (rs_warehouseId dto) (rs_variantId dto) < rs_quantity dto →
  (∃ e, fst (reserve dto s) = Throw e) ∧ tables (snd (reserve dto s)) = tables s.
Proof. intros Hlt. exact (insufficient_spec dto (tables s) Hlt s eq_refl). Qed.

(** A successful release of a backed reservation returns exactly its quantity
    from held to on hand, marks that reservation released and touches no other
    warehouse or variant. *)
Lemma release_exact id s id' s' :
  backed (tables s) → releaseReservation id s = (Ok id', s') →
  id' = id ∧ ∃ r, r ∈ view L_StockReservation (tables s) ∧ rv_id r = id ∧
    rv_status r = rv_active ∧ rv_deleted_at r = None ∧ release_done r (tables s) (tables s').
Proof.
  intros Hb Hrun. exact (dwp_elim _ _ _ _ _ (release_spec id (tables s) Hb) Hrun).
Qed.

(** Releasing what was just reserved restores the ledger: stock on hand, held
    and promised are what they were, for every warehouse and variant. *)
Theorem reserve_release_roundtrip dto s view_ s1 id s2 :
  backed (tables s) → 0 < rs_quantity dto →
  reserve dto s = (Ok view_, s1) → releaseReservation (rw_id view_) s1 = (Ok id, s2) →
  ∀ w v, on_hand (tables s2) w v = on_hand (tables s) w v ∧
         held (tables s2) w v = held (tables s) w v ∧
         promised (tables s2) w v = promised (tables s) w v.
Proof.
  intros Hb Hq Hrun1 Hrun2. pose proof Hb as [Hok _].
  pose proof (dwp_elim _ _ _ _ _ (reserve_spec dto _ Hok Hq) Hrun1) as Hres.
  pose proof (reserve_backed _ _ _ _ Hq Hb Hres) as Hb1.
  pose proof (dwp_elim _ _ _ _ _ (release_spec _ _ Hb1) Hrun2) as [_ (r & Hr & Hid & _ & _ & _ & [_ A2 E2 P2])].
  destruct Hres as [_ (row & Erow & Hrid & _ & _ & _ & Hw & Hv & Hqty & [_ A1 E1 P1])].
  assert (r = row) as ->.
  { apply (NoDup_key_eq rv_id (view L_StockReservation (tables s1)));
      [apply ok_reservation_ids, Hb1|done|rewrite Erow; set_solver|congruence]. }
  rewrite Hw, Hv, Hqty in *. intros w v.
  rewrite A2, E2, P2, A1, E1, P1, !at_opp. lia.
Qed.

(** A transfer moves exactly the quantities of its items between the bins it
    names and conserves the total stock of every variant; held stock and
    reservations do not change. When it throws, either no table changed or the
    whole transfer is done. *)
Lemma transfer_conserves dto s o s' :
  stock_ok (tables s) → createTransfer dto s = (o, s') →
  bins_moved (transferred (ct_items dto)) (λ _, 0) (tables s) (tables s') ∨
  (∃ e, o = Throw e) ∧ tables s' = tables s.
Proof.
  intros Hok Hrun. pose proof (dwp_elim _ _ _ _ _ (transfer_spec dto _ Hok) Hrun) as Hp.
  destruct o; [by left|]. destruct Hp; [right|left]; eauto.
Qed.

(** A goods receipt adds exactly the received quantities to the bins it names;
    when it throws, either no table changed or the whole receipt is posted. *)
Lemma receipt_adds dto s o s' :
  stock_ok (tables s) → createGoodsReceipt dto s = (o, s') →
  bins_moved (received (cg_items dto)) (received_total (cg_items dto)) (tables s) (tables s') ∨
  (∃ e, o = Throw e) ∧ tables s' = tables s.
Proof.
  intros Hok Hrun. pose proof (dwp_elim _ _ _ _ _ (receipt_spec dto _ Hok) Hrun) as Hp.
  destruct o; [by left|]. destruct Hp; [right|left]; eauto.
Qed.

(** A successful adjustment changes the stock of its bin by exactly the delta,
    reports a quantity that is not negative, and keeps held stock and
    reservations. *)
Lemma adjust_exact dto s view_ s' :
  stock_ok (tables s) → adjust dto s = (Ok view_, s') →
  av_quantityDelta view_ = aj_quantityDelta dto ∧ 0 <= av_available view_ ∧
  adjust_effect dto (tables s) (tables s').
Proof.
  intros Hok Hrun. exact (dwp_elim _ _ _ _ _ (adjust_spec dto _ Hok) Hrun).
Qed.
End theorems.

(** ** The theorems on the sample shop *)
Section examples.
#[local] Existing Instances gmap_redis counting_crypto sample_postgres.

Lemma sample_stock_ok : stock_ok sample_db.
Proof.
  split; [decided|decided| |]; repeat constructor; simpl; lia.
Qed.

Lemma sample_backed : backed sample_db.
Proof.
  split; [apply sample_stock_ok|]. intros w v.
  change (sumZ rv_quantity (where_ (is_promise w v) (t_StockReservation sample_inv)) <=
          sumZ iv_reserved (where_ (is_stock w v) (t_Inventory sample_inv))).
  unfold is_promise, is_stock. cbn -[String.eqb].
  destruct (String.eqb "w1" w), (String.eqb "v1" v), (String.eqb "w2" w), (String.eqb "v2" v);
    simpl; lia.
Qed.

Definition reserve12 : ReserveStockDto := mkReserveStockDto "w1" "v1" 12 None None None None.
Definition reserve99 : ReserveStockDto := mkReserveStockDto "w1" "v1" 99 None None None None.
Definition reserved12 : ReservationView := mkReservationView "uuu" "w1" "v1" 12 1801000 rv_active.
Definition transfer4 : CreateTransferDto :=
  mkCreateTransferDto "T1" "w1" "w2" None [mkTransferItemDto "v1" 4 "b1" "b2"].
Definition receipt4 : CreateGoodsReceiptDto :=
  mkCreateGoodsReceiptDto "G1" "u1" "w1" None None
    [mkGoodsReceiptItemDto "v1" 4 "b1" None None ["SN1"]].
Definition adjust4 : AdjustStockDto := mkAdjustStockDto "w1" "b1" "v2" 4 None None.

Lemma promises_stay_backed_witness :
  backed (tables (run_ops [op_reserve reserve12; op_release "s1"; op_transfer transfer4;
                           op_reserve reserve99] sample)).
Proof.
  apply (promises_stay_backed
    [op_reserve reserve12; op_release "s1"; op_transfer transfer4; op_reserve reserve99] sample);
    [repeat constructor; simpl; lia|apply sample_backed].
Defined.

Lemma reserve_exact_witness :
  reserve_done reserve12 reserved12 sample_db (tables (snd (reserve reserve12 sample))).
Proof.
  apply (reserve_exact reserve12 sample reserved12 (snd (reserve reserve12 sample)));
    [apply sample_stock_ok|reflexivity|apply run_eta; vm_compute; reflexivity].
Defined.

Lemma reserve_refuses_oversell_witness : tables (snd (reserve reserve99 sample)) = sample_db.
Proof. apply (reserve_refuses_oversell reserve99 sample). vm_compute. reflexivity. Defined.

Lemma release_exact_witness :
  ∃ r, release_done r sample_db (tables (snd (releaseReservation "s1" sample))).
Proof.
  destruct (release_exact "s1" sample "s1" (snd (releaseReservation "s1" sample)))
    as (_ & r & _ & _ & _ & _ & Hr);
    [apply sample_backed|apply run_eta; vm_compute; reflexivity|by exists r].
Defined.

Definition after_reserve12 : St Db := snd (reserve reserve12 sample).
Definition after_release : St Db := snd (releaseReservation (rw_id reserved12) after_reserve12).

Lemma reserve_release_roundtrip_witness :
  on_hand (tables after_release) "w1" "v1" = on_hand (tables sample) "w1" "v1".
Proof.
  apply (reserve_release_roundtrip reserve12 sample reserved12 after_reserve12 "uuu" after_release);
    [apply sample_backed|reflexivity|unfold after_reserve12|unfold after_release];
    apply run_eta; vm_compute; reflexivity.
Defined.

Lemma transfer_conserves_witness :
  bins_moved (transferred (ct_items transfer4)) (λ _, 0) sample_db
    (tables (snd (createTransfer transfer4 sample))).
Proof.
  destruct (transfer_conserves transfer4 sample
    (Ok (mkStockTransfer "u" "T1" "w1" "w2" None "received" None))
    (snd (createTransfer transfer4 sample))) as [Hm|[[e He] _]];
    [apply sample_stock_ok|apply run_eta; vm_compute; reflexivity|exact Hm|discriminate He].
Defined.

Lemma receipt_adds_witness :
  bins_moved (received (cg_items receipt4)) (received_total (cg_items receipt4)) sample_db
    (tables (snd (createGoodsReceipt receipt4 sample))).
Proof.
  destruct (receipt_adds receipt4 sample
    (Ok (mkGoodsReceipt "u" "G1" "u1" "w1" None None "posted" None))
    (snd (createGoodsReceipt receipt4 sample))) as [Hm|[[e He] _]];
    [apply sample_stock_ok|apply run_eta; vm_compute; reflexivity|exact Hm|discriminate He].
Defined.

Lemma adjust_exact_witness : adjust_effect adjust4 sample_db (tables (snd (adjust adjust4 sample))).
Proof.
  apply (adjust_exact adjust4 sample (mkAdjustmentView "u" 4 4) (snd (adjust adjust4 sample)));
    [apply sample_stock_ok|apply run_eta; vm_compute; reflexivity].
Defined.

(** ** What the guarantees stop short of *)

(** [reserve] commits the stock before it creates the reservation: when the create
    fails, here on an unknown cart, the stock stays held for nobody. *)
Example reserve_strands_stock :
  let dto := mkReserveStockDto "w1" "v1" 12 (Some "no-such-cart") None None None in
  let s' := snd (reserve dto sample) in
  fst (reserve dto sample) = Throw (DbError RecordNotFound) ∧
  held (tables s') "w1" "v1" = 15 ∧ promised (tables s') "w1" "v1" = 3.
Proof. vm_compute. auto. Qed.

(** [releaseReservation] checks the status before it takes the lock: two requests
    that both pass the check release the reservation twice, and the second
    release frees stock that is promised to somebody else. *)
Example double_release_breaks_backing :
  let s1 := snd (reserve reserve12 sample) in
  ∃ r, fst (release_check "s1" s1) = Ok r ∧
    let s2 := snd (release_locked "s1" r s1) in
    let s3 := snd (release_locked "s1" r s2) in
    fst (release_locked "s1" r s2) = Ok "s1" ∧
    held (tables s3) "w1" "v1" = 9 ∧ promised (tables s3) "w1" "v1" = 12.
Proof.
  intros s1. exists (mkStockReservation "s1" "w1" "v1" 3 None None None 999999 rv_active None).
  vm_compute. auto.
Qed.

(** The branch "No inventory row to decrement" of [adjust] is never reached: a
    negative delta without a row already fails the check before it. An adjustment
    of zero, which the request validation lets through, changes nothing and ends
    in a constraint violation. *)
Example adjust_zero :
  fst (adjust (mkAdjustStockDto "w1" "b1" "v1" 0 None None) sample) =
  Throw (DbError (ConstraintViolation "inventory_adjustments_quantity_delta_check")).
Proof. vm_compute. reflexivity. Qed.
End examples.
