(* ===== verification/Payments.v ===== *)
(** * Payments: the payment life cycle, refunds and webhooks

    Models [backend/src/modules/payments]: the state machine of
    [validators/payment-state.validator.ts], the repositories, and the operations
    of [services/payments.service.ts], [services/refund.service.ts] and
    [services/webhook.service.ts]. The gateway behind the [PaymentProvider]
    interface is the class of that name: its calls may do anything to the
    environment and nothing to the tables. The theorems are in [PaymentRules]. *)
From S2P Require Import Prelude Core Effects Redis Lock JsNumber Pagination Schema Database Tables.
From Stdlib Require Import QArith.

#[local] Open Scope Z_scope.

(** ** The gateway ([interfaces/payment-provider.interface.ts]) *)

Inductive AuthorizeStatus := au_authorized | au_pending | au_failed.
Inductive CaptureStatus := cp_captured | cp_failed.
Inductive CancelStatus := cn_cancelled | cn_voided | cn_failed.
Inductive RefundStatus := rf_processed | rf_pending | rf_failed.

#[export] Instance AuthorizeStatus_eq_dec : EqDecision AuthorizeStatus.
Proof. solve_decision. Defined.
#[export] Instance CaptureStatus_eq_dec : EqDecision CaptureStatus.
Proof. solve_decision. Defined.
#[export] Instance RefundStatus_eq_dec : EqDecision RefundStatus.
Proof. solve_decision. Defined.

Record AuthorizePaymentResult := mkAuthorizeResult {
  au_gatewayPaymentId : string; au_gatewaySignature : option string; au_status : AuthorizeStatus;
}.
Record CapturePaymentResult := mkCaptureResult {
  cp_gatewayPaymentId : string; cp_status : CaptureStatus;
}.
Record RefundGatewayResult := mkRefundResult {
  rg_gatewayRefundId : string; rg_status : RefundStatus;
}.

(** A call is a function of the environment: it may throw, take time and let
    other clients change Redis. The raw responses are only logged. *)
Class PaymentProvider `{Redis} := {
  provider_code : string;
  gw_createOrder (amount : Q) (currency receipt orderId : string) : Env → outcome string * Env;
  gw_authorize (gatewayOrderId : string) (amount : Q) (currency : string)
    : Env → outcome AuthorizePaymentResult * Env;
  gw_capture (gatewayPaymentId : string) (amount : Q) (currency : string)
    : Env → outcome CapturePaymentResult * Env;
  gw_cancel (gatewayPaymentId gatewayOrderId : option string) (amount : Q) (currency : string)
    : Env → outcome CancelStatus * Env;
  gw_refund (gatewayPaymentId : string) (amount : Q) (currency refundNumber reason : string)
    : Env → outcome RefundGatewayResult * Env;
  gw_verifyWebhookSignature (rawBody signature secret : string) : bool;
}.

(** The configuration the services read. *)
Class PaymentConfig := {
  payment_mock : option bool;
  payment_serverCapture : option bool;
}.

(** ** The state machine ([validators/payment-state.validator.ts]) *)

Definition ALLOWED (from : PaymentStatus) : list PaymentStatus :=
  match from with
  | pm_pending => [pm_authorized; pm_captured; pm_failed; pm_cancelled; pm_expired]
  | pm_authorized => [pm_captured; pm_cancelled; pm_failed]
  | pm_captured => [pm_refunded; pm_partially_refunded; pm_chargeback]
  | pm_partially_refunded => [pm_refunded; pm_partially_refunded; pm_chargeback]
  | pm_failed => [pm_pending; pm_cancelled]
  | pm_cancelled => []
  | pm_expired => []
  | pm_refunded => [pm_chargeback]
  | pm_chargeback => []
  end.

Definition allowed (from to : PaymentStatus) : bool := bool_decide (to ∈ ALLOWED from).

Definition assertTransition {S} (from to : PaymentStatus) : M S () :=
  throw_if (negb (allowed from to))
    (AppException CONFLICT ("Invalid payment transition " +:+ PaymentStatus_text from +:+
       " → " +:+ PaymentStatus_text to) 409).

(** ** Constants ([constants/payments.constants.ts]) *)
Module PAYMENTS_CACHE.
Definition TTL : Z := 60.
Definition status (id : string) : string := "payments:status:" +:+ id.
Definition saved (customerId : string) : string := "payments:saved:" +:+ customerId.
Definition order (orderId : string) : string := "payments:order:" +:+ orderId.
End PAYMENTS_CACHE.

Definition RAZORPAY_GATEWAY_ID : string := "60000000-0000-0000-0000-000000000001".
Definition QUEUE_PAYMENTS : string := "payments".
Definition JOB_WEBHOOK : string := "payment.webhook.process".
Definition JOB_REFUND : string := "payment.refund.process".
Definition JOB_RETRY : string := "payment.retry".
Definition JOB_RECEIPT_EMAIL : string := "payment.receipt.email".

(** ** Row updates *)

Definition pay_status (st : PaymentStatus) (p : Payment) : Payment :=
  mkPayment (pm_id p) (pm_order_id p) (pm_customer_id p) (pm_gateway_id p)
    (pm_payment_method_id p) (pm_saved_payment_method_id p) (pm_gateway_order_id p)
    (pm_gateway_payment_id p) (pm_gateway_signature p) (pm_amount p) (pm_currency p)
    (pm_refunded_amount p) st (pm_authorized_at p) (pm_captured_at p) (pm_failed_at p)
    (pm_deleted_at p).

(** Columns left [undefined] keep their value. *)
Definition keep {A} (new old : option A) : option A :=
  match new with Some x => Some x | None => old end.

Definition pay_times (authorized captured : option Z) (failed : option (option Z)) (p : Payment)
  : Payment :=
  mkPayment (pm_id p) (pm_order_id p) (pm_customer_id p) (pm_gateway_id p)
    (pm_payment_method_id p) (pm_saved_payment_method_id p) (pm_gateway_order_id p)
    (pm_gateway_payment_id p) (pm_gateway_signature p) (pm_amount p) (pm_currency p)
    (pm_refunded_amount p) (pm_status p) (keep authorized (pm_authorized_at p))
    (keep captured (pm_captured_at p)) (coalesce failed (pm_failed_at p)) (pm_deleted_at p).

Definition pay_gateway (paymentId signature : option string) (p : Payment) : Payment :=
  mkPayment (pm_id p) (pm_order_id p) (pm_customer_id p) (pm_gateway_id p)
    (pm_payment_method_id p) (pm_saved_payment_method_id p) (pm_gateway_order_id p)
    (keep paymentId (pm_gateway_payment_id p)) (keep signature (pm_gateway_signature p))
    (pm_amount p) (pm_currency p) (pm_refunded_amount p) (pm_status p) (pm_authorized_at p)
    (pm_captured_at p) (pm_failed_at p) (pm_deleted_at p).

Definition pay_refunded (amount : Z) (p : Payment) : Payment :=
  mkPayment (pm_id p) (pm_order_id p) (pm_customer_id p) (pm_gateway_id p)
    (pm_payment_method_id p) (pm_saved_payment_method_id p) (pm_gateway_order_id p)
    (pm_gateway_payment_id p) (pm_gateway_signature p) (pm_amount p) (pm_currency p) amount
    (pm_status p) (pm_authorized_at p) (pm_captured_at p) (pm_failed_at p) (pm_deleted_at p).

(** ** Views ([mappers/payment.mapper.ts]) *)

Record PaymentView := mkPaymentView {
  pv_id_ : string; pv_orderId : string; pv_customerId : option string; pv_gatewayId : string;
  pv_gatewayCode : option string; pv_paymentMethodId : option string; pv_amount : Q;
  pv_currency : string; pv_refundedAmount : Q; pv_status_ : PaymentStatus;
  pv_gatewayOrderId : option string; pv_gatewayPaymentId : option string;
  pv_authorizedAt : option Z; pv_capturedAt : option Z; pv_failedAt : option Z;
}.

Definition mapPayment (d : Db) (p : Payment) : PaymentView :=
  mkPaymentView (pm_id p) (pm_order_id p) (pm_customer_id p) (pm_gateway_id p)
    (option_map gw_code (find_first (λ g, String.eqb (gw_id g) (pm_gateway_id p))
                                    (view L_Gateway d)))
    (pm_payment_method_id p) (cents (pm_amount p)) (pm_currency p) (cents (pm_refunded_amount p))
    (pm_status p) (pm_gateway_order_id p) (pm_gateway_payment_id p) (pm_authorized_at p)
    (pm_captured_at p) (pm_failed_at p).

Definition jnull_str (v : option string) : Json :=
  match v with Some s => JStr s | None => JNull end.
Definition jnull_int (v : option Z) : Json :=
  match v with Some z => JInt z | None => JNull end.

Definition PaymentView_json (v : PaymentView) : Json :=
  JObj ([("id", JStr (pv_id_ v)); ("orderId", JStr (pv_orderId v));
         ("customerId", jnull_str (pv_customerId v)); ("gatewayId", JStr (pv_gatewayId v))]
    ++ jopt "gatewayCode" (pv_gatewayCode v) ++
        [("paymentMethodId", jnull_str (pv_paymentMethodId v)); ("amount", JNum (pv_amount v));
         ("currency", JStr (pv_currency v)); ("refundedAmount", JNum (pv_refundedAmount v));
         ("status", JStr (PaymentStatus_text (pv_status_ v)));
         ("gatewayOrderId", jnull_str (pv_gatewayOrderId v));
         ("gatewayPaymentId", jnull_str (pv_gatewayPaymentId v));
         ("authorizedAt", jnull_int (pv_authorizedAt v));
         ("capturedAt", jnull_int (pv_capturedAt v)); ("failedAt", jnull_int (pv_failedAt v))]).

(** ** Requests ([dto/payment.dto.ts]) *)

Record CreatePaymentDto := mkCreatePaymentDto {
  cd_orderId : string; cd_amount : Q; cd_currency : option string;
  cd_paymentMethodId : option string; cd_savedPaymentMethodId : option string;
}.

Record RefundItemDto := mkRefundItemDto {
  rd_orderItemId : option string; rd_itemAmount : Q; rd_itemQuantity : option Z;
}.

Record RefundPaymentDto := mkRefundPaymentDto {
  rd_amount : Q; rd_reasonCode : option string; rd_reason : option string;
  rd_items : list RefundItemDto;
}.

Record SaveMethodInput := mkSaveMethodInput {
  sm_gatewayId : string; sm_token : string; sm_brand : option string;
  sm_lastFour : option string; sm_expiryMonth : option Z; sm_expiryYear : option Z;
  sm_isDefault : option bool;
}.

(** The payload of the payment events. *)
Definition payment_payload (p : Payment) (status : PaymentStatus) (gateway : string)
  (more : list (string * Json)) : Json :=
  JObj ([("paymentId", JStr (pm_id p)); ("orderId", JStr (pm_order_id p));
         ("amount", JNum (cents (pm_amount p))); ("currency", JStr (pm_currency p));
         ("status", JStr (PaymentStatus_text status)); ("gateway", JStr gateway)] ++ more).

Section payments.
  Context `{Redis, !Scheduler, !Crypto, !MathRandom, !Postgres, !ClientText, !NumberText,
            !PaymentProvider, !PaymentConfig}.

(** A call of the gateway leaves the tables alone. *)
Definition gateway {A} (call : Env → outcome A * Env) : M (St Db) A := λ s,
  match call (env s) with (o, e) => (o, mkSt e (tables s)) end.

(** ** PaymentRepository ([repositories/payment.repository.ts]) *)

Definition pay_findById (id : string) : M (St Db) (option Payment) :=
  db_findFirst T_Payment (λ p, String.eqb (pm_id p) id && live (pm_deleted_at p)).

(** [ORDER BY created_at] is left to the server. *)
Definition findByOrderId (orderId : string) : M (St Db) (list Payment) :=
  db_findMany T_Payment (λ p, String.eqb (pm_order_id p) orderId && live (pm_deleted_at p)).

Definition findByGatewayPaymentId (gatewayPaymentId : string) : M (St Db) (option Payment) :=
  db_findFirst T_Payment (λ p, same_opt (pm_gateway_payment_id p) (Some gatewayPaymentId)
    && live (pm_deleted_at p)).

Definition active_gateway (g : Gateway) : bool :=
  match gw_status g with rs_active => live (gw_deleted_at g) | _ => false end.

Definition findPrimaryGateway : M (St Db) (option Gateway) :=
  db_findFirst T_Gateway (λ g, gw_is_primary g && active_gateway g).

Definition findGatewayByCode (code : string) : M (St Db) (option Gateway) :=
  db_findFirst T_Gateway (λ g, String.eqb (gw_code g) code && active_gateway g).

Definition nextAttemptNumber (paymentId : string) : M (St Db) Z :=
  rows ← db_findMany T_PaymentAttempt
           (λ a, String.eqb (pa_payment_id a) paymentId && live (pa_deleted_at a));
  mret (foldr Z.max 0 (map pa_attempt_number rows) + 1).

Definition createAttempt (paymentId : string) (attemptNo : Z) (error : option string)
  (st : PaymentStatus) : M (St Db) PaymentAttempt :=
  db_create T_PaymentAttempt (λ id, mkPaymentAttempt id paymentId attemptNo error st None).

Definition createTransaction (p : Payment) (tx_type : string) (amount : Z)
  (reference : option string) : M (St Db) PaymentTransaction :=
  db_create T_PaymentTransaction (λ id, mkPaymentTransaction id (pm_id p) tx_type amount
    (pm_currency p) reference).

Definition createEvent (paymentId event : string) : M (St Db) PaymentEvent :=
  db_create T_PaymentEvent (λ id, mkPaymentEvent id paymentId event).

Definition createAudit (paymentId action : string) (actorId : option string)
  (fromStatus toStatus : option PaymentStatus) : M (St Db) PaymentAuditLog :=
  db_create T_PaymentAuditLog (λ id, mkPaymentAuditLog id paymentId action actorId fromStatus
    toStatus).

Definition pay_update (id : string) (f : Payment → Payment) : M (St Db) Payment :=
  db_update T_Payment id f.

(** ** PaymentsCacheService ([services/payments-cache.service.ts]) *)

Definition invalidatePayment (id orderId : string) : M (St Db) () :=
  CacheService.del (PAYMENTS_CACHE.status id) ;;
  when_ (negb (String.eqb orderId "")) (CacheService.del (PAYMENTS_CACHE.order orderId)).

Definition invalidateSaved (customerId : string) : M (St Db) () :=
  CacheService.del (PAYMENTS_CACHE.saved customerId).

(** ** PaymentsService ([services/payments.service.ts]) *)

Definition needsPostCaptureOrderConfirm : bool :=
  negb (bool_decide (payment_mock = Some true)) &&
  bool_decide (payment_serverCapture = Some false).

Definition requirePayment (id : string) : M (St Db) Payment :=
  payment ← pay_findById id;
  require_ payment (AppException NOT_FOUND "Payment not found" 404).

(** [customerId && customerId !== actorId] *)
Definition not_owner (customerId : option string) (actorId : string) : bool :=
  match customerId with
  | Some "" | None => false
  | Some c => negb (String.eqb c actorId)
  end.

Definition assertCanAccess (customerId : option string) (actorId : string) : M (St Db) () :=
  throw_if (not_owner customerId actorId) (ForbiddenException FORBIDDEN "Not your payment").

Definition assertAdminOrOwner (actorId ownerId : string) : M (St Db) () :=
  throw_if (negb (String.eqb actorId ownerId))
    (ForbiddenException FORBIDDEN "Order ownership required").

Definition audit (paymentId action : string) (actorId : option string)
  (fromStatus toStatus : option PaymentStatus) : M (St Db) () :=
  _ ← createAudit paymentId action actorId fromStatus toStatus; mret tt.

(** [err.retryable === true || (err.status ?? 0) >= 500] *)
Definition retryable (e : exn) : bool :=
  match e with
  | GatewayError _ status r => r || (500 <=? status)
  | AppException _ _ status => 500 <=? status
  | ForbiddenException _ _ => 500 <=? 403
  | _ => false
  end.

(** The loop of [withRetry] from attempt [i]; [n] attempts are left. *)
Fixpoint withRetry_from {A} (n : nat) (i attempts : Z) (fn : M (St Db) A) : M (St Db) A :=
  match n with
  | O => throw Diverges
  | S n =>
      try_catch fn (λ err,
        if negb (retryable err) || (i =? attempts) then throw err
        else sleep (200 * 2 ^ (i - 1)) ;; withRetry_from n (i + 1) attempts fn)
  end.

Definition withRetry {A} (fn : M (St Db) A) : M (St Db) A := withRetry_from 3 1 3 fn.

Definition view_of (p : Payment) : M (St Db) PaymentView :=
  gets (λ s, mapPayment (tables s) p).

Definition payment_event (name : string) (p : Payment) (status : PaymentStatus)
  (more : list (string * Json)) : M (St Db) () :=
  emit (mkEvent name (payment_payload p status provider_code more)).

(** [create]: the receipt is the order number, cut to 40 characters. *)
Definition create (actorId : string) (dto : CreatePaymentDto) : M (St Db) PaymentView :=
  order ← db_findFirst T_Order (λ o, String.eqb (od_id o) (cd_orderId dto)
            && live (od_deleted_at o));
  order ← require_ order (AppException NOT_FOUND "Order not found" 404);
  match od_customer_id order with
  | Some ((String _ _) as c) => when_ (negb (String.eqb c actorId)) (assertAdminOrOwner actorId c)
  | _ => mret tt
  end ;;
  throw_if (js_lt (cd_amount dto) 0) (AppException BAD_REQUEST "Invalid amount" 400) ;;
  primary ← findPrimaryGateway;
  gateway_ ← match primary with Some g => mret (Some g) | None => findGatewayByCode "razorpay" end;
  gateway_ ← require_ gateway_ (AppException INTERNAL_ERROR "Payment gateway unavailable" 503);
  let currency := coalesce (cd_currency dto) "INR" in
  gatewayOrderId ← withRetry (gateway (gw_createOrder (cd_amount dto) currency
                     (slice0 40 ("ord_" +:+ od_order_number order)) (od_id order)));
  payment ← db_create T_Payment (λ id, mkPayment id (od_id order)
              (Some (coalesce (od_customer_id order) actorId)) (gw_id gateway_)
              (cd_paymentMethodId dto) (cd_savedPaymentMethodId dto) (Some gatewayOrderId) None
              None (numeric2 (cd_amount dto)) currency 0 pm_pending None None None None);
  _ ← createAttempt (pm_id payment) 1 None pm_pending;
  audit (pm_id payment) "create" (Some actorId) None (Some pm_pending) ;;
  _ ← createEvent (pm_id payment) "payment.created";
  mapped ← view_of payment;
  payment_event "payment.created" payment (pm_status payment) [] ;;
  payment_event "payment.pending" payment (pm_status payment) [] ;;
  invalidatePayment (pm_id payment) (pm_order_id payment) ;;
  mret mapped.

Definition createForCheckout (orderId userId : string) (amount : Q) : M (St Db) PaymentView :=
  create userId (mkCreatePaymentDto orderId amount (Some "INR") None None).

(** [markFailed] records the failure and throws. *)
Definition markFailed {A} (payment : Payment) (actorId reason : string) : M (St Db) A :=
  now ← Date_now;
  _ ← pay_update (pm_id payment) (λ p, pay_times None None (Some (Some now)) (pay_status pm_failed p));
  audit (pm_id payment) "fail" (Some actorId) (Some (pm_status payment)) (Some pm_failed) ;;
  payment_event "payment.failed" payment pm_failed [("reason", JStr reason)] ;;
  invalidatePayment (pm_id payment) (pm_order_id payment) ;;
  throw (AppException CONFLICT reason 409).

Definition pay_lock (action paymentId : string) : string :=
  LockService.resourceKey ["payments"; action; paymentId].
Definition lock_opts (ttl wait : Z) : LockService.LockOptions :=
  LockService.mkLockOptions (Some ttl) (Some wait) None.

(** The [try] block of [authorize]. Its result is the promise that [authorize]
    returns: [markFailed] is returned without being awaited, so that what it
    throws is not caught there. *)
Definition authorize_body (payment : Payment) (actorId : string) (attemptNo : Z)
  : M (St Db) (M (St Db) PaymentView) :=
  gatewayOrderId ← require_ (match pm_gateway_order_id payment with
                             | Some ((String _ _) as g) => Some g | _ => None end)
                     (AppException CONFLICT "Missing gateway order" 409);
  result ← withRetry (gateway (gw_authorize gatewayOrderId (cents (pm_amount payment))
                                 (pm_currency payment)));
  match au_status result with
  | au_pending =>
      _ ← createAttempt (pm_id payment) attemptNo None pm_pending;
      mret (view_of payment)
  | st =>
      if bool_decide (st = au_failed) || String.eqb (au_gatewayPaymentId result) "" then
        mret (markFailed payment actorId "Authorization failed")
      else
        now ← Date_now;
        updated ← pay_update (pm_id payment) (λ p, pay_times (Some now) None None
                    (pay_gateway (Some (au_gatewayPaymentId result)) (au_gatewaySignature result)
                       (pay_status pm_authorized p)));
        _ ← createTransaction payment "authorize" (pm_amount payment)
              (Some (au_gatewayPaymentId result));
        _ ← createAttempt (pm_id payment) attemptNo None pm_authorized;
        audit (pm_id payment) "authorize" (Some actorId) (Some (pm_status payment))
          (Some pm_authorized) ;;
        _ ← createEvent (pm_id payment) "payment.authorized";
        payment_event "payment.authorized" payment pm_authorized [] ;;
        invalidatePayment (pm_id payment) (pm_order_id payment) ;;
        mret (view_of updated)
  end.

Definition authorize (paymentId actorId : string) (asAdmin : bool) : M (St Db) PaymentView :=
  LockService.withLock (pay_lock "authorize" paymentId)
    (payment ← requirePayment paymentId;
     when_ (negb asAdmin) (assertCanAccess (pm_customer_id payment) actorId) ;;
     assertTransition (pm_status payment) pm_authorized ;;
     attemptNo ← nextAttemptNumber (pm_id payment);
     returned ← try_catch (authorize_body payment actorId attemptNo)
       (λ err,
          _ ← createAttempt (pm_id payment) attemptNo (Some (slice0 2000 (err_string err))) pm_failed;
          throw err);
     returned)
    (lock_opts 30000 10000).

(** [confirmPendingOrderAfterCapture]: a failure is only logged. *)
Definition set_order_status (st : OrderStatus) (placed cancelled : option Z) (o : Order) : Order :=
  mkOrder (od_id o) (od_order_number o) (od_customer_id o) (od_cart_id o) (od_coupon_id o)
    (od_fulfillment_warehouse_id o) (od_currency o) (od_subtotal o) (od_discount_total o)
    (od_tax_total o) (od_shipping_charge o) (od_grand_total o) (keep placed (od_placed_at o))
    (keep cancelled (od_cancelled_at o)) (od_cancellation_reason_id o) st (od_created_at o)
    (od_deleted_at o).

Definition set_cart_status (st : CartStatus) (c : Cart) : Cart :=
  mkCart (ca_id c) (ca_user_id c) (ca_session_key c) (ca_currency c) st (ca_updated_at c)
    (ca_deleted_at c).

Definition confirmPendingOrderAfterCapture (orderId actorId : string) : M (St Db) () :=
  order ← db_findFirst T_Order (λ o, String.eqb (od_id o) orderId && live (od_deleted_at o));
  match order with
  | Some o =>
      if negb (bool_decide (od_status o = or_pending)) then mret tt
      else
        try_catch
          (in_transaction
             (now ← Date_now;
              _ ← db_update T_Order orderId (set_order_status or_confirmed (Some now) None);
              _ ← db_create T_OrderStatusHistory (λ id, mkOrderStatusHistory id orderId
                    (Some or_pending) or_confirmed (Some "Payment captured") now);
              match od_cart_id o with
              | Some ((String _ _) as c) =>
                  _ ← db_update T_Cart c (set_cart_status ct_converted); mret tt
              | _ => mret tt
              end))
          (λ _, mret tt)
  | None => mret tt
  end.

Definition job (name : string) (fields : list (string * string)) : M (St Db) () :=
  enqueue (mkJob QUEUE_PAYMENTS name (JObj (map (λ kv, (fst kv, JStr (snd kv))) fields))).

Definition capture (paymentId actorId : string) (asAdmin : bool) : M (St Db) PaymentView :=
  LockService.withLock (pay_lock "capture" paymentId)
    (payment ← requirePayment paymentId;
     when_ (negb asAdmin) (assertCanAccess (pm_customer_id payment) actorId) ;;
     if bool_decide (pm_status payment = pm_captured) then view_of payment
     else
       assertTransition (pm_status payment) pm_captured ;;
       match pm_gateway_payment_id payment with
       | Some ((String _ _) as gatewayPaymentId) =>
           result ← withRetry (gateway (gw_capture gatewayPaymentId (cents (pm_amount payment))
                                          (pm_currency payment)));
           if negb (bool_decide (cp_status result = cp_captured)) then
             markFailed payment actorId "Capture failed"
           else
             now ← Date_now;
             updated ← pay_update (pm_id payment)
                         (λ p, pay_times None (Some now) None (pay_status pm_captured p));
             _ ← createTransaction payment "capture" (pm_amount payment)
                   (Some (cp_gatewayPaymentId result));
             audit (pm_id payment) "capture" (Some actorId) (Some (pm_status payment))
               (Some pm_captured) ;;
             _ ← createEvent (pm_id payment) "payment.captured";
             payment_event "payment.captured" payment pm_captured [] ;;
             when_ needsPostCaptureOrderConfirm
               (confirmPendingOrderAfterCapture (pm_order_id payment) actorId) ;;
             job JOB_RECEIPT_EMAIL [("paymentId", pm_id payment); ("orderId", pm_order_id payment)] ;;
             invalidatePayment (pm_id payment) (pm_order_id payment) ;;
             view_of updated
       | _ =>
           if pm_amount payment =? 0 then
             now ← Date_now;
             updated ← pay_update (pm_id payment)
                         (λ p, pay_times None (Some now) None (pay_status pm_captured p));
             audit (pm_id payment) "capture" (Some actorId) (Some (pm_status payment))
               (Some pm_captured) ;;
             view_of updated
           else throw (AppException CONFLICT "Payment not authorized" 409)
       end)
    (lock_opts 30000 10000).

Definition cancel (paymentId actorId : string) (asAdmin : bool) : M (St Db) PaymentView :=
  LockService.withLock (pay_lock "cancel" paymentId)
    (payment ← requirePayment paymentId;
     when_ (negb asAdmin) (assertCanAccess (pm_customer_id payment) actorId) ;;
     match pm_status payment with
     | pm_cancelled | pm_refunded => view_of payment
     | pm_captured | pm_partially_refunded =>
         throw (AppException CONFLICT "Captured payments must be refunded" 409)
     | _ =>
         _ ← gateway (gw_cancel (pm_gateway_payment_id payment) (pm_gateway_order_id payment)
                        (cents (pm_amount payment)) (pm_currency payment));
         updated ← pay_update (pm_id payment) (pay_status pm_cancelled);
         _ ← createTransaction payment "void" (pm_amount payment) (pm_gateway_payment_id payment);
         audit (pm_id payment) "cancel" (Some actorId) (Some (pm_status payment))
           (Some pm_cancelled) ;;
         _ ← createEvent (pm_id payment) "payment.cancelled";
         payment_event "payment.cancelled" payment pm_cancelled [] ;;
         invalidatePayment (pm_id payment) (pm_order_id payment) ;;
         view_of updated
     end)
    (lock_opts 30000 5000).

Definition voidOrCancel (paymentId actorId : string) : M (St Db) () :=
  payment ← pay_findById paymentId;
  match payment with
  | None => mret tt
  | Some p =>
      match pm_status p with
      | pm_cancelled | pm_failed => mret tt
      | _ => try_catch (_ ← cancel paymentId actorId false; mret tt) (λ _, mret tt)
      end
  end.

Definition retry (paymentId actorId : string) : M (St Db) PaymentView :=
  payment ← requirePayment paymentId;
  assertCanAccess (pm_customer_id payment) actorId ;;
  throw_if (negb (bool_decide (pm_status payment = pm_failed))
            && negb (bool_decide (pm_status payment = pm_pending)))
    (AppException CONFLICT "Payment not retryable" 409) ;;
  job JOB_RETRY [("paymentId", paymentId); ("actorId", actorId)] ;;
  when_ (bool_decide (pm_status payment = pm_failed))
    (_ ← pay_update (pm_id payment) (λ p, pay_times None None (Some None) (pay_status pm_pending p));
     mret tt) ;;
  authorized ← authorize paymentId actorId false;
  if bool_decide (pv_status_ authorized = pm_authorized) then capture paymentId actorId false
  else mret authorized.

Definition getById (paymentId actorId : string) (isAdmin : bool) : M (St Db) Json :=
  CacheService.getOrSet (PAYMENTS_CACHE.status paymentId)
    (payment ← requirePayment paymentId;
     when_ (negb isAdmin) (assertCanAccess (pm_customer_id payment) actorId) ;;
     v ← view_of payment;
     mret (PaymentView_json v)) PAYMENTS_CACHE.TTL.

Definition getByOrder (orderId actorId : string) (isAdmin : bool) : M (St Db) Json :=
  CacheService.getOrSet (PAYMENTS_CACHE.order orderId)
    (rows ← findByOrderId orderId;
     when_ (negb isAdmin) (for_each rows (λ p, assertCanAccess (pm_customer_id p) actorId)) ;;
     d ← gets tables;
     mret (JArr (map (λ p, PaymentView_json (mapPayment d p)) rows))) PAYMENTS_CACHE.TTL.

(** [history]: the order by [created_at] is left to the server. *)
Definition pay_history (actorId : string) (page limit : Z)
  : M (St Db) (list PaymentView * Z * Z * Z) :=
  let take_ := Z.min limit 100 in
  let skip := (Z.max page 1 - 1) * take_ in
  let mine p := same_opt (pm_customer_id p) (Some actorId) && live (pm_deleted_at p) in
  items ← db_findMany T_Payment mine;
  total ← db_count T_Payment mine;
  d ← gets tables;
  mret (map (mapPayment d) (page_of skip take_ items), total, page, take_).

Definition applyGatewayStatus (paymentId : string) (status : PaymentStatus)
  (gatewayPaymentId : option string) : M (St Db) Payment :=
  payment ← requirePayment paymentId;
  now ← Date_now;
  let gatewayPaymentId := match gatewayPaymentId with Some "" => None | g => g end in
  updated ← pay_update paymentId (λ p,
    pay_times (if bool_decide (status = pm_authorized) then Some now else None)
              (if bool_decide (status = pm_captured) then Some now else None)
              (if bool_decide (status = pm_failed) then Some (Some now) else None)
              (pay_gateway gatewayPaymentId None (pay_status status p)));
  audit paymentId ("webhook." +:+ PaymentStatus_text status) None (Some (pm_status payment))
    (Some status) ;;
  _ ← createEvent paymentId ("payment." +:+ PaymentStatus_text status);
  invalidatePayment paymentId (pm_order_id payment) ;;
  mret updated.

(** *** Saved payment methods *)

Definition sp_default (b : bool) (m : SavedPaymentMethod) : SavedPaymentMethod :=
  mkSavedPaymentMethod (sp_id m) (sp_customer_id m) (sp_gateway_id m) (sp_token m) (sp_brand m)
    (sp_last_four m) (sp_expiry_month m) (sp_expiry_year m) b (sp_status m) (sp_created_at m)
    (sp_deleted_at m).

Definition sp_delete (now : Z) (m : SavedPaymentMethod) : SavedPaymentMethod :=
  mkSavedPaymentMethod (sp_id m) (sp_customer_id m) (sp_gateway_id m) (sp_token m) (sp_brand m)
    (sp_last_four m) (sp_expiry_month m) (sp_expiry_year m) (sp_is_default m) rs_inactive
    (sp_created_at m) (Some now).

Definition sp_of (customerId : string) (m : SavedPaymentMethod) : bool :=
  String.eqb (sp_customer_id m) customerId && live (sp_deleted_at m).

Definition clear_defaults (customerId : string) : M (St Db) () :=
  db_updateMany T_SavedPaymentMethod (sp_of customerId) (sp_default false).

Definition saveMethod (customerId : string) (input : SaveMethodInput)
  : M (St Db) SavedPaymentMethod :=
  when_ (coalesce (sm_isDefault input) false) (clear_defaults customerId) ;;
  now ← Date_now;
  row ← db_create T_SavedPaymentMethod (λ id, mkSavedPaymentMethod id customerId
          (if String.eqb (sm_gatewayId input) "" then RAZORPAY_GATEWAY_ID else sm_gatewayId input)
          (sm_token input) (sm_brand input) (sm_lastFour input) (sm_expiryMonth input)
          (sm_expiryYear input) (coalesce (sm_isDefault input) false) rs_active now None);
  invalidateSaved customerId ;;
  mret row.

Definition find_saved (customerId id : string) : M (St Db) SavedPaymentMethod :=
  row ← db_findFirst T_SavedPaymentMethod (λ m, String.eqb (sp_id m) id && sp_of customerId m);
  require_ row (AppException NOT_FOUND "Saved method not found" 404).

Definition deleteSaved (customerId id : string) : M (St Db) () :=
  _ ← find_saved customerId id;
  now ← Date_now;
  _ ← db_update T_SavedPaymentMethod id (sp_delete now);
  invalidateSaved customerId.

Definition mapSavedMethod (m : SavedPaymentMethod) : Json :=
  JObj [("id", JStr (sp_id m)); ("gatewayId", JStr (sp_gateway_id m));
        ("brand", jnull_str (sp_brand m)); ("lastFour", jnull_str (sp_last_four m));
        ("expiryMonth", jnull_int (sp_expiry_month m));
        ("expiryYear", jnull_int (sp_expiry_year m)); ("isDefault", JBool (sp_is_default m));
        ("status", JStr (RecordStatus_text (sp_status m)));
        ("createdAt", JInt (sp_created_at m))].

(** ORDER BY is_default DESC, created_at DESC. *)
Definition listSaved (customerId : string) : M (St Db) Json :=
  CacheService.getOrSet (PAYMENTS_CACHE.saved customerId)
    (let mine b m := sp_of customerId m && bool_decide (sp_status m = rs_active)
                     && Bool.eqb (sp_is_default m) b in
     defaults ← db_findMany_desc T_SavedPaymentMethod (mine true) sp_created_at;
     others ← db_findMany_desc T_SavedPaymentMethod (mine false) sp_created_at;
     mret (JArr (map mapSavedMethod (defaults ++ others)))) PAYMENTS_CACHE.TTL.

Definition setDefaultSaved (customerId id : string) : M (St Db) Json :=
  _ ← find_saved customerId id;
  clear_defaults customerId ;;
  _ ← db_update T_SavedPaymentMethod id (sp_default true);
  invalidateSaved customerId ;;
  listSaved customerId.

(** ** RefundService ([services/refund.service.ts]) *)

Definition milli : Q := fl (1 # 1000).

(** [amount > remaining + 0.001] *)
Definition refund_exceeds (amount remaining : Q) : bool := js_lt (js_add remaining milli) amount.

(** [amount >= remaining - 0.001] *)
Definition refund_full (amount remaining : Q) : bool := js_le (js_sub remaining milli) amount.

Definition refund_update (st : string) (gatewayRefundId : option string)
  (processed : option (option Z)) (approved : option Z) (reason : option string) (r : Refund)
  : Refund :=
  mkRefund (rf_id r) (rf_refund_number r) (rf_payment_id r) (rf_order_id r)
    (rf_requested_by_id r) (rf_refund_type r) (rf_amount r) (rf_currency r) (rf_reason_code r)
    (keep reason (rf_reason r)) (keep gatewayRefundId (rf_gateway_refund_id r)) st
    (coalesce processed (rf_processed_at r)) (keep approved (rf_approved_at r)) (rf_deleted_at r).

Definition create_refund_item (refundId : string) (i : RefundItemDto) : M (St Db) () :=
  _ ← db_create T_RefundItem (λ id, mkRefundItem id refundId (rd_orderItemId i)
        (numeric2 (rd_itemAmount i)) (rd_itemQuantity i));
  mret tt.

(** The [try] block of [refund]. *)
Definition refund_body (payment : Payment) (refund : Refund) (actorId refundNumber : string)
  (dto : RefundPaymentDto) (gatewayPaymentId : string) (already total : Q) : M (St Db) Refund :=
  gw ← gateway (gw_refund gatewayPaymentId (rd_amount dto) (pm_currency payment) refundNumber
         (coalesce (rd_reason dto) ""));
  now ← Date_now;
  let processed := bool_decide (rg_status gw = rf_processed) in
  refund ← db_update T_Refund (rf_id refund)
    (refund_update (if processed then "processed" else "processing")
       (Some (rg_gatewayRefundId gw)) (Some (if processed then Some now else None)) (Some now) None);
  _ ← createTransaction payment "refund" (numeric2 (rd_amount dto))
        (Some (rg_gatewayRefundId gw));
  let newRefunded := js_add already (rd_amount dto) in
  let newStatus := if js_le (js_sub total milli) newRefunded then pm_refunded
                   else pm_partially_refunded in
  _ ← pay_update (pm_id payment)
        (λ p, pay_refunded (numeric2 newRefunded) (pay_status newStatus p));
  audit (pm_id payment) "refund" (Some actorId) (Some (pm_status payment)) (Some newStatus) ;;
  _ ← createEvent (pm_id payment) ("payment." +:+ PaymentStatus_text newStatus);
  payment_event (if bool_decide (newStatus = pm_refunded) then "payment.refunded"
                 else "payment.partially_refunded") payment newStatus
    [("refundId", JStr (rf_id refund)); ("refundAmount", JNum (rd_amount dto))] ;;
  invalidatePayment (pm_id payment) (pm_order_id payment) ;;
  mret refund.

Definition refund (paymentId actorId : string) (dto : RefundPaymentDto) (asAdmin : bool)
  : M (St Db) Refund :=
  LockService.withLock (pay_lock "refund" paymentId)
    (payment ← requirePayment paymentId;
     throw_if (negb asAdmin && not_owner (pm_customer_id payment) actorId)
       (AppException FORBIDDEN "Not your payment" 403) ;;
     throw_if (negb (bool_decide (pm_status payment = pm_captured))
               && negb (bool_decide (pm_status payment = pm_partially_refunded)))
       (AppException CONFLICT "Only captured payments can be refunded" 409) ;;
     let already := cents (pm_refunded_amount payment) in
     let total := cents (pm_amount payment) in
     let remaining := js_sub total already in
     throw_if (refund_exceeds (rd_amount dto) remaining)
       (AppException BAD_REQUEST
          ("Refund exceeds remaining amount (" +:+ number_text remaining +:+ ")") 400) ;;
     let refundType := if refund_full (rd_amount dto) remaining then "full" else "partial" in
     now ← Date_now;
     rnd ← draw random_1000;
     let refundNumber := "RFN-" +:+ pretty now +:+ "-" +:+ pretty rnd in
     refund ← db_create T_Refund (λ id, mkRefund id refundNumber (pm_id payment)
                (pm_order_id payment) (Some actorId) refundType (numeric2 (rd_amount dto))
                (pm_currency payment) (rd_reasonCode dto) (rd_reason dto) None "processing" None
                None None);
     in_transaction (for_each (rd_items dto) (create_refund_item (rf_id refund))) ;;
     gatewayPaymentId ← require_ (match pm_gateway_payment_id payment with
                                  | Some ((String _ _) as g) => Some g | _ => None end)
                          (AppException CONFLICT "Missing gateway payment id" 409);
     try_catch (refund_body payment refund actorId refundNumber dto gatewayPaymentId already total)
       (λ err,
          _ ← db_update T_Refund (rf_id refund)
                (refund_update "failed" None None None (Some (slice0 500 (err_string err))));
          job JOB_REFUND [("refundId", rf_id refund); ("paymentId", pm_id payment);
                          ("actorId", actorId)] ;;
          throw err))
    (lock_opts 45000 10000).
End payments.
