(* ===== verification/Webhooks.v ===== *)
(** * Gateway webhooks

    Models [backend/src/modules/payments/services/webhook.service.ts] and
    [repositories/webhook.repository.ts]: a signed event of the gateway is stored
    once under its idempotency key and applied to the payment it names. *)
From S2P Require Import Prelude Core Effects Redis Lock JsNumber Schema Database Tables Payments.
From Stdlib Require Import QArith.

#[local] Open Scope Z_scope.

(** [o?.k], with [null] as [undefined]: what [??] and [?.] look at. *)
Definition jfield (k : string) (j : option Json) : option Json :=
  match j with
  | Some o => match jget k o with Some JNull | None => None | v => v end
  | None => None
  end.

(** [sub] occurs in [s]: [s.includes(sub)]. *)
Definition str_includes (sub s : string) : bool :=
  match String.index 0 sub s with Some _ => true | None => false end.

Section webhooks.
  Context `{Redis, !Scheduler, !Crypto, !MathRandom, !Postgres, !ClientText, !NumberText,
            !JsonText, !PaymentProvider, !PaymentConfig}.

(** [String(v)] of a parsed JSON value; an array joins its elements. *)
Fixpoint js_String (v : Json) : string :=
  match v with
  | JStr s => s
  | JNum q => number_text q
  | JBool true => "true"
  | JBool false => "false"
  | JNull => "null"
  | JObj _ => "[object Object]"
  | JArr xs => join "," (map (λ x, match x with JNull => "" | _ => js_String x end) xs)
  end.

(** [v] is truthy. *)
Definition truthy (v : option Json) : bool :=
  match v with
  | None | Some JNull | Some (JBool false) | Some (JStr "") => false
  | Some (JNum q) => negb (Qeq_bool q 0)
  | Some _ => true
  end.

(** [payload.payload?.payment?.entity] *)
Definition payment_entity (payload : Json) : option Json :=
  jfield "entity" (jfield "payment" (jfield "payload" (Some payload))).

Definition is_text (v : option Json) (s : string) : bool :=
  match v with Some (JStr t) => String.eqb t s | _ => false end.

(** ** WebhookRepository *)

Definition findByIdempotency (gatewayId key : string) : M (St Db) (option PaymentWebhook) :=
  db_findFirst T_PaymentWebhook (λ w, String.eqb (wb_gateway_id w) gatewayId
    && String.eqb (wb_idempotency_key w) key && live (wb_deleted_at w)).

Definition set_webhook (st : string) (error : option string) (retries : Z) (processed : option Z)
  (w : PaymentWebhook) : PaymentWebhook :=
  mkPaymentWebhook (wb_id w) (wb_gateway_id w) (wb_event_id w) (wb_event_type w)
    (wb_idempotency_key w) (wb_signature w) (wb_payload w) st (keep error (wb_error_message w))
    (wb_retry_count w + retries) (keep processed (wb_processed_at w)) (wb_deleted_at w).

Definition mark (id st : string) (error : option string) (retries : Z) : M (St Db) PaymentWebhook :=
  now ← Date_now;
  db_update T_PaymentWebhook id
    (set_webhook st error retries (if String.eqb st "processed" then Some now else None)).

(** ** WebhookService *)

(** The status the event of type [eventType] reports for the payment [entity]. *)
Definition reported_status (eventType : string) (entity : option Json) : option PaymentStatus :=
  let status := jfield "status" entity in
  if str_includes "authorized" eventType || is_text status "authorized" then Some pm_authorized
  else if str_includes "captured" eventType || is_text status "captured" then Some pm_captured
  else if str_includes "failed" eventType || is_text status "failed" then Some pm_failed
  else None.

Definition non_empty (s : string) : option string := match s with "" => None | _ => Some s end.

(** The payment an event is about: by its gateway payment id, else by the gateway
    order. *)
Definition find_event_payment (entity : option Json) (gatewayPaymentId : string)
  : M (St Db) (option Payment) :=
  byPayment ← match gatewayPaymentId with
              | "" => mret None
              | _ => findByGatewayPaymentId gatewayPaymentId
              end;
  match byPayment with
  | Some p => mret (Some p)
  | None =>
      match jfield "order_id" entity with
      | Some orderId =>
          if truthy (Some orderId) then
            db_findFirst T_Payment (λ p, same_opt (pm_gateway_order_id p) (Some (js_String orderId))
              && live (pm_deleted_at p))
          else mret None
      | None => mret None
      end
  end.

(** The [try] block of [processWebhook]. *)
Definition process_body (row : PaymentWebhook) : M (St Db) () :=
  let entity := payment_entity (wb_payload row) in
  let gatewayPaymentId :=
    match jfield "id" entity, jfield "payment_id" entity with
    | Some v, _ => js_String v
    | None, Some v => js_String v
    | None, None => ""
    end in
  payment ← find_event_payment entity gatewayPaymentId;
  match payment with
  | Some p =>
      match reported_status (wb_event_type row) entity with
      | Some pm_failed => _ ← applyGatewayStatus (pm_id p) pm_failed None; mret tt
      | Some st =>
          _ ← applyGatewayStatus (pm_id p) st
                (keep (non_empty gatewayPaymentId) (pm_gateway_payment_id p));
          mret tt
      | None => mret tt
      end ;;
      _ ← createAudit (pm_id p) "webhook" None None None;
      mret tt
  | None => mret tt
  end ;;
  _ ← mark (wb_id row) "processed" None 0;
  emit (mkEvent "payment.webhook.processed"
    (JObj ([("webhookId", JStr (wb_id row)); ("gateway", JStr "razorpay");
            ("eventType", JStr (wb_event_type row))]
           ++ jopt "paymentId" (option_map pm_id payment)))).

Definition processWebhook (webhookId : string) : M (St Db) () :=
  row ← db_findFirst T_PaymentWebhook (λ w, String.eqb (wb_id w) webhookId
          && live (wb_deleted_at w));
  match row with
  | None => mret tt
  | Some row =>
      if String.eqb (wb_processing_status row) "processed" then mret tt
      else
        try_catch (process_body row)
          (λ err,
             _ ← mark webhookId "failed" (Some (slice0 2000 (err_string err))) 1;
             throw err)
  end.

Definition webhook_event_type (payload : Json) : string :=
  match jfield "event" (Some payload) with Some v => js_String v | None => "unknown" end.

(** [String(payload.id ?? paymentEntity?.id ?? '') || undefined] *)
Definition webhook_event_id (payload : Json) : option string :=
  non_empty (match jfield "id" (Some payload), jfield "id" (payment_entity payload) with
             | Some v, _ => js_String v
             | None, Some v => js_String v
             | None, None => ""
             end).

Definition idempotencyKey (payload : Json) : string :=
  slice0 128 (coalesce (webhook_event_id payload)
    (webhook_event_type payload +:+ ":" +:+ slice0 80 (json_stringify payload))).

Record WebhookReceipt := mkWebhookReceipt {
  wr_duplicate : bool; wr_webhookId : string; wr_requeued : bool;
}.

Definition receiveRazorpay (rawBody signature : string) (payload : Json)
  : M (St Db) WebhookReceipt :=
  found ← findGatewayByCode "razorpay";
  let gatewayId := coalesce (option_map gw_id found) RAZORPAY_GATEWAY_ID in
  throw_if (negb (gw_verifyWebhookSignature rawBody signature ""))
    (AppException UNAUTHORIZED "Invalid webhook signature" 401) ;;
  let eventType := webhook_event_type payload in
  let eventId := webhook_event_id payload in
  let key := idempotencyKey payload in
  LockService.withLock (pay_lock "webhook" key)
    (existing ← findByIdempotency gatewayId key;
     match existing with
     | Some w =>
         if String.eqb (wb_processing_status w) "processed" then
           mret (mkWebhookReceipt true (wb_id w) false)
         else
           job JOB_WEBHOOK [("webhookId", wb_id w)] ;;
           mret (mkWebhookReceipt true (wb_id w) true)
     | None =>
         row ← db_create T_PaymentWebhook (λ id, mkPaymentWebhook id gatewayId eventId
                 (slice0 120 eventType) key (slice0 512 signature) payload "verified" None 0 None
                 None);
         emit (mkEvent "payment.webhook.received"
           (JObj [("webhookId", JStr (wb_id row)); ("gateway", JStr "razorpay");
                  ("eventType", JStr eventType)])) ;;
         job JOB_WEBHOOK [("webhookId", wb_id row)] ;;
         try_catch (processWebhook (wb_id row)) (λ _, mret tt) ;;
         mret (mkWebhookReceipt false (wb_id row) false)
     end)
    (lock_opts 30000 5000).
End webhooks.
