(* ===== verification/Settlement.v ===== *)
(** * Settlement, reconciliation, disputes

    Models [backend/src/modules/payments/services/settlement.service.ts] — the
    three services of that file — and the worker of the payments queue
    ([workers/payments.worker.ts]). Amounts of a request are JavaScript numbers,
    stored ones whole hundredths; the evidence of a dispute is only stored in audit
    metadata, a column that the model leaves out. *)
From S2P Require Import Prelude Core Effects Redis Lock JsNumber Schema Database Tables Payments Webhooks.
From Stdlib Require Import QArith Qabs.

#[local] Open Scope Z_scope.

(** ** Requests ([dto/payment.dto.ts]) *)

(** [settlementDate] is the instant of the text, or [None] for no date. *)
Record CreateSettlementDto := mkCreateSettlementDto {
  st_gatewayId : string; st_settlementRef : string; st_settlementDate : option Z;
  st_expectedAmount : Q; st_receivedAmount : Q; st_feeAmount : option Q; st_taxAmount : option Q;
  st_currency : option string;
}.
Record ReconcileDto := mkReconcileDto {
  rc_settlementId : option string; rc_paymentId : option string;
  rc_gatewayReference : option string; rc_expectedAmount : Q; rc_receivedAmount : Q;
  rc_notes : option string;
}.
Record CreateDisputeDto := mkCreateDisputeDto {
  dp_paymentId : string; dp_amount : Q; dp_reason : option string;
  dp_gatewayDisputeId : option string;
}.
Record UpdateDisputeDto := mkUpdateDisputeDto { dp_status : option DisputeStatus }.

(** A DATE column keeps the day of an instant. *)
Definition date_column (t : Z) : Z := t / 86400000 * 86400000.

Definition JOB_SETTLEMENT_SYNC : string := "payment.settlement.sync".

(** [Math.abs] *)
Definition js_abs (x : Q) : Q := Qabs x.

(** The tolerance [0.01]. *)
Definition tolerance : Q := fl (1 # 100).

Section settlement.
  Context `{Redis, !Scheduler, !Crypto, !MathRandom, !Postgres, !ClientText, !NumberText,
            !JsonText, !PaymentProvider, !PaymentConfig}.

(** ** SettlementService *)

Definition settlement_status (expected received : Q) : SettlementStatus :=
  if js_lt (js_abs (js_sub expected received)) tolerance then sl_settled else sl_pending.

Definition createSettlement (actorId : string) (dto : CreateSettlementDto) : M (St Db) Json :=
  LockService.withLock (LockService.resourceKey ["payments"; "settlement"; st_settlementRef dto])
    (date ← require_ (st_settlementDate dto) (DbError (InvalidValue "settlement_date"));
     row ← db_create T_PaymentSettlement (λ id, mkPaymentSettlement id (st_gatewayId dto)
             (st_settlementRef dto) (date_column date) (coalesce (st_currency dto) "INR")
             (numeric2 (st_expectedAmount dto)) (numeric2 (st_receivedAmount dto))
             (numeric2 (coalesce (st_feeAmount dto) 0%Q)) (numeric2 (coalesce (st_taxAmount dto) 0%Q))
             (settlement_status (st_expectedAmount dto) (st_receivedAmount dto)) None);
     when_ (bool_decide (pst_status row = sl_settled))
       (emit (mkEvent "payment.settlement.completed"
         (JObj [("settlementId", JStr (pst_id row)); ("settlementRef", JStr (pst_settlement_ref row));
                ("receivedAmount", JNum (cents (pst_received_amount row)));
                ("currency", JStr (pst_currency row))]))) ;;
     job JOB_SETTLEMENT_SYNC [("settlementId", pst_id row)] ;;
     mret (JObj [("id", JStr (pst_id row)); ("settlementRef", JStr (pst_settlement_ref row));
                 ("status", JStr (SettlementStatus_text (pst_status row)));
                 ("expectedAmount", JNum (cents (pst_expected_amount row)));
                 ("receivedAmount", JNum (cents (pst_received_amount row)));
                 ("currency", JStr (pst_currency row))]))
    (lock_opts 30000 5000).

(** [...(x ? { column: x } : {})] *)
Definition filter_by (wanted : option string) (value : option string) : bool :=
  if truthy_str wanted then same_opt wanted value else true.

Definition listSettlements (gatewayId : option string) : M (St Db) Json :=
  rows ← db_findMany_desc T_PaymentSettlement (λ r, live (pst_deleted_at r)
           && filter_by gatewayId (Some (pst_gateway_id r))) pst_settlement_date;
  mret (JArr (map (λ r, JObj
    [("id", JStr (pst_id r)); ("settlementRef", JStr (pst_settlement_ref r));
     ("status", JStr (SettlementStatus_text (pst_status r)));
     ("expectedAmount", JNum (cents (pst_expected_amount r)));
     ("receivedAmount", JNum (cents (pst_received_amount r)));
     ("currency", JStr (pst_currency r)); ("settlementDate", JInt (pst_settlement_date r))])
    (take 100 rows))).

(** ** ReconciliationService *)

(** [Number((expected - received).toFixed(2))], in hundredths. *)
Definition variance (dto : ReconcileDto) : Z :=
  toFixed2 (js_sub (rc_expectedAmount dto) (rc_receivedAmount dto)).

Definition off (v : Z) : bool := js_le tolerance (js_abs (cents v)).

Definition reconcile_status (dto : ReconcileDto) : ReconciliationStatus :=
  let v := variance dto in
  let status := if off v then rc_variance else rc_matched in
  let status := if negb (truthy_str (rc_paymentId dto)) && truthy_str (rc_gatewayReference dto)
                then rc_missing_internal else status in
  if truthy_str (rc_paymentId dto) && negb (truthy_str (rc_gatewayReference dto)) && off v
  then rc_missing_gateway else status.

Definition reconcile (actorId : string) (dto : ReconcileDto) : M (St Db) Json :=
  let status := reconcile_status dto in
  now ← Date_now;
  row ← db_create T_PaymentReconciliation (λ id, mkPaymentReconciliation id (rc_settlementId dto)
          (rc_paymentId dto) (rc_gatewayReference dto) (numeric2 (rc_expectedAmount dto))
          (numeric2 (rc_receivedAmount dto)) (numeric2 (cents (variance dto))) status (rc_notes dto)
          (if bool_decide (status = rc_matched) then Some now else None) now None);
  match rc_paymentId dto with
  | Some ((String _ _) as p) => _ ← createAudit p "reconciliation" (Some actorId) None None; mret tt
  | _ => mret tt
  end ;;
  mret (JObj [("id", JStr (prc_id row)); ("status", JStr (ReconciliationStatus_text (prc_status row)));
              ("varianceAmount", JNum (cents (prc_variance_amount row)));
              ("expectedAmount", JNum (cents (prc_expected_amount row)));
              ("receivedAmount", JNum (cents (prc_received_amount row)))]).

(** [ORDER BY failed_at DESC]: NULL comes first. *)
Definition failed_payments (d : Db) : list Payment :=
  let rows := where_ (λ p, bool_decide (pm_status p = pm_failed) && live (pm_deleted_at p))
                     (view L_Payment d) in
  scan (where_ (λ p, live (pm_failed_at p)) rows)
    ++ order_desc (λ p, coalesce (pm_failed_at p) 0) (where_ (λ p, negb (live (pm_failed_at p))) rows).

Definition failedTransactionsReport (limit : nat) : M (St Db) Json :=
  rows ← gets (λ s, take limit (failed_payments (tables s)));
  gateways ← gets (λ s, view L_Gateway (tables s));
  mret (JArr (map (λ p, JObj
    ([("id", JStr (pm_id p)); ("orderId", JStr (pm_order_id p)); ("amount", JNum (cents (pm_amount p)));
      ("currency", JStr (pm_currency p))]
     ++ jopt "gateway" (option_map gw_code
          (find_first (λ g, String.eqb (gw_id g) (pm_gateway_id p)) gateways))
     ++ [("failedAt", jnull_int (pm_failed_at p))])) rows)).

Definition listReconciliations (status : option string) : M (St Db) Json :=
  rows ← db_findMany_desc T_PaymentReconciliation (λ r, live (prc_deleted_at r)
           && filter_by status (Some (ReconciliationStatus_text (prc_status r)))) prc_created_at;
  mret (JArr (map (λ r, JObj
    [("id", JStr (prc_id r)); ("status", JStr (ReconciliationStatus_text (prc_status r)));
     ("varianceAmount", JNum (cents (prc_variance_amount r)));
     ("paymentId", jnull_str (prc_payment_id r)); ("settlementId", jnull_str (prc_settlement_id r))])
    (take 100 rows))).

(** ** DisputeService *)

(** [map] *)
Definition mapDispute (r : PaymentDispute) : Json :=
  JObj [("id", JStr (pdi_id r)); ("paymentId", JStr (pdi_payment_id r));
        ("orderId", JStr (pdi_order_id r)); ("amount", JNum (cents (pdi_amount r)));
        ("currency", JStr (pdi_currency r)); ("status", JStr (DisputeStatus_text (pdi_status r)));
        ("reason", jnull_str (pdi_reason r)); ("gatewayDisputeId", jnull_str (pdi_gateway_dispute_id r));
        ("openedAt", JInt (pdi_opened_at r)); ("resolvedAt", jnull_int (pdi_resolved_at r))].

Definition createDispute (actorId : string) (dto : CreateDisputeDto) : M (St Db) Json :=
  payment ← pay_findById (dp_paymentId dto);
  payment ← require_ payment (AppException NOT_FOUND "Payment not found" 404);
  now ← Date_now;
  row ← db_create T_PaymentDispute (λ id, mkPaymentDispute id (pm_id payment) (pm_order_id payment)
          (pm_customer_id payment) (dp_gatewayDisputeId dto) (dp_reason dto)
          (numeric2 (dp_amount dto)) (pm_currency payment) dp_opened now None None);
  _ ← createAudit (pm_id payment) "dispute.create" (Some actorId) None None;
  emit (mkEvent "payment.dispute.created"
    (JObj [("disputeId", JStr (pdi_id row)); ("paymentId", JStr (pm_id payment));
           ("orderId", JStr (pm_order_id payment)); ("amount", JNum (dp_amount dto))])) ;;
  mret (mapDispute row).

Definition find_dispute (id : string) : M (St Db) PaymentDispute :=
  row ← db_findFirst T_PaymentDispute (λ r, String.eqb (pdi_id r) id && live (pdi_deleted_at r));
  require_ row (AppException NOT_FOUND "Dispute not found" 404).

(** The statuses that resolve a dispute. *)
Definition resolves (st : DisputeStatus) : bool :=
  match st with dp_won | dp_lost | dp_withdrawn => true | _ => false end.

(** The data of an update, [now] the instant of [new Date()]. *)
Definition set_dispute (st : option DisputeStatus) (now : Z) (existing : option Z) (r : PaymentDispute)
  : PaymentDispute :=
  mkPaymentDispute (pdi_id r) (pdi_payment_id r) (pdi_order_id r) (pdi_customer_id r)
    (pdi_gateway_dispute_id r) (pdi_reason r) (pdi_amount r) (pdi_currency r)
    (coalesce st (pdi_status r)) (pdi_opened_at r)
    (match st with Some s => if resolves s then Some now else existing | None => existing end)
    (pdi_deleted_at r).

Definition updateDispute (id actorId : string) (dto : UpdateDisputeDto) : M (St Db) Json :=
  existing ← find_dispute id;
  now ← Date_now;
  row ← db_update T_PaymentDispute id (set_dispute (dp_status dto) now (pdi_resolved_at existing));
  _ ← createAudit (pdi_payment_id existing) "dispute.update" (Some actorId) None None;
  mret (mapDispute row).

Definition getDispute (id : string) : M (St Db) Json :=
  row ← find_dispute id; mret (mapDispute row).

Definition listDisputes (paymentId : option string) : M (St Db) Json :=
  rows ← db_findMany_desc T_PaymentDispute (λ r, live (pdi_deleted_at r)
           && filter_by paymentId (Some (pdi_payment_id r))) pdi_opened_at;
  mret (JArr (map mapDispute (take 100 rows))).

(** ** The worker ([workers/payments.worker.ts]) *)

(** [process(job)]; the data names a webhook, or a payment and an actor. *)
Definition pay_worker (name id actorId : string) : M (St Db) () :=
  if String.eqb name JOB_WEBHOOK then processWebhook id
  else if String.eqb name JOB_RETRY then _ ← authorize id actorId false; mret tt
  else mret tt.
End settlement.
