(* ===== verification/PaymentRules.v ===== *)
(** * Payment rules: what the payment services guarantee

    The operations of [Payments] against the state machine of
    [payment-state.validator.ts]: every writing operation moves a payment
    along its edges on every path, errors included, but for two writes that do not ask
    the table: the cancellation of an expired or charged-back payment, and the status
    that a gateway event reports. A processed event is not applied again; refunds are exact to the hundredth although they are
    computed in binary64; retries are bounded. *)
From S2P Require Import Prelude Core Effects Redis Lock JsNumber Pagination Schema Database Tables Sample Payments Webhooks Settlement.
From Stdlib Require Import QArith Qabs Lqa.

#[local] Open Scope Z_scope.

(** ** Payments follow the state machine *)

(** The status stays, or takes one edge of the machine to a status of [l]. *)
Definition may (l : list PaymentStatus) (a b : PaymentStatus) : Prop :=
  a = b ∨ (allowed a b = true ∧ b ∈ l).

(** [cancel] does not consult the table: it also takes payments out of the two
    terminal statuses that it does not look at. *)
Definition may_cancel (a b : PaymentStatus) : Prop :=
  may [pm_cancelled] a b ∨ ((a = pm_expired ∨ a = pm_chargeback) ∧ b = pm_cancelled).

(** A retry is up to three moves: back to pending, the authorization, the capture. *)
Definition may_retry (a b : PaymentStatus) : Prop :=
  ∃ x y, may [pm_pending] a x ∧ may [pm_authorized; pm_failed] x y
         ∧ may [pm_captured; pm_failed] y b.

(** Nor does [applyGatewayStatus]: the status stays, or is the one reported. *)
Definition reported_by (reported : option PaymentStatus) (a b : PaymentStatus) : Prop :=
  a = b ∨ reported = Some b.

(** Payment ids are unique. *)
Definition pays_ok (d : Db) : Prop := NoDup (map pm_id (view L_Payment d)).

(** Every payment of [d] is in [d'], its status moved as [R] says. *)
Definition follows (R : PaymentStatus → PaymentStatus → Prop) (d d' : Db) : Prop :=
  pays_ok d' ∧ ∀ p, p ∈ view L_Payment d →
    ∃ p', p' ∈ view L_Payment d' ∧ pm_id p' = pm_id p ∧ R (pm_status p) (pm_status p').

Definition same_pay (d d' : Db) : Prop := view L_Payment d' = view L_Payment d.

#[export] Instance same_pay_preorder : PreOrder same_pay.
Proof. split; unfold same_pay; [done|intros ???; congruence]. Qed.

#[export] Instance may_reflexive l : Reflexive (may l).
Proof. by left. Qed.
#[export] Instance may_cancel_reflexive : Reflexive may_cancel.
Proof. by left. Qed.
#[export] Instance may_retry_reflexive : Reflexive may_retry.
Proof. intros a. by exists a, a. Qed.
#[export] Instance reported_by_reflexive r : Reflexive (reported_by r).
Proof. by left. Qed.
#[export] Hint Resolve may_reflexive may_cancel_reflexive may_retry_reflexive
  reported_by_reflexive : core.

Lemma may_edge (l : list PaymentStatus) a b : allowed a b = true → b ∈ l → may l a b.
Proof. by right. Qed.

Lemma follows_same (R : PaymentStatus → PaymentStatus → Prop) `{!Reflexive R} d d' :
  pays_ok d → same_pay d d' → follows R d d'.
Proof.
  intros Hok Hs. unfold follows, pays_ok. rewrite Hs. split; [done|].
  intros p Hp. by exists p.
Qed.

Lemma follows_comp (R1 R2 R : PaymentStatus → PaymentStatus → Prop) d d' d'' :
  (∀ a b c, R1 a b → R2 b c → R a c) → follows R1 d d' → follows R2 d' d'' → follows R d d''.
Proof.
  intros HR [_ H1] [Hok H2]. split; [done|]. intros p Hp.
  destruct (H1 p Hp) as (p1 & Hp1 & E1 & R1'). destruct (H2 p1 Hp1) as (p2 & Hp2 & E2 & R2').
  exists p2. split_and!; [done|congruence|by eapply HR].
Qed.

Lemma follows_mono (R R' : PaymentStatus → PaymentStatus → Prop) d d' :
  (∀ a b, R a b → R' a b) → follows R d d' → follows R' d d'.
Proof. intros HR [Hok Hf]. split; [done|]. intros p (p' & ? & ? & ?)%Hf. exists p'. auto. Qed.

Lemma follows_then R d d' d'' : follows R d d' → same_pay d' d'' → follows R d d''.
Proof.
  intros [Hok Hf] Hs. apply (follows_comp R eq R d d'); [by intros a b c ? ->|done|].
  by apply follows_same; [apply _|..].
Qed.

Lemma follows_after R d d' d'' : same_pay d d' → follows R d' d'' → follows R d d''.
Proof. intros Hs [Hok Hf]. split; [done|]. intros p Hp. apply Hf. by rewrite Hs. Qed.

(** An update of one payment. *)
Lemma follows_update R `{!Reflexive R} d p f :
  pays_ok d → p ∈ view L_Payment d → (∀ q, pm_id (f q) = pm_id q) →
  R (pm_status p) (pm_status (f p)) →
  follows R d (put L_Payment (update_rows pm_id (pm_id p) f (view L_Payment d)) d).
Proof.
  intros Hok Hp Hid He. split.
  - unfold pays_ok. rewrite view_put. by rewrite update_rows_keys.
  - intros q Hq. rewrite view_put. destruct (decide (pm_id q = pm_id p)) as [E|E].
    + assert (q = p) as -> by (by apply (NoDup_key_eq pm_id (view L_Payment d))).
      exists (f p). split_and!; [|apply Hid|done].
      apply list_elem_of_fmap. exists p. split; [|done]. by rewrite String.eqb_refl.
    + exists q. split_and!; [|done|done].
      apply list_elem_of_fmap. exists q. split; [|done].
      by destruct (String.eqb_spec (pm_id q) (pm_id p)).
Qed.

Section rules.
Context `{Redis, !Scheduler, !Crypto, !MathRandom, !Postgres, !ClientText, !NumberText,
          !PaymentProvider, !PaymentConfig}.

Notation keeps_pay := (stays (on_tables same_pay)).

Lemma gateway_tables {A} (call : Env → outcome A * Env) :
  stays (framing tables) (gateway call).
Proof. intros s. unfold gateway, framing. by destruct (call (env s)). Qed.

Lemma withRetry_from_tables {A} n i k (fn : M (St Db) A) :
  stays (framing tables) fn → stays (framing tables) (withRetry_from n i k fn).
Proof.
  intros Hf. revert i. induction n as [|n IH]; intros i; simpl; [by apply stays_throw, _|].
  apply stays_try_catch; [apply _|done|]. intros e. destruct (_ || _); [apply stays_throw, _|].
  apply stays_bind; [apply _|apply sleep_tables|intros []; apply IH].
Qed.

Lemma invalidatePayment_tables id oid : stays (framing tables) (invalidatePayment id oid).
Proof. unfold invalidatePayment. eauto with kept typeclass_instances. Qed.

Lemma createAttempt_pay id n e st : keeps_pay (createAttempt id n e st).
Proof. unfold createAttempt. staying fail. Qed.
Lemma createTransaction_pay p t n r : keeps_pay (createTransaction p t n r).
Proof. unfold createTransaction. staying fail. Qed.
Lemma createEvent_pay id e : keeps_pay (createEvent id e).
Proof. unfold createEvent. staying fail. Qed.
Lemma audit_pay id a o f t : keeps_pay (audit id a o f t).
Proof. unfold audit, createAudit. staying fail. Qed.
Lemma job_pay n fs : keeps_pay (job n fs).
Proof. unfold job. staying fail. Qed.
Lemma invalidatePayment_pay id oid : keeps_pay (invalidatePayment id oid).
Proof. apply stays_env; [apply _|apply invalidatePayment_tables]. Qed.
Lemma confirm_pay oid a : keeps_pay (confirmPendingOrderAfterCapture oid a).
Proof. unfold confirmPendingOrderAfterCapture, db_findFirst, Date_now. staying fail. Qed.
Lemma view_of_tables p : stays (framing tables) (view_of p).
Proof. apply stays_gets, _. Qed.

(** The rest of an operation, once its payment is updated. *)
Ltac rest_same :=
  staying ltac:(first [apply createAttempt_pay | apply createTransaction_pay
    | apply createEvent_pay | apply audit_pay | apply job_pay | apply invalidatePayment_pay
    | apply confirm_pay | apply stays_env; [apply _|apply view_of_tables] ]).

Lemma dwp_requirePayment id Q d :
  (∀ p, p ∈ view L_Payment d → pm_id p = id → pm_deleted_at p = None → Q (Ok p) d) →
  (∀ e, Q (Throw e) d) → dwp (requirePayment id) Q d.
Proof.
  intros HO HE. unfold requirePayment, pay_findById. dwp_step; dwp_step; auto; simplify_eq.
  bool_to_prop. destruct (pm_deleted_at _) eqn:?; [done|]. auto.
Qed.

(** [update(payment.id, ...)] of a payment that was read. *)
Lemma dwp_pay_update R `{!Reflexive R} p f Q d :
  pays_ok d → p ∈ view L_Payment d → (∀ q, pm_id (f q) = pm_id q) →
  R (pm_status p) (pm_status (f p)) →
  (∀ k, Q (Throw (DbError k)) d) →
  (∀ d', refused T_Payment d (f p) = None →
     d' = put L_Payment (update_rows pm_id (pm_id p) f (view L_Payment d)) d →
     follows R d d' → Q (Ok (f p)) d') →
  dwp (pay_update (pm_id p) f) Q d.
Proof.
  intros Hok Hp Hid He HE HO. unfold pay_update. dwp_step; [apply HE|].
  assert (r = p) as -> by (by apply (NoDup_key_eq pm_id (view L_Payment d))).
  apply HO; [done|done|]. by apply follows_update.
Qed.

(** A continuation that leaves the payments alone keeps what was followed. *)
Lemma dwp_follows {A} R (m : M (St Db) A) d0 d :
  keeps_pay m → follows R d0 d → dwp m (λ _ d', follows R d0 d') d.
Proof.
  intros Hm Hf. apply (dwp_stays same_pay); [done|]. intros o d' Hs. by eapply follows_then.
Qed.

Lemma markFailed_follows {A} R `{!Reflexive R} p a r d :
  pays_ok d → p ∈ view L_Payment d → R (pm_status p) pm_failed →
  dwp (markFailed (A := A) p a r) (λ _ d', follows R d d') d.
Proof.
  intros Hok Hp He. unfold markFailed, Date_now.
  apply dwp_bind, dwp_env; [apply stays_gets, _|]. intros [now|e]; [|by apply follows_same].
  apply dwp_bind, (dwp_pay_update R); [done|done|done|done| |].
  - intros k. by apply follows_same.
  - intros d' _ _ Hf. apply dwp_follows; [|done]. unfold payment_event. rest_same.
Qed.

Lemma dwp_withLock_keep {A} resource (m : M (St Db) A) options (I : Db → Prop) d :
  I d → dwp m (λ _ d', I d') d → dwp (LockService.withLock resource m options) (λ _ d', I d') d.
Proof. intros Hd Hm. apply dwp_withLock; [done|]. eapply dwp_mono; [done|]. by intros. Qed.

Lemma withRetry_env {A} (call : Env → outcome A * Env) Q d :
  (∀ o, Q o d) → dwp (withRetry (gateway call)) Q d.
Proof. intros HQ. apply dwp_env; [|done]. apply withRetry_from_tables, gateway_tables. Qed.

Lemma allowed_authorized st : allowed st pm_authorized = true → st = pm_pending.
Proof. by destruct st. Qed.

Lemma allowed_captured st :
  allowed st pm_captured = true → allowed st pm_failed = true.
Proof. by destruct st. Qed.

Lemma dwp_access (c : bool) o a Q d :
  (∀ e, Q (Throw e) d) → Q (Ok tt) d → dwp (when_ c (assertCanAccess o a)) Q d.
Proof. intros HE HO. unfold assertCanAccess. dwp_step; [dwp_step|]; auto. Qed.

Lemma dwp_assertTransition a b (Q : outcome () → Db → Prop) d :
  (∀ e, Q (Throw e) d) → (allowed a b = true → Q (Ok tt) d) → dwp (assertTransition a b) Q d.
Proof. intros HE HO. unfold assertTransition. dwp_step; [auto|]. bool_to_prop. auto. Qed.

Lemma authorize_body_follows p a n d :
  pays_ok d → p ∈ view L_Payment d → pm_status p = pm_pending →
  dwp (authorize_body p a n) (λ o d', match o with
    | Ok returned => dwp returned (λ _ d'', follows (may [pm_authorized; pm_failed]) d d'') d'
    | Throw _ => follows (may [pm_authorized; pm_failed]) d d' end) d.
Proof.
  intros Hok Hp Hst. unfold authorize_body. dwp_step; [|by apply follows_same].
  apply dwp_bind, withRetry_env. intros [res|e]; [|by apply follows_same].
  (* a continuation that touches no payment and returns a view *)
  assert (∀ d1 (m : M (St Db) (M (St Db) PaymentView)), follows (may [pm_authorized; pm_failed]) d d1 → keeps_pay m →
    results (stays (framing tables)) m →
    dwp m (λ o d', match o with
      | Ok returned => dwp returned (λ _ d'', follows (may [pm_authorized; pm_failed]) d d'') d'
      | Throw _ => follows (may [pm_authorized; pm_failed]) d d' end) d1) as Hrest.
  { intros d1 m Hf Hm Hr. apply (dwp_results same_pay (stays (framing tables))); [done|done| |].
    - intros ret d' Hret Hs. apply dwp_env; [done|]. intros _. by eapply follows_then.
    - intros e d' Hs. by eapply follows_then. }
  pose proof (follows_same (may [pm_authorized; pm_failed]) d d Hok (reflexivity d)) as Hrefl.
  assert (∀ b, dwp (if b : bool then mret (markFailed p a "Authorization failed")
    else
      now ← Date_now;
      updated ← pay_update (pm_id p) (λ p0, pay_times (Some now) None None
                  (pay_gateway (Some (au_gatewayPaymentId res)) (au_gatewaySignature res)
                     (pay_status pm_authorized p0)));
      _ ← createTransaction p "authorize" (pm_amount p) (Some (au_gatewayPaymentId res));
      _ ← createAttempt (pm_id p) n None pm_authorized;
      audit (pm_id p) "authorize" (Some a) (Some (pm_status p)) (Some pm_authorized) ;;
      _ ← createEvent (pm_id p) "payment.authorized";
      payment_event "payment.authorized" p pm_authorized [] ;;
      invalidatePayment (pm_id p) (pm_order_id p) ;;
      mret (view_of updated)) (λ o d', match o with
    | Ok returned => dwp returned (λ _ d'', follows (may [pm_authorized; pm_failed]) d d'') d'
    | Throw _ => follows (may [pm_authorized; pm_failed]) d d' end) d) as Hdecided.
  { intros [].
    - apply dwp_ret. apply markFailed_follows; [apply _|done|done|]. rewrite Hst. right. split; [done|set_solver].
    - apply dwp_bind, dwp_env; [apply stays_gets, _|]. intros [now|e]; [|done].
      apply dwp_bind, (dwp_pay_update (may [pm_authorized; pm_failed])); [done|done|done| |done|].
      + simpl. rewrite Hst. right. split; [done|set_solver].
      + intros d' _ _ Hf. apply Hrest; [done| |].
        * unfold payment_event. rest_same.
        * repeat (apply results_bind; intros ?). apply results_ret, view_of_tables. }
  destruct (au_status res); [apply Hdecided| |apply Hdecided].
  apply Hrest; [done|rest_same|]. apply results_bind. intros _. apply results_ret, view_of_tables.
Qed.

Lemma authorize_follows id a adm d :
  pays_ok d → dwp (authorize id a adm) (λ _ d', follows (may [pm_authorized; pm_failed]) d d') d.
Proof.
  intros Hok. pose proof (follows_same (may [pm_authorized; pm_failed]) d d Hok (reflexivity d)) as Hrefl.
  unfold authorize. apply dwp_withLock_keep; [done|].
  apply dwp_bind, dwp_requirePayment; [intros p Hp <- _|done].
  apply dwp_bind, dwp_access; [done|].
  apply dwp_bind, dwp_assertTransition; [done|]. intros Ha%allowed_authorized.
  unfold nextAttemptNumber. apply dwp_bind, (dwp_stays same_pay); [unfold db_findMany; rest_same|].
  intros [n|e] d1 Hs1; [|by eapply follows_then].
  assert (pays_ok d1) as Hok1 by (unfold pays_ok; by rewrite Hs1).
  apply dwp_bind, dwp_try_catch.
  eapply dwp_mono; [apply authorize_body_follows; [done|by rewrite Hs1|done]|].
  intros [ret|e] d2 Hret.
  - eapply dwp_mono; [exact Hret|]. intros o d3 Hf.
    by eapply follows_after.
  - apply (dwp_results same_pay (λ _, False)); [rest_same| |done|].
    + apply results_bind. intros _. apply results_throw.
    + intros e' d3 Hs3. eapply follows_then; [|done]. by eapply follows_after.
Qed.

Lemma capture_follows id a adm d :
  pays_ok d → dwp (capture id a adm) (λ _ d', follows (may [pm_captured; pm_failed]) d d') d.
Proof.
  intros Hok. pose proof (follows_same (may [pm_captured; pm_failed]) d d Hok (reflexivity d)) as Hrefl.
  unfold capture. apply dwp_withLock_keep; [done|].
  apply dwp_bind, dwp_requirePayment; [intros p Hp <- _|done].
  apply dwp_bind, dwp_access; [done|].
  destruct (bool_decide _); [by apply dwp_env; [apply view_of_tables|]|].
  apply dwp_bind, dwp_assertTransition; [done|]. intros Ha.
  assert (∀ now (k : Payment → M (St Db) PaymentView), (∀ q, keeps_pay (k q)) →
    dwp (updated ← pay_update (pm_id p)
           (λ p0, pay_times None (Some now) None (pay_status pm_captured p0)); k updated)
      (λ _ d', follows (may [pm_captured; pm_failed]) d d') d) as Hupd.
  { intros now k Hk. apply dwp_bind, (dwp_pay_update (may [pm_captured; pm_failed])); [done|done|done| |done|].
    - simpl. right. split; [done|set_solver].
    - intros d' _ _ Hf. by apply dwp_follows. }
  assert (dwp (if pm_amount p =? 0 then
           now ← Date_now;
           updated ← pay_update (pm_id p)
                       (λ p0, pay_times None (Some now) None (pay_status pm_captured p0));
           audit (pm_id p) "capture" (Some a) (Some (pm_status p)) (Some pm_captured) ;;
           view_of updated
         else throw (AppException CONFLICT "Payment not authorized" 409))
      (λ _ d', follows (may [pm_captured; pm_failed]) d d') d) as Hfree.
  { destruct (_ =? _); [|by apply dwp_throw].
    apply dwp_bind, dwp_env; [apply stays_gets, _|]. intros [now|e]; [|done].
    apply Hupd. intros q. rest_same. }
  destruct (pm_gateway_payment_id p) as [[|c g]|]; [done| |done].
  apply dwp_bind, withRetry_env. intros [res|e]; [|done].
  destruct (negb _); [apply markFailed_follows; [apply _|done|done|]; right; split; [by apply allowed_captured|set_solver]|].
  apply dwp_bind, dwp_env; [apply stays_gets, _|]. intros [now|e]; [|done].
  apply Hupd. intros q. unfold payment_event. rest_same.
Qed.

Lemma cancel_follows id a adm d :
  pays_ok d → dwp (cancel id a adm) (λ _ d', follows may_cancel d d') d.
Proof.
  intros Hok. pose proof (follows_same may_cancel d d Hok (reflexivity d)) as Hrefl.
  unfold cancel. apply dwp_withLock_keep; [done|].
  apply dwp_bind, dwp_requirePayment; [intros p Hp <- _|done].
  apply dwp_bind, dwp_access; [done|].
  assert (∀ k : Payment → M (St Db) PaymentView, (∀ q, keeps_pay (k q)) →
    may_cancel (pm_status p) pm_cancelled →
    dwp (_ ← gateway (gw_cancel (pm_gateway_payment_id p) (pm_gateway_order_id p)
               (cents (pm_amount p)) (pm_currency p));
         updated ← pay_update (pm_id p) (pay_status pm_cancelled); k updated)
      (λ _ d', follows may_cancel d d') d) as Hupd.
  { intros k Hk He. apply dwp_bind, dwp_env; [apply gateway_tables|]. intros [st|e]; [|done].
    apply dwp_bind, (dwp_pay_update may_cancel); [done|done|done|done|done|].
    intros d' _ _ Hf. by apply dwp_follows. }
  destruct (pm_status p) eqn:Hst; try done;
    try (by apply dwp_throw); try (by apply dwp_env; [apply view_of_tables|]);
    (apply Hupd; [intros q; unfold payment_event; rest_same|first [by right; split; [auto|]|by left; right; split; [|set_solver]]]).
Qed.

Lemma refund_body_follows p r a n dto g al tot d :
  pays_ok d → p ∈ view L_Payment d →
  pm_status p = pm_captured ∨ pm_status p = pm_partially_refunded →
  dwp (refund_body p r a n dto g al tot) (λ _ d', follows (may [pm_refunded; pm_partially_refunded]) d d') d.
Proof.
  intros Hok Hp Hst. pose proof (follows_same (may [pm_refunded; pm_partially_refunded]) d d Hok (reflexivity d)) as Hrefl.
  unfold refund_body. apply dwp_bind, dwp_env; [apply gateway_tables|]. intros [res|e]; [|done].
  apply dwp_bind, dwp_env; [apply stays_gets, _|]. intros [now|e]; [|done].
  apply dwp_bind, (dwp_stays same_pay); [rest_same|].
  intros [r1|e] d1 Hs1; [|by apply follows_same].
  apply dwp_bind, (dwp_stays same_pay); [rest_same|].
  intros [t|e] d2 Hs2; (assert (same_pay d d2) as Hs by (by etransitivity)); [|by apply follows_same].
  assert (pays_ok d2) as Hok2 by (unfold pays_ok; by rewrite Hs).
  apply dwp_bind, (dwp_pay_update (may [pm_refunded; pm_partially_refunded])); [done|by rewrite Hs|done| |by intros; apply follows_same; [apply _|..]|].
  - simpl. destruct Hst as [->| ->], (js_le _ _); (right; split; [done|set_solver]).
  - intros d' _ _ Hf. apply dwp_follows; [unfold payment_event; rest_same|].
    by eapply follows_after.
Qed.

Lemma refund_follows id a dto adm d :
  pays_ok d → dwp (refund id a dto adm) (λ _ d', follows (may [pm_refunded; pm_partially_refunded]) d d') d.
Proof.
  intros Hok. pose proof (follows_same (may [pm_refunded; pm_partially_refunded]) d d Hok (reflexivity d)) as Hrefl.
  unfold refund. apply dwp_withLock_keep; [done|].
  apply dwp_bind, dwp_requirePayment; [intros p Hp <- _|done].
  do 3 (dwp_step; [done|]). apply dwp_bind, dwp_env; [apply stays_gets, _|].
  intros [now|e]; [|done]. apply dwp_bind, dwp_env; [apply draw_tables|]. intros [rnd|e]; [|done].
  apply dwp_bind, (dwp_stays same_pay); [rest_same|].
  intros [r|e] d1 Hs1; [|by apply follows_same].
  apply dwp_bind, (dwp_stays same_pay); [unfold create_refund_item; rest_same|].
  intros [[]|e] d2 Hs2; (assert (same_pay d d2) as Hs by (by etransitivity)); [|by apply follows_same].
  dwp_step; [|by apply follows_same].
  assert (pays_ok d2) as Hok2 by (unfold pays_ok; by rewrite Hs).
  assert (pm_status p = pm_captured ∨ pm_status p = pm_partially_refunded) as Hst.
  { destruct (pm_status p); auto; done. }
  apply dwp_try_catch. eapply dwp_mono;
    [apply (refund_body_follows p); [done|by rewrite Hs|done]|].
  intros o d3 Hf. assert (follows (may [pm_refunded; pm_partially_refunded]) d d3) as Hf' by (by eapply follows_after).
  destruct o as [r'|e]; [done|]. apply dwp_follows; [rest_same|done].
Qed.

Lemma voidOrCancel_follows id a d :
  pays_ok d → dwp (voidOrCancel id a) (λ _ d', follows may_cancel d d') d.
Proof.
  intros Hok. pose proof (follows_same may_cancel d d Hok (reflexivity d)) as Hrefl.
  unfold voidOrCancel, pay_findById. dwp_step; [|by apply dwp_ret].
  assert (dwp (try_catch (_ ← cancel id a false; mret tt) (λ _, mret tt))
            (λ _ d', follows may_cancel d d') d) as Hcancel.
  { apply dwp_try_catch, dwp_bind. eapply dwp_mono; [by apply cancel_follows|].
    intros [v|e] d' Hf; by apply dwp_ret. }
  destruct (pm_status _); try done; by apply dwp_ret.
Qed.

(** A move after the retried payment is back to pending, or was there. *)
Lemma retry_tail_follows id a d0 d :
  follows (may [pm_pending]) d0 d →
  dwp (authorized ← authorize id a false;
       if bool_decide (pv_status_ authorized = pm_authorized) then capture id a false
       else mret authorized) (λ _ d', follows may_retry d0 d') d.
Proof.
  intros Hf. apply dwp_bind. eapply dwp_mono; [apply authorize_follows, Hf|].
  assert (∀ d', follows (may [pm_authorized; pm_failed]) d d' → follows may_retry d0 d') as Hmid.
  { intros d' Hf'. eapply follows_comp; [|exact Hf|exact Hf']. intros x y z. by exists y, z. }
  intros [v|e] d1 Hf1; [|by apply Hmid].
  destruct (bool_decide _); [|by apply dwp_ret, Hmid].
  eapply dwp_mono; [apply capture_follows, Hf1|]. intros o d2 Hf2.
  apply (follows_comp (may [pm_pending])
           (λ x z, ∃ y, may [pm_authorized; pm_failed] x y ∧ may [pm_captured; pm_failed] y z) _ d0 d).
  - intros x y z Hx (y' & Hy & Hz). by exists y, y'.
  - done.
  - eapply follows_comp; [|exact Hf1|exact Hf2]. intros x y z. by exists y.
Qed.

Lemma retry_follows id a d :
  pays_ok d → dwp (retry id a) (λ _ d', follows may_retry d d') d.
Proof.
  intros Hok. pose proof (follows_same may_retry d d Hok (reflexivity d)) as Hrefl.
  unfold retry. apply dwp_bind, dwp_requirePayment; [intros p Hp <- _|done].
  unfold assertCanAccess. dwp_step; [done|]. dwp_step; [done|].
  apply dwp_bind, dwp_env; [apply enqueue_tables|]. intros [[]|e]; [|done].
  apply dwp_bind. dwp_step; [|by apply retry_tail_follows, follows_same; [apply _|..]]. bool_to_prop.
  apply dwp_bind, (dwp_pay_update (may [pm_pending])); [done|done|done| |done|].
  - match goal with E : pm_status p = _ |- _ => simpl; rewrite E end.
    right. split; [done|set_solver].
  - intros d' _ _ Hf. apply dwp_ret. by apply retry_tail_follows.
Qed.

Lemma create_follows a dto d : pays_ok d → dwp (create a dto) (λ _ d', follows eq d d') d.
Proof.
  intros Hok. pose proof (follows_same eq d d Hok (reflexivity d)) as Hrefl.
  unfold create. dwp_step; (dwp_step; [|done]); [|done].
  apply dwp_bind, (dwp_stays same_pay); [unfold assertAdminOrOwner; rest_same|].
  intros [[]|e] d1 Hs1; [|by apply follows_same].
  assert (follows eq d d1) as Hf1 by (by apply follows_same).
  dwp_step; [done|].
  apply dwp_bind, (dwp_stays same_pay); [unfold findPrimaryGateway, db_findFirst; rest_same|].
  intros [g|e] d2 Hs2; [|by eapply follows_then].
  apply dwp_bind, (dwp_stays same_pay); [unfold findGatewayByCode, db_findFirst; rest_same|].
  intros [g'|e] d3 Hs3; (assert (same_pay d1 d3) as Hs13 by (by etransitivity));
    [|by eapply follows_then].
  assert (follows eq d d3) as Hf3 by (by eapply follows_then).
  dwp_step; [|done]. apply dwp_bind, withRetry_env. intros [oid|e]; [|done].
  dwp_step; [done|].
  apply dwp_follows; [unfold payment_event; rest_same|].
  assert (same_pay d d3) as Hs by (by etransitivity). apply (follows_after _ _ d3); [done|].
  pose proof (proj1 Hf3) as Hok3. split.
  - unfold pays_ok. rewrite view_put. apply NoDup_snoc; [exact Hok3|done].
  - intros p Hp. exists p. split_and!; [|done|done]. rewrite view_put. set_solver.
Qed.
End rules.

(** ** Gateway events and the rest of the services *)
Section events.
Context `{Redis, !Scheduler, !Crypto, !MathRandom, !Postgres, !ClientText, !NumberText,
          !JsonText, !PaymentProvider, !PaymentConfig}.

Notation keeps_pay := (stays (on_tables same_pay)).

(** The status that a stored event reports. *)
Definition event_status (row : PaymentWebhook) : option PaymentStatus :=
  reported_status (wb_event_type row) (payment_entity (wb_payload row)).

(** The status reported by a stored event of this id that was not processed yet. *)
Definition stored_report (id : string) (d : Db) (a b : PaymentStatus) : Prop :=
  a = b ∨ ∃ row, row ∈ view L_PaymentWebhook d ∧ wb_id row = id ∧
    wb_processing_status row ≠ "processed" ∧ event_status row = Some b.

#[export] Instance stored_report_reflexive id d : Reflexive (stored_report id d).
Proof. by left. Qed.
#[local] Hint Resolve stored_report_reflexive : core.

Lemma applyGatewayStatus_follows id st g d :
  pays_ok d → dwp (applyGatewayStatus id st g) (λ _ d', follows (reported_by (Some st)) d d') d.
Proof.
  intros Hok. pose proof (follows_same (reported_by (Some st)) d d Hok (reflexivity d)) as Hrefl.
  unfold applyGatewayStatus. apply dwp_bind, dwp_requirePayment; [intros p Hp <- _|done].
  apply dwp_bind, dwp_env; [apply stays_gets, _|]. intros [now|e]; [|done].
  apply dwp_bind, (dwp_pay_update (reported_by (Some st))); [done|done|done|by right|done|].
  intros d' _ _ Hf. apply dwp_follows; [|done].
  staying ltac:(first [apply audit_pay | apply createEvent_pay | apply invalidatePayment_pay]).
Qed.

Lemma mark_pay id st e n : keeps_pay (mark id st e n).
Proof. unfold mark. staying fail. Qed.

Lemma find_event_payment_pay e g : keeps_pay (find_event_payment e g).
Proof. unfold find_event_payment, findByGatewayPaymentId. staying fail. Qed.

Lemma process_body_follows row d :
  pays_ok d → dwp (process_body row) (λ _ d', follows (reported_by (event_status row)) d d') d.
Proof.
  intros Hok. pose proof (follows_same (reported_by (event_status row)) d d Hok (reflexivity d)) as Hrefl.
  unfold process_body. apply dwp_bind, (dwp_stays same_pay); [apply find_event_payment_pay|].
  intros [pay|e] d1 Hs; [|by apply follows_same].
  apply dwp_bind. eapply dwp_mono with (Q := λ _ d', follows (reported_by (event_status row)) d d').
  - assert (follows (reported_by (event_status row)) d d1) as Hf by (by apply follows_same).
    destruct pay as [p|]; [|by apply dwp_ret].
    assert (∀ st g, event_status row = Some st →
      dwp (_ ← applyGatewayStatus (pm_id p) st g; mret tt)
        (λ _ d', follows (reported_by (event_status row)) d d') d1) as Happly.
    { intros st g ->. apply dwp_bind. eapply dwp_mono; [apply applyGatewayStatus_follows, Hf|].
      intros [r|e] d2 Hf2; [apply dwp_ret|]; by eapply follows_after. }
    apply dwp_bind. eapply dwp_mono with (Q := λ _ d', follows (reported_by (event_status row)) d d').
    + fold (event_status row). destruct (event_status row) as [[]|]; try (by apply Happly); by apply dwp_ret.
    + intros [[]|e] d2 Hf2; [|done]. apply dwp_follows; [unfold createAudit; staying fail|done].
  - intros [[]|e] d2 Hf2; [|done]. apply dwp_follows; [|done].
    staying ltac:(apply mark_pay).
Qed.

Lemma processWebhook_follows id d :
  pays_ok d → dwp (processWebhook id) (λ _ d', follows (stored_report id d) d d') d.
Proof.
  intros Hok. pose proof (follows_same (stored_report id d) d d Hok (reflexivity d)) as Hrefl.
  unfold processWebhook. apply dwp_bind, dwp_findFirst; [intros row Hrow Hp|by intros; apply dwp_ret].
  bool_to_prop. subst id. destruct (String.eqb_spec (wb_processing_status row) "processed"); [by apply dwp_ret|].
  assert (∀ d', follows (reported_by (event_status row)) d d' → follows (stored_report (wb_id row) d) d d') as Hst.
  { intros d'. apply follows_mono. intros a b [->|E]; [by left|]. right. by exists row. }
  apply dwp_try_catch. eapply dwp_mono; [by apply process_body_follows|].
  intros [[]|e] d' Hf; [by apply Hst|]. apply dwp_follows; [|by apply Hst].
  staying ltac:(apply mark_pay).
Qed.

(** The status that a received event reports; the column keeps 120 characters of its type. *)
Definition received_status (payload : Json) : option PaymentStatus :=
  reported_status (slice0 120 (webhook_event_type payload)) (payment_entity payload).

Lemma receiveRazorpay_follows body sig payload d :
  pays_ok d → dwp (receiveRazorpay body sig payload)
    (λ _ d', follows (reported_by (received_status payload)) d d') d.
Proof.
  intros Hok. set (R := reported_by (received_status payload)).
  assert (Reflexive R) as HR by apply _.
  pose proof (follows_same R d d Hok (reflexivity d)) as Hrefl.
  unfold receiveRazorpay, findGatewayByCode, db_findFirst.
  apply dwp_bind, dwp_env; [apply stays_gets, _|]. intros [found|e]; [|done].
  dwp_step; [done|]. apply dwp_withLock_keep; [done|]. unfold findByIdempotency.
  apply dwp_bind, dwp_findFirst; [intros w _ _|intros _].
  { destruct (String.eqb _ _); [by apply dwp_ret|]. apply dwp_follows; [staying ltac:(apply job_pay)|done]. }
  apply dwp_bind, dwp_create; [done|]. intros id Hid Hnew. cbn [tbl T_PaymentWebhook pk] in *.
  set (row := mkPaymentWebhook id _ _ _ _ _ _ _ _ _ _ _) in *. set (d1 := put _ _ d).
  assert (same_pay d d1) as Hs1 by done.
  assert (view L_PaymentWebhook d1 = view L_PaymentWebhook d ++ [row]) as Hv by apply view_put.
  assert (follows R d d1) as Hf1 by (by apply follows_same).
  apply dwp_bind, dwp_env; [apply emit_tables|]. intros [[]|e]; [|done].
  apply dwp_bind, dwp_env; [apply enqueue_tables|]. intros [[]|e]; [|done].
  apply dwp_bind, dwp_try_catch. eapply dwp_mono; [apply processWebhook_follows, Hf1|].
  assert (∀ d2, follows (stored_report (wb_id row) d1) d1 d2 → follows R d d2) as Hst.
  { intros d2 Hf. eapply follows_after; [done|]. revert Hf. apply follows_mono.
    intros a b [->|(row' & Hr & Ei & _ & Ev)]; [by left|]. right.
    rewrite Hv in Hr. apply elem_of_app in Hr as [Hr| ->%list_elem_of_singleton]; [|exact Ev].
    destruct Hid. apply list_elem_of_fmap. by exists row'. }
  intros [[]|e] d2 Hf; [by apply dwp_ret, Hst|]. apply dwp_ret, dwp_ret. by apply Hst.
Qed.
End events.

(** ** Refund arithmetic

    The service compares and adds amounts in binary64 with a tolerance of 0.001.
    For amounts within NUMERIC(14, 2) the rounding stays below the tolerance, so
    the comparisons are those of the exact hundredths. *)
Section arithmetic.
(** The largest number of hundredths a NUMERIC(14, 2) column holds, plus one. *)
Definition money_bound : Z := 10 ^ 14.

Definition in_range (c : Z) : Prop := 0 <= c ∧ c < money_bound.

Lemma fl_near x : (Qabs x <= inject_Z (2 ^ 40))%Q →
  (x - (1 # 8192) <= fl x)%Q ∧ (fl x <= x + (1 # 8192))%Q.
Proof.
  intros Hx. pose proof (fl_error_bound (2 ^ 40) x Hx) as [Hl Hu].
  assert (inject_Z (2 ^ 40) / inject_Z (2 ^ 53) == 1 # 8192)%Q as E by reflexivity.
  rewrite E in Hl, Hu. done.
Qed.

Lemma hundredths_bound c : in_range c →
  (0 <= inject_Z c * (1 # 100))%Q ∧ (inject_Z c * (1 # 100) < inject_Z (10 ^ 12))%Q.
Proof.
  intros [H0 H1]. unfold money_bound in H1. split.
  - apply Qmult_le_0_compat; [|done]. by rewrite (Zle_Qle 0) in H0.
  - rewrite Zlt_Qlt in H1.
    assert (inject_Z (10 ^ 12) == inject_Z (10 ^ 14) * (1 # 100))%Q as -> by reflexivity.
    apply Qmult_lt_compat_r; [done|done].
Qed.

Lemma cents_near c : in_range c →
  (inject_Z c * (1 # 100) - (1 # 8192) <= cents c)%Q ∧
  (cents c <= inject_Z c * (1 # 100) + (1 # 8192))%Q.
Proof.
  intros Hc. pose proof (hundredths_bound c Hc) as [H0 H1]. unfold cents.
  assert (inject_Z c / 100 == inject_Z c * (1 # 100))%Q as E by (unfold Qdiv; reflexivity).
  set (x := (inject_Z c / 100)%Q) in *.
  change (inject_Z (10 ^ 12)) with (1000000000000 # 1)%Q in H1.
  destruct (fl_near x) as [Hl Hu].
  - apply Qabs_Qle_condition. change (inject_Z (2 ^ 40)) with (1099511627776 # 1)%Q. split; lra.
  - split; lra.
Qed.

Lemma milli_near : (9999 # 10000000 <= milli)%Q ∧ (milli <= 10001 # 10000000)%Q.
Proof. split; vm_compute; congruence. Qed.

(** Bounds of the rounded sum and difference of two amounts. *)
Lemma add_near x y : (Qabs (x + y) <= inject_Z (2 ^ 40))%Q →
  (x + y - (1 # 8192) <= js_add x y)%Q ∧ (js_add x y <= x + y + (1 # 8192))%Q.
Proof. intros Hx. by apply fl_near. Qed.

Lemma sub_near x y : (Qabs (x - y) <= inject_Z (2 ^ 40))%Q →
  (x - y - (1 # 8192) <= js_sub x y)%Q ∧ (js_sub x y <= x - y + (1 # 8192))%Q.
Proof. intros Hx. by apply fl_near. Qed.

Lemma inject_le a b : a <= b → (inject_Z a <= inject_Z b)%Q.
Proof. intros Hab. by rewrite <- Zle_Qle. Qed.

(** Amounts within range stay below 2^40. *)
Ltac in_bounds :=
  apply Qabs_Qle_condition; change (inject_Z (2 ^ 40)) with (1099511627776 # 1)%Q; split; lra.

(** [dto.amount > remaining + 0.001] is the comparison of the hundredths. *)
Lemma refund_exceeds_exact t r c :
  in_range t → in_range r → in_range c → r <= t →
  refund_exceeds (cents c) (js_sub (cents t) (cents r)) = (t - r <? c).
Proof.
  intros Ht Hr Hc Hle. unfold refund_exceeds.
  pose proof (cents_near t Ht) as [T1 T2]. pose proof (cents_near r Hr) as [R1 R2].
  pose proof (cents_near c Hc) as [C1 C2]. pose proof milli_near as [M1 M2].
  pose proof (hundredths_bound t Ht) as [T3 T4]. pose proof (hundredths_bound r Hr) as [R3 R4].
  change (inject_Z (10 ^ 12)) with (1000000000000 # 1)%Q in *.
  pose proof (inject_le r t Hle) as Hrt.
  destruct (sub_near (cents t) (cents r)) as [S1 S2]; [in_bounds|].
  destruct (add_near (js_sub (cents t) (cents r)) milli) as [A1 A2]; [in_bounds|].
  set (lhs := js_add (js_sub (cents t) (cents r)) milli) in *.
  destruct (Z.ltb_spec (t - r) c) as [Hlt|Hge].
  - apply js_lt_iff.
    assert (inject_Z t - inject_Z r + 1 <= inject_Z c)%Q.
    { pose proof (inject_le (t - r + 1) c ltac:(lia)) as Hi.
      rewrite inject_Z_plus in Hi. unfold Z.sub in Hi.
      rewrite inject_Z_plus, inject_Z_opp in Hi. change (inject_Z 1) with 1%Q in Hi. lra. }
    lra.
  - apply not_true_iff_false. intros Hlt%js_lt_iff.
    pose proof (inject_le c (t - r) Hge) as Hi. unfold Z.sub in Hi.
    rewrite inject_Z_plus, inject_Z_opp in Hi. lra.
Qed.

(** The new status: [newRefunded >= total - 0.001]. *)
Lemma refund_complete_exact t r c :
  in_range t → in_range r → in_range c → r + c <= t →
  js_le (js_sub (cents t) milli) (js_add (cents r) (cents c)) = (t <=? r + c).
Proof.
  intros Ht Hr Hc Hle.
  pose proof (cents_near t Ht) as [T1 T2]. pose proof (cents_near r Hr) as [R1 R2].
  pose proof (cents_near c Hc) as [C1 C2]. pose proof milli_near as [M1 M2].
  pose proof (hundredths_bound t Ht) as [T3 T4]. pose proof (hundredths_bound r Hr) as [R3 R4].
  pose proof (hundredths_bound c Hc) as [C3 C4].
  change (inject_Z (10 ^ 12)) with (1000000000000 # 1)%Q in *.
  pose proof (inject_le _ _ Hle) as Hrt. rewrite inject_Z_plus in Hrt.
  destruct (sub_near (cents t) milli) as [S1 S2]; [in_bounds|].
  destruct (add_near (cents r) (cents c)) as [A1 A2]; [in_bounds|].
  set (lhs := js_sub (cents t) milli) in *. set (rhs := js_add (cents r) (cents c)) in *.
  destruct (Z.leb_spec t (r + c)) as [Hge|Hlt].
  - apply js_le_iff. pose proof (inject_le _ _ Hge) as Hi. rewrite inject_Z_plus in Hi. lra.
  - apply not_true_iff_false. intros Hl%js_le_iff.
    pose proof (inject_le (r + c + 1) t ltac:(lia)) as Hi.
    rewrite !inject_Z_plus in Hi. change (inject_Z 1) with 1%Q in Hi. lra.
Qed.

(** What the column stores for the sum. *)
Lemma refunded_exact `{!Postgres} r c :
  in_range r → in_range c → r + c < money_bound →
  numeric2 (js_add (cents r) (cents c)) = r + c.
Proof.
  intros Hr Hc Hlt. apply numeric2_near.
  pose proof (cents_near r Hr) as [R1 R2]. pose proof (cents_near c Hc) as [C1 C2].
  pose proof (hundredths_bound r Hr) as [R3 R4]. pose proof (hundredths_bound c Hc) as [C3 C4].
  assert (in_range (r + c)) as Hrc by (unfold in_range in *; lia).
  pose proof (hundredths_bound _ Hrc) as [S3 S4]. rewrite inject_Z_plus in S3, S4.
  change (inject_Z (10 ^ 12)) with (1000000000000 # 1)%Q in *.
  destruct (add_near (cents r) (cents c)) as [A1 A2]; [in_bounds|].
  assert (inject_Z (r + c) / 100 == inject_Z r * (1 # 100) + inject_Z c * (1 # 100))%Q as E.
  { rewrite inject_Z_plus. field. }
  apply Qabs_Qle_condition. rewrite E. split; lra.
Qed.
End arithmetic.

(** ** Refunds are exact *)
Section refunds.
Context `{Redis, !Scheduler, !Crypto, !MathRandom, !Postgres, !ClientText, !NumberText,
          !PaymentProvider, !PaymentConfig}.

Definition refund_row (p : Payment) (c : Z) (q : Payment) : Payment :=
  pay_refunded (pm_refunded_amount p + c)
    (pay_status (if pm_amount p <=? pm_refunded_amount p + c then pm_refunded
                 else pm_partially_refunded) q).

Definition refund_done (p : Payment) (c : Z) (d d' : Db) : Prop :=
  c <= pm_amount p - pm_refunded_amount p ∧
  view L_Payment d' = update_rows pm_id (pm_id p) (refund_row p c) (view L_Payment d).

Lemma refund_body_exact p r a n dto g c d :
  pays_ok d → p ∈ view L_Payment d → rd_amount dto = cents c →
  in_range (pm_amount p) → in_range (pm_refunded_amount p) → in_range c →
  pm_refunded_amount p + c <= pm_amount p →
  dwp (refund_body p r a n dto g (cents (pm_refunded_amount p)) (cents (pm_amount p)))
    (λ o d', match o with
      | Ok _ => view L_Payment d' = update_rows pm_id (pm_id p) (refund_row p c) (view L_Payment d)
      | Throw _ => True end) d.
Proof.
  intros Hok Hp Hamt Ht Hr Hc Hle. unfold refund_body.
  apply dwp_bind, dwp_env; [apply gateway_tables|]. intros [res|e]; [|done].
  apply dwp_bind, dwp_env; [apply stays_gets, _|]. intros [now|e]; [|done].
  apply dwp_bind, (dwp_stays same_pay); [staying fail|]. intros [r1|e] d1 Hs1; [|done].
  apply dwp_bind, (dwp_stays same_pay); [apply createTransaction_pay|].
  intros [t|e] d2 Hs2; [|done]. assert (same_pay d d2) as Hs by (by etransitivity).
  rewrite Hamt, refunded_exact by (unfold in_range in *; lia || done).
  rewrite refund_complete_exact by done.
  unfold pay_update. dwp_step; [done|]. apply (dwp_stays same_pay).
  - unfold payment_event.
    staying ltac:(first [apply createEvent_pay | apply audit_pay | apply invalidatePayment_pay]).
  - intros [rf|e] d3 Hs3; [|done]. rewrite Hs3. cbn [tbl T_Payment pk]. rewrite view_put, Hs.
    done.
Qed.

Lemma refund_spec id a dto adm c d p :
  pays_ok d → p ∈ view L_Payment d → pm_id p = id → rd_amount dto = cents c →
  in_range (pm_amount p) → in_range (pm_refunded_amount p) → in_range c →
  pm_refunded_amount p <= pm_amount p → pm_amount p < money_bound →
  dwp (refund id a dto adm) (λ o d', match o with
    | Ok _ => refund_done p c d d'
    | Throw _ => pm_amount p - pm_refunded_amount p < c → d' = d end) d.
Proof.
  intros Hok Hp Hid Hamt Ht Hr Hc Hle Hb. unfold refund. dwp_step; [done|].
  apply dwp_bind, dwp_requirePayment; [intros p' Hp' Hid' _|done].
  assert (p' = p) as -> by (apply (NoDup_key_eq pm_id (view L_Payment d)); [done..|congruence]).
  do 3 (dwp_step; [done|]).
  match goal with E : refund_exceeds _ _ = false |- _ =>
    rewrite Hamt, refund_exceeds_exact in E by done; apply Z.ltb_ge in E end.
  assert (∀ o d', match o with
      | Ok _ => refund_done p c d d'
      | Throw _ => pm_amount p - pm_refunded_amount p < c → d' = d end →
      (match o : outcome Refund with
      | Ok _ => refund_done p c d d'
      | Throw _ => pm_amount p - pm_refunded_amount p < c → d' = d end) ∧
      (exn → pm_amount p - pm_refunded_amount p < c → d' = d)) as Hpost.
  { intros o d' Ho. split; [done|]. intros _ Hlt. lia. }
  eapply dwp_mono; [|intros o d'; apply Hpost]. clear Hpost.
  apply dwp_bind, dwp_env; [apply stays_gets, _|]. intros [now|e]; [|done].
  apply dwp_bind, dwp_env; [apply draw_tables|]. intros [rnd|e]; [|done].
  apply dwp_bind, (dwp_stays same_pay); [staying fail|].
  intros [r|e] d1 Hs1; [|intros ?; lia].
  apply dwp_bind, (dwp_stays same_pay); [unfold create_refund_item; staying fail|].
  intros [[]|e] d2 Hs2; [|intros ?; lia]. assert (same_pay d d2) as Hs by (by etransitivity).
  dwp_step; [|intros ?; lia]. apply dwp_try_catch.
  eapply dwp_mono; [apply (refund_body_exact p _ _ _ _ _ c); try done|].
  - unfold pays_ok. by rewrite Hs.
  - by rewrite Hs.
  - lia.
  - intros [rf|e] d3 Hd.
    + split; [lia|]. by rewrite Hd, Hs.
    + intros s3 <-. unfold mbind, M_bind. destruct (db_update _ _ _ s3) as [[x|e'] s4]; simpl; [|lia].
      destruct (job _ _ s4) as [[[]|e'] s5]; simpl; lia.
Qed.
End refunds.

(** ** Creation, capture, saved methods, webhooks *)
Section services.
Context `{Redis, !Scheduler, !Crypto, !MathRandom, !Postgres, !ClientText, !NumberText,
          !JsonText, !PaymentProvider, !PaymentConfig}.

Lemma numeric2_cents c : in_range c → numeric2 (cents c) = c.
Proof.
  intros Hc. apply numeric2_near. pose proof (cents_near c Hc) as [C1 C2].
  assert (inject_Z c / 100 == inject_Z c * (1 # 100))%Q as E by field.
  apply Qabs_Qle_condition. rewrite E. split; lra.
Qed.

(** A pending payment of [c] hundredths for the order, owned by its customer. *)
Definition created (a : string) (o : Order) (c : Z) (d d' : Db) : Prop :=
  ∃ p, view L_Payment d' = view L_Payment d ++ [p] ∧ pm_order_id p = od_id o ∧
    pm_amount p = c ∧ pm_refunded_amount p = 0 ∧ pm_status p = pm_pending ∧
    pm_customer_id p = Some (coalesce (od_customer_id o) a) ∧
    (∀ owner, od_customer_id o = Some owner → owner = "" ∨ owner = a).

Lemma create_spec a dto c d :
  cd_amount dto = cents c → in_range c →
  dwp (create a dto) (λ o d', match o with
    | Ok _ => ∃ ord, ord ∈ view L_Order d ∧ od_id ord = cd_orderId dto ∧ created a ord c d d'
    | Throw _ => True end) d.
Proof.
  intros Hamt Hc. unfold create. dwp_step; (dwp_step; [|done]); [|done].
  simplify_eq. rename a0 into ord. bool_to_prop.
  assert (∀ owner, od_customer_id ord = Some owner → owner = "" ∨ owner = a ∨
    negb (String.eqb owner a) = true) as Hown.
  { intros [|? ?] _; [by left|]. right. destruct (String.eqb_spec (String a0 s) a); auto. }
  apply dwp_bind. eapply dwp_mono with
    (Q := λ o d', d' = d ∧ match o with
            | Ok _ => ∀ owner, od_customer_id ord = Some owner → owner = "" ∨ owner = a
            | Throw _ => True end).
  { destruct (od_customer_id ord) as [[|ch st]|] eqn:Ec.
    - apply dwp_ret. split; [done|]. intros owner [= <-]. by left.
    - unfold assertAdminOrOwner. dwp_step; [dwp_step; [done|]|]; (split; [done|]);
        intros owner [= <-]; right; bool_to_prop; congruence.
    - by apply dwp_ret. }
  intros [[]|e] d1; [intros [-> Howner]|done]. dwp_step; [done|].
  apply dwp_bind, dwp_env; [apply stays_gets, _|]. intros [g|e]; [|done].
  apply dwp_bind, dwp_env.
  { destruct g; [by apply stays_ret, _|apply stays_gets, _]. }
  intros [g'|e]; [|done]. dwp_step; [|done].
  apply dwp_bind, withRetry_env. intros [oid|e]; [|done]. dwp_step; [done|].
  apply (dwp_stays same_pay).
  - unfold payment_event. staying ltac:(first [apply createAttempt_pay | apply createEvent_pay
      | apply audit_pay | apply invalidatePayment_pay
      | apply stays_env; [apply _|apply view_of_tables]]).
  - intros [v|e] d' Hs; [|done]. exists ord. split_and!; [done|done|].
    eexists. split_and!; [rewrite Hs; cbn [tbl T_Payment]; by rewrite view_put|done| |done..].
    simpl. rewrite Hamt. by apply numeric2_cents.
Qed.

Lemma capture_captured_spec id a adm p d :
  pays_ok d → p ∈ view L_Payment d → pm_id p = id → pm_status p = pm_captured →
  dwp (capture id a adm) (λ o d', d' = d ∧ ∀ v, o = Ok v → v = mapPayment d p) d.
Proof.
  intros Hok Hp Hid Hst. unfold capture. dwp_step; [done|].
  apply dwp_bind, dwp_requirePayment; [intros p' Hp' Hid' _|done].
  assert (p' = p) as -> by (apply (NoDup_key_eq pm_id (view L_Payment d)); [done..|congruence]).
  apply dwp_bind, dwp_access; [done|]. rewrite Hst, bool_decide_true by done.
  unfold view_of. apply (dwp_gets (λ d, mapPayment d p)). by split; [split; [done|]; intros v [= <-]|].
Qed.

Lemma withRetry_bounded {A} (fn : M (St Db) A) s :
  (∀ s, fst (fn s) ≠ Throw Diverges) → fst (withRetry fn s) ≠ Throw Diverges.
Proof.
  intros Hfn. unfold withRetry. simpl. unfold try_catch, mbind, M_bind, sleep, modify, throw.
  pose proof (Hfn s) as F1. destruct (fn s) as [[a|e] s1]; simpl in *; [done|].
  destruct (negb (retryable e) || false); simpl; [done|].
  match goal with |- context [fn ?x] => pose proof (Hfn x) as F2; destruct (fn x) as [[a2|e2] s2] end;
    simpl in *; [done|]. destruct (negb (retryable e2) || false); simpl; [done|].
  match goal with |- context [fn ?x] => pose proof (Hfn x) as F3; destruct (fn x) as [[a3|e3] s3] end;
    simpl in *; [done|]. by rewrite orb_true_r.
Qed.

(** Exactly one live method of the customer is the default. *)
Definition sole_default (customerId id : string) (d : Db) : Prop :=
  ∀ m, m ∈ view L_SavedPaymentMethod d → sp_of customerId m = true →
    sp_is_default m = true ↔ sp_id m = id.

Lemma listSaved_tables c : stays (framing tables) (listSaved c).
Proof.
  unfold listSaved, CacheService.getOrSet, db_findMany_desc.
  apply stays_bind; [apply _|apply CacheService.get_tables|]. intros hit.
  assert (∀ m : M (St Db) Json, stays (framing tables) m →
    stays (framing tables) (v ← m; CacheService.set (PAYMENTS_CACHE.saved c) v PAYMENTS_CACHE.TTL ;; mret v)) as Hm.
  { intros m Hm. apply stays_bind; [apply _|done|]. intros v.
    apply stays_bind; [apply _|apply CacheService.set_tables|]. intros []. apply stays_ret, _. }
  destruct hit as [[]|]; try (by apply stays_ret, _); apply Hm;
    (apply stays_bind; [apply _|apply stays_gets, _|]; intros ?;
     apply stays_bind; [apply _|apply stays_gets, _|]; intros ?; apply stays_ret, _).
Qed.

Lemma setDefault_spec c id d :
  dwp (setDefaultSaved c id) (λ o d', match o with
    | Ok _ => sole_default c id d' | Throw _ => True end) d.
Proof.
  unfold setDefaultSaved, find_saved.
  apply dwp_bind, dwp_bind, dwp_findFirst; [intros x Hx Hpx|intros _]; (dwp_step; [|done]); [|done].
  unfold clear_defaults. apply dwp_bind, dwp_updateMany; [done|].
  dwp_step; [done|]. apply dwp_bind, dwp_env; [apply CacheService.del_tables|].
  intros [[]|e]; [|done]. apply dwp_env; [apply listSaved_tables|]. intros [j|e]; [|done].
  intros m Hm Hof. cbn [tbl T_SavedPaymentMethod pk] in Hm. rewrite !view_put in Hm.
  apply elem_of_update_rows in Hm as (y & Hy & [[Hk ->]|[Hk ->]]).
  - split; [intros _; exact Hk|done].
  - split; [|congruence]. intros Hd.
    apply list_elem_of_fmap in Hy as (z & -> & Hz).
    destruct (sp_of c z) eqn:Ez; [done|]. by rewrite Ez in Hof.
Qed.

(** The event was received and processed before. *)
Definition processed_before (payload : Json) (d : Db) : Prop :=
  ∃ gid, (∀ g, g ∈ view L_Gateway d → gw_code g = "razorpay" → active_gateway g = true →
            gw_id g = gid) ∧
    (∃ g, g ∈ view L_Gateway d ∧ gw_code g = "razorpay" ∧ active_gateway g = true) ∧
    (∃ w, w ∈ view L_PaymentWebhook d ∧ wb_gateway_id w = gid ∧
          wb_idempotency_key w = idempotencyKey payload ∧ wb_deleted_at w = None) ∧
    (∀ w, w ∈ view L_PaymentWebhook d → wb_gateway_id w = gid →
          wb_idempotency_key w = idempotencyKey payload → wb_processing_status w = "processed").

(** Under the lock of its key, such an event only meets the row of its first delivery. *)
Lemma replay_body payload d gid :
  processed_before payload d →
  (∀ g, head (scan (where_ (λ g, String.eqb (gw_code g) "razorpay" && active_gateway g)
               (view L_Gateway d))) = Some g → gid = gw_id g) →
  ∃ w, w ∈ view L_PaymentWebhook d ∧ wb_idempotency_key w = idempotencyKey payload
    ∧ wb_processing_status w = "processed"
    ∧ ∀ (s : St Db) (k : option PaymentWebhook → M (St Db) WebhookReceipt), tables s = d →
        (findByIdempotency gid (idempotencyKey payload) ≫= k) s = k (Some w) s.
Proof.
  intros (gid' & Hgid & (g0 & Hg0 & Hc0 & Ha0) & (w0 & Hw0 & Hwg & Hwk & Hwd) & Hall) Hhead.
  assert (gid = gid') as ->.
  { destruct (head _) as [g|] eqn:E.
    - rewrite (Hhead g eq_refl). apply head_scan_Some in E as [Hg Hp]. bool_to_prop. by apply Hgid.
    - apply head_scan_None in E. rewrite Forall_forall in E. specialize (E g0 Hg0).
      by rewrite Hc0, Ha0 in E. }
  unfold findByIdempotency, db_findFirst.
  destruct (head (scan (where_ (λ w, String.eqb (wb_gateway_id w) gid'
    && String.eqb (wb_idempotency_key w) (idempotencyKey payload) && live (wb_deleted_at w))
    (view L_PaymentWebhook d)))) as [w|] eqn:E.
  - exists w. pose proof E as [Hw Hp]%head_scan_Some. bool_to_prop.
    split_and!; [done|done|by apply Hall|]. intros s k <-. unfold gets, mbind, M_bind.
    cbn [tbl T_PaymentWebhook]. by rewrite E.
  - apply head_scan_None in E. rewrite Forall_forall in E. specialize (E w0 Hw0). simpl in E.
    by rewrite Hwg, Hwk, Hwd, !String.eqb_refl in E.
Qed.

(** What such an event is answered: a bad signature is refused; otherwise its lock is
    taken and it is reported as a duplicate. *)
Lemma replay_run body sig payload s :
  processed_before payload (tables s) →
  ∃ w, w ∈ view L_PaymentWebhook (tables s) ∧ wb_idempotency_key w = idempotencyKey payload
    ∧ wb_processing_status w = "processed"
    ∧ receiveRazorpay body sig payload s =
        if gw_verifyWebhookSignature body sig "" then
          LockService.withLock (pay_lock "webhook" (idempotencyKey payload))
            (mret (mkWebhookReceipt true (wb_id w) false)) (lock_opts 30000 5000) s
        else (Throw (AppException UNAUTHORIZED "Invalid webhook signature" 401), s).
Proof.
  intros Hp. set (found := head (scan (where_ (λ g, String.eqb (gw_code g) "razorpay" && active_gateway g)
    (view L_Gateway (tables s))))).
  destruct (replay_body payload (tables s) (coalesce (option_map gw_id found) RAZORPAY_GATEWAY_ID) Hp)
    as (w & Hw & Hk & Hst & Hrun); [intros g E; unfold found; by rewrite E|].
  exists w. split_and!; [done..|].
  unfold receiveRazorpay, findGatewayByCode, db_findFirst. unfold gets at 1, mbind at 1, M_bind at 1.
  cbn [tbl T_Gateway]. fold found. unfold throw_if. unfold mbind at 1, M_bind at 1.
  destruct (gw_verifyWebhookSignature body sig ""); simpl negb; [|done]. cbn [mret M_ret].
  apply LockService.withLock_ext. intros s1 Hs1. rewrite (Hrun s1) by done.
  by rewrite Hst, String.eqb_refl.
Qed.

End services.

(** ** Theorems *)

(** The operations of the payment services that write to the tables: payments and
    refunds, saved methods, settlements, reconciliations, disputes, the events of the
    gateway and the jobs of the worker. *)
Inductive pay_op :=
| op_create (actorId : string) (dto : CreatePaymentDto)
| op_checkout (orderId userId : string) (amount : Q)
| op_authorize (paymentId actorId : string) (asAdmin : bool)
| op_capture (paymentId actorId : string) (asAdmin : bool)
| op_cancel (paymentId actorId : string) (asAdmin : bool)
| op_void (paymentId actorId : string)
| op_retry (paymentId actorId : string)
| op_refund (paymentId actorId : string) (dto : RefundPaymentDto) (asAdmin : bool)
| op_status (paymentId : string) (status : PaymentStatus) (gatewayPaymentId : option string)
| op_receive (rawBody signature : string) (payload : Json)
| op_process (webhookId : string)
| op_job (name id actorId : string)
| op_save (customerId : string) (input : SaveMethodInput)
| op_forget (customerId id : string)
| op_default (customerId id : string)
| op_settle (actorId : string) (dto : CreateSettlementDto)
| op_reconcile (actorId : string) (dto : ReconcileDto)
| op_dispute (actorId : string) (dto : CreateDisputeDto)
| op_redispute (id actorId : string) (dto : UpdateDisputeDto).

Section theorems.
Context `{Redis, !Scheduler, !Crypto, !MathRandom, !Postgres, !ClientText, !NumberText,
          !JsonText, !PaymentProvider, !PaymentConfig}.

(** How the status of a payment may move under an operation. *)
Definition pay_moves (op : pay_op) (d : Db) : PaymentStatus → PaymentStatus → Prop :=
  match op with
  | op_authorize _ _ _ => may [pm_authorized; pm_failed]
  | op_capture _ _ _ => may [pm_captured; pm_failed]
  | op_refund _ _ _ _ => may [pm_refunded; pm_partially_refunded]
  | op_retry _ _ => may_retry
  | op_cancel _ _ _ | op_void _ _ => may_cancel
  | op_status _ st _ => reported_by (Some st)
  | op_receive _ _ payload => reported_by (received_status payload)
  | op_process id => stored_report id d
  | op_job name id _ =>
      if String.eqb name JOB_WEBHOOK then stored_report id d else may [pm_authorized; pm_failed]
  | _ => eq
  end.

Definition drop_result {A} (m : M (St Db) A) : M (St Db) () := _ ← m; mret tt.

Definition run_pay_op (op : pay_op) : M (St Db) () :=
  match op with
  | op_create a dto => drop_result (create a dto)
  | op_checkout o a n => drop_result (createForCheckout o a n)
  | op_authorize id a adm => drop_result (authorize id a adm)
  | op_capture id a adm => drop_result (capture id a adm)
  | op_cancel id a adm => drop_result (cancel id a adm)
  | op_void id a => drop_result (voidOrCancel id a)
  | op_retry id a => drop_result (retry id a)
  | op_refund id a dto adm => drop_result (refund id a dto adm)
  | op_status id st g => drop_result (applyGatewayStatus id st g)
  | op_receive b s payload => drop_result (receiveRazorpay b s payload)
  | op_process id => drop_result (processWebhook id)
  | op_job n id a => drop_result (pay_worker n id a)
  | op_save c i => drop_result (saveMethod c i)
  | op_forget c id => drop_result (deleteSaved c id)
  | op_default c id => drop_result (setDefaultSaved c id)
  | op_settle a dto => drop_result (createSettlement a dto)
  | op_reconcile a dto => drop_result (reconcile a dto)
  | op_dispute a dto => drop_result (createDispute a dto)
  | op_redispute id a dto => drop_result (updateDispute id a dto)
  end.

Lemma drop_dwp {A} (m : M (St Db) A) (I : Db → Prop) s :
  dwp m (λ _ d', I d') (tables s) → I (tables (snd (drop_result m s))).
Proof.
  intros Hm. specialize (Hm s eq_refl). unfold drop_result, mbind, M_bind.
  by destruct (m s) as [[]].
Qed.

(** An operation that leaves the payments alone. *)
Lemma leaves_payments {A} (m : M (St Db) A) d :
  stays (on_tables same_pay) m → pays_ok d → dwp m (λ _ d', follows eq d d') d.
Proof. intros Hm Hok. apply (dwp_stays same_pay); [done|]. intros o d'. by apply follows_same; [apply _|]. Qed.

Lemma pay_worker_follows n id a d :
  pays_ok d → dwp (pay_worker n id a) (λ _ d', follows (pay_moves (op_job n id a) d) d d') d.
Proof.
  intros Hok. unfold pay_worker, pay_moves. destruct (String.eqb n JOB_WEBHOOK);
    [by apply processWebhook_follows|].
  destruct (String.eqb n JOB_RETRY); [|by apply dwp_ret, follows_same].
  apply dwp_bind. eapply dwp_mono; [by apply authorize_follows|].
  intros [v|e] d' Hf; [by apply dwp_ret|done].
Qed.

(** (C4) Payments and their statuses, whatever an operation of the payment services
    does and however it ends: every payment is still there under its id. An
    authorization, a capture and a refund take at most one edge of the transition
    table, each to its own statuses, and a retry at most three; everything that is
    not about payments leaves them alone. Two writes do not consult the table, and
    the statement says what they do: a cancellation also takes an expired or
    charged-back payment to cancelled, and an event of the gateway sets the status
    that it reports, whatever the payment was before. *)
Theorem payments_follow_machine op s :
  pays_ok (tables s) →
  follows (pay_moves op (tables s)) (tables s) (tables (snd (run_pay_op op s))).
Proof.
  intros Hok. destruct op; cbn [run_pay_op pay_moves]; apply drop_dwp.
  - by apply create_follows.
  - by apply create_follows.
  - by apply authorize_follows.
  - by apply capture_follows.
  - by apply cancel_follows.
  - by apply voidOrCancel_follows.
  - by apply retry_follows.
  - by apply refund_follows.
  - by apply applyGatewayStatus_follows.
  - by apply receiveRazorpay_follows.
  - by apply processWebhook_follows.
  - by apply pay_worker_follows.
  - apply leaves_payments; [|done]. unfold saveMethod, clear_defaults, invalidateSaved. staying fail.
  - apply leaves_payments; [|done]. unfold deleteSaved, find_saved, invalidateSaved. staying fail.
  - apply leaves_payments; [|done]. unfold setDefaultSaved, find_saved, clear_defaults, invalidateSaved.
    staying ltac:(apply stays_env; [apply _|apply listSaved_tables]).
  - apply leaves_payments; [|done]. unfold createSettlement. staying ltac:(apply job_pay).
  - apply leaves_payments; [|done]. unfold reconcile, createAudit. staying fail.
  - apply leaves_payments; [|done]. unfold createDispute, createAudit, pay_findById. staying fail.
  - apply leaves_payments; [|done]. unfold updateDispute, find_dispute, createAudit. staying fail.
Qed.

(** (C5) A successful refund of [c] hundredths was covered by what is left of the
    payment, adds exactly [c] to its refunded amount and makes it refunded or
    partially refunded, although the service computes in binary64. *)
Theorem refund_exact id a dto adm c s p rf s' :
  pays_ok (tables s) → p ∈ view L_Payment (tables s) → pm_id p = id →
  rd_amount dto = cents c → in_range (pm_amount p) → in_range (pm_refunded_amount p) →
  in_range c → pm_refunded_amount p <= pm_amount p →
  refund id a dto adm s = (Ok rf, s') → refund_done p c (tables s) (tables s').
Proof.
  intros Hok Hp Hid Hamt Ht Hr Hc Hle Hrun.
  eapply (dwp_elim _ _ _ _ _ (refund_spec id a dto adm c _ p Hok Hp Hid Hamt Ht Hr Hc Hle
            (proj2 Ht)) Hrun).
Qed.

(** (C28) A refund of more hundredths than what is left of the payment fails and
    changes no table, although the service compares binary64 numbers with a tolerance. *)
Theorem refund_refuses_excess id a dto adm c s p :
  pays_ok (tables s) → p ∈ view L_Payment (tables s) → pm_id p = id →
  rd_amount dto = cents c → in_range (pm_amount p) → in_range (pm_refunded_amount p) →
  in_range c → pm_refunded_amount p <= pm_amount p →
  pm_amount p - pm_refunded_amount p < c →
  (∃ e, fst (refund id a dto adm s) = Throw e) ∧ tables (snd (refund id a dto adm s)) = tables s.
Proof.
  intros Hok Hp Hid Hamt Ht Hr Hc Hle Hlt.
  pose proof (refund_spec id a dto adm c _ p Hok Hp Hid Hamt Ht Hr Hc Hle (proj2 Ht) s eq_refl) as Hs.
  destruct (fst (refund id a dto adm s)) as [rf|e]; [destruct Hs; lia|]. eauto.
Qed.

(** A created payment is pending, for the amount asked for to the hundredth,
    and belongs to the customer of its order, who asked for it. *)
Lemma create_exact a dto c s v s' :
  cd_amount dto = cents c → in_range c → create a dto s = (Ok v, s') →
  ∃ ord, ord ∈ view L_Order (tables s) ∧ od_id ord = cd_orderId dto ∧
         created a ord c (tables s) (tables s').
Proof.
  intros Hamt Hc Hrun. exact (dwp_elim _ _ _ _ _ (create_spec a dto c (tables s) Hamt Hc) Hrun).
Qed.

(** Capture is idempotent: of a captured payment it only returns the view. *)
Theorem capture_idempotent id a adm p s :
  pays_ok (tables s) → p ∈ view L_Payment (tables s) → pm_id p = id →
  pm_status p = pm_captured →
  tables (snd (capture id a adm s)) = tables s ∧
  ∀ v, fst (capture id a adm s) = Ok v → v = mapPayment (tables s) p.
Proof.
  intros Hok Hp Hid Hst. exact (capture_captured_spec id a adm p _ Hok Hp Hid Hst s eq_refl).
Qed.

(** A retried gateway call is made at most three times: the loop never runs
    past its bound. *)
Theorem withRetry_ends {A} (call : Env → outcome A * Env) s :
  (∀ e, fst (call e) ≠ Throw Diverges) →
  fst (withRetry (gateway call) s) ≠ Throw Diverges.
Proof.
  intros Hc. apply withRetry_bounded. intros s'. unfold gateway.
  specialize (Hc (env s')). by destruct (call (env s')).
Qed.

(** Making a saved method the default leaves the customer with exactly that
    default. *)
Theorem setDefault_sole c id s j s' :
  setDefaultSaved c id s = (Ok j, s') → sole_default c id (tables s').
Proof.
  intros Hrun. exact (dwp_elim _ _ _ _ _ (setDefault_spec c id (tables s)) Hrun).
Qed.

(** (C33) A gateway event that was processed before changes no table when it is
    delivered again. Its answer names the stored event as a duplicate that is not
    queued again; instead of an answer there is an error only for a bad signature, a
    lock that stays taken, or Redis. With a good signature, Redis up and the lock of
    the event free there is an answer, no job is queued and nothing is announced. *)
Theorem webhook_replay_ignored body sig payload s :
  processed_before payload (tables s) →
  let '(o, s') := receiveRazorpay body sig payload s in
  tables s' = tables s ∧
  match o with
  | Ok r => ∃ w, w ∈ view L_PaymentWebhook (tables s)
      ∧ wb_idempotency_key w = idempotencyKey payload ∧ wb_processing_status w = "processed"
      ∧ r = mkWebhookReceipt true (wb_id w) false
  | Throw e => e = RedisError ∨ (∃ message, e = AppException LOCK_NOT_ACQUIRED message 409)
      ∨ gw_verifyWebhookSignature body sig "" = false
        ∧ e = AppException UNAUTHORIZED "Invalid webhook signature" 401
  end ∧
  (gw_verifyWebhookSignature body sig "" = true → redis_up (env s) = true →
   rget (clock (env s)) (LockService.key (pay_lock "webhook" (idempotencyKey payload)))
     (store (env s)) = None →
   (∃ r, o = Ok r) ∧ bus (env s') = bus (env s) ∧ jobs (env s') = jobs (env s)).
Proof.
  intros Hp. destruct (replay_run body sig payload s Hp) as (w & Hw & Hk & Hst & ->).
  destruct (gw_verifyWebhookSignature body sig ""); [|by split_and!; [|right; right|]].
  set (resource := pay_lock "webhook" _). set (options := lock_opts 30000 5000).
  assert (∀ o s1, LockService.acquire resource options s = (o, s1) → tables s1 = tables s) as Hacq.
  { intros o s1 E. pose proof (LockService.acquire_tables resource options s) as Ht.
    unfold framing in Ht. by rewrite E in Ht. }
  pose proof (LockService.acquire_throws resource options s) as Herr.
  pose proof (LockService.acquire_free resource options s) as Hfree.
  unfold LockService.withLock. unfold mbind at 1, M_bind at 1.
  destruct (LockService.acquire resource options s) as [[[[|c k]|]|e] s1]; specialize (Hacq _ _ eq_refl).
  - split_and!; [done|right; left; by eexists|]. intros _ Hup Hg.
    by destruct (Hfree Hup Hg) as (k & u & [= <- <-] & [] & _).
  - unfold try_finally, LockService.release, mret, M_ret. unfold mbind, M_bind.
    destruct (redis_up (env s1)) eqn:Hup1; [rewrite LockService.command_run by done|unfold command; rewrite Hup1].
    + split_and!; [done|by exists w|]. intros _ Hup Hg.
      destruct (Hfree Hup Hg) as (k' & u & [= <- <-] & _ & _ & Hb & Hj). by split; [eexists|].
    + split_and!; [done|by left|]. intros _ Hup Hg.
      destruct (Hfree Hup Hg) as (k' & u & [= <- <-] & _ & Hup' & _). congruence.
  - split_and!; [done|right; left; by eexists|]. intros _ Hup Hg.
    by destruct (Hfree Hup Hg) as (k & u & [=] & _).
  - split_and!; [done|left; by eapply Herr|]. intros _ Hup Hg.
    by destruct (Hfree Hup Hg) as (k & u & [=] & _).
Qed.
End theorems.

(** ** The theorems on the sample shop *)
Section examples.
#[local] Existing Instances gmap_redis counting_crypto counting_random sample_postgres.
#[local] Instance text0 : ClientText := λ _, "database error".
#[local] Instance number0 : NumberText := λ _, "n".
#[local] Instance json0 : JsonText := λ _, "{}".

(** A gateway that accepts everything; its refunds end in [rst]. *)
Definition ready_provider (rst : RefundStatus) : PaymentProvider := {|
  provider_code := "razorpay";
  gw_createOrder _ _ _ _ e := (Ok "order_1", e);
  gw_authorize _ _ _ e := (Ok (mkAuthorizeResult "pay_1" None au_authorized), e);
  gw_capture id _ _ e := (Ok (mkCaptureResult id cp_captured), e);
  gw_cancel _ _ _ _ e := (Ok cn_cancelled, e);
  gw_refund _ _ _ _ _ e := (Ok (mkRefundResult "rfnd_1" rst), e);
  gw_verifyWebhookSignature _ _ _ := true |}.
#[local] Instance provider0 : PaymentProvider := ready_provider rf_processed.
#[local] Instance config0 : PaymentConfig := {|
  payment_mock := Some true; payment_serverCapture := Some true |}.

Definition order0 : Order :=
  mkOrder "o1" "ORD-1" (Some "alice") (Some "c1") None (Some "w1") "INR" 22025 0 0 0 22025 None None
    None or_pending 0 None.

Definition payment0 (st : PaymentStatus) : Payment :=
  mkPayment "p1" "o1" (Some "alice") "gw1" None None (Some "order_1") (Some "pay_1") None 22025
    "INR" 0 st None None None None.

Definition saved0 (id : string) (def : bool) : SavedPaymentMethod :=
  mkSavedPaymentMethod id "alice" "gw1" id None None None None def rs_active 0 None.

Definition paid (st : PaymentStatus) : St Db :=
  mkSt env0 (put L_SavedPaymentMethod [saved0 "m1" true; saved0 "m2" false]
              (put L_Payment [payment0 st] (put L_Order [order0] sample_db))).

(** The payload of a gateway event about the payment. *)
Definition event0 (name : string) : Json :=
  JObj [("event", JStr name);
        ("payload", JObj [("payment", JObj [("entity", JObj [("id", JStr "pay_1")])])])].

Lemma paid_ok st : pays_ok (tables (paid st)).
Proof. unfold pays_ok. destruct st; decided. Qed.

Lemma paid_in st : payment0 st ∈ view L_Payment (tables (paid st)).
Proof. left. Qed.

Definition refund1000 : RefundPaymentDto := mkRefundPaymentDto (cents 1000) None None [].
Definition refund_all : RefundPaymentDto := mkRefundPaymentDto (cents 22026) None None [].
Definition create0 : CreatePaymentDto := mkCreatePaymentDto "o1" (cents 22025) None None None.

Lemma payments_follow_machine_witness :
  follows may_retry (tables (paid pm_pending))
    (tables (snd (run_pay_op (op_retry "p1" "alice") (paid pm_pending)))) ∧
  follows (reported_by (Some pm_captured)) (tables (paid pm_authorized))
    (tables (snd (run_pay_op (op_receive "" "" (event0 "payment.captured")) (paid pm_authorized)))).
Proof.
  split; [apply (payments_follow_machine (op_retry "p1" "alice") (paid pm_pending))
         |apply (payments_follow_machine (op_receive "" "" (event0 "payment.captured")) (paid pm_authorized))];
    apply paid_ok.
Defined.

Lemma refund_exact_witness :
  refund_done (payment0 pm_captured) 1000 (tables (paid pm_captured))
    (tables (snd (refund "p1" "alice" refund1000 false (paid pm_captured)))).
Proof.
  apply (refund_exact "p1" "alice" refund1000 false 1000 (paid pm_captured)
           (payment0 pm_captured)
           (mkRefund "u" "RFN-1000-1" "p1" "o1" (Some "alice") "partial" 1000 "INR" None None
              (Some "rfnd_1") "processed" (Some 1000) (Some 1000) None));
    [apply paid_ok|apply paid_in|reflexivity|reflexivity|by split|by split|by split|done|].
  apply run_eta. vm_compute. reflexivity.
Defined.

Lemma refund_refuses_excess_witness :
  tables (snd (refund "p1" "alice" refund_all false (paid pm_captured))) =
  tables (paid pm_captured).
Proof.
  apply (refund_refuses_excess "p1" "alice" refund_all false 22026 (paid pm_captured)
           (payment0 pm_captured));
    [apply paid_ok|apply paid_in|reflexivity|reflexivity|by split|by split|by split|done|done].
Defined.

Lemma create_exact_witness :
  ∃ ord, created "alice" ord 22025 (tables (paid pm_cancelled))
           (tables (snd (create "alice" create0 (paid pm_cancelled)))).
Proof.
  destruct (create_exact "alice" create0 22025 (paid pm_cancelled)
    (mkPaymentView "uuu" "o1" (Some "alice") "gw1" (Some "razorpay") None (cents 22025) "INR"
       (cents 0) pm_pending (Some "order_1") None None None None)
    (snd (create "alice" create0 (paid pm_cancelled)))) as (ord & _ & _ & Hc);
    [reflexivity|by split|apply run_eta; vm_compute; reflexivity|by exists ord].
Defined.

Lemma capture_idempotent_witness :
  tables (snd (capture "p1" "alice" false (paid pm_captured))) = tables (paid pm_captured).
Proof.
  apply (capture_idempotent "p1" "alice" false (payment0 pm_captured) (paid pm_captured));
    [apply paid_ok|apply paid_in|reflexivity|reflexivity].
Defined.

Lemma withRetry_ends_witness :
  fst (withRetry (gateway (λ e, (Throw (GatewayError "busy" 503 true) : outcome unit, e)))
        (paid pm_pending)) ≠ Throw Diverges.
Proof.
  apply (withRetry_ends (λ e, (Throw (GatewayError "busy" 503 true) : outcome unit, e))).
  by intros e.
Defined.

Lemma setDefault_sole_witness :
  sole_default "alice" "m2" (tables (snd (setDefaultSaved "alice" "m2" (paid pm_pending)))).
Proof.
  apply (setDefault_sole "alice" "m2" (paid pm_pending)
    (JArr [mapSavedMethod (saved0 "m2" true); mapSavedMethod (saved0 "m1" false)])
    (snd (setDefaultSaved "alice" "m2" (paid pm_pending)))).
  apply run_eta. vm_compute. reflexivity.
Defined.

Definition webhooked : St Db := snd (receiveRazorpay "" "" (event0 "payment.captured") (paid pm_authorized)).

Lemma webhook_replay_ignored_witness :
  ∃ r, fst (receiveRazorpay "" "" (event0 "payment.captured") webhooked) = Ok r.
Proof.
  pose proof (webhook_replay_ignored "" "" (event0 "payment.captured") webhooked) as Hreplay.
  destruct (receiveRazorpay "" "" (event0 "payment.captured") webhooked) as [o s'].
  apply Hreplay; [|vm_compute; reflexivity..]. clear Hreplay.
  assert (view L_Gateway (tables webhooked) = [mkGateway "gw1" "razorpay" true rs_active None]) as Eg
    by (vm_compute; reflexivity).
  assert (view L_PaymentWebhook (tables webhooked) =
    [mkPaymentWebhook "u" "gw1" (Some "pay_1") "payment.captured" "pay_1" ""
       (event0 "payment.captured") "processed" None 0 (Some 1000) None]) as Ew
    by (vm_compute; reflexivity).
  exists "gw1". rewrite Eg, Ew. split_and!.
  - by intros g ->%list_elem_of_singleton.
  - eexists. split_and!; [left|done|done].
  - eexists. split_and!; [left|done|done|done].
  - by intros w ->%list_elem_of_singleton.
Defined.

(** ** What the guarantees stop short of *)

Definition status_after (s : St Db) : list PaymentStatus :=
  map pm_status (view L_Payment (tables s)).

(** [applyGatewayStatus] does not consult the transition table: an event
    [payment.authorized] that arrives after the capture moves the payment back. *)
Example late_webhook_moves_back :
  allowed pm_captured pm_authorized = false ∧
  status_after (snd (receiveRazorpay "" "" (event0 "payment.authorized") (paid pm_captured)))
    = [pm_authorized].
Proof. vm_compute. auto. Qed.

(** Without a top-level id the idempotency key of an event is the payment's id:
    the capture event that follows the authorization is taken for its duplicate
    and never applied. *)
Example capture_event_taken_for_duplicate :
  let s1 := snd (receiveRazorpay "" "" (event0 "payment.authorized") (paid pm_pending)) in
  fst (receiveRazorpay "" "" (event0 "payment.captured") s1) =
    Ok (mkWebhookReceipt true "u" false) ∧
  status_after (snd (receiveRazorpay "" "" (event0 "payment.captured") s1)) = [pm_authorized].
Proof. vm_compute. auto. Qed.

(** The owner check of [getById] is inside the cached factory and the cache key is
    the payment's id: once the owner has read the payment, anybody can. *)
Example cached_payment_readable_by_anyone :
  fst (getById "p1" "mallory" false (paid pm_captured)) =
    Throw (ForbiddenException FORBIDDEN "Not your payment") ∧
  let s1 := snd (getById "p1" "alice" false (paid pm_captured)) in
  fst (getById "p1" "mallory" false s1) = fst (getById "p1" "alice" false (paid pm_captured)).
Proof. vm_compute. auto. Qed.

(** A refund that the gateway reports as failed is counted as refunded. *)
Example failed_refund_counted :
  let s' := snd ((let provider1 : PaymentProvider := ready_provider rf_failed in
                  refund "p1" "alice" refund1000 false) (paid pm_captured)) in
  map rf_status (view L_Refund (tables s')) = ["processing"] ∧
  map pm_refunded_amount (view L_Payment (tables s')) = [1000].
Proof. vm_compute. auto. Qed.

(** [cancel] skips the transition check: a charged-back payment is cancelled. *)
Example chargeback_cancelled :
  allowed pm_chargeback pm_cancelled = false ∧
  status_after (snd (cancel "p1" "alice" false (paid pm_chargeback))) = [pm_cancelled].
Proof. vm_compute. auto. Qed.
End examples.
