(* ===== verification/SettlementRules.v ===== *)
(** * Settlement rules

    A reconciliation of [Settlement] compares two amounts in binary64; the verdict
    and the variance it stores are those of the whole hundredths. A settlement is
    decided by a looser comparison: exact except for a difference of one hundredth. *)
From S2P Require Import Prelude Core Effects Redis Lock JsNumber Schema Database Tables Sample Payments Webhooks Settlement PaymentRules.
From Stdlib Require Import QArith Qabs Lqa.

#[local] Open Scope Z_scope.

(** ** Differences of amounts *)

Lemma cents_near' v : - money_bound < v < money_bound →
  (inject_Z v * (1 # 100) - (1 # 8192) <= cents v)%Q ∧
  (cents v <= inject_Z v * (1 # 100) + (1 # 8192))%Q.
Proof.
  intros Hv. unfold cents.
  assert (inject_Z v / 100 == inject_Z v * (1 # 100))%Q as E by (unfold Qdiv; reflexivity).
  rewrite <- E. apply fl_near. rewrite E. apply Qabs_Qle_condition.
  assert (inject_Z v <= inject_Z money_bound)%Q by (apply inject_le; lia).
  assert (inject_Z (- money_bound) <= inject_Z v)%Q by (apply inject_le; lia).
  change (inject_Z money_bound) with (100000000000000 # 1)%Q in *.
  change (inject_Z (- money_bound)) with (-100000000000000 # 1)%Q in *.
  change (inject_Z (2 ^ 40)) with (1099511627776 # 1)%Q. split; lra.
Qed.

(** The rounded difference of two amounts, and the hundredths it is read as. *)
Lemma difference_near e r : in_range e → in_range r →
  (inject_Z (e - r) * (1 # 100) - (3 # 8192) <= js_sub (cents e) (cents r))%Q ∧
  (js_sub (cents e) (cents r) <= inject_Z (e - r) * (1 # 100) + (3 # 8192))%Q.
Proof.
  intros He Hr. pose proof (cents_near e He) as [E1 E2]. pose proof (cents_near r Hr) as [R1 R2].
  pose proof (hundredths_bound e He) as [E3 E4]. pose proof (hundredths_bound r Hr) as [R3 R4].
  change (inject_Z (10 ^ 12)) with (1000000000000 # 1)%Q in *.
  destruct (sub_near (cents e) (cents r)) as [S1 S2].
  { apply Qabs_Qle_condition. change (inject_Z (2 ^ 40)) with (1099511627776 # 1)%Q. split; lra. }
  unfold Z.sub. rewrite inject_Z_plus, inject_Z_opp. split; lra.
Qed.

Lemma toFixed2_near x c :
  (inject_Z c * (1 # 100) - (4 # 1000) <= x)%Q → (x <= inject_Z c * (1 # 100) + (4 # 1000))%Q →
  toFixed2 x = c.
Proof.
  intros Hlo Hhi. unfold toFixed2.
  assert (∀ y k, (inject_Z k * (1 # 100) - (4 # 1000) <= y)%Q →
    (y <= inject_Z k * (1 # 100) + (4 # 1000))%Q → Qround.Qfloor (y * 100 + (1 # 2)) = k) as Hf.
  { intros y k H1 H2. apply (sample_numeric2_near y k). apply Qabs_Qle_condition.
    assert (inject_Z k / 100 == inject_Z k * (1 # 100))%Q as -> by (unfold Qdiv; reflexivity).
    split; lra. }
  destruct (Qle_bool 0 x); [by apply Hf|].
  rewrite (Hf (- x)%Q (- c)); [lia|rewrite inject_Z_opp; lra..].
Qed.

Lemma variance_exact dto e r : in_range e → in_range r →
  rc_expectedAmount dto = cents e → rc_receivedAmount dto = cents r → variance dto = e - r.
Proof.
  intros He Hr E1 E2. unfold variance. rewrite E1, E2.
  pose proof (difference_near e r He Hr) as [H1 H2]. apply toFixed2_near; lra.
Qed.

Lemma tolerance_bounds : (9999 # 1000000 <= tolerance)%Q ∧ (tolerance <= 10001 # 1000000)%Q.
Proof. split; vm_compute; congruence. Qed.

(** A variance that is not zero is at least the tolerance. *)
Lemma off_exact v : - money_bound < v < money_bound → off v = negb (v =? 0).
Proof.
  intros Hv. unfold off, js_abs. destruct (Z.eqb_spec v 0) as [->|Hne]; [by vm_compute|].
  destruct (decide (v = 1)) as [->|H1]; [by vm_compute|].
  destruct (decide (v = -1)) as [->|H2]; [by vm_compute|].
  apply js_le_iff. pose proof (cents_near' v Hv) as [C1 C2]. pose proof tolerance_bounds as [_ T].
  destruct (Z_lt_le_dec 0 v) as [Hp|Hn].
  - pose proof (inject_le 2 v ltac:(lia)) as Hi. change (inject_Z 2) with 2%Q in Hi.
    eapply Qle_trans; [|apply Qle_Qabs]. lra.
  - pose proof (inject_le v (-2) ltac:(lia)) as Hi. change (inject_Z (-2)) with (-2)%Q in Hi.
    rewrite <- Qabs_opp. eapply Qle_trans; [|apply Qle_Qabs]. lra.
Qed.

(** ** Verdicts on whole hundredths *)

(** What a reconciliation of [e] expected and [r] received hundredths means. *)
Definition verdict (payment gateway_ : bool) (e r : Z) : ReconciliationStatus :=
  match payment, gateway_ with
  | false, true => rc_missing_internal
  | true, false => if e =? r then rc_matched else rc_missing_gateway
  | _, _ => if e =? r then rc_matched else rc_variance
  end.

Lemma reconcile_status_exact dto e r : in_range e → in_range r →
  rc_expectedAmount dto = cents e → rc_receivedAmount dto = cents r →
  reconcile_status dto
  = verdict (truthy_str (rc_paymentId dto)) (truthy_str (rc_gatewayReference dto)) e r.
Proof.
  intros He Hr E1 E2. unfold reconcile_status. rewrite (variance_exact dto e r He Hr E1 E2).
  rewrite off_exact by (unfold in_range in *; lia).
  assert ((e - r =? 0) = (e =? r)) as -> by (destruct (Z.eqb_spec e r), (Z.eqb_spec (e - r) 0); lia).
  unfold verdict. by destruct (truthy_str _), (truthy_str _), (e =? r).
Qed.

(** A settlement is taken for settled when the amounts agree, and left pending when
    they are two hundredths or more apart. *)
Lemma settlement_status_exact e r : in_range e → in_range r →
  (e = r → settlement_status (cents e) (cents r) = sl_settled)
  ∧ (2 <= Z.abs (e - r) → settlement_status (cents e) (cents r) = sl_pending).
Proof.
  intros He Hr. pose proof (difference_near e r He Hr) as [D1 D2]. pose proof tolerance_bounds as [T1 T2].
  unfold settlement_status, js_abs. set (x := js_sub (cents e) (cents r)) in *. split.
  - intros <-. rewrite Z.sub_diag in D1, D2. change (inject_Z 0) with 0%Q in *.
    destruct (js_lt _ _) eqn:E; [done|]. apply js_lt_false in E.
    assert (Qabs x <= 3 # 8192)%Q by (apply Qabs_Qle_condition; split; lra). lra.
  - intros Hd. destruct (js_lt _ _) eqn:E; [|done]. apply js_lt_iff in E.
    assert (x <= Qabs x)%Q as P1 by apply Qle_Qabs.
    assert (- x <= Qabs x)%Q as P2 by (rewrite <- Qabs_opp; apply Qle_Qabs).
    destruct (Z.abs_spec (e - r)) as [[_ Ha]|[_ Ha]]; rewrite Ha in Hd.
    + pose proof (inject_le 2 _ Hd) as Hi. change (inject_Z 2) with 2%Q in Hi. lra.
    + pose proof (inject_le (e - r) (-2) ltac:(lia)) as Hi.
      change (inject_Z (-2)) with (-2)%Q in Hi. lra.
Qed.

Section rules.
Context `{Redis, !Scheduler, !Crypto, !MathRandom, !Postgres, !ClientText, !NumberText,
          !JsonText, !PaymentProvider, !PaymentConfig}.

Lemma numeric2_cents' v : - money_bound < v < money_bound → numeric2 (cents v) = v.
Proof.
  intros Hv. apply numeric2_near. pose proof (cents_near' v Hv) as [C1 C2].
  apply Qabs_Qle_condition.
  assert (inject_Z v / 100 == inject_Z v * (1 # 100))%Q as -> by (unfold Qdiv; reflexivity).
  split; lra.
Qed.

Notation reconciliations d := (view L_PaymentReconciliation d).

(** The row of a reconciliation, and nothing else in the tables but its audit. *)
Definition reconciled (dto : ReconcileDto) (e r : Z) (d d' : Db) : Prop :=
  ∃ row audits,
    d' = put L_PaymentAuditLog (view L_PaymentAuditLog d ++ audits)
           (put L_PaymentReconciliation (reconciliations d ++ [row]) d)
    ∧ prc_id row ∉ map prc_id (reconciliations d)
    ∧ prc_payment_id row = rc_paymentId dto ∧ prc_settlement_id row = rc_settlementId dto
    ∧ prc_expected_amount row = e ∧ prc_received_amount row = r ∧ prc_variance_amount row = e - r
    ∧ prc_status row
      = verdict (truthy_str (rc_paymentId dto)) (truthy_str (rc_gatewayReference dto)) e r
    ∧ (is_Some (prc_reconciled_at row) ↔ prc_status row = rc_matched)
    ∧ length audits = if truthy_str (rc_paymentId dto) then 1%nat else 0%nat.

Lemma reconcile_spec actor dto e r d :
  in_range e → in_range r → rc_expectedAmount dto = cents e → rc_receivedAmount dto = cents r →
  dwp (reconcile actor dto)
    (λ o d', match o with Ok _ => reconciled dto e r d d' | Throw _ => True end) d.
Proof.
  intros He Hr E1 E2. unfold reconcile. apply dwp_bind, dwp_now. intros now.
  apply dwp_bind, dwp_create; [done|]. intros id Hid _. simpl in Hid.
  rewrite (reconcile_status_exact dto e r He Hr E1 E2), (variance_exact dto e r He Hr E1 E2), E1, E2.
  set (st := verdict _ _ _ _). set (row := mkPaymentReconciliation _ _ _ _ _ _ _ _ _ _ _ _).
  set (d1 := put _ _ d).
  assert (∀ audits, length audits = (if truthy_str (rc_paymentId dto) then 1%nat else 0%nat) →
    reconciled dto e r d (put L_PaymentAuditLog (view L_PaymentAuditLog d ++ audits) d1)) as Hdone.
  { intros audits Hl. exists row, audits. split; [done|].
    split_and!; try done; try (by apply numeric2_cents'; unfold in_range in *; lia).
    simpl. case_bool_decide; [by split; [|eauto]|]. split; [by intros []|done]. }
  assert (truthy_str (rc_paymentId dto) = false → reconciled dto e r d d1) as Hnone.
  { intros Ht. rewrite <- (put_view L_PaymentAuditLog d1).
    change (view L_PaymentAuditLog d1) with (view L_PaymentAuditLog d).
    rewrite <- (app_nil_r (view L_PaymentAuditLog d)). apply Hdone. by rewrite Ht. }
  apply dwp_bind. destruct (rc_paymentId dto) as [[|c p]|] eqn:Ep.
  - by apply dwp_ret, dwp_ret, Hnone.
  - apply dwp_bind. unfold createAudit. apply dwp_create; [done|]. intros aid _ _.
    by apply dwp_ret, dwp_ret, (Hdone [_]).
  - by apply dwp_ret, dwp_ret, Hnone.
Qed.

End rules.

(** ** Properties *)

(** A reconciliation that returns has stored exactly one row, with the amounts
    of the request to the hundredth, their exact difference, although it is computed
    in binary64, and the verdict of the whole hundredths: matched exactly when they
    agree and no side is missing; a time of reconciliation exactly when matched; and
    one audit entry exactly when a payment is named. Nothing else changed. *)
Theorem reconcile_exact `{Redis, !Scheduler, !Crypto, !MathRandom, !Postgres, !ClientText,
    !NumberText, !JsonText, !PaymentProvider, !PaymentConfig} actorId dto e r s j s' :
  in_range e → in_range r → rc_expectedAmount dto = cents e → rc_receivedAmount dto = cents r →
  reconcile actorId dto s = (Ok j, s') →
  reconciled dto e r (tables s) (tables s').
Proof.
  intros He Hr E1 E2 Hrun.
  exact (dwp_elim _ _ _ _ _ (reconcile_spec actorId dto e r (tables s) He Hr E1 E2) Hrun).
Qed.

(** ** Runs *)
Section examples.
#[local] Existing Instances gmap_redis counting_crypto counting_random sample_postgres.
#[local] Instance text0 : ClientText := λ _, "database error".
#[local] Instance number0 : NumberText := λ _, "n".
#[local] Instance json0 : JsonText := λ _, "{}".
#[local] Instance provider0 : PaymentProvider := ready_provider rf_processed.
#[local] Instance config0 : PaymentConfig := {|
  payment_mock := Some true; payment_serverCapture := Some true |}.

Definition short_by (c : Z) : ReconcileDto :=
  mkReconcileDto None (Some "p1") (Some "pay_1") (cents 22025) (cents (22025 - c)) None.

(** One hundredth is missing, and is seen. *)
Lemma reconcile_exact_witness :
  reconciled (short_by 1) 22025 22024 (tables (paid pm_captured))
    (tables (snd (reconcile "eve" (short_by 1) (paid pm_captured))))
  ∧ reconcile_status (short_by 1) = rc_variance.
Proof.
  split; [|vm_compute; reflexivity].
  apply (reconcile_exact "eve" (short_by 1) 22025 22024 (paid pm_captured)
    (JObj [("id", JStr "u"); ("status", JStr "variance"); ("varianceAmount", JNum (cents 1));
           ("expectedAmount", JNum (cents 22025)); ("receivedAmount", JNum (cents 22024))]));
    [by split|by split|reflexivity|reflexivity|].
  apply run_eta. vm_compute. reflexivity.
Defined.

(** A settlement that is one hundredth short is settled or not, depending on the
    rounding of the difference. *)
Example settled_one_short :
  settlement_status (cents 6) (cents 5) = sl_settled
  ∧ settlement_status (cents 101) (cents 100) = sl_pending.
Proof. vm_compute. done. Qed.

(** A dispute that was won and is opened again keeps the time of its resolution. *)
Definition dispute_life (sts : list DisputeStatus) (s : St Db) : St Db :=
  let s1 := snd (createDispute "eve" (mkCreateDisputeDto "p1" (cents 500) None None) s) in
  foldl (λ s st, snd (updateDispute "u" "eve" (mkUpdateDisputeDto (Some st)) s)) s1 sts.

Example reopened_dispute_resolved :
  map (λ r, (pdi_status r, pdi_resolved_at r))
    (view L_PaymentDispute (tables (dispute_life [dp_won; dp_opened] (paid pm_captured))))
  = [(dp_opened, Some 1000)].
Proof. vm_compute. reflexivity. Qed.

(** A dispute may be about more than was paid. *)
Example dispute_above_payment :
  match createDispute "eve" (mkCreateDisputeDto "p1" (cents 99999999) None None) (paid pm_captured) with
  | (Ok _, s) => map pdi_amount (view L_PaymentDispute (tables s)) = [99999999]
  | _ => False
  end.
Proof. vm_compute. reflexivity. Qed.
End examples.
