(* ===== verification/Orders.v ===== *)
(** * Orders: carts, orders, fulfilment

    Models [backend/src/modules/orders]: the cart service, the order and
    fulfilment repositories, the state rules of
    [validators/order-state.validator.ts] and the operations of
    [services/orders.service.ts]. Checkout is in [Checkout], the theorems are in
    [OrderRules]. *)
From S2P Require Import Prelude Core Effects Redis Lock JsNumber Pagination Schema Database Tables Inventory Payments.
From Stdlib Require Import QArith.

#[local] Open Scope Z_scope.

(** ** Constants ([constants/orders.constants.ts]) *)
Module ORDERS_CACHE.
Definition TTL : Z := 60.
Definition cart (key : string) : string := "orders:cart:" +:+ key.
Definition order (id : string) : string := "orders:order:" +:+ id.
Definition recent (userId : string) : string := "orders:recent:" +:+ userId.
End ORDERS_CACHE.

Definition ALLOWED_CANCEL_FROM : list OrderStatus := [or_pending; or_confirmed].
Definition ALLOWED_RETURN_FROM : list OrderStatus := [or_delivered; or_completed; or_shipped].

(** ** [validators/order-state.validator.ts] *)

Definition canCancel (status : OrderStatus) : bool := bool_decide (status ∈ ALLOWED_CANCEL_FROM).
Definition canRequestReturn (status : OrderStatus) : bool :=
  bool_decide (status ∈ ALLOWED_RETURN_FROM).

(** ** Carts with their items ([repositories/cart.repository.ts]) *)

Definition CartStatus_text (st : CartStatus) : string :=
  match st with
  | ct_active => "active" | ct_converted => "converted" | ct_abandoned => "abandoned"
  | ct_merged => "merged"
  end.

(** A cart with the items [cartInclude] loads, each with its variant. *)
Record CartRow := mkCartRow {
  cr_cart : Cart; cr_items : list (CartItem * option ProductVariant);
}.

(** [mapCart] ([mappers/orders.mapper.ts]) *)
Definition line_total (i : CartItem) : Q := js_mul (cents (ci_unit_price i)) (inject_Z (ci_quantity i)).

Definition shown (iv : CartItem * option ProductVariant) : bool :=
  live (ci_deleted_at (fst iv)) &&
  match snd iv with Some v => live (pv_deleted_at v) | None => false end.

Definition items_total (items : list (CartItem * option ProductVariant)) : Q :=
  foldl (λ s iv, js_add s (line_total (fst iv))) 0%Q items.

Definition mapCart (c : CartRow) : Json :=
  let items := where_ shown (cr_items c) in
  JObj [("id", JStr (ca_id (cr_cart c))); ("userId", jnullable (ca_user_id (cr_cart c)));
        ("sessionKey", jnullable (ca_session_key (cr_cart c)));
        ("currency", JStr (ca_currency (cr_cart c)));
        ("status", JStr (CartStatus_text (ca_status (cr_cart c))));
        ("subtotal", JNum (items_total items));
        ("items", JArr (map (λ iv, JObj
           [("id", JStr (ci_id (fst iv))); ("variantId", JStr (ci_variant_id (fst iv)));
            ("sku", jnullable (option_map pv_sku (snd iv)));
            ("quantity", JInt (ci_quantity (fst iv)));
            ("unitPrice", JNum (cents (ci_unit_price (fst iv))));
            ("lineTotal", JNum (line_total (fst iv)))]) items))].

Section cart.
  Context `{Redis, !Scheduler, !Crypto, !Postgres}.

Definition load_cart (c : Cart) : M (St Db) CartRow :=
  items ← db_findMany T_CartItem (λ i, String.eqb (ci_cart_id i) (ca_id c) && live (ci_deleted_at i));
  variants ← gets (λ s, view L_ProductVariant (tables s));
  mret (mkCartRow c (map (λ i, (i, find_first (λ v, String.eqb (pv_id v) (ci_variant_id i)) variants))
                         items)).

Definition load_opt (c : option Cart) : M (St Db) (option CartRow) :=
  match c with Some c => r ← load_cart c; mret (Some r) | None => mret None end.

Definition is_open (c : Cart) : bool :=
  match ca_status c with ct_active => live (ca_deleted_at c) | _ => false end.

Definition findActiveByUser (userId : string) : M (St Db) (option CartRow) :=
  c ← db_findFirst_desc T_Cart (λ c, same_opt (ca_user_id c) (Some userId) && is_open c) ca_updated_at;
  load_opt c.

Definition findActiveBySession (sessionKey : string) : M (St Db) (option CartRow) :=
  c ← db_findFirst_desc T_Cart (λ c, same_opt (ca_session_key c) (Some sessionKey) && is_open c)
        ca_updated_at;
  load_opt c.

Definition cart_findById (id : string) : M (St Db) (option CartRow) :=
  c ← db_findFirst T_Cart (λ c, String.eqb (ca_id c) id && live (ca_deleted_at c));
  load_opt c.

Definition cart_create (userId sessionKey : option string) : M (St Db) CartRow :=
  now ← Date_now;
  c ← db_create T_Cart (λ id, mkCart id userId sessionKey "INR" ct_active now None);
  load_cart c.

Definition restock_item (quantity unitPrice : Z) (i : CartItem) : CartItem :=
  mkCartItem (ci_id i) (ci_cart_id i) (ci_variant_id i) quantity unitPrice rs_active
    (ci_created_at i) None.

(** [upsertItem]: the newest row of the cart and variant, deleted or not, is
    revived; otherwise a row is inserted. *)
Definition upsertItem (cartId variantId : string) (quantity : Z) (unitPrice : Q) : M (St Db) () :=
  existing ← db_findFirst_desc T_CartItem
    (λ i, String.eqb (ci_cart_id i) cartId && String.eqb (ci_variant_id i) variantId) ci_created_at;
  match existing with
  | Some i => _ ← db_update T_CartItem (ci_id i) (restock_item quantity (numeric2 unitPrice)); mret tt
  | None =>
      now ← Date_now;
      _ ← db_create T_CartItem (λ id, mkCartItem id cartId variantId quantity (numeric2 unitPrice)
            rs_active now None);
      mret tt
  end.

Definition set_quantity (quantity : Z) (i : CartItem) : CartItem :=
  mkCartItem (ci_id i) (ci_cart_id i) (ci_variant_id i) quantity (ci_unit_price i) (ci_status i)
    (ci_created_at i) (ci_deleted_at i).

Definition updateItemQty (itemId : string) (quantity : Z) : M (St Db) CartItem :=
  db_update T_CartItem itemId (set_quantity quantity).

Definition archive_item (now : Z) (i : CartItem) : CartItem :=
  mkCartItem (ci_id i) (ci_cart_id i) (ci_variant_id i) (ci_quantity i) (ci_unit_price i)
    rs_archived (ci_created_at i) (Some now).

Definition softDeleteItem (itemId : string) : M (St Db) CartItem :=
  now ← Date_now;
  db_update T_CartItem itemId (archive_item now).

Definition markConverted (cartId : string) : M (St Db) Cart :=
  db_update T_Cart cartId (set_cart_status ct_converted).

(** ** CartService ([services/cart.service.ts]) *)

Definition cacheKey (userId sessionKey : option string) : string :=
  match userId with
  | Some ((String _ _) as u) => "user:" +:+ u
  | _ => "session:" +:+ coalesce sessionKey "anon"
  end.

Definition invalidateCart (key : string) : M (St Db) () := CacheService.del (ORDERS_CACHE.cart key).

Definition getOrCreate (userId sessionKey : option string) : M (St Db) Json :=
  throw_if (negb (truthy_str userId) && negb (truthy_str sessionKey))
    (AppException BAD_REQUEST "user or sessionKey required for cart" 400) ;;
  CacheService.getOrSet (ORDERS_CACHE.cart (cacheKey userId sessionKey))
    (found ← match userId with
             | Some ((String _ _) as u) => findActiveByUser u
             | _ => findActiveBySession (coalesce sessionKey "")
             end;
     cart ← match found with Some c => mret c | None => cart_create userId sessionKey end;
     mret (mapCart cart)) ORDERS_CACHE.TTL.

(** [mapped.id] and [mapped.items] of a cart view. *)
Definition view_id (mapped : Json) : string :=
  match jget "id" mapped with Some (JStr s) => s | _ => "" end.
Definition view_has_item (mapped : Json) (itemId : string) : bool :=
  match jget "items" mapped with
  | Some (JArr items) => existsb (λ i, match jget "id" i with
                                       | Some (JStr s) => String.eqb s itemId | _ => false end) items
  | _ => false
  end.

Definition addItem (variantId : string) (quantity : Z) (userId sessionKey : option string)
  : M (St Db) Json :=
  variant ← db_findFirst T_ProductVariant (λ v, String.eqb (pv_id v) variantId
              && live (pv_deleted_at v) && is_active (pv_status v));
  variant ← require_ variant (AppException NOT_FOUND "Variant not found" 404);
  mapped ← getOrCreate userId sessionKey;
  upsertItem (view_id mapped) variantId quantity (cents (pv_sale_price variant)) ;;
  invalidateCart (cacheKey userId sessionKey) ;;
  getOrCreate userId sessionKey.

Definition updateItem (itemId : string) (quantity : Z) (userId sessionKey : option string)
  : M (St Db) Json :=
  cart ← getOrCreate userId sessionKey;
  throw_if (negb (view_has_item cart itemId)) (AppException NOT_FOUND "Cart item not found" 404) ;;
  _ ← updateItemQty itemId quantity;
  invalidateCart (cacheKey userId sessionKey) ;;
  getOrCreate userId sessionKey.

Definition removeItem (itemId : string) (userId sessionKey : option string) : M (St Db) Json :=
  cart ← getOrCreate userId sessionKey;
  throw_if (negb (view_has_item cart itemId)) (AppException NOT_FOUND "Cart item not found" 404) ;;
  _ ← softDeleteItem itemId;
  invalidateCart (cacheKey userId sessionKey) ;;
  getOrCreate userId sessionKey.

Definition requireCart (cartId : string) (userId : option string) : M (St Db) CartRow :=
  cart ← cart_findById cartId;
  cart ← require_ (match cart with
                   | Some c => if bool_decide (ca_status (cr_cart c) = ct_active) then Some c else None
                   | None => None
                   end) (AppException NOT_FOUND "Cart not found" 404);
  throw_if (match userId, ca_user_id (cr_cart cart) with
            | Some ((String _ _) as u), Some ((String _ _) as owner) => negb (String.eqb owner u)
            | _, _ => false
            end) (AppException FORBIDDEN "Cart does not belong to user" 403) ;;
  mret cart.
End cart.

(** ** Numbers ([validators/order-state.validator.ts]) *)
Section numbers.
  Context `{Redis, !MathRandom}.

(** [`${prefix}-${Date.now().toString(36).toUpperCase()}`] *)
Definition number36 (prefix : string) : M (St Db) string :=
  now ← Date_now; mret (prefix +:+ "-" +:+ toString36 now).

Definition nextOrderNumber : M (St Db) string :=
  ts ← number36 "ORD";
  rnd ← draw random_slice36;
  mret (ts +:+ "-" +:+ toUpperCase rnd).
Definition nextReturnNumber : M (St Db) string := number36 "RET".
Definition nextExchangeNumber : M (St Db) string := number36 "EXC".
Definition nextFulfillmentNumber : M (St Db) string := number36 "FUL".
End numbers.

(** ** Text tests of [findByIdOrNumber] *)

Definition is_hex (c : Ascii.ascii) : bool :=
  let n := Ascii.nat_of_ascii c in
  ((48 <=? n)%nat && (n <=? 57)%nat) || ((97 <=? n)%nat && (n <=? 102)%nat)
  || ((65 <=? n)%nat && (n <=? 70)%nat).

(** [/^[0-9a-f]{8}-[0-9a-f]{4}-[0-9a-f]{4}-[0-9a-f]{4}-[0-9a-f]{12}$/i]: the
    positions of the digits ([true]) and of the dashes. *)
Definition uuid_pattern : list bool :=
  replicate 8 true ++ false :: replicate 4 true ++ false :: replicate 4 true ++
  false :: replicate 4 true ++ false :: replicate 12 true.

Fixpoint matches_pattern (pattern : list bool) (s : list Ascii.ascii) : bool :=
  match pattern, s with
  | [], [] => true
  | digit :: pattern, c :: s =>
      (if digit then is_hex c else Ascii.eqb c "-"%char) && matches_pattern pattern s
  | _, _ => false
  end.

Definition is_uuid (s : string) : bool :=
  matches_pattern uuid_pattern (String.list_ascii_of_string s).

(** ** Requests ([dto/checkout.dto.ts]) *)

Record CancelOrderDto := mkCancelOrderDto {
  co_cancellationReasonId : option string; co_note : option string;
}.
Record ReturnRequestDto := mkReturnRequestDto {
  rr_orderItemId : string; rr_quantity : Z; rr_reason : option string;
}.
Record ExchangeRequestDto := mkExchangeRequestDto {
  er_orderItemId : string; er_exchangeType : string; er_toVariantId : option string;
  er_reason : option string;
}.
Record CreateFulfillmentDto := mkCreateFulfillmentDto {
  cf_warehouseId : string; cf_orderItemIds : option (list string);
}.

(** ** Events ([events/orders.events.ts]) *)

Definition order_event (name : string) (fields : list (string * string)) (reason : option string)
  : DomainEvent :=
  mkEvent name (JObj (map (λ kv, (fst kv, JStr (snd kv))) fields ++ jopt "reasonId" reason)).
Definition OrderCreatedEvent (orderId orderNumber customerId : string) : DomainEvent :=
  order_event "order.created"
    [("orderId", orderId); ("orderNumber", orderNumber); ("customerId", customerId)] None.
Definition OrderConfirmedEvent (orderId orderNumber : string) : DomainEvent :=
  order_event "order.confirmed" [("orderId", orderId); ("orderNumber", orderNumber)] None.
Definition OrderCancelledEvent (orderId orderNumber : string) (reasonId : option string)
  : DomainEvent :=
  order_event "order.cancelled" [("orderId", orderId); ("orderNumber", orderNumber)] reasonId.
Definition OrderReturnRequestedEvent (returnId orderId returnNumber : string) : DomainEvent :=
  order_event "order.return_requested"
    [("returnId", returnId); ("orderId", orderId); ("returnNumber", returnNumber)] None.
Definition OrderExchangeRequestedEvent (exchangeId orderId exchangeNumber : string)
  : DomainEvent :=
  order_event "order.exchange_requested"
    [("exchangeId", exchangeId); ("orderId", orderId); ("exchangeNumber", exchangeNumber)] None.
Definition OrderFulfillmentCreatedEvent (fulfillmentId orderId fulfillmentNumber : string)
  : DomainEvent :=
  order_event "order.fulfillment_created"
    [("fulfillmentId", fulfillmentId); ("orderId", orderId);
     ("fulfillmentNumber", fulfillmentNumber)] None.

(** ** Orders with their relations ([repositories/order.repository.ts]) *)

(** [orderDetailInclude]; the notes and the variants of the items are loaded and
    not used. *)
Record OrderRow := mkOrderRow {
  ow_order : Order; ow_items : list OrderItem; ow_addresses : list OrderAddress;
  ow_history : list OrderStatusHistory;
}.

(** [mapOrderSummary] ([mappers/orders.mapper.ts]); [a || b || undefined] on
    strings takes the first that is not empty. *)
Definition or_else (a b : option string) : option string :=
  match a with Some ((String _ _) as s) => Some s | _ => b end.

Definition customer_label (customer : option User) : option string :=
  or_else (option_map trim (customer ≫= us_email))
    (or_else (option_map trim (customer ≫= us_mobile)) None).

Definition mapOrderSummary (o : Order) (itemCount : nat) (customer : option User)
  : list (string * Json) :=
  [("id", JStr (od_id o)); ("orderNumber", JStr (od_order_number o));
   ("status", JStr (OrderStatus_text (od_status o))); ("currency", JStr (od_currency o));
   ("subtotal", JNum (cents (od_subtotal o)));
   ("discountTotal", JNum (cents (od_discount_total o)));
   ("taxTotal", JNum (cents (od_tax_total o)));
   ("shippingCharge", JNum (cents (od_shipping_charge o)));
   ("grandTotal", JNum (cents (od_grand_total o)));
   ("placedAt", jnull_int (od_placed_at o)); ("cancelledAt", jnull_int (od_cancelled_at o));
   ("itemCount", JInt (Z.of_nat itemCount))]
  ++ jopt "customerId" (od_customer_id o) ++ jopt "customer" (customer_label customer).

Definition item_view (i : OrderItem) : Json :=
  JObj [("id", JStr (oi_id i)); ("variantId", JStr (oi_variant_id i));
        ("sku", JStr (oi_sku_snapshot i)); ("name", JStr (oi_name_snapshot i));
        ("quantity", JInt (oi_quantity i)); ("unitPrice", JNum (cents (oi_unit_price i)));
        ("lineTotal", JNum (cents (oi_line_total i)))].

Definition address_fields (a : OrderAddress) : list (string * Json) :=
  [("fullName", JStr (oa_full_name a)); ("phone", jnullable (oa_phone a));
   ("line1", JStr (oa_line1 a)); ("line2", jnullable (oa_line2 a)); ("city", JStr (oa_city a));
   ("state", JStr (oa_state a)); ("country", JStr (oa_country a));
   ("postalCode", JStr (oa_postal_code a))].

Definition history_view (h : OrderStatusHistory) : Json :=
  JObj [("from", jnullable (option_map OrderStatus_text (oh_from_status h)));
        ("to", JStr (OrderStatus_text (oh_to_status h))); ("note", jnullable (oh_note h));
        ("changedAt", JInt (oh_changed_at h))].

(** [cancellation_reason_id: undefined] leaves the column alone. *)
Definition set_cancellation (reason : option string) (o : Order) : Order :=
  mkOrder (od_id o) (od_order_number o) (od_customer_id o) (od_cart_id o) (od_coupon_id o)
    (od_fulfillment_warehouse_id o) (od_currency o) (od_subtotal o) (od_discount_total o)
    (od_tax_total o) (od_shipping_charge o) (od_grand_total o) (od_placed_at o)
    (od_cancelled_at o) (keep reason (od_cancellation_reason_id o)) (od_status o)
    (od_created_at o) (od_deleted_at o).

Definition set_fulfillment_status (status : string) (now : Z) (f : FulfillmentOrder)
  : FulfillmentOrder :=
  mkFulfillmentOrder (fo_id f) (fo_fulfillment_number f) (fo_order_id f) (fo_warehouse_id f) status
    (if String.eqb status "shipped" then Some now else fo_shipped_at f)
    (if String.eqb status "delivered" then Some now else fo_delivered_at f) (fo_deleted_at f).

Section repositories.
  Context `{Redis, !Scheduler, !Crypto, !MathRandom, !Postgres}.

Definition load_order (o : Order) : M (St Db) OrderRow :=
  items ← db_findMany T_OrderItem
            (λ i, String.eqb (oi_order_id i) (od_id o) && live (oi_deleted_at i));
  addresses ← db_findMany T_OrderAddress
            (λ a, String.eqb (oa_order_id a) (od_id o) && live (oa_deleted_at a));
  history ← db_findMany_desc T_OrderStatusHistory (λ h, String.eqb (oh_order_id h) (od_id o))
            oh_changed_at;
  mret (mkOrderRow o items addresses history).

Definition load_order_opt (o : option Order) : M (St Db) (option OrderRow) :=
  match o with Some o => r ← load_order o; mret (Some r) | None => mret None end.

Definition order_findById (id : string) : M (St Db) (option OrderRow) :=
  o ← db_findFirst T_Order (λ o, String.eqb (od_id o) id && live (od_deleted_at o));
  load_order_opt o.

Definition findByNumber (orderNumber : string) : M (St Db) (option OrderRow) :=
  o ← db_findFirst T_Order (λ o, String.eqb (od_order_number o) orderNumber
                                 && live (od_deleted_at o));
  load_order_opt o.

Definition findByIdOrNumber (idOrNumber : string) : M (St Db) (option OrderRow) :=
  let key := trim idOrNumber in
  if is_uuid key then order_findById key else findByNumber key.

Definition listByCustomer (customerId : string) (take_ : nat) : M (St Db) (list OrderRow) :=
  rows ← db_findMany_desc T_Order
           (λ o, same_opt (od_customer_id o) (Some customerId) && live (od_deleted_at o))
           od_created_at;
  for_fold (take take_ rows) [] (λ acc o, r ← load_order o; mret (acc ++ [r])).

(** [listAdmin] with the customers and all the items, deleted ones included. *)
Definition listAdmin (status : option OrderStatus) (skip take_ : Z)
  : M (St Db) (Z * list (Order * nat * option User)) :=
  let matches o := live (od_deleted_at o)
    && match status with Some st => bool_decide (od_status o = st) | None => true end in
  total ← db_count T_Order matches;
  rows ← db_findMany_desc T_Order matches od_created_at;
  rows ← require_ (Pagination.page_of_args skip take_ rows)
           (JsError "Invalid value for skip argument");
  items ← gets (λ s, view L_OrderItem (tables s));
  users ← gets (λ s, view L_User (tables s));
  mret (total, map (λ o, (o, length (where_ (λ i, String.eqb (oi_order_id i) (od_id o)) items),
                          find_first (λ u, same_opt (od_customer_id o) (Some (us_id u))) users))
                   rows).

Definition recentAddresses (customerId : string) : M (St Db) (list OrderAddress) :=
  orders ← gets (λ s, view L_Order (tables s));
  rows ← db_findMany_desc T_OrderAddress
           (λ a, live (oa_deleted_at a) && String.eqb (oa_address_type a) "shipping"
                 && existsb (λ o, String.eqb (od_id o) (oa_order_id a)
                                  && same_opt (od_customer_id o) (Some customerId)
                                  && live (od_deleted_at o)) orders) oa_created_at;
  mret (take 10 rows).

Definition transitionStatus (orderId : string) (from : option OrderStatus) (to : OrderStatus)
  (note : option string) : M (St Db) Order :=
  in_transaction
    (now ← Date_now;
     order ← db_update T_Order orderId (set_order_status to
               (if bool_decide (to = or_confirmed) then Some now else None)
               (if bool_decide (to = or_cancelled) then Some now else None));
     _ ← db_create T_OrderStatusHistory (λ id, mkOrderStatusHistory id orderId from to note now);
     mret order).

(** ** FulfillmentRepository ([repositories/fulfillment.repository.ts]) *)

Definition fulfillment_findById (id : string) : M (St Db) (option FulfillmentOrder) :=
  db_findFirst T_FulfillmentOrder (λ f, String.eqb (fo_id f) id && live (fo_deleted_at f)).

Definition createReturn (returnNumber orderId : string) (reason : option string)
  (items : list (string * Z * option string)) : M (St Db) (Return * list ReturnItem) :=
  in_transaction
    (ret ← db_create T_Return (λ id, mkReturn id returnNumber orderId reason "requested");
     rows ← for_fold items [] (λ acc i,
              r ← db_create T_ReturnItem (λ id, mkReturnItem id (rt_id ret) (i.1.1) (i.1.2) (i.2));
              mret (acc ++ [r]));
     mret (ret, rows)).

Definition createExchange (exchangeNumber orderId orderItemId exchangeType fromVariantId : string)
  (toVariantId reason : option string) : M (St Db) ExchangeRequest :=
  db_create T_ExchangeRequest (λ id, mkExchangeRequest id exchangeNumber orderId orderItemId
    exchangeType fromVariantId toVariantId reason).

Definition findGiftCard (code : string) : M (St Db) (option GiftCard) :=
  db_findFirst T_GiftCard (λ g, String.eqb (gc_code g) code && live (gc_deleted_at g)
    && is_active (gc_status g)).

Definition findWallet (userId : string) : M (St Db) (option Wallet) :=
  db_findFirst T_Wallet (λ w, String.eqb (wa_user_id w) userId && live (wa_deleted_at w)
    && is_active (wa_status w)).

Definition createRiskScore (orderId : string) (score : Z) (level : string)
  : M (St Db) OrderRiskScore :=
  db_create T_OrderRiskScore (λ id, mkOrderRiskScore id orderId score level).

(** ** WishlistRepository ([repositories/wishlist.repository.ts]) *)

Definition wishlist_getOrCreate (userId : string)
  : M (St Db) (Wishlist * list (WishlistItem * option ProductVariant)) :=
  existing ← db_findFirst T_Wishlist (λ w, String.eqb (wi_user_id w) userId
               && live (wi_deleted_at w) && is_active (wi_status w));
  match existing with
  | Some w =>
      items ← db_findMany T_WishlistItem
                (λ i, String.eqb (wk_wishlist_id i) (wi_id w) && live (wk_deleted_at i));
      variants ← gets (λ s, view L_ProductVariant (tables s));
      mret (w, map (λ i, (i, find_first (λ v, String.eqb (pv_id v) (wk_variant_id i)) variants))
                   items)
  | None =>
      w ← db_create T_Wishlist (λ id, mkWishlist id userId "Default" rs_active None);
      mret (w, [])
  end.

Definition wishlist_revive (i : WishlistItem) : WishlistItem :=
  mkWishlistItem (wk_id i) (wk_wishlist_id i) (wk_variant_id i) rs_active (wk_created_at i) None.

Definition wishlist_addItem (wishlistId variantId : string) : M (St Db) () :=
  existing ← db_findFirst_desc T_WishlistItem
    (λ i, String.eqb (wk_wishlist_id i) wishlistId && String.eqb (wk_variant_id i) variantId)
    wk_created_at;
  match existing with
  | Some i => _ ← db_update T_WishlistItem (wk_id i) wishlist_revive; mret tt
  | None =>
      now ← Date_now;
      _ ← db_create T_WishlistItem
            (λ id, mkWishlistItem id wishlistId variantId rs_active now None);
      mret tt
  end.

Definition wishlist_archive (now : Z) (i : WishlistItem) : WishlistItem :=
  mkWishlistItem (wk_id i) (wk_wishlist_id i) (wk_variant_id i) rs_archived (wk_created_at i)
    (Some now).

Definition wishlist_removeItem (itemId : string) : M (St Db) WishlistItem :=
  now ← Date_now;
  db_update T_WishlistItem itemId (wishlist_archive now).

(** ** OrdersCacheService ([services/orders-cache.service.ts]) *)

Definition orders_getOrSet (key : string) (factory : M (St Db) Json) : M (St Db) Json :=
  CacheService.getOrSet key factory ORDERS_CACHE.TTL.

Definition invalidateOrder (orderId : string) (userId : option string) : M (St Db) () :=
  CacheService.del (ORDERS_CACHE.order orderId) ;;
  match userId with
  | Some ((String _ _) as u) => CacheService.del (ORDERS_CACHE.recent u)
  | _ => mret tt
  end.
End repositories.

(** ** OrdersService ([services/orders.service.ts]) *)
Module OrdersService.
Section service.
  Context `{Redis, !Scheduler, !Crypto, !MathRandom, !Postgres, !ClientText}.

Definition order_json (r : OrderRow) : Json :=
  JObj (mapOrderSummary (ow_order r) (length (ow_items r)) None ++
    [("items", JArr (map item_view (ow_items r)));
     ("addresses", JArr (map (λ a, JObj ([("id", JStr (oa_id a)); ("type", JStr (oa_address_type a))]
                                         ++ address_fields a)) (ow_addresses r)));
     ("statusHistory", JArr (map history_view (ow_history r)))]).

(** [customerId && order.customer_id && order.customer_id !== customerId] *)
Definition foreign (customerId owner : option string) : bool :=
  match customerId, owner with
  | Some ((String _ _) as c), Some ((String _ _) as o) => negb (String.eqb o c)
  | _, _ => false
  end.

Definition getOrder (idOrNumber : string) (customerId : option string) : M (St Db) Json :=
  orders_getOrSet (ORDERS_CACHE.order idOrNumber)
    (order ← findByIdOrNumber idOrNumber;
     order ← require_ order (AppException NOT_FOUND "Order not found" 404);
     throw_if (foreign customerId (od_customer_id (ow_order order)))
       (AppException FORBIDDEN "Order access denied" 403) ;;
     mret (order_json order)).

Definition history (customerId : string) : M (St Db) Json :=
  orders_getOrSet (ORDERS_CACHE.recent customerId)
    (rows ← listByCustomer customerId 20;
     mret (JArr (map (λ r, JObj (mapOrderSummary (ow_order r) (length (ow_items r)) None)) rows))).

(** The loop of [listAddresses]: the first address of each key is kept. *)
Definition address_key (a : OrderAddress) : string :=
  oa_line1 a +:+ "|" +:+ oa_postal_code a +:+ "|" +:+ oa_full_name a.

Fixpoint unique_addresses (seen : list string) (rows : list OrderAddress) : list OrderAddress :=
  match rows with
  | [] => []
  | a :: rest =>
      if bool_decide (address_key a ∈ seen) then unique_addresses seen rest
      else a :: unique_addresses (address_key a :: seen) rest
  end.

Definition listAddresses (customerId : string) : M (St Db) (list Json) :=
  rows ← recentAddresses customerId;
  mret (map (λ a, JObj ([("id", JStr (oa_id a))] ++ address_fields a
                        ++ [("gstin", jnullable (oa_gstin a))])) (unique_addresses [] rows)).

(** [order.customer_id !== userId] *)
Definition owned_by (o : Order) (userId : string) : bool := same_opt (od_customer_id o) (Some userId).

Definition requireOwnedOrder (orderId userId : string) : M (St Db) OrderRow :=
  order ← order_findById orderId;
  order ← require_ order (AppException NOT_FOUND "Order not found" 404);
  throw_if (negb (owned_by (ow_order order) userId))
    (AppException FORBIDDEN "Order access denied" 403) ;;
  mret order.

Definition order_lock (parts : list string) : string := LockService.resourceKey ("orders" :: parts).

(** The reservations [cancel] releases. *)
Definition reserved_for (orderId : string) (r : StockReservation) : bool :=
  same_opt (rv_order_id r) (Some orderId) && bool_decide (rv_status r = rv_active)
  && live (rv_deleted_at r).

Definition cancel_body (orderId userId : string) (dto : CancelOrderDto) (isAdmin : bool)
  : M (St Db) (string * string) :=
  order ← order_findById orderId;
  order ← require_ order (AppException NOT_FOUND "Order not found" 404);
  let o := ow_order order in
  throw_if (negb isAdmin && negb (owned_by o userId))
    (AppException FORBIDDEN "Order access denied" 403) ;;
  throw_if (negb (canCancel (od_status o)))
    (AppException CONFLICT ("Cannot cancel order in status " +:+ OrderStatus_text (od_status o)) 409) ;;
  _ ← db_update T_Order orderId (set_cancellation (co_cancellationReasonId dto));
  _ ← transitionStatus orderId (Some (od_status o)) or_cancelled
        (Some (coalesce (co_note dto) "Cancelled by customer"));
  reservations ← db_findMany T_StockReservation (reserved_for orderId);
  for_each reservations (λ r, _ ← releaseReservation (rv_id r); mret tt) ;;
  invalidateOrder orderId (od_customer_id o) ;;
  emit (OrderCancelledEvent orderId (od_order_number o) (co_cancellationReasonId dto)) ;;
  mret (orderId, "cancelled").

Definition cancel (orderId userId : string) (dto : CancelOrderDto) (isAdmin : bool)
  : M (St Db) (string * string) :=
  LockService.withLock (order_lock [orderId]) (cancel_body orderId userId dto isAdmin)
    (lock_opts 15000 5000).

Definition requestReturn (userId orderId : string) (dto : ReturnRequestDto)
  : M (St Db) (Return * list ReturnItem) :=
  order ← requireOwnedOrder orderId userId;
  throw_if (negb (canRequestReturn (od_status (ow_order order))))
    (AppException CONFLICT
       ("Cannot return order in status " +:+ OrderStatus_text (od_status (ow_order order))) 409) ;;
  item ← require_ (find_first (λ i, String.eqb (oi_id i) (rr_orderItemId dto)) (ow_items order))
           (AppException NOT_FOUND "Order item not found" 404);
  throw_if (oi_quantity item <? rr_quantity dto)
    (AppException BAD_REQUEST "Quantity exceeds ordered" 400) ;;
  number ← nextReturnNumber;
  ret ← createReturn number orderId (rr_reason dto)
          [((rr_orderItemId dto, rr_quantity dto), rr_reason dto)];
  emit (OrderReturnRequestedEvent (rt_id ret.1) orderId (rt_return_number ret.1)) ;;
  mret ret.

Definition requestExchange (userId orderId : string) (dto : ExchangeRequestDto)
  : M (St Db) ExchangeRequest :=
  order ← requireOwnedOrder orderId userId;
  item ← require_ (find_first (λ i, String.eqb (oi_id i) (er_orderItemId dto)) (ow_items order))
           (AppException NOT_FOUND "Order item not found" 404);
  number ← nextExchangeNumber;
  exchange ← createExchange number orderId (er_orderItemId dto) (er_exchangeType dto)
               (oi_variant_id item) (er_toVariantId dto) (er_reason dto);
  emit (OrderExchangeRequestedEvent (ex_id exchange) orderId (ex_exchange_number exchange)) ;;
  mret exchange.

(** The items a fulfilment takes: those named, or all when none is named. *)
Definition fulfilled_items (dto : CreateFulfillmentDto) (items : list OrderItem) : list OrderItem :=
  match cf_orderItemIds dto with
  | Some ((_ :: _) as ids) => where_ (λ i, bool_decide (oi_id i ∈ ids)) items
  | _ => items
  end.

Definition create_fulfillment_rows (orderId : string) (dto : CreateFulfillmentDto)
  (items : list OrderItem) : M (St Db) FulfillmentOrder :=
  number ← nextFulfillmentNumber;
  pick ← number36 "PICK";
  pack ← number36 "PACK";
  in_transaction
    (fo ← db_create T_FulfillmentOrder (λ id, mkFulfillmentOrder id number orderId
            (cf_warehouseId dto) "pending" None None None);
     for_each items (λ i,
       _ ← db_create T_FulfillmentItem (λ id, mkFulfillmentItem id (fo_id fo) (oi_id i)
             (oi_quantity i)); mret tt) ;;
     _ ← db_create T_WarehouseList (λ id, mkWarehouseList id (fo_id fo) "pick" pick "open");
     _ ← db_create T_WarehouseList (λ id, mkWarehouseList id (fo_id fo) "pack" pack "open");
     mret fo).

Definition createFulfillment (orderId : string) (dto : CreateFulfillmentDto)
  : M (St Db) FulfillmentOrder :=
  LockService.withLock (order_lock ["fulfill"; orderId])
    (order ← order_findById orderId;
     order ← require_ order (AppException NOT_FOUND "Order not found" 404);
     let o := ow_order order in
     throw_if (negb (bool_decide (od_status o ∈ [or_confirmed; or_processing; or_packed])))
       (AppException CONFLICT
          ("Cannot fulfill order in status " +:+ OrderStatus_text (od_status o)) 409) ;;
     fo ← create_fulfillment_rows orderId dto (fulfilled_items dto (ow_items order));
     when_ (bool_decide (od_status o = or_confirmed))
       (_ ← transitionStatus orderId (Some or_confirmed) or_processing
              (Some "Fulfillment created"); mret tt) ;;
     emit (OrderFulfillmentCreatedEvent (fo_id fo) orderId (fo_fulfillment_number fo)) ;;
     invalidateOrder orderId (od_customer_id o) ;;
     mret fo)
    (lock_opts 20000 5000).

Definition adminList (page limit : Z) (status : option OrderStatus)
  : M (St Db) (list Json * PaginationMeta) :=
  let take_ := Z.min limit 100 in
  r ← listAdmin status ((page - 1) * take_) take_;
  mret (paginatedResult (map (λ x, JObj (mapOrderSummary x.1.1 x.1.2 x.2)) (r.2)) page take_ (r.1)).

Definition updateFulfillmentStatus (fulfillmentId status : string) : M (St Db) FulfillmentOrder :=
  fo ← fulfillment_findById fulfillmentId;
  _ ← require_ fo (AppException NOT_FOUND "Fulfillment not found" 404);
  now ← Date_now;
  db_update T_FulfillmentOrder fulfillmentId (set_fulfillment_status status now).

Definition createInvoice (orderId : string) : M (St Db) (Invoice * list InvoiceItem) :=
  order ← order_findById orderId;
  order ← require_ order (AppException NOT_FOUND "Order not found" 404);
  let o := ow_order order in
  now ← Date_now;
  number ← number36 "INV";
  in_transaction
    (inv ← db_create T_Invoice (λ id, mkInvoice id number orderId (od_currency o) (od_subtotal o)
             (od_discount_total o) (od_shipping_charge o) (od_grand_total o) "issued" now now None);
     items ← for_fold (ow_items order) [] (λ acc i,
               r ← db_create T_InvoiceItem (λ id, mkInvoiceItem id (in_id inv) (oi_id i)
                     (oi_variant_id i) (oi_name_snapshot i) (oi_quantity i) (oi_unit_price i)
                     (oi_line_total i));
               mret (acc ++ [r]));
     mret (inv, items)).

Definition listInvoices (page limit : Z) : M (St Db) (list Json * PaginationMeta) :=
  let take_ := Z.min limit 100 in
  let matches i := live (in_deleted_at i) in
  total ← db_count T_Invoice matches;
  rows ← db_findMany_desc T_Invoice matches in_created_at;
  rows ← require_ (Pagination.page_of_args ((page - 1) * take_) take_ rows)
           (JsError "Invalid value for skip argument");
  orders ← gets (λ s, view L_Order (tables s));
  mret (paginatedResult (map (λ i, JObj
    ([("id", JStr (in_id i)); ("invoiceNumber", JStr (in_invoice_number i));
      ("orderId", JStr (in_order_id i))]
     ++ jopt "orderNumber" (option_map od_order_number
          (find_first (λ o, String.eqb (od_id o) (in_order_id i)) orders)) ++
     [("status", JStr (in_status i)); ("currency", JStr (in_currency i));
      ("grandTotal", JNum (cents (in_grand_total i))); ("invoiceDate", JInt (in_invoice_date i))]))
    rows) page take_ total).

(** *** Wishlist *)

Definition getWishlist (userId : string) : M (St Db) Json :=
  wl ← wishlist_getOrCreate userId;
  mret (JObj [("id", JStr (wi_id wl.1)); ("name", JStr (wi_name wl.1));
              ("items", JArr (map (λ iv, JObj ([("id", JStr (wk_id iv.1));
                                                ("variantId", JStr (wk_variant_id iv.1))]
                                               ++ jopt "sku" (option_map pv_sku iv.2)))
                                  (where_ (λ iv, live (wk_deleted_at iv.1)) wl.2)))]).

Definition addWishlistItem (userId variantId : string) : M (St Db) Json :=
  wl ← wishlist_getOrCreate userId;
  wishlist_addItem (wi_id wl.1) variantId ;;
  getWishlist userId.

Definition removeWishlistItem (userId itemId : string) : M (St Db) Json :=
  _ ← wishlist_removeItem itemId;
  getWishlist userId.
End service.
End OrdersService.
