(* ===== verification/Checkout.v ===== *)
(** * Checkout

    Models [backend/src/modules/orders/services/checkout.service.ts]: the order
    placement workflow and the request that runs it. The workflow's steps are
    computations on the application's tables; [checkout] runs in the
    coordinator's state, which holds the workflow store as well. The theorems
    are in [OrderRules]. *)
From S2P Require Import Prelude Core Effects Redis Lock Saga JsNumber Schema Database Tables Inventory Payments Orders.
From Stdlib Require Import QArith.

#[local] Open Scope Z_scope.

(** ** Data ([interfaces/index.ts], [dto/checkout.dto.ts]) *)

(** [AddressDto] and [CheckoutAddressInput] have the same fields. *)
Record CheckoutAddressInput := mkAddressInput {
  ad_fullName : string; ad_phone : option string; ad_line1 : string; ad_line2 : option string;
  ad_city : string; ad_state : string; ad_country : option string; ad_postalCode : string;
  ad_gstin : option string;
}.

Record CheckoutDto := mkCheckoutDto {
  ck_cartId : option string; ck_sessionKey : option string; ck_warehouseId : string;
  ck_shipping : CheckoutAddressInput; ck_billing : option CheckoutAddressInput;
  ck_giftCardCode : option string; ck_walletAmount : option Q;
}.

Record CheckoutContext := mkCheckoutContext {
  cx_userId : string; cx_cartId : string; cx_warehouseId : string;
  cx_orderId : option string; cx_orderNumber : option string;
  cx_reservationIds : option (list string); cx_paymentId : option string;
  cx_amount : option Q; cx_shipping : option CheckoutAddressInput;
  cx_billing : option CheckoutAddressInput; cx_giftCardCode : option string;
  cx_walletAmount : option Q;
}.

(** What the steps return: the fields to merge into the context. *)
Inductive CheckoutPatch :=
| p_order (orderId orderNumber : string)
| p_reservations (ids : list string)
| p_payment (paymentId : string)
| p_nothing.

#[export] Instance checkout_assign : Assign CheckoutContext CheckoutPatch := λ c p,
  match p with
  | p_order i n =>
      mkCheckoutContext (cx_userId c) (cx_cartId c) (cx_warehouseId c) (Some i) (Some n)
        (cx_reservationIds c) (cx_paymentId c) (cx_amount c) (cx_shipping c) (cx_billing c)
        (cx_giftCardCode c) (cx_walletAmount c)
  | p_reservations ids =>
      mkCheckoutContext (cx_userId c) (cx_cartId c) (cx_warehouseId c) (cx_orderId c)
        (cx_orderNumber c) (Some ids) (cx_paymentId c) (cx_amount c) (cx_shipping c)
        (cx_billing c) (cx_giftCardCode c) (cx_walletAmount c)
  | p_payment id =>
      mkCheckoutContext (cx_userId c) (cx_cartId c) (cx_warehouseId c) (cx_orderId c)
        (cx_orderNumber c) (cx_reservationIds c) (Some id) (cx_amount c) (cx_shipping c)
        (cx_billing c) (cx_giftCardCode c) (cx_walletAmount c)
  | p_nothing => c
  end.

Record CheckoutResult := mkCheckoutResult {
  cr_workflowId : string; cr_order : option (list (string * Json));
  cr_paymentId : option string; cr_reservationIds : option (list string);
}.

(** [country ?? 'India'] *)
Definition with_country (a : CheckoutAddressInput) : CheckoutAddressInput :=
  mkAddressInput (ad_fullName a) (ad_phone a) (ad_line1 a) (ad_line2 a) (ad_city a) (ad_state a)
    (Some (coalesce (ad_country a) "India")) (ad_postalCode a) (ad_gstin a).

(** An optional string that is [undefined] or empty is falsy. *)
Definition truthy (s : option string) : option string :=
  match s with Some ((String _ _) as x) => Some x | _ => None end.

Definition link_order (orderId : option string) (r : StockReservation) : StockReservation :=
  mkStockReservation (rv_id r) (rv_warehouse_id r) (rv_variant_id r) (rv_quantity r)
    (rv_cart_id r) (keep orderId (rv_order_id r)) (rv_session_key r) (rv_expires_at r)
    (rv_status r) (rv_deleted_at r).

Section checkout.
  Context `{Redis, !Scheduler, !Crypto, !MathRandom, !Postgres, !ClientText, !NumberText,
            !PaymentProvider, !PaymentConfig}.

Definition autoSettlePayment : bool :=
  bool_decide (payment_mock = Some true) || negb (bool_decide (payment_serverCapture = Some false)).

Definition validateTenders (userId : string) (dto : CheckoutDto) : M (St Db) () :=
  match truthy (ck_giftCardCode dto) with
  | Some code =>
      gc ← findGiftCard code;
      throw_if (match gc with
                | Some gc => js_le (cents (gc_remaining_balance gc)) 0
                | None => true
                end) (AppException BAD_REQUEST "Invalid gift card" 400)
  | None => mret tt
  end ;;
  match ck_walletAmount dto with
  | Some w =>
      if js_lt 0 w then
        wallet ← findWallet userId;
        throw_if (match wallet with
                  | Some wa => js_lt (cents (wa_balance wa)) w
                  | None => true
                  end) (AppException BAD_REQUEST "Insufficient wallet balance" 400)
      else mret tt
  | None => mret tt
  end.

(** *** Step 1: [create_draft_order] *)

(** [cart.items.map(...)], before the database is called: a missing variant is a
    TypeError. *)
Record DraftItem := mkDraftItem {
  di_variant_id : string; di_sku : string; di_quantity : Z; di_unit_price : Z; di_line_total : Q;
}.

Definition draft_items (cart : CartRow) : M (St Db) (list DraftItem) :=
  for_fold (cr_items cart) [] (λ acc iv,
    v ← require_ (snd iv) (JsError "Cannot read properties of null (reading 'sku')");
    mret (acc ++ [mkDraftItem (ci_variant_id (fst iv)) (pv_sku v) (ci_quantity (fst iv))
                    (ci_unit_price (fst iv)) (line_total (fst iv))])).

Definition create_draft_item (orderId : string) (i : DraftItem) : M (St Db) () :=
  _ ← db_create T_OrderItem (λ id, mkOrderItem id orderId (di_variant_id i) (di_sku i) (di_sku i)
        (di_quantity i) (di_unit_price i) (numeric2 (di_line_total i)) None);
  mret tt.

Definition create_address (orderId kind : string) (a : CheckoutAddressInput) : M (St Db) () :=
  now ← Date_now;
  _ ← db_create T_OrderAddress (λ id, mkOrderAddress id orderId kind (ad_fullName a) (ad_phone a)
        (ad_line1 a) (ad_line2 a) (ad_city a) (ad_state a) (coalesce (ad_country a) "India")
        (ad_postalCode a) (ad_gstin a) now None);
  mret tt.

Definition create_draft_order (cart : CartRow) (ctx : CheckoutContext)
  : M (St Db) (option CheckoutPatch) :=
  orderNumber ← nextOrderNumber;
  items ← draft_items cart;
  shipping ← require_ (cx_shipping ctx)
               (JsError "Cannot read properties of undefined (reading 'fullName')");
  let billing := coalesce (cx_billing ctx) shipping in
  let amount := numeric2 (coalesce (cx_amount ctx) 0%Q) in
  order ← in_transaction
    (now ← Date_now;
     order ← db_create T_Order (λ id, mkOrder id orderNumber (Some (cx_userId ctx))
               (Some (cx_cartId ctx)) None (Some (cx_warehouseId ctx)) (ca_currency (cr_cart cart))
               amount 0 0 0 amount None None None or_pending now None);
     for_each items (create_draft_item (od_id order)) ;;
     create_address (od_id order) "shipping" shipping ;;
     create_address (od_id order) "billing" billing ;;
     _ ← db_create T_OrderStatusHistory (λ id, mkOrderStatusHistory id (od_id order) None
           or_pending (Some "Draft order created") now);
     mret order);
  emit (OrderCreatedEvent (od_id order) (od_order_number order) (cx_userId ctx)) ;;
  mret (Some (p_order (od_id order) (od_order_number order))).

Definition undo_draft_order (ctx : CheckoutContext) : M (St Db) () :=
  match truthy (cx_orderId ctx) with
  | Some orderId =>
      _ ← transitionStatus orderId (Some or_pending) or_cancelled (Some "Checkout compensation");
      mret tt
  | None => mret tt
  end.

(** *** Step 2: [reserve_inventory] *)

Definition reserve_dto (ctx : CheckoutContext) (i : CartItem) : ReserveStockDto :=
  mkReserveStockDto (cx_warehouseId ctx) (ci_variant_id i) (ci_quantity i) (Some (cx_cartId ctx))
    (cx_orderId ctx) None None.

Definition reserve_item (ctx : CheckoutContext) (ids : list string)
  (iv : CartItem * option ProductVariant) : M (St Db) (list string) :=
  res ← reserve (reserve_dto ctx (fst iv));
  mret (ids ++ [rw_id res]).

Definition reserve_inventory (cart : CartRow) (ctx : CheckoutContext)
  : M (St Db) (option CheckoutPatch) :=
  ids ← for_fold (cr_items cart) [] (reserve_item ctx);
  db_updateMany T_StockReservation (λ r, bool_decide (rv_id r ∈ ids)) (link_order (cx_orderId ctx)) ;;
  mret (Some (p_reservations ids)).

(** The release of one reservation; a failure is only logged. *)
Definition release_logged (id : string) : M (St Db) () :=
  try_catch (_ ← releaseReservation id; mret tt) (λ _, mret tt).

Definition undo_reserve_inventory (ctx : CheckoutContext) : M (St Db) () :=
  for_each (coalesce (cx_reservationIds ctx) []) release_logged.

(** *** Step 3: [create_payment] *)

(** [ctx.orderId!] of a step that runs after the first. *)
Definition bang (s : option string) : string := coalesce s "".

Definition create_payment (ctx : CheckoutContext) : M (St Db) (option CheckoutPatch) :=
  throw_if (js_lt (coalesce (cx_amount ctx) 0%Q) 0) (JsError "Invalid payment amount") ;;
  payment ← createForCheckout (bang (cx_orderId ctx)) (cx_userId ctx)
              (coalesce (cx_amount ctx) 0%Q);
  mret (Some (p_payment (pv_id_ payment))).

Definition undo_create_payment (ctx : CheckoutContext) : M (St Db) () :=
  match truthy (cx_paymentId ctx) with
  | Some id => voidOrCancel id (cx_userId ctx)
  | None => mret tt
  end.

(** *** Steps 4 and 5: [authorize_payment], [capture_payment] *)

Definition authorize_payment (ctx : CheckoutContext) : M (St Db) (option CheckoutPatch) :=
  if autoSettlePayment then
    _ ← authorize (bang (cx_paymentId ctx)) (cx_userId ctx) false; mret (Some p_nothing)
  else mret (Some p_nothing).

Definition undo_authorize_payment (ctx : CheckoutContext) : M (St Db) () :=
  if autoSettlePayment then undo_create_payment ctx else mret tt.

Definition capture_payment (ctx : CheckoutContext) : M (St Db) (option CheckoutPatch) :=
  if autoSettlePayment then
    _ ← capture (bang (cx_paymentId ctx)) (cx_userId ctx) false; mret (Some p_nothing)
  else mret (Some p_nothing).

Definition undo_capture_payment (ctx : CheckoutContext) : M (St Db) () :=
  if autoSettlePayment then try_catch (undo_create_payment ctx) (λ _, mret tt) else mret tt.

(** *** Step 6: [confirm_order] *)

Definition confirm_order (ctx : CheckoutContext) : M (St Db) (option CheckoutPatch) :=
  if autoSettlePayment then
    throw_if (is_nil (coalesce (cx_reservationIds ctx) []))
      (JsError "Inventory reservation required before confirmation") ;;
    _ ← transitionStatus (bang (cx_orderId ctx)) (Some or_pending) or_confirmed
          (Some "Payment captured");
    _ ← markConverted (cx_cartId ctx);
    _ ← createRiskScore (bang (cx_orderId ctx)) 10 "low";
    emit (OrderConfirmedEvent (bang (cx_orderId ctx)) (bang (cx_orderNumber ctx))) ;;
    mret (Some p_nothing)
  else mret (Some p_nothing).

Definition undo_confirm_order (ctx : CheckoutContext) : M (St Db) () :=
  if autoSettlePayment then
    match truthy (cx_orderId ctx) with
    | Some orderId =>
        _ ← transitionStatus orderId (Some or_confirmed) or_cancelled (Some "Confirm compensation");
        mret tt
    | None => mret tt
    end
  else mret tt.

(** ** The workflow ([buildDefinition]) and the request *)

Definition two_attempts : option RetryPolicy := Some (mkRetry (Some 2) (Some 200) None).

Definition buildDefinition (cart : CartRow)
  : WorkflowDefinition CheckoutContext CheckoutPatch Db :=
  mkWorkflow "order.placement"
    [mkStep "create_draft_order" (create_draft_order cart) (Some undo_draft_order) None
       (Some 15000);
     mkStep "reserve_inventory" (reserve_inventory cart) (Some undo_reserve_inventory) None
       (Some 30000);
     mkStep "create_payment" create_payment (Some undo_create_payment) two_attempts (Some 20000);
     mkStep "authorize_payment" authorize_payment (Some undo_authorize_payment) two_attempts
       (Some 30000);
     mkStep "capture_payment" capture_payment (Some undo_capture_payment) two_attempts
       (Some 30000);
     mkStep "confirm_order" confirm_order (Some undo_confirm_order) None (Some 15000)]
    (Some 120000) (Some (mkRetry (Some 1) None None)).

Definition initial_context (userId : string) (dto : CheckoutDto) (cart : CartRow)
  : CheckoutContext :=
  mkCheckoutContext userId (ca_id (cr_cart cart)) (ck_warehouseId dto) None None (Some []) None
    (Some (items_total (cr_items cart))) (Some (with_country (ck_shipping dto)))
    (option_map with_country (ck_billing dto)) (ck_giftCardCode dto) (ck_walletAmount dto).

(** The cart of the request: the one named, or the user's newest open one. *)
Definition checkout_cart (userId : string) (dto : CheckoutDto) : M (St Db) CartRow :=
  cart ← match truthy (ck_cartId dto) with
         | Some id => c ← requireCart id (Some userId); mret (Some c)
         | None => findActiveByUser userId
         end;
  require_ (match cart with
            | Some c => if is_nil (cr_items c) then None else Some c
            | None => None
            end) (AppException BAD_REQUEST "Cart is empty" 400).

(** What follows a completed workflow. *)
Definition checkout_result (userId workflowId : string) (ctx : CheckoutContext)
  : M (St Db) CheckoutResult :=
  order ← order_findById (bang (cx_orderId ctx));
  invalidateCart ("user:" +:+ userId) ;;
  match order with
  | Some o => invalidateOrder (od_id (ow_order o)) (Some userId)
  | None => mret tt
  end ;;
  mret (mkCheckoutResult workflowId
          (option_map (λ o, mapOrderSummary (ow_order o) (length (ow_items o)) None) order)
          (cx_paymentId ctx) (cx_reservationIds ctx)).

Notation W := (St (WfSt CheckoutContext Db)).

Definition checkout_body (userId : string) (dto : CheckoutDto) : M W CheckoutResult :=
  cart ← zoom (stL appL) (checkout_cart userId dto);
  zoom (stL appL) (validateTenders userId dto) ;;
  result ← run (buildDefinition cart) (initial_context userId dto cart);
  throw_if (negb (bool_decide (inst_status result = wf_completed)))
    (AppException CONFLICT (coalesce (inst_error result) "Checkout workflow failed") 409) ;;
  zoom (stL appL) (checkout_result userId (inst_id result) (inst_context result)).

Definition checkout (userId : string) (dto : CheckoutDto) : M W CheckoutResult :=
  LockService.withLock (LockService.resourceKey ["orders"; "checkout"; userId])
    (checkout_body userId dto) (lock_opts 60000 10000).
End checkout.
