(* ===== verification/CheckoutRules.v ===== *)
(** * Checkout rules: what placing an order guarantees

    The order placement workflow against the ledger of [Stock] and the payments
    of [PaymentRules]: on every path it keeps each promise backed and creates and
    destroys no stock; when it succeeds, the order, its lines, its reservations
    and its payment are all there and agree. *)
From S2P Require Import Prelude Core Effects Redis Lock Saga JsNumber Schema Database Tables Sample Inventory Stock Payments Webhooks PaymentRules Orders Checkout.
From Stdlib Require Import QArith Qabs Lqa.

#[local] Open Scope Z_scope.

(** ** Reasoning about a saga step by step *)
Section saga_rules.
Context `{Redis, !Scheduler, !Crypto, !ClientText} {C P D : Type} `{!Assign C P}.
Notation step_t := (WorkflowStep C P D).

Section stays_run.
Context (R : D → D → Prop) `{!PreOrder R}.

Definition step_stays (step : step_t) : Prop :=
  (∀ c, stays (on_tables R) (execute step c)) ∧
  (∀ comp c, compensate step = Some comp → stays (on_tables R) (comp c)).

Lemma withTimeout_stays {A} (m : M (St D) A) ms msg :
  stays (on_tables R) m → stays (on_tables R) (withTimeout m ms msg).
Proof.
  intros Hm s. specialize (Hm s). unfold withTimeout. destruct (m s) as [o s'].
  by destruct (_ <? _).
Qed.

Lemma a_attempt_stays {A} (m : M (St D) A) :
  stays (on_tables R) m → stays (on_tables R) (a_attempt m).
Proof.
  intros Hm. unfold a_attempt. apply stays_try_catch; [apply _| |intros; apply stays_ret, _].
  apply stays_bind; [apply _|done|intros; apply stays_ret, _].
Qed.

Lemma sleep_stays ms : stays (on_tables R) (sleep (D := D) ms).
Proof. intros s. unfold on_tables. simpl. reflexivity. Qed.

Lemma a_attempts_stays n no definition step t last c :
  step_stays step → stays (on_tables R) (a_attempts n no definition step t last c).
Proof.
  intros [He _]. revert no last. induction n as [|n IH]; intros no last; simpl.
  - apply stays_ret, _.
  - apply stays_bind; [apply _|by apply a_attempt_stays, withTimeout_stays|].
    intros [e|p]; [|apply stays_ret, _].
    apply stays_bind; [apply _|apply stays_when; [apply _|apply sleep_stays]|]. intros []. apply IH.
Qed.

Lemma a_undo_stays done c : Forall step_stays done → stays (on_tables R) (a_undo done c).
Proof.
  induction 1 as [|step done [_ Hc] _ IH]; simpl; [apply stays_ret, _|].
  destruct (compensate step) eqn:E; [|done].
  apply stays_bind; [apply _|by apply a_attempt_stays, Hc|]. done.
Qed.

Lemma a_run_stays todo done definition deadline c :
  Forall step_stays todo → Forall step_stays done →
  stays (on_tables R) (a_run todo done definition deadline c).
Proof.
  intros Ht. revert done c. induction Ht as [|step todo Hs _ IH]; intros done c Hd; simpl.
  - apply stays_ret, _.
  - apply stays_bind; [apply _|apply stays_gets, _|]. intros now.
    assert (∀ c' (st : WorkflowStatus),
      stays (on_tables R) (a_undo done c' ;; mret (st, c'))) as Hundo.
    { intros c' st. apply stays_bind; [apply _|by apply a_undo_stays|]. intros []. apply stays_ret, _. }
    destruct (_ <? _); [apply Hundo|].
    apply stays_bind; [apply _|by apply a_attempts_stays|]. intros [c' [e|]]; [apply Hundo|].
    apply IH. by constructor.
Qed.
End stays_run.

(** Progress: [I k c d] holds when [k] steps are done with context [c] and
    tables [d]; a failed attempt of a step that may be tried again keeps it. *)
Section hoare_run.
Context (I : nat → C → D → Prop) (definition : WorkflowDefinition C P D).

Definition step_advances (k : nat) (step : step_t) : Prop :=
  ∀ c d, I k c d → dwp (execute step c) (λ o d',
    (1 < policy_maxAttempts definition step → I k c d') ∧ match o with
    | Ok p => I (S k) (patched c p) d' | Throw _ => True end) d.

(** A step whose failures keep the invariant however often it is tried. *)
Lemma step_retriable k step :
  (∀ c d, I k c d → dwp (execute step c) (λ o d', I k c d' ∧ match o with
     | Ok p => I (S k) (patched c p) d' | Throw _ => True end) d) →
  step_advances k step.
Proof. intros Hs c d HI. eapply dwp_mono; [by apply Hs|]. by intros o d' [? ?]. Qed.

Lemma withTimeout_advances k step c t msg s :
  step_advances k step → I k c (tables s) →
  ∃ o s', withTimeout (execute step c) t msg s = (o, s')
    ∧ (1 < policy_maxAttempts definition step → I k c (tables s')) ∧
    match o with Ok p => I (S k) (patched c p) (tables s') | Throw _ => True end.
Proof.
  intros Hstep HI. destruct (Hstep c (tables s) HI s eq_refl) as [HIk HO].
  unfold withTimeout. destruct (execute step c s) as [o s']; simpl in *.
  destruct (_ <? _); eexists _, _; eauto.
Qed.

Lemma a_attempts_advance k n no step t last c s :
  step_advances k step → Z.of_nat n <= policy_maxAttempts definition step →
  (last = None → I k c (tables s) ∧ n ≠ O) → (n ≠ O → I k c (tables s)) →
  ∃ c' last' s', a_attempts n no definition step t last c s = (Ok (c', last'), s')
    ∧ match last' with None => I (S k) c' (tables s') | Some _ => True end.
Proof.
  intros Hstep. revert no last s. induction n as [|n IH]; intros no last s Hn Hlast HI; simpl.
  { eexists _, _, _. split; [done|]. destruct last; [done|]. by destruct (Hlast eq_refl). }
  match goal with |- context [withTimeout ?m t ?msg] =>
    destruct (withTimeout_advances k step c t msg s Hstep) as ([p|e] & s1 & E & HI1 & HO);
      [by apply HI|..] end.
  - rewrite (bind_step _ _ _ _ _ (a_attempt_Ok _ _ _ _ E)). eexists _, _, _. by split.
  - rewrite (bind_step _ _ _ _ _ (a_attempt_Throw _ _ _ _ E)).
    assert (n ≠ O → I k c (tables s1)) as HI2 by (intros ?; apply HI1; lia).
    unfold when_. destruct (no <? _); (erewrite bind_step by done); apply IH; done || lia.
Qed.

Fixpoint advances (k : nat) (todo : list step_t) : Prop :=
  match todo with [] => True | step :: rest => step_advances k step ∧ advances (S k) rest end.

Lemma a_run_advances todo k done deadline c s st c' s' :
  advances k todo → Forall (λ step, 1 <= policy_maxAttempts definition step) todo →
  I k c (tables s) → a_run todo done definition deadline c s = (Ok (st, c'), s') →
  st = wf_completed → I (k + length todo) c' (tables s').
Proof.
  revert k done c s. induction todo as [|step todo IH]; intros k done c s Ha Hm HI Hrun Hst; simpl in *.
  { run_inv. by rewrite Nat.add_0_r. }
  destruct Ha as [Hstep Ha]. apply Forall_cons in Hm as [Hm1 Hm].
  rewrite (bind_step _ _ _ (clock (env s)) s) in Hrun by done.
  destruct (_ <? _); [by run_inv|].
  match type of Hrun with context [a_attempts ?n 1 definition step ?t None c] =>
    destruct (a_attempts_advance k n 1 step t None c s Hstep)
      as (c1 & last & s1 & E & HO); [lia|split; [done|lia]|done|] end.
  rewrite (bind_step _ _ _ _ _ E) in Hrun.
  destruct last; [by run_inv|]. rewrite <- Nat.add_succ_comm. by eapply IH.
Qed.
End hoare_run.
End saga_rules.

(** ** Requests around a workflow *)
Section workflow_rules.
Context `{Redis, !Scheduler, !Crypto, !ClientText} {C P D : Type} `{!Assign C P}.

Lemma dwp_zoom {A} (m : M (St D) A) (Q : outcome A → WfSt C D → Prop) w :
  dwp m (λ o d', Q o (mkWfSt (workflows w) d')) (app w) → dwp (zoom (stL appL) m) Q w.
Proof.
  intros Hm s Hs. specialize (Hm (view (stL appL) s)). unfold zoom.
  destruct (m (view (stL appL) s)) as [o t]. simpl. rewrite Hs.
  apply Hm. unfold view. simpl. by rewrite Hs.
Qed.

(** A run of the coordinator is a run of the abstract saga on the tables. *)
Lemma dwp_run (definition : WorkflowDefinition C P D) (c0 : C) Q w :
  Forall (λ step, 1 <= policy_maxAttempts definition step) (steps definition) →
  (∀ i deadline s0 s1 w', tables s0 = app w → tables s1 = app w' →
     a_run (steps definition) [] definition deadline c0 s0 =
       (Ok (inst_status i, inst_context i), s1) → Q (Ok i) w') →
  dwp (run definition c0) Q w.
Proof.
  intros Hmax HQ s Hs. destruct (run_simulates definition c0 s Hmax) as (i & s' & E & Ea & _).
  rewrite E. simpl. eapply HQ; [| |exact Ea]; [|done].
  unfold vw, view. simpl. by rewrite Hs.
Qed.

(** What every step stays within, the run does. *)
Lemma dwp_run_stays (R : D → D → Prop) `{!PreOrder R} (definition : WorkflowDefinition C P D) c0 w :
  Forall (λ step, 1 <= policy_maxAttempts definition step) (steps definition) →
  Forall (step_stays R) (steps definition) →
  dwp (run definition c0) (λ _ w', R (app w) (app w')) w.
Proof.
  intros Hmax HR. apply dwp_run; [done|]. intros i deadline s0 s1 w' Hs0 Hs1 Ea.
  pose proof (a_run_stays R _ [] definition deadline c0 HR (Forall_nil_2 _) s0) as Hst.
  rewrite Ea in Hst. unfold on_tables in Hst. simpl in Hst. by rewrite Hs0, Hs1 in Hst.
Qed.
End workflow_rules.

(** ** What the payment services leave alone *)

(** The columns of a payment and of an order that are written once. *)
Definition pay_core (p : Payment) : string * string * Z := (pm_id p, pm_order_id p, pm_amount p).
Definition order_core (o : Order) : string * option string * option string * Z * Z :=
  (od_id o, od_customer_id o, od_cart_id o, od_subtotal o, od_grand_total o).

(** Stock, order lines and orders are those of before (up to the status of the
    orders), and payments are only added or advanced. *)
Record pay_frame (d d' : Db) : Prop := {
  fr_stock : same_stock d d';
  fr_lines : view L_OrderItem d' = view L_OrderItem d;
  fr_orders : map order_core (view L_Order d') = map order_core (view L_Order d);
  fr_pays : map pay_core (view L_Payment d) `prefix_of` map pay_core (view L_Payment d');
}.

#[export] Instance pay_frame_preorder : PreOrder pay_frame.
Proof.
  split; [by split|]. intros d1 d2 d3 [S1 L1 O1 P1] [S2 L2 O2 P2].
  split; [by etransitivity|congruence..|by etransitivity].
Qed.

Lemma map_update_rows {A B} (key : A → string) id f (g : A → B) l :
  (∀ a, g (f a) = g a) → map g (update_rows key id f l) = map g l.
Proof.
  intros Hg. unfold update_rows. rewrite map_map. apply map_ext. intros a.
  by destruct (String.eqb _ _).
Qed.

Section pay_frame.
Context `{Redis, !Scheduler, !Crypto, !MathRandom, !Postgres, !ClientText, !NumberText,
          !PaymentProvider, !PaymentConfig}.
Notation keeps := (stays (on_tables pay_frame)).

Lemma frame_pay_update id f : (∀ p, pay_core (f p) = pay_core p) → keeps (pay_update id f).
Proof.
  intros Hf s. unfold pay_update, db_update, db_write, on_tables.
  destruct (find_first _ _); [|reflexivity]. destruct (db_fault _ _); [reflexivity|].
  destruct (refused _ _ _); [reflexivity|]. simpl.
  split; [done|done|done|]. rewrite view_put. by rewrite map_update_rows.
Qed.

Lemma frame_pay_create mk : keeps (db_create T_Payment mk).
Proof.
  intros s. unfold db_create, db_write, on_tables. destruct (db_fault _ _); [reflexivity|].
  destruct (refused _ _ _); [reflexivity|]. simpl.
  split; [done|done|done|]. rewrite view_put, map_app. by apply prefix_app_r.
Qed.

Lemma frame_order_update id f : (∀ o, order_core (f o) = order_core o) →
  keeps (db_update T_Order id f).
Proof.
  intros Hf s. unfold db_update, db_write, on_tables.
  destruct (find_first _ _); [|reflexivity]. destruct (db_fault _ _); [reflexivity|].
  destruct (refused _ _ _); [reflexivity|]. simpl.
  split; [done|done| |done]. rewrite view_put. by apply map_update_rows.
Qed.

(** The operations of the service, by their structure. *)
Ltac framed :=
  staying ltac:(first
    [ apply frame_pay_update; done | apply frame_pay_create | apply frame_order_update; done
    | apply stays_create; [apply _|by split] | apply stays_update; [apply _|by split]
    | apply stays_env; [apply _|apply view_of_tables]
    | apply stays_env; [apply _|apply invalidatePayment_tables]
    | apply stays_env; [apply _|apply gateway_tables]
    | apply stays_env; [apply _|apply withRetry_from_tables, gateway_tables] ]).

Lemma create_frame a dto : keeps (create a dto).
Proof.
  unfold create, createAttempt, audit, createAudit, createEvent, payment_event,
    findPrimaryGateway, findGatewayByCode, assertAdminOrOwner, withRetry, db_findFirst. framed.
Qed.

Lemma markFailed_frame {A} p a r : keeps (markFailed (A := A) p a r).
Proof. unfold markFailed, audit, createAudit, payment_event, Date_now. framed. Qed.

Lemma authorize_body_frame p a n : keeps (authorize_body p a n).
Proof.
  unfold authorize_body, createAttempt, createTransaction, audit, createAudit, createEvent,
    payment_event, withRetry, Date_now. framed.
Qed.

(** What [authorize_body] hands back only touches what the frame allows. *)
Lemma authorize_body_returns p a n : results keeps (authorize_body p a n).
Proof.
  unfold authorize_body. apply results_bind. intros g. apply results_bind. intros res.
  assert (results keeps (_ ← createAttempt (pm_id p) n None pm_pending; mret (view_of p))) as Hp.
  { apply results_bind. intros _. apply results_ret, stays_env; [apply _|apply view_of_tables]. }
  destruct (au_status res); [| exact Hp |];
    (destruct (_ || _); [apply results_ret, markFailed_frame|
      repeat (apply results_bind; intros ?);
      apply results_ret, stays_env; [apply _|apply view_of_tables]]).
Qed.

Lemma results_try_catch {A} (P : A → Prop) (m : M (St Db) A) h :
  results P m → (∀ e, results P (h e)) → results P (try_catch m h).
Proof.
  intros Hm Hh s a s'. unfold try_catch. specialize (Hm s).
  destruct (m s) as [[b|e] s1]; [intros [= -> ->]; by eapply Hm|by apply Hh].
Qed.

(** Awaiting a promise that was computed. *)
Lemma stays_join {A} (m : M (St Db) (M (St Db) A)) :
  keeps m → results keeps m → keeps (x ← m; x).
Proof.
  intros Hm Hr s. specialize (Hm s). specialize (Hr s). unfold mbind, M_bind.
  destruct (m s) as [[x|e] s1]; [|done]. etransitivity; [done|]. by eapply Hr.
Qed.

Lemma authorize_frame id a adm : keeps (authorize id a adm).
Proof.
  unfold authorize. apply stays_withLock; [apply _|].
  unfold requirePayment, pay_findById, assertCanAccess, assertTransition, nextAttemptNumber,
    db_findFirst, db_findMany.
  do 4 (apply stays_bind; [apply _|framed|intros ?]). apply stays_join.
  - apply stays_try_catch; [apply _|apply authorize_body_frame|]. intros e.
    unfold createAttempt. framed.
  - apply results_try_catch; [apply authorize_body_returns|]. intros e.
    apply results_bind. intros _. apply results_throw.
Qed.

Lemma capture_frame id a adm : keeps (capture id a adm).
Proof.
  unfold capture, markFailed, requirePayment, pay_findById, assertCanAccess, assertTransition,
    createTransaction, audit, createAudit, createEvent, payment_event,
    confirmPendingOrderAfterCapture, job, withRetry, db_findFirst, Date_now.
  framed.
Qed.

Lemma cancel_frame id a adm : keeps (cancel id a adm).
Proof.
  unfold cancel, requirePayment, pay_findById, assertCanAccess, db_findFirst.
  apply stays_withLock; [apply _|]. do 2 (apply stays_bind; [apply _|framed|intros ?]).
  match goal with |- context [gateway ?call] =>
    assert (keeps (_ ← gateway call;
      updated ← pay_update (pm_id a0) (pay_status pm_cancelled);
      _ ← createTransaction a0 "void" (pm_amount a0) (pm_gateway_payment_id a0);
      audit (pm_id a0) "cancel" (Some a) (Some (pm_status a0)) (Some pm_cancelled) ;;
      _ ← createEvent (pm_id a0) "payment.cancelled";
      payment_event "payment.cancelled" a0 pm_cancelled [] ;;
      invalidatePayment (pm_id a0) (pm_order_id a0) ;;
      view_of updated)) as Hvoid end.
  { unfold createTransaction, audit, createAudit, createEvent, payment_event. framed. }
  destruct (pm_status a0); first [exact Hvoid|framed].
Qed.

Lemma voidOrCancel_frame id a : keeps (voidOrCancel id a).
Proof.
  unfold voidOrCancel, pay_findById, db_findFirst.
  apply stays_bind; [apply _|framed|]. intros [p|]; [|framed].
  assert (keeps (try_catch (_ ← cancel id a false; mret tt) (λ _, mret tt))) as Hc.
  { apply stays_try_catch; [apply _| |framed].
    apply stays_bind; [apply _|apply cancel_frame|framed]. }
  destruct (pm_status p); first [exact Hc|framed].
Qed.
End pay_frame.

(** ** Stock is conserved *)

(** Backed promises stay backed, and each warehouse keeps what it has of each
    variant, on hand and held together. *)
Definition conserved (d d' : Db) : Prop :=
  backed d → backed d' ∧ ∀ w v, on_hand d' w v + held d' w v = on_hand d w v + held d w v.

#[export] Instance conserved_preorder : PreOrder conserved.
Proof.
  split; [by intros d Hb|]. intros d1 d2 d3 H12 H23 Hb.
  destruct (H12 Hb) as [Hb2 E2]. destruct (H23 Hb2) as [Hb3 E3].
  split; [done|]. intros w v. by rewrite E3, E2.
Qed.

Lemma conserved_same d d' : same_stock d d' → conserved d d'.
Proof.
  intros Hs Hb. split; [by eapply backed_same|]. intros w v.
  unfold on_hand, held. by rewrite (proj1 Hs).
Qed.

Lemma conserved_ledger w v n r d d' :
  ledger (at_ w v (- n)) (at_ w v n) (at_ w v r) d d' → r <= n → conserved d d'.
Proof.
  intros Hl Hr Hb. split; [by eapply ledger_backed|]. intros w' v'.
  rewrite (lg_on_hand _ _ _ _ _ Hl), (lg_held _ _ _ _ _ Hl), at_opp. lia.
Qed.

Section conservation.
Context `{Redis, !Scheduler, !Crypto, !MathRandom, !Postgres, !ClientText, !NumberText,
          !PaymentProvider, !PaymentConfig}.
Notation conserves := (stays (on_tables conserved)).

Lemma same_conserves {A} (m : M (St Db) A) : stays (on_tables same_stock) m → conserves m.
Proof. intros Hm. eapply stays_mono; [done|]. intros s s'. apply conserved_same. Qed.

Lemma frame_conserves {A} (m : M (St Db) A) : stays (on_tables pay_frame) m → conserves m.
Proof. intros Hm. eapply stays_mono; [done|]. intros s s' []. by apply conserved_same. Qed.

Lemma reserve_conserves dto : 0 < rs_quantity dto → conserves (reserve dto).
Proof.
  intros Hq s Hb. pose proof Hb as [Hok _]. pose proof (reserve_spec dto _ Hok Hq s eq_refl) as Hp.
  assert (reserve_partial dto (tables s) (tables (snd (reserve dto s)))) as (n & r & Hnr & Hl).
  { destruct (fst (reserve dto s)); [|done]. by eapply reserve_done_partial, Hp. }
  eapply conserved_ledger; [done|lia|done].
Qed.

Lemma release_conserves id : conserves (releaseReservation id).
Proof.
  intros s Hb. pose proof (release_spec id _ Hb s eq_refl) as Hp.
  assert (∀ r d', release_done r (tables s) d' → conserved (tables s) d') as Hr.
  { intros r d' [_ Hl]. rewrite <- (Z.opp_involutive (rv_quantity r)) in Hl at 1.
    by eapply conserved_ledger. }
  destruct (fst (releaseReservation id s)); simpl in Hp.
  - destruct Hp as (_ & r & _ & _ & _ & _ & Hd). by eapply Hr.
  - destruct Hp as [->|(r & _ & _ & _ & _ & Hd)]; [by apply (reflexivity (R := conserved))|by eapply Hr].
Qed.

(** A map that keeps what the ledger reads of a reservation. *)
Lemma link_conserves (ids : list string) o :
  conserves (db_updateMany T_StockReservation (λ r, bool_decide (rv_id r ∈ ids)) (link_order o)).
Proof.
  intros s. unfold db_updateMany, on_tables. destruct (db_fault _ _); [done|]. simpl.
  set (f := λ r : StockReservation, _).
  assert (∀ r, rv_id (f r) = rv_id r ∧ rv_quantity (f r) = rv_quantity r ∧
    ∀ w v, is_promise w v (f r) = is_promise w v r) as Hf.
  { intros r. unfold f. by destruct (bool_decide _). }
  intros [[Hi Hr Hq Hp] Hb]. split; [|done]. split.
  - split; rewrite ?view_put; [done| |done|].
    + rewrite map_map. erewrite map_ext; [exact Hr|]. intros; apply Hf.
    + apply Forall_map. eapply Forall_impl; [exact Hp|]. intros r. simpl. by rewrite (proj1 (proj2 (Hf r))).
  - intros w v. specialize (Hb w v). unfold promised in *. rewrite view_put.
    assert (∀ l, sumZ rv_quantity (where_ (is_promise w v) (map f l)) =
                 sumZ rv_quantity (where_ (is_promise w v) l)) as ->; [|done].
    induction l as [|r l IH]; [done|]. destruct (Hf r) as (_ & Eq & Ep). simpl.
    rewrite Ep. destruct (is_promise w v r); simpl; rewrite ?Eq; lia.
Qed.
End conservation.

(** ** Running the workflow from the request *)

(** An open cart as it was read: all its live items. *)
Definition loaded (d : Db) (cart : CartRow) : Prop :=
  cr_cart cart ∈ view L_Cart d ∧ is_open (cr_cart cart) = true ∧
  map fst (cr_items cart) ≡ₚ
    where_ (λ i, String.eqb (ci_cart_id i) (ca_id (cr_cart cart)) && live (ci_deleted_at i))
      (view L_CartItem d).

(** [CHECK (quantity > 0)] of cart_items. *)
Definition carts_ok (d : Db) : Prop := Forall (λ i, 0 < ci_quantity i) (view L_CartItem d).

Definition positive_lines (cart : CartRow) : Prop :=
  Forall (λ iv, 0 < ci_quantity (fst iv)) (cr_items cart).

Lemma loaded_positive d cart : carts_ok d → loaded d cart → positive_lines cart.
Proof.
  intros Hok (_ & _ & Hp). unfold positive_lines.
  apply (Forall_map fst (λ i, 0 < ci_quantity i)). rewrite Hp. apply Forall_forall.
  intros i [Hi _]%elem_of_where. unfold carts_ok in Hok. rewrite Forall_forall in Hok. by apply Hok.
Qed.

Section request.
Context `{Redis, !Scheduler, !Crypto, !MathRandom, !Postgres, !ClientText, !NumberText,
          !PaymentProvider, !PaymentConfig}.

Lemma dwp_load_cart c Q d :
  (∀ cart, cr_cart cart = c → map fst (cr_items cart) ≡ₚ
     where_ (λ i, String.eqb (ci_cart_id i) (ca_id c) && live (ci_deleted_at i))
       (view L_CartItem d) → Q (Ok cart) d) → dwp (load_cart c) Q d.
Proof.
  intros HQ. unfold load_cart. dwp_step. apply dwp_bind.
  apply (dwp_gets (λ d, view L_ProductVariant d)), dwp_ret, HQ; [done|].
  simpl. rewrite map_map. simpl. by rewrite map_id.
Qed.

Lemma checkout_cart_spec u dto Q d :
  (∀ cart, loaded d cart → cr_items cart ≠ [] → Q (Ok cart) d) → (∀ e, Q (Throw e) d) →
  dwp (checkout_cart u dto) Q d.
Proof.
  intros HO HE. unfold checkout_cart. apply dwp_bind.
  assert (∀ found : option CartRow, (∀ cart, found = Some cart → loaded d cart) →
    dwp (require_ (match found with
          | Some c => if is_nil (cr_items c) then None else Some c
          | None => None end) (AppException BAD_REQUEST "Cart is empty" 400)) Q d) as Hreq.
  { intros [cart|] Hl; (dwp_step; [|auto]); [|done].
    destruct (is_nil (cr_items cart)) eqn:E; simplify_eq.
    apply HO; [by apply Hl|]. by destruct (cr_items _). }
  destruct (truthy (ck_cartId dto)) as [id|].
  - apply dwp_bind. unfold requireCart, cart_findById. apply dwp_bind, dwp_bind.
    dwp_step; [|apply dwp_ret; dwp_step; [done|auto]].
    apply dwp_bind, dwp_load_cart. intros cart <- Hp. apply dwp_ret.
    dwp_step; [|auto]. dwp_step; [auto|]. dwp_step. apply dwp_ret, (Hreq (Some a)).
    intros c' [= <-]. destruct (bool_decide _) eqn:Es; simplify_eq. bool_to_prop.
    split_and!; [done| |done]. unfold is_open. by rewrite Es.
  - unfold findActiveByUser. apply dwp_bind.
    apply (dwp_gets (λ d, head (order_desc ca_updated_at
      (where_ (λ c, same_opt (ca_user_id c) (Some u) && is_open c) (view L_Cart d))))).
    destruct (head _) as [c|] eqn:E; [|by apply dwp_ret, (Hreq None)].
    assert (c ∈ view L_Cart d ∧ is_open c = true) as [Hc Ho].
    { assert (c ∈ where_ (λ c, same_opt (ca_user_id c) (Some u) && is_open c) (view L_Cart d)) as Hin.
      { rewrite <- (order_desc_perm _ ca_updated_at). destruct (order_desc _ _); simplify_eq/=. left. }
      apply elem_of_where in Hin as [? ?]. by bool_to_prop. }
    apply dwp_bind, dwp_load_cart. intros cart <- Hp. apply dwp_ret, (Hreq (Some cart)).
    intros c' [= <-]. by split_and!.
Qed.

Lemma validateTenders_tables u dto : stays (framing tables) (validateTenders u dto).
Proof.
  unfold validateTenders, findGiftCard, findWallet, db_findFirst.
  apply stays_bind; [apply _| |intros []]; repeat cases_goal;
    eauto 8 with kept typeclass_instances.
Qed.

Lemma checkout_result_tables u i c : stays (framing tables) (checkout_result u i c).
Proof.
  unfold checkout_result, order_findById, load_order_opt, load_order, invalidateCart,
    invalidateOrder, db_findFirst, db_findMany, db_findMany_desc.
  staying ltac:(first [apply CacheService.del_tables | apply stays_gets, _]).
Qed.

Lemma checkout_result_fields u i c :
  results (λ r, ∃ summary, r = mkCheckoutResult i summary (cx_paymentId c) (cx_reservationIds c))
    (checkout_result u i c).
Proof.
  unfold checkout_result. repeat (apply results_bind; intros ?). apply results_ret. eauto.
Qed.

(** The request around the workflow changes no table. *)
Lemma dwp_checkout u dto (Q : outcome CheckoutResult → Db → Prop) w :
  (∀ e, Q (Throw e) (app w)) →
  (∀ cart, loaded (app w) cart → cr_items cart ≠ [] →
     dwp (run (buildDefinition cart) (initial_context u dto cart)) (λ o w',
       (∀ e, Q (Throw e) (app w')) ∧ match o with
       | Ok i => inst_status i = wf_completed → ∀ summary,
              Q (Ok (mkCheckoutResult (inst_id i) summary (cx_paymentId (inst_context i))
                       (cx_reservationIds (inst_context i)))) (app w')
       | Throw e => True end) w) →
  dwp (checkout u dto) (λ o w', Q o (app w')) w.
Proof.
  intros HE Hrun. unfold checkout. apply dwp_withLock; [done|].
  unfold checkout_body. apply dwp_bind, dwp_zoom, checkout_cart_spec; [|done].
  intros cart Hl Hne. destruct w as [ws d]. simpl in *.
  apply dwp_bind, dwp_zoom, dwp_env; [apply validateTenders_tables|]. intros [[]|e]; [|done].
  apply dwp_bind. eapply dwp_mono; [by apply Hrun|]. intros [i|e] w' [HE' HO]; [|done].
  dwp_step; [done|]. bool_to_prop. apply dwp_zoom.
  apply (dwp_results (λ d d', d' = d) _ _ _ _ (checkout_result_tables _ _ _)
           (checkout_result_fields _ _ _)); simpl.
  - intros r d' [summary ->] ->. split; [by apply HO|done].
  - by intros e d' ->.
Qed.
End request.

(** ** The six steps conserve the stock *)
Section conserving_steps.
Context `{Redis, !Scheduler, !Crypto, !MathRandom, !Postgres, !ClientText, !NumberText,
          !PaymentProvider, !PaymentConfig}.
Notation conserves := (stays (on_tables conserved)).
Notation keeps_stock := (stays (on_tables same_stock)).

Lemma transitionStatus_stock id from to note : keeps_stock (transitionStatus id from to note).
Proof. unfold transitionStatus, Date_now. staying fail. Qed.

Lemma draft_conserves cart c : conserves (create_draft_order cart c).
Proof.
  apply same_conserves. unfold create_draft_order, nextOrderNumber, number36, draft_items,
    create_draft_item, create_address, Date_now. staying fail.
Qed.

Lemma undo_draft_conserves c : conserves (undo_draft_order c).
Proof. apply same_conserves. unfold undo_draft_order. staying ltac:(apply transitionStatus_stock). Qed.

Lemma reserve_inventory_conserves cart c : positive_lines cart → conserves (reserve_inventory cart c).
Proof.
  intros Hpos. unfold reserve_inventory. apply stays_bind; [apply _| |].
  - apply stays_for_fold; [apply _|]. intros ids iv Hiv. unfold reserve_item.
    unfold positive_lines in Hpos. rewrite Forall_forall in Hpos.
    apply stays_bind; [apply _|by apply reserve_conserves, Hpos|]. intros. apply stays_ret, _.
  - intros ids. apply stays_bind; [apply _|apply link_conserves|]. intros. apply stays_ret, _.
Qed.

Lemma undo_reserve_conserves c : conserves (undo_reserve_inventory c).
Proof.
  unfold undo_reserve_inventory, release_logged. staying ltac:(apply release_conserves).
Qed.

Lemma create_payment_conserves c : conserves (create_payment c).
Proof.
  apply frame_conserves. unfold create_payment, createForCheckout.
  staying ltac:(apply create_frame).
Qed.

Lemma undo_payment_conserves c : conserves (undo_create_payment c).
Proof.
  apply frame_conserves. unfold undo_create_payment. destruct (truthy _);
    [apply voidOrCancel_frame|apply stays_ret, _].
Qed.

Lemma confirm_conserves c : conserves (confirm_order c).
Proof.
  apply same_conserves. unfold confirm_order, markConverted, createRiskScore.
  staying ltac:(apply transitionStatus_stock).
Qed.

Lemma undo_confirm_conserves c : conserves (undo_confirm_order c).
Proof.
  apply same_conserves. unfold undo_confirm_order. staying ltac:(apply transitionStatus_stock).
Qed.

Lemma buildDefinition_conserves cart :
  positive_lines cart → Forall (step_stays conserved) (steps (buildDefinition cart)).
Proof.
  intros Hpos. unfold buildDefinition. simpl.
  repeat apply Forall_cons_2; try apply Forall_nil_2;
    (split; simpl; [intros c|intros comp c [= <-]]).
  - apply draft_conserves.
  - apply undo_draft_conserves.
  - by apply reserve_inventory_conserves.
  - apply undo_reserve_conserves.
  - apply create_payment_conserves.
  - apply undo_payment_conserves.
  - unfold authorize_payment. staying ltac:(apply frame_conserves, authorize_frame).
  - unfold undo_authorize_payment. staying ltac:(apply undo_payment_conserves).
  - unfold capture_payment. staying ltac:(apply frame_conserves, capture_frame).
  - unfold undo_capture_payment. staying ltac:(apply undo_payment_conserves).
  - apply confirm_conserves.
  - apply undo_confirm_conserves.
Qed.

Lemma buildDefinition_attempts cart :
  Forall (λ step, 1 <= policy_maxAttempts (buildDefinition cart) step)
    (steps (buildDefinition cart)).
Proof. repeat constructor; vm_compute; discriminate. Qed.

Lemma checkout_conserves u dto w :
  carts_ok (app w) → dwp (checkout u dto) (λ _ w', conserved (app w) (app w')) w.
Proof.
  intros Hok. apply (dwp_checkout u dto (λ _ d', conserved (app w) d')); [intros e; reflexivity|].
  intros cart Hl _. eapply dwp_mono.
  - apply (dwp_run_stays conserved); [apply buildDefinition_attempts|].
    apply buildDefinition_conserves. by eapply loaded_positive.
  - intros [i|e] w' Hc; by split.
Qed.
End conserving_steps.
