(* ===== verification/Placement.v ===== *)
(** * Placement: a successful checkout

    When [checkout] returns and payments are settled in the workflow, the order
    is confirmed for the user, its total is the exact sum of the cart's lines,
    each line is recorded and reserved for it, and a payment of that total is
    captured. The proof follows the workflow step by step: [progress k] is what
    holds after [k] steps. *)
From S2P Require Import Prelude Core Effects Redis Lock Saga JsNumber Schema Database Tables Sample Inventory Stock Payments Webhooks PaymentRules Orders Checkout CheckoutRules.
From Stdlib Require Import QArith Qabs Lqa.

#[local] Open Scope Z_scope.

(** Orders, order lines and payments are as before. *)
Record same_sales (d d' : Db) : Prop := {
  sl_orders : view L_Order d' = view L_Order d;
  sl_lines : view L_OrderItem d' = view L_OrderItem d;
  sl_pays : view L_Payment d' = view L_Payment d;
}.

#[export] Instance same_sales_preorder : PreOrder same_sales.
Proof. split; [by split|]. intros ??? [] []. split; congruence. Qed.

(** Nothing the progress of a checkout depends on changed. *)
Definition same_all (d d' : Db) : Prop := same_stock d d' ∧ same_sales d d'.

#[export] Instance same_all_preorder : PreOrder same_all.
Proof. split; [by split|]. intros ??? [] []. split; by etransitivity. Qed.

(** ** What is recorded for a cart line *)

Definition line_of (orderId : string) (l : OrderItem) (i : CartItem) : Prop :=
  oi_order_id l = orderId ∧ oi_variant_id l = ci_variant_id i ∧ oi_quantity l = ci_quantity i ∧
  oi_unit_price l = ci_unit_price i.

Definition held_for (d : Db) (warehouseId : string) (orderId : option string) (id : string)
  (i : CartItem) : Prop :=
  ∃ r, r ∈ view L_StockReservation d ∧ rv_id r = id ∧ rv_status r = rv_active ∧
    rv_deleted_at r = None ∧ (orderId = None ∨ rv_order_id r = orderId) ∧
    rv_warehouse_id r = warehouseId ∧ rv_variant_id r = ci_variant_id i ∧
    rv_quantity r = ci_quantity i.

Section progress.
Context `{Redis, !Scheduler, !Crypto, !MathRandom, !Postgres, !ClientText, !NumberText,
          !PaymentProvider, !PaymentConfig}.
Context (u : string) (dto : CheckoutDto) (cart : CartRow).

Notation lines := (map fst (cr_items cart)).
Definition amount_due : Z := numeric2 (items_total (cr_items cart)).

Record Base (c : CheckoutContext) (d : Db) : Prop := {
  b_backed : backed d;
  b_pays : pays_ok d;
  b_orders : NoDup (map od_id (view L_Order d));
  b_user : cx_userId c = u;
  b_cart : cx_cartId c = ca_id (cr_cart cart);
  b_warehouse : cx_warehouseId c = ck_warehouseId dto;
  b_amount : cx_amount c = Some (items_total (cr_items cart));
}.

Definition Draft (c : CheckoutContext) (d : Db) : Prop :=
  ∃ orderId o ls, cx_orderId c = Some orderId ∧ o ∈ view L_Order d ∧
    order_core o = (orderId, Some u, Some (ca_id (cr_cart cart)), amount_due, amount_due) ∧
    Forall2 (line_of orderId) ls lines ∧ Forall (λ l, l ∈ view L_OrderItem d) ls.

Definition Reserved (c : CheckoutContext) (d : Db) : Prop :=
  ∃ ids, cx_reservationIds c = Some ids ∧
    Forall2 (held_for d (ck_warehouseId dto) (cx_orderId c)) ids lines.

Definition Paid (c : CheckoutContext) (d : Db) : Prop :=
  ∃ orderId paymentId p, cx_orderId c = Some orderId ∧ cx_paymentId c = Some paymentId ∧
    p ∈ view L_Payment d ∧ pay_core p = (paymentId, orderId, amount_due).

Definition Captured (c : CheckoutContext) (d : Db) : Prop :=
  ∀ p, p ∈ view L_Payment d → cx_paymentId c = Some (pm_id p) → pm_status p = pm_captured.

Definition Confirmed (c : CheckoutContext) (d : Db) : Prop :=
  ∀ o, o ∈ view L_Order d → cx_orderId c = Some (od_id o) → od_status o = or_confirmed.

Definition progress (k : nat) (c : CheckoutContext) (d : Db) : Prop :=
  Base c d ∧
  ((1 <= k)%nat → Draft c d) ∧ ((2 <= k)%nat → Reserved c d) ∧ ((3 <= k)%nat → Paid c d) ∧
  ((5 <= k)%nat → Captured c d) ∧ ((6 <= k)%nat → Confirmed c d).

(** *** What keeps the progress *)

Lemma progress_same k c d d' : same_all d d' → progress k c d → progress k c d'.
Proof.
  intros [Hst [Ho Hl Hp]] ([Hb Hpay Hord ? ? ? ?] & HD & HR & HP & HC & HF).
  split_and!.
  - split; try done; [by eapply backed_same|unfold pays_ok; by rewrite Hp|by rewrite Ho].
  - intros (oid & o & ls & ?)%HD. exists oid, o, ls. by rewrite Ho, Hl.
  - intros (ids & ? & HF2)%HR. exists ids. split; [done|].
    eapply Forall2_impl; [done|]. intros id i (r & ? & ?). exists r. by rewrite (proj2 Hst).
  - intros Hk. destruct (HP Hk) as (oid & pid & p & ?). exists oid, pid, p. by rewrite Hp.
  - intros Hk p. rewrite Hp. by apply HC.
  - intros Hk o. rewrite Ho. by apply HF.
Qed.

Lemma progress_frame k c d d' :
  (k <= 4)%nat → pay_frame d d' → pays_ok d' → progress k c d → progress k c d'.
Proof.
  intros Hk4 [Hst Hl Ho Hp] Hpok ([Hb Hpay Hord ? ? ? ?] & HD & HR & HP & _ & _).
  split_and!; try lia.
  - split; try done; [by eapply backed_same|].
    assert (∀ l, map od_id l = map (λ x : string * option string * option string * Z * Z,
      fst (fst (fst (fst x)))) (map order_core l)) as E by (intros l; by rewrite map_map).
    by rewrite E, Ho, <- E.
  - intros (oid & o & ls & ? & Ho' & Hc & ? & ?)%HD.
    assert (order_core o ∈ map order_core (view L_Order d')) as (o' & Eo & ?)%list_elem_of_fmap.
    { rewrite Ho. apply list_elem_of_fmap. eauto. }
    exists oid, o', ls. rewrite Hl. split_and!; try done. congruence.
  - intros (ids & ? & HF2)%HR. exists ids. split; [done|].
    eapply Forall2_impl; [done|]. intros id i (r & ? & ?). exists r. by rewrite (proj2 Hst).
  - intros Hk. destruct (HP Hk) as (oid & pid & p & ? & ? & Hp' & Hc).
    assert (pay_core p ∈ map pay_core (view L_Payment d')) as (p' & Ep & ?)%list_elem_of_fmap.
    { destruct Hp as [l ->]. apply elem_of_app. left. apply list_elem_of_fmap. eauto. }
    exists oid, pid, p'. split_and!; try done. congruence.
Qed.

(** *** Step 1: the draft order *)

Lemma draft_items_spec Q d :
  (∀ items, Forall2 (λ di i, di_variant_id di = ci_variant_id i ∧ di_quantity di = ci_quantity i ∧
     di_unit_price di = ci_unit_price i) items lines → Q (Ok items) d) →
  (∀ e, Q (Throw e) d) → dwp (draft_items cart) Q d.
Proof.
  intros HO HE. unfold draft_items.
  apply (dwp_for_fold _ _ _ (λ rest acc d', d' = d ∧ ∃ done, cr_items cart = done ++ rest ∧
    Forall2 (λ di i, di_variant_id di = ci_variant_id i ∧ di_quantity di = ci_quantity i ∧
     di_unit_price di = ci_unit_price i) acc (map fst done))).
  - split; [done|]. by exists [].
  - intros items d' (-> & done_ & E & HF). rewrite app_nil_r in E. apply HO. by rewrite E.
  - intros iv rest acc d' (-> & done_ & E & HF). dwp_step; [|done]. dwp_step. split; [done|].
    exists (done_ ++ [iv]). rewrite E, <- app_assoc, map_app. split; [done|].
    apply Forall2_app; [done|]. by repeat constructor.
Qed.

Lemma draft_lines_spec orderId items Q d :
  Forall2 (λ di i, di_variant_id di = ci_variant_id i ∧ di_quantity di = ci_quantity i ∧
     di_unit_price di = ci_unit_price i) items lines →
  (∀ ls d', view L_OrderItem d' = view L_OrderItem d ++ ls → Forall2 (line_of orderId) ls lines →
     d' = put L_OrderItem (view L_OrderItem d ++ ls) d → Q (Ok tt) d') →
  (∀ e d', Q (Throw e) d') → dwp (for_each items (create_draft_item orderId)) Q d.
Proof.
  intros Hitems HO HE.
  apply (dwp_for_each _ _ (λ rest d', ∃ ls done todo, lines = done ++ todo ∧
    d' = put L_OrderItem (view L_OrderItem d ++ ls) d ∧ Forall2 (line_of orderId) ls done ∧
    Forall2 (λ di i, di_variant_id di = ci_variant_id i ∧ di_quantity di = ci_quantity i ∧
      di_unit_price di = ci_unit_price i) rest todo)).
  - exists [], [], lines. rewrite app_nil_r, put_view. by split_and!.
  - intros d' (ls & done_ & todo & E & -> & HF & ->%Forall2_nil_inv_l). rewrite app_nil_r in E.
    apply (HO ls); [by rewrite view_put|by rewrite E|done].
  - intros di rest d' (ls & done_ & todo & E & -> & HF & HR).
    apply Forall2_cons_inv_l in HR as (i & todo' & (? & ? & ?) & HR & ->).
    unfold create_draft_item. dwp_step; [done|]. dwp_step.
    exists (ls ++ [mkOrderItem id orderId (di_variant_id di) (di_sku di) (di_sku di)
      (di_quantity di) (di_unit_price di) (numeric2 (di_line_total di)) None]), (done_ ++ [i]), todo'.
    rewrite <- !app_assoc. split_and!; [done| |apply Forall2_app; [done|]; by repeat constructor|done].
    cbn [tbl T_OrderItem]. rewrite view_put, put_put, <- app_assoc. done.
Qed.

Lemma create_address_same orderId kind a : stays (on_tables same_all) (create_address orderId kind a).
Proof. unfold create_address, Date_now. staying fail. Qed.

Lemma base_patched c d p : Base c d → Base (patched c p) d.
Proof. intros []. by destruct p as [[]|]. Qed.

(** A new order with a fresh id and its lines. *)
Lemma draft_base c d o ls :
  Base c d → od_id o ∉ map od_id (view L_Order d) →
  Base c (put L_OrderItem ls (put L_Order (view L_Order d ++ [o]) d)).
Proof.
  intros [Hb Hp Ho ? ? ? ?] Hid. split; [|exact Hp| |done..].
  - eapply backed_same; [|exact Hb]. done.
  - change (NoDup (map od_id (view L_Order d ++ [o]))). by apply (NoDup_snoc od_id).
Qed.

Definition advanced (k : nat) (c : CheckoutContext) (o : outcome (option CheckoutPatch)) (d' : Db)
  : Prop :=
  progress k c d' ∧ match o with Ok p => progress (S k) (patched c p) d' | Throw _ => True end.

Lemma progress_0 c d : Base c d → progress 0 c d.
Proof. intros Hb. split_and!; [done|lia..]. Qed.

Lemma drafted c d d' o ls n :
  Base c d → od_id o ∉ map od_id (view L_Order d) →
  order_core o = (od_id o, Some u, Some (ca_id (cr_cart cart)), amount_due, amount_due) →
  Forall2 (line_of (od_id o)) ls lines →
  same_all (put L_OrderItem (view L_OrderItem d ++ ls) (put L_Order (view L_Order d ++ [o]) d)) d' →
  advanced 0 c (Ok (Some (p_order (od_id o) n))) d'.
Proof.
  intros Hb Hid Hcore HF Hs.
  pose proof (draft_base c d o (view L_OrderItem d ++ ls) Hb Hid) as Hb'.
  split; eapply progress_same; try exact Hs; [by apply progress_0|].
  split_and!; [by apply base_patched| |lia..]. intros _.
  exists (od_id o), o, ls. split_and!; [done| |done|done|].
  - change (o ∈ view L_Order d ++ [o]). apply elem_of_app. right. by constructor.
  - apply Forall_forall. intros l Hl. rewrite view_put. apply elem_of_app. by right.
Qed.

Lemma draft_advances c d : progress 0 c d → dwp (create_draft_order cart c) (advanced 0 c) d.
Proof.
  intros [Hb _]. pose proof (progress_0 c d Hb) as Hp0. destruct (Hb) as [_ _ _ Eu Ec _ Ea].
  assert (∀ e, advanced 0 c (Throw e) d) as HE by (by split).
  unfold create_draft_order, nextOrderNumber, number36, Date_now.
  do 2 apply dwp_bind. apply dwp_bind, dwp_env; [apply stays_gets, _|]. intros [now|e]; [|done].
  apply dwp_ret, dwp_bind, dwp_env; [apply draw_tables|]. intros [rnd|e]; [|done].
  apply dwp_ret, dwp_bind, draft_items_spec; [intros items Hitems|done].
  dwp_step; [|done]. rewrite Ea. cbn [coalesce]. fold amount_due.
  apply dwp_bind, dwp_transaction, dwp_bind, dwp_env; [apply stays_gets, _|]. intros [now'|e]; [|done].
  dwp_step; [done|]. apply dwp_bind, draft_lines_spec; [done| |done].
  intros ls d' _ HF ->. cbn [tbl T_Order] in *.
  apply (dwp_results same_all (λ o, o = mkOrder id (("ORD-" +:+ toString36 now) +:+ "-" +:+
    toUpperCase rnd) (Some (cx_userId c)) (Some (cx_cartId c)) None (Some (cx_warehouseId c))
    (ca_currency (cr_cart cart)) amount_due 0 0 0 amount_due None None None or_pending now' None)).
  - staying ltac:(apply create_address_same).
  - repeat (apply results_bind; intros ?). by apply results_ret.
  - intros o d' -> Hs. dwp_step; [dwp_step|]; try (by split; [|done]; eapply progress_same; [exact Hs|]; apply progress_0, draft_base).
    eapply drafted; try done. simpl. by rewrite Eu, Ec.
  - done.
Qed.

(** *** Step 2: the reservations *)

Lemma reserve_sales r : stays (on_tables same_sales) (reserve r).
Proof.
  unfold reserve, requireWarehouse, wh_findById, findRows, reserve_row, createReservation,
    connect_opt, createMovement, invalidateStock, maybeLowStock, openLowStock, upsertLowStockAlert, findRows,
    db_findFirst, db_findMany_desc, Date_now.
  staying fail.
Qed.

Lemma base_sales c d d' : Base c d → backed d' → same_sales d d' → Base c d'.
Proof. intros [] Hb [Ho _ Hp]. split; try done; [unfold pays_ok; by rewrite Hp|by rewrite Ho]. Qed.

Lemma draft_sales c d d' : Draft c d → same_sales d d' → Draft c d'.
Proof. intros (oid & o & ls & ?) [Ho Hl _]. exists oid, o, ls. by rewrite Ho, Hl. Qed.

Lemma progress_1 c d : Base c d → Draft c d → progress 1 c d.
Proof. intros Hb Hd. split_and!; [done|done|lia..]. Qed.

(** The reservations made so far are still there after one more. *)
Lemma held_after r view_ d d' ids done_ :
  reserve_done r view_ d d' →
  Forall2 (held_for d (ck_warehouseId dto) None) ids done_ →
  Forall2 (held_for d' (ck_warehouseId dto) None) ids done_.
Proof.
  intros (row & E & _) HF. eapply Forall2_impl; [exact HF|].
  intros id i (x & Hx & ?). exists x. split; [|done]. rewrite E. apply elem_of_app. by left.
Qed.

Definition reserving (c : CheckoutContext) (d0 : Db)
  (rest : list (CartItem * option ProductVariant)) (ids : list string) (d : Db) : Prop :=
  backed d ∧ same_sales d0 d ∧ ∃ done_, lines = done_ ++ map fst rest ∧
    Forall2 (held_for d (ck_warehouseId dto) None) ids done_.

Lemma reserve_item_spec c d0 iv rest ids d :
  0 < ci_quantity (fst iv) → cx_warehouseId c = ck_warehouseId dto →
  reserving c d0 (iv :: rest) ids d →
  dwp (reserve_item c ids iv) (λ o d', match o with
    | Ok ids' => reserving c d0 rest ids' d'
    | Throw _ => backed d' ∧ same_sales d0 d' end) d.
Proof.
  intros Hq Hw (Hb & Hs & done_ & El & HF). unfold reserve_item. apply dwp_bind.
  eapply dwp_mono; [apply (dwp_keeping same_sales); [apply reserve_sales|];
    apply reserve_spec; [apply Hb|exact Hq]|].
  intros [v|e] d' [Hpost Hs']; (assert (backed d') by (exact (reserve_backed (reserve_dto c (fst iv)) _ _ _ Hq Hb Hpost))).
  - apply dwp_ret. destruct Hpost as [_ Hdone]. split_and!; [done|by etransitivity|].
    exists (done_ ++ [fst iv]). rewrite <- app_assoc. split; [done|].
    apply Forall2_app; [by eapply held_after|]. repeat constructor.
    destruct Hdone as (row & E & Hid & _ & Hst & Hdel & Hrw & Hrv & Hrq & _).
    exists row. rewrite E. split_and!; [|done|done|done|by left|by rewrite Hrw|
      by rewrite Hrv|by rewrite Hrq]. apply elem_of_app. right. by constructor.
  - split; [done|]. by etransitivity.
Qed.

(** Linking the rows keeps them and records the order. *)
Lemma held_linked d oid ids l :
  Forall2 (held_for d (ck_warehouseId dto) None) ids l → Forall2 (held_for
    (put L_StockReservation (map (λ r, if bool_decide (rv_id r ∈ ids) then link_order (Some oid) r
       else r) (view L_StockReservation d)) d) (ck_warehouseId dto) (Some oid)) ids l.
Proof.
  intros HF.
  assert (∀ id i, id ∈ ids → held_for d (ck_warehouseId dto) None id i → held_for
    (put L_StockReservation (map (λ r, if bool_decide (rv_id r ∈ ids) then link_order (Some oid) r
       else r) (view L_StockReservation d)) d) (ck_warehouseId dto) (Some oid) id i) as Hlink.
  { intros id i Hid (r & Hr & <- & Hst & Hdel & _ & Hw & Hv & Hq).
    exists (link_order (Some oid) r). rewrite view_put. split_and!; try done; [|by right].
    apply list_elem_of_fmap. exists r. by rewrite bool_decide_true. }
  clear -HF Hlink. revert Hlink. generalize (put L_StockReservation
    (map (λ r, if bool_decide (rv_id r ∈ ids) then link_order (Some oid) r else r)
       (view L_StockReservation d)) d) as d'. intros d' Hlink.
  apply Forall2_same_length_lookup in HF as [Hlen HF]. apply Forall2_same_length_lookup.
  split; [done|]. intros k id i Hk Hi. apply Hlink; [by eapply list_elem_of_lookup_2|by eapply HF].
Qed.

Lemma reserve_advances c d :
  positive_lines cart → progress 1 c d → dwp (reserve_inventory cart c) (advanced 1 c) d.
Proof.
  intros Hpos (Hb & HD & _). specialize (HD (le_n 1)).
  destruct (HD) as (oid & _ & _ & Eo & _).
  assert (∀ d', backed d' → same_sales d d' → progress 1 c d') as Hkeep.
  { intros d' Hb' Hs. apply progress_1; [by eapply base_sales|by eapply draft_sales]. }
  unfold reserve_inventory. apply dwp_bind.
  apply (dwp_for_fold _ _ _ (λ rest ids d', (∀ iv, iv ∈ rest → iv ∈ cr_items cart) ∧
    reserving c d rest ids d')).
  - split; [done|]. split_and!; [apply Hb|reflexivity|]. by exists [].
  - intros ids d1 [_ (Hb1 & Hs1 & done_ & El & HF)]. rewrite app_nil_r in El. subst done_.
    pose proof (link_conserves ids (cx_orderId c)) as Hlc.
    assert (∀ s, tables s = d1 → backed (tables (snd (db_updateMany T_StockReservation
      (λ r, bool_decide (rv_id r ∈ ids)) (link_order (cx_orderId c)) s)))) as Hbl.
    { intros s Es. specialize (Hlc s). unfold on_tables in Hlc. rewrite Es in Hlc. by apply Hlc. }
    apply dwp_bind. apply (dwp_mono _ (λ o d', backed d' ∧ match o with
      | Ok _ => d' = put L_StockReservation (map (λ r, if bool_decide (rv_id r ∈ ids)
                  then link_order (cx_orderId c) r else r) (view L_StockReservation d1)) d1
      | Throw _ => d' = d1 end)).
    { apply dwp_and; [exact Hbl|]. by apply dwp_updateMany. }
    intros [[]|e] d2 [Hb2 ->]; [|by split; [apply Hkeep|]]. dwp_step.
    assert (same_sales d1 (put L_StockReservation (map (λ r, if bool_decide (rv_id r ∈ ids)
      then link_order (cx_orderId c) r else r) (view L_StockReservation d1)) d1)) as Hs2 by (by split).
    assert (progress 1 c (put L_StockReservation (map (λ r, if bool_decide (rv_id r ∈ ids)
      then link_order (cx_orderId c) r else r) (view L_StockReservation d1)) d1)) as Hp1.
    { apply Hkeep; [done|by etransitivity]. }
    split; [done|]. destruct Hp1 as (Hba & HDa & _). split_and!; [by apply base_patched| |
      |lia..]; intros _; [by apply HDa|].
    exists ids. split; [done|]. cbn [patched assign checkout_assign cx_orderId].
    rewrite Eo. by apply held_linked.
  - intros iv rest ids d' [Hin Hres]. eapply dwp_mono; [apply reserve_item_spec; [|apply Hb|done]|].
    + unfold positive_lines in Hpos. rewrite Forall_forall in Hpos. apply Hpos, Hin. by left.
    + intros [ids'|e] d2; [|intros [? ?]; split; [by apply Hkeep|done]].
      split; [|done]. intros iv' ?. apply Hin. by right.
Qed.

(** *** Step 3: the payment *)

Lemma results_bind_with {A B} (P : A → Prop) (Q : B → Prop) (m : M (St Db) A) k :
  results P m → (∀ a, P a → results Q (k a)) → results Q (m ≫= k).
Proof. intros Hm Hk s b s' (a & s1 & E & E')%bind_Ok. eapply Hk; [|done]. by eapply Hm. Qed.

(** The created payment is for the order and the amount asked for. *)
Lemma create_makes a req d :
  dwp (create a req) (λ o d', match o with
    | Ok v => ∃ p, p ∈ view L_Payment d' ∧
                pay_core p = (pv_id_ v, cd_orderId req, numeric2 (cd_amount req))
    | Throw _ => True end) d.
Proof.
  unfold create. dwp_step; (dwp_step; [|done]); [|done]. simplify_eq. bool_to_prop.
  apply dwp_bind, dwp_env.
  { unfold assertAdminOrOwner. destruct (od_customer_id a0) as [[]|]; eauto with kept typeclass_instances. }
  intros [[]|e]; [|done]. dwp_step; [done|].
  apply dwp_bind, dwp_env; [apply stays_gets, _|]. intros [g|e]; [|done].
  apply dwp_bind, dwp_env.
  { destruct g; [by apply stays_ret, _|apply stays_gets, _]. }
  intros [g'|e]; [|done]. dwp_step; [|done].
  apply dwp_bind, withRetry_env. intros [goid|e]; [|done]. dwp_step; [done|].
  apply (dwp_results same_pay (λ v, pv_id_ v = id)).
  - unfold payment_event. staying ltac:(first [apply createAttempt_pay | apply createEvent_pay
      | apply audit_pay | apply invalidatePayment_pay
      | apply stays_env; [apply _|apply view_of_tables]]).
  - do 3 (apply results_bind; intros ?).
    apply (results_bind_with (λ v, pv_id_ v = id)); [by intros s v s' [= <- _]|]. intros v Hv.
    repeat (apply results_bind; intros ?). by apply results_ret.
  - intros v d' <- Hs. rewrite Hs. cbn [tbl T_Payment]. rewrite view_put.
    eexists. split; [apply elem_of_app; right; by constructor|]. unfold pay_core. simpl. congruence.
  - done.
Qed.

Lemma payment_advances c d : progress 2 c d → dwp (create_payment c) (advanced 2 c) d.
Proof.
  intros Hp. destruct (Hp) as (Hb & HD & HR & _). unfold create_payment, createForCheckout.
  dwp_step; [by split|]. apply dwp_bind.
  eapply dwp_mono; [apply dwp_and; [apply create_makes|
    apply (dwp_keeping pay_frame); [apply create_frame|]; apply create_follows, Hb]|].
  intros [v|e] d' (Hmk & [Hok _] & Hfr);
    (assert (progress 2 c d') as Hp' by (exact (progress_frame 2 c d d' ltac:(lia) Hfr Hok Hp))); [|by split].
  dwp_step. split; [done|]. destruct Hmk as (p & Hin & Hcore).
  destruct Hp' as (Hb' & HD' & HR' & _).
  split_and!; [by apply base_patched|intros _; by apply HD'; lia|intros _; by apply HR'; lia| |lia..].
  intros _. destruct (HD ltac:(lia)) as (oid & _ & _ & Eo & _). exists oid, (pv_id_ v), p.
  split_and!; [done|done|done|]. rewrite Hcore. cbn [cd_orderId cd_amount].
  by rewrite Eo, (b_amount _ _ Hb).
Qed.

(** *** Steps 4 and 5: the payment is settled *)
Hypothesis Hauto : autoSettlePayment = true.

Lemma patched_nothing c : patched c (Some p_nothing) = c.
Proof. by destruct c. Qed.

Lemma authorize_advances c d : progress 3 c d → dwp (authorize_payment c) (advanced 3 c) d.
Proof.
  intros Hp. unfold authorize_payment. rewrite Hauto. apply dwp_bind.
  eapply dwp_mono; [apply (dwp_keeping pay_frame); [apply authorize_frame|];
    apply authorize_follows, Hp|].
  intros [v|e] d' ([Hok _] & Hfr);
    (assert (progress 3 c d') as Hp' by (exact (progress_frame 3 c d d' ltac:(lia) Hfr Hok Hp))); [|by split].
  dwp_step. split; [done|]. rewrite patched_nothing. destruct Hp' as (? & ? & ? & ? & _).
  split_and!; try done; lia || auto with lia.
Qed.

Lemma markFailed_throws {A} p a r Q d :
  (∀ e d', Q (Throw e) d') → dwp (markFailed (A := A) p a r) Q d.
Proof.
  intros HE. apply (dwp_results (λ _ _, True) (λ _, False)); [by intros s| |done|auto].
  unfold markFailed. repeat (apply results_bind; intros ?). apply results_throw.
Qed.

Lemma capture_captures id a adm d :
  pays_ok d → dwp (capture id a adm) (λ o d', match o with
    | Ok _ => ∀ p, p ∈ view L_Payment d' → pm_id p = id → pm_status p = pm_captured
    | Throw _ => True end) d.
Proof.
  intros Hok. unfold capture. dwp_step; [done|].
  apply dwp_bind, dwp_requirePayment; [intros p Hp Hid _|done].
  apply dwp_bind, dwp_access; [done|]. destruct (bool_decide _) eqn:Est.
  { bool_to_prop. apply (dwp_gets (λ d, mapPayment d p)). split; [|done]. intros q Hq Hqid.
    assert (q = p) as -> by (apply (NoDup_key_eq pm_id (view L_Payment d)); [done..|congruence]). done. }
  apply dwp_bind, dwp_assertTransition; [done|]. intros _.
  assert (∀ now (k : Payment → M (St Db) PaymentView), (∀ q, stays (on_tables same_pay) (k q)) →
    dwp (updated ← pay_update (pm_id p)
           (λ p0, pay_times None (Some now) None (pay_status pm_captured p0)); k updated)
      (λ o d', match o with
        | Ok _ => ∀ p, p ∈ view L_Payment d' → pm_id p = id → pm_status p = pm_captured
        | Throw _ => True end ∧ ∀ e : exn, True) d) as Hupd.
  { intros now k Hk. unfold pay_update. dwp_step; [done|]. apply (dwp_stays same_pay); [apply Hk|].
    intros [v|e] d' Hs; [|done]. split; [|done]. intros q. rewrite Hs. cbn [tbl T_Payment].
    rewrite view_put. intros (q0 & -> & _)%list_elem_of_fmap. cbn [pk T_Payment].
    destruct (String.eqb_spec (pm_id q0) (pm_id p)); [done|congruence]. }
  assert (∀ q now, stays (on_tables same_pay) (audit (pm_id p) "capture" (Some a)
    (Some (pm_status p)) (Some now) ;; view_of q)) as Haud.
  { intros q now. staying ltac:(first [apply audit_pay | apply stays_env; [apply _|apply view_of_tables]]). }
  assert (dwp (if pm_amount p =? 0 then
           now ← Date_now;
           updated ← pay_update (pm_id p)
                       (λ p0, pay_times None (Some now) None (pay_status pm_captured p0));
           audit (pm_id p) "capture" (Some a) (Some (pm_status p)) (Some pm_captured) ;;
           view_of updated
         else throw (AppException CONFLICT "Payment not authorized" 409))
      (λ o d', match o with
        | Ok _ => ∀ p, p ∈ view L_Payment d' → pm_id p = id → pm_status p = pm_captured
        | Throw _ => True end ∧ ∀ e : exn, True) d) as Hfree.
  { destruct (_ =? _); [|by apply dwp_throw].
    apply dwp_bind, dwp_env; [apply stays_gets, _|]. intros [now|e]; [|done].
    apply Hupd. intros q. apply Haud. }
  destruct (pm_gateway_payment_id p) as [[|ch g]|]; [done| |done].
  apply dwp_bind, withRetry_env. intros [res|e]; [|done].
  destruct (negb _); [by apply markFailed_throws|].
  apply dwp_bind, dwp_env; [apply stays_gets, _|]. intros [now|e]; [|done].
  apply Hupd. intros q. unfold payment_event.
  staying ltac:(first [apply createTransaction_pay | apply createEvent_pay | apply audit_pay
    | apply job_pay | apply invalidatePayment_pay | apply confirm_pay
    | apply stays_env; [apply _|apply view_of_tables]]).
Qed.

Lemma capture_advances c d : progress 4 c d → dwp (capture_payment c) (advanced 4 c) d.
Proof.
  intros Hp. unfold capture_payment. rewrite Hauto. apply dwp_bind.
  eapply dwp_mono; [apply dwp_and; [apply capture_captures, Hp|
    apply (dwp_keeping pay_frame); [apply capture_frame|]; apply capture_follows, Hp]|].
  intros [v|e] d' (Hcap & [Hok _] & Hfr);
    (assert (progress 4 c d') as Hp' by (exact (progress_frame 4 c d d' ltac:(lia) Hfr Hok Hp)));
    [|by split].
  dwp_step. split; [done|]. rewrite patched_nothing. destruct Hp' as (? & ? & ? & HP & _).
  split_and!; try done; try lia; try (by auto with lia).
  intros _ p Hin Hid. apply Hcap; [done|]. by rewrite Hid.
Qed.

(** *** Step 6: the confirmation *)

Lemma transition_orders oid from to note d :
  dwp (transitionStatus oid from to note) (λ o d', pay_frame d d' ∧ same_pay d d' ∧ match o with
    | Ok _ => ∀ x, x ∈ view L_Order d' → od_id x = oid → od_status x = to
    | Throw _ => True end) d.
Proof.
  unfold transitionStatus. dwp_step.
  assert (pay_frame d d ∧ same_pay d d) as [Hfr Hsp] by done.
  apply dwp_bind, dwp_env; [apply stays_gets, _|]. intros [now|e]; [|done].
  dwp_step; [done|]. dwp_step; [done|]. dwp_step. cbn [tbl T_Order T_OrderStatusHistory pk].
  split_and!; [split; [done|done| |done]|done|].
  - change (map order_core (update_rows od_id oid (set_order_status to
      (if bool_decide (to = or_confirmed) then Some now else None)
      (if bool_decide (to = or_cancelled) then Some now else None)) (view L_Order d))
      = map order_core (view L_Order d)). by apply map_update_rows.
  - intros x Hx Hid. change (x ∈ update_rows od_id oid (set_order_status to
      (if bool_decide (to = or_confirmed) then Some now else None)
      (if bool_decide (to = or_cancelled) then Some now else None)) (view L_Order d)) in Hx.
    apply list_elem_of_fmap in Hx as (y & -> & _).
    destruct (String.eqb_spec (od_id y) oid); [done|congruence].
Qed.

Lemma progress_orders c d d' :
  pay_frame d d' → same_pay d d' → progress 5 c d → progress 5 c d'.
Proof.
  intros Hfr Hsp Hp. assert (progress 4 c d) as Hp4.
  { destruct Hp as (? & ? & ? & ? & _). split_and!; try done; try lia; auto with lia. }
  assert (pays_ok d') as Hok by (unfold pays_ok; rewrite Hsp; apply Hp).
  destruct (progress_frame 4 c d d' ltac:(lia) Hfr Hok Hp4) as (? & ? & ? & ? & _).
  destruct Hp as (_ & _ & _ & _ & HC & _).
  split_and!; try done; try lia; try (by auto with lia).
  intros Hk p. rewrite Hsp. by apply HC.
Qed.

Lemma confirm_advances c d : progress 5 c d → dwp (confirm_order c) (advanced 5 c) d.
Proof.
  intros Hp. unfold confirm_order. rewrite Hauto. dwp_step; [by split|].
  apply dwp_bind. eapply dwp_mono; [apply transition_orders|].
  intros [o|e] d1 (Hfr & Hsp & Hst); (assert (progress 5 c d1) as Hp1 by (by eapply progress_orders));
    [|by split].
  assert (∀ d2, same_all d1 d2 → progress 6 c d2) as Hdone.
  { intros d2 Hs. eapply progress_same; [exact Hs|]. destruct Hp1 as (? & HD & ? & ? & ? & _).
    split_and!; try done; try lia; try (by auto with lia).
    intros _ x Hx Hid. apply Hst; [done|]. by rewrite Hid. }
  apply (dwp_results same_all (λ p, p = Some p_nothing)).
  - unfold markConverted, createRiskScore. staying fail.
  - repeat (apply results_bind; intros ?). by apply results_ret.
  - intros p d2 -> Hs. split; [by eapply progress_same|]. rewrite patched_nothing. by apply Hdone.
  - intros e d2 Hs. split; [|done]. by eapply progress_same.
Qed.

Lemma workflow_advances :
  positive_lines cart → advances progress (buildDefinition cart) 0 (steps (buildDefinition cart)).
Proof.
  intros Hpos. unfold buildDefinition at 2. cbn [steps advances].
  split_and!; [..|done]; apply step_retriable; intros c d Hp.
  - by apply draft_advances.
  - by apply reserve_advances.
  - by apply payment_advances.
  - by apply authorize_advances.
  - by apply capture_advances.
  - by apply confirm_advances.
Qed.
End progress.

(** ** The placed order *)

(** The order, its lines, its reservations and its payment, as the caller of
    [checkout] finds them in the tables. *)
Definition placed `{!Postgres} (u : string) (dto : CheckoutDto) (cart : CartRow)
  (r : CheckoutResult) (total : Z) (d : Db) : Prop :=
  ∃ o p ls ids,
    o ∈ view L_Order d ∧ od_status o = or_confirmed ∧ od_customer_id o = Some u ∧
    od_cart_id o = Some (ca_id (cr_cart cart)) ∧ od_grand_total o = total ∧
    Forall2 (line_of (od_id o)) ls (map fst (cr_items cart)) ∧
    Forall (λ l, l ∈ view L_OrderItem d) ls ∧
    cr_reservationIds r = Some ids ∧
    Forall2 (held_for d (ck_warehouseId dto) (Some (od_id o))) ids (map fst (cr_items cart)) ∧
    p ∈ view L_Payment d ∧ cr_paymentId r = Some (pm_id p) ∧ pm_order_id p = od_id o ∧
    pm_amount p = total ∧ pm_status p = pm_captured.

(** What the database guarantees of the tables a checkout starts from. *)
Record shop_ok (d : Db) : Prop := {
  shop_backed : backed d;
  shop_carts : carts_ok d;
  shop_pays : pays_ok d;
  shop_orders : NoDup (map od_id (view L_Order d));
}.

Section placement.
Context `{Redis, !Scheduler, !Crypto, !MathRandom, !Postgres, !ClientText, !NumberText,
          !PaymentProvider, !PaymentConfig}.

Lemma progress_placed u dto cart c d i summary :
  progress u dto cart 6 c d →
  placed u dto cart (mkCheckoutResult i summary (cx_paymentId c) (cx_reservationIds c))
    (amount_due cart) d.
Proof.
  intros (_ & HD & HR & HP & HC & HF).
  destruct (HD ltac:(lia)) as (oid & o & ls & Eo & Ho & Hcore & Hls & Hin).
  destruct (HR ltac:(lia)) as (ids & Ei & Hids).
  destruct (HP ltac:(lia)) as (oid' & pid & p & Eo' & Ep & Hp & Hpc). simplify_eq.
  unfold order_core in Hcore. unfold pay_core in Hpc. simplify_eq.
  exists o, p, ls, ids. simpl. rewrite Eo in Hids.
  assert (od_id o = pm_order_id p) as Eid by done.
  split_and!; try done; try (by rewrite Eid); [by apply HF; [lia|done|rewrite Eo, Eid]|].
  by apply HC; [lia|..].
Qed.

Lemma checkout_places u dto w :
  autoSettlePayment = true → shop_ok (app w) →
  dwp (checkout u dto) (λ o w', match o with
    | Ok r => ∃ cart, loaded (app w) cart ∧ placed u dto cart r (amount_due cart) (app w')
    | Throw _ => True end) w.
Proof.
  intros Hauto [Hb Hc Hp Ho].
  apply (dwp_checkout u dto (λ o d', match o with
    | Ok r => ∃ cart, loaded (app w) cart ∧ placed u dto cart r (amount_due cart) d'
    | Throw _ => True end)); [done|].
  intros cart Hl _. apply dwp_run; [apply buildDefinition_attempts|].
  intros i deadline s0 s1 w' Hs0 Hs1 Ea. split; [done|]. intros Hst summary.
  exists cart. split; [done|].
  assert (positive_lines cart) as Hpos by (by eapply loaded_positive).
  assert (progress u dto cart 0 (initial_context u dto cart) (tables s0)) as H00.
  { apply progress_0. rewrite Hs0. by split. }
  apply progress_placed. rewrite <- Hs1.
  by apply (a_run_advances (progress u dto cart) (buildDefinition cart) _ 0 [] deadline _ _ _ _ _
    (workflow_advances u dto cart Hauto Hpos) (buildDefinition_attempts cart) H00 Ea).
Qed.
End placement.

(** ** The total is exact

    [amount] is computed in binary64. For at most a thousand lines and a total of
    at most 10^11 hundredths, rounding moves it by less than a tenth of a
    hundredth, so that the NUMERIC(14, 2) column holds the exact sum. *)

Definition line_cents (i : CartItem) : Z := ci_unit_price i * ci_quantity i.

Definition billable (cart : CartRow) : Prop :=
  (length (cr_items cart) <= 1000)%nat ∧
  Forall (λ i, 0 <= ci_unit_price i ∧ 0 <= ci_quantity i) (map fst (cr_items cart)) ∧
  sumZ line_cents (map fst (cr_items cart)) <= 10 ^ 11.

Section totals.
#[local] Open Scope Q_scope.
Notation ulp := (1 # 9007199254740992).
Notation slack := (1 # 1048576).

Lemma fl_relative x : 0 <= x → x - x * ulp <= fl x ∧ fl x <= x + x * ulp.
Proof.
  intros Hx. pose proof (fl_error x) as He. rewrite (Qabs_pos x Hx) in He.
  apply Qabs_Qle_condition in He as [Hl Hu].
  assert (x / inject_Z (2 ^ 53) == x * ulp) as E by (unfold Qdiv; reflexivity).
  rewrite E in Hl, Hu. split; lra.
Qed.

Lemma line_near (p q : Z) : (0 <= p)%Z → (0 <= q)%Z →
  let L := inject_Z (p * q) * (1 # 100) in
  0 <= L ∧ L - L * (3 * ulp) <= js_mul (cents p) (inject_Z q) ∧
  js_mul (cents p) (inject_Z q) <= L + L * (3 * ulp).
Proof.
  intros Hp Hq L. rewrite Zle_Qle in Hp, Hq. change (inject_Z 0) with 0 in *.
  assert (inject_Z p / 100 == inject_Z p * (1 # 100)) as E by (unfold Qdiv; reflexivity).
  unfold cents. set (x := inject_Z p / 100) in *.
  destruct (fl_relative x) as [Hxl Hxu]; [lra|].
  assert (x * inject_Z q == L) as EL.
  { unfold L. rewrite E, inject_Z_mult. ring. }
  assert (0 <= L) as HL. { rewrite <- EL. apply Qmult_le_0_compat; lra. }
  assert (L - L * ulp <= fl x * inject_Z q) as Hml.
  { rewrite <- EL. assert (x * inject_Z q - x * inject_Z q * ulp ==
      (x - x * ulp) * inject_Z q) as -> by ring. by apply Qmult_le_compat_r. }
  assert (fl x * inject_Z q <= L + L * ulp) as Hmu.
  { rewrite <- EL. assert (x * inject_Z q + x * inject_Z q * ulp ==
      (x + x * ulp) * inject_Z q) as -> by ring. by apply Qmult_le_compat_r. }
  unfold js_mul. set (y := fl x * inject_Z q) in *.
  destruct (fl_relative y) as [Hyl Hyu]; [lra|]. split_and!; [done|lra|lra].
Qed.

Lemma total_near (items : list (CartItem * option ProductVariant)) (s : Q) (S k : Z) :
  (0 <= S)%Z → (0 <= k)%Z → (k + Z.of_nat (length items) <= 1000)%Z →
  Forall (λ i, 0 <= ci_unit_price i ∧ 0 <= ci_quantity i)%Z (map fst items) →
  (S + sumZ line_cents (map fst items) <= 10 ^ 11)%Z →
  Qabs (s - inject_Z S * (1 # 100)) <= inject_Z k * slack →
  Qabs (foldl (λ s iv, js_add s (line_total (fst iv))) s items
        - inject_Z (S + sumZ line_cents (map fst items)) * (1 # 100))
    <= inject_Z (k + Z.of_nat (length items)) * slack.
Proof.
  revert s S k. induction items as [|iv items IH]; intros s S k HS Hk Hn Hpos Hsum Hs.
  { simpl in *. by rewrite !Z.add_0_r. }
  cbn [map length sumZ foldl] in *. apply Forall_cons in Hpos as [[Hp Hq] Hpos].
  assert (0 <= line_cents (fst iv))%Z as Hl0 by (unfold line_cents; nia).
  assert (0 <= sumZ line_cents (map fst items))%Z as Hr0.
  { apply sumZ_nonneg. eapply Forall_impl; [exact Hpos|]. intros i [? ?]. unfold line_cents. nia. }
  replace (S + (line_cents (fst iv) + sumZ line_cents (map fst items)))%Z
    with ((S + line_cents (fst iv)) + sumZ line_cents (map fst items))%Z by lia.
  replace (k + Z.of_nat (Datatypes.S (length items)))%Z
    with ((k + 1) + Z.of_nat (length items))%Z by lia.
  apply IH; [lia|lia|lia|done|lia|].
  destruct (line_near _ _ Hp Hq) as (HL & Hll & Hlu). fold (line_total (fst iv)) in Hll, Hlu.
  fold (line_cents (fst iv)) in HL, Hll, Hlu.
  set (l := line_total (fst iv)) in *.
  assert (inject_Z (S + line_cents (fst iv)) <= inject_Z (10 ^ 11)) as Hmax
    by (rewrite <- Zle_Qle; lia).
  assert (inject_Z k <= inject_Z 1000) as Hk1 by (rewrite <- Zle_Qle; lia).
  assert (0 <= inject_Z k) as Hk0 by (change 0 with (inject_Z 0); rewrite <- Zle_Qle; lia).
  assert (0 <= inject_Z S) as HS0 by (change 0 with (inject_Z 0); rewrite <- Zle_Qle; lia).
  rewrite !inject_Z_plus in *. change (inject_Z 1) with 1.
  change (inject_Z (10 ^ 11)) with (100000000000 # 1) in Hmax.
  change (inject_Z 1000) with (1000 # 1) in Hk1.
  apply Qabs_Qle_condition in Hs as [Hsl Hsu].
  set (c := inject_Z (line_cents (fst iv))) in *. set (S' := inject_Z S) in *.
  set (k' := inject_Z k) in *.
  assert (Qabs (s + l) <= inject_Z (2 ^ 31)) as Hb.
  { apply Qabs_Qle_condition. change (inject_Z (2 ^ 31)) with (2147483648 # 1). split; lra. }
  destruct (fl_error_bound (2 ^ 31) (s + l) Hb) as [Hal Hau].
  assert (inject_Z (2 ^ 31) / inject_Z (2 ^ 53) == 1 # 4194304) as Ed by reflexivity.
  rewrite Ed in Hal, Hau. unfold js_add. apply Qabs_Qle_condition. split; lra.
Qed.
End totals.

Lemma amount_due_exact `{!Postgres} cart :
  billable cart → amount_due cart = sumZ line_cents (map fst (cr_items cart)).
Proof.
  intros (Hn & Hpos & Hsum). unfold amount_due. apply numeric2_near.
  pose proof (total_near (cr_items cart) 0 0 0 ltac:(lia) ltac:(lia) ltac:(lia) Hpos ltac:(lia)) as Ht.
  rewrite !Z.add_0_l in Ht. unfold items_total.
  assert (inject_Z (sumZ line_cents (map fst (cr_items cart))) / 100 ==
    inject_Z (sumZ line_cents (map fst (cr_items cart))) * (1 # 100))%Q as -> by (unfold Qdiv; reflexivity).
  eapply Qle_trans; [apply Ht; vm_compute; congruence|].
  assert (inject_Z (Z.of_nat (length (cr_items cart))) <= inject_Z 1000)%Q as Hle
    by (rewrite <- Zle_Qle; lia).
  change (inject_Z 1000) with (1000 # 1)%Q in Hle. lra.
Qed.

(** ** Theorems *)
Section theorems.
Context `{Redis, !Scheduler, !Crypto, !MathRandom, !Postgres, !ClientText, !NumberText,
          !PaymentProvider, !PaymentConfig}.

(** (C1) A checkout that returns has placed the order. When payments are settled in
    the workflow, a successful [checkout] leaves a confirmed order of the user for
    the open cart it read; one order line and one active reservation for each cart
    line, linked to that order; and a captured payment of the order's total. The
    total, computed in binary64, is exactly the sum of the lines in hundredths for
    carts of up to a thousand lines and 10^11 hundredths. *)
Theorem checkout_places_order u dto s r s' :
  autoSettlePayment = true → shop_ok (app (tables s)) → checkout u dto s = (Ok r, s') →
  ∃ cart total, loaded (app (tables s)) cart ∧
    placed u dto cart r total (app (tables s')) ∧
    (billable cart → total = sumZ line_cents (map fst (cr_items cart))).
Proof.
  intros Hauto Hok Hrun.
  destruct (dwp_elim _ _ _ _ _ (checkout_places u dto (tables s) Hauto Hok) Hrun)
    as (cart & Hl & Hp).
  exists cart, (amount_due cart). split_and!; [done|done|apply amount_due_exact].
Qed.

(** (C3) Whatever becomes of a checkout (success, a refusal, a failing step, a
    compensation that fails, a timeout), every promise stays backed by held stock
    and no warehouse gains or loses stock of any variant. *)
Theorem checkout_conserves_stock u dto s o s' :
  carts_ok (app (tables s)) → backed (app (tables s)) → checkout u dto s = (o, s') →
  backed (app (tables s')) ∧ ∀ w v,
    on_hand (app (tables s')) w v + held (app (tables s')) w v =
    on_hand (app (tables s)) w v + held (app (tables s)) w v.
Proof.
  intros Hok Hb Hrun.
  exact (dwp_elim _ _ _ _ _ (checkout_conserves u dto (tables s) Hok) Hrun Hb).
Qed.
End theorems.

(** ** The theorems on the sample shop *)
Section examples.
#[local] Existing Instances gmap_redis counting_crypto counting_random sample_postgres text0
  number0 provider0 config0.

Definition home : CheckoutAddressInput :=
  mkAddressInput "Alice" None "1 Road" None "Pune" "MH" None "411001" None.

Definition from_w1 : CheckoutDto := mkCheckoutDto None None "w1" home None (Some "GIFT") (Some (cents 100)).

(** The shop with one line left in the cart. *)
Definition one_line : St (WfSt CheckoutContext Db) :=
  mkSt env0 (mkWfSt [] (put L_CartItem [mkCartItem "ci1" "c1" "v1" 2 10010 rs_active 1 None] sample_db)).
(** The whole cart: the second variant is not in stock in that warehouse. *)
Definition two_lines : St (WfSt CheckoutContext Db) := mkSt env0 (mkWfSt [] sample_db).

Lemma one_line_ok : shop_ok (app (tables one_line)).
Proof.
  split; [eapply backed_same; [|apply sample_backed]; done|repeat constructor|decided|decided].
Qed.

Definition one_line_result : CheckoutResult :=
  match fst (checkout "alice" from_w1 one_line) with
  | Ok r => r
  | Throw _ => mkCheckoutResult "" None None None
  end.

Lemma checkout_places_order_witness :
  ∃ cart total, loaded (app (tables one_line)) cart ∧
    placed "alice" from_w1 cart one_line_result total
      (app (tables (snd (checkout "alice" from_w1 one_line)))) ∧
    (billable cart → total = sumZ line_cents (map fst (cr_items cart))).
Proof.
  apply (checkout_places_order "alice" from_w1 one_line one_line_result);
    [reflexivity|apply one_line_ok|].
  apply run_eta. vm_compute. reflexivity.
Defined.

Lemma checkout_conserves_stock_witness :
  backed (app (tables (snd (checkout "alice" from_w1 two_lines)))) ∧ ∀ w v,
    on_hand (app (tables (snd (checkout "alice" from_w1 two_lines)))) w v +
    held (app (tables (snd (checkout "alice" from_w1 two_lines)))) w v =
    on_hand sample_db w v + held sample_db w v.
Proof.
  apply (checkout_conserves_stock "alice" from_w1 two_lines
           (fst (checkout "alice" from_w1 two_lines)));
    [repeat constructor|apply sample_backed|]. by apply run_eta.
Defined.

(** A failed checkout leaves the first line reserved: the step that failed is not
    compensated, although it had reserved one of its lines. The order is
    cancelled and its reservation stays active. *)
Example failed_checkout_keeps_reservation :
  let d := app (tables (snd (checkout "alice" from_w1 two_lines))) in
  map od_status (view L_Order d) = [or_cancelled] ∧
  map (λ r, (rv_quantity r, rv_status r)) (view L_StockReservation d) =
    [(3, rv_active); (2, rv_active)].
Proof. vm_compute. done. Qed.
End examples.
