(* ===== verification/OrderRules.v ===== *)
(** * Order rules: cancellation, returns, fulfilment, carts

    What [OrdersService] and the cart repository guarantee: a cancellation gives
    back exactly the stock the order had reserved and is refused outside its two
    states; returns stay within the ordered quantity; a fulfilment takes each
    chosen line once; a cart holds one line per variant. The examples at the end
    show where the code falls short of what it means to do. *)
From S2P Require Import Prelude Core Effects Redis Lock JsNumber Pagination Schema Database Tables Sample Inventory Stock Payments Webhooks PaymentRules Orders Saga Checkout CheckoutRules Placement.
From Stdlib Require Import QArith.

#[local] Open Scope Z_scope.
Import OrdersService.

(** ** Cancellation *)

(** What the reservations [ls] hold, per warehouse and variant. *)
Definition holding (ls : list StockReservation) (w v : string) : Z :=
  sumZ (λ r, at_ (rv_warehouse_id r) (rv_variant_id r) (rv_quantity r) w v) ls.

Lemma holding_cons r ls w v :
  holding (r :: ls) w v = at_ (rv_warehouse_id r) (rv_variant_id r) (rv_quantity r) w v + holding ls w v.
Proof. done. Qed.

Definition same_orders (d d' : Db) : Prop := view L_Order d' = view L_Order d.

#[export] Instance same_orders_preorder : PreOrder same_orders.
Proof. split; unfold same_orders; [done|intros ???; congruence]. Qed.

Section cancel.
Context `{Redis, !Scheduler, !Crypto, !MathRandom, !Postgres, !ClientText}.

Lemma dwp_order_findById id Q d :
  (∀ r, ow_order r ∈ view L_Order d → od_id (ow_order r) = id →
     ow_items r ≡ₚ where_ (λ i, String.eqb (oi_order_id i) id && live (oi_deleted_at i))
       (view L_OrderItem d) → Q (Ok (Some r)) d) →
  Q (Ok None) d → dwp (order_findById id) Q d.
Proof.
  intros HS HN. unfold order_findById. dwp_step; [|by apply dwp_ret]. bool_to_prop.
  unfold load_order_opt, load_order. apply dwp_bind. do 2 dwp_step. dwp_step.
  do 2 apply dwp_ret. apply HS; [done|done|]. simpl. subst. done.
Qed.

(** Releasing one of the reservations leaves the others to release. *)
Definition releasing (orderId : string) (d0 : Db) (l rest : list StockReservation) (d : Db) : Prop :=
  backed d ∧ Forall (λ r, r ∈ view L_StockReservation d) rest ∧ NoDup (map rv_id rest) ∧
  (∀ r, r ∈ view L_StockReservation d → reserved_for orderId r = true → rv_id r ∈ map rv_id rest) ∧
  ledger (λ w v, holding l w v - holding rest w v) (λ w v, holding rest w v - holding l w v)
    (λ w v, holding rest w v - holding l w v) d0 d ∧
  view L_Order d = view L_Order d0.

Lemma release_orders id : stays (on_tables same_orders) (releaseReservation id).
Proof.
  unfold releaseReservation, release_check, release_locked, findReservation, findRows, release_row,
    createMovement, invalidateStock, db_findFirst, db_findMany_desc. staying fail.
Qed.

Lemma release_one orderId d0 l r rest d :
  releasing orderId d0 l (r :: rest) d →
  dwp (releaseReservation (rv_id r)) (λ o d', match o with
    | Ok _ => releasing orderId d0 l rest d'
    | Throw _ => True end) d.
Proof.
  intros (Hb & Hin & Hnd & Hall & Hl & Ho). apply Forall_cons in Hin as [Hr Hin].
  cbn [map] in Hnd. apply NoDup_cons in Hnd as [Hnr Hnd].
  eapply dwp_mono; [apply (dwp_keeping same_orders); [apply release_orders|by apply release_spec]|].
  intros [id|e] d' [Hpost Hso]; [|done]. pose proof (release_backed _ _ _ _ Hb Hpost) as Hb'.
  destruct Hpost as (_ & r' & Hr' & Hid & _ & _ & Hdone).
  assert (r' = r) as -> by (by apply (NoDup_key_eq rv_id _ r' r (ok_reservation_ids _ (proj1 Hb)))).
  destruct Hdone as [Ev Hlr]. split_and!; [done| |done| | |by rewrite <- Ho].
  - rewrite Ev. apply Forall_forall. intros x Hx. rewrite Forall_forall in Hin.
    apply list_elem_of_fmap. exists x. split; [|by apply Hin].
    destruct (String.eqb_spec (rv_id x) (rv_id r)) as [E|]; [|done].
    destruct Hnr. rewrite <- E. by apply list_elem_of_fmap_2.
  - rewrite Ev. intros x Hx Hres.
    apply elem_of_update_rows in Hx as (y & Hy & [[_ ->]|[Hne ->]]).
    + unfold reserved_for in Hres. bool_to_prop. simpl in *. done.
    + specialize (Hall y Hy Hres). cbn [map] in Hall. set_solver.
  - eapply ledger_ext; [eapply ledger_trans; [exact Hl|exact Hlr]|..]; intros w v;
      simpl; rewrite holding_cons, ?at_opp; lia.
Qed.

(** The order was cancellable by this user and is now cancelled, no active
    reservation of it is left, and what they held is back on hand. *)
Record cancelled (orderId userId : string) (isAdmin : bool) (d d' : Db) : Prop := {
  cn_before : ∃ o, o ∈ view L_Order d ∧ od_id o = orderId ∧
    (od_status o = or_pending ∨ od_status o = or_confirmed) ∧
    (isAdmin = true ∨ od_customer_id o = Some userId);
  cn_after : ∀ o, o ∈ view L_Order d' → od_id o = orderId → od_status o = or_cancelled;
  cn_released : Forall (λ r, reserved_for orderId r = false) (view L_StockReservation d');
  cn_ledger : let ls := where_ (reserved_for orderId) (view L_StockReservation d) in
    ledger (holding ls) (λ w v, - holding ls w v) (λ w v, - holding ls w v) d d';
}.

Lemma canCancel_iff st : canCancel st = true ↔ st = or_pending ∨ st = or_confirmed.
Proof. destruct st; vm_compute; intuition congruence. Qed.

Lemma holding_perm l k w v : l ≡ₚ k → holding l w v = holding k w v.
Proof. apply sumZ_perm. Qed.

Lemma releasing_start orderId d d1 l :
  backed d → same_stock d d1 →
  l ≡ₚ where_ (reserved_for orderId) (view L_StockReservation d1) →
  releasing orderId d1 l l d1.
Proof.
  intros Hb Hs Hp. pose proof (backed_same _ _ Hs Hb) as Hb1.
  split_and!; [done| | | | |done].
  - apply Forall_forall. intros r Hr. rewrite Hp in Hr. by apply elem_of_where in Hr as [? _].
  - rewrite Hp. apply (NoDup_where rv_id), Hb1.
  - intros r Hr Hres. rewrite Hp. apply list_elem_of_fmap_2, elem_of_where. done.
  - eapply ledger_ext; [apply ledger_same; [apply Hb1|reflexivity]|..]; intros; unfold none; lia.
Qed.

Lemma cancelled_from o userId isAdmin d d1 d2 rs :
  o ∈ view L_Order d → negb isAdmin && negb (owned_by o userId) = false →
  canCancel (od_status o) = true → same_stock d d1 →
  (∀ x, x ∈ view L_Order d1 → od_id x = od_id o → od_status x = or_cancelled) →
  rs ≡ₚ where_ (reserved_for (od_id o)) (view L_StockReservation d1) → stock_ok d →
  releasing (od_id o) d1 rs [] d2 → cancelled (od_id o) userId isAdmin d d2.
Proof.
  intros Ho Hown Hcan Hs Hst Hrs Hok (_ & _ & _ & Hnone & Hl & Ho2). split.
  - exists o. split_and!; [done|done|by apply canCancel_iff|].
    destruct isAdmin; [by left|right]. simpl in Hown. unfold owned_by, same_opt in Hown.
    destruct (od_customer_id o); bool_to_prop; [by f_equal|done].
  - intros x Hx. apply Hst. by rewrite <- Ho2.
  - apply Forall_forall. intros r Hr. destruct (reserved_for _ r) eqn:E; [|done].
    specialize (Hnone r Hr E). set_solver.
  - cbv zeta. rewrite (proj2 Hs) in Hrs.
    eapply ledger_ext; [eapply ledger_trans; [apply (ledger_same d d1); [done|exact Hs]|exact Hl]|..];
      intros w v; unfold none; simpl; rewrite (holding_perm _ _ w v Hrs);
      change (holding [] w v) with 0; lia.
Qed.

Lemma cancel_spec orderId userId dto isAdmin d :
  backed d → dwp (cancel orderId userId dto isAdmin) (λ o d', match o with
    | Ok _ => cancelled orderId userId isAdmin d d' | Throw _ => True end) d.
Proof.
  intros Hb. unfold cancel. dwp_step; [done|]. unfold cancel_body.
  apply dwp_bind, dwp_order_findById; [intros row Ho Hid _; dwp_step; [simplify_eq|done]|by dwp_step].
  rename a into row. dwp_step; [done|]. rename select (_ && _ = false) into Hown.
  dwp_step; [done|]. rename select (negb (canCancel _) = false) into Hcan. bool_to_prop.
  dwp_step; [done|]. apply dwp_bind.
  eapply dwp_mono; [apply transition_orders|]. intros [x|e] d1 (Hfr & _ & Hst); [|done].
  assert (same_stock d d1) as Hs1 by apply Hfr. dwp_step. rename l into rs.
  rename select (rs ≡ₚ _) into Hrs. apply dwp_bind.
  apply (dwp_for_each _ _ (releasing (od_id (ow_order row)) d1 rs)); [by eapply releasing_start| |].
  - intros d2 Hrel.
    assert (cancelled (od_id (ow_order row)) userId isAdmin d d2) as Hc
      by (by eapply (cancelled_from (ow_order row)); try apply Hb).
    apply dwp_bind, dwp_env.
    { unfold invalidateOrder. destruct (od_customer_id _) as [[]|]; eauto with kept typeclass_instances. }
    intros [[]|e]; [|done]. dwp_step; [by dwp_step|done].
  - intros r' rest d2 Hrel. apply dwp_bind.
    eapply dwp_mono; [by apply release_one|]. intros [y|e] d3; [|done].
    intros Hrel'. by apply dwp_ret.
Qed.

Lemma cancel_refusal orderId userId dto isAdmin d :
  (∀ o, o ∈ view L_Order d → od_id o = orderId →
     canCancel (od_status o) = false ∨ isAdmin = false ∧ owned_by o userId = false) →
  dwp (cancel orderId userId dto isAdmin) (λ o d', (∃ e, o = Throw e) ∧ d' = d) d.
Proof.
  intros Href. unfold cancel. dwp_step; [by eauto|]. unfold cancel_body.
  apply dwp_bind, dwp_order_findById; [intros row Ho Hid _; dwp_step; [simplify_eq|done]|
    dwp_step; [done|]; by split; eauto].
  rename a into row. dwp_step; [by split; eauto|]. rename select (_ && _ = false) into Hown.
  dwp_step; [by split; eauto|]. rename select (negb (canCancel _) = false) into Hcan. bool_to_prop.
  destruct (Href _ Ho eq_refl) as [?|[-> E]]; [congruence|]. by rewrite E in Hown.
Qed.
End cancel.

(** ** Returns, fulfilments, carts *)
Section requests.
Context `{Redis, !Scheduler, !Crypto, !MathRandom, !Postgres, !ClientText}.

(** One return with one line was added, for a line of an order of the user that
    may be returned, and for no more than was ordered. *)
Definition return_made (userId orderId : string) (dto : ReturnRequestDto) (d d' : Db) : Prop :=
  ∃ o i ret line,
    o ∈ view L_Order d ∧ od_id o = orderId ∧ od_customer_id o = Some userId ∧
    od_status o ∈ ALLOWED_RETURN_FROM ∧
    i ∈ view L_OrderItem d ∧ oi_order_id i = orderId ∧ oi_id i = rr_orderItemId dto ∧
    0 < rr_quantity dto ∧ rr_quantity dto <= oi_quantity i ∧
    d' = put L_ReturnItem (view L_ReturnItem d ++ [line]) (put L_Return (view L_Return d ++ [ret]) d) ∧
    rt_order_id ret = orderId ∧ rn_return_id line = rt_id ret ∧
    rn_order_item_id line = oi_id i ∧ rn_quantity line = rr_quantity dto.

Lemma dwp_requireOwnedOrder orderId userId Q d :
  (∀ r, ow_order r ∈ view L_Order d → od_id (ow_order r) = orderId →
     od_customer_id (ow_order r) = Some userId →
     (∀ i, i ∈ ow_items r → i ∈ view L_OrderItem d ∧ oi_order_id i = orderId) → Q (Ok r) d) →
  (∀ e, Q (Throw e) d) → dwp (requireOwnedOrder orderId userId) Q d.
Proof.
  intros HO HE. unfold requireOwnedOrder.
  apply dwp_bind, dwp_order_findById; [|by dwp_step].
  intros row Ho Hid Hitems. dwp_step; [|done]. simplify_eq. dwp_step; [done|]. dwp_step.
  rename select (negb (owned_by _ _) = false) into Hown. bool_to_prop.
  apply HO; [done|done| |].
  - unfold owned_by, same_opt in Hown. destruct (od_customer_id _); bool_to_prop; [by f_equal|done].
  - intros i Hi. rewrite Hitems in Hi. apply elem_of_where in Hi as [? ?]. by bool_to_prop.
Qed.

Lemma return_accepted d r : refused T_ReturnItem d r = None → 0 < rn_quantity r.
Proof.
  cbn [refused T_ReturnItem]. intros Hr%constraints_None. apply Forall_cons in Hr as [Hq _].
  simpl in Hq. by bool_to_prop.
Qed.

(** Publishing an event does not fail. *)
Lemma requestReturn_spec userId orderId dto d :
  dwp (requestReturn userId orderId dto) (λ o d', match o with
    | Ok _ => return_made userId orderId dto d d'
    | Throw _ => d' = d end) d.
Proof.
  unfold requestReturn. apply dwp_bind, dwp_requireOwnedOrder; [|done].
  intros row Ho Hid Hown Hitems. dwp_step; [done|].
  rename select (negb (canRequestReturn _) = false) into Hst.
  dwp_step; [|done]. rename select (find_first _ _ = Some _) into Hf.
  apply find_first_Some in Hf as [Hi%Hitems Hiid]. destruct Hi as [Hi Hio].
  dwp_step; [done|]. unfold canRequestReturn in Hst. bool_to_prop.
  apply dwp_bind, dwp_env; [unfold nextReturnNumber, number36; eauto with kept typeclass_instances|].
  intros [number|e]; [|done]. unfold createReturn. apply dwp_bind. dwp_step.
  dwp_step; [done|]. apply dwp_bind. cbn [for_fold]. dwp_step; [done|].
  rename select (refused T_ReturnItem _ _ = None) into Hacc. apply return_accepted in Hacc.
  do 3 dwp_step. apply dwp_bind, dwp_emit. dwp_step.
  by eexists (ow_order row), a, _, _; split_and!.
Qed.

(** *** Fulfilment *)

Definition fulfillment_line (fo : FulfillmentOrder) (l : FulfillmentItem) (i : OrderItem) : Prop :=
  fi_fulfillment_order_id l = fo_id fo ∧ fi_order_item_id l = oi_id i ∧
  fi_quantity l = oi_quantity i.

(** A pending fulfilment with one line per chosen order line, of its whole
    quantity; a confirmed order moves on to processing, any other keeps its
    status, and so do the other orders. *)
Definition fulfilling (orderId : string) (dto : CreateFulfillmentDto) (fo : FulfillmentOrder)
  (d d' : Db) : Prop :=
  ∃ o items ls, o ∈ view L_Order d ∧ od_id o = orderId ∧
    od_status o ∈ [or_confirmed; or_processing; or_packed] ∧
    items ≡ₚ where_ (λ i, String.eqb (oi_order_id i) orderId && live (oi_deleted_at i))
      (view L_OrderItem d) ∧
    view L_FulfillmentOrder d' = view L_FulfillmentOrder d ++ [fo] ∧
    fo_order_id fo = orderId ∧ fo_status fo = "pending" ∧
    view L_FulfillmentItem d' = view L_FulfillmentItem d ++ ls ∧
    Forall2 (fulfillment_line fo) ls (fulfilled_items dto items) ∧
    map (λ x, (od_id x, od_status x)) (view L_Order d') =
    map (λ x, (od_id x, if String.eqb (od_id x) orderId && bool_decide (od_status o = or_confirmed)
                        then or_processing else od_status x)) (view L_Order d).

Definition same_fulfillment (d d' : Db) : Prop :=
  view L_FulfillmentOrder d' = view L_FulfillmentOrder d ∧
  view L_FulfillmentItem d' = view L_FulfillmentItem d.

Lemma fulfillment_lines_spec fo items Q d :
  (∀ ls, Forall2 (fulfillment_line fo) ls items →
     Q (Ok tt) (put L_FulfillmentItem (view L_FulfillmentItem d ++ ls) d)) →
  (∀ e d', Q (Throw e) d') →
  dwp (for_each items (λ i, _ ← db_create T_FulfillmentItem (λ id, mkFulfillmentItem id (fo_id fo)
         (oi_id i) (oi_quantity i)); mret tt)) Q d.
Proof.
  intros HO HE.
  apply (dwp_for_each _ _ (λ rest d', ∃ ls done_, items = done_ ++ rest ∧
    Forall2 (fulfillment_line fo) ls done_ ∧
    d' = put L_FulfillmentItem (view L_FulfillmentItem d ++ ls) d)).
  - exists [], []. rewrite app_nil_r, put_view. by split_and!.
  - intros d' (ls & done_ & -> & HF & ->). rewrite app_nil_r in *. by apply HO.
  - intros i rest d' (ls & done_ & -> & HF & ->). dwp_step; [done|]. dwp_step.
    exists (ls ++ [mkFulfillmentItem id (fo_id fo) (oi_id i) (oi_quantity i)]), (done_ ++ [i]).
    rewrite <- !app_assoc. split_and!; [done|apply Forall2_app; [done|]; by repeat constructor|].
    cbn [tbl T_FulfillmentItem]. by rewrite view_put, put_put, <- app_assoc.
Qed.

Lemma create_fulfillment_spec orderId dto items d :
  dwp (create_fulfillment_rows orderId dto items) (λ o d', match o with
    | Ok fo => view L_FulfillmentOrder d' = view L_FulfillmentOrder d ++ [fo] ∧
        fo_order_id fo = orderId ∧ fo_status fo = "pending" ∧
        (∃ ls, view L_FulfillmentItem d' = view L_FulfillmentItem d ++ ls ∧
               Forall2 (fulfillment_line fo) ls items) ∧ view L_Order d' = view L_Order d
    | Throw _ => d' = d end) d.
Proof.
  unfold create_fulfillment_rows, nextFulfillmentNumber, number36.
  do 3 (apply dwp_bind, dwp_env; [eauto with kept typeclass_instances|]; intros [?|e]; [|done]).
  dwp_step. dwp_step; [done|]. apply dwp_bind, fulfillment_lines_spec; [|done]. intros ls HF.
  dwp_step; [done|]. dwp_step; [done|]. dwp_step. split_and!; try done. by exists ls.
Qed.

Lemma transition_exact oid from to note d :
  dwp (transitionStatus oid from to note) (λ o d', match o with
    | Ok _ => same_fulfillment d d' ∧ map (λ x, (od_id x, od_status x)) (view L_Order d') =
        map (λ x, (od_id x, if String.eqb (od_id x) oid then to else od_status x)) (view L_Order d)
    | Throw _ => d' = d end) d.
Proof.
  unfold transitionStatus. dwp_step. apply dwp_bind, dwp_env; [apply stays_gets, _|].
  intros [now|e]; [|done]. dwp_step; [done|]. dwp_step; [done|]. dwp_step. split; [done|].
  cbn [tbl T_Order T_OrderStatusHistory pk]. change (map (λ x, (od_id x, od_status x))
    (update_rows od_id oid (set_order_status to (if bool_decide (to = or_confirmed) then Some now
       else None) (if bool_decide (to = or_cancelled) then Some now else None)) (view L_Order d)) =
    map (λ x, (od_id x, if String.eqb (od_id x) oid then to else od_status x)) (view L_Order d)).
  unfold update_rows. rewrite map_map. apply map_ext. intros x. by destruct (String.eqb _ _).
Qed.

Lemma createFulfillment_spec orderId dto d :
  dwp (createFulfillment orderId dto) (λ o d', match o with
    | Ok fo => fulfilling orderId dto fo d d' | Throw _ => True end) d.
Proof.
  unfold createFulfillment. dwp_step; [done|].
  apply dwp_bind, dwp_order_findById; [|by dwp_step]. intros row Ho Hid Hitems.
  dwp_step; [|done]. simplify_eq. dwp_step; [done|]. rename a into row.
  rename select (negb _ = false) into Hst. bool_to_prop.
  apply dwp_bind. eapply dwp_mono; [apply create_fulfillment_spec|].
  intros [fo|e] d1; [|done]. intros (Hfo & Hfoid & Hfost & (ls & Hls & HF) & Hord).
  assert (stays (framing tables) (emit (OrderFulfillmentCreatedEvent (fo_id fo)
    (od_id (ow_order row)) (fo_fulfillment_number fo)) ;;
    invalidateOrder (od_id (ow_order row)) (od_customer_id (ow_order row)) ;;
    mret fo : M (St Db) FulfillmentOrder)) as Hrest.
  { unfold invalidateOrder. apply stays_bind; [apply _|apply emit_tables|]. intros [].
    destruct (od_customer_id _) as [[]|]; eauto with kept typeclass_instances. }
  assert (∀ d2, fulfilling (od_id (ow_order row)) dto fo d d2 →
    dwp (emit (OrderFulfillmentCreatedEvent (fo_id fo) (od_id (ow_order row))
           (fo_fulfillment_number fo)) ;;
         invalidateOrder (od_id (ow_order row)) (od_customer_id (ow_order row)) ;; mret fo)
      (λ o d', match o with
        | Ok fo => fulfilling (od_id (ow_order row)) dto fo d d' | Throw _ => True end ∧
        (exn → True)) d2) as Hdone.
  { intros d2 Hf. apply (dwp_results (λ d d', d' = d) (λ x, x = fo)); [exact Hrest| | |done].
    - do 2 (apply results_bind; intros ?). by apply results_ret.
    - intros x d' -> ->. done. }
  apply dwp_bind, dwp_when; intros Hc; bool_to_prop.
  - apply dwp_bind. eapply dwp_mono; [apply transition_exact|]. intros [x|e] d2; [|done].
    intros [[Hf1 Hf2] Hmap]. apply dwp_ret, Hdone.
    exists (ow_order row), (ow_items row), ls. split_and!; try done; [congruence..|].
    rewrite Hmap, Hord. apply map_ext. intros y. rewrite bool_decide_true by done.
    by rewrite andb_true_r.
  - apply Hdone. exists (ow_order row), (ow_items row), ls. split_and!; try done.
    rewrite Hord. apply map_ext. intros y. rewrite bool_decide_false by done. by rewrite andb_false_r.
Qed.

(** *** Carts *)

Definition lines_of (cartId variantId : string) (d : Db) : list CartItem :=
  where_ (λ i, String.eqb (ci_cart_id i) cartId && String.eqb (ci_variant_id i) variantId
               && live (ci_deleted_at i)) (view L_CartItem d).

Definition cart_rows_ok (d : Db) : Prop := NoDup (map ci_id (view L_CartItem d)).

(** The unique index on live lines, read off an accepted row. *)
Lemma cart_item_accepted d r :
  refused T_CartItem d r = None → ci_deleted_at r = None →
  0 < ci_quantity r ∧ Forall (λ x, ci_id x ≠ ci_id r → ci_cart_id x = ci_cart_id r →
    ci_variant_id x = ci_variant_id r → live (ci_deleted_at x) = false) (view L_CartItem d).
Proof.
  cbn [refused T_CartItem]. intros Hr%constraints_None Hdel.
  repeat (apply Forall_cons in Hr as [? Hr]). cbn [fst] in *. rewrite Hdel in *. simpl in *.
  bool_to_prop. split; [done|]. rename select (unique_in _ _ _ _ = true) into Hu.
  apply Forall_forall. intros x Hx Hid Hc Hv.
  pose proof (unique_in_spec _ _ _ _ _ Hu Hx Hid) as Hp. simpl in Hp.
  by rewrite Hc, Hv, !String.eqb_refl, !andb_true_r in Hp.
Qed.

Lemma where_update_single {A} (key : A → string) (p : A → bool) f l x :
  NoDup (map key l) → x ∈ l → p (f x) = true → (∀ y, y ∈ l → key y ≠ key x → p y = false) →
  where_ p (update_rows key (key x) f l) = [f x].
Proof.
  unfold update_rows. induction l as [|y l IH]; intros Hnd Hx Hp Hq; [set_solver|]. simpl.
  inversion Hnd as [|? ? Hny Hnd']; subst. apply elem_of_cons in Hx as [<-|Hx].
  - rewrite String.eqb_refl, Hp. f_equal. apply where_none, Forall_forall.
    intros z (w & -> & Hw)%list_elem_of_fmap.
    assert (key w ≠ key x) as Hne.
    { intros E. destruct Hny. rewrite <- E. by apply list_elem_of_fmap_2. }
    destruct (String.eqb_spec (key w) (key x)); [done|]. apply Hq; [by right|done].
  - assert (key y ≠ key x) as Hne.
    { intros E. destruct Hny. rewrite E. by apply list_elem_of_fmap_2. }
    destruct (String.eqb_spec (key y) (key x)); [done|]. rewrite (Hq y (list_elem_of_here _ _) Hne).
    apply IH; [done..|]. intros z Hz. apply Hq. by right.
Qed.

Lemma where_update_other {A} (key : A → string) (p : A → bool) k f l :
  (∀ y, y ∈ l → key y = k → p y = false ∧ p (f y) = false) →
  where_ p (update_rows key k f l) = where_ p l.
Proof.
  unfold update_rows. induction l as [|y l IH]; intros Hq; [done|]. simpl.
  rewrite IH by (intros z Hz; apply Hq; by right).
  destruct (String.eqb_spec (key y) k) as [E|]; [|done].
  by destruct (Hq y (list_elem_of_here _ _) E) as [-> ->].
Qed.

(** The cart has exactly the line asked for, and its other lines as before. *)
Definition upserted (cartId variantId : string) (quantity price : Z) (d d' : Db) : Prop :=
  (∃ i, lines_of cartId variantId d' = [i] ∧ ci_quantity i = quantity ∧ ci_unit_price i = price) ∧
  0 < quantity ∧
  ∀ c v, c ≠ cartId ∨ v ≠ variantId → lines_of c v d' = lines_of c v d.

Lemma other_line (c v c' v' : string) (l : bool) : c' ≠ c ∨ v' ≠ v →
  String.eqb c c' && String.eqb v v' && l = false.
Proof. intros Hne. destruct (String.eqb_spec c c'), (String.eqb_spec v v'); naive_solver. Qed.

Lemma upsert_spec cartId variantId quantity price d :
  cart_rows_ok d → dwp (upsertItem cartId variantId quantity price) (λ o d', match o with
    | Ok _ => upserted cartId variantId quantity (numeric2 price) d d'
    | Throw _ => d' = d end) d.
Proof.
  intros Hok. unfold upsertItem. apply dwp_bind.
  apply (dwp_gets (λ d, head (order_desc ci_created_at (where_ (λ i, String.eqb (ci_cart_id i) cartId
    && String.eqb (ci_variant_id i) variantId) (view L_CartItem d))))).
  destruct (head _) as [i|] eqn:Eh.
  - assert (i ∈ where_ (λ i, String.eqb (ci_cart_id i) cartId && String.eqb (ci_variant_id i) variantId)
      (view L_CartItem d)) as [Hi Hk]%elem_of_where.
    { rewrite <- (order_desc_perm _ ci_created_at). destruct (order_desc _ _); simplify_eq/=. left. }
    bool_to_prop. dwp_step; [done|]. dwp_step. rename select (refused _ _ _ = None) into Hacc.
    assert (r = i) as -> by (by apply (NoDup_key_eq ci_id (view L_CartItem d))).
    apply cart_item_accepted in Hacc as [Hq Hother]; [|done]. cbn [ci_quantity restock_item] in Hq.
    rewrite Forall_forall in Hother. cbn [tbl T_CartItem pk]. split_and!; [|done|].
    + exists (restock_item quantity (numeric2 price) i). unfold lines_of. rewrite view_put.
      split_and!; [|done..].
      apply (where_update_single ci_id); [done|done| |].
      * simpl. subst. by rewrite !String.eqb_refl.
      * intros y Hy Hne. destruct (String.eqb_spec (ci_cart_id y) cartId); [|done].
        destruct (String.eqb_spec (ci_variant_id y) variantId); [|done]. simpl.
        apply Hother; [done|done|simpl; congruence..].
    + intros c v Hne. unfold lines_of. rewrite view_put. apply (where_update_other ci_id).
      intros y Hy Hyid. assert (y = i) as -> by (by apply (NoDup_key_eq ci_id (view L_CartItem d))).
      subst. split; by apply other_line.
  - apply dwp_bind, dwp_env; [apply stays_gets, _|]. intros [now|e]; [|done].
    dwp_step; [done|]. dwp_step. rename select (refused _ _ _ = None) into Hacc.
    rename select (id ∉ _) into Hid.
    apply cart_item_accepted in Hacc as [Hq Hother]; [|done]. cbn [ci_quantity ci_id ci_cart_id ci_variant_id] in *.
    cbn [tbl T_CartItem pk] in *. split_and!; [|done|]; unfold lines_of; rewrite view_put.
    + eexists. rewrite where_app, where_none; [simpl; rewrite !String.eqb_refl; simpl; by split_and!|].
      apply Forall_forall. intros y Hy. rewrite Forall_forall in Hother.
      destruct (String.eqb_spec (ci_cart_id y) cartId); [|done].
      destruct (String.eqb_spec (ci_variant_id y) variantId); [|done]. simpl.
      apply Hother; [done| |done..]. intros E. destruct Hid. rewrite <- E. by apply list_elem_of_fmap_2.
    + intros c v Hne. rewrite where_app. cbn [where_]. cbn [ci_cart_id ci_variant_id].
      rewrite other_line by done. by rewrite app_nil_r.
Qed.
End requests.

(** ** Theorems *)
Section theorems.
Context `{Redis, !Scheduler, !Crypto, !MathRandom, !Postgres, !ClientText}.
Implicit Types s : St Db.

(** (C23) A successful cancellation was of a pending or confirmed order, by its
    customer or an administrator; afterwards the order is cancelled, none of its
    reservations is active, and exactly what they held is back on hand. *)
Theorem cancel_returns_stock orderId userId dto isAdmin s r s' :
  backed (tables s) → cancel orderId userId dto isAdmin s = (Ok r, s') →
  cancelled orderId userId isAdmin (tables s) (tables s').
Proof.
  intros Hb Hrun.
  exact (dwp_elim _ _ _ _ _ (cancel_spec orderId userId dto isAdmin (tables s) Hb) Hrun).
Qed.

(** A cancellation of an order that has left those states, or by a stranger,
    fails and changes no table. *)
Theorem cancel_refused orderId userId dto isAdmin s :
  (∀ o, o ∈ view L_Order (tables s) → od_id o = orderId →
     canCancel (od_status o) = false ∨ isAdmin = false ∧ owned_by o userId = false) →
  (∃ e, fst (cancel orderId userId dto isAdmin s) = Throw e) ∧
  tables (snd (cancel orderId userId dto isAdmin s)) = tables s.
Proof. intros Href. exact (cancel_refusal orderId userId dto isAdmin (tables s) Href s eq_refl). Qed.

(** A return is accepted only from the customer of a shipped, delivered or
    completed order, for a line of it and at most its quantity; it adds one return
    with one line and changes nothing else. A refused one changes nothing. *)
Lemma return_within_order userId orderId dto s :
  match requestReturn userId orderId dto s with
  | (Ok _, s') => return_made userId orderId dto (tables s) (tables s')
  | (Throw _, s') => tables s' = tables s
  end.
Proof.
  pose proof (requestReturn_spec userId orderId dto (tables s) s eq_refl) as Hr.
  by destruct (requestReturn userId orderId dto s) as [[] ?].
Qed.

(** A fulfilment is created only for a confirmed, processing or packed order,
    with one line per chosen order line and its whole quantity; a confirmed order
    moves to processing and no other order changes its status. *)
Lemma fulfillment_takes_lines orderId dto s fo s' :
  createFulfillment orderId dto s = (Ok fo, s') →
  fulfilling orderId dto fo (tables s) (tables s').
Proof.
  intros Hrun. exact (dwp_elim _ _ _ _ _ (createFulfillment_spec orderId dto (tables s)) Hrun).
Qed.

(** Putting a variant into a cart leaves exactly one live line for it, with the
    quantity and price given, and every other line as it was; a line for no or a
    negative quantity is refused. *)
Theorem cart_holds_one_line cartId variantId quantity price s :
  cart_rows_ok (tables s) →
  match upsertItem cartId variantId quantity price s with
  | (Ok _, s') => upserted cartId variantId quantity (numeric2 price) (tables s) (tables s')
  | (Throw _, s') => tables s' = tables s
  end.
Proof.
  intros Hok.
  pose proof (upsert_spec cartId variantId quantity price (tables s) Hok s eq_refl) as Hr.
  by destruct (upsertItem cartId variantId quantity price s) as [[] ?].
Qed.
End theorems.

(** ** The theorems on the sample shop *)
Section examples.
#[local] Existing Instances gmap_redis counting_crypto counting_random sample_postgres text0
  number0 provider0 config0.

Definition line0 : OrderItem := mkOrderItem "l1" "o1" "v1" "SKU1" "SKU1" 3 10010 30030 None.

(** An order in a given status, whose line is reserved. *)
Definition ordered (st : OrderStatus) : St Db :=
  mkSt env0
    (put L_Order [set_order_status st None None order0]
    (put L_OrderItem [line0]
    (put L_StockReservation
       [mkStockReservation "s1" "w1" "v1" 3 None (Some "o1") None 999999 rv_active None] sample_db))).

Lemma ordered_backed st : backed (tables (ordered st)).
Proof.
  destruct sample_stock_ok as [Hi _ Hq _].
  split; [split; [exact Hi|decided|exact Hq|by repeat constructor]|]. intros w v.
  pose proof (proj2 sample_backed w v) as Hb.
  change (promised (tables (ordered st)) w v <= held sample_db w v).
  assert (promised (tables (ordered st)) w v = promised sample_db w v) as ->; [|done].
  change (sumZ rv_quantity (where_ (is_promise w v) [mkStockReservation "s1" "w1" "v1" 3 None
    (Some "o1") None 999999 rv_active None]) =
    sumZ rv_quantity (where_ (is_promise w v) (t_StockReservation sample_inv))).
  unfold is_promise. cbn -[String.eqb]. by destruct (_ && _).
Qed.

Definition no_reason : CancelOrderDto := mkCancelOrderDto None None.

Lemma cancel_returns_stock_witness :
  cancelled "o1" "alice" false (tables (ordered or_confirmed))
    (tables (snd (cancel "o1" "alice" no_reason false (ordered or_confirmed)))).
Proof.
  apply (cancel_returns_stock "o1" "alice" no_reason false (ordered or_confirmed) ("o1", "cancelled"));
    [apply ordered_backed|].
  apply run_eta. vm_compute. reflexivity.
Defined.

Lemma cancel_refused_witness :
  (∃ e, fst (cancel "o1" "alice" no_reason false (ordered or_shipped)) = Throw e) ∧
  tables (snd (cancel "o1" "alice" no_reason false (ordered or_shipped))) = tables (ordered or_shipped).
Proof.
  apply (cancel_refused "o1" "alice" no_reason false (ordered or_shipped)).
  intros o Ho _. left. apply list_elem_of_singleton in Ho as ->. reflexivity.
Defined.

Definition fulfillment0 : FulfillmentOrder :=
  mkFulfillmentOrder "u" "FUL-RS" "o1" "w1" "pending" None None None.

Lemma fulfillment_takes_lines_witness :
  fulfilling "o1" (mkCreateFulfillmentDto "w1" None) fulfillment0 (tables (ordered or_confirmed))
    (tables (snd (createFulfillment "o1" (mkCreateFulfillmentDto "w1" None) (ordered or_confirmed)))).
Proof.
  apply (fulfillment_takes_lines "o1" (mkCreateFulfillmentDto "w1" None) (ordered or_confirmed)).
  apply run_eta. vm_compute. reflexivity.
Defined.

Lemma cart_holds_one_line_witness :
  match upsertItem "c1" "v1" 5 (cents 999) sample with
  | (Ok _, s') => upserted "c1" "v1" 5 (numeric2 (cents 999)) (tables sample) (tables s')
  | (Throw _, s') => tables s' = tables sample
  end.
Proof. apply (cart_holds_one_line "c1" "v1" 5 (cents 999) sample). decided. Defined.

(** ** Where the code falls short *)

Definition three : ReturnRequestDto := mkReturnRequestDto "l1" 3 None.
Definition later (s : St Db) : St Db :=
  mkSt (mkEnv _ 9000 (store (env s)) true [] [] 0) (tables s).

(** The check is against the quantity ordered, not against what was already
    returned: three units ordered, six returned. *)
Example returned_twice :
  let s1 := snd (requestReturn "alice" "o1" three (ordered or_delivered)) in
  let s2 := snd (requestReturn "alice" "o1" three (later s1)) in
  map rn_quantity (view L_ReturnItem (tables s2)) = [3; 3].
Proof. vm_compute. reflexivity. Qed.

(** The ownership check runs inside the cached computation, and the key is the
    order alone: once its customer read the order, anyone can. *)
Example cached_order_readable_by_anyone :
  (∃ e, fst (getOrder "ORD-1" (Some "mallory") (ordered or_confirmed)) = Throw e) ∧
  let s1 := snd (getOrder "ORD-1" (Some "alice") (ordered or_confirmed)) in
  ∃ j, fst (getOrder "ORD-1" (Some "mallory") s1) = Ok j ∧ jget "id" j = Some (JStr "o1").
Proof. split; [eexists; vm_compute; reflexivity|]. eexists. split; vm_compute; reflexivity. Qed.

(** The cache entry of an order read by its number is not invalidated when the
    order is cancelled: the reader still sees it confirmed. *)
Example cancelled_order_shown_confirmed :
  let s1 := snd (getOrder "ORD-1" (Some "alice") (ordered or_confirmed)) in
  let s2 := snd (cancel "o1" "alice" no_reason false s1) in
  map od_status (view L_Order (tables s2)) = [or_cancelled] ∧
  ∃ j, fst (getOrder "ORD-1" (Some "alice") s2) = Ok j ∧ jget "status" j = Some (JStr "confirmed").
Proof. split; [vm_compute; reflexivity|]. eexists. split; vm_compute; reflexivity. Qed.

(** An item of someone else's wishlist can be removed. *)
Example wishlist_item_removed_by_stranger :
  let s1 := snd (addWishlistItem "alice" "v1" sample) in
  let s2 := snd (removeWishlistItem "mallory" "u" s1) in
  map (λ i, (wk_wishlist_id i, wk_status i)) (view L_WishlistItem (tables s2)) = [("u", rs_archived)] ∧
  map wi_user_id (view L_Wishlist (tables s1)) = ["alice"].
Proof. vm_compute. done. Qed.

(** A line whose variant was withdrawn is hidden from the cart and its subtotal,
    and charged by the checkout. *)
Example hidden_line_charged :
  let s := mkSt env0 (put L_ProductVariant
    [variant0 "v1" "SKU1" 10010 (Some 5); variant0 "v2" "SKU2" 2005 None] sample_db) in
  (∃ j, fst (getOrCreate (Some "alice") None s) = Ok j ∧ jget "subtotal" j = Some (JNum (cents 2005))) ∧
  ∃ cart, fst (findActiveByUser "alice" s) = Ok (Some cart) ∧ amount_due cart = 22025.
Proof.
  split; (eexists; split; [vm_compute; reflexivity|]); vm_compute; reflexivity.
Qed.
End examples.
