(* ===== verification/Coupons.v ===== *)
(** * Coupons

    Models [modules/marketing/services/coupon.service.ts] with the rule builders
    of [utils/rule-builders.ts], the marketing cache and the audit trail. A
    coupon's restrictions are compiled to a condition tree for the rule engine
    ([Rules]); limits are counted in the usage table under a lock. *)
From S2P Require Import Prelude Core Effects Redis Lock JsNumber Rules Schema Database Tables.
From Stdlib Require Import QArith.

#[local] Open Scope Z_scope.

(** ** Constants ([constants/marketing.constants.ts]) *)
Module MARKETING_CACHE.
Definition TTL : Z := 60.
Definition flags : string := "mkt:flags".
Definition coupon (code : string) : string := "mkt:coupon:" +:+ code.
Definition recs (productId : string) : string := "mkt:recs:" +:+ productId.
Definition suggestions (q : string) : string := "mkt:suggest:" +:+ toLowerCase q.
End MARKETING_CACHE.

(** ** Requests ([dto/marketing.dto.ts]) *)

Record ValidateCouponDto := mkValidateCouponDto {
  vc_code : string; vc_cartTotal : Q; vc_brandIds : option (list string);
  vc_categoryIds : option (list string); vc_productIds : option (list string);
}.

Record ApplyCouponDto := mkApplyCouponDto {
  ac_base : ValidateCouponDto; ac_orderId : option string;
}.

Record CreateCouponDto := mkCreateCouponDto {
  cc_code : string; cc_name : string; cc_discountType : CouponDiscountType;
  cc_discountValue : Q; cc_minCartValue : option Q; cc_maxDiscount : option Q;
  cc_usageLimit : option Z; cc_perUserLimit : option Z; cc_startsAt : option string;
  cc_expiresAt : option string; cc_brandIds : option (list string);
  cc_categoryIds : option (list string);
}.

(** ** Condition trees ([utils/rule-builders.ts]) *)

Definition cond_leaf (field op : string) (expected : FactValue) : FactValue :=
  FObj [("field", FStr field); (op, expected)].

Definition cond_all (parts : list FactValue) : FactValue := FObj [("all", FArr parts)].
Definition cond_any (parts : list FactValue) : FactValue := FObj [("any", FArr parts)].

(** A time of a coupon: a [Date] from the database, a string from the cache. *)
Inductive CouponDate := CDate (t : Z) | CText (s : string).

(** [id]s of which one must be in the list at [field]. *)
Definition any_contained (field : string) (ids : list string) : FactValue :=
  cond_any (map (λ id, cond_leaf field "contains" (FStr id)) ids).

Section builders.
Context `{!DateText}.

(** [if (date) parts.push({ field: 'now', [op]: date.toISOString() })] *)
Definition date_part (name op : string) (date : option CouponDate) : outcome (list FactValue) :=
  match date with
  | None | Some (CText "") => Ok []
  | Some (CDate t) => Ok [cond_leaf "now" op (FStr (iso_text t))]
  | Some (CText _) => Throw (JsError ("input." +:+ name +:+ ".toISOString is not a function"))
  end.

Definition one_or_all (parts : list FactValue) : FactValue :=
  match parts with [part] => part | _ => cond_all parts end.

Definition buildCouponConditions (minCartValue : option Q) (startsAt expiresAt : option CouponDate)
  (brandIds categoryIds : list string) (extra : option FactValue) : outcome FactValue :=
  let minimum := match minCartValue with
                 | Some v => [cond_leaf "cart.total" "gte" (FNum v)]
                 | None => []
                 end in
  match date_part "startsAt" "gte" startsAt, date_part "expiresAt" "lte" expiresAt with
  | Throw e, _ | _, Throw e => Throw e
  | Ok starts, Ok expires =>
      Ok (one_or_all (minimum ++ starts ++ expires
            ++ (if is_nil brandIds then [] else [any_contained "cart.brandIds" brandIds])
            ++ (if is_nil categoryIds then [] else [any_contained "cart.categoryIds" categoryIds])
            ++ match extra with Some node => [node] | None => [] end))
  end.

Definition buildRewardConditions (minOrderAmount : option Q) (tierRequired : option string)
  : FactValue :=
  cond_all ((match minOrderAmount with
             | Some v => [cond_leaf "order.total" "gte" (FNum v)]
             | None => []
             end)
            ++ (if truthy_str tierRequired
                then [cond_leaf "customer.tier" "eq" (FStr (coalesce tierRequired ""))] else [])).
End builders.

Definition computeCouponDiscount (discountType : CouponDiscountType) (discountValue cartTotal : Q)
  (maxDiscount : option Q) : Q :=
  let amount := match discountType with
                | cd_percentage => js_div (js_mul cartTotal discountValue) 100
                | cd_flat => discountValue
                end in
  let amount := match maxDiscount with Some m => js_min amount m | None => amount end in
  js_max 0 (js_min amount cartTotal).

(** [restrictionNode] *)
Definition restrictionNode (brands categories : list string) : option FactValue :=
  match (if is_nil brands then [] else [any_contained "cart.brandIds" brands])
        ++ (if is_nil categories then [] else [any_contained "cart.categoryIds" categories]) with
  | [] => None
  | parts => Some (one_or_all parts)
  end.

(** ** A loaded coupon *)

(** The coupon with its active rules, as [loadCoupon] returns it: NUMERIC columns
    as the numbers [Number(...)] makes of them. *)
Record LoadedRule := mkLoadedRule {
  lu_rule_type : CouponRuleType; lu_brand_id : option string; lu_category_id : option string;
  lu_rule_value : option Q;
}.

Record LoadedCoupon := mkLoadedCoupon {
  lc_id : string; lc_code : string; lc_discount_type : CouponDiscountType;
  lc_discount_value : Q; lc_min_cart_value : option Q; lc_max_discount : option Q;
  lc_usage_limit : option Z; lc_per_user_limit : option Z;
  lc_starts_at : option CouponDate; lc_expires_at : option CouponDate;
  lc_rules : list LoadedRule;
}.

(** From the rows of the database: times are [Date]s. *)
Definition rule_of_row (r : CouponRule) : LoadedRule :=
  mkLoadedRule (cl_rule_type r) (cl_brand_id r) (cl_category_id r) (option_map cents (cl_rule_value r)).

Definition coupon_of_row (c : Coupon) (rules : list CouponRule) : LoadedCoupon :=
  mkLoadedCoupon (co_id c) (co_code c) (co_discount_type c) (cents (co_discount_value c))
    (option_map cents (co_min_cart_value c)) (option_map cents (co_max_discount c))
    (co_usage_limit c) (co_per_user_limit c)
    (option_map CDate (co_starts_at c)) (option_map CDate (co_expires_at c))
    (map rule_of_row rules).

(** [coupon.rules.filter((r) => r.rule_type === ty && f(r)).map(f)] *)
Definition restricted (ty : CouponRuleType) (f : LoadedRule → option string)
  (rules : list LoadedRule) : list string :=
  omap f (where_ (λ r, bool_decide (lu_rule_type r = ty) && truthy_str (f r)) rules).

(** [coupon.rules.find((r) => r.rule_type === 'min_cart_value')?.rule_value] *)
Definition rule_minimum (rules : list LoadedRule) : option Q :=
  match find_first (λ r, bool_decide (lu_rule_type r = cr_min_cart_value)) rules with
  | Some r => lu_rule_value r
  | None => None
  end.

Definition CouponRuleType_text (ty : CouponRuleType) : string :=
  match ty with
  | cr_brand => "brand" | cr_category => "category" | cr_min_cart_value => "min_cart_value"
  | cr_max_discount => "max_discount" | cr_usage_limit => "usage_limit"
  | cr_per_user_limit => "per_user_limit"
  end.

Definition CouponRuleType_of (s : string) : option CouponRuleType :=
  find_first (λ ty, String.eqb (CouponRuleType_text ty) s)
    [cr_brand; cr_category; cr_min_cart_value; cr_max_discount; cr_usage_limit; cr_per_user_limit].

Definition CouponDiscountType_text (ty : CouponDiscountType) : string :=
  match ty with cd_flat => "flat" | cd_percentage => "percentage" end.

Section json.
Context `{!DateText}.

Definition jnum_opt (q : option Q) : Json := match q with Some q => JNum q | None => JNull end.
Definition jint_opt (z : option Z) : Json := match z with Some z => JInt z | None => JNull end.
Definition jdate (t : option CouponDate) : Json :=
  match t with
  | Some (CDate t) => JStr (iso_text t)
  | Some (CText s) => JStr s
  | None => JNull
  end.

Definition rule_json (r : LoadedRule) : Json :=
  JObj [("rule_type", JStr (CouponRuleType_text (lu_rule_type r)));
        ("brand_id", jnullable (lu_brand_id r)); ("category_id", jnullable (lu_category_id r));
        ("rule_value", jnum_opt (lu_rule_value r))].

(** What [cache.set] stores: a [Date] is written as its ISO text. *)
Definition coupon_json (c : LoadedCoupon) : Json :=
  JObj [("id", JStr (lc_id c)); ("code", JStr (lc_code c));
        ("discount_type", JStr (CouponDiscountType_text (lc_discount_type c)));
        ("discount_value", JNum (lc_discount_value c));
        ("min_cart_value", jnum_opt (lc_min_cart_value c));
        ("max_discount", jnum_opt (lc_max_discount c));
        ("usage_limit", jint_opt (lc_usage_limit c));
        ("per_user_limit", jint_opt (lc_per_user_limit c));
        ("starts_at", jdate (lc_starts_at c)); ("expires_at", jdate (lc_expires_at c));
        ("rules", JArr (map rule_json (lc_rules c)))].

Definition str_of (j : option Json) : option string :=
  match j with Some (JStr s) => Some s | _ => None end.
Definition num_of (j : option Json) : option Q := match j with Some (JNum q) => Some q | _ => None end.
Definition int_of (j : option Json) : option Z :=
  match j with Some (JNum q) => Some (Qnum q) | _ => None end.

Definition rule_of_json (j : Json) : option LoadedRule :=
  ty ← str_of (jget "rule_type" j) ≫= CouponRuleType_of;
  Some (mkLoadedRule ty (str_of (jget "brand_id" j)) (str_of (jget "category_id" j))
          (num_of (jget "rule_value" j))).

Definition rules_of (j : option Json) : list LoadedRule :=
  match j with Some (JArr l) => omap rule_of_json l | _ => [] end.

(** What a hit returns: times stay strings. *)
Definition coupon_of_json (j : Json) : option LoadedCoupon :=
  match str_of (jget "id" j), str_of (jget "code" j), num_of (jget "discount_value" j) with
  | Some id, Some code, Some value =>
      Some (mkLoadedCoupon id code
              (match str_of (jget "discount_type" j) with
               | Some "percentage" => cd_percentage | _ => cd_flat end)
              value (num_of (jget "min_cart_value" j)) (num_of (jget "max_discount" j))
              (int_of (jget "usage_limit" j)) (int_of (jget "per_user_limit" j))
              (option_map CText (str_of (jget "starts_at" j)))
              (option_map CText (str_of (jget "expires_at" j)))
              (rules_of (jget "rules" j)))
  | _, _, _ => None
  end.
End json.

(** ** CouponService *)

Record ValidateResult := mkValidateResult {
  vr_valid : bool; vr_couponId : option string; vr_code : option string; vr_discount : option Q;
  vr_reasons : list string; vr_errors : option (list string);
}.

Record ApplyResult := mkApplyResult {
  ap_usageId : string; ap_couponId : string; ap_discount : option Q;
}.

Definition CouponAppliedEvent (couponId code : string) (customerId : option string) (discount : Q)
  : DomainEvent :=
  mkEvent "coupon.applied" (JObj ([("couponId", JStr couponId); ("code", JStr code)]
    ++ jopt "customerId" customerId ++ [("discount", JNum discount)])).

Definition CouponRedeemedEvent (couponId usageId : string) (customerId orderId : option string)
  : DomainEvent :=
  mkEvent "coupon.redeemed" (JObj ([("couponId", JStr couponId); ("usageId", JStr usageId)]
    ++ jopt "customerId" customerId ++ jopt "orderId" orderId)).

Section coupon_service.
Context `{Redis, !Scheduler, !Crypto, !Postgres, !JsLibrary, !DateText, !JsonText, !NumberText}.

(** [MarketingRepository.audit] *)
Definition mkt_audit (entityType entityId action actorId : string) : M (St Db) () :=
  _ ← db_create T_AuditLog (λ id, mkAuditLog id entityType (Some entityId) action (Some actorId));
  mret tt.

(** [MarketingCacheService.getOrSet]: a cached [null] is a miss. *)
Definition mkt_getOrSet {A} (key : string) (decode : Json → option A) (encode : A → Json)
  (factory : M (St Db) A) : M (St Db) A :=
  hit ← CacheService.get key;
  match hit with
  | Some JNull | None =>
      value ← factory;
      CacheService.set key (encode value) MARKETING_CACHE.TTL ;;
      mret value
  | Some j => require_ (decode j) (JsError "Cannot read properties of undefined")
  end.

Definition invalidateCoupon (code : string) : M (St Db) () :=
  CacheService.del (MARKETING_CACHE.coupon (toUpperCase code)).

Definition COUPON_NOT_FOUND : exn := AppException NOT_FOUND "Coupon not found" 404.

Definition find_coupon (key : string) : M (St Db) LoadedCoupon :=
  coupon ← db_findFirst T_Coupon (λ c, String.eqb (co_code c) key && live (co_deleted_at c));
  coupon ← require_ coupon COUPON_NOT_FOUND;
  rules ← db_findMany T_CouponRule (λ r, String.eqb (cl_coupon_id r) (co_id coupon)
    && live (cl_deleted_at r) && bool_decide (cl_status r = rs_active));
  throw_if (negb (bool_decide (co_status coupon = rs_active))) COUPON_NOT_FOUND ;;
  mret (coupon_of_row coupon rules).

Definition loadCoupon (code : string) : M (St Db) LoadedCoupon :=
  let key := toUpperCase code in
  mkt_getOrSet (MARKETING_CACHE.coupon key) coupon_of_json coupon_json (find_coupon key).

Definition coupon_facts (customerId : option string) (dto : ValidateCouponDto) (now : Z) : fields_ :=
  let ids l := FArr (map FStr (coalesce l [])) in
  [("cart", FObj [("total", FNum (vc_cartTotal dto)); ("brandIds", ids (vc_brandIds dto));
                  ("categoryIds", ids (vc_categoryIds dto)); ("productIds", ids (vc_productIds dto))]);
   ("customer", FObj [("id", match customerId with Some c => FStr c | None => FNull end)]);
   ("now", FStr (iso_text now))].

Definition coupon_conditions (coupon : LoadedCoupon) : outcome FactValue :=
  buildCouponConditions
    (match lc_min_cart_value coupon with Some v => Some v | None => rule_minimum (lc_rules coupon) end)
    (lc_starts_at coupon) (lc_expires_at coupon) [] []
    (restrictionNode (restricted cr_brand lu_brand_id (lc_rules coupon))
       (restricted cr_category lu_category_id (lc_rules coupon))).

(** The uses of a coupon, of everyone or of one customer. *)
Definition used_by (couponId : string) (customerId : option string) (u : CouponUsage) : bool :=
  String.eqb (cu_coupon_id u) couponId && live (cu_deleted_at u)
  && match customerId with Some c => same_opt (cu_user_id u) (Some c) | None => true end.

Definition exhausted (couponId : string) (customerId : option string) (limit : option Z)
  : M (St Db) bool :=
  match limit with
  | None => mret false
  | Some n => used ← db_count T_CouponUsage (used_by couponId customerId); mret (n <=? used)
  end.

Definition evaluateEligibility (coupon : LoadedCoupon) (customerId : option string)
  (dto : ValidateCouponDto) : M (St Db) (bool * list string * option (list string)) :=
  conditions ← match coupon_conditions coupon with Ok c => mret c | Throw e => throw e end;
  now ← Date_now;
  let evaluated := rules_evaluate "" conditions (coupon_facts customerId dto now) no_options in
  if negb (rr_matched evaluated) || match rr_errors evaluated with Some (_ :: _) => true | _ => false end
  then mret (false, rr_reasons evaluated, rr_errors evaluated)
  else
    over ← exhausted (lc_id coupon) None (lc_usage_limit coupon);
    if (over : bool) then mret (false, ["usage_limit exceeded"], None)
    else
      over ← exhausted (lc_id coupon) customerId
               (if truthy_str customerId then lc_per_user_limit coupon else None);
      if (over : bool) then mret (false, ["per_user_limit exceeded"], None)
      else mret (true, rr_reasons evaluated, None).

(** [validate] once the coupon is loaded. *)
Definition validate_loaded (customerId : option string) (dto : ValidateCouponDto)
  (coupon : LoadedCoupon) : M (St Db) ValidateResult :=
  '(eligible, reasons, errors) ← evaluateEligibility coupon customerId dto;
  if negb eligible then mret (mkValidateResult false None None None reasons errors)
  else
    let discount := computeCouponDiscount (lc_discount_type coupon) (lc_discount_value coupon)
                      (vc_cartTotal dto) (lc_max_discount coupon) in
    emit (CouponAppliedEvent (lc_id coupon) (lc_code coupon) customerId discount) ;;
    mret (mkValidateResult true (Some (lc_id coupon)) (Some (lc_code coupon)) (Some discount)
            reasons None).

Definition validate (customerId : option string) (dto : ValidateCouponDto)
  : M (St Db) ValidateResult :=
  coupon ← loadCoupon (vc_code dto); validate_loaded customerId dto coupon.

Definition set_coupon (couponId : string) (o : Order) : Order :=
  mkOrder (od_id o) (od_order_number o) (od_customer_id o) (od_cart_id o) (Some couponId)
    (od_fulfillment_warehouse_id o) (od_currency o) (od_subtotal o) (od_discount_total o)
    (od_tax_total o) (od_shipping_charge o) (od_grand_total o) (od_placed_at o) (od_cancelled_at o)
    (od_cancellation_reason_id o) (od_status o) (od_created_at o) (od_deleted_at o).

(** [if (dto.orderId) { ... }]: the order takes the coupon, once. *)
Definition attach_coupon (orderId : option string) (couponId : string) : M (St Db) () :=
  if negb (truthy_str orderId) then mret tt
  else
    let id := coalesce orderId "" in
    order ← db_findFirst T_Order (λ o, String.eqb (od_id o) id && live (od_deleted_at o));
    order ← require_ order (AppException NOT_FOUND "Order not found" 404);
    throw_if (truthy_str (od_coupon_id order) && negb (same_opt (od_coupon_id order) (Some couponId)))
      (AppException CONFLICT "Coupon stacking not allowed" 409) ;;
    _ ← db_update T_Order id (set_coupon couponId);
    mret tt.

(** The locked section of [apply] once the coupon is validated. *)
Definition redeem_validated (customerId : string) (dto : ApplyCouponDto) (validated : ValidateResult)
  : M (St Db) ApplyResult :=
  let message := join "; " (vr_reasons validated) in
  throw_if (negb (vr_valid validated) || negb (truthy_str (vr_couponId validated)))
    (AppException CONFLICT (if String.eqb message "" then "Coupon not eligible" else message) 409) ;;
  let couponId := coalesce (vr_couponId validated) "" in
  attach_coupon (ac_orderId dto) couponId ;;
  usage ← db_create T_CouponUsage (λ id, mkCouponUsage id couponId (Some customerId) (ac_orderId dto)
            (numeric2 (coalesce (vr_discount validated) 0%Q)) None);
  emit (CouponRedeemedEvent couponId (cu_id usage) (Some customerId) (ac_orderId dto)) ;;
  mkt_audit "coupon" couponId "redeem" customerId ;;
  mret (mkApplyResult (cu_id usage) couponId (vr_discount validated)).

Definition apply_locked (customerId : string) (dto : ApplyCouponDto) : M (St Db) ApplyResult :=
  validated ← validate (Some customerId) (ac_base dto); redeem_validated customerId dto validated.

Definition mkt_lock : LockService.LockOptions := LockService.mkLockOptions (Some 30000) (Some 5000) None.

Definition apply (customerId : string) (dto : ApplyCouponDto) : M (St Db) ApplyResult :=
  LockService.withLock
    (LockService.resourceKey ["marketing"; "coupon"; toUpperCase (vc_code (ac_base dto))])
    (apply_locked customerId dto) mkt_lock.

(** [x ? new Date(x) : undefined]: an invalid date is refused by the client. *)
Definition optional_date (s : option string) : M (St Db) (option Z) :=
  if truthy_str s then
    t ← require_ (Date_parse (coalesce s "")) (JsError "Invalid value for argument: Invalid Date");
    mret (Some t)
  else mret None.

Definition coupon_rules (couponId : string) (dto : CreateCouponDto) : list (string → CouponRule) :=
  map (λ b id, mkCouponRule id couponId cr_brand (Some b) None None rs_active None)
    (coalesce (cc_brandIds dto) [])
  ++ map (λ c id, mkCouponRule id couponId cr_category None (Some c) None rs_active None)
    (coalesce (cc_categoryIds dto) []).

Definition coupon_create (actorId : string) (dto : CreateCouponDto) : M (St Db) (string * string) :=
  let code := toUpperCase (cc_code dto) in
  existing ← db_findFirst T_Coupon (λ c, String.eqb (co_code c) code && live (co_deleted_at c));
  throw_if (bool_decide (is_Some existing)) (AppException CONFLICT "Coupon code exists" 409) ;;
  starts ← optional_date (cc_startsAt dto);
  expires ← optional_date (cc_expiresAt dto);
  coupon ← db_create T_Coupon (λ id, mkCoupon id code (cc_name dto) (cc_discountType dto)
             (numeric2 (cc_discountValue dto)) (option_map numeric2 (cc_minCartValue dto))
             (option_map numeric2 (cc_maxDiscount dto)) (cc_usageLimit dto) (cc_perUserLimit dto)
             starts expires rs_active None);
  in_transaction (for_each (coupon_rules (co_id coupon) dto)
    (λ row, _ ← db_create T_CouponRule row; mret tt)) ;;
  mkt_audit "coupon" (co_id coupon) "create" actorId ;;
  invalidateCoupon code ;;
  mret (co_id coupon, co_code coupon).
End coupon_service.
