(* ===== verification/CouponRules.v ===== *)
(** * Coupon rules

    What [CouponService] guarantees: the compiled condition tree decides exactly the
    coupon's restrictions; the discount is never negative and never above the cart,
    the cap or a flat value; a redemption is recorded once, within the limits of the
    coupon's row when the cache holds what was stored of it, and never stacks coupons on an order. The example at the end
    shows that a coupon with dates fails on a cache hit. *)
From S2P Require Import Prelude Core Effects Redis Lock JsNumber Rules RuleLogic Schema Database Instant Tables Sample Coupons.
From Stdlib Require Import QArith Lqa.

#[local] Open Scope Z_scope.

(** ** Trees that mean a boolean *)
Section means.
Context `{!JsLibrary, !DateText, !JsonText, !NumberText} (facts : fields_).

(** The tree validates, and its condition is free of errors and has the value [b]. *)
Definition means (v : FactValue) (b : bool) : Prop :=
  is_nullish v = false ∧ (∀ path, validateConditionTree v path = []) ∧
  ∃ c, parse v = Some c ∧ defined facts c = true ∧ holds facts c = b.

Lemma means_children vs bs :
  Forall2 means vs bs →
  (∀ path i, validate_children validateConditionTree path i vs = []) ∧
  ∃ cs, mapM parse vs = Some cs ∧ forallb (defined facts) cs = true ∧ map (holds facts) cs = bs.
Proof.
  induction 1 as [|v b vs bs (_ & Hval & c & Hp & Hd & Hh) _ (IHv & cs & IHp & IHd & IHh)].
  { split; [done|]. by exists []. }
  split.
  - intros path i. simpl. by rewrite Hval, IHv.
  - exists (c :: cs). simpl. rewrite Hp. simpl. rewrite IHp. simpl. by rewrite Hd, IHd, Hh, IHh.
Qed.

Lemma means_all vs bs : Forall2 means vs bs → means (cond_all vs) (forallb id bs).
Proof.
  intros (Hval & cs & Hp & Hd & Hh)%means_children. split; [done|]. split.
  - intros path. simpl. apply Hval.
  - exists (CAll cs). simpl. rewrite Hp. split; [done|]. split; [done|].
    by rewrite forallb_map, Hh.
Qed.

Lemma means_any vs bs : Forall2 means vs bs → means (cond_any vs) (existsb id bs).
Proof.
  intros (Hval & cs & Hp & Hd & Hh)%means_children. split; [done|]. split.
  - intros path. simpl. apply Hval.
  - exists (CAny cs). simpl. rewrite Hp. split; [done|]. split; [done|].
    by rewrite existsb_map, Hh.
Qed.

Lemma means_one_or_all vs bs : Forall2 means vs bs → means (one_or_all vs) (forallb id bs).
Proof.
  intros Hvs. destruct Hvs as [|v b vs bs Hv Hvs]; [apply (means_all [] []); constructor|].
  destruct Hvs as [|v' b' vs bs Hv' Hvs].
  - simpl. by rewrite andb_true_r.
  - apply (means_all (v :: v' :: vs) (b :: b' :: bs)). constructor; [done|by constructor].
Qed.
End means.

(** ** What the tree of a coupon decides *)
Section conditions.
Context `{!JsLibrary, !DateText, !JsonText, !NumberText}.

(** [toISOString] writes this time in the form that the engine reads back. *)
Definition dated (t : Z) : Prop :=
  Date_parse (iso_text t) = Some t ∧ starts_like_date (iso_text t) = true.

Definition dated_opt (t : option CouponDate) : Prop :=
  match t with Some (CDate t) => dated t | Some (CText _) => False | None => True end.

(** Identifiers are not taken for dates. *)
Definition plain (ids : list string) : Prop := Forall (λ x, starts_like_date x = false) ids.

(** Some of the required identifiers is in the cart, if there are any. *)
Definition covers (ids cart : list string) : bool :=
  is_nil ids || existsb (λ b, existsb (λ x, String.eqb x b) cart) ids.

Definition not_before (t : option CouponDate) (now : Z) : bool :=
  match t with Some (CDate t) => t <=? now | _ => true end.
Definition not_after (t : option CouponDate) (now : Z) : bool :=
  match t with Some (CDate t) => now <=? t | _ => true end.

Definition minimum (c : LoadedCoupon) : option Q :=
  match lc_min_cart_value c with Some v => Some v | None => rule_minimum (lc_rules c) end.

(** The restrictions of a coupon, read off its columns. *)
Definition unrestricted (c : LoadedCoupon) (dto : ValidateCouponDto) (now : Z) : bool :=
  match minimum c with Some m => Qle_bool m (vc_cartTotal dto) | None => true end
  && not_before (lc_starts_at c) now && not_after (lc_expires_at c) now
  && covers (restricted cr_brand lu_brand_id (lc_rules c)) (coalesce (vc_brandIds dto) [])
  && covers (restricted cr_category lu_category_id (lc_rules c)) (coalesce (vc_categoryIds dto) []).

Variables (customerId : option string) (dto : ValidateCouponDto) (now : Z).
Let facts := coupon_facts customerId dto now.

(** A leaf that gives a boolean means it. *)
Lemma means_leaf field op expected b :
  field ≠ "" → op ∈ ["gte"; "lte"; "contains"] →
  leaf_verdict facts field op expected = of_bool b →
  means facts (cond_leaf field op expected) b.
Proof.
  intros Hf Ho E. unfold cond_leaf. split; [done|].
  destruct field as [|ch field]; [done|].
  assert ((∀ path, validateConditionTree
             (FObj [("field", FStr (String ch field)); (op, expected)]) path = [])
    ∧ parse (FObj [("field", FStr (String ch field)); (op, expected)])
      = Some (CLeaf (String ch field) op expected)) as [Hv Hp].
  { by repeat (apply elem_of_cons in Ho as [->|Ho]; [split; done|]); apply elem_of_nil in Ho. }
  split; [done|]. eexists. split; [exact Hp|]. cbn [defined holds]. rewrite E. by destruct b.
Qed.

Lemma means_minimum m :
  means facts (cond_leaf "cart.total" "gte" (FNum m)) (Qle_bool m (vc_cartTotal dto)).
Proof.
  apply means_leaf; [done|set_solver|]. rewrite <- js_le_sub. reflexivity.
Qed.

(** Two dated times compare as times. *)
Lemma compare_dated x y : dated x → dated y →
  compareOrdered (FStr (iso_text x)) (FStr (iso_text y)) = inr (inject_Z (x - y)).
Proof.
  intros [Hx Hx'] [Hy Hy']. unfold compareOrdered, toComparable. by rewrite Hx, Hx', Hy, Hy'.
Qed.

Lemma Qle_bool_inject x y : Qle_bool (inject_Z x) (inject_Z y) = (x <=? y).
Proof. unfold Qle_bool. simpl. by rewrite !Z.mul_1_r. Qed.

(** An order operator on the current time. *)
Lemma now_verdict op symbol pred t : dated now → dated t →
  registry_get op = Some (cmpOp op symbol pred) →
  leaf_verdict facts "now" op (FStr (iso_text t)) = of_bool (pred (inject_Z (now - t))).
Proof.
  intros Hn Ht E. unfold leaf_verdict. rewrite E.
  assert (isValidPath "now" = true) as -> by done.
  assert (fact facts "now" = FStr (iso_text now)) as -> by done.
  cbn -[compareOrdered]. by rewrite compare_dated.
Qed.

Lemma means_starts t : dated now → dated t →
  means facts (cond_leaf "now" "gte" (FStr (iso_text t))) (t <=? now).
Proof.
  intros Hn Ht. apply means_leaf; [done|set_solver|].
  rewrite (now_verdict "gte" ">=" (λ n, js_le 0 n)) by done. unfold js_le.
  rewrite (Qle_bool_inject 0). assert (0 <=? now - t = (t <=? now)) as -> by lia. done.
Qed.

Lemma means_expires t : dated now → dated t →
  means facts (cond_leaf "now" "lte" (FStr (iso_text t))) (now <=? t).
Proof.
  intros Hn Ht. apply means_leaf; [done|set_solver|].
  rewrite (now_verdict "lte" "<=" (λ n, js_le n 0)) by done. unfold js_le.
  rewrite (Qle_bool_inject _ 0). assert (now - t <=? 0 = (now <=? t)) as -> by lia. done.
Qed.

Lemma valuesEqual_plain x id : starts_like_date id = false →
  valuesEqual (FStr x) (FStr id) = String.eqb x id.
Proof.
  intros Hid. unfold valuesEqual, toComparable. rewrite Hid.
  assert ((match Date_parse id with Some _ => c_string id | None => c_string id end) = c_string id)
    as -> by by destruct (Date_parse id).
  destruct (Date_parse x); [|done]. destruct (starts_like_date x) eqn:Hx; [|done].
  symmetry. apply String.eqb_neq. intros ->. congruence.
Qed.

Lemma means_contains field ids id :
  isValidPath field = true → field ≠ "" → fact facts field = FArr (map FStr ids) →
  starts_like_date id = false →
  means facts (cond_leaf field "contains" (FStr id)) (existsb (λ x, String.eqb x id) ids).
Proof.
  intros Hp Hne Hf Hid. apply means_leaf; [done|set_solver|].
  unfold leaf_verdict. rewrite Hp, Hf.
  assert (registry_get "contains" = Some ContainsOperator) as -> by done.
  cbn -[valuesEqual].
  assert (existsb (λ v, valuesEqual v (FStr id)) (map FStr ids)
          = existsb (λ x, String.eqb x id) ids) as ->; [|done].
  clear Hf. induction ids as [|x ids IH]; cbn -[valuesEqual]; [done|].
  by rewrite valuesEqual_plain, IH.
Qed.

(** A required list is an [any] over its identifiers, if there are any. *)
Lemma means_restriction field ids cart :
  isValidPath field = true → field ≠ "" → fact facts field = FArr (map FStr cart) → plain ids →
  Forall2 (means facts) (if is_nil ids then [] else [any_contained field ids])
    (if is_nil ids then [] else [covers ids cart]).
Proof.
  intros Hp Hne Hf Hpl. destruct (is_nil ids) eqn:Hnil; [constructor|]. constructor; [|constructor].
  unfold covers. rewrite Hnil. simpl. rewrite existsb_map. apply means_any.
  clear Hnil. induction Hpl as [|id ids Hid _ IH]; simpl; constructor; [|exact IH].
  by apply means_contains.
Qed.

Lemma covers_bools ids cart :
  forallb id (if is_nil ids then [] else [covers ids cart]) = covers ids cart.
Proof. unfold covers. destruct ids; [done|]. simpl. by rewrite andb_true_r. Qed.

Lemma means_extra brands categories :
  plain brands → plain categories →
  let carts l := coalesce l [] in
  ∃ b, Forall2 (means facts)
         (match restrictionNode brands categories with Some node => [node] | None => [] end) b
    ∧ forallb id b = covers brands (carts (vc_brandIds dto))
                     && covers categories (carts (vc_categoryIds dto)).
Proof.
  intros Hb Hc carts.
  pose proof (Forall2_app
    (means_restriction "cart.brandIds" brands (carts (vc_brandIds dto)) eq_refl
       ltac:(done) eq_refl Hb)
    (means_restriction "cart.categoryIds" categories (carts (vc_categoryIds dto)) eq_refl
       ltac:(done) eq_refl Hc)) as Hall.
  set (bs := _ ++ (if is_nil categories then [] else [covers _ _])) in Hall.
  assert (forallb id bs = covers brands (carts (vc_brandIds dto))
            && covers categories (carts (vc_categoryIds dto))) as <-.
  { unfold bs. by rewrite forallb_app, !covers_bools. }
  unfold restrictionNode. destruct (_ ++ _) as [|part parts] eqn:E in Hall |- *.
  - inversion Hall as [E'|]. exists []. split; [constructor|done].
  - exists [forallb id bs]. split; [|simpl; by rewrite andb_true_r].
    constructor; [by apply means_one_or_all|constructor].
Qed.

Lemma means_date_part name op test (t : option CouponDate) : dated now → dated_opt t →
  (∀ x, dated x → means facts (cond_leaf "now" op (FStr (iso_text x))) (test x)) →
  ∃ parts bs, date_part name op t = Ok parts ∧ Forall2 (means facts) parts bs
    ∧ forallb id bs = match t with Some (CDate x) => test x | _ => true end.
Proof.
  intros Hn Ht Hm. destruct t as [[x|]|]; [|done|]; simpl in *.
  - do 2 eexists. split_and!; [done|constructor; [by apply Hm|constructor]|by apply andb_true_r].
  - exists [], []. split_and!; [done|constructor|done].
Qed.

(** The tree of a coupon means the conjunction of its restrictions. *)
Lemma coupon_conditions_means c :
  dated now → dated_opt (lc_starts_at c) → dated_opt (lc_expires_at c) →
  plain (restricted cr_brand lu_brand_id (lc_rules c)) →
  plain (restricted cr_category lu_category_id (lc_rules c)) →
  ∃ node, coupon_conditions c = Ok node ∧ means facts node (unrestricted c dto now).
Proof.
  intros Hn Hs He Hb Hc. unfold coupon_conditions, buildCouponConditions.
  destruct (means_date_part "startsAt" "gte" (λ t, t <=? now) _ Hn Hs
    (λ t, means_starts t Hn)) as (ps & bs & -> & Hps & Hbs).
  destruct (means_date_part "expiresAt" "lte" (λ t, now <=? t) _ Hn He
    (λ t, means_expires t Hn)) as (pe & be & -> & Hpe & Hbe).
  destruct (means_extra _ _ Hb Hc) as (bx & Hpx & Hbx).
  eexists. split; [done|]. simpl is_nil. cbv iota. fold (minimum c).
  assert (∃ bm, Forall2 (means facts)
    (match minimum c with Some v => [cond_leaf "cart.total" "gte" (FNum v)] | None => [] end) bm
    ∧ forallb id bm = match minimum c with Some m => Qle_bool m (vc_cartTotal dto) | None => true end)
    as (bm & Hpm & Hbm).
  { destruct (minimum c); eexists; (split; [constructor; [apply means_minimum|constructor]
      || constructor|]); simpl; by rewrite ?andb_true_r. }
  assert (unrestricted c dto now = forallb id (bm ++ bs ++ be ++ bx)) as ->.
  { rewrite !forallb_app, Hbm, Hbs, Hbe, Hbx. unfold unrestricted. by rewrite !andb_assoc. }
  apply means_one_or_all. repeat apply Forall2_app; done.
Qed.

(** (C22) The compiled tree decides a coupon: for times that [toISOString] writes
    the way the engine reads dates, and identifiers that do not look like dates,
    the engine reports no error and matches exactly when the cart reaches the
    minimum, the time is inside the validity window, and the cart has a required
    brand and a required category. *)
Theorem coupon_rules_decide thrown c :
  dated now → dated_opt (lc_starts_at c) → dated_opt (lc_expires_at c) →
  plain (restricted cr_brand lu_brand_id (lc_rules c)) →
  plain (restricted cr_category lu_category_id (lc_rules c)) →
  ∃ node, coupon_conditions c = Ok node ∧
    let result := rules_evaluate thrown node (coupon_facts customerId dto now) no_options in
    rr_matched result = unrestricted c dto now ∧ rr_errors result = None.
Proof.
  intros Hn Hs He Hb Hc.
  destruct (coupon_conditions_means c Hn Hs He Hb Hc) as (node & E & Hnil & Hv & c' & Hp & Hd & Hh).
  exists node. split; [done|].
  destruct (evaluate_denotes thrown node facts no_options Hnil (Hv "$")) as (c2 & Hp2 & _ & _ & Hd2).
  assert (c2 = c') as -> by congruence. destruct (Hd2 Hd) as [Hm Hr].
  cbv zeta. fold facts. split; [|exact Hr]. rewrite <- Hh. exact Hm.
Qed.
End conditions.

(** ** The discount *)

(** A percentage of a cart of at most ten thousand million is off by at most a
    hundred-thousandth, for both of its roundings. *)
Lemma percentage_error cart p :
  (0 <= cart <= inject_Z (10 ^ 10))%Q → (0 <= p <= 100)%Q →
  (Qabs.Qabs (js_div (js_mul cart p) 100 - cart * p / 100) <= 1 # 100000)%Q.
Proof.
  intros [Hc0 Hc1] [Hp0 Hp1]. unfold js_div, js_mul. change (inject_Z (10 ^ 10)) with 10000000000%Q in Hc1.
  assert (0 <= cart * p)%Q as H0 by by apply Qmult_le_0_compat.
  assert (cart * p <= 1000000000000)%Q as Hx by nra.
  destruct (fl_error_bound (10 ^ 12) (cart * p)) as [Ha Hb].
  { rewrite Qabs.Qabs_pos by done. exact Hx. }
  assert (inject_Z (10 ^ 12) / inject_Z (2 ^ 53) == 1000000000000 # 9007199254740992)%Q as E1 by reflexivity.
  rewrite E1 in Ha, Hb. pose proof (fl_nonneg _ H0) as Hy.
  set (y := fl (cart * p)) in *.
  assert (y / 100 == y * (1 # 100))%Q as Ey by reflexivity.
  destruct (fl_error_bound (2 * 10 ^ 10) (y / 100)) as [Hc Hd].
  { rewrite Ey, Qabs.Qabs_pos by lra. change (inject_Z (2 * 10 ^ 10)) with 20000000000%Q. lra. }
  assert (inject_Z (2 * 10 ^ 10) / inject_Z (2 ^ 53) == 20000000000 # 9007199254740992)%Q as E2 by reflexivity.
  set (w := fl (y / 100)) in *. rewrite E2, Ey in Hc, Hd.
  assert (cart * p / 100 == cart * p * (1 # 100))%Q as Ez by reflexivity.
  apply Qabs.Qabs_Qle_condition. rewrite Ez. set (z := (cart * p)%Q) in *. split; lra.
Qed.

(** The discount of a coupon stays within its bounds: it is never negative,
    never above the cart, the cap or a flat value, a flat value that fits is given
    in full, and an uncapped percentage between 0 and 100 of a cart of at most
    10^10 is computed to within 10^-5 in spite of the rounding. *)
Theorem coupon_discount_bounds ty value cart cap :
  let d := computeCouponDiscount ty value cart cap in
  (0 <= d ∧ (0 <= cart → d <= cart)
   ∧ (∀ m, cap = Some m → 0 <= m → d <= m)
   ∧ (ty = cd_flat → 0 <= value →
        d <= value ∧ (value <= cart → (∀ m, cap = Some m → value <= m) → d == value))
   ∧ (ty = cd_percentage → cap = None → 0 <= value <= 100 → 0 <= cart <= inject_Z (10 ^ 10) →
        Qabs.Qabs (d - cart * value / 100) <= 1 # 100000))%Q.
Proof.
  intros d. unfold computeCouponDiscount in d.
  set (amount := match ty with cd_percentage => _ | cd_flat => value end) in d.
  set (capped := match cap with Some m => js_min amount m | None => amount end) in d.
  destruct (js_max_spec 0 (js_min capped cart)) as (Hd0 & Hd1 & Hd2). fold d in Hd0, Hd1, Hd2. clearbody d.
  destruct (js_min_spec capped cart) as (Hm1 & Hm2 & Hm3).
  assert (Hcap : (capped <= amount ∧ (∀ m, cap = Some m → capped <= m))%Q).
  { unfold capped. destruct cap as [m|]; [|split; [lra|done]].
    destruct (js_min_spec amount m) as (? & ? & _). split; [done|]. by intros ? [= <-]. }
  destruct Hcap as [Hc1 Hc2]. split_and!; [done| | | |].
  - intros Hc. destruct Hd2 as [->| ->]; lra.
  - intros m E Hm. specialize (Hc2 m E). destruct Hd2 as [->| ->]; lra.
  - intros -> Hv. change amount with value in Hc1. split; [destruct Hd2 as [->| ->]; lra|].
    intros Hcart Hlow. assert (value <= capped)%Q.
    { unfold capped. destruct cap as [m|]; [|unfold amount; lra]. specialize (Hlow m eq_refl).
      destruct (js_min_spec amount m) as (_ & _ & [->| ->]); unfold amount; lra. }
    destruct Hm3 as [Hm3|Hm3]; rewrite Hm3 in Hd1, Hd2, Hm1, Hm2; destruct Hd2 as [->| ->]; lra.
  - intros -> -> Hv Hcart. pose proof (percentage_error cart value Hcart Hv) as He.
    change (js_div (js_mul cart value) 100) with capped in He.
    apply Qabs.Qabs_Qle_condition in He. apply Qabs.Qabs_Qle_condition.
    assert (cart * value / 100 == cart * value * (1 # 100))%Q as Ez by reflexivity. rewrite Ez in *.
    destruct Hv, Hcart. assert (0 <= cart * value)%Q by by apply Qmult_le_0_compat.
    assert (cart * value <= 100 * cart)%Q by nra. set (z := (cart * value)%Q) in *.
    destruct Hm3 as [Hm3|Hm3]; rewrite Hm3 in Hd1, Hd2, Hm1, Hm2; destruct Hd2 as [->| ->]; lra.
Qed.

(** ** Redemption *)
Section redemption.
Context `{Redis, !Scheduler, !Crypto, !Postgres, !JsLibrary, !DateText, !JsonText, !NumberText}.

Definition usages (d : Db) : list CouponUsage := view (tbl T_CouponUsage) d.
Definition orders (d : Db) : list Order := view (tbl T_Order) d.

(** How often a coupon was used, by everyone or by one customer. *)
Definition uses (couponId : string) (customerId : option string) (d : Db) : Z :=
  Z.of_nat (length (where_ (used_by couponId customerId) (usages d))).

Definition below (limit : option Z) (n : Z) : Prop :=
  match limit with Some l => n < l | None => True end.

Lemma find_coupon_reads key : stays (framing tables) (find_coupon key).
Proof.
  unfold find_coupon, db_findFirst, db_findMany. repeat (apply stays_bind; [apply _| |intros ?]);
    auto with kept typeclass_instances.
Qed.

Lemma loadCoupon_reads code : stays (framing tables) (loadCoupon code).
Proof.
  unfold loadCoupon, mkt_getOrSet. apply stays_bind; [apply _|apply CacheService.get_tables|].
  assert (∀ k, stays (framing tables) (value ← find_coupon (toUpperCase code);
            CacheService.set k (coupon_json value) MARKETING_CACHE.TTL ;; mret value)) as Hmiss.
  { intros k. apply stays_bind; [apply _|apply find_coupon_reads|]. intros v.
    apply stays_bind; [apply _|apply CacheService.set_tables|]. intros. apply stays_ret, _. }
  intros [[]|]; try apply Hmiss; apply stays_require, _.
Qed.

Lemma dwp_exhausted couponId customerId limit Q d :
  (∀ b, (b = false → below limit (uses couponId customerId d)) → Q (Ok b) d) →
  dwp (exhausted couponId customerId limit) Q d.
Proof.
  intros HQ. unfold exhausted. destruct limit as [n|]; [|apply dwp_ret, HQ; done].
  apply dwp_bind, (dwp_gets (λ d, uses couponId customerId d)), dwp_ret, HQ. simpl. lia.
Qed.

(** *** The coupon behind the cache *)

(** The live, active coupon of this code. *)
Record current (d : Db) (code : string) (co : Coupon) : Prop := {
  cr_row : co ∈ view (tbl T_Coupon) d;
  cr_code : co_code co = toUpperCase code;
  cr_live : live (co_deleted_at co) = true;
  cr_active : co_status co = rs_active;
}.

(** A value of the coupon's cache key: nothing, or what [loadCoupon] stores for the row. *)
Definition caches (d : Db) (code : string) (j : Json) : Prop :=
  j = JNull ∨ ∃ co rules, current d code co ∧ j = coupon_json (coupon_of_row co rules).

(** Nothing else is read from the cache, now or later. *)
Definition coherent (code : string) (d : Db) (e : Env) : Prop :=
  ∀ t j, clock e <= t →
    rget t (MARKETING_CACHE.coupon (toUpperCase code)) (store e) = Some (RJson j) →
    caches d code j.

(** What a redemption uses of a loaded coupon is what the row says. *)
Definition loaded_from (co : Coupon) (c : LoadedCoupon) : Prop :=
  lc_id c = co_id co ∧ lc_usage_limit c = co_usage_limit co
  ∧ lc_per_user_limit c = co_per_user_limit co ∧ lc_discount_type c = co_discount_type co
  ∧ lc_discount_value c = cents (co_discount_value co)
  ∧ lc_max_discount c = option_map cents (co_max_discount co).

(** The columns survive the way through the cache (the times do not). *)
Lemma coupon_json_reads_back co rules c :
  coupon_of_json (coupon_json (coupon_of_row co rules)) = Some c → loaded_from co c.
Proof.
  intros [= <-]. unfold loaded_from. cbn. split_and!; [done| | | |done|].
  - by destruct (co_usage_limit co).
  - by destruct (co_per_user_limit co).
  - by destruct (co_discount_type co).
  - by destruct (co_max_discount co).
Qed.

Lemma find_coupon_current code d :
  dwp (find_coupon (toUpperCase code)) (λ o d', d' = d ∧ match o with
    | Ok c => ∃ co rules, current d code co ∧ c = coupon_of_row co rules
    | Throw _ => True end) d.
Proof.
  unfold find_coupon. apply dwp_bind, dwp_findFirst; [intros co Hin Hp|intros _; by dwp_step].
  bool_to_prop. apply dwp_bind, dwp_ret. unfold db_findMany.
  apply dwp_bind, dwp_env; [apply stays_gets, _|]. intros [rules|e]; [|done].
  dwp_step; [done|]. match goal with E : negb _ = false |- _ =>
    apply negb_false_iff, bool_decide_eq_true in E end.
  apply dwp_ret. split; [done|]. exists co, rules. by split.
Qed.

(** A coherent cache is read so. *)
Lemma coherent_cached code d e j :
  coherent code d e → CacheService.cached (MARKETING_CACHE.coupon (toUpperCase code)) e = Some j →
  caches d code j.
Proof.
  unfold CacheService.cached. intros Hcoh. destruct (redis_up e); [|done].
  destruct (rget _ _ _) as [[|j']|] eqn:E; [done| |done]. intros [= <-]. by eapply Hcoh.
Qed.

(** From a coherent cache, what [loadCoupon] returns comes from the coupon's row. *)
Lemma loadCoupon_current code s c s' :
  coherent code (tables s) (env s) → loadCoupon code s = (Ok c, s') →
  ∃ co, current (tables s) code co ∧ loaded_from co c.
Proof.
  intros Hcoh. unfold loadCoupon, mkt_getOrSet.
  rewrite (bind_step _ _ _ _ _ (CacheService.cache_get_run _ s)).
  pose proof (λ j, coherent_cached code (tables s) (env s) j Hcoh) as Hhit.
  assert ((value ← find_coupon (toUpperCase code);
     CacheService.set (MARKETING_CACHE.coupon (toUpperCase code)) (coupon_json value) MARKETING_CACHE.TTL ;;
     mret value) s = (Ok c, s') →
    ∃ co, current (tables s) code co ∧ loaded_from co c) as Hmiss.
  { clear. intros (v & s2 & Hf & Hk)%bind_Ok.
    destruct (dwp_elim _ _ _ _ _ (find_coupon_current code (tables s)) Hf) as [_ (co & rules & Hc & ->)].
    run_inv. by exists co. }
  destruct (CacheService.cached _ _) as [j|]; [|by apply Hmiss].
  destruct (Hhit j eq_refl) as [->|(co & rules & Hc & ->)]; [by apply Hmiss|].
  intros Hrun. exists co. split; [done|].
  assert (require_ (coupon_of_json (coupon_json (coupon_of_row co rules)))
    (JsError "Cannot read properties of undefined") s = (Ok c, s')) as Hreq by exact Hrun.
  unfold require_ in Hreq. destruct (coupon_of_json _) as [c'|] eqn:E; [|done].
  injection Hreq as -> _. by eapply coupon_json_reads_back.
Qed.

(** And [loadCoupon] keeps the cache so: what it stores is of the row. *)
Lemma loadCoupon_coherent code s :
  coherent code (tables s) (env s) → coherent code (tables s) (env (snd (loadCoupon code s))).
Proof.
  intros Hcoh. unfold loadCoupon, mkt_getOrSet.
  rewrite (bind_step _ _ _ _ _ (CacheService.cache_get_run _ s)).
  assert (coherent code (tables s) (env (snd ((value ← find_coupon (toUpperCase code);
     CacheService.set (MARKETING_CACHE.coupon (toUpperCase code)) (coupon_json value) MARKETING_CACHE.TTL ;;
     mret value) s)))) as Hmiss.
  { pose proof (find_coupon_current code (tables s) s eq_refl) as Hf.
    assert (snd (find_coupon (toUpperCase code) s) = s) as He.
    { unfold find_coupon, db_findFirst, db_findMany, gets, require_, mbind, M_bind.
      destruct (head _); [|done]. simpl. unfold throw_if. by destruct (negb _). }
    unfold mbind at 1, M_bind at 1. destruct (find_coupon _ s) as [[c|e] u]; simpl in He; subst u; [|done].
    destruct Hf as [_ (co & rules & Hcur & ->)].
    unfold CacheService.set, CacheService.assertTtl, try_catch, throw_if, command, mbind, M_bind.
    simpl. destruct (redis_up (env s)); simpl; [|done].
    intros t j Hle. cbn [store set_store clock]. cbn [clock set_store] in Hle. rewrite rget_set by done.
    destruct (_ <? _); [|done]. intros [= <-]. right. by exists co, rules. }
  destruct (CacheService.cached _ _) as [[]|]; try exact Hmiss; by destruct (coupon_of_json _).
Qed.

Lemma acquire_coherent code resource options (s : St Db) :
  (∀ ms e, coherent code (tables s) e → coherent code (tables s) (sleeping ms e)) →
  coherent code (tables s) (env s) →
  coherent code (tables s) (env (snd (LockService.acquire resource options s))).
Proof.
  intros Hsleep. apply LockService.acquire_keeps; [done| |by intros e n He|by intros e He].
  intros e v ttl He t j Hle Hg. apply (He t j Hle). cbn [store set_store] in Hg.
  by rewrite rget_set_ne in Hg.
Qed.

(** An eligible customer is below both limits; nothing is written. *)
Lemma dwp_eligibility coupon customerId dto (Q : outcome _ → Db → Prop) d :
  (∀ e, Q (Throw e) d) →
  (∀ eligible reasons errors,
     (eligible = true → below (lc_usage_limit coupon) (uses (lc_id coupon) None d) ∧
        (truthy_str customerId = true →
         below (lc_per_user_limit coupon) (uses (lc_id coupon) customerId d))) →
     Q (Ok (eligible, reasons, errors)) d) →
  dwp (evaluateEligibility coupon customerId dto) Q d.
Proof.
  intros HE HO. unfold evaluateEligibility. apply dwp_bind.
  destruct (coupon_conditions coupon) as [c|e]; [apply dwp_ret|by apply dwp_throw].
  dwp_step; [|done]. destruct (_ || _); [by apply dwp_ret, HO|].
  apply dwp_bind, dwp_exhausted. intros [] H1'; [by apply dwp_ret, HO|].
  apply dwp_bind, dwp_exhausted. intros [] H2'; [by apply dwp_ret, HO|].
  apply dwp_ret, HO. intros _. split; [by apply H1'|]. intros Ht. rewrite Ht in H2'. by apply H2'.
Qed.

(** What the order row says before and after. *)
Definition took_coupon (orderId : option string) (couponId : string) (d d' : Db) : Prop :=
  if truthy_str orderId then
    (∃ o, o ∈ orders d ∧ od_id o = coalesce orderId "" ∧ live (od_deleted_at o) = true ∧
       (truthy_str (od_coupon_id o) = true → od_coupon_id o = Some couponId)) ∧
    orders d' = update_rows od_id (coalesce orderId "") (set_coupon couponId) (orders d)
  else orders d' = orders d.

Lemma dwp_attach orderId couponId (Q : outcome () → Db → Prop) d :
  (∀ e, Q (Throw e) d) →
  (∀ d', took_coupon orderId couponId d d' → usages d' = usages d → Q (Ok tt) d') →
  dwp (attach_coupon orderId couponId) Q d.
Proof.
  intros HE HO. unfold attach_coupon. destruct (truthy_str orderId) eqn:Ht; simpl.
  2: { apply dwp_ret, HO; [|done]. unfold took_coupon. by rewrite Ht. }
  apply dwp_bind, dwp_findFirst; [intros o Hin [Hid Hl]%andb_true_iff|intros _; by dwp_step].
  apply String.eqb_eq in Hid.
  apply dwp_bind, dwp_ret. dwp_step; [done|]. dwp_step; [done|]. apply dwp_ret, HO; [|done].
  unfold took_coupon. rewrite Ht. split; [|done].
  exists o. split_and!; [done..|]. intros Hs.
  match goal with E : _ && _ = false |- _ => rewrite Hs in E; apply negb_false_iff in E;
    rename E into Es end.
  unfold same_opt in Es. destruct (od_coupon_id _); [|done]. bool_to_prop. by subst.
Qed.

(** What a redemption leaves, by the row [co] of the coupon. *)
Record redeemed (customerId : string) (dto : ApplyCouponDto) (co : Coupon)
  (r : ApplyResult) (d d' : Db) : Prop := {
  rd_limit : below (co_usage_limit co) (uses (co_id co) None d);
  rd_user_limit : customerId ≠ "" →
    below (co_per_user_limit co) (uses (co_id co) (Some customerId) d);
  rd_discount : ap_discount r = Some (computeCouponDiscount (co_discount_type co)
    (cents (co_discount_value co)) (vc_cartTotal (ac_base dto)) (option_map cents (co_max_discount co)));
  rd_result : ap_couponId r = co_id co;
  rd_row : usages d' = usages d ++ [mkCouponUsage (ap_usageId r) (co_id co) (Some customerId)
    (ac_orderId dto) (numeric2 (coalesce (ap_discount r) 0%Q)) None];
  rd_fresh : ap_usageId r ∉ map cu_id (usages d);
  rd_order : took_coupon (ac_orderId dto) (co_id co) d d';
}.

Lemma truthy_str_Some x : truthy_str (Some x) = true ↔ x ≠ "".
Proof. by destruct x. Qed.

(** The rest of [apply_locked] once the coupon is loaded. *)
Lemma dwp_redeem customerId dto co coupon d :
  loaded_from co coupon →
  dwp (validated ← validate_loaded (Some customerId) (ac_base dto) coupon;
       redeem_validated customerId dto validated)
    (λ o d', match o with Ok r => redeemed customerId dto co r d d' | Throw _ => True end) d.
Proof.
  intros (Eid & Elim & Eper & Ety & Ev & Em).
  apply dwp_bind. unfold validate_loaded. apply dwp_bind, dwp_eligibility; [done|]. intros eligible reasons errors Hel.
  destruct eligible; simpl.
  2: { apply dwp_ret. unfold redeem_validated. simpl. by dwp_step. }
  destruct (Hel eq_refl) as [Hl Hu]. dwp_step; [|done]. apply dwp_ret. unfold redeem_validated. simpl. dwp_step; [done|].
  apply dwp_bind, dwp_attach; [done|]. intros d1 Ho Hus.
  dwp_step; [done|]. dwp_step; [|done]. unfold mkt_audit. apply dwp_bind. dwp_step; [done|].
  apply dwp_ret, dwp_ret. split; rewrite <- ?Eid, <- ?Elim, <- ?Eper, <- ?Ety, <- ?Ev, <- ?Em; simpl; try done.
  - intros Hc. by apply Hu, truthy_str_Some.
  - unfold usages in *. simpl in *. by rewrite Hus.
  - by rewrite <- Hus.
Qed.

(** (C10) A redemption is recorded once and within the limits: when [apply] returns,
    there is a live and active coupon of this code which was used fewer times than its
    limit, overall and by this customer; exactly one usage row with the discount of
    that coupon was added under a fresh key, and the order, if one was named, existed,
    had no other coupon, and has this one now. The cached values of the coupon's key
    are taken to be what [loadCoupon] stores for its row, also while this request
    waits for the lock. *)
Theorem coupon_redeemed customerId dto s r s' :
  let code := vc_code (ac_base dto) in
  (∀ ms e, coherent code (tables s) e → coherent code (tables s) (sleeping ms e)) →
  coherent code (tables s) (env s) →
  apply customerId dto s = (Ok r, s') →
  ∃ co, current (tables s) code co ∧ redeemed customerId dto co r (tables s) (tables s').
Proof.
  intros code Hsleep Hcoh. unfold apply.
  intros (token & s1 & s3 & Hacq & Ht1 & E & ->)%LockService.withLock_Ok.
  match type of Hacq with LockService.acquire ?res ?op _ = _ =>
    pose proof (acquire_coherent code res op s Hsleep Hcoh) as Hcoh1 end.
  rewrite Hacq, <- Ht1 in Hcoh1.
  unfold apply_locked, validate in E. apply bind_Ok in E as (v & s4 & E1 & E2).
  apply bind_Ok in E1 as (coupon & s2 & El & E1).
  destruct (loadCoupon_current code s1 coupon s2 Hcoh1 El) as (co & Hco & Hfrom).
  pose proof (loadCoupon_reads code s1) as Ht2. unfold code in Ht2. rewrite El in Ht2.
  unfold framing in Ht2. simpl in Ht2. exists co. rewrite <- Ht1. split; [exact Hco|]. rewrite <- Ht2.
  refine (dwp_elim _ _ _ (Ok r) _ (dwp_redeem customerId dto co coupon (tables s2) Hfrom) _).
  apply bind_Ok. by exists v, s4.
Qed.
End redemption.

(** ** Runs *)
Section examples.
#[local] Existing Instances gmap_redis counting_crypto sample_postgres.
#[local] Instance iso0 : DateText := λ t, "2026-01-01T" +:+ pretty t.
#[local] Instance js0 : JsLibrary := {
  Date_parse s := find_first (λ t, String.eqb (iso_text t) s) [500; 1000; 2000];
  localeCompare a b := match String.compare a b with Lt => -1 | Eq => 0 | Gt => 1 end;
  regex_test _ _ := None;
  string_to_number _ := None;
  array_to_number _ := None;
}.
#[local] Instance text0 : JsonText := λ _, "".
#[local] Instance num0 : NumberText := λ _, "".

(** A coupon for brand [b1] from 500 to 2000, for carts of at least 100. *)
Definition spring : LoadedCoupon :=
  mkLoadedCoupon "k2" "SPRING" cd_flat 50 (Some 100%Q) None None None
    (Some (CDate 500)) (Some (CDate 2000))
    [mkLoadedRule cr_brand (Some "b1") None None].

Definition spring_cart (total : Q) (brand : string) : ValidateCouponDto :=
  mkValidateCouponDto "spring" total (Some [brand]) None None.

Lemma coupon_rules_decide_witness :
  ∃ node, coupon_conditions spring = Ok node ∧
    let result := rules_evaluate "" node (coupon_facts None (spring_cart 120 "b1") 1000) no_options in
    rr_matched result = unrestricted spring (spring_cart 120 "b1") 1000 ∧ rr_errors result = None.
Proof.
  apply (coupon_rules_decide None (spring_cart 120 "b1") 1000 "" spring).
  - split; vm_compute; reflexivity.
  - split; vm_compute; reflexivity.
  - split; vm_compute; reflexivity.
  - repeat constructor.
  - constructor.
Defined.

Example spring_decided :
  unrestricted spring (spring_cart 120 "b1") 1000 = true ∧
  unrestricted spring (spring_cart 99 "b1") 1000 = false ∧
  unrestricted spring (spring_cart 120 "b2") 1000 = false ∧
  unrestricted spring (spring_cart 120 "b1") 2001 = false.
Proof. vm_compute. done. Qed.

Definition ten_percent : ApplyCouponDto :=
  mkApplyCouponDto (mkValidateCouponDto "save10" 120 None None None) None.

Definition once : St Db := snd (apply "alice" ten_percent sample).

Lemma coupon_redeemed_witness :
  ∃ co, current (tables sample) "save10" co ∧
    redeemed "alice" ten_percent co (mkApplyResult "u" "k1" (Some (js_max 0 (js_min (js_min (js_div (js_mul 120 (cents 1000)) 100) (cents 1500)) 120)))) (tables sample) (tables once).
Proof.
  apply (coupon_redeemed "alice" ten_percent sample _ once).
  - intros ms e He t j Hle. apply He. simpl in Hle. lia.
  - by intros t j _.
  - unfold once. apply (run_eta (apply "alice" ten_percent)). vm_compute. reflexivity.
Defined.

(** One use per customer, two in all. *)
Example second_use_refused :
  fst (apply "alice" ten_percent once) =
    Throw (AppException CONFLICT "per_user_limit exceeded" 409) ∧
  let twice := snd (apply "bob" ten_percent once) in
  fst (apply "carol" ten_percent twice) =
    Throw (AppException CONFLICT "usage_limit exceeded" 409).
Proof. vm_compute. done. Qed.

(** The coupon comes back from the cache with its times as strings, and building
    the conditions throws. *)
Definition with_may : St Db :=
  mkSt env0 (put (tbl T_Coupon) [mkCoupon "k3" "MAY" "May" cd_flat 500 None None None None
                                   (Some 500) None rs_active None] sample_db).

Example dated_coupon_fails_cached :
  let may := mkValidateCouponDto "may" 100 None None None in
  (vr_valid <$> match fst (validate None may with_may) with Ok r => Some r | _ => None end) = Some true ∧
  fst (validate None may (snd (validate None may with_may))) =
    Throw (JsError "input.startsAt.toISOString is not a function").
Proof. vm_compute. done. Qed.
End examples.
