(* ===== verification/Growth.v ===== *)
(** * Growth services

    Models [modules/marketing/services/growth.services.ts] and the marketing
    worker: feature flags, loyalty points, referrals, campaigns, search
    suggestions and A/B tests. Recommendations are not modelled;
    the dashboard is in [Content].

    Strings are sequences of 8-bit characters, so [charCodeAt] is the code of the
    character; case-insensitive search in the database is a parameter. *)
From S2P Require Import Prelude Core Effects Redis Lock JsNumber Rules Schema Pagination Database Tables Coupons.
From Stdlib Require Import QArith Qround.

#[local] Open Scope Z_scope.

(** ** Constants and requests *)
Definition QUEUE_MARKETING : string := "marketing".

Module MARKETING_JOBS.
Definition CAMPAIGN_SCHEDULER : string := "marketing.campaign.scheduler".
Definition EMAIL_DELIVERY : string := "marketing.email.delivery".
Definition SMS_DELIVERY : string := "marketing.sms.delivery".
Definition PUSH_DELIVERY : string := "marketing.push.delivery".
Definition SEARCH_ANALYTICS : string := "marketing.search.analytics".
Definition REC_REFRESH : string := "marketing.rec.refresh".
Definition COUPON_EXPIRY : string := "marketing.coupon.expiry".
Definition LOYALTY_EXPIRY : string := "marketing.loyalty.expiry".
Definition REFERRAL_REWARDS : string := "marketing.referral.rewards".
End MARKETING_JOBS.

Record CreateFeatureFlagDto := mkCreateFeatureFlagDto {
  ft_code : string; ft_name : string; ft_status : option FeatureFlagStatus;
  ft_defaultValue : option bool; ft_conditionsJson : option Json; ft_rolloutPercent : option Q;
}.

Record CreateRewardRuleInput := mkCreateRewardRuleInput {
  ri_code : string; ri_name : string; ri_pointsPerRupee : option Q; ri_fixedPoints : option Z;
  ri_minOrderAmount : option Q; ri_tierRequired : option string; ri_expiryDays : option Z;
}.

Record LoyaltyEarnDto := mkLoyaltyEarnDto {
  le_customerId : string; le_orderTotal : Q; le_orderId : option string; le_ruleCode : option string;
}.

Record LoyaltyRedeemDto := mkLoyaltyRedeemDto { lr_points : Z; lr_notes : option string }.

Record CreateReferralProgramDto := mkCreateReferralProgramDto {
  rp_code : string; rp_name : string; rp_referrerPoints : option Z; rp_refereePoints : option Z;
}.

Record ClaimReferralDto := mkClaimReferralDto { cf_programCode : string; cf_referrerId : string }.

Record CreateCampaignDto := mkCreateCampaignDto {
  cn_channel : string; cn_name : string; cn_templateId : option string; cn_segmentId : option string;
  cn_subject : option string; cn_message : option string; cn_scheduledAt : option string;
  cn_launch : bool;
}.

Record CreateSearchKeywordDto := mkCreateSearchKeywordDto {
  ks_keyword : string; ks_boost : option Z; ks_synonyms : option (list string);
}.

Record AbVariantDto := mkAbVariantDto {
  vd_code : string; vd_name : string; vd_isControl : option bool; vd_weightPercent : Q;
  vd_configJson : option Json;
}.

Record CreateAbTestDto := mkCreateAbTestDto {
  td_code : string; td_name : string; td_targetType : string; td_targetKey : option string;
  td_variants : list AbVariantDto;
}.

(** ** Events *)
Definition id_event (name : string) (fields : list (string * string)) : DomainEvent :=
  mkEvent name (JObj (map (λ kv, (fst kv, JStr (snd kv))) fields)).

Definition CampaignStartedEvent (campaignId channel : string) : DomainEvent :=
  id_event "campaign.started" [("campaignId", campaignId); ("channel", channel)].
Definition CampaignCompletedEvent (campaignId channel : string) : DomainEvent :=
  id_event "campaign.completed" [("campaignId", campaignId); ("channel", channel)].

Definition points_event (name accountId customerId : string) (points : Z) : DomainEvent :=
  mkEvent name (JObj [("accountId", JStr accountId); ("customerId", JStr customerId);
                      ("points", JInt points)]).
Definition LoyaltyPointsEarnedEvent : string → string → Z → DomainEvent :=
  points_event "loyalty.points.earned".
Definition LoyaltyPointsRedeemedEvent : string → string → Z → DomainEvent :=
  points_event "loyalty.points.redeemed".

Definition ReferralCreatedEvent (rewardId programId referrerId refereeId : string) : DomainEvent :=
  id_event "referral.created" [("rewardId", rewardId); ("programId", programId);
                               ("referrerId", referrerId); ("refereeId", refereeId)].

Definition FeatureFlagEvaluatedEvent (flagCode : string) (enabled : bool) (customerId : option string)
  : DomainEvent :=
  mkEvent "feature_flag.evaluated"
    (JObj ([("flagCode", JStr flagCode); ("enabled", JBool enabled)] ++ jopt "customerId" customerId)).

Definition SearchBoostAppliedEvent (keyword : string) (boost : Z) : DomainEvent :=
  mkEvent "search.boost.applied" (JObj [("keyword", JStr keyword); ("boost", JInt boost)]).

Definition AbTestExposureEvent (testId variantId : string) (customerId : option string) : DomainEvent :=
  mkEvent "ab_test.exposure"
    (JObj ([("testId", JStr testId); ("variantId", JStr variantId)] ++ jopt "customerId" customerId)).

(** ** Values shared by the services *)

(** [h = (h * 31 + input.charCodeAt(i)) >>> 0] from the left, then [h % 100]. The
    intermediate number is below 2^53, so the arithmetic is exact before [>>> 0]
    takes it modulo 2^32. *)
Definition hash_step (h : Z) (c : Ascii.ascii) : Z :=
  (h * 31 + Z.of_nat (Ascii.nat_of_ascii c)) mod 2 ^ 32.

Definition hashPercent (input : string) : Z :=
  foldl hash_step 0 (String.list_ascii_of_string input) mod 100.

(** A JSON column as a value of the rule engine. *)
Fixpoint fact_of_json (j : Json) : FactValue :=
  match j with
  | JNull => FNull
  | JBool b => FBool b
  | JNum q => FNum q
  | JStr s => FStr s
  | JArr xs => FArr (map fact_of_json xs)
  | JObj fs => FObj (map (λ kv, (fst kv, fact_of_json (snd kv))) fs)
  end.

Definition LoyaltyTier_text (t : LoyaltyTier) : string :=
  match t with
  | ly_bronze => "bronze" | ly_silver => "silver" | ly_gold => "gold" | ly_platinum => "platinum"
  end.

Definition LoyaltyTier_of (s : string) : option LoyaltyTier :=
  find_first (λ t, String.eqb (LoyaltyTier_text t) s) [ly_bronze; ly_silver; ly_gold; ly_platinum].

(** [Number(decimal)] of a NUMERIC(8, 4) column holding [c] ten-thousandths, and
    the rounding to such a column. *)
Definition cents4 (c : Z) : Q := fl (inject_Z c / 10000).
Definition numeric4 `{Postgres} (q : Q) : Z := numeric2 (q * 100).

(** A row of a table that the client creates together with others. *)
Definition create_ `{Redis, !Postgres} {A} (T : Table A) (mk : string → A) : M (St Db) () :=
  _ ← db_create T mk; mret tt.

(** ** Feature flags *)

(** A flag with its active rules, as [listAndEvaluate] reads it. *)
Record LoadedFlagRule := mkLoadedFlagRule {
  lfr_conditions : option Json; lfr_rollout : option Q; lfr_enabled_value : bool;
}.

Record LoadedFlag := mkLoadedFlag {
  lf_code : string; lf_name : string; lf_status : FeatureFlagStatus; lf_default_value : bool;
  lf_rules : list LoadedFlagRule;
}.

Record FlagView := mkFlagView { fv_code : string; fv_name : string; fv_enabled : bool }.

Definition FeatureFlagStatus_text (s : FeatureFlagStatus) : string :=
  match s with ff_enabled => "enabled" | ff_disabled => "disabled" | ff_conditional => "conditional" end.

Definition flag_rule_json (r : LoadedFlagRule) : Json :=
  JObj [("conditions_json", coalesce (lfr_conditions r) JNull);
        ("rollout_percent", jnum_opt (lfr_rollout r)); ("enabled_value", JBool (lfr_enabled_value r))].

Definition flag_json (f : LoadedFlag) : Json :=
  JObj [("code", JStr (lf_code f)); ("name", JStr (lf_name f));
        ("status", JStr (FeatureFlagStatus_text (lf_status f)));
        ("default_value", JBool (lf_default_value f));
        ("rules", JArr (map flag_rule_json (lf_rules f)))].

Definition bool_of (j : option Json) : bool := match j with Some (JBool b) => b | _ => false end.

Definition flag_rule_of_json (j : Json) : LoadedFlagRule :=
  mkLoadedFlagRule (match jget "conditions_json" j with Some JNull => None | c => c end)
    (num_of (jget "rollout_percent" j)) (bool_of (jget "enabled_value" j)).

Definition flag_of_json (j : Json) : option LoadedFlag :=
  match str_of (jget "code" j), str_of (jget "name" j) with
  | Some code, Some name =>
      Some (mkLoadedFlag code name
              (match str_of (jget "status" j) with
               | Some "enabled" => ff_enabled | Some "disabled" => ff_disabled
               | _ => ff_conditional end)
              (bool_of (jget "default_value" j))
              (match jget "rules" j with Some (JArr l) => map flag_rule_of_json l | _ => [] end))
  | _, _ => None
  end.

Definition flags_of_json (j : Json) : option (list LoadedFlag) :=
  match j with JArr l => mapM flag_of_json l | _ => None end.

Section flags.
Context `{Redis, !Postgres, !JsLibrary, !DateText, !JsonText, !NumberText}.

Definition invalidateFlags : M (St Db) () := CacheService.del MARKETING_CACHE.flags.

Definition flag_create (actorId : string) (dto : CreateFeatureFlagDto) : M (St Db) (string * string) :=
  flag ← db_create T_FeatureFlag (λ id, mkFeatureFlag id (ft_code dto) (ft_name dto)
           (coalesce (ft_status dto) ff_disabled) (coalesce (ft_defaultValue dto) false) None);
  when_ (bool_decide (is_Some (ft_conditionsJson dto)))
    (create_ T_FeatureFlagRule (λ id, mkFeatureFlagRule id (ff_id flag) 100 (ft_conditionsJson dto)
       (option_map numeric2 (ft_rolloutPercent dto)) true rs_active None)) ;;
  invalidateFlags ;;
  mkt_audit "feature_flag" (ff_id flag) "create" actorId ;;
  mret (ff_id flag, ff_code flag).

Definition load_flag (d : Db) (f : FeatureFlag) : LoadedFlag :=
  mkLoadedFlag (ff_code f) (ff_name f) (ff_status f) (ff_default_value f)
    (map (λ r, mkLoadedFlagRule (fr_conditions_json r) (option_map cents (fr_rollout_percent r))
                 (fr_enabled_value r))
       (order_desc (λ r, - fr_priority r)
          (where_ (λ r, String.eqb (fr_flag_id r) (ff_id f) && live (fr_deleted_at r)
                        && bool_decide (fr_status r = rs_active)) (view (tbl T_FeatureFlagRule) d)))).

Definition load_flags : M (St Db) (list LoadedFlag) :=
  flags ← db_findMany T_FeatureFlag (λ f, live (ff_deleted_at f));
  d ← gets tables;
  mret (map (load_flag d) flags).

(** [{ customer, now, ...factsExtra }] *)
Definition flag_facts (customerId : option string) (now : Z) (extra : fields_) : fields_ :=
  foldl (λ fs kv, set_prop (fst kv) (snd kv) fs)
    [("customer", FObj [("id", match customerId with Some c => FStr c | None => FNull end)]);
     ("now", FStr (iso_text now))] extra.

(** The customer is outside the share that the rule is rolled out to. *)
Definition held_back (customerId : option string) (code : string) (rollout : option Q) : bool :=
  match rollout with
  | Some p => truthy_str customerId
              && Qle_bool p (inject_Z (hashPercent (coalesce customerId "" +:+ code)))
  | None => false
  end.

(** The loop over the rules: the first one that matches decides. *)
Fixpoint flag_rules (facts : fields_) (customerId : option string) (code : string) (default : bool)
  (rules : list LoadedFlagRule) : bool :=
  match rules with
  | [] => default
  | r :: rest =>
      let conditions := match lfr_conditions r with
                        | Some JNull | None => cond_all []
                        | Some j => fact_of_json j
                        end in
      if rr_matched (rules_evaluate "" conditions facts no_options)
      then (if held_back customerId code (lfr_rollout r) then false else lfr_enabled_value r)
      else flag_rules facts customerId code default rest
  end.

Definition flag_enabled (facts : fields_) (customerId : option string) (f : LoadedFlag) : bool :=
  match lf_status f with
  | ff_enabled => true
  | ff_disabled => false
  | ff_conditional => flag_rules facts customerId (lf_code f) (lf_default_value f) (lf_rules f)
  end.

Definition listAndEvaluate (customerId : option string) (factsExtra : fields_)
  : M (St Db) (list FlagView) :=
  flags ← mkt_getOrSet MARKETING_CACHE.flags flags_of_json (λ fs, JArr (map flag_json fs)) load_flags;
  now ← Date_now;
  let facts := flag_facts customerId now factsExtra in
  for_fold flags [] (λ views f,
    let enabled := flag_enabled facts customerId f in
    emit (FeatureFlagEvaluatedEvent (lf_code f) enabled customerId) ;;
    mret (views ++ [mkFlagView (lf_code f) (lf_name f) enabled])).
End flags.

(** ** Loyalty points *)

Record PointsResult := mkPointsResult { pr_points : Z; pr_balance : Z }.

Definition set_balance (balance : Z) (a : LoyaltyAccount) : LoyaltyAccount :=
  mkLoyaltyAccount (ly_id a) (ly_customer_id a) balance (ly_lifetime_points a) (ly_tier a)
    (ly_deleted_at a).

(** [{ points_balance: balance, lifetime_points: { increment: points } }] *)
Definition credit (balance points : Z) (a : LoyaltyAccount) : LoyaltyAccount :=
  mkLoyaltyAccount (ly_id a) (ly_customer_id a) balance (ly_lifetime_points a + points) (ly_tier a)
    (ly_deleted_at a).

Section loyalty.
Context `{Redis, !Scheduler, !Crypto, !Postgres, !JsLibrary, !DateText, !JsonText, !NumberText}.

Definition ensureAccount (customerId : string) : M (St Db) LoyaltyAccount :=
  account ← db_findFirst T_LoyaltyAccount (λ a, String.eqb (ly_customer_id a) customerId
              && live (ly_deleted_at a));
  match account with
  | Some a => mret a
  | None => db_create T_LoyaltyAccount (λ id, mkLoyaltyAccount id customerId 0 0 ly_bronze None)
  end.

Definition createRewardRule (actorId : string) (data : CreateRewardRuleInput)
  : M (St Db) (string * string) :=
  tier ← match ri_tierRequired data with
         | None => mret None
         | Some s => t ← require_ (LoyaltyTier_of s)
                           (JsError "Invalid value for argument `tier_required`. Expected LoyaltyTier.");
                     mret (Some t)
         end;
  now ← Date_now;
  row ← db_create T_RewardRule (λ id, mkRewardRule id (ri_code data) (ri_name data)
          (option_map numeric4 (ri_pointsPerRupee data)) (ri_fixedPoints data)
          (option_map numeric2 (ri_minOrderAmount data)) (ri_expiryDays data) tier rs_active now None);
  mkt_audit "reward_rule" (rw_id row) "create" actorId ;;
  mret (rw_id row, rw_code row).

Definition find_reward_rule (ruleCode : option string) : M (St Db) (option RewardRule) :=
  let on r := live (rw_deleted_at r) && bool_decide (rw_status r = rs_active) in
  if truthy_str ruleCode
  then db_findFirst T_RewardRule (λ r, String.eqb (rw_code r) (coalesce ruleCode "") && on r)
  else db_findFirst_desc T_RewardRule on (λ r, - rw_created_at r).

Definition earn_facts (dto : LoyaltyEarnDto) (account : LoyaltyAccount) (now : Z) : fields_ :=
  [("order", FObj [("total", FNum (le_orderTotal dto))]);
   ("customer", FObj [("id", FStr (le_customerId dto)); ("tier", FStr (LoyaltyTier_text (ly_tier account)))]);
   ("now", FStr (iso_text now))].

Definition earn_conditions (rule : RewardRule) : FactValue :=
  buildRewardConditions (option_map cents (rw_min_order_amount rule))
    (option_map LoyaltyTier_text (rw_tier_required rule)).

(** [rule.fixed_points ?? Math.floor(dto.orderTotal * Number(rule.points_per_rupee ?? 0))] *)
Definition earned_points (rule : RewardRule) (orderTotal : Q) : Z :=
  match rw_fixed_points rule with
  | Some p => p
  | None => Qfloor (js_mul orderTotal (from_option cents4 0%Q (rw_points_per_rupee rule)))
  end.

(** [rule.expiry_days ? new Date(Date.now() + rule.expiry_days * 86400000) : undefined] *)
Definition points_expire (rule : RewardRule) (now : Z) : option Z :=
  match rw_expiry_days rule with
  | Some days => if days =? 0 then None else Some (now + days * 86400000)
  | None => None
  end.

(** The transaction of [earn], with the account as it was read. *)
Definition earn_commit (dto : LoyaltyEarnDto) (rule : RewardRule) (account : LoyaltyAccount) (points : Z)
  : M (St Db) PointsResult :=
  let balance := ly_points_balance account + points in
  in_transaction (
    _ ← db_update T_LoyaltyAccount (ly_id account) (credit balance points);
    now ← Date_now;
    create_ T_LoyaltyTransaction (λ id, mkLoyaltyTransaction id (ly_id account) lt_earn points balance
      (Some "order") (le_orderId dto) (points_expire rule now) None None)) ;;
  emit (LoyaltyPointsEarnedEvent (ly_id account) (le_customerId dto) points) ;;
  mret (mkPointsResult points balance).

Definition earn_body (dto : LoyaltyEarnDto) : M (St Db) PointsResult :=
  account ← ensureAccount (le_customerId dto);
  rule ← find_reward_rule (le_ruleCode dto);
  rule ← require_ rule (AppException NOT_FOUND "Reward rule not found" 404);
  now ← Date_now;
  let evaluated := rules_evaluate "" (earn_conditions rule) (earn_facts dto account now) no_options in
  let message := join "; " (rr_reasons evaluated) in
  throw_if (negb (rr_matched evaluated))
    (AppException CONFLICT (if String.eqb message "" then "Not eligible" else message) 409) ;;
  let points := earned_points rule (le_orderTotal dto) in
  if points <=? 0 then mret (mkPointsResult 0 (ly_points_balance account))
  else earn_commit dto rule account points.

Definition earn_lock (customerId : string) : string :=
  LockService.resourceKey ["marketing"; "loyalty"; customerId].
Definition redeem_lock (customerId : string) : string :=
  LockService.resourceKey ["marketing"; "loyalty-redeem"; customerId].

Definition earn (dto : LoyaltyEarnDto) : M (St Db) PointsResult :=
  LockService.withLock (earn_lock (le_customerId dto)) (earn_body dto) mkt_lock.

Definition redeem_body (customerId : string) (dto : LoyaltyRedeemDto) : M (St Db) PointsResult :=
  account ← ensureAccount customerId;
  throw_if (ly_points_balance account <? lr_points dto)
    (AppException CONFLICT "Insufficient points" 409) ;;
  let balance := ly_points_balance account - lr_points dto in
  in_transaction (
    _ ← db_update T_LoyaltyAccount (ly_id account) (set_balance balance);
    create_ T_LoyaltyTransaction (λ id, mkLoyaltyTransaction id (ly_id account) lt_redeem
      (- lr_points dto) balance None None None (lr_notes dto) None)) ;;
  emit (LoyaltyPointsRedeemedEvent (ly_id account) customerId (lr_points dto)) ;;
  mret (mkPointsResult (lr_points dto) balance).

Definition redeem (customerId : string) (dto : LoyaltyRedeemDto) : M (St Db) PointsResult :=
  LockService.withLock (redeem_lock customerId) (redeem_body customerId dto) mkt_lock.
End loyalty.

(** ** Referrals *)
Section referrals.
Context `{Redis, !Scheduler, !Crypto, !Postgres}.

Definition createProgram (actorId : string) (dto : CreateReferralProgramDto)
  : M (St Db) (string * string) :=
  row ← db_create T_ReferralProgram (λ id, mkReferralProgram id (rp_code dto) (rp_name dto)
          (coalesce (rp_referrerPoints dto) 0) (coalesce (rp_refereePoints dto) 0) rs_active None);
  mkt_audit "referral_program" (rg_id row) "create" actorId ;;
  mret (rg_id row, rg_code row).

(** A reward of the referee in the program. *)
Definition referred (programId refereeId : string) (r : ReferralReward) : bool :=
  String.eqb (rx_program_id r) programId && String.eqb (rx_referee_id r) refereeId
  && live (rx_deleted_at r).

Definition claim_body (refereeId : string) (dto : ClaimReferralDto) : M (St Db) (string * Z) :=
  throw_if (String.eqb (cf_referrerId dto) refereeId) (AppException BAD_REQUEST "Cannot self-refer" 400) ;;
  program ← db_findFirst T_ReferralProgram (λ p, String.eqb (rg_code p) (cf_programCode dto)
              && live (rg_deleted_at p) && bool_decide (rg_status p = rs_active));
  program ← require_ program (AppException NOT_FOUND "Program not found" 404);
  existing ← db_findFirst T_ReferralReward (referred (rg_id program) refereeId);
  throw_if (bool_decide (is_Some existing)) (AppException CONFLICT "Already referred" 409) ;;
  let points := rg_referrer_points program + rg_referee_points program in
  reward ← db_create T_ReferralReward (λ id, mkReferralReward id (rg_id program) (cf_referrerId dto)
             refereeId points None);
  emit (ReferralCreatedEvent (rx_id reward) (rg_id program) (cf_referrerId dto) refereeId) ;;
  enqueue (mkJob QUEUE_MARKETING MARKETING_JOBS.REFERRAL_REWARDS
             (JObj [("rewardId", JStr (rx_id reward))])) ;;
  mkt_audit "referral_reward" (rx_id reward) "create" refereeId ;;
  mret (rx_id reward, points).

Definition claim (refereeId : string) (dto : ClaimReferralDto) : M (St Db) (string * Z) :=
  LockService.withLock (LockService.resourceKey ["marketing"; "referral"; refereeId])
    (claim_body refereeId dto) mkt_lock.
End referrals.

(** ** Campaigns

    The tables of the four channels are one table whose rows say which they belong
    to; [campaign_kind] is the [if] chain over the channel. *)
Definition campaign_kind (channel : string) : string :=
  match channel with "email" => "email" | "sms" => "sms" | "push" => "push" | _ => "notification" end.

Definition start_campaign (now : Z) (c : Campaign) : Campaign :=
  mkCampaign (cg_id c) (cg_kind c) (cg_name c) (cg_template_id c) (cg_segment_id c) (cg_subject c)
    (cg_message c) (cg_title c) (cg_body c) cg_running (cg_scheduled_at c) (Some now)
    (cg_completed_at c) (cg_deleted_at c).

Definition end_campaign (now : Z) (c : Campaign) : Campaign :=
  mkCampaign (cg_id c) (cg_kind c) (cg_name c) (cg_template_id c) (cg_segment_id c) (cg_subject c)
    (cg_message c) (cg_title c) (cg_body c) cg_completed (cg_scheduled_at c) (cg_started_at c)
    (Some now) (cg_deleted_at c).

Definition delivery_job (channel : string) : string :=
  match channel with
  | "sms" => MARKETING_JOBS.SMS_DELIVERY
  | "push" => MARKETING_JOBS.PUSH_DELIVERY
  | _ => MARKETING_JOBS.EMAIL_DELIVERY
  end.

Section campaigns.
Context `{Redis, !Scheduler, !Crypto, !Postgres, !JsLibrary}.

(** [update({ where: { id } })] on the table of one channel. *)
Definition campaign_update (kind campaignId : string) (f : Campaign → Campaign) : M (St Db) () :=
  row ← db_findFirst T_Campaign (λ c, String.eqb (cg_id c) campaignId && String.eqb (cg_kind c) kind);
  _ ← require_ row (DbError RecordNotFound);
  _ ← db_update T_Campaign campaignId f;
  mret tt.

Definition new_campaign (dto : CreateCampaignDto) (scheduled : option Z) (id : string) : Campaign :=
  let kind := campaign_kind (cn_channel dto) in
  let row := mkCampaign id kind (cn_name dto) (cn_templateId dto) in
  let rest segment subject message title body :=
    row segment subject message title body cg_draft scheduled None None None in
  match kind with
  | "email" => rest (cn_segmentId dto) (cn_subject dto) None None None
  | "sms" =>
      rest None None
        (Some (match cn_message dto with Some m => m | None => coalesce (cn_subject dto) (cn_name dto) end))
        None None
  | "push" =>
      rest None None None (Some (coalesce (cn_subject dto) (cn_name dto)))
        (Some (coalesce (cn_message dto) (cn_name dto)))
  | _ => rest (cn_segmentId dto) None None None None
  end.

Definition launch_body (channel campaignId : string) : M (St Db) (string * string) :=
  now ← Date_now;
  campaign_update (campaign_kind channel) campaignId (start_campaign now) ;;
  emit (CampaignStartedEvent campaignId channel) ;;
  enqueue (mkJob QUEUE_MARKETING (delivery_job channel)
             (JObj [("campaignId", JStr campaignId); ("channel", JStr channel)])) ;;
  mret (campaignId, "running").

Definition launch (channel campaignId : string) : M (St Db) (string * string) :=
  LockService.withLock (LockService.resourceKey ["marketing"; "campaign"; campaignId])
    (launch_body channel campaignId) mkt_lock.

Definition campaign_create (actorId : string) (dto : CreateCampaignDto) : M (St Db) (string * string) :=
  scheduled ← optional_date (cn_scheduledAt dto);
  row ← db_create T_Campaign (new_campaign dto scheduled);
  mkt_audit "campaign" (cg_id row) "create" actorId ;;
  when_ (cn_launch dto) (_ ← launch (cn_channel dto) (cg_id row); mret tt) ;;
  mret (cg_id row, cn_channel dto).

Definition complete (channel campaignId : string) : M (St Db) () :=
  now ← Date_now;
  when_ (String.eqb channel "email") (campaign_update "email" campaignId (end_campaign now)) ;;
  emit (CampaignCompletedEvent campaignId channel).
End campaigns.

(** ** Search *)
Inductive SuggestionSource := from_keyword | from_popular | from_synonym.

Record Suggestion := mkSuggestion { sg_text : string; sg_boost : Z; sg_source : SuggestionSource }.

Definition source_text (s : SuggestionSource) : string :=
  match s with from_keyword => "keyword" | from_popular => "popular" | from_synonym => "synonym" end.

Definition suggestion_json (s : Suggestion) : Json :=
  JObj [("text", JStr (sg_text s)); ("boost", JInt (sg_boost s)); ("source", JStr (source_text (sg_source s)))].

Definition suggestion_of_json (j : Json) : option Suggestion :=
  match str_of (jget "text" j), int_of (jget "boost" j), str_of (jget "source" j) with
  | Some text, Some boost, Some source =>
      Some (mkSuggestion text boost
              (match source with
               | "keyword" => from_keyword | "popular" => from_popular | _ => from_synonym end))
  | _, _, _ => None
  end.

Definition suggestions_of_json (j : Json) : option (list Suggestion) :=
  match j with JArr l => mapM suggestion_of_json l | _ => None end.

(** [suggestions.filter(...)] with the set of the texts seen so far. *)
Fixpoint first_of_text (seen : list string) (l : list Suggestion) : list Suggestion :=
  match l with
  | [] => []
  | s :: rest =>
      let key := toLowerCase (sg_text s) in
      if existsb (String.eqb key) seen then first_of_text seen rest
      else s :: first_of_text (key :: seen) rest
  end.

Section search.
Context `{Redis, !Postgres, !TextSearch}.

Definition createKeyword (dto : CreateSearchKeywordDto) : M (St Db) (string * string) :=
  let boost := coalesce (ks_boost dto) 0 in
  row ← in_transaction (
    row ← db_create T_SearchKeyword (λ id, mkSearchKeyword id (ks_keyword dto) true boost rs_active None);
    for_each (coalesce (ks_synonyms dto) []) (λ s,
      create_ T_SearchSynonym (λ id, mkSearchSynonym id (sk_id row) s rs_active None)) ;;
    mret row);
  when_ (0 <? boost) (emit (SearchBoostAppliedEvent (ks_keyword dto) boost)) ;;
  mret (sk_id row, sk_keyword row).

Definition find_suggestions (query : string) : M (St Db) (list Suggestion) :=
  keywords ← db_findMany_desc T_SearchKeyword (λ k, live (sk_deleted_at k)
    && bool_decide (sk_status k = rs_active) && sk_is_autocomplete k && icontains query (sk_keyword k))
    sk_boost;
  popular ← db_findMany_desc T_PopularSearch (λ p, live (ps_deleted_at p)
    && bool_decide (ps_status p = rs_active) && icontains query (ps_keyword p)) ps_search_count;
  synonyms ← db_findMany T_SearchSynonym (λ s, live (sy_deleted_at s)
    && bool_decide (sy_status s = rs_active) && icontains query (sy_synonym s));
  d ← gets tables;
  enqueue (mkJob QUEUE_MARKETING MARKETING_JOBS.SEARCH_ANALYTICS (JObj [("query", JStr query)])) ;;
  let keyword_of s :=
    find_first (λ k, String.eqb (sk_id k) (sy_keyword_id s)) (view (tbl T_SearchKeyword) d) in
  mret (first_of_text []
    (map (λ k, mkSuggestion (sk_keyword k) (sk_boost k) from_keyword) (take 10 keywords)
     ++ map (λ p, mkSuggestion (ps_keyword p) 0 from_popular) (take 5 popular)
     ++ omap (λ s, option_map (λ k, mkSuggestion (sk_keyword k) (sk_boost k) from_synonym) (keyword_of s))
          (take 5 synonyms))).

Definition suggestions (q : string) : M (St Db) (list Suggestion) :=
  let query := toLowerCase (trim q) in
  if String.eqb query "" then mret []
  else mkt_getOrSet (MARKETING_CACHE.suggestions query) suggestions_of_json
         (λ l, JArr (map suggestion_json l)) (find_suggestions query).
End search.

(** ** A/B tests *)
Section ab_tests.
Context `{Redis, !Postgres}.

Definition abtest_create (actorId : string) (dto : CreateAbTestDto)
  : M (St Db) (string * string * list (string * string * Q)) :=
  '(test, variants) ← in_transaction (
    test ← db_create T_AbTest (λ id, mkAbTest id (td_code dto) (td_name dto) (td_targetType dto)
             (td_targetKey dto) ab_draft None);
    variants ← for_fold (td_variants dto) [] (λ rows v,
      row ← db_create T_AbTestVariant (λ id, mkAbTestVariant id (ab_id test) (vd_code v) (vd_name v)
              (coalesce (vd_isControl v) false) (numeric2 (vd_weightPercent v)) (vd_configJson v)
              rs_active None);
      mret (rows ++ [row]));
    mret (test, variants));
  mkt_audit "ab_test" (ab_id test) "create" actorId ;;
  mret (ab_id test, ab_code test,
        map (λ v, (av_id v, av_code v, cents (av_weight_percent v))) variants).

(** The loop of [expose] over the variants left, from [cursor]. *)
Fixpoint choose (bucket : Z) (cursor : Q) (default : AbTestVariant) (variants : list AbTestVariant)
  : AbTestVariant :=
  match variants with
  | [] => default
  | v :: rest =>
      let cursor := js_add cursor (cents (av_weight_percent v)) in
      if js_lt (inject_Z bucket) cursor then v else choose bucket cursor default rest
  end.

Record Exposure := mkExposure {
  ex_testId : string; ex_variantId : string; ex_variantCode : string; ex_config : option Json;
}.

Definition AB_TEST_NOT_FOUND : exn := AppException NOT_FOUND "A/B test not found" 404.

Definition expose (testCode : string) (customerId : option string) : M (St Db) Exposure :=
  test ← db_findFirst T_AbTest (λ t, String.eqb (ab_code t) testCode && live (ab_deleted_at t)
           && bool_decide (ab_status t = ab_running));
  test ← require_ test AB_TEST_NOT_FOUND;
  variants ← db_findMany T_AbTestVariant (λ v, String.eqb (av_test_id v) (ab_id test)
               && live (av_deleted_at v) && bool_decide (av_status v = rs_active));
  first ← require_ (head variants) AB_TEST_NOT_FOUND;
  let bucket := hashPercent (coalesce customerId "anon" +:+ ab_id test) in
  let chosen := choose bucket 0 first variants in
  create_ T_AbTestResult (λ id, mkAbTestResult id (ab_id test) (av_id chosen) "exposure" 1 1) ;;
  emit (AbTestExposureEvent (ab_id test) (av_id chosen) customerId) ;;
  mret (mkExposure (ab_id test) (av_id chosen) (av_code chosen) (av_config_json chosen)).
End ab_tests.

(** ** The worker ([workers/marketing.worker.ts]) *)
Section worker.
Context `{Redis, !Scheduler, !Crypto, !Postgres}.

Definition searched_again (now : Z) (p : PopularSearch) : PopularSearch :=
  mkPopularSearch (ps_id p) (ps_keyword p) (ps_search_count p + 1) (Some now) (ps_status p)
    (ps_deleted_at p).

Definition count_search (query : option string) : M (St Db) () :=
  let q := trim (coalesce query "") in
  if String.eqb q "" then mret tt
  else
    existing ← db_findFirst T_PopularSearch (λ p, String.eqb (ps_keyword p) q && live (ps_deleted_at p));
    now ← Date_now;
    match existing with
    | Some p => _ ← db_update T_PopularSearch (ps_id p) (searched_again now); mret tt
    | None => create_ T_PopularSearch (λ id, mkPopularSearch id q 1 (Some now) rs_active None)
    end.

Definition process (job : Job) : M (St Db) () :=
  let text k := str_of (jget k (jobData job)) in
  let name := jobName job in
  if existsb (String.eqb name) [MARKETING_JOBS.EMAIL_DELIVERY; MARKETING_JOBS.SMS_DELIVERY;
                                MARKETING_JOBS.PUSH_DELIVERY]
  then when_ (truthy_str (text "campaignId") && truthy_str (text "channel"))
         (complete (coalesce (text "channel") "") (coalesce (text "campaignId") ""))
  else if String.eqb name MARKETING_JOBS.SEARCH_ANALYTICS then count_search (text "query")
  else mret tt.
End worker.
