(* ===== verification/GrowthRules.v ===== *)
(** * Rules of growth

    What the growth services guarantee: a loyalty balance is always the sum of its
    transactions and a customer is referred once per program and never by himself,
    whatever requests and jobs arrive and however they end; a redemption takes
    exactly the points asked for and never more than there are; rollouts are
    nested; every A/B bucket falls to the variant whose share contains it. The
    examples show what the services do not guarantee. *)
From S2P Require Import Prelude Core Effects Redis Lock JsNumber Rules Schema Database Tables Sample Coupons CouponRules Growth.
From Stdlib Require Import QArith Lqa.

#[local] Open Scope Z_scope.

(** ** The loyalty ledger *)

Definition accounts (d : Db) : list LoyaltyAccount := view (tbl T_LoyaltyAccount) d.
Definition transactions (d : Db) : list LoyaltyTransaction := view (tbl T_LoyaltyTransaction) d.
Definition rewards (d : Db) : list ReferralReward := view (tbl T_ReferralReward) d.

Definition posted (accountId : string) (ts : list LoyaltyTransaction) : Z :=
  sumZ lt_points (where_ (λ t, String.eqb (lt_account_id t) accountId) ts).

(** Account keys are unique, transactions belong to an account, and each balance is
    the sum of the account's transactions and not negative. *)
Record ledger (accs : list LoyaltyAccount) (ts : list LoyaltyTransaction) : Prop := {
  lg_keys : NoDup (map ly_id accs);
  lg_owned : Forall (λ t, lt_account_id t ∈ map ly_id accs) ts;
  lg_balance : Forall (λ a, ly_points_balance a = posted (ly_id a) ts ∧ 0 <= ly_points_balance a) accs;
}.

Lemma posted_app id ts t :
  posted id (ts ++ [t]) = posted id ts + (if String.eqb (lt_account_id t) id then lt_points t else 0).
Proof.
  unfold posted. induction ts as [|x ts IH]; simpl.
  - destruct (String.eqb _ _); simpl; lia.
  - destruct (String.eqb (lt_account_id x) id); simpl; lia.
Qed.

Lemma posted_none id ts : Forall (λ t, lt_account_id t ≠ id) ts → posted id ts = 0.
Proof.
  unfold posted. induction 1 as [|t ts Ht _ IH]; simpl; [done|].
  apply String.eqb_neq in Ht. by rewrite Ht.
Qed.

(** A new account starts empty. *)
Lemma ledger_open accs ts a :
  ledger accs ts → ly_id a ∉ map ly_id accs → ly_points_balance a = 0 → ledger (accs ++ [a]) ts.
Proof.
  intros [Hk Ho Hb] Hf H0. split.
  - rewrite map_app. apply NoDup_app. split_and!; [done|set_solver|apply NoDup_singleton].
  - eapply Forall_impl; [exact Ho|]. intros t Ht. rewrite map_app. set_solver.
  - apply Forall_app. split; [done|]. apply Forall_singleton.
    rewrite H0, posted_none; [done|]. eapply Forall_impl; [exact Ho|]. simpl. intros t Ht E.
    by rewrite E in Ht.
Qed.

(** Writing a transaction together with the balance it leads to. *)
Lemma ledger_post accs ts a f t :
  ledger accs ts → a ∈ accs → (∀ x, ly_id (f x) = ly_id x) →
  (∀ x, ly_points_balance (f x) = ly_points_balance a + lt_points t) →
  0 <= ly_points_balance a + lt_points t → lt_account_id t = ly_id a →
  ledger (update_rows ly_id (ly_id a) f accs) (ts ++ [t]).
Proof.
  intros [Hk Ho Hb] Ha Hid Hbal Hpos Ht. split.
  - by rewrite update_rows_keys.
  - rewrite update_rows_keys by done. apply Forall_app. split; [done|]. apply Forall_singleton.
    rewrite Ht. by apply list_elem_of_fmap_2.
  - rewrite Forall_forall in Hb. apply Forall_forall.
    intros y (x & Hx & [[E ->]|[E ->]])%elem_of_update_rows; rewrite posted_app, Ht.
    + rewrite Hid, E, String.eqb_refl, Hbal. destruct (Hb a Ha). lia.
    + assert (String.eqb (ly_id a) (ly_id x) = false) as -> by (apply String.eqb_neq; congruence).
      destruct (Hb x Hx). lia.
Qed.

(** ** Referrals *)

(** One live reward per program and referee, and nobody refers himself. *)
Record referrals (rs : list ReferralReward) : Prop := {
  rf_once : ∀ p u, (length (where_ (referred p u) rs) <= 1)%nat;
  rf_other : Forall (λ r, rx_referrer_id r ≠ rx_referee_id r) rs;
}.

Lemma referrals_add rs r :
  referrals rs → Forall (λ x, referred (rx_program_id r) (rx_referee_id r) x = false) rs →
  rx_referrer_id r ≠ rx_referee_id r → referrals (rs ++ [r]).
Proof.
  intros [Ho Hs] Hnone Hne. split.
  - intros p u. rewrite where_app, length_app. specialize (Ho p u). simpl. destruct (referred p u r) eqn:E; simpl; [|lia].
    unfold referred in E. apply andb_true_iff in E as [[E1 E2]%andb_true_iff _].
    apply String.eqb_eq in E1, E2. subst.
    assert (where_ (referred (rx_program_id r) (rx_referee_id r)) rs = []) as ->; [|simpl; lia].
    clear -Hnone. induction Hnone as [|x rs Hx _ IH]; simpl; [done|]. by rewrite Hx.
  - apply Forall_app. split; [done|]. by apply Forall_singleton.
Qed.

(** ** Requests and jobs *)

Inductive GrowthOp :=
| op_earn (dto : LoyaltyEarnDto)
| op_redeem (customerId : string) (dto : LoyaltyRedeemDto)
| op_rewardRule (actorId : string) (data : CreateRewardRuleInput)
| op_program (actorId : string) (dto : CreateReferralProgramDto)
| op_claim (refereeId : string) (dto : ClaimReferralDto)
| op_flag (actorId : string) (dto : CreateFeatureFlagDto)
| op_flags (customerId : option string) (extra : fields_)
| op_campaign (actorId : string) (dto : CreateCampaignDto)
| op_launch (channel campaignId : string)
| op_keyword (dto : CreateSearchKeywordDto)
| op_suggest (q : string)
| op_abtest (actorId : string) (dto : CreateAbTestDto)
| op_expose (testCode : string) (customerId : option string)
| op_job (job : Job)
| op_coupon (actorId : string) (dto : CreateCouponDto)
| op_validate (customerId : option string) (dto : ValidateCouponDto)
| op_apply (customerId : string) (dto : ApplyCouponDto).

Section growth.
Context `{Redis, !Scheduler, !Crypto, !Postgres, !JsLibrary, !DateText, !JsonText, !NumberText,
          !TextSearch}.

Definition run_growth (op : GrowthOp) : M (St Db) () :=
  match op with
  | op_earn dto => _ ← earn dto; mret tt
  | op_redeem c dto => _ ← redeem c dto; mret tt
  | op_rewardRule a data => _ ← createRewardRule a data; mret tt
  | op_program a dto => _ ← createProgram a dto; mret tt
  | op_claim u dto => _ ← claim u dto; mret tt
  | op_flag a dto => _ ← flag_create a dto; mret tt
  | op_flags c extra => _ ← listAndEvaluate c extra; mret tt
  | op_campaign a dto => _ ← campaign_create a dto; mret tt
  | op_launch ch id => _ ← launch ch id; mret tt
  | op_keyword dto => _ ← createKeyword dto; mret tt
  | op_suggest q => _ ← suggestions q; mret tt
  | op_abtest a dto => _ ← abtest_create a dto; mret tt
  | op_expose t c => _ ← expose t c; mret tt
  | op_job job => process job
  | op_coupon a dto => _ ← coupon_create a dto; mret tt
  | op_validate c dto => _ ← validate c dto; mret tt
  | op_apply c dto => _ ← apply c dto; mret tt
  end.

(** One request after the other, each from the state the last one left. *)
Definition growth_history (ops : list GrowthOp) (s : St Db) : St Db :=
  foldl (λ s op, snd (run_growth op s)) s ops.

Record growth_ok (d : Db) : Prop := {
  go_ledger : ledger (accounts d) (transactions d);
  go_referrals : referrals (rewards d);
}.

(** The rows of the invariant are what they were. *)
Definition same_rows (d d' : Db) : Prop :=
  accounts d' = accounts d ∧ transactions d' = transactions d ∧ rewards d' = rewards d.

#[local] Instance same_rows_preorder : PreOrder same_rows.
Proof.
  split; [by intros d|]. intros d1 d2 d3 (? & ? & ?) (? & ? & ?). unfold same_rows. by split_and!; etrans.
Qed.

Definition keeps {A} (m : M (St Db) A) : Prop := stays (on_tables same_rows) m.

Lemma keeps_audit t i a u : keeps (mkt_audit t i a u).
Proof. unfold keeps, mkt_audit. staying fail. Qed.

Lemma keeps_create {A} (T : Table A) mk :
  (∀ d l, same_rows d (put (tbl T) l d)) → keeps (create_ T mk).
Proof. intros HT. unfold keeps, create_. staying ltac:(apply stays_create; [apply _|exact HT]). Qed.

Lemma keeps_getOrSet {A} key decode encode (factory : M (St Db) A) :
  keeps factory → keeps (mkt_getOrSet key decode encode factory).
Proof. intros Hf. unfold keeps, mkt_getOrSet. staying ltac:(exact Hf). Qed.

Ltac keeps_step := idtac;
  lazymatch goal with
  | |- stays _ (mkt_audit _ _ _ _) => apply keeps_audit
  | |- stays _ (create_ _ _) => apply keeps_create; done
  | |- stays _ (mkt_getOrSet _ _ _ _) => apply keeps_getOrSet; unfold keeps
  | |- stays _ (db_create _ _) => apply stays_create; [apply _|done]
  | |- stays _ (db_update _ _ _) => apply stays_update; [apply _|done]
  | |- stays _ (_ ≫= _) => apply stays_bind; [apply _| |intros ?]
  | |- stays _ (mret _) => apply stays_ret, _
  | |- stays _ (throw _) => apply stays_throw, _
  | |- stays _ (gets _) => apply stays_gets, _
  end.
Ltac keep := unfold keeps; staying keeps_step.

Lemma keeps_validate c dto : keeps (validate c dto).
Proof.
  unfold validate, loadCoupon, find_coupon, validate_loaded, evaluateEligibility, exhausted,
    db_count, db_findFirst, db_findMany, Date_now. keep.
Qed.

Lemma keeps_complete ch id : keeps (complete ch id).
Proof. unfold complete, campaign_update, db_findFirst, Date_now. keep. Qed.

Lemma keeps_launch ch id : keeps (launch ch id).
Proof. unfold launch, launch_body, campaign_update, db_findFirst, Date_now. keep. Qed.

(** Every other request leaves the rows of the invariant alone. *)
Definition touches (op : GrowthOp) : bool :=
  match op with op_earn _ | op_redeem _ _ | op_claim _ _ => true | _ => false end.

Lemma growth_keeps op : touches op = false → keeps (run_growth op).
Proof.
  destruct op; intros Ht; try done; simpl;
  unfold createRewardRule, createProgram, flag_create, invalidateFlags, listAndEvaluate, load_flags,
    campaign_create, createKeyword, suggestions, find_suggestions, abtest_create, expose, process,
    count_search, coupon_create, coupon_rules, optional_date, invalidateCoupon,
    apply, apply_locked, redeem_validated, attach_coupon,
    db_findFirst, db_findMany, db_findMany_desc, Date_now;
  unfold keeps;
  staying ltac:(first [keeps_step | apply keeps_validate | apply keeps_complete | apply keeps_launch]).
Qed.
Definition ok_after {A} (m : M (St Db) A) : Prop := ∀ d, growth_ok d → dwp m (λ _ d', growth_ok d') d.

Lemma ok_withLock {A} resource (m : M (St Db) A) options :
  ok_after m → ok_after (LockService.withLock resource m options).
Proof. intros Hm d Hd. apply dwp_withLock; [done|]. eapply dwp_mono; [by apply Hm|]. by intros. Qed.

(** The account that [ensureAccount] returns is a row of the tables it leaves. *)
Lemma dwp_ensureAccount customerId (Q : outcome LoyaltyAccount → Db → Prop) d :
  growth_ok d →
  (∀ e, Q (Throw e) d) →
  (∀ a d', growth_ok d' → a ∈ accounts d' → ly_customer_id a = customerId → Q (Ok a) d') →
  dwp (ensureAccount customerId) Q d.
Proof.
  intros [Hl Hr] HE HO. unfold ensureAccount.
  apply dwp_bind, dwp_findFirst.
  - intros a Ha [E%String.eqb_eq _]%andb_true_iff. by apply dwp_ret, HO.
  - intros _. apply dwp_create; [done|]. intros id Hid _. apply HO; [|set_solver|done].
    split; [|done]. by apply (ledger_open _ _ (mkLoyaltyAccount id customerId 0 0 ly_bronze None)).
Qed.

(** The write of a balance and of the transaction that explains it. *)
Lemma dwp_post a f k mk d :
  growth_ok d → a ∈ accounts d → (∀ x, ly_id (f x) = ly_id x) →
  (∀ x, ly_points_balance (f x) = ly_points_balance a + k) →
  (∀ now id, lt_account_id (mk now id) = ly_id a ∧ lt_points (mk now id) = k) →
  0 <= ly_points_balance a + k →
  dwp (in_transaction (_ ← db_update T_LoyaltyAccount (ly_id a) f; now ← Date_now;
         create_ T_LoyaltyTransaction (mk now))) (λ _ d', growth_ok d') d.
Proof.
  intros Hd Ha Hid Hbal Hmk Hpos. dwp_step. dwp_step; [done|]. dwp_step; [|done].
  unfold create_. dwp_step; [done|]. apply dwp_ret. destruct Hd as [Hl Hr]. split; [|done].
  match goal with |- ledger _ (transactions (put _ (_ ++ [mk ?n ?i]) _)) =>
    destruct (Hmk n i) as [Ht Hp]; apply (ledger_post (accounts d) (transactions d) a f (mk n i)) end;
    try done; by rewrite Hp.
Qed.

Lemma earn_ok dto : ok_after (earn dto).
Proof.
  apply ok_withLock. intros d Hd. unfold earn_body. apply dwp_bind, dwp_ensureAccount; [done..|].
  intros a d1 Hd1 Ha _. unfold find_reward_rule. apply dwp_bind.
  apply dwp_env; [destruct (truthy_str _); apply stays_gets, _|]. intros [rule|e]; [|done].
  dwp_step; [|done]. dwp_step; [|done]. dwp_step; [done|].
  destruct (earned_points _ _ <=? 0) eqn:Hp; [by apply dwp_ret|]. apply Z.leb_gt in Hp.
  unfold earn_commit. apply dwp_bind. eapply dwp_mono.
  { eapply dwp_post; [done|done|done|intros; reflexivity|by intros|]. pose proof (go_ledger _ Hd1) as [_ _ Hb].
    rewrite Forall_forall in Hb. destruct (Hb _ Ha). lia. }
  intros [[]|e] d2 Hd2; [|done]. dwp_step; [by apply dwp_ret|done].
Qed.

Lemma redeem_ok c dto : ok_after (redeem c dto).
Proof.
  apply ok_withLock. intros d Hd. unfold redeem_body. apply dwp_bind, dwp_ensureAccount; [done..|].
  intros a d1 Hd1 Ha _. dwp_step; [done|]. apply dwp_bind.
  match goal with E : (_ <? _) = false |- _ => apply Z.ltb_ge in E end.
  apply (dwp_mono _ (λ _ d', growth_ok d')); [|intros [[]|e] d2 Hd2; [dwp_step; [by apply dwp_ret|done]|done]].
  pose proof (dwp_post a (set_balance (ly_points_balance a - lr_points dto)) (- lr_points dto)
    (λ _ id, mkLoyaltyTransaction id (ly_id a) lt_redeem (- lr_points dto)
       (ly_points_balance a - lr_points dto) None None None (lr_notes dto) None) d1 Hd1 Ha
    (λ _, eq_refl) (λ _, eq_refl) (λ _ _, conj eq_refl eq_refl) ltac:(lia)) as Hp.
  exact Hp.
Qed.

Lemma claim_ok u dto : ok_after (claim u dto).
Proof.
  apply ok_withLock. intros d Hd. unfold claim_body. dwp_step; [done|].
  dwp_step; [|by dwp_step]. dwp_step; [|done].
  apply dwp_bind, dwp_findFirst; [intros; by dwp_step|]. intros Hnone. dwp_step; [done|].
  dwp_step; [done|].
  assert (growth_ok (put (tbl T_ReferralReward)
    (view (tbl T_ReferralReward) d ++ [mkReferralReward id (rg_id a) (cf_referrerId dto) u
       (rg_referrer_points a + rg_referee_points a) None]) d)) as Hd'.
  { destruct Hd as [Hl Hr]. split; [done|]. apply referrals_add; [done..|]. simpl.
    by apply String.eqb_neq. }
  dwp_step; [|done]. dwp_step; [|done]. apply dwp_bind.
  eapply dwp_mono; [apply (dwp_stays same_rows _ (λ _ d', growth_ok d') _ (keeps_audit _ _ _ _))|].
  { intros o d' (E1 & E2 & E3). destruct Hd' as [Hl Hr]. split; by rewrite ?E1, ?E2, ?E3. }
  intros [[]|e] d' Hok; [by apply dwp_ret|done].
Qed.

Lemma ok_run {A} (m : M (St Db) A) : ok_after m → ok_after (_ ← m; mret tt).
Proof.
  intros Hm d Hd. apply dwp_bind. eapply dwp_mono; [by apply Hm|].
  intros [a|e] d' Hok; [by apply dwp_ret|done].
Qed.

Lemma growth_step op s : growth_ok (tables s) → growth_ok (tables (snd (run_growth op s))).
Proof.
  intros Hs. destruct (touches op) eqn:Ht.
  - assert (ok_after (run_growth op)) as Hop; [|by apply (Hop (tables s) Hs s)].
    destruct op; try done; unfold run_growth; apply ok_run;
      [apply earn_ok|apply redeem_ok|apply claim_ok].
  - destruct (growth_keeps op Ht s) as (E1 & E2 & E3). destruct Hs as [Hl Hr].
    split; by rewrite ?E1, ?E2, ?E3.
Qed.

(** (C11) Points are accounted for and referrals are unique: from tables where every
    loyalty balance is the sum of the account's transactions and not negative, and
    where a customer has at most one live reward per program and none for referring
    himself, any history of marketing requests and jobs, each of which may fail at
    any point, leads to such tables again. *)
Theorem growth_rows_kept ops s :
  growth_ok (tables s) → growth_ok (tables (growth_history ops s)).
Proof. revert s. induction ops as [|op ops IH]; intros s Hs; [done|]. by apply IH, growth_step. Qed.
End growth.

(** ** Redemption *)
Section redeem_exact.
Context `{Redis, !Scheduler, !Crypto, !Postgres}.

(** What a redemption leaves: the customer's account with that much less, and the
    transaction that says so. *)
Record redeemed_points (customerId : string) (dto : LoyaltyRedeemDto) (r : PointsResult) (d d' : Db)
  (a : LoyaltyAccount) : Prop := {
  rq_account : a ∈ accounts d ∧ ly_customer_id a = customerId ∧ live (ly_deleted_at a) = true;
  rq_covered : lr_points dto <= ly_points_balance a;
  rq_result : r = mkPointsResult (lr_points dto) (ly_points_balance a - lr_points dto);
  rq_balances : accounts d' = update_rows ly_id (ly_id a) (set_balance (pr_balance r)) (accounts d);
  rq_posted : ∃ id, transactions d' = transactions d ++ [mkLoyaltyTransaction id (ly_id a) lt_redeem
    (- lr_points dto) (pr_balance r) None None None (lr_notes dto) None];
}.

Lemma redeem_spec customerId dto d : 1 <= lr_points dto →
  dwp (redeem customerId dto)
    (λ o d', match o with
             | Ok r => ∃ a, redeemed_points customerId dto r d d' a
             | Throw _ => True
             end) d.
Proof.
  intros Hp. apply dwp_withLock; [done|].
  apply (dwp_mono _ (λ o d', match o with Ok r => ∃ a, redeemed_points customerId dto r d d' a
                             | Throw _ => True end)); [|by intros].
  unfold redeem_body. apply dwp_bind. unfold ensureAccount. apply dwp_bind, dwp_findFirst.
  - intros a Ha [Hc%String.eqb_eq Hl]%andb_true_iff. apply dwp_ret. dwp_step; [done|].
    match goal with E : (_ <? _) = false |- _ => apply Z.ltb_ge in E end.
    dwp_step. dwp_step; [done|]. unfold create_. dwp_step; [done|]. apply dwp_ret.
    dwp_step; [|done]. apply dwp_ret. exists a. split; [done..|by eexists].
  - intros _. apply dwp_create; [done|]. intros id _ _. simpl. dwp_step; [done|].
    match goal with E : (0 <? _) = false |- _ => apply Z.ltb_ge in E; lia end.
Qed.

(** A redemption takes exactly the points asked for: when [redeem] returns,
    the customer's account had at least that many, its balance is lower by exactly
    that many and no other account changed, and one transaction records it. *)
Lemma redeem_exact customerId dto s r s' :
  1 <= lr_points dto → redeem customerId dto s = (Ok r, s') →
  ∃ a, redeemed_points customerId dto r (tables s) (tables s') a.
Proof.
  intros Hp E. exact (dwp_elim _ _ _ (Ok r) _ (redeem_spec customerId dto (tables s) Hp) E).
Qed.
End redeem_exact.

(** ** Shares *)

(** The hash is computed exactly: it stays below 2^32, so the product is below 2^53. *)
Lemma hash_range cs h : 0 <= h < 2 ^ 32 → 0 <= foldl hash_step h cs < 2 ^ 32.
Proof.
  revert h. induction cs as [|c cs IH]; intros h Hh; simpl; [done|]. apply IH.
  unfold hash_step. apply Z.mod_pos_bound. lia.
Qed.

Lemma hash_exact h c : 0 <= h < 2 ^ 32 → 0 <= h * 31 + Z.of_nat (Ascii.nat_of_ascii c) < 2 ^ 53.
Proof.
  intros Hh. pose proof (Ascii.nat_ascii_bounded c). change (2 ^ 53) with (2097152 * 2 ^ 32). lia.
Qed.

Lemma hashPercent_range input : 0 <= hashPercent input < 100.
Proof. unfold hashPercent. apply Z.mod_pos_bound. lia. Qed.

(** Rollouts are nested shares: the bucket of a customer is between 0 and 99,
    a larger percentage never holds back a customer that a smaller one let in, 100
    percent holds nobody back and 0 percent holds every identified customer back. *)
Theorem rollout_nested customerId code p q :
  0 <= hashPercent (coalesce customerId "" +:+ code) < 100 ∧
  ((p <= q)%Q → held_back customerId code (Some q) = true → held_back customerId code (Some p) = true) ∧
  held_back customerId code (Some 100%Q) = false ∧
  (truthy_str customerId = true → held_back customerId code (Some 0%Q) = true).
Proof.
  set (h := hashPercent (coalesce customerId "" +:+ code)).
  assert (0 <= h < 100) as Hh by apply hashPercent_range. unfold held_back. fold h.
  change 100%Q with (inject_Z 100). change 0%Q with (inject_Z 0). rewrite !Qle_bool_inject.
  split_and!; [lia|lia| | |].
  - intros Hpq [Ht Hq%Qle_bool_iff]%andb_true_iff. rewrite Ht. simpl. apply Qle_bool_iff. lra.
  - assert (100 <=? h = false) as -> by lia. apply andb_false_r.
  - intros ->. simpl. lia.
Qed.

(** *** A/B tests *)

(** Whole percentages: what the column holds is exactly that many hundredths. *)
Definition whole (v : AbTestVariant) (w : Z) : Prop := av_weight_percent v = w * 100 ∧ 0 < w.

(** An integer is not rounded, whatever fraction it is written as. *)
Lemma fl_integer q k : (q == inject_Z k)%Q → 0 < k < 2 ^ 53 → (fl q == inject_Z k)%Q.
Proof.
  destruct q as [n d]. unfold Qeq. simpl. intros E Hk. assert (n = k * Zpos d) as -> by lia.
  by apply fl_exact.
Qed.

Lemma cents_whole v w : whole v w → w < 2 ^ 53 → (cents (av_weight_percent v) == inject_Z w)%Q.
Proof.
  intros [-> Hw] Hlt. apply fl_integer; [|lia]. rewrite inject_Z_mult. field.
Qed.

Lemma choose_share bucket default variants ws : Forall2 whole variants ws →
  ∀ cursor c, (cursor == inject_Z c)%Q → 0 <= c <= bucket → c + sumZ id ws < 2 ^ 53 →
  bucket < c + sumZ id ws →
  ∃ i v, variants !! i = Some v ∧ choose bucket cursor default variants = v ∧
    c + sumZ id (take i ws) <= bucket < c + sumZ id (take (S i) ws).
Proof.
  induction 1 as [|v w variants ws Hv Hvs IH]; intros cursor c Hc Hcb Hmax Hb; simpl in *; [lia|].
  assert (0 <= sumZ id ws) as Hpos.
  { clear -Hvs. induction Hvs as [|v w vs ws [_ Hw] _ IH]; simpl; [done|change (id w) with w; lia]. }
  assert (Hw : 0 < w) by apply Hv. change (id w) with w in *.
  assert (js_add cursor (cents (av_weight_percent v)) == inject_Z (c + w))%Q as Hadd.
  { apply fl_integer; [|lia]. rewrite Hc, (cents_whole v w), inject_Z_plus by (done || lia). ring. }
  destruct (js_lt _ _) eqn:E.
  - apply js_lt_iff in E. rewrite Hadd in E. rewrite <- Zlt_Qlt in E.
    exists 0%nat, v. split_and!; [done..| |]; simpl; rewrite ?take_0; simpl; change (id w) with w; lia.
  - apply js_lt_false in E. rewrite Hadd in E. rewrite <- Zle_Qle in E.
    destruct (IH _ (c + w) Hadd) as (i & v' & Hi & Hch & Hr); [lia..|].
    exists (S i), v'. split_and!; [done..| |]; simpl in *; change (id w) with w; lia.
Qed.

(** Every bucket belongs to one variant: for whole percentages that add up to
    100, [expose] gives each bucket to the variant whose share, counted from the
    first variant on, contains it, in spite of the sum in binary64. *)
Lemma expose_shares input default variants ws :
  Forall2 whole variants ws → sumZ id ws = 100 →
  ∃ i v, variants !! i = Some v ∧ choose (hashPercent input) 0 default variants = v ∧
    sumZ id (take i ws) <= hashPercent input < sumZ id (take (S i) ws).
Proof.
  intros Hvs Hsum. pose proof (hashPercent_range input).
  destruct (choose_share (hashPercent input) default variants ws Hvs 0%Q 0) as (i & v & Hi & Hc & Hr);
    [done|lia|lia|lia|].
  exists i, v. split_and!; [done..|lia|lia].
Qed.

(** ** Runs *)
Section examples.
#[local] Existing Instances gmap_redis counting_crypto sample_postgres.
#[local] Instance iso0 : DateText := λ _, "2026-01-01T00:00:00.000Z".
#[local] Instance js0 : JsLibrary := {
  Date_parse _ := None;
  localeCompare a b := match String.compare a b with Lt => -1 | Eq => 0 | Gt => 1 end;
  regex_test _ _ := None;
  string_to_number _ := None;
  array_to_number _ := None;
}.
#[local] Instance text0 : JsonText := λ _, "".
#[local] Instance num0 : NumberText := λ _, "".
#[local] Instance search0 : TextSearch := λ q t, includes_text (toLowerCase t) q.

Lemma sample_growth_ok : growth_ok sample_db.
Proof.
  split; split.
  - decided.
  - repeat constructor.
  - repeat constructor; vm_compute; done.
  - intros p u. simpl. lia.
  - constructor.
Qed.

Definition order1 : LoyaltyEarnDto := mkLoyaltyEarnDto "alice" 500 None None.

Lemma growth_rows_kept_witness :
  growth_ok (tables (growth_history [op_earn order1; op_claim "bob" (mkClaimReferralDto "FRIENDS" "alice");
    op_claim "bob" (mkClaimReferralDto "FRIENDS" "alice"); op_redeem "alice" (mkLoyaltyRedeemDto 120 None)]
    sample)).
Proof. apply (growth_rows_kept _ sample). apply sample_growth_ok. Defined.

(** 500 rupees at one point per ten rupees. *)
Example earns_fifty : fst (earn order1 sample) = Ok (mkPointsResult 50 150).
Proof. vm_compute. reflexivity. Qed.

Lemma redeem_exact_witness : ∃ a,
  redeemed_points "alice" (mkLoyaltyRedeemDto 40 None) (mkPointsResult 40 60) sample_db
    (tables (snd (redeem "alice" (mkLoyaltyRedeemDto 40 None) sample))) a.
Proof.
  apply (redeem_exact "alice" (mkLoyaltyRedeemDto 40 None) sample); [simpl; lia|].
  apply (run_eta (redeem _ _)). vm_compute. reflexivity.
Defined.

Example overdraft_refused :
  fst (redeem "alice" (mkLoyaltyRedeemDto 101 None) sample) =
    Throw (AppException CONFLICT "Insufficient points" 409).
Proof. vm_compute. reflexivity. Qed.

Example half_rollout : hashPercent "alicenew-cart" = 25 ∧
  held_back (Some "alice") "new-cart" (Some 25%Q) = true ∧
  held_back (Some "alice") "new-cart" (Some 26%Q) = false.
Proof. vm_compute. done. Qed.

Definition hero : list AbTestVariant := t_AbTestVariant sample_mkt.

Lemma expose_shares_witness : ∃ i v, hero !! i = Some v ∧
  choose (hashPercent "alicet1") 0 (mkAbTestVariant "" "" "" "" true 0 None rs_active None) hero = v ∧
  sumZ id (take i [30; 70]) <= hashPercent "alicet1" < sumZ id (take (S i) [30; 70]).
Proof.
  apply (expose_shares "alicet1" _ hero [30; 70]); [|reflexivity].
  repeat constructor; simpl; lia.
Defined.

(** [earn] and [redeem] take different locks, so an [earn] may write the balance it
    computed from an account read before a redemption: the redeemed points come
    back, and the balance is not the sum of the transactions any more. *)
Example earn_overwrites_redemption :
  earn_lock "alice" ≠ redeem_lock "alice" ∧
  let rule := mkRewardRule "rr1" "STANDARD" "" (Some 1000) None None None None rs_active 0 None in
  match t_LoyaltyAccount sample_mkt with
  | account :: _ =>
      let s := snd (redeem "alice" (mkLoyaltyRedeemDto 100 None) sample) in
      let d := tables (snd (earn_commit order1 rule account 50 s)) in
      map ly_points_balance (accounts d) = [150] ∧ posted "la1" (transactions d) = 50
  | [] => False
  end.
Proof. vm_compute. split; [discriminate|done]. Qed.

(** Only e-mail campaigns are ever marked completed, although the event says so. *)
Example sms_campaign_stays_running :
  let s := snd (campaign_create "admin" (mkCreateCampaignDto "sms" "Sale" None None None None None true)
                  sample) in
  let s' := snd (complete "sms" "u" s) in
  map cg_status (view (tbl T_Campaign) (tables s')) = [cg_running] ∧
  last (map eventName (bus (env s'))) = Some "campaign.completed".
Proof. vm_compute. done. Qed.
End examples.
