(* ===== verification/Cases.v ===== *)
(** * Case management

    Models [shared/case-management]: the registry of case definitions and stores,
    service levels, the in-memory store, and the case manager, which moves cases of
    any store through the state machine engine of [StateMachine.v] and escalates
    those that are late. A store is a record of operations ([CaseStore]); the
    manager is defined over any registry of stores. *)
From S2P Require Import Prelude Core Effects Redis StateMachine JsNumber.
From Stdlib Require Import QArith Qround.

#[local] Open Scope Z_scope.

(** ** Data ([case.types.ts]) *)

Inductive CaseKind := ck_warranty_claim | ck_rma | ck_service_ticket | ck_repair_job | ck_support.

#[export] Instance CaseKind_eq_dec : EqDecision CaseKind.
Proof. solve_decision. Defined.

Definition CaseKind_text (k : CaseKind) : string :=
  match k with
  | ck_warranty_claim => "warranty_claim" | ck_rma => "rma" | ck_service_ticket => "service_ticket"
  | ck_repair_job => "repair_job" | ck_support => "support"
  end.

Record CaseRef := mkCaseRef { ref_kind : CaseKind; ref_id : string }.

Record CaseSnapshot := mkCaseSnapshot {
  sn_kind : CaseKind; sn_id : string; sn_number : option string; sn_status : string;
  sn_assigneeId : option string; sn_priority : Z; sn_openedAt : Z; sn_dueAt : option Z;
  sn_escalatedAt : option Z; sn_closedAt : option Z; sn_metadata : option Json;
}.

Inductive TimelineType :=
| te_created | te_status_changed | te_assigned | te_priority_changed | te_note | te_attachment
| te_escalated | te_sla_breach | te_closed.

#[export] Instance TimelineType_eq_dec : EqDecision TimelineType.
Proof. solve_decision. Defined.

Record CaseTimelineEntry := mkEntry {
  en_at : Z; en_type : TimelineType; en_actorId : option string; en_message : option string;
  en_fromStatus : option string; en_toStatus : option string; en_metadata : option Json;
}.

Record CaseNoteInput := mkNote {
  no_body : string; no_actorId : option string; no_internal : option bool;
}.

Record CaseAttachmentMeta := mkAttachment {
  am_mediaFileId : option string; am_label : option string; am_docType : option string;
  am_url : option string;
}.

Record CaseSlaPolicy := mkSla {
  responseMinutes : Z; resolveMinutes : Z; priorityMultiplier : list (Z * Q);
}.

Record CaseEscalationRule := mkEscalation {
  unassignedPastResponse : bool; unresolvedPastResolve : bool; maxPriority : option Z;
  escalateToStatus : option string;
}.

Record CaseDefinition := mkCaseDefinition {
  cd_kind : CaseKind; cd_stateMachine : StateMachineDefinition; cd_sla : CaseSlaPolicy;
  cd_escalation : option CaseEscalationRule; cd_terminalStatuses : list string;
}.

(** What a store promises the manager: [listTimeline] and [markEscalated] are
    optional. *)
Record CaseStore `{Redis} (D : Type) := mkCaseStore {
  store_load : CaseRef → M (St D) (option CaseSnapshot);
  store_saveStatus : CaseRef → string → option string → M (St D) CaseSnapshot;
  store_assign : CaseRef → string → option string → M (St D) CaseSnapshot;
  store_setPriority : CaseRef → Z → option string → M (St D) CaseSnapshot;
  store_addNote : CaseRef → CaseNoteInput → M (St D) ();
  store_addAttachment : CaseRef → CaseAttachmentMeta → option string → M (St D) ();
  store_appendTimeline : CaseRef → CaseTimelineEntry → M (St D) ();
  store_listTimeline : option (CaseRef → M (St D) (list CaseTimelineEntry));
  store_markEscalated : option (CaseRef → Z → option string → M (St D) CaseSnapshot);
}.
Arguments mkCaseStore {_ D}.
Arguments store_load {_ D}. Arguments store_saveStatus {_ D}. Arguments store_assign {_ D}.
Arguments store_setPriority {_ D}. Arguments store_addNote {_ D}.
Arguments store_addAttachment {_ D}. Arguments store_appendTimeline {_ D}.
Arguments store_listTimeline {_ D}. Arguments store_markEscalated {_ D}.

(** ** Definitions of the kinds ([case.registry.ts]) *)

Definition DEFAULT_MULTIPLIER : list (Z * Q) :=
  [(1, 2%Q); (2, (3 # 2)%Q); (3, 1%Q); (4, (3 # 4)%Q); (5, (1 # 2)%Q)].

Definition default_sla (resolve : Z) : CaseSlaPolicy := mkSla (4 * 60) resolve DEFAULT_MULTIPLIER.

Definition CASE_DEFINITIONS (kind : CaseKind) : CaseDefinition :=
  match kind with
  | ck_warranty_claim =>
      mkCaseDefinition kind warrantyClaimStateMachine (default_sla (7 * 24 * 60))
        (Some (mkEscalation true true (Some 2) None)) ["closed"; "cancelled"; "rejected"]
  | ck_rma =>
      mkCaseDefinition kind rmaStateMachine (default_sla (5 * 24 * 60))
        (Some (mkEscalation true true None None)) ["completed"; "rejected"; "cancelled"]
  | ck_service_ticket =>
      mkCaseDefinition kind serviceTicketStateMachine (default_sla (3 * 24 * 60))
        (Some (mkEscalation true true (Some 2) None)) ["closed"; "cancelled"]
  | ck_repair_job =>
      mkCaseDefinition kind supportCaseStateMachine (default_sla (2 * 24 * 60))
        (Some (mkEscalation false true None None)) ["closed"; "cancelled"]
  | ck_support =>
      mkCaseDefinition kind supportCaseStateMachine (mkSla 60 (24 * 60) [])
        (Some (mkEscalation true true (Some 2) (Some "escalated"))) ["closed"; "cancelled"]
  end.

(** ** Service levels ([case-sla.ts]) *)

Definition defaultMultiplier (priority : Z) : Q :=
  match priority with
  | 1 => 2%Q | 2 => (3 # 2)%Q | 3 => 1%Q | 4 => (3 # 4)%Q | 5 => (1 # 2)%Q | _ => 1%Q
  end.

(** [Math.round] *)
Definition js_round (x : Q) : Z := Qfloor (x + (1 # 2)).

Definition sla_minutes (minutes priority : Z) (sla : CaseSlaPolicy) : Z :=
  let mult := match find_first (λ kv, fst kv =? priority) (priorityMultiplier sla) with
              | Some kv => snd kv
              | None => defaultMultiplier priority
              end in
  Z.max 1 (js_round (js_div (inject_Z minutes) mult)).

Definition computeDueAt (openedAt priority : Z) (sla : CaseSlaPolicy) : Z :=
  openedAt + sla_minutes (resolveMinutes sla) priority sla * 60000.

Definition computeResponseDueAt (openedAt priority : Z) (sla : CaseSlaPolicy) : Z :=
  openedAt + sla_minutes (responseMinutes sla) priority sla * 60000.

Definition isResponseBreached (snap : CaseSnapshot) (sla : CaseSlaPolicy) (now : Z) : bool :=
  if truthy_str (sn_assigneeId snap) then false
  else computeResponseDueAt (sn_openedAt snap) (sn_priority snap) sla <? now.

Definition isResolveBreached (snap : CaseSnapshot) (sla : CaseSlaPolicy) (terminalStatuses : list string)
  (now : Z) : bool :=
  if includes (sn_status snap) terminalStatuses then false
  else if bool_decide (is_Some (sn_closedAt snap)) then false
  else coalesce (sn_dueAt snap) (computeDueAt (sn_openedAt snap) (sn_priority snap) sla) <? now.

(** ** Events ([case.events.ts]): a missing assignee is written as [null] *)

Definition case_payload (ref : CaseRef) (status : string) (assigneeId : option string) (priority : Z)
  (more : list (string * Json)) : Json :=
  JObj ([("kind", JStr (CaseKind_text (ref_kind ref))); ("caseId", JStr (ref_id ref));
         ("status", JStr status); ("assigneeId", jnullable assigneeId); ("priority", JInt priority)]
        ++ more).

Definition case_event (name : string) (ref : CaseRef) (snap : CaseSnapshot)
  (more : list (string * Json)) : DomainEvent :=
  mkEvent name (case_payload ref (sn_status snap) (sn_assigneeId snap) (sn_priority snap) more).

Definition CaseOpenedEvent (ref : CaseRef) (snap : CaseSnapshot) : DomainEvent :=
  case_event "case.opened" ref snap [].
Definition CaseStatusChangedEvent (ref : CaseRef) (snap : CaseSnapshot) (from to : string) : DomainEvent :=
  case_event "case.status_changed" ref snap [("fromStatus", JStr from); ("toStatus", JStr to)].
Definition CaseAssignedEvent (ref : CaseRef) (snap : CaseSnapshot) (assigneeId : string) : DomainEvent :=
  mkEvent "case.assigned"
    (case_payload ref (sn_status snap) (Some assigneeId) (sn_priority snap) []).
Definition CaseNoteAddedEvent (ref : CaseRef) (status preview : string) : DomainEvent :=
  mkEvent "case.note_added"
    (JObj [("kind", JStr (CaseKind_text (ref_kind ref))); ("caseId", JStr (ref_id ref));
           ("status", JStr status); ("notePreview", JStr preview)]).
Definition CaseEscalatedEvent (ref : CaseRef) (snap : CaseSnapshot) (reason : string) : DomainEvent :=
  case_event "case.escalated" ref snap [("reason", JStr reason)].
Definition CaseSlaBreachedEvent (ref : CaseRef) (snap : CaseSnapshot) (breach : string) : DomainEvent :=
  mkEvent "case.sla_breached"
    (JObj [("kind", JStr (CaseKind_text (ref_kind ref))); ("caseId", JStr (ref_id ref));
           ("status", JStr (sn_status snap)); ("breach", JStr breach);
           ("priority", JInt (sn_priority snap))]).
Definition CaseClosedEvent (ref : CaseRef) (snap : CaseSnapshot) (status : string) : DomainEvent :=
  mkEvent "case.closed" (case_payload ref status (sn_assigneeId snap) (sn_priority snap) []).

(** ** The in-memory store ([memory-case.store.ts]) *)

Record CaseMemory := mkCaseMemory {
  cm_cases : gmap string CaseSnapshot; cm_timelines : gmap string (list CaseTimelineEntry);
  cm_notes : gmap string (list CaseNoteInput); cm_attachments : gmap string (list CaseAttachmentMeta);
}.

Definition case_key (ref : CaseRef) : string := CaseKind_text (ref_kind ref) +:+ ":" +:+ ref_id ref.

Definition put_case (k : string) (snap : CaseSnapshot) (m : CaseMemory) : CaseMemory :=
  mkCaseMemory (<[k := snap]> (cm_cases m)) (cm_timelines m) (cm_notes m) (cm_attachments m).
Definition put_timeline (k : string) (l : list CaseTimelineEntry) (m : CaseMemory) : CaseMemory :=
  mkCaseMemory (cm_cases m) (<[k := l]> (cm_timelines m)) (cm_notes m) (cm_attachments m).
Definition put_notes (k : string) (l : list CaseNoteInput) (m : CaseMemory) : CaseMemory :=
  mkCaseMemory (cm_cases m) (cm_timelines m) (<[k := l]> (cm_notes m)) (cm_attachments m).
Definition put_attachments (k : string) (l : list CaseAttachmentMeta) (m : CaseMemory) : CaseMemory :=
  mkCaseMemory (cm_cases m) (cm_timelines m) (cm_notes m) (<[k := l]> (cm_attachments m)).

Definition set_status (status : string) (closedAt : option Z) (s : CaseSnapshot) : CaseSnapshot :=
  mkCaseSnapshot (sn_kind s) (sn_id s) (sn_number s) status (sn_assigneeId s) (sn_priority s)
    (sn_openedAt s) (sn_dueAt s) (sn_escalatedAt s) closedAt (sn_metadata s).
Definition set_assignee (assigneeId : string) (s : CaseSnapshot) : CaseSnapshot :=
  mkCaseSnapshot (sn_kind s) (sn_id s) (sn_number s) (sn_status s) (Some assigneeId) (sn_priority s)
    (sn_openedAt s) (sn_dueAt s) (sn_escalatedAt s) (sn_closedAt s) (sn_metadata s).
Definition set_priority (priority : Z) (dueAt : Z) (s : CaseSnapshot) : CaseSnapshot :=
  mkCaseSnapshot (sn_kind s) (sn_id s) (sn_number s) (sn_status s) (sn_assigneeId s) priority
    (sn_openedAt s) (Some dueAt) (sn_escalatedAt s) (sn_closedAt s) (sn_metadata s).
Definition set_escalated (at_ : Z) (s : CaseSnapshot) : CaseSnapshot :=
  mkCaseSnapshot (sn_kind s) (sn_id s) (sn_number s) (sn_status s) (sn_assigneeId s) (sn_priority s)
    (sn_openedAt s) (sn_dueAt s) (Some at_) (sn_closedAt s) (sn_metadata s).
Definition set_due (dueAt : Z) (s : CaseSnapshot) : CaseSnapshot :=
  mkCaseSnapshot (sn_kind s) (sn_id s) (sn_number s) (sn_status s) (sn_assigneeId s) (sn_priority s)
    (sn_openedAt s) (Some dueAt) (sn_escalatedAt s) (sn_closedAt s) (sn_metadata s).

Record OpenOptions := mkOpenOptions {
  oo_number : option string; oo_priority : option Z; oo_status : option string;
  oo_assigneeId : option string; oo_metadata : option Json;
}.

Section memory.
Context `{Redis} {D : Type} (L : lens D CaseMemory).

Definition memory : M (St D) CaseMemory := gets (λ s, view L (tables s)).
Definition update_memory (f : CaseMemory → CaseMemory) : M (St D) () :=
  modify (λ s, mkSt (env s) (put L (f (view L (tables s))) (tables s))).

Definition memory_open (kind : CaseKind) (id : string) (opts : OpenOptions) : M (St D) CaseSnapshot :=
  let def := CASE_DEFINITIONS kind in
  let priority := coalesce (oo_priority opts) 3 in
  let k := case_key (mkCaseRef kind id) in
  openedAt ← Date_now;
  let snap := mkCaseSnapshot kind id (oo_number opts)
    (coalesce (oo_status opts) (coalesce (head (states (cd_stateMachine def))) ""))
    (oo_assigneeId opts) priority openedAt (Some (computeDueAt openedAt priority (cd_sla def)))
    None None (oo_metadata opts) in
  update_memory (put_case k snap) ;;
  update_memory (put_timeline k [mkEntry openedAt te_created None (Some "Case opened") None
                                   (Some (sn_status snap)) None]) ;;
  mret snap.

Definition memory_load (ref : CaseRef) : M (St D) (option CaseSnapshot) :=
  m ← memory; mret (cm_cases m !! case_key ref).

Definition memory_require (ref : CaseRef) : M (St D) CaseSnapshot :=
  snap ← memory_load ref; require_ snap (JsError ("Case not found " +:+ case_key ref)).

(** [const next = { ...snap, ... }; this.cases.set(key, next); return next] *)
Definition memory_set (ref : CaseRef) (f : CaseSnapshot → CaseSnapshot) : M (St D) CaseSnapshot :=
  snap ← memory_require ref;
  update_memory (put_case (case_key ref) (f snap)) ;;
  mret (f snap).

Definition memory_saveStatus (ref : CaseRef) (status : string) (actorId : option string)
  : M (St D) CaseSnapshot :=
  snap ← memory_require ref;
  now ← Date_now;
  let closed := includes status (cd_terminalStatuses (CASE_DEFINITIONS (ref_kind ref))) in
  let next := set_status status (if closed then Some now else sn_closedAt snap) snap in
  update_memory (put_case (case_key ref) next) ;;
  mret next.

Definition memory_assign (ref : CaseRef) (assigneeId : string) (actorId : option string)
  : M (St D) CaseSnapshot := memory_set ref (set_assignee assigneeId).

Definition memory_setPriority (ref : CaseRef) (priority : Z) (actorId : option string)
  : M (St D) CaseSnapshot :=
  memory_set ref (λ snap, set_priority priority
    (computeDueAt (sn_openedAt snap) priority (cd_sla (CASE_DEFINITIONS (ref_kind ref)))) snap).

Definition memory_markEscalated (ref : CaseRef) (at_ : Z) (actorId : option string)
  : M (St D) CaseSnapshot := memory_set ref (set_escalated at_).

Definition memory_addNote (ref : CaseRef) (note : CaseNoteInput) : M (St D) () :=
  update_memory (λ m, put_notes (case_key ref)
    (coalesce (cm_notes m !! case_key ref) [] ++ [note]) m).

Definition memory_addAttachment (ref : CaseRef) (meta : CaseAttachmentMeta) (actorId : option string)
  : M (St D) () :=
  update_memory (λ m, put_attachments (case_key ref)
    (coalesce (cm_attachments m !! case_key ref) [] ++ [meta]) m).

Definition memory_appendTimeline (ref : CaseRef) (entry : CaseTimelineEntry) : M (St D) () :=
  update_memory (λ m, put_timeline (case_key ref)
    (coalesce (cm_timelines m !! case_key ref) [] ++ [entry]) m).

Definition memory_listTimeline (ref : CaseRef) : M (St D) (list CaseTimelineEntry) :=
  m ← memory; mret (coalesce (cm_timelines m !! case_key ref) []).

Definition InMemoryCaseStore : CaseStore D :=
  mkCaseStore memory_load memory_saveStatus memory_assign memory_setPriority memory_addNote
    memory_addAttachment memory_appendTimeline (Some memory_listTimeline) (Some memory_markEscalated).
End memory.

(** ** The case manager ([case-manager.service.ts]) *)

(** The registered stores; the manager's constructor registers the memory for
    support cases and repair jobs. *)
Definition CaseRegistry `{Redis} (D : Type) := CaseKind → option (CaseStore D).

Definition registerStore `{Redis} {D} (kind : CaseKind) (store : CaseStore D) (r : CaseRegistry D)
  : CaseRegistry D :=
  λ k, if decide (k = kind) then Some store else r k.

Definition initial_registry `{Redis} {D} (L : lens D CaseMemory) : CaseRegistry D :=
  registerStore ck_repair_job (InMemoryCaseStore L)
    (registerStore ck_support (InMemoryCaseStore L) (λ _, None)).

(** [Math.random().toString(36).slice(2, 8)] of the n-th draw. *)
Class CaseRandom := random_slice6 : nat → string.

Record TransitionCaseOptions `{Redis} (D : Type) := mkTransitionCaseOptions {
  tc_actorId : option string; tc_reason : option string; tc_metadata : list (string * Json);
  tc_before : option (M (St D) ()); tc_after : option (CaseSnapshot → M (St D) ());
}.
Arguments mkTransitionCaseOptions {_ D}.
Arguments tc_actorId {_ D}. Arguments tc_reason {_ D}. Arguments tc_metadata {_ D}.
Arguments tc_before {_ D}. Arguments tc_after {_ D}.

(** [{ ...base, [k]: v }] *)
Fixpoint spread_field (k : string) (v : Json) (base : list (string * Json)) : list (string * Json) :=
  match base with
  | [] => [(k, v)]
  | kv :: rest => if String.eqb (fst kv) k then (k, v) :: rest else kv :: spread_field k v rest
  end.

Definition spread (base more : list (string * Json)) : list (string * Json) :=
  foldl (λ acc kv, spread_field (fst kv) (snd kv) acc) base more.

Record SlaResult := mkSlaResult {
  sl_responseBreached : bool; sl_resolveBreached : bool; sl_escalated : bool; sl_snapshot : CaseSnapshot;
}.

Section manager.
Context `{Redis} {D : Type} (registry : CaseRegistry D).

Definition CASE_NOT_FOUND : exn := AppException NOT_FOUND "Case not found" 404.

Definition getStore (kind : CaseKind) : M (St D) (CaseStore D) :=
  require_ (registry kind) (JsError ("No CaseStore registered for kind=" +:+ CaseKind_text kind)).

Definition require_case (ref : CaseRef) : M (St D) CaseSnapshot :=
  store ← getStore (ref_kind ref);
  snap ← store_load store ref;
  require_ snap CASE_NOT_FOUND.

Definition case_get (ref : CaseRef) : M (St D) CaseSnapshot := require_case ref.

(** The hooks that [transition] passes to the state machine engine. *)
Definition case_transition_options (store : CaseStore D) (ref : CaseRef) (from to : string)
  (options : TransitionCaseOptions D) : TransitionOptions D CaseSnapshot :=
  mkOptions (ref_id ref) from to (tc_actorId options) (tc_reason options)
    (Some (JObj (spread [("kind", JStr (CaseKind_text (ref_kind ref)))] (tc_metadata options))))
    (option_map (λ m _, m) (tc_before options))
    (λ _, store_saveStatus store ref to (tc_actorId options))
    (Some (λ ctx, now ← Date_now;
       store_appendTimeline store ref (mkEntry now te_status_changed (tc_actorId options)
         (tc_reason options) (Some (ctx_from ctx)) (Some (ctx_to ctx)) None)))
    None false.

Definition case_transition (ref : CaseRef) (to : string) (options : TransitionCaseOptions D)
  : M (St D) CaseSnapshot :=
  let def := CASE_DEFINITIONS (ref_kind ref) in
  store ← getStore (ref_kind ref);
  current ← require_case ref;
  result ← transition (cd_stateMachine def)
    (case_transition_options store ref (sn_status current) to options);
  snap ← match res_result result with Some snap => mret snap | None => require_case ref end;
  emit (CaseStatusChangedEvent ref snap (sn_status current) to) ;;
  when_ (includes to (cd_terminalStatuses def)) (emit (CaseClosedEvent ref snap to)) ;;
  match tc_after options with Some after => after snap | None => mret tt end ;;
  mret snap.

Definition case_assign (ref : CaseRef) (assigneeId : string) (actorId : option string)
  : M (St D) CaseSnapshot :=
  store ← getStore (ref_kind ref);
  snap ← store_assign store ref assigneeId actorId;
  now ← Date_now;
  store_appendTimeline store ref (mkEntry now te_assigned actorId (Some ("Assigned to " +:+ assigneeId))
    None None None) ;;
  emit (CaseAssignedEvent ref snap assigneeId) ;;
  mret snap.

Definition case_setPriority `{!DateText} (ref : CaseRef) (priority : Z) (actorId : option string)
  : M (St D) CaseSnapshot :=
  store ← getStore (ref_kind ref);
  snap ← store_setPriority store ref priority actorId;
  now ← Date_now;
  store_appendTimeline store ref (mkEntry now te_priority_changed actorId
    (Some ("Priority → P" +:+ pretty priority)) None None
    (Some (JObj [("dueAt", match sn_dueAt snap with Some t => JStr (iso_text t) | None => JNull end)]))) ;;
  mret snap.

Definition case_addNote (ref : CaseRef) (note : CaseNoteInput) : M (St D) () :=
  store ← getStore (ref_kind ref);
  _ ← require_case ref;
  store_addNote store ref note ;;
  now ← Date_now;
  store_appendTimeline store ref (mkEntry now te_note (no_actorId note) (Some (slice0 280 (no_body note)))
    None None (Some (JObj [("internal", JBool (coalesce (no_internal note) false))]))) ;;
  snap ← store_load store ref;
  snap ← require_ snap (JsError "Cannot read properties of null (reading 'status')");
  emit (CaseNoteAddedEvent ref (sn_status snap) (slice0 120 (no_body note))).

Definition case_addAttachment (ref : CaseRef) (meta : CaseAttachmentMeta) (actorId : option string)
  : M (St D) () :=
  store ← getStore (ref_kind ref);
  _ ← require_case ref;
  store_addAttachment store ref meta actorId ;;
  now ← Date_now;
  store_appendTimeline store ref (mkEntry now te_attachment actorId
    (Some (match am_label meta with Some l => l | None => coalesce (am_docType meta) "attachment" end))
    None None
    (Some (JObj (jopt "mediaFileId" (am_mediaFileId meta) ++ jopt "label" (am_label meta)
                 ++ jopt "docType" (am_docType meta) ++ jopt "url" (am_url meta))))).

Definition case_timeline (ref : CaseRef) : M (St D) (list CaseTimelineEntry) :=
  store ← getStore (ref_kind ref);
  _ ← require_case ref;
  match store_listTimeline store with Some list_ => list_ ref | None => mret [] end.

(** [shouldEscalate] *)
Definition should_escalate (rules : option CaseEscalationRule) (responseBreached resolveBreached : bool)
  (snap : CaseSnapshot) : bool :=
  match rules with
  | None => false
  | Some r =>
      (unassignedPastResponse r && responseBreached) || (unresolvedPastResolve r && resolveBreached)
      || match maxPriority r with
         | Some p => (sn_priority snap <=? p) && negb (truthy_str (sn_assigneeId snap))
         | None => false
         end
  end.

Definition escalation_reason (responseBreached resolveBreached : bool) : string :=
  if responseBreached then "response_sla" else if resolveBreached then "resolve_sla"
  else "priority_unassigned".

(** The branch of [evaluateSla] that escalates. *)
Definition escalate (store : CaseStore D) (ref : CaseRef) (snap : CaseSnapshot) (reason : string)
  (actorId : option string) (now : Z) (autoEscalate : bool) : M (St D) CaseSnapshot :=
  let def := CASE_DEFINITIONS (ref_kind ref) in
  snap ← match store_markEscalated store with
         | Some mark => mark ref now actorId
         | None => mret (set_escalated now snap)
         end;
  store_appendTimeline store ref (mkEntry now te_escalated actorId (Some reason) None None None) ;;
  emit (CaseEscalatedEvent ref snap reason) ;;
  match cd_escalation def ≫= escalateToStatus with
  | Some (String _ _ as target) =>
      if autoEscalate && canTransition (cd_stateMachine def) (sn_status snap) target
      then case_transition ref target
             (mkTransitionCaseOptions actorId (Some ("Escalation: " +:+ reason)) [] None None)
      else mret snap
  | _ => mret snap
  end.

Definition evaluateSla (ref : CaseRef) (actorId : option string) (at_ : option Z)
  (autoEscalate : option bool) : M (St D) SlaResult :=
  let def := CASE_DEFINITIONS (ref_kind ref) in
  store ← getStore (ref_kind ref);
  snap ← require_case ref;
  now ← match at_ with Some t => mret t | None => Date_now end;
  let responseBreached := isResponseBreached snap (cd_sla def) now in
  let resolveBreached := isResolveBreached snap (cd_sla def) (cd_terminalStatuses def) now in
  when_ responseBreached (emit (CaseSlaBreachedEvent ref snap "response")) ;;
  when_ resolveBreached (emit (CaseSlaBreachedEvent ref snap "resolve")) ;;
  if should_escalate (cd_escalation def) responseBreached resolveBreached snap
     && bool_decide (sn_escalatedAt snap = None)
  then snap ← escalate store ref snap (escalation_reason responseBreached resolveBreached) actorId now
                (coalesce autoEscalate true);
       mret (mkSlaResult responseBreached resolveBreached true snap)
  else mret (mkSlaResult responseBreached resolveBreached false snap).

(** The caller's snapshot gets the due time it lacked. *)
Definition recordOpened (ref : CaseRef) (snap : CaseSnapshot) : M (St D) CaseSnapshot :=
  store ← getStore (ref_kind ref);
  store_appendTimeline store ref (mkEntry (sn_openedAt snap) te_created None (Some "Case opened") None
    (Some (sn_status snap)) None) ;;
  let snap := match sn_dueAt snap with
              | Some _ => snap
              | None => set_due (computeDueAt (sn_openedAt snap) (sn_priority snap)
                          (cd_sla (CASE_DEFINITIONS (ref_kind ref)))) snap
              end in
  emit (CaseOpenedEvent ref snap) ;;
  mret snap.
End manager.

Record OpenSupportInput := mkOpenSupportInput {
  os_id : option string; os_number : option string; os_priority : option Z;
  os_assigneeId : option string; os_metadata : option Json;
}.

Definition cryptoRandom `{Redis, !CaseRandom} {D} : M (St D) string :=
  now ← Date_now;
  r ← draw random_slice6;
  mret ("case_" +:+ toLowerCase (toString36 now) +:+ "_" +:+ r).

Definition openSupportCase `{Redis, !CaseRandom} {D} (L : lens D CaseMemory) (input : OpenSupportInput)
  : M (St D) CaseSnapshot :=
  id ← match os_id input with Some id => mret id | None => cryptoRandom end;
  snap ← memory_open L ck_support id (mkOpenOptions (os_number input) (os_priority input) (Some "open")
           (os_assigneeId input) (os_metadata input));
  emit (CaseOpenedEvent (mkCaseRef ck_support (sn_id snap)) snap) ;;
  mret snap.
