(* ===== verification/CaseRules.v ===== *)
(** * The audit trail of cases

    What the case manager guarantees for the cases it keeps in memory, whatever
    requests arrive: the timeline explains the status, step by step along the
    state machine of the kind; a case is closed exactly in a terminal status, is
    escalated at most once, and is due when its priority says. A higher priority
    is never due later. *)
From S2P Require Import Prelude Core Effects Redis StateMachine JsNumber Schema Database Cases.
From Stdlib Require Import QArith.

#[local] Open Scope Z_scope.

(** ** Reading a timeline *)

(** The status after one more entry; [None] when the entry does not fit. *)
Definition replay_step (m : StateMachineDefinition) (cur : option string) (e : CaseTimelineEntry)
  : option string :=
  match en_type e with
  | te_created => en_toStatus e
  | te_status_changed =>
      match cur, en_fromStatus e, en_toStatus e with
      | Some c, Some f, Some t =>
          if String.eqb c f && negb (String.eqb f t) && canTransition m f t then Some t else None
      | _, _, _ => None
      end
  | _ => cur
  end.

Definition replay (m : StateMachineDefinition) (tl : list CaseTimelineEntry) : option string :=
  foldl (replay_step m) None tl.

Definition escalations (tl : list CaseTimelineEntry) : nat :=
  length (where_ (λ e, bool_decide (en_type e = te_escalated)) tl).

Lemma escalations_app tl e : escalations (tl ++ [e]) =
  (escalations tl + if bool_decide (en_type e = te_escalated) then 1 else 0)%nat.
Proof. unfold escalations. rewrite where_app, length_app. simpl. by destruct (bool_decide _). Qed.

(** Entries that change neither the status nor the escalation. *)
Definition neutral (ty : TimelineType) : bool :=
  match ty with te_created | te_status_changed | te_escalated => false | _ => true end.

Definition machine_of (kind : CaseKind) : StateMachineDefinition :=
  cd_stateMachine (CASE_DEFINITIONS kind).
Definition terminal_status (kind : CaseKind) (status : string) : bool :=
  includes status (cd_terminalStatuses (CASE_DEFINITIONS kind)).

(** ** What a stored case looks like *)

Record case_ok (k : string) (tl : list CaseTimelineEntry) (snap : CaseSnapshot) : Prop := {
  co_key : k = case_key (mkCaseRef (sn_kind snap) (sn_id snap));
  co_trail : replay (machine_of (sn_kind snap)) tl = Some (sn_status snap);
  co_closed : is_Some (sn_closedAt snap) ↔ terminal_status (sn_kind snap) (sn_status snap) = true;
  co_escalated : escalations tl = if sn_escalatedAt snap then 1%nat else 0%nat;
  co_due : sn_dueAt snap = Some (computeDueAt (sn_openedAt snap) (sn_priority snap)
             (cd_sla (CASE_DEFINITIONS (sn_kind snap))));
}.

Definition memory_ok (m : CaseMemory) : Prop :=
  map_Forall (λ k snap, ∃ tl, cm_timelines m !! k = Some tl ∧ case_ok k tl snap) (cm_cases m).

Lemma memory_ok_put m k snap tl n a :
  memory_ok m → case_ok k tl snap →
  memory_ok (mkCaseMemory (<[k := snap]> (cm_cases m)) (<[k := tl]> (cm_timelines m)) n a).
Proof.
  intros Hm Hk k' snap' Hs. simpl in *. destruct (decide (k' = k)) as [->|Hne].
  - rewrite lookup_insert_eq in Hs. simplify_eq. exists tl. by rewrite lookup_insert_eq.
  - rewrite lookup_insert_ne in Hs by done. rewrite lookup_insert_ne by done. by apply Hm.
Qed.

(** A key names one kind and one identifier. *)
Lemma case_key_inj r1 r2 : case_key r1 = case_key r2 → r1 = r2.
Proof.
  destruct r1 as [k1 i1], r2 as [k2 i2]. unfold case_key. simpl.
  destruct k1, k2; simpl; intros E; simplify_eq; done.
Qed.

(** Nothing leaves a terminal status. *)
Lemma terminal_final kind s t :
  terminal_status kind s = true → s ≠ t → canTransition (machine_of kind) s t = false.
Proof.
  unfold terminal_status, canTransition. intros Hs Hne. apply String.eqb_neq in Hne. rewrite Hne.
  apply includes_iff in Hs.
  destruct kind; simpl in Hs; repeat (apply elem_of_cons in Hs as [->|Hs]; [done|]);
    by apply elem_of_nil in Hs.
Qed.

Lemma case_ok_neutral k tl snap snap' e :
  case_ok k tl snap → neutral (en_type e) = true →
  sn_kind snap' = sn_kind snap → sn_id snap' = sn_id snap → sn_status snap' = sn_status snap →
  sn_closedAt snap' = sn_closedAt snap → sn_escalatedAt snap' = sn_escalatedAt snap →
  sn_dueAt snap' = Some (computeDueAt (sn_openedAt snap') (sn_priority snap')
    (cd_sla (CASE_DEFINITIONS (sn_kind snap')))) →
  case_ok k (tl ++ [e]) snap'.
Proof.
  intros [Hk Ht Hc He _] Hn E1 E2 E3 E4 E5 Hd. split; rewrite ?E1, ?E2, ?E3, ?E4, ?E5; try done.
  - unfold replay. rewrite foldl_app. fold (replay (machine_of (sn_kind snap)) tl). rewrite Ht.
    simpl. unfold replay_step. by destruct (en_type e).
  - rewrite escalations_app, He. destruct (en_type e); simpl in *; try done; lia.
  - by rewrite <- E1.
Qed.

Lemma case_ok_moved k tl snap to now at_ actor reason meta :
  case_ok k tl snap → edge (machine_of (sn_kind snap)) (sn_status snap) to →
  case_ok k (tl ++ [mkEntry at_ te_status_changed actor reason (Some (sn_status snap)) (Some to) meta])
    (set_status to (if terminal_status (sn_kind snap) to then Some now else sn_closedAt snap) snap).
Proof.
  intros [Hk Ht Hc He Hd] [Hne Hcan]. split; simpl; try done.
  - unfold replay. rewrite foldl_app. fold (replay (machine_of (sn_kind snap)) tl). rewrite Ht.
    unfold replay_step. simpl. apply String.eqb_neq in Hne.
    by rewrite String.eqb_refl, Hne, Hcan.
  - destruct (terminal_status (sn_kind snap) to) eqn:E; [by split; [|eauto]|].
    rewrite Hc. split; [|done]. intros Hf. by rewrite (terminal_final _ _ to Hf Hne) in Hcan.
  - rewrite escalations_app. simpl. rewrite He. lia.
Qed.

Lemma case_ok_escalated k tl snap now at_ actor reason :
  case_ok k tl snap → sn_escalatedAt snap = None →
  case_ok k (tl ++ [mkEntry at_ te_escalated actor reason None None None]) (set_escalated now snap).
Proof.
  intros [Hk Ht Hc He Hd] Hn. split; simpl; try done.
  - unfold replay. rewrite foldl_app. fold (replay (machine_of (sn_kind snap)) tl). by rewrite Ht.
  - rewrite escalations_app. simpl. by rewrite He, Hn.
Qed.

(** ** The requests *)

Inductive CaseOp :=
| cop_open (input : OpenSupportInput)
| cop_transition (ref : CaseRef) (to : string) (actorId reason : option string)
    (metadata : list (string * Json))
| cop_assign (ref : CaseRef) (assigneeId : string) (actorId : option string)
| cop_priority (ref : CaseRef) (priority : Z) (actorId : option string)
| cop_note (ref : CaseRef) (note : CaseNoteInput)
| cop_attachment (ref : CaseRef) (meta : CaseAttachmentMeta) (actorId : option string)
| cop_sla (ref : CaseRef) (actorId : option string) (at_ : option Z) (autoEscalate : option bool).

Section rules.
Context `{Redis, !DateText, !CaseRandom} {D : Type} (L : lens D CaseMemory).

Definition run_case (op : CaseOp) : M (St D) () :=
  let r := initial_registry L in
  match op with
  | cop_open input => _ ← openSupportCase L input; mret tt
  | cop_transition ref to a m md =>
      _ ← case_transition r ref to (mkTransitionCaseOptions a m md None None); mret tt
  | cop_assign ref u a => _ ← case_assign r ref u a; mret tt
  | cop_priority ref p a => _ ← case_setPriority r ref p a; mret tt
  | cop_note ref n => case_addNote r ref n
  | cop_attachment ref m a => case_addAttachment r ref m a
  | cop_sla ref a t auto => _ ← evaluateSla r ref a t auto; mret tt
  end.

Definition case_history (ops : list CaseOp) (s : St D) : St D :=
  foldl (λ s op, snd (run_case op s)) s ops.

Notation mem d := (view L d).

(** *** Steps of the store *)

Lemma dwp_memory (Q : outcome CaseMemory → D → Prop) d : Q (Ok (mem d)) d → dwp (memory L) Q d.
Proof. intros HQ. by apply (dwp_gets (view L)). Qed.

Lemma dwp_update_memory f (Q : outcome () → D → Prop) d :
  Q (Ok tt) (put L (f (mem d)) d) → dwp (update_memory L f) Q d.
Proof. by intros HQ s <-. Qed.

Lemma dwp_getStore kind Q d :
  (∀ e, Q (Throw e) d) → Q (Ok (InMemoryCaseStore L)) d → dwp (getStore (initial_registry L) kind) Q d.
Proof.
  intros HE HO. unfold getStore. apply dwp_require; [|done].
  intros store. unfold initial_registry, registerStore. by repeat case_decide; intros; simplify_eq.
Qed.

Lemma dwp_load ref Q d : Q (Ok (cm_cases (mem d) !! case_key ref)) d → dwp (memory_load L ref) Q d.
Proof. intros HQ. unfold memory_load. by apply dwp_bind, dwp_memory, dwp_ret. Qed.

Lemma dwp_found ref e Q d :
  (∀ e, Q (Throw e) d) → (∀ snap, cm_cases (mem d) !! case_key ref = Some snap → Q (Ok snap) d) →
  dwp (snap ← memory_load L ref; require_ snap e) Q d.
Proof. intros HE HO. apply dwp_bind, dwp_load, dwp_require; [exact HO|done]. Qed.

Lemma dwp_require_case ref Q d :
  (∀ e, Q (Throw e) d) → (∀ snap, cm_cases (mem d) !! case_key ref = Some snap → Q (Ok snap) d) →
  dwp (require_case (initial_registry L) ref) Q d.
Proof. intros HE HO. unfold require_case. apply dwp_bind, dwp_getStore; [done|]. by apply dwp_found. Qed.

(** What is stored under the key of a request is a case of its kind. *)
Lemma stored_case m ref snap : memory_ok m → cm_cases m !! case_key ref = Some snap →
  ∃ tl, cm_timelines m !! case_key ref = Some tl ∧ case_ok (case_key ref) tl snap ∧
    sn_kind snap = ref_kind ref.
Proof.
  intros Hm Hs. destruct (Hm _ _ Hs) as (tl & Ht & Hok). exists tl. split_and!; [done..|].
  pose proof (co_key _ _ _ Hok) as E. apply case_key_inj in E. by rewrite E.
Qed.

Definition kept (d : D) : Prop := memory_ok (mem d).
Definition ok_after {A} (m : M (St D) A) : Prop := ∀ d, kept d → dwp m (λ _ d', kept d') d.

Lemma dwp_case_step {A} (m : M (St D) A) (Q : outcome A → D → Prop) d :
  kept d → ok_after m → (∀ o d', kept d' → Q o d') → dwp m Q d.
Proof. intros Hd Hm HQ. eapply dwp_mono; [by apply Hm|]. auto. Qed.

Lemma dwp_put_entry ref e (Q : outcome () → D → Prop) d :
  Q (Ok tt) (put L (put_timeline (case_key ref)
    (coalesce (cm_timelines (mem d) !! case_key ref) [] ++ [e]) (mem d)) d) →
  dwp (memory_appendTimeline L ref e) Q d.
Proof. intros HQ. by apply dwp_update_memory. Qed.

(** A snapshot and an entry that fit, written one after the other. *)
Lemma kept_put d f k snap e tl :
  kept d → cm_timelines (mem d) !! k = Some tl → case_ok k (tl ++ [e]) snap →
  cm_cases (f (mem d)) = <[k := snap]> (cm_cases (mem d)) →
  cm_timelines (f (mem d)) = cm_timelines (mem d) →
  kept (put L (put_timeline k (coalesce (cm_timelines (mem (put L (f (mem d)) d)) !! k) [] ++ [e])
                 (mem (put L (f (mem d)) d))) (put L (f (mem d)) d)).
Proof.
  intros Hd Ht Hok E1 E2. unfold kept, put_timeline. rewrite !view_put. simpl.
  rewrite E1, E2, Ht. by apply memory_ok_put.
Qed.

Lemma open_ok input : ok_after (openSupportCase L input).
Proof.
  intros d Hd. unfold openSupportCase. apply dwp_bind.
  assert (∀ id, dwp (snap ← memory_open L ck_support id (mkOpenOptions (os_number input)
      (os_priority input) (Some "open") (os_assigneeId input) (os_metadata input));
    emit (CaseOpenedEvent (mkCaseRef ck_support (sn_id snap)) snap) ;; mret snap)
    (λ _ d', kept d') d) as Hopen.
  { intros id. unfold memory_open. apply dwp_bind. dwp_step; [|done]. apply dwp_bind, dwp_update_memory.
    apply dwp_bind, dwp_update_memory, dwp_ret.
    match goal with |- dwp _ _ ?d' => assert (kept d') as Hd' end.
    { unfold kept, put_timeline, put_case. rewrite !view_put. simpl. apply memory_ok_put; [done|].
      split; try done. simpl. split; [intros []; done|done]. }
    dwp_step; [by apply dwp_ret|done]. }
  destruct (os_id input) as [id|]; [apply dwp_ret, Hopen|].
  unfold cryptoRandom. dwp_step; [|done]. apply dwp_bind, dwp_env; [apply draw_tables|].
  intros [r|e]; [apply dwp_ret, Hopen|done].
Qed.

(** The engine, run on the options of the manager. *)
Lemma dwp_engine ref snap to actor reason metadata Q d :
  kept d → cm_cases (mem d) !! case_key ref = Some snap →
  (∀ e, Q (Throw e) d) → (∀ r d', kept d' → Q (Ok r) d') →
  dwp (transition (machine_of (ref_kind ref))
         (case_transition_options (InMemoryCaseStore L) ref (sn_status snap) to
            (mkTransitionCaseOptions actor reason metadata None None))) Q d.
Proof.
  intros Hd Hs HE HO. destruct (stored_case _ _ _ Hd Hs) as (tl & Ht & Hok & Hkind).
  unfold transition, assertTransition. cbn [StateMachine.from StateMachine.to case_transition_options].
  destruct (canTransition _ _ _) eqn:Hcan; [|dwp_step; apply HE].
  apply dwp_bind, dwp_ret. destruct (String.eqb _ _ && _) eqn:Hsame; [by apply dwp_ret, HO|].
  assert (edge (machine_of (sn_kind snap)) (sn_status snap) to) as Hedge.
  { rewrite Hkind. split; [|done]. intros E. unfold canTransition in Hcan.
    rewrite E, String.eqb_refl in Hcan. rewrite E, String.eqb_refl in Hsame.
    by rewrite Hcan in Hsame. }
  unfold transition_steps. simpl. apply dwp_bind, dwp_ret.
  unfold memory_saveStatus. apply dwp_bind, dwp_bind, dwp_found; [done|]. intros snap' Hs'. simplify_eq.
  apply dwp_bind, dwp_now. intros now. apply dwp_bind, dwp_update_memory, dwp_ret.
  apply dwp_bind, dwp_bind, dwp_now. intros at_. apply dwp_put_entry.
  match goal with |- dwp _ _ ?d' => assert (kept d') as Hd' end.
  { eapply (kept_put d (put_case _ _)); [done|done| |done|done].
    rewrite <- Hkind. by apply case_ok_moved. }
  apply dwp_bind, dwp_emit, dwp_bind, dwp_ret, dwp_ret, HO, Hd'.
Qed.

Lemma case_transition_ok ref to actor reason metadata : ok_after (case_transition (initial_registry L) ref to
  (mkTransitionCaseOptions actor reason metadata None None)).
Proof.
  intros d Hd. unfold case_transition. apply dwp_bind, dwp_getStore; [done|].
  apply dwp_bind, dwp_require_case; [done|]. intros snap Hs.
  apply dwp_bind, dwp_engine; [done..|]. intros r d' Hd'.
  apply dwp_bind. assert (∀ snap1 : CaseSnapshot, dwp
    (emit (CaseStatusChangedEvent ref snap1 (sn_status snap) to) ;;
     when_ (includes to (cd_terminalStatuses (CASE_DEFINITIONS (ref_kind ref))))
       (emit (CaseClosedEvent ref snap1 to)) ;; mret tt ;; mret snap1) (λ _ d', kept d') d') as Hrest.
  { intros snap1. dwp_step; [|done]. dwp_step; [dwp_step; [by dwp_step; apply dwp_ret|done]|].
    by apply dwp_bind, dwp_ret, dwp_ret. }
  destruct (res_result r) as [snap1|]; [by apply dwp_ret, Hrest|].
  apply dwp_require_case; [done|]. intros snap1 _. apply Hrest.
Qed.
Lemma assign_ok ref u actor : ok_after (case_assign (initial_registry L) ref u actor).
Proof.
  intros d Hd. unfold case_assign. apply dwp_bind, dwp_getStore; [done|].
  simpl. unfold memory_assign, memory_set. apply dwp_bind, dwp_bind, dwp_found; [done|].
  intros snap Hs. destruct (stored_case _ _ _ Hd Hs) as (tl & Ht & Hok & Hkind).
  apply dwp_bind, dwp_update_memory, dwp_ret, dwp_bind, dwp_now. intros now.
  apply dwp_bind, dwp_put_entry, dwp_bind, dwp_emit, dwp_ret.
  eapply (kept_put d (put_case _ _)); [done|done| |done|done].
  eapply case_ok_neutral; try done. apply Hok.
Qed.

Lemma priority_ok ref p actor : ok_after (case_setPriority (initial_registry L) ref p actor).
Proof.
  intros d Hd. unfold case_setPriority. apply dwp_bind, dwp_getStore; [done|].
  simpl. unfold memory_setPriority, memory_set. apply dwp_bind, dwp_bind, dwp_found; [done|].
  intros snap Hs. destruct (stored_case _ _ _ Hd Hs) as (tl & Ht & Hok & Hkind).
  apply dwp_bind, dwp_update_memory, dwp_ret, dwp_bind, dwp_now. intros now.
  apply dwp_bind, dwp_put_entry, dwp_ret.
  eapply (kept_put d (put_case _ _)); [done|done| |done|done].
  eapply case_ok_neutral; try done. simpl. by rewrite Hkind.
Qed.

(** Notes and attachments are stored beside the case. *)
Lemma beside_ok ref snap e f d :
  kept d → cm_cases (mem d) !! case_key ref = Some snap → neutral (en_type e) = true →
  cm_cases (f (mem d)) = cm_cases (mem d) → cm_timelines (f (mem d)) = cm_timelines (mem d) →
  kept (put L (put_timeline (case_key ref)
    (coalesce (cm_timelines (mem (put L (f (mem d)) d)) !! case_key ref) [] ++ [e])
    (mem (put L (f (mem d)) d))) (put L (f (mem d)) d)).
Proof.
  intros Hd Hs Hn E1 E2. destruct (stored_case _ _ _ Hd Hs) as (tl & Ht & Hok & Hkind).
  eapply (kept_put d f _ snap); [done|done| | |done].
  - eapply case_ok_neutral; try done. apply Hok.
  - by rewrite E1, insert_id.
Qed.

Lemma note_ok ref note : ok_after (case_addNote (initial_registry L) ref note).
Proof.
  intros d Hd. unfold case_addNote. apply dwp_bind, dwp_getStore; [done|].
  apply dwp_bind, dwp_require_case; [done|]. intros snap Hs.
  simpl. apply dwp_bind, dwp_update_memory, dwp_bind, dwp_now. intros now. apply dwp_bind, dwp_put_entry.
  match goal with |- dwp _ _ ?d' => assert (kept d') as Hd' end.
  { by apply (beside_ok ref snap _ (λ m, put_notes _ _ m)). }
  apply dwp_bind, dwp_load, dwp_bind. apply dwp_require; [|done]. intros snap' _. by apply dwp_emit.
Qed.

Lemma attachment_ok ref meta actor : ok_after (case_addAttachment (initial_registry L) ref meta actor).
Proof.
  intros d Hd. unfold case_addAttachment. apply dwp_bind, dwp_getStore; [done|].
  apply dwp_bind, dwp_require_case; [done|]. intros snap Hs.
  simpl. apply dwp_bind, dwp_update_memory, dwp_bind, dwp_now. intros now. apply dwp_put_entry.
  by apply (beside_ok ref snap _ (λ m, put_attachments _ _ m)).
Qed.

Lemma escalate_ok ref snap reason actor now auto d :
  kept d → cm_cases (mem d) !! case_key ref = Some snap → sn_escalatedAt snap = None →
  dwp (escalate (initial_registry L) (InMemoryCaseStore L) ref snap reason actor now auto)
    (λ _ d', kept d') d.
Proof.
  intros Hd Hs Hn. destruct (stored_case _ _ _ Hd Hs) as (tl & Ht & Hok & Hkind).
  unfold escalate. simpl. unfold memory_markEscalated, memory_set.
  apply dwp_bind, dwp_bind, dwp_found; [done|]. intros snap' Hs'. simplify_eq.
  apply dwp_bind, dwp_update_memory, dwp_ret, dwp_bind, dwp_put_entry, dwp_bind, dwp_emit.
  match goal with |- dwp _ _ ?d' => assert (kept d') as Hd' end.
  { eapply (kept_put d (put_case _ _)); [done|done| |done|done]. by apply case_ok_escalated. }
  destruct (_ ≫= _) as [[|c target]|]; [by apply dwp_ret| |by apply dwp_ret].
  destruct (_ && _); [by apply case_transition_ok|by apply dwp_ret].
Qed.

Lemma sla_ok ref actor at_ auto : ok_after (evaluateSla (initial_registry L) ref actor at_ auto).
Proof.
  intros d Hd. unfold evaluateSla. apply dwp_bind, dwp_getStore; [done|].
  apply dwp_bind, dwp_require_case; [done|]. intros snap Hs. apply dwp_bind.
  apply (dwp_mono _ (λ o d', d' = d ∧ ∃ t, o = Ok t)).
  { destruct at_; [apply dwp_ret; eauto|apply dwp_now; eauto]. }
  intros o d' [-> [now ->]].
  assert (∀ c ev Q, Q (Ok tt) d → dwp (when_ c (emit ev)) Q d) as Hwhen.
  { intros c ev Q HQ. destruct c; [by apply dwp_emit|by apply dwp_ret]. }
  apply dwp_bind, Hwhen, dwp_bind, Hwhen.
  destruct (_ && bool_decide _) eqn:E; [|by apply dwp_ret].
  apply andb_true_iff in E as [_ En%bool_decide_eq_true]. apply dwp_bind.
  eapply dwp_mono; [by apply escalate_ok|]. intros [r|e] d' Hd'; [by apply dwp_ret|done].
Qed.

Lemma case_step op s : kept (tables s) → kept (tables (snd (run_case op s))).
Proof.
  intros Hs. assert (ok_after (run_case op)) as Hop; [|by apply (Hop (tables s) Hs s)].
  assert (∀ A (m : M (St D) A), ok_after m → ok_after (_ ← m; mret tt)) as Hrun.
  { intros A m Hm d Hd. apply dwp_bind. eapply dwp_mono; [by apply Hm|].
    intros [a|e] d' Hd'; [by apply dwp_ret|done]. }
  destruct op; unfold run_case;
    [apply Hrun, open_ok|apply Hrun, case_transition_ok|apply Hrun, assign_ok|apply Hrun, priority_ok
    |apply note_ok|apply attachment_ok|apply Hrun, sla_ok].
Qed.

(** (C12) The timeline of a case explains its status: starting from an empty memory,
    after any history of requests to the case manager, refused ones included, each
    stored case has a timeline whose status entries lead from its opening along
    edges of its state machine to its present status, is closed exactly when that
    status is terminal, was escalated at most once, and is due when its priority
    says. *)
Theorem case_trail ops s :
  cm_cases (mem (tables s)) = ∅ → memory_ok (mem (tables (case_history ops s))).
Proof.
  intros Hempty. assert (kept (tables s)) as Hs.
  { unfold kept, memory_ok. rewrite Hempty. apply map_Forall_empty. }
  clear Hempty. revert s Hs. induction ops as [|op ops IH]; intros s Hs; [done|]. by apply IH, case_step.
Qed.
End rules.

(** ** Service levels *)

(** A higher priority is never due later, and nothing is due at once. *)
Lemma urgent_first kind openedAt p q :
  1 <= p <= q → q <= 5 →
  openedAt < computeDueAt openedAt p (cd_sla (CASE_DEFINITIONS kind))
    <= computeDueAt openedAt q (cd_sla (CASE_DEFINITIONS kind)).
Proof.
  intros Hp Hq. unfold computeDueAt.
  set (sla := cd_sla (CASE_DEFINITIONS kind)). set (m x := sla_minutes (resolveMinutes sla) x sla).
  fold (m p) (m q).
  assert (0 < m p <= m q) as Hm; [|lia].
  assert (forallb (λ kind, forallb (λ p, forallb (λ q, negb (p <=? q)
    || let sla := cd_sla (CASE_DEFINITIONS kind) in
       let m x := sla_minutes (resolveMinutes sla) x sla in (0 <? m p) && (m p <=? m q))
    [1; 2; 3; 4; 5]) [1; 2; 3; 4; 5])
    [ck_warranty_claim; ck_rma; ck_service_ticket; ck_repair_job; ck_support] = true) as Hall
    by by vm_compute.
  rewrite forallb_forall in Hall. specialize (Hall kind ltac:(destruct kind; simpl; auto 6)).
  rewrite forallb_forall in Hall. specialize (Hall p ltac:(simpl; lia)).
  rewrite forallb_forall in Hall. specialize (Hall q ltac:(simpl; lia)).
  apply orb_true_iff in Hall as [Hall|Hall]; [lia|].
  change ((0 <? m p) && (m p <=? m q) = true) in Hall. clearbody m. lia.
Qed.

(** ** Runs *)
Section examples.
#[local] Existing Instances gmap_redis.
#[local] Instance iso0 : DateText := λ _, "2026-01-01T00:00:00.000Z".
#[local] Instance slices : CaseRandom := λ _, "abc123".

Definition self : lens CaseMemory CaseMemory.
Proof. by refine (Lens id (λ m _, m) _ _ _). Defined.

Definition start : St CaseMemory :=
  mkSt (mkEnv gmap_redis 1000 (∅ : kv) true [] [] 0) (mkCaseMemory ∅ ∅ ∅ ∅).

Definition ref0 : CaseRef := mkCaseRef ck_support "c1".
Definition no_options0 : TransitionCaseOptions CaseMemory := mkTransitionCaseOptions None None [] None None.

(** An unassigned case of priority 1 is escalated on the first tick, is worked on and
    closed, and cannot be reopened. *)
Definition requests : list CaseOp :=
  [cop_open (mkOpenSupportInput (Some "c1") None (Some 1) None None); cop_sla ref0 None None None;
   cop_sla ref0 None None None; cop_assign ref0 "eve" None;
   cop_transition ref0 "in_progress" (Some "eve") None []; cop_note ref0 (mkNote "called" None None);
   cop_transition ref0 "resolved" None None []; cop_transition ref0 "closed" None None [];
   cop_transition ref0 "in_progress" None None []].

Lemma case_trail_witness : memory_ok (tables (case_history self requests start)).
Proof. apply (case_trail self requests start). reflexivity. Defined.

Example case_closed :
  let m := tables (case_history self requests start) in
  (sn_status <$> cm_cases m !! "support:c1") = Some "closed" ∧
  map en_type (coalesce (cm_timelines m !! "support:c1") []) =
    [te_created; te_escalated; te_status_changed; te_assigned; te_status_changed; te_note;
     te_status_changed; te_status_changed].
Proof. vm_compute. done. Qed.

(** A case of priority 1 is due after half a day, one of priority 5 after two. *)
Example due_times :
  map (λ p, computeDueAt 0 p (cd_sla (CASE_DEFINITIONS ck_support)) / 3600000) [1; 2; 3; 4; 5] =
  [12; 16; 24; 32; 48].
Proof. vm_compute. reflexivity. Qed.
End examples.
