(* ===== verification/Lives.v ===== *)
(** * Rows with a life cycle

    Tables whose rows carry a status of a state machine: [lives] says that no row
    is lost, that a row changes its status by steps (edges of the machine) only, keeps
    what identifies it, and stays sound. The rule [dwp_transition] runs the engine
    of [StateMachine] on the application's tables. *)
From S2P Require Import Prelude Core Effects Redis StateMachine Database.

Section lives.
Context {A : Type} (key : A → string) (status : A → string) (step : string → string → Prop)
  {I : Type} (identity : A → I) (sound : A → Prop).

(** Distinct keys and sound rows. *)
Definition rows_sound (rows : list A) : Prop := NoDup (map key rows) ∧ Forall sound rows.

(** [r'] is [r], later. *)
Definition later (r r' : A) : Prop :=
  key r' = key r ∧ identity r' = identity r ∧ rtc step (status r) (status r').

Definition lives (rows rows' : list A) : Prop :=
  rows_sound rows → rows_sound rows' ∧ ∀ r, r ∈ rows → ∃ r', r' ∈ rows' ∧ later r r'.

Lemma later_trans r1 r2 r3 : later r1 r2 → later r2 r3 → later r1 r3.
Proof. intros (? & ? & ?) (? & ? & ?). unfold later. split_and!; [congruence..|by etrans]. Qed.

#[export] Instance lives_preorder : PreOrder lives.
Proof.
  split.
  - intros rows Hs. split; [done|]. intros r Hr. exists r. by split_and!.
  - intros l1 l2 l3 H12 H23 H1. destruct (H12 H1) as [H2 L12]. destruct (H23 H2) as [H3 L23].
    split; [done|]. intros r Hr. destruct (L12 r Hr) as (r2 & Hr2 & Hl2).
    destruct (L23 r2 Hr2) as (r3 & Hr3 & Hl3). exists r3. split; [done|]. by eapply later_trans.
Qed.

Lemma lives_snoc rows r : key r ∉ map key rows → sound r → lives rows (rows ++ [r]).
Proof.
  intros Hk Hr [Hnd Hs]. split; [split|].
  - by apply NoDup_snoc.
  - apply Forall_app. by split; [|apply Forall_singleton].
  - intros x Hx. exists x. split; [set_solver|done].
Qed.

Lemma lives_update rows r f :
  r ∈ rows → (∀ x, key (f x) = key x) → identity (f r) = identity r →
  rtc step (status r) (status (f r)) → (sound r → sound (f r)) →
  lives rows (update_rows key (key r) f rows).
Proof.
  intros Hr Hk Hi He Hf [Hnd Hs].
  assert (∀ x, x ∈ rows → key x = key r → x = r) as Hone.
  { intros x Hx E. by eapply (NoDup_key_eq key). }
  split; [split|].
  - by rewrite update_rows_keys.
  - rewrite Forall_forall in *. intros y Hy. apply elem_of_update_rows in Hy as (x & Hx & [[E ->]|[_ ->]]); [|by apply Hs].
    rewrite (Hone x Hx E). by apply Hf, Hs.
  - intros x Hx. exists (if String.eqb (key x) (key r) then f x else x).
    split; [by apply list_elem_of_fmap; exists x|].
    destruct (String.eqb_spec (key x) (key r)) as [E|_]; [|done].
    rewrite (Hone x Hx E). split_and!; [apply Hk|done|done].
Qed.
End lives.

(** The engine on the application's tables: refused, skipped, or run. *)
Lemma dwp_transition `{Redis} {D T} (m : StateMachineDefinition) (o : TransitionOptions D T) Q d :
  (∀ msg, canTransition m (from o) (to o) = false → Q (Throw (AppException CONFLICT msg 409)) d) →
  (from o = to o → Q (Ok (mkResult (from o) (to o) true None)) d) →
  (edge m (from o) (to o) → dwp (transition_steps m o) Q d) →
  dwp (transition m o) Q d.
Proof.
  intros Hrefused Hskipped Hrun s <-.
  destruct (transition_cases m o s) as [(Hc & msg & ->)|[(He & ->)|[He ->]]];
    [by apply Hrefused|by apply Hskipped|by apply Hrun].
Qed.
