(* ===== verification/Shipping.v ===== *)
(** * Shipping: shipments and their tracking

    Models [backend/src/modules/shipping]: the repository, the cache keys, the
    events, the mapper and every operation of [services/shipping.service.ts] on the
    state machine engine of [StateMachine]. The carrier behind the interface
    [ShippingProvider] is the class of that name: its calls may do anything to the
    environment and nothing to the tables. Webhooks of the carrier, reverse
    logistics and rates are in [Carrier], the theorems in [ShippingRules]. *)
From S2P Require Import Prelude Core Effects Redis Lock StateMachine JsNumber Schema Database Tables Payments.
From Stdlib Require Import QArith.

#[local] Open Scope Z_scope.

(** ** The carrier ([interfaces/shipping-provider.interface.ts]) *)

Record CreateCarrierShipmentInput := mkCarrierInput {
  ca_orderId : string; ca_shipmentNumber : string; ca_weightKg : Q; ca_lengthCm : option Q;
  ca_widthCm : option Q; ca_heightCm : option Q; ca_declaredValue : option Q;
  ca_codAmount : option Q; ca_pickupPincode : string; ca_deliveryPincode : string;
  ca_customerName : string; ca_customerPhone : option string; ca_customerAddress : string;
  ca_customerCity : string; ca_customerState : string;
}.

Record CreateCarrierShipmentResult := mkCarrierResult {
  cr_partnerShipmentRef : string; cr_awbNumber : option string; cr_trackingNumber : option string;
}.
Record GenerateLabelResult := mkLabelResult { lr_labelUrl : string; lr_format : ShippingLabelFormat }.
Record SchedulePickupResult := mkPickupResult {
  pr_partnerPickupRef : string; pr_scheduledAt : option Z;
}.
Record CarrierEvent := mkCarrierEvent {
  ce_status : string; ce_code : option string; ce_description : option string;
  ce_location : option string; ce_occurredAt : Z;
}.
Record TrackingSyncResult := mkSyncResult {
  ts_status : string; ts_location : option string; ts_events : list CarrierEvent;
  ts_eta : option Z;
}.

(** The raw responses are only stored as JSON, in columns the model leaves out. *)
Class ShippingProvider `{Redis} := {
  carrier_code : string;
  sp_createShipment (input : CreateCarrierShipmentInput)
    : Env → outcome CreateCarrierShipmentResult * Env;
  sp_generateLabel (partnerShipmentRef : string) (awbNumber : option string)
    : Env → outcome GenerateLabelResult * Env;
  sp_schedulePickup (partnerShipmentRef warehouseId : string) (scheduledAt : option Z)
    (packageCount : Z) : Env → outcome SchedulePickupResult * Env;
  sp_syncTracking (trackingNumber awbNumber partnerShipmentRef : option string)
    : Env → outcome TrackingSyncResult * Env;
  sp_verifyWebhookSignature (rawBody signature secret : string) : bool;
}.

(** ** Constants ([constants/shipping.constants.ts]) *)

Definition SHIPROCKET_PARTNER_ID : string := "70000000-0000-0000-0000-000000000001".

Module SHIPPING_CACHE.
Definition TTL : Z := 60.
Definition methods : string := "shipping:methods:list".
Definition rates (key : string) : string := "shipping:rates:" +:+ key.
Definition shipment (id : string) : string := "shipping:shipment:" +:+ id.
Definition tracking (id : string) : string := "shipping:tracking:" +:+ id.
Definition slots : string := "shipping:slots:list".
Definition pickupPoints : string := "shipping:pickup-points:list".
End SHIPPING_CACHE.

Definition QUEUE_SHIPPING : string := "shipping".

Module SHIPPING_JOBS.
Definition WEBHOOK : string := "shipping.webhook.process".
Definition TRACKING_SYNC : string := "shipping.tracking.sync".
Definition ETA_REFRESH : string := "shipping.eta.refresh".
Definition PICKUP_SCHEDULER : string := "shipping.pickup.scheduler".
Definition CARRIER_RETRY : string := "shipping.carrier.retry".
Definition NOTIFY : string := "shipping.notify".
End SHIPPING_JOBS.

(** ** Enum columns: the client refuses a text that is no member. *)

Definition of_text {E} (text : E → string) (members : list E) (s : string) : option E :=
  find_first (λ e, String.eqb (text e) s) members.

Definition ShipmentStatus_members : list ShipmentStatus :=
  [ss_created; ss_packed; ss_dispatched; ss_in_transit; ss_out_for_delivery; ss_delivered;
   ss_delivery_failed; ss_returned; ss_lost; ss_damaged; ss_cancelled].
Definition ReverseShipmentStatus_members : list ReverseShipmentStatus :=
  [rss_requested; rss_scheduled; rss_picked_up; rss_in_transit; rss_received; rss_cancelled;
   rss_failed].
Definition RtoStatus_members : list RtoStatus :=
  [rto_initiated_; rto_in_transit_; rto_received_; rto_closed_; rto_cancelled_].
Definition ShippingPartnerCode_members : list ShippingPartnerCode :=
  [sc_shiprocket; sc_delhivery; sc_bluedart; sc_dtdc; sc_xpressbees; sc_india_post; sc_dhl;
   sc_fedex; sc_ups; sc_other].

Definition as_enum {S E} (column : string) (text : E → string) (members : list E) (s : string)
  : M S E := require_ (of_text text members s) (DbError (InvalidValue column)).

Definition as_status {S} (column s : string) : M S ShipmentStatus :=
  as_enum column ShipmentStatus_text ShipmentStatus_members s.

(** ** Requests ([dto/shipping.dto.ts]) *)

Record PackageDto := mkPackageDto {
  pk_packageNumber : string; pk_weightKg : Q; pk_lengthCm : option Q; pk_widthCm : option Q;
  pk_heightCm : option Q; pk_declaredValue : option Q;
}.
Record ShipmentItemDto := mkShipmentItemDto { si_orderItemId : string; si_quantity : Z }.
Record CreateShipmentDto := mkCreateShipmentDto {
  cs_orderId : string; cs_warehouseId : string; cs_partnerId : option string;
  cs_serviceId : option string; cs_shippingAddressId : option string;
  cs_fulfillmentOrderId : option string; cs_cod : bool; cs_declaredValue : option Q;
  cs_packages : list PackageDto; cs_items : list ShipmentItemDto;
}.
(** [scheduledAt] is the instant of the validated ISO text. *)
Record SchedulePickupDto := mkSchedulePickupDto {
  sd_shipmentId : string; sd_scheduledAt : option Z; sd_notes : option string;
}.
Record UpdateShipmentStatusDto := mkUpdateShipmentStatusDto {
  ud_status : string; ud_reason : option string;
}.

(** ** Row updates *)

Definition set_shipment (st : ShipmentStatus) (pickup : option string)
  (packed dispatched delivered eta : option Z) (s : Shipment) : Shipment :=
  mkShipment (shp_id s) (shp_shipment_number s) (shp_order_id s) (shp_fulfillment_order_id s)
    (shp_warehouse_id s) (shp_partner_id s) (shp_service_id s)
    (keep pickup (shp_pickup_request_id s)) (shp_shipping_address_id s) (shp_tracking_number s)
    (shp_awb_number s) (shp_partner_shipment_ref s) (shp_currency s) (shp_shipping_charge s)
    (shp_declared_value s) (shp_total_weight_kg s) st (keep packed (shp_packed_at s))
    (keep dispatched (shp_dispatched_at s)) (keep delivered (shp_delivered_at s))
    (keep eta (shp_estimated_delivery_at s)) (shp_created_at s) (shp_deleted_at s).

(** The data of a status change: the time columns of three statuses are set. *)
Definition set_status (st : ShipmentStatus) (now : Z) (s : Shipment) : Shipment :=
  let at_ (x : ShipmentStatus) := if bool_decide (st = x) then Some now else None in
  set_shipment st None (at_ ss_packed) (at_ ss_dispatched) (at_ ss_delivered) None s.

Definition set_pickup (requestId : string) (s : Shipment) : Shipment :=
  set_shipment (shp_status s) (Some requestId) None None None None s.

Definition set_eta (eta : Z) (s : Shipment) : Shipment :=
  set_shipment (shp_status s) None None None None (Some eta) s.

Definition set_tracking (st : ShipmentStatus) (location : option string) (now : Z)
  (t : ShipmentTracking) : ShipmentTracking :=
  mkShipmentTracking (stk_id t) (stk_shipment_id t) st (keep location (stk_last_location t))
    (Some now) (stk_exception_code t) (stk_exception_note t) (stk_deleted_at t).

Definition set_fulfillment_status (st : string) (f : FulfillmentOrder) : FulfillmentOrder :=
  mkFulfillmentOrder (fo_id f) (fo_fulfillment_number f) (fo_order_id f) (fo_warehouse_id f) st
    (fo_shipped_at f) (fo_delivered_at f) (fo_deleted_at f).

(** ** The view ([mappers/shipping.mapper.ts]) *)

Definition mapShipment (d : Db) (s : Shipment) : Json :=
  JObj ([("id", JStr (shp_id s)); ("shipmentNumber", JStr (shp_shipment_number s));
         ("orderId", JStr (shp_order_id s)); ("warehouseId", JStr (shp_warehouse_id s));
         ("partnerId", JStr (shp_partner_id s))]
    ++ jopt "partnerCode" (option_map (λ p, ShippingPartnerCode_text (spr_code p))
         (find_first (λ p, String.eqb (spr_id p) (shp_partner_id s)) (view L_ShippingPartner d)))
    ++ [("serviceId", jnull_str (shp_service_id s));
        ("status", JStr (ShipmentStatus_text (shp_status s)));
        ("trackingNumber", jnull_str (shp_tracking_number s));
        ("awbNumber", jnull_str (shp_awb_number s));
        ("shippingCharge", JNum (cents (shp_shipping_charge s)));
        ("currency", JStr (shp_currency s));
        ("totalWeightKg", match shp_total_weight_kg s with Some w => JNum (grams w) | None => JNull end);
        ("packedAt", jnull_int (shp_packed_at s)); ("dispatchedAt", jnull_int (shp_dispatched_at s));
        ("deliveredAt", jnull_int (shp_delivered_at s));
        ("estimatedDeliveryAt", jnull_int (shp_estimated_delivery_at s));
        ("createdAt", JInt (shp_created_at s))]).

(** [raw.toLowerCase().replace(/\s+/g, '_')] *)
Fixpoint underscored (gap : bool) (s : list Ascii.ascii) : list Ascii.ascii :=
  match s with
  | [] => []
  | c :: rest =>
      if is_space c then (if gap then [] else ["_"%char]) ++ underscored true rest
      else c :: underscored false rest
  end.

Definition carrier_map : list (string * ShipmentStatus) :=
  [("created", ss_created); ("packed", ss_packed); ("dispatched", ss_dispatched);
   ("picked_up", ss_dispatched); ("in_transit", ss_in_transit); ("transit", ss_in_transit);
   ("out_for_delivery", ss_out_for_delivery); ("ofd", ss_out_for_delivery);
   ("delivered", ss_delivered); ("delivery_failed", ss_delivery_failed);
   ("undelivered", ss_delivery_failed); ("returned", ss_returned); ("rto", ss_returned);
   ("cancelled", ss_cancelled); ("lost", ss_lost); ("damaged", ss_damaged)].

Definition mapCarrierStatus (raw : string) : option ShipmentStatus :=
  let s := String.string_of_list_ascii
             (underscored false (String.list_ascii_of_string (toLowerCase raw))) in
  option_map snd (find_first (λ kv, String.eqb (fst kv) s) carrier_map).

Section shipping.
  Context `{Redis, !Scheduler, !Crypto, !Postgres, !ShippingProvider}.

(** ** ShipmentRepository ([repositories/shipment.repository.ts]) *)

Definition shp_findById (id : string) : M (St Db) (option Shipment) :=
  db_findFirst T_Shipment (λ s, String.eqb (shp_id s) id && live (shp_deleted_at s)).

Definition findByTracking (trackingNumber : string) : M (St Db) (option Shipment) :=
  db_findFirst T_Shipment (λ s, (same_opt (shp_tracking_number s) (Some trackingNumber)
    || same_opt (shp_awb_number s) (Some trackingNumber)) && live (shp_deleted_at s)).

Definition shp_update (id : string) (f : Shipment → Shipment) : M (St Db) Shipment :=
  db_update T_Shipment id f.

Definition active_partner (p : ShippingPartner) : bool :=
  match spr_status p with rs_active => live (spr_deleted_at p) | _ => false end.

Definition findPrimaryPartner : M (St Db) (option ShippingPartner) :=
  db_findFirst T_ShippingPartner (λ p, spr_is_primary p && active_partner p).

Definition findPartnerByCode (code : ShippingPartnerCode) : M (St Db) (option ShippingPartner) :=
  db_findFirst T_ShippingPartner (λ p, bool_decide (spr_code p = code) && active_partner p).

Definition appendTrackingEvent (shipmentId eventStatus : string)
  (eventCode description location : option string) (occurredAt : option Z)
  : M (St Db) TrackingEvent :=
  now ← Date_now;
  st ← as_status "event_status" eventStatus;
  db_create T_TrackingEvent (λ id, mkTrackingEvent id shipmentId None st eventCode description
    location (coalesce occurredAt now) None).

(** [upsert({ where: { shipment_id } })] *)
Definition upsertTracking (shipmentId currentStatus : string) (lastLocation : option string)
  : M (St Db) ShipmentTracking :=
  now ← Date_now;
  st ← as_status "current_status" currentStatus;
  row ← db_findFirst T_ShipmentTracking (λ t, String.eqb (stk_shipment_id t) shipmentId);
  match row with
  | Some t => db_update T_ShipmentTracking (stk_id t) (set_tracking st lastLocation now)
  | None => db_create T_ShipmentTracking (λ id, mkShipmentTracking id shipmentId st lastLocation
              (Some now) None None None)
  end.

(** ** ShippingCacheService ([services/shipping-cache.service.ts]) *)

Definition ship_getOrSet (key : string) (factory : M (St Db) Json) : M (St Db) Json :=
  CacheService.getOrSet key factory SHIPPING_CACHE.TTL.

Definition invalidateShipment (id : string) : M (St Db) () :=
  CacheService.del (SHIPPING_CACHE.shipment id) ;;
  CacheService.del (SHIPPING_CACHE.tracking id).

(** ** ShippingService ([services/shipping.service.ts]) *)

Definition ship_lock (action id : string) : string :=
  LockService.resourceKey ["shipping"; action; id].

Definition requireShipment (id : string) : M (St Db) Shipment :=
  s ← shp_findById id;
  require_ s (AppException NOT_FOUND "Shipment not found" 404).

Definition view_shipment (s : Shipment) : M (St Db) Json := gets (λ st, mapShipment (tables st) s).

(** The payload of the shipment events ([events/shipping.events.ts]). *)
Definition shipment_payload (shipmentId orderId status : string) (trackingNumber : option string)
  (more : list (string * Json)) : Json :=
  JObj ([("shipmentId", JStr shipmentId); ("orderId", JStr orderId); ("status", JStr status);
         ("trackingNumber", jnull_str trackingNumber); ("carrier", JStr carrier_code)] ++ more).

Definition shipment_event (name : string) (s : Shipment) (status : ShipmentStatus)
  (more : list (string * Json)) : M (St Db) () :=
  emit (mkEvent name (shipment_payload (shp_id s) (shp_order_id s) (ShipmentStatus_text status)
    (shp_tracking_number s) more)).

Definition auditEvent (shipmentId status description : string) : M (St Db) () :=
  _ ← appendTrackingEvent shipmentId status None (Some description) None None; mret tt.

(** The event of a status, when it has one. *)
Definition status_event (status : string) : option string :=
  option_map snd (find_first (λ kv, String.eqb (fst kv) status)
    [("in_transit", "shipment.in_transit"); ("out_for_delivery", "shipment.out_for_delivery");
     ("delivered", "shipment.delivered"); ("delivery_failed", "shipment.delivery_failed");
     ("returned", "shipment.returned"); ("cancelled", "shipment.cancelled")]).

Definition emitStatusEvent (orderId shipmentId status : string) (trackingNumber : option string)
  : M (St Db) () :=
  match status_event status with
  | Some name => emit (mkEvent name (shipment_payload shipmentId orderId status trackingNumber []))
  | None => mret tt
  end.

(** [apply] of [transitionStatus]. *)
Definition apply_status (shipmentId to : string) : M (St Db) Shipment :=
  now ← Date_now;
  st ← as_status "status" to;
  shp_update shipmentId (set_status st now).

(** [audit] of [transitionStatus]. *)
Definition audit_status (shipmentId : string) (reason : option string) (ctx : TransitionContext)
  : M (St Db) () :=
  auditEvent shipmentId (ctx_to ctx)
    (coalesce reason ("Status " +:+ ctx_from ctx +:+ " → " +:+ ctx_to ctx)) ;;
  _ ← upsertTracking shipmentId (ctx_to ctx) None;
  mret tt.

Definition fulfillment_status (to : string) : option string :=
  if String.eqb to "delivered" then Some "delivered"
  else if String.eqb to "dispatched" then Some "shipped"
  else if String.eqb to "packed" then Some "packed"
  else None.

(** The fulfilment order follows; a failure is swallowed. *)
Definition sync_fulfillment (fulfillmentOrderId : option string) (to : string) : M (St Db) () :=
  match fulfillmentOrderId, fulfillment_status to with
  | Some ((String _ _) as id), Some st =>
      try_catch (_ ← db_update T_FulfillmentOrder id (set_fulfillment_status st); mret tt)
        (λ _, mret tt)
  | _, _ => mret tt
  end.

Definition transitionStatus (shipmentId to : string) (actorId reason : option string)
  : M (St Db) (option Shipment) :=
  shipment ← requireShipment shipmentId;
  result ← transition shipmentStateMachine
    (mkOptions shipmentId (ShipmentStatus_text (shp_status shipment)) to actorId reason None None
      (λ _, apply_status shipmentId to) (Some (audit_status shipmentId reason)) None false);
  when_ (negb (res_skipped result))
    (emitStatusEvent (shp_order_id shipment) shipmentId to (shp_tracking_number shipment)) ;;
  sync_fulfillment (shp_fulfillment_order_id shipment) to ;;
  mret (res_result result).

(** The first shipping address of the order, else its first address. *)
Definition shipping_address (addresses : list OrderAddress) : option OrderAddress :=
  match find_first (λ a, String.eqb (oa_address_type a) "shipping") addresses with
  | Some a => Some a
  | None => head addresses
  end.

(** [dto.partnerId ? find : null ?? primary ?? shiprocket] *)
Definition requested_partner (partnerId : option string) (active : bool)
  : M (St Db) (option ShippingPartner) :=
  match partnerId with
  | Some ((String _ _) as id) => db_findFirst T_ShippingPartner (λ p, String.eqb (spr_id p) id
      && (if active then active_partner p else live (spr_deleted_at p)))
  | _ => mret None
  end.

Definition choose_partner (partnerId : option string) : M (St Db) (option ShippingPartner) :=
  asked ← requested_partner partnerId true;
  match asked with
  | Some p => mret (Some p)
  | None =>
      primary ← findPrimaryPartner;
      match primary with
      | Some p => mret (Some p)
      | None => findPartnerByCode sc_shiprocket
      end
  end.

Definition create_package (shipmentId : string) (p : PackageDto) : string → ShipmentPackage := λ id,
  mkShipmentPackage id shipmentId (pk_packageNumber p) (numeric3 (pk_weightKg p))
    (option_map numeric2 (pk_lengthCm p)) (option_map numeric2 (pk_widthCm p))
    (option_map numeric2 (pk_heightCm p)) (option_map numeric2 (pk_declaredValue p)) None.

Definition carrier_input (order : Order) (dto : CreateShipmentDto) (shipmentNumber : string)
  (weight : Q) (address : option OrderAddress) : CreateCarrierShipmentInput :=
  let first := head (cs_packages dto) in
  mkCarrierInput (od_id order) shipmentNumber weight (first ≫= pk_lengthCm) (first ≫= pk_widthCm)
    (first ≫= pk_heightCm) (Some (coalesce (cs_declaredValue dto) (cents (od_grand_total order))))
    (Some (if cs_cod dto then cents (od_grand_total order) else 0%Q)) "500001"
    (coalesce (option_map oa_postal_code address) "110001")
    (coalesce (option_map oa_full_name address) "Customer")
    (address ≫= oa_phone) (coalesce (option_map oa_line1 address) "Address")
    (coalesce (option_map oa_city address) "City") (coalesce (option_map oa_state address) "State").

Definition total_weight (packages : list PackageDto) : Q :=
  foldl (λ s p, js_add s (pk_weightKg p)) 0%Q packages.

(** The row that [createShipment] stores. *)
Definition new_shipment (order : Order) (dto : CreateShipmentDto) (number : string)
  (partnerId : string) (address : option OrderAddress) (carrier : CreateCarrierShipmentResult)
  (now : Z) : string → Shipment := λ id,
  mkShipment id number (od_id order) (cs_fulfillmentOrderId dto) (cs_warehouseId dto) partnerId
    (cs_serviceId dto) None
    (match cs_shippingAddressId dto with Some a => Some a | None => option_map oa_id address end)
    (cr_trackingNumber carrier) (cr_awbNumber carrier) (Some (cr_partnerShipmentRef carrier)) "INR" 0
    (Some (numeric2 (coalesce (cs_declaredValue dto) (cents (od_grand_total order)))))
    (Some (numeric3 (total_weight (cs_packages dto)))) ss_created None None None None now None.

(** What [createShipment] writes beside the shipment itself. *)
Definition shipment_contents (shipmentId partnerId : string) (dto : CreateShipmentDto)
  (awbNumber : option string) : M (St Db) () :=
  db_createMany T_ShipmentPackage (map (create_package shipmentId) (cs_packages dto)) ;;
  when_ (negb (is_nil (cs_items dto)))
    (db_createMany T_ShipmentItem (map (λ i id, mkShipmentItem id shipmentId (si_orderItemId i)
       (si_quantity i) None) (cs_items dto))) ;;
  match awbNumber with
  | Some ((String _ _) as awb) =>
      now ← Date_now;
      _ ← db_create T_AwbNumber (λ id, mkAwbNumber id partnerId awb (Some shipmentId) (Some now)
            "assigned" None);
      mret tt
  | _ => mret tt
  end ;;
  _ ← upsertTracking shipmentId "created" None;
  auditEvent shipmentId "created" "Shipment created".

Definition createShipment (actorId : string) (dto : CreateShipmentDto) : M (St Db) Json :=
  LockService.withLock (ship_lock "create" (cs_orderId dto))
    (order ← db_findFirst T_Order (λ o, String.eqb (od_id o) (cs_orderId dto)
               && live (od_deleted_at o));
     order ← require_ order (AppException NOT_FOUND "Order not found" 404);
     addresses ← db_findMany T_OrderAddress (λ a, String.eqb (oa_order_id a) (od_id order));
     partner ← choose_partner (cs_partnerId dto);
     partner ← require_ partner
                 (AppException INTERNAL_ERROR "Shipping partner unavailable" 503);
     throw_if (existsb (λ p, js_le (pk_weightKg p) 0) (cs_packages dto))
       (AppException BAD_REQUEST "Invalid weight" 400) ;;
     let address := shipping_address addresses in
     at_ ← Date_now;
     let number := "SHP-" +:+ toString36 at_ in
     carrier ← gateway (sp_createShipment
                 (carrier_input order dto number (total_weight (cs_packages dto)) address));
     now ← Date_now;
     shipment ← db_create T_Shipment (new_shipment order dto number (spr_id partner) address carrier
                  now);
     shipment_contents (shp_id shipment) (spr_id partner) dto (cr_awbNumber carrier) ;;
     shipment_event "shipment.created" shipment ss_created [] ;;
     view_shipment shipment)
    (lock_opts 45000 10000).

(** [if (!shipment.partner_shipment_ref) throw] *)
Definition require_ref (s : Shipment) : M (St Db) string :=
  match shp_partner_shipment_ref s with
  | Some ((String _ _) as ref) => mret ref
  | _ => throw (AppException CONFLICT "Missing partner shipment ref" 409)
  end.

Definition generateLabel (actorId shipmentId : string) : M (St Db) Json :=
  LockService.withLock (ship_lock "label" shipmentId)
    (shipment ← requireShipment shipmentId;
     ref ← require_ref shipment;
     label ← gateway (sp_generateLabel ref (shp_awb_number shipment));
     now ← Date_now;
     _ ← db_create T_ShipmentLabel (λ id, mkShipmentLabel id (shp_id shipment)
           (Some (lr_labelUrl label)) (lr_format label) now None);
     when_ (bool_decide (shp_status shipment = ss_created))
       (_ ← transitionStatus (shp_id shipment) "packed" (Some actorId) (Some "Label generated");
        mret tt) ;;
     shipment_event "shipment.label_generated" shipment ss_packed [] ;;
     invalidateShipment (shp_id shipment) ;;
     mret (JObj [("shipmentId", JStr (shp_id shipment)); ("labelUrl", JStr (lr_labelUrl label));
                 ("format", JStr (ShippingLabelFormat_text (lr_format label)))]))
    (lock_opts 30000 5000).

(** A pickup moves a shipment that has not left yet to [dispatched]. *)
Definition dispatch_for_pickup (actorId : string) (s : Shipment) : M (St Db) () :=
  when_ (bool_decide (shp_status s = ss_packed) || bool_decide (shp_status s = ss_created))
    (when_ (bool_decide (shp_status s = ss_created))
       (_ ← transitionStatus (shp_id s) "packed" (Some actorId) (Some "Auto-pack before pickup");
        mret tt) ;;
     _ ← transitionStatus (shp_id s) "dispatched" (Some actorId) (Some "Pickup scheduled");
     mret tt).

Definition schedulePickup (actorId : string) (dto : SchedulePickupDto) : M (St Db) Json :=
  LockService.withLock (ship_lock "pickup" (sd_shipmentId dto))
    (shipment ← requireShipment (sd_shipmentId dto);
     ref ← require_ref shipment;
     pkgCount ← db_count T_ShipmentPackage (λ p, String.eqb (spk_shipment_id p) (shp_id shipment)
                  && live (spk_deleted_at p));
     pickup ← gateway (sp_schedulePickup ref (shp_warehouse_id shipment) (sd_scheduledAt dto)
                (Z.max pkgCount 1));
     now ← Date_now;
     request ← db_create T_PickupRequest (λ id, mkPickupRequest id (shp_warehouse_id shipment)
                 (shp_partner_id shipment) (Some (pr_partnerPickupRef pickup))
                 (Some (coalesce (pr_scheduledAt pickup) now)) (Z.max pkgCount 1) "scheduled"
                 (sd_notes dto) None);
     _ ← shp_update (shp_id shipment) (set_pickup (pkr_id request));
     dispatch_for_pickup actorId shipment ;;
     shipment_event "shipment.pickup_scheduled" shipment ss_dispatched [] ;;
     shipment_event "shipment.picked_up" shipment ss_dispatched [] ;;
     invalidateShipment (shp_id shipment) ;;
     mret (JObj [("shipmentId", JStr (shp_id shipment)); ("pickupRequestId", JStr (pkr_id request));
                 ("partnerPickupRef", JStr (pr_partnerPickupRef pickup))]))
    (lock_opts 30000 5000).

(** [mapShipment(updated)] fails when the engine skipped the change. *)
Definition updateStatus (actorId shipmentId : string) (dto : UpdateShipmentStatusDto)
  : M (St Db) Json :=
  LockService.withLock (ship_lock "status" shipmentId)
    (updated ← transitionStatus shipmentId (ud_status dto) (Some actorId) (ud_reason dto);
     invalidateShipment shipmentId ;;
     updated ← require_ updated (JsError "Cannot read properties of undefined (reading 'id')");
     view_shipment updated)
    (lock_opts 30000 5000).

Definition getShipment (id : string) : M (St Db) Json :=
  ship_getOrSet (SHIPPING_CACHE.shipment id) (s ← requireShipment id; view_shipment s).

Definition tracking_json (t : ShipmentTracking) : Json :=
  JObj [("status", JStr (ShipmentStatus_text (stk_current_status t)));
        ("location", jnull_str (stk_last_location t));
        ("lastEventAt", jnull_int (stk_last_event_at t))].

Definition event_json (e : TrackingEvent) : Json :=
  JObj [("status", JStr (ShipmentStatus_text (tev_event_status e)));
        ("code", jnull_str (tev_event_code e)); ("description", jnull_str (tev_description e));
        ("location", jnull_str (tev_location e)); ("occurredAt", JInt (tev_occurred_at e))].

(** The fifty latest events, newest first. *)
Definition getTracking (id : string) : M (St Db) Json :=
  ship_getOrSet (SHIPPING_CACHE.tracking id)
    (s ← requireShipment id;
     current ← db_findFirst T_ShipmentTracking (λ t, String.eqb (stk_shipment_id t) (shp_id s));
     events ← db_findMany_desc T_TrackingEvent (λ e, String.eqb (tev_shipment_id e) (shp_id s))
                tev_occurred_at;
     mret (JObj [("shipmentId", JStr (shp_id s)); ("status", JStr (ShipmentStatus_text (shp_status s)));
                 ("trackingNumber", jnull_str (shp_tracking_number s));
                 ("awbNumber", jnull_str (shp_awb_number s));
                 ("current", match current with Some t => tracking_json t | None => JNull end);
                 ("events", JArr (map event_json (take 50 events)))])).

(** The status change of a sync: an illegal one is swallowed. *)
Definition sync_status (shipmentId : string) (current : ShipmentStatus)
  (mapped : option ShipmentStatus) (actorId : option string) : M (St Db) () :=
  match mapped with
  | Some st =>
      if bool_decide (st = current) then mret tt
      else try_catch
        (_ ← transitionStatus shipmentId (ShipmentStatus_text st) actorId
               (Some "Carrier tracking sync"); mret tt)
        (λ _, mret tt)
  | None => mret tt
  end.

Definition record_eta (shipment : Shipment) (eta : Z) : M (St Db) () :=
  _ ← db_create T_ShipmentEtaHistory (λ id, mkShipmentEtaHistory id (shp_id shipment)
        (shp_estimated_delivery_at shipment) eta (Some "Carrier sync") (Some carrier_code) None);
  _ ← shp_update (shp_id shipment) (set_eta eta);
  mret tt.

Definition syncTracking (shipmentId : string) (actorId : option string) : M (St Db) Json :=
  LockService.withLock (ship_lock "tracking" shipmentId)
    (shipment ← requireShipment shipmentId;
     sync ← gateway (sp_syncTracking (shp_tracking_number shipment) (shp_awb_number shipment)
              (shp_partner_shipment_ref shipment));
     let mapped := mapCarrierStatus (ts_status sync) in
     sync_status shipmentId (shp_status shipment) mapped actorId ;;
     _ ← upsertTracking shipmentId
           (match mapped with Some st => ShipmentStatus_text st | None => ts_status sync end)
           (ts_location sync);
     for_each (ts_events sync) (λ ev,
       _ ← appendTrackingEvent shipmentId (ce_status ev) (ce_code ev) (ce_description ev)
             (ce_location ev) (Some (ce_occurredAt ev)); mret tt) ;;
     match ts_eta sync with Some eta => record_eta shipment eta | None => mret tt end ;;
     invalidateShipment shipmentId ;;
     getTracking shipmentId)
    (lock_opts 30000 5000).

Definition ship_job (name : string) (fields : list (string * string)) : M (St Db) () :=
  enqueue (mkJob QUEUE_SHIPPING name (JObj (map (λ kv, (fst kv, JStr (snd kv))) fields))).

Definition enqueueTrackingSync (shipmentId : string) : M (St Db) () :=
  ship_job SHIPPING_JOBS.TRACKING_SYNC [("shipmentId", shipmentId)].
End shipping.
