(* ===== verification/Carrier.v ===== *)
(** * The carrier: webhooks, returns to origin, rates

    Models the rest of [backend/src/modules/shipping]:
    [services/shipping-webhook.service.ts] with its repository,
    [services/reverse-logistics.service.ts] with the graphs of
    [definitions/reverse.definition.ts], [services/rates.service.ts] and the worker.
    Requests carry weights as JavaScript numbers. *)
From S2P Require Import Prelude Core Effects Redis Lock StateMachine JsNumber Schema Database Tables Payments Webhooks Shipping.
From Stdlib Require Import QArith.

#[local] Open Scope Z_scope.

(** ** Reverse shipments and returns to origin ([definitions/reverse.definition.ts]) *)

Definition reverseShipmentStateMachine : StateMachineDefinition := mkMachine "reverse_shipment"
  [("requested", ["scheduled"; "cancelled"]);
   ("scheduled", ["picked_up"; "cancelled"; "failed"]);
   ("picked_up", ["in_transit"; "failed"]);
   ("in_transit", ["received"; "failed"]);
   ("received", []); ("cancelled", []);
   ("failed", ["requested"])] true.

Definition rtoStateMachine : StateMachineDefinition := mkMachine "rto"
  [("initiated", ["in_transit"; "cancelled"]);
   ("in_transit", ["received"; "cancelled"]);
   ("received", ["closed"]);
   ("closed", []); ("cancelled", [])] true.

(** ** Requests ([dto/shipping.dto.ts]) *)

Record CreateReverseDto := mkCreateReverseDto {
  rv_dto_orderId : string; rv_dto_warehouseId : string; rv_dto_shipmentId : option string;
  rv_dto_returnId : option string; rv_dto_exchangeRequestId : option string;
  rv_dto_reverseType : ReverseShipmentType; rv_dto_partnerId : option string;
}.
Record CreateRtoDto := mkCreateRtoDto { rt_forwardShipmentId : string; rt_dto_reason : option string }.
Record EstimateShippingDto := mkEstimateDto {
  es_fromPincode : string; es_toPincode : string; es_weightKg : Q; es_cod : bool;
  es_declaredValue : option Q; es_partnerId : option string;
}.
Record CreateRateDto := mkCreateRateDto {
  rd_rateCardId : string; rd_fromZoneId : option string; rd_toZoneId : option string;
  rd_minWeightKg : Q; rd_maxWeightKg : option Q; rd_baseRate : Q; rd_perKgRate : Q;
}.
Record CreateCarrierDto := mkCreateCarrierDto {
  cc_dto_code : string; cc_dto_name : string; cc_dto_isPrimary : option bool;
  cc_dto_configJson : option (list (string * Json));
}.

(** ** Row updates *)

Definition set_reverse_status (st : ReverseShipmentStatus) (r : ReverseShipment) : ReverseShipment :=
  mkReverseShipment (rsh_id r) (rsh_reverse_number r) (rsh_reverse_type r) (rsh_order_id r)
    (rsh_return_id r) (rsh_exchange_request_id r) (rsh_warehouse_id r) (rsh_partner_id r)
    (rsh_shipment_id r) st (rsh_requested_at r) (rsh_deleted_at r).

Definition set_rto_status (st : RtoStatus) (received : option Z) (r : RtoShipment) : RtoShipment :=
  mkRtoShipment (rto_id r) (rto_forward_shipment_id r) (rto_warehouse_id r) (rto_partner_id r)
    (rto_reason r) (rto_tracking_number r) (rto_awb_number r) st (rto_initiated_at r) received
    (rto_deleted_at r).

Definition set_ship_webhook (st : string) (error : option string) (retries : Z)
  (processed : option Z) (w : ShippingWebhook) : ShippingWebhook :=
  mkShippingWebhook (swh_id w) (swh_partner_id w) (swh_shipment_id w) (swh_event_id w)
    (swh_event_type w) (swh_idempotency_key w) (swh_signature w) (swh_payload w) (swh_verified w)
    st (swh_retry_count w + retries) (keep processed (swh_processed_at w))
    (keep error (swh_error_message w)) (swh_deleted_at w).

(** [Array.prototype.sort] with the comparator [a.total - b.total]: stable. *)
Fixpoint insert_by {A} (key : A → Q) (x : A) (l : list A) : list A :=
  match l with
  | [] => [x]
  | y :: rest => if js_le 0 (js_sub (key y) (key x)) then x :: l else y :: insert_by key x rest
  end.
Definition sort_by {A} (key : A → Q) (l : list A) : list A := foldr (insert_by key) [] l.

(** [volumetricWeightKg] ([utils/weight.util.ts]). [toFixed3] is [toFixed(3)] in
    thousandths. *)
Definition toFixed3 (x : Q) : Z :=
  if Qle_bool 0 x then Qround.Qfloor (x * 1000 + (1 # 2)) else - Qround.Qfloor (- x * 1000 + (1 # 2)).

Definition volumetricWeightKg (lengthCm widthCm heightCm divisor : Q) : Q :=
  grams (toFixed3 (js_div (js_mul (js_mul lengthCm widthCm) heightCm) divisor)).

(** How the server orders texts, and what a number becomes when it is sent to be
    compared with a NUMERIC column: the decimal that JavaScript prints for it. *)
Class ServerText := {
  text_le : string → string → bool;
  order_text : ∀ {A : Type}, (A → string) → list A → list A;
  order_text_perm : ∀ A (f : A → string) l, order_text f l ≡ₚ l;
  order_text_sorted : ∀ A (f : A → string) l,
    StronglySorted (λ x y, text_le (f x) (f y) = true) (order_text f l);
  sent_decimal : Q → Q;
  sent_decimal_near : ∀ q, (Qabs.Qabs (sent_decimal q - q) <= Qabs.Qabs q / inject_Z (2 ^ 52))%Q;
}.

(** ** Views ([mappers/shipping.mapper.ts]) *)

Definition mapService (m : ShippingService) : Json :=
  JObj [("id", JStr (ssv_id m)); ("partnerId", JStr (ssv_partner_id m)); ("code", JStr (ssv_code m));
        ("name", JStr (ssv_name m)); ("serviceType", JStr (ssv_service_type m));
        ("isCodSupported", JBool (ssv_is_cod_supported m));
        ("status", JStr (RecordStatus_text (ssv_status m)))].

Definition mapPickupPoint (p : PickupPoint) : Json :=
  JObj [("id", JStr (ppt_id p)); ("code", JStr (ppt_code p)); ("name", JStr (ppt_name p));
        ("city", jnull_str (ppt_city p)); ("postalCode", jnull_str (ppt_postal_code p));
        ("pointType", JStr (ppt_point_type p)); ("status", JStr (RecordStatus_text (ppt_status p)))].

Definition mapSlot (s : DeliverySlot) : Json :=
  JObj [("id", JStr (dsl_id s)); ("shipmentId", JStr (dsl_shipment_id s));
        ("slotStart", JInt (dsl_slot_start s)); ("slotEnd", JInt (dsl_slot_end s));
        ("isConfirmed", JBool (dsl_is_confirmed s))].

Section carrier.
  Context `{Redis, !Scheduler, !Crypto, !Postgres, !ShippingProvider, !ClientText, !NumberText}.

(** ** ShippingWebhookRepository *)

Definition swh_findByIdempotency (partnerId key : string) : M (St Db) (option ShippingWebhook) :=
  db_findFirst T_ShippingWebhook (λ w, String.eqb (swh_partner_id w) partnerId
    && same_opt (swh_idempotency_key w) (Some key) && live (swh_deleted_at w)).

Definition swh_mark (id st : string) (error : option string) (retries : Z)
  : M (St Db) ShippingWebhook :=
  now ← Date_now;
  db_update T_ShippingWebhook id
    (set_ship_webhook st error retries (if String.eqb st "processed" then Some now else None)).

Definition swh_findById (id : string) : M (St Db) (option ShippingWebhook) :=
  db_findFirst T_ShippingWebhook (λ w, String.eqb (swh_id w) id && live (swh_deleted_at w)).

(** ** ShippingWebhookService ([services/shipping-webhook.service.ts]) *)

(** The [try] block of [processWebhook]. *)
Definition ship_process_body (row : ShippingWebhook) : M (St Db) () :=
  match swh_shipment_id row with
  | Some ((String _ _) as id) =>
      _ ← syncTracking id None;
      _ ← appendTrackingEvent id (swh_event_type row) None (Some "Carrier webhook") None None;
      mret tt
  | _ => mret tt
  end ;;
  _ ← swh_mark (swh_id row) "processed" None 0;
  emit (mkEvent "carrier.webhook.processed"
    (JObj ([("webhookId", JStr (swh_id row)); ("carrier", JStr "shiprocket");
            ("eventType", JStr (swh_event_type row))] ++ jopt "shipmentId" (swh_shipment_id row)))).

Definition ship_processWebhook (webhookId : string) : M (St Db) () :=
  row ← swh_findById webhookId;
  match row with
  | None => mret tt
  | Some row =>
      if String.eqb (swh_processing_status row) "processed" then mret tt
      else try_catch (ship_process_body row)
        (λ err, _ ← swh_mark webhookId "failed" (Some (slice0 2000 (err_string err))) 1; throw err)
  end.

(** [String(payload.a ?? payload.b ?? ... ?? otherwise)] *)
Fixpoint first_field (names : list string) (payload : Json) (otherwise : string) : string :=
  match names with
  | [] => otherwise
  | n :: rest => match jfield n (Some payload) with
                 | Some v => js_String v
                 | None => first_field rest payload otherwise
                 end
  end.

Definition carrier_event_type (payload : Json) : string :=
  first_field ["event"; "current_status"] payload "unknown".
Definition carrier_awb (payload : Json) : string :=
  first_field ["awb"; "awb_code"; "sr_order_id"] payload "".
Definition carrier_event_id (payload : Json) : string :=
  first_field ["id"] payload (carrier_event_type payload +:+ ":" +:+ carrier_awb payload).

Definition receiveShiprocket (rawBody signature : string) (payload : Json)
  : M (St Db) WebhookReceipt :=
  found ← findPartnerByCode sc_shiprocket;
  let partnerId := coalesce (option_map spr_id found) SHIPROCKET_PARTNER_ID in
  throw_if (negb (sp_verifyWebhookSignature rawBody signature ""))
    (AppException UNAUTHORIZED "Invalid webhook signature" 401) ;;
  let eventType := carrier_event_type payload in
  let awb := carrier_awb payload in
  let eventId := carrier_event_id payload in
  let key := slice0 128 eventId in
  LockService.withLock (ship_lock "webhook" key)
    (existing ← swh_findByIdempotency partnerId key;
     match existing with
     | Some w =>
         if String.eqb (swh_processing_status w) "processed" then
           mret (mkWebhookReceipt true (swh_id w) false)
         else
           ship_job SHIPPING_JOBS.WEBHOOK [("webhookId", swh_id w)] ;;
           mret (mkWebhookReceipt true (swh_id w) true)
     | None =>
         shipment ← match awb with "" => mret None | _ => findByTracking awb end;
         row ← db_create T_ShippingWebhook (λ id, mkShippingWebhook id partnerId
                 (option_map shp_id shipment) (Some (slice0 128 eventId)) (slice0 120 eventType)
                 (Some key) (Some (slice0 512 signature)) payload true "verified" 0 None None None);
         emit (mkEvent "carrier.webhook.received"
           (JObj [("webhookId", JStr (swh_id row)); ("carrier", JStr "shiprocket");
                  ("eventType", JStr eventType)])) ;;
         ship_job SHIPPING_JOBS.WEBHOOK [("webhookId", swh_id row)] ;;
         try_catch (ship_processWebhook (swh_id row)) (λ _, mret tt) ;;
         mret (mkWebhookReceipt false (swh_id row) false)
     end)
    (lock_opts 30000 5000).

(** ** ReverseLogisticsService ([services/reverse-logistics.service.ts]) *)

Definition createReverse (actorId : string) (dto : CreateReverseDto) : M (St Db) Json :=
  LockService.withLock (ship_lock "reverse" (rv_dto_orderId dto))
    (order ← db_findFirst T_Order (λ o, String.eqb (od_id o) (rv_dto_orderId dto)
               && live (od_deleted_at o));
     _ ← require_ order (AppException NOT_FOUND "Order not found" 404);
     asked ← requested_partner (rv_dto_partnerId dto) false;
     partner ← match asked with Some p => mret (Some p) | None => findPrimaryPartner end;
     partner ← require_ partner (AppException INTERNAL_ERROR "Partner unavailable" 503);
     now ← Date_now;
     row ← db_create T_ReverseShipment (λ id, mkReverseShipment id ("REV-" +:+ toString36 now)
             (rv_dto_reverseType dto) (rv_dto_orderId dto) (rv_dto_returnId dto)
             (rv_dto_exchangeRequestId dto) (rv_dto_warehouseId dto) (spr_id partner)
             (rv_dto_shipmentId dto) rss_requested now None);
     mret (JObj [("id", JStr (rsh_id row)); ("reverseNumber", JStr (rsh_reverse_number row));
                 ("status", JStr (ReverseShipmentStatus_text (rsh_status row)));
                 ("reverseType", JStr (ReverseShipmentType_text (rsh_reverse_type row)))]))
    (lock_opts 30000 5000).

Definition scheduleReversePickup (actorId reverseId : string) : M (St Db) Json :=
  reverse ← db_findFirst T_ReverseShipment (λ r, String.eqb (rsh_id r) reverseId
              && live (rsh_deleted_at r));
  reverse ← require_ reverse (AppException NOT_FOUND "Reverse shipment not found" 404);
  _ ← transition reverseShipmentStateMachine
        (mkOptions reverseId (ReverseShipmentStatus_text (rsh_status reverse)) "scheduled"
          (Some actorId) None None None
          (λ _, db_update T_ReverseShipment reverseId (set_reverse_status rss_scheduled))
          None None false);
  mret (JObj [("id", JStr reverseId); ("status", JStr "scheduled")]).

(** The statuses from which a return to origin changes the forward shipment. *)
Definition returns_from (st : ShipmentStatus) : bool :=
  match st with
  | ss_out_for_delivery | ss_in_transit | ss_delivery_failed | ss_dispatched => true
  | _ => false
  end.

Definition return_forward (actorId : string) (forward : Shipment) (rtoId : string)
  (reason : option string) : M (St Db) () :=
  when_ (returns_from (shp_status forward))
    (_ ← transition shipmentStateMachine
       (mkOptions (shp_id forward) (ShipmentStatus_text (shp_status forward)) "returned"
         (Some actorId) (Some (coalesce reason "RTO")) None None
         (λ _, shp_update (shp_id forward) (set_shipment ss_returned None None None None None))
         (Some (λ _, auditEvent (shp_id forward) "returned" ("RTO " +:+ rtoId))) None false);
     mret tt).

Definition createRto (actorId : string) (dto : CreateRtoDto) : M (St Db) Json :=
  LockService.withLock (ship_lock "rto" (rt_forwardShipmentId dto))
    (forward ← requireShipment (rt_forwardShipmentId dto);
     now ← Date_now;
     rto ← db_create T_RtoShipment (λ id, mkRtoShipment id (shp_id forward) (shp_warehouse_id forward)
             (shp_partner_id forward) (rt_dto_reason dto) (shp_tracking_number forward)
             (shp_awb_number forward) rto_initiated_ now None None);
     return_forward actorId forward (rto_id rto) (rt_dto_reason dto) ;;
     shipment_event "shipment.rto" forward ss_returned [("rtoId", JStr (rto_id rto))] ;;
     shipment_event "shipment.returned" forward ss_returned [] ;;
     invalidateShipment (shp_id forward) ;;
     mret (JObj [("id", JStr (rto_id rto)); ("forwardShipmentId", JStr (shp_id forward));
                 ("status", JStr (RtoStatus_text (rto_status rto)))]))
    (lock_opts 30000 5000).

Definition advanceRto (actorId rtoId to : string) : M (St Db) Json :=
  rto ← db_findFirst T_RtoShipment (λ r, String.eqb (rto_id r) rtoId && live (rto_deleted_at r));
  rto ← require_ rto (AppException NOT_FOUND "RTO not found" 404);
  _ ← transition rtoStateMachine
        (mkOptions rtoId (RtoStatus_text (rto_status rto)) to (Some actorId) None None None
          (λ _, now ← Date_now;
                st ← as_enum "status" RtoStatus_text RtoStatus_members to;
                db_update T_RtoShipment rtoId (set_rto_status st
                  (if String.eqb to "received" then Some now else rto_received_at rto)))
          None None false);
  mret (JObj [("id", JStr rtoId); ("status", JStr to)]).

(** ** RatesService ([services/rates.service.ts]) *)

Context `{!ServerText}.

Definition active (st : RecordStatus) : bool := bool_decide (st = rs_active).

Definition listMethods : M (St Db) Json :=
  ship_getOrSet SHIPPING_CACHE.methods
    (rows ← db_findMany T_ShippingService (λ m, active (ssv_status m) && live (ssv_deleted_at m));
     mret (JArr (map mapService (order_text ssv_name rows)))).

Definition listPickupPoints : M (St Db) Json :=
  ship_getOrSet SHIPPING_CACHE.pickupPoints
    (rows ← db_findMany T_PickupPoint (λ p, active (ppt_status p) && live (ppt_deleted_at p));
     mret (JArr (map mapPickupPoint (take 100 rows)))).

Definition listDeliverySlots : M (St Db) Json :=
  ship_getOrSet SHIPPING_CACHE.slots
    (rows ← db_findMany_desc T_DeliverySlot (λ s, active (dsl_status s) && live (dsl_deleted_at s)
              && negb (dsl_is_confirmed s)) (λ s, - dsl_slot_start s);
     mret (JArr (map mapSlot (take 50 rows)))).

(** [pincode_from <= pincode AND pincode <= pincode_to]; NULL bounds match nothing. *)
Definition in_zone (pincode : string) (z : ShippingZone) : bool :=
  live (szn_deleted_at z) && active (szn_status z)
  && match szn_pincode_from z, szn_pincode_to z with
     | Some a, Some b => text_le a pincode && text_le pincode b
     | _, _ => false
     end.

Definition findZone (pincode : string) : M (St Db) (option ShippingZone) :=
  db_findFirst T_ShippingZone (in_zone pincode).

(** [min <= weight AND (max IS NULL OR weight <= max)], in exact decimals. *)
Definition rate_covers (weight : Q) (r : ShippingRate) : bool :=
  Qle_bool (inject_Z (srt_min_weight_kg r) / 1000) (sent_decimal weight)
  && match srt_max_weight_kg r with
     | Some m => Qle_bool (sent_decimal weight) (inject_Z m / 1000)
     | None => true
     end.

Definition card_of (d : Db) (r : ShippingRate) : option ShippingRateCard :=
  find_first (λ c, String.eqb (src_id c) (srt_rate_card_id r)) (view L_ShippingRateCard d).

Definition rate_of_partner (d : Db) (partnerId : option string) (r : ShippingRate) : bool :=
  match partnerId with
  | Some ((String _ _) as p) =>
      match card_of d r with Some c => String.eqb (src_partner_id c) p | None => false end
  | _ => true
  end.

(** The rates that may price the request, at most twenty. *)
Definition matching_rates (dto : EstimateShippingDto) : M (St Db) (list ShippingRate) :=
  gets (λ s, take 20 (scan (where_ (λ r, live (srt_deleted_at r) && active (srt_status r)
    && rate_covers (es_weightKg dto) r && rate_of_partner (tables s) (es_partnerId dto) r)
    (view L_ShippingRate (tables s))))).

(** [id && id !== zone.id] is false. *)
Definition zone_fits (id : option string) (zone : ShippingZone) : bool :=
  match id with
  | Some ((String _ _) as i) => String.eqb i (szn_id zone)
  | _ => true
  end.

Record Quote := mkQuote {
  qt_rateId : string; qt_partnerId : string; qt_partnerCode : option string;
  qt_serviceId : option string; qt_serviceName : option string; qt_currency : string;
  qt_baseRate : Q; qt_perKgRate : Q; qt_codFee : Q; qt_insurance : Q; qt_total : Q;
  qt_fromZone : string; qt_toZone : string;
}.

Definition freight (weight : Q) (r : ShippingRate) : Q :=
  let billable := js_max weight (grams (srt_min_weight_kg r)) in
  js_add (cents (srt_base_rate r))
    (js_mul (cents (srt_per_kg_rate r)) (js_max 0 (js_sub billable (grams (srt_min_weight_kg r))))).

Definition cod_fee (cod : bool) (amount : Q) : Q :=
  if cod then js_min 50 (js_mul amount (fl (2 # 100))) else 0%Q.

Definition insurance_of (declaredValue : option Q) : Q :=
  match declaredValue with
  | Some v => if js_lt 0 v then js_mul v (fl (5 # 1000)) else 0%Q
  | None => 0%Q
  end.

Definition quote_of (d : Db) (dto : EstimateShippingDto) (fromZone toZone : ShippingZone)
  (r : ShippingRate) : Quote :=
  let card := card_of d r in
  let amount := freight (es_weightKg dto) r in
  let codFee := cod_fee (es_cod dto) amount in
  let insurance := insurance_of (es_declaredValue dto) in
  mkQuote (srt_id r) (coalesce (option_map src_partner_id card) "")
    (card ≫= λ c, option_map (λ p, ShippingPartnerCode_text (spr_code p))
       (find_first (λ p, String.eqb (spr_id p) (src_partner_id c)) (view L_ShippingPartner d)))
    (card ≫= src_service_id)
    ((card ≫= src_service_id) ≫= λ i, option_map ssv_name
       (find_first (λ m, String.eqb (ssv_id m) i) (view L_ShippingService d)))
    (srt_currency r) (cents (srt_base_rate r)) (cents (srt_per_kg_rate r)) codFee insurance
    (cents (toFixed2 (js_add amount (js_add codFee insurance)))) (szn_code fromZone) (szn_code toZone).

Definition quotes_of (d : Db) (dto : EstimateShippingDto) (fromZone toZone : ShippingZone)
  (rates : list ShippingRate) : list Quote :=
  sort_by qt_total (map (quote_of d dto fromZone toZone)
    (where_ (λ r, zone_fits (srt_from_zone_id r) fromZone && zone_fits (srt_to_zone_id r) toZone)
            rates)).

Definition Quote_json (q : Quote) : Json :=
  JObj ([("rateId", JStr (qt_rateId q)); ("partnerId", JStr (qt_partnerId q))]
    ++ jopt "partnerCode" (qt_partnerCode q) ++ [("serviceId", jnull_str (qt_serviceId q))]
    ++ jopt "serviceName" (qt_serviceName q)
    ++ [("currency", JStr (qt_currency q)); ("baseRate", JNum (qt_baseRate q));
        ("perKgRate", JNum (qt_perKgRate q)); ("codFee", JNum (qt_codFee q));
        ("insurance", JNum (qt_insurance q)); ("total", JNum (qt_total q));
        ("fromZone", JStr (qt_fromZone q)); ("toZone", JStr (qt_toZone q))]).

(** The key under which an estimate is cached. *)
Definition estimate_key (dto : EstimateShippingDto) : string :=
  join ":" [es_fromPincode dto; es_toPincode dto; number_text (es_weightKg dto);
            if es_cod dto then "cod" else "ppd"; coalesce (es_partnerId dto) "any"].

(** The factory of [estimate]. *)
Definition price (dto : EstimateShippingDto)
  : M (St Db) (list Quote * (ShippingZone * ShippingZone)) :=
  fromZone ← findZone (es_fromPincode dto);
  toZone ← findZone (es_toPincode dto);
  match fromZone, toZone with
  | Some fromZone, Some toZone =>
      rates ← matching_rates dto;
      quotes ← gets (λ s, quotes_of (tables s) dto fromZone toZone rates);
      mret (quotes, (fromZone, toZone))
  | _, _ => throw (AppException BAD_REQUEST "Shipping zone not found for pincode" 400)
  end.

Definition estimate (dto : EstimateShippingDto) : M (St Db) Json :=
  ship_getOrSet (SHIPPING_CACHE.rates (estimate_key dto))
    (priced ← price dto;
     mret (JObj [("quotes", JArr (map Quote_json (fst priced)));
                 ("fromZone", JStr (szn_code (fst (snd priced))));
                 ("toZone", JStr (szn_code (snd (snd priced))))])).

Definition listRates (fromPincode toPincode : option string) (weightKg : option Q) : M (St Db) Json :=
  estimate (mkEstimateDto (coalesce fromPincode "500001") (coalesce toPincode "110001")
    (coalesce weightKg 1%Q) false None None).

Definition createRate (actorId : string) (dto : CreateRateDto) : M (St Db) Json :=
  row ← db_create T_ShippingRate (λ id, mkShippingRate id (rd_rateCardId dto) (rd_fromZoneId dto)
          (rd_toZoneId dto) (numeric3 (rd_minWeightKg dto)) (option_map numeric3 (rd_maxWeightKg dto))
          (numeric2 (rd_baseRate dto)) (numeric2 (rd_perKgRate dto)) "INR" rs_active None);
  _ ← CacheService.delByPrefix "shipping:rates:";
  mret (JObj [("id", JStr (srt_id row)); ("baseRate", JNum (cents (srt_base_rate row)));
              ("perKgRate", JNum (cents (srt_per_kg_rate row)))]).

(** [scrubSecrets]: the top-level keys that name a secret are removed. *)
Definition names_secret (k : string) : bool :=
  let lower := toLowerCase k in
  str_includes "secret" lower || str_includes "password" lower || str_includes "token" lower.

Definition scrubSecrets (config : option (list (string * Json))) : option Json :=
  option_map (λ fields, JObj (where_ (λ kv, negb (names_secret (fst kv))) fields)) config.

Definition createCarrier (actorId : string) (dto : CreateCarrierDto) : M (St Db) Json :=
  code ← as_enum "code" ShippingPartnerCode_text ShippingPartnerCode_members (cc_dto_code dto);
  row ← db_create T_ShippingPartner (λ id, mkShippingPartner id code (cc_dto_name dto)
          (coalesce (cc_dto_isPrimary dto) false) (scrubSecrets (cc_dto_configJson dto)) rs_active None);
  CacheService.del SHIPPING_CACHE.methods ;;
  mret (JObj [("id", JStr (spr_id row)); ("code", JStr (ShippingPartnerCode_text (spr_code row)));
              ("name", JStr (spr_name row)); ("isPrimary", JBool (spr_is_primary row))]).

(** ** The worker ([workers/shipping.worker.ts]) *)

(** [process(job)]; the data names a webhook or a shipment. *)
Definition ship_worker (name id : string) : M (St Db) () :=
  if String.eqb name SHIPPING_JOBS.WEBHOOK then ship_processWebhook id
  else if String.eqb name SHIPPING_JOBS.TRACKING_SYNC || String.eqb name SHIPPING_JOBS.ETA_REFRESH
  then _ ← syncTracking id None; mret tt
  else mret tt.
End carrier.

(** ** A server to evaluate the definitions with *)

(** Texts are ordered by their bytes and a number is sent as it is. *)
Definition text_order {A} (f : A → string) : relation A := λ x y, String.le (f x) (f y).
#[local] Instance text_order_dec {A} (f : A → string) : RelDecision (text_order f).
Proof. intros x y. unfold text_order. apply _. Defined.
#[local] Instance text_order_total {A} (f : A → string) : Total (text_order f).
Proof. intros x y. unfold text_order. apply (total String.le). Qed.
#[local] Instance text_order_trans {A} (f : A → string) : Transitive (text_order f).
Proof. intros x y z. unfold text_order. by etransitivity. Qed.

Definition plain_order {A} (f : A → string) (l : list A) : list A := merge_sort (text_order f) l.

Lemma plain_order_perm A (f : A → string) l : plain_order f l ≡ₚ l.
Proof. apply merge_sort_Permutation. Qed.

Lemma plain_order_sorted A (f : A → string) l :
  StronglySorted (λ x y, String.leb (f x) (f y) = true) (plain_order f l).
Proof.
  pose proof (StronglySorted_merge_sort (text_order f) l) as Hs. fold (plain_order f l) in Hs.
  induction Hs as [|x l' _ IH Hx]; constructor; [done|].
  eapply Forall_impl; [exact Hx|]. intros y. apply Is_true_true.
Qed.

Lemma plain_decimal (q : Q) : (Qabs.Qabs (q - q) <= Qabs.Qabs q / inject_Z (2 ^ 52))%Q.
Proof.
  assert (q - q == 0)%Q as -> by ring. apply Qle_shift_div_l; [done|].
  rewrite Qmult_0_l. apply Qabs.Qabs_nonneg.
Qed.

Definition plain_server : ServerText := {|
  text_le := String.leb; order_text := @plain_order; order_text_perm := plain_order_perm;
  order_text_sorted := plain_order_sorted;
  sent_decimal q := q; sent_decimal_near := plain_decimal |}.
