(* ===== verification/ShippingRules.v ===== *)
(** * Shipping rules

    What the shipping services guarantee: shipments, returns to origin and reverse
    shipments follow their state machines whatever requests, webhooks and jobs
    arrive and however they end; a shipment that has left was packed and dispatched;
    the tracking history only grows; a status change that succeeds is recorded
    everywhere it should be; quotes are sorted, never below the base rate, and each
    comes from a rate that covers the request. The examples at the end show where
    the code falls short. *)
From S2P Require Import Prelude Core Effects Redis Lock StateMachine JsNumber Schema Database Tables Sample Payments PaymentRules Webhooks Lives Shipping Carrier.
From Stdlib Require Import QArith Qabs Qround Lqa.

#[local] Open Scope Z_scope.

(** ** The life of a shipment *)

(** What identifies a shipment and never changes. *)
Definition parcel (s : Shipment) :=
  (shp_shipment_number s, shp_order_id s, shp_fulfillment_order_id s, shp_warehouse_id s,
   shp_partner_id s, shp_service_id s, shp_tracking_number s, shp_awb_number s,
   shp_partner_shipment_ref s, shp_declared_value s, shp_total_weight_kg s, shp_created_at s).

(** The statuses after [dispatched], and [dispatched] itself. *)
Definition departed (st : ShipmentStatus) : bool :=
  match st with ss_created | ss_packed | ss_cancelled => false | _ => true end.

(** The time columns agree with the status. *)
Definition times_ok (s : Shipment) : Prop :=
  (shp_status s = ss_packed → is_Some (shp_packed_at s))
  ∧ (departed (shp_status s) = true → is_Some (shp_packed_at s) ∧ is_Some (shp_dispatched_at s))
  ∧ (shp_status s = ss_delivered → is_Some (shp_delivered_at s)).

Definition ship_edge (a b : ShipmentStatus) : Prop :=
  edge shipmentStateMachine (ShipmentStatus_text a) (ShipmentStatus_text b).

(** Only a packed shipment departs, and a departed one was packed before. *)
Lemma edge_departed a b : ship_edge a b → departed b = true → departed a = true ∨ a = ss_packed ∧ b = ss_dispatched.
Proof. intros [_ He] Hb. destruct a, b; try done; try (by left); try (by right); by vm_compute in He. Qed.

Lemma edge_packed a : ship_edge a ss_packed → a = ss_created.
Proof. intros [Hne He]. destruct a; try done; by vm_compute in He. Qed.

(** A change of status along an edge, with its time columns. *)
Lemma times_moved s st now :
  ship_edge (shp_status s) st → times_ok s → times_ok (set_status st now s).
Proof.
  intros He (Hp & Hd & Hv). unfold times_ok, set_status, set_shipment. simpl. split_and!.
  - intros ->. by eexists.
  - intros Hst. destruct (edge_departed _ _ He Hst) as [Ha|[Ha ->]].
    + destruct (Hd Ha) as [[p Hp'] [t Ht]]. rewrite Hp', Ht.
      destruct (bool_decide _), (bool_decide _); simpl; eauto.
    + destruct (Hp Ha) as [p ->]. simpl. eauto.
  - intros ->. by eexists.
Qed.

Lemma times_kept s pickup eta :
  times_ok s → times_ok (set_shipment (shp_status s) pickup None None None eta s).
Proof. done. Qed.

Lemma times_returned s :
  returns_from (shp_status s) = true → times_ok s →
  times_ok (set_shipment ss_returned None None None None None s).
Proof.
  intros Hr (_ & Hd & _). unfold times_ok. simpl. split_and!; [done| |done]. intros _. apply Hd.
  by destruct (shp_status s).
Qed.

(** ** The tables of shipping, before and after *)

Notation shipments d := (view L_Shipment d).
Notation rtos d := (view L_RtoShipment d).
Notation reverses d := (view L_ReverseShipment d).
Notation history d := (view L_TrackingEvent d).
Notation trackings d := (view L_ShipmentTracking d).

Definition shipments_live : list Shipment → list Shipment → Prop :=
  lives shp_id (λ s, ShipmentStatus_text (shp_status s)) (edge shipmentStateMachine) parcel times_ok.
Definition rtos_live : list RtoShipment → list RtoShipment → Prop :=
  lives rto_id (λ r, RtoStatus_text (rto_status r)) (edge rtoStateMachine) rto_forward_shipment_id
    (λ _, True).
Definition reverses_live : list ReverseShipment → list ReverseShipment → Prop :=
  lives rsh_id (λ r, ReverseShipmentStatus_text (rsh_status r)) (edge reverseShipmentStateMachine)
    rsh_reverse_number (λ _, True).

Record carried (d d' : Db) : Prop := {
  ca_shipments : shipments_live (shipments d) (shipments d');
  ca_rtos : rtos_live (rtos d) (rtos d');
  ca_reverses : reverses_live (reverses d) (reverses d');
  ca_history : history d `prefix_of` history d';
}.

#[export] Instance carried_preorder : PreOrder carried.
Proof.
  split; [intros d; split; by try apply lives_preorder|].
  intros d1 d2 d3 [] []. split; [..|by etrans]; (eapply lives_preorder; eassumption).
Qed.

(** The four tables are what they were. *)
Definition same_ship (d d' : Db) : Prop :=
  shipments d' = shipments d ∧ rtos d' = rtos d ∧ reverses d' = reverses d ∧ history d' = history d.

Lemma carried_same d d' : same_ship d d' → carried d d'.
Proof. intros (E1 & E2 & E3 & E4). split; rewrite ?E1, ?E2, ?E3, ?E4; done || apply lives_preorder. Qed.

(** Changes to one of them. *)
Lemma carried_shipments d rows :
  shipments_live (shipments d) rows → carried d (put L_Shipment rows d).
Proof. intros Hl. split; rewrite ?view_put; try done; apply lives_preorder. Qed.

Lemma carried_rtos d rows : rtos_live (rtos d) rows → carried d (put L_RtoShipment rows d).
Proof. intros Hl. split; rewrite ?view_put; try done; apply lives_preorder. Qed.

Lemma carried_reverses d rows :
  reverses_live (reverses d) rows → carried d (put L_ReverseShipment rows d).
Proof. intros Hl. split; rewrite ?view_put; try done; apply lives_preorder. Qed.

Lemma carried_history d e : carried d (put L_TrackingEvent (history d ++ [e]) d).
Proof. split; rewrite ?view_put; try apply lives_preorder. by exists [e]. Qed.

(** ** Requests, webhooks and jobs *)

Inductive ShipOp :=
| so_create (actorId : string) (dto : CreateShipmentDto)
| so_label (actorId shipmentId : string)
| so_pickup (actorId : string) (dto : SchedulePickupDto)
| so_status (actorId shipmentId : string) (dto : UpdateShipmentStatusDto)
| so_shipment (id : string)
| so_tracking (id : string)
| so_sync (shipmentId : string) (actorId : option string)
| so_enqueue (shipmentId : string)
| so_webhook (rawBody signature : string) (payload : Json)
| so_reverse (actorId : string) (dto : CreateReverseDto)
| so_reverse_pickup (actorId reverseId : string)
| so_rto (actorId : string) (dto : CreateRtoDto)
| so_advance (actorId rtoId to : string)
| so_methods | so_points | so_slots
| so_estimate (dto : EstimateShippingDto)
| so_rates (fromPincode toPincode : option string) (weightKg : option Q)
| so_rate (actorId : string) (dto : CreateRateDto)
| so_carrier (actorId : string) (dto : CreateCarrierDto)
| so_job (name id : string).

Section ship_ops.
Context `{Redis, !Scheduler, !Crypto, !Postgres, !ShippingProvider, !ClientText, !NumberText,
          !ServerText}.

Definition run_ship (op : ShipOp) : M (St Db) () :=
  match op with
  | so_create a dto => _ ← createShipment a dto; mret tt
  | so_label a id => _ ← generateLabel a id; mret tt
  | so_pickup a dto => _ ← schedulePickup a dto; mret tt
  | so_status a id dto => _ ← updateStatus a id dto; mret tt
  | so_shipment id => _ ← getShipment id; mret tt
  | so_tracking id => _ ← getTracking id; mret tt
  | so_sync id a => _ ← syncTracking id a; mret tt
  | so_enqueue id => enqueueTrackingSync id
  | so_webhook raw sig payload => _ ← receiveShiprocket raw sig payload; mret tt
  | so_reverse a dto => _ ← createReverse a dto; mret tt
  | so_reverse_pickup a id => _ ← scheduleReversePickup a id; mret tt
  | so_rto a dto => _ ← createRto a dto; mret tt
  | so_advance a id to => _ ← advanceRto a id to; mret tt
  | so_methods => _ ← listMethods; mret tt
  | so_points => _ ← listPickupPoints; mret tt
  | so_slots => _ ← listDeliverySlots; mret tt
  | so_estimate dto => _ ← estimate dto; mret tt
  | so_rates f t w => _ ← listRates f t w; mret tt
  | so_rate a dto => _ ← createRate a dto; mret tt
  | so_carrier a dto => _ ← createCarrier a dto; mret tt
  | so_job name id => ship_worker name id
  end.

(** One after the other, each from the state the last one left. *)
Definition ship_history (ops : list ShipOp) (s : St Db) : St Db :=
  foldl (λ s op, snd (run_ship op s)) s ops.
End ship_ops.

(** Distinct keys, and times that agree with the statuses. *)
Definition ship_ok (d : Db) : Prop :=
  rows_sound shp_id times_ok (shipments d)
  ∧ rows_sound rto_id (λ _, True) (rtos d)
  ∧ rows_sound rsh_id (λ _, True) (reverses d).

(** ** The operations carry the shipments along *)
Section carries.
Context `{Redis, !Scheduler, !Crypto, !Postgres, !ShippingProvider, !ClientText, !NumberText,
          !ServerText}.

Notation carries := (stays (on_tables carried)).

(** From tables reached so far, a computation that carries them further. *)
Lemma carries_then {A} (m : M (St Db) A) d0 d :
  carries m → carried d0 d → dwp m (λ _ d', carried d0 d') d.
Proof. intros Hm Hd. apply (dwp_stays carried); [done|]. intros o d' Hd'. by etrans. Qed.

Lemma dwp_carries {A} (m : M (St Db) A) :
  (∀ d, dwp m (λ _ d', carried d d') d) → carries m.
Proof. intros Hm s. unfold on_tables. by apply (Hm (tables s) s). Qed.

Lemma appendTrackingEvent_carries id st c ds l t : carries (appendTrackingEvent id st c ds l t).
Proof.
  unfold appendTrackingEvent, as_status, as_enum, Date_now.
  staying ltac:(apply stays_create_row; [apply _|]; intros; apply carried_history).
Qed.

Lemma upsertTracking_carries id st l : carries (upsertTracking id st l).
Proof.
  unfold upsertTracking, as_status, as_enum, Date_now, db_findFirst.
  staying ltac:(first [apply stays_create; [apply _|]; intros; by apply carried_same
                      |apply stays_update; [apply _|]; intros; by apply carried_same]).
Qed.

Lemma invalidateShipment_carries id : carries (invalidateShipment id).
Proof. unfold invalidateShipment. staying fail. Qed.

Lemma gateway_carries {A} (call : Env → outcome A * Env) : carries (gateway call).
Proof. apply stays_env; [apply _|apply gateway_tables]. Qed.

(** The steps of the operations that touch none of the four tables, and the
    tracking history. *)
Ltac ship_step := idtac;
  match goal with
  | |- stays _ (appendTrackingEvent _ _ _ _ _ _) => apply appendTrackingEvent_carries
  | |- stays _ (upsertTracking _ _ _) => apply upsertTracking_carries
  | |- stays _ (invalidateShipment _) => apply invalidateShipment_carries
  | |- stays _ (gateway _) => apply gateway_carries
  | |- stays _ (db_create T_Shipment _) => fail 1
  | |- stays _ (db_create T_RtoShipment _) => fail 1
  | |- stays _ (db_create T_ReverseShipment _) => fail 1
  | |- stays _ (db_create _ _) => apply stays_create; [apply _|intros; by apply carried_same]
  | |- stays _ (db_createMany _ _) => apply stays_createMany; [apply _|intros ? ?]
  | |- stays _ (db_update T_Shipment _ _) => fail 1
  | |- stays _ (db_update T_RtoShipment _ _) => fail 1
  | |- stays _ (db_update T_ReverseShipment _ _) => fail 1
  | |- stays _ (db_update _ _ _) => apply stays_update; [apply _|intros; by apply carried_same]
  end.
Ltac carry_with step :=
  unfold db_findFirst, db_findMany, db_findMany_desc, db_count, Date_now, as_status, as_enum;
  staying step.
Ltac carry := carry_with ship_step.

Lemma auditEvent_carries id st ds : carries (auditEvent id st ds).
Proof. unfold auditEvent. carry. Qed.

Lemma audit_status_carries id reason ctx : carries (audit_status id reason ctx).
Proof. unfold audit_status. staying ltac:(first [apply auditEvent_carries|ship_step]). Qed.

Lemma emitStatusEvent_carries o i st t : carries (emitStatusEvent o i st t).
Proof. unfold emitStatusEvent. carry. Qed.

Lemma sync_fulfillment_carries f to : carries (sync_fulfillment f to).
Proof. unfold sync_fulfillment. carry. Qed.

Lemma dwp_requireShipment id Q d :
  (∀ s, s ∈ shipments d → shp_id s = id → shp_deleted_at s = None → Q (Ok s) d) →
  (∀ e, Q (Throw e) d) → dwp (requireShipment id) Q d.
Proof.
  intros HO HE. unfold requireShipment, shp_findById. dwp_step; dwp_step; auto; simplify_eq.
  bool_to_prop. destruct (shp_deleted_at _) eqn:?; [done|]. auto.
Qed.

(** An update of one shipment along an edge, or that keeps its status. *)
Lemma carried_update d s f :
  s ∈ shipments d → (∀ x, shp_id (f x) = shp_id x) → (∀ x, parcel (f x) = parcel x) →
  rtc (edge shipmentStateMachine) (ShipmentStatus_text (shp_status s))
      (ShipmentStatus_text (shp_status (f s))) →
  (times_ok s → times_ok (f s)) →
  carried d (put L_Shipment (update_rows shp_id (shp_id s) f (shipments d)) d).
Proof. intros. apply carried_shipments, lives_update; auto. Qed.

Lemma as_status_text column x st : of_text ShipmentStatus_text ShipmentStatus_members x = Some st →
  ShipmentStatus_text st = x ∧ ∀ S s, as_status (S := S) column x s = (Ok st, s).
Proof.
  intros E. split; [|by unfold as_status, as_enum; rewrite E].
  apply find_first_Some in E as [_ ?]. by bool_to_prop.
Qed.

Lemma dwp_as_status column x (Q : outcome ShipmentStatus → Db → Prop) d :
  (∀ st, ShipmentStatus_text st = x → Q (Ok st) d) → (∀ e, Q (Throw e) d) →
  dwp (as_status column x) Q d.
Proof.
  intros HO HE. unfold as_status, as_enum. apply dwp_require; [|done].
  intros st [? _]%(as_status_text column). by apply HO.
Qed.

(** The engine on a row that was just read: its update may use the edge. *)
Lemma engine_carries {T} m (o : TransitionOptions Db T) d :
  (edge m (from o) (StateMachine.to o) →
   dwp (StateMachine.apply o (context_of m o)) (λ _ d', carried d d') d) →
  (∀ h ctx, StateMachine.audit o = Some h → carries (h ctx)) →
  before o = None → after o = None →
  dwp (transition m o) (λ _ d', carried d d') d.
Proof.
  intros Happly Haudit Hb Ha. apply dwp_transition; [done..|]. intros He. unfold transition_steps.
  rewrite Hb, Ha. apply dwp_bind, dwp_ret, dwp_bind_keep; [by apply Happly|]. intros x d' Hd'.
  apply carries_then; [|done]. unfold run_hook.
  destruct (StateMachine.audit o) eqn:E; staying ltac:(by apply Haudit).
Qed.

Lemma transitionStatus_carries id to a r : carries (transitionStatus id to a r).
Proof.
  apply dwp_carries. intros d. unfold transitionStatus.
  apply dwp_bind, dwp_requireShipment; [|done]. intros s Hs <- _.
  apply dwp_bind_keep.
  - apply engine_carries; [| |done..].
    + cbn. intros He. unfold apply_status. apply dwp_bind, dwp_now. intros now.
      apply dwp_bind, dwp_as_status; [|done]. intros st <-. unfold shp_update. dwp_step; [done|].
      apply carried_update; [done..|by apply rtc_once|by apply times_moved].
    + cbn. intros h ctx [= <-]. apply audit_status_carries.
  - intros res d' Hd'. apply carries_then; [|done].
    staying ltac:(first [apply emitStatusEvent_carries|apply sync_fulfillment_carries]).
Qed.

Ltac ship_carry := carry_with
  ltac:(first [apply auditEvent_carries|apply transitionStatus_carries|ship_step]).

Lemma shp_update_carries id f :
  (∀ x, shp_id (f x) = shp_id x) → (∀ x, parcel (f x) = parcel x) →
  (∀ x, shp_status (f x) = shp_status x) → (∀ x, times_ok x → times_ok (f x)) →
  carries (shp_update id f).
Proof.
  intros Hk Hp Hs Ht. apply stays_update_row; [apply _|]. intros d r Hr <-.
  apply carried_update; auto. by rewrite Hs.
Qed.

Lemma createShipment_carries a dto : carries (createShipment a dto).
Proof.
  unfold createShipment, choose_partner, requested_partner, findPrimaryPartner, findPartnerByCode,
    shipment_contents, shipment_event, view_shipment.
  ship_carry. apply stays_create_row; [apply _|]. intros d id Hid.
  by apply carried_shipments, lives_snoc.
Qed.

Lemma generateLabel_carries a id : carries (generateLabel a id).
Proof. unfold generateLabel, requireShipment, shp_findById, require_ref, shipment_event. ship_carry. Qed.

Lemma schedulePickup_carries a dto : carries (schedulePickup a dto).
Proof.
  unfold schedulePickup, requireShipment, shp_findById, require_ref, shipment_event,
    dispatch_for_pickup.
  ship_carry. by apply shp_update_carries.
Qed.

Lemma updateStatus_carries a id dto : carries (updateStatus a id dto).
Proof. unfold updateStatus, view_shipment. ship_carry. Qed.

Lemma getShipment_carries id : carries (getShipment id).
Proof. unfold getShipment, ship_getOrSet, requireShipment, shp_findById, view_shipment. ship_carry. Qed.

Lemma getTracking_carries id : carries (getTracking id).
Proof. unfold getTracking, ship_getOrSet, requireShipment, shp_findById. ship_carry. Qed.

Lemma syncTracking_carries id a : carries (syncTracking id a).
Proof.
  unfold syncTracking, requireShipment, shp_findById, sync_status, record_eta.
  carry_with ltac:(first [apply getTracking_carries|apply transitionStatus_carries|ship_step]).
  by apply shp_update_carries.
Qed.

Lemma processWebhook_carries id : carries (ship_processWebhook id).
Proof.
  unfold ship_processWebhook, swh_findById, ship_process_body, swh_mark.
  carry_with ltac:(first [apply syncTracking_carries|ship_step]).
Qed.

Lemma receiveShiprocket_carries raw sig p : carries (receiveShiprocket raw sig p).
Proof.
  unfold receiveShiprocket, findPartnerByCode, swh_findByIdempotency, findByTracking, ship_job.
  carry_with ltac:(first [apply processWebhook_carries|ship_step]).
Qed.

Lemma createReverse_carries a dto : carries (createReverse a dto).
Proof.
  unfold createReverse, requested_partner, findPrimaryPartner. ship_carry.
  apply stays_create_row; [apply _|]. intros d id Hid. by apply carried_reverses, lives_snoc.
Qed.

Lemma reverse_pickup_carries a id : carries (scheduleReversePickup a id).
Proof.
  apply dwp_carries. intros d. unfold scheduleReversePickup.
  dwp_step; dwp_step; simplify_eq; try done. bool_to_prop. subst.
  apply dwp_bind_keep; [|by intros; apply dwp_ret].
  apply engine_carries; [|done..]. cbn. intros He. dwp_step; [done|].
  apply carried_reverses, lives_update; try done. by apply rtc_once.
Qed.

Lemma advanceRto_carries a id to : carries (advanceRto a id to).
Proof.
  apply dwp_carries. intros d. unfold advanceRto.
  dwp_step; dwp_step; simplify_eq; try done. bool_to_prop. subst.
  apply dwp_bind_keep; [|by intros; apply dwp_ret].
  apply engine_carries; [|done..]. cbn. intros He. apply dwp_bind, dwp_now. intros now.
  unfold as_enum. dwp_step; [|done]. dwp_step; [done|].
  match goal with E : of_text _ _ _ = Some _ |- _ => apply find_first_Some in E as [_ E] end.
  bool_to_prop. subst. apply carried_rtos, lives_update; try done. by apply rtc_once.
Qed.

Lemma return_forward_carries a s id reason d :
  s ∈ shipments d → dwp (return_forward a s id reason) (λ _ d', carried d d') d.
Proof.
  intros Hs. unfold return_forward. dwp_step; [|done].
  apply dwp_bind_keep; [|by intros; apply dwp_ret].
  apply engine_carries; [| |done..].
  - cbn. intros He. unfold shp_update. dwp_step; [done|].
    apply carried_update; try done; [by apply rtc_once|by apply times_returned].
  - cbn. intros h ctx [= <-]. apply auditEvent_carries.
Qed.

Lemma createRto_carries a dto : carries (createRto a dto).
Proof.
  apply dwp_carries. intros d. unfold createRto. apply dwp_withLock_keep; [done|].
  apply dwp_bind, dwp_requireShipment; [|done]. intros s Hs _ _.
  apply dwp_bind, dwp_now. intros now. dwp_step; [done|].
  match goal with |- dwp _ _ ?d1 => assert (carried d d1 ∧ s ∈ shipments d1) as [Hd1 Hs1] end.
  { split; [|done]. by apply carried_rtos, lives_snoc. }
  apply dwp_bind_keep.
  - eapply dwp_mono; [by apply return_forward_carries|]. intros o d2 Hd2. by etrans.
  - intros _ d2 Hd2. apply carries_then; [|done]. unfold shipment_event. carry.
Qed.

Lemma estimate_carries dto : carries (estimate dto).
Proof. unfold estimate, ship_getOrSet, price, findZone, matching_rates. carry. Qed.

Lemma ship_carries op : carries (run_ship op).
Proof.
  destruct op; simpl; (try (apply stays_bind; [apply _| |intros _; apply stays_ret, _])).
  - apply createShipment_carries.
  - apply generateLabel_carries.
  - apply schedulePickup_carries.
  - apply updateStatus_carries.
  - apply getShipment_carries.
  - apply getTracking_carries.
  - apply syncTracking_carries.
  - unfold enqueueTrackingSync, ship_job. carry.
  - apply receiveShiprocket_carries.
  - apply createReverse_carries.
  - apply reverse_pickup_carries.
  - apply createRto_carries.
  - apply advanceRto_carries.
  - unfold listMethods, ship_getOrSet. carry.
  - unfold listPickupPoints, ship_getOrSet. carry.
  - unfold listDeliverySlots, ship_getOrSet. carry.
  - apply estimate_carries.
  - apply estimate_carries.
  - unfold createRate. carry.
  - unfold createCarrier. carry.
  - unfold ship_worker. destruct (String.eqb _ _); [apply processWebhook_carries|].
    destruct (_ || _); [|apply stays_ret, _].
    apply stays_bind; [apply _|apply syncTracking_carries|intros _; apply stays_ret, _].
Qed.

Lemma history_carries ops s : carried (tables s) (tables (ship_history ops s)).
Proof.
  unfold ship_history. revert s. induction ops as [|op ops IH]; intros s; simpl; [done|].
  etrans; [apply (ship_carries op s)|apply IH].
Qed.

(** ** A status change that succeeds *)

Definition same_track (d d' : Db) : Prop :=
  shipments d' = shipments d ∧ history d' = history d ∧ trackings d' = trackings d.

#[local] Instance same_track_preorder : PreOrder same_track.
Proof.
  split; [by intros d|]. intros d1 d2 d3 (? & ? & ?) (? & ? & ?).
  unfold same_track. by split_and!; etrans.
Qed.

(** The change of one shipment from [s] to [st] at time [t]: its row, its time
    columns, one more line of history, and the tracking row. *)
Definition recorded (s : Shipment) (st : ShipmentStatus) (t : Z) (reason : option string)
  (d d' : Db) : Prop :=
  shipments d' = update_rows shp_id (shp_id s) (set_status st t) (shipments d)
  ∧ (∃ e, history d' = history d ++ [e] ∧ tev_shipment_id e = shp_id s ∧ tev_event_status e = st
     ∧ tev_description e = Some (coalesce reason ("Status " +:+ ShipmentStatus_text (shp_status s)
                                                  +:+ " → " +:+ ShipmentStatus_text st)))
  ∧ (∃ k, k ∈ trackings d' ∧ stk_shipment_id k = shp_id s ∧ stk_current_status k = st).

(** The live shipment [id] may move to [to]. *)
Definition may_move (id to : string) (s : Shipment) (d : Db) : Prop :=
  s ∈ shipments d ∧ shp_id s = id ∧ shp_deleted_at s = None
  ∧ edge shipmentStateMachine (ShipmentStatus_text (shp_status s)) to.

Definition status_changed (id to : string) (reason : option string) (d d' : Db) : Prop :=
  ∃ s st t, may_move id to s d ∧ ShipmentStatus_text st = to ∧ recorded s st t reason d d'.

Lemma ShipmentStatus_text_inj a b : ShipmentStatus_text a = ShipmentStatus_text b → a = b.
Proof. by destruct a, b. Qed.

Lemma dwp_appendTrackingEvent id st ds (Q : outcome TrackingEvent → Db → Prop) d :
  (∀ e, Q (Throw e) d) →
  (∀ e d', history d' = history d ++ [e] → tev_shipment_id e = id →
     ShipmentStatus_text (tev_event_status e) = st → tev_description e = ds →
     shipments d' = shipments d → trackings d' = trackings d → Q (Ok e) d') →
  dwp (appendTrackingEvent id st None ds None None) Q d.
Proof.
  intros HE HO. unfold appendTrackingEvent. apply dwp_bind, dwp_now. intros now.
  apply dwp_bind, dwp_as_status; [|done]. intros x <-. dwp_step; [done|].
  by apply HO.
Qed.

Lemma dwp_upsertTracking id st (Q : outcome ShipmentTracking → Db → Prop) d :
  (∀ e, Q (Throw e) d) →
  (∀ x k d', k ∈ trackings d' → stk_shipment_id k = id →
     ShipmentStatus_text (stk_current_status k) = st →
     shipments d' = shipments d → history d' = history d → Q (Ok x) d') →
  dwp (upsertTracking id st None) Q d.
Proof.
  intros HE HO. unfold upsertTracking. apply dwp_bind, dwp_now. intros now.
  apply dwp_bind, dwp_as_status; [|done]. intros x <-.
  apply dwp_bind, dwp_findFirst; [intros k Hk Heq|intros _]; dwp_step; try done.
  - bool_to_prop. apply (HO _ (set_tracking x None now k)); try done.
    rewrite view_put. apply list_elem_of_fmap. exists k. by rewrite String.eqb_refl.
  - eapply HO; [rewrite view_put; apply elem_of_app; right;
      by apply list_elem_of_singleton|done..].
Qed.

(** The end of [transitionStatus]: events and the fulfilment order. *)
Lemma transition_end s to (res : TransitionResult Shipment) d :
  dwp (when_ (negb (res_skipped res))
         (emitStatusEvent (shp_order_id s) (shp_id s) to (shp_tracking_number s)) ;;
       sync_fulfillment (shp_fulfillment_order_id s) to ;; mret (res_result res))
    (λ o d', same_track d d' ∧ match o with Ok x => x = res_result res | Throw _ => False end) d.
Proof.
  unfold emitStatusEvent, sync_fulfillment. apply dwp_bind.
  assert (dwp (when_ (negb (res_skipped res)) match status_event to with
      | Some name => emit (mkEvent name
          (shipment_payload (shp_id s) (shp_order_id s) to (shp_tracking_number s) []))
      | None => mret tt end) (λ o d', o = Ok tt ∧ d' = d) d) as Hev.
  { dwp_step; [|done]. destruct (status_event to); [by apply dwp_emit|by apply dwp_ret]. }
  eapply dwp_mono; [exact Hev|]. intros o d1 [-> ->]. apply dwp_bind.
  assert (∀ b : option string, dwp (match b with
      | Some st => try_catch (_ ← db_update T_FulfillmentOrder
            (coalesce (shp_fulfillment_order_id s) "") (set_fulfillment_status st); mret tt)
          (λ _, mret tt)
      | None => mret tt end) (λ o d', o = Ok tt ∧ same_track d d') d) as Hful.
  { intros [st|]; [|by apply dwp_ret]. dwp_step. dwp_step; [by apply dwp_ret|]. by apply dwp_ret. }
  destruct (shp_fulfillment_order_id s) as [[|c f]|]; [by apply dwp_ret, dwp_ret| |by apply dwp_ret, dwp_ret].
  eapply dwp_mono; [exact (Hful (fulfillment_status to))|]. intros o d2 [-> Hd2]. by apply dwp_ret.
Qed.

Lemma transitionStatus_spec id to a reason d :
  dwp (transitionStatus id to a reason) (λ o d', match o with
    | Ok (Some _) => status_changed id to reason d d'
    | Ok None => same_track d d'
    | Throw _ => (∀ s, ~ may_move id to s d) → same_track d d'
    end) d.
Proof.
  unfold transitionStatus. apply dwp_bind, dwp_requireShipment; [|done]. intros s Hs <- Hlive.
  apply dwp_bind, dwp_transition; [done| |]; cbn [from StateMachine.to].
  - intros _. eapply dwp_mono; [apply transition_end|]. intros [x|e] d' [Hd' Hx]; [|done]. by subst.
  - intros He. assert (may_move (shp_id s) to s d) as Hm by done.
    assert (∀ d', (∀ s0, ~ may_move (shp_id s) to s0 d) → same_track d d') as Hno
      by (intros d' Hn; by destruct (Hn s)).
    unfold transition_steps. simpl. apply dwp_bind, dwp_ret, dwp_bind.
    unfold apply_status. apply dwp_bind, dwp_now. intros t.
    apply dwp_bind, dwp_as_status; [|done]. intros st <-. unfold shp_update. dwp_step; [done|].
    unfold audit_status, auditEvent. cbn [ctx_to ctx_from context_of from StateMachine.to].
    do 3 apply dwp_bind. apply dwp_appendTrackingEvent; [by auto|]. intros e d2 He2 Hid Hst Hds Hs2 Ht2.
    apply dwp_ret, dwp_bind, dwp_upsertTracking; [by auto|]. intros x k d3 Hk Hks Hkst Hs3 He3.
    apply dwp_ret, dwp_bind, dwp_emit, dwp_bind, dwp_ret, dwp_ret.
    eapply dwp_mono; [apply transition_end|]. intros [y|ex] d4 [(E1 & E2 & E3) Hy]; [|done].
    simpl in Hy. subst y. exists s, st, t. split_and!; [done|done|]. unfold recorded.
    rewrite E1, E2, E3, Hs3, Hs2, He3, He2, !view_put. split_and!; [done| |].
    + exists e. split_and!; [done|done|by apply ShipmentStatus_text_inj|done].
    + exists k. split_and!; [done|done|by apply ShipmentStatus_text_inj].
Qed.

Lemma updateStatus_spec a id dto d :
  dwp (updateStatus a id dto) (λ o d', match o with
    | Ok _ => status_changed id (ud_status dto) (ud_reason dto) d d'
    | Throw _ => (∀ s, ~ may_move id (ud_status dto) s d) → same_track d d'
    end) d.
Proof.
  unfold updateStatus. apply dwp_withLock; [done|].
  apply dwp_bind. eapply dwp_mono; [apply transitionStatus_spec|].
  intros [[s'|]|e] d' Hd'; [..|done].
  - destruct Hd' as (s & st & t & Hm & Hst & Hr).
    assert ((∀ s0, ~ may_move id (ud_status dto) s0 d) → same_track d d') as Hno by (intros Hn; by destruct (Hn s)).
    unfold invalidateShipment. apply dwp_bind, dwp_bind. do 2 (dwp_step; [|done]).
    apply dwp_bind, dwp_ret. unfold view_shipment. apply dwp_env; [apply stays_gets, _|].
    intros [v|e]; [|done]. split; [|done]. by exists s, st, t.
  - unfold invalidateShipment. apply dwp_bind, dwp_bind. do 2 (dwp_step; [|done]).
    by apply dwp_bind, dwp_throw.
Qed.
End carries.

(** ** Properties *)

(** (C13) Whatever requests, carrier webhooks and jobs arrive, and however each of them
    ends: every shipment is kept with what identifies it and changes status along its
    state machine only; so do returns to origin and reverse shipments; the tracking
    history is only appended to; and at every moment a shipment that is packed has
    its packing time, one that has departed its packing and dispatch times, and one
    that is delivered its delivery time. *)
Theorem shipments_follow_machine `{Redis, !Scheduler, !Crypto, !Postgres, !ShippingProvider,
    !ClientText, !NumberText, !ServerText} ops (s : St Db) :
  ship_ok (tables s) →
  let d := tables s in
  let d' := tables (ship_history ops s) in
  ship_ok d'
  ∧ (∀ p, p ∈ shipments d → ∃ p', p' ∈ shipments d' ∧
       later shp_id (λ x, ShipmentStatus_text (shp_status x)) (edge shipmentStateMachine) parcel p p')
  ∧ (∀ r, r ∈ rtos d → ∃ r', r' ∈ rtos d' ∧
       later rto_id (λ x, RtoStatus_text (rto_status x)) (edge rtoStateMachine) rto_forward_shipment_id r r')
  ∧ (∀ r, r ∈ reverses d → ∃ r', r' ∈ reverses d' ∧
       later rsh_id (λ x, ReverseShipmentStatus_text (rsh_status x)) (edge reverseShipmentStateMachine)
         rsh_reverse_number r r')
  ∧ history d `prefix_of` history d'.
Proof.
  intros (Hs & Hr & Hv). destruct (history_carries ops s) as [Cs Cr Cv Ch]. cbv zeta.
  destruct (Cs Hs) as [Hs' Ls], (Cr Hr) as [Hr' Lr], (Cv Hv) as [Hv' Lv].
  do 4 (split; [done|]). done.
Qed.

(** [updateStatus] succeeds only along an edge of the machine, and then the
    shipment's row, its time column, one new line of history with the reason, and the
    tracking row all say so; when no edge leads from the shipment's status to the
    requested one it fails and changes none of the three. *)
Theorem status_change_recorded `{Redis, !Scheduler, !Crypto, !Postgres, !ShippingProvider}
    actorId id dto (s : St Db) :
  let d := tables s in
  match updateStatus actorId id dto s with
  | (Ok _, s') => status_changed id (ud_status dto) (ud_reason dto) d (tables s')
  | (Throw _, s') => (∀ x, ~ may_move id (ud_status dto) x d) → same_track d (tables s')
  end.
Proof.
  pose proof (updateStatus_spec actorId id dto (tables s) s eq_refl) as Hu.
  by destruct (updateStatus actorId id dto s) as [[j|e] s'].
Qed.

(** ** Runs *)
Section examples.
#[local] Existing Instances gmap_redis counting_crypto sample_postgres.
#[local] Instance text0 : ClientText := λ _, "database error".
#[local] Instance number0 : NumberText := λ _, "n".

#[local] Existing Instance plain_server.

(** A carrier that accepts everything and reports [status] with one event. *)
Definition ready_carrier (status : string) : ShippingProvider := {|
  carrier_code := "shiprocket";
  sp_createShipment _ e := (Ok (mkCarrierResult "ref1" (Some "AWB1") (Some "AWB1")), e);
  sp_generateLabel _ _ e := (Ok (mkLabelResult "https://labels/1" lf_pdf), e);
  sp_schedulePickup _ _ at_ _ e := (Ok (mkPickupResult "pick1" at_), e);
  sp_syncTracking _ _ _ e :=
    (Ok (mkSyncResult status (Some "Hub")
           [mkCarrierEvent "in_transit" None (Some "Left the hub") (Some "Hub") 900] None), e);
  sp_verifyWebhookSignature _ _ _ := true |}.

Definition order_to_ship : Order :=
  mkOrder "o1" "ORD-1" (Some "alice") (Some "c1") None (Some "w1") "INR" 22025 0 0 0 22025 None None
    None or_confirmed 0 None.

Definition shipment0 (st : ShipmentStatus) : Shipment :=
  mkShipment "h1" "SHP-1" "o1" None "w1" "sr" None None None (Some "AWB1") (Some "AWB1")
    (Some "ref1") "INR" 0 (Some 22025) (Some 2000) st (Some 1) (Some 2) (Some 3) None 0 None.

Definition shop (rows : list Shipment) : St Db :=
  mkSt env0 (put L_Shipment rows (put L_Order [order_to_ship] sample_db)).

Definition parcel0 : CreateShipmentDto :=
  mkCreateShipmentDto "o1" "w1" None None None None false None
    [mkPackageDto "P1" 2 None None None None] [].

Definition statuses (s : St Db) : list ShipmentStatus := map shp_status (shipments (tables s)).

(** A parcel from its creation to its return. *)
Definition round_trip : list ShipOp :=
  [so_create "admin" parcel0; so_label "admin" "u"; so_pickup "admin" (mkSchedulePickupDto "u" None None);
   so_sync "u" None; so_status "admin" "u" (mkUpdateShipmentStatusDto "created" None);
   so_rto "admin" (mkCreateRtoDto "u" (Some "Refused"))].

Lemma shop_ok rows : Forall times_ok rows → NoDup (map shp_id rows) → ship_ok (tables (shop rows)).
Proof. intros Hr Hn. split_and!; split; try done; try apply Forall_nil_2; apply NoDup_nil_2. Qed.

Lemma shipments_follow_machine_witness :
  let P := ready_carrier "In Transit" in
  statuses (ship_history round_trip (shop [])) = [ss_returned]
  ∧ ship_ok (tables (ship_history round_trip (shop []))).
Proof.
  intros P. split; [vm_compute; reflexivity|].
  apply (shipments_follow_machine round_trip (shop [])), shop_ok; [apply Forall_nil_2|apply NoDup_nil_2].
Defined.

Definition events_of (s : St Db) : list string := map eventName (bus (env s)).

(** A status change that is made leaves its trace. *)
Example packed_recorded :
  let P := ready_carrier "In Transit" in
  let s := snd (updateStatus "admin" "h1" (mkUpdateShipmentStatusDto "packed" None)
                  (shop [shipment0 ss_created])) in
  (statuses s, map tev_description (history (tables s)), map stk_current_status (trackings (tables s)))
  = ([ss_packed], [Some "Status created → packed"], [ss_packed]).
Proof. vm_compute. reflexivity. Qed.

(** Asking for the status a shipment already has is meant to do nothing; the view of
    the unchanged shipment fails instead. *)
Example same_status_crashes :
  let P := ready_carrier "In Transit" in
  fst (updateStatus "admin" "h1" (mkUpdateShipmentStatusDto "packed" None) (shop [shipment0 ss_packed]))
  = Throw (JsError "Cannot read properties of undefined (reading 'id')").
Proof. vm_compute. reflexivity. Qed.

(** A carrier status outside the code's table is meant to be recorded all the same:
    the tracking row refuses it, and the events of the sync are lost. *)
Example unknown_status_loses_events :
  let P := ready_carrier "Shipment Booked" in
  let r := syncTracking "h1" None (shop [shipment0 ss_dispatched]) in
  fst r = Throw (DbError (InvalidValue "current_status")) ∧ history (tables (snd r)) = [].
Proof. vm_compute. split; reflexivity. Qed.

(** The swallowed transition still reaches the tracking row: it disagrees with its
    shipment from then on. *)
Example tracking_disagrees :
  let P := ready_carrier "In Transit" in
  let s := snd (syncTracking "h1" None (shop [shipment0 ss_created])) in
  (statuses s, map stk_current_status (trackings (tables s))) = ([ss_created], [ss_in_transit]).
Proof. vm_compute. reflexivity. Qed.

(** Every sync appends all events of the carrier again. *)
Example sync_duplicates_events :
  let P := ready_carrier "In Transit" in
  let s := ship_history [so_sync "h1" None; so_sync "h1" None] (shop [shipment0 ss_in_transit]) in
  map tev_description (history (tables s)) = [Some "Left the hub"; Some "Left the hub"].
Proof. vm_compute. reflexivity. Qed.

(** A webhook's event type is written to an enum column: the event of a shipment
    whose name is no status is never processed. *)
Example webhook_event_never_processed :
  let P := ready_carrier "In Transit" in
  let s := ship_history [so_webhook "" "" (JObj [("event", JStr "shipment_update"); ("awb", JStr "AWB1")]);
                         so_job SHIPPING_JOBS.WEBHOOK "u"] (shop [shipment0 ss_in_transit]) in
  map (λ w, (swh_processing_status w, swh_retry_count w)) (view L_ShippingWebhook (tables s))
  = [("failed", 2)].
Proof. vm_compute. reflexivity. Qed.

(** A return to origin of a shipment that has not left is announced although the
    shipment stays where it is. *)
Example return_announced_early :
  let P := ready_carrier "In Transit" in
  let s := snd (createRto "admin" (mkCreateRtoDto "h1" None) (shop [shipment0 ss_created])) in
  (statuses s, events_of s) = ([ss_created], ["shipment.rto"; "shipment.returned"]).
Proof. vm_compute. reflexivity. Qed.

(** A shipment already dispatched cannot be returned to origin: the request fails
    after its row was stored. *)
Example dispatched_return_fails :
  let P := ready_carrier "In Transit" in
  let r := createRto "admin" (mkCreateRtoDto "h1" None) (shop [shipment0 ss_dispatched]) in
  (match fst r with Throw (AppException c _ _) => Some c | _ => None end,
   length (rtos (tables (snd r)))) = (Some CONFLICT, 1%nat).
Proof. vm_compute. reflexivity. Qed.
End examples.
