(* ===== verification/RateRules.v ===== *)
(** * Rules of shipping rates

    What a price request gets: what the cache holds under its key, or else the quotes of
    the rates that cover its weight, partner and zones, cheapest first; each total is never below the base rate and
    within one hundredth of the exact price, although it is computed in binary64
    and rounded through text. The examples at the end show what the services miss:
    the cache forgets the declared value, and the limit of twenty rates is applied
    before the zones. *)
From S2P Require Import Prelude Core Effects Redis Lock JsNumber Schema Database Tables Sample Payments PaymentRules Shipping Carrier.
From Stdlib Require Import QArith Qabs Qround Lqa.

#[local] Open Scope Z_scope.

(** ** Sorting by a number *)

Notation ascending key := (StronglySorted (λ x y, (key x <= key y)%Q)).

Lemma insert_by_perm {A} (key : A → Q) x l : insert_by key x l ≡ₚ x :: l.
Proof.
  induction l as [|y l IH]; simpl; [done|]. destruct (js_le _ _); [done|].
  rewrite IH. apply Permutation_swap.
Qed.

Lemma insert_by_sorted {A} (key : A → Q) x l : ascending key l → ascending key (insert_by key x l).
Proof.
  induction l as [|y l IH]; intros Hl; simpl; [by repeat constructor|].
  rewrite js_le_sub. inversion Hl as [|? ? Hs Hall]; subst.
  destruct (Qle_bool (key x) (key y)) eqn:E.
  - apply Qle_bool_iff in E. constructor; [done|]. constructor; [done|].
    eapply Forall_impl; [done|]. simpl. intros z Hz. by eapply Qle_trans.
  - assert (key y <= key x)%Q as Hyx.
    { apply Qlt_le_weak, Qnot_le_lt. intros Hle%Qle_bool_iff. congruence. }
    constructor; [by apply IH|]. rewrite insert_by_perm. by constructor.
Qed.

Lemma sort_by_perm {A} (key : A → Q) l : sort_by key l ≡ₚ l.
Proof. induction l as [|x l IH]; simpl; [done|]. by rewrite insert_by_perm, IH. Qed.

Lemma sort_by_sorted {A} (key : A → Q) l : ascending key (sort_by key l).
Proof. induction l as [|x l IH]; simpl; [constructor|]. by apply insert_by_sorted. Qed.

(** ** The error of a price *)

Notation ulp := (1 # 9007199254740992)%Q.

(** [y] is [x] up to [e]. *)
Definition within (e x y : Q) : Prop := (x - e <= y ∧ y <= x + e)%Q.

Lemma fl_within (B : Z) x : (- inject_Z B <= x <= inject_Z B)%Q → within (inject_Z B * ulp) x (fl x).
Proof.
  intros [Hl Hu]. destruct (fl_error_bound B x) as [H1 H2]; [by apply Qabs_Qle_condition|].
  assert (inject_Z B / inject_Z (2 ^ 53) == inject_Z B * ulp)%Q as E by (unfold Qdiv; by f_equiv).
  rewrite E in H1, H2. by split.
Qed.

Lemma mul_within ea eb A B a a' b b' :
  (0 <= ea)%Q → (0 <= eb)%Q → (0 <= a <= A)%Q → (0 <= b' <= B)%Q → within ea a a' → within eb b b' →
  within (ea * B + A * eb) (a * b) (a' * b').
Proof.
  intros Hea Heb [Ha0 HaA] [Hb0 HbB] [Ha1 Ha2] [Hb1 Hb2]. unfold within.
  assert (a' * b' == a * b + (a' - a) * b' + a * (b' - b))%Q as -> by ring.
  assert (- (ea * B) <= (a' - a) * b' <= ea * B)%Q as [? ?] by (split; nra).
  assert (- (A * eb) <= a * (b' - b) <= A * eb)%Q as [? ?] by (split; nra).
  lra.
Qed.

Lemma floor_within x : let t := Qfloor (x * 100 + (1 # 2)) in within (1 # 200) x (inject_Z t / 100).
Proof.
  cbv zeta. set (y := (x * 100 + (1 # 2))%Q). pose proof (Qfloor_le y) as H1.
  pose proof (Qlt_floor y) as H2. rewrite inject_Z_plus in H2. change (inject_Z 1) with 1%Q in H2.
  unfold within. assert (inject_Z (Qfloor y) / 100 == inject_Z (Qfloor y) * (1 # 100))%Q as -> by field.
  unfold y in *. lra.
Qed.

(** Numbers of the request and of a rate that a shop uses: up to ten tonnes, base
    rates up to a million, hundred thousand per kilogram, values up to 10^9. *)
Definition rate_bounds (r : ShippingRate) : Prop :=
  0 <= srt_base_rate r <= 10 ^ 8 ∧ 0 <= srt_per_kg_rate r <= 10 ^ 7
  ∧ 0 <= srt_min_weight_kg r <= 10 ^ 7.

Definition request_bounds (dto : EstimateShippingDto) : Prop :=
  (0 <= es_weightKg dto <= 10000)%Q
  ∧ match es_declaredValue dto with Some v => (v <= 1000000000)%Q | None => True end.

(** The price in exact arithmetic. *)
Definition exact_freight (weight : Q) (r : ShippingRate) : Q :=
  inject_Z (srt_base_rate r) / 100
  + inject_Z (srt_per_kg_rate r) / 100
    * js_max 0 (weight - inject_Z (srt_min_weight_kg r) / 1000).

Definition exact_price (dto : EstimateShippingDto) (r : ShippingRate) : Q :=
  let f := exact_freight (es_weightKg dto) r in
  f + (if es_cod dto then js_min 50 (f * (2 # 100)) else 0)
  + match es_declaredValue dto with Some v => js_max 0 (v * (5 # 1000)) | None => 0 end.

Lemma div_within (N B : Z) (k : positive) : 0 <= N <= B * Zpos k →
  (0 <= inject_Z N / inject_Z (Zpos k) <= inject_Z B)%Q
  ∧ within (inject_Z B * ulp) (inject_Z N / inject_Z (Zpos k)) (fl (inject_Z N / inject_Z (Zpos k))).
Proof.
  intros [H0 HB]. assert (0 <= inject_Z N / inject_Z (Zpos k) <= inject_Z B)%Q as Hb.
  { split.
    - apply Qle_shift_div_l; [done|]. rewrite Qmult_0_l. change 0%Q with (inject_Z 0). by rewrite <- Zle_Qle.
    - apply Qle_shift_div_r; [done|]. rewrite <- inject_Z_mult. by rewrite <- Zle_Qle. }
  split; [done|]. apply fl_within. lra.
Qed.

(** The billable weight beyond the rate's minimum. *)
Lemma billable_within w m : (0 <= w <= 10000)%Q → 0 <= m <= 10 ^ 7 →
  let D := js_max 0 (js_sub (js_max w (grams m)) (grams m)) in
  (0 <= D <= 10001)%Q ∧ (0 <= js_max 0 (w - inject_Z m / 1000) <= 10000)%Q
  ∧ within (30000 * ulp) (js_max 0 (w - inject_Z m / 1000)) D.
Proof.
  intros Hw Hm. cbv zeta. destruct (div_within m 10000 1000 ltac:(lia)) as [Hb Hg].
  change (inject_Z (Z.pos 1000)) with 1000%Q in *. change (inject_Z 10000) with 10000%Q in *.
  unfold grams, js_sub. set (G := fl (inject_Z m / 1000)) in *. set (x := (inject_Z m / 1000)%Q) in *.
  clearbody G x. unfold within in Hg.
  destruct (js_max_spec w G) as (Hb1 & Hb2 & Hb3). set (bill := js_max w G) in *. clearbody bill.
  assert (0 <= bill - G <= 10001)%Q as Hdiff by (destruct Hb3 as [->| ->]; lra).
  pose proof (fl_within 10001 (bill - G) ltac:(change (inject_Z 10001) with 10001%Q; lra)) as Hs.
  change (inject_Z 10001) with 10001%Q in Hs.
  pose proof (fl_nonneg (bill - G) ltac:(lra)) as Hs0.
  set (S := fl (bill - G)) in *. clearbody S.
  destruct (js_max_spec 0 S) as (Hd1 & Hd2 & Hd3). set (D := js_max 0 S) in *. clearbody D.
  destruct (js_max_spec 0 (w - x)) as (He1 & He2 & He3). set (E := js_max 0 (w - x)) in *. clearbody E.
  assert (D == S)%Q as HD by (destruct Hd3 as [->| ->]; lra).
  unfold within in *.
  destruct He3 as [->| ->], Hb3 as [->| ->]; split_and!; lra.
Qed.

Lemma freight_within w r : (0 <= w <= 10000)%Q → rate_bounds r →
  (0 <= exact_freight w r <= 1002000000)%Q ∧ within (9000000000 * ulp) (exact_freight w r) (freight w r)
  ∧ (0 <= freight w r)%Q ∧ (inject_Z (srt_base_rate r) / 100 - 9000000000 * ulp <= freight w r)%Q.
Proof.
  intros Hw (Hb & Hk & Hm). unfold exact_freight, freight.
  destruct (billable_within w (srt_min_weight_kg r) Hw Hm) as (HD & HE & HDE).
  set (E := js_max 0 (w - inject_Z (srt_min_weight_kg r) / 1000)) in *. clearbody E.
  set (D := js_max 0 _) in *. clearbody D.
  destruct (div_within (srt_base_rate r) 1000000 100 ltac:(lia)) as [HB0 HB].
  destruct (div_within (srt_per_kg_rate r) 100000 100 ltac:(lia)) as [HP0 HP].
  change (inject_Z (Z.pos 100)) with 100%Q in *. change (inject_Z 1000000) with 1000000%Q in *.
  change (inject_Z 100000) with 100000%Q in *.
  fold (cents (srt_base_rate r)) in HB. fold (cents (srt_per_kg_rate r)) in HP.
  set (B := (inject_Z (srt_base_rate r) / 100)%Q) in *. set (P := (inject_Z (srt_per_kg_rate r) / 100)%Q) in *.
  assert (0 <= cents (srt_base_rate r))%Q as HB'0 by (apply fl_nonneg; exact (proj1 HB0)).
  assert (0 <= cents (srt_per_kg_rate r))%Q as HP'0 by (apply fl_nonneg; exact (proj1 HP0)).
  set (B' := cents (srt_base_rate r)) in *. set (P' := cents (srt_per_kg_rate r)) in *.
  clearbody B P B' P'.
  pose proof (mul_within (100000 * ulp) (30000 * ulp) 100000 10001 P P' E D
    ltac:(lra) ltac:(lra) ltac:(lra) ltac:(lra) HP HDE) as HX.
  assert (0 <= P * E)%Q as HPE0 by (apply Qmult_le_0_compat; lra).
  assert (P * E <= 1000000000)%Q as HPE1 by nra.
  assert (0 <= P' * D)%Q as HX0 by (apply Qmult_le_0_compat; lra).
  unfold js_mul, js_add. unfold within in *.
  set (X := (P' * D)%Q) in *. set (PE := (P * E)%Q) in *. clearbody X PE.
  pose proof (fl_within 1001000000 X ltac:(change (inject_Z 1001000000) with 1001000000%Q; lra)) as HY.
  change (inject_Z 1001000000) with 1001000000%Q in HY. unfold within in HY.
  pose proof (fl_nonneg X HX0) as HY0. set (Y := fl X) in *. clearbody Y.
  pose proof (fl_within 1003000000 (B' + Y) ltac:(change (inject_Z 1003000000) with 1003000000%Q; lra)) as HZ.
  change (inject_Z 1003000000) with 1003000000%Q in HZ. unfold within in HZ.
  pose proof (fl_nonneg (B' + Y) ltac:(lra)) as HZ0. set (Z := fl (B' + Y)) in *. clearbody Z.
  split_and!; lra.
Qed.

(** The two surcharges. *)
Lemma cod_within cod f a :
  (0 <= f <= 1002000000)%Q → (0 <= a)%Q → within (9000000000 * ulp) f a →
  (0 <= cod_fee cod a <= 50)%Q
  ∧ within (500000000 * ulp) (if cod then js_min 50 (f * (2 # 100)) else 0) (cod_fee cod a).
Proof.
  intros Hf Ha0 Ha. unfold cod_fee. destruct cod; [|unfold within; split; lra].
  unfold js_mul.
  pose proof (fl_within 1 (2 # 100) ltac:(change (inject_Z 1) with 1%Q; lra)) as Hc.
  assert (within (1 * (2 # 100) * ulp) (2 # 100) (fl (2 # 100))) as Hc'.
  { unfold within. by vm_compute. }
  clear Hc. set (c := fl (2 # 100)) in *.
  assert (0 <= c <= (3 # 100))%Q as Hc0 by (unfold c; by vm_compute).
  clearbody c.
  pose proof (mul_within (9000000000 * ulp) (1 * (2 # 100) * ulp) 1002000000 (3 # 100) f a (2 # 100) c
    ltac:(lra) ltac:(lra) Hf Hc0 Ha Hc') as Hp.
  assert (0 <= f * (2 # 100) <= 21000000)%Q as Hf2 by lra.
  assert (0 <= a * c)%Q as Hac by (apply Qmult_le_0_compat; lra).
  unfold within in *. set (x := (a * c)%Q) in *. set (y := (f * (2 # 100))%Q) in *. clearbody x y.
  pose proof (fl_within 22000000 x ltac:(change (inject_Z 22000000) with 22000000%Q; lra)) as Hx.
  change (inject_Z 22000000) with 22000000%Q in Hx. unfold within in Hx.
  pose proof (fl_nonneg x Hac) as Hx0. set (z := fl x) in *. clearbody z.
  destruct (js_min_spec 50 z) as (Hm1 & Hm2 & Hm3), (js_min_spec 50 y) as (Hn1 & Hn2 & Hn3).
  set (m := js_min 50 z) in *. set (n := js_min 50 y) in *. clearbody m n.
  destruct Hm3 as [->| ->], Hn3 as [->| ->]; split; try split; lra.
Qed.

Lemma insurance_within v :
  match v with Some v => (v <= 1000000000)%Q | None => True end →
  (0 <= insurance_of v <= 6000000)%Q
  ∧ within (20000000 * ulp) (match v with Some v => js_max 0 (v * (5 # 1000)) | None => 0 end)
      (insurance_of v).
Proof.
  unfold insurance_of. destruct v as [v|]; [|intros _; unfold within; split; lra]. intros Hv.
  destruct (js_max_spec 0 (v * (5 # 1000))) as (Hm1 & Hm2 & Hm3).
  set (m := js_max 0 (v * (5 # 1000))) in *. clearbody m.
  destruct (js_lt 0 v) eqn:E.
  - apply js_lt_iff in E. unfold js_mul.
    assert (within ((5 # 1000) * ulp) (5 # 1000) (fl (5 # 1000))) as Hc by (unfold within; by vm_compute).
    assert (0 <= fl (5 # 1000) <= (51 # 10000))%Q as Hc0 by by vm_compute.
    set (c := fl (5 # 1000)) in *. clearbody c.
    assert (within 0 v v) as Hvv by (unfold within; lra).
    pose proof (mul_within 0 ((5 # 1000) * ulp) 1000000000 (51 # 10000) v v (5 # 1000) c
      ltac:(lra) ltac:(lra) ltac:(lra) Hc0 Hvv Hc) as Hp.
    assert (0 <= v * c)%Q as Hvc by (apply Qmult_le_0_compat; lra).
    unfold within in *. set (x := (v * c)%Q) in *. clearbody x.
    pose proof (fl_within 5500000 x ltac:(change (inject_Z 5500000) with 5500000%Q; lra)) as Hx.
    change (inject_Z 5500000) with 5500000%Q in Hx. unfold within in Hx.
    pose proof (fl_nonneg x Hvc) as Hx0. set (z := fl x) in *. clearbody z.
    destruct Hm3 as [->| ->]; split; try split; lra.
  - apply js_lt_false in E. destruct Hm3 as [->| ->]; unfold within; split; try split; lra.
Qed.

(** The text of a total, read back. *)
Lemma total_within b T : 0 <= b <= 10 ^ 8 → (0 <= T <= 1200000000)%Q →
  (inject_Z b / 100 <= T + 21000000000 * ulp)%Q →
  (cents b <= cents (toFixed2 T))%Q ∧ within (6 # 1000) T (cents (toFixed2 T)).
Proof.
  intros Hb HT HbT. unfold toFixed2.
  assert (Qle_bool 0 T = true) as -> by (apply Qle_bool_iff; lra).
  pose proof (floor_within T) as Hf. cbv zeta in Hf. set (t := Qfloor _) in *.
  assert (inject_Z b / 100 == inject_Z b * (1 # 100))%Q as Eb by field.
  assert (inject_Z t / 100 == inject_Z t * (1 # 100))%Q as Et by field.
  unfold within in Hf. rewrite Et in Hf. rewrite Eb in HbT.
  assert (b <= t) as Hbt.
  { assert (b < t + 1); [|lia]. rewrite Zlt_Qlt, inject_Z_plus. change (inject_Z 1) with 1%Q. lra. }
  assert (t <= 120000000100) as Ht.
  { rewrite Zle_Qle. change (inject_Z 120000000100) with 120000000100%Q. lra. }
  destruct (div_within t 1300000000 100 ltac:(lia)) as [_ Hct].
  destruct (div_within b 1000000 100 ltac:(lia)) as [_ Hcb].
  change (inject_Z (Z.pos 100)) with 100%Q in *. change (inject_Z 1300000000) with 1300000000%Q in *.
  change (inject_Z 1000000) with 1000000%Q in *.
  fold (cents t) in Hct. fold (cents b) in Hcb. unfold within in *. rewrite Et in Hct. rewrite Eb in Hcb.
  split; [|lra]. destruct (decide (t = b)) as [->|Hne]; [apply Qle_refl|].
  assert (inject_Z b + 1 <= inject_Z t)%Q as Hlt.
  { change 1%Q with (inject_Z 1). rewrite <- inject_Z_plus, <- Zle_Qle. lia. }
  set (ct := cents t) in *. set (cb := cents b) in *. clearbody ct cb. lra.
Qed.

(** The total of a quote: at least the base rate, and exact to the hundredth. *)
Lemma quote_within d dto fz tz r : request_bounds dto → rate_bounds r →
  let q := quote_of d dto fz tz r in
  (qt_baseRate q <= qt_total q)%Q ∧ (0 <= qt_codFee q <= 50)%Q ∧ (0 <= qt_insurance q)%Q
  ∧ within (1 # 100) (exact_price dto r) (qt_total q).
Proof.
  intros [Hw Hv] Hr. unfold quote_of, exact_price.
  cbn [qt_baseRate qt_total qt_codFee qt_insurance].
  destruct (freight_within _ _ Hw Hr) as (HF & Hf & Ha0 & Hbase). destruct Hr as (Hb & _).
  set (f := exact_freight (es_weightKg dto) r) in *. set (a := freight (es_weightKg dto) r) in *.
  clearbody f a.
  destruct (cod_within (es_cod dto) f a HF Ha0 Hf) as (HC & Hcod).
  destruct (insurance_within _ Hv) as (HI & Hins).
  set (cod := cod_fee (es_cod dto) a) in *. set (ins := insurance_of (es_declaredValue dto)) in *.
  set (cod' := if es_cod dto then _ else _) in *.
  set (ins' := match es_declaredValue dto with Some v => _ | None => _ end) in *.
  clearbody cod ins cod' ins'. unfold within in *. unfold js_add.
  pose proof (fl_within 6000050 (cod + ins) ltac:(change (inject_Z 6000050) with 6000050%Q; lra)) as Hs.
  change (inject_Z 6000050) with 6000050%Q in Hs. unfold within in Hs.
  pose proof (fl_nonneg (cod + ins) ltac:(lra)) as Hs0. set (sum := fl (cod + ins)) in *. clearbody sum.
  pose proof (fl_within 1100000000 (a + sum) ltac:(change (inject_Z 1100000000) with 1100000000%Q; lra)) as Ht.
  change (inject_Z 1100000000) with 1100000000%Q in Ht. unfold within in Ht.
  pose proof (fl_nonneg (a + sum) ltac:(lra)) as Ht0. set (T := fl (a + sum)) in *. clearbody T.
  assert (inject_Z (srt_base_rate r) / 100 <= T + 21000000000 * ulp)%Q as HbT by lra.
  destruct (total_within (srt_base_rate r) T ltac:(lia) ltac:(lra) HbT) as [Hge [Hlo Hhi]].
  split_and!; lra.
Qed.

(** ** Quotes *)
Section quotes.
Context `{Redis, !Postgres, !NumberText, !ServerText}.

Notation rates d := (view L_ShippingRate d).
Notation zones d := (view L_ShippingZone d).

(** The rate may price the request, zones aside. *)
Definition candidate (d : Db) (dto : EstimateShippingDto) (r : ShippingRate) : bool :=
  live (srt_deleted_at r) && active (srt_status r) && rate_covers (es_weightKg dto) r
  && rate_of_partner d (es_partnerId dto) r.

Definition serves (d : Db) (dto : EstimateShippingDto) (fz tz : ShippingZone) (r : ShippingRate) : Prop :=
  r ∈ rates d ∧ candidate d dto r = true
  ∧ zone_fits (srt_from_zone_id r) fz = true ∧ zone_fits (srt_to_zone_id r) tz = true.

Lemma elem_of_quotes d dto fz tz l q :
  q ∈ quotes_of d dto fz tz l ↔
  ∃ r, r ∈ l ∧ zone_fits (srt_from_zone_id r) fz = true ∧ zone_fits (srt_to_zone_id r) tz = true
       ∧ q = quote_of d dto fz tz r.
Proof.
  unfold quotes_of. rewrite sort_by_perm. split.
  - intros (r & -> & Hr)%list_elem_of_fmap. apply elem_of_where in Hr as [? [? ?]%andb_true_iff].
    by exists r.
  - intros (r & Hr & Hz1 & Hz2 & ->). apply list_elem_of_fmap. exists r. split; [done|].
    apply elem_of_where. by rewrite Hz1, Hz2.
Qed.

Lemma elem_of_take_scan {A} n (l : list A) x : x ∈ take n (scan l) → x ∈ l.
Proof.
  intros Hx. rewrite <- (scan_perm A l). rewrite <- (take_drop n (scan l)).
  apply elem_of_app. by left.
Qed.

Lemma price_spec dto d :
  dwp (price dto) (λ o d', d' = d ∧ match o with
    | Ok (quotes, (fz, tz)) =>
        (fz ∈ zones d ∧ in_zone (es_fromPincode dto) fz = true)
        ∧ (tz ∈ zones d ∧ in_zone (es_toPincode dto) tz = true)
        ∧ ascending qt_total quotes
        ∧ (∀ q, q ∈ quotes → ∃ r, serves d dto fz tz r ∧ q = quote_of d dto fz tz r)
        ∧ ((length (where_ (candidate d dto) (rates d)) <= 20)%nat →
           ∀ r, serves d dto fz tz r → quote_of d dto fz tz r ∈ quotes)
    | Throw e =>
        e = AppException BAD_REQUEST "Shipping zone not found for pincode" 400
        ∧ (Forall (λ z, in_zone (es_fromPincode dto) z = false) (zones d)
           ∨ Forall (λ z, in_zone (es_toPincode dto) z = false) (zones d))
    end) d.
Proof.
  unfold price, findZone.
  apply dwp_bind, dwp_findFirst; [intros fz Hfz Hf|intros Hf];
    (apply dwp_bind, dwp_findFirst; [intros tz Htz Ht|intros Ht]);
    try (apply dwp_throw; split_and!; auto).
  unfold matching_rates. apply dwp_bind.
  apply (dwp_gets (λ d, take 20 (scan (where_ (candidate d dto) (rates d))))).
  apply dwp_bind, (dwp_gets (λ d, quotes_of d dto fz tz _)), dwp_ret.
  split_and!; [done..|apply sort_by_sorted| |].
  - intros q (r & Hr & Hz1 & Hz2 & ->)%elem_of_quotes.
    apply elem_of_take_scan, elem_of_where in Hr as [? ?]. by exists r.
  - intros Hlen r (Hr & Hc & Hz1 & Hz2). apply elem_of_quotes. exists r. split_and!; try done.
    rewrite take_ge.
    + rewrite scan_perm. by apply elem_of_where.
    + by rewrite (Permutation_length (scan_perm _ _)).
Qed.
End quotes.

(** The answer that carries quotes. *)
Definition estimate_json (quotes : list Quote) (fz tz : ShippingZone) : Json :=
  JObj [("quotes", JArr (map Quote_json quotes)); ("fromZone", JStr (szn_code fz));
        ("toZone", JStr (szn_code tz))].

(** The quotes of a request priced from the tables [d]. *)
Record quotes_exact `{!NumberText, !ServerText} (d : Db) (dto : EstimateShippingDto)
  (quotes : list Quote) (fz tz : ShippingZone) : Prop := {
  qe_from : fz ∈ view L_ShippingZone d ∧ in_zone (es_fromPincode dto) fz = true;
  qe_to : tz ∈ view L_ShippingZone d ∧ in_zone (es_toPincode dto) tz = true;
  qe_sorted : ascending qt_total quotes;
  qe_priced : ∀ q, q ∈ quotes → ∃ r, serves d dto fz tz r ∧ q = quote_of d dto fz tz r
    ∧ (qt_baseRate q <= qt_total q)%Q ∧ (0 <= qt_codFee q <= 50)%Q
    ∧ within (1 # 100) (exact_price dto r) (qt_total q);
  qe_all : (length (where_ (candidate d dto) (view L_ShippingRate d)) <= 20)%nat →
    ∀ r, serves d dto fz tz r → quote_of d dto fz tz r ∈ quotes;
}.

(** The factory, as a run: it reads the tables and does nothing else. *)
Lemma price_run `{Redis, !Postgres, !NumberText, !ServerText} dto (s : St Db) :
  request_bounds dto → Forall rate_bounds (view L_ShippingRate (tables s)) →
  snd (price dto s) = s ∧
  match fst (price dto s) with
  | Ok (quotes, (fz, tz)) => quotes_exact (tables s) dto quotes fz tz
  | Throw e =>
      e = AppException BAD_REQUEST "Shipping zone not found for pincode" 400
      ∧ (Forall (λ z, in_zone (es_fromPincode dto) z = false) (view L_ShippingZone (tables s))
         ∨ Forall (λ z, in_zone (es_toPincode dto) z = false) (view L_ShippingZone (tables s)))
  end.
Proof.
  intros Hb Hr. pose proof (price_spec dto (tables s) s eq_refl) as Hp. split.
  { unfold price, findZone, db_findFirst, matching_rates, gets, mbind, M_bind.
    repeat case_match; simplify_eq; reflexivity. }
  destruct (fst (price dto s)) as [[quotes [fz tz]]|e]; [|apply Hp].
  destruct Hp as (_ & Hf & Ht & Hs & Hq & Hall). split; [done..| |done].
  intros q Hin. destruct (Hq q Hin) as (r & Hserves & ->). exists r.
  rewrite Forall_forall in Hr. pose proof (Hr r (proj1 Hserves)) as Hbr.
  destruct (quote_within (tables s) dto fz tz r Hb Hbr) as (? & ? & _ & ?).
  do 4 (split; [done|]). done.
Qed.

(** (C21) A price request changes no table. What the cache holds under its key is
    answered as it is; the key has the pincodes, the weight, the payment mode and the
    partner, but not the declared value. Otherwise the answer is priced from the
    tables: its quotes come cheapest first, each from an active rate that covers the
    weight, the partner and both zones, with a total not below the base rate and within
    one hundredth of the exact price; no such rate is left out when at most twenty
    cover the weight; the answer is then the one cached; and the request is refused
    exactly when no active zone holds one of the pincodes. *)
Theorem quotes_priced `{Redis, !Postgres, !NumberText, !ServerText} dto (s : St Db) :
  request_bounds dto → Forall rate_bounds (view L_ShippingRate (tables s)) →
  let key := SHIPPING_CACHE.rates (estimate_key dto) in
  let (o, s') := estimate dto s in
  tables s' = tables s ∧
  match CacheService.cached key (env s) with
  | None | Some JNull =>
      match o with
      | Ok j => ∃ quotes fz tz, j = estimate_json quotes fz tz
          ∧ quotes_exact (tables s) dto quotes fz tz
          ∧ (redis_up (env s) = true → CacheService.cached key (env s') = Some j)
      | Throw e => s' = s ∧ e = AppException BAD_REQUEST "Shipping zone not found for pincode" 400
          ∧ (Forall (λ z, in_zone (es_fromPincode dto) z = false) (view L_ShippingZone (tables s))
             ∨ Forall (λ z, in_zone (es_toPincode dto) z = false) (view L_ShippingZone (tables s)))
      end
  | Some j => o = Ok j ∧ s' = s
  end.
Proof.
  intros Hb Hr key. destruct (price_run dto s Hb Hr) as [Hs Hp].
  unfold estimate, ship_getOrSet, CacheService.getOrSet. fold key.
  rewrite (bind_step _ _ _ _ _ (CacheService.cache_get_run key s)).
  destruct (price dto s) as [o1 s1] eqn:Erun. simpl in Hs, Hp. subst s1.
  set (miss := (value ← _; _) : M (St Db) Json).
  assert (let (o, s') := miss s in tables s' = tables s ∧ match o with
      | Ok j => ∃ quotes fz tz, j = estimate_json quotes fz tz ∧ quotes_exact (tables s) dto quotes fz tz
          ∧ (redis_up (env s) = true → CacheService.cached key (env s') = Some j)
      | Throw e => s' = s ∧ e = AppException BAD_REQUEST "Shipping zone not found for pincode" 400
          ∧ (Forall (λ z, in_zone (es_fromPincode dto) z = false) (view L_ShippingZone (tables s))
             ∨ Forall (λ z, in_zone (es_toPincode dto) z = false) (view L_ShippingZone (tables s)))
      end) as Hmiss.
  { unfold miss. destruct o1 as [[quotes [fz tz]]|e].
    - erewrite bind_step; [|erewrite bind_step; [|exact Erun]; reflexivity]. cbn [fst snd].
      fold (estimate_json quotes fz tz). unfold CacheService.set, CacheService.assertTtl, try_catch, throw_if,
        command, mbind, M_bind. simpl. destruct (redis_up (env s)) eqn:Hup; simpl.
      + split; [done|]. exists quotes, fz, tz. split_and!; [done|done|]. intros _.
        unfold CacheService.cached. cbn [env redis_up set_store clock store]. rewrite Hup, rget_set by done.
        by rewrite (proj2 (Z.ltb_lt _ _)) by (unfold SHIPPING_CACHE.TTL; lia).
      + split; [done|]. exists quotes, fz, tz. by split_and!.
    - erewrite bind_abort; [|erewrite bind_abort; [|exact Erun]; reflexivity]. by destruct Hp. }
  destruct (CacheService.cached key (env s)) as [[]|]; try exact Hmiss; by split_and!.
Qed.

(** ** Runs *)
Section examples.
#[local] Existing Instances gmap_redis sample_postgres.

#[local] Existing Instance plain_server.

(** Weights as thousandths are enough to tell the keys of these runs apart. *)
#[local] Instance kg_text : NumberText := λ q, pretty (Qfloor (q * 1000)).

Definition two_kilos : EstimateShippingDto := mkEstimateDto "500001" "110001" 2 true None None.

Definition quoted (o : outcome (list Quote * (ShippingZone * ShippingZone))) : list (string * Z) :=
  match o with Ok (quotes, _) => map (λ q, (qt_rateId q, toFixed2 (qt_total q))) quotes | _ => [] end.

Lemma quotes_priced_witness :
  ∃ quotes fz tz, fst (estimate two_kilos sample) = Ok (estimate_json quotes fz tz)
  ∧ quotes_exact (tables sample) two_kilos quotes fz tz.
Proof.
  assert (request_bounds two_kilos) as Hb by (split; [by split; vm_compute|done]).
  assert (Forall rate_bounds (view L_ShippingRate (tables sample))) as Hr.
  { repeat apply Forall_cons_2; [unfold rate_bounds; simpl; lia..|apply Forall_nil_2]. }
  pose proof (quotes_priced two_kilos sample Hb Hr) as Hp.
  assert (match fst (estimate two_kilos sample) with Ok _ => true | Throw _ => false end = true) as Ho
    by (vm_compute; reflexivity).
  assert (CacheService.cached (SHIPPING_CACHE.rates (estimate_key two_kilos)) (env sample) = None) as Hc
    by (vm_compute; reflexivity).
  cbv zeta in Hp. rewrite Hc in Hp. destruct (estimate two_kilos sample) as [[j|e] s']; [|discriminate Ho].
  destruct Hp as (_ & quotes & fz & tz & -> & Hq & _). exists quotes, fz, tz. exact (conj eq_refl Hq).
Defined.

Example two_kilos_quoted : quoted (fst (price two_kilos sample)) = [("rb", 9792); ("ra", 13770)].
Proof. vm_compute. reflexivity. Qed.

(** The key of a cached estimate leaves out the declared value: within its TTL an
    insured parcel is quoted without its insurance. *)
Definition insured : EstimateShippingDto :=
  mkEstimateDto "500001" "110001" 2 true (Some (inject_Z 100000)) None.

Definition answer (o : outcome Json) : Json := match o with Ok j => j | Throw _ => JNull end.

Example estimate_forgets_insurance :
  let s1 := snd (estimate two_kilos sample) in
  quoted (fst (price insured s1)) = [("rb", 59792); ("ra", 63770)]
  ∧ answer (fst (estimate insured s1)) = answer (fst (estimate two_kilos sample))
  ∧ answer (fst (estimate insured s1)) ≠ JNull.
Proof.
  intros s1. split; [vm_compute; reflexivity|]. split; [vm_compute; reflexivity|].
  assert (match answer (fst (estimate insured s1)) with JObj _ => true | _ => false end = true) as Hj
    by (vm_compute; reflexivity).
  intros E. by rewrite E in Hj.
Qed.

(** The query takes twenty rates before the zones are looked at: a lane is quoted
    nothing when twenty rates of other lanes come first. *)
Definition crowded : St Db :=
  mkSt env0 (put L_ShippingRate
    (map (λ n, mkShippingRate (pretty (Z.of_nat n)) "rc" (Some "zn") (Some "zs") 0 None 4000 2000
                 "INR" rs_active None) (seq 0 20)
     ++ [mkShippingRate "rb" "rc" (Some "zs") (Some "zn") 0 None 4500 2550 "INR" rs_active None])
    sample_db).

Example crowded_lane_unquoted :
  match fst (price two_kilos crowded) with
  | Ok (quotes, (fz, tz)) => (quotes, szn_id fz, szn_id tz) = ([], "zs", "zn")
  | Throw _ => False
  end.
Proof. vm_compute. reflexivity. Qed.
End examples.
