(* ===== verification/Calendar.v ===== *)
(** * Dates of the calendar

    The date arithmetic of JavaScript as the services use it: a [Date] is a number
    of milliseconds since 1970, [setMonth] and [setDate] work on the local calendar
    of the process. [LocalTime] is the time zone; the calendar is the Gregorian one,
    counted from March so that a leap day ends its year. *)
From S2P Require Import Prelude.

#[local] Open Scope Z_scope.

Definition msPerDay : Z := 86400000.

(** LocalTime(t) and UTC(t): a time zone is less than a day from UTC, whatever the
    season. *)
Class LocalTime := {
  to_local : Z → Z;
  to_utc : Z → Z;
  to_local_near : ∀ t, Z.abs (to_local t - t) < msPerDay;
  to_utc_near : ∀ t, Z.abs (to_utc t - t) < msPerDay;
}.

(** A process that runs in UTC. *)
Lemma utc_near (t : Z) : Z.abs (t - t) < msPerDay.
Proof. unfold msPerDay. lia. Qed.

#[export] Instance utc : LocalTime | 100 := {|
  to_local t := t; to_utc t := t; to_local_near := utc_near; to_utc_near := utc_near |}.

(** ** Months

    Month [k] is month [k mod 12] (from 0) of the year [k / 12]; [month_start k] is
    its first day, counted from 1970-01-01. *)
Definition month_start (k : Z) : Z :=
  let m := k - 2 in
  let y := m / 12 in
  365 * y + y / 4 - y / 100 + y / 400 + (153 * (m mod 12) + 2) / 5 - 719468.

Definition month_days (k : Z) : Z := month_start (k + 1) - month_start k.

(** The month of a day: a guess by the mean length of a month, corrected. *)
Definition month_guess (d : Z) : Z := 23640 + d * 4800 / 146097.

Definition month_of (d : Z) : Z :=
  let k := month_guess d in
  if d <? month_start k then k - 1
  else if month_start (k + 1) <=? d then k + 1 else k.

(** DateFromTime, less one. *)
Definition day_of_month (d : Z) : Z := d - month_start (month_of d).

Section dates.
  Context `{!LocalTime}.

Definition day (t : Z) : Z := to_local t / msPerDay.
Definition time_in_day (t : Z) : Z := to_local t mod msPerDay.

(** [const e = new Date(t); e.setMonth(e.getMonth() + n); e.getTime()]: the day of
    the month is kept, and counted on into the next month where there is none. *)
Definition addMonths (t n : Z) : Z :=
  to_utc ((month_start (month_of (day t) + n) + day_of_month (day t)) * msPerDay
          + time_in_day t).

(** [e.setDate(e.getDate() + n)] *)
Definition addDays (t n : Z) : Z := to_utc ((day t + n) * msPerDay + time_in_day t).
End dates.

(** ** The calendar repeats every 400 years *)

Lemma month_start_cycle k c : month_start (k + 4800 * c) = month_start k + 146097 * c.
Proof.
  unfold month_start. replace (k + 4800 * c - 2) with (k - 2 + (400 * c) * 12) by lia.
  rewrite Z.div_add, Z_mod_plus_full by lia. set (y := (k - 2) / 12).
  replace (y + 400 * c) with (y + (100 * c) * 4) at 2 by lia.
  replace (y + 400 * c) with (y + (4 * c) * 100) at 2 by lia.
  replace (y + 400 * c) with (y + c * 400) at 2 by lia.
  rewrite !Z.div_add by lia. lia.
Qed.

(** All that is said of one cycle is checked by evaluation. *)
Fixpoint all_below (n : nat) (p : Z → bool) : bool :=
  match n with O => true | S m => p (Z.of_nat m) && all_below m p end.

Lemma all_below_spec n p : all_below n p = true → ∀ z, 0 <= z < Z.of_nat n → p z = true.
Proof.
  induction n as [|n IH]; cbn [all_below]; [lia|]. intros [Hp Hn]%andb_true_iff z Hz.
  destruct (Z.eq_dec z (Z.of_nat n)) as [->|]; [done|]. apply IH; [done|lia].
Qed.

(** A month has 28 to 31 days, and the guess is off by one month at most. *)
Definition month_ok (k : Z) : bool :=
  (28 <=? month_days k) && (month_days k <=? 31)
  && (4800 * month_start (k - 1) <=? 146097 * (k - 23640))
  && (146097 * (k + 1 - 23640) <=? 4800 * month_start (k + 2)).

Lemma month_ok_cycle k c : month_ok (k + 4800 * c) = month_ok k.
Proof.
  unfold month_ok, month_days.
  replace (k + 4800 * c + 1) with (k + 1 + 4800 * c) by lia.
  replace (k + 4800 * c - 1) with (k - 1 + 4800 * c) by lia.
  replace (k + 4800 * c + 2) with (k + 2 + 4800 * c) by lia.
  rewrite !month_start_cycle. apply eq_true_iff_eq. rewrite !andb_true_iff, !Z.leb_le. lia.
Qed.

Lemma months_ok k : month_ok k = true.
Proof.
  assert (all_below 4800 month_ok = true) as Hall by (vm_compute; reflexivity).
  rewrite (Z_div_mod_eq_full k 4800), Z.add_comm, month_ok_cycle.
  apply (all_below_spec _ _ Hall). pose proof (Z.mod_pos_bound k 4800). lia.
Qed.

Lemma month_days_bounds k : 28 <= month_days k <= 31.
Proof. pose proof (months_ok k) as E. unfold month_ok in E. bool_to_prop. lia. Qed.

Lemma month_start_add k n : 0 <= n →
  28 * n <= month_start (k + n) - month_start k <= 31 * n.
Proof.
  intros Hn. pattern n. apply natlike_ind; [rewrite Z.add_0_r; lia| |done].
  intros m Hm IH. pose proof (month_days_bounds (k + m)) as Hd. unfold month_days in Hd.
  replace (k + Z.succ m) with (k + m + 1) by lia. lia.
Qed.

Lemma month_of_spec d : month_start (month_of d) <= d < month_start (month_of d + 1).
Proof.
  pose proof (months_ok (month_guess d)) as E. unfold month_ok in E. bool_to_prop.
  assert (month_start (month_guess d - 1) <= d < month_start (month_guess d + 2)) as Hd.
  { unfold month_guess in *. pose proof (Z.div_mod (d * 4800) 146097) as Hdm.
    pose proof (Z.mod_pos_bound (d * 4800) 146097). lia. }
  unfold month_of. set (g := month_guess d) in *.
  destruct (Z.ltb_spec d (month_start g)) as [Hlt|Hge].
  - replace (g - 1 + 1) with g by lia. lia.
  - destruct (Z.leb_spec (month_start (g + 1)) d).
    + replace (g + 1 + 1) with (g + 2) by lia. lia.
    + lia.
Qed.

Lemma month_start_le j k : j <= k → month_start j <= month_start k.
Proof. intros Hjk. pose proof (month_start_add j (k - j)) as Hd. replace (j + (k - j)) with k in Hd; lia. Qed.

(** The month of a day is the one it lies in. *)
Lemma month_of_unique d k : month_start k <= d < month_start (k + 1) → month_of d = k.
Proof.
  intros Hk. pose proof (month_of_spec d). destruct (Z.lt_trichotomy (month_of d) k) as [Hlt|[|Hgt]]; [|done|].
  - pose proof (month_start_le (month_of d + 1) k). lia.
  - pose proof (month_start_le (k + 1) (month_of d)). lia.
Qed.

(** ** Adding months and days *)
Section adding.
  Context `{!LocalTime}.
  Implicit Types t n : Z.

Lemma local_day t : to_local t = day t * msPerDay + time_in_day t.
Proof. unfold day, time_in_day, msPerDay. pose proof (Z_div_mod_eq_full (to_local t) 86400000). lia. Qed.

(** The local time moves by whole days: between 28 and 31 per month. *)
Lemma addMonths_days t n : 0 <= n → ∃ k, 28 * n <= k <= 31 * n ∧
  addMonths t n = to_utc (to_local t + k * msPerDay).
Proof.
  intros Hn. exists (month_start (month_of (day t) + n) - month_start (month_of (day t))).
  split; [by apply month_start_add|]. unfold addMonths, day_of_month. f_equal.
  rewrite (local_day t). lia.
Qed.

Lemma addMonths_bounds t n : 0 <= n →
  (28 * n - 2) * msPerDay < addMonths t n - t < (31 * n + 2) * msPerDay.
Proof.
  intros Hn. destruct (addMonths_days t n Hn) as (k & Hk & ->).
  pose proof (to_local_near t). pose proof (to_utc_near (to_local t + k * msPerDay)).
  unfold msPerDay in *. lia.
Qed.

Lemma addMonths_later t n : 1 <= n → t < addMonths t n.
Proof. intros Hn. pose proof (addMonths_bounds t n ltac:(lia)). unfold msPerDay in *. lia. Qed.

Lemma addDays_bounds t n : (n - 2) * msPerDay < addDays t n - t < (n + 2) * msPerDay.
Proof.
  unfold addDays. pose proof (local_day t).
  replace ((day t + n) * msPerDay + time_in_day t) with (to_local t + n * msPerDay) by lia.
  pose proof (to_local_near t). pose proof (to_utc_near (to_local t + n * msPerDay)).
  unfold msPerDay in *. lia.
Qed.
End adding.

(** In UTC the day of the month and the time of the day are kept, when the month
    has that day. *)
Lemma addMonths_same_day t n :
  day_of_month (day t) < month_days (month_of (day t) + n) →
  let t' := addMonths t n in
  month_of (day t') = month_of (day t) + n
  ∧ day_of_month (day t') = day_of_month (day t) ∧ time_in_day t' = time_in_day t.
Proof.
  intros Hd t'. pose proof (month_of_spec (day t)) as Hm.
  set (k := month_of (day t) + n) in *. set (i := day_of_month (day t)) in *.
  assert (0 <= i) by (unfold i, day_of_month; lia).
  assert (0 <= time_in_day t < msPerDay) as Ht.
  { unfold time_in_day, msPerDay. apply Z.mod_pos_bound. lia. }
  assert (t' = time_in_day t + (month_start k + i) * msPerDay) as E.
  { unfold t', addMonths. fold i. fold k. simpl. lia. }
  assert (day t' = month_start k + i) as Hday.
  { unfold day. simpl. rewrite E. unfold msPerDay in *. rewrite Z.div_add, Z.div_small by lia. lia. }
  assert (month_of (day t') = k) as Hmo.
  { apply month_of_unique. rewrite Hday. unfold month_days in Hd. lia. }
  split_and!; [done| |].
  - unfold day_of_month. rewrite Hmo, Hday. lia.
  - unfold time_in_day at 1. simpl. rewrite E. unfold msPerDay in *.
    rewrite Z_mod_plus_full. by rewrite Z.mod_small.
Qed.

(** Twelve months after 29 February 2024 is 1 March 2025, and one month after
    31 January is 3 March. *)
Example leap_day : addMonths (19782 * msPerDay) 12 = 20148 * msPerDay.
Proof. reflexivity. Qed.
Example end_of_january : addMonths (20119 * msPerDay) 1 = 20150 * msPerDay.
Proof. reflexivity. Qed.
