(* ===== verification/WarrantyStores.v ===== *)
(** * The case stores of warranty and service

    Models [backend/src/modules/warranty/stores]: the four stores that put warranty
    claims, RMAs, service tickets and repair jobs behind the case manager of
    [Cases], and the audit trail they write their timelines to. A row that vanished
    between two statements makes the source's [(await this.load(ref))!] a TypeError
    at its next use; here it is one at once. *)
From S2P Require Import Prelude Core Effects Redis Lock StateMachine JsNumber Schema Database Tables Payments Webhooks Shipping Carrier Cases.
From Stdlib Require Import QArith.

#[local] Open Scope Z_scope.

(** ** Members of the enum columns *)

Definition WarrantyClaimStatus_members : list WarrantyClaimStatus :=
  [wcs_submitted; wcs_under_review; wcs_approved; wcs_rejected; wcs_in_service; wcs_closed;
   wcs_cancelled].
Definition RmaStatus_members : list RmaStatus :=
  [rms_requested; rms_approved; rms_in_transit; rms_received; rms_completed; rms_rejected;
   rms_cancelled].
Definition ServiceTicketStatus_members : list ServiceTicketStatus :=
  [sts_created; sts_assigned; sts_diagnosis; sts_waiting_for_parts; sts_repair_in_progress;
   sts_testing; sts_quality_check; sts_ready_for_pickup; sts_delivered; sts_closed; sts_cancelled].
Definition RepairOutcome_members : list RepairOutcome :=
  [rpo_pending; rpo_repaired; rpo_irreparable; rpo_replaced; rpo_customer_declined].

(** ** Timeline entries as the JSON of an audit row *)

Definition TimelineType_text (t : TimelineType) : string :=
  match t with
  | te_created => "created" | te_status_changed => "status_changed" | te_assigned => "assigned"
  | te_priority_changed => "priority_changed" | te_note => "note" | te_attachment => "attachment"
  | te_escalated => "escalated" | te_sla_breach => "sla_breach" | te_closed => "closed"
  end.

Definition TimelineType_members : list TimelineType :=
  [te_created; te_status_changed; te_assigned; te_priority_changed; te_note; te_attachment;
   te_escalated; te_sla_breach; te_closed].

(** A text field of parsed JSON. *)
Definition jtext (k : string) (j : option Json) : option string :=
  match jfield k j with Some (JStr s) => Some s | _ => None end.

(** [(meta.type ?? 'status_changed') as type]: the texts that are stored are
    members. *)
Definition timeline_type (meta : option Json) : TimelineType :=
  coalesce (jtext "type" meta ≫= of_text TimelineType_text TimelineType_members) te_status_changed.

Section stores.
  Context `{Redis, !Scheduler, !Crypto, !Postgres, !DateText}.

Definition entry_fields (e : CaseTimelineEntry) : list (string * Json) :=
  [("at", JStr (iso_text (en_at e))); ("type", JStr (TimelineType_text (en_type e)))]
  ++ jopt "actorId" (en_actorId e) ++ jopt "message" (en_message e)
  ++ jopt "fromStatus" (en_fromStatus e) ++ jopt "toStatus" (en_toStatus e)
  ++ match en_metadata e with Some m => [("metadata", m)] | None => [] end.

(** The entry that a row of the audit trail is read as. *)
Definition entry_of (r : ServiceAuditLog) : CaseTimelineEntry :=
  let meta := sal_metadata r in
  mkEntry (sal_created_at r) (timeline_type meta) (sal_actor_id r) (jtext "message" meta)
    (jtext "fromStatus" meta) (jtext "toStatus" meta) None.

(** [serviceAuditLog.create] *)
Definition service_log (ticketId claimId repairJobId : option string) (action : string)
  (actorId : option string) (metadata : option Json) : M (St Db) () :=
  now ← Date_now;
  _ ← db_create T_ServiceAuditLog (λ id, mkServiceAuditLog id ticketId claimId repairJobId action
        actorId metadata now None);
  mret tt.

Definition log_entry (ticketId claimId repairJobId : option string) (e : CaseTimelineEntry)
  (more : list (string * Json)) : M (St Db) () :=
  service_log ticketId claimId repairJobId ("case." +:+ TimelineType_text (en_type e))
    (en_actorId e) (Some (JObj (entry_fields e ++ more))).

(** The rows of the trail that [p] selects, ORDER BY created_at. *)
Definition trail (p : ServiceAuditLog → bool) : M (St Db) (list ServiceAuditLog) :=
  db_findMany_desc T_ServiceAuditLog (λ r, live (sal_deleted_at r) && p r)
    (λ r, - sal_created_at r).

(** [findFirstOrThrow({ where: { id } })] *)
Definition findFirstOrThrow {A} (T : Table A) (id : string) : M (St Db) A :=
  row ← db_findFirst T (λ r, String.eqb (pk T r) id);
  require_ row (DbError RecordNotFound).

(** [(await this.load(ref))!] *)
Definition loaded (load : M (St Db) (option CaseSnapshot)) : M (St Db) CaseSnapshot :=
  snap ← load;
  require_ snap (JsError "Cannot read properties of null (reading 'status')").

(** [{ ...snap, priority }] *)
Definition with_priority (priority : Z) (s : CaseSnapshot) : CaseSnapshot :=
  mkCaseSnapshot (sn_kind s) (sn_id s) (sn_number s) (sn_status s) (sn_assigneeId s) priority
    (sn_openedAt s) (sn_dueAt s) (sn_escalatedAt s) (sn_closedAt s) (sn_metadata s).

Definition assigned_entry (now : Z) (actorId : option string) (message : string)
  (toStatus : option string) (metadata : option Json) : CaseTimelineEntry :=
  mkEntry now te_assigned actorId (Some message) None toStatus metadata.

Definition priority_entry (now : Z) (actorId message : option string) (priority : Z)
  : CaseTimelineEntry :=
  mkEntry now te_priority_changed actorId message None None
    (Some (JObj [("priority", JInt priority)])).

Definition assignee_json (assigneeId : string) : option Json :=
  Some (JObj [("assigneeId", JStr assigneeId)]).

(** ** Claims ([warranty-claim.store.ts]) *)

Definition find_claim (id : string) : M (St Db) (option WarrantyClaim) :=
  db_findFirst T_WarrantyClaim (λ r, String.eqb (wcl_id r) id && live (wcl_deleted_at r)).

Definition claim_snapshot (r : WarrantyClaim) : CaseSnapshot :=
  mkCaseSnapshot ck_warranty_claim (wcl_id r) (Some (wcl_claim_number r))
    (WarrantyClaimStatus_text (wcl_status r)) None 3 (wcl_submitted_at r)
    (Some (computeDueAt (wcl_submitted_at r) 3 (cd_sla (CASE_DEFINITIONS ck_warranty_claim))))
    None (wcl_resolved_at r) None.

Definition claim_load (ref : CaseRef) : M (St Db) (option CaseSnapshot) :=
  if bool_decide (ref_kind ref = ck_warranty_claim) then
    row ← find_claim (ref_id ref); mret (option_map claim_snapshot row)
  else mret None.

Definition set_claim_status (st : WarrantyClaimStatus) (resolved : option Z) (r : WarrantyClaim)
  : WarrantyClaim :=
  mkWarrantyClaim (wcl_id r) (wcl_claim_number r) (wcl_registration_id r) (wcl_customer_id r)
    (wcl_serial_number_id r) (wcl_issue_summary r) (wcl_issue_detail r) (wcl_claim_amount r) st
    (wcl_submitted_at r) resolved (wcl_deleted_at r).

Definition claim_history (claimId : string) (from : option string) (to : string)
  (notes actorId : option string) : M (St Db) () :=
  now ← Date_now;
  _ ← db_create T_WarrantyStatusHistory (λ id, mkWarrantyStatusHistory id None (Some claimId) from to
        notes now actorId None);
  mret tt.

Definition claim_saveStatus (ref : CaseRef) (status : string) (actorId : option string)
  : M (St Db) CaseSnapshot :=
  current ← findFirstOrThrow T_WarrantyClaim (ref_id ref);
  now ← Date_now;
  st ← as_enum "status" WarrantyClaimStatus_text WarrantyClaimStatus_members status;
  _ ← db_update T_WarrantyClaim (ref_id ref) (set_claim_status st
        (if includes status ["closed"; "rejected"; "cancelled"] then Some now
         else wcl_resolved_at current));
  claim_history (ref_id ref) (Some (WarrantyClaimStatus_text (wcl_status current))) status None
    actorId ;;
  loaded (claim_load ref).

Definition claim_append (ref : CaseRef) (e : CaseTimelineEntry) : M (St Db) () :=
  log_entry None (Some (ref_id ref)) None e [].

Definition claim_assign (ref : CaseRef) (assigneeId : string) (actorId : option string)
  : M (St Db) CaseSnapshot :=
  now ← Date_now;
  claim_append ref (assigned_entry now actorId ("Assigned " +:+ assigneeId) None
    (assignee_json assigneeId)) ;;
  loaded (claim_load ref).

Definition claim_setPriority (ref : CaseRef) (priority : Z) (actorId : option string)
  : M (St Db) CaseSnapshot :=
  now ← Date_now;
  claim_append ref (priority_entry now actorId (Some ("P" +:+ pretty priority)) priority) ;;
  snap ← loaded (claim_load ref);
  mret (with_priority priority snap).

Definition claim_addNote (ref : CaseRef) (note : CaseNoteInput) : M (St Db) () :=
  snap ← loaded (claim_load ref);
  claim_history (ref_id ref) None (sn_status snap) (Some (no_body note)) (no_actorId note).

Definition claim_addAttachment (ref : CaseRef) (meta : CaseAttachmentMeta) (actorId : option string)
  : M (St Db) () :=
  _ ← db_create T_ClaimDocument (λ id, mkClaimDocument id (ref_id ref) (am_mediaFileId meta)
        (coalesce (am_docType meta) "other") (am_label meta) None);
  mret tt.

Definition claim_listTimeline (ref : CaseRef) : M (St Db) (list CaseTimelineEntry) :=
  rows ← trail (λ r, same_opt (sal_claim_id r) (Some (ref_id ref)));
  mret (map (λ r, let e := entry_of r in
    mkEntry (en_at e) (en_type e) (en_actorId e) (en_message e) (en_fromStatus e) (en_toStatus e)
      (jfield "metadata" (sal_metadata r))) rows).

Definition WarrantyClaimStore : CaseStore Db :=
  mkCaseStore claim_load claim_saveStatus claim_assign claim_setPriority claim_addNote
    claim_addAttachment claim_append (Some claim_listTimeline) None.

(** ** RMAs ([rma.store.ts]) *)

Definition find_rma (id : string) : M (St Db) (option RmaRequest) :=
  db_findFirst T_RmaRequest (λ r, String.eqb (rma_id r) id && live (rma_deleted_at r)).

Definition rma_snapshot (r : RmaRequest) : CaseSnapshot :=
  mkCaseSnapshot ck_rma (rma_id r) (Some (rma_rma_number r)) (RmaStatus_text (rma_status r)) None 3
    (rma_requested_at r)
    (Some (computeDueAt (rma_requested_at r) 3 (cd_sla (CASE_DEFINITIONS ck_rma))))
    None (rma_completed_at r) None.

Definition rma_load (ref : CaseRef) : M (St Db) (option CaseSnapshot) :=
  if bool_decide (ref_kind ref = ck_rma) then
    row ← find_rma (ref_id ref); mret (option_map rma_snapshot row)
  else mret None.

Definition set_rma_status (st : RmaStatus) (completed : option Z) (r : RmaRequest) : RmaRequest :=
  mkRmaRequest (rma_id r) (rma_rma_number r) (rma_rma_type r) (rma_customer_id r) (rma_order_id r)
    (rma_order_item_id r) (rma_claim_id r) (rma_ticket_id r) (rma_serial_number_id r) (rma_reason r)
    st (rma_requested_at r) completed (rma_deleted_at r).

Definition rma_append (ref : CaseRef) (e : CaseTimelineEntry) : M (St Db) () :=
  log_entry None None None e [("rmaId", JStr (ref_id ref))].

Definition rma_saveStatus (ref : CaseRef) (status : string) (actorId : option string)
  : M (St Db) CaseSnapshot :=
  current ← findFirstOrThrow T_RmaRequest (ref_id ref);
  now ← Date_now;
  st ← as_enum "status" RmaStatus_text RmaStatus_members status;
  _ ← db_update T_RmaRequest (ref_id ref) (set_rma_status st
        (if includes status ["completed"; "rejected"; "cancelled"] then Some now
         else rma_completed_at current));
  now ← Date_now;
  rma_append ref (mkEntry now te_status_changed actorId None
    (Some (RmaStatus_text (rma_status current))) (Some status) None) ;;
  loaded (rma_load ref).

Definition rma_assign (ref : CaseRef) (assigneeId : string) (actorId : option string)
  : M (St Db) CaseSnapshot :=
  now ← Date_now;
  rma_append ref (assigned_entry now actorId ("Assigned " +:+ assigneeId) None
    (assignee_json assigneeId)) ;;
  loaded (rma_load ref).

Definition rma_setPriority (ref : CaseRef) (priority : Z) (actorId : option string)
  : M (St Db) CaseSnapshot :=
  now ← Date_now;
  rma_append ref (priority_entry now actorId None priority) ;;
  snap ← loaded (rma_load ref);
  mret (with_priority priority snap).

Definition rma_addNote (ref : CaseRef) (note : CaseNoteInput) : M (St Db) () :=
  service_log None None None "rma.note" (no_actorId note)
    (Some (JObj [("rmaId", JStr (ref_id ref)); ("body", JStr (no_body note))])).

Definition rma_addAttachment (ref : CaseRef) (meta : CaseAttachmentMeta) (actorId : option string)
  : M (St Db) () :=
  _ ← db_create T_ServiceDocument (λ id, mkServiceDocument id None None (am_mediaFileId meta)
        (coalesce (am_docType meta) "rma") (Some (coalesce (am_label meta) ("RMA " +:+ ref_id ref))));
  mret tt.

(** The first two hundred case rows of all cases, then those of this one. *)
Definition rma_listTimeline (ref : CaseRef) : M (St Db) (list CaseTimelineEntry) :=
  rows ← trail (λ r, String.prefix "case." (sal_action r));
  mret (map entry_of
    (where_ (λ r, same_opt (jtext "rmaId" (sal_metadata r)) (Some (ref_id ref))) (take 200 rows))).

Definition RmaStore : CaseStore Db :=
  mkCaseStore rma_load rma_saveStatus rma_assign rma_setPriority rma_addNote rma_addAttachment
    rma_append (Some rma_listTimeline) None.

(** ** Service tickets ([service-ticket.store.ts]) *)

Definition clampPriority (p : Z) : Z := if p <=? 1 then 1 else if 5 <=? p then 5 else p.

Definition find_ticket (id : string) : M (St Db) (option ServiceTicket) :=
  db_findFirst T_ServiceTicket (λ r, String.eqb (stt_id r) id && live (stt_deleted_at r)).

(** [{ ...def.sla, ...sla }] *)
Definition ticket_sla (d : Db) (r : ServiceTicket) : CaseSlaPolicy :=
  let sla := cd_sla (CASE_DEFINITIONS ck_service_ticket) in
  match stt_service_sla_id r ≫= λ i, find_first (λ x, String.eqb (ssl_id x) i) (view L_ServiceSla d) with
  | Some own => mkSla (ssl_response_time_minutes own) (ssl_resolution_time_minutes own)
                  (priorityMultiplier sla)
  | None => sla
  end.

Definition ticket_snapshot (d : Db) (r : ServiceTicket) : CaseSnapshot :=
  let priority := clampPriority (stt_priority r) in
  mkCaseSnapshot ck_service_ticket (stt_id r) (Some (stt_ticket_number r))
    (ServiceTicketStatus_text (stt_status r)) (stt_technician_id r) priority (stt_opened_at r)
    (Some (computeDueAt (stt_opened_at r) priority (ticket_sla d r))) None (stt_closed_at r) None.

Definition ticket_load (ref : CaseRef) : M (St Db) (option CaseSnapshot) :=
  if bool_decide (ref_kind ref = ck_service_ticket) then
    row ← find_ticket (ref_id ref);
    gets (λ s, option_map (ticket_snapshot (tables s)) row)
  else mret None.

Definition set_ticket (st : ServiceTicketStatus) (technician : option string) (priority : Z)
  (assigned closed : option Z) (r : ServiceTicket) : ServiceTicket :=
  mkServiceTicket (stt_id r) (stt_ticket_number r) (stt_customer_id r) (stt_registration_id r)
    (stt_claim_id r) (stt_service_center_id r) technician (stt_serial_number_id r) (stt_order_id r)
    (stt_title r) (stt_description r) st priority (stt_service_sla_id r) (stt_opened_at r) assigned
    closed (stt_deleted_at r).

Definition set_ticket_status (st : ServiceTicketStatus) (closed : option Z) (r : ServiceTicket)
  : ServiceTicket :=
  set_ticket st (stt_technician_id r) (stt_priority r) (stt_assigned_at r) closed r.

Definition set_technician (technicianId : string) (now : Z) (r : ServiceTicket) : ServiceTicket :=
  set_ticket sts_assigned (Some technicianId) (stt_priority r) (Some now) (stt_closed_at r) r.

Definition set_ticket_priority (priority : Z) (r : ServiceTicket) : ServiceTicket :=
  set_ticket (stt_status r) (stt_technician_id r) priority (stt_assigned_at r) (stt_closed_at r) r.

Definition ticket_history (ticketId : string) (from : option ServiceTicketStatus)
  (to : ServiceTicketStatus) (notes actorId : option string) : M (St Db) () :=
  now ← Date_now;
  _ ← db_create T_TicketStatusHistory (λ id, mkTicketStatusHistory id ticketId from to notes now
        actorId None);
  mret tt.

Definition as_ticket_status (column status : string) : M (St Db) ServiceTicketStatus :=
  as_enum column ServiceTicketStatus_text ServiceTicketStatus_members status.

Definition ticket_saveStatus (ref : CaseRef) (status : string) (actorId : option string)
  : M (St Db) CaseSnapshot :=
  current ← findFirstOrThrow T_ServiceTicket (ref_id ref);
  now ← Date_now;
  st ← as_ticket_status "status" status;
  _ ← db_update T_ServiceTicket (ref_id ref) (set_ticket_status st
        (if includes status ["closed"; "cancelled"] then Some now else stt_closed_at current));
  ticket_history (ref_id ref) (Some (stt_status current)) st None actorId ;;
  loaded (ticket_load ref).

Definition ticket_append (ref : CaseRef) (e : CaseTimelineEntry) : M (St Db) () :=
  log_entry (Some (ref_id ref)) None None e [].

(** Whatever the ticket's status is, it becomes [assigned]. *)
Definition ticket_assign (ref : CaseRef) (assigneeId : string) (actorId : option string)
  : M (St Db) CaseSnapshot :=
  now ← Date_now;
  _ ← db_update T_ServiceTicket (ref_id ref) (set_technician assigneeId now);
  now ← Date_now;
  ticket_append ref (assigned_entry now actorId ("Technician " +:+ assigneeId) (Some "assigned")
    None) ;;
  loaded (ticket_load ref).

Definition ticket_setPriority (ref : CaseRef) (priority : Z) (actorId : option string)
  : M (St Db) CaseSnapshot :=
  _ ← db_update T_ServiceTicket (ref_id ref) (set_ticket_priority priority);
  now ← Date_now;
  ticket_append ref (priority_entry now actorId None priority) ;;
  loaded (ticket_load ref).

Definition ticket_addNote (ref : CaseRef) (note : CaseNoteInput) : M (St Db) () :=
  snap ← loaded (ticket_load ref);
  st ← as_ticket_status "to_status" (sn_status snap);
  ticket_history (ref_id ref) None st (Some (no_body note)) (no_actorId note).

Definition ticket_addAttachment (ref : CaseRef) (meta : CaseAttachmentMeta)
  (actorId : option string) : M (St Db) () :=
  _ ← db_create T_ServiceDocument (λ id, mkServiceDocument id (Some (ref_id ref)) None
        (am_mediaFileId meta) (coalesce (am_docType meta) "other") (am_label meta));
  mret tt.

(** The entry that a line of history is read as. *)
Definition history_entry (h : TicketStatusHistory) : CaseTimelineEntry :=
  mkEntry (tsh_changed_at h)
    (if truthy_str (tsh_notes h) && bool_decide (tsh_from_status h = None) then te_note
     else te_status_changed)
    (tsh_actor_id h) (tsh_notes h) (option_map ServiceTicketStatus_text (tsh_from_status h))
    (Some (ServiceTicketStatus_text (tsh_to_status h))) None.

Definition ticket_listTimeline (ref : CaseRef) : M (St Db) (list CaseTimelineEntry) :=
  audits ← trail (λ r, same_opt (sal_ticket_id r) (Some (ref_id ref)));
  history ← db_findMany_desc T_TicketStatusHistory
              (λ h, String.eqb (tsh_ticket_id h) (ref_id ref) && live (tsh_deleted_at h))
              (λ h, - tsh_changed_at h);
  mret (sort_by (λ e, inject_Z (en_at e)) (map history_entry history ++ map entry_of audits)).

Definition ServiceTicketStore : CaseStore Db :=
  mkCaseStore ticket_load ticket_saveStatus ticket_assign ticket_setPriority ticket_addNote
    ticket_addAttachment ticket_append (Some ticket_listTimeline) None.

(** ** Repair jobs ([repair-job.store.ts]): their case status is the last
    [case.status] row of the trail. *)

Definition find_repair (id : string) : M (St Db) (option RepairJob) :=
  db_findFirst T_RepairJob (λ r, String.eqb (rjb_id r) id && live (rjb_deleted_at r)).

Definition is_status_row (jobId : string) (r : ServiceAuditLog) : bool :=
  same_opt (sal_repair_job_id r) (Some jobId) && String.eqb (sal_action r) "case.status"
  && live (sal_deleted_at r).

Definition readCaseStatus (jobId : string) : M (St Db) string :=
  last ← db_findFirst_desc T_ServiceAuditLog (is_status_row jobId) sal_created_at;
  mret (coalesce (jtext "status" (last ≫= sal_metadata)) "open").

Definition repair_snapshot (r : RepairJob) (status : string) : CaseSnapshot :=
  let openedAt := coalesce (rjb_started_at r) (rjb_created_at r) in
  mkCaseSnapshot ck_repair_job (rjb_id r) (Some (rjb_repair_number r)) status (rjb_technician_id r) 3
    openedAt (Some (computeDueAt openedAt 3 (cd_sla (CASE_DEFINITIONS ck_repair_job)))) None
    (rjb_completed_at r) (Some (JObj [("outcome", JStr (RepairOutcome_text (rjb_outcome r)))])).

Definition repair_load (ref : CaseRef) : M (St Db) (option CaseSnapshot) :=
  if bool_decide (ref_kind ref = ck_repair_job) then
    row ← find_repair (ref_id ref);
    match row with
    | Some r => status ← readCaseStatus (ref_id ref); mret (Some (repair_snapshot r status))
    | None => mret None
    end
  else mret None.

Definition set_repair (technician : option string) (started completed : option Z)
  (minutes : option Z) (outcome : RepairOutcome) (notes : option string) (r : RepairJob) : RepairJob :=
  mkRepairJob (rjb_id r) (rjb_repair_number r) (rjb_ticket_id r) technician (rjb_labor_cost r)
    started completed minutes outcome notes (rjb_created_at r) (rjb_deleted_at r).

Definition status_row (jobId : string) (ticketId : option string) (status : string)
  (actorId : option string) : M (St Db) () :=
  service_log ticketId None (Some jobId) "case.status" actorId
    (Some (JObj [("status", JStr status)])).

(** The outcome that a status stands for. *)
Definition status_outcome (status : string) : option RepairOutcome :=
  if includes status ["closed"; "resolved"; "completed"] then Some rpo_repaired
  else if String.eqb status "cancelled" then Some rpo_customer_declined
  else None.

(** The data of [saveStatus]; [now] is the instant of each [new Date()]. *)
Definition set_repair_status (status : string) (now : Z) (r : RepairJob) : RepairJob :=
  set_repair (rjb_technician_id r)
    (if includes status ["in_progress"; "repairing"] then Some now else rjb_started_at r)
    (if bool_decide (is_Some (status_outcome status)) then Some now else rjb_completed_at r)
    (rjb_repair_minutes r) (coalesce (status_outcome status) (rjb_outcome r)) (rjb_repair_notes r) r.

Definition repair_append (ref : CaseRef) (e : CaseTimelineEntry) : M (St Db) () :=
  log_entry None None (Some (ref_id ref)) e [].

Definition repair_saveStatus (ref : CaseRef) (status : string) (actorId : option string)
  : M (St Db) CaseSnapshot :=
  current ← repair_load ref;
  status_row (ref_id ref) None status actorId ;;
  now ← Date_now;
  _ ← db_update T_RepairJob (ref_id ref) (set_repair_status status now);
  now ← Date_now;
  repair_append ref (mkEntry now te_status_changed actorId None (option_map sn_status current)
    (Some status) None) ;;
  loaded (repair_load ref).

Definition set_repair_technician (technicianId : string) (r : RepairJob) : RepairJob :=
  set_repair (Some technicianId) (rjb_started_at r) (rjb_completed_at r) (rjb_repair_minutes r)
    (rjb_outcome r) (rjb_repair_notes r) r.

Definition repair_assign (ref : CaseRef) (assigneeId : string) (actorId : option string)
  : M (St Db) CaseSnapshot :=
  _ ← db_update T_RepairJob (ref_id ref) (set_repair_technician assigneeId);
  status_row (ref_id ref) None "assigned" actorId ;;
  now ← Date_now;
  repair_append ref (assigned_entry now actorId assigneeId (Some "assigned") None) ;;
  loaded (repair_load ref).

Definition repair_setPriority (ref : CaseRef) (priority : Z) (actorId : option string)
  : M (St Db) CaseSnapshot :=
  now ← Date_now;
  repair_append ref (priority_entry now actorId None priority) ;;
  snap ← loaded (repair_load ref);
  mret (with_priority priority snap).

(** [[a, b].filter(Boolean).join(sep)] *)
Definition joined (sep : string) (a b : option string) : string :=
  join sep (omap (λ x, match x with Some "" => None | _ => x end) [a; b]).

Definition newline : string := String (Ascii.ascii_of_nat 10) "".

Definition set_repair_notes (notes : string) (r : RepairJob) : RepairJob :=
  set_repair (rjb_technician_id r) (rjb_started_at r) (rjb_completed_at r) (rjb_repair_minutes r)
    (rjb_outcome r) (Some notes) r.

Definition repair_addNote (ref : CaseRef) (note : CaseNoteInput) : M (St Db) () :=
  job ← findFirstOrThrow T_RepairJob (ref_id ref);
  _ ← db_update T_RepairJob (ref_id ref) (set_repair_notes
        (joined (newline +:+ "---" +:+ newline) (rjb_repair_notes job) (Some (no_body note))));
  mret tt.

Definition repair_addAttachment (ref : CaseRef) (meta : CaseAttachmentMeta)
  (actorId : option string) : M (St Db) () :=
  job ← db_findFirst T_RepairJob (λ r, String.eqb (rjb_id r) (ref_id ref));
  _ ← db_create T_ServiceDocument (λ id, mkServiceDocument id (option_map rjb_ticket_id job) None
        (am_mediaFileId meta) (coalesce (am_docType meta) "repair") (am_label meta));
  mret tt.

Definition repair_listTimeline (ref : CaseRef) : M (St Db) (list CaseTimelineEntry) :=
  rows ← trail (λ r, same_opt (sal_repair_job_id r) (Some (ref_id ref)));
  mret (map (λ r, let e := entry_of r in
    mkEntry (en_at e) (en_type e) (en_actorId e) (en_message e) (en_fromStatus e)
      (match en_toStatus e with Some t => Some t | None => jtext "status" (sal_metadata r) end)
      None) rows).

Definition RepairJobStore : CaseStore Db :=
  mkCaseStore repair_load repair_saveStatus repair_assign repair_setPriority repair_addNote
    repair_addAttachment repair_append (Some repair_listTimeline) None.

(** The stores that the three services register, over those registered before. *)
Definition service_registry (base : CaseRegistry Db) : CaseRegistry Db :=
  registerStore ck_repair_job RepairJobStore
    (registerStore ck_service_ticket ServiceTicketStore
      (registerStore ck_rma RmaStore
        (registerStore ck_warranty_claim WarrantyClaimStore base))).
End stores.
