(* ===== verification/Warranty.v ===== *)
(** * Warranty: plans, registrations, claims

    Models [backend/src/modules/warranty]: the repository, the cache keys, the
    events, the mappers and utilities and every operation of
    [services/warranty.service.ts] but the raw device history. Registrations keep
    their dates in DATE columns. The stores of the cases are in [WarrantyStores],
    RMAs and service operations in [Service], the theorems in [WarrantyRules]. *)
From S2P Require Import Prelude Core Effects Redis Lock StateMachine JsNumber Schema Database Tables Payments Webhooks Settlement Shipping Carrier Cases Calendar WarrantyStores.
From Stdlib Require Import QArith.

#[local] Open Scope Z_scope.

(** ** Constants ([constants/warranty.constants.ts]) *)

Module WARRANTY_CACHE.
Definition TTL : Z := 60.
Definition plans : string := "warranty:plans:list".
Definition serial (serial : string) : string := "warranty:serial:" +:+ serial.
Definition claim (id : string) : string := "warranty:claim:" +:+ id.
Definition centers : string := "service:centers:list".
Definition technicians (centerId : string) : string := "service:tech:" +:+ centerId.
Definition device (serialId : string) : string := "service:device:" +:+ serialId.
End WARRANTY_CACHE.

Definition QUEUE_WARRANTY : string := "warranty".

Module WARRANTY_JOBS.
Definition CLAIM_REVIEW : string := "warranty.claim.review".
Definition TECH_ASSIGN : string := "warranty.tech.assign".
Definition REPAIR_NOTIFY : string := "warranty.repair.notify".
Definition SLA_MONITOR : string := "warranty.sla.monitor".
Definition ESCALATION : string := "warranty.escalation".
Definition EXPIRY_REMINDER : string := "warranty.expiry.reminder".
Definition APPOINTMENT_REMINDER : string := "warranty.appointment.reminder".
End WARRANTY_JOBS.

(** ** Requests ([dto/warranty.dto.ts]) *)

(** [purchaseDate] is the instant of the validated ISO text. *)
Record RegisterWarrantyDto := mkRegisterDto {
  rw_planId : string; rw_serialNumberId : option string; rw_serialNumber : option string;
  rw_orderId : option string; rw_orderItemId : option string; rw_dto_variantId : option string;
  rw_purchaseDate : option Z;
}.
Record CreateClaimDto := mkCreateClaimDto {
  wc_registrationId : string; wc_issueSummary : string; wc_issueDetail : option string;
  wc_claimAmount : option Q;
}.
Record PatchClaimDto := mkPatchClaimDto { wc_status : string; wc_reason : option string }.
Record CreatePlanDto := mkCreatePlanDto {
  wp_providerId : string; wp_code : string; wp_name : string; wp_planType : WarrantyPlanType;
  wp_durationMonths : Z; wp_claimLimit : option Q;
}.

(** ** Events ([events/warranty.events.ts]) *)

Definition WarrantyRegisteredEvent (p : Json) : DomainEvent := mkEvent "warranty.registered" p.
Definition WarrantyClaimCreatedEvent (p : Json) : DomainEvent := mkEvent "warranty.claim.created" p.
Definition WarrantyClaimApprovedEvent (p : Json) : DomainEvent := mkEvent "warranty.claim.approved" p.
Definition WarrantyClaimRejectedEvent (p : Json) : DomainEvent := mkEvent "warranty.claim.rejected" p.

(** ** Row updates *)

Definition set_warranty_track (st : WarrantyTrackStatus) (r : SerialNumber) : SerialNumber :=
  mkSerialNumber (Schema.sn_id r) (sn_serial_number r) (sn_barcode r) (sn_imei r) (sn_warehouse_id r)
    (sn_bin_id r) (sn_variant_id r) (sn_purchase_order_item_id r) (Schema.sn_status r) st
    (sn_refurbishment_status r) (sn_deleted_at r).

Definition set_registration (customer : option string) (end_date : Z) (r : WarrantyRegistration)
  : WarrantyRegistration :=
  mkWarrantyRegistration (wrg_id r) (wrg_registration_number r) (wrg_plan_id r) customer
    (wrg_order_id r) (wrg_order_item_id r) (wrg_serial_number_id r) (wrg_variant_id r)
    (wrg_purchase_date r) (wrg_start_date r) end_date (wrg_status r) (wrg_deleted_at r).

Definition set_end_date (end_date : Z) (r : WarrantyRegistration) : WarrantyRegistration :=
  set_registration (wrg_customer_id r) end_date r.
Definition set_owner (customerId : string) (r : WarrantyRegistration) : WarrantyRegistration :=
  set_registration (Some customerId) (wrg_end_date r) r.

(** ** Mappers and utilities *)

(** [claimStatusLabel] ([mappers/warranty.mapper.ts]) *)
Definition claimStatusLabel (status : string) : string :=
  if String.eqb status "in_service" then "repair"
  else if String.eqb status "closed" then "completed"
  else status.

(** [shortId] ([utils/warranty.utils.ts]), at the instant [now]. *)
Definition shortId (prefix : string) (now : Z) : string := prefix +:+ "-" +:+ toString36 now.

(** [isWarrantyActive] ([validators/warranty.validators.ts]) *)
Definition isWarrantyActive (status : string) (endDate now : Z) : bool :=
  String.eqb status "active" && (now <=? endDate).

Definition jnumber (c : option Z) : Json :=
  match c with Some c => JNum (cents c) | None => JNull end.

Definition entry_json (e : CaseTimelineEntry) : Json :=
  JObj ([("at", JInt (en_at e)); ("type", JStr (TimelineType_text (en_type e)))]
    ++ jopt "actorId" (en_actorId e) ++ jopt "message" (en_message e)
    ++ jopt "fromStatus" (en_fromStatus e) ++ jopt "toStatus" (en_toStatus e)
    ++ match en_metadata e with Some m => [("metadata", m)] | None => [] end).

Section warranty.
  Context `{Redis, !Scheduler, !Crypto, !Postgres, !ServerText, !DateText, !LocalTime}.
  Context (registry : CaseRegistry Db).

(** ** WarrantyRepository ([repositories/warranty.repository.ts]) *)

Definition active_plan (p : WarrantyPlan) : bool :=
  bool_decide (wpl_status p = rs_active).

Definition repo_listPlans : M (St Db) (list WarrantyPlan) :=
  rows ← db_findMany T_WarrantyPlan (λ p, active_plan p && live (wpl_deleted_at p));
  mret (order_text wpl_name rows).

Definition findPlan (id : string) : M (St Db) (option WarrantyPlan) :=
  db_findFirst T_WarrantyPlan (λ p, String.eqb (wpl_id p) id && live (wpl_deleted_at p)).

Definition findSerialByNumber (serial : string) : M (St Db) (option SerialNumber) :=
  db_findFirst T_SerialNumber (λ r, String.eqb (sn_serial_number r) serial
    && live (sn_deleted_at r)).

Definition war_findSerial (id : string) : M (St Db) (option SerialNumber) :=
  db_findFirst T_SerialNumber (λ r, String.eqb (Schema.sn_id r) id && live (sn_deleted_at r)).

Definition findRegistration (id : string) : M (St Db) (option WarrantyRegistration) :=
  db_findFirst T_WarrantyRegistration (λ r, String.eqb (wrg_id r) id && live (wrg_deleted_at r)).

Definition is_active_registration (serialNumberId : string) (r : WarrantyRegistration) : bool :=
  same_opt (wrg_serial_number_id r) (Some serialNumberId)
  && bool_decide (wrg_status r = wrs_active) && live (wrg_deleted_at r).

Definition findActiveRegistrationBySerial (serialNumberId : string)
  : M (St Db) (option WarrantyRegistration) :=
  db_findFirst T_WarrantyRegistration (is_active_registration serialNumberId).

(** [include: { plan }] *)
Definition plan_of (d : Db) (r : WarrantyRegistration) : option WarrantyPlan :=
  find_first (λ p, String.eqb (wpl_id p) (wrg_plan_id r)) (view L_WarrantyPlan d).

Definition war_audit (action : string) (actorId ticketId claimId repairJobId : option string)
  (metadata : option (list (string * Json))) : M (St Db) () :=
  service_log ticketId claimId repairJobId action actorId (option_map JObj metadata).

(** ** WarrantyCacheService ([services/warranty-cache.service.ts]) *)

Definition war_getOrSet (key : string) (factory : M (St Db) Json) : M (St Db) Json :=
  CacheService.getOrSet key factory WARRANTY_CACHE.TTL.

Definition invalidatePlans : M (St Db) () := CacheService.del WARRANTY_CACHE.plans.
Definition war_invalidateSerial (serial : string) : M (St Db) () :=
  CacheService.del (WARRANTY_CACHE.serial serial).
Definition invalidateClaim (id : string) : M (St Db) () :=
  CacheService.del (WARRANTY_CACHE.claim id).
Definition invalidateCenters : M (St Db) () := CacheService.del WARRANTY_CACHE.centers.
Definition invalidateDevice (serialId : string) : M (St Db) () :=
  CacheService.del (WARRANTY_CACHE.device serialId).

(** ** WarrantyService ([services/warranty.service.ts]) *)

Definition war_lock (action id : string) : string :=
  LockService.resourceKey ["warranty"; action; id].

Definition war_locked {A} (action id : string) (m : M (St Db) A) : M (St Db) A :=
  LockService.withLock (war_lock action id) m (lock_opts 30000 5000).

Definition war_job (name : string) (fields : list (string * string)) : M (St Db) () :=
  enqueue (mkJob QUEUE_WARRANTY name (JObj (map (λ kv, (fst kv, JStr (snd kv))) fields))).

Definition plan_view (d : Db) (p : WarrantyPlan) : Json :=
  JObj [("id", JStr (wpl_id p)); ("code", JStr (wpl_code p)); ("name", JStr (wpl_name p));
        ("planType", JStr (WarrantyPlanType_text (wpl_plan_type p)));
        ("durationMonths", JInt (wpl_duration_months p)); ("claimLimit", jnumber (wpl_claim_limit p));
        ("provider",
          match find_first (λ v, String.eqb (wpv_id v) (wpl_provider_id p)) (view L_WarrantyProvider d) with
          | Some v => JObj [("id", JStr (wpv_id v)); ("code", JStr (wpv_code v));
                            ("name", JStr (wpv_name v))]
          | None => JNull
          end)].

Definition war_listPlans : M (St Db) Json :=
  war_getOrSet WARRANTY_CACHE.plans
    (rows ← repo_listPlans;
     gets (λ s, JArr (map (plan_view (tables s)) rows))).

Definition createPlan (actorId : string) (dto : CreatePlanDto) : M (St Db) Json :=
  row ← db_create T_WarrantyPlan (λ id, mkWarrantyPlan id (wp_providerId dto) (wp_code dto)
          (wp_name dto) (wp_planType dto) (wp_durationMonths dto)
          (option_map numeric2 (wp_claimLimit dto)) rs_active None);
  invalidatePlans ;;
  war_audit "warranty.plan.create" (Some actorId) None None None (Some [("planId", JStr (wpl_id row))]) ;;
  mret (JObj [("id", JStr (wpl_id row)); ("code", JStr (wpl_code row)); ("name", JStr (wpl_name row))]).

(** [if (!plan || plan.status !== 'active') throw] *)
Definition require_plan (id : string) : M (St Db) WarrantyPlan :=
  plan ← findPlan id;
  require_ (match plan with
            | Some p => if active_plan p then Some p else None
            | None => None
            end) (AppException BAD_REQUEST "Invalid plan" 400).

(** The serial that a request names, by id or else by number. *)
Definition requested_serial (dto : RegisterWarrantyDto) : M (St Db) (option SerialNumber) :=
  byId ← match rw_serialNumberId dto with
         | Some ((String _ _) as id) => war_findSerial id
         | _ => mret None
         end;
  match byId, rw_serialNumber dto with
  | Some s, _ => mret (Some s)
  | None, Some ((String _ _) as n) => findSerialByNumber n
  | None, _ => mret None
  end.

(** The order that a request names belongs to the customer. *)
Definition check_order (customerId : string) (orderId : option string) : M (St Db) () :=
  match orderId with
  | Some ((String _ _) as id) =>
      order ← db_findFirst T_Order (λ o, String.eqb (od_id o) id && live (od_deleted_at o));
      order ← require_ order (AppException NOT_FOUND "Order not found" 404);
      throw_if (truthy_str (od_customer_id order)
                && negb (same_opt (od_customer_id order) (Some customerId)))
        (AppException FORBIDDEN "Not your order" 403)
  | _ => mret tt
  end.

(** The row that [register] stores. *)
Definition new_registration (customerId : string) (dto : RegisterWarrantyDto) (plan : WarrantyPlan)
  (serial : SerialNumber) (start number_at : Z) : string → WarrantyRegistration := λ id,
  mkWarrantyRegistration id (shortId "WR" number_at) (wpl_id plan) (Some customerId) (rw_orderId dto)
    (rw_orderItemId dto) (Some (Schema.sn_id serial))
    (Some (coalesce (rw_dto_variantId dto) (sn_variant_id serial)))
    (option_map date_column (rw_purchaseDate dto)) (date_column start)
    (date_column (addMonths start (wpl_duration_months plan))) wrs_active None.

Definition registration_history (registrationId notes actorId : string) : M (St Db) () :=
  now ← Date_now;
  _ ← db_create T_WarrantyStatusHistory (λ id, mkWarrantyStatusHistory id (Some registrationId) None
        None "active" (Some notes) now (Some actorId) None);
  mret tt.

Definition register_body (customerId : string) (dto : RegisterWarrantyDto) : M (St Db) Json :=
  plan ← require_plan (rw_planId dto);
  serial ← requested_serial dto;
  serial ← require_ serial (AppException NOT_FOUND "Serial not found" 404);
  check_order customerId (rw_orderId dto) ;;
  existing ← findActiveRegistrationBySerial (Schema.sn_id serial);
  throw_if (bool_decide (is_Some existing))
    (AppException CONFLICT "Warranty already active for serial" 409) ;;
  start ← Date_now;
  number_at ← Date_now;
  row ← db_create T_WarrantyRegistration
          (new_registration customerId dto plan serial start number_at);
  _ ← db_update T_SerialNumber (Schema.sn_id serial) (set_warranty_track wts_active);
  registration_history (wrg_id row) "Registered" customerId ;;
  emit (WarrantyRegisteredEvent
    (JObj [("registrationId", JStr (wrg_id row)); ("serialNumberId", JStr (Schema.sn_id serial));
           ("planId", JStr (wpl_id plan)); ("customerId", JStr customerId)])) ;;
  war_invalidateSerial (sn_serial_number serial) ;;
  mret (JObj [("id", JStr (wrg_id row)); ("registrationNumber", JStr (wrg_registration_number row));
              ("status", JStr (WarrantyRegistrationStatus_text (wrg_status row)));
              ("startDate", JInt (wrg_start_date row)); ("endDate", JInt (wrg_end_date row))]).

Definition register (customerId : string) (dto : RegisterWarrantyDto) : M (St Db) Json :=
  war_locked "register" customerId (register_body customerId dto).

Definition registration_view (d : Db) (eligible : bool) (r : WarrantyRegistration) : Json :=
  JObj ([("id", JStr (wrg_id r)); ("status", JStr (WarrantyRegistrationStatus_text (wrg_status r)));
         ("startDate", JInt (wrg_start_date r)); ("endDate", JInt (wrg_end_date r))]
    ++ match plan_of d r with
       | Some p => [("plan", JObj [("id", JStr (wpl_id p)); ("name", JStr (wpl_name p));
                                   ("code", JStr (wpl_code p))])]
       | None => []
       end
    ++ [("eligible", JBool eligible)]).

Definition checkBySerial (serial : string) : M (St Db) Json :=
  war_getOrSet (WARRANTY_CACHE.serial serial)
    (sn ← findSerialByNumber serial;
     sn ← require_ sn (AppException NOT_FOUND "Serial not found" 404);
     reg ← findActiveRegistrationBySerial (Schema.sn_id sn);
     now ← Date_now;
     let eligible (r : WarrantyRegistration) :=
       bool_decide (wrg_status r = wrs_active) && (now <=? wrg_end_date r) in
     gets (λ s, JObj
       [("serialNumber", JStr (sn_serial_number sn)); ("serialNumberId", JStr (Schema.sn_id sn));
        ("warrantyTrackStatus", JStr (WarrantyTrackStatus_text (sn_warranty_status sn)));
        ("registration", match reg with
                         | Some r => registration_view (tables s) (eligible r) r
                         | None => JNull
                         end)])).

Definition require_registration (id : string) : M (St Db) WarrantyRegistration :=
  reg ← findRegistration id;
  require_ reg (AppException NOT_FOUND "Registration not found" 404).

(** The statuses of a claim that is not settled. *)
Definition claim_open (st : WarrantyClaimStatus) : bool :=
  match st with wcs_submitted | wcs_under_review | wcs_approved | wcs_in_service => true | _ => false end.

Definition is_open_claim (registrationId : string) (c : WarrantyClaim) : bool :=
  String.eqb (wcl_registration_id c) registrationId && claim_open (wcl_status c)
  && live (wcl_deleted_at c).

Definition case_opened (kind : CaseKind) (id number status : string) (priority openedAt : Z)
  (assigneeId : option string) : M (St Db) () :=
  _ ← recordOpened registry (mkCaseRef kind id)
        (mkCaseSnapshot kind id (Some number) status assigneeId priority openedAt None None None None);
  mret tt.

Definition claim_checks (customerId : string) (dto : CreateClaimDto) : M (St Db) WarrantyRegistration :=
  reg ← require_registration (wc_registrationId dto);
  throw_if (truthy_str (wrg_customer_id reg)
            && negb (same_opt (wrg_customer_id reg) (Some customerId)))
    (AppException FORBIDDEN "Not your warranty" 403) ;;
  now ← Date_now;
  throw_if (negb (bool_decide (wrg_status reg = wrs_active)) || (wrg_end_date reg <? now))
    (AppException CONFLICT "Warranty not active" 409) ;;
  open_ ← db_findFirst T_WarrantyClaim (is_open_claim (wrg_id reg));
  throw_if (bool_decide (is_Some open_)) (AppException CONFLICT "Open claim already exists" 409) ;;
  mret reg.

Definition createClaim_body (customerId : string) (dto : CreateClaimDto) : M (St Db) Json :=
  reg ← claim_checks customerId dto;
  now ← Date_now;
  claim ← db_create T_WarrantyClaim (λ id, mkWarrantyClaim id (shortId "WC" now) (wrg_id reg)
            (Some customerId) (wrg_serial_number_id reg) (wc_issueSummary dto) (wc_issueDetail dto)
            (option_map numeric2 (wc_claimAmount dto)) wcs_submitted now None None);
  case_opened ck_warranty_claim (wcl_id claim) (wcl_claim_number claim) "submitted" 3
    (wcl_submitted_at claim) None ;;
  emit (WarrantyClaimCreatedEvent
    (JObj [("claimId", JStr (wcl_id claim)); ("registrationId", JStr (wrg_id reg));
           ("customerId", JStr customerId)])) ;;
  war_job WARRANTY_JOBS.CLAIM_REVIEW [("claimId", wcl_id claim)] ;;
  war_audit "warranty.claim.create" (Some customerId) None (Some (wcl_id claim)) None None ;;
  mret (JObj [("id", JStr (wcl_id claim)); ("claimNumber", JStr (wcl_claim_number claim));
              ("status", JStr (WarrantyClaimStatus_text (wcl_status claim)))]).

Definition createClaim (customerId : string) (dto : CreateClaimDto) : M (St Db) Json :=
  war_locked "claim" (wc_registrationId dto) (createClaim_body customerId dto).

Definition claim_view (documents : list ClaimDocument) (timeline : list CaseTimelineEntry)
  (c : WarrantyClaim) : Json :=
  JObj [("id", JStr (wcl_id c)); ("claimNumber", JStr (wcl_claim_number c));
        ("status", JStr (WarrantyClaimStatus_text (wcl_status c)));
        ("issueSummary", JStr (wcl_issue_summary c)); ("issueDetail", jnull_str (wcl_issue_detail c));
        ("claimAmount", jnumber (wcl_claim_amount c)); ("registrationId", JStr (wcl_registration_id c));
        ("documents", JArr (map (λ x, JObj
          [("id", JStr (cdc_id x)); ("docType", JStr (cdc_doc_type x));
           ("label", jnull_str (cdc_label x))]) documents));
        ("timeline", JArr (map entry_json timeline))].

(** The check of the owner is made when the value is not cached. *)
Definition getClaim (id : string) (customerId : option string) : M (St Db) Json :=
  war_getOrSet (WARRANTY_CACHE.claim id)
    (claim ← find_claim id;
     claim ← require_ claim (AppException NOT_FOUND "Claim not found" 404);
     documents ← db_findMany T_ClaimDocument (λ x, String.eqb (cdc_claim_id x) (wcl_id claim));
     throw_if (truthy_str customerId && truthy_str (wcl_customer_id claim)
               && negb (same_opt (wcl_customer_id claim) customerId))
       (AppException FORBIDDEN "Not your claim" 403) ;;
     timeline ← case_timeline registry (mkCaseRef ck_warranty_claim id);
     mret (claim_view documents timeline claim)).

(** The options of [cases.transition(ref, to, { actorId, reason })]. *)
Definition case_options (actorId reason : option string) : TransitionCaseOptions Db :=
  mkTransitionCaseOptions actorId reason [] None None.

Definition patchClaim_body (actorId id : string) (dto : PatchClaimDto) : M (St Db) Json :=
  snap ← case_transition registry (mkCaseRef ck_warranty_claim id) (wc_status dto)
           (case_options (Some actorId) (wc_reason dto));
  when_ (String.eqb (wc_status dto) "approved")
    (emit (WarrantyClaimApprovedEvent (JObj [("claimId", JStr id)]))) ;;
  when_ (String.eqb (wc_status dto) "rejected")
    (emit (WarrantyClaimRejectedEvent
       (JObj ([("claimId", JStr id)] ++ jopt "reason" (wc_reason dto))))) ;;
  war_audit ("warranty.claim." +:+ wc_status dto) (Some actorId) None (Some id) None
    (Some (jopt "reason" (wc_reason dto))) ;;
  invalidateClaim id ;;
  mret (JObj [("id", JStr id); ("status", JStr (sn_status snap))]).

Definition patchClaim (actorId id : string) (dto : PatchClaimDto) : M (St Db) Json :=
  war_locked "claim-approve" id (patchClaim_body actorId id dto).

(** The dates of an extension: from the end of the registration, or from now when
    that has passed. *)
Definition extension_start (reg : WarrantyRegistration) (now : Z) : Z :=
  if now <? wrg_end_date reg then wrg_end_date reg else now.

Definition extend (actorId registrationId planId : string) (purchaseAmount : option Q)
  : M (St Db) Json :=
  reg ← require_registration registrationId;
  serial ← gets (λ s, wrg_serial_number_id reg ≫= λ i,
             find_first (λ r, String.eqb (Schema.sn_id r) i) (view L_SerialNumber (tables s)));
  plan ← require_plan planId;
  now ← Date_now;
  let start := extension_start reg now in
  let end_ := addMonths start (wpl_duration_months plan) in
  ext ← in_transaction
    (row ← db_create T_WarrantyExtension (λ id, mkWarrantyExtension id registrationId planId
             (date_column start) (date_column end_) (option_map numeric2 purchaseAmount) None);
     _ ← db_update T_WarrantyRegistration registrationId (set_end_date (date_column end_));
     mret row);
  war_audit "warranty.extend" (Some actorId) None None None
    (Some [("extensionId", JStr (wex_id ext)); ("registrationId", JStr registrationId)]) ;;
  match option_map sn_serial_number serial with
  | Some ((String _ _) as n) => war_invalidateSerial n
  | _ => mret tt
  end ;;
  mret (JObj [("id", JStr (wex_id ext)); ("registrationId", JStr registrationId);
              ("startDate", JInt (wex_start_date ext)); ("endDate", JInt (wex_end_date ext))]).

Definition transfer_body (actorId registrationId toCustomerId : string) : M (St Db) Json :=
  reg ← require_registration registrationId;
  throw_if (negb (bool_decide (wrg_status reg = wrs_active)))
    (AppException CONFLICT "Warranty not active" 409) ;;
  _ ← db_update T_WarrantyRegistration registrationId (set_owner toCustomerId);
  registration_history registrationId ("Transferred to " +:+ toCustomerId) actorId ;;
  war_audit "warranty.transfer" (Some actorId) None None None
    (Some [("registrationId", JStr registrationId); ("toCustomerId", JStr toCustomerId)]) ;;
  mret (JObj [("id", JStr registrationId); ("customerId", JStr toCustomerId)]).

Definition transfer (actorId registrationId toCustomerId : string) : M (St Db) Json :=
  war_locked "transfer" registrationId (transfer_body actorId registrationId toCustomerId).
End warranty.
