(* ===== verification/Service.v ===== *)
(** * Service: RMAs, tickets, repairs, loans

    Models [backend/src/modules/warranty/services/rma.service.ts] and
    [services/service-ops.service.ts] and the worker of the warranty queue
    ([workers/warranty.worker.ts]). The refund of an RMA is a workflow of [Saga]
    around [Payments.refund], the pickup of an approved one is
    [Carrier.createReverse], a spare part is reserved by [Inventory.reserve].
    The theorems are in [WarrantyRules]. *)
From S2P Require Import Prelude Core Effects Redis Lock StateMachine Saga JsNumber Schema Database Tables Inventory Payments Webhooks Settlement Shipping Carrier Cases Calendar WarrantyStores Warranty.
From Stdlib Require Import QArith.

#[local] Open Scope Z_scope.

(** ** Requests ([dto/warranty.dto.ts]) *)

Record CreateRmaDto := mkCreateRmaDto {
  cr_rmaType : RmaType; cr_orderId : option string; cr_orderItemId : option string;
  cr_claimId : option string; cr_ticketId : option string; cr_serialNumberId : option string;
  cr_reason : option string;
}.
Record PatchRmaDto := mkPatchRmaDto { pr_status : string; pr_reason : option string }.
Record RmaRefundDto := mkRmaRefundDto { rr_paymentId : string; rr_amount : Q }.
Record CreateTicketDto := mkCreateTicketDto {
  ti_serviceCenterId : string; ti_title : string; ti_description : option string;
  ti_claimId : option string; ti_registrationId : option string; ti_serialNumberId : option string;
  ti_orderId : option string; ti_priority : option Z;
}.
Record AssignTechnicianDto := mkAssignDto { at_ticketId : string; at_technicianId : string }.
Record CreateRepairJobDto := mkCreateRepairJobDto {
  cj_ticketId : string; cj_technicianId : option string; cj_laborCost : option Q;
}.
Record PatchRepairJobDto := mkPatchRepairJobDto {
  pj_status : option string; pj_outcome : option string; pj_repairNotes : option string;
  pj_repairMinutes : option Z;
}.
Record CreateDiagnosticDto := mkCreateDiagnosticDto {
  cd_ticketId : string; cd_findings : string; cd_rootCause : option string;
  cd_recommendedAction : option string; cd_isWarrantyCovered : option bool;
}.
(** [dueBackAt] is the instant of the validated ISO text. *)
Record AllocateLoanDeviceDto := mkAllocateDto {
  al_loanDeviceId : string; al_ticketId : string; al_customerId : option string;
  al_dueBackAt : option Z;
}.
Record UseSparePartDto := mkUseSparePartDto {
  us_repairJobId : string; us_repairPartId : string; us_quantity : Z;
  us_warehouseId : option string; us_isWarrantyCovered : option bool;
}.

(** The context of the refund workflow; its steps add nothing to it. *)
Record RmaCloseCtx := mkRmaCloseCtx {
  rx_rmaId : string; rx_actorId : string; rx_paymentId : option string; rx_refundAmount : option Q;
}.
#[export] Instance rma_assign_ctx : Assign RmaCloseCtx () := λ c _, c.

(** ** Events ([events/warranty.events.ts]) *)

Definition RmaCreatedEvent (p : Json) : DomainEvent := mkEvent "rma.created" p.
Definition RmaApprovedEvent (p : Json) : DomainEvent := mkEvent "rma.approved" p.
Definition RepairCompletedEvent (p : Json) : DomainEvent := mkEvent "repair.completed" p.
Definition DeviceReplacedEvent (p : Json) : DomainEvent := mkEvent "device.replaced" p.
Definition LoanDeviceAllocatedEvent (p : Json) : DomainEvent := mkEvent "loan_device.allocated" p.
Definition ServiceTicketCreatedEvent (p : Json) : DomainEvent := mkEvent "service.ticket.created" p.
Definition ServiceTicketClosedEvent (p : Json) : DomainEvent := mkEvent "service.ticket.closed" p.

Definition set_loan_status (st : LoanDeviceStatus) (r : LoanDevice) : LoanDevice :=
  mkLoanDevice (lnd_id r) (lnd_asset_tag r) st (lnd_deleted_at r).

Section service.
  Context `{Redis, !Scheduler, !Crypto, !MathRandom, !Postgres, !ClientText, !NumberText,
            !JsonText, !ServerText, !DateText, !LocalTime, !PaymentProvider, !PaymentConfig,
            !ShippingProvider}.
  Context (registry : CaseRegistry Db).

(** ** RmaService ([services/rma.service.ts]) *)

Definition rma_create_body (customerId : string) (dto : CreateRmaDto) : M (St Db) Json :=
  check_order customerId (cr_orderId dto) ;;
  now ← Date_now;
  row ← db_create T_RmaRequest (λ id, mkRmaRequest id (shortId "RMA" now) (cr_rmaType dto)
          (Some customerId) (cr_orderId dto) (cr_orderItemId dto) (cr_claimId dto) (cr_ticketId dto)
          (cr_serialNumberId dto) (cr_reason dto) rms_requested now None None);
  case_opened registry ck_rma (rma_id row) (rma_rma_number row) "requested" 3 (rma_requested_at row)
    None ;;
  emit (RmaCreatedEvent
    (JObj ([("rmaId", JStr (rma_id row))] ++ jopt "orderId" (cr_orderId dto)
           ++ [("customerId", JStr customerId)]))) ;;
  war_audit "rma.create" (Some customerId) None None None (Some [("rmaId", JStr (rma_id row))]) ;;
  mret (JObj [("id", JStr (rma_id row)); ("rmaNumber", JStr (rma_rma_number row));
              ("status", JStr (RmaStatus_text (rma_status row)));
              ("rmaType", JStr (RmaType_text (rma_rma_type row)))]).

Definition rma_create (customerId : string) (dto : CreateRmaDto) : M (St Db) Json :=
  war_locked "rma" customerId (rma_create_body customerId dto).

(** The reverse pickup of an approved RMA, from the first active warehouse (the
    creation time that orders them is not modelled); a failure is only logged. *)
Definition reverse_pickup (actorId orderId : string) : M (St Db) () :=
  try_catch
    (warehouse ← db_findFirst T_Warehouse (λ w, live (wh_deleted_at w)
                   && bool_decide (wh_status w = rs_active));
     match warehouse with
     | Some w =>
         _ ← createReverse actorId (mkCreateReverseDto orderId (wh_id w) None None None
               rst_warranty_return None);
         mret tt
     | None => mret tt
     end)
    (λ _, mret tt).

Definition rma_approved (actorId id : string) : M (St Db) () :=
  emit (RmaApprovedEvent (JObj [("rmaId", JStr id)])) ;;
  rma ← db_findFirst T_RmaRequest (λ r, String.eqb (rma_id r) id);
  match rma ≫= rma_order_id with
  | Some ((String _ _) as orderId) => reverse_pickup actorId orderId
  | _ => mret tt
  end.

Definition rma_patch_body (actorId id : string) (dto : PatchRmaDto) : M (St Db) Json :=
  snap ← case_transition registry (mkCaseRef ck_rma id) (pr_status dto)
           (case_options (Some actorId) (pr_reason dto));
  when_ (String.eqb (pr_status dto) "approved") (rma_approved actorId id) ;;
  war_audit ("rma." +:+ pr_status dto) (Some actorId) None None None
    (Some ([("rmaId", JStr id)] ++ jopt "reason" (pr_reason dto))) ;;
  mret (JObj [("id", JStr id); ("status", JStr (sn_status snap))]).

Definition rma_patch (actorId id : string) (dto : PatchRmaDto) : M (St Db) Json :=
  war_locked "rma-patch" id (rma_patch_body actorId id dto).

(** *** The refund workflow *)

Definition refund_via_payments (ctx : RmaCloseCtx) : M (St Db) (option ()) :=
  _ ← refund (coalesce (rx_paymentId ctx) "") (rx_actorId ctx)
        (mkRefundPaymentDto (coalesce (rx_refundAmount ctx) 0%Q) None None []) true;
  mret (Some tt).

Definition complete_rma (rma : RmaRequest) (ctx : RmaCloseCtx) : M (St Db) (option ()) :=
  when_ (negb (bool_decide (rma_status rma = rms_completed)))
    (_ ← case_transition registry (mkCaseRef ck_rma (rx_rmaId ctx)) "completed"
           (case_options (Some (rx_actorId ctx)) (Some "Refund processed"));
     mret tt) ;;
  mret (Some tt).

Definition rma_refund_workflow (rma : RmaRequest) : WorkflowDefinition RmaCloseCtx () Db :=
  mkWorkflow "rma.refund"
    [mkStep "refund_via_payments" refund_via_payments None None None;
     mkStep "complete_rma" (complete_rma rma) None None None] (Some 30000) None.

Definition refund_eligible (st : RmaStatus) : bool :=
  match st with rms_received | rms_completed | rms_approved => true | _ => false end.

Definition require_rma (id : string) : M (St Db) RmaRequest :=
  rma ← find_rma id;
  require_ rma (AppException NOT_FOUND "RMA not found" 404).

Definition eligible_rma (rmaId : string) : M (St Db) RmaRequest :=
  rma ← require_rma rmaId;
  throw_if (negb (refund_eligible (rma_status rma)))
    (AppException CONFLICT "RMA not eligible for refund" 409) ;;
  mret rma.

Notation W := (St (WfSt RmaCloseCtx Db)).

Definition requestRefund (actorId rmaId : string) (dto : RmaRefundDto) : M W Json :=
  rma ← zoom (stL appL) (eligible_rma rmaId);
  result ← run (rma_refund_workflow rma)
             (mkRmaCloseCtx rmaId actorId (Some (rr_paymentId dto)) (Some (rr_amount dto)));
  throw_if (negb (bool_decide (inst_status result = wf_completed)))
    (AppException CONFLICT (coalesce (inst_error result) "RMA refund saga failed") 409) ;;
  zoom (stL appL) (war_audit "rma.refund" (Some actorId) None None None
    (Some [("rmaId", JStr rmaId); ("paymentId", JStr (rr_paymentId dto));
           ("amount", JNum (rr_amount dto))])) ;;
  mret (JObj [("rmaId", JStr rmaId); ("status", JStr "completed");
              ("workflowId", JStr (inst_id result))]).

Definition rma_get (id : string) : M (St Db) Json :=
  row ← require_rma id;
  timeline ← case_timeline registry (mkCaseRef ck_rma id);
  mret (JObj [("id", JStr (rma_id row)); ("rmaNumber", JStr (rma_rma_number row));
              ("rmaType", JStr (RmaType_text (rma_rma_type row)));
              ("status", JStr (RmaStatus_text (rma_status row)));
              ("reason", jnull_str (rma_reason row)); ("orderId", jnull_str (rma_order_id row));
              ("timeline", JArr (map entry_json timeline))]).

(** ** ServiceOpsService ([services/service-ops.service.ts]) *)

Definition center_view (d : Db) (c : ServiceCenter) : Json :=
  JObj [("id", JStr (sce_id c)); ("code", JStr (sce_code c)); ("name", JStr (sce_name c));
        ("isAuthorized", JBool (sce_is_authorized c));
        ("locations", JArr (map (λ l, JObj
          [("id", JStr (scl_id l)); ("city", JStr (scl_city l)); ("state", JStr (scl_state l));
           ("postalCode", JStr (scl_postal_code l)); ("isPrimary", JBool (scl_is_primary l))])
          (scan (where_ (λ l, String.eqb (scl_service_center_id l) (sce_id c)
             && live (scl_deleted_at l)) (view L_ServiceCenterLocation d)))))].

Definition listCenters : M (St Db) Json :=
  war_getOrSet WARRANTY_CACHE.centers
    (rows ← db_findMany T_ServiceCenter (λ c, bool_decide (sce_status c = rs_active)
              && live (sce_deleted_at c));
     gets (λ s, JArr (map (center_view (tables s)) rows))).

Definition technician_view (d : Db) (t : Technician) : Json :=
  JObj [("id", JStr (tch_id t)); ("employeeCode", JStr (tch_employee_code t));
        ("displayName", JStr (tch_display_name t)); ("isAvailable", JBool (tch_is_available t));
        ("skills", JArr (map (λ k, JObj
          [("code", JStr (tks_skill_code k)); ("name", JStr (tks_skill_name k))])
          (scan (where_ (λ k, String.eqb (tks_technician_id k) (tch_id t))
             (view L_TechnicianSkill d)))))].

Definition listTechnicians (centerId : string) : M (St Db) Json :=
  war_getOrSet (WARRANTY_CACHE.technicians centerId)
    (rows ← db_findMany T_Technician (λ t, String.eqb (tch_service_center_id t) centerId
              && bool_decide (tch_status t = rs_active) && live (tch_deleted_at t));
     gets (λ s, JArr (map (technician_view (tables s)) rows))).

Definition of_customer (customerId : option string) (t : ServiceTicket) : bool :=
  if truthy_str customerId then same_opt (stt_customer_id t) customerId else true.

Definition listTickets (customerId : option string) (asAdmin : bool) : M (St Db) Json :=
  rows ← db_findMany_desc T_ServiceTicket (λ t, live (stt_deleted_at t)
           && (asAdmin || of_customer customerId t)) stt_opened_at;
  mret (JArr (map (λ t, JObj
    [("id", JStr (stt_id t)); ("ticketNumber", JStr (stt_ticket_number t));
     ("title", JStr (stt_title t)); ("status", JStr (ServiceTicketStatus_text (stt_status t)));
     ("priority", JInt (stt_priority t)); ("serviceCenterId", JStr (stt_service_center_id t));
     ("technicianId", jnull_str (stt_technician_id t)); ("openedAt", JInt (stt_opened_at t))])
    (take 100 rows))).

Definition createTicket (customerId : string) (dto : CreateTicketDto) : M (St Db) Json :=
  center ← db_findFirst T_ServiceCenter (λ c, String.eqb (sce_id c) (ti_serviceCenterId dto)
             && live (sce_deleted_at c));
  _ ← require_ center (AppException NOT_FOUND "Service center not found" 404);
  now ← Date_now;
  ticket ← db_create T_ServiceTicket (λ id, mkServiceTicket id (shortId "ST" now) (Some customerId)
             (ti_registrationId dto) (ti_claimId dto) (ti_serviceCenterId dto) None
             (ti_serialNumberId dto) (ti_orderId dto) (ti_title dto) (ti_description dto) sts_created
             (coalesce (ti_priority dto) 3) None now None None None);
  case_opened registry ck_service_ticket (stt_id ticket) (stt_ticket_number ticket) "created"
    (stt_priority ticket) (stt_opened_at ticket) None ;;
  emit (ServiceTicketCreatedEvent
    (JObj [("ticketId", JStr (stt_id ticket)); ("customerId", JStr customerId)])) ;;
  war_job WARRANTY_JOBS.TECH_ASSIGN [("ticketId", stt_id ticket)] ;;
  war_audit "service.ticket.create" (Some customerId) (Some (stt_id ticket)) None None None ;;
  mret (JObj [("id", JStr (stt_id ticket)); ("ticketNumber", JStr (stt_ticket_number ticket));
              ("status", JStr (ServiceTicketStatus_text (stt_status ticket)))]).

Definition require_ticket (id : string) : M (St Db) ServiceTicket :=
  ticket ← find_ticket id;
  require_ ticket (AppException NOT_FOUND "Ticket not found" 404).

Definition ticket_ref (id : string) : CaseRef := mkCaseRef ck_service_ticket id.
Definition repair_ref (id : string) : CaseRef := mkCaseRef ck_repair_job id.

(** [cases.transition(ref, to, { actorId })] for a ticket found in [from]. *)
Definition advance_ticket (actorId : string) (ticket : ServiceTicket) (from : ServiceTicketStatus)
  (to : string) : M (St Db) () :=
  when_ (bool_decide (stt_status ticket = from))
    (_ ← case_transition registry (ticket_ref (stt_id ticket)) to (case_options (Some actorId) None);
     mret tt).

Definition assignTechnician_body (actorId : string) (dto : AssignTechnicianDto) : M (St Db) Json :=
  tech ← db_findFirst T_Technician (λ t, String.eqb (tch_id t) (at_technicianId dto)
           && bool_decide (tch_status t = rs_active) && live (tch_deleted_at t));
  throw_if (negb (match tech with Some t => tch_is_available t | None => false end))
    (AppException CONFLICT "Technician unavailable" 409) ;;
  ticket ← require_ticket (at_ticketId dto);
  advance_ticket actorId ticket sts_created "assigned" ;;
  snap ← case_assign registry (ticket_ref (at_ticketId dto)) (at_technicianId dto) (Some actorId);
  war_audit "service.assign" (Some actorId) (Some (at_ticketId dto)) None None
    (Some [("technicianId", JStr (at_technicianId dto))]) ;;
  invalidateCenters ;;
  mret (JObj [("ticketId", JStr (at_ticketId dto)); ("status", JStr (sn_status snap));
              ("technicianId", JStr (at_technicianId dto))]).

Definition assignTechnician (actorId : string) (dto : AssignTechnicianDto) : M (St Db) Json :=
  war_locked "assign" (at_ticketId dto) (assignTechnician_body actorId dto).

Definition RepairStartedEvent (jobId ticketId : string) : DomainEvent :=
  mkEvent "repair.started" (JObj [("repairJobId", JStr jobId); ("ticketId", JStr ticketId)]).

Definition createRepairJob (actorId : string) (dto : CreateRepairJobDto) : M (St Db) Json :=
  ticket ← require_ticket (cj_ticketId dto);
  now ← Date_now;
  job ← db_create T_RepairJob (λ id, mkRepairJob id (shortId "RJ" now) (cj_ticketId dto)
          (match cj_technicianId dto with Some t => Some t | None => stt_technician_id ticket end)
          (numeric2 (coalesce (cj_laborCost dto) 0%Q)) None None None rpo_pending None now None);
  status_row (rjb_id job) (Some (cj_ticketId dto)) "open" (Some actorId) ;;
  case_opened registry ck_repair_job (rjb_id job) (rjb_repair_number job) "open" 3
    (rjb_created_at job) (rjb_technician_id job) ;;
  match rjb_technician_id job with
  | Some ((String _ _) as t) =>
      _ ← case_assign registry (repair_ref (rjb_id job)) t (Some actorId); mret tt
  | _ => mret tt
  end ;;
  emit (RepairStartedEvent (rjb_id job) (cj_ticketId dto)) ;;
  war_job WARRANTY_JOBS.REPAIR_NOTIFY [("repairJobId", rjb_id job)] ;;
  war_audit "repair.create" (Some actorId) (Some (cj_ticketId dto)) None (Some (rjb_id job)) None ;;
  mret (JObj [("id", JStr (rjb_id job)); ("repairNumber", JStr (rjb_repair_number job));
              ("status", JStr "open"); ("ticketId", JStr (rjb_ticket_id job))]).

Definition require_repair (id : string) : M (St Db) RepairJob :=
  job ← find_repair id;
  require_ job (AppException NOT_FOUND "Repair job not found" 404).

Definition getRepairJob (id : string) : M (St Db) Json :=
  job ← require_repair id;
  parts ← db_findMany T_RepairPartUsage (λ u, String.eqb (rpu_repair_job_id u) id);
  snap ← case_get registry (repair_ref id);
  timeline ← case_timeline registry (repair_ref id);
  mret (JObj
    [("id", JStr (rjb_id job)); ("repairNumber", JStr (rjb_repair_number job));
     ("ticketId", JStr (rjb_ticket_id job)); ("status", JStr (sn_status snap));
     ("outcome", JStr (RepairOutcome_text (rjb_outcome job)));
     ("laborCost", JNum (cents (rjb_labor_cost job)));
     ("repairMinutes", jnull_int (rjb_repair_minutes job));
     ("repairNotes", jnull_str (rjb_repair_notes job));
     ("technicianId", jnull_str (rjb_technician_id job));
     ("parts", JArr (map (λ u, JObj
       [("id", JStr (rpu_id u)); ("repairPartId", JStr (rpu_repair_part_id u));
        ("quantity", JInt (rpu_quantity u))]) parts));
     ("timeline", JArr (map entry_json timeline))]).

(** [dto.status === s] *)
Definition wants (dto : PatchRepairJobDto) (s : string) : bool := same_opt (pj_status dto) (Some s).
Definition finishes (dto : PatchRepairJobDto) : bool := wants dto "resolved" || wants dto "closed".

(** The data of the update, [now] the instant of each [new Date()]. *)
Definition patch_repair (dto : PatchRepairJobDto) (outcome : option RepairOutcome)
  (started : option Z) (now : Z) (r : RepairJob) : RepairJob :=
  set_repair (rjb_technician_id r)
    (if wants dto "in_progress" then Some (coalesce started now) else rjb_started_at r)
    (if finishes dto then Some now else rjb_completed_at r)
    (keep (pj_repairMinutes dto) (rjb_repair_minutes r)) (coalesce outcome (rjb_outcome r))
    (if truthy_str (pj_repairNotes dto) then pj_repairNotes dto else rjb_repair_notes r) r.

(** What the request reports beside the status. *)
Definition update_repair (id : string) (job : RepairJob) (dto : PatchRepairJobDto) : M (St Db) () :=
  when_ (truthy_str (pj_outcome dto) || truthy_str (pj_repairNotes dto)
         || bool_decide (is_Some (pj_repairMinutes dto)))
    (now ← Date_now;
     outcome ← match pj_outcome dto with
               | Some ((String _ _) as o) =>
                   x ← as_enum "outcome" RepairOutcome_text RepairOutcome_members o; mret (Some x)
               | _ => mret None
               end;
     _ ← db_update T_RepairJob id (patch_repair dto outcome (rjb_started_at job) now);
     mret tt).

Definition repair_events (id : string) (job : RepairJob) (dto : PatchRepairJobDto) : M (St Db) () :=
  when_ (wants dto "in_progress") (emit (RepairStartedEvent id (rjb_ticket_id job))) ;;
  when_ (finishes dto)
    (updated ← findFirstOrThrow T_RepairJob id;
     emit (RepairCompletedEvent
       (JObj [("repairJobId", JStr id); ("ticketId", JStr (rjb_ticket_id job));
              ("outcome", JStr (RepairOutcome_text (rjb_outcome updated)))]))).

Definition patch_json (dto : PatchRepairJobDto) : list (string * Json) :=
  jopt "status" (pj_status dto) ++ jopt "outcome" (pj_outcome dto)
  ++ jopt "repairNotes" (pj_repairNotes dto)
  ++ match pj_repairMinutes dto with Some n => [("repairMinutes", JInt n)] | None => [] end.

Definition patchRepairJob_body (actorId id : string) (dto : PatchRepairJobDto) : M (St Db) Json :=
  job ← require_repair id;
  snap ← case_get registry (repair_ref id);
  status ← match pj_status dto with
           | Some ((String _ _) as to) =>
               snap ← case_transition registry (repair_ref id) to
                        (case_options (Some actorId) (pj_repairNotes dto));
               mret (sn_status snap)
           | _ => mret (sn_status snap)
           end;
  update_repair id job dto ;;
  repair_events id job dto ;;
  war_audit "repair.patch" (Some actorId) (Some (rjb_ticket_id job)) None (Some id)
    (Some (patch_json dto)) ;;
  mret (JObj [("id", JStr id); ("status", JStr status)]).

Definition patchRepairJob (actorId id : string) (dto : PatchRepairJobDto) : M (St Db) Json :=
  war_locked "repair" id (patchRepairJob_body actorId id dto).

Definition createDiagnostic (actorId : string) (dto : CreateDiagnosticDto) : M (St Db) Json :=
  ticket ← require_ticket (cd_ticketId dto);
  advance_ticket actorId ticket sts_assigned "diagnosis" ;;
  report ← db_create T_DiagnosticReport (λ id, mkDiagnosticReport id (cd_ticketId dto)
             (stt_technician_id ticket) (cd_findings dto) (cd_rootCause dto)
             (cd_recommendedAction dto) (coalesce (cd_isWarrantyCovered dto) true));
  match stt_serial_number_id ticket with
  | Some ((String _ _) as serial) =>
      now ← Date_now;
      _ ← db_create T_DeviceHealthReport (λ id, mkDeviceHealthReport id (Some serial)
            (Some (cd_ticketId dto))
            (Some (joined newline (Some (cd_findings dto)) (cd_rootCause dto))) now None);
      invalidateDevice serial
  | _ => mret tt
  end ;;
  war_audit "service.diagnostic" (Some actorId) (Some (cd_ticketId dto)) None None
    (Some [("reportId", JStr (dgr_id report))]) ;;
  mret (JObj [("id", JStr (dgr_id report)); ("ticketId", JStr (dgr_ticket_id report));
              ("findings", JStr (dgr_findings report))]).

(** The device and its allocation change together. *)
Definition allocate_rows (dto : AllocateLoanDeviceDto) (ticket : ServiceTicket)
  : M (St Db) LoanAllocation :=
  in_transaction
    (_ ← db_update T_LoanDevice (al_loanDeviceId dto) (set_loan_status lds_allocated);
     db_create T_LoanAllocation (λ id, mkLoanAllocation id (al_loanDeviceId dto)
       (Some (al_ticketId dto))
       (match al_customerId dto with Some c => Some c | None => stt_customer_id ticket end)
       (al_dueBackAt dto) las_active None)).

Definition allocateLoanDevice_body (actorId : string) (dto : AllocateLoanDeviceDto)
  : M (St Db) Json :=
  device ← db_findFirst T_LoanDevice (λ r, String.eqb (lnd_id r) (al_loanDeviceId dto)
             && live (lnd_deleted_at r));
  throw_if (negb (match device with
                  | Some r => bool_decide (lnd_status r = lds_available)
                  | None => false
                  end)) (AppException CONFLICT "Loan device unavailable" 409) ;;
  ticket ← require_ticket (al_ticketId dto);
  allocation ← allocate_rows dto ticket;
  emit (LoanDeviceAllocatedEvent
    (JObj [("allocationId", JStr (lna_id allocation)); ("loanDeviceId", JStr (al_loanDeviceId dto));
           ("ticketId", JStr (al_ticketId dto))])) ;;
  war_audit "loan.allocate" (Some actorId) (Some (al_ticketId dto)) None None
    (Some [("allocationId", JStr (lna_id allocation))]) ;;
  mret (JObj [("id", JStr (lna_id allocation)); ("loanDeviceId", JStr (al_loanDeviceId dto));
              ("status", JStr (LoanAllocationStatus_text (lna_status allocation)))]).

Definition allocateLoanDevice (actorId : string) (dto : AllocateLoanDeviceDto) : M (St Db) Json :=
  war_locked "loan" (al_loanDeviceId dto) (allocateLoanDevice_body actorId dto).

Definition part_warehouse (dto : UseSparePartDto) (part : RepairPart) : option string :=
  match us_warehouseId dto with Some w => Some w | None => rpa_warehouse_id part end.

(** A part that is a variant in some warehouse is reserved there for a day. *)
Definition reserve_part (dto : UseSparePartDto) (part : RepairPart) : M (St Db) (option string) :=
  match rpa_variant_id part, part_warehouse dto part with
  | Some ((String _ _) as v), Some ((String _ _) as w) =>
      reservation ← reserve (mkReserveStockDto w v (us_quantity dto) None None None (Some (24 * 60)));
      mret (Some (Inventory.rw_id reservation))
  | _, _ => mret None
  end.

Definition useSparePart_body (actorId : string) (dto : UseSparePartDto) : M (St Db) Json :=
  job ← require_repair (us_repairJobId dto);
  part ← db_findFirst T_RepairPart (λ p, String.eqb (rpa_id p) (us_repairPartId dto)
           && live (rpa_deleted_at p));
  part ← require_ part (AppException NOT_FOUND "Spare part not found" 404);
  reservationId ← reserve_part dto part;
  usage ← db_create T_RepairPartUsage (λ id, mkRepairPartUsage id (us_repairJobId dto)
            (us_repairPartId dto) (part_warehouse dto part) (us_quantity dto) (rpa_unit_cost part)
            (coalesce (us_isWarrantyCovered dto) false));
  war_audit "repair.parts.use" (Some actorId) (Some (rjb_ticket_id job)) None
    (Some (us_repairJobId dto))
    (Some ([("usageId", JStr (rpu_id usage))] ++ jopt "reservationId" reservationId)) ;;
  mret (JObj ([("id", JStr (rpu_id usage))] ++ jopt "reservationId" reservationId
              ++ [("quantity", JInt (rpu_quantity usage))])).

Definition useSparePart (actorId : string) (dto : UseSparePartDto) : M (St Db) Json :=
  war_locked "parts" (us_repairJobId dto) (useSparePart_body actorId dto).

Definition closeTicket (actorId ticketId : string) : M (St Db) Json :=
  snap ← case_transition registry (ticket_ref ticketId) "closed" (case_options (Some actorId) None);
  emit (ServiceTicketClosedEvent (JObj [("ticketId", JStr ticketId)])) ;;
  war_audit "service.ticket.close" (Some actorId) (Some ticketId) None None None ;;
  mret (JObj [("id", JStr ticketId); ("status", JStr (sn_status snap))]).

Definition createReplacement (actorId ticketId : string) (claimId : option string)
  : M (St Db) Json :=
  now ← Date_now;
  row ← db_create T_ReplacementRequest (λ id, mkReplacementRequest id (shortId "REP" now)
          (Some ticketId) claimId rpt_same_variant None);
  emit (DeviceReplacedEvent
    (JObj [("replacementRequestId", JStr (rpq_id row)); ("ticketId", JStr ticketId)])) ;;
  mret (JObj [("id", JStr (rpq_id row)); ("requestNumber", JStr (rpq_request_number row))]).

Definition is_appointment (st : ServiceTicketStatus) : bool :=
  match st with sts_assigned | sts_diagnosis | sts_repair_in_progress => true | _ => false end.

(** [ORDER BY assigned_at ASC]: NULL comes last. *)
Definition appointments (rows : list ServiceTicket) : list ServiceTicket :=
  order_desc (λ t, - coalesce (stt_assigned_at t) 0) (where_ (λ t, negb (live (stt_assigned_at t))) rows)
  ++ scan (where_ (λ t, live (stt_assigned_at t)) rows).

Definition listAppointments (customerId : option string) : M (St Db) Json :=
  rows ← gets (λ s, appointments (where_ (λ t, live (stt_deleted_at t)
           && is_appointment (stt_status t) && of_customer customerId t)
           (view L_ServiceTicket (tables s))));
  mret (JArr (map (λ t, JObj
    [("ticketId", JStr (stt_id t)); ("ticketNumber", JStr (stt_ticket_number t));
     ("title", JStr (stt_title t)); ("status", JStr (ServiceTicketStatus_text (stt_status t)));
     ("scheduledAt", JInt (coalesce (stt_assigned_at t) (stt_opened_at t)));
     ("technicianId", jnull_str (stt_technician_id t));
     ("serviceCenterId", JStr (stt_service_center_id t))]) (take 50 rows))).

Definition ticket_closed (st : ServiceTicketStatus) : bool :=
  match st with sts_closed | sts_cancelled => true | _ => false end.

Definition rma_open (st : RmaStatus) : bool :=
  match st with rms_requested | rms_approved | rms_in_transit | rms_received => true | _ => false end.

(** The five counts run as separate statements. *)
Definition dashboard : M (St Db) Json :=
  openClaims ← db_count T_WarrantyClaim (λ r, live (wcl_deleted_at r) && claim_open (wcl_status r));
  openTickets ← db_count T_ServiceTicket (λ r, live (stt_deleted_at r)
                  && negb (ticket_closed (stt_status r)));
  activeRepairs ← db_count T_RepairJob (λ r, live (rjb_deleted_at r)
                    && bool_decide (rjb_outcome r = rpo_pending) && live (rjb_completed_at r));
  openRmas ← db_count T_RmaRequest (λ r, live (rma_deleted_at r) && rma_open (rma_status r));
  availableLoans ← db_count T_LoanDevice (λ r, live (lnd_deleted_at r)
                     && bool_decide (lnd_status r = lds_available));
  mret (JObj [("openClaims", JInt openClaims); ("openTickets", JInt openTickets);
              ("activeRepairs", JInt activeRepairs); ("openRmas", JInt openRmas);
              ("availableLoans", JInt availableLoans)]).

(** ** The worker ([workers/warranty.worker.ts]) *)

Definition CaseKind_members : list CaseKind :=
  [ck_warranty_claim; ck_rma; ck_service_ticket; ck_repair_job; ck_support].

(** The active registrations that end within thirty days. *)
Definition expiring (soon : Z) (r : WarrantyRegistration) : bool :=
  bool_decide (wrg_status r = wrs_active) && live (wrg_deleted_at r)
  && (wrg_end_date r <=? date_column soon).

(** [process(job)]: the two fields are those the monitoring jobs may carry. *)
Definition war_worker (name : string) (caseKind caseId : option string) : M (St Db) () :=
  if String.eqb name WARRANTY_JOBS.SLA_MONITOR || String.eqb name WARRANTY_JOBS.ESCALATION then
    match caseKind, caseId with
    | Some ((String _ _) as kind), Some ((String _ _) as id) =>
        k ← require_ (of_text CaseKind_text CaseKind_members kind)
              (JsError ("No CaseStore registered for kind=" +:+ kind));
        _ ← evaluateSla registry (mkCaseRef k id) None None None;
        mret tt
    | _, _ => mret tt
    end
  else if String.eqb name WARRANTY_JOBS.EXPIRY_REMINDER then
    now ← Date_now;
    _ ← db_count T_WarrantyRegistration (expiring (addDays now 30));
    mret tt
  else mret tt.
End service.
