(* ===== verification/WarrantyRules.v ===== *)
(** * Warranty rules: what the case files guarantee

    Whatever requests and jobs arrive at the warranty and service module and however
    each ends: claims and RMAs move along their state machines and carry their
    closing time exactly when they are settled; tickets follow theirs as long as no
    technician is assigned, which puts a ticket back to [assigned] whatever it was; a
    serial number has at most one active registration, a registration at most one open
    claim, a loan device at most one active allocation; no registration's end moves back. What single requests do is in
    [ServiceRules]. *)
From S2P Require Import Prelude Core Effects Redis Lock StateMachine Saga JsNumber Schema Database Tables Inventory Payments Webhooks Settlement PaymentRules CheckoutRules Cases Lives Shipping Carrier Calendar WarrantyStores Warranty Service.
From Stdlib Require Import QArith.

#[local] Open Scope Z_scope.

(** ** At most one row of a kind *)

Definition at_most_one {A} (p : A → bool) (l : list A) : Prop := (length (where_ p l) <= 1)%nat.

Lemma at_most_one_snoc {A} (p : A → bool) l x :
  at_most_one p l → (p x = true → Forall (λ y, p y = false) l) → at_most_one p (l ++ [x]).
Proof.
  unfold at_most_one. intros Hl Hx. rewrite where_app, length_app. simpl.
  destruct (p x) eqn:E; simpl; [|lia]. rewrite (where_none p l) by auto. simpl. lia.
Qed.

Lemma at_most_one_update {A} (key : A → string) (p : A → bool) k f l :
  at_most_one p l → (∀ x, x ∈ l → key x = k → p (f x) = true → p x = true) →
  at_most_one p (update_rows key k f l).
Proof.
  unfold at_most_one. intros Hl Hf. etrans; [|exact Hl]. clear Hl.
  induction l as [|x l IH]; simpl; [done|].
  assert (length (where_ p (update_rows key k f l)) <= length (where_ p l))%nat as Hle
    by (apply IH; set_solver).
  change (map (λ x0, if String.eqb (key x0) k then f x0 else x0) l) with (update_rows key k f l).
  destruct (String.eqb_spec (key x) k) as [E|E].
  - destruct (p (f x)) eqn:Ef; simpl.
    + rewrite (Hf x ltac:(set_solver) E Ef). simpl. lia.
    + destruct (p x); simpl; lia.
  - destruct (p x); simpl; lia.
Qed.

(** ** The rows of the module *)

Notation claims d := (view L_WarrantyClaim d).
Notation rmas d := (view L_RmaRequest d).
Notation tickets d := (view L_ServiceTicket d).
Notation registrations d := (view L_WarrantyRegistration d).
Notation plans d := (view L_WarrantyPlan d).
Notation devices d := (view L_LoanDevice d).
Notation allocations d := (view L_LoanAllocation d).

(** A claim has its closing time exactly when it is settled. *)
Definition claim_sound (c : WarrantyClaim) : Prop :=
  is_Some (wcl_resolved_at c) ↔ claim_open (wcl_status c) = false.
Definition rma_sound (r : RmaRequest) : Prop :=
  is_Some (rma_completed_at r) ↔ rma_open (rma_status r) = false.
(** A closed ticket has its closing time (a reassigned one keeps it). *)
Definition ticket_sound (t : ServiceTicket) : Prop :=
  ticket_closed (stt_status t) = true → is_Some (stt_closed_at t).

(** Not further than the diagnosis. *)
Definition on_bench (t : ServiceTicket) : Prop :=
  match stt_status t with sts_created | sts_assigned | sts_diagnosis => True | _ => False end.

(** What identifies the rows. *)
Definition claim_core (c : WarrantyClaim) :=
  (wcl_claim_number c, wcl_registration_id c, wcl_customer_id c, wcl_serial_number_id c,
   wcl_issue_summary c, wcl_issue_detail c, wcl_claim_amount c, wcl_submitted_at c).
Definition rma_core (r : RmaRequest) :=
  (rma_rma_number r, rma_rma_type r, rma_customer_id r, rma_order_id r, rma_order_item_id r,
   rma_claim_id r, rma_ticket_id r, rma_serial_number_id r, rma_reason r, rma_requested_at r).
Definition ticket_core (t : ServiceTicket) :=
  (stt_ticket_number t, stt_customer_id t, stt_registration_id t, stt_claim_id t,
   stt_service_center_id t, stt_serial_number_id t, stt_order_id t, stt_title t, stt_opened_at t).

Notation claim_text c := (WarrantyClaimStatus_text (wcl_status c)).
Notation rma_text r := (RmaStatus_text (rma_status r)).
Notation ticket_text t := (ServiceTicketStatus_text (stt_status t)).

(** Whether technicians are assigned in what is looked at. *)
Class Desk := reassigns : bool.

(** A ticket takes an edge of its machine; the assignment of a technician, a write that
    does not ask the machine, leads to [assigned] from anywhere. *)
Definition ticket_step `{!Desk} (a b : string) : Prop :=
  edge serviceTicketStateMachine a b ∨ (reassigns = true ∧ b = "assigned").

Definition claim_later := later wcl_id (λ c, claim_text c) (edge warrantyClaimStateMachine) claim_core.
Definition rma_later := later rma_id (λ r, rma_text r) (edge rmaStateMachine) rma_core.
Definition ticket_later `{!Desk} := later stt_id (λ t, ticket_text t) ticket_step ticket_core.

(** [r'] is the registration [r] later: its end did not move back. *)
Definition covered (r r' : WarrantyRegistration) : Prop :=
  wrg_id r' = wrg_id r ∧ wrg_registration_number r' = wrg_registration_number r
  ∧ wrg_plan_id r' = wrg_plan_id r ∧ wrg_serial_number_id r' = wrg_serial_number_id r
  ∧ wrg_start_date r' = wrg_start_date r ∧ wrg_status r' = wrg_status r
  ∧ wrg_end_date r <= wrg_end_date r'.

Definition active_loan (deviceId : string) (a : LoanAllocation) : bool :=
  String.eqb (lna_loan_device_id a) deviceId && bool_decide (lna_status a = las_active)
  && live (lna_deleted_at a).

Record service_ok (d : Db) : Prop := {
  so_claims : rows_sound wcl_id claim_sound (claims d);
  so_once : ∀ registrationId, at_most_one (is_open_claim registrationId) (claims d);
  so_rmas : rows_sound rma_id rma_sound (rmas d);
  so_tickets : rows_sound stt_id ticket_sound (tickets d);
  so_registrations : NoDup (map wrg_id (registrations d));
  so_unique : ∀ serialId, at_most_one (is_active_registration serialId) (registrations d);
  so_plans : Forall (λ p, 1 <= wpl_duration_months p) (plans d);
  so_devices : NoDup (map lnd_id (devices d));
  so_loans : ∀ deviceId, at_most_one (active_loan deviceId) (allocations d);
  so_held : Forall (λ x, lnd_status x = lds_available →
              Forall (λ a, active_loan (lnd_id x) a = false) (allocations d)) (devices d);
}.

(** No row is lost, and each moved as it may. *)
Record kept `{desk : !Desk} (d d' : Db) : Prop := {
  ke_claims : ∀ c, c ∈ claims d → ∃ c', c' ∈ claims d' ∧ claim_later c c';
  ke_rmas : ∀ r, r ∈ rmas d → ∃ r', r' ∈ rmas d' ∧ rma_later r r';
  ke_tickets : ∀ t, t ∈ tickets d → ∃ t', t' ∈ tickets d' ∧ ticket_later t t';
  ke_registrations : ∀ r, r ∈ registrations d → ∃ r', r' ∈ registrations d' ∧ covered r r';
  ke_bench : Forall on_bench (tickets d) → Forall on_bench (tickets d');
}.

Lemma later_refl {A I} (key status : A → string) step (identity : A → I) (r : A) :
  later key status step identity r r.
Proof. by split_and!. Qed.

Lemma covered_refl r : covered r r.
Proof. by split_and!. Qed.

Lemma covered_trans r1 r2 r3 : covered r1 r2 → covered r2 r3 → covered r1 r3.
Proof.
  intros (A1 & A2 & A3 & A4 & A5 & A6 & A7) (B1 & B2 & B3 & B4 & B5 & B6 & B7).
  unfold covered. split_and!; congruence || lia.
Qed.

(** A row of a list that leads on, twice. *)
Lemma leads_trans {A} (R : A → A → Prop) (l1 l2 l3 : list A) :
  (∀ x y z, R x y → R y z → R x z) →
  (∀ x, x ∈ l1 → ∃ y, y ∈ l2 ∧ R x y) → (∀ y, y ∈ l2 → ∃ z, z ∈ l3 ∧ R y z) →
  ∀ x, x ∈ l1 → ∃ z, z ∈ l3 ∧ R x z.
Proof. intros Htr H12 H23 x Hx. destruct (H12 x Hx) as (y & Hy & ?), (H23 y Hy) as (z & ? & ?). eauto. Qed.

#[export] Instance kept_preorder `{!Desk} : PreOrder kept.
Proof.
  split.
  - intros d. split; [| | | |done]; intros x Hx; exists x; (split; [done|]);
      solve [apply later_refl | apply covered_refl].
  - intros d1 d2 d3 [] []. split; [| | | |by auto]; (eapply leads_trans; [|eassumption..]);
      solve [apply later_trans | apply covered_trans].
Qed.

(** On sound tables the step keeps them sound and every row. *)
Definition tended `{!Desk} (d d' : Db) : Prop := service_ok d → service_ok d' ∧ kept d d'.

#[export] Instance tended_preorder `{!Desk} : PreOrder tended.
Proof.
  split; [by intros d|]. intros d1 d2 d3 H12 H23 Hok. destruct (H12 Hok) as [Hok2 ?].
  destruct (H23 Hok2) as [? ?]. split; [done|by etrans].
Qed.

(** The seven tables are what they were. *)
Definition same_service (d d' : Db) : Prop :=
  claims d' = claims d ∧ rmas d' = rmas d ∧ tickets d' = tickets d
  ∧ registrations d' = registrations d ∧ plans d' = plans d ∧ devices d' = devices d
  ∧ allocations d' = allocations d.

Lemma tended_same `{!Desk} d d' : same_service d d' → tended d d'.
Proof.
  intros (E1 & E2 & E3 & E4 & E5 & E6 & E7) Hok. split.
  - destruct Hok. split; by rewrite ?E1, ?E2, ?E3, ?E4, ?E5, ?E6, ?E7.
  - split; rewrite ?E1, ?E2, ?E3, ?E4; [| | | |done]; intros x Hx; exists x; (split; [done|]);
      solve [apply later_refl | apply covered_refl].
Qed.

(** A store of another module's cases that leaves the seven tables alone. *)
Record aloof `{Redis} (st : CaseStore Db) : Prop := {
  al_load : ∀ ref, stays (on_tables same_service) (store_load st ref);
  al_append : ∀ ref e, stays (on_tables same_service) (store_appendTimeline st ref e);
  al_mark : ∀ mark ref t a, store_markEscalated st = Some mark →
    stays (on_tables same_service) (mark ref t a);
  al_save : ∀ ref to actor, stays (on_tables same_service) (store_saveStatus st ref to actor);
}.

(** So does the store of support cases, which is not of this module. *)
Definition base_ok `{Redis} (base : CaseRegistry Db) : Prop :=
  ∀ st, base ck_support = Some st → aloof st.

(** ** Changes to one table *)

Lemma lives_self {A I} (key status : A → string) step (identity : A → I) (sound : A → Prop) l :
  lives key status step identity sound l l.
Proof. apply lives_preorder. Qed.

Ltac tend_rest :=
  match goal with
  | |- ∀ x, x ∈ _ → ∃ x', x' ∈ _ ∧ _ =>
      let x := fresh in let Hx := fresh in intros x Hx; exists x; split; [exact Hx|];
      solve [apply later_refl | apply covered_refl]
  end.

Lemma tended_claims `{!Desk} d rows :
  (service_ok d →
     lives wcl_id (λ c, claim_text c) (edge warrantyClaimStateMachine) claim_core claim_sound (claims d) rows
     ∧ ∀ registrationId, at_most_one (is_open_claim registrationId) rows) →
  tended d (put L_WarrantyClaim rows d).
Proof.
  intros Hrows Hok. destruct (Hrows Hok) as [Hl Ho]. destruct (Hl (so_claims d Hok)) as [Hs Hk].
  split; [destruct Hok|]; split; rewrite ?view_put; try done; tend_rest.
Qed.

Lemma tended_rmas `{!Desk} d rows :
  (service_ok d → lives rma_id (λ r, rma_text r) (edge rmaStateMachine) rma_core rma_sound (rmas d) rows) →
  tended d (put L_RmaRequest rows d).
Proof.
  intros Hrows Hok. destruct (Hrows Hok (so_rmas d Hok)) as [Hs Hk].
  split; [destruct Hok|]; split; rewrite ?view_put; try done; tend_rest.
Qed.

Lemma tended_tickets `{!Desk} d rows :
  (service_ok d → lives stt_id (λ t, ticket_text t) ticket_step ticket_core ticket_sound
                    (tickets d) rows ∧ (Forall on_bench (tickets d) → Forall on_bench rows)) →
  tended d (put L_ServiceTicket rows d).
Proof.
  intros Hrows Hok. destruct (Hrows Hok) as [Hl Hb]. destruct (Hl (so_tickets d Hok)) as [Hs Hk].
  split; [destruct Hok|]; split; rewrite ?view_put; try done; tend_rest.
Qed.

Lemma tended_registrations `{!Desk} d rows :
  (service_ok d → NoDup (map wrg_id rows)
     ∧ (∀ serialId, at_most_one (is_active_registration serialId) rows)
     ∧ ∀ r, r ∈ registrations d → ∃ r', r' ∈ rows ∧ covered r r') →
  tended d (put L_WarrantyRegistration rows d).
Proof.
  intros Hrows Hok. destruct (Hrows Hok) as (Hn & Hu & Hk).
  split; [destruct Hok|]; split; rewrite ?view_put; try done; tend_rest.
Qed.

Lemma tended_plans `{!Desk} d p :
  1 <= wpl_duration_months p → tended d (put L_WarrantyPlan (plans d ++ [p]) d).
Proof.
  intros Hp Hok. split; [destruct Hok|]; split; rewrite ?view_put; try done; try tend_rest.
  apply Forall_app. by split; [|apply Forall_singleton].
Qed.

(** A registration changed without its status, serial and start. *)
Lemma registration_updated `{!Desk} d r f :
  r ∈ registrations d → (∀ x, wrg_id (f x) = wrg_id x) → covered r (f r) →
  (∀ serialId x, is_active_registration serialId (f x) = is_active_registration serialId x) →
  tended d (put L_WarrantyRegistration (update_rows wrg_id (wrg_id r) f (registrations d)) d).
Proof.
  intros Hr Hk Hc Ha. apply tended_registrations. intros Hok. split_and!.
  - rewrite update_rows_keys by done. apply Hok.
  - intros serialId. apply at_most_one_update; [apply Hok|]. intros x _ _. by rewrite Ha.
  - intros x Hx. exists (if String.eqb (wrg_id x) (wrg_id r) then f x else x).
    split; [by apply list_elem_of_fmap; exists x|].
    destruct (String.eqb_spec (wrg_id x) (wrg_id r)) as [E|_]; [|apply covered_refl].
    by rewrite (NoDup_key_eq wrg_id _ x r (so_registrations d Hok) Hx Hr E).
Qed.

Lemma registration_added `{!Desk} d r serialId :
  wrg_id r ∉ map wrg_id (registrations d) → wrg_serial_number_id r = Some serialId →
  Forall (λ x, is_active_registration serialId x = false) (registrations d) →
  tended d (put L_WarrantyRegistration (registrations d ++ [r]) d).
Proof.
  intros Hk Hs Hnone. apply tended_registrations. intros Hok. split_and!.
  - apply NoDup_snoc; [apply Hok|done].
  - intros s'. apply at_most_one_snoc; [apply Hok|]. unfold is_active_registration at 1.
    rewrite Hs. intros E. bool_to_prop. unfold same_opt in *. bool_to_prop. by simplify_eq.
  - intros x Hx. exists x. split; [set_solver|apply covered_refl].
Qed.

(** A device is handed out: its status and its allocation together. *)
Lemma loan_allocated `{!Desk} d x a :
  x ∈ devices d → lnd_status x = lds_available → lna_loan_device_id a = lnd_id x →
  tended d (put L_LoanAllocation (allocations d ++ [a])
    (put L_LoanDevice (update_rows lnd_id (lnd_id x) (set_loan_status lds_allocated) (devices d)) d)).
Proof.
  intros Hx Hav Ha Hok. pose proof Hok as [? ? ? ? ? ? ? Hn Hl Hh]. rewrite Forall_forall in Hh.
  pose proof (Hh x Hx Hav) as Hfree.
  split; [split|split]; rewrite ?view_put; try done; try tend_rest.
  - change (NoDup (map lnd_id (update_rows lnd_id (lnd_id x) (set_loan_status lds_allocated)
      (devices d)))). by rewrite update_rows_keys.
  - intros dev. apply at_most_one_snoc; [done|]. unfold active_loan at 1. rewrite Ha. intros E.
    bool_to_prop. by subst.
  - change (devices (put L_LoanAllocation _ _))
      with (update_rows lnd_id (lnd_id x) (set_loan_status lds_allocated) (devices d)).
    apply Forall_forall. intros y (z & Hz & [[E ->]|[E ->]])%elem_of_update_rows; [done|].
    intros Hy. apply Forall_app. split; [by apply (Hh z Hz)|]. apply Forall_singleton.
    unfold active_loan. rewrite Ha.
    by destruct (String.eqb_spec (lnd_id x) (lnd_id z)) as [E'|]; [rewrite E' in E|].
Qed.

(** ** Moves of one row *)

Notation claim_edge := (edge warrantyClaimStateMachine).
Notation rma_edge := (edge rmaStateMachine).
Notation ticket_edge := (edge serviceTicketStateMachine).

(** A settled claim, a finished RMA and a closed ticket stay what they are. *)
Lemma claim_edge_open a b :
  claim_edge (WarrantyClaimStatus_text a) (WarrantyClaimStatus_text b) → claim_open a = true.
Proof. intros [Hne He]. destruct a, b; try done; by vm_compute in He. Qed.

Lemma rma_edge_open a b : rma_edge (RmaStatus_text a) (RmaStatus_text b) → rma_open a = true.
Proof. intros [Hne He]. destruct a, b; try done; by vm_compute in He. Qed.

Lemma ticket_edge_open a b :
  ticket_edge (ServiceTicketStatus_text a) (ServiceTicketStatus_text b) → ticket_closed a = false.
Proof. intros [Hne He]. destruct a, b; try done; by vm_compute in He. Qed.

(** The lists of statuses in [saveStatus] are the settled ones. *)
Lemma claim_terminal st :
  includes (WarrantyClaimStatus_text st) ["closed"; "rejected"; "cancelled"] = negb (claim_open st).
Proof. by destruct st. Qed.

Lemma rma_terminal st :
  includes (RmaStatus_text st) ["completed"; "rejected"; "cancelled"] = negb (rma_open st).
Proof. by destruct st. Qed.

Lemma ticket_terminal st :
  includes (ServiceTicketStatus_text st) ["closed"; "cancelled"] = ticket_closed st.
Proof. by destruct st. Qed.

Lemma claim_moved `{!Desk} d c st now :
  c ∈ claims d → claim_edge (claim_text c) (WarrantyClaimStatus_text st) →
  tended d (put L_WarrantyClaim (update_rows wcl_id (wcl_id c) (set_claim_status st
     (if includes (WarrantyClaimStatus_text st) ["closed"; "rejected"; "cancelled"] then Some now
      else wcl_resolved_at c)) (claims d)) d).
Proof.
  intros Hc He. apply tended_claims. intros Hok. pose proof (claim_edge_open _ _ He) as Hopen.
  rewrite claim_terminal. split.
  - apply lives_update; try done; [by apply rtc_once|]. unfold claim_sound. simpl. intros [Hs _].
    destruct (claim_open st); simpl; [|by split; [|eauto]].
    split; [|done]. intros Hr. by rewrite (Hs Hr) in Hopen.
  - intros reg. apply at_most_one_update; [by apply Hok|]. intros x Hx Hk.
    rewrite (NoDup_key_eq wcl_id _ x c (proj1 (so_claims d Hok)) Hx Hc Hk).
    unfold is_open_claim. simpl. rewrite Hopen. by destruct (claim_open st); rewrite ?andb_false_r.
Qed.

Lemma rma_moved `{!Desk} d r st now :
  r ∈ rmas d → rma_edge (rma_text r) (RmaStatus_text st) →
  tended d (put L_RmaRequest (update_rows rma_id (rma_id r) (set_rma_status st
     (if includes (RmaStatus_text st) ["completed"; "rejected"; "cancelled"] then Some now
      else rma_completed_at r)) (rmas d)) d).
Proof.
  intros Hr He. apply tended_rmas. intros Hok. pose proof (rma_edge_open _ _ He) as Hopen.
  rewrite rma_terminal. apply lives_update; try done; [by apply rtc_once|].
  unfold rma_sound. simpl. intros [Hs _].
  destruct (rma_open st); simpl; [|by split; [|eauto]].
  split; [|done]. intros Hr'. by rewrite (Hs Hr') in Hopen.
Qed.

(** The statuses that the module asks for. *)
Definition ticket_targets : list string := ["assigned"; "diagnosis"; "closed"].

(** On the bench, only the first two are reached. *)
Lemma bench_edge a b : b ∈ ticket_targets →
  ticket_edge (ServiceTicketStatus_text a) b →
  match a with sts_created | sts_assigned | sts_diagnosis => b ≠ "closed" | _ => True end.
Proof. intros _ [_ He] . destruct a; try done; intros ->; by vm_compute in He. Qed.

(** One ticket changes and stays on the bench if it was there. *)
Lemma bench_updated id f l :
  (∀ t, t ∈ l → stt_id t = id → on_bench t → on_bench (f t)) →
  Forall on_bench l → Forall on_bench (update_rows stt_id id f l).
Proof.
  rewrite !Forall_forall. intros Hf Hl t (x & Hx & [[E ->]|[_ ->]])%elem_of_update_rows; auto.
Qed.

Lemma ticket_moved `{!Desk} d t st now :
  t ∈ tickets d → ServiceTicketStatus_text st ∈ ticket_targets →
  ticket_edge (ticket_text t) (ServiceTicketStatus_text st) →
  tended d (put L_ServiceTicket (update_rows stt_id (stt_id t) (set_ticket_status st
     (if includes (ServiceTicketStatus_text st) ["closed"; "cancelled"] then Some now
      else stt_closed_at t)) (tickets d)) d).
Proof.
  intros Ht Hto He. apply tended_tickets. intros Hok. rewrite ticket_terminal. split.
  - apply lives_update; try done; [by apply rtc_once; left|].
    unfold ticket_sound. simpl. intros _ ->. by eexists.
  - apply bench_updated. intros x Hx Hk.
    rewrite (NoDup_key_eq stt_id _ x t (proj1 (so_tickets d Hok)) Hx Ht Hk).
    pose proof (bench_edge _ _ Hto He) as Hb. unfold on_bench. simpl. intros Hon.
    unfold ticket_targets in Hto. rewrite !elem_of_cons, elem_of_nil in Hto.
    destruct st; try done; destruct Hto as [|[|[|[]]]]; try done; by destruct (stt_status t).
Qed.

Lemma ticket_reassigned `{!Desk} d t technicianId now :
  reassigns = true → t ∈ tickets d →
  tended d (put L_ServiceTicket (update_rows stt_id (stt_id t) (set_technician technicianId now)
              (tickets d)) d).
Proof.
  intros Hr Ht. apply tended_tickets. intros Hok. split; [|by apply bench_updated].
  apply lives_update; try done. apply rtc_once. by right.
Qed.

(** The writes to the tables that the invariant looks at are left to the caller. *)
Ltac tend_step := idtac;
  match goal with
  | |- stays _ (db_create T_WarrantyClaim _) => fail 1
  | |- stays _ (db_create T_RmaRequest _) => fail 1
  | |- stays _ (db_create T_ServiceTicket _) => fail 1
  | |- stays _ (db_create T_WarrantyRegistration _) => fail 1
  | |- stays _ (db_create T_WarrantyPlan _) => fail 1
  | |- stays _ (db_create T_LoanAllocation _) => fail 1
  | |- stays _ (db_create _ _) => apply stays_create; [apply _|intros; by apply tended_same]
  | |- stays _ (db_createMany _ _) => apply stays_createMany; [apply _|intros ? ?]
  | |- stays _ (db_update T_WarrantyClaim _ _) => fail 1
  | |- stays _ (db_update T_RmaRequest _ _) => fail 1
  | |- stays _ (db_update T_ServiceTicket _ _) => fail 1
  | |- stays _ (db_update T_WarrantyRegistration _ _) => fail 1
  | |- stays _ (db_update T_LoanDevice _ _) => fail 1
  | |- stays _ (db_update _ _ _) => apply stays_update; [apply _|intros; by apply tended_same]
  | |- stays _ (db_updateMany _ _ _) => apply stays_updateMany; [apply _|intros; by apply tended_same]
  end.
Ltac tend_with step :=
  unfold db_findFirst, db_findMany, db_findMany_desc, db_findFirst_desc, db_count, Date_now, as_enum;
  staying step.
Ltac tend := tend_with tend_step.

(** ** The stores *)
Section stores.
Context `{Redis, !Scheduler, !Crypto, !Postgres, !DateText, !Desk}.

Notation tends := (stays (on_tables tended)).

Lemma dwp_tends {A} (m : M (St Db) A) : (∀ d, dwp m (λ _ d', tended d d') d) → tends m.
Proof. intros Hm s. unfold on_tables. by apply (Hm (tables s) s). Qed.

Lemma tends_then {A} (m : M (St Db) A) d0 d :
  tends m → tended d0 d → dwp m (λ _ d', tended d0 d') d.
Proof. intros Hm Hd. apply (dwp_stays tended); [done|]. intros o d' Hd'. by etrans. Qed.

(** What is to be shown may use that the tables are sound. *)
Lemma dwp_tended {A} (m : M (St Db) A) d :
  (service_ok d → dwp m (λ _ d', tended d d') d) → dwp m (λ _ d', tended d d') d.
Proof. intros Hm s Hs Hok. by apply (Hm Hok s Hs). Qed.

Lemma service_log_tends t c r a u m : tends (service_log t c r a u m).
Proof. unfold service_log. tend. Qed.

Lemma log_entry_tends t c r e more : tends (log_entry t c r e more).
Proof. apply service_log_tends. Qed.

Lemma trail_tends p : tends (trail p).
Proof. unfold trail. tend. Qed.

(** A load changes nothing. *)
Lemma claim_load_tables ref : stays (framing tables) (claim_load ref).
Proof. unfold claim_load, find_claim, db_findFirst. case_bool_decide; eauto 6 with kept typeclass_instances. Qed.
Lemma rma_load_tables ref : stays (framing tables) (rma_load ref).
Proof. unfold rma_load, find_rma, db_findFirst. case_bool_decide; eauto 6 with kept typeclass_instances. Qed.
Lemma ticket_load_tables ref : stays (framing tables) (ticket_load ref).
Proof. unfold ticket_load, find_ticket, db_findFirst. case_bool_decide; eauto 6 with kept typeclass_instances. Qed.
Lemma repair_load_tables ref : stays (framing tables) (repair_load ref).
Proof.
  unfold repair_load, find_repair, readCaseStatus, db_findFirst, db_findFirst_desc.
  case_bool_decide; [|eauto with kept typeclass_instances].
  apply stays_bind; [apply _|eauto with kept typeclass_instances|]. intros [r|]; eauto 8 with kept typeclass_instances.
Qed.

Lemma loaded_tables load : stays (framing tables) load → stays (framing tables) (loaded load).
Proof. intros Hl. unfold loaded. eauto with kept typeclass_instances. Qed.

Lemma dwp_findFirstOrThrow {A} (T : Table A) id Q d :
  (∀ e, Q (Throw e) d) → (∀ r, r ∈ view (tbl T) d → pk T r = id → Q (Ok r) d) →
  dwp (findFirstOrThrow T id) Q d.
Proof.
  intros HE HO. unfold findFirstOrThrow.
  apply dwp_bind, dwp_findFirst; intros; (apply dwp_require; [intros ? E|]; simplify_eq; try done).
  bool_to_prop. by apply HO.
Qed.

Lemma dwp_as_enum {E} column (text : E → string) members x (Q : outcome E → Db → Prop) d :
  (∀ st, text st = x → Q (Ok st) d) → (∀ e, Q (Throw e) d) →
  dwp (as_enum column text members x) Q d.
Proof.
  intros HO HE. unfold as_enum. apply dwp_require; [|done].
  intros st [_ ?]%find_first_Some. bool_to_prop. by apply HO.
Qed.

(** [saveStatus] along an edge. *)
Lemma claim_saveStatus_tends ref to actor c d :
  c ∈ claims d → wcl_id c = ref_id ref → claim_edge (claim_text c) to →
  dwp (claim_saveStatus ref to actor) (λ _ d', tended d d') d.
Proof.
  intros Hc Hid He. apply dwp_tended. intros Hok. unfold claim_saveStatus.
  apply dwp_bind, dwp_findFirstOrThrow; [done|]. intros r Hr Hk.
  assert (r = c) as -> by (apply (NoDup_key_eq wcl_id (claims d)); [apply Hok|done..|by etrans]).
  apply dwp_bind, dwp_now. intros now. apply dwp_bind, dwp_as_enum; [|done]. intros st <-.
  rewrite <- Hid. dwp_step; [done|].
  apply tends_then; [|by apply claim_moved]. unfold claim_history.
  tend_with ltac:(first [apply stays_env; [apply _|apply loaded_tables, claim_load_tables]|tend_step]).
Qed.

Lemma rma_saveStatus_tends ref to actor r d :
  r ∈ rmas d → rma_id r = ref_id ref → rma_edge (rma_text r) to →
  dwp (rma_saveStatus ref to actor) (λ _ d', tended d d') d.
Proof.
  intros Hc Hid He. apply dwp_tended. intros Hok. unfold rma_saveStatus.
  apply dwp_bind, dwp_findFirstOrThrow; [done|]. intros r' Hr Hk.
  assert (r' = r) as -> by (apply (NoDup_key_eq rma_id (rmas d)); [apply Hok|done..|by etrans]).
  apply dwp_bind, dwp_now. intros now. apply dwp_bind, dwp_as_enum; [|done]. intros st <-.
  rewrite <- Hid. dwp_step; [done|].
  apply tends_then; [|by apply rma_moved]. unfold rma_append.
  tend_with ltac:(first [apply stays_env; [apply _|apply loaded_tables, rma_load_tables]
                        |apply log_entry_tends|tend_step]).
Qed.

Lemma ticket_saveStatus_tends ref to actor t d :
  t ∈ tickets d → stt_id t = ref_id ref → to ∈ ticket_targets → ticket_edge (ticket_text t) to →
  dwp (ticket_saveStatus ref to actor) (λ _ d', tended d d') d.
Proof.
  intros Hc Hid Hto He. apply dwp_tended. intros Hok. unfold ticket_saveStatus.
  apply dwp_bind, dwp_findFirstOrThrow; [done|]. intros t' Hr Hk.
  assert (t' = t) as -> by (apply (NoDup_key_eq stt_id (tickets d)); [apply Hok|done..|by etrans]).
  apply dwp_bind, dwp_now. intros now. unfold as_ticket_status.
  apply dwp_bind, dwp_as_enum; [|done]. intros st <-.
  rewrite <- Hid. dwp_step; [done|].
  apply tends_then; [|by apply ticket_moved]. unfold ticket_history.
  tend_with ltac:(first [apply stays_env; [apply _|apply loaded_tables, ticket_load_tables]|tend_step]).
Qed.

Lemma repair_saveStatus_tends ref to actor : tends (repair_saveStatus ref to actor).
Proof.
  unfold repair_saveStatus, status_row, repair_append.
  tend_with ltac:(first [apply stays_env; [apply _|first [apply loaded_tables, repair_load_tables|apply repair_load_tables]]
                        |apply log_entry_tends|apply service_log_tends|tend_step]).
Qed.

Lemma repair_assign_tends ref u actor : tends (repair_assign ref u actor).
Proof.
  unfold repair_assign, status_row, repair_append.
  tend_with ltac:(first [apply stays_env; [apply _|apply loaded_tables, repair_load_tables]
                        |apply log_entry_tends|apply service_log_tends|tend_step]).
Qed.

Lemma ticket_assign_tends ref u actor : reassigns = true → tends (ticket_assign ref u actor).
Proof.
  intros Hdesk.
  unfold ticket_assign, ticket_append.
  tend_with ltac:(first [apply stays_env; [apply _|apply loaded_tables, ticket_load_tables]
                        |apply log_entry_tends|tend_step]).
  apply stays_update_row; [apply _|]. intros d r Hr <-. by apply ticket_reassigned.
Qed.

Lemma listTimelines_tend ref :
  tends (claim_listTimeline ref) ∧ tends (rma_listTimeline ref)
  ∧ tends (ticket_listTimeline ref) ∧ tends (repair_listTimeline ref).
Proof.
  split_and!; unfold claim_listTimeline, rma_listTimeline, ticket_listTimeline, repair_listTimeline;
    tend_with ltac:(first [apply trail_tends|tend_step]).
Qed.

(** ** The case manager over the registered stores *)

(** What the manager's monitoring asks of a store. *)
Record monitored (st : CaseStore Db) : Prop := {
  mo_load : ∀ ref, tends (store_load st ref);
  mo_append : ∀ ref e, tends (store_appendTimeline st ref e);
  mo_mark : ∀ mark ref t a, store_markEscalated st = Some mark → tends (mark ref t a);
}.

Lemma registered_monitored :
  monitored WarrantyClaimStore ∧ monitored RmaStore ∧ monitored ServiceTicketStore
  ∧ monitored RepairJobStore.
Proof.
  split_and!; split; try done; intros ref; try (intros e; apply log_entry_tends);
    apply stays_env; try apply _.
  - apply claim_load_tables.
  - apply rma_load_tables.
  - apply ticket_load_tables.
  - apply repair_load_tables.
Qed.

Lemma stays_getStore {A} {R : Db → Db → Prop} `{!PreOrder R} (registry : CaseRegistry Db) kind
  (k : CaseStore Db → M (St Db) A) :
  (∀ st, registry kind = Some st → stays (on_tables R) (k st)) →
  stays (on_tables R) (getStore registry kind ≫= k).
Proof.
  intros Hk. unfold getStore. destruct (registry kind) as [st|] eqn:E; [|apply stays_throw, _].
  intros s. by apply (Hk st eq_refl s).
Qed.

Lemma require_case_tends (registry : CaseRegistry Db) ref :
  (∀ st, registry (ref_kind ref) = Some st → monitored st) → tends (require_case registry ref).
Proof.
  intros Hm. unfold require_case. apply stays_getStore. intros st Hst.
  staying ltac:(apply (mo_load st (Hm st Hst))).
Qed.

Lemma dwp_registered (registry : CaseRegistry Db) kind st Q d :
  registry kind = Some st → Q (Ok st) d → dwp (getStore registry kind) Q d.
Proof. intros Hst HQ. unfold getStore. rewrite Hst. by apply dwp_ret. Qed.

(** A change of status: [current d] are the statuses that the store reads at [d]. *)
Lemma case_transition_tends (registry : CaseRegistry Db) (st : CaseStore Db) (current : Db → string → Prop)
  ref to actor reason :
  registry (ref_kind ref) = Some st → monitored st →
  (∀ d, dwp (store_load st ref) (λ o d', d' = d ∧ match o with
     | Ok (Some snap) => current d (sn_status snap) | _ => True end) d) →
  (∀ d a, current d a → edge (cd_stateMachine (CASE_DEFINITIONS (ref_kind ref))) a to →
     dwp (store_saveStatus st ref to actor) (λ _ d', tended d d') d) →
  tends (case_transition registry ref to (case_options actor reason)).
Proof.
  intros Hst Hm Hload Hsave. apply dwp_tends. intros d. unfold case_transition.
  apply dwp_bind, (dwp_registered _ _ st); [done|]. unfold require_case at 1.
  do 2 apply dwp_bind. apply (dwp_registered _ _ st); [done|]. apply dwp_bind.
  eapply dwp_mono; [apply Hload|]. intros [[cur|]|e] d1 [-> Hcur]; [|by apply dwp_throw|done].
  apply dwp_ret.
  apply dwp_bind_keep.
  - apply dwp_transition; [done..|]. cbn [StateMachine.from StateMachine.to case_transition_options].
    intros He. unfold transition_steps. simpl. apply dwp_bind, dwp_ret.
    apply dwp_bind_keep; [by eapply Hsave|]. intros snap d2 Hd2. apply tends_then; [|done].
    staying ltac:(apply (mo_append st Hm)).
  - intros res d2 Hd2. apply tends_then; [|done]. simpl.
    staying ltac:(apply require_case_tends; by intros ? E; simplify_eq).
Qed.

(** Changes of status in the four registered stores. *)
Section registered.
Context (base : CaseRegistry Db).
Notation registry := (service_registry base).

Lemma claim_transition_tends id to actor reason :
  tends (case_transition registry (mkCaseRef ck_warranty_claim id) to (case_options actor reason)).
Proof.
  apply (case_transition_tends _ WarrantyClaimStore
    (λ d a, ∃ c, c ∈ claims d ∧ wcl_id c = id ∧ claim_text c = a));
    [done|apply registered_monitored| |].
  - intros d. simpl. unfold claim_load, find_claim. simpl. apply dwp_bind, dwp_findFirst.
    + intros c Hc Hp. bool_to_prop. apply dwp_ret. split; [done|]. simpl. by exists c.
    + intros _. by apply dwp_ret.
  - intros d a (c & Hc & Hid & <-) He. by eapply claim_saveStatus_tends.
Qed.

Lemma rma_transition_tends id to actor reason :
  tends (case_transition registry (mkCaseRef ck_rma id) to (case_options actor reason)).
Proof.
  apply (case_transition_tends _ RmaStore (λ d a, ∃ r, r ∈ rmas d ∧ rma_id r = id ∧ rma_text r = a));
    [done|apply registered_monitored| |].
  - intros d. simpl. unfold rma_load, find_rma. simpl. apply dwp_bind, dwp_findFirst.
    + intros r Hr Hp. bool_to_prop. apply dwp_ret. split; [done|]. simpl. by exists r.
    + intros _. by apply dwp_ret.
  - intros d a (r & Hr & Hid & <-) He. by eapply rma_saveStatus_tends.
Qed.

Lemma ticket_transition_tends id to actor reason :
  to ∈ ticket_targets →
  tends (case_transition registry (ticket_ref id) to (case_options actor reason)).
Proof.
  intros Hto. apply (case_transition_tends _ ServiceTicketStore
    (λ d a, ∃ t, t ∈ tickets d ∧ stt_id t = id ∧ ticket_text t = a));
    [done|apply registered_monitored| |].
  - intros d. simpl. unfold ticket_load, find_ticket. simpl. apply dwp_bind, dwp_findFirst.
    + intros t Ht Hp. bool_to_prop. apply (dwp_gets (λ d, option_map (ticket_snapshot d) (Some t))).
      split; [done|]. simpl. by exists t.
    + intros _. by apply (dwp_gets (λ d, option_map (ticket_snapshot d) None)).
  - intros d a (t & Ht & Hid & <-) He. by eapply ticket_saveStatus_tends.
Qed.

Lemma repair_transition_tends id to actor reason :
  tends (case_transition registry (repair_ref id) to (case_options actor reason)).
Proof.
  apply (case_transition_tends _ RepairJobStore (λ _ _, True)); [done|apply registered_monitored| |].
  - intros d s <-. simpl. pose proof (repair_load_tables (repair_ref id) s) as E. unfold framing in E.
    split; [done|]. by destruct (fst _) as [[?|]|].
  - intros d a _ _. apply tends_then; [apply repair_saveStatus_tends|done].
Qed.

Lemma case_assign_tends kind id st u actor :
  registry kind = Some st → monitored st → (∀ ref a, tends (store_assign st ref u a)) →
  tends (case_assign registry (mkCaseRef kind id) u actor).
Proof.
  intros Hst Hm Ha. unfold case_assign. apply stays_getStore. intros st' E. simpl in E.
  assert (st' = st) as -> by congruence.
  unfold Date_now. staying ltac:(first [apply Ha|apply (mo_append st Hm)]).
Qed.

(** The kinds whose cases are in the database. *)
Definition stored_kind (kind : CaseKind) : Prop := kind ≠ ck_support.

Lemma stored_monitored kind st : stored_kind kind → registry kind = Some st → monitored st.
Proof.
  intros Hk E. pose proof registered_monitored as (? & ? & ? & ?).
  destruct kind; try done; by injection E as <-.
Qed.

Lemma case_timeline_tends kind id : stored_kind kind → tends (case_timeline registry (mkCaseRef kind id)).
Proof.
  intros Hk. unfold case_timeline. apply stays_getStore. intros st Hst.
  apply stays_bind; [apply _|apply require_case_tends; intros; by eapply stored_monitored|]. intros _.
  pose proof (listTimelines_tend (mkCaseRef kind id)) as (? & ? & ? & ?).
  destruct kind; try done; by injection Hst as <-.
Qed.

Lemma case_get_tends kind id : stored_kind kind → tends (case_get registry (mkCaseRef kind id)).
Proof. intros Hk. apply require_case_tends. intros; by eapply stored_monitored. Qed.

Lemma case_opened_tends kind id n status p t a :
  stored_kind kind → tends (case_opened registry kind id n status p t a).
Proof.
  intros Hk. unfold case_opened, recordOpened.
  apply stays_bind; [apply _| |intros; apply stays_ret, _]. apply stays_getStore. intros st Hst.
  staying ltac:(apply mo_append; by eapply stored_monitored).
Qed.

Lemma aloof_tends {A} (m : M (St Db) A) : stays (on_tables same_service) m → tends m.
Proof. intros Hm s. apply tended_same, Hm. Qed.

Lemma aloof_monitored st : aloof st → monitored st.
Proof. intros [Hl Ha Hm _]. split; intros; apply aloof_tends; eauto. Qed.

Lemma all_monitored kind st : base_ok base → registry kind = Some st → monitored st.
Proof.
  intros Hb E. destruct (decide (kind = ck_support)) as [->|]; [by apply aloof_monitored, Hb|by eapply stored_monitored].
Qed.

Lemma sla_tends ref a t auto : base_ok base → tends (evaluateSla registry ref a t auto).
Proof.
  intros Hb. unfold evaluateSla, Date_now. apply stays_getStore. intros st Hst.
  assert (monitored st) as Hm by by eapply all_monitored.
  assert (tends (require_case registry ref)) as Hr
    by (apply require_case_tends; intros; by eapply all_monitored).
  assert (∀ snap reason now auto', tends (escalate registry st ref snap reason a now auto')) as He.
  { intros snap reason now auto'. unfold escalate.
    apply stays_bind; [apply _| |intros snap'].
    { destruct (store_markEscalated st) eqn:E; [by apply (mo_mark st Hm)|apply stays_ret, _]. }
    apply stays_bind; [apply _|by apply mo_append|intros _].
    apply stays_bind; [apply _|apply stays_env; [apply _|apply emit_tables]|intros _].
    destruct ref as [[] id]; simpl; try (apply stays_ret, _).
    destruct (_ && _); [|apply stays_ret, _]. unfold case_transition. apply stays_getStore.
    intros st' Hst'. simpl in Hst, Hst'. simplify_eq. pose proof (λ ref to actor, aloof_tends _ (al_save _ (Hb _ Hst) ref to actor)) as Hsave.
    unfold transition, transition_steps, StateMachine.assertTransition, Date_now. simpl.
    staying ltac:(first [exact Hr|apply Hsave|apply (mo_append _ Hm)]). }
  staying ltac:(first [exact Hr|apply He]).
Qed.
End registered.
End stores.

(** ** Requests and jobs *)

Inductive WarOp :=
| wo_plans
| wo_plan (actorId : string) (dto : CreatePlanDto)
| wo_register (customerId : string) (dto : RegisterWarrantyDto)
| wo_check (serial : string)
| wo_claim (customerId : string) (dto : CreateClaimDto)
| wo_getClaim (id : string) (customerId : option string)
| wo_patchClaim (actorId id : string) (dto : PatchClaimDto)
| wo_extend (actorId registrationId planId : string) (purchaseAmount : option Q)
| wo_transfer (actorId registrationId toCustomerId : string)
| wo_rma (customerId : string) (dto : CreateRmaDto)
| wo_patchRma (actorId id : string) (dto : PatchRmaDto)
| wo_refund (actorId rmaId : string) (dto : RmaRefundDto)
| wo_getRma (id : string)
| wo_centers
| wo_technicians (centerId : string)
| wo_tickets (customerId : option string) (asAdmin : bool)
| wo_ticket (customerId : string) (dto : CreateTicketDto)
| wo_assign (actorId : string) (dto : AssignTechnicianDto)
| wo_repair (actorId : string) (dto : CreateRepairJobDto)
| wo_getRepair (id : string)
| wo_patchRepair (actorId id : string) (dto : PatchRepairJobDto)
| wo_diagnostic (actorId : string) (dto : CreateDiagnosticDto)
| wo_loan (actorId : string) (dto : AllocateLoanDeviceDto)
| wo_part (actorId : string) (dto : UseSparePartDto)
| wo_close (actorId ticketId : string)
| wo_replace (actorId ticketId : string) (claimId : option string)
| wo_appointments (customerId : option string)
| wo_dashboard
| wo_job (name : string) (caseKind caseId : option string).

Notation W := (St (WfSt RmaCloseCtx Db)).

Section ops.
Context `{Redis, !Scheduler, !Crypto, !MathRandom, !Postgres, !ClientText, !NumberText,
          !JsonText, !ServerText, !DateText, !LocalTime, !PaymentProvider, !PaymentConfig,
          !ShippingProvider}.
Context (base : CaseRegistry Db).
Notation registry := (service_registry base).

(** A request that runs on the application's tables. *)
Definition on_app {A} (m : M (St Db) A) : M W () := zoom (stL appL) (_ ← m; mret tt).

Definition run_war (op : WarOp) : M W () :=
  match op with
  | wo_plans => on_app war_listPlans
  | wo_plan a dto => on_app (createPlan a dto)
  | wo_register c dto => on_app (register c dto)
  | wo_check n => on_app (checkBySerial n)
  | wo_claim c dto => on_app (createClaim registry c dto)
  | wo_getClaim id c => on_app (getClaim registry id c)
  | wo_patchClaim a id dto => on_app (patchClaim registry a id dto)
  | wo_extend a r p q => on_app (extend a r p q)
  | wo_transfer a r c => on_app (transfer a r c)
  | wo_rma c dto => on_app (rma_create registry c dto)
  | wo_patchRma a id dto => on_app (rma_patch registry a id dto)
  | wo_refund a id dto => _ ← requestRefund registry a id dto; mret tt
  | wo_getRma id => on_app (rma_get registry id)
  | wo_centers => on_app listCenters
  | wo_technicians c => on_app (listTechnicians c)
  | wo_tickets c a => on_app (listTickets c a)
  | wo_ticket c dto => on_app (createTicket registry c dto)
  | wo_assign a dto => on_app (assignTechnician registry a dto)
  | wo_repair a dto => on_app (createRepairJob registry a dto)
  | wo_getRepair id => on_app (getRepairJob registry id)
  | wo_patchRepair a id dto => on_app (patchRepairJob registry a id dto)
  | wo_diagnostic a dto => on_app (createDiagnostic registry a dto)
  | wo_loan a dto => on_app (allocateLoanDevice a dto)
  | wo_part a dto => on_app (useSparePart a dto)
  | wo_close a id => on_app (closeTicket registry a id)
  | wo_replace a id c => on_app (createReplacement a id c)
  | wo_appointments c => on_app (listAppointments c)
  | wo_dashboard => on_app dashboard
  | wo_job name kind id => on_app (war_worker registry name kind id)
  end.

(** The request that assigns a technician. *)
Definition assigns (op : WarOp) : bool := match op with wo_assign _ _ => true | _ => false end.

(** One after the other, each from the state the last one left. *)
Definition war_history (ops : list WarOp) (s : W) : W :=
  foldl (λ s op, snd (run_war op s)) s ops.

End ops.

(** ** The requests tend the rows *)
Section tending.
Context `{Redis, !Scheduler, !Crypto, !MathRandom, !Postgres, !ClientText, !NumberText,
          !JsonText, !ServerText, !DateText, !LocalTime, !PaymentProvider, !PaymentConfig,
          !ShippingProvider, !Desk}.
Context (base : CaseRegistry Db).
Notation registry := (service_registry base).
Notation tends := (stays (on_tables tended)).

Lemma refund_tends id a dto adm : tends (refund id a dto adm).
Proof.
  unfold refund, requirePayment, pay_findById, refund_body, createTransaction, Payments.audit,
    createAudit, createEvent, payment_event, invalidatePayment, pay_update, create_refund_item, job.
  tend_with ltac:(first [apply stays_env; [apply _|apply gateway_tables]|tend_step]).
Qed.

Lemma createReverse_tends a dto : tends (createReverse a dto).
Proof. unfold createReverse, requested_partner, findPrimaryPartner. tend. Qed.

Lemma reserve_tends dto : tends (reserve dto).
Proof.
  unfold reserve, requireWarehouse, wh_findById, findRows, reserve_row, createReservation,
    connect_opt, createMovement, invalidateStock, maybeLowStock, upsertLowStockAlert, openLowStock.
  tend.
Qed.

Lemma war_audit_tends action a t c r m : tends (war_audit action a t c r m).
Proof. apply service_log_tends. Qed.

Ltac war_step := idtac;
  lazymatch goal with
  | |- stays _ (war_audit _ _ _ _ _ _) => apply war_audit_tends
  | |- stays _ (service_log _ _ _ _ _ _) => apply service_log_tends
  | |- stays _ (case_opened _ _ _ _ _ _ _ _) => by apply case_opened_tends
  | |- stays _ (case_timeline _ _) => by apply case_timeline_tends
  | |- stays _ (case_get _ _) => by apply case_get_tends
  | |- stays _ (case_transition _ (mkCaseRef ck_warranty_claim _) _ _) => apply claim_transition_tends
  | |- stays _ (case_transition _ (mkCaseRef ck_rma _) _ _) => apply rma_transition_tends
  | |- stays _ (case_transition _ (ticket_ref _) _ _) =>
      apply ticket_transition_tends; unfold ticket_targets; set_solver
  | |- stays _ (case_transition _ (repair_ref _) _ _) => apply repair_transition_tends
  | |- stays _ (createReverse _ _) => apply createReverse_tends
  | |- stays _ (reserve _) => apply reserve_tends
  | |- _ => tend_step
  end.
Ltac war := tend_with war_step.

Lemma dwp_require_plan id Q d :
  (∀ e, Q (Throw e) d) → (∀ p, p ∈ plans d → Q (Ok p) d) → dwp (require_plan id) Q d.
Proof.
  intros HE HO. unfold require_plan, findPlan. apply dwp_bind, dwp_findFirst.
  - intros p Hp _. destruct (active_plan p); [by apply dwp_ret, HO|by apply dwp_throw].
  - intros _. by apply dwp_throw.
Qed.

Lemma dwp_require_registration id Q d :
  (∀ e, Q (Throw e) d) → (∀ r, r ∈ registrations d → wrg_id r = id → Q (Ok r) d) →
  dwp (require_registration id) Q d.
Proof.
  intros HE HO. unfold require_registration, findRegistration. apply dwp_bind, dwp_findFirst.
  - intros r Hr Hp. bool_to_prop. by apply dwp_ret, HO.
  - intros _. by apply dwp_throw.
Qed.

(** The server keeps a plan's duration positive. *)
Lemma accepted_duration d p : refused T_WarrantyPlan d p = None → 1 <= wpl_duration_months p.
Proof.
  intros Hr. cbn [refused T_WarrantyPlan] in Hr. apply constraints_None in Hr.
  apply Forall_cons in Hr as [Hp _]. cbn [fst] in Hp. bool_to_prop. lia.
Qed.

Lemma createPlan_tends a dto : tends (createPlan a dto).
Proof.
  apply dwp_tends. intros d. unfold createPlan, invalidatePlans. dwp_step; [done|].
  apply tends_then; [war|]. apply tended_plans. by eapply accepted_duration.
Qed.

Lemma requested_serial_tables dto : stays (framing tables) (requested_serial dto).
Proof.
  unfold requested_serial, war_findSerial, findSerialByNumber, db_findFirst.
  apply stays_bind; [apply _| |intros ?]; repeat cases_goal; eauto with kept typeclass_instances.
Qed.

Lemma check_order_tables c o : stays (framing tables) (check_order c o).
Proof.
  unfold check_order, db_findFirst.
  destruct o as [[|? ?]|]; eauto 8 with kept typeclass_instances.
Qed.

Lemma register_tends c dto : tends (register c dto).
Proof.
  apply stays_withLock; [apply _|]. apply dwp_tends. intros d. unfold register_body.
  apply dwp_bind, dwp_require_plan; [done|]. intros plan Hplan.
  apply dwp_bind, dwp_env; [apply requested_serial_tables|]. intros [serial|e]; [|done].
  dwp_step; [|done].
  apply dwp_bind, dwp_env; [apply check_order_tables|]. intros [[]|e]; [|done].
  unfold findActiveRegistrationBySerial at 1.
  apply dwp_bind, dwp_findFirst; intros; dwp_step; try done; try (bool_to_prop; by simplify_eq).
  apply dwp_bind, dwp_now. intros start. apply dwp_bind, dwp_now. intros number_at.
  dwp_step; [done|]. apply tends_then; [unfold registration_history, war_invalidateSerial; war|].
  by eapply registration_added.
Qed.

Lemma createClaim_tends c dto : tends (createClaim registry c dto).
Proof.
  apply stays_withLock; [apply _|]. apply dwp_tends. intros d.
  unfold createClaim_body, claim_checks. apply dwp_bind, dwp_bind.
  apply dwp_require_registration; [done|]. intros reg _ _. dwp_step; [done|].
  apply dwp_bind, dwp_now. intros now. dwp_step; [done|].
  apply dwp_bind, dwp_findFirst; intros; dwp_step; try done; try (bool_to_prop; by simplify_eq).
  apply dwp_ret, dwp_bind, dwp_now. intros at_. dwp_step; [done|].
  apply tends_then; [unfold war_job; war|]. apply tended_claims. intros Hok. split.
  - apply lives_snoc; [done|]. split; [by intros [? ?]|done].
  - intros id'. apply at_most_one_snoc; [apply Hok|]. unfold is_open_claim at 1. intros E.
    bool_to_prop. simpl in *. by subst.
Qed.

(** An extension leads at least twenty-five days past the end. *)
Lemma extension_later reg now n :
  1 <= n → wrg_end_date reg <= date_column (addMonths (extension_start reg now) n).
Proof.
  intros Hn. pose proof (addMonths_bounds (extension_start reg now) n ltac:(lia)) as Hb.
  assert (wrg_end_date reg <= extension_start reg now).
  { unfold extension_start. destruct (Z.ltb_spec now (wrg_end_date reg)); lia. }
  unfold date_column, msPerDay in *.
  pose proof (Z_div_mod_eq_full (addMonths (extension_start reg now) n) 86400000).
  pose proof (Z.mod_pos_bound (addMonths (extension_start reg now) n) 86400000). lia.
Qed.

Lemma extend_tends a id p q : tends (extend a id p q).
Proof.
  apply dwp_tends. intros d. apply dwp_tended. intros Hok. unfold extend.
  apply dwp_bind, dwp_require_registration; [done|]. intros reg Hreg <-.
  apply dwp_bind, (dwp_gets (λ d, wrg_serial_number_id reg ≫= λ i,
    find_first (λ r, String.eqb (Schema.sn_id r) i) (view L_SerialNumber d))).
  apply dwp_bind, dwp_require_plan; [done|]. intros plan Hplan.
  apply dwp_bind, dwp_now. intros now. apply dwp_bind, dwp_transaction.
  dwp_step; [done|]. dwp_step; [done|]. apply dwp_ret.
  apply tends_then; [unfold war_invalidateSerial; war|].
  match goal with |- tended _ (put _ _ ?d1) => etrans; [|apply (registration_updated d1 reg)] end;
    try done; [by apply tended_same; split_and!|].
  split_and!; try done. simpl. apply extension_later. pose proof (so_plans d Hok) as Hp.
  rewrite Forall_forall in Hp. by apply Hp.
Qed.

Lemma transfer_tends a id c : tends (transfer a id c).
Proof.
  apply stays_withLock; [apply _|]. apply dwp_tends. intros d. unfold transfer_body.
  apply dwp_bind, dwp_require_registration; [done|]. intros reg Hreg <-.
  dwp_step; [done|]. dwp_step; [done|].
  apply tends_then; [unfold registration_history; war|].
  by apply registration_updated; [done..|split_and!|].
Qed.

Lemma rma_create_tends c dto : tends (rma_create registry c dto).
Proof.
  apply stays_withLock; [apply _|]. apply dwp_tends. intros d. unfold rma_create_body.
  apply dwp_bind, dwp_env; [apply check_order_tables|]. intros [[]|e]; [|done].
  apply dwp_bind, dwp_now. intros now. dwp_step; [done|]. apply tends_then; [war|].
  apply tended_rmas. intros _. apply lives_snoc; [done|]. split; [by intros [? ?]|done].
Qed.

Lemma rma_patch_tends a id dto : tends (rma_patch registry a id dto).
Proof. unfold rma_patch, war_locked, rma_patch_body, rma_approved, reverse_pickup. war. Qed.

Lemma createTicket_tends c dto : tends (createTicket registry c dto).
Proof.
  unfold createTicket, war_job. war. apply stays_create_row; [apply _|]. intros d id Hid.
  apply tended_tickets. intros _. split; [by apply lives_snoc|].
  intros Hb. by apply Forall_app, conj, Forall_singleton.
Qed.

Lemma assign_ticket_tends id u a :
  reassigns = true → tends (case_assign registry (ticket_ref id) u a).
Proof.
  intros Hdesk. apply (case_assign_tends _ _ _ ServiceTicketStore); [done|apply registered_monitored|].
  intros ref a'. by apply ticket_assign_tends.
Qed.

Lemma assign_repair_tends id u a : tends (case_assign registry (repair_ref id) u a).
Proof.
  apply (case_assign_tends _ _ _ RepairJobStore); [done|apply registered_monitored|].
  intros ref a'. apply repair_assign_tends.
Qed.

Lemma assignTechnician_tends a dto :
  reassigns = true → tends (assignTechnician registry a dto).
Proof.
  intros Hdesk. unfold assignTechnician, war_locked, assignTechnician_body, require_ticket, find_ticket,
    advance_ticket, invalidateCenters.
  tend_with ltac:(first [by apply assign_ticket_tends|war_step]).
Qed.

Lemma createRepairJob_tends a dto : tends (createRepairJob registry a dto).
Proof.
  unfold createRepairJob, require_ticket, find_ticket, war_job, status_row.
  tend_with ltac:(first [apply assign_repair_tends|war_step]).
Qed.

Lemma patchRepairJob_tends a id dto : tends (patchRepairJob registry a id dto).
Proof.
  unfold patchRepairJob, war_locked, patchRepairJob_body, require_repair, find_repair,
    update_repair, repair_events, findFirstOrThrow.
  war.
Qed.

Lemma allocate_tends a dto : tends (allocateLoanDevice a dto).
Proof.
  apply stays_withLock; [apply _|]. apply dwp_tends. intros d. apply dwp_tended. intros Hok.
  unfold allocateLoanDevice_body, require_ticket, find_ticket.
  apply dwp_bind, dwp_findFirst; [intros x Hx Hp|intros _; by dwp_step].
  dwp_step; [done|]. dwp_step; dwp_step; simplify_eq; try done.
  unfold allocate_rows. apply dwp_bind, dwp_transaction. dwp_step; [done|].
  apply dwp_create; [done|]. intros aid Haid _. bool_to_prop.
  apply tends_then; [war|].
  replace (al_loanDeviceId dto) with (lnd_id x) by done. by apply (loan_allocated d x).
Qed.

Lemma createDiagnostic_tends a dto : tends (createDiagnostic registry a dto).
Proof. unfold createDiagnostic, require_ticket, find_ticket, advance_ticket, invalidateDevice. war. Qed.

Lemma useSparePart_tends a dto : tends (useSparePart a dto).
Proof.
  unfold useSparePart, war_locked, useSparePart_body, require_repair, find_repair, reserve_part. war.
Qed.

Lemma closeTicket_tends a id : tends (closeTicket registry a id).
Proof. unfold closeTicket. war. Qed.

Lemma createReplacement_tends a t c : tends (createReplacement a t c).
Proof. unfold createReplacement. war. Qed.

Lemma patchClaim_tends a id dto : tends (patchClaim registry a id dto).
Proof. unfold patchClaim, war_locked, patchClaim_body, invalidateClaim. war. Qed.

Lemma reads_tend n id c centre tech asAdmin :
  tends war_listPlans ∧ tends (checkBySerial n) ∧ tends (getClaim registry id c)
  ∧ tends (rma_get registry id) ∧ tends listCenters ∧ tends (listTechnicians centre)
  ∧ tends (listTickets c asAdmin) ∧ tends (getRepairJob registry tech)
  ∧ tends (listAppointments c) ∧ tends dashboard.
Proof.
  split_and!; unfold war_listPlans, repo_listPlans, checkBySerial, findSerialByNumber,
    findActiveRegistrationBySerial, getClaim, find_claim, rma_get, require_rma, find_rma,
    listCenters, listTechnicians, listTickets, getRepairJob, require_repair, find_repair,
    listAppointments, dashboard, war_getOrSet; war.
Qed.

Lemma worker_tends name kind id : base_ok base → tends (war_worker registry name kind id).
Proof.
  intros Hb. unfold war_worker.
  tend_with ltac:(first [match goal with |- stays _ (evaluateSla _ _ _ _ _) => by apply sla_tends end
                        |tend_step]).
Qed.

(** A computation on the application's tables, in the state with the workflows. *)
Lemma zoomed_tends {A} (m : M (St Db) A) (w : WfSt RmaCloseCtx Db) :
  tends m → dwp (zoom (stL appL) m) (λ _ w', tended (app w) (app w')) w.
Proof. intros Hm. apply dwp_zoom. eapply dwp_stays; [exact Hm|]. by intros o d' Hd. Qed.

Lemma tends_unit {A} (m : M (St Db) A) : tends m → tends (_ ← m; mret tt).
Proof. intros Hm. staying ltac:(exact Hm). Qed.

(** The refund workflow, whose two steps tend the rows. *)
Lemma requestRefund_tends a id dto w :
  dwp (requestRefund registry a id dto) (λ _ w', tended (app w) (app w')) w.
Proof.
  unfold requestRefund. apply dwp_bind.
  eapply dwp_mono; [apply zoomed_tends; unfold eligible_rma, require_rma, find_rma; war|].
  intros [rma|e] w1 Hw1; [|done].
  apply dwp_bind. eapply dwp_mono; [apply (dwp_run_stays tended)|].
  - repeat constructor; vm_compute; discriminate.
  - apply Forall_cons; split; [|apply Forall_singleton]; (split; [intros ctx|done]); simpl;
      unfold refund_via_payments, complete_rma;
      tend_with ltac:(first [match goal with |- stays _ (refund _ _ _ _) => apply refund_tends end|war_step]).
  - intros [i|e] w2 Hw2; [|by etrans]. dwp_step; [by etrans|].
    apply dwp_bind. eapply dwp_mono; [apply zoomed_tends; war|].
    intros [[]|e] w3 Hw3; [apply dwp_ret|]; by do 2 (etrans; [eassumption|]).
Qed.

Lemma run_war_tends op s :
  base_ok base → (assigns op = true → reassigns = true) →
  tended (app (tables s)) (app (tables (snd (run_war base op s)))).
Proof.
  intros Hb Hdesk.
  assert (∀ A (m : M (St Db) A), tends m →
    tended (app (tables s)) (app (tables (snd (on_app m s))))) as Happ
    by (intros A m Hm; by apply (zoomed_tends _ (tables s) (tends_unit m Hm))).
  assert (∀ a id dto, dwp (_ ← requestRefund registry a id dto; mret tt)
    (λ _ w', tended (app (tables s)) (app w')) (tables s)) as Hrefund.
  { intros a id dto. apply dwp_bind. eapply dwp_mono; [apply requestRefund_tends|].
    intros [?|?] w' Hw'; [by apply dwp_ret|done]. }
  destruct op; cbn [run_war];
    first [apply Happ|apply (Hrefund actorId rmaId dto s eq_refl)];
    try (eapply reads_tend; exact EmptyString || exact None || exact false);
    auto using createPlan_tends, register_tends, createClaim_tends, patchClaim_tends, extend_tends,
      transfer_tends, rma_create_tends, rma_patch_tends, createTicket_tends, assignTechnician_tends,
      createRepairJob_tends, patchRepairJob_tends, createDiagnostic_tends, allocate_tends,
      useSparePart_tends, closeTicket_tends, createReplacement_tends, worker_tends.
Qed.

Lemma history_tends ops s :
  base_ok base → (existsb assigns ops = true → reassigns = true) →
  tended (app (tables s)) (app (tables (war_history base ops s))).
Proof.
  intros Hb. revert s. induction ops as [|op ops IH]; intros s Hdesk; simpl in *; [reflexivity|].
  etrans; [apply (run_war_tends op s Hb)|apply IH]; intros E; apply Hdesk; rewrite E; [done|].
  apply orb_true_r.
Qed.
End tending.

Section histories.
Context `{Redis, !Scheduler, !Crypto, !MathRandom, !Postgres, !ClientText, !NumberText,
          !JsonText, !ServerText, !DateText, !LocalTime, !PaymentProvider, !PaymentConfig,
          !ShippingProvider}.
Context (base : CaseRegistry Db).

(** (C14) Whatever requests and jobs reach the warranty and service module and however
    each ends, given a support desk whose store leaves this module's tables alone: a
    claim and an RMA carry their closing time exactly when they are settled and a closed
    ticket has one, a serial number has at most one active registration, a registration
    at most one open claim, a loan device at most one active allocation and none while it
    is available; and no claim, RMA, ticket or registration is lost: each keeps what
    identifies it, claims and RMAs move along the edges of their state machines, and no
    registration's end moves back. Tickets move along the edges of theirs when no request
    of the history assigns a technician; an assignment does not ask the machine and puts
    its ticket to [assigned], whatever it was. *)
Theorem service_rows_kept ops s :
  base_ok base → service_ok (app (tables s)) →
  let desk : Desk := existsb assigns ops in
  service_ok (app (tables (war_history base ops s)))
  ∧ kept (app (tables s)) (app (tables (war_history base ops s)))
  ∧ (desk = false → ∀ t, t ∈ tickets (app (tables s)) →
       ∃ t', t' ∈ tickets (app (tables (war_history base ops s)))
             ∧ later stt_id (λ t, ticket_text t) ticket_edge ticket_core t t').
Proof.
  intros Hb Hok desk. destruct (history_tends base ops s Hb (λ E, E) Hok) as [Hok' Hk].
  do 2 (split; [done|]). intros Hdesk t Ht. destruct (ke_tickets _ _ Hk t Ht) as (t' & Ht' & Hid & Hc & Hs).
  exists t'. do 3 (split; [done|]). eapply rtc_subrel; [|exact Hs].
  intros a b [He|[Hr _]]; [done|]. change (desk = true) in Hr. congruence.
Qed.

(** No request or job brings a ticket past the diagnosis: if every ticket is
    created, assigned or in diagnosis, that stays so forever, and none is ever closed. *)
Lemma tickets_stay_on_bench ops s :
  base_ok base → service_ok (app (tables s)) → Forall on_bench (tickets (app (tables s))) →
  Forall on_bench (tickets (app (tables (war_history base ops s)))).
Proof.
  intros Hb Hok. pose (desk := existsb assigns ops : Desk).
  apply (ke_bench _ _ (proj2 (history_tends base ops s Hb (λ E, E) Hok))).
Qed.
End histories.
