(* ===== verification/ServiceRules.v ===== *)
(** * Service rules: what single requests of the warranty module do

    A registration and its period, an extension with the end it moves, the refund of an
    RMA, spare parts taken out of stock; then runs that show where the handlers fall
    short of what the module's documents say. *)
From S2P Require Import Prelude Core Effects Redis Lock StateMachine Saga JsNumber Schema Database Instant Tables Sample Inventory Stock Payments Webhooks Settlement PaymentRules CheckoutRules Cases Lives Shipping Carrier ShippingRules Calendar WarrantyStores Warranty Service WarrantyRules.
From Stdlib Require Import QArith Qabs.

#[local] Open Scope Z_scope.

Notation extensions d := (view L_WarrantyExtension d).
Notation serials d := (view L_SerialNumber d).

(** ** Dates *)

Lemma date_column_near t : date_column t <= t < date_column t + msPerDay.
Proof.
  unfold date_column, msPerDay. pose proof (Z_div_mod_eq_full t 86400000).
  pose proof (Z.mod_pos_bound t 86400000). lia.
Qed.

(** The days from [t] to [n] calendar months later, both as dates. *)
Lemma months_period `{!LocalTime} t n : 0 <= n →
  (28 * n - 3) * msPerDay <= date_column (addMonths t n) - date_column t <= (31 * n + 3) * msPerDay.
Proof.
  intros Hn. pose proof (addMonths_bounds t n Hn). pose proof (date_column_near t).
  pose proof (date_column_near (addMonths t n)). unfold msPerDay in *. lia.
Qed.

Section requests.
Context `{Redis, !Scheduler, !Crypto, !MathRandom, !Postgres, !ClientText, !NumberText,
          !JsonText, !ServerText, !DateText, !LocalTime, !PaymentProvider, !PaymentConfig,
          !ShippingProvider}.

(** ** Registration *)

Lemma dwp_active_plan id Q d :
  (∀ e, Q (Throw e) d) →
  (∀ p, p ∈ plans d → wpl_id p = id → active_plan p = true → Q (Ok p) d) →
  dwp (require_plan id) Q d.
Proof.
  intros HE HO. unfold require_plan, findPlan. apply dwp_bind, dwp_findFirst.
  - intros p Hp Hid. bool_to_prop. destruct (active_plan p) eqn:E; [by apply dwp_ret, HO|by apply dwp_throw].
  - intros _. by apply dwp_throw.
Qed.

(** The request is about this serial number, by its id or its printed number. *)
Definition names_serial (dto : RegisterWarrantyDto) (r : SerialNumber) : Prop :=
  rw_serialNumberId dto = Some (Schema.sn_id r) ∨ rw_serialNumber dto = Some (sn_serial_number r).

Lemma dwp_requested_serial dto Q d :
  (∀ e, Q (Throw e) d) → Q (Ok None) d →
  (∀ r, r ∈ serials d → names_serial dto r → Q (Ok (Some r)) d) →
  dwp (requested_serial dto) Q d.
Proof.
  intros HE HN HO. unfold requested_serial.
  assert (dwp (match rw_serialNumber dto with
               | Some ((String _ _) as n) => findSerialByNumber n
               | _ => mret None
               end) Q d) as Hnumber.
  { destruct (rw_serialNumber dto) as [[|c n]|] eqn:En; try by apply dwp_ret.
    unfold findSerialByNumber. apply dwp_findFirst; [|done].
    intros r Hr Hp. bool_to_prop. apply HO; [done|]. right. by rewrite En; f_equal. }
  apply dwp_bind. destruct (rw_serialNumberId dto) as [[|c i]|] eqn:Ei; try by apply dwp_ret.
  unfold war_findSerial. apply dwp_findFirst; [|done].
  intros r Hr Hp. bool_to_prop. apply dwp_ret, HO; [done|]. left. by rewrite Ei; f_equal.
Qed.

(** What an answered registration did. *)
Definition registered (customerId : string) (dto : RegisterWarrantyDto) (d d' : Db) : Prop :=
  ∃ plan serial start numberAt id,
    plan ∈ plans d ∧ wpl_id plan = rw_planId dto ∧ active_plan plan = true ∧
    serial ∈ serials d ∧ names_serial dto serial ∧
    Forall (λ r, is_active_registration (Schema.sn_id serial) r = false) (registrations d) ∧
    registrations d' =
      registrations d ++ [new_registration customerId dto plan serial start numberAt id] ∧
    serials d' = update_rows Schema.sn_id (Schema.sn_id serial) (set_warranty_track wts_active) (serials d) ∧
    let r := new_registration customerId dto plan serial start numberAt id in
    let n := wpl_duration_months plan in
    (28 * n - 3) * msPerDay <= wrg_end_date r - wrg_start_date r <= (31 * n + 3) * msPerDay.

(** The tables of registrations and of serial numbers. *)
Definition same_registry (d d' : Db) : Prop :=
  registrations d' = registrations d ∧ serials d' = serials d.
#[local] Instance same_registry_preorder : PreOrder same_registry.
Proof. split; [by intros ?|]. intros ??? [? ?] [? ?]. split; congruence. Qed.

Ltac registry_kept :=
  unfold registration_history, war_invalidateSerial, Date_now; staying ltac:(first
    [ apply stays_create; [apply _|by split] | apply stays_env; [apply _|apply stays_gets, _] ]).

Lemma register_spec c dto d :
  service_ok d →
  dwp (register c dto) (λ o d', match o with Ok _ => registered c dto d d' | Throw _ => True end) d.
Proof.
  intros Hok. unfold register, war_locked. apply dwp_withLock; [done|]. unfold register_body.
  apply dwp_bind, dwp_active_plan; [done|]. intros plan Hplan Hid Hactive.
  apply dwp_bind, dwp_requested_serial; [done|by apply dwp_bind, dwp_throw|]. intros serial Hser Hnames.
  dwp_step; [|done]. simplify_eq.
  apply dwp_bind, dwp_env; [apply check_order_tables|]. intros [[]|e]; [|done].
  unfold findActiveRegistrationBySerial at 1.
  apply dwp_bind, dwp_findFirst; intros; dwp_step; try done; try (bool_to_prop; by simplify_eq).
  apply dwp_bind, dwp_now. intros start. apply dwp_bind, dwp_now. intros number_at.
  dwp_step; [done|]. dwp_step; [done|].
  apply (dwp_stays same_registry); [registry_kept|].
  intros [v|e] d2 [Er Es]; [|done]. split; [|done].
  pose proof (so_plans d Hok) as Hp. rewrite Forall_forall in Hp. specialize (Hp plan Hplan).
  assert (0 <= wpl_duration_months plan) as Hn by lia. pose proof (months_period start _ Hn).
  exists plan, a, start, number_at, id. rewrite Er, Es. by split_and!.
Qed.

(** ** Extension *)

(** The extension and the end that it moves, both. *)
Definition extended (registrationId planId : string) (purchaseAmount : option Q) (d d' : Db) : Prop :=
  ∃ reg plan now id,
    reg ∈ registrations d ∧ wrg_id reg = registrationId ∧
    plan ∈ plans d ∧ wpl_id plan = planId ∧ active_plan plan = true ∧
    let start := extension_start reg now in
    let end_ := date_column (addMonths start (wpl_duration_months plan)) in
    extensions d' = extensions d ++ [mkWarrantyExtension id registrationId planId (date_column start)
      end_ (option_map numeric2 purchaseAmount) None] ∧
    registrations d' = update_rows wrg_id registrationId (set_end_date end_) (registrations d) ∧
    wrg_end_date reg <= start ∧ wrg_end_date reg <= end_.

Definition same_periods (d d' : Db) : Prop :=
  registrations d' = registrations d ∧ extensions d' = extensions d.
#[local] Instance same_periods_preorder : PreOrder same_periods.
Proof. split; [by intros ?|]. intros ??? [? ?] [? ?]. split; congruence. Qed.

Lemma extend_spec a id p q d :
  service_ok d →
  dwp (extend a id p q) (λ o d', match o with
    | Ok _ => extended id p q d d'
    | Throw _ => same_periods d d' ∨ extended id p q d d' end) d.
Proof.
  intros Hok. assert (same_periods d d) as Hd by done. unfold extend.
  apply dwp_bind, dwp_require_registration; [by left|]. intros reg Hreg Hid.
  apply dwp_bind, (dwp_gets (λ d, wrg_serial_number_id reg ≫= λ i,
    find_first (λ r, String.eqb (Schema.sn_id r) i) (view L_SerialNumber d))).
  apply dwp_bind, dwp_active_plan; [by left|]. intros plan Hplan Hpid Hactive.
  apply dwp_bind, dwp_now. intros now. apply dwp_bind, dwp_transaction.
  dwp_step; [by left|]. dwp_step; [by left|]. apply dwp_ret.
  eapply (dwp_stays same_periods);
    [unfold war_audit, service_log, war_invalidateSerial, Date_now; staying ltac:(apply stays_create; [apply _|by split])|].
  intros o d2 [Er Ex].
  assert (extended id p q d d2) as Hext; [|destruct o; [done|by right]].
  eexists reg, plan, now, _. rewrite Er, Ex. cbv zeta. split_and!; try done.
  - unfold extension_start. destruct (Z.ltb_spec now (wrg_end_date reg)); lia.
  - apply extension_later. pose proof (so_plans d Hok) as Hp. rewrite Forall_forall in Hp. by apply Hp.
Qed.

(** ** The refund of an RMA *)
Notation same_rmas := (λ d d' : Db, rmas d' = rmas d).
#[local] Instance same_rmas_preorder : PreOrder same_rmas.
Proof. split; [by intros ?|]. intros ?????. congruence. Qed.

Lemma refund_rmas id a dto adm : stays (on_tables same_rmas) (refund id a dto adm).
Proof.
  unfold refund, requirePayment, pay_findById, refund_body, createTransaction, Payments.audit,
    createAudit, createEvent, payment_event, invalidatePayment, pay_update, create_refund_item, job.
  staying ltac:(apply stays_env; [apply _|apply gateway_tables]).
Qed.

Ltac rma_step := first
  [ apply stays_getStore; intros ? E; injection E as <-; simpl; unfold rma_load, find_rma, db_findFirst
  | progress simpl ].

Lemma rma_transition_pays id to actor reason base :
  stays (on_tables same_pay) (case_transition (service_registry base) (mkCaseRef ck_rma id) to
    (case_options actor reason)).
Proof.
  unfold case_transition, require_case. apply stays_getStore. intros st E. injection E as <-.
  unfold transition, transition_steps, StateMachine.assertTransition, run_hook. simpl.
  unfold rma_load, find_rma, rma_saveStatus, findFirstOrThrow, as_enum, rma_append, log_entry,
    service_log, loaded, rma_load, find_rma, db_findFirst, Date_now.
  staying rma_step.
Qed.

(** What a change of an RMA's status does: its row moves along the machine. *)
Definition rma_moved_to (id to : string) (d d' : Db) : Prop :=
  ∃ r, r ∈ rmas d ∧ rma_id r = id ∧
    ((rma_text r = to ∧ rmas d' = rmas d) ∨
     (rma_edge (rma_text r) to ∧ ∃ st completed, RmaStatus_text st = to ∧
        rmas d' = update_rows rma_id id (set_rma_status st completed) (rmas d))).

Lemma rma_transition_spec base id to actor reason d :
  dwp (case_transition (service_registry base) (mkCaseRef ck_rma id) to (case_options actor reason))
    (λ o d', match o with Ok _ => rma_moved_to id to d d' | Throw _ => True end) d.
Proof.
  unfold case_transition. apply dwp_bind, (dwp_registered _ _ RmaStore); [done|].
  unfold require_case at 1. do 2 apply dwp_bind. apply (dwp_registered _ _ RmaStore); [done|].
  simpl. unfold rma_load at 1, find_rma at 1. simpl. do 2 apply dwp_bind. apply dwp_findFirst; [|intros _; apply dwp_ret; by dwp_step].
  intros r Hr Hp. bool_to_prop. do 2 apply dwp_ret.
  apply dwp_bind, dwp_transition; [done|..]; cbn [StateMachine.from StateMachine.to case_transition_options].
  - intros Hsame. apply (dwp_stays same_rmas); [|by intros [snap|e] d2 E; [exists r; auto|]].
    staying rma_step.
  - intros He. unfold transition_steps. simpl. apply dwp_bind, dwp_ret. unfold rma_saveStatus.
    apply dwp_bind, dwp_bind, dwp_findFirstOrThrow; [done|]. intros r' _ _.
    apply dwp_bind, dwp_now. intros now. apply dwp_bind, dwp_as_enum; [|done]. intros st Hst.
    dwp_step; [done|].
    assert (∀ d2, rmas d2 = update_rows rma_id id (set_rma_status st
      (if includes to ["completed"; "rejected"; "cancelled"] then Some now else rma_completed_at r'))
      (rmas d) → rma_moved_to id to d d2) as Hmoved
      by (intros d2 E; exists r; split_and!; [done..|right; split; [done|by eexists st, _]]).
    apply (dwp_stays same_rmas); [unfold rma_append, log_entry, service_log, loaded, rma_load, find_rma, db_findFirst, Date_now; staying fail|].
    intros [snap|e] d2 E2; [|done]. apply (dwp_stays same_rmas); [staying ltac:(progress simpl; unfold Date_now, rma_append, log_entry, service_log)|].
    intros [res|e] d3 E3; [|done]. apply (dwp_stays same_rmas); [staying rma_step|].
    intros [snap'|e] d4 E4; [|done]. apply Hmoved. by rewrite E4, E3, E2.
Qed.

(** What an answered refund of [c] hundredths did: the RMA, which was received or
    completed already, is completed, and the payment [p] gave back exactly [c]. *)
Definition rma_refunded (rmaId : string) (p : Payment) (c : Z) (d d' : Db) : Prop :=
  refund_done p c d d' ∧ ∃ r, r ∈ rmas d ∧ rma_id r = rmaId ∧
    ((rma_status r = rms_completed ∧ rmas d' = rmas d) ∨
     (rma_status r = rms_received ∧ ∃ completed,
        rmas d' = update_rows rma_id rmaId (set_rma_status rms_completed completed) (rmas d))).

(** The refund is made, and how far the RMA is. *)
Definition refunding (rma : RmaRequest) (p : Payment) (c : Z) (d0 : Db) (ctx0 : RmaCloseCtx)
  (k : nat) (ctx : RmaCloseCtx) (d : Db) : Prop :=
  ctx = ctx0 ∧ match k with
  | O => d = d0
  | 1%nat => refund_done p c d0 d ∧ rmas d = rmas d0
  | _ => rma_refunded (rma_id rma) p c d0 d
  end.

Lemma refund_workflow_advances base rma p c d0 dto actorId :
  service_ok d0 → rma ∈ rmas d0 → refund_eligible (rma_status rma) = true →
  pays_ok d0 → p ∈ view L_Payment d0 → pm_id p = rr_paymentId dto → rr_amount dto = cents c →
  in_range (pm_amount p) → in_range (pm_refunded_amount p) → in_range c →
  pm_refunded_amount p <= pm_amount p →
  advances (refunding rma p c d0 (mkRmaCloseCtx (rma_id rma) actorId (Some (rr_paymentId dto)) (Some (rr_amount dto))))
    (rma_refund_workflow (service_registry base) rma) 0 (steps (rma_refund_workflow (service_registry base) rma)).
Proof.
  intros Hok Hrma Helig Hpays Hp Hid Hamt Ht Hr Hc Hle. split; [|split; [|done]]; intros ctx d [-> HI].
  - simpl in HI. subst d. simpl. unfold refund_via_payments. simpl. apply dwp_bind.
    eapply dwp_mono; [apply (dwp_keeping same_rmas); [apply refund_rmas|]|].
    + eapply (refund_spec _ _ (mkRefundPaymentDto (rr_amount dto) None None []) _ c); eauto. apply Ht.
    + intros [rf|e] d1 [Hd1 Hs1]; [apply dwp_ret|]; (split; [by intros ?|done]).
  - destruct HI as [Hdone Hsame]. simpl. unfold complete_rma. apply dwp_bind.
    unfold when_. case_bool_decide as Hst; simpl.
    + apply dwp_ret, dwp_ret. split; [by intros ?|]. split; [done|]. split; [done|].
      exists rma. auto.
    + apply dwp_bind. eapply dwp_mono; [apply (dwp_keeping same_pay); [apply rma_transition_pays|apply rma_transition_spec]|].
      intros [snap|e] d2 [Hd2 Hs2]; [|by split].
      do 2 apply dwp_ret. split; [by intros ?|]. split; [done|].
      destruct Hdone as [Hleft Hrows]. split; [split; [done|by rewrite <- Hrows, <- Hs2]|].
      destruct Hd2 as (r & Hin & Hrid & Hmove). rewrite Hsame in Hin, Hmove.
      rewrite (NoDup_key_eq rma_id _ r rma (proj1 (so_rmas d0 Hok)) Hin Hrma Hrid) in Hmove.
      exists rma. split_and!; [done..|right].
      destruct Hmove as [[E _]|[He (st & completed & Et & Er)]]; [by destruct (rma_status rma)|].
      split; [|exists completed; by destruct st].
      by destruct (rma_status rma); try done; destruct He as [_ He]; vm_compute in He.
Qed.

Definition same_refund (d d' : Db) : Prop := rmas d' = rmas d ∧ same_pay d d'.
#[local] Instance same_refund_preorder : PreOrder same_refund.
Proof. split; [by intros ?|]. unfold same_refund, same_pay. intros ??? [? ?] [? ?]. split; congruence. Qed.

Lemma requestRefund_spec base a id dto p c (w : WfSt RmaCloseCtx Db) :
  service_ok (app w) → pays_ok (app w) → p ∈ view L_Payment (app w) → pm_id p = rr_paymentId dto →
  rr_amount dto = cents c → in_range (pm_amount p) → in_range (pm_refunded_amount p) → in_range c →
  pm_refunded_amount p <= pm_amount p →
  dwp (requestRefund (service_registry base) a id dto) (λ o w', match o with
    | Ok _ => rma_refunded id p c (app w) (app w') | Throw _ => True end) w.
Proof.
  intros. unfold requestRefund. apply dwp_bind, dwp_zoom.
  unfold eligible_rma, require_rma, find_rma. do 2 apply dwp_bind. apply dwp_findFirst; [|intros _; by dwp_step].
  intros rma Hrma Hid. bool_to_prop. apply dwp_ret. dwp_step; [done|]. apply dwp_ret.
  apply dwp_bind. eapply dwp_mono; [apply (dwp_run _ _ (λ o w', match o with
    | Ok i => inst_status i = wf_completed → rma_refunded id p c (app w) (app w')
    | Throw _ => True end))|].
  - repeat constructor; vm_compute; discriminate.
  - intros i deadline s0 s1 w' Hs0 Hs1 Ea Hst.
    subst id. rewrite <- Hs1. simpl in Hs0.
    assert (refund_eligible (rma_status rma) = true) as Helig by (by destruct (refund_eligible _)).
    eassert (Hadv := refund_workflow_advances base rma p c (app w) dto a _ _ Helig _ _ _ _ _ _ _ _).
    assert (Forall (λ step, 1 <= policy_maxAttempts (rma_refund_workflow (service_registry base) rma) step)
      (steps (rma_refund_workflow (service_registry base) rma))) as Hmax
      by (repeat constructor; vm_compute; discriminate).
    by destruct (a_run_advances _ _ _ 0 [] deadline _ _ _ _ _ Hadv Hmax (conj eq_refl Hs0) Ea Hst).
    Unshelve. all: done.
  - intros [i|e] w' Hi; [|done]. dwp_step; [done|].
    assert (inst_status i = wf_completed) as Hst by (by case_bool_decide). specialize (Hi Hst).
    apply dwp_bind. apply dwp_zoom.
    apply (dwp_stays same_refund);
      [unfold war_audit, service_log; staying ltac:(apply stays_create; [apply _|by split])|].
    intros [[]|e] d' [Er Ep]; [|done]. apply dwp_ret. unfold rma_refunded, refund_done in *.
    cbn [app]. by rewrite Er, Ep.
Qed.

(** ** Spare parts *)

Lemma useSparePart_conserves a dto :
  0 < us_quantity dto → stays (on_tables conserved) (useSparePart a dto).
Proof.
  intros Hq. unfold useSparePart, war_locked, useSparePart_body, require_repair, find_repair,
    reserve_part, war_audit, service_log, db_findFirst.
  staying ltac:(first
    [ match goal with |- stays _ (reserve _) => by apply reserve_conserves end
    | apply stays_create; [apply _|intros; by apply conserved_same] ]).
Qed.

(** ** What the requests promise *)

(** An answered registration is for an active plan and a serial number that the
    request names and that had no active registration; it stores the registration with
    its period, marks the serial number as under warranty and changes no other
    registration; a plan of [n] months covers between 28n-3 and 31n+3 days. *)
Theorem register_exact c dto s v s' :
  service_ok (tables s) → register c dto s = (Ok v, s') → registered c dto (tables s) (tables s').
Proof. intros Hok Hrun. exact (dwp_elim _ _ _ _ _ (register_spec c dto _ Hok) Hrun). Qed.

(** An extension is stored together with the end that it gives the registration,
    or neither is, however the request ends; the new period starts when the old one
    ends, or now, and the end does not move back. *)
Theorem extend_both_or_neither a id p q s :
  service_ok (tables s) →
  match extend a id p q s with
  | (Ok _, s') => extended id p q (tables s) (tables s')
  | (Throw _, s') => same_periods (tables s) (tables s') ∨ extended id p q (tables s) (tables s')
  end.
Proof.
  intros Hok. pose proof (extend_spec a id p q _ Hok s eq_refl) as Hs.
  by destruct (extend a id p q s) as [[v|e] s'].
Qed.

(** (C15) When the refund of an RMA is answered, the RMA had been received, or completed
    before, and is completed, and the payment gave back exactly the amount asked for;
    an RMA that is only approved is never answered so. *)
Theorem refund_completes_rma base a id dto p c s j s' :
  service_ok (app (tables s)) → pays_ok (app (tables s)) → p ∈ view L_Payment (app (tables s)) →
  pm_id p = rr_paymentId dto → rr_amount dto = cents c →
  in_range (pm_amount p) → in_range (pm_refunded_amount p) → in_range c →
  pm_refunded_amount p <= pm_amount p →
  requestRefund (service_registry base) a id dto s = (Ok j, s') →
  rma_refunded id p c (app (tables s)) (app (tables s')).
Proof.
  intros Hok Hpays Hp Hid Hamt Ht Hr Hc Hle Hrun.
  exact (dwp_elim _ _ _ _ _ (requestRefund_spec base a id dto p c _ Hok Hpays Hp Hid Hamt Ht Hr Hc Hle) Hrun).
Qed.
End requests.

(** ** Runs *)
Section examples.
#[local] Existing Instances gmap_redis counting_crypto counting_random sample_postgres utc.
#[local] Instance text0 : ClientText := λ _, "database error".
#[local] Instance number0 : NumberText := λ _, "n".
#[local] Instance json0 : JsonText := λ _, "{}".
#[local] Instance iso0 : DateText := λ _, "2026-01-01T00:00:00.000Z".
#[local] Instance provider0 : PaymentProvider := ready_provider rf_processed.
#[local] Instance config0 : PaymentConfig := {|
  payment_mock := Some true; payment_serverCapture := Some true |}.

#[local] Existing Instance plain_server.

#[local] Instance carrier0 : ShippingProvider := ready_carrier "In Transit".

Definition serial0 : SerialNumber :=
  mkSerialNumber "s0" "SN-1" None None (Some "w1") None "v1" None "in_stock" wts_not_registered None None.

(** No support desk. *)
Definition alone : CaseRegistry Db := λ _, None.

Definition desk0 : St Db :=
  mkSt env0 (put L_SerialNumber [serial0] (tables (paid pm_captured))).
Definition world0 : St (WfSt RmaCloseCtx Db) := mkSt env0 (mkWfSt [] (tables desk0)).
(** One year for the serial number, asked for by [c]. *)
Definition cover : RegisterWarrantyDto := mkRegisterDto "pl12" (Some "s0") None None None None None.
Definition broken : CreateClaimDto := mkCreateClaimDto "u" "Dead" None None.
Definition money_back : CreateRmaDto := mkCreateRmaDto rmt_refund (Some "o1") None None None None None.
Definition screen_job : CreateTicketDto := mkCreateTicketDto "sc" "Screen" None None None None None None.
Definition give (n : Z) : RmaRefundDto := mkRmaRefundDto "p1" (cents n).
Definition lend : AllocateLoanDeviceDto := mkAllocateDto "ld" "u" None None.

(** Two registrations, claims and loans of which the second is refused, and a ticket
    that cannot be closed. *)
Definition desk_day : list WarOp :=
  [wo_register "alice" cover; wo_register "bob" cover;
   wo_claim "alice" broken; wo_claim "alice" broken;
   wo_patchClaim "eve" "u" (mkPatchClaimDto "under_review" None);
   wo_patchClaim "eve" "u" (mkPatchClaimDto "rejected" None);
   wo_extend "eve" "u" "pl6" None;
   wo_rma "alice" money_back; wo_patchRma "eve" "u" (mkPatchRmaDto "approved" None);
   wo_ticket "alice" screen_job; wo_assign "eve" (mkAssignDto "u" "tom"); wo_close "eve" "u";
   wo_loan "eve" lend; wo_loan "eve" lend;
   wo_assign "eve" (mkAssignDto "u" "tom")].

Definition overview (d : Db) :=
  (map wrg_end_date (registrations d), map wcl_status (claims d), map rma_status (rmas d),
   map (λ t, (stt_status t, stt_closed_at t)) (tickets d), map lna_status (allocations d)).

Lemma unowned {A} (p : A → bool) l : (length l <= 1)%nat → at_most_one p l.
Proof. destruct l as [|x [|y l]]; unfold at_most_one; simpl; [lia| |lia]. destruct (p x); simpl; lia. Qed.

(** The tables of a shop without cases satisfy the invariant. *)
Lemma shop_serves d :
  claims d = [] → rmas d = [] → tickets d = [] → registrations d = [] → allocations d = [] →
  plans d = plans sample_db → devices d = devices sample_db → service_ok d.
Proof.
  intros E1 E2 E3 E4 E5 E6 E7. split; rewrite ?E1, ?E2, ?E3, ?E4, ?E5, ?E6, ?E7;
    try (intros; apply unowned; simpl; lia); try (split; [apply NoDup_nil_2|apply Forall_nil_2]).
  - apply NoDup_nil_2.
  - repeat constructor; vm_compute; discriminate.
  - apply NoDup_singleton.
  - by repeat constructor.
Qed.

Lemma world0_serves : service_ok (app (tables world0)).
Proof. by apply shop_serves. Qed.

Lemma alone_ok : base_ok alone.
Proof. by intros st E. Qed.


(** A world in which the table of RMAs, registrations or tickets holds [rows]. *)
Definition rma0 (st : RmaStatus) : RmaRequest :=
  mkRmaRequest "m1" "RMA-1" rmt_refund (Some "alice") (Some "o1") None None None None None st 900
    (if rma_open st then None else Some 950) None.
Definition with_rma (st : RmaStatus) : St (WfSt RmaCloseCtx Db) :=
  mkSt env0 (mkWfSt [] (put L_RmaRequest [rma0 st] (tables desk0))).
Definition ticket0 (st : ServiceTicketStatus) : ServiceTicket :=
  mkServiceTicket "t1" "TKT-1" (Some "alice") None None "sc" (Some "tom") None None "Screen" None st 3
    None 900 None (if ticket_closed st then Some 950 else None) None.
Definition covered0 (ends : Z) : WarrantyRegistration :=
  mkWarrantyRegistration "g1" "WR-1" "pl12" (Some "alice") None None (Some "s0") None None 0 ends
    wrs_active None.
Definition with_cover (ends : Z) : St Db :=
  mkSt env0 (put L_WarrantyRegistration [covered0 ends] (tables desk0)).

Definition refund_state (w : WfSt RmaCloseCtx Db) :=
  (map rma_status (rmas (app w)), map pm_refunded_amount (view L_Payment (app w))).

Lemma service_rows_kept_witness :
  overview (app (tables (war_history alone desk_day world0)))
  = ([47174400000], [wcs_rejected], [rms_approved], [(sts_assigned, None)], [las_active])
  ∧ service_ok (app (tables (war_history alone desk_day world0)))
  ∧ kept (desk := true) (app (tables world0)) (app (tables (war_history alone desk_day world0))).
Proof.
  split; [vm_compute; reflexivity|].
  destruct (service_rows_kept alone desk_day world0 alone_ok world0_serves) as (Hok & Hk & _).
  exact (conj Hok Hk).
Defined.

Lemma tickets_stay_on_bench_witness :
  Forall on_bench (tickets (app (tables (war_history alone desk_day world0)))).
Proof.
  apply (tickets_stay_on_bench alone desk_day world0 alone_ok world0_serves), Forall_nil_2.
Defined.

Lemma register_exact_witness :
  registered "alice" cover (tables desk0) (tables (snd (register "alice" cover desk0))).
Proof.
  apply (register_exact "alice" cover desk0
    (JObj [("id", JStr "u"); ("registrationNumber", JStr "WR-RS"); ("status", JStr "active");
           ("startDate", JNum 0); ("endDate", JNum 31536000000)]));
    [by apply shop_serves|apply run_eta; vm_compute; reflexivity].
Defined.

(** One registration, which ends at [ends]. *)
Lemma with_cover_serves ends : service_ok (tables (with_cover ends)).
Proof.
  split; try (intros; apply unowned; simpl; lia); try (split; [apply NoDup_nil_2|apply Forall_nil_2]);
    try apply NoDup_singleton.
  - repeat constructor; vm_compute; discriminate.
  - by repeat constructor.
Qed.

Lemma extend_both_or_neither_witness :
  let r := extend "eve" "g1" "pl6" None (with_cover 86400000) in
  map wrg_end_date (registrations (tables (snd r))) = [15724800000]
  ∧ match r with
    | (Ok _, s') => extended "g1" "pl6" None (tables (with_cover 86400000)) (tables s')
    | (Throw _, s') => same_periods (tables (with_cover 86400000)) (tables s')
        ∨ extended "g1" "pl6" None (tables (with_cover 86400000)) (tables s')
    end.
Proof.
  split; [vm_compute; reflexivity|].
  apply (extend_both_or_neither "eve" "g1" "pl6" None (with_cover 86400000)), with_cover_serves.
Defined.

Lemma with_rma_serves st : service_ok (app (tables (with_rma st))).
Proof.
  split; try (intros; apply unowned; simpl; lia); try (split; [apply NoDup_nil_2|apply Forall_nil_2]).
  - split; [apply NoDup_singleton|apply Forall_singleton]. unfold rma_sound. simpl.
    destruct (rma_open st); split; try done.
  - apply NoDup_nil_2.
  - repeat constructor; vm_compute; discriminate.
  - apply NoDup_singleton.
  - by repeat constructor.
Qed.

Lemma refund_completes_rma_witness :
  rma_refunded "m1" (payment0 pm_captured) 1000 (app (tables (with_rma rms_received)))
    (app (tables (snd (requestRefund (service_registry alone) "eve" "m1" (give 1000)
                         (with_rma rms_received))))).
Proof.
  apply (refund_completes_rma alone "eve" "m1" (give 1000) (payment0 pm_captured) 1000
    (with_rma rms_received) (JObj [("rmaId", JStr "m1"); ("status", JStr "completed"); ("workflowId", JStr "f")]));
    [apply with_rma_serves|apply paid_ok|apply paid_in|reflexivity|reflexivity|by split|by split|by split|done|].
  apply run_eta. vm_compute. reflexivity.
Defined.

(** ** Where the handlers fall short *)

(** An approved RMA is eligible for a refund: the money goes out, and the answer is that
    the RMA cannot be completed. *)
Example approved_rma_pays_and_fails :
  let r := requestRefund (service_registry alone) "eve" "m1" (give 1000) (with_rma rms_approved) in
  (fst r, refund_state (tables (snd r)))
  = (Throw (AppException CONFLICT "Invalid rma transition approved → completed" 409),
     ([rms_approved], [1000])).
Proof. vm_compute. reflexivity. Qed.

(** A completed RMA can be refunded again, until the payment is used up. *)
Example completed_rma_refunded_twice :
  refund_state (tables (war_history alone
    [wo_refund "eve" "m1" (give 1000); wo_refund "eve" "m1" (give 2000)] (with_rma rms_received)))
  = ([rms_completed], [3000]).
Proof. vm_compute. reflexivity. Qed.

(** Approving an approved RMA is skipped by the state machine and announced again. *)
Example approval_announced_twice :
  let approve := wo_patchRma "eve" "m1" (mkPatchRmaDto "approved" None) in
  map eventName (bus (env (war_history alone [approve; approve] (with_rma rms_requested))))
  = ["state.transitioned"; "case.status_changed"; "rma.approved";
     "case.status_changed"; "rma.approved"].
Proof. vm_compute. reflexivity. Qed.

(** The end of a registration is a date, read as the first instant of its day: on the
    last day a claim comes too late, and the registration still blocks a new one. *)
Example last_day_not_covered :
  fst (createClaim (service_registry alone) "alice" (mkCreateClaimDto "g1" "Dead" None None) (with_cover 0))
  = Throw (AppException CONFLICT "Warranty not active" 409)
  ∧ fst (register "bob" cover (with_cover 0))
    = Throw (AppException CONFLICT "Warranty already active for serial" 409).
Proof. vm_compute. done. Qed.

(** A claim is read from the cache before its owner is compared. *)
Example claim_read_by_another :
  let s := war_history alone [wo_register "alice" cover; wo_claim "alice" broken;
                              wo_getClaim "u" (Some "alice")] world0 in
  match fst (run_war alone (wo_getClaim "u" (Some "mallory")) s) with Ok _ => True | _ => False end
  ∧ fst (run_war alone (wo_getClaim "u" (Some "mallory"))
           (war_history alone [wo_register "alice" cover; wo_claim "alice" broken] world0))
    = Throw (AppException FORBIDDEN "Not your claim" 403).
Proof. vm_compute. done. Qed.

(** Assigning a technician brings a closed ticket back to [assigned]. *)
Example closed_ticket_assigned :
  let s := mkSt env0 (put L_ServiceTicket [ticket0 sts_closed] (tables desk0)) in
  map (λ t, (stt_status t, stt_closed_at t))
    (tickets (tables (snd (assignTechnician (service_registry alone) "eve" (mkAssignDto "t1" "tom") s))))
  = [(sts_assigned, Some 950)].
Proof. vm_compute. reflexivity. Qed.
End examples.
