(* ===== verification/CategoryTree.v ===== *)
(** * The category tree

    Models [buildCategoryTree] of
    [backend/src/modules/catalog/mappers/catalog.mapper.ts]: the node objects in
    a [Map] that keeps insertion order, the arrays of children that are filled
    while the map is iterated, and the recursive sort from the roots. A node refers
    to its children by their ids: the objects of the source are shared. *)
From S2P Require Import Prelude Core Rules Schema.
From Stdlib Require Import Sorted.

#[local] Open Scope Z_scope.

(** ** JavaScript's [Map] and [Array.prototype.sort] *)

(** A [Map] with string keys, in insertion order: a key that is set again keeps
    its place. *)
Fixpoint map_set {A} (k : string) (v : A) (m : list (string * A)) : list (string * A) :=
  match m with
  | [] => [(k, v)]
  | (k', v') :: rest => if String.eqb k' k then (k', v) :: rest else (k', v') :: map_set k v rest
  end.

Definition map_get {A} (k : string) (m : list (string * A)) : option A :=
  option_map snd (find_first (λ kv, String.eqb (fst kv) k) m).

(** [sort] with a comparator that is positive exactly when [after] holds: stable. *)
Fixpoint insert_cmp {A} (after : A → A → bool) (x : A) (l : list A) : list A :=
  match l with
  | [] => [x]
  | y :: rest => if after x y then y :: insert_cmp after x rest else x :: l
  end.
Definition sort_cmp {A} (after : A → A → bool) (l : list A) : list A :=
  foldr (insert_cmp after) [] l.

(** ** Nodes *)

(** [CategoryTreeNode] ([interfaces/index.ts]), its children by their ids. *)
Record CategoryTreeNode := mkTreeNode {
  tn_id : string; tn_name : string; tn_slug : string; tn_parentId : option string;
  tn_sortOrder : Z; tn_children : list string;
}.

(** What the caller sees of a node: the children are the nodes themselves. *)
Inductive CategoryTree := TNode (node : CategoryTreeNode) (children : list CategoryTree).

Definition tree_node (c : Category) : CategoryTreeNode :=
  mkTreeNode (kca_id c) (kca_name c) (kca_slug c) (kca_parent_id c) (kca_sort_order c) [].

Definition push_child (id : string) (n : CategoryTreeNode) : CategoryTreeNode :=
  mkTreeNode (tn_id n) (tn_name n) (tn_slug n) (tn_parentId n) (tn_sortOrder n)
    (tn_children n ++ [id]).

Definition NodeMap : Type := list (string * CategoryTreeNode).

(** [nodes.get(p)!.children.push(node)] *)
Definition push_into (p id : string) (nodes : NodeMap) : NodeMap :=
  map (λ kv, if String.eqb (fst kv) p then (fst kv, push_child id (snd kv)) else kv) nodes.

(** One round of the loop over [nodes.values()]. *)
Definition place_node (st : NodeMap * list string) (id : string) : NodeMap * list string :=
  let '(nodes, roots) := st in
  match map_get id nodes with
  | Some node =>
      match tn_parentId node with
      | Some ((String _ _) as p) =>
          if existsb (λ kv, String.eqb (fst kv) p) nodes then (push_into p id nodes, roots)
          else (nodes, roots ++ [id])
      | _ => (nodes, roots ++ [id])
      end
  | None => (nodes, roots)
  end.

Section tree.
Context `{JsLibrary}.

(** [a.sortOrder - b.sortOrder || a.name.localeCompare(b.name)] is positive. *)
Definition node_after (a b : CategoryTreeNode) : bool :=
  let by_order := tn_sortOrder a - tn_sortOrder b in
  0 <? (if by_order =? 0 then localeCompare (tn_name a) (tn_name b) else by_order).

(** [sortRec], with what its argument looks like to the caller afterwards. A
    category that is its own ancestor is not below a root, so the recursion is at
    most as deep as there are nodes. *)
Fixpoint sortRec (fuel : nat) (nodes : NodeMap) (ids : list string) : list CategoryTree :=
  match fuel with
  | O => []
  | S fuel =>
      map (λ n, TNode n (sortRec fuel nodes (tn_children n)))
        (sort_cmp node_after (omap (λ id, map_get id nodes) ids))
  end.

Definition tree_nodes (rows : list Category) : NodeMap :=
  foldl (λ m c, map_set (kca_id c) (tree_node c) m) [] rows.

Definition buildCategoryTree (rows : list Category) : list CategoryTree :=
  let nodes := tree_nodes rows in
  let '(nodes, roots) := foldl place_node (nodes, []) (map fst nodes) in
  sortRec (length rows) nodes roots.
End tree.

Fixpoint tree_json (t : CategoryTree) : Json :=
  match t with
  | TNode n children =>
      JObj [("id", JStr (tn_id n)); ("name", JStr (tn_name n)); ("slug", JStr (tn_slug n));
            ("parentId", jnullable (tn_parentId n)); ("sortOrder", JInt (tn_sortOrder n));
            ("children", JArr (map tree_json children))]
  end.

(** ** What the tree should be *)

Definition root_id (t : CategoryTree) : string := match t with TNode n _ => tn_id n end.
Definition root_node (t : CategoryTree) : CategoryTreeNode := match t with TNode n _ => n end.
Definition kids (t : CategoryTree) : list CategoryTree := match t with TNode _ l => l end.

(** All subtrees, in preorder. *)
Fixpoint subtrees (t : CategoryTree) : list CategoryTree :=
  match t with TNode n l => t :: flat_map subtrees l end.

(** The parent of a row among the rows. *)
Definition parent_in (rows : list Category) (c p : Category) : Prop :=
  p ∈ rows ∧ kca_parent_id c = Some (kca_id p) ∧ kca_id p ≠ "".

(** The rows whose chain of parents ends at a row without listed parent. *)
Inductive anchored (rows : list Category) : Category → Prop :=
| anchored_root c : c ∈ rows → (∀ p, ¬ parent_in rows c p) → anchored rows c
| anchored_child c p : c ∈ rows → parent_in rows c p → anchored rows p → anchored rows c.

(** The node shows the row. *)
Definition shows (n : CategoryTreeNode) (c : Category) : Prop :=
  tn_id n = kca_id c ∧ tn_name n = kca_name c ∧ tn_slug n = kca_slug c
  ∧ tn_parentId n = kca_parent_id c ∧ tn_sortOrder n = kca_sort_order c.

(** Neighbours in order. *)
Definition in_order `{JsLibrary} (l : list CategoryTree) : Prop :=
  Sorted (λ a b, node_after (root_node a) (root_node b) = false) l.

(** ** The map after the two loops *)

Lemma map_set_fresh {A} k (v : A) m : k ∉ map fst m → map_set k v m = m ++ [(k, v)].
Proof.
  induction m as [|[k' v'] m IH]; simpl; [done|]. rewrite not_elem_of_cons. intros [N F].
  destruct (String.eqb_spec k' k); [congruence|]. by rewrite IH.
Qed.

Lemma sort_cmp_perm {A} (after : A → A → bool) l : sort_cmp after l ≡ₚ l.
Proof.
  induction l as [|x l IH]; simpl; [done|].
  rewrite <- IH at 2. generalize (sort_cmp after l) as k. induction k as [|y k IHk]; simpl; [done|].
  destruct (after x y); [|done]. rewrite IHk. constructor.
Qed.

Lemma sort_cmp_sorted {A} (after : A → A → bool) l :
  (∀ x y, after x y = true → after y x = false) → Sorted (λ x y, after x y = false) (sort_cmp after l).
Proof.
  intros T. induction l as [|x l IH]; simpl; [constructor|].
  induction IH as [|y k S IHk HR]; simpl; [by repeat constructor|].
  destruct (after x y) eqn:E; [|repeat (constructor; try done)].
  constructor; [done|]. apply T in E.
  destruct k as [|z k]; simpl; [by constructor|].
  inversion HR; subst. destruct (after x z); by constructor.
Qed.

Section nodes.
Context (rows : list Category) (U : NoDup (map kca_id rows)).

Definition child_of (id : string) (c : Category) : bool :=
  match kca_parent_id c with Some ((String _ _) as p) => String.eqb p id | _ => false end.
Definition has_parent (c : Category) : bool :=
  match kca_parent_id c with
  | Some ((String _ _) as p) => existsb (λ r, String.eqb (kca_id r) p) rows
  | _ => false
  end.

(** The nodes once the rows [pre] have been placed. *)
Definition node_with (pre : list Category) (c : Category) : CategoryTreeNode :=
  mkTreeNode (kca_id c) (kca_name c) (kca_slug c) (kca_parent_id c) (kca_sort_order c)
    (map kca_id (where_ (child_of (kca_id c)) pre)).
Definition nodes_with (pre : list Category) : NodeMap :=
  map (λ c, (kca_id c, node_with pre c)) rows.

Lemma tree_nodes_start : tree_nodes rows = nodes_with [].
Proof.
  unfold tree_nodes, nodes_with. change (map _ rows) with (([] : NodeMap) ++ map (λ c, (kca_id c, tree_node c)) rows).
  assert (D : ∀ c, c ∈ rows → kca_id c ∉ map fst ([] : NodeMap)) by (intros; by apply not_elem_of_nil).
  revert D. generalize ([] : NodeMap) as m. induction rows as [|c l IH]; intros m D; simpl.
  { by rewrite app_nil_r. }
  inversion U as [|? ? F U']; subst. rewrite map_set_fresh by (apply D; left).
  rewrite IH; [by rewrite <- app_assoc|done|].
  intros c' I. rewrite map_app, elem_of_app. intros [E|E].
  - eapply (D c'); [by right|done].
  - simpl in E. apply list_elem_of_singleton in E. apply F. rewrite <- E. by apply list_elem_of_fmap_2.
Qed.

Lemma nodes_get pre c : c ∈ rows → map_get (kca_id c) (nodes_with pre) = Some (node_with pre c).
Proof.
  unfold map_get, nodes_with. intros I. induction rows as [|x l IH]; [by apply not_elem_of_nil in I|].
  simpl. inversion U as [|? ? F U']; subst. destruct (String.eqb_spec (kca_id x) (kca_id c)) as [E|N].
  - apply elem_of_cons in I as [->|I]; [done|]. contradict F. rewrite E. by apply list_elem_of_fmap_2.
  - apply elem_of_cons in I as [->|I]; [done|]. by apply IH.
Qed.

Lemma nodes_has pre p :
  existsb (λ kv, String.eqb (fst kv) p) (nodes_with pre) = existsb (λ r, String.eqb (kca_id r) p) rows.
Proof. unfold nodes_with. induction rows; simpl; [done|]. inversion U; subst. by rewrite IHl. Qed.

Lemma place_step pre c : c ∈ rows →
  place_node (nodes_with pre, map kca_id (where_ (λ c, negb (has_parent c)) pre)) (kca_id c)
  = (nodes_with (pre ++ [c]), map kca_id (where_ (λ c, negb (has_parent c)) (pre ++ [c]))).
Proof.
  intros I. unfold place_node. rewrite nodes_get by done. simpl tn_parentId.
  assert (Same : (∀ r, child_of (kca_id r) c = false) → nodes_with (pre ++ [c]) = nodes_with pre).
  { intros N. apply map_ext. intros r. unfold node_with. rewrite where_app. simpl.
    by rewrite N, app_nil_r. }
  rewrite !where_app, !map_app. simpl where_.
  assert (HP : has_parent c = match kca_parent_id c with
    | Some ((String _ _) as p) => existsb (λ r, String.eqb (kca_id r) p) rows
    | _ => false
    end) by done.
  rewrite HP. clear HP. unfold child_of in Same.
  destruct (kca_parent_id c) as [[|a p]|] eqn:P; try (by rewrite Same).
  assert (C : ∀ r, child_of (kca_id r) c = String.eqb (String a p) (kca_id r)).
  { intros r. unfold child_of. by rewrite P. }
  rewrite nodes_has. destruct (existsb _ rows) eqn:E; simpl.
  - rewrite app_nil_r. f_equal. unfold push_into, nodes_with. rewrite map_map. apply map_ext.
    intros r. simpl. unfold node_with. rewrite where_app, map_app. simpl.
    rewrite C, (String.eqb_sym (kca_id r)). destruct (String.eqb _ (kca_id r)); simpl; [done|by rewrite app_nil_r].
  - f_equal. unfold nodes_with. apply map_ext_in. intros r R. unfold node_with. rewrite where_app. simpl.
    rewrite C. destruct (String.eqb_spec (String a p) (kca_id r)) as [Q|_];
      [|by rewrite app_nil_r].
    rewrite <- not_true_iff_false in E. contradict E. apply existsb_exists. exists r. by rewrite Q, String.eqb_refl.
Qed.

Lemma placed :
  foldl place_node (tree_nodes rows, []) (map fst (tree_nodes rows))
  = (nodes_with rows, map kca_id (where_ (λ c, negb (has_parent c)) rows)).
Proof.
  rewrite tree_nodes_start. unfold nodes_with at 2. rewrite map_map. simpl.
  assert (G : ∀ post pre, rows = pre ++ post →
    foldl place_node (nodes_with pre, map kca_id (where_ (λ c, negb (has_parent c)) pre)) (map kca_id post)
    = (nodes_with rows, map kca_id (where_ (λ c, negb (has_parent c)) rows))).
  { intros post. induction post as [|c post IH]; intros pre E; cbn [map foldl].
    - rewrite app_nil_r in E. by subst.
    - rewrite place_step by (rewrite E; set_solver). apply IH. by rewrite E, <- app_assoc. }
  by apply (G rows []).
Qed.
End nodes.

(** ** Depth *)

Section depth.
Context (rows : list Category) (U : NoDup (map kca_id rows)).

Lemma rows_NoDup : NoDup rows.
Proof. by eapply NoDup_fmap_1. Qed.

Lemma some_rows_NoDup p : NoDup (where_ p rows).
Proof. eapply NoDup_fmap_1, (NoDup_where kca_id), U. Qed.

Lemma parent_unique c p q : parent_in rows c p → parent_in rows c q → p = q.
Proof.
  intros (P & E & _) (Q & E' & _). rewrite E in E'. simplify_eq.
  by eapply (NoDup_key_eq kca_id).
Qed.

Lemma has_parent_spec c : has_parent rows c = true ↔ ∃ p, parent_in rows c p.
Proof.
  unfold has_parent, parent_in. split.
  - destruct (kca_parent_id c) as [[|a p]|] eqn:E; [done| |done]. intros X%existsb_exists.
    destruct X as (r & I & Q%String.eqb_eq). exists r. rewrite Q. split_and!; [by apply list_elem_of_In|done|done].
  - intros (p & I & E & N). rewrite E. destruct (kca_id p) as [|a s] eqn:Q; [done|].
    apply existsb_exists. exists p. by rewrite Q, String.eqb_refl, <- list_elem_of_In.
Qed.

Lemma no_parent_spec c : negb (has_parent rows c) = true ↔ ∀ p, ¬ parent_in rows c p.
Proof.
  rewrite negb_true_iff, <- not_true_iff_false, has_parent_spec. naive_solver.
Qed.

(** The rows that are placed below [p]. *)
Definition below1 (p : Category) : list Category := where_ (child_of (kca_id p)) rows.

Lemma elem_of_below1 p c : p ∈ rows → c ∈ below1 p ↔ c ∈ rows ∧ parent_in rows c p.
Proof.
  intros I. unfold below1, child_of, parent_in. rewrite elem_of_where.
  destruct (kca_parent_id c) as [[|a s]|] eqn:E; rewrite ?String.eqb_eq; naive_solver congruence.
Qed.

Inductive depth : Category → nat → Prop :=
| depth_root c : c ∈ rows → (∀ p, ¬ parent_in rows c p) → depth c 0
| depth_child c p n : c ∈ rows → parent_in rows c p → depth p n → depth c (S n).

Lemma depth_row c n : depth c n → c ∈ rows.
Proof. by destruct 1. Qed.

Lemma depth_fun c n m : depth c n → depth c m → n = m.
Proof.
  intros D. revert m. induction D as [c I N|c p n I P D IH]; intros m; inversion 1; subst; [done|naive_solver..|].
  f_equal. apply IH. by erewrite (parent_unique c p).
Qed.

Lemma anchored_depth c : anchored rows c ↔ ∃ n, depth c n.
Proof.
  split.
  - induction 1 as [|c p I P _ [n IH]]; eauto using depth.
  - intros [n D]. induction D; eauto using anchored.
Qed.

Lemma depth_bound c n : depth c n → (n < length rows)%nat.
Proof.
  intros D. assert (X : ∃ l, NoDup l ∧ l ⊆ rows ∧ length l = S n ∧ ∀ x, x ∈ l → ∃ j, (j <= n)%nat ∧ depth x j).
  { induction D as [c I N|c p n I P D (l & ND & S & L & F)].
    - exists [c]. split_and!; [apply NoDup_singleton|set_solver|done|].
      intros x ->%list_elem_of_singleton. eauto using depth.
    - exists (c :: l). split_and!; [|set_solver|simpl; lia|].
      + constructor; [|done]. intros C. apply F in C as (j & J & D').
        pose proof (depth_fun _ _ _ D' (depth_child _ _ _ I P D)). lia.
      + intros x [->|X]%elem_of_cons; [eauto using depth|]. apply F in X as (j & ? & ?). eauto with lia. }
  destruct X as (l & ND & S & L & _). rewrite Nat.lt_nge. intros ?.
  pose proof (submseteq_length _ _ (NoDup_submseteq _ _ ND S)). lia.
Qed.

(** ** The rows that the recursion visits *)

Fixpoint visited (fuel : nat) (cs : list Category) : list Category :=
  match fuel with
  | O => []
  | S fuel => cs ≫= λ c, c :: visited fuel (below1 c)
  end.

Definition level (k : nat) (cs : list Category) : Prop := NoDup cs ∧ ∀ c, c ∈ cs → depth c k.

Lemma level_below k c : depth c k → level (S k) (below1 c).
Proof.
  intros D. split.
  - apply some_rows_NoDup.
  - intros x. rewrite elem_of_below1 by eauto using depth_row. intros [I P]. eauto using depth.
Qed.

Lemma level_roots : level 0 (where_ (λ c, negb (has_parent rows c)) rows).
Proof.
  split; [apply some_rows_NoDup|]. intros c [I N]%elem_of_where.
  constructor; [done|by apply no_parent_spec].
Qed.

(** [x] is [j] generations below [a]. *)
Fixpoint below_by (j : nat) (x a : Category) : Prop :=
  match j with
  | O => x = a
  | S j => ∃ p, parent_in rows x p ∧ below_by j p a
  end.

Lemma below_by_snoc j x b a : below_by j x b → parent_in rows b a → below_by (S j) x a.
Proof.
  revert x. induction j as [|j IH]; intros x; [simpl; naive_solver|].
  intros (p & P & B) Q. exists p. split; [done|]. by apply IH.
Qed.

Lemma below_by_split j x a : below_by (S j) x a → ∃ b, parent_in rows b a ∧ below_by j x b.
Proof.
  revert x. induction j as [|j IH]; intros x; [simpl; naive_solver|].
  intros (p & P & B). apply IH in B as (b & Q & B). exists b. split; [done|]. by exists p.
Qed.

Lemma below_by_fun j x a b : below_by j x a → below_by j x b → a = b.
Proof.
  revert x. induction j as [|j IH]; simpl; [naive_solver|].
  intros x (p & P & B) (q & Q & B'). assert (p = q) as -> by eauto using parent_unique. eauto.
Qed.

Lemma below_by_depth j x a k : x ∈ rows → depth a k → below_by j x a → depth x (j + k).
Proof.
  revert x. induction j as [|j IH]; simpl; [by intros x _ D ->|].
  intros x I D (p & P & B). econstructor; [done|done|]. apply IH; [by destruct P|done|done].
Qed.

Lemma visited_spec n cs k x : level k cs →
  x ∈ visited n cs ↔ ∃ j a, (j < n)%nat ∧ a ∈ cs ∧ x ∈ rows ∧ below_by j x a.
Proof.
  revert cs k. induction n as [|n IH]; intros cs k [ND L]; simpl.
  { rewrite elem_of_nil. naive_solver lia. }
  rewrite list_elem_of_bind. split.
  - intros (c & [->|X]%elem_of_cons & I).
    + exists 0%nat, c. split_and!; [lia|done|eauto using depth_row|done].
    + eapply IH in X as (j & a & J & A & R & B); [|by apply level_below, L].
      apply elem_of_below1 in A as [_ P]; [|eauto using depth_row].
      exists (S j), c. split_and!; [lia|done|done|by eapply below_by_snoc].
  - intros (j & a & J & A & R & B). exists a. split; [|done]. destruct j as [|j]; simpl in B; [by subst; left|].
    right. apply (below_by_split j) in B as (b & P & B). eapply IH; [by apply level_below, L|].
    exists j, b. split_and!; [lia| |done|done]. apply elem_of_below1; [eauto using depth_row|].
    split; [|done]. destruct j; simpl in B; [by subst|].
    destruct n as [|n]; [lia|]. clear IH. revert x R B.
    induction j as [|j IHj]; intros x R (p & Q & B); simpl in B; [subst; by destruct Q|].
    eapply IHj; [lia| |exact B]. by destruct Q.
Qed.

Lemma visited_NoDup n cs k : level k cs → NoDup (visited n cs).
Proof.
  revert cs k. induction n as [|n IH]; intros cs k [ND L]; simpl; [constructor|].
  assert (V : ∀ c x, c ∈ cs → x ∈ c :: visited n (below1 c) →
    ∃ j, below_by j x c ∧ x ∈ rows ∧ (x ∈ visited n (below1 c) → j ≠ 0%nat)).
  { intros c x I [->|X]%elem_of_cons.
    - exists 0%nat. split_and!; [done|eauto using depth_row|]. intros X.
      pose proof (level_below _ _ (L _ I)) as LB. eapply visited_spec in X as (j & a & _ & A & R & B); [|done].
      apply LB in A. pose proof (depth_fun _ _ _ (below_by_depth _ _ _ _ R A B) (L _ I)). lia.
    - eapply visited_spec in X as (j & a & _ & A & R & B); [|by apply level_below, L].
      apply elem_of_below1 in A as [_ P]; [|eauto using depth_row].
      exists (S j). split_and!; [by eapply below_by_snoc|done|done]. }
  apply NoDup_bind; [| |done].
  - intros c1 c2 x I1 I2 X1 X2. apply V in X1 as (j1 & B1 & R & _), X2 as (j2 & B2 & _ & _); [|done..].
    pose proof (depth_fun _ _ _ (below_by_depth _ _ _ _ R (L _ I1) B1) (below_by_depth _ _ _ _ R (L _ I2) B2)).
    assert (j1 = j2) as -> by lia. by eapply below_by_fun.
  - intros c I. constructor; [|by eapply IH, level_below, L].
    intros X. pose proof (level_below _ _ (L _ I)) as LB.
    eapply visited_spec in X as (j & a & _ & A & R & B); [|done]. apply LB in A.
    pose proof (depth_fun _ _ _ (below_by_depth _ _ _ _ R A B) (L _ I)). lia.
Qed.
End depth.

(** ** The tree *)

Section exact.
Context `{JsLibrary} (rows : list Category) (U : NoDup (map kca_id rows)).

Notation node := (node_with rows).
Notation grow n cs := (sortRec n (nodes_with rows rows) (map kca_id cs)).

Lemma get_nodes cs : (∀ c, c ∈ cs → c ∈ rows) →
  omap (λ id, map_get id (nodes_with rows rows)) (map kca_id cs) = map node cs.
Proof.
  intros S. induction cs as [|c cs IH]; csimpl; [done|].
  rewrite nodes_get by (done || (apply S; left)). rewrite IH; [done|]. intros x I. apply S. by right.
Qed.

Lemma grow_unfold n cs : (∀ c, c ∈ cs → c ∈ rows) →
  ∃ cs', cs' ≡ₚ cs ∧ sort_cmp node_after (map node cs) = map node cs'
    ∧ grow (S n) cs = map (λ c, TNode (node c) (grow n (below1 rows c))) cs'.
Proof.
  intros S. destruct (Permutation_map_inv node cs (sort_cmp_perm node_after (map node cs))) as (cs' & E & P).
  symmetry in P.
  exists cs'. split_and!; [done|done|]. simpl. rewrite get_nodes, E, map_map by done. done.
Qed.

Lemma level_rows k cs : level rows k cs → ∀ c, c ∈ cs → c ∈ rows.
Proof. intros [_ L] c I. eapply depth_row, L, I. Qed.

Lemma grow_visits n cs k : level rows k cs →
  map root_id (flat_map subtrees (grow n cs)) ≡ₚ map kca_id (visited rows n cs).
Proof.
  revert cs k. induction n as [|n IH]; intros cs k L; [done|].
  destruct (grow_unfold n cs (level_rows _ _ L)) as (cs' & P & _ & ->).
  transitivity (map kca_id (visited rows (S n) cs')); [|apply Permutation_map; by apply bind_Permutation].
  assert (L' : ∀ c, c ∈ cs' → depth rows c k) by (intros c; rewrite P; apply L).
  clear P L. induction cs' as [|c cs' IHc]; simpl; [done|].
  rewrite !map_app. constructor. apply Permutation_app.
  - eapply IH, level_below, L'; [done|by left].
  - apply IHc. intros x I. apply L'. by right.
Qed.

Lemma grow_roots n cs : (∀ c, c ∈ cs → c ∈ rows) →
  map root_id (grow (S n) cs) ≡ₚ map kca_id cs.
Proof.
  intros S. destruct (grow_unfold n cs S) as (cs' & P & _ & ->). rewrite map_map. simpl.
  by apply Permutation_map.
Qed.

(** Every subtree shows a row and its children are the rows below it. *)
Lemma grow_shape n cs k s : level rows k cs → (length rows <= n + k)%nat →
  s ∈ flat_map subtrees (grow n cs) →
  ∃ c, c ∈ rows ∧ shows (root_node s) c ∧ map root_id (kids s) ≡ₚ map kca_id (below1 rows c).
Proof.
  revert cs k. induction n as [|n IH]; intros cs k L N X; [by apply not_elem_of_nil in X|].
  destruct (grow_unfold n cs (level_rows _ _ L)) as (cs' & P & _ & E). rewrite E in X. clear E.
  apply list_elem_of_In, in_flat_map in X as (t & (c & <- & I%list_elem_of_In)%in_map_iff & X).
  rewrite P in I. pose proof (level_below _ U _ _ (proj2 L _ I)) as LB.
  destruct X as [<-|X].
  - exists c. split; [exact (level_rows _ _ L _ I)|]. split; [done|]. simpl. destruct n as [|n].
    + destruct (below1 rows c) as [|y l] eqn:B; [done|].
      assert (D : depth rows y (S k)) by (apply LB; left). apply depth_bound in D; [lia|done].
    + apply grow_roots. by eapply level_rows.
  - apply list_elem_of_In in X. eapply IH; [exact LB|lia|exact X].
Qed.

Lemma grow_sorted n cs k : (∀ x y, 0 < localeCompare x y → localeCompare y x <= 0) → level rows k cs →
  in_order (grow n cs) ∧ ∀ s, s ∈ flat_map subtrees (grow n cs) → in_order (kids s).
Proof.
  intros C. revert cs k. induction n as [|n IH]; intros cs k L.
  { split; [constructor|]. intros s X. by apply not_elem_of_nil in X. }
  destruct (grow_unfold n cs (level_rows _ _ L)) as (cs' & P & O & ->). split.
  - assert (A : ∀ a b, node_after a b = true → node_after b a = false).
    { intros a b. unfold node_after. specialize (C (tn_name a) (tn_name b)).
      destruct (Z.eqb_spec (tn_sortOrder a - tn_sortOrder b) 0), (Z.eqb_spec (tn_sortOrder b - tn_sortOrder a) 0);
        rewrite ?Z.ltb_lt, ?Z.ltb_ge; lia. }
    pose proof (sort_cmp_sorted node_after (map node cs) A) as S. rewrite O in S. clear -S. unfold in_order.
    induction cs' as [|c l IHl]; simpl in *; [constructor|]. inversion S as [|? ? S' R]; subst.
    constructor; [by apply IHl|]. destruct l; constructor. by inversion R.
  - intros s X. apply list_elem_of_In, in_flat_map in X as (t & (c & <- & I%list_elem_of_In)%in_map_iff & X).
    rewrite P in I. destruct (IH _ _ (level_below _ U _ _ (proj2 L _ I))) as [IS IK].
    destruct X as [<-|X]; [done|]. by apply IK, list_elem_of_In.
Qed.

Lemma buildCategoryTree_grow :
  buildCategoryTree rows = grow (length rows) (where_ (λ c, negb (has_parent rows c)) rows).
Proof. unfold buildCategoryTree. by rewrite placed. Qed.
End exact.

(** (C18) The category tree is exact. For rows with distinct ids, a category appears
    in it if and only if its chain of parents ends at a category without listed
    parent, and then once; the recursion is never cut short. The top level has
    exactly the categories without listed parent, each node shows its row and has
    exactly the rows naming it as parent below it; and brothers are in order by sort
    order and name, provided that the comparison of names is not positive both ways. *)
Theorem tree_exact `{JsLibrary} rows : NoDup (map kca_id rows) →
  let t := buildCategoryTree rows in
  let nodes := flat_map subtrees t in
  NoDup (map root_id nodes)
  ∧ (∀ id, id ∈ map root_id nodes ↔ ∃ c, anchored rows c ∧ kca_id c = id)
  ∧ map root_id t ≡ₚ map kca_id (where_ (λ c, negb (has_parent rows c)) rows)
  ∧ (∀ s, s ∈ nodes → ∃ c, c ∈ rows ∧ shows (root_node s) c
       ∧ map root_id (kids s) ≡ₚ map kca_id (where_ (child_of (kca_id c)) rows))
  ∧ ((∀ x y, 0 < localeCompare x y → localeCompare y x <= 0) →
     in_order t ∧ ∀ s, s ∈ nodes → in_order (kids s)).
Proof.
  intros U t nodes. unfold nodes, t. clear nodes t. rewrite buildCategoryTree_grow by done.
  pose proof (level_roots rows U) as L. split_and!.
  - rewrite (grow_visits _ U _ _ _ L). apply NoDup_fmap_2_strong; [|by eapply visited_NoDup].
    intros x y X Y. apply (NoDup_key_eq kca_id rows); [done|..].
    all: eapply visited_spec in X as (? & ? & ? & ? & ? & ?); eapply visited_spec in Y as (? & ? & ? & ? & ? & ?); done.
  - intros id. rewrite (grow_visits _ U _ _ _ L), list_elem_of_fmap. split.
    + intros (x & -> & X). eapply visited_spec in X as (j & a & _ & A & R & B); [|done|exact L].
      exists x. split; [|done]. apply anchored_depth. exists (j + 0)%nat.
      eapply below_by_depth; [done|by apply L|done].
    + intros (x & D & <-). exists x. split; [done|]. apply anchored_depth in D as [n D].
      eapply visited_spec; [done|exact L|]. pose proof (depth_bound _ U _ _ D).
      assert (B : ∃ a, depth rows a 0 ∧ below_by rows n x a).
      { clear -D. induction D as [c I N|c p n I P D (a & R & B)]; simpl; eauto using depth. }
      destruct B as (a & R & B). exists n, a. split_and!; [done| |by eapply depth_row|done].
      inversion R; subst. by rewrite elem_of_where, no_parent_spec.
  - destruct rows as [|r l]; [done|]. apply grow_roots; [done|]. by eapply level_rows.
  - intros s X. eapply grow_shape; [done|exact L| |exact X]. lia.
  - intros C. by eapply grow_sorted.
Qed.

(** ** Examples *)

#[local] Instance js0 : JsLibrary := {
  Date_parse _ := None;
  localeCompare a b := match String.compare a b with Lt => -1 | Eq => 0 | Gt => 1 end;
  regex_test _ _ := None; string_to_number _ := None; array_to_number _ := None;
}.

Definition category (id : string) (parent : option string) (name : string) (order : Z) : Category :=
  mkCategory id parent name name None None None order rs_active None.

(** Two roots, one of them through a parent that is not listed, and a cycle. *)
Definition categories : list Category :=
  [category "c" (Some "a") "Cases" 1; category "x" (Some "y") "X" 0; category "a" None "Phones" 2;
   category "y" (Some "x") "Y" 0; category "b" (Some "gone") "Audio" 2;
   category "d" (Some "a") "Cables" 1].

Fixpoint outline (t : CategoryTree) : list (string * nat) :=
  match t with TNode n l => (tn_name n, length l) :: flat_map outline l end.

Example two_trees : flat_map outline (buildCategoryTree categories)
  = [("Audio", 0%nat); ("Phones", 2%nat); ("Cables", 0%nat); ("Cases", 0%nat)].
Proof. reflexivity. Qed.

(** A cycle is nowhere in the tree. *)
Example cycle_vanishes :
  existsb (λ s, String.eqb (root_id s) "x") (flat_map subtrees (buildCategoryTree categories)) = false.
Proof. reflexivity. Qed.

Lemma tree_exact_witness :
  let nodes := flat_map subtrees (buildCategoryTree categories) in
  NoDup (map kca_id categories) ∧ NoDup (map root_id nodes)
  ∧ ∀ id, id ∈ map root_id nodes ↔ ∃ c, anchored categories c ∧ kca_id c = id.
Proof.
  assert (U : NoDup (map kca_id categories))
    by (refine (bool_decide_unpack _ _); vm_compute; exact I).
  destruct (tree_exact categories U) as (N & M & _). exact (conj U (conj N M)).
Defined.
