(* ===== verification/CatalogStores.v ===== *)
(** * Catalogue: requests, events, repositories, cache

    Models [backend/src/modules/catalog]: [constants], [dto], [events],
    [validators], [repositories] and [services/catalog-cache.service.ts]. The
    service is in [Catalog], its theorems in [CatalogRules].

    A row is read together with what its query includes. Queries that order by two
    columns are given as the groups of the first column, each in the order of the
    second. *)
From S2P Require Import Prelude Core Effects Redis Lock JsNumber Rules Pagination Database Tables Payments Shipping Carrier CategoryTree Schema.
From Stdlib Require Import QArith.

#[local] Open Scope Z_scope.

(** ** Constants ([constants/catalog.constants.ts]) *)

Module CATALOG_CACHE.
Definition TTL : Z := 300.
Definition brands : string := "catalog:brands:list".
Definition productTypes : string := "catalog:product-types:list".
Definition categories : string := "catalog:categories:list".
Definition categoryTree : string := "catalog:categories:tree".
Definition collections : string := "catalog:collections:list".
Definition product (idOrSlug : string) : string := "catalog:product:" +:+ idOrSlug.
Definition productList (hash : string) : string := "catalog:products:list:" +:+ hash.
Definition featured : string := "catalog:products:featured".
Definition newest : string := "catalog:products:new".
Definition refurbished : string := "catalog:products:refurbished".
End CATALOG_CACHE.

Definition is_hex (c : ascii) : bool :=
  let n := nat_of_ascii c in
  ((48 <=? n) && (n <=? 57) || (97 <=? n) && (n <=? 102) || (65 <=? n) && (n <=? 70))%nat.

(** [UUID_RE]: groups of 8, 4, 4, 4 and 12 hexadecimal digits joined by hyphens. *)
Fixpoint uuid_groups (n : nat) (groups : list nat) (s : list ascii) : bool :=
  match n, s with
  | S n, c :: s => is_hex c && uuid_groups n groups s
  | O, c :: s => match groups with
                 | g :: groups => Ascii.eqb c "-" && uuid_groups g groups s
                 | [] => false
                 end
  | O, [] => is_nil groups
  | S _, [] => false
  end.
Definition UUID_RE (s : string) : bool := uuid_groups 8 [4; 4; 4; 12]%nat (list_ascii_of_string s).

(** ** Validators ([validators/slug.validator.ts]) *)

(** [/^[a-z0-9]+(?:-[a-z0-9]+)*$/]: [started] after the first character of a part. *)
Fixpoint slug_from (started : bool) (s : list ascii) : bool :=
  match s with
  | [] => started
  | c :: s =>
      let n := nat_of_ascii c in
      if ((48 <=? n) && (n <=? 57) || (97 <=? n) && (n <=? 122))%nat then slug_from true s
      else Ascii.eqb c "-" && started && slug_from false s
  end.
Definition IsSlug (s : string) : bool := slug_from false (list_ascii_of_string s).

(** ** Requests ([dto]) *)

Record CreateBrandDto := mkCreateBrandDto {
  cb_name : string; cb_slug : string; cb_description : option string; cb_country : option string;
  cb_website : option string; cb_logoFileId : option string; cb_sortOrder : option Z;
}.

(** A logo that is [null] removes the logo. *)
Record UpdateBrandDto := mkUpdateBrandDto {
  ub_name : option string; ub_slug : option string; ub_description : option string;
  ub_country : option string; ub_website : option string; ub_logoFileId : option (option string);
  ub_sortOrder : option Z;
}.

Record CreateCategoryDto := mkCreateCategoryDto {
  cy_name : string; cy_slug : string; cy_parentId : option string; cy_description : option string;
  cy_iconFileId : option string; cy_bannerFileId : option string; cy_sortOrder : option Z;
}.
Record UpdateCategoryDto := mkUpdateCategoryDto {
  uc_name : option string; uc_slug : option string; uc_parentId : option string;
  uc_description : option string; uc_iconFileId : option string; uc_bannerFileId : option string;
  uc_sortOrder : option Z;
}.

Record CreateCollectionDto := mkCreateCollectionDto {
  cl_name : string; cl_slug : string; cl_description : option string; cl_mediaFileId : option string;
  cl_isAutomatic : option bool; cl_productIds : option (list string);
}.
Record UpdateCollectionDto := mkUpdateCollectionDto {
  ul_name : option string; ul_slug : option string; ul_description : option string;
  ul_mediaFileId : option string; ul_isAutomatic : option bool; ul_productIds : option (list string);
}.

Record CreateProductDto := mkCreateProductDto {
  cp_brandId : string; cp_categoryId : string; cp_productTypeId : string; cp_name : string;
  cp_slug : string; cp_shortDescription : option string; cp_description : option string;
  cp_seoTitle : option string; cp_seoDescription : option string; cp_metaKeywords : option string;
  cp_canonicalUrl : option string; cp_isFeatured : option bool; cp_isRefurbished : option bool;
  cp_isOpenBox : option bool; cp_isNewArrival : option bool;
}.
Record UpdateProductDto := mkUpdateProductDto {
  up_brandId : option string; up_categoryId : option string; up_productTypeId : option string;
  up_name : option string; up_slug : option string; up_shortDescription : option string;
  up_description : option string; up_seoTitle : option string; up_seoDescription : option string;
  up_metaKeywords : option string; up_canonicalUrl : option string; up_isFeatured : option bool;
  up_isRefurbished : option bool; up_isOpenBox : option bool; up_isNewArrival : option bool;
}.

Record CreateVariantDto := mkCreateVariantDto {
  vt_productId : string; vt_sku : string; vt_mrp : Q; vt_salePrice : Q; vt_barcode : option string;
  vt_ram : option string; vt_storage : option string; vt_processor : option string;
  vt_gpu : option string; vt_color : option string; vt_condition : option string;
  vt_grade : option string; vt_stockStatus : option string; vt_currency : option string;
  vt_batteryHealth : option Z; vt_attributeValueIds : option (list string);
}.
Record UpdateVariantDto := mkUpdateVariantDto {
  uv_productId : option string; uv_sku : option string; uv_mrp : option Q; uv_salePrice : option Q;
  uv_barcode : option string; uv_ram : option string; uv_storage : option string;
  uv_processor : option string; uv_gpu : option string; uv_color : option string;
  uv_condition : option string; uv_grade : option string; uv_stockStatus : option string;
  uv_currency : option string; uv_batteryHealth : option Z;
  uv_attributeValueIds : option (list string);
}.

Record AttachProductMediaDto := mkAttachDto {
  am_mediaFileId : string; am_altText : option string; am_isPrimary : option bool;
  am_sortOrder : option Z;
}.
Record CreateSpecificationDto := mkCreateSpecDto {
  sp_dto_groupId : string; sp_dto_name : string; sp_dto_value : string; sp_dto_sortOrder : option Z;
}.
Record CreateBadgeDto := mkCreateBadgeDto {
  bd_code : string; bd_label : string; bd_colorHex : option string;
}.
Record AssignBadgeDto := mkAssignBadgeDto { ab_badgeId : string; ab_productId : string }.
Record UpsertSeoDto := mkUpsertSeoDto {
  so_entityType : string; so_entityId : option string; so_slug : option string;
  so_metaTitle : option string; so_metaDescription : option string; so_canonicalUrl : option string;
  so_ogTitle : option string; so_ogDescription : option string; so_ogImageFileId : option string;
  so_structuredData : option Json;
}.
Record CreateBuyingGuideDto := mkCreateBuyingGuideDto {
  bg_slug : string; bg_title : string; bg_body : string; bg_excerpt : option string;
  bg_coverFileId : option string; bg_status : option string;
}.

(** [ProductSearchDto], after validation. *)
Record ProductSearchDto := mkProductSearchDto {
  ps_q : option string; ps_brandId : option string; ps_brandSlug : option string;
  ps_categoryId : option string; ps_categorySlug : option string; ps_collectionId : option string;
  ps_collectionSlug : option string; ps_minPrice : option Q; ps_maxPrice : option Q;
  ps_condition : option string; ps_availability : option string; ps_attributes : option string;
  ps_minRating : option Q; ps_featured : option string; ps_refurbished : option string;
  ps_newArrival : option string; ps_sort : option string; ps_page : option Z; ps_limit : option Z;
}.

(** [ProductSearchFilters] ([interfaces/index.ts]). *)
Record ProductSearchFilters := mkFilters {
  pf_q : option string; pf_brandId : option string; pf_brandSlug : option string;
  pf_categoryId : option string; pf_categorySlug : option string; pf_collectionId : option string;
  pf_collectionSlug : option string; pf_minPrice : option Q; pf_maxPrice : option Q;
  pf_condition : option string; pf_availability : option string; pf_attributes : option (list string);
  pf_minRating : option Q; pf_featured : bool; pf_refurbished : bool; pf_newArrival : bool;
  pf_sort : option string; pf_page : option Z; pf_limit : option Z;
}.

(** ** Events ([events/catalog.events.ts]) *)

Definition BrandCreatedEvent (brandId slug : string) : DomainEvent :=
  mkEvent "catalog.brand.created" (JObj [("brandId", JStr brandId); ("slug", JStr slug)]).
Definition CategoryCreatedEvent (categoryId slug : string) : DomainEvent :=
  mkEvent "catalog.category.created" (JObj [("categoryId", JStr categoryId); ("slug", JStr slug)]).
Definition VariantCreatedEvent (variantId productId sku : string) : DomainEvent :=
  mkEvent "catalog.variant.created"
    (JObj [("variantId", JStr variantId); ("productId", JStr productId); ("sku", JStr sku)]).
Definition product_event (name productId slug : string) : DomainEvent :=
  mkEvent name (JObj [("productId", JStr productId); ("slug", JStr slug)]).
Definition ProductCreatedEvent : string → string → DomainEvent := product_event "catalog.product.created".
Definition ProductUpdatedEvent : string → string → DomainEvent := product_event "catalog.product.updated".
Definition ProductDeletedEvent : string → string → DomainEvent := product_event "catalog.product.deleted".

(** ** Rows *)

Definition archive_brand (now : Z) (r : Brand) : Brand :=
  mkBrand (kbr_id r) (kbr_name r) (kbr_slug r) (kbr_logo_file_id r) (kbr_description r)
    (kbr_country r) (kbr_website r) (kbr_sort_order r) rs_archived (Some now).

Definition archive_category (now : Z) (r : Category) : Category :=
  mkCategory (kca_id r) (kca_parent_id r) (kca_name r) (kca_slug r) (kca_icon_file_id r)
    (kca_banner_file_id r) (kca_description r) (kca_sort_order r) rs_archived (Some now).

Definition archive_collection (now : Z) (r : Collection) : Collection :=
  mkCollection (kcn_id r) (kcn_slug r) (kcn_name r) (kcn_description r) (kcn_media_file_id r)
    (kcn_is_automatic r) rs_archived (Some now).

Definition archive_collection_product (now : Z) (r : CollectionProduct) : CollectionProduct :=
  mkCollectionProduct (kcx_id r) (kcx_collection_id r) (kcx_product_id r) (kcx_sort_order r)
    rs_archived (Some now).

Definition archive_product (now : Z) (r : Product) : Product :=
  mkProduct (kpr_id r) (kpr_brand_id r) (kpr_category_id r) (kpr_product_type_id r) (kpr_name r)
    (kpr_slug r) (kpr_short_description r) (kpr_description r) (kpr_seo_title r)
    (kpr_seo_description r) (kpr_meta_keywords r) (kpr_canonical_url r) (kpr_is_featured r)
    (kpr_is_refurbished r) (kpr_is_open_box r) (kpr_is_new_arrival r) (kpr_rating_avg r)
    (kpr_review_count r) rs_archived (kpr_created_at r) (Some now).

Definition archive_variant (now : Z) (r : ProductVariant) : ProductVariant :=
  mkProductVariant (pv_id r) (pv_product_id r) (pv_sku r) (pv_barcode r) (pv_ram r) (pv_storage r)
    (pv_processor r) (pv_gpu r) (pv_display_size r) (pv_display_resolution r) (pv_refresh_rate r)
    (pv_operating_system r) (pv_keyboard_layout r) (pv_color r) (pv_weight r) (pv_battery_health r)
    (pv_condition r) (pv_grade r) (pv_mrp r) (pv_sale_price r) (pv_discount_percent r)
    (pv_currency r) (pv_stock_status r) rs_archived (Some now).

Definition archive_attribute_value (now : Z) (r : VariantAttributeValue) : VariantAttributeValue :=
  mkVariantAttributeValue (kva_id r) (kva_variant_id r) (kva_attribute_value_id r) rs_archived (Some now).

Definition archive_specification (now : Z) (r : ProductSpecification) : ProductSpecification :=
  mkProductSpecification (ksp_id r) (ksp_product_id r) (ksp_group_id r) (ksp_name r) (ksp_value r)
    (ksp_sort_order r) rs_archived (Some now).

Definition archive_media (now : Z) (r : ProductMedia) : ProductMedia :=
  mkProductMedia (kmd_id r) (kmd_product_id r) (kmd_media_file_id r) (kmd_sort_order r)
    (kmd_alt_text r) (kmd_is_primary r) rs_archived (Some now).

Definition archive_guide (now : Z) (r : BuyingGuide) : BuyingGuide :=
  mkBuyingGuide (kbg_id r) (kbg_slug r) (kbg_title r) (kbg_excerpt r) (kbg_body r)
    (kbg_cover_file_id r) cps_archived (kbg_published_at r) (Some now).

(** The rows with what their queries include. *)
Record LoadedProduct := mkLoadedProduct {
  lp_row : Product; lp_brand : Brand; lp_category : Category; lp_variants : list ProductVariant;
}.
Record LoadedSpecification := mkLoadedSpec { ls_row : ProductSpecification; ls_group : SpecificationGroup }.
Record LoadedMedia := mkLoadedMedia { lm_row : ProductMedia; lm_file : MediaFile }.

(** The row of [T] with that key. *)
Definition row_of {A} (T : Table A) (d : Db) (id : string) : option A :=
  find_first (λ r, String.eqb (pk T r) id) (view (tbl T) d).

Definition is_active (st : RecordStatus) (deleted : option Z) : bool :=
  bool_decide (st = rs_active) && live deleted.

Section repositories.
Context `{Redis, !Postgres, !ServerText, !TextSearch, !TextEqual}.

(** ORDER BY f ASC, g ASC. *)
Definition order_by_both {A} (f : A → Z) (g : A → string) (l : list A) : list A :=
  order_desc Z.opp (remove_dups (map f l)) ≫= λ k, order_text g (where_ (λ x, f x =? k) l).

(** ORDER BY f DESC on a column that may be NULL: the server puts NULL first. *)
Definition order_desc_nulls_first {A} (f : A → option Z) (l : list A) : list A :=
  where_ (λ x, bool_decide (f x = None)) (scan l)
  ++ order_desc (λ x, coalesce (f x) 0) (where_ (λ x, bool_decide (is_Some (f x))) l).

(** ** BrandRepository *)

Definition brand_listActive : M (St Db) (list Brand) :=
  rows ← db_findMany T_Brand (λ b, is_active (kbr_status b) (kbr_deleted_at b));
  mret (order_by_both kbr_sort_order kbr_name rows).

Definition brand_findById (id : string) : M (St Db) (option Brand) :=
  db_findFirst T_Brand (λ b, String.eqb (kbr_id b) id && live (kbr_deleted_at b)).

Definition brand_findBySlug (slug : string) : M (St Db) (option Brand) :=
  db_findFirst T_Brand (λ b, String.eqb (kbr_slug b) slug && live (kbr_deleted_at b)).

(** [{ connect: … }] of a reference that is given and not empty. *)
Definition connect_given {A} (T : Table A) (id : option string) : M (St Db) () :=
  when_ (truthy_str id) (connect_opt T id).

(** A reference after an update: kept unless one is given. *)
Definition reference (new : option string) (old : string) : string :=
  if truthy_str new then coalesce new old else old.
Definition reference_opt (new old : option string) : option string :=
  if truthy_str new then new else old.

Definition brand_create (dto : CreateBrandDto) : M (St Db) Brand :=
  connect_given T_MediaFile (cb_logoFileId dto) ;;
  db_create T_Brand (λ id, mkBrand id (cb_name dto) (cb_slug dto)
    (reference_opt (cb_logoFileId dto) None) (cb_description dto) (cb_country dto) (cb_website dto)
    (coalesce (cb_sortOrder dto) 0) rs_active None).

Definition set_brand (dto : UpdateBrandDto) (b : Brand) : Brand :=
  mkBrand (kbr_id b) (coalesce (ub_name dto) (kbr_name b)) (coalesce (ub_slug dto) (kbr_slug b))
    (match ub_logoFileId dto with
     | None => kbr_logo_file_id b
     | Some logo => if truthy_str logo then logo else None
     end)
    (keep (ub_description dto) (kbr_description b)) (keep (ub_country dto) (kbr_country b))
    (keep (ub_website dto) (kbr_website b)) (coalesce (ub_sortOrder dto) (kbr_sort_order b))
    (kbr_status b) (kbr_deleted_at b).

Definition brand_update (id : string) (dto : UpdateBrandDto) : M (St Db) Brand :=
  match ub_logoFileId dto with Some logo => connect_given T_MediaFile logo | None => mret tt end ;;
  db_update T_Brand id (set_brand dto).

Definition brand_softDelete (id : string) : M (St Db) Brand :=
  now ← Date_now; db_update T_Brand id (archive_brand now).

(** ** CategoryRepository *)

Definition category_listActive : M (St Db) (list Category) :=
  rows ← db_findMany T_Category (λ c, is_active (kca_status c) (kca_deleted_at c));
  mret (order_by_both kca_sort_order kca_name rows).

Definition category_findById (id : string) : M (St Db) (option Category) :=
  db_findFirst T_Category (λ c, String.eqb (kca_id c) id && live (kca_deleted_at c)).

Definition category_findBySlug (slug : string) : M (St Db) (option Category) :=
  db_findFirst T_Category (λ c, String.eqb (kca_slug c) slug && live (kca_deleted_at c)).

Definition category_create (dto : CreateCategoryDto) : M (St Db) Category :=
  connect_given T_Category (cy_parentId dto) ;;
  connect_given T_MediaFile (cy_iconFileId dto) ;;
  connect_given T_MediaFile (cy_bannerFileId dto) ;;
  db_create T_Category (λ id, mkCategory id (reference_opt (cy_parentId dto) None) (cy_name dto)
    (cy_slug dto) (reference_opt (cy_iconFileId dto) None) (reference_opt (cy_bannerFileId dto) None)
    (cy_description dto) (coalesce (cy_sortOrder dto) 0) rs_active None).

Definition set_category (dto : UpdateCategoryDto) (c : Category) : Category :=
  mkCategory (kca_id c) (reference_opt (uc_parentId dto) (kca_parent_id c))
    (coalesce (uc_name dto) (kca_name c)) (coalesce (uc_slug dto) (kca_slug c)) (kca_icon_file_id c)
    (kca_banner_file_id c) (keep (uc_description dto) (kca_description c))
    (coalesce (uc_sortOrder dto) (kca_sort_order c)) (kca_status c) (kca_deleted_at c).

Definition category_update (id : string) (dto : UpdateCategoryDto) : M (St Db) Category :=
  connect_given T_Category (uc_parentId dto) ;;
  db_update T_Category id (set_category dto).

Definition category_softDelete (id : string) : M (St Db) Category :=
  now ← Date_now; db_update T_Category id (archive_category now).

(** [breadcrumb]: [guard] counts the rounds left of the eight. *)
Fixpoint breadcrumb_from (guard : nat) (current : option Category) (chain : list Category)
  : M (St Db) (list Category) :=
  match current, guard with
  | Some c, S guard =>
      let chain := c :: chain in
      match kca_parent_id c with
      | Some ((String _ _) as p) =>
          next ← category_findById p;
          breadcrumb_from guard next chain
      | _ => mret chain
      end
  | _, _ => mret chain
  end.

Definition breadcrumb (categoryId : string) : M (St Db) (list Category) :=
  current ← category_findById categoryId;
  breadcrumb_from 8 current [].

(** ** CollectionRepository *)

(** With the number of its collection products, removed ones included. *)
Definition collection_listActive : M (St Db) (list (Collection * Z)) :=
  rows ← db_findMany T_Collection (λ c, is_active (kcn_status c) (kcn_deleted_at c));
  gets (λ s, map (λ c, (c, Z.of_nat (length
      (where_ (λ x, String.eqb (kcx_collection_id x) (kcn_id c)) (view L_CollectionProduct (tables s))))))
    (order_text kcn_name rows)).

(** The products that the query includes are not read by its callers. *)
Definition collection_findById (id : string) : M (St Db) (option Collection) :=
  db_findFirst T_Collection (λ c, String.eqb (kcn_id c) id && live (kcn_deleted_at c)).

Definition collection_findBySlug (slug : string) : M (St Db) (option Collection) :=
  db_findFirst T_Collection (λ c, String.eqb (kcn_slug c) slug && live (kcn_deleted_at c)).

Definition collection_create (dto : CreateCollectionDto) : M (St Db) Collection :=
  connect_given T_MediaFile (cl_mediaFileId dto) ;;
  db_create T_Collection (λ id, mkCollection id (cl_slug dto) (cl_name dto) (cl_description dto)
    (reference_opt (cl_mediaFileId dto) None) (coalesce (cl_isAutomatic dto) false) rs_active None).

Definition set_collection (dto : UpdateCollectionDto) (c : Collection) : Collection :=
  mkCollection (kcn_id c) (coalesce (ul_slug dto) (kcn_slug c)) (coalesce (ul_name dto) (kcn_name c))
    (keep (ul_description dto) (kcn_description c)) (kcn_media_file_id c)
    (coalesce (ul_isAutomatic dto) (kcn_is_automatic c)) (kcn_status c) (kcn_deleted_at c).

Definition collection_softDelete (id : string) : M (St Db) Collection :=
  now ← Date_now; db_update T_Collection id (archive_collection now).

Definition collection_product (collectionId : string) (i : nat) (productId id : string)
  : CollectionProduct :=
  mkCollectionProduct id collectionId productId (Z.of_nat i) rs_active None.

Definition replaceProducts (collectionId : string) (productIds : list string) : M (St Db) () :=
  in_transaction (
    now ← Date_now;
    db_updateMany T_CollectionProduct
      (λ x, String.eqb (kcx_collection_id x) collectionId && live (kcx_deleted_at x))
      (archive_collection_product now) ;;
    if is_nil productIds then mret tt
    else db_createMany T_CollectionProduct (imap (collection_product collectionId) productIds)).

(** ** VariantRepository *)

Definition variant_findById (id : string) : M (St Db) (option ProductVariant) :=
  db_findFirst T_ProductVariant (λ v, String.eqb (pv_id v) id && live (pv_deleted_at v)).

Definition variant_findBySku (sku : string) : M (St Db) (option ProductVariant) :=
  db_findFirst T_ProductVariant (λ v, String.eqb (pv_sku v) sku && live (pv_deleted_at v)).

Definition variant_softDelete (id : string) : M (St Db) ProductVariant :=
  now ← Date_now; db_update T_ProductVariant id (archive_variant now).

Definition setAttributeValues (variantId : string) (attributeValueIds : list string) : M (St Db) () :=
  in_transaction (
    now ← Date_now;
    db_updateMany T_VariantAttributeValue
      (λ x, String.eqb (kva_variant_id x) variantId && live (kva_deleted_at x))
      (archive_attribute_value now) ;;
    if is_nil attributeValueIds then mret tt
    else
      values ← db_findMany T_AttributeValue (λ v, one_of attributeValueIds (kav_id v)
        && is_active (kav_status v) (kav_deleted_at v));
      throw_if (negb (Nat.eqb (length values) (length attributeValueIds)))
        (JsError "INVALID_ATTRIBUTE_VALUES") ;;
      db_createMany T_VariantAttributeValue
        (map (λ v id, mkVariantAttributeValue id variantId v rs_active None) attributeValueIds)).

(** ** ProductRepository *)

(** [productInclude]: the live variants, cheapest first. The foreign keys make the
    brand and the category exist. *)
Definition loaded (d : Db) (p : Product) : option LoadedProduct :=
  match row_of T_Brand d (kpr_brand_id p), row_of T_Category d (kpr_category_id p) with
  | Some b, Some c => Some (mkLoadedProduct p b c
      (order_desc (λ v, - pv_sale_price v)
        (where_ (λ v, String.eqb (pv_product_id v) (kpr_id p) && live (pv_deleted_at v))
           (view L_ProductVariant d))))
  | _, _ => None
  end.

Definition load (p : Product) : M (St Db) LoadedProduct :=
  l ← gets (λ s, loaded (tables s) p);
  require_ l (DbError RecordNotFound).

Definition product_find (p : Product → bool) : M (St Db) (option LoadedProduct) :=
  row ← db_findFirst T_Product (λ r, p r && live (kpr_deleted_at r));
  gets (λ s, match row with Some r => loaded (tables s) r | None => None end).

Definition product_findById (id : string) : M (St Db) (option LoadedProduct) :=
  product_find (λ p, String.eqb (kpr_id p) id).
Definition product_findBySlug (slug : string) : M (St Db) (option LoadedProduct) :=
  product_find (λ p, String.eqb (kpr_slug p) slug).

Definition ProductCondition_members : list ProductCondition :=
  [pcd_new_sealed; pcd_like_new; pcd_excellent; pcd_good; pcd_fair; pcd_open_box; pcd_refurbished;
   pcd_certified_refurbished].
Definition StockStatus_members : list StockStatus :=
  [sks_in_stock; sks_out_of_stock; sks_preorder; sks_discontinued; sks_made_to_order].
Definition ProductGrade_members : list ProductGrade := [pgr_a_plus; pgr_a; pgr_b; pgr_c; pgr_ungraded].
Definition SeoEntityType_members : list SeoEntityType :=
  [sen_page; sen_product; sen_category; sen_collection; sen_blog; sen_buying_guide; sen_other].
Definition CmsPageStatus_members : list CmsPageStatus := [cps_draft; cps_published; cps_archived].

(** An enum value that the request may leave out. *)
Definition enum_opt {E} (column : string) (text : E → string) (members : list E) (s : option string)
  : M (St Db) (option E) :=
  match s with
  | Some s => e ← as_enum column text members s; mret (Some e)
  | None => mret None
  end.

(** [{ contains: q, mode: 'insensitive' }] on a column that may be NULL. *)
Definition contains_opt (q : string) (text : option string) : bool :=
  match text with Some t => icontains q t | None => false end.

(** A NUMERIC(_, 2) column within the given bounds. *)
Definition at_least_opt (bound : option Q) (c : Z) : bool :=
  match bound with Some b => Qle_bool (sent_decimal b) (inject_Z c / 100) | None => true end.
Definition at_most_opt (bound : option Q) (c : Z) : bool :=
  match bound with Some b => Qle_bool (inject_Z c / 100) (sent_decimal b) | None => true end.

(** An equality that is asked for when the filter is given and not empty. *)
Definition equals_given (filter : option string) (x : string) : bool :=
  negb (truthy_str filter) || same_opt filter (Some x).

(** [variantWhere] *)
Definition variantWhere (d : Db) (f : ProductSearchFilters) (condition : option ProductCondition)
  (availability : option StockStatus) (v : ProductVariant) : bool :=
  is_active (pv_status v) (pv_deleted_at v)
  && at_least_opt (pf_minPrice f) (pv_sale_price v) && at_most_opt (pf_maxPrice f) (pv_sale_price v)
  && match condition with Some c => bool_decide (pv_condition v = c) | None => true end
  && match availability with Some a => bool_decide (pv_stock_status v = a) | None => true end
  && match pf_attributes f with
     | Some ((_ :: _) as ids) =>
         existsb (λ x, String.eqb (kva_variant_id x) (pv_id v) && live (kva_deleted_at x)
           && one_of ids (kva_attribute_value_id x)) (view L_VariantAttributeValue d)
     | _ => true
     end.

Definition needsVariantFilter (f : ProductSearchFilters) : bool :=
  bool_decide (is_Some (pf_minPrice f)) || bool_decide (is_Some (pf_maxPrice f))
  || truthy_str (pf_condition f) || truthy_str (pf_availability f)
  || match pf_attributes f with Some (_ :: _) => true | _ => false end.

Definition in_collection (d : Db) (f : ProductSearchFilters) (p : Product) : bool :=
  existsb (λ x, String.eqb (kcx_product_id x) (kpr_id p) && is_active (kcx_status x) (kcx_deleted_at x)
    && match row_of T_Collection d (kcx_collection_id x) with
       | Some c => is_active (kcn_status c) (kcn_deleted_at c)
           && equals_given (pf_collectionId f) (kcn_id c) && equals_given (pf_collectionSlug f) (kcn_slug c)
       | None => false
       end) (view L_CollectionProduct d).

(** The six columns of [where.OR]. *)
Definition text_matches (d : Db) (q : string) (p : Product) : bool :=
  icontains q (kpr_name p) || contains_opt q (kpr_short_description p)
  || contains_opt q (kpr_description p) || icontains q (kpr_slug p)
  || match row_of T_Brand d (kpr_brand_id p) with Some b => icontains q (kbr_name b) | None => false end
  || existsb (λ v, String.eqb (pv_product_id v) (kpr_id p) && icontains q (pv_sku v)
       && live (pv_deleted_at v)) (view L_ProductVariant d).

(** [where] *)
Definition search_where (d : Db) (f : ProductSearchFilters) (condition : option ProductCondition)
  (availability : option StockStatus) (p : Product) : bool :=
  is_active (kpr_status p) (kpr_deleted_at p)
  && equals_given (pf_brandId f) (kpr_brand_id p)
  && (negb (truthy_str (pf_brandSlug f))
      || match row_of T_Brand d (kpr_brand_id p) with
         | Some b => same_opt (pf_brandSlug f) (Some (kbr_slug b)) && live (kbr_deleted_at b)
         | None => false
         end)
  && equals_given (pf_categoryId f) (kpr_category_id p)
  && (negb (truthy_str (pf_categorySlug f))
      || match row_of T_Category d (kpr_category_id p) with
         | Some c => same_opt (pf_categorySlug f) (Some (kca_slug c)) && live (kca_deleted_at c)
         | None => false
         end)
  && implb (pf_featured f) (kpr_is_featured p)
  && implb (pf_refurbished f) (kpr_is_refurbished p)
  && implb (pf_newArrival f) (kpr_is_new_arrival p)
  && at_least_opt (pf_minRating f) (kpr_rating_avg p)
  && implb (truthy_str (pf_collectionId f) || truthy_str (pf_collectionSlug f)) (in_collection d f p)
  && implb (needsVariantFilter f)
       (existsb (λ v, String.eqb (pv_product_id v) (kpr_id p) && variantWhere d f condition availability v)
          (view L_ProductVariant d))
  && match option_map trim (pf_q f) with
     | Some ((String _ _) as q) => text_matches d q p
     | _ => true
     end.

(** [orderBy] *)
Definition search_order (sort : option string) (rows : list Product) : list Product :=
  if same_opt sort (Some "name") then order_text kpr_name rows
  else if same_opt sort (Some "rating") then order_desc kpr_rating_avg rows
  else order_desc kpr_created_at rows.

(** The comparator of the page: the first variant's price, Infinity without one. It
    is positive when [a] comes after [b]; two infinities give NaN, which counts as 0. *)
Definition first_price (p : LoadedProduct) : option Q :=
  option_map (λ v, cents (pv_sale_price v)) (head (lp_variants p)).
Definition price_after (ascending : bool) (a b : LoadedProduct) : bool :=
  match first_price a, first_price b with
  | Some x, Some y => if ascending then js_lt 0 (js_sub x y) else js_lt (js_sub x y) 0
  | None, Some _ => ascending
  | Some _, None => negb ascending
  | None, None => false
  end.

Definition page_sort (sort : option string) (rows : list LoadedProduct) : list LoadedProduct :=
  if same_opt sort (Some "price_asc") then sort_cmp (price_after true) rows
  else if same_opt sort (Some "price_desc") then sort_cmp (price_after false) rows
  else rows.

Record SearchResult := mkSearchResult {
  sr_data : list LoadedProduct; sr_total : Z; sr_page : Z; sr_limit : Z;
}.

(** An enum filter that is empty is no filter. *)
Definition filter_enum {E} (column : string) (text : E → string) (members : list E) (s : option string)
  : M (St Db) (option E) :=
  if truthy_str s then enum_opt column text members s else mret None.

Definition product_search (f : ProductSearchFilters) : M (St Db) SearchResult :=
  let page := coalesce (pf_page f) 1 in
  let limit := Z.min (coalesce (pf_limit f) 20) 100 in
  let skip := (page - 1) * limit in
  condition ← filter_enum "condition" ProductCondition_text ProductCondition_members (pf_condition f);
  availability ← filter_enum "stock_status" StockStatus_text StockStatus_members (pf_availability f);
  d ← gets tables;
  let rows := where_ (search_where d f condition availability) (view L_Product d) in
  let shown := page_of skip limit (search_order (pf_sort f) (page_scan skip limit rows)) in
  mret (mkSearchResult (page_sort (pf_sort f) (omap (loaded d) shown)) (Z.of_nat (length rows)) page limit).

Definition product_create (dto : CreateProductDto) : M (St Db) LoadedProduct :=
  connect T_Brand (cp_brandId dto) ;;
  connect T_Category (cp_categoryId dto) ;;
  connect T_ProductType (cp_productTypeId dto) ;;
  now ← Date_now;
  row ← db_create T_Product (λ id, mkProduct id (cp_brandId dto) (cp_categoryId dto)
    (cp_productTypeId dto) (cp_name dto) (cp_slug dto) (cp_shortDescription dto) (cp_description dto)
    (cp_seoTitle dto) (cp_seoDescription dto) (cp_metaKeywords dto) (cp_canonicalUrl dto)
    (coalesce (cp_isFeatured dto) false) (coalesce (cp_isRefurbished dto) false)
    (coalesce (cp_isOpenBox dto) false) (coalesce (cp_isNewArrival dto) false) 0 0 rs_active now None);
  load row.

Definition set_product (dto : UpdateProductDto) (p : Product) : Product :=
  mkProduct (kpr_id p) (reference (up_brandId dto) (kpr_brand_id p))
    (reference (up_categoryId dto) (kpr_category_id p))
    (reference (up_productTypeId dto) (kpr_product_type_id p))
    (coalesce (up_name dto) (kpr_name p)) (coalesce (up_slug dto) (kpr_slug p))
    (keep (up_shortDescription dto) (kpr_short_description p))
    (keep (up_description dto) (kpr_description p)) (keep (up_seoTitle dto) (kpr_seo_title p))
    (keep (up_seoDescription dto) (kpr_seo_description p))
    (keep (up_metaKeywords dto) (kpr_meta_keywords p))
    (keep (up_canonicalUrl dto) (kpr_canonical_url p))
    (coalesce (up_isFeatured dto) (kpr_is_featured p))
    (coalesce (up_isRefurbished dto) (kpr_is_refurbished p))
    (coalesce (up_isOpenBox dto) (kpr_is_open_box p))
    (coalesce (up_isNewArrival dto) (kpr_is_new_arrival p)) (kpr_rating_avg p) (kpr_review_count p)
    (kpr_status p) (kpr_created_at p) (kpr_deleted_at p).

Definition product_update (id : string) (dto : UpdateProductDto) : M (St Db) LoadedProduct :=
  connect_given T_Brand (up_brandId dto) ;;
  connect_given T_Category (up_categoryId dto) ;;
  connect_given T_ProductType (up_productTypeId dto) ;;
  row ← db_update T_Product id (set_product dto);
  load row.

Definition product_softDelete (id : string) : M (St Db) Product :=
  now ← Date_now; db_update T_Product id (archive_product now).

Definition specifications (productId : string) : M (St Db) (list LoadedSpecification) :=
  rows ← db_findMany T_ProductSpecification (λ r, String.eqb (ksp_product_id r) productId
    && is_active (ksp_status r) (ksp_deleted_at r));
  gets (λ s, omap (λ r, option_map (mkLoadedSpec r) (row_of T_SpecificationGroup (tables s) (ksp_group_id r)))
    (order_by_both ksp_sort_order ksp_name rows)).

Definition with_file (d : Db) (r : ProductMedia) : option LoadedMedia :=
  option_map (mkLoadedMedia r) (row_of T_MediaFile d (kmd_media_file_id r)).

Definition of_product_media (productId : string) (r : ProductMedia) : bool :=
  String.eqb (kmd_product_id r) productId && is_active (kmd_status r) (kmd_deleted_at r).

Definition media (productId : string) : M (St Db) (list LoadedMedia) :=
  rows ← db_findMany_desc T_ProductMedia (of_product_media productId) (λ r, - kmd_sort_order r);
  gets (λ s, omap (with_file (tables s)) rows).

Definition videos (productId : string) : M (St Db) (list LoadedMedia) :=
  d ← gets tables;
  rows ← db_findMany_desc T_ProductMedia (λ r, of_product_media productId r
      && match row_of T_MediaFile d (kmd_media_file_id r) with
         | Some f => bool_decide (kmf_kind f = mk_video) && live (kmf_deleted_at f)
         | None => false
         end) (λ r, - kmd_sort_order r);
  gets (λ s, omap (with_file (tables s)) rows).

(** ** VariantRepository: create and update *)

Definition variant_create (dto : CreateVariantDto) (condition : ProductCondition)
  (grade : ProductGrade) (stock : StockStatus) : M (St Db) ProductVariant :=
  connect T_Product (vt_productId dto) ;;
  db_create T_ProductVariant (λ id, mkProductVariant id (vt_productId dto) (vt_sku dto)
    (vt_barcode dto) (vt_ram dto) (vt_storage dto) (vt_processor dto) (vt_gpu dto) None None None None
    None (vt_color dto) None (vt_batteryHealth dto) condition grade (numeric2 (vt_mrp dto))
    (numeric2 (vt_salePrice dto)) 0 (coalesce (vt_currency dto) "INR") stock rs_active None).

Definition set_variant (dto : UpdateVariantDto) (condition : option ProductCondition)
  (stock : option StockStatus) (v : ProductVariant) : ProductVariant :=
  mkProductVariant (pv_id v) (pv_product_id v) (coalesce (uv_sku dto) (pv_sku v))
    (keep (uv_barcode dto) (pv_barcode v)) (keep (uv_ram dto) (pv_ram v))
    (keep (uv_storage dto) (pv_storage v)) (keep (uv_processor dto) (pv_processor v))
    (keep (uv_gpu dto) (pv_gpu v)) (pv_display_size v) (pv_display_resolution v) (pv_refresh_rate v)
    (pv_operating_system v) (pv_keyboard_layout v) (keep (uv_color dto) (pv_color v)) (pv_weight v)
    (keep (uv_batteryHealth dto) (pv_battery_health v)) (coalesce condition (pv_condition v))
    (pv_grade v) (coalesce (option_map numeric2 (uv_mrp dto)) (pv_mrp v))
    (coalesce (option_map numeric2 (uv_salePrice dto)) (pv_sale_price v)) (pv_discount_percent v)
    (coalesce (uv_currency dto) (pv_currency v)) (coalesce stock (pv_stock_status v)) (pv_status v)
    (pv_deleted_at v).

(** ** CatalogAuxRepository *)

Definition createSpecification (productId : string) (dto : CreateSpecificationDto)
  : M (St Db) ProductSpecification :=
  connect T_Product productId ;;
  connect T_SpecificationGroup (sp_dto_groupId dto) ;;
  db_create T_ProductSpecification (λ id, mkProductSpecification id productId (sp_dto_groupId dto)
    (sp_dto_name dto) (sp_dto_value dto) (coalesce (sp_dto_sortOrder dto) 0) rs_active None).

Definition softDeleteSpecification (id : string) : M (St Db) ProductSpecification :=
  now ← Date_now; db_update T_ProductSpecification id (archive_specification now).

Definition aux_attachMedia (productId : string) (dto : AttachProductMediaDto) : M (St Db) LoadedMedia :=
  connect T_Product productId ;;
  connect T_MediaFile (am_mediaFileId dto) ;;
  row ← db_create T_ProductMedia (λ id, mkProductMedia id productId (am_mediaFileId dto)
    (coalesce (am_sortOrder dto) 0) (am_altText dto) (coalesce (am_isPrimary dto) false) rs_active None);
  l ← gets (λ s, with_file (tables s) row);
  require_ l (DbError RecordNotFound).

Definition softDeleteMedia (id : string) : M (St Db) ProductMedia :=
  now ← Date_now; db_update T_ProductMedia id (archive_media now).

Definition aux_listBadges : M (St Db) (list ProductBadge) :=
  rows ← db_findMany T_ProductBadge (λ b, is_active (kbd_status b) (kbd_deleted_at b));
  mret (order_text kbd_label rows).

Definition aux_createBadge (dto : CreateBadgeDto) : M (St Db) ProductBadge :=
  db_create T_ProductBadge (λ id, mkProductBadge id (bd_code dto) (bd_label dto) (bd_colorHex dto)
    rs_active None).

Definition aux_assignBadge (badgeId productId : string) : M (St Db) ProductBadgeAssignment :=
  connect T_ProductBadge badgeId ;;
  connect T_Product productId ;;
  db_create T_ProductBadgeAssignment (λ id, mkProductBadgeAssignment id badgeId productId None).

Definition findSeo (entityType : SeoEntityType) (entityId slug : option string)
  : M (St Db) (option SeoMetadata) :=
  db_findFirst T_SeoMetadata (λ m, is_active (ksm_status m) (ksm_deleted_at m)
    && bool_decide (ksm_entity_type m = entityType)
    && implb (truthy_str entityId) (same_opt (ksm_entity_id m) entityId)
    && implb (truthy_str slug) (same_opt (ksm_slug m) slug)).

Definition aux_upsertSeo (entityType : SeoEntityType) (dto : UpsertSeoDto) : M (St Db) SeoMetadata :=
  db_create T_SeoMetadata (λ id, mkSeoMetadata id entityType (so_entityId dto) (so_slug dto)
    (so_metaTitle dto) (so_metaDescription dto) (so_canonicalUrl dto) (so_ogTitle dto)
    (so_ogDescription dto) (so_ogImageFileId dto) (so_structuredData dto) rs_active None).

Definition aux_listBuyingGuides : M (St Db) (list BuyingGuide) :=
  gets (λ s, order_desc_nulls_first kbg_published_at
    (where_ (λ g, live (kbg_deleted_at g) && bool_decide (kbg_status g = cps_published))
       (view L_BuyingGuide (tables s)))).

Definition aux_createBuyingGuide (dto : CreateBuyingGuideDto) (status : CmsPageStatus)
  : M (St Db) BuyingGuide :=
  connect_given T_MediaFile (bg_coverFileId dto) ;;
  db_create T_BuyingGuide (λ id, mkBuyingGuide id (bg_slug dto) (bg_title dto) (bg_excerpt dto)
    (bg_body dto) (reference_opt (bg_coverFileId dto) None) status None None).

Definition softDeleteBuyingGuide (id : string) : M (St Db) BuyingGuide :=
  now ← Date_now; db_update T_BuyingGuide id (archive_guide now).

(** The synonyms of a term, each with its keyword. *)
Definition expandSynonyms (term : string) : M (St Db) (list (SearchSynonym * SearchKeyword)) :=
  d ← gets tables;
  let keyword_of (s : SearchSynonym) := row_of T_SearchKeyword d (sy_keyword_id s) in
  rows ← db_findMany T_SearchSynonym (λ s, is_active (sy_status s) (sy_deleted_at s)
    && (iequals term (sy_synonym s)
        || match keyword_of s with
           | Some k => iequals term (sk_keyword k) && live (sk_deleted_at k)
           | None => false
           end));
  mret (omap (λ s, option_map (pair s) (keyword_of s)) rows).

Definition aux_listAttributes : M (St Db) (list (Attribute * list AttributeValue)) :=
  rows ← db_findMany_desc T_Attribute (λ a, is_active (kat_status a) (kat_deleted_at a))
    (λ a, - kat_sort_order a);
  gets (λ s, map (λ a, (a, order_desc (λ v, - kav_sort_order v)
    (where_ (λ v, String.eqb (kav_attribute_id v) (kat_id a) && is_active (kav_status v) (kav_deleted_at v))
       (view L_AttributeValue (tables s))))) rows).

Definition listApprovedReviews (productId : string) : M (St Db) (list ProductReview) :=
  rows ← db_findMany_desc T_ProductReview (λ r, String.eqb (krw_product_id r) productId
    && is_active (krw_status r) (krw_deleted_at r)) krw_created_at;
  mret (take 20 rows).
End repositories.

(** ** CatalogCacheService ([services/catalog-cache.service.ts]) *)

(** [createHash('sha1').update(text).digest('hex')] *)
Class Sha1 := sha1_hex : string → string.

Section cache.
Context `{Redis} {D : Type}.

(** The same steps as [CacheService.getOrSet]. *)
Definition cat_getOrSet (key : string) (factory : M (St D) Json) : M (St D) Json :=
  CacheService.getOrSet key factory CATALOG_CACHE.TTL.

Definition listHash `{JsonText, Sha1} (filters : Json) : string :=
  slice0 16 (sha1_hex (json_stringify filters)).

Definition invalidateAll : M (St D) () := _ ← CacheService.delByPrefix "catalog:"; mret tt.

Definition invalidateProduct (id : string) (slug : option string) : M (St D) () :=
  CacheService.del (CATALOG_CACHE.product id) ;;
  match slug with
  | Some ((String _ _) as slug) => CacheService.del (CATALOG_CACHE.product slug)
  | _ => mret tt
  end ;;
  CacheService.del CATALOG_CACHE.featured ;;
  CacheService.del CATALOG_CACHE.newest ;;
  CacheService.del CATALOG_CACHE.refurbished ;;
  _ ← CacheService.delByPrefix "catalog:products:list:"; mret tt.

Definition invalidateTaxonomy : M (St D) () :=
  CacheService.del CATALOG_CACHE.brands ;;
  CacheService.del CATALOG_CACHE.categories ;;
  CacheService.del CATALOG_CACHE.categoryTree ;;
  CacheService.del CATALOG_CACHE.collections ;;
  _ ← CacheService.delByPrefix "catalog:products:list:"; mret tt.
End cache.
