(* ===== verification/Catalog.v ===== *)
(** * Catalogue service

    Models [backend/src/modules/catalog/services/catalog.service.ts] and
    [mappers/catalog.mapper.ts]: the cached public reads, the search, the product
    page, and the administrator's writes, with their cache invalidation and events. *)
From S2P Require Import Prelude Core Effects Redis Lock JsNumber Rules Pagination Database Tables Payments Shipping Carrier Warranty CategoryTree CatalogStores Schema.
From Stdlib Require Import QArith.

#[local] Open Scope Z_scope.

(** ** Mappers ([mappers/catalog.mapper.ts]) *)

(** [dec] of a NUMERIC(_, 2) column. *)
Definition dec (value : option Z) : Json := jnumber value.

Definition mapBrand (b : Brand) : Json :=
  JObj [("id", JStr (kbr_id b)); ("name", JStr (kbr_name b)); ("slug", JStr (kbr_slug b));
        ("description", jnull_str (kbr_description b)); ("country", jnull_str (kbr_country b));
        ("website", jnull_str (kbr_website b)); ("sortOrder", JInt (kbr_sort_order b));
        ("logoFileId", jnull_str (kbr_logo_file_id b));
        ("status", JStr (RecordStatus_text (kbr_status b)))].

Definition mapCategory (c : Category) : Json :=
  JObj [("id", JStr (kca_id c)); ("parentId", jnull_str (kca_parent_id c)); ("name", JStr (kca_name c));
        ("slug", JStr (kca_slug c)); ("description", jnull_str (kca_description c));
        ("sortOrder", JInt (kca_sort_order c)); ("iconFileId", jnull_str (kca_icon_file_id c));
        ("bannerFileId", jnull_str (kca_banner_file_id c));
        ("status", JStr (RecordStatus_text (kca_status c)))].

Definition mapVariant (v : ProductVariant) : Json :=
  JObj [("id", JStr (pv_id v)); ("productId", JStr (pv_product_id v)); ("sku", JStr (pv_sku v));
        ("barcode", jnull_str (pv_barcode v)); ("ram", jnull_str (pv_ram v));
        ("storage", jnull_str (pv_storage v)); ("processor", jnull_str (pv_processor v));
        ("gpu", jnull_str (pv_gpu v)); ("displaySize", jnull_str (pv_display_size v));
        ("displayResolution", jnull_str (pv_display_resolution v));
        ("refreshRate", jnull_str (pv_refresh_rate v));
        ("operatingSystem", jnull_str (pv_operating_system v));
        ("keyboardLayout", jnull_str (pv_keyboard_layout v)); ("color", jnull_str (pv_color v));
        ("weight", jnull_str (pv_weight v)); ("batteryHealth", jnull_int (pv_battery_health v));
        ("condition", JStr (ProductCondition_text (pv_condition v)));
        ("grade", JStr (ProductGrade_text (pv_grade v))); ("mrp", dec (Some (pv_mrp v)));
        ("salePrice", dec (Some (pv_sale_price v)));
        ("discountPercent", dec (Some (pv_discount_percent v))); ("currency", JStr (pv_currency v));
        ("stockStatus", JStr (StockStatus_text (pv_stock_status v)));
        ("status", JStr (RecordStatus_text (pv_status v)))].

(** The variants on sale of a loaded product. *)
Definition on_sale (p : LoadedProduct) : list ProductVariant :=
  where_ (λ v, live (pv_deleted_at v) && bool_decide (pv_status v = rs_active)) (lp_variants p).

Definition sale_price (v : ProductVariant) : Q := cents (pv_sale_price v).

(** [prices.length ? Math.min(...prices) : null] *)
Definition priceFrom (p : LoadedProduct) : option Q :=
  match map sale_price (on_sale p) with
  | [] => None
  | x :: rest => Some (foldl js_min x rest)
  end.

(** [active.sort((a, b) => …)[0]] *)
Definition cheapest (p : LoadedProduct) : option ProductVariant := head (sort_by sale_price (on_sale p)).

Definition list_item_fields (p : LoadedProduct) : list (string * Json) :=
  let r := lp_row p in
  [("id", JStr (kpr_id r)); ("name", JStr (kpr_name r)); ("slug", JStr (kpr_slug r));
   ("shortDescription", jnull_str (kpr_short_description r));
   ("brand", JObj [("id", JStr (kbr_id (lp_brand p))); ("name", JStr (kbr_name (lp_brand p)));
                   ("slug", JStr (kbr_slug (lp_brand p)))]);
   ("category", JObj [("id", JStr (kca_id (lp_category p))); ("name", JStr (kca_name (lp_category p)));
                      ("slug", JStr (kca_slug (lp_category p)))]);
   ("isFeatured", JBool (kpr_is_featured r)); ("isRefurbished", JBool (kpr_is_refurbished r));
   ("isNewArrival", JBool (kpr_is_new_arrival r)); ("ratingAvg", JNum (cents (kpr_rating_avg r)));
   ("reviewCount", JInt (kpr_review_count r));
   ("priceFrom", match priceFrom p with Some q => JNum q | None => JNull end);
   ("currency", jnull_str (option_map pv_currency (cheapest p)));
   ("stockStatus", jnull_str (option_map (λ v, StockStatus_text (pv_stock_status v)) (cheapest p)))].

Definition mapProductListItem (p : LoadedProduct) : Json := JObj (list_item_fields p).

Definition detail_fields (p : LoadedProduct) : list (string * Json) :=
  let r := lp_row p in
  list_item_fields p
  ++ [("description", jnull_str (kpr_description r)); ("seoTitle", jnull_str (kpr_seo_title r));
      ("seoDescription", jnull_str (kpr_seo_description r));
      ("metaKeywords", jnull_str (kpr_meta_keywords r));
      ("canonicalUrl", jnull_str (kpr_canonical_url r)); ("isOpenBox", JBool (kpr_is_open_box r));
      ("productTypeId", JStr (kpr_product_type_id r));
      ("variants", JArr (map mapVariant (where_ (λ v, live (pv_deleted_at v)) (lp_variants p))))].

Definition mapProductDetail (p : LoadedProduct) : Json := JObj (detail_fields p).

(** ** Configuration and object storage *)

(** What is put into the storage: a text, or an uploaded file, known by its size. *)
Inductive StoredBody := body_text (text : string) | body_file (size : Z).

(** [storage.publicUrl] and [storage.bucket]; what [put] of the driver does; the
    uuid that [randomUUID] draws. *)
Class CatalogStorage `{Redis} := {
  storage_publicUrl : option string;
  storage_bucket : option string;
  storage_put (objectKey contentType : string) (body : StoredBody) : Env → outcome () * Env;
  random_uuid : nat → string;
}.

(** [replace(/\/$/, '')] and [replace(/^\//, '')] *)
Fixpoint drop_last_slash (s : string) : string :=
  match s with
  | "" => ""
  | String c "" => if Ascii.eqb c "/" then "" else s
  | String c rest => String c (drop_last_slash rest)
  end.
Definition drop_first_slash (s : string) : string :=
  match s with String c rest => if Ascii.eqb c "/" then rest else s | "" => "" end.

(** [extname] of [node:path]: from the last dot of the last component, unless the
    name starts with that dot or is [..]. *)
Fixpoint after_last (sep : ascii) (acc : string) (s : string) : string :=
  match s with
  | "" => acc
  | String c rest => after_last sep (if Ascii.eqb c sep then rest else acc) rest
  end.
Fixpoint drop_last_slashes (fuel : nat) (s : string) : string :=
  match fuel with O => s | S n => drop_last_slashes n (drop_last_slash s) end.
Fixpoint from_last_dot (acc s : string) : string :=
  match s with
  | "" => acc
  | String c rest => from_last_dot (if Ascii.eqb c "." then s else acc) rest
  end.
Definition extname (path : string) : string :=
  let name := drop_last_slashes (String.length path) path in
  let base := after_last "/" name name in
  match base with
  | "" | ".." => ""
  | String _ rest => from_last_dot "" rest
  end.

Section service.
  Context `{Redis, !Scheduler, !Crypto, !Postgres, !ServerText, !TextSearch, !TextEqual, !JsLibrary,
    !JsonText, !Sha1, !DateText, !CatalogStorage}.

Definition mediaPublicUrl (objectKey : string) : string :=
  let lower := toLowerCase objectKey in
  if String.prefix "http://" lower || String.prefix "https://" lower then objectKey
  else drop_last_slash (coalesce storage_publicUrl "http://localhost:3051/uploads")
       +:+ "/" +:+ drop_first_slash objectKey.

(** ** Public reads *)

Definition listBrands : M (St Db) Json :=
  cat_getOrSet CATALOG_CACHE.brands (rows ← brand_listActive; mret (JArr (map mapBrand rows))).

Definition listProductTypes : M (St Db) Json :=
  cat_getOrSet CATALOG_CACHE.productTypes
    (rows ← db_findMany T_ProductType (λ t, is_active (kpt_status t) (kpt_deleted_at t));
     mret (JArr (map (λ t, JObj [("id", JStr (kpt_id t)); ("code", JStr (kpt_code t));
                                 ("name", JStr (kpt_name t));
                                 ("description", jnull_str (kpt_description t))])
                   (order_text kpt_name rows)))).

Definition listCategories : M (St Db) Json :=
  cat_getOrSet CATALOG_CACHE.categories (rows ← category_listActive; mret (JArr (map mapCategory rows))).

Definition categoryTree : M (St Db) Json :=
  cat_getOrSet CATALOG_CACHE.categoryTree
    (rows ← category_listActive; mret (JArr (map tree_json (buildCategoryTree rows)))).

Definition listCollections : M (St Db) Json :=
  cat_getOrSet CATALOG_CACHE.collections
    (rows ← collection_listActive;
     mret (JArr (map (λ cn, let '(c, n) := (cn : Collection * Z) in
       JObj [("id", JStr (kcn_id c)); ("name", JStr (kcn_name c)); ("slug", JStr (kcn_slug c));
             ("description", jnull_str (kcn_description c)); ("mediaFileId", jnull_str (kcn_media_file_id c));
             ("isAutomatic", JBool (kcn_is_automatic c)); ("productCount", JInt n)]) rows))).

(** [dto.attributes.split(',').map((s) => s.trim()).filter(Boolean)] *)
Fixpoint split_comma (acc s : string) : list string :=
  match s with
  | "" => [acc]
  | String c rest => if Ascii.eqb c "," then acc :: split_comma "" rest
                     else split_comma (acc +:+ String c "") rest
  end.

Definition toFilters (dto : ProductSearchDto) : ProductSearchFilters :=
  mkFilters (ps_q dto) (ps_brandId dto) (ps_brandSlug dto) (ps_categoryId dto) (ps_categorySlug dto)
    (ps_collectionId dto) (ps_collectionSlug dto) (ps_minPrice dto) (ps_maxPrice dto)
    (ps_condition dto) (ps_availability dto)
    (match ps_attributes dto with
     | Some ((String _ _) as s) => Some (where_ (λ x, negb (String.eqb x "")) (map trim (split_comma "" s)))
     | _ => None
     end)
    (ps_minRating dto) (same_opt (ps_featured dto) (Some "true"))
    (same_opt (ps_refurbished dto) (Some "true")) (same_opt (ps_newArrival dto) (Some "true"))
    (ps_sort dto) (ps_page dto) (ps_limit dto).

Definition jnum_field (k : string) (v : option Q) : list (string * Json) :=
  match v with Some q => [(k, JNum q)] | None => [] end.

(** [JSON.stringify(filters)] writes the fields that are given. *)
Definition filters_json (f : ProductSearchFilters) : Json :=
  JObj (jopt "q" (pf_q f) ++ jopt "brandId" (pf_brandId f) ++ jopt "brandSlug" (pf_brandSlug f)
    ++ jopt "categoryId" (pf_categoryId f) ++ jopt "categorySlug" (pf_categorySlug f)
    ++ jopt "collectionId" (pf_collectionId f) ++ jopt "collectionSlug" (pf_collectionSlug f)
    ++ jnum_field "minPrice" (pf_minPrice f) ++ jnum_field "maxPrice" (pf_maxPrice f)
    ++ jopt "condition" (pf_condition f) ++ jopt "availability" (pf_availability f)
    ++ match pf_attributes f with Some xs => [("attributes", JArr (map JStr xs))] | None => [] end
    ++ jnum_field "minRating" (pf_minRating f)
    ++ [("featured", JBool (pf_featured f)); ("refurbished", JBool (pf_refurbished f));
        ("newArrival", JBool (pf_newArrival f))]
    ++ jopt "sort" (pf_sort f) ++ jnum_field "page" (option_map inject_Z (pf_page f))
    ++ jnum_field "limit" (option_map inject_Z (pf_limit f))).

Definition set_q (q : string) (f : ProductSearchFilters) : ProductSearchFilters :=
  mkFilters (Some q) (pf_brandId f) (pf_brandSlug f) (pf_categoryId f) (pf_categorySlug f)
    (pf_collectionId f) (pf_collectionSlug f) (pf_minPrice f) (pf_maxPrice f) (pf_condition f)
    (pf_availability f) (pf_attributes f) (pf_minRating f) (pf_featured f) (pf_refurbished f)
    (pf_newArrival f) (pf_sort f) (pf_page f) (pf_limit f).

(** The query with its synonyms: [[q, ...expanded].join(' ')]. *)
Definition with_synonyms (f : ProductSearchFilters) : M (St Db) ProductSearchFilters :=
  match option_map trim (pf_q f) with
  | Some ((String _ _) as q) =>
      syn ← expandSynonyms q;
      if is_nil syn then mret f
      else
        let expanded := where_ (λ s, negb (String.eqb s ""))
          (flat_map (λ s : SearchSynonym * SearchKeyword, [sy_synonym s.1; sk_keyword s.2]) syn) in
        mret (set_q (join " " (q :: expanded)) f)
  | _ => mret f
  end.

Definition paginated_json (p : list Json * PaginationMeta) : Json :=
  let m := p.2 in
  JObj [("data", JArr p.1);
        ("meta", JObj [("page", JInt (pg_page m)); ("limit", JInt (pg_limit m));
                       ("total", JInt (pg_total m)); ("totalPages", jnull_int (pg_totalPages m));
                       ("hasNextPage", JBool (pg_hasNextPage m));
                       ("hasPreviousPage", JBool (pg_hasPreviousPage m))])].

Definition search_body (filters : ProductSearchFilters) : M (St Db) Json :=
  filters ← with_synonyms filters;
  r ← product_search filters;
  mret (paginated_json (paginatedResult (map mapProductListItem (sr_data r)) (sr_page r) (sr_limit r)
          (sr_total r))).

Definition searchProducts (dto : ProductSearchDto) : M (St Db) Json :=
  let filters := toFilters dto in
  cat_getOrSet (CATALOG_CACHE.productList (listHash (filters_json filters))) (search_body filters).

(** A search for the first twenty, newest first. *)
Definition first_twenty (featured refurbished newArrival : option string) : ProductSearchDto :=
  mkProductSearchDto None None None None None None None None None None None None None
    featured refurbished newArrival (Some "newest") None (Some 20).

Definition featuredProducts : M (St Db) Json :=
  cat_getOrSet CATALOG_CACHE.featured (searchProducts (first_twenty (Some "true") None None)).
Definition newProducts : M (St Db) Json :=
  cat_getOrSet CATALOG_CACHE.newest (searchProducts (first_twenty None None (Some "true"))).
Definition refurbishedProducts : M (St Db) Json :=
  cat_getOrSet CATALOG_CACHE.refurbished (searchProducts (first_twenty None (Some "true") None)).

(** ** The product page *)

Definition spec_json (s : LoadedSpecification) : Json :=
  JObj [("id", JStr (ksp_id (ls_row s))); ("name", JStr (ksp_name (ls_row s)));
        ("value", JStr (ksp_value (ls_row s)));
        ("group", JObj [("id", JStr (ksg_id (ls_group s))); ("code", JStr (ksg_code (ls_group s)));
                        ("name", JStr (ksg_name (ls_group s)))]);
        ("sortOrder", JInt (ksp_sort_order (ls_row s)))].

Definition file_fields (f : MediaFile) : list (string * Json) :=
  [("id", JStr (kmf_id f)); ("bucket", JStr (kmf_bucket f)); ("objectKey", JStr (kmf_object_key f));
   ("mimeType", JStr (kmf_mime_type f))].

Definition media_fields (m : LoadedMedia) (file : list (string * Json)) : Json :=
  JObj [("id", JStr (kmd_id (lm_row m))); ("altText", jnull_str (kmd_alt_text (lm_row m)));
        ("isPrimary", JBool (kmd_is_primary (lm_row m)));
        ("sortOrder", JInt (kmd_sort_order (lm_row m)));
        ("url", JStr (mediaPublicUrl (kmf_object_key (lm_file m))));
        ("file", JObj file)].

Definition media_json (m : LoadedMedia) : Json :=
  media_fields m (file_fields (lm_file m) ++ [("kind", JStr (MediaKind_text (kmf_kind (lm_file m))))]).

Definition video_json (m : LoadedMedia) : Json :=
  JObj [("id", JStr (kmd_id (lm_row m))); ("altText", jnull_str (kmd_alt_text (lm_row m)));
        ("url", JStr (mediaPublicUrl (kmf_object_key (lm_file m))));
        ("file", JObj (file_fields (lm_file m) ++ [("durationMs", jnull_int (kmf_duration_ms (lm_file m)))]))].

Definition review_json (r : ProductReview) : Json :=
  JObj [("id", JStr (krw_id r)); ("rating", JInt (krw_rating r)); ("title", jnull_str (krw_title r));
        ("body", jnull_str (krw_body r)); ("helpfulCount", JInt (krw_helpful_count r));
        ("verifiedPurchase", JBool (krw_is_verified_purchase r)); ("createdAt", JInt (krw_created_at r))].

Definition seo_json (row : Product) (seo : option SeoMetadata) : Json :=
  match seo with
  | Some m =>
      JObj [("metaTitle", jnull_str (keep (ksm_meta_title m) (kpr_seo_title row)));
            ("metaDescription", jnull_str (keep (ksm_meta_description m) (kpr_seo_description row)));
            ("canonicalUrl", jnull_str (keep (ksm_canonical_url m) (kpr_canonical_url row)));
            ("ogTitle", jnull_str (ksm_og_title m)); ("ogDescription", jnull_str (ksm_og_description m));
            ("ogImageFileId", jnull_str (ksm_og_image_file_id m));
            ("structuredData", coalesce (ksm_structured_data m) JNull)]
  | None =>
      JObj [("metaTitle", jnull_str (kpr_seo_title row));
            ("metaDescription", jnull_str (kpr_seo_description row));
            ("canonicalUrl", jnull_str (kpr_canonical_url row)); ("ogTitle", jnull_str (kpr_seo_title row));
            ("ogDescription", jnull_str (kpr_seo_description row)); ("ogImageFileId", JNull);
            ("structuredData", JNull)]
  end.

(** The products of the category, for the related ones. *)
Definition related_filters (categoryId : string) : ProductSearchFilters :=
  mkFilters None None None (Some categoryId) None None None None None None None None None false false
    false None (Some 1) (Some 8).

Definition relatedProducts (row : Product) (related : SearchResult) : list LoadedProduct :=
  take 6 (where_ (λ p, negb (String.eqb (kpr_id (lp_row p)) (kpr_id row))) (sr_data related)).

Definition product_page (p : LoadedProduct) : M (St Db) Json :=
  let row := lp_row p in
  specs ← specifications (kpr_id row);
  media ← media (kpr_id row);
  videos ← videos (kpr_id row);
  seo ← findSeo sen_product (Some (kpr_id row)) (Some (kpr_slug row));
  reviews ← listApprovedReviews (kpr_id row);
  related ← product_search (related_filters (kpr_category_id row));
  crumbs ← breadcrumb (kpr_category_id row);
  mret (JObj (detail_fields p
    ++ [("specifications", JArr (map spec_json specs)); ("media", JArr (map media_json media));
        ("videos", JArr (map video_json videos)); ("questions", JArr []);
        ("reviews", JArr (map review_json reviews));
        ("relatedProducts", JArr (map mapProductListItem (relatedProducts row related)));
        ("breadcrumbs", JArr (map (λ c, JObj [("id", JStr (kca_id c)); ("name", JStr (kca_name c));
                                              ("slug", JStr (kca_slug c))]) crumbs));
        ("seo", seo_json row seo)])).

Definition not_found (what : string) : exn := AppException NOT_FOUND (what +:+ " not found") 404.

(** The product that a page is asked for, if it is on sale. *)
Definition find_page (idOrSlug : string) : M (St Db) LoadedProduct :=
  row ← (if UUID_RE idOrSlug then product_findById idOrSlug else product_findBySlug idOrSlug);
  require_ (match row with
            | Some p => if bool_decide (kpr_status (lp_row p) = rs_active) then Some p else None
            | None => None
            end) (not_found "Product").

Definition getProduct (idOrSlug : string) : M (St Db) Json :=
  cat_getOrSet (CATALOG_CACHE.product idOrSlug)
    (row ← find_page idOrSlug; product_page row).

(** ** Guards *)

Definition requireBrand (id : string) : M (St Db) Brand :=
  row ← brand_findById id; require_ row (not_found "Brand").
Definition requireCategory (id : string) : M (St Db) Category :=
  row ← category_findById id; require_ row (not_found "Category").
Definition requireProduct (id : string) : M (St Db) LoadedProduct :=
  row ← product_findById id; require_ row (not_found "Product").
Definition requireCollection (id : string) : M (St Db) Collection :=
  row ← collection_findById id; require_ row (not_found "Collection").
Definition requireVariant (id : string) : M (St Db) ProductVariant :=
  row ← variant_findById id; require_ row (not_found "Variant").

Definition taken {A} (found : option A) (what : string) : M (St Db) () :=
  throw_if (bool_decide (is_Some found)) (AppException CONFLICT (what +:+ " already exists") 409).

Definition assertBrandSlugFree (slug : string) : M (St Db) () :=
  found ← brand_findBySlug slug; taken found "Brand slug".
Definition assertCategorySlugFree (slug : string) : M (St Db) () :=
  found ← category_findBySlug slug; taken found "Category slug".
Definition assertProductSlugFree (slug : string) : M (St Db) () :=
  found ← product_findBySlug slug; taken found "Product slug".
Definition assertCollectionSlugFree (slug : string) : M (St Db) () :=
  found ← collection_findBySlug slug; taken found "Collection slug".
Definition assertSkuFree (sku : string) : M (St Db) () :=
  found ← variant_findBySku sku; taken found "SKU".

(** [if (dto.x && dto.x !== existing.x) check(dto.x)] *)
Definition when_changed (new : option string) (old : string) (check : string → M (St Db) ())
  : M (St Db) () :=
  match new with
  | Some ((String _ _) as x) => when_ (negb (String.eqb x old)) (check x)
  | _ => mret tt
  end.

(** [if (dto.xId) await this.requireX(dto.xId)] *)
Definition when_given {A} (id : option string) (check : string → M (St Db) A) : M (St Db) () :=
  match id with
  | Some ((String _ _) as x) => _ ← check x; mret tt
  | _ => mret tt
  end.

Definition deleted_view (id : string) : Json := JObj [("id", JStr id); ("deleted", JBool true)].

(** ** Brands *)

Definition createBrand (dto : CreateBrandDto) : M (St Db) Json :=
  assertBrandSlugFree (cb_slug dto) ;;
  brand ← brand_create dto;
  invalidateTaxonomy ;;
  emit (BrandCreatedEvent (kbr_id brand) (kbr_slug brand)) ;;
  mret (mapBrand brand).

Definition updateBrand (id : string) (dto : UpdateBrandDto) : M (St Db) Json :=
  existing ← requireBrand id;
  when_changed (ub_slug dto) (kbr_slug existing) assertBrandSlugFree ;;
  brand ← brand_update id dto;
  invalidateTaxonomy ;;
  mret (mapBrand brand).

Definition deleteBrand (id : string) : M (St Db) Json :=
  _ ← requireBrand id;
  _ ← brand_softDelete id;
  invalidateTaxonomy ;;
  mret (deleted_view id).

(** ** Categories *)

Definition createCategory (dto : CreateCategoryDto) : M (St Db) Json :=
  assertCategorySlugFree (cy_slug dto) ;;
  when_given (cy_parentId dto) requireCategory ;;
  category ← category_create dto;
  invalidateTaxonomy ;;
  emit (CategoryCreatedEvent (kca_id category) (kca_slug category)) ;;
  mret (mapCategory category).

Definition updateCategory (id : string) (dto : UpdateCategoryDto) : M (St Db) Json :=
  existing ← requireCategory id;
  when_changed (uc_slug dto) (kca_slug existing) assertCategorySlugFree ;;
  when_given (uc_parentId dto) requireCategory ;;
  category ← category_update id dto;
  invalidateTaxonomy ;;
  mret (mapCategory category).

Definition deleteCategory (id : string) : M (St Db) Json :=
  _ ← requireCategory id;
  _ ← category_softDelete id;
  invalidateTaxonomy ;;
  mret (deleted_view id).

(** ** Collections *)

Definition createCollection (dto : CreateCollectionDto) : M (St Db) Collection :=
  assertCollectionSlugFree (cl_slug dto) ;;
  collection ← collection_create dto;
  let productIds := coalesce (cl_productIds dto) [] in
  when_ (negb (is_nil productIds)) (replaceProducts (kcn_id collection) productIds) ;;
  invalidateTaxonomy ;;
  mret collection.

Definition updateCollection (id : string) (dto : UpdateCollectionDto) : M (St Db) Collection :=
  existing ← requireCollection id;
  when_changed (ul_slug dto) (kcn_slug existing) assertCollectionSlugFree ;;
  collection ← db_update T_Collection id (set_collection dto);
  match ul_productIds dto with
  | Some productIds => replaceProducts id productIds
  | None => mret tt
  end ;;
  invalidateTaxonomy ;;
  mret collection.

Definition deleteCollection (id : string) : M (St Db) Json :=
  _ ← requireCollection id;
  _ ← collection_softDelete id;
  invalidateTaxonomy ;;
  mret (deleted_view id).

Definition assignCollectionProducts (id : string) (productIds : list string) : M (St Db) Json :=
  _ ← requireCollection id;
  replaceProducts id productIds ;;
  invalidateTaxonomy ;;
  mret (JObj [("id", JStr id); ("productIds", JArr (map JStr productIds))]).

(** ** Products *)

Definition createProduct_body (dto : CreateProductDto) : M (St Db) Json :=
  assertProductSlugFree (cp_slug dto) ;;
  _ ← requireBrand (cp_brandId dto);
  _ ← requireCategory (cp_categoryId dto);
  product ← product_create dto;
  let row := lp_row product in
  invalidateProduct (kpr_id row) (Some (kpr_slug row)) ;;
  invalidateTaxonomy ;;
  emit (ProductCreatedEvent (kpr_id row) (kpr_slug row)) ;;
  mret (mapProductDetail product).

Definition createProduct (dto : CreateProductDto) : M (St Db) Json :=
  LockService.withLock (LockService.resourceKey ["catalog"; "product-slug"; cp_slug dto])
    (createProduct_body dto) (lock_opts 10000 3000).

Definition updateProduct (id : string) (dto : UpdateProductDto) : M (St Db) Json :=
  existing ← requireProduct id;
  when_changed (up_slug dto) (kpr_slug (lp_row existing)) assertProductSlugFree ;;
  when_given (up_brandId dto) requireBrand ;;
  when_given (up_categoryId dto) requireCategory ;;
  product ← product_update id dto;
  let row := lp_row product in
  invalidateProduct (kpr_id row) (Some (kpr_slug row)) ;;
  emit (ProductUpdatedEvent (kpr_id row) (kpr_slug row)) ;;
  mret (mapProductDetail product).

Definition deleteProduct (id : string) : M (St Db) Json :=
  existing ← requireProduct id;
  _ ← product_softDelete id;
  invalidateProduct id (Some (kpr_slug (lp_row existing))) ;;
  emit (ProductDeletedEvent id (kpr_slug (lp_row existing))) ;;
  mret (deleted_view id).

(** ** Variants *)

(** Whatever goes wrong with the attribute values is answered as a bad request. *)
Definition try_attribute_values (variantId : string) (ids : list string) : M (St Db) () :=
  try_catch (setAttributeValues variantId ids)
    (λ _, throw (AppException BAD_REQUEST "Invalid attribute values" 400)).

Definition as_condition (s : option string) : M (St Db) (option ProductCondition) :=
  enum_opt "condition" ProductCondition_text ProductCondition_members s.
Definition as_stock_status (s : option string) : M (St Db) (option StockStatus) :=
  enum_opt "stock_status" StockStatus_text StockStatus_members s.

Definition createVariant_body (dto : CreateVariantDto) : M (St Db) Json :=
  _ ← requireProduct (vt_productId dto);
  assertSkuFree (vt_sku dto) ;;
  condition ← as_condition (vt_condition dto);
  grade ← enum_opt "grade" ProductGrade_text ProductGrade_members (vt_grade dto);
  stock ← as_stock_status (vt_stockStatus dto);
  variant ← variant_create dto (coalesce condition pcd_new_sealed) (coalesce grade pgr_ungraded)
              (coalesce stock sks_in_stock);
  let values := coalesce (vt_attributeValueIds dto) [] in
  when_ (negb (is_nil values)) (try_attribute_values (pv_id variant) values) ;;
  invalidateProduct (vt_productId dto) None ;;
  emit (VariantCreatedEvent (pv_id variant) (vt_productId dto) (pv_sku variant)) ;;
  mret (mapVariant variant).

Definition createVariant (dto : CreateVariantDto) : M (St Db) Json :=
  LockService.withLock (LockService.resourceKey ["catalog"; "sku"; vt_sku dto])
    (createVariant_body dto) (lock_opts 10000 3000).

Definition updateVariant (id : string) (dto : UpdateVariantDto) : M (St Db) Json :=
  existing ← requireVariant id;
  when_changed (uv_sku dto) (pv_sku existing) assertSkuFree ;;
  condition ← as_condition (uv_condition dto);
  stock ← as_stock_status (uv_stockStatus dto);
  variant ← db_update T_ProductVariant id (set_variant dto condition stock);
  match uv_attributeValueIds dto with
  | Some values => try_attribute_values id values
  | None => mret tt
  end ;;
  invalidateProduct (pv_product_id existing) None ;;
  mret (mapVariant variant).

Definition deleteVariant (id : string) : M (St Db) Json :=
  existing ← requireVariant id;
  _ ← variant_softDelete id;
  invalidateProduct (pv_product_id existing) None ;;
  mret (deleted_view id).

(** ** Media *)

Definition productSpecifications (id : string) : M (St Db) (list LoadedSpecification) :=
  _ ← requireProduct id; specifications id.

Definition with_size (fields : list (string * Json)) (f : MediaFile) : list (string * Json) :=
  fields ++ [("byteSize", JNum (fl (inject_Z (kmf_byte_size f))))].

Definition productMedia (id : string) : M (St Db) Json :=
  _ ← requireProduct id;
  rows ← media id;
  mret (JArr (map (λ m, media_fields m (with_size
    (file_fields (lm_file m) ++ [("kind", JStr (MediaKind_text (kmf_kind (lm_file m))))]) (lm_file m))) rows)).

Definition productVideos (id : string) : M (St Db) Json :=
  _ ← requireProduct id;
  rows ← videos id;
  mret (JArr (map (λ m, JObj [("id", JStr (kmd_id (lm_row m))); ("altText", jnull_str (kmd_alt_text (lm_row m)));
    ("file", JObj (with_size
      (file_fields (lm_file m) ++ [("durationMs", jnull_int (kmf_duration_ms (lm_file m)))]) (lm_file m)))])
    rows)).

Definition productQuestions (id : string) : M (St Db) Json :=
  _ ← requireProduct id; mret (JArr []).

Definition listAttributes : M (St Db) (list (Attribute * list AttributeValue)) := aux_listAttributes.

Definition attachMedia (productId : string) (dto : AttachProductMediaDto) : M (St Db) Json :=
  _ ← requireProduct productId;
  row ← aux_attachMedia productId dto;
  invalidateProduct productId None ;;
  mret (media_fields row (file_fields (lm_file row))).

(** The file of a request: its type, its name, its size and the length of its buffer. *)
Record UploadedFile := mkUploadedFile {
  uf_mimetype : string; uf_originalname : option string; uf_size : Z; uf_length : Z;
}.

Definition upload_ext (originalname : option string) : string :=
  match toLowerCase (extname (coalesce originalname "")) with "" => ".jpg" | ext => ext end.

Definition uploadMediaFile (file : UploadedFile) : M (St Db) Json :=
  now ← Date_now;
  uuid ← draw random_uuid;
  let objectKey := "products/" +:+ slice0 10 (iso_text now) +:+ "/" +:+ uuid
                   +:+ upload_ext (uf_originalname file) in
  let bucket := coalesce storage_bucket "electronics-cart" in
  let size := if uf_size file =? 0 then uf_length file else uf_size file in
  gateway (storage_put objectKey (uf_mimetype file) (body_file size)) ;;
  row ← db_create T_MediaFile (λ id, mkMediaFile id bucket objectKey (uf_mimetype file) size None mk_image
          (match uf_originalname file with
           | Some ((String _ _) as name) => Some (slice0 255 name)
           | _ => None
           end) rs_active None);
  mret (JObj [("id", JStr (kmf_id row)); ("bucket", JStr (kmf_bucket row));
              ("objectKey", JStr (kmf_object_key row)); ("mimeType", JStr (kmf_mime_type row));
              ("url", JStr (mediaPublicUrl (kmf_object_key row)))]).

Definition deleteMedia (productId mediaId : string) : M (St Db) Json :=
  _ ← requireProduct productId;
  _ ← softDeleteMedia mediaId;
  invalidateProduct productId None ;;
  mret (deleted_view mediaId).

Definition addSpecification (productId : string) (dto : CreateSpecificationDto)
  : M (St Db) ProductSpecification :=
  _ ← requireProduct productId;
  row ← createSpecification productId dto;
  invalidateProduct productId None ;;
  mret row.

Definition deleteSpecification (productId specId : string) : M (St Db) Json :=
  _ ← requireProduct productId;
  _ ← softDeleteSpecification specId;
  invalidateProduct productId None ;;
  mret (deleted_view specId).

(** ** Badges, SEO, buying guides *)

Definition createBadge (dto : CreateBadgeDto) : M (St Db) ProductBadge := aux_createBadge dto.
Definition listBadges : M (St Db) (list ProductBadge) := aux_listBadges.

Definition assignBadge (dto : AssignBadgeDto) : M (St Db) ProductBadgeAssignment :=
  _ ← requireProduct (ab_productId dto);
  row ← aux_assignBadge (ab_badgeId dto) (ab_productId dto);
  invalidateProduct (ab_productId dto) None ;;
  mret row.

Definition upsertSeo (dto : UpsertSeoDto) : M (St Db) SeoMetadata :=
  entityType ← as_enum "entity_type" SeoEntityType_text SeoEntityType_members (so_entityType dto);
  aux_upsertSeo entityType dto.

Definition createBuyingGuide (dto : CreateBuyingGuideDto) : M (St Db) BuyingGuide :=
  status ← enum_opt "status" CmsPageStatus_text CmsPageStatus_members (bg_status dto);
  aux_createBuyingGuide dto (coalesce status cps_draft).

Definition listBuyingGuides : M (St Db) (list BuyingGuide) := aux_listBuyingGuides.

Definition deleteBuyingGuide (id : string) : M (St Db) Json :=
  _ ← softDeleteBuyingGuide id; mret (deleted_view id).
End service.
