(* ===== verification/CatalogRules.v ===== *)
(** * Catalogue rules: what the shelves guarantee

    Whatever the administrator's requests do and however each ends: the live slugs
    and SKUs stay unique, prices coherent, references sound; no row vanishes and a
    deleted one never changes again. A search lists exactly the matching products;
    a collection gets exactly the products it is assigned, or keeps its own; and
    examples of where the code falls short of its intent. *)
From S2P Require Import Prelude Core Effects Redis Lock JsNumber Rules Pagination Database Tables Sample Payments Shipping Carrier Warranty CategoryTree CatalogStores Catalog Schema.
From Stdlib Require Import QArith.

#[local] Open Scope Z_scope.

(** ** Shelves: tables of rows with a name that are archived, not deleted *)

(** [shelf_slug] names the live rows; [shelf_check] is what the table's constraints
    say of one row; [shelf_same] is what an update leaves alone. *)
Record Shelf (A : Type) := mkShelf {
  shelf_table : Table A;
  shelf_deleted : A → option Z;
  shelf_status : A → RecordStatus;
  shelf_slug : A → string;
  shelf_check : A → Prop;
  shelf_same : relation A;
}.
Arguments mkShelf {A} _ _ _ _ _ _.
Arguments shelf_table {A} _.
Arguments shelf_deleted {A} _ _.
Arguments shelf_status {A} _ _.
Arguments shelf_slug {A} _ _.
Arguments shelf_check {A} _ _.
Arguments shelf_same {A} _ _ _.

Definition on_shelf {A} (S : Shelf A) (r : A) : Prop := live (shelf_deleted S r) = true.

(** What the database promises of a row that it accepts. *)
Class ShelfLaws {A} (S : Shelf A) : Prop := {
  shelf_accepts d r : refused (shelf_table S) d r = None →
    shelf_check S r
    ∧ (on_shelf S r → ∀ x, x ∈ view (tbl (shelf_table S)) d → on_shelf S x →
       shelf_slug S x = shelf_slug S r → pk (shelf_table S) x = pk (shelf_table S) r);
  #[global] shelf_same_preorder :: PreOrder (shelf_same S);
}.

Section shelf.
Context {A : Type} (S : Shelf A) `{!ShelfLaws S}.
Notation key := (pk (shelf_table S)).
Notation rows d := (view (tbl (shelf_table S)) d).

(** Distinct keys, distinct names on the shelf, coherent rows, and a row that is
    off the shelf is archived. *)
Definition tidy (l : list A) : Prop :=
  NoDup (map key l)
  ∧ (∀ x y, x ∈ l → y ∈ l → on_shelf S x → on_shelf S y → shelf_slug S x = shelf_slug S y → key x = key y)
  ∧ Forall (λ r, shelf_check S r ∧ (on_shelf S r ∨ shelf_status S r = rs_archived)) l.

(** No row vanishes, and one off the shelf never changes. *)
Definition remembered (l l' : list A) : Prop :=
  ∀ r, r ∈ l → ∃ r', r' ∈ l' ∧ key r' = key r ∧ shelf_same S r r' ∧ (on_shelf S r ∨ r' = r).

Lemma remembered_refl l : remembered l l.
Proof. intros r I. exists r. split_and!; [done..|reflexivity|by right]. Qed.

Lemma remembered_trans l1 l2 l3 : remembered l1 l2 → remembered l2 l3 → remembered l1 l3.
Proof.
  intros R12 R23 r I. destruct (R12 r I) as (r2 & I2 & K2 & S2 & D2), (R23 r2 I2) as (r3 & I3 & K3 & S3 & D3).
  exists r3. split_and!; [done|congruence|by etrans|]. destruct D2 as [?| ->]; [by left|done].
Qed.

Lemma remembered_keys l l' k : remembered l l' → k ∈ map key l → k ∈ map key l'.
Proof.
  intros R (r & -> & I)%list_elem_of_fmap. destruct (R r I) as (r' & I' & <- & _). by apply list_elem_of_fmap_2.
Qed.

Lemma shelf_added d r :
  tidy (rows d) → key r ∉ map key (rows d) → refused (shelf_table S) d r = None →
  on_shelf S r ∨ shelf_status S r = rs_archived →
  tidy (rows d ++ [r]) ∧ remembered (rows d) (rows d ++ [r]).
Proof.
  intros (N & U & C) F Acc D. destruct (shelf_accepts d r Acc) as [Chk Uniq]. split; [split_and!|].
  - by apply NoDup_snoc.
  - intros x y [X|X%list_elem_of_singleton]%elem_of_app [Y|Y%list_elem_of_singleton]%elem_of_app; subst; try done;
      [by apply U|by intros; apply Uniq|]. intros. symmetry. by apply Uniq.
  - apply Forall_app. split; [done|]. by apply Forall_singleton.
  - intros x I. exists x. split_and!; [set_solver|done|reflexivity|by right].
Qed.

Lemma shelf_updated d r f :
  tidy (rows d) → r ∈ rows d → on_shelf S r → refused (shelf_table S) d (f r) = None →
  (∀ x, key (f x) = key x) → shelf_same S r (f r) → on_shelf S (f r) ∨ shelf_status S (f r) = rs_archived →
  tidy (update_rows key (key r) f (rows d)) ∧ remembered (rows d) (update_rows key (key r) f (rows d)).
Proof.
  intros (N & U & C) I L Acc K Sm D. destruct (shelf_accepts d (f r) Acc) as [Chk Uniq].
  assert (R : ∀ x, x ∈ rows d → key x = key r → x = r) by (intros; by eapply (NoDup_key_eq key)).
  split; [split_and!|].
  - by rewrite update_rows_keys.
  - intros x y X Y. apply elem_of_update_rows in X as (x0 & X & [[E ->]|[E ->]]), Y as (y0 & Y & [[E' ->]|[E' ->]]);
      try (apply R in E; [subst x0|done]); try (apply R in E'; [subst y0|done]); intros.
    + done.
    + symmetry. by apply Uniq.
    + by apply Uniq.
    + by apply U.
  - apply Forall_update_rows; [done|]. intros x X E%R _; [|done]. by subst.
  - intros x X. destruct (String.eqb_spec (key x) (key r)) as [E|E].
    + apply R in E; [|done]. subst x. exists (f r). split_and!; [|apply K|done|by left].
      apply list_elem_of_fmap. exists r. by rewrite String.eqb_refl.
    + exists x. split_and!; [|done|reflexivity|by right]. apply list_elem_of_fmap. exists x.
      by destruct (String.eqb_spec (key x) (key r)).
Qed.
End shelf.

(** ** The five shelves *)

Notation brands d := (view L_Brand d).
Notation categories_of d := (view L_Category d).
Notation collections d := (view L_Collection d).
Notation products d := (view L_Product d).
Notation variants d := (view L_ProductVariant d).

Definition brand_shelf : Shelf Brand :=
  mkShelf T_Brand kbr_deleted_at kbr_status kbr_slug (λ _, True) (λ _ _, True).

(** No category is its own parent. *)
Definition category_shelf : Shelf Category :=
  mkShelf T_Category kca_deleted_at kca_status kca_slug
    (λ c, kca_parent_id c ≠ Some (kca_id c)) (λ _ _, True).

Definition collection_shelf : Shelf Collection :=
  mkShelf T_Collection kcn_deleted_at kcn_status kcn_slug (λ _, True)
    (λ c c', kcn_media_file_id c' = kcn_media_file_id c).

(** Ratings and reviews are not the administrator's. *)
Definition product_shelf : Shelf Product :=
  mkShelf T_Product kpr_deleted_at kpr_status kpr_slug (λ p, 0 <= kpr_rating_avg p <= 500)
    (λ p p', kpr_created_at p' = kpr_created_at p ∧ kpr_rating_avg p' = kpr_rating_avg p
             ∧ kpr_review_count p' = kpr_review_count p).

(** A variant is sold at most at its list price, and stays with its product. *)
Definition variant_shelf : Shelf ProductVariant :=
  mkShelf T_ProductVariant pv_deleted_at pv_status pv_sku
    (λ v, 0 <= pv_sale_price v <= pv_mrp v)
    (λ v v', pv_product_id v' = pv_product_id v ∧ pv_grade v' = pv_grade v).

(** A unique index on the live rows, as a shelf needs it. *)
Lemma unique_live_spec {A} (L : lens Db (list A)) id deleted d r same x :
  unique_live L id deleted d r same = true → live (deleted r) = true → x ∈ view L d →
  live (deleted x) = true → same x = true → id x = id r.
Proof.
  unfold unique_live. intros Un Lr I Lx Sx. rewrite Lr in Un. simpl in Un.
  destruct (String.eqb_spec (id x) (id r)) as [|N]; [done|]. exfalso.
  pose proof (unique_in_spec (mkTable "" L id (λ _ _, None)) d r _ x Un I N) as F. simpl in F.
  by rewrite Lx, Sx in F.
Qed.

(** The conditions of an accepted row, as hypotheses. *)
Ltac accepted_row E :=
  apply constraints_None in E;
  repeat match goal with
  | E : Forall _ (_ :: _) |- _ => apply Forall_cons in E as [? E]; cbn [fst] in *
  end.

Ltac shelf_laws T :=
  split; [|split; red; naive_solver congruence];
  intros d r E; cbn [shelf_table refused T] in E; accepted_row E;
  split;
  [ simpl; bool_to_prop; try done; try lia
  | intros Lr x I Lx Sx; cbn in *;
    match goal with
    | Un : unique_live _ _ _ _ _ _ = true |- _ =>
        solve [eapply (unique_live_spec _ _ _ _ _ _ _ Un); try eassumption; cbn;
               by rewrite Sx, String.eqb_refl]
    end ].

#[export] Instance brand_laws : ShelfLaws brand_shelf.
Proof. shelf_laws T_Brand. Qed.
#[export] Instance category_laws : ShelfLaws category_shelf.
Proof.
  shelf_laws T_Category. intros P. rewrite P in *. cbn [same_opt] in *.
  match goal with E : String.eqb _ _ = false |- _ => by rewrite String.eqb_refl in E end.
Qed.
#[export] Instance collection_laws : ShelfLaws collection_shelf.
Proof. shelf_laws T_Collection. Qed.
#[export] Instance product_laws : ShelfLaws product_shelf.
Proof. shelf_laws T_Product. Qed.
#[export] Instance variant_laws : ShelfLaws variant_shelf.
Proof. shelf_laws T_ProductVariant. Qed.

(** ** The catalogue *)

(** Products refer to brands and categories, variants to products. *)
Definition product_refs (d : Db) (p : Product) : Prop :=
  kpr_brand_id p ∈ map kbr_id (brands d) ∧ kpr_category_id p ∈ map kca_id (categories_of d).

Record catalogue_ok (d : Db) : Prop := {
  co_brands : tidy brand_shelf (brands d);
  co_categories : tidy category_shelf (categories_of d);
  co_collections : tidy collection_shelf (collections d);
  co_products : tidy product_shelf (products d);
  co_variants : tidy variant_shelf (variants d);
  co_product_refs : Forall (product_refs d) (products d);
  co_variant_refs : Forall (λ v, pv_product_id v ∈ map kpr_id (products d)) (variants d);
}.

(** Nothing is forgotten on any shelf. *)
Record catalogue_kept (d d' : Db) : Prop := {
  ck_brands : remembered brand_shelf (brands d) (brands d');
  ck_categories : remembered category_shelf (categories_of d) (categories_of d');
  ck_collections : remembered collection_shelf (collections d) (collections d');
  ck_products : remembered product_shelf (products d) (products d');
  ck_variants : remembered variant_shelf (variants d) (variants d');
}.

#[export] Instance catalogue_kept_preorder : PreOrder catalogue_kept.
Proof.
  split.
  - intros d. split; apply remembered_refl, _.
  - intros d1 d2 d3 [] []. split; (eapply remembered_trans; [apply _|eassumption..]).
Qed.

(** On a catalogue in order the step keeps the order and every row. *)
Definition tended (d d' : Db) : Prop := catalogue_ok d → catalogue_ok d' ∧ catalogue_kept d d'.

#[export] Instance tended_preorder : PreOrder tended.
Proof.
  split; [by intros d|]. intros d1 d2 d3 H12 H23 Ok. destruct (H12 Ok) as [Ok2 ?].
  destruct (H23 Ok2) as [? ?]. split; [done|by etrans].
Qed.

(** The five tables are what they were. *)
Lemma catalogue_same d d' :
  brands d' = brands d → categories_of d' = categories_of d → collections d' = collections d →
  products d' = products d → variants d' = variants d → tended d d'.
Proof.
  intros E1 E2 E3 E4 E5 Ok. split.
  - destruct Ok. split; unfold product_refs in *; by rewrite ?E1, ?E2, ?E3, ?E4, ?E5.
  - split; rewrite ?E1, ?E2, ?E3, ?E4, ?E5; apply remembered_refl, _.
Qed.

(** A change to one of them. *)
Ltac shelf_rest := try done; try (apply remembered_refl, _).

Lemma tended_brands d rows :
  (catalogue_ok d → tidy brand_shelf rows ∧ remembered brand_shelf (brands d) rows) →
  tended d (put L_Brand rows d).
Proof.
  intros R Ok. destruct (R Ok) as [T K]. pose proof Ok as [? ? ? ? ? Rp ?]. split; [split|split]; shelf_rest.
  eapply Forall_impl; [exact Rp|]. intros p [B C]. split; [|done]. by eapply (remembered_keys brand_shelf).
Qed.

Lemma tended_categories d rows :
  (catalogue_ok d → tidy category_shelf rows ∧ remembered category_shelf (categories_of d) rows) →
  tended d (put L_Category rows d).
Proof.
  intros R Ok. destruct (R Ok) as [T K]. pose proof Ok as [? ? ? ? ? Rp ?]. split; [split|split]; shelf_rest.
  eapply Forall_impl; [exact Rp|]. intros p [B C]. split; [done|]. by eapply (remembered_keys category_shelf).
Qed.

Lemma tended_collections d rows :
  (catalogue_ok d → tidy collection_shelf rows ∧ remembered collection_shelf (collections d) rows) →
  tended d (put L_Collection rows d).
Proof. intros R Ok. destruct (R Ok) as [T K]. pose proof Ok as []. split; [split|split]; shelf_rest. Qed.

Lemma tended_products d rows :
  (catalogue_ok d → tidy product_shelf rows ∧ remembered product_shelf (products d) rows
     ∧ Forall (product_refs d) rows) →
  tended d (put L_Product rows d).
Proof.
  intros R Ok. destruct (R Ok) as (T & K & F). pose proof Ok as [? ? ? ? ? ? Rv]. split; [split|split]; shelf_rest.
  eapply Forall_impl; [exact Rv|]. intros v V. by eapply (remembered_keys product_shelf).
Qed.

Lemma tended_variants d rows :
  (catalogue_ok d → tidy variant_shelf rows ∧ remembered variant_shelf (variants d) rows
     ∧ Forall (λ v, pv_product_id v ∈ map kpr_id (products d)) rows) →
  tended d (put L_ProductVariant rows d).
Proof. intros R Ok. destruct (R Ok) as (T & K & F). pose proof Ok as []. split; [split|split]; shelf_rest. Qed.

(** A key that a foreign key found. *)
Lemma references_key {A} (T : Table A) d id : references T d id = true → id ∈ map (pk T) (view (tbl T) d).
Proof.
  unfold references. intros (r & I & E%String.eqb_eq)%existsb_exists. subst.
  apply list_elem_of_fmap_2. by apply list_elem_of_In.
Qed.

Lemma accepted_refs d p : refused T_Product d p = None → product_refs d p.
Proof.
  intros E. cbn [refused T_Product] in E. accepted_row E. by split; [apply (references_key T_Brand)|apply (references_key T_Category)].
Qed.

Lemma accepted_variant_ref d v : refused T_ProductVariant d v = None → pv_product_id v ∈ map kpr_id (products d).
Proof. intros E. cbn [refused T_ProductVariant] in E. accepted_row E. by apply (references_key T_Product). Qed.

(** ** What requests do to the shelves *)
Section ops.
Context `{Redis, !Scheduler, !Crypto, !Postgres, !ServerText, !TextSearch, !TextEqual, !JsLibrary,
  !JsonText, !Sha1, !DateText, !CatalogStorage}.

Notation tends m := (stays (on_tables tended) m).
Notation keeps_order m d := (dwp m (λ _ d', tended d d') d).

Lemma tends_dwp {A} (m : M (St Db) A) : (∀ d, keeps_order m d) → tends m.
Proof. intros Hm s. by apply (Hm (tables s)). Qed.

Lemma keeps_tends {A} (m : M (St Db) A) d : tends m → keeps_order m d.
Proof. intros Hm. by eapply dwp_stays. Qed.

Lemma keeps_bind {A B} (m : M (St Db) A) (k : A → M (St Db) B) d :
  keeps_order m d → (∀ a, tends (k a)) → keeps_order (m ≫= k) d.
Proof.
  intros Hm Hk. apply dwp_bind. eapply dwp_mono; [exact Hm|]. intros [a|e] d' D; [|done].
  eapply dwp_mono; [by apply keeps_tends|]. intros o d'' D'. by etrans.
Qed.

(** A part that reads, with what follows from the same tables. *)
Lemma keeps_read {A B} (m : M (St Db) A) (k : A → M (St Db) B) d :
  stays (framing tables) m → (∀ a, keeps_order (k a) d) → keeps_order (m ≫= k) d.
Proof.
  intros Hm Hk. apply dwp_bind, dwp_env; [done|]. intros [a|e]; [apply Hk|reflexivity].
Qed.

(** Rows are put on the shelf. *)
Definition puts_on {A} (S : Shelf A) (mk : string → A) : Prop :=
  ∀ id, pk (shelf_table S) (mk id) = id ∧ on_shelf S (mk id).

Lemma shelf_create {A} (S : Shelf A) `{!ShelfLaws S} mk :
  puts_on S mk →
  (∀ d, catalogue_ok d → tidy S (view (tbl (shelf_table S)) d)) →
  (∀ d r, refused (shelf_table S) d r = None →
     let rows := view (tbl (shelf_table S)) d in
     (catalogue_ok d → tidy S (rows ++ [r]) ∧ remembered S rows (rows ++ [r])) →
     tended d (put (tbl (shelf_table S)) (rows ++ [r]) d)) →
  tends (db_create (shelf_table S) mk).
Proof.
  intros K Ok Next. apply tends_dwp. intros d. apply dwp_create; [reflexivity|]. intros id F E.
  apply Next; [done|]. intros Cat. destruct (K id) as [Ki L].
  apply shelf_added; [apply _|by apply Ok|by rewrite Ki|done|by left].
Qed.

Lemma brand_added mk : puts_on brand_shelf mk → tends (db_create T_Brand mk).
Proof.
  intros K. apply (shelf_create brand_shelf); [done|apply co_brands|]. intros d r _ rows R.
  by apply tended_brands.
Qed.

Lemma category_added mk : puts_on category_shelf mk → tends (db_create T_Category mk).
Proof.
  intros K. apply (shelf_create category_shelf); [done|apply co_categories|]. intros d r _ rows R.
  by apply tended_categories.
Qed.

Lemma collection_added mk : puts_on collection_shelf mk → tends (db_create T_Collection mk).
Proof.
  intros K. apply (shelf_create collection_shelf); [done|apply co_collections|]. intros d r _ rows R.
  by apply tended_collections.
Qed.

Lemma product_added mk : puts_on product_shelf mk → tends (db_create T_Product mk).
Proof.
  intros K. apply (shelf_create product_shelf); [done|apply co_products|]. intros d r E rows R.
  apply tended_products. intros Ok. apply and_assoc. split; [by apply R|].
  apply Forall_app. split; [apply Ok|]. by apply Forall_singleton, accepted_refs.
Qed.

Lemma variant_added mk : puts_on variant_shelf mk → tends (db_create T_ProductVariant mk).
Proof.
  intros K. apply (shelf_create variant_shelf); [done|apply co_variants|]. intros d r E rows R.
  apply tended_variants. intros Ok. apply and_assoc. split; [by apply R|].
  apply Forall_app. split; [apply Ok|]. by apply Forall_singleton, accepted_variant_ref.
Qed.

(** A row on the shelf is changed or taken off. *)
Definition off_shelf {A} (S : Shelf A) (f : A → A) : Prop :=
  (∀ x, pk (shelf_table S) (f x) = pk (shelf_table S) x) ∧ (∀ x, shelf_same S x (f x))
  ∧ ∀ x, on_shelf S x → on_shelf S (f x) ∨ shelf_status S (f x) = rs_archived.

Lemma shelf_update {A} (S : Shelf A) `{!ShelfLaws S} id f d r0 :
  off_shelf S f → r0 ∈ view (tbl (shelf_table S)) d → pk (shelf_table S) r0 = id → on_shelf S r0 →
  (∀ rows, (catalogue_ok d → tidy S (view (tbl (shelf_table S)) d)) →
     refused (shelf_table S) d (f r0) = None →
     rows = update_rows (pk (shelf_table S)) id f (view (tbl (shelf_table S)) d) →
     (catalogue_ok d → tidy S rows ∧ remembered S (view (tbl (shelf_table S)) d) rows) →
     tended d (put (tbl (shelf_table S)) rows d)) →
  (catalogue_ok d → tidy S (view (tbl (shelf_table S)) d)) →
  keeps_order (db_update (shelf_table S) id f) d.
Proof.
  intros (K & Sm & D) I0 E0 L Next Ok. apply dwp_update; [reflexivity|]. intros r I E Acc Cat.
  assert (r = r0) as -> by (destruct (Ok Cat) as [N _]; eapply NoDup_key_eq; [exact N|done|done|congruence]).
  apply (Next _ Ok Acc eq_refl); [|done]. intros Cat'. rewrite <- E.
  apply shelf_updated; [apply _|by apply Ok|done|done|done|done|done|by apply D].
Qed.

Lemma brand_changed id f d r : off_shelf brand_shelf f → r ∈ brands d → kbr_id r = id →
  live (kbr_deleted_at r) = true → keeps_order (db_update T_Brand id f) d.
Proof.
  intros Off I E L. eapply (shelf_update brand_shelf); try eassumption; [|apply co_brands].
  intros rows _ _ _ R. by apply tended_brands.
Qed.

Lemma category_changed id f d r : off_shelf category_shelf f → r ∈ categories_of d → kca_id r = id →
  live (kca_deleted_at r) = true → keeps_order (db_update T_Category id f) d.
Proof.
  intros Off I E L. eapply (shelf_update category_shelf); try eassumption; [|apply co_categories].
  intros rows _ _ _ R. by apply tended_categories.
Qed.

Lemma collection_changed id f d r : off_shelf collection_shelf f → r ∈ collections d → kcn_id r = id →
  live (kcn_deleted_at r) = true → keeps_order (db_update T_Collection id f) d.
Proof.
  intros Off I E L. eapply (shelf_update collection_shelf); try eassumption; [|apply co_collections].
  intros rows _ _ _ R. by apply tended_collections.
Qed.

(** What the table accepts of one row holds of the rows that an update leaves. *)
Lemma Forall_accepted {A} (T : Table A) (P : A → Prop) d id f r :
  NoDup (map (pk T) (view (tbl T) d)) → r ∈ view (tbl T) d → pk T r = id →
  Forall P (view (tbl T) d) → P (f r) → Forall P (update_rows (pk T) id f (view (tbl T) d)).
Proof.
  intros N I E F Pf. apply Forall_update_rows; [done|]. intros x X K _.
  by rewrite (NoDup_key_eq (pk T) _ x r N X I (eq_trans K (eq_sym E))).
Qed.

Lemma product_changed id f d r : off_shelf product_shelf f → r ∈ products d → kpr_id r = id →
  live (kpr_deleted_at r) = true → keeps_order (db_update T_Product id f) d.
Proof.
  intros Off I E L. eapply (shelf_update product_shelf); try eassumption; [|apply co_products].
  intros rows T Acc -> R. apply tended_products. intros Ok. apply and_assoc. split; [by apply R|].
  apply (Forall_accepted T_Product _ _ _ _ r); [apply (T Ok)|done|done|apply Ok|by apply accepted_refs].
Qed.

Lemma variant_changed id f d r : off_shelf variant_shelf f → r ∈ variants d → pv_id r = id →
  live (pv_deleted_at r) = true → keeps_order (db_update T_ProductVariant id f) d.
Proof.
  intros Off I E L. eapply (shelf_update variant_shelf); try eassumption; [|apply co_variants].
  intros rows T Acc -> R. apply tended_variants. intros Ok. apply and_assoc. split; [by apply R|].
  apply (Forall_accepted T_ProductVariant _ _ _ _ r); [apply (T Ok)|done|done|apply Ok|].
  by apply accepted_variant_ref.
Qed.

(** ** Guards *)

Lemma require_keeps {A B} (T : Table A) (p : A → bool) e (k : A → M (St Db) B) d :
  (∀ r, r ∈ view (tbl T) d → p r = true → keeps_order (k r) d) →
  keeps_order ((row ← db_findFirst T p; require_ row e) ≫= k) d.
Proof.
  intros Hk. do 2 apply dwp_bind. apply dwp_findFirst; intros; (apply dwp_require; [|done]); [|done].
  intros r [= <-]. by apply Hk.
Qed.

Lemma requireProduct_keeps {B} id (k : LoadedProduct → M (St Db) B) d :
  (∀ p, lp_row p ∈ products d → kpr_id (lp_row p) = id → live (kpr_deleted_at (lp_row p)) = true →
     keeps_order (k p) d) →
  keeps_order (requireProduct id ≫= k) d.
Proof.
  intros Hk. unfold requireProduct, product_findById, product_find. do 3 apply dwp_bind.
  apply dwp_findFirst; [|intros _; apply (dwp_gets (λ _, None)), dwp_require; done].
  intros r I E. bool_to_prop. apply (dwp_gets (λ d, loaded d r)), dwp_require; [|done].
  intros p L. apply Hk; revert L; unfold loaded; repeat cases_goal; intros; by simplify_eq/=.
Qed.

Ltac tend_step := idtac;
  match goal with
  | |- stays _ (db_create T_Brand _) => apply brand_added; intros ?; by split
  | |- stays _ (db_create T_Category _) => apply category_added; intros ?; by split
  | |- stays _ (db_create T_Collection _) => apply collection_added; intros ?; by split
  | |- stays _ (db_create T_Product _) => apply product_added; intros ?; by split
  | |- stays _ (db_create T_ProductVariant _) => apply variant_added; intros ?; by split
  | |- stays _ (db_create _ _) => apply stays_create; [apply _|intros; by apply catalogue_same]
  | |- stays _ (db_createMany _ _) => apply stays_createMany; [apply _|]
  | |- stays _ (db_update T_Brand _ _) => fail 1
  | |- stays _ (db_update T_Category _ _) => fail 1
  | |- stays _ (db_update T_Collection _ _) => fail 1
  | |- stays _ (db_update T_Product _ _) => fail 1
  | |- stays _ (db_update T_ProductVariant _ _) => fail 1
  | |- stays _ (db_update _ _ _) => apply stays_update; [apply _|intros; by apply catalogue_same]
  | |- stays _ (db_updateMany _ _ _) => apply stays_updateMany; [apply _|intros; by apply catalogue_same]
  end.
Ltac open_guards :=
  unfold requireBrand, requireCategory, requireProduct, requireCollection, requireVariant, taken,
    assertBrandSlugFree, assertCategorySlugFree, assertProductSlugFree, assertCollectionSlugFree,
    assertSkuFree, when_given, when_changed, connect_given, connect_opt, invalidateProduct,
    invalidateTaxonomy, filter_enum, enum_opt, as_enum, product_findById, product_findBySlug, product_find,
    brand_findById, brand_findBySlug, category_findById, category_findBySlug, collection_findById,
    collection_findBySlug, variant_findById, variant_findBySku, load, db_findFirst, db_findMany,
    db_findMany_desc, Date_now.
Ltac tend := open_guards; staying tend_step.

(** What only reads. *)
Definition unchanged : relation Db := λ d d', d' = d.

#[local] Instance unchanged_preorder : PreOrder unchanged.
Proof. split; [done|]. intros d1 d2 d3 -> ->. done. Qed.

Ltac reading := intros; change (framing tables) with (on_tables unchanged); open_guards; staying fail.

Lemma createBrand_tends dto : tends (createBrand dto).
Proof. unfold createBrand, brand_create. tend. Qed.
Lemma createCategory_tends dto : tends (createCategory dto).
Proof. unfold createCategory, category_create. tend. Qed.

Lemma replaceProducts_tends id ids : tends (replaceProducts id ids).
Proof.
  unfold replaceProducts. tend. intros mk (i & x & -> & _)%elem_of_lookup_imap_1. tend.
Qed.

Lemma setAttributeValues_tends id ids : tends (setAttributeValues id ids).
Proof. unfold setAttributeValues. tend. intros mk (x & -> & _)%list_elem_of_fmap. tend. Qed.

Lemma createProduct_tends dto : tends (createProduct dto).
Proof. unfold createProduct, createProduct_body, product_create. tend. Qed.

(** ** Changes of a row *)

(** [archive] and the setters keep what they must. *)
Ltac off_shelf := split; [done|split; [done|]]; intros ? ?; solve [by right | by left].

Lemma updateBrand_tends id dto : tends (updateBrand id dto).
Proof.
  apply tends_dwp. intros d. unfold updateBrand, requireBrand, brand_findById, brand_update.
  apply (require_keeps T_Brand). intros r I E. bool_to_prop.
  apply keeps_read; [reading|]. intros []. apply keeps_bind; [|intros ?; tend].
  apply keeps_read; [reading|]. intros []. by eapply brand_changed; [off_shelf| | |].
Qed.

Lemma deleteBrand_tends id : tends (deleteBrand id).
Proof.
  apply tends_dwp. intros d. unfold deleteBrand, requireBrand, brand_findById, brand_softDelete.
  apply (require_keeps T_Brand). intros r I E. bool_to_prop. apply keeps_bind; [|intros ?; tend].
  apply keeps_read; [reading|]. intros now. by eapply brand_changed; [off_shelf| | |].
Qed.

Lemma updateCategory_tends id dto : tends (updateCategory id dto).
Proof.
  apply tends_dwp. intros d. unfold updateCategory. unfold requireCategory at 1, category_findById.
  unfold category_update.
  apply (require_keeps T_Category). intros r I E. bool_to_prop.
  apply keeps_read; [reading|]. intros []. apply keeps_read; [reading|]. intros [].
  apply keeps_bind; [|intros ?; tend]. apply keeps_read; [reading|]. intros [].
  by eapply category_changed; [off_shelf| | |].
Qed.

Lemma deleteCategory_tends id : tends (deleteCategory id).
Proof.
  apply tends_dwp. intros d. unfold deleteCategory, requireCategory, category_findById, category_softDelete.
  apply (require_keeps T_Category). intros r I E. bool_to_prop. apply keeps_bind; [|intros ?; tend].
  apply keeps_read; [reading|]. intros now. by eapply category_changed; [off_shelf| | |].
Qed.

Ltac tend_collection := staying ltac:(first
  [match goal with |- stays _ (replaceProducts _ _) => apply replaceProducts_tends end|tend_step]).

Lemma createCollection_tends dto : tends (createCollection dto).
Proof. unfold createCollection, collection_create. open_guards. tend_collection. Qed.

Lemma updateCollection_tends id dto : tends (updateCollection id dto).
Proof.
  apply tends_dwp. intros d. unfold updateCollection, requireCollection, collection_findById.
  apply (require_keeps T_Collection). intros r I E. bool_to_prop.
  apply keeps_read; [reading|]. intros [].
  apply keeps_bind; [|intros ?; open_guards; tend_collection].
  by eapply collection_changed; [off_shelf| | |].
Qed.

Lemma deleteCollection_tends id : tends (deleteCollection id).
Proof.
  apply tends_dwp. intros d.
  unfold deleteCollection, requireCollection, collection_findById, collection_softDelete.
  apply (require_keeps T_Collection). intros r I E. bool_to_prop. apply keeps_bind; [|intros ?; tend].
  apply keeps_read; [reading|]. intros now. by eapply collection_changed; [off_shelf| | |].
Qed.

Lemma assignCollectionProducts_tends id ids : tends (assignCollectionProducts id ids).
Proof. unfold assignCollectionProducts. open_guards. tend_collection. Qed.

Lemma updateProduct_tends id dto : tends (updateProduct id dto).
Proof.
  apply tends_dwp. intros d. unfold updateProduct, product_update. apply requireProduct_keeps.
  intros p I E L. do 3 (apply keeps_read; [reading|]; intros []).
  apply keeps_bind; [|intros ?; tend]. do 3 (apply keeps_read; [reading|]; intros []).
  apply keeps_bind; [|intros ?; tend]. by eapply product_changed; [off_shelf| | |].
Qed.

Lemma deleteProduct_tends id : tends (deleteProduct id).
Proof.
  apply tends_dwp. intros d. unfold deleteProduct, product_softDelete. apply requireProduct_keeps.
  intros p I E L. apply keeps_bind; [|intros ?; tend]. apply keeps_read; [reading|]. intros now.
  by eapply product_changed; [off_shelf| | |].
Qed.

Ltac tend_variant := staying ltac:(first
  [match goal with |- stays _ (setAttributeValues _ _) => apply setAttributeValues_tends end|tend_step]).

Lemma createVariant_tends dto : tends (createVariant dto).
Proof.
  unfold createVariant, createVariant_body, variant_create, try_attribute_values, as_condition,
    as_stock_status. open_guards. tend_variant.
Qed.

Lemma updateVariant_tends id dto : tends (updateVariant id dto).
Proof.
  apply tends_dwp. intros d. unfold updateVariant, requireVariant, variant_findById, try_attribute_values.
  apply (require_keeps T_ProductVariant). intros r I E. bool_to_prop.
  apply keeps_read; [reading|]. intros [].
  apply keeps_read; [unfold as_condition; reading|]. intros condition.
  apply keeps_read; [unfold as_stock_status; reading|]. intros stock.
  apply keeps_bind; [|intros ?; open_guards; tend_variant].
  by eapply variant_changed; [off_shelf| | |].
Qed.

Lemma deleteVariant_tends id : tends (deleteVariant id).
Proof.
  apply tends_dwp. intros d. unfold deleteVariant, requireVariant, variant_findById, variant_softDelete.
  apply (require_keeps T_ProductVariant). intros r I E. bool_to_prop. apply keeps_bind; [|intros ?; tend].
  apply keeps_read; [reading|]. intros now. by eapply variant_changed; [off_shelf| | |].
Qed.

(** The public reads change no table. *)
Lemma product_search_reads f : stays (on_tables tended) (product_search f).
Proof. unfold product_search. open_guards. cbv zeta. tend. Qed.

Lemma searchProducts_tends dto : tends (searchProducts dto).
Proof.
  unfold searchProducts, search_body, with_synonyms, expandSynonyms, cat_getOrSet, product_search.
  open_guards. cbv zeta. tend.
Qed.

Lemma breadcrumb_tends n c chain : tends (breadcrumb_from n c chain).
Proof.
  revert c chain. induction n as [|n IH]; intros [c|] chain; simpl; try (apply stays_ret, _).
  unfold category_findById, db_findFirst.
  staying ltac:(idtac; match goal with |- stays _ (breadcrumb_from _ _ _) => apply IH end).
Qed.

Lemma getProduct_tends idOrSlug : tends (getProduct idOrSlug).
Proof.
  unfold getProduct, find_page, product_page, cat_getOrSet, specifications, media, videos, findSeo,
    listApprovedReviews, breadcrumb, category_findById. open_guards.
  staying ltac:(idtac; match goal with
    | |- stays _ (breadcrumb_from _ _ _) => apply breadcrumb_tends
    | |- stays _ (product_search _) => apply product_search_reads
    end).
Qed.

(** ** Histories *)

(** The requests that the controllers pass on. *)
Inductive CatalogOp :=
| op_listBrands | op_listProductTypes | op_listCategories | op_categoryTree | op_listCollections
| op_search (dto : ProductSearchDto) | op_featured | op_newest | op_refurbished
| op_getProduct (idOrSlug : string)
| op_specifications (id : string) | op_media (id : string) | op_videos (id : string)
| op_questions (id : string) | op_listAttributes | op_listBadges | op_listBuyingGuides
| op_createBrand (dto : CreateBrandDto) | op_updateBrand (id : string) (dto : UpdateBrandDto)
| op_deleteBrand (id : string)
| op_createCategory (dto : CreateCategoryDto) | op_updateCategory (id : string) (dto : UpdateCategoryDto)
| op_deleteCategory (id : string)
| op_createCollection (dto : CreateCollectionDto)
| op_updateCollection (id : string) (dto : UpdateCollectionDto)
| op_deleteCollection (id : string) | op_assignCollection (id : string) (productIds : list string)
| op_createProduct (dto : CreateProductDto) | op_updateProduct (id : string) (dto : UpdateProductDto)
| op_deleteProduct (id : string)
| op_createVariant (dto : CreateVariantDto) | op_updateVariant (id : string) (dto : UpdateVariantDto)
| op_deleteVariant (id : string)
| op_attachMedia (id : string) (dto : AttachProductMediaDto) | op_upload (file : UploadedFile)
| op_deleteMedia (id mediaId : string)
| op_addSpecification (id : string) (dto : CreateSpecificationDto)
| op_deleteSpecification (id specId : string)
| op_createBadge (dto : CreateBadgeDto) | op_assignBadge (dto : AssignBadgeDto)
| op_upsertSeo (dto : UpsertSeoDto)
| op_createGuide (dto : CreateBuyingGuideDto) | op_deleteGuide (id : string).

Definition run_catalog (op : CatalogOp) (s : St Db) : St Db :=
  let go {A} (m : M (St Db) A) : St Db := snd (m s) in
  match op with
  | op_listBrands => go listBrands | op_listProductTypes => go listProductTypes
  | op_listCategories => go listCategories | op_categoryTree => go categoryTree
  | op_listCollections => go listCollections | op_search dto => go (searchProducts dto)
  | op_featured => go featuredProducts | op_newest => go newProducts
  | op_refurbished => go refurbishedProducts | op_getProduct i => go (getProduct i)
  | op_specifications i => go (productSpecifications i) | op_media i => go (productMedia i)
  | op_videos i => go (productVideos i) | op_questions i => go (productQuestions i)
  | op_listAttributes => go listAttributes | op_listBadges => go listBadges
  | op_listBuyingGuides => go listBuyingGuides
  | op_createBrand dto => go (createBrand dto) | op_updateBrand i dto => go (updateBrand i dto)
  | op_deleteBrand i => go (deleteBrand i) | op_createCategory dto => go (createCategory dto)
  | op_updateCategory i dto => go (updateCategory i dto) | op_deleteCategory i => go (deleteCategory i)
  | op_createCollection dto => go (createCollection dto)
  | op_updateCollection i dto => go (updateCollection i dto)
  | op_deleteCollection i => go (deleteCollection i)
  | op_assignCollection i ps => go (assignCollectionProducts i ps)
  | op_createProduct dto => go (createProduct dto) | op_updateProduct i dto => go (updateProduct i dto)
  | op_deleteProduct i => go (deleteProduct i) | op_createVariant dto => go (createVariant dto)
  | op_updateVariant i dto => go (updateVariant i dto) | op_deleteVariant i => go (deleteVariant i)
  | op_attachMedia i dto => go (attachMedia i dto) | op_upload f => go (uploadMediaFile f)
  | op_deleteMedia i m => go (deleteMedia i m) | op_addSpecification i dto => go (addSpecification i dto)
  | op_deleteSpecification i p => go (deleteSpecification i p)
  | op_createBadge dto => go (createBadge dto) | op_assignBadge dto => go (assignBadge dto)
  | op_upsertSeo dto => go (upsertSeo dto) | op_createGuide dto => go (createBuyingGuide dto)
  | op_deleteGuide i => go (deleteBuyingGuide i)
  end.

Definition catalog_history (ops : list CatalogOp) (s : St Db) : St Db :=
  foldl (λ s op, run_catalog op s) s ops.

Lemma uploadMediaFile_tends file : tends (uploadMediaFile file).
Proof.
  unfold uploadMediaFile. open_guards.
  staying ltac:(idtac; match goal with
    | |- stays _ (gateway _) => apply stays_env; [apply _|]; intros s; unfold framing, gateway; by cases_goal
    | _ => tend_step
    end).
Qed.

Lemma run_catalog_tends op s : tended (tables s) (tables (run_catalog op s)).
Proof.
  destruct op; cbn [run_catalog];
  match goal with
  | |- tended _ (tables (snd (?m _))) => enough (tends m) as Hm by exact (Hm s)
  end;
  first
  [ solve [eauto using searchProducts_tends, getProduct_tends, createBrand_tends, updateBrand_tends,
      deleteBrand_tends, createCategory_tends, updateCategory_tends, deleteCategory_tends,
      createCollection_tends, updateCollection_tends, deleteCollection_tends,
      assignCollectionProducts_tends, createProduct_tends, updateProduct_tends, deleteProduct_tends,
      createVariant_tends, updateVariant_tends, deleteVariant_tends, uploadMediaFile_tends]
  | apply stays_getOrSet; [apply _|apply searchProducts_tends]
  | unfold listBrands, listProductTypes, listCategories, categoryTree, listCollections, cat_getOrSet,
      brand_listActive, category_listActive, collection_listActive, productSpecifications, productMedia,
      productVideos, productQuestions, specifications, media, videos, listAttributes, aux_listAttributes,
      listBadges, aux_listBadges, listBuyingGuides, aux_listBuyingGuides, attachMedia, aux_attachMedia,
      deleteMedia, softDeleteMedia, addSpecification, createSpecification, deleteSpecification,
      softDeleteSpecification, createBadge, aux_createBadge, assignBadge, aux_assignBadge, upsertSeo,
      aux_upsertSeo, createBuyingGuide, aux_createBuyingGuide, deleteBuyingGuide, softDeleteBuyingGuide;
    tend ].
Qed.

Lemma catalog_history_tends ops s : tended (tables s) (tables (catalog_history ops s)).
Proof.
  revert s. induction ops as [|op ops IH]; intros s; simpl; [reflexivity|].
  etrans; [by apply (run_catalog_tends op s)|apply IH].
Qed.

(** (C16) Whatever requests reach the catalogue and however each ends: the ids and the
    slugs (SKUs) of the live brands, categories, collections, products and variants stay
    distinct, what is deleted is archived, a variant is never sold above its list price,
    no category is its own parent, and every product has its brand and category and
    every variant its product. No row of the five tables is ever lost; one that is
    deleted never changes again; a variant stays with its product, and a product keeps
    its rating and its date of creation. *)
Theorem catalogue_rows_kept ops s : catalogue_ok (tables s) →
  catalogue_ok (tables (catalog_history ops s))
  ∧ catalogue_kept (tables s) (tables (catalog_history ops s)).
Proof. apply catalog_history_tends. Qed.
End ops.

(** ** Assigning the products of a collection *)
Section assignments.
Context `{Redis, !Scheduler, !Crypto, !Postgres, !ServerText, !TextSearch, !TextEqual, !JsLibrary,
  !JsonText, !Sha1, !DateText, !CatalogStorage}.

(** The cache is invalidated whether Redis answers or not. *)
Lemma del_ok key d (Q : outcome () → Db → Prop) : Q (Ok tt) d → dwp (CacheService.del key) Q d.
Proof.
  intros HQ s <-. destruct (CacheService.del_total key s) as [s' E].
  pose proof (CacheService.del_tables key s) as F. rewrite E in *. unfold framing in F. simpl in *. by rewrite F.
Qed.

Lemma caught_ok {A} (m : M (St Db) A) a s : ∃ n s', try_catch m (λ _, mret a) s = (Ok n, s').
Proof. unfold try_catch. destruct (m s) as [[n|e] s']; eauto. Qed.

Lemma delByPrefix_ok {B} p d (k : Z → M (St Db) B) (Q : outcome B → Db → Prop) :
  (∀ n, dwp (k n) Q d) → dwp (CacheService.delByPrefix p ≫= k) Q d.
Proof.
  intros Hk. apply dwp_bind. intros s <-. pose proof (CacheService.delByPrefix_tables p s) as F.
  destruct (caught_ok _ 0 s : ∃ n s', CacheService.delByPrefix p s = (Ok n, s')) as (n & s' & E).
  rewrite E in *. unfold framing in F. simpl in *. rewrite F. apply Hk.
Qed.

Lemma invalidateTaxonomy_ok d (Q : outcome () → Db → Prop) : Q (Ok tt) d → dwp invalidateTaxonomy Q d.
Proof.
  intros HQ. unfold invalidateTaxonomy. do 4 (apply dwp_bind, del_ok).
  apply delByPrefix_ok. intros n. by apply dwp_ret.
Qed.

Notation memberships d := (view L_CollectionProduct d).

(** The rows that are taken from the collection. *)
Definition current (id : string) (x : CollectionProduct) : bool :=
  String.eqb (kcx_collection_id x) id && live (kcx_deleted_at x).

Definition taken_from (id : string) (now : Z) (x : CollectionProduct) : CollectionProduct :=
  if current id x then archive_collection_product now x else x.

Lemma replaceProducts_spec id ids d (Q : outcome () → Db → Prop) :
  (∀ e, Q (Throw e) d) →
  (∀ now new, let d1 := put L_CollectionProduct (map (taken_from id now) (memberships d)) d in
     created T_CollectionProduct (imap (collection_product id) ids) d1 new →
     Q (Ok tt) (put L_CollectionProduct (map (taken_from id now) (memberships d) ++ new) d)) →
  dwp (replaceProducts id ids) Q d.
Proof.
  intros HE HO. unfold replaceProducts. apply dwp_transaction, dwp_bind.
  apply dwp_env; [apply stays_gets; apply _|]. intros [now|e]; [|by apply HE].
  apply dwp_bind, dwp_updateMany; [by intros|]. fold (taken_from id now).
  change (map _ (view (tbl T_CollectionProduct) d)) with (map (taken_from id now) (memberships d)).
  assert (Done : ∀ new, created T_CollectionProduct (imap (collection_product id) ids)
      (put L_CollectionProduct (map (taken_from id now) (memberships d)) d) new →
    Q (Ok tt) (put L_CollectionProduct (map (taken_from id now) (memberships d) ++ new) d)) by (intros; by apply HO).
  destruct ids as [|i ids]; cbn [is_nil].
  - apply dwp_ret. specialize (Done []). rewrite app_nil_r in Done. apply Done. split; [constructor|].
    by intros [|? ?] ? ? ?.
  - apply dwp_createMany; [|by intros|intros new C].
    { apply Forall_forall. by intros mk (j & x & -> & _)%elem_of_lookup_imap_1. }
     apply Done in C. by rewrite view_put, put_put.
Qed.

(** The new rows, in order. *)
Lemma created_members id ids d new : created T_CollectionProduct (imap (collection_product id) ids) d new →
  Forall (λ x, current id x = true) new
  ∧ map (λ x, (kcx_product_id x, kcx_sort_order x)) new = imap (λ i p, (p, Z.of_nat i)) ids.
Proof.
  intros [F _]. revert new F.
  assert (G : ∀ (f : nat → nat) new, Forall2 (λ mk r, ∃ i, r = mk i)
      (imap (λ i, collection_product id (f i)) ids) new →
    Forall (λ x, current id x = true) new
    ∧ map (λ x, (kcx_product_id x, kcx_sort_order x)) new = imap (λ i p, (p, Z.of_nat (f i))) ids).
  { induction ids as [|p ids IH]; intros f new F; csimpl in *; inversion F as [|? ? ? ? [i ->] F']; subst; [done|].
    destruct (IH (λ i, f (S i)) _ F') as [C E]. split; [|by csimpl; f_equal].
    constructor; [|done]. unfold current. simpl. by rewrite String.eqb_refl. }
  apply (G (λ i, i)).
Qed.

Lemma NoDup_prefixes {A B} (f : A → B) l :
  (∀ pre r post, l = pre ++ r :: post → f r ∉ map f pre) → NoDup (map f l).
Proof.
  induction l as [|x l IH] using rev_ind; intros P; [constructor|].
  rewrite map_app. apply NoDup_app. split_and!; [|intros y Y ->%list_elem_of_singleton; by eapply P|apply NoDup_singleton].
  apply IH. intros pre r post ->. eapply P. by rewrite <- app_assoc.
Qed.

Lemma imap_fst {A} (l : list A) (g : nat → nat) : map fst (imap (λ i p, (p, Z.of_nat (g i))) l) = l.
Proof. revert g. induction l as [|x l IH]; intros g; csimpl; [done|]. f_equal. apply (IH (λ i, g (S i))). Qed.

(** A product twice is refused. *)
Lemma created_distinct id ids d new :
  created T_CollectionProduct (imap (collection_product id) ids) d new → NoDup ids.
Proof.
  intros C. destruct (created_members _ _ _ _ C) as [Cur E]. destruct C as [_ S].
  assert (map kcx_product_id new = ids) as <-.
  { apply (f_equal (map fst)) in E. rewrite map_map in E. etrans; [exact E|apply (imap_fst _ (λ i, i))]. }
  apply NoDup_prefixes. intros pre r post Enew (x & Ex & I)%list_elem_of_fmap.
  destruct (S pre r post Enew) as [Acc Fr]. cbn [refused T_CollectionProduct] in Acc. accepted_row Acc.
  rewrite Forall_forall in Cur.
  assert (Cr : current id r = true) by (apply Cur; set_solver).
  assert (Cx : current id x = true) by (apply Cur; set_solver).
  unfold current in Cr, Cx. bool_to_prop. apply Fr.
  assert (K : kcx_id x = kcx_id r).
  { eapply unique_live_spec; [eassumption|done| |done|]; [rewrite view_put; set_solver|].
    cbn. rewrite !andb_true_iff, !String.eqb_eq. split; congruence. }
  cbn. rewrite <- K. apply list_elem_of_fmap_2. set_solver.
Qed.

(** Assigning products to a collection replaces them, or nothing. When the request
    is answered, the products named are distinct, the current rows of the collection
    are exactly them, in the order given and numbered from zero, the earlier ones are
    archived, and no other collection's row changed; when it fails, however it fails,
    every row is what it was. *)
Theorem assignment_exact id ids s :
  match assignCollectionProducts id ids s with
  | (Ok _, s') =>
      NoDup ids
      ∧ map (λ x, (kcx_product_id x, kcx_sort_order x)) (where_ (current id) (memberships (tables s')))
        = imap (λ i p, (p, Z.of_nat i)) ids
      ∧ ∃ now new, memberships (tables s') = map (taken_from id now) (memberships (tables s)) ++ new
          ∧ Forall (λ x, kcx_collection_id x = id) new
  | (Throw _, s') => memberships (tables s') = memberships (tables s)
  end.
Proof.
  pose (Q := λ (o : outcome Json) d', match o with
    | Ok _ => NoDup ids
        ∧ map (λ x, (kcx_product_id x, kcx_sort_order x)) (where_ (current id) (memberships d'))
          = imap (λ i p, (p, Z.of_nat i)) ids
        ∧ ∃ now new, memberships d' = map (taken_from id now) (memberships (tables s)) ++ new
            ∧ Forall (λ x, kcx_collection_id x = id) new
    | Throw _ => memberships d' = memberships (tables s)
    end).
  enough (X : dwp (assignCollectionProducts id ids) Q (tables s))
    by (specialize (X s eq_refl); by destruct (assignCollectionProducts id ids s) as [[?|?] ?]).
  unfold assignCollectionProducts, requireCollection, collection_findById. do 2 apply dwp_bind.
  apply dwp_findFirst; intros; (apply dwp_require; [|done]); [|done]. intros c _.
  apply dwp_bind, replaceProducts_spec; [done|]. intros now new d1 C.
  apply dwp_bind, invalidateTaxonomy_ok, dwp_ret. cbn [Q].
  destruct (created_members _ _ _ _ C) as [Cur E]. split_and!.
  - by eapply created_distinct.
  - rewrite view_put, where_app, map_app.
    assert (where_ (current id) (map (taken_from id now) (memberships (tables s))) = []) as ->.
    { apply where_none, Forall_forall. intros y (z & -> & _)%list_elem_of_fmap. unfold taken_from.
      destruct (current id z) eqn:Ez; [|done]. unfold current. by rewrite andb_false_r. }
    rewrite <- E. cbn [map app]. f_equal. clear -Cur. induction Cur as [|z l Ez _ IH]; simpl; [done|]. by rewrite Ez, IH.
  - exists now, new. rewrite view_put. split; [done|]. eapply Forall_impl; [exact Cur|].
    intros y Ey. unfold current in Ey. by bool_to_prop.
Qed.
End assignments.
