(* ===== verification/SearchRules.v ===== *)
(** * Search rules: what a search lists

    The search of [Catalog] lists exactly the products that each of its filters
    asks for, the variant filters of one variant together. Each page shows its part of
    them in the order asked for; the pages list each of them once when no two tie,
    since the server may order ties otherwise for every page. *)
From S2P Require Import Prelude Core Effects Redis Lock JsNumber Rules Pagination Database Tables Sample Payments Shipping Carrier Warranty CategoryTree CatalogStores Catalog CatalogRules Schema.
From Stdlib Require Import QArith.

#[local] Open Scope Z_scope.

(** ** What a search asks for *)

Section search.
Context `{Redis, !Postgres, !ServerText, !TextSearch}.












Section filters.
Context (d : Db) (f : ProductSearchFilters) (c : option ProductCondition) (a : option StockStatus).
Hypothesis condition_valid : pf_condition f = option_map ProductCondition_text c.
Hypothesis availability_valid : pf_availability f = option_map StockStatus_text a.





End filters.

(** ** The pages of a search *)



Lemma as_enum_text {S E} column (text : E → string) members (e : E) (s : S) :
  of_text text members (text e) = Some e → as_enum column text members (text e) s = (Ok e, s).
Proof. unfold as_enum, require_. by intros ->. Qed.


















(** ** What the page shows *)

(** The price shown is the lowest on sale. *)
Lemma priceFrom_lowest p :
  match priceFrom p with
  | Some q => (∃ v, v ∈ on_sale p ∧ sale_price v = q) ∧ ∀ v, v ∈ on_sale p → (q <= sale_price v)%Q
  | None => on_sale p = []
  end.
Proof.
  unfold priceFrom. destruct (on_sale p) as [|v l]; simpl; [done|].
  assert (G : ∀ l x, let m := foldl js_min x (map sale_price l) in
    (m = x ∨ ∃ v, v ∈ l ∧ sale_price v = m) ∧ (m <= x)%Q ∧ ∀ v, v ∈ l → (m <= sale_price v)%Q).
  { clear. intros l. induction l as [|w l IH]; intros x; simpl.
    { split_and!; [by left|apply Qle_refl|]. by intros v I%not_elem_of_nil. }
    destruct (IH (js_min x (sale_price w))) as (E & L & F).
    destruct (js_min_spec x (sale_price w)) as (Lx & Lw & D). split_and!.
    - destruct E as [->|(v & I & E)]; [|right; exists v; split; [by right|done]].
      destruct D as [->| ->]; [by left|]. right. exists w. split; [by left|done].
    - by eapply Qle_trans.
    - intros v [->|I]%elem_of_cons; [by eapply Qle_trans|by apply F]. }
  destruct (G l (sale_price v)) as (E & L & F). split.
  - destruct E as [->|(w & I & E)]; [exists v; split; [left|done]|exists w; split; [by right|done]].
  - intros w [->|I]%elem_of_cons; [done|by apply F].
Qed.

(** Each category of the chain is the live parent of the next. *)
Fixpoint linked (chain : list Category) : Prop :=
  match chain with
  | a :: ((b :: _) as rest) => kca_parent_id b = Some (kca_id a) ∧ linked rest
  | _ => True
  end.

Definition live_category (d : Db) (c : Category) : Prop :=
  c ∈ categories_of d ∧ live (kca_deleted_at c) = true.

(** The chain goes no further up: no parent, or none that is live. *)
Definition topmost (d : Db) (c : Category) : Prop :=
  ∀ a, live_category d a → kca_id a ≠ "" → kca_parent_id c ≠ Some (kca_id a).

Lemma find_category_run id (s : St Db) :
  ∃ found, category_findById id s = (Ok found, s)
    ∧ match found with
      | Some c => live_category (tables s) c ∧ kca_id c = id
      | None => ∀ a, live_category (tables s) a → kca_id a ≠ id
      end.
Proof.
  unfold category_findById, db_findFirst, gets. eexists. split; [reflexivity|].
  destruct (head _) as [c|] eqn:E.
  - apply head_scan_Some in E as [I E]. by bool_to_prop.
  - apply head_scan_None in E. rewrite Forall_forall in E. intros a [I L] K. apply E in I. simpl in I.
    by rewrite K, String.eqb_refl, L in I.
Qed.

Lemma breadcrumb_from_run guard current chain s :
  (∀ c, current = Some c → live_category (tables s) c ∧ linked (c :: chain)) →
  (current = None → ∀ c, head chain = Some c → topmost (tables s) c) → linked chain →
  Forall (live_category (tables s)) chain →
  ∃ up, breadcrumb_from guard current chain s = (Ok (up ++ chain), s)
    ∧ (length up <= guard)%nat ∧ linked (up ++ chain) ∧ Forall (live_category (tables s)) (up ++ chain)
    ∧ (∀ c, current = Some c → guard ≠ 0%nat → ∃ up', up = up' ++ [c])
    ∧ ((length up < guard)%nat → ∀ c, head (up ++ chain) = Some c → topmost (tables s) c).
Proof.
  revert current chain. induction guard as [|guard IH]; intros current chain Cur Top Lk Lv.
  { exists []. split_and!; try done; [by destruct current|simpl; lia]. }
  destruct current as [c|]; [|exists []; split_and!; try done; [simpl; lia|by intros _; apply Top]].
  destruct (Cur c eq_refl) as [Lc Lk']. assert (Lv' : Forall (live_category (tables s)) (c :: chain)) by by constructor.
  destruct (kca_parent_id c) as [[|x p]|] eqn:P;
    try (exists [c]; simpl; rewrite P; split_and!; try done; [lia|intros ? [= <-] _; by exists []|];
         intros _ ? [= <-] a _ Na; rewrite P; by intros [= E]).
  destruct (find_category_run (String x p) s) as (found & Run & F).
  destruct (IH found (c :: chain)) as (up & R & Len & L & V & _ & T).
  - intros a ->. destruct F as [La Ka]. split; [done|]. by split; [rewrite Ka|].
  - intros -> ? [= <-] a La _. rewrite P. intros [= E]. by apply (F a La).
  - done.
  - done.
  - exists (up ++ [c]). rewrite <- !app_assoc. simpl. rewrite P, (bind_step _ _ _ _ _ Run), R.
    rewrite length_app. simpl. split_and!; try done; [lia|intros ? [= <-] _; by exists up|].
    intros Lt. apply T. lia.
Qed.

(** The breadcrumb of a product page ends at the category asked for, or is empty when
    there is none that is live; it leads down to it along live parents, has at most
    eight categories, and starts at the top when it has fewer, whatever cycles the
    parents form. *)
Lemma breadcrumb_path id s :
  ∃ chain, breadcrumb id s = (Ok chain, s) ∧ linked chain ∧ (length chain <= 8)%nat
    ∧ Forall (live_category (tables s)) chain
    ∧ ((length chain < 8)%nat → ∀ c, head chain = Some c → topmost (tables s) c)
    ∧ match last chain with
      | Some c => kca_id c = id
      | None => ∀ c, live_category (tables s) c → kca_id c ≠ id
      end.
Proof.
  unfold breadcrumb. destruct (find_category_run id s) as (found & Run & F).
  rewrite (bind_step _ _ _ _ _ Run).
  destruct (breadcrumb_from_run 8 found [] s) as (up & R & Len & L & V & N & T); try done.
  { intros c ->. by destruct F. }
  rewrite app_nil_r in *. exists up. split_and!; try done. destruct found as [c|].
  - destruct (N c eq_refl) as [up' ->]; [done|]. rewrite last_snoc. by destruct F.
  - clear -F R. simpl in R. by destruct up.
Qed.
End search.
