(* ===== verification/CatalogRuns.v ===== *)
(** * Catalogue runs

    The sample shop is an orderly catalogue, on which the theorems of [CatalogRules]
    and [SearchRules] are applied; and runs in which the catalogue falls short of its
    intent. *)
From S2P Require Import Prelude Core Effects Redis Lock JsNumber Rules Pagination Database Tables Sample Payments Shipping Carrier Warranty CategoryTree CatalogStores Catalog CatalogRules SearchRules Schema.
From Stdlib Require Import QArith.

#[local] Open Scope Z_scope.

#[local] Existing Instances gmap_redis counting_crypto sample_postgres plain_server.
#[local] Instance js0 : JsLibrary := {
  Date_parse _ := None;
  localeCompare a b := match String.compare a b with Lt => -1 | Eq => 0 | Gt => 1 end;
  regex_test _ _ := None; string_to_number _ := None; array_to_number _ := None;
}.
#[local] Instance search0 : TextSearch := λ q t, includes_text (toLowerCase t) (toLowerCase q).
#[local] Instance equal0 : TextEqual := λ q t, String.eqb (toLowerCase t) (toLowerCase q).
#[local] Instance iso0 : DateText := λ _, "2026-01-01T00:00:00.000Z".
#[local] Instance sha0 : Sha1 := λ s, s.

(** The filters that these runs tell apart: the text and the order. *)
Definition field_text (k : string) (j : Json) : string :=
  match jget k j with Some (JStr s) => s | _ => "-" end.
#[local] Instance json0 : JsonText := λ j, field_text "q" j +:+ field_text "sort" j.
#[local] Instance storage0 : CatalogStorage := {|
  storage_publicUrl := Some "https://cdn.shop/"; storage_bucket := None;
  storage_put _ _ _ e := (Ok tt, e); random_uuid n := "file" +:+ pretty n |}.

(** ** The sample shop *)

Lemma names_distinct {A} (slug key : A → string) (P : A → Prop) l :
  forallb (λ x, forallb (λ y, implb (String.eqb (slug x) (slug y)) (String.eqb (key x) (key y))) l) l = true →
  ∀ x y, x ∈ l → y ∈ l → P x → P y → slug x = slug y → key x = key y.
Proof.
  rewrite forallb_forall. setoid_rewrite forallb_forall. setoid_rewrite <- list_elem_of_In.
  intros F x y X Y _ _ E. specialize (F x X y Y). rewrite E, String.eqb_refl in F. by apply String.eqb_eq.
Qed.

Lemma sample_catalogue : catalogue_ok (tables sample).
Proof.
  split.
  1-5: split_and!;
    [ refine (bool_decide_unpack _ _); vm_compute; exact I
    | apply names_distinct; vm_compute; reflexivity
    | cbn; repeat constructor; cbn; lia || discriminate ].
  - repeat constructor; cbn; set_solver.
  - repeat constructor; cbn; set_solver.
Qed.

Definition sale (price : Q) : UpdateVariantDto :=
  mkUpdateVariantDto None None None (Some price) None None None None None None None None None None None None.
Definition rename (slug : string) : UpdateProductDto :=
  mkUpdateProductDto None None None None (Some slug) None None None None None None None None None None.
Definition red_variant : CreateVariantDto :=
  mkCreateVariantDto "pr1" "SKU9" 20 15 None None None None None (Some "red") None None None None None
    (Some ["av1"; "nope"]).
Definition under (parent : string) : UpdateCategoryDto :=
  mkUpdateCategoryDto None None (Some parent) None None None None.
Definition sale_collection (products : option (list string)) : CreateCollectionDto :=
  mkCreateCollectionDto "Sale" "sale" None None None products.

(** A day of the administrator. *)
Definition day : list CatalogOp :=
  [op_getProduct "acme-one"; op_updateVariant "v1" (sale 50); op_createVariant red_variant;
   op_createVariant red_variant; op_updateProduct "pr1" (rename "acme-1"); op_updateCategory "ca1" (under "ca2");
   op_createCollection (sale_collection (Some ["pr1"])); op_assignCollection "u" []; op_deleteBrand "br1";
   op_deleteProduct "pr1"; op_updateProduct "pr1" (rename "again")].

Definition after (ops : list CatalogOp) : St Db := catalog_history ops sample.

(** The prices of the variants, whether they are on the shelf, and the products'
    slugs and states after the day. *)
Example a_day :
  (map (λ v, (pv_sku v, pv_sale_price v, live (pv_deleted_at v))) (variants (tables (after day))),
   map (λ p, (kpr_slug p, kpr_status p)) (products (tables (after day))))
  = ([("SKU1", 5000, true); ("SKU2", 2005, true); ("SKU9", 1500, true)], [("acme-1", rs_archived)]).
Proof. vm_compute. reflexivity. Qed.

Lemma catalogue_rows_kept_witness :
  catalogue_ok (tables (after day)) ∧ catalogue_kept (tables sample) (tables (after day)).
Proof. apply (catalogue_rows_kept day sample), sample_catalogue. Defined.



(** ** Runs *)

Definition answer (k : string) (o : outcome Json) : option Json :=
  match o with Ok j => jget k j | Throw _ => None end.

(** The product page by its slug shows the old price after the price is changed: the
    cache is told of the product's id only. *)
Example stale_price :
  (answer "priceFrom" (fst (getProduct "acme-one" sample)),
   answer "priceFrom" (fst (getProduct "acme-one" (after [op_updateVariant "v1" (sale 5)]))),
   answer "priceFrom" (fst (getProduct "acme-one" (after [op_getProduct "acme-one"; op_updateVariant "v1" (sale 5)]))))
  = (Some (JNum (cents 2005)), Some (JNum (cents 500)), Some (JNum (cents 2005))).
Proof. vm_compute. reflexivity. Qed.

(** A product that was given another slug is still served under the old one. *)
Example stale_slug :
  (answer "slug" (fst (getProduct "acme-one" (after [op_updateProduct "pr1" (rename "acme-1")]))),
   answer "slug" (fst (getProduct "acme-one"
     (after [op_getProduct "acme-one"; op_updateProduct "pr1" (rename "acme-1")]))))
  = (None, Some (JStr "acme-one")).
Proof. vm_compute. reflexivity. Qed.

(** The outcome of a request without its value. *)
Definition refusal {A} (o : outcome A) : option exn := match o with Ok _ => None | Throw e => Some e end.

(** A variant whose attribute values are refused is there all the same, and the
    corrected request is refused because of it. *)
Example variant_left_behind :
  let s := after [op_createVariant red_variant] in
  (refusal (fst (createVariant red_variant sample)), map pv_sku (variants (tables s)),
   refusal (fst (createVariant (mkCreateVariantDto "pr1" "SKU9" 20 15 None None None None None (Some "red")
     None None None None None (Some ["av1"])) s)))
  = (Some (AppException BAD_REQUEST "Invalid attribute values" 400), ["SKU1"; "SKU2"; "SKU9"],
     Some (AppException CONFLICT "SKU already exists" 409)).
Proof. vm_compute. reflexivity. Qed.

(** Two categories that are each other's parent leave the tree. *)
Example category_cycle :
  let s := after [op_updateCategory "ca1" (under "ca2")] in
  (map kca_parent_id (categories_of (tables s)), fst (categoryTree s))
  = ([Some "ca2"; Some "ca1"], Ok (JArr [])).
Proof. vm_compute. reflexivity. Qed.

(** ** Searching *)

Definition keyword (q : string) : ProductSearchDto :=
  mkProductSearchDto (Some q) None None None None None None None None None None None None None None None
    None None None.
Definition total_of (o : outcome Json) : option Json :=
  match answer "meta" o with Some m => jget "total" m | None => None end.

(** The sample with [mobile] as a synonym of the keyword [acme]. *)
Definition with_synonym : St Db :=
  mkSt env0 (put L_SearchSynonym [mkSearchSynonym "sy1" "sk1" "mobile" rs_active None]
    (put L_SearchKeyword [mkSearchKeyword "sk1" "acme" true 0 rs_active None] (tables sample))).

(** A word that has a synonym finds nothing: the words are joined to one text that no
    product contains. *)
Example synonyms_hide :
  (total_of (fst (searchProducts (keyword "acme") sample)),
   total_of (fst (searchProducts (keyword "acme") with_synonym)))
  = (Some (JInt 1), Some (JInt 0)).
Proof. vm_compute. reflexivity. Qed.

Definition product (id slug : string) (created : Z) : Product :=
  mkProduct id "br1" "ca2" "pt1" slug slug None None None None None None false false false false 0 0
    rs_active created None.

(** Three products of which the oldest is the cheapest and one has no variant. *)
Definition three : St Db :=
  mkSt env0 (put L_ProductVariant
    [variant0 "a" "A" 100 None; mkProductVariant "b" "p2" "B" None None None None None None None None None None
       None None None pcd_new_sealed pgr_ungraded 900 900 0 "INR" sks_in_stock rs_active None]
    (put L_Product [product "pr1" "old" 1; product "p2" "newer" 2; product "p3" "newest" 3] (tables sample))).

Definition cheapest_first (page : Z) : ProductSearchFilters :=
  mkFilters None None None None None None None None None None None None None false false false
    (Some "price_asc") (Some page) (Some 2).
Definition dearest_first : ProductSearchFilters :=
  mkFilters None None None None None None None None None None None None None false false false
    (Some "price_desc") None None.

Definition slugs (o : outcome SearchResult) : list string :=
  match o with Ok r => map (λ p, kpr_slug (lp_row p)) (sr_data r) | Throw _ => [] end.

(** Cheapest first shows the cheapest product on the last page; dearest first starts
    with a product that has no price. *)
Example price_within_page :
  (slugs (fst (product_search (cheapest_first 1) three)), slugs (fst (product_search (cheapest_first 2) three)),
   slugs (fst (product_search dearest_first three)))
  = (["newer"; "newest"], ["old"], ["newest"; "newer"; "old"]).
Proof. vm_compute. reflexivity. Qed.

(** A server whose plan for the later pages meets the rows the other way round. *)
Definition replanning : Postgres :=
  {| scan _ l := l; scan_perm A l := reflexivity l;
     page_scan _ skip _ l := if skip =? 0 then l else reverse l;
     page_scan_perm A skip _ l := match (skip =? 0) as b return ((if b then l else reverse l) ≡ₚ l) with
                                  | true => reflexivity l | false => reverse_Permutation l end;
     order_desc := @sample_order; order_desc_perm := sample_order_perm;
     order_desc_sorted := sample_order_sorted;
     gen_random_uuid := sample_uuid; uuid_fresh := sample_uuid_fresh;
     numeric2 := sample_numeric2; numeric2_near := sample_numeric2_near;
     numeric3 := sample_numeric3; numeric3_near := sample_numeric3_near;
     db_fault _ _ := None |}.

Definition best_rated (page : Z) : ProductSearchFilters :=
  mkFilters None None None None None None None None None None None None None false false false
    (Some "rating") (Some page) (Some 1).

(** ORDER BY has no tie-breaker: of three products with the same rating, one to a
    page, one is listed twice and another one not at all. *)
Example ties_repeat :
  (let pg := replanning in
   map (λ page, slugs (fst (product_search (best_rated page) three))) [1; 2; 3])
  = [["newest"]; ["newest"]; ["newer"]].
Proof. vm_compute. reflexivity. Qed.

(** The products of a deleted brand are still listed, under its name. *)
Example deleted_brand_listed :
  total_of (fst (searchProducts (keyword "acme") (after [op_deleteBrand "br1"]))) = Some (JInt 1).
Proof. vm_compute. reflexivity. Qed.

(** ** Counts and belongings *)

(** A collection is said to have the products that it had. *)
Example removed_products_counted :
  match fst (listCollections (after
    [op_createCollection (sale_collection (Some ["pr1"])); op_assignCollection "u" []])) with
  | Ok (JArr [c]) => jget "productCount" c
  | _ => None
  end = Some (JInt 1).
Proof. vm_compute. reflexivity. Qed.

Definition seo (slug : option string) : UpsertSeoDto :=
  mkUpsertSeoDto "product" (Some "pr1") slug (Some "Buy") None None None None None None.
Definition title (s : St Db) : option Json :=
  match answer "seo" (fst (getProduct "acme-one" s)) with Some m => jget "metaTitle" m | None => None end.

(** Metadata saved for a product's id alone is not shown, and a second save does not
    replace the first. *)
Example seo_needs_slug :
  (title (after [op_upsertSeo (seo None)]), title (after [op_upsertSeo (seo (Some "acme-one"))]),
   length (view L_SeoMetadata (tables (after [op_upsertSeo (seo None); op_upsertSeo (seo None)]))))
  = (Some JNull, Some (JStr "Buy"), 2%nat).
Proof. vm_compute. reflexivity. Qed.

(** A second product and a specification of the first: the request for the second
    deletes it. *)
Definition with_specification : St Db :=
  mkSt env0 (put L_Product [product "pr1" "acme-one" 1; product "p2" "other" 2]
    (put L_SpecificationGroup [mkSpecificationGroup "g" "GENERAL" "General"]
    (put L_ProductSpecification [mkProductSpecification "sp1" "pr1" "g" "RAM" "8 GB" 0 rs_active None]
      (tables sample)))).

Example deletes_another_products :
  let '(o, s') := deleteSpecification "p2" "sp1" with_specification in
  (refusal o, map ksp_status (view L_ProductSpecification (tables s'))) = (None, [rs_archived]).
Proof. vm_compute. reflexivity. Qed.

(** A guide that is created as published has no date of publication. *)
Example published_without_date :
  match fst (createBuyingGuide (mkCreateBuyingGuideDto "g" "Guide" "Text" None None (Some "published")) sample) with
  | Ok g => Some (kbg_status g, kbg_published_at g)
  | Throw _ => None
  end = Some (cps_published, None).
Proof. vm_compute. reflexivity. Qed.
