(* ===== verification/Content.v ===== *)
(** * Content management

    Models [backend/src/modules/marketing/services/cms.service.ts] and the dashboard of
    [growth.services.ts]: pages with their sections, the store's settings kept in a
    section of a page, banners and popups, the navigation, and the blog. *)
From S2P Require Import Prelude Core Effects Redis Lock JsNumber Rules Database Tables Payments Webhooks Coupons CatalogStores Schema.
From Stdlib Require Import QArith.

#[local] Open Scope Z_scope.

(** ** Constants ([constants/marketing.constants.ts]) *)
Module CMS_CACHE.
Definition page (slug : string) : string := "cms:page:" +:+ slug.
Definition nav : string := "cms:navigation".
Definition banners : string := "cms:banners".
End CMS_CACHE.

(** ** Requests ([dto/marketing.dto.ts]) *)

Record CmsSectionInput := mkCmsSectionInput {
  si_sectionKey : string; si_sectionType : string; si_title : option string;
  si_configJson : option Json; si_sortOrder : option Z;
}.
Record CreateCmsPageDto := mkCreateCmsPageDto {
  cpg_slug : string; cpg_title : string; cpg_pageType : option string;
  cpg_sections : option (list CmsSectionInput);
}.
Record PatchCmsPageDto := mkPatchCmsPageDto {
  ppg_title : option string; ppg_status : option CmsPageStatus;
}.
Record StoreSettingsDto := mkStoreSettingsDto {
  sst_storeName : option string; sst_supportPhone : option string; sst_gstin : option string;
}.
Record CreateBannerDto := mkCreateBannerDto {
  cbn_title : string; cbn_subtitle : option string; cbn_groupId : option string;
  cbn_placement : option string; cbn_linkUrl : option string; cbn_mediaFileId : option string;
  cbn_startsAt : option string; cbn_endsAt : option string;
}.
Record CreateBlogDto := mkCreateBlogDto {
  cbl_slug : string; cbl_title : string; cbl_body : string; cbl_excerpt : option string;
  cbl_categoryId : option string;
}.

(** What [getStoreSettings] answers, less the page's id. *)
Record StoreSettings := mkStoreSettings {
  ss_storeName : string; ss_supportPhone : string; ss_gstin : string;
}.

Definition settings_json (s : StoreSettings) : Json :=
  JObj [("storeName", JStr (ss_storeName s)); ("supportPhone", JStr (ss_supportPhone s));
        ("gstin", JStr (ss_gstin s))].

(** ** Rows *)

Definition patch_page (dto : PatchCmsPageDto) (published_at : option Z) (p : CmsPage) : CmsPage :=
  mkCmsPage (cmp_id p) (cmp_slug p) (coalesce (ppg_title dto) (cmp_title p)) (cmp_page_type p)
    (coalesce (ppg_status dto) (cmp_status p)) published_at (cmp_deleted_at p).

Definition publish_page (now : Z) (p : CmsPage) : CmsPage :=
  mkCmsPage (cmp_id p) (cmp_slug p) (cmp_title p) (cmp_page_type p) cps_published (Some now)
    (cmp_deleted_at p).

Definition set_config (config : Json) (s : CmsSection) : CmsSection :=
  mkCmsSection (cms_id s) (cms_page_id s) (cms_section_key s) (cms_section_type s) (cms_title s)
    (Some config) (cms_sort_order s) (cms_status s) (cms_deleted_at s).

(** The banners to show at [now]. *)
Definition on_show (now : Z) (b : Banner) : bool :=
  is_active (bnr_status b) (bnr_deleted_at b)
  && match bnr_starts_at b with None => true | Some t => t <=? now end
  && match bnr_ends_at b with None => true | Some t => now <=? t end.

Definition shown_page (slug : string) (p : CmsPage) : bool :=
  String.eqb (cmp_slug p) slug && live (cmp_deleted_at p) && bool_decide (cmp_status p = cps_published).

Definition settings_page (p : CmsPage) : bool :=
  String.eqb (cmp_slug p) "store-settings" && live (cmp_deleted_at p).

Definition store_section (pageId : string) (s : CmsSection) : bool :=
  String.eqb (cms_page_id s) pageId && live (cms_deleted_at s)
  && String.eqb (cms_section_key s) "store".

Definition shown_blog (b : Blog) : bool :=
  live (blg_deleted_at b) && bool_decide (blg_status b = cps_published).

(** [for (…; i++)] over the sections of a request. *)
Fixpoint indexed {A} (i : Z) (xs : list A) : list (Z * A) :=
  match xs with [] => [] | x :: rest => (i, x) :: indexed (i + 1) rest end.

Section service.
Context `{Redis, !Postgres, !JsLibrary, !DateText, !NumberText}.

(** [String(cfg[key] ?? fallback)] *)
Definition setting (key fallback : string) (cfg : Json) : string :=
  match jget key cfg with Some JNull | None => fallback | Some j => js_String j end.

Definition jtime (t : option Z) : Json :=
  match t with Some t => JStr (iso_text t) | None => JNull end.

Definition cms_getOrSet (key : string) (factory : M (St Db) Json) : M (St Db) Json :=
  mkt_getOrSet key Some id factory.

Definition invalidatePage (slug : string) : M (St Db) () := CacheService.del (CMS_CACHE.page slug).
Definition invalidateNav : M (St Db) () := CacheService.del CMS_CACHE.nav.
Definition invalidateBanners : M (St Db) () := CacheService.del CMS_CACHE.banners.

(** ORDER BY f ASC. *)
Definition order_asc {A} (f : A → Z) (l : list A) : list A := order_desc (λ x, - f x) l.

(** ** Pages *)

Definition PAGE_NOT_FOUND : exn := AppException NOT_FOUND "Page not found" 404.

Definition section_json (s : CmsSection) : Json :=
  JObj [("id", JStr (cms_id s)); ("key", JStr (cms_section_key s)); ("type", JStr (cms_section_type s));
        ("title", jnull_str (cms_title s)); ("config", coalesce (cms_config_json s) JNull);
        ("sortOrder", JInt (cms_sort_order s))].

Definition page_json (p : CmsPage) (sections : list CmsSection) : Json :=
  JObj [("id", JStr (cmp_id p)); ("slug", JStr (cmp_slug p)); ("title", JStr (cmp_title p));
        ("pageType", JStr (cmp_page_type p)); ("publishedAt", jtime (cmp_published_at p));
        ("sections", JArr (map section_json sections))].

Definition load_page (slug : string) : M (St Db) Json :=
  page ← db_findFirst T_CmsPage (shown_page slug);
  page ← require_ page PAGE_NOT_FOUND;
  rows ← db_findMany T_CmsSection (λ s, String.eqb (cms_page_id s) (cmp_id page)
           && is_active (cms_status s) (cms_deleted_at s));
  mret (page_json page (order_asc cms_sort_order rows)).

Definition getPageBySlug (slug : string) : M (St Db) Json :=
  cms_getOrSet (CMS_CACHE.page slug) (load_page slug).

Definition createPage (actorId : string) (dto : CreateCmsPageDto) : M (St Db) Json :=
  page ← in_transaction (
    page ← db_create T_CmsPage (λ id, mkCmsPage id (cpg_slug dto) (cpg_title dto)
             (coalesce (cpg_pageType dto) "page") cps_draft None None);
    for_each (indexed 0 (coalesce (cpg_sections dto) [])) (λ x, let '(i, s) := (x : Z * CmsSectionInput) in
      _ ← db_create T_CmsSection (λ id, mkCmsSection id (cmp_id page) (si_sectionKey s)
            (si_sectionType s) (si_title s) (si_configJson s) (coalesce (si_sortOrder s) i)
            rs_active None);
      mret tt) ;;
    mret page);
  mkt_audit "cms_page" (cmp_id page) "create" actorId ;;
  mret (JObj [("id", JStr (cmp_id page)); ("slug", JStr (cmp_slug page));
              ("status", JStr (CmsPageStatus_text (cmp_status page)))]).

Definition patchPage (actorId id : string) (dto : PatchCmsPageDto) : M (St Db) Json :=
  page ← db_findFirst T_CmsPage (λ p, String.eqb (cmp_id p) id && live (cmp_deleted_at p));
  page ← require_ page PAGE_NOT_FOUND;
  published_at ← (if bool_decide (ppg_status dto = Some cps_published)
                  then now ← Date_now; mret (Some now)
                  else mret (cmp_published_at page));
  updated ← db_update T_CmsPage id (patch_page dto published_at);
  invalidatePage (cmp_slug page) ;;
  mkt_audit "cms_page" id "update" actorId ;;
  mret (JObj [("id", JStr (cmp_id updated)); ("status", JStr (CmsPageStatus_text (cmp_status updated)))]).

(** ** The store's settings *)

(** The page and its first section "store". *)
Definition settings_row : M (St Db) (option (CmsPage * option CmsSection)) :=
  page ← db_findFirst T_CmsPage settings_page;
  match page with
  | None => mret None
  | Some p => section ← db_findFirst T_CmsSection (store_section (cmp_id p));
              mret (Some (p, section))
  end.

Definition config_of (row : option (CmsPage * option CmsSection)) : Json :=
  match row with Some (_, Some s) => coalesce (cms_config_json s) (JObj []) | _ => JObj [] end.

Definition settings_of (cfg : Json) : StoreSettings :=
  mkStoreSettings (setting "storeName" "Electronics Cart" cfg) (setting "supportPhone" "" cfg)
    (setting "gstin" "" cfg).

Definition getStoreSettings : M (St Db) (StoreSettings * option string) :=
  row ← settings_row;
  mret (settings_of (config_of row), option_map (λ ps, cmp_id (fst ps)) row).

Definition next_settings (dto : StoreSettingsDto) (current : StoreSettings) : StoreSettings :=
  mkStoreSettings (coalesce (sst_storeName dto) (ss_storeName current))
    (coalesce (sst_supportPhone dto) (ss_supportPhone current))
    (coalesce (sst_gstin dto) (ss_gstin current)).

Definition add_store_section (pageId : string) (next : StoreSettings) : M (St Db) () :=
  _ ← db_create T_CmsSection (λ id, mkCmsSection id pageId "store" "json" (Some "Store")
        (Some (settings_json next)) 0 rs_active None);
  mret tt.

Definition write_settings (next : StoreSettings) : M (St Db) StoreSettings :=
  row ← settings_row;
  match row with
  | None =>
      now ← Date_now;
      in_transaction (
        page ← db_create T_CmsPage (λ id, mkCmsPage id "store-settings" "Store Settings" "settings"
                 cps_published (Some now) None);
        add_store_section (cmp_id page) next)
  | Some (page, Some section) =>
      _ ← db_update T_CmsSection (cms_id section) (set_config (settings_json next));
      now ← Date_now;
      _ ← db_update T_CmsPage (cmp_id page) (publish_page now);
      mret tt
  | Some (page, None) => add_store_section (cmp_id page) next
  end ;;
  invalidatePage "store-settings" ;;
  mret next.

Definition upsertStoreSettings (dto : StoreSettingsDto) : M (St Db) StoreSettings :=
  current ← getStoreSettings;
  write_settings (next_settings dto (fst current)).

(** ** Banners *)

Definition banner_json (d : Db) (b : Banner) : Json :=
  let group := bnr_group_id b ≫= row_of T_BannerGroup d in
  JObj ([("id", JStr (bnr_id b)); ("title", JStr (bnr_title b)); ("subtitle", jnull_str (bnr_subtitle b));
         ("linkUrl", jnull_str (bnr_link_url b));
         ("placement", JStr (from_option bng_placement "homepage" group))]
        ++ jopt "groupCode" (option_map bng_code group)
        ++ [("mediaFileId", jnull_str (bnr_media_file_id b)); ("sortOrder", JInt (bnr_sort_order b))]).

Definition load_banners : M (St Db) Json :=
  now ← Date_now;
  d ← gets tables;
  rows ← db_findMany T_Banner (on_show now);
  mret (JArr (map (banner_json d) (order_asc bnr_sort_order rows))).

Definition listBanners : M (St Db) Json := cms_getOrSet CMS_CACHE.banners load_banners.

(** The group of a banner: the one given, or the one of the placement. *)
Definition banner_group (dto : CreateBannerDto) : M (St Db) (option string) :=
  if truthy_str (cbn_groupId dto) then mret (cbn_groupId dto)
  else if truthy_str (cbn_placement dto) then
    let code := coalesce (cbn_placement dto) "" in
    group ← db_findFirst T_BannerGroup (λ g, String.eqb (bng_code g) code && live (bng_deleted_at g));
    group ← match group with
            | Some g => mret g
            | None => db_create T_BannerGroup (λ id, mkBannerGroup id code code code rs_active None)
            end;
    mret (Some (bng_id group))
  else mret (cbn_groupId dto).

Definition createBanner (actorId : string) (dto : CreateBannerDto) : M (St Db) Json :=
  groupId ← banner_group dto;
  starts ← optional_date (cbn_startsAt dto);
  ends ← optional_date (cbn_endsAt dto);
  banner ← db_create T_Banner (λ id, mkBanner id groupId (cbn_title dto) (cbn_subtitle dto)
             (cbn_mediaFileId dto) (cbn_linkUrl dto) 0 starts ends rs_active None);
  invalidateBanners ;;
  mkt_audit "banner" (bnr_id banner) "create" actorId ;;
  mret (JObj [("id", JStr (bnr_id banner)); ("title", JStr (bnr_title banner))]).

(** [{ ...dto, placement: dto.placement ?? 'popup' }] *)
Definition createPopup (actorId : string) (dto : CreateBannerDto) : M (St Db) Json :=
  createBanner actorId (mkCreateBannerDto (cbn_title dto) (cbn_subtitle dto) (cbn_groupId dto)
    (Some (coalesce (cbn_placement dto) "popup")) (cbn_linkUrl dto) (cbn_mediaFileId dto)
    (cbn_startsAt dto) (cbn_endsAt dto)).

(** ** Navigation *)

Definition nav_item (i : HomepageSectionItem) : Json :=
  JObj [("key", JStr (hpi_section_key i)); ("type", JStr (hpi_section_type i));
        ("title", jnull_str (hpi_title i)); ("config", coalesce (hpi_config_json i) JNull)].

Definition load_navigation : M (St Db) Json :=
  layout ← db_findFirst T_HomepageLayout
    (λ l, hpl_is_default l && is_active (hpl_status l) (hpl_deleted_at l));
  items ← match layout with
          | None => mret []
          | Some l => db_findMany T_HomepageSectionItem (λ i, String.eqb (hpi_layout_id i) (hpl_id l)
                        && is_active (hpi_status i) (hpi_deleted_at i)
                        && one_of ["navigation"; "menu"; "footer"] (hpi_section_type i))
          end;
  pages ← db_findMany T_CmsPage (λ p, live (cmp_deleted_at p)
    && bool_decide (cmp_status p = cps_published) && one_of ["navigation"; "menu"] (cmp_page_type p));
  mret (JObj [("layoutCode", jnull_str (option_map hpl_code layout));
              ("items", JArr (map nav_item (order_asc hpi_sort_order items)));
              ("pages", JArr (map (λ p, JObj [("slug", JStr (cmp_slug p)); ("title", JStr (cmp_title p))])
                                  (take 50 pages)))]).

Definition getNavigation : M (St Db) Json := cms_getOrSet CMS_CACHE.nav load_navigation.

(** ** Blog *)

Definition category_name (d : Db) (b : Blog) : list (string * Json) :=
  jopt "category" (option_map blc_name (blg_category_id b ≫= row_of T_BlogCategory d)).

(** [b.tag_maps.map((t) => t.tag.name)] *)
Definition blog_tags (d : Db) (b : Blog) : Json :=
  JArr (map JStr (omap (λ m, option_map blt_name (row_of T_BlogTag d (btm_tag_id m)))
    (scan (where_ (λ m, String.eqb (btm_blog_id m) (blg_id b)) (view L_BlogTagMap d))))).

Definition blog_item (d : Db) (b : Blog) : Json :=
  JObj ([("id", JStr (blg_id b)); ("slug", JStr (blg_slug b)); ("title", JStr (blg_title b));
         ("excerpt", jnull_str (blg_excerpt b))]
        ++ category_name d b
        ++ [("tags", blog_tags d b); ("publishedAt", jtime (blg_published_at b))]).

Definition listBlogs : M (St Db) Json :=
  d ← gets tables;
  mret (JArr (map (blog_item d)
    (take 50 (order_desc_nulls_first blg_published_at (where_ shown_blog (view L_Blog d)))))).

Definition getBlog (slug : string) : M (St Db) Json :=
  d ← gets tables;
  blog ← db_findFirst T_Blog (λ b, String.eqb (blg_slug b) slug && shown_blog b);
  b ← require_ blog (AppException NOT_FOUND "Blog not found" 404);
  comments ← db_findMany T_BlogComment (λ c, String.eqb (bcm_blog_id c) (blg_id b)
    && bcm_is_approved c && live (bcm_deleted_at c));
  mret (JObj ([("id", JStr (blg_id b)); ("slug", JStr (blg_slug b)); ("title", JStr (blg_title b));
               ("excerpt", jnull_str (blg_excerpt b)); ("body", JStr (blg_body b))]
              ++ category_name d b
              ++ [("tags", blog_tags d b);
                  ("comments", JArr (map (λ c, JObj [("id", JStr (bcm_id c)); ("body", JStr (bcm_body c))])
                                         (take 50 comments)));
                  ("publishedAt", jtime (blg_published_at b))])).

Definition createBlog (actorId : string) (dto : CreateBlogDto) : M (St Db) Json :=
  blog ← db_create T_Blog (λ id, mkBlog id (cbl_slug dto) (cbl_title dto) (cbl_excerpt dto)
           (cbl_body dto) (Some actorId) (cbl_categoryId dto) cps_draft None None);
  mkt_audit "blog" (blg_id blog) "create" actorId ;;
  mret (JObj [("id", JStr (blg_id blog)); ("slug", JStr (blg_slug blog))]).

Definition listGuides : M (St Db) Json :=
  rows ← aux_listBuyingGuides;
  mret (JArr (map (λ g, JObj [("id", JStr (kbg_id g)); ("slug", JStr (kbg_slug g));
    ("title", JStr (kbg_title g)); ("excerpt", jnull_str (kbg_excerpt g));
    ("publishedAt", jtime (kbg_published_at g))]) (take 50 rows))).

(** ** The marketing dashboard *)

Definition marketing_dashboard : M (St Db) Json :=
  pages ← db_count T_CmsPage (λ p, bool_decide (cmp_status p = cps_published) && live (cmp_deleted_at p));
  coupons ← db_count T_Coupon (λ c, bool_decide (co_status c = rs_active) && live (co_deleted_at c));
  email ← db_count T_Campaign (λ c, String.eqb (cg_kind c) "email" && bool_decide (cg_status c = cg_running)
             && live (cg_deleted_at c));
  flags ← db_count T_FeatureFlag (λ f, live (ff_deleted_at f));
  running ← db_count T_AbTest (λ t, bool_decide (ab_status t = ab_running) && live (ab_deleted_at t));
  accounts ← db_count T_LoyaltyAccount (λ a, live (ly_deleted_at a));
  mret (JObj [("publishedPages", JInt pages); ("activeCoupons", JInt coupons);
              ("runningEmailCampaigns", JInt email); ("featureFlags", JInt flags);
              ("runningAbTests", JInt running); ("loyaltyAccounts", JInt accounts)]).
End service.
