(* ===== verification/ContentRules.v ===== *)
(** * Rules of content management

    What the content service guarantees: the page, the banners and the posts it shows
    are the published ones of the moment, in order; the store's settings are read back
    as they were written; and no request of the service ever publishes a post. The
    examples show what it does not guarantee. *)
From S2P Require Import Prelude Core Effects Redis Lock JsNumber Rules Schema Database Instant Tables Sample Payments Coupons CouponRules Carrier CatalogStores Content.
From Stdlib Require Import QArith.

#[local] Open Scope Z_scope.

Section rules.
Context `{Redis, !Postgres, !JsLibrary, !DateText, !NumberText}.

Lemma order_asc_spec {A} (f : A → Z) l :
  order_asc f l ≡ₚ l ∧ StronglySorted (λ x y, f x <= f y) (order_asc f l).
Proof.
  unfold order_asc. split; [apply order_desc_perm|].
  pose proof (order_desc_sorted A (λ x, - f x) l) as Hs.
  induction Hs as [|x l' _ IH Hx]; constructor; [done|].
  eapply Forall_impl; [exact Hx|]. cbn. lia.
Qed.

(** ** What is shown *)

(** A page is answered exactly when a live published page has the slug: it is one of
    those, with its live active sections and no others, in their order; otherwise the
    answer is 404. Nothing is written. *)
Theorem page_shown (slug : string) (s : St Db) :
  let d := tables s in
  snd (load_page slug s) = s
  ∧ match fst (load_page slug s) with
    | Ok j => ∃ p rows, p ∈ view L_CmsPage d ∧ shown_page slug p = true
        ∧ rows ≡ₚ where_ (λ x, String.eqb (cms_page_id x) (cmp_id p)
                               && is_active (cms_status x) (cms_deleted_at x)) (view L_CmsSection d)
        ∧ StronglySorted (λ x y, cms_sort_order x <= cms_sort_order y) rows
        ∧ j = page_json p rows
    | Throw e => e = PAGE_NOT_FOUND ∧ Forall (λ p, shown_page slug p = false) (view L_CmsPage d)
    end.
Proof.
  cbn zeta. unfold load_page, mbind, M_bind, db_findFirst, gets.
  destruct (head _) as [p|] eqn:E; cbn [require_]; unfold mret, M_ret, throw; cbn [fst snd].
  - split; [done|]. apply head_scan_Some in E as [Hp Hs].
    destruct (order_asc_spec cms_sort_order (scan (where_
      (λ x, String.eqb (cms_page_id x) (cmp_id p) && is_active (cms_status x) (cms_deleted_at x))
      (view (tbl T_CmsSection) (tables s))))) as [P S].
    eexists p, _. split_and!; [done|done| |exact S|done]. rewrite P. apply scan_perm.
  - split; [done|]. split; [done|]. by apply head_scan_None in E.
Qed.

(** The banners listed are exactly the live active ones whose time has come and is not
    over, in their order. *)
Theorem banners_shown (s : St Db) :
  ∃ rows, load_banners s = (Ok (JArr (map (banner_json (tables s)) rows)), s)
    ∧ rows ≡ₚ where_ (on_show (clock (env s))) (view L_Banner (tables s))
    ∧ StronglySorted (λ x y, bnr_sort_order x <= bnr_sort_order y) rows
    ∧ (∀ b, b ∈ rows ↔ b ∈ view L_Banner (tables s)
         ∧ bnr_status b = rs_active ∧ bnr_deleted_at b = None
         ∧ (∀ t, bnr_starts_at b = Some t → t <= clock (env s))
         ∧ (∀ t, bnr_ends_at b = Some t → clock (env s) <= t)).
Proof.
  destruct (order_asc_spec bnr_sort_order
    (scan (where_ (on_show (clock (env s))) (view L_Banner (tables s))))) as [P S].
  eexists. split; [reflexivity|].
  pose proof (Permutation_trans P (scan_perm _ _)) as P'. clear P. rename P' into P.
  split_and!; [exact P|exact S|].
  intros b. rewrite P, elem_of_where. apply and_iff_compat_l. unfold on_show, is_active, live.
  rewrite !andb_true_iff, bool_decide_eq_true.
  destruct (bnr_deleted_at b), (bnr_starts_at b) as [t1|], (bnr_ends_at b) as [t2|];
    rewrite ?Z.leb_le; naive_solver.
Qed.

(** ** The store's settings *)

(** At most one live page of settings, with at most one section "store"; sections belong
    to a page. *)
Record one_store (d : Db) : Prop := {
  st_page : ∀ p q, p ∈ view L_CmsPage d → q ∈ view L_CmsPage d →
    settings_page p = true → settings_page q = true → cmp_id p = cmp_id q;
  st_section : ∀ p x y, p ∈ view L_CmsPage d → settings_page p = true →
    x ∈ view L_CmsSection d → y ∈ view L_CmsSection d →
    store_section (cmp_id p) x = true → store_section (cmp_id p) y = true → x = y;
  st_owned : ∀ x, x ∈ view L_CmsSection d → cms_page_id x ∈ map cmp_id (view L_CmsPage d);
}.

(** The tables say the settings [v] on the page [pid]. *)
Definition says (d : Db) (v : StoreSettings) (pid : string) : Prop :=
  ∃ p x, p ∈ view L_CmsPage d ∧ settings_page p = true ∧ cmp_id p = pid
    ∧ x ∈ view L_CmsSection d ∧ store_section pid x = true
    ∧ cms_config_json x = Some (settings_json v).

Lemma settings_row_spec d :
  dwp settings_row (λ o d', d' = d ∧ ∃ row, o = Ok row ∧
    match row with
    | None => Forall (λ p, settings_page p = false) (view L_CmsPage d)
    | Some (p, x) => p ∈ view L_CmsPage d ∧ settings_page p = true
        ∧ match x with
          | Some x => x ∈ view L_CmsSection d ∧ store_section (cmp_id p) x = true
          | None => Forall (λ x, store_section (cmp_id p) x = false) (view L_CmsSection d)
          end
    end) d.
Proof.
  unfold settings_row. apply dwp_bind, dwp_findFirst.
  - intros p Hp E. apply dwp_bind, dwp_findFirst.
    + intros x Hx Ex. apply dwp_ret. split; [done|]. by eexists.
    + intros HN. apply dwp_ret. split; [done|]. by eexists.
  - intros HN. apply dwp_ret. split; [done|]. by eexists.
Qed.

Lemma settings_of_json v : settings_of (settings_json v) = v.
Proof. by destruct v. Qed.

(** Under [one_store] what the tables say is what is read. *)
Lemma read_says d v pid : one_store d → says d v pid →
  dwp getStoreSettings (λ o _, o = Ok (v, Some pid)) d.
Proof.
  intros S (p & x & Hp & Ep & <- & Hx & Ex & Ec). unfold getStoreSettings.
  apply dwp_bind. eapply dwp_mono; [apply settings_row_spec|].
  intros o d' [-> (row & -> & Hr)]. apply dwp_ret.
  destruct row as [[q y]|]; [|rewrite Forall_forall in Hr; specialize (Hr p Hp); congruence].
  destruct Hr as (Hq & Eq & Hy). assert (cmp_id q = cmp_id p) as E by (by apply (st_page d S)).
  rewrite E in Hy. destruct y as [y|].
  - destruct Hy as [Hy Ey]. assert (y = x) as -> by (by apply (st_section d S p)).
    cbn [config_of fst option_map]. rewrite E, Ec. cbn [coalesce]. by rewrite settings_of_json.
  - rewrite Forall_forall in Hy. specialize (Hy x Hx). congruence.
Qed.

Lemma store_section_page i x : store_section i x = true → cms_page_id x = i.
Proof. unfold store_section. intros [[E%String.eqb_eq _]%andb_true_iff _]%andb_true_iff. done. Qed.

Lemma new_page_says d v pid sid p x :
  one_store d → Forall (λ p, settings_page p = false) (view L_CmsPage d) →
  pid ∉ map cmp_id (view L_CmsPage d) → settings_page p = true → cmp_id p = pid →
  store_section pid x = true → cms_page_id x = pid → cms_config_json x = Some (settings_json v) →
  cms_id x = sid →
  let d1 := put L_CmsPage (view L_CmsPage d ++ [p]) d in
  let d2 := put L_CmsSection (view L_CmsSection d ++ [x]) d1 in
  one_store d2 ∧ says d2 v pid.
Proof.
  intros [S1 S2 S3] HN Hf Ep Ei Ex Eo Ec _. cbn zeta. rewrite Forall_forall in HN.
  assert (∀ q, q ∈ view L_CmsPage d ++ [p] → settings_page q = true → q = p) as Only.
  { intros q [Hq| ->%list_elem_of_singleton]%elem_of_app Eq; [|done]. rewrite HN in Eq; done. }
  assert (∀ y, y ∈ view L_CmsSection d ++ [x] → store_section pid y = true → y = x) as OnlyS.
  { intros y [Hy| ->%list_elem_of_singleton]%elem_of_app Ey; [|done].
    exfalso. apply Hf. rewrite <- (store_section_page _ _ Ey). by apply S3. }
  split; [split|]; rewrite ?view_put.
  - change (view L_CmsPage (put L_CmsSection ?l ?d)) with (view L_CmsPage d). rewrite view_put.
    intros q r Hq Hr Eq Er. by rewrite (Only q), (Only r).
  - change (view L_CmsPage (put L_CmsSection ?l ?d)) with (view L_CmsPage d). rewrite view_put.
    intros q y z Hq Eq Hy Hz Ey Ez. rewrite (Only q Hq Eq), Ei in Ey, Ez.
    by rewrite (OnlyS y), (OnlyS z).
  - change (view L_CmsPage (put L_CmsSection ?l ?d)) with (view L_CmsPage d). rewrite view_put, map_app.
    intros y [Hy| ->%list_elem_of_singleton]%elem_of_app; apply elem_of_app;
      [left; by apply S3|right; rewrite Eo, <- Ei; apply list_elem_of_singleton; done].
  - exists p, x. rewrite view_put. change (view L_CmsPage (put L_CmsSection ?l ?d)) with (view L_CmsPage d).
    rewrite view_put. split_and!; try done; set_solver.
Qed.

Lemma updated_says d v p x (g : CmsPage → CmsPage) :
  one_store d → p ∈ view L_CmsPage d → settings_page p = true →
  x ∈ view L_CmsSection d → store_section (cmp_id p) x = true →
  (∀ q, cmp_id (g q) = cmp_id q ∧ settings_page (g q) = settings_page q) →
  let d1 := put L_CmsSection
    (update_rows cms_id (cms_id x) (set_config (settings_json v)) (view L_CmsSection d)) d in
  let d2 := put L_CmsPage (update_rows cmp_id (cmp_id p) g (view L_CmsPage d1)) d1 in
  one_store d2 ∧ says d2 v (cmp_id p).
Proof.
  intros [S1 S2 S3] Hp Ep Hx Ex Hg. cbn zeta. set (up := set_config (settings_json v)).
  assert (∀ q, q ∈ update_rows cmp_id (cmp_id p) g (view L_CmsPage d) →
    ∃ r, r ∈ view L_CmsPage d ∧ cmp_id q = cmp_id r ∧ settings_page q = settings_page r) as Pg.
  { intros q (r & Hr & [[_ ->]|[_ ->]])%elem_of_update_rows; exists r; [|done].
    by destruct (Hg r) as [-> ->]. }
  assert (∀ i y, store_section i (up y) = store_section i y) as Us by done.
  split; [split|]; rewrite ?view_put;
    try change (view L_CmsPage (put L_CmsSection ?l ?d)) with (view L_CmsPage d);
    try change (view L_CmsSection (put L_CmsPage ?l ?d)) with (view L_CmsSection d);
    rewrite ?view_put.
  - intros q r (q' & Hq & -> & Eq)%Pg (r' & Hr & -> & Er)%Pg. rewrite Eq, Er. by apply S1.
  - intros q y z (q' & Hq & Ei & Eq)%Pg Esq. rewrite Eq in Esq. rewrite Ei.
    intros (y' & Hy & Cy)%elem_of_update_rows (z' & Hz & Cz)%elem_of_update_rows Ey Ez.
    assert (store_section (cmp_id q') y' = true) as Ey' by (by destruct Cy as [[_ ->]|[_ ->]]).
    assert (store_section (cmp_id q') z' = true) as Ez' by (by destruct Cz as [[_ ->]|[_ ->]]).
    assert (y' = z') as -> by (by apply (S2 q')). destruct Cy as [[? ->]|[? ->]], Cz as [[? ->]|[? ->]]; done.
  - intros y (y' & Hy & Cy)%elem_of_update_rows. rewrite update_rows_keys by (intros q; apply Hg).
    destruct Cy as [[_ ->]|[_ ->]]; by apply (S3 y').
  - exists (g p), (up x). rewrite !view_put.
    try change (view L_CmsPage (put L_CmsSection ?l ?d)) with (view L_CmsPage d).
    try change (view L_CmsSection (put L_CmsPage ?l ?d)) with (view L_CmsSection d). rewrite ?view_put.
    destruct (Hg p) as [-> ->]. split_and!; [|done|done| |done|done].
    + by apply elem_of_updated.
    + by apply elem_of_updated.
Qed.

(** A settings page without the section. *)
Lemma new_section_says d v p x :
  one_store d → p ∈ view L_CmsPage d → settings_page p = true →
  Forall (λ x, store_section (cmp_id p) x = false) (view L_CmsSection d) →
  store_section (cmp_id p) x = true → cms_page_id x = cmp_id p →
  cms_config_json x = Some (settings_json v) →
  let d1 := put L_CmsSection (view L_CmsSection d ++ [x]) d in
  one_store d1 ∧ says d1 v (cmp_id p).
Proof.
  intros [S1 S2 S3] Hp Ep HN Ex Eo Ec. cbn zeta. rewrite Forall_forall in HN.
  assert (∀ q y, q ∈ view L_CmsPage d → settings_page q = true → y ∈ view L_CmsSection d ++ [x] →
    store_section (cmp_id q) y = true → y = x) as Only.
  { intros q y Hq Eq [Hy| ->%list_elem_of_singleton]%elem_of_app Ey; [|done].
    rewrite (S1 q p) in Ey by done. rewrite HN in Ey; done. }
  split; [split|]; rewrite ?view_put;
    try change (view L_CmsPage (put L_CmsSection ?l ?d)) with (view L_CmsPage d).
  - done.
  - intros q y z Hq Eq Hy Hz Ey Ez. by rewrite (Only q y), (Only q z).
  - intros y [Hy| ->%list_elem_of_singleton]%elem_of_app; [by apply S3|].
    rewrite Eo. by apply list_elem_of_fmap_2.
  - exists p, x. rewrite view_put. split_and!; try done; set_solver.
Qed.

Lemma write_settings_spec v d : one_store d →
  dwp (write_settings v) (λ o d', ∀ r, o = Ok r → r = v ∧ one_store d' ∧ ∃ pid, says d' v pid) d.
Proof.
  intros S. unfold write_settings. apply dwp_bind. eapply dwp_mono; [apply settings_row_spec|].
  intros o d' [-> (row & -> & Hr)]. apply dwp_bind.
  apply dwp_mono with (λ o d', o = Ok tt → one_store d' ∧ ∃ pid, says d' v pid).
  2: { intros [[]|e] d' Hw; [|done]. specialize (Hw eq_refl).
       apply dwp_bind. unfold invalidatePage. dwp_step; [|done]. apply dwp_ret. by intros r [= <-]. }
  destruct row as [[p [x|]]|].
  - destruct Hr as (Hp & Ep & Hx & Ex). dwp_step; [done|]. dwp_step; [|done]. dwp_step; [done|].
    apply dwp_ret. intros _. cbn [tbl T_CmsPage T_CmsSection pk] in *.
    edestruct (updated_says d v p x) as [S' V]; [done..| |split; [exact S'|by eexists]]. done.
  - destruct Hr as (Hp & Ep & HN). unfold add_store_section. dwp_step; [done|]. apply dwp_ret.
    intros _. cbn [tbl T_CmsSection].
    edestruct (new_section_says d v p) as [S' V]; [done..| | | |split; [exact S'|by eexists]];
      [|done|done]. unfold store_section. cbn. by rewrite String.eqb_refl.
  - dwp_step; [|done]. dwp_step. dwp_step; [done|]. unfold add_store_section.
    dwp_step; [done|]. apply dwp_ret. intros _. cbn [tbl pk T_CmsPage T_CmsSection] in *.
    edestruct (new_page_says d v) as [S' V]; [done|done|..|split; [exact S'|by eexists]]; try done.
    unfold store_section. cbn. by rewrite String.eqb_refl.
Qed.

Lemma getStoreSettings_run s : ∃ v, getStoreSettings s = (Ok v, s).
Proof.
  unfold getStoreSettings, settings_row, mbind, M_bind, db_findFirst, gets.
  destruct (head _); cbn; eexists; reflexivity.
Qed.

(** The store's settings are read back as they were written: each field that the
    request gives, and the others as they were. *)
Theorem settings_read_back (dto : StoreSettingsDto) (s s' : St Db) (next : StoreSettings)
  (S : one_store (tables s)) (E : upsertStoreSettings dto s = (Ok next, s')) :
  (∃ v pid, fst (getStoreSettings s) = Ok (v, pid) ∧ next = next_settings dto v)
  ∧ one_store (tables s')
  ∧ ∃ pid, fst (getStoreSettings s') = Ok (next, Some pid).
Proof.
  destruct (getStoreSettings_run s) as [[v pid] R].
  unfold upsertStoreSettings, mbind, M_bind in E. rewrite R in E. cbn [fst] in E.
  pose proof (dwp_elim _ _ _ _ _ (write_settings_spec (next_settings dto v) _ S) E next eq_refl)
    as (-> & S' & pid' & V).
  split_and!; [|done|].
  - exists v, pid. by rewrite R.
  - exists pid'. by apply (read_says _ _ _ S' V s').
Qed.

(** ** The blog *)

Definition posts (d : Db) : list Blog := where_ shown_blog (view L_Blog d).
Definition same_posts (d d' : Db) : Prop := posts d' = posts d.

#[local] Instance same_posts_preorder : PreOrder same_posts.
Proof. split; unfold same_posts; [done|intros ???; congruence]. Qed.

Inductive ContentOp :=
| op_page (slug : string) | op_createPage (actorId : string) (dto : CreateCmsPageDto)
| op_patchPage (actorId id : string) (dto : PatchCmsPageDto)
| op_settings | op_upsertSettings (dto : StoreSettingsDto)
| op_banners | op_createBanner (actorId : string) (dto : CreateBannerDto)
| op_createPopup (actorId : string) (dto : CreateBannerDto) | op_navigation
| op_blogs | op_blog (slug : string) | op_createBlog (actorId : string) (dto : CreateBlogDto)
| op_guides | op_dashboard.

Definition run_content (op : ContentOp) : M (St Db) () :=
  let go {A} (m : M (St Db) A) : M (St Db) () := _ ← m; mret tt in
  match op with
  | op_page slug => go (getPageBySlug slug)
  | op_createPage a dto => go (createPage a dto)
  | op_patchPage a id dto => go (patchPage a id dto)
  | op_settings => go getStoreSettings
  | op_upsertSettings dto => go (upsertStoreSettings dto)
  | op_banners => go listBanners
  | op_createBanner a dto => go (createBanner a dto)
  | op_createPopup a dto => go (createPopup a dto)
  | op_navigation => go getNavigation
  | op_blogs => go listBlogs
  | op_blog slug => go (getBlog slug)
  | op_createBlog a dto => go (createBlog a dto)
  | op_guides => go listGuides
  | op_dashboard => go marketing_dashboard
  end.

Lemma posts_getOrSet key factory :
  stays (on_tables same_posts) factory → stays (on_tables same_posts) (cms_getOrSet key factory).
Proof.
  intros Hf. unfold cms_getOrSet, mkt_getOrSet. apply stays_bind; [apply _|apply stays_env, CacheService.get_tables; apply _|].
  assert (stays (on_tables same_posts) (value ← factory;
    CacheService.set key (id value) MARKETING_CACHE.TTL ;; mret value)) as Hm.
  { apply stays_bind; [apply _|done|]. intros v. apply stays_bind; [apply _| |].
    - apply stays_env, CacheService.set_tables; apply _.
    - intros []. apply stays_ret; apply _. }
  intros [[]|]; try done; apply stays_ret; apply _.
Qed.

Lemma posts_create_blog slug title excerpt body author category :
  stays (on_tables same_posts)
    (db_create T_Blog (λ id, mkBlog id slug title excerpt body author category cps_draft None None)).
Proof.
  apply stays_create_row; [apply _|]. intros d id _. unfold same_posts, posts. cbn [tbl T_Blog].
  rewrite view_put, where_app. cbn. by rewrite app_nil_r.
Qed.

#[local] Ltac content := staying ltac:(idtac; match goal with
  | |- stays _ (_ ≫= _) => apply stays_bind; [apply _| |intros ?]
  | |- stays _ (cms_getOrSet _ _) => apply posts_getOrSet
  | |- stays _ (db_create T_Blog _) => apply posts_create_blog
  | |- stays _ (db_findFirst _ _) => apply stays_gets; apply _
  | |- stays _ (db_findMany _ _) => apply stays_gets; apply _
  | |- stays _ (db_count _ _) => apply stays_gets; apply _
  end).

(** No request of the content service, whatever it is and however it ends, changes the
    posts that the blog shows: what it creates stays a draft. *)
Theorem posts_never_published (ops : list ContentOp) (s : St Db) :
  posts (tables (snd (for_each ops run_content s))) = posts (tables s).
Proof.
  assert (stays (on_tables same_posts) (for_each ops run_content)) as Hs; [|by apply Hs].
  apply stays_for_each; [apply _|]. intros op _.
  destruct op; cbn [run_content]; unfold getPageBySlug, load_page, createPage, patchPage,
    upsertStoreSettings, write_settings, getStoreSettings, settings_row, add_store_section,
    listBanners, load_banners, createPopup, createBanner, banner_group, getNavigation,
    load_navigation, listBlogs, getBlog, createBlog, listGuides, aux_listBuyingGuides,
    marketing_dashboard, mkt_audit, optional_date, invalidatePage, invalidateBanners; content.
Qed.
End rules.

(** ** Runs *)

Section runs.
#[local] Instance no_number_text : NumberText := λ _, "0".
#[local] Instance no_dates : DateText := λ _, "1970-01-01T00:00:00.000Z".

Definition settings_request : StoreSettingsDto := mkStoreSettingsDto (Some "Shop") None (Some "GST1").

Lemma sample_one_store : one_store sample_db.
Proof.
  split.
  - by intros p q ->%list_elem_of_singleton ->%list_elem_of_singleton.
  - intros p x y ->%list_elem_of_singleton E. by vm_compute in E.
  - intros x ->%list_elem_of_singleton. by apply list_elem_of_singleton.
Qed.

Lemma settings_read_back_witness :
  let s' := snd (upsertStoreSettings settings_request sample) in
  ∃ pid, fst (getStoreSettings s') = Ok (mkStoreSettings "Shop" "" "GST1", Some pid).
Proof.
  apply (settings_read_back settings_request sample); [exact sample_one_store|].
  apply run_eta. vm_compute. reflexivity.
Defined.

(** A page published into the menu does not show in the navigation that was cached before. *)
Definition menu_page : CreateCmsPageDto := mkCreateCmsPageDto "help" "Help" (Some "menu") None.

Definition publish_menu : M (St Db) (Json * Json) :=
  before ← getNavigation;
  _ ← createPage "u" menu_page;
  pages ← db_findMany T_CmsPage (λ p, String.eqb (cmp_slug p) "help");
  for_each pages (λ p, _ ← patchPage "u" (cmp_id p) (mkPatchCmsPageDto None (Some cps_published)); mret tt) ;;
  after ← getNavigation;
  mret (before, after).

Example navigation_stale :
  match fst (publish_menu sample) with
  | Ok (before, after) => before = after
      ∧ jget "pages" (match fst (load_navigation (snd (publish_menu sample))) with Ok j => j | _ => JNull end)
        = Some (JArr [JObj [("slug", JStr "help"); ("title", JStr "Help")]])
  | Throw _ => False
  end.
Proof. vm_compute. done. Qed.

(** A page of settings that exists without the section is not published by the write that
    adds the section. *)
Definition draft_settings : St Db :=
  mkSt (env sample) (put L_CmsPage [mkCmsPage "ps" "store-settings" "S" "settings" cps_draft None None]
    (tables sample)).

Example settings_left_draft :
  map cmp_status (view L_CmsPage (tables (snd (upsertStoreSettings settings_request draft_settings))))
  = [cps_draft].
Proof. vm_compute. done. Qed.

(** A tag taken off a post is still listed with it. *)
Definition untagged : St Db :=
  mkSt (env sample) (put L_BlogTagMap [mkBlogTagMap "bm" "bl" "bt" (Some 1)] (tables sample)).

Example removed_tag_listed :
  match fst (listBlogs untagged) with
  | Ok (JArr [post]) => jget "tags" post = Some (JArr [JStr "Phones"])
  | _ => False
  end.
Proof. vm_compute. done. Qed.

(** A second page with a slug is refused by the database, not by the service. *)
Example slug_taken_raw :
  fst (createPage "u" (mkCreateCmsPageDto "about" "About again" None None) sample)
  = Throw (DbError (ConstraintViolation "uq_cms_pages_slug_active")).
Proof. vm_compute. done. Qed.
End runs.
