(* ===== verification/Insights.v ===== *)
(** * Insights

    Models [backend/src/modules/analytics/services/insights.service.ts] with the cache,
    the repository and the constants of the analytics module: the conversion funnel,
    trends, cohorts, lifetime values and the RFM segmentation of the customers. *)
From S2P Require Import Prelude Core Effects Redis Lock JsNumber Rules Database Tables Payments Coupons Growth CatalogStores Carrier Webhooks Schema.
From Stdlib Require Import QArith Qround.

#[local] Open Scope Z_scope.

(** ** Constants ([constants/analytics.constants.ts], [interfaces/analytics.interfaces.ts]) *)
Module ANALYTICS_CACHE.
Definition TTL : Z := 60.
Definition dashboard (code : string) : string := "analytics:dash:" +:+ code.
Definition kpis (period : string) : string := "analytics:kpi:" +:+ period.
Definition funnels : string := "analytics:funnels".
Definition trends (domain : string) : string := "analytics:trends:" +:+ domain.
Definition reports : string := "analytics:reports:list".
End ANALYTICS_CACHE.

Definition DASHBOARD_CODES : list string :=
  ["executive"; "sales"; "revenue"; "orders"; "payments"; "inventory"; "shipping"; "warranty";
   "service"; "marketing"; "search"; "recommendation"; "system"].

Definition FUNNEL_STEPS : list string :=
  ["landing"; "product_view"; "search"; "add_to_cart"; "checkout"; "payment"; "order_complete"].

(** ** Rows as the client returns them

    A column is a JSON value, a [Date] or a [Decimal], given by its number. *)
Inductive Cell := cell_json (j : Json) | cell_date (t : Z) | cell_decimal (q : Q).
Definition Row := list (string * Cell).

Definition cell_opt {A} (f : A → Cell) (v : option A) : Cell :=
  match v with Some x => f x | None => cell_json JNull end.
Definition cell_str (s : string) : Cell := cell_json (JStr s).
Definition cell_int (z : Z) : Cell := cell_json (JInt z).
Definition cell_money (c : Z) : Cell := cell_decimal (cents c).

Definition sales_row (m : SalesMetrics) : Row :=
  [("id", cell_str (msl_id m)); ("metric_date", cell_date (msl_metric_date m));
   ("period", cell_str (AnalyticsPeriod_text (msl_period m)));
   ("orders_count", cell_int (msl_orders_count m)); ("revenue", cell_money (msl_revenue m));
   ("refunds_amount", cell_money (msl_refunds_amount m)); ("aov", cell_opt cell_money (msl_aov m));
   ("currency", cell_str (msl_currency m))].
Definition payment_row (m : PaymentMetrics) : Row :=
  [("id", cell_str (mpy_id m)); ("metric_date", cell_date (mpy_metric_date m));
   ("period", cell_str (AnalyticsPeriod_text (mpy_period m)));
   ("captured_amount", cell_money (mpy_captured_amount m));
   ("failed_count", cell_int (mpy_failed_count m));
   ("refunded_amount", cell_money (mpy_refunded_amount m));
   ("success_rate", cell_opt cell_money (mpy_success_rate m)); ("currency", cell_str (mpy_currency m))].
Definition inventory_row (m : InventoryMetrics) : Row :=
  [("id", cell_str (miv_id m)); ("metric_date", cell_date (miv_metric_date m));
   ("period", cell_str (AnalyticsPeriod_text (miv_period m)));
   ("warehouse_id", cell_opt cell_str (miv_warehouse_id m));
   ("units_on_hand", cell_int (miv_units_on_hand m)); ("units_reserved", cell_int (miv_units_reserved m));
   ("low_stock_skus", cell_int (miv_low_stock_skus m)); ("stockout_skus", cell_int (miv_stockout_skus m))].
Definition shipping_row (m : ShippingMetrics) : Row :=
  [("id", cell_str (msh_id m)); ("metric_date", cell_date (msh_metric_date m));
   ("period", cell_str (AnalyticsPeriod_text (msh_period m)));
   ("shipments_count", cell_int (msh_shipments_count m));
   ("delivered_count", cell_int (msh_delivered_count m)); ("rto_count", cell_int (msh_rto_count m));
   ("avg_delivery_days", cell_opt cell_money (msh_avg_delivery_days m))].
Definition service_row (m : ServiceMetrics) : Row :=
  [("id", cell_str (msv_id m)); ("metric_date", cell_date (msv_metric_date m));
   ("period", cell_str (AnalyticsPeriod_text (msv_period m)));
   ("tickets_opened", cell_int (msv_tickets_opened m)); ("tickets_closed", cell_int (msv_tickets_closed m));
   ("avg_turnaround_hours", cell_opt cell_money (msv_avg_turnaround_hours m));
   ("sla_breach_count", cell_int (msv_sla_breach_count m))].
Definition marketing_row (m : MarketingMetrics) : Row :=
  [("id", cell_str (mmk_id m)); ("metric_date", cell_date (mmk_metric_date m));
   ("period", cell_str (AnalyticsPeriod_text (mmk_period m))); ("sessions", cell_int (mmk_sessions m));
   ("new_customers", cell_int (mmk_new_customers m)); ("email_sends", cell_int (mmk_email_sends m));
   ("attributed_revenue", cell_money (mmk_attributed_revenue m)); ("currency", cell_str (mmk_currency m))].
Definition cohort_row (m : CohortAnalysis) : Row :=
  [("id", cell_str (coh_id m)); ("cohort_key", cell_str (coh_cohort_key m));
   ("cohort_month", cell_date (coh_cohort_month m)); ("period_offset", cell_int (coh_period_offset m));
   ("customers_count", cell_int (coh_customers_count m)); ("retained_count", cell_int (coh_retained_count m));
   ("retention_rate", cell_opt (λ c, cell_decimal (cents4 c)) (coh_retention_rate m));
   ("revenue", cell_money (coh_revenue m)); ("currency", cell_str (coh_currency m))].
Definition ltv_row (m : CustomerLtv) : Row :=
  [("id", cell_str (clv_id m)); ("customer_id", cell_str (clv_customer_id m));
   ("as_of_date", cell_date (clv_as_of_date m)); ("orders_count", cell_int (clv_orders_count m));
   ("gross_revenue", cell_money (clv_gross_revenue m)); ("net_revenue", cell_money (clv_net_revenue m));
   ("predicted_ltv", cell_opt cell_money (clv_predicted_ltv m)); ("currency", cell_str (clv_currency m))].

(** ** Dates *)

Definition dayMs : Z := 86400000.
(** [d.setUTCHours(0, 0, 0, 0)] *)
Definition startOfUtcDay (t : Z) : Z := t - t mod dayMs.
(** [d.setUTCDate(d.getUTCDate() - n)] *)
Definition daysBefore (n t : Z) : Z := t - n * dayMs.

(** ** RFM *)

Record RfmSegment := mkRfmSegment {
  rs_customerId : string; rs_recencyDays : Z; rs_frequency : Z; rs_monetary : Q;
  rs_r : Z; rs_f : Z; rs_m : Z; rs_segment : string;
}.

(** What [byCustomer] holds under a customer. *)
Record RfmAcc := mkRfmAcc { ra_customer : string; ra_last : Z; ra_count : Z; ra_monetary : Q }.

Definition add_order (o : Order) (a : RfmAcc) : RfmAcc :=
  mkRfmAcc (ra_customer a) (if ra_last a <? od_created_at o then od_created_at o else ra_last a)
    (ra_count a + 1) (js_add (ra_monetary a) (cents (od_grand_total o))).

(** [byCustomer.get] … [byCustomer.set]: the entries in the order of their first set. *)
Fixpoint tally (customer : string) (o : Order) (acc : list RfmAcc) : list RfmAcc :=
  match acc with
  | [] => [add_order o (mkRfmAcc customer (od_created_at o) 0 0)]
  | a :: rest => if String.eqb (ra_customer a) customer then add_order o a :: rest
                 else a :: tally customer o rest
  end.

Definition by_customer (orders : list Order) : list RfmAcc :=
  foldl (λ acc o, match od_customer_id o with
                  | None | Some "" => acc
                  | Some c => tally c o acc
                  end) [] orders.

Definition unscored (now : Z) (a : RfmAcc) : RfmSegment :=
  mkRfmSegment (ra_customer a) (Qfloor (js_div (inject_Z (now - ra_last a)) (inject_Z dayMs)))
    (ra_count a) (ra_monetary a) 0 0 0 "unscored".

(** [Math.min(5, Math.floor((i / n) * 5) + 1)] *)
Definition quintile (i n : Z) : Z :=
  Z.min 5 (Qfloor (js_mul (js_div (inject_Z i) (inject_Z n)) 5) + 1).

Definition set_r (q : Z) (s : RfmSegment) : RfmSegment :=
  mkRfmSegment (rs_customerId s) (rs_recencyDays s) (rs_frequency s) (rs_monetary s) q (rs_f s) (rs_m s)
    (rs_segment s).
Definition set_f (q : Z) (s : RfmSegment) : RfmSegment :=
  mkRfmSegment (rs_customerId s) (rs_recencyDays s) (rs_frequency s) (rs_monetary s) (rs_r s) q (rs_m s)
    (rs_segment s).
Definition set_m (q : Z) (s : RfmSegment) : RfmSegment :=
  mkRfmSegment (rs_customerId s) (rs_recencyDays s) (rs_frequency s) (rs_monetary s) (rs_r s) (rs_f s) q
    (rs_segment s).

(** [sorted.forEach((row, i) => { … row[scoreField] = … })]: the row, told by its
    customer, is the one in [rows]. *)
Definition scoreQuintile (field : RfmSegment → Q) (set : Z → RfmSegment → RfmSegment) (invert : bool)
  (rows : list RfmSegment) : list RfmSegment :=
  let sorted := sort_by field rows in
  let n := Z.max 1 (Z.of_nat (length sorted)) in
  foldl (λ rows ir, let '(i, row) := (ir : nat * RfmSegment) in
      let q := quintile (Z.of_nat i) n in
      update_rows rs_customerId (rs_customerId row) (set (if invert then 6 - q else q)) rows)
    rows (imap pair sorted).

Definition rfmLabel (r f m : Z) : string :=
  if (4 <=? r) && (4 <=? f) && (4 <=? m) then "champions"
  else if (3 <=? r) && (3 <=? f) then "loyal"
  else if (4 <=? r) && (f <=? 2) then "promising"
  else if (r <=? 2) && (3 <=? f) then "at_risk"
  else if (r <=? 2) && (f <=? 2) then "hibernating"
  else "regular".

Definition label (s : RfmSegment) : RfmSegment :=
  mkRfmSegment (rs_customerId s) (rs_recencyDays s) (rs_frequency s) (rs_monetary s) (rs_r s) (rs_f s)
    (rs_m s) (rfmLabel (rs_r s) (rs_f s) (rs_m s)).

Definition scored (rows : list RfmSegment) : list RfmSegment :=
  map label
    (scoreQuintile rs_monetary set_m false
      (scoreQuintile (λ s, inject_Z (rs_frequency s)) set_f false
        (scoreQuintile (λ s, inject_Z (rs_recencyDays s)) set_r true rows))).

Definition segments (now : Z) (orders : list Order) (limit : Z) : list RfmSegment :=
  take (Z.to_nat limit)
    (sort_by (λ s, (- rs_monetary s)%Q) (scored (map (unscored now) (by_customer orders)))).

(** ** Funnels *)

Record FunnelStepStats := mkFunnelStepStats {
  fs_step : string; fs_count : Z; fs_dropOffPct : option Q; fs_conversionFromPrevPct : option Q;
}.

(** [Number((x * 100).toFixed(2))] *)
Definition percent (x : Q) : Q := cents (toFixed2 (js_mul x 100)).

Definition funnel_step (prev : option Z) (step : string) (count : Z) : FunnelStepStats :=
  match prev with
  | Some p => if 0 <? p
              then mkFunnelStepStats step count
                     (Some (percent (js_div (inject_Z (p - count)) (inject_Z p))))
                     (Some (percent (js_div (inject_Z count) (inject_Z p))))
              else mkFunnelStepStats step count None None
  | None => mkFunnelStepStats step count None None
  end.

(** [prev = count || prev] *)
Fixpoint funnel_steps (counts : string → Z) (prev : option Z) (steps : list string)
  : list FunnelStepStats :=
  match steps with
  | [] => []
  | step :: rest =>
      let count := counts step in
      funnel_step prev step count
      :: funnel_steps counts (if count =? 0 then prev else Some count) rest
  end.

Definition overallConversion (steps : list FunnelStepStats) : Q :=
  let landing := from_option fs_count 0 (head steps) in
  let complete := from_option fs_count 0 (last steps) in
  if 0 <? landing then percent (js_div (inject_Z complete) (inject_Z landing)) else 0.

Definition jopt_num (q : option Q) : Json := match q with Some q => JNum q | None => JNull end.

Definition step_json (s : FunnelStepStats) : Json :=
  JObj [("step", JStr (fs_step s)); ("count", JInt (fs_count s)); ("dropOffPct", jopt_num (fs_dropOffPct s));
        ("conversionFromPrevPct", jopt_num (fs_conversionFromPrevPct s))].

(** [attribution[id] = (attribution[id] ?? 0) + 1] *)
Fixpoint bump (id : string) (acc : list (string * Z)) : list (string * Z) :=
  match acc with
  | [] => [(id, 1)]
  | (k, n) :: rest => if String.eqb k id then (k, n + 1) :: rest else (k, n) :: bump id rest
  end.

Section service.
Context `{Redis, !Scheduler, !Crypto, !Postgres, !DateText, !NumberText}.

(** ** [analytics-cache.service.ts] and [analytics.repository.ts] *)

Definition ana_getOrSet {A} (key : string) (decode : Json → option A) (encode : A → Json)
  (factory : M (St Db) A) : M (St Db) A :=
  hit ← CacheService.get key;
  match hit with
  | Some JNull | None =>
      value ← factory;
      CacheService.set key (encode value) ANALYTICS_CACHE.TTL ;;
      mret value
  | Some j => require_ (decode j) (JsError "Cannot read properties of undefined")
  end.

Definition invalidateDashboards (code : option string) : M (St Db) () :=
  if truthy_str code then CacheService.del (ANALYTICS_CACHE.dashboard (coalesce code ""))
  else for_each DASHBOARD_CODES (λ c, CacheService.del (ANALYTICS_CACHE.dashboard c)).
Definition invalidateKpis (period : string) : M (St Db) () := CacheService.del (ANALYTICS_CACHE.kpis period).
Definition invalidateFunnels : M (St Db) () := CacheService.del ANALYTICS_CACHE.funnels.
Definition invalidateTrends (domain : string) : M (St Db) () :=
  CacheService.del (ANALYTICS_CACHE.trends domain).
Definition invalidateReports : M (St Db) () := CacheService.del ANALYTICS_CACHE.reports.

Definition ana_audit (entityType : string) (entityId : option string) (action : string)
  (actorId : option string) : M (St Db) () :=
  _ ← db_create T_AuditLog (λ id, mkAuditLog id entityType entityId action actorId);
  mret tt.

Definition ensureMetricStream (code : string) : M (St Db) MetricStream :=
  existing ← db_findFirst T_MetricStream (λ m, String.eqb (mst_code m) code && live (mst_deleted_at m));
  match existing with
  | Some m => mret m
  | None => db_create T_MetricStream (λ id, mkMetricStream id code code rs_active None)
  end.

(** What [JSON.stringify] makes of a column, and of rows; the rows read back. *)
Definition cell_value (c : Cell) : Json :=
  match c with
  | cell_json j => j
  | cell_date t => JStr (iso_text t)
  | cell_decimal q => JStr (number_text q)
  end.
Definition row_json (r : Row) : Json := JObj (map (λ kc, (fst kc, cell_value (snd kc))) r).
Definition rows_json (rows : list Row) : Json := JArr (map row_json rows).
Definition row_of_json (j : Json) : option Row :=
  match j with JObj fs => Some (map (λ kv, (fst kv, cell_json (snd kv))) fs) | _ => None end.
Definition rows_of_json (j : Json) : option (list Row) :=
  match j with JArr l => mapM row_of_json l | _ => None end.

(** ** Operations *)

(** [counts.get(step) ?? 0] of the [groupBy]. *)
Definition step_count (events : list ConversionEvent) (step : string) : Z :=
  Z.of_nat (length (where_ (λ e, String.eqb (cve_funnel_step e) step) events)).

Definition attribution (events : list ConversionEvent) : list (string * Z) :=
  foldl (λ acc e, let id := cve_properties e ≫= jget "campaignId" in
                  if truthy id then bump (js_String (coalesce id JNull)) acc else acc) [] events.

Definition funnel_json (steps : list FunnelStepStats) (attributed : list (string * Z)) : Json :=
  JObj [("steps", JArr (map step_json steps)); ("overallConversionPct", JNum (overallConversion steps));
        ("campaignAttribution", JObj (map (λ kn, (fst kn, JInt (snd kn))) attributed));
        ("support", JObj [("dropOff", JArr (map step_json
           (where_ (λ s, js_lt 0 (coalesce (fs_dropOffPct s) 0%Q)) steps)))])].

Definition computeFunnels : M (St Db) Json :=
  now ← Date_now;
  let since := daysBefore 30 now in
  events ← db_findMany T_ConversionEvent (λ e, since <=? cve_created_at e);
  recent ← db_findMany T_ConversionEvent (λ e, since <=? cve_created_at e);
  mret (funnel_json (funnel_steps (step_count events) None FUNNEL_STEPS) (attribution (take 1000 recent))).

Definition funnels : M (St Db) Json :=
  ana_getOrSet ANALYTICS_CACHE.funnels Some id computeFunnels.

Definition order_asc_by {A} (f : A → Z) (l : list A) : list A := order_desc (λ x, - f x) l.

(** The rows of a metrics table from [since] on, in the order of their dates. *)
Definition trend {A} (T : Table A) (date : A → Z) (period : A → AnalyticsPeriod) (deleted : A → option Z)
  (row : A → Row) (wanted : AnalyticsPeriod) (since : Z) : M (St Db) (list Row) :=
  rows ← db_findMany T (λ m, live (deleted m) && (since <=? date m) && bool_decide (period m = wanted));
  mret (map row (order_asc_by date rows)).

Definition computeTrends (domain : string) (period : AnalyticsPeriod) (days : Z) : M (St Db) (list Row) :=
  now ← Date_now;
  let since := startOfUtcDay (daysBefore days now) in
  match domain with
  | "payments" => trend T_PaymentMetrics mpy_metric_date mpy_period mpy_deleted_at payment_row period since
  | "inventory" =>
      trend T_InventoryMetrics miv_metric_date miv_period miv_deleted_at inventory_row period since
  | "shipping" => trend T_ShippingMetrics msh_metric_date msh_period msh_deleted_at shipping_row period since
  | "service" | "warranty" =>
      trend T_ServiceMetrics msv_metric_date msv_period msv_deleted_at service_row period since
  | "marketing" =>
      trend T_MarketingMetrics mmk_metric_date mmk_period mmk_deleted_at marketing_row period since
  | _ => trend T_SalesMetrics msl_metric_date msl_period msl_deleted_at sales_row period since
  end.

(** [`${ANALYTICS_CACHE.trends(domain)}:${period}:${days}`] *)
Definition trends_key (domain : string) (period : AnalyticsPeriod) (days : Z) : string :=
  ANALYTICS_CACHE.trends domain +:+ ":" +:+ AnalyticsPeriod_text period +:+ ":" +:+ pretty days.

Definition trends (domain : string) (period : AnalyticsPeriod) (days : Z) : M (St Db) (list Row) :=
  ana_getOrSet (trends_key domain period days) rows_of_json rows_json (computeTrends domain period days).

Definition cohorts : M (St Db) (list Row) :=
  rows ← db_findMany T_CohortAnalysis (λ c, live (coh_deleted_at c));
  mret (map cohort_row (take 500
    (order_desc id (remove_dups (map coh_cohort_month rows)) ≫= λ k,
       order_asc_by coh_period_offset (where_ (λ c, coh_cohort_month c =? k) rows)))).

Definition ltv (limit : Z) : M (St Db) (list Row) :=
  rows ← db_findMany_desc T_CustomerLtv (λ c, live (clv_deleted_at c)) clv_net_revenue;
  mret (map ltv_row (take (Z.to_nat limit) rows)).

Definition rfm (limit : Z) : M (St Db) (list RfmSegment) :=
  now ← Date_now;
  let since := daysBefore 365 now in
  orders ← db_findMany T_Order (λ o, live (od_deleted_at o)
    && match od_customer_id o with Some _ => true | None => false end && (since <=? od_created_at o));
  now ← Date_now;
  mret (segments now (take 10000 orders) limit).

Definition rfm_row (s : RfmSegment) : Row :=
  [("customerId", cell_str (rs_customerId s)); ("recencyDays", cell_int (rs_recencyDays s));
   ("frequency", cell_int (rs_frequency s)); ("monetary", cell_json (JNum (rs_monetary s)));
   ("r", cell_int (rs_r s)); ("f", cell_int (rs_f s)); ("m", cell_int (rs_m s));
   ("segment", cell_str (rs_segment s))].
End service.
