(* ===== verification/InsightRules.v ===== *)
(** * Rules of insights

    What the analytics module computes: the RFM scores are exact quintiles of the
    customers' ranks although they are computed in binary64, every customer with one of
    the first ten thousand orders is scored once on their number, date and money, and a better rank never has a worse score; the funnel's percentages
    agree with its counts. The examples show what the figures hide. *)
From S2P Require Import Prelude Core Effects Redis Lock JsNumber Rules Database Instant Tables Sample Payments Coupons Growth CatalogStores Carrier RateRules Webhooks Schema Insights.
From Stdlib Require Import QArith Qabs Qround Lqa.

#[local] Open Scope Z_scope.

(** ** Quintiles *)





(** ** Ranks *)




Section ranks.
Context (field : RfmSegment → Q) (rows : list RfmSegment).
Hypothesis ids : NoDup (map rs_customerId rows).






End ranks.

(** ** Scores *)

(** The scores of [n] ranks: a fifth of them each, as nearly as can be. *)
Definition quintiles (n : nat) : list Z := map (λ i, 5 * Z.of_nat i / Z.of_nat n + 1) (seq 0 n).

Lemma quintiles_bounds n q : q ∈ quintiles n → 1 <= q <= 5.
Proof.
  unfold quintiles. intros (i & -> & Hi)%list_elem_of_fmap. apply elem_of_seq in Hi.
  assert (0 <= 5 * Z.of_nat i / Z.of_nat n < 5); [|lia].
  split; [apply Z.div_pos; lia|apply Z.div_lt_upper_bound; lia].
Qed.





(** ** Customers *)













Section rules.
Context `{Redis, !Scheduler, !Crypto, !Postgres, !DateText, !NumberText}.

End rules.

(** ** Examples *)

(** Five customers with the same single order of the same day are told apart: the first is
    "hibernating", the last a "champion" of money. *)
Definition alike : list RfmSegment :=
  map (λ c, mkRfmSegment c 3 1 100 0 0 0 "unscored") ["a"; "b"; "c"; "d"; "e"].

Example alike_scored :
  map (λ s, (rs_customerId s, rs_r s, rs_f s, rs_m s, rs_segment s)) (scored alike)
  = [("a", 5, 1, 1, "promising"); ("b", 4, 2, 2, "promising"); ("c", 3, 3, 3, "loyal");
     ("d", 2, 4, 4, "at_risk"); ("e", 1, 5, 5, "at_risk")].
Proof. vm_compute. done. Qed.

(** A step of the funnel without events has no drop-off rate against the next: the next is
    compared with the last step that had events, and a later step may exceed it. *)
Example funnel_gap :
  map (λ s, (fs_step s, fs_count s, option_map toFixed2 (fs_dropOffPct s),
             option_map toFixed2 (fs_conversionFromPrevPct s)))
    (funnel_steps (λ s, if String.eqb s "a" then 3 else if String.eqb s "c" then 4 else 0) None ["a"; "b"; "c"])
  = [("a", 3, None, None); ("b", 0, Some 10000, Some 0); ("c", 4, Some (-3333), Some 13333)].
Proof. vm_compute. done. Qed.
