(* ===== verification/Analytics.v ===== *)
(** * Analytics

    Models [backend/src/modules/analytics/services/kpi.service.ts], [alert.service.ts] and
    [dashboard.service.ts] with the events of the module: scorecards, alerts and
    dashboards, computed from the tables of daily metrics. Payloads that are only
    answered and cached are the JSON that [JSON.stringify] makes of them. *)
From S2P Require Import Prelude Core Effects Redis Lock JsNumber Rules Database Tables Payments Coupons Growth CatalogStores Carrier Webhooks Schema Insights.
From Stdlib Require Import QArith.

#[local] Open Scope Z_scope.

(** ** Constants and events *)
Definition QUEUE_ANALYTICS : string := "analytics".
Module ANALYTICS_JOBS.
Definition KPI_REFRESH : string := "analytics.kpi.refresh".
Definition REPORT_GENERATE : string := "analytics.report.generate".
Definition DASHBOARD_REFRESH : string := "analytics.dashboard.refresh".
Definition TREND_CALC : string := "analytics.trend.calc".
Definition SNAPSHOT : string := "analytics.snapshot".
Definition EXPORT : string := "analytics.export".
Definition ALERT_EVAL : string := "analytics.alert.eval".
End ANALYTICS_JOBS.

Definition text_payload (fields : list (string * string)) : Json :=
  JObj (map (λ kv, (fst kv, JStr (snd kv))) fields).
Definition AnalyticsReportGeneratedEvent (reportId exportId : string) : DomainEvent :=
  mkEvent "analytics.report.generated" (text_payload [("reportId", reportId); ("exportId", exportId)]).
Definition AnalyticsDashboardRefreshedEvent (layoutCode : string) : DomainEvent :=
  mkEvent "analytics.dashboard.refreshed" (text_payload [("layoutCode", layoutCode)]).
Definition AnalyticsKpiUpdatedEvent (domain period snapshotId : string) : DomainEvent :=
  mkEvent "analytics.kpi.updated"
    (text_payload [("domain", domain); ("period", period); ("snapshotId", snapshotId)]).
Definition AnalyticsAlertTriggeredEvent (ruleId code severity historyId : string) : DomainEvent :=
  mkEvent "analytics.alert.triggered"
    (text_payload [("ruleId", ruleId); ("code", code); ("severity", severity); ("historyId", historyId)]).
Definition AnalyticsExportCompletedEvent (exportId format status : string) : DomainEvent :=
  mkEvent "analytics.export.completed"
    (text_payload [("exportId", exportId); ("format", format); ("status", status)]).

(** [{ ttlMs }] *)
Definition ttl_only (ttl : Z) : LockService.LockOptions := LockService.mkLockOptions (Some ttl) None None.

(** [o[k] = v] of a JSON object. *)
Fixpoint jset (k : string) (v : Json) (fs : list (string * Json)) : list (string * Json) :=
  match fs with
  | [] => [(k, v)]
  | kv :: rest => if String.eqb (fst kv) k then (k, v) :: rest else kv :: jset k v rest
  end.

(** ** KPI scorecards *)

Record KpiInput := mkKpiInput {
  ki_domain : string; ki_period : AnalyticsPeriod; ki_metrics : list (string * Json);
  ki_threshold : option Json;
}.

Record KpiView := mkKpiView { kv_id : string; kv_domain : string; kv_metrics : Json }.

(** [flattenFacts]: the metrics and, under dotted names, those one level down. *)
Definition flattenFacts (metrics : list (string * Json)) : fields_ :=
  foldl (λ out kv,
      let out := set_prop (fst kv) (fact_of_json (snd kv)) out in
      match snd kv with
      | JObj fs => foldl (λ out sub,
            set_prop (fst kv +:+ "." +:+ fst sub) (fact_of_json (snd sub)) out) out fs
      | _ => out
      end) [] metrics.

(** The latest rows of the day; any of them may be missing. *)
Record DayMetrics := mkDayMetrics {
  dm_sales : option SalesMetrics; dm_payments : option PaymentMetrics;
  dm_inventory : option InventoryMetrics; dm_shipping : option ShippingMetrics;
  dm_service : option ServiceMetrics; dm_marketing : option MarketingMetrics;
}.

(** [row?.count ?? 0] and [Number(row?.amount ?? 0)]. *)
Definition jcount {A} (f : A → Z) (row : option A) : Json := JInt (from_option f 0 row).
Definition jamount {A} (f : A → option Z) (row : option A) : Json :=
  JNum (from_option cents 0%Q (row ≫= f)).

Definition scorecards (m : DayMetrics) : list (string * Json) :=
  let sales := dm_sales m in let payments := dm_payments m in let inventory := dm_inventory m in
  let shipping := dm_shipping m in let service := dm_service m in let marketing := dm_marketing m in
  [("sales", JObj [("revenue", jamount (λ r, Some (msl_revenue r)) sales);
                   ("orders", jcount msl_orders_count sales);
                   ("refunds", jamount (λ r, Some (msl_refunds_amount r)) sales);
                   ("aov", jamount msl_aov sales)]);
   ("payments", JObj [("captured", jamount (λ r, Some (mpy_captured_amount r)) payments);
                      ("failed", jcount mpy_failed_count payments);
                      ("successRate", jamount mpy_success_rate payments)]);
   ("inventory", JObj [("onHand", jcount miv_units_on_hand inventory);
                       ("lowStock", jcount miv_low_stock_skus inventory);
                       ("stockout", jcount miv_stockout_skus inventory)]);
   ("shipping", JObj [("shipments", jcount msh_shipments_count shipping);
                      ("delivered", jcount msh_delivered_count shipping);
                      ("rto", jcount msh_rto_count shipping)]);
   ("service", JObj [("opened", jcount msv_tickets_opened service);
                     ("closed", jcount msv_tickets_closed service);
                     ("slaBreaches", jcount msv_sla_breach_count service)]);
   ("warranty", JObj [("opened", jcount msv_tickets_opened service);
                      ("slaBreaches", jcount msv_sla_breach_count service)]);
   ("marketing", JObj [("sessions", jcount mmk_sessions marketing);
                       ("newCustomers", jcount mmk_new_customers marketing);
                       ("attributedRevenue", jamount (λ r, Some (mmk_attributed_revenue r)) marketing)])].

Definition kpi_row (r : KpiSnapshot) : Row :=
  [("id", cell_str (kps_id r)); ("domain", cell_str (kps_domain r));
   ("period", cell_str (AnalyticsPeriod_text (kps_period r))); ("metricDate", cell_date (kps_metric_date r));
   ("metrics", cell_json (kps_metrics_json r))].

Definition kpi_text (v : RuleResult) : Json :=
  JObj ([("matched", JBool (rr_matched v)); ("reasons", JArr (map JStr (rr_reasons v)))]
        ++ match rr_errors v with Some es => [("errors", JArr (map JStr es))] | None => [] end).

(** ** Alerts *)

Record AlertInput := mkAlertInput {
  al_code : string; al_name : string; al_severity : option AlertSeverity; al_condition : Json;
  al_cooldownMinutes : option Z; al_isEnabled : option bool;
}.

Record TriggeredAlert := mkTriggeredAlert { ta_ruleId : string; ta_code : string; ta_historyId : string }.

Definition fcount {A} (f : A → Z) (row : option A) : FactValue := FNum (inject_Z (from_option f 0 row)).

(** The facts of [buildFactsFromMetrics]. *)
Definition alert_facts (m : DayMetrics) (prevSales : option SalesMetrics) : fields_ :=
  let revenue := from_option (λ r, cents (msl_revenue r)) 0%Q (dm_sales m) in
  let prevRevenue := from_option (λ r, cents (msl_revenue r)) 0%Q prevSales in
  let deltaPct := if Qeq_bool prevRevenue 0 then 0%Q
                  else js_mul (js_div (js_sub revenue prevRevenue) prevRevenue) 100 in
  let failed := fcount mpy_failed_count (dm_payments m) in
  let lowStock := fcount miv_low_stock_skus (dm_inventory m) in
  let rto := fcount msh_rto_count (dm_shipping m) in
  let slaBreaches := fcount msv_sla_breach_count (dm_service m) in
  [("revenue", FObj [("value", FNum revenue); ("deltaPct", FNum deltaPct)]);
   ("revenue.deltaPct", FNum deltaPct);
   ("revenue.value", FNum revenue);
   ("payments", FObj [("failed", failed);
                      ("successRate", FNum (cents (coalesce (dm_payments m ≫= mpy_success_rate) 10000)))]);
   ("payments.failed", failed);
   ("inventory", FObj [("lowStock", lowStock); ("stockout", fcount miv_stockout_skus (dm_inventory m))]);
   ("inventory.lowStock", lowStock);
   ("shipping", FObj [("rto", rto); ("delivered", fcount msh_delivered_count (dm_shipping m))]);
   ("shipping.rto", rto);
   ("warranty", FObj [("slaBreaches", slaBreaches)]);
   ("warranty.slaBreaches", slaBreaches);
   ("service", FObj [("slaBreaches", slaBreaches)])].

(** ** Dashboards *)

Record WidgetInput := mkWidgetInput {
  wi_widgetCode : string; wi_title : option string; wi_gridX : option Z; wi_gridY : option Z;
  wi_gridW : option Z; wi_gridH : option Z; wi_config : option Json;
}.

Record LayoutInput := mkLayoutInput {
  li_code : string; li_name : option string; li_isDefault : option bool;
  li_widgets : option (list WidgetInput);
}.

Record Widget := mkWidget { wd_code : string; wd_title : string; wd_type : string; wd_data : Json }.

Definition widget_json (w : Widget) : Json :=
  JObj [("code", JStr (wd_code w)); ("title", JStr (wd_title w)); ("type", JStr (wd_type w));
        ("data", wd_data w)].

(** What [widgetsFor] is given. *)
Record DashboardContext := mkDashboardContext {
  dc_sales : list SalesMetrics; dc_payments : list PaymentMetrics; dc_inventory : list InventoryMetrics;
  dc_shipping : list ShippingMetrics; dc_service : list ServiceMetrics;
  dc_marketing : list MarketingMetrics; dc_live : list LiveMetric;
}.

(** [rows.reduce((a, r) => a + r.count, 0)] and the same of amounts. *)
Definition total {A} (f : A → Z) (rows : list A) : Z := foldl (λ a r, a + f r) 0 rows.
Definition total_amount {A} (f : A → Z) (rows : list A) : Q := foldl (λ a r, js_add a (cents (f r))) 0%Q rows.

Definition live_row (m : LiveMetric) : Row :=
  [("id", cell_str (lvm_id m)); ("stream_id", cell_str (lvm_stream_id m));
   ("metric_key", cell_str (lvm_metric_key m)); ("metric_value", cell_decimal (lvm_metric_value m));
   ("dimensions", cell_opt cell_json (lvm_dimensions m)); ("observed_at", cell_date (lvm_observed_at m))].

Section service.
Context `{Redis, !Scheduler, !Crypto, !Postgres, !JsLibrary, !DateText, !NumberText, !JsonText}.

(** ** KpiService *)

(** The latest live row of a metrics table with the date. *)
Definition latest {A} (T : Table A) (date : A → Z) (updated : A → Z) (deleted : A → option Z) (day : Z)
  : M (St Db) (option A) :=
  db_findFirst_desc T (λ r, (date r =? day) && live (deleted r)) updated.

Definition latest_sales := latest T_SalesMetrics msl_metric_date msl_updated_at msl_deleted_at.
Definition latest_payments := latest T_PaymentMetrics mpy_metric_date mpy_updated_at mpy_deleted_at.
Definition latest_inventory := latest T_InventoryMetrics miv_metric_date miv_updated_at miv_deleted_at.
Definition latest_shipping := latest T_ShippingMetrics msh_metric_date msh_updated_at msh_deleted_at.
Definition latest_service := latest T_ServiceMetrics msv_metric_date msv_updated_at msv_deleted_at.
Definition latest_marketing := latest T_MarketingMetrics mmk_metric_date mmk_updated_at mmk_deleted_at.

Definition kpi_list (period : AnalyticsPeriod) : M (St Db) (list Row) :=
  ana_getOrSet (ANALYTICS_CACHE.kpis (AnalyticsPeriod_text period)) rows_of_json rows_json
    (rows ← db_findMany_desc T_KpiSnapshot (λ r, live (kps_deleted_at r) && bool_decide (kps_period r = period))
              kps_metric_date;
     mret (map kpi_row (take 100 rows))).

Definition kpi_upsert (actorId : string) (input : KpiInput) : M (St Db) KpiView :=
  now ← Date_now;
  let today := startOfUtcDay now in
  let metrics := match ki_threshold input with
                 | Some threshold =>
                     jset "__threshold"
                       (kpi_text (rules_evaluate "" (fact_of_json threshold) (flattenFacts (ki_metrics input))
                                    no_options)) (ki_metrics input)
                 | None => ki_metrics input
                 end in
  snapshot ← db_create T_KpiSnapshot (λ id, mkKpiSnapshot id today (ki_period input)
               (slice0 64 (ki_domain input)) (JObj metrics) None);
  invalidateKpis (AnalyticsPeriod_text (ki_period input)) ;;
  emit (AnalyticsKpiUpdatedEvent (ki_domain input) (AnalyticsPeriod_text (ki_period input)) (kps_id snapshot)) ;;
  ana_audit "kpi_snapshot" (Some (kps_id snapshot)) "upsert" (Some actorId) ;;
  mret (mkKpiView (kps_id snapshot) (kps_domain snapshot) (JObj metrics)).

Definition UnknownDomain (d : string) : exn := AppException VALIDATION_ERROR ("Unknown KPI domain: " +:+ d) 400.

(** One turn of the loop over the domains. *)
Definition snapshot_domain (today : Z) (cards : list (string * Json)) (d : string) : M (St Db) KpiView :=
  metrics ← require_ (jget d (JObj cards)) (UnknownDomain d);
  snap ← db_create T_KpiSnapshot (λ id, mkKpiSnapshot id today pd_daily d metrics None);
  emit (AnalyticsKpiUpdatedEvent d "daily" (kps_id snap)) ;;
  mret (mkKpiView (kps_id snap) d metrics).

Definition read_day (today : Z) : M (St Db) DayMetrics :=
  sales ← latest_sales today;
  payments ← latest_payments today;
  inventory ← latest_inventory today;
  shipping ← latest_shipping today;
  service ← latest_service today;
  marketing ← latest_marketing today;
  mret (mkDayMetrics sales payments inventory shipping service marketing).

Definition domains_of (domain : option string) (cards : list (string * Json)) : list string :=
  if truthy_str domain then [coalesce domain ""] else map fst cards.

Definition computeFromDomainTables (domain : option string) : M (St Db) (list KpiView) :=
  now ← Date_now;
  let today := startOfUtcDay now in
  day ← read_day today;
  let cards := scorecards day in
  mapM (snapshot_domain today cards) (domains_of domain cards).

Definition kpi_refresh (domain : option string) : M (St Db) (list KpiView) :=
  LockService.withLock (LockService.resourceKey ["analytics"; "kpi-refresh"; coalesce domain "all"])
    (enqueue (mkJob QUEUE_ANALYTICS ANALYTICS_JOBS.KPI_REFRESH (JObj (jopt "domain" domain))) ;;
     computed ← computeFromDomainTables domain;
     invalidateKpis "daily" ;;
     mret computed) (ttl_only 60000).

Definition evaluateThreshold (metrics : list (string * Json)) (threshold : Json) : RuleResult :=
  rules_evaluate "" (fact_of_json threshold) (flattenFacts metrics) no_options.

(** ** AlertService *)

Definition alert_create (actorId : string) (input : AlertInput) : M (St Db) (string * string) :=
  let errors := validateConditionTree (fact_of_json (al_condition input)) "$" in
  throw_if (match errors with [] => false | _ => true end)
    (AppException VALIDATION_ERROR (join "; " errors) 400) ;;
  existing ← db_findFirst T_AlertRule (λ r, String.eqb (alr_code r) (al_code input) && live (alr_deleted_at r));
  throw_if (match existing with Some _ => true | None => false end)
    (AppException CONFLICT "Alert rule code exists" 409) ;;
  now ← Date_now;
  rule ← db_create T_AlertRule (λ id, mkAlertRule id (al_code input) (al_name input)
           (coalesce (al_severity input) sv_warning) (al_condition input)
           (coalesce (al_cooldownMinutes input) 15) (coalesce (al_isEnabled input) true) rs_active now None);
  ana_audit "alert_rule" (Some (alr_id rule)) "create" (Some actorId) ;;
  mret (alr_id rule, alr_code rule).

Definition alert_list : M (St Db) (list AlertRule) :=
  rows ← db_findMany_desc T_AlertRule (λ r, live (alr_deleted_at r)) alr_created_at;
  mret (take 200 rows).

Definition enqueueEvaluation (facts : option fields_) : M (St Db) () :=
  enqueue (mkJob QUEUE_ANALYTICS ANALYTICS_JOBS.ALERT_EVAL
    (JObj (match facts ≫= λ fs, fact_json (FObj fs) with Some j => [("facts", j)] | None => [] end))).

(** [if (last && Date.now() - last.triggered_at.getTime() < coolMs) continue] *)
Definition cooling (rule : AlertRule) (last : option AlertHistory) (now : Z) : bool :=
  match last with
  | Some h => now - alh_triggered_at h <? alr_cooldown_minutes rule * 60000
  | None => false
  end.

(** One turn of the loop over the rules; the insert takes its time from DEFAULT now(). *)
Definition evaluate_rule (facts : fields_) (triggered : list TriggeredAlert) (rule : AlertRule)
  : M (St Db) (list TriggeredAlert) :=
  let result := rules_evaluate "" (fact_of_json (alr_condition_json rule)) facts no_options in
  if negb (rr_matched result) then mret triggered
  else
    last ← db_findFirst_desc T_AlertHistory (λ h, String.eqb (alh_rule_id h) (alr_id rule)) alh_triggered_at;
    now ← Date_now;
    if cooling rule last now then mret triggered
    else
      triggered_at ← Date_now;
      history ← db_create T_AlertHistory (λ id, mkAlertHistory id (alr_id rule) (alr_severity rule)
                  ("Alert " +:+ alr_code rule +:+ " triggered") triggered_at);
      emit (AnalyticsAlertTriggeredEvent (alr_id rule) (alr_code rule)
              (AlertSeverity_text (alr_severity rule)) (alh_id history)) ;;
      mret (triggered ++ [mkTriggeredAlert (alr_id rule) (alr_code rule) (alh_id history)]).

Definition armed (r : AlertRule) : bool :=
  live (alr_deleted_at r) && alr_is_enabled r && bool_decide (alr_status r = rs_active).

Definition evaluateAll (facts : fields_) : M (St Db) (list TriggeredAlert) :=
  rules ← db_findMany T_AlertRule armed;
  for_fold rules [] (evaluate_rule facts).

Definition buildFactsFromMetrics : M (St Db) fields_ :=
  now ← Date_now;
  let today := startOfUtcDay now in
  sales ← latest_sales today;
  payments ← latest_payments today;
  inventory ← latest_inventory today;
  shipping ← latest_shipping today;
  service ← latest_service today;
  prevSales ← db_findFirst T_SalesMetrics
    (λ r, (msl_metric_date r =? daysBefore 1 today) && live (msl_deleted_at r));
  mret (alert_facts (mkDayMetrics sales payments inventory shipping service None) prevSales).

(** ** DashboardService *)

(** The rows of the last thirty days, newest first. *)
Definition last_month {A} (T : Table A) (date : A → Z) (deleted : A → option Z) (since : Z)
  : M (St Db) (list A) :=
  rows ← db_findMany_desc T (λ r, live (deleted r) && (since <=? date r)) date;
  mret (take 30 rows).

(** [widgetsFor] *)
Definition salesW (ctx : DashboardContext) : Widget :=
  let revenue := total_amount msl_revenue (dc_sales ctx) in
  let orders := total msl_orders_count (dc_sales ctx) in
  mkWidget "sales_summary" "Sales" "kpi"
    (JObj [("revenue", JNum revenue); ("orders", JInt orders);
           ("aov", JNum (if 0 <? orders then js_div revenue (inject_Z orders) else 0%Q));
           ("series", rows_json (map sales_row (dc_sales ctx)))]).
Definition payW (ctx : DashboardContext) : Widget :=
  mkWidget "payments_summary" "Payments" "kpi"
    (JObj [("captured", JNum (total_amount mpy_captured_amount (dc_payments ctx)));
           ("failed", JInt (total mpy_failed_count (dc_payments ctx)));
           ("series", rows_json (map payment_row (dc_payments ctx)))]).
Definition invW (ctx : DashboardContext) : Widget :=
  mkWidget "inventory_summary" "Inventory" "kpi"
    (JObj [("onHand", JInt (total miv_units_on_hand (dc_inventory ctx)));
           ("lowStock", JInt (total miv_low_stock_skus (dc_inventory ctx)));
           ("stockout", JInt (total miv_stockout_skus (dc_inventory ctx)));
           ("series", rows_json (map inventory_row (dc_inventory ctx)))]).
Definition shipW (ctx : DashboardContext) : Widget :=
  mkWidget "shipping_summary" "Shipping" "kpi"
    (JObj [("shipments", JInt (total msh_shipments_count (dc_shipping ctx)));
           ("delivered", JInt (total msh_delivered_count (dc_shipping ctx)));
           ("rto", JInt (total msh_rto_count (dc_shipping ctx)));
           ("series", rows_json (map shipping_row (dc_shipping ctx)))]).
Definition svcW (ctx : DashboardContext) : Widget :=
  mkWidget "service_summary" "Service / Warranty" "kpi"
    (JObj [("opened", JInt (total msv_tickets_opened (dc_service ctx)));
           ("closed", JInt (total msv_tickets_closed (dc_service ctx)));
           ("slaBreaches", JInt (total msv_sla_breach_count (dc_service ctx)));
           ("series", rows_json (map service_row (dc_service ctx)))]).
Definition mktW (ctx : DashboardContext) : Widget :=
  mkWidget "marketing_summary" "Marketing" "kpi"
    (JObj [("sessions", JInt (total mmk_sessions (dc_marketing ctx)));
           ("newCustomers", JInt (total mmk_new_customers (dc_marketing ctx)));
           ("attributedRevenue", JNum (total_amount mmk_attributed_revenue (dc_marketing ctx)));
           ("series", rows_json (map marketing_row (dc_marketing ctx)))]).
Definition liveW (ctx : DashboardContext) : Widget :=
  mkWidget "live_metrics" "Live metrics" "stream" (rows_json (map live_row (dc_live ctx))).

Definition widgetsFor (code : string) (ctx : DashboardContext) : list Widget :=
  match code with
  | "sales" | "revenue" | "orders" => [salesW ctx; liveW ctx]
  | "payments" => [payW ctx; liveW ctx]
  | "inventory" => [invW ctx; liveW ctx]
  | "shipping" => [shipW ctx; liveW ctx]
  | "warranty" | "service" => [svcW ctx; liveW ctx]
  | "marketing" | "search" | "recommendation" => [mktW ctx; liveW ctx]
  | "system" => [liveW ctx; payW ctx; shipW ctx]
  | _ => [salesW ctx; payW ctx; invW ctx; shipW ctx; svcW ctx; mktW ctx; liveW ctx]
  end.

(** The widgets of the layout's live instances, in their order; the foreign key gives
    every instance its widget. *)
Definition layout_widgets (d : Db) (layout : DashboardLayout) : list Widget :=
  omap (λ i, w ← find_first (λ w, String.eqb (dsw_id w) (dwi_widget_id i)) (view (tbl T_DashboardWidget) d);
             Some (mkWidget (dsw_code w) (coalesce (dwi_title i) (dsw_name w)) (dsw_widget_type w)
                     (coalesce (dwi_config_json i) (JObj []))))
    (order_asc_by dwi_sort_order
       (where_ (λ i, String.eqb (dwi_layout_id i) (dbl_id layout) && live (dwi_deleted_at i))
          (view (tbl T_DashboardWidgetInstance) d))).

Definition live_layout (code : string) (l : DashboardLayout) : bool :=
  String.eqb (dbl_code l) code && live (dbl_deleted_at l).

Definition buildDashboard (code : string) : M (St Db) Json :=
  now ← Date_now;
  let since := startOfUtcDay (daysBefore 30 now) in
  sales ← last_month T_SalesMetrics msl_metric_date msl_deleted_at since;
  payments ← last_month T_PaymentMetrics mpy_metric_date mpy_deleted_at since;
  inventory ← last_month T_InventoryMetrics miv_metric_date miv_deleted_at since;
  shipping ← last_month T_ShippingMetrics msh_metric_date msh_deleted_at since;
  service ← last_month T_ServiceMetrics msv_metric_date msv_deleted_at since;
  marketing ← last_month T_MarketingMetrics mmk_metric_date mmk_deleted_at since;
  live ← db_findMany_desc T_LiveMetric (λ _, true) lvm_observed_at;
  layout ← db_findFirst T_DashboardLayout (live_layout code);
  d ← gets tables;
  now ← Date_now;
  let widgets := widgetsFor code
    (mkDashboardContext sales payments inventory shipping service marketing (take 50 live))
    ++ from_option (layout_widgets d) [] layout in
  mret (JObj [("code", JStr code); ("name", JStr (from_option dbl_name code layout));
              ("refreshedAt", JStr (iso_text now)); ("widgets", JArr (map widget_json widgets))]).

Definition getDashboard (code : string) : M (St Db) Json :=
  ana_getOrSet (ANALYTICS_CACHE.dashboard code) Some id (buildDashboard code).

Definition dashboard_refresh (actorId : option string) (code : string) : M (St Db) Json :=
  LockService.withLock (LockService.resourceKey ["analytics"; "dashboard"; code])
    (invalidateDashboards (Some code) ;;
     payload ← buildDashboard code;
     emit (AnalyticsDashboardRefreshedEvent code) ;;
     ana_audit "dashboard_layout" None "refresh" actorId ;;
     enqueue (mkJob QUEUE_ANALYTICS ANALYTICS_JOBS.DASHBOARD_REFRESH
                (JObj ([("code", JStr code)] ++ jopt "actorId" actorId))) ;;
     mret payload) (ttl_only 30000).

(** The data of an instance: what is not given of the grid is reset, the title and the
    configuration are kept. *)
Definition place (w : WidgetInput) (i : DashboardWidgetInstance) : DashboardWidgetInstance :=
  mkDashboardWidgetInstance (dwi_id i) (dwi_layout_id i) (dwi_widget_id i) (keep (wi_title w) (dwi_title i))
    (keep (wi_config w) (dwi_config_json i)) (dwi_sort_order i)
    (coalesce (wi_gridX w) 0) (coalesce (wi_gridY w) 0) (coalesce (wi_gridW w) 4) (coalesce (wi_gridH w) 2)
    (dwi_deleted_at i).

Definition ensure_widget (w : WidgetInput) : M (St Db) DashboardWidget :=
  widget ← db_findFirst T_DashboardWidget
             (λ x, String.eqb (dsw_code x) (wi_widgetCode w) && live (dsw_deleted_at x));
  match widget with
  | Some x => mret x
  | None => db_create T_DashboardWidget (λ id, mkDashboardWidget id (wi_widgetCode w)
              (coalesce (wi_title w) (wi_widgetCode w)) "metric" None)
  end.

Definition instance_of (layoutId widgetId : string) (i : DashboardWidgetInstance) : bool :=
  String.eqb (dwi_layout_id i) layoutId && String.eqb (dwi_widget_id i) widgetId && live (dwi_deleted_at i).

Definition patch_widget (layoutId : string) (w : WidgetInput) : M (St Db) () :=
  widget ← ensure_widget w;
  existing ← db_findFirst T_DashboardWidgetInstance (instance_of layoutId (dsw_id widget));
  _ ← match existing with
      | Some i => db_update T_DashboardWidgetInstance (dwi_id i) (place w)
      | None => db_create T_DashboardWidgetInstance (λ id, place w
                  (mkDashboardWidgetInstance id layoutId (dsw_id widget) None None 0 0 0 0 0 None))
      end;
  mret tt.

Definition patchLayout (actorId : string) (input : LayoutInput) : M (St Db) Json :=
  found ← db_findFirst T_DashboardLayout (live_layout (li_code input));
  layout ← match found with
           | None => db_create T_DashboardLayout (λ id, mkDashboardLayout id (li_code input)
                       (coalesce (li_name input) (li_code input)) (coalesce (li_isDefault input) false) None)
           | Some l => db_update T_DashboardLayout (dbl_id l) (λ x, mkDashboardLayout (dbl_id x) (dbl_code x)
                         (coalesce (li_name input) (dbl_name l)) (coalesce (li_isDefault input) (dbl_is_default l))
                         (dbl_deleted_at x))
           end;
  for_each (coalesce (li_widgets input) []) (patch_widget (dbl_id layout)) ;;
  invalidateDashboards (Some (li_code input)) ;;
  ana_audit "dashboard_layout" (Some (dbl_id layout)) "patch" (Some actorId) ;;
  getDashboard (li_code input).
End service.
