(* ===== verification/Http.v ===== *)
(** * Outbound HTTP

    Models [backend/src/shared/http/fetch-with-timeout.ts]: a request with a timeout and a
    bounded number of attempts. The network is a parameter over any state: a call is
    answered with a status and a body, or fails (a timeout included). *)
From S2P Require Import Prelude Core Effects.

#[local] Open Scope Z_scope.

Record HttpRequest := mkHttpRequest {
  hr_method : string; hr_url : string; hr_headers : list (string * string); hr_body : option string;
  hr_timeoutMs : Z;
}.

Inductive HttpReply :=
| http_response (status : Z) (text : string)
| http_failure (message : string).

Record FetchOptions := mkFetchOptions { fo_retries : Z; fo_retryDelayMs : Z }.
Definition default_fetch : FetchOptions := mkFetchOptions 2 400.

(** [res.status >= 500 || res.status === 429] *)
Definition transient (r : HttpReply) : bool :=
  match r with
  | http_response status _ => (500 <=? status) || (status =? 429)
  | http_failure _ => true
  end.

(** What the loop gives back: a response, or the last error thrown. *)
Definition reply_result (r : HttpReply) : outcome (Z * string) :=
  match r with
  | http_response status text => Ok (status, text)
  | http_failure message => Throw (JsError message)
  end.

(** [Math.max(1, retries + 1)] *)
Definition fetch_attempts (o : FetchOptions) : nat := Z.to_nat (Z.max 1 (fo_retries o + 1)).

Section fetch.
(** The network, and the passing of time. *)
Context {S : Type} (send : HttpRequest → S → HttpReply * S) (wait : Z → S → S).

(** The loop, with [more] attempts after this one. *)
Fixpoint fetch_loop (req : HttpRequest) (delay : Z) (attempt : Z) (more : nat) : M S (Z * string) := λ s,
  let '(r, s) := send req s in
  match more with
  | O => (reply_result r, s)
  | Datatypes.S more =>
      if transient r then fetch_loop req delay (attempt + 1) more (wait (delay * 2 ^ attempt) s)
      else (reply_result r, s)
  end.

Definition fetchWithTimeout (req : HttpRequest) (o : FetchOptions) : M S (Z * string) :=
  fetch_loop req (fo_retryDelayMs o) 0 (fetch_attempts o - 1).

(** ** What the loop does *)

(** A run of the loop as the calls it made: each with its reply and the states around
    it; between two calls it waits, longer each time. *)
Inductive calls (req : HttpRequest) (delay : Z) : Z → S → list HttpReply → S → Prop :=
| calls_one a s r s' : send req s = (r, s') → calls req delay a s [r] s'
| calls_more a s r s' rs s'' : send req s = (r, s') → transient r = true →
    calls req delay (a + 1) (wait (delay * 2 ^ a) s') rs s'' → calls req delay a s (r :: rs) s''.

Lemma fetch_loop_calls req delay more : ∀ a s o s',
  fetch_loop req delay a more s = (o, s') →
  ∃ rs r, calls req delay a s (rs ++ [r]) s' ∧ o = reply_result r
    ∧ (length rs <= more)%nat ∧ Forall (λ x, transient x = true) rs
    ∧ (transient r = true → length rs = more).
Proof.
  induction more as [|more IH]; intros a s o s'; simpl; destruct (send req s) as [r s1] eqn:E.
  - intros [= <- <-]. exists [], r. split_and!; [by apply calls_one|done|simpl; lia|done|done].
  - destruct (transient r) eqn:Et.
    + intros E'. destruct (IH _ _ _ _ E') as (rs & x & Hc & -> & Hl & Hf & Hx).
      exists (r :: rs), x. split_and!.
      * by eapply calls_more.
      * done.
      * simpl. lia.
      * by constructor.
      * intros Hx'. simpl. by rewrite Hx.
    + intros [= <- <-]. exists [], r. split_and!; [by apply calls_one|done|simpl; lia|done|congruence].
Qed.

(** A request is sent at least once and at most [retries + 1] times: every attempt but the
    last met a failure, a 429 or a server error, the answer is that of the last, and an
    attempt that failed so is final only when none was left. *)
Theorem fetch_bounded (req : HttpRequest) (o : FetchOptions) (s : S) :
  ∃ rs r, calls req (fo_retryDelayMs o) 0 s (rs ++ [r]) (snd (fetchWithTimeout req o s))
    ∧ fst (fetchWithTimeout req o s) = reply_result r
    ∧ (length (rs ++ [r]) <= fetch_attempts o)%nat
    ∧ Forall (λ x, transient x = true) rs
    ∧ (transient r = true → length (rs ++ [r]) = fetch_attempts o).
Proof.
  unfold fetchWithTimeout. destruct (fetch_loop _ _ _ _ s) as [out s'] eqn:E.
  destruct (fetch_loop_calls _ _ _ _ _ _ _ E) as (rs & r & Hc & -> & Hl & Hf & Hr).
  assert (1 <= fetch_attempts o)%nat by (unfold fetch_attempts; lia).
  exists rs, r. rewrite length_app. simpl. split_and!; [done|done|lia|done|].
  intros Ht. specialize (Hr Ht). lia.
Qed.
End fetch.

(** ** Texts of the language and its libraries *)

(** [JSON.parse]; [None] is a syntax error. *)
Class JsonParse := json_parse : string → option Json.
(** [encodeURIComponent] and the base64 of a text. *)
Class UriText := { encodeURIComponent : string → string; base64 : string → string }.
(** [createHmac('sha256', secret).update(body).digest('hex')] *)
Class HmacSha256 := hmac_sha256_hex : string → string → string.
(** [randomUUID()], drawn with the given number. *)
Class RandomUuid := uuid_text : nat → string.
