(* ===== verification/Guards.v ===== *)
(** * Guards, filters and throttling

    Models what stands around the handlers: the global guards of [backend/src/common/guards]
    in the order of [app.module.ts], the allowlist of addresses for administrators, the
    paths that are throttled apart, the throttler's storage
    [shared/throttling/redis-throttler.storage.ts], and the filters of [common/filters] that
    turn what was thrown into a response. Verification of a token is the parameter
    [JwtVerify]; the environment's variables are arguments. *)
From S2P Require Import Prelude Core Effects JsNumber Http.
From Stdlib Require Import QArith Qround.

#[local] Open Scope Z_scope.

(** ** Guards *)

(** [Partial<AuthUser>], the payload of a token. *)
Record TokenPayload := mkTokenPayload {
  tp_sub : option string; tp_email : option string; tp_mobile : option string;
  tp_roles : option (list string); tp_permissions : option (list string);
  tp_sessionId : option string; tp_tokenFamilyId : option string;
}.

Record AuthUser := mkAuthUser {
  usr_sub : string; usr_email : option string; usr_mobile : option string; usr_roles : list string;
  usr_permissions : list string; usr_sessionId : option string; usr_tokenFamilyId : option string;
}.

(** [jwtService.verifyAsync]; [None]: it throws. *)
Class JwtVerify := jwt_verify : string → option TokenPayload.

(** What the decorators say of a handler. *)
Record RouteMeta := mkRouteMeta {
  rm_public : bool; rm_roles : list string; rm_permissions : list string;
}.

Definition extractBearerToken (authorization : option string) : option string :=
  match authorization with
  | Some a => if String.prefix "Bearer " a
              then match trim (String.substring 7 (String.length a - 7) a) with "" => None | t => Some t end
              else None
  | None => None
  end.

Definition user_of_payload (p : TokenPayload) : AuthUser :=
  mkAuthUser (coalesce (tp_sub p) "undefined") (tp_email p) (tp_mobile p) (coalesce (tp_roles p) [])
    (coalesce (tp_permissions p) []) (tp_sessionId p) (tp_tokenFamilyId p).

(** The framework's exceptions, with the code and the message of their responses. *)
Definition MISSING_TOKEN : exn := AppException UNAUTHORIZED "Missing access token" 401.
Definition INVALID_TOKEN : exn := AppException UNAUTHORIZED "Invalid or expired access token" 401.
Definition INSUFFICIENT_ROLE : exn := ForbiddenException FORBIDDEN "Insufficient role".
Definition INSUFFICIENT_PERMISSIONS : exn := ForbiddenException FORBIDDEN "Insufficient permissions".

Definition includes_string (xs : list string) (x : string) : bool := existsb (String.eqb x) xs.

Section guards.
Context `{JwtVerify}.

(** [JwtAuthGuard.canActivate]: the request's user. *)
Definition jwt_guard (route : RouteMeta) (authorization : option string) : outcome (option AuthUser) :=
  let token := extractBearerToken authorization in
  if rm_public route then Ok (option_map user_of_payload (token ≫= jwt_verify))
  else match token with
       | None => Throw MISSING_TOKEN
       | Some t => match jwt_verify t with
                   | Some p => Ok (Some (user_of_payload p))
                   | None => Throw INVALID_TOKEN
                   end
       end.

Definition roles_guard (route : RouteMeta) (user : option AuthUser) : outcome () :=
  match rm_roles route with
  | [] => Ok tt
  | required => if existsb (includes_string (from_option usr_roles [] user)) required then Ok tt
                else Throw INSUFFICIENT_ROLE
  end.

Definition permissions_guard (route : RouteMeta) (user : option AuthUser) : outcome () :=
  match rm_permissions route with
  | [] => Ok tt
  | required => if forallb (includes_string (from_option usr_permissions [] user)) required then Ok tt
                else Throw INSUFFICIENT_PERMISSIONS
  end.

(** The guards in the order in which the application provides them. *)
Definition guarded (route : RouteMeta) (authorization : option string) : outcome (option AuthUser) :=
  match jwt_guard route authorization with
  | Throw e => Throw e
  | Ok user => match roles_guard route user with
               | Throw e => Throw e
               | Ok _ => match permissions_guard route user with Throw e => Throw e | Ok _ => Ok user end
               end
  end.
End guards.

(** ** The allowlist for administrators *)

(** [clientIp]: the first address of the header before the connection's. *)
Fixpoint until_comma (s : string) : string :=
  match s with
  | "" => ""
  | String c rest => if Ascii.eqb c "," then "" else String c (until_comma rest)
  end.
Definition clientIp (forwarded ip remote : option string) : string :=
  match forwarded with
  | Some (String _ _ as xf) => trim (until_comma xf)
  | _ => match ip with Some (String _ _ as i) => i | _ => coalesce remote "" end
  end.

Definition has_text (sub s : string) : bool :=
  match String.index 0 sub s with Some _ => true | None => false end.

Definition FROM_ELSEWHERE : exn := ForbiddenException HTTP_ERROR "Admin access denied from this IP".

Definition admin_allowlist (enforce : bool) (allow : list string) (path ip : string) : outcome () :=
  if negb enforce then Ok tt
  else if negb (has_text "/admin" path) then Ok tt
  else match allow with
       | [] => Ok tt
       | _ => if negb (includes_string allow ip) && negb (includes_string allow "*") then Throw FROM_ELSEWHERE
              else Ok tt
       end.

(** ** Throttling *)

(** [path-matchers.ts], on the path in lower case. *)
Definition isAuthPath (url : string) : bool :=
  let p := toLowerCase url in
  existsb (λ x, has_text x p) ["/auth/login"; "/auth/register"; "/auth/refresh"; "/auth/forgot-password";
                               "/auth/reset-password"; "/auth/change-password"].
Definition isOtpPath (url : string) : bool :=
  let p := toLowerCase url in
  existsb (λ x, has_text x p) ["/auth/send-otp"; "/auth/verify-otp"; "/auth/verify-email";
                               "/auth/resend-verification"].
Definition isPaymentPath (url : string) : bool :=
  let p := toLowerCase url in has_text "/payments" p || has_text "/payment" p.
Definition isAdminPath (url : string) : bool := has_text "/admin/" (toLowerCase url).
Definition isUploadPath (url : string) : bool :=
  let p := toLowerCase url in has_text "/upload" p || has_text "/media" p || has_text "/files" p.

(** [num]: a positive number of the environment, or the default. *)
Definition positive_or (v : option Q) (fallback : Z) : Q :=
  match v with Some q => if js_lt 0 q then q else inject_Z fallback | None => inject_Z fallback end.

Record ThrottleConfig := mkThrottleConfig {
  tc_ttlMs : Q; tc_default : Q; tc_auth : Q; tc_otp : Q; tc_payment : Q; tc_admin : Q; tc_upload : Q;
}.
(** [env k] is [Number(process.env[k])], [None] when that is not finite. *)
Definition throttle_config (env : string → option Q) : ThrottleConfig :=
  mkThrottleConfig (positive_or (env "THROTTLE_TTL_MS") 60000) (positive_or (env "THROTTLE_LIMIT") 120)
    (positive_or (env "THROTTLE_AUTH_LIMIT") 30) (positive_or (env "THROTTLE_OTP_LIMIT") 10)
    (positive_or (env "THROTTLE_PAYMENT_LIMIT") 40) (positive_or (env "THROTTLE_ADMIN_LIMIT") 60)
    (positive_or (env "THROTTLE_UPLOAD_LIMIT") 20).

(** The throttlers that count a request, with their limits. *)
Definition throttlers (c : ThrottleConfig) (url : string) : list (string * Q) :=
  [("default", tc_default c)]
  ++ (if isAuthPath url then [("auth", tc_auth c)] else [])
  ++ (if isOtpPath url then [("otp", tc_otp c)] else [])
  ++ (if isPaymentPath url then [("payment", tc_payment c)] else [])
  ++ (if isAdminPath url then [("admin", tc_admin c)] else [])
  ++ (if isUploadPath url then [("upload", tc_upload c)] else []).

Record ThrottlerStorageRecord := mkThrottlerRecord {
  th_totalHits : Z; th_timeToExpire : Z; th_isBlocked : bool; th_timeToBlockExpire : Z;
}.

(** The commands of Redis that the storage issues: each may throw. *)
Record RedisCounters (S : Type) := mkRedisCounters {
  rc_ttl : string → M S Z; rc_incr : string → M S Z; rc_expire : string → Z → M S ();
  rc_setex : string → Z → M S ();
}.
Arguments rc_ttl {S} r key.
Arguments rc_incr {S} r key.
Arguments rc_expire {S} r key seconds.
Arguments rc_setex {S} r key seconds.

(** [Math.max(1, Math.ceil(ms / 1000))] *)
Definition whole_seconds (ms : Z) : Z := Z.max 1 (Qceiling (js_div (inject_Z ms) 1000)).

Section throttler.
Context {S : Type} (redis : RedisCounters S) (prefix : string).

Definition incrementRedis (key : string) (ttl limit blockDuration : Z) : M S ThrottlerStorageRecord :=
  let redisKey := prefix +:+ key in
  let blockKey := redisKey +:+ ":block" in
  let ttlSec := whole_seconds ttl in
  let blockSec := whole_seconds blockDuration in
  blockedTtl ← rc_ttl redis blockKey;
  if 0 <? blockedTtl then mret (mkThrottlerRecord (limit + 1) ttlSec true blockedTtl)
  else
    hits ← rc_incr redis redisKey;
    when_ (hits =? 1) (rc_expire redis redisKey ttlSec) ;;
    timeToExpire ← rc_ttl redis redisKey;
    if limit <? hits then
      rc_setex redis blockKey blockSec ;;
      mret (mkThrottlerRecord hits (Z.max timeToExpire 0) true blockSec)
    else mret (mkThrottlerRecord hits (Z.max timeToExpire 0) false 0).

(** [increment]: when Redis fails the request passes. *)
Definition throttle_increment (key : string) (ttl limit blockDuration : Z) : M S ThrottlerStorageRecord :=
  try_catch (incrementRedis key ttl limit blockDuration)
    (λ _, mret (mkThrottlerRecord 1 (whole_seconds ttl) false 0)).
End throttler.

(** ** Filters *)

(** What a request ends with: an [AppException], a [BadRequestException] or another
    [HttpException] with its response, a known error of the database client, or
    anything else. *)
Inductive Thrown :=
| thrown_app (code message : string) (status : Z) (errors : list Json)
| thrown_bad_request (response : Json)
| thrown_http (message : string) (status : Z) (response : Json)
| thrown_prisma (code message : string) (meta : option Json)
| thrown_other.

Record ErrorResponse := mkErrorResponse { er_code : string; er_message : string; er_errors : list Json }.

Definition PRISMA_ERROR_MAP (code : string) : option (Z * string * string) :=
  match code with
  | "P2000" => Some (400, "BAD_REQUEST", "Value too long for column")
  | "P2001" => Some (404, "NOT_FOUND", "Record not found")
  | "P2002" => Some (409, "CONFLICT", "Unique constraint violation")
  | "P2003" => Some (400, "BAD_REQUEST", "Foreign key constraint violation")
  | "P2014" => Some (400, "BAD_REQUEST", "Invalid relation")
  | "P2025" => Some (404, "NOT_FOUND", "Record not found")
  | _ => None
  end.

Definition prisma_errors (code : string) (meta : option Json) : list Json :=
  [JObj [("prismaCode", JStr code); ("meta", coalesce meta (JObj []))]].

Definition mapPrismaKnownRequestError (code message : string) (meta : option Json) : Z * ErrorResponse :=
  match PRISMA_ERROR_MAP code with
  | Some (status, mapped, text) =>
      (status, mkErrorResponse mapped
        (match meta ≫= jget "target" with
         | Some (JStr (String _ _ as target)) => text +:+ ": " +:+ target
         | _ => text
         end) (prisma_errors code meta))
  | None => (400, mkErrorResponse "BAD_REQUEST" message (prisma_errors code meta))
  end.

Section filters.
Context (text : Json → string).  (* [String(v)] *)

Definition http_payload (message : string) (response : Json) : ErrorResponse :=
  match response with
  | JObj _ =>
      mkErrorResponse
        (match jget "code" response with Some (JStr c) => c | _ => "HTTP_ERROR" end)
        (match jget "message" response with
         | Some (JStr m) => m
         | Some (JArr l) => join ", " (map text l)
         | _ => message
         end)
        (match jget "errors" response with Some (JArr l) => l | _ => [] end)
  | JStr s => mkErrorResponse "HTTP_ERROR" s []
  | _ => mkErrorResponse "HTTP_ERROR" message []
  end.

Definition INTERNAL : ErrorResponse := mkErrorResponse "INTERNAL_ERROR" "Internal server error" [].

(** [HttpExceptionFilter], which hides the details of the server's errors in production. *)
Definition http_filter (hide : bool) (status : Z) (r : ErrorResponse) : Z * ErrorResponse :=
  (status, if hide && (500 <=? status) then INTERNAL else r).

(** [ValidationExceptionFilter] *)
Definition looks_like_validation (item : Json) : bool :=
  existsb (λ k, match jget k item with Some _ => true | None => false end) ["property"; "constraints"; "children"].

Fixpoint flattenValidationErrors (parentPath : string) (item : Json) : list Json :=
  let property := match jget "property" item with Some (JStr p) => p | _ => "" end in
  let path := match parentPath with "" => property | _ => parentPath +:+ "." +:+ property end in
  match jget "constraints" item with
  | Some (JObj cs) => map (λ kv, JObj [("field", JStr path); ("rule", JStr (fst kv)); ("message", snd kv)]) cs
  | _ => []
  end
  ++ match item with
     | JObj fs =>
         (fix fields fs := match fs with
            | [] => []
            | (k, v) :: rest =>
                if String.eqb k "children"
                then match v with JArr l => flat_map (flattenValidationErrors path) l | _ => [] end
                else fields rest
            end) fs
     | _ => []
     end.

Definition validation_filter (response : Json) : ErrorResponse :=
  match jget "message" response with
  | Some (JArr l) =>
      if existsb looks_like_validation l
      then mkErrorResponse "VALIDATION_ERROR" "Validation failed" (flat_map (flattenValidationErrors "") l)
      else mkErrorResponse "VALIDATION_ERROR" (join ", " (map text l))
             (map (λ i, JObj [("message", JStr (text i))]) l)
  | Some (JStr m) => mkErrorResponse "VALIDATION_ERROR" m []
  | _ => mkErrorResponse "VALIDATION_ERROR" "Validation failed" []
  end.

(** The filter that catches each kind: the framework tries the filters from the last
    provided to the first. *)
Definition error_response (hide : bool) (e : Thrown) : Z * ErrorResponse :=
  match e with
  | thrown_app code message status errors => http_filter hide status (mkErrorResponse code message errors)
  | thrown_bad_request response => (400, validation_filter response)
  | thrown_http message status response => http_filter hide status (http_payload message response)
  | thrown_prisma code message meta => mapPrismaKnownRequestError code message meta
  | thrown_other => (500, INTERNAL)
  end.
End filters.
