(* ===== verification/GuardRules.v ===== *)
(** * Rules of guards and filters

    A request passes the guards exactly when its route admits its user; the throttler
    never stops a request because Redis fails; in production a server error says nothing
    of its cause. The examples show the gaps. *)
From S2P Require Import Prelude Core Effects JsNumber Http Guards.
From Stdlib Require Import QArith.

#[local] Open Scope Z_scope.

Lemma includes_string_spec xs x : includes_string xs x = true ↔ x ∈ xs.
Proof.
  unfold includes_string. rewrite existsb_exists. setoid_rewrite String.eqb_eq. split.
  - intros (y & Hy%list_elem_of_In & ->). done.
  - intros Hx%list_elem_of_In. by exists x.
Qed.

Section access.
Context `{JwtVerify}.

(** The user whom the token names, if it is valid. *)
Definition bearer (authorization : option string) : option AuthUser :=
  option_map user_of_payload (extractBearerToken authorization ≫= jwt_verify).

(** The route admits the user. *)
Definition admits (route : RouteMeta) (user : option AuthUser) : Prop :=
  (rm_roles route = [] ∨ ∃ r, r ∈ rm_roles route ∧ r ∈ from_option usr_roles [] user)
  ∧ ∀ p, p ∈ rm_permissions route → p ∈ from_option usr_permissions [] user.

Lemma jwt_guard_spec route authorization :
  jwt_guard route authorization
  = if rm_public route || bool_decide (is_Some (bearer authorization)) then Ok (bearer authorization)
    else Throw (if bool_decide (is_Some (extractBearerToken authorization)) then INVALID_TOKEN else MISSING_TOKEN).
Proof.
  unfold jwt_guard, bearer. destruct (rm_public route); [done|].
  destruct (extractBearerToken authorization) as [t|]; [|done].
  cbn [mbind option_bind orb]. by destruct (jwt_verify t).
Qed.

Lemma roles_guard_spec route user :
  roles_guard route user = Ok tt ∧ (rm_roles route = [] ∨ ∃ r, r ∈ rm_roles route ∧ r ∈ from_option usr_roles [] user)
  ∨ roles_guard route user = Throw INSUFFICIENT_ROLE
    ∧ ¬ (rm_roles route = [] ∨ ∃ r, r ∈ rm_roles route ∧ r ∈ from_option usr_roles [] user).
Proof.
  unfold roles_guard. destruct (rm_roles route) as [|r rs] eqn:E; [left; auto|]. rewrite <- E.
  destruct (existsb _ _) eqn:Ex.
  - left. split; [done|]. right. apply existsb_exists in Ex as (x & Hx%list_elem_of_In & Hi%includes_string_spec). eauto.
  - right. split; [done|]. intros [?|(x & Hx & Hi)]; [congruence|].
    apply not_true_iff_false in Ex. apply Ex, existsb_exists. exists x.
    split; [by apply list_elem_of_In|by apply includes_string_spec].
Qed.

Lemma permissions_guard_spec route user :
  permissions_guard route user = Ok tt ∧ (∀ p, p ∈ rm_permissions route → p ∈ from_option usr_permissions [] user)
  ∨ permissions_guard route user = Throw INSUFFICIENT_PERMISSIONS
    ∧ ¬ (∀ p, p ∈ rm_permissions route → p ∈ from_option usr_permissions [] user).
Proof.
  unfold permissions_guard. destruct (rm_permissions route) as [|r rs] eqn:E; [left; set_solver|]. rewrite <- E.
  destruct (forallb _ _) eqn:Ex.
  - left. split; [done|]. intros p Hp. rewrite forallb_forall in Ex. by apply includes_string_spec, Ex, list_elem_of_In.
  - right. split; [done|]. intros Hall. apply not_true_iff_false in Ex. apply Ex, forallb_forall.
    intros p Hp%list_elem_of_In. by apply includes_string_spec, Hall.
Qed.

Definition known_to (route : RouteMeta) (authorization : option string) : Prop :=
  rm_public route = true ∨ is_Some (bearer authorization).

Lemma guarded_Ok route authorization u :
  guarded route authorization = Ok u
  ↔ u = bearer authorization ∧ known_to route authorization ∧ admits route u.
Proof.
  unfold guarded, admits, known_to. rewrite jwt_guard_spec.
  destruct (rm_public route || bool_decide (is_Some (bearer authorization))) eqn:K.
  - assert (rm_public route = true ∨ is_Some (bearer authorization)) as Hk
      by (apply orb_true_iff in K as [?|?%bool_decide_eq_true]; auto).
    destruct (roles_guard_spec route (bearer authorization)) as [[-> Hr]|[-> Hr]].
    + destruct (permissions_guard_spec route (bearer authorization)) as [[-> Hp]|[-> Hp]];
        [naive_solver|]. split; [done|]. intros (-> & _ & _ & ?). done.
    + split; [done|]. intros (-> & _ & ? & _). done.
  - apply orb_false_iff in K as [-> Kb%bool_decide_eq_false]. split; [done|].
    by intros (_ & [?|?] & _).
Qed.

(** The guards decide exactly: a request reaches its handler, with the user of its token,
    if and only if its route is public or its token is valid, the user has one of the
    route's roles, if it names any, and all of its permissions. A refusal is 401 when a
    route that is not public has no valid token, and 403 otherwise. *)
Theorem access_decided (route : RouteMeta) (authorization : option string) :
  let user := bearer authorization in
  let known := rm_public route = true ∨ is_Some user in
  match guarded route authorization with
  | Ok u => u = user ∧ known ∧ admits route user
  | Throw e => (¬ known ∧ (e = MISSING_TOKEN ∨ e = INVALID_TOKEN))
               ∨ (known ∧ ¬ admits route user ∧ (e = INSUFFICIENT_ROLE ∨ e = INSUFFICIENT_PERMISSIONS))
  end.
Proof.
  cbn zeta. unfold guarded, admits. rewrite jwt_guard_spec.
  destruct (rm_public route || bool_decide (is_Some (bearer authorization))) eqn:K.
  - assert (rm_public route = true ∨ is_Some (bearer authorization)) as Hk
      by (apply orb_true_iff in K as [?|?%bool_decide_eq_true]; auto).
    destruct (roles_guard_spec route (bearer authorization)) as [[-> Hr]|[-> Hr]]; [|right; tauto].
    destruct (permissions_guard_spec route (bearer authorization)) as [[-> Hp]|[-> Hp]]; [tauto|right; tauto].
  - left. apply orb_false_iff in K as [-> Kb%bool_decide_eq_false]. split; [by intros [?|?]|].
    case_bool_decide; auto.
Qed.
End access.

(** ** Throttling *)

(** Whatever becomes of its commands, the storage answers; and a key that is blocked is
    answered as blocked without being counted. *)
Theorem throttle_answers {S} (redis : RedisCounters S) prefix key ttl limit blockDuration (s : S) :
  ∃ r, fst (throttle_increment redis prefix key ttl limit blockDuration s) = Ok r
    ∧ (th_isBlocked r = true → limit < th_totalHits r).
Proof.
  unfold throttle_increment, try_catch.
  destruct (incrementRedis redis prefix key ttl limit blockDuration s) as [[r|e] s'] eqn:E; [|by eexists].
  exists r. split; [done|]. revert E. unfold incrementRedis, mbind, M_bind.
  destruct (rc_ttl redis _ s) as [[b|e] s1]; [|done].
  destruct (Z.ltb_spec 0 b); [intros [= <- <-] _; cbn [th_totalHits]; lia|].
  destruct (rc_incr redis _ s1) as [[hits|e] s2]; [|done]. destruct (when_ _ _ s2) as [[[]|e] s3]; [|done].
  destruct (rc_ttl redis _ s3) as [[t|e] s4]; [|done]. destruct (Z.ltb_spec limit hits).
  - destruct (rc_setex redis _ _ s4) as [[[]|e] s5]; [|done]. intros [= <- <-]. done.
  - intros [= <- <-]. done.
Qed.

(** ** Filters *)

Lemma prisma_status code message meta : fst (mapPrismaKnownRequestError code message meta) < 500.
Proof.
  unfold mapPrismaKnownRequestError. destruct (PRISMA_ERROR_MAP code) as [[[status c] m]|] eqn:E; [|done].
  revert E. unfold PRISMA_ERROR_MAP. repeat (case_match; try done); by intros [= <- <- <-].
Qed.

(** In production a response of the server's own error is the same for every cause. *)
Theorem server_errors_hidden (text : Json → string) (e : Thrown) :
  500 <= fst (error_response text true e) → snd (error_response text true e) = INTERNAL.
Proof.
  destruct e as [code message status errors|response|message status response|code message meta|]; simpl.
  - intros Hs%Z.leb_le. by rewrite Hs.
  - lia.
  - intros Hs%Z.leb_le. by rewrite Hs.
  - pose proof (prisma_status code message meta). lia.
  - done.
Qed.

Lemma server_errors_hidden_witness :
  snd (error_response (λ _, "") true (thrown_app "INTERNAL_ERROR" "connect ECONNREFUSED 10.0.0.5" 503 [])) = INTERNAL.
Proof. apply server_errors_hidden. vm_compute. discriminate. Defined.

(** ** Examples *)

(** The address that an administrator is checked by is the one that the client puts in a
    header. *)
Example forwarded_address_believed :
  admin_allowlist true ["10.0.0.1"] "/api/admin/users"
    (clientIp (Some "10.0.0.1") (Some "203.0.113.9") None) = Ok tt.
Proof. vm_compute. reflexivity. Qed.

(** An unknown error of the database client is answered with its whole text, in production
    too. *)
Example database_text_leaks :
  er_message (snd (error_response (λ _, "") true
    (thrown_prisma "P2010" "Raw query failed: relation secret_table" None)))
  = "Raw query failed: relation secret_table".
Proof. reflexivity. Qed.

(** A server whose EXPIRE fails once after the first INCR: the counter never expires. *)
Definition lossy : RedisCounters (Z * bool) := {|
  rc_ttl key := λ s : Z * bool, (Ok (if snd s then 60 else -1), s);
  rc_incr key := λ s : Z * bool, (Ok (fst s + 1), (fst s + 1, snd s));
  rc_expire key seconds := λ s : Z * bool, (Throw RedisError, s);
  rc_setex key seconds := λ s : Z * bool, (Ok tt, s);
|}.

Example counter_without_expiry :
  let call := throttle_increment lossy "ec:throttle:" "k" 60000 2 60000 in
  let run := (call ;; call ;; call) in
  match fst (run (0, false)) with
  | Ok r => th_isBlocked r = true ∧ th_timeToExpire r = 0
  | Throw _ => False
  end.
Proof. vm_compute. done. Qed.
