(* ===== verification/Reports.v ===== *)
(** * Reports

    Models [backend/src/modules/analytics/services/report.service.ts],
    [utils/export.util.ts] and [workers/analytics.worker.ts]: saved reports, their
    schedules, and exports as CSV, spreadsheet or text, queued and rendered by a worker.
    Texts are byte strings. *)
From S2P Require Import Prelude Core Effects Redis Lock JsNumber Rules Database Tables Payments Coupons Growth CatalogStores Carrier Catalog WarrantyStores Webhooks Schema Insights Analytics.
From Stdlib Require Import QArith.

#[local] Open Scope Z_scope.

Definition quote_char : Ascii.ascii := Ascii.ascii_of_nat 34.
Definition newline_char : Ascii.ascii := Ascii.ascii_of_nat 10.
Definition quote_ : string := String quote_char "".

(** ** Export formats *)

(** [escape]: a text with a quote, a comma or a newline is quoted, its quotes doubled. *)
Definition escape_csv (s : string) : string :=
  if has_char quote_char s || has_char "," s || has_char newline_char s
  then quote_ +:+ replace_char quote_char (quote_ +:+ quote_) s +:+ quote_
  else s.

Definition escapeXml (s : string) : string :=
  replace_char quote_char "&quot;" (replace_char ">" "&gt;" (replace_char "<" "&lt;" (replace_char "&" "&amp;" s))).

(** The keys of the rows in the order in which they are first met. *)
Definition add_key (keys : list string) (k : string) : list string :=
  if existsb (String.eqb k) keys then keys else keys ++ [k].
Definition keys_of (rows : list Row) : list string :=
  foldl (λ keys row, foldl add_key keys (map fst row)) [] rows.

(** [r[k]] *)
Definition column (k : string) (r : Row) : option Cell :=
  option_map snd (find_first (λ kv, String.eqb (fst kv) k) r).

Inductive ReportFormat := rf_csv | rf_xlsx | rf_pdf | rf_json.

Record GenerateInput := mkGenerateInput { gi_savedReportId : option string; gi_format : option ReportFormat }.

Record SavedReportInput := mkSavedReportInput {
  sr_code : string; sr_name : string; sr_reportType : string; sr_query : option Json;
}.

Record ScheduleInput := mkScheduleInput {
  sc_savedReportId : string; sc_cronExpression : string; sc_timezone : option string;
  sc_recipients : option (list string);
}.

Record ExportJob := mkExportJob {
  xj_exportId : string; xj_savedReportId : option string; xj_format : ReportExportFormat;
  xj_actorId : option string;
}.

(** A row of a report: an object of the client or any JSON value. *)
Inductive ReportRow := rr_row (r : Row) | rr_value (j : Json).

Definition flattenRow (r : ReportRow) : Row :=
  match r with
  | rr_row r => r
  | rr_value (JObj fs) => map (λ kv, (fst kv, cell_json (snd kv))) fs
  | rr_value j => [("value", cell_json j)]
  end.
Definition flattenRows (rows : list ReportRow) : list Row := map flattenRow rows.

Definition saved_row (r : SavedReport) : Row :=
  [("id", cell_str (svr_id r)); ("code", cell_str (svr_code r)); ("name", cell_str (svr_name r));
   ("report_type", cell_str (svr_report_type r)); ("query_json", cell_opt cell_json (svr_query_json r));
   ("owner_id", cell_opt cell_str (svr_owner_id r)); ("created_at", cell_date (svr_created_at r))].

(** The audit log as the client returns it, newest first: the model does not keep the time
    of an entry. *)
Class AuditTrail := audit_trail : list AuditLog → list Row.

(** The format of a job's payload. *)
Definition format_of_text (s : string) : option ReportExportFormat :=
  match s with "csv" => Some xf_csv | "pdf" => Some xf_pdf | "xlsx" => Some xf_xlsx | _ => None end.

Section service.
Context `{Redis, !Scheduler, !Crypto, !Postgres, !JsLibrary, !DateText, !NumberText, !JsonText, !ClientText,
  !CatalogStorage, !AuditTrail}.

(** The text of a value: [JSON.stringify] of an object, a date or a decimal included. *)
Definition cell_text (v : option Cell) : string :=
  match v with
  | None | Some (cell_json JNull) => ""
  | Some (cell_json (JStr s)) => s
  | Some (cell_json (JBool true)) => "true"
  | Some (cell_json (JBool false)) => "false"
  | Some (cell_json (JNum q)) => number_text q
  | Some (cell_json j) => json_stringify j
  | Some (cell_date t) => json_stringify (JStr (iso_text t))
  | Some (cell_decimal q) => json_stringify (JStr (number_text q))
  end.

Definition csv_line (keys : list string) (r : Row) : string :=
  join "," (map (λ k, escape_csv (cell_text (column k r))) keys).

Definition rowsToCsv (rows : list Row) : string :=
  match rows with
  | [] => ""
  | _ => let keys := keys_of rows in
         join newline (join "," keys :: map (csv_line keys) rows)
  end.

Definition xml_cell (s : string) : string :=
  "<Cell><Data ss:Type=" +:+ quote_ +:+ "String" +:+ quote_ +:+ ">" +:+ escapeXml s +:+ "</Data></Cell>".
Definition concat_texts (l : list string) : string := foldr String.append "" l.
Definition xml_row (cells : list string) : string :=
  "<Row>" +:+ concat_texts (map xml_cell cells) +:+ "</Row>".
(** [name="value"] *)
Definition xml_attr (name value : string) : string := name +:+ "=" +:+ quote_ +:+ value +:+ quote_.

Definition rowsToXlsxXml (rows : list Row) : string :=
  let keys := match rows with [] => ["value"] | _ => keys_of rows end in
  let header := xml_row keys in
  let body := concat_texts (map (λ r, xml_row (map (λ k, cell_text (column k r)) keys)) rows) in
  join newline
    ["<?xml " +:+ xml_attr "version" "1.0" +:+ "?>";
     "<?mso-application " +:+ xml_attr "progid" "Excel.Sheet" +:+ "?>";
     "<Workbook " +:+ xml_attr "xmlns" "urn:schemas-microsoft-com:office:spreadsheet";
     " " +:+ xml_attr "xmlns:ss" "urn:schemas-microsoft-com:office:spreadsheet" +:+ ">";
     "<Worksheet " +:+ xml_attr "ss:Name" "Report" +:+ "><Table>" +:+ header +:+ body +:+ "</Table></Worksheet>";
     "</Workbook>"].

Definition rowsToPdfText (rows : list Row) : M (St Db) string :=
  now ← Date_now;
  mret (join newline ["Electronics Cart Analytics Export"; "Generated: " +:+ iso_text now; ""; rowsToCsv rows]).

(** ** ReportService *)

Definition listSaved : M (St Db) (list Row) :=
  ana_getOrSet ANALYTICS_CACHE.reports rows_of_json rows_json
    (rows ← db_findMany_desc T_SavedReport (λ r, live (svr_deleted_at r)) svr_created_at;
     mret (map saved_row (take 200 rows))).

Definition createSaved (actorId : string) (input : SavedReportInput) : M (St Db) (string * string) :=
  existing ← db_findFirst T_SavedReport (λ r, String.eqb (svr_code r) (sr_code input) && live (svr_deleted_at r));
  throw_if (match existing with Some _ => true | None => false end)
    (AppException CONFLICT "Report code exists" 409) ;;
  now ← Date_now;
  report ← db_create T_SavedReport (λ id, mkSavedReport id (sr_code input) (sr_name input)
             (sr_reportType input) (sr_query input) (Some actorId) rs_active now None);
  invalidateReports ;;
  ana_audit "saved_report" (Some (svr_id report)) "create" (Some actorId) ;;
  mret (svr_id report, svr_code report).

Definition SAVED_REPORT_NOT_FOUND : exn := AppException NOT_FOUND "Saved report not found" 404.

Definition find_saved (id : string) : M (St Db) SavedReport :=
  report ← db_findFirst T_SavedReport (λ r, String.eqb (svr_id r) id && live (svr_deleted_at r));
  require_ report SAVED_REPORT_NOT_FOUND.

Definition createSchedule (actorId : string) (input : ScheduleInput) : M (St Db) (string * string) :=
  report ← find_saved (sc_savedReportId input);
  now ← Date_now;
  schedule ← db_create T_ScheduledReport (λ id, mkScheduledReport id (svr_id report)
               (sc_cronExpression input) (coalesce (sc_timezone input) "Asia/Kolkata")
               (option_map (λ l, JArr (map JStr l)) (sc_recipients input)) (Some now) None);
  ana_audit "scheduled_report" (Some (shr_id schedule)) "create" (Some actorId) ;;
  mret (shr_id schedule, svr_id report).

(** [(report.query_json ?? {}).domain ?? fallback] *)
Definition query_domain (r : SavedReport) (fallback : string) : string :=
  match svr_query_json r ≫= jget "domain" with
  | None | Some JNull => fallback
  | Some j => js_String j
  end.

Definition rows_of {A} (m : M (St Db) (list A)) (f : A → Row) : M (St Db) (list ReportRow) :=
  rows ← m; mret (map (λ r, rr_row (f r)) rows).

Definition resolveReportData (savedReportId : option string) : M (St Db) (list ReportRow) :=
  if negb (truthy_str savedReportId) then rows_of (kpi_list pd_daily) id
  else
    report ← find_saved (coalesce savedReportId "");
    match svr_report_type report with
    | "funnel" => j ← funnels; mret [rr_value j]
    | "cohort" => rows_of cohorts id
    | "ltv" => rows_of (ltv 100) id
    | "rfm" => rows_of (rfm 200) rfm_row
    | "trends" => rows_of (trends (query_domain report "sales") pd_daily 30) id
    | "kpi" => rows_of (kpi_list pd_daily) id
    | "audit" => logs ← db_findMany T_AuditLog (λ _, true);
                 mret (map rr_row (take 500 (audit_trail logs)))
    | type => rows_of (trends (query_domain report type) pd_daily 30) id
    end.

Definition report_json (r : ReportRow) : Json :=
  match r with rr_row r => row_json r | rr_value j => j end.

Definition export_format (f : option ReportFormat) : ReportExportFormat :=
  match f with Some rf_xlsx => xf_xlsx | Some rf_pdf => xf_pdf | _ => xf_csv end.

Definition export_job (exportId : string) (savedReportId : option string) (format : ReportExportFormat)
  (actorId : option string) : Job :=
  mkJob QUEUE_ANALYTICS ANALYTICS_JOBS.EXPORT
    (JObj ([("exportId", JStr exportId)] ++ jopt "savedReportId" savedReportId
           ++ [("format", JStr (ReportExportFormat_text format))] ++ jopt "actorId" actorId)).

Definition enqueueGenerate (actorId : option string) (input : GenerateInput) : M (St Db) Json :=
  match gi_format input with
  | Some rf_json =>
      data ← resolveReportData (gi_savedReportId input);
      mret (JObj [("format", JStr "json"); ("status", JStr "completed"); ("data", JArr (map report_json data))])
  | f =>
      let format := export_format f in
      exportRow ← db_create T_ReportExport (λ id, mkReportExport id (gi_savedReportId input) format
                    xs_queued None None None None actorId None);
      enqueue (export_job (rex_id exportRow) (gi_savedReportId input) format actorId) ;;
      mret (JObj [("exportId", JStr (rex_id exportRow)); ("status", JStr "queued");
                  ("format", JStr (ReportExportFormat_text format))])
  end.

Definition render (format : ReportExportFormat) (rows : list ReportRow) : M (St Db) string :=
  let flat := flattenRows rows in
  match format with
  | xf_csv => mret (rowsToCsv flat)
  | xf_xlsx => mret (rowsToXlsxXml flat)
  | xf_pdf => rowsToPdfText flat
  end.

Definition export_mime (f : ReportExportFormat) : string :=
  match f with
  | xf_csv => "text/csv"
  | xf_xlsx => "application/vnd.openxmlformats-officedocument.spreadsheetml.sheet"
  | xf_pdf => "application/pdf"
  end.
Definition export_ext (f : ReportExportFormat) : string :=
  match f with xf_xlsx => "xml" | xf_pdf => "txt" | xf_csv => "csv" end.

Definition set_export (status : ReportExportStatus) (media : option string) (rows : option Z)
  (error : option string) (completed : option Z) (r : ReportExport) : ReportExport :=
  mkReportExport (rex_id r) (rex_saved_report_id r) (rex_export_format r) status (keep media (rex_media_file_id r))
    (keep rows (rex_row_count r)) (keep error (rex_error_message r)) (keep completed (rex_completed_at r))
    (rex_requested_by r) (rex_deleted_at r).

(** The [try] block of [processExport]. *)
Definition export_body (job : ExportJob) : M (St Db) (string * string) :=
  rows ← resolveReportData (xj_savedReportId job);
  body ← render (xj_format job) rows;
  let mime := export_mime (xj_format job) in
  let objectKey := "analytics/exports/" +:+ xj_exportId job +:+ "." +:+ export_ext (xj_format job) in
  let bucket := coalesce storage_bucket "local" in
  let size := Z.of_nat (String.length body) in
  gateway (storage_put objectKey mime (body_text body)) ;;
  media ← db_create T_MediaFile (λ id, mkMediaFile id bucket objectKey mime size None mk_document
            (Some ("export-" +:+ xj_exportId job +:+ "." +:+ ReportExportFormat_text (xj_format job)))
            rs_active None);
  now ← Date_now;
  _ ← db_update T_ReportExport (xj_exportId job)
        (set_export xs_completed (Some (kmf_id media)) (Some (Z.of_nat (length rows))) None (Some now));
  emit (AnalyticsExportCompletedEvent (xj_exportId job) (ReportExportFormat_text (xj_format job)) "completed") ;;
  when_ (truthy_str (xj_savedReportId job))
    (emit (AnalyticsReportGeneratedEvent (coalesce (xj_savedReportId job) "") (xj_exportId job))) ;;
  ana_audit "report_export" (Some (xj_exportId job)) "export_completed" (xj_actorId job) ;;
  mret (xj_exportId job, "completed").

Definition export_failed (job : ExportJob) (err : exn) : M (St Db) (string * string) :=
  _ ← db_update T_ReportExport (xj_exportId job) (set_export xs_failed None None (Some (errMsg err)) None);
  emit (AnalyticsExportCompletedEvent (xj_exportId job) (ReportExportFormat_text (xj_format job)) "failed") ;;
  throw err.

Definition processExport (job : ExportJob) : M (St Db) (string * string) :=
  LockService.withLock (LockService.resourceKey ["analytics"; "export"; xj_exportId job])
    (_ ← db_update T_ReportExport (xj_exportId job) (set_export xs_processing None None None None);
     try_catch (export_body job) (export_failed job)) (ttl_only 120000).

(** ** AnalyticsWorker *)

(** A text property of the job's data. *)
Definition job_text (k : string) (data : Json) : option string :=
  match jget k data with Some (JStr s) => Some s | _ => None end.

Definition analytics_process (name : string) (data : Json) : M (St Db) () :=
  if String.eqb name ANALYTICS_JOBS.KPI_REFRESH then
    _ ← computeFromDomainTables (job_text "domain" data); mret tt
  else if String.eqb name ANALYTICS_JOBS.EXPORT || String.eqb name ANALYTICS_JOBS.REPORT_GENERATE then
    match non_empty (coalesce (job_text "exportId" data) ""), job_text "format" data ≫= format_of_text with
    | Some exportId, Some format =>
        _ ← processExport (mkExportJob exportId (job_text "savedReportId" data) format (job_text "actorId" data));
        mret tt
    | _, _ => mret tt
    end
  else if String.eqb name ANALYTICS_JOBS.DASHBOARD_REFRESH then
    invalidateDashboards (job_text "code" data) ;;
    _ ← getDashboard (coalesce (job_text "code" data) "executive"); mret tt
  else if String.eqb name ANALYTICS_JOBS.TREND_CALC then
    invalidateTrends (coalesce (job_text "domain" data) "sales") ;;
    _ ← trends (coalesce (job_text "domain" data) "sales") pd_daily 30; mret tt
  else if String.eqb name ANALYTICS_JOBS.SNAPSHOT then
    _ ← computeFromDomainTables None; mret tt
  else if String.eqb name ANALYTICS_JOBS.ALERT_EVAL then
    facts ← match option_map fact_of_json (jget "facts" data) with
            | None | Some FNull => buildFactsFromMetrics
            | Some (FObj fs) => mret fs
            | Some _ => mret []
            end;
    _ ← evaluateAll facts; mret tt
  else mret tt.
End service.
