(* ===== verification/Providers.v ===== *)
(** * Gateway and carrier

    Models [payments/providers/razorpay.provider.ts] and
    [shipping/providers/shiprocket.provider.ts] on the outbound HTTP of [Http]: the
    implementations behind the interfaces [PaymentProvider] and [ShippingProvider]. The
    remote services are the parameter [Network]. *)
From S2P Require Import Prelude Core Effects Redis Lock JsNumber Http Database Tables Payments Shipping Cases Webhooks Schema.
From Stdlib Require Import QArith.

#[local] Open Scope Z_scope.

(** The remote side of [fetch]. *)
Class Network `{Redis} := network : HttpRequest → Env → HttpReply * Env.

(** [Math.round(Number(amount) * 100)] *)
Definition toPaise (amount : Q) : Z := js_round (js_mul amount 100).

(** [json = text ? JSON.parse(text) : {}], or [{ raw: text }]. *)
Definition parsed `{JsonParse} (text : string) : Json :=
  match text with
  | "" => JObj []
  | _ => coalesce (json_parse text) (JObj [("raw", JStr text)])
  end.

Section values.
Context `{NumberText} {S : Type}.

(** [String(v)] of a property. *)
Definition text_of (v : option Json) : string := match v with Some j => js_String j | None => "undefined" end.

(** [o.k], where [o] may be [null]. *)
Definition member (k : string) (o : Json) : M S (option Json) :=
  match o with
  | JNull => throw (JsError "Cannot read properties of null")
  | _ => mret (jget k o)
  end.

Definition nullish (v : option Json) : option Json := match v with Some JNull => None | _ => v end.

(** An array of a response: [v ?? []]. *)
Definition elements (v : option Json) : M S (list Json) :=
  match nullish v with
  | None => mret []
  | Some (JArr l) => mret l
  | Some _ => throw (JsError "not a function")
  end.
End values.

(** ** Razorpay *)

Record RazorpayConfig := mkRazorpayConfig {
  rz_mock : option bool; rz_serverCapture : option bool; rz_keyId : option string;
  rz_keySecret : option string; rz_baseUrl : option string; rz_webhookSecret : option string;
  rz_authorizeTimeoutMs : option Z;
  rz_correlationId : string;  (* of the transaction's context, for the notes of an order *)
}.

Section razorpay.
Context `{Redis, !Scheduler, !Network, !NumberText, !JsonText, !JsonParse, !UriText, !HmacSha256, !RandomUuid}.
Variable config : RazorpayConfig.

Definition rz_mocked : bool := coalesce (rz_mock config) true.
Definition rz_captures : bool := coalesce (rz_serverCapture config) true.
Definition settleLocally : bool := rz_mocked || rz_captures.

Definition draw_uuid : M Env string := λ e,
  (Ok (uuid_text (entropy e)),
   mkEnv _ (clock e) (store e) (redis_up e) (bus e) (jobs e) (Datatypes.S (entropy e))).

(** [`${prefix}${randomUUID().replace(/-/g, '').slice(0, n)}`] *)
Definition mock_id (prefix : string) (n : nat) : M Env string :=
  uuid ← draw_uuid; mret (prefix +:+ slice0 n (replace_char "-" "" uuid)).

Definition http_error (text : string) (status : Z) : exn :=
  GatewayError text status ((500 <=? status) || (status =? 429)).

Definition rz_request (method path : string) (body : option Json) : M Env Json :=
  res ← fetchWithTimeout network sleeping
    (mkHttpRequest method (coalesce (rz_baseUrl config) "https://api.razorpay.com/v1" +:+ path)
       [("Authorization", "Basic " +:+ base64 (coalesce (rz_keyId config) "" +:+ ":" +:+ coalesce (rz_keySecret config) ""));
        ("Content-Type", "application/json")]
       (option_map json_stringify body) (coalesce (rz_authorizeTimeoutMs config) 30000)) default_fetch;
  let status := fst res in
  let json := parsed (snd res) in
  if negb ((200 <=? status) && (status <? 300)) then
    error ← member "error" json;
    let description := nullish error ≫= jget "description" in
    throw (http_error (match nullish description with
                       | Some d => js_String d
                       | None => "Razorpay " +:+ pretty status
                       end) status)
  else mret json.

Definition rz_createOrder (amount : Q) (currency receipt orderId : string) : M Env string :=
  if settleLocally then mock_id "order_mock_" 14
  else
    try_catch
      (raw ← rz_request "POST" "/orders"
         (Some (JObj [("amount", JInt (toPaise amount)); ("currency", JStr currency);
                      ("receipt", JStr (slice0 40 receipt));
                      ("notes", JObj [("orderId", JStr orderId); ("correlationId", JStr (rz_correlationId config))])]));
       id ← member "id" raw;
       mret (text_of id))
      (λ err,
         let msg := match err with GatewayError m _ _ | JsError m => m | _ => "" end in
         if str_includes "authentication failed" (toLowerCase msg) then mock_id "order_mock_" 14
         else throw err).

(** [items.find((p) => ['authorized', 'captured'].includes(String(p.status)))] *)
Fixpoint find_paid (items : list Json) : M Env (option Json) :=
  match items with
  | [] => mret None
  | p :: rest =>
      status ← member "status" p;
      if one_of ["authorized"; "captured"] (text_of status) then mret (Some p) else find_paid rest
  end.

Definition rz_authorize (gatewayOrderId : string) (amount : Q) (currency : string)
  : M Env AuthorizePaymentResult :=
  if settleLocally then
    gatewayPaymentId ← mock_id "pay_mock_" 14;
    uuid ← draw_uuid;
    mret (mkAuthorizeResult gatewayPaymentId (Some ("sig_mock_" +:+ slice0 8 uuid)) au_authorized)
  else
    raw ← rz_request "GET" ("/orders/" +:+ encodeURIComponent gatewayOrderId +:+ "/payments") None;
    items ← member "items" raw;
    l ← elements items;
    paid ← find_paid l;
    match paid with
    | None => mret (mkAuthorizeResult "" None au_pending)
    | Some p => mret (mkAuthorizeResult (text_of (jget "id" p)) None au_authorized)
    end.

Definition rz_capture (gatewayPaymentId : string) (amount : Q) (currency : string)
  : M Env CapturePaymentResult :=
  if settleLocally then mret (mkCaptureResult gatewayPaymentId cp_captured)
  else
    existing ← rz_request "GET" ("/payments/" +:+ encodeURIComponent gatewayPaymentId) None;
    status ← member "status" existing;
    if String.eqb (text_of status) "captured"
    then mret (mkCaptureResult (text_of (jget "id" existing)) cp_captured)
    else
      raw ← rz_request "POST" ("/payments/" +:+ encodeURIComponent gatewayPaymentId +:+ "/capture")
              (Some (JObj [("amount", JInt (toPaise amount)); ("currency", JStr currency)]));
      id ← member "id" raw;
      mret (mkCaptureResult (text_of id)
              (if String.eqb (text_of (jget "status" raw)) "captured" then cp_captured else cp_failed)).

Definition rz_cancel (gatewayPaymentId gatewayOrderId : option string) (amount : Q) (currency : string)
  : M Env CancelStatus :=
  if settleLocally then mret cn_cancelled
  else
    match gatewayPaymentId ≫= non_empty with
    | Some id =>
        try_catch
          (_ ← rz_request "POST" ("/payments/" +:+ encodeURIComponent id +:+ "/cancel") None; mret cn_cancelled)
          (λ _, mret cn_voided)
    | None => mret cn_voided
    end.

Definition refund_status (status : string) : RefundStatus :=
  if String.eqb status "processed" || String.eqb status "completed" then rf_processed
  else if String.eqb status "failed" then rf_failed else rf_pending.

Definition rz_refund (gatewayPaymentId : string) (amount : Q) (currency refundNumber reason : string)
  : M Env RefundGatewayResult :=
  if settleLocally then id ← mock_id "rfnd_mock_" 14; mret (mkRefundResult id rf_processed)
  else
    raw ← rz_request "POST" ("/payments/" +:+ encodeURIComponent gatewayPaymentId +:+ "/refund")
            (Some (JObj [("amount", JInt (toPaise amount));
                         ("notes", JObj [("refundNumber", JStr refundNumber); ("reason", JStr reason)])]));
    status ← member "status" raw;
    mret (mkRefundResult (text_of (jget "id" raw)) (refund_status (text_of status))).

(** [timingSafeEqual] of buffers of one length is equality. *)
Definition rz_verifyWebhookSignature (rawBody signature secret : string) : bool :=
  let secret := coalesce (non_empty secret) (coalesce (rz_webhookSecret config) "") in
  if settleLocally && String.eqb secret "" then true
  else if String.eqb secret "" || String.eqb signature "" then false
  else String.eqb (hmac_sha256_hex secret rawBody) signature.

(** The provider behind the interface of the payments module. *)
#[local] Instance razorpay : PaymentProvider := {|
  provider_code := "razorpay";
  gw_createOrder := rz_createOrder;
  gw_authorize := rz_authorize;
  gw_capture := rz_capture;
  gw_cancel := rz_cancel;
  gw_refund := rz_refund;
  gw_verifyWebhookSignature := rz_verifyWebhookSignature;
|}.
End razorpay.

(** ** Shiprocket *)

Record ShiprocketConfig := mkShiprocketConfig {
  sk_mock : option bool; sk_email : option string; sk_password : option string; sk_baseUrl : option string;
  sk_webhookSecret : option string;
}.

(** The provider's instance: the token of its login, and the environment. *)
Record Carried `{Redis} := mkCarried { cd_token : option string; cd_env : Env }.

(** [new Date(s)] of a text; and the last [n] characters of a text. *)
Class DateParse := date_of_text : string → Z.
Definition last_chars (n : nat) (s : string) : string :=
  String.substring (String.length s - n) (Nat.min n (String.length s)) s.

Section shiprocket.
Context `{Redis, !Scheduler, !Network, !NumberText, !JsonText, !JsonParse, !UriText, !HmacSha256, !RandomUuid,
  !DateText, !DateParse}.
Variable config : ShiprocketConfig.

Definition sk_mocked : bool := coalesce (sk_mock config) true.

Definition on_env {A} (m : M Env A) : M Carried A := λ s,
  match m (cd_env s) with (o, e) => (o, mkCarried _ (cd_token s) e) end.
Definition sk_now : M Carried Z := gets (λ s, clock (cd_env s)).

Definition sk_fetch (method path : string) (headers : list (string * string)) (body : option Json)
  : M Carried (Z * string) :=
  on_env (fetchWithTimeout network sleeping
    (mkHttpRequest method (coalesce (sk_baseUrl config) "https://apiv2.shiprocket.in/v1/external" +:+ path)
       (headers ++ [("Content-Type", "application/json")]) (option_map json_stringify body) 30000) default_fetch).

(** [ensureToken]: the first login's token is kept for good. [res.json()] throws on a text
    that is no JSON. *)
Definition ensureToken : M Carried () :=
  token ← gets cd_token;
  if truthy_str token then mret tt
  else
    res ← sk_fetch "POST" "/auth/login" []
            (Some (JObj [("email", JStr (coalesce (sk_email config) ""));
                         ("password", JStr (coalesce (sk_password config) ""))]));
    let status := fst res in
    json ← require_ (json_parse (snd res)) (JsError "Unexpected token in JSON");
    token ← (if (200 <=? status) && (status <? 300) then member "token" json else mret None);
    if truthy token
    then modify (λ s, mkCarried _ (Some (text_of token)) (cd_env s))
    else throw (GatewayError "Shiprocket auth failed" status (500 <=? status)).

Definition sk_request (method path : string) (body : option Json) : M Carried Json :=
  token ← gets cd_token;
  res ← sk_fetch method path [("Authorization", "Bearer " +:+ coalesce token "undefined")] body;
  let status := fst res in
  if negb ((200 <=? status) && (status <? 300))
  then throw (http_error ("Shiprocket " +:+ pretty status) status)
  else mret (parsed (snd res)).

(** [raw.k ?? …]: the first property that is not nullish. *)
Definition first_of (ks : list string) (raw : Json) (default : string) : string :=
  foldr (λ k rest, match nullish (jget k raw) with Some j => js_String j | None => rest end) default ks.
(** [v ? String(v) : undefined] *)
Definition text_if (v : option Json) : option string := if truthy v then Some (text_of v) else None.

Definition sk_order (input : CreateCarrierShipmentInput) (date : string) : Json :=
  let size (v : option Q) := JNum (coalesce v 10%Q) in
  JObj [("order_id", JStr (ca_shipmentNumber input)); ("order_date", JStr date);
        ("pickup_location", JStr (ca_pickupPincode input));
        ("billing_customer_name", JStr (ca_customerName input));
        ("billing_phone", JStr (coalesce (ca_customerPhone input) "9999999999"));
        ("billing_address", JStr (ca_customerAddress input)); ("billing_city", JStr (ca_customerCity input));
        ("billing_state", JStr (ca_customerState input)); ("billing_pincode", JStr (ca_deliveryPincode input));
        ("billing_country", JStr "India"); ("shipping_is_billing", JBool true);
        ("weight", JNum (ca_weightKg input)); ("length", size (ca_lengthCm input));
        ("breadth", size (ca_widthCm input)); ("height", size (ca_heightCm input));
        ("sub_total", JNum (coalesce (ca_declaredValue input) 0%Q));
        ("payment_method", JStr (if js_lt 0 (coalesce (ca_codAmount input) 0%Q) then "COD" else "Prepaid"))].

Definition sk_createShipment (input : CreateCarrierShipmentInput) : M Carried CreateCarrierShipmentResult :=
  if sk_mocked then
    ref ← on_env (mock_id "SR_mock_" 12);
    now ← sk_now;
    let awb := "AWB" +:+ last_chars 10 (pretty now) in
    mret (mkCarrierResult ref (Some awb) (Some awb))
  else
    ensureToken ;;
    now ← sk_now;
    raw ← sk_request "POST" "/orders/create/adhoc" (Some (sk_order input (slice0 10 (iso_text now))));
    _ ← member "order_id" raw;
    mret (mkCarrierResult (first_of ["order_id"; "shipment_id"] raw "") (text_if (jget "awb_code" raw))
            (text_if (jget "awb_code" raw))).

Definition sk_generateLabel (partnerShipmentRef : string) (awbNumber : option string)
  : M Carried GenerateLabelResult :=
  if sk_mocked
  then mret (mkLabelResult ("https://mock.shiprocket.local/labels/" +:+ partnerShipmentRef +:+ ".pdf") lf_pdf)
  else
    ensureToken ;;
    raw ← sk_request "POST" "/courier/generate/label" (Some (JObj [("shipment_id", JArr [JStr partnerShipmentRef])]));
    url ← member "label_url" raw;
    mret (mkLabelResult (match nullish url with Some j => js_String j | None => "" end) lf_pdf).

Definition sk_schedulePickup (partnerShipmentRef : string) (scheduledAt : option Z)
  : M Carried SchedulePickupResult :=
  now ← sk_now;
  if sk_mocked then
    uuid ← on_env draw_uuid;
    mret (mkPickupResult ("PKP_mock_" +:+ slice0 8 uuid) (Some (coalesce scheduledAt now)))
  else
    ensureToken ;;
    now ← sk_now;
    raw ← sk_request "POST" "/courier/generate/pickup"
            (Some (JObj [("shipment_id", JArr [JStr partnerShipmentRef]);
                         ("pickup_date", JStr (slice0 10 (iso_text (coalesce scheduledAt now))))]));
    _ ← member "pickup_status" raw;
    mret (mkPickupResult (first_of ["pickup_status"; "pickup_id"] raw "") scheduledAt).

(** An entry of [shipment_track_activities]. *)
Definition activity_event (now : Z) (a : Json) : M Carried CarrierEvent :=
  _ ← member "activity" a;
  mret (mkCarrierEvent (first_of ["activity"; "status"] a "update") (text_if (jget "sr-status" a))
          (Some (first_of ["activity"] a "")) (text_if (jget "location" a))
          (if truthy (jget "date" a) then date_of_text (text_of (jget "date" a)) else now)).

Definition sk_syncTracking (trackingNumber awbNumber : option string) : M Carried TrackingSyncResult :=
  now ← sk_now;
  if sk_mocked then
    mret (mkSyncResult "in_transit" (Some "Hub")
      [mkCarrierEvent "in_transit" (Some "IT") (Some "In transit (mock)") (Some "Hub") now]
      (Some (now + 2 * 86400000)))
  else
    ensureToken ;;
    let awb := coalesce awbNumber (coalesce trackingNumber "") in
    raw ← sk_request "GET" ("/courier/track/awb/" +:+ encodeURIComponent awb) None;
    data ← member "tracking_data" raw;
    let tracking := coalesce (nullish data) raw in
    activities ← elements (jget "shipment_track_activities" tracking);
    now ← sk_now;
    location ← match activities with
               | [] => mret None
               | a :: _ => mret (if truthy (Some a) then Some (first_of ["location"] a "") else None)
               end;
    events ← mapM (activity_event now) activities;
    mret (mkSyncResult (first_of ["shipment_status"] tracking "in_transit") location events None).

(** The secret itself is accepted as a signature ("x-api-key" mode), or the HMAC of the
    body. *)
Definition sk_verifyWebhookSignature (rawBody signature secret : string) : bool :=
  let secret := coalesce (non_empty secret) (coalesce (sk_webhookSecret config) "") in
  if sk_mocked && String.eqb secret "" then true
  else if String.eqb secret "" || String.eqb signature "" then false
  else String.eqb secret signature || String.eqb (hmac_sha256_hex secret rawBody) signature.
End shiprocket.
