(* ===== verification/ProviderRules.v ===== *)
(** * Rules of the gateway and the carrier

    What the providers guarantee: the amount sent to the gateway is the amount in the
    books to the paisa although it passes through binary64; a webhook is believed only
    when it is signed; a payment that the gateway has captured is not captured again.
    The examples show what they do not. *)
From S2P Require Import Prelude Core Effects Redis Lock JsNumber Http Database Tables Payments Shipping Cases Webhooks Sample Schema Providers.
From Stdlib Require Import QArith Qabs Qround Lqa.

#[local] Open Scope Z_scope.

(** ** Amounts *)

Lemma js_round_near x z : (Qabs (x - inject_Z z) < 1 # 2)%Q → js_round x = z.
Proof.
  intros Hx. apply Qabs_Qlt_condition in Hx as [L U]. unfold js_round.
  assert (z <= Qfloor (x + (1 # 2))) as A.
  { rewrite <- (Qfloor_Z z). apply Qfloor_resp_le. lra. }
  assert (Qfloor (x + (1 # 2)) < z + 1) as B; [|lia].
  rewrite Zlt_Qlt. eapply Qle_lt_trans; [apply Qfloor_le|]. rewrite inject_Z_plus.
  change (inject_Z 1) with 1%Q. lra.
Qed.

(** (C26) The amount that goes to the gateway is exact: for every amount that the columns of money
    can hold, the paise computed from the binary64 number of rupees are the hundredths
    stored. *)
Theorem paise_exact (c : Z) : Z.abs c < 10 ^ 14 → toPaise (cents c) = c.
Proof.
  intros Hc. unfold toPaise. apply js_round_near.
  assert (- 100000000000000 <= inject_Z c <= 100000000000000)%Q as Bc.
  { split; [change (- 100000000000000)%Q with (inject_Z (- 100000000000000))
           |change 100000000000000%Q with (inject_Z 100000000000000)]; rewrite <- Zle_Qle; lia. }
  unfold cents, js_mul. set (x := (inject_Z c / 100)%Q).
  assert (x == inject_Z c * (1 # 100))%Q as Ex by (unfold x; field).
  destruct (fl_error_bound 1000000000000 x) as [A1 A2].
  { change (inject_Z 1000000000000) with 1000000000000%Q. apply Qabs_Qle_condition. rewrite Ex. lra. }
  change (inject_Z 1000000000000 / inject_Z (2 ^ 53))%Q with (1000000000000 # 9007199254740992)%Q in A1, A2.
  set (a := fl x) in *.
  destruct (fl_error_bound 100000000000001 (a * 100)) as [B1 B2].
  { change (inject_Z 100000000000001) with 100000000000001%Q. apply Qabs_Qle_condition. rewrite Ex in *. lra. }
  change (inject_Z 100000000000001 / inject_Z (2 ^ 53))%Q with (100000000000001 # 9007199254740992)%Q in B1, B2.
  apply Qabs_Qlt_condition. rewrite Ex in *. lra.
Qed.

Lemma paise_exact_witness : toPaise (cents 99999999999999) = 99999999999999.
Proof. apply (paise_exact 99999999999999). reflexivity. Defined.

Section razorpay.
Context `{Redis, !Scheduler, !Network, !NumberText, !JsonText, !JsonParse, !UriText, !HmacSha256, !RandomUuid}.
Variable config : RazorpayConfig.

(** The secret that a webhook is checked with. *)
Definition webhook_secret (secret : string) : string :=
  coalesce (non_empty secret) (coalesce (rz_webhookSecret config) "").

(** A webhook of the gateway is believed exactly when its signature is the HMAC of the raw
    body under the secret of the gateway's row or of the configuration, or when no secret is
    known and payments are settled locally. *)
Theorem webhook_believed (rawBody signature secret : string) :
  rz_verifyWebhookSignature config rawBody signature secret = true
  ↔ (webhook_secret secret = "" ∧ settleLocally config = true)
    ∨ (webhook_secret secret ≠ "" ∧ signature ≠ ""
       ∧ signature = hmac_sha256_hex (webhook_secret secret) rawBody).
Proof.
  unfold rz_verifyWebhookSignature. fold (webhook_secret secret).
  destruct (String.eqb_spec (webhook_secret secret) "") as [E|N].
  - rewrite andb_true_r. simpl. destruct (settleLocally config); naive_solver.
  - rewrite andb_false_r. simpl. destruct (String.eqb_spec signature "") as [->|Ns]; [naive_solver|].
    destruct (String.eqb_spec (hmac_sha256_hex (webhook_secret secret) rawBody) signature); naive_solver.
Qed.

(** The request that asks for a payment. *)
Definition payment_request (gatewayPaymentId : string) : HttpRequest :=
  mkHttpRequest "GET"
    (coalesce (rz_baseUrl config) "https://api.razorpay.com/v1" +:+ "/payments/"
     +:+ encodeURIComponent gatewayPaymentId)
    [("Authorization", "Basic " +:+ base64 (coalesce (rz_keyId config) "" +:+ ":" +:+ coalesce (rz_keySecret config) ""));
     ("Content-Type", "application/json")] None (coalesce (rz_authorizeTimeoutMs config) 30000).

(** A payment is not captured twice: when the gateway answers that the payment is captured,
    that question is all that is sent, and the capture is reported with the gateway's id. *)
Theorem captured_once (gatewayPaymentId currency id text : string) (amount : Q) (e e' : Env) (j : Json) :
  settleLocally config = false →
  network (payment_request gatewayPaymentId) e = (http_response 200 text, e') →
  text ≠ "" → json_parse text = Some j → j ≠ JNull →
  jget "status" j = Some (JStr "captured") → jget "id" j = Some (JStr id) →
  rz_capture config gatewayPaymentId amount currency e = (Ok (mkCaptureResult id cp_captured), e').
Proof.
  intros El En Ht Ej Nj Es Ei. unfold rz_capture. rewrite El.
  assert (rz_request config "GET" ("/payments/" +:+ encodeURIComponent gatewayPaymentId) None e = (Ok j, e')) as Er.
  { unfold rz_request, mbind, M_bind, fetchWithTimeout.
    change (fetch_attempts default_fetch - 1)%nat with 2%nat. cbn [fetch_loop]. cbn [option_map].
    match goal with |- context [network ?q e] => change q with (payment_request gatewayPaymentId) end.
    rewrite En. cbn [transient reply_result].
    cbn. unfold parsed. rewrite Ej. by destruct text. }
  unfold mbind, M_bind. rewrite Er. destruct j; try done; unfold member, mret, M_ret; rewrite Es, Ei; done.
Qed.
End razorpay.

(** ** Runs *)
Section runs.
#[local] Existing Instances gmap_redis counting_crypto.
#[local] Instance number0 : NumberText := λ q, pretty (Qnum q / Zpos (Qden q)).
#[local] Instance text0 : JsonText := λ _, "{}".
(** A gateway that knows one captured payment, and otherwise does what it is asked but
    whose answers are lost; its requests are recorded as events. *)
#[local] Instance parse0 : JsonParse :=
  λ s, if String.eqb s "captured" then Some (JObj [("id", JStr "pay_1"); ("status", JStr "captured")]) else None.
#[local] Instance network0 : Network := λ req e,
  ((if String.eqb (hr_method req) "GET" then http_response 200 "captured" else http_failure "timeout"),
   mkEnv _ (clock e) (store e) (redis_up e) (bus e ++ [mkEvent (hr_method req +:+ " " +:+ hr_url req) JNull]) (jobs e)
     (entropy e)).
#[local] Instance uri0 : UriText := {| encodeURIComponent s := s; base64 s := s |}.
#[local] Instance hmac0 : HmacSha256 := λ k s, k +:+ s.
#[local] Instance uuid0 : RandomUuid := λ n, "00000000-0000-0000-0000-" +:+ pretty n.
Definition live_config : RazorpayConfig :=
  mkRazorpayConfig (Some false) (Some false) None None (Some "") None None "".
Definition default_config : RazorpayConfig := mkRazorpayConfig None None None None None None None "".

Lemma captured_once_witness :
  fst (rz_capture live_config "pay_1" 100 "INR" (env sample)) = Ok (mkCaptureResult "pay_1" cp_captured).
Proof.
  refine (f_equal fst (captured_once live_config "pay_1" "INR" "pay_1" "captured" 100 (env sample) _
    (JObj [("id", JStr "pay_1"); ("status", JStr "captured")]) _ _ _ _ _ _ _)).
  all: first [done|reflexivity].
Defined.

(** A refund whose answers are lost is sent three times, without a key that would tell the
    gateway that it is one refund. *)
Example refund_sent_thrice :
  let r := rz_refund live_config "pay_1" 100 "INR" "RF-1" "late" (env sample) in
  fst r = Throw (JsError "timeout")
  ∧ map eventName (bus (snd r)) = repeat "POST /payments/pay_1/refund" 3.
Proof. vm_compute. done. Qed.

(** Without configuration a capture is reported for any payment, and any webhook believed. *)
Example unconfigured :
  fst (rz_capture default_config "no such payment" 100 "INR" (env sample))
    = Ok (mkCaptureResult "no such payment" cp_captured)
  ∧ rz_verifyWebhookSignature default_config "anything" "" "" = true.
Proof. vm_compute. done. Qed.

(** The carrier's webhook accepts the secret itself as a signature. *)
Example secret_is_signature :
  sk_verifyWebhookSignature (mkShiprocketConfig (Some false) None None None (Some "key")) "anything" "key" "" = true.
Proof. reflexivity. Qed.
End runs.
