(* ===== verification/AnalyticsRules.v ===== *)
(** * Rules of analytics

    What the analytics module guarantees: an exported table can be read back; an alert
    does not fire again before its cooldown is over; a delivered export is in the
    storage. [computed_once] and the examples show where it falls short: the scorecards
    of a day cannot be refreshed. *)
From S2P Require Import Prelude Core Effects Redis Lock JsNumber Rules Database Instant Tables Sample Payments Coupons Growth CatalogStores Carrier Catalog CatalogRules WarrantyStores Webhooks Schema Insights Analytics Reports.
From Stdlib Require Import QArith.

#[local] Open Scope Z_scope.

(** ** Reading CSV

    A reader of comma-separated values in the manner of RFC 4180: a field may be quoted,
    and a doubled quote inside it stands for a quote. *)

Inductive CsvState := csv_start | csv_plain | csv_quoted | csv_closing.

Fixpoint csv_go (st : CsvState) (field : string) (line : list string) (s : string) : list (list string) :=
  match s with
  | "" => [line ++ [field]]
  | String c rest =>
      let append st := csv_go st (field +:+ String c "") line rest in
      let next := csv_go csv_start "" (line ++ [field]) rest in
      let newline := (line ++ [field]) :: csv_go csv_start "" [] rest in
      match st with
      | csv_quoted => if Ascii.eqb c quote_char then csv_go csv_closing field line rest else append csv_quoted
      | _ =>
          if Ascii.eqb c "," then next
          else if Ascii.eqb c newline_char then newline
          else if Ascii.eqb c quote_char
               then match st with
                    | csv_start => csv_go csv_quoted field line rest
                    | csv_closing => append csv_quoted
                    | _ => append csv_plain
                    end
               else append csv_plain
      end
  end.

Definition csv_read (s : string) : list (list string) := csv_go csv_start "" [] s.

(** No character of the text is special. *)
Definition plain_char (c : Ascii.ascii) : bool :=
  negb (Ascii.eqb c quote_char) && negb (Ascii.eqb c ",") && negb (Ascii.eqb c newline_char).
Definition plain_text (s : string) : bool := forallb plain_char (String.list_ascii_of_string s).

(** What follows a field. *)
Definition field_ends (k : string) : Prop :=
  match k with "" => True | String c _ => c = ","%char ∨ c = newline_char end.

Definition csv_finish (line : list string) (field k : string) : list (list string) :=
  match k with
  | "" => [line ++ [field]]
  | String c rest => if Ascii.eqb c "," then csv_go csv_start "" (line ++ [field]) rest
                     else (line ++ [field]) :: csv_go csv_start "" [] rest
  end.

Lemma csv_go_finish st field line k : st ≠ csv_quoted → field_ends k →
  csv_go st field line k = csv_finish line field k.
Proof. intros Hst He. destruct k as [|c k]; [done|]. by destruct He as [-> | ->], st. Qed.

Lemma cons_app x s t : String x s +:+ t = String x (s +:+ t).
Proof. done. Qed.

Lemma app_char s c t : (s +:+ String c "") +:+ t = s +:+ String c t.
Proof. induction s as [|x s IH]; [done|]. by rewrite !cons_app, IH. Qed.

Lemma app_empty s : s +:+ "" = s.
Proof. induction s as [|x s IH]; [done|]. by rewrite cons_app, IH. Qed.

Lemma app_texts r s t : (r +:+ s) +:+ t = r +:+ (s +:+ t).
Proof. induction r as [|x r IH]; [done|]. by rewrite !cons_app, IH. Qed.

Lemma csv_go_plain st s field line k : st ≠ csv_quoted → plain_text s = true → field_ends k →
  csv_go st field line (s +:+ k) = csv_finish line (field +:+ s) k.
Proof.
  intros Hst Hs He. revert st Hst field. induction s as [|c s IH]; intros st Hst field.
  - rewrite csv_go_finish by done. by rewrite app_empty.
  - unfold plain_text in Hs. simpl in Hs. apply andb_true_iff in Hs as [Hc Hs].
    unfold plain_char in Hc. rewrite !andb_true_iff, !negb_true_iff in Hc. destruct Hc as [[Hq Hc] Hn].
    simpl. rewrite Hq, Hc, Hn.
    destruct st; try done; rewrite IH by done; by rewrite app_char.
Qed.

Lemma csv_go_quoted s field line k : field_ends k →
  csv_go csv_quoted field line (replace_char quote_char (quote_ +:+ quote_) s +:+ String quote_char k)
  = csv_finish line (field +:+ s) k.
Proof.
  intros He. revert field. induction s as [|c s IH]; intros field.
  - simpl. rewrite csv_go_finish by done. by rewrite app_empty.
  - simpl replace_char. destruct (Ascii.eqb_spec c quote_char) as [->|Hc].
    + simpl. rewrite IH. by rewrite app_char.
    + apply Ascii.eqb_neq in Hc. simpl. rewrite Hc. rewrite IH. by rewrite app_char.
Qed.

Lemma not_plain s :
  has_char quote_char s || has_char "," s || has_char newline_char s = negb (plain_text s).
Proof.
  unfold has_char, plain_text. induction (String.list_ascii_of_string s) as [|c l IH]; [done|].
  cbn [existsb forallb]. rewrite negb_andb, <- IH. unfold plain_char.
  rewrite !negb_andb, !negb_involutive, !(Ascii.eqb_sym c).
  by destruct (Ascii.eqb quote_char c), (Ascii.eqb "," c), (Ascii.eqb newline_char c),
    (existsb (Ascii.eqb quote_char) l), (existsb (Ascii.eqb ",") l), (existsb (Ascii.eqb newline_char) l).
Qed.

(** A field is read as the text that was escaped. *)
Lemma csv_field s line k : field_ends k →
  csv_go csv_start "" line (escape_csv s +:+ k) = csv_finish line s k.
Proof.
  intros He. unfold escape_csv. rewrite not_plain. destruct (plain_text s) eqn:E; simpl negb; cbv iota.
  - by rewrite csv_go_plain.
  - change (quote_ +:+ ?x) with (String quote_char x). rewrite cons_app. simpl.
    rewrite app_texts. by apply csv_go_quoted.
Qed.

Lemma join_cons sep x l : l ≠ [] → join sep (x :: l) = x +:+ sep +:+ join sep l.
Proof. by destruct l. Qed.

(** A line of fields. *)
Lemma csv_fields l line k : l ≠ [] → k = "" ∨ (∃ k', k = String newline_char k') →
  csv_go csv_start "" line (join "," (map escape_csv l) +:+ k)
  = match k with "" => [line ++ l] | String _ rest => (line ++ l) :: csv_go csv_start "" [] rest end.
Proof.
  intros Hl Hk. revert line. induction l as [|s l IH]; intros line; [done|].
  destruct (decide (l = [])) as [->|N].
  - simpl join. rewrite csv_field by (destruct Hk as [->|[k' ->]]; simpl; auto).
    destruct Hk as [->|[k' ->]]; done.
  - simpl map. rewrite join_cons by (by destruct l). rewrite !app_texts, csv_field by (by left).
    simpl csv_finish. rewrite IH by done. rewrite <- app_assoc. done.
Qed.

Lemma csv_lines ls : ls ≠ [] → Forall (λ l, l ≠ []) ls →
  csv_read (join newline (map (λ l, join "," (map escape_csv l)) ls)) = ls.
Proof.
  intros Hne Hf. unfold csv_read. induction Hf as [|l ls Hl Hf IH]; [done|].
  destruct (decide (ls = [])) as [->|N].
  - simpl join. rewrite <- (app_empty (join _ _)), csv_fields by auto. done.
  - simpl map. rewrite join_cons by (by destruct ls).
    change (newline +:+ ?x) with (String newline_char x).
    rewrite csv_fields by eauto. simpl. by rewrite IH.
Qed.

Section rules.
Context `{Redis, !Scheduler, !Crypto, !Postgres, !JsLibrary, !DateText, !NumberText, !JsonText, !ClientText,
  !CatalogStorage, !AuditTrail}.

(** (C27) An exported table can be read back: a reader of CSV finds the names of the columns and
    under them the texts of the cells, whatever commas, quotes and line breaks they hold,
    when the names themselves hold none. (For this reader a line break is LF; a lone CR
    is part of the text, as it is for the writer.) *)
Theorem csv_reads_back (rows : list Row) :
  keys_of rows ≠ [] → Forall (λ k, plain_text k = true) (keys_of rows) →
  csv_read (rowsToCsv rows)
  = keys_of rows :: map (λ r, map (λ k, cell_text (column k r)) (keys_of rows)) rows.
Proof.
  intros Hk Hp. set (ks := keys_of rows) in *.
  assert (rowsToCsv rows = join newline (map (λ l, join "," (map escape_csv l))
      (ks :: map (λ r, map (λ k, cell_text (column k r)) ks) rows))) as ->.
  { assert (map escape_csv ks = ks) as Ek.
    { clearbody ks. clear Hk. induction Hp as [|k l Hk _ IH]; [done|]. simpl. rewrite IH. f_equal.
      unfold escape_csv. by rewrite not_plain, Hk. }
    destruct rows as [|r rows]; [done|]. unfold rowsToCsv. fold ks.
    rewrite (map_cons _ ks), Ek, map_map. do 2 f_equal. apply map_ext. intros x. unfold csv_line. by rewrite map_map. }
  apply csv_lines; [done|]. constructor; [done|]. apply Forall_forall.
  intros l (r & -> & _)%list_elem_of_fmap. by destruct ks.
Qed.

(** ** Alerts *)

Lemma dwp_findFirst_desc {A} (T : Table A) p f (Q : outcome (option A) → Db → Prop) d :
  (∀ x, x ∈ where_ p (view (tbl T) d) → (∀ y, y ∈ where_ p (view (tbl T) d) → f y <= f x) → Q (Ok (Some x)) d) →
  (where_ p (view (tbl T) d) = [] → Q (Ok None) d) →
  dwp (db_findFirst_desc T p f) Q d.
Proof.
  intros HS HN. apply (dwp_gets (λ d, head (order_desc f (where_ p (view (tbl T) d))))).
  pose proof (order_desc_perm A f (where_ p (view (tbl T) d))) as P.
  pose proof (order_desc_sorted A f (where_ p (view (tbl T) d))) as S.
  destruct (order_desc f _) as [|x l] eqn:E; simpl.
  - apply HN. by apply Permutation_nil_r.
  - apply HS; [rewrite <- P; left|]. intros y Hy. rewrite <- P in Hy.
    apply elem_of_cons in Hy as [->|Hy]; [lia|]. apply StronglySorted_inv in S as [_ S].
    rewrite Forall_forall in S. by apply S.
Qed.

Definition fired (id : string) (h : AlertHistory) : bool := String.eqb (alh_rule_id h) id.

(** The times at which a rule fired, in the order of the history. *)
Definition firings (r : AlertRule) (d : Db) : list Z :=
  map alh_triggered_at (where_ (fired (alr_id r)) (view L_AlertHistory d)).

(** Between two alerts of a rule its cooldown passes. *)
Record cooled (d : Db) : Prop := {
  cl_ids : NoDup (map alr_id (view L_AlertRule d));
  cl_spaced : ∀ r, r ∈ view L_AlertRule d →
    StronglySorted (λ t u, alr_cooldown_minutes r * 60000 <= u - t) (firings r d);
}.

Lemma one_rule d r x : NoDup (map alr_id (view L_AlertRule d)) →
  r ∈ view L_AlertRule d → x ∈ view L_AlertRule d → alr_id r = alr_id x → r = x.
Proof.
  intros ND (i & Hi)%list_elem_of_lookup (j & Hj)%list_elem_of_lookup E.
  assert (i = j) as ->; [|congruence].
  eapply NoDup_lookup; [exact ND| |]; rewrite list_lookup_fmap, ?Hi, ?Hj; [done|]. simpl. by rewrite E.
Qed.

Lemma cooled_fire d rule h : cooled d → rule ∈ view L_AlertRule d → alh_rule_id h = alr_id rule →
  (∀ x, x ∈ where_ (fired (alr_id rule)) (view L_AlertHistory d) →
     alr_cooldown_minutes rule * 60000 <= alh_triggered_at h - alh_triggered_at x) →
  cooled (put L_AlertHistory (view L_AlertHistory d ++ [h]) d).
Proof.
  intros [ND Sp] Hr Eh Hc. split; [done|]. intros r Hr'.
  change (view L_AlertRule (put L_AlertHistory ?l ?d)) with (view L_AlertRule d) in Hr'.
  unfold firings. rewrite view_put, where_app, map_app. simpl. unfold fired at 2. rewrite Eh.
  destruct (String.eqb_spec (alr_id rule) (alr_id r)) as [E|N]; [|by rewrite app_nil_r; apply Sp].
  assert (r = rule) as -> by (by apply (one_rule d)).
  apply StronglySorted_app_2; [|by apply Sp|repeat constructor].
  intros t u (x & -> & Hx)%list_elem_of_fmap ->%list_elem_of_singleton. by apply Hc.
Qed.

(** Nothing happens between two readings of the clock. *)
Lemma dwp_now_again {A} (c : Z → bool) (m : M (St Db) A) (k : Z → M (St Db) A) Q d :
  (∀ now, dwp (if c now then m else k now) Q d) →
  dwp (now ← Date_now; if c now then m else again ← Date_now; k again) Q d.
Proof.
  intros Hm s Hs. specialize (Hm (clock (env s)) s Hs). unfold Date_now, gets, mbind, M_bind.
  by destruct (c (clock (env s))).
Qed.

Lemma evaluate_rule_cools facts triggered rule d : cooled d → rule ∈ view L_AlertRule d →
  dwp (evaluate_rule facts triggered rule)
    (λ o d', cooled d' ∧ view L_AlertRule d' = view L_AlertRule d) d.
Proof.
  intros C Hr. unfold evaluate_rule. destruct (negb _); [by dwp_step|].
  apply dwp_bind. apply dwp_findFirst_desc.
  - intros x Hx Hmax. apply (dwp_now_again (cooling rule (Some x))). intros now. simpl cooling.
    destruct (Z.ltb_spec (now - alh_triggered_at x) (alr_cooldown_minutes rule * 60000)); [by dwp_step|].
    dwp_step; [done|]. apply dwp_bind, dwp_emit. dwp_step. split; [|done].
    eapply cooled_fire; [done|exact Hr|done|]. simpl. intros y Hy. specialize (Hmax y Hy). lia.
  - intros Hnone. apply (dwp_now_again (cooling rule None)). intros now. simpl cooling. cbv iota.
    dwp_step; [done|]. apply dwp_bind, dwp_emit. dwp_step. split; [|done].
    eapply cooled_fire; [done|exact Hr|done|]. unfold fired. intros y Hy.
    change (view (tbl T_AlertHistory) d) with (view L_AlertHistory d) in Hnone. rewrite Hnone in Hy. set_solver.
Qed.

(** (C24) An alert does not fire twice within its cooldown: whatever the facts, an evaluation of
    all the rules keeps the alerts of each rule at least its cooldown apart. *)
Theorem alerts_cool_down (facts : fields_) (s : St Db) :
  cooled (tables s) → cooled (tables (snd (evaluateAll facts s))).
Proof.
  intros C. assert (dwp (evaluateAll facts) (λ _, cooled) (tables s)) as D; [|by apply (D s eq_refl)].
  unfold evaluateAll. dwp_step.
  apply (dwp_for_fold _ _ _ (λ rest _ d', cooled d' ∧ ∀ x, x ∈ rest → x ∈ view L_AlertRule d')).
  - split; [done|]. intros x Hx. match goal with P : _ ≡ₚ _ |- _ => rewrite P in Hx end.
    by apply elem_of_where in Hx as [].
  - by intros ? ? [].
  - intros x rest b d' [C' Hin]. eapply dwp_mono; [apply evaluate_rule_cools; [done|set_solver]|].
    intros [b'|e] d'' [C'' V]; [|done]. split; [done|]. intros y Hy. rewrite V. set_solver.
Qed.

(** ** Scorecards *)

(** A live daily snapshot of the domain on the day. *)
Definition taken (today : Z) (domain : string) (d : Db) : Prop :=
  ∃ r, r ∈ view L_KpiSnapshot d ∧ kps_deleted_at r = None ∧ kps_period r = pd_daily
       ∧ kps_metric_date r = today ∧ kps_domain r = domain.

(** The domain that a computation begins with. *)
Definition first_domain (domain : option string) : string :=
  if truthy_str domain then coalesce domain "" else "sales".

Lemma domains_first domain m :
  ∃ rest, domains_of domain (scorecards m) = first_domain domain :: rest.
Proof. unfold domains_of, first_domain. destruct (truthy_str domain); by eexists. Qed.

(** The computation on a given day. *)
Definition compute_on (today : Z) (domain : option string) : M (St Db) (list KpiView) :=
  day ← read_day today;
  mapM (snapshot_domain today (scorecards day)) (domains_of domain (scorecards day)).

Lemma compute_today domain s :
  computeFromDomainTables domain s = compute_on (startOfUtcDay (clock (env s))) domain s.
Proof. reflexivity. Qed.

Lemma dwp_latest {A} (T : Table A) date updated deleted day (Q : outcome (option A) → Db → Prop) d :
  (∀ r, Q (Ok r) d) → dwp (latest T date updated deleted day) Q d.
Proof. intros HQ. apply dwp_findFirst_desc; intros; apply HQ. Qed.

Lemma dwp_read_day today (Q : outcome DayMetrics → Db → Prop) d :
  (∀ m, Q (Ok m) d) → dwp (read_day today) Q d.
Proof.
  intros HQ. unfold read_day. do 6 (apply dwp_bind, dwp_latest; intros ?). dwp_step. apply HQ.
Qed.

Lemma snapshot_takes today cards dom d :
  dwp (snapshot_domain today cards dom)
    (λ o d', (∀ t x, taken t x d → taken t x d') ∧ match o with Ok _ => taken today dom d' | Throw _ => True end) d.
Proof.
  unfold snapshot_domain. dwp_step; [|done]. dwp_step; [done|].
  apply dwp_bind, dwp_emit. dwp_step. split.
  - intros t x (r & Hr & E). exists r. split; [|done]. rewrite view_put. set_solver.
  - eexists. split; [rewrite view_put; apply elem_of_app; right; by left|done].
Qed.

Lemma snapshots_take today cards doms d t x : taken t x d →
  dwp (mapM (snapshot_domain today cards) doms) (λ _ d', taken t x d') d.
Proof.
  revert d. induction doms as [|dom doms IH]; intros d Ht; [by apply dwp_ret|]. simpl mapM.
  apply dwp_bind. eapply dwp_mono; [apply snapshot_takes|].
  intros [v|e] d' [Hd _]; [|by apply Hd]. apply dwp_bind.
  eapply dwp_mono; [apply IH; by apply Hd|]. intros [vs|e] d'' Hd''; [by apply dwp_ret|done].
Qed.

Lemma compute_takes today domain d :
  dwp (compute_on today domain)
    (λ o d', match o with Ok _ => taken today (first_domain domain) d' | Throw _ => True end) d.
Proof.
  unfold compute_on. apply dwp_bind, dwp_read_day. intros m.
  destruct (domains_first domain m) as [rest ->]. simpl mapM. apply dwp_bind.
  eapply dwp_mono; [apply snapshot_takes|]. intros [v|e] d' [_ Ht]; [|done]. apply dwp_bind.
  eapply dwp_mono; [by apply snapshots_take|]. intros [vs|e] d'' Hd''; [by apply dwp_ret|done].
Qed.

Lemma snapshot_refused today cards dom d : taken today dom d →
  dwp (snapshot_domain today cards dom) (λ o d', d' = d ∧ ∃ e, o = Throw e) d.
Proof.
  intros (r & Hr & E1 & E2 & E3 & E4). unfold snapshot_domain. dwp_step; [|by eauto].
  dwp_step; [by eauto|]. exfalso.
  match goal with Hn : ?i ∉ _, Hok : refused _ _ _ = None |- _ => apply Hn; rename i into new end.
  match goal with Hok : refused _ _ _ = None |- _ =>
    cbn [refused T_KpiSnapshot] in Hok; apply constraints_None in Hok;
    apply Forall_cons in Hok as [Un _]; cbn [fst] in Un end.
  assert (kps_id r = new) as <-; [|by apply list_elem_of_fmap_2].
  eapply (unique_live_spec _ _ _ _ _ _ r Un); [done|exact Hr|by rewrite E1|].
  cbn. by rewrite E2, E3, E4, Z.eqb_refl, String.eqb_refl.
Qed.

Lemma compute_refused today domain d : taken today (first_domain domain) d →
  dwp (compute_on today domain) (λ o d', d' = d ∧ ∃ e, o = Throw e) d.
Proof.
  intros Ht. unfold compute_on. apply dwp_bind, dwp_read_day. intros m.
  destruct (domains_first domain m) as [rest ->]. simpl mapM. apply dwp_bind.
  eapply dwp_mono; [by apply snapshot_refused|]. intros o d' [-> [e ->]]. by eauto.
Qed.

(** What the snapshots stop short of: after a computation, and until a snapshot is
    deleted, any further one of the same domains on the same UTC day throws and writes
    nothing, where the API promises an upsert. *)
Theorem computed_once (domain : option string) (s s1 s2 : St Db) (out : list KpiView) :
  computeFromDomainTables domain s = (Ok out, s1) →
  startOfUtcDay (clock (env s2)) = startOfUtcDay (clock (env s)) →
  (∀ r, r ∈ view L_KpiSnapshot (tables s1) → r ∈ view L_KpiSnapshot (tables s2)) →
  (∃ e, fst (computeFromDomainTables domain s2) = Throw e)
  ∧ tables (snd (computeFromDomainTables domain s2)) = tables s2.
Proof.
  intros E Hday Hkept. rewrite compute_today in E. rewrite compute_today, Hday.
  pose proof (dwp_elim _ _ _ _ _ (compute_takes _ domain (tables s)) E) as (r & Hr & Er). cbv beta iota in Hr.
  destruct (compute_refused (startOfUtcDay (clock (env s))) domain (tables s2)) with (s := s2)
    as [? ?]; [by exists r; auto|done|by auto].
Qed.

(** ** Exports *)

Lemma dwp_any {A} (m : M (St Db) A) (Q : outcome A → Db → Prop) d : (∀ o d', Q o d') → dwp m Q d.
Proof. by intros HQ s _. Qed.

Definition export_key (job : ExportJob) : string :=
  "analytics/exports/" +:+ xj_exportId job +:+ "." +:+ export_ext (xj_format job).

(** An export row that says completed, with its number of rows, and its file. *)
Definition delivered (job : ExportJob) (rows : list ReportRow) (body : string) (d : Db) : Prop :=
  ∃ row file, row ∈ view L_ReportExport d ∧ rex_id row = xj_exportId job
    ∧ rex_export_status row = xs_completed ∧ rex_row_count row = Some (Z.of_nat (length rows))
    ∧ file ∈ view L_MediaFile d ∧ rex_media_file_id row = Some (kmf_id file)
    ∧ kmf_object_key file = export_key job ∧ kmf_mime_type file = export_mime (xj_format job)
    ∧ kmf_byte_size file = Z.of_nat (String.length body) ∧ kmf_deleted_at file = None.

(** After the object is stored. *)
Definition export_record (job : ExportJob) (rows : list ReportRow) (body : string)
  : M (St Db) (string * string) :=
  media ← db_create T_MediaFile (λ id, mkMediaFile id (coalesce storage_bucket "local") (export_key job)
            (export_mime (xj_format job)) (Z.of_nat (String.length body)) None mk_document
            (Some ("export-" +:+ xj_exportId job +:+ "." +:+ ReportExportFormat_text (xj_format job)))
            rs_active None);
  now ← Date_now;
  _ ← db_update T_ReportExport (xj_exportId job)
        (set_export xs_completed (Some (kmf_id media)) (Some (Z.of_nat (length rows))) None (Some now));
  emit (AnalyticsExportCompletedEvent (xj_exportId job) (ReportExportFormat_text (xj_format job)) "completed") ;;
  when_ (truthy_str (xj_savedReportId job))
    (emit (AnalyticsReportGeneratedEvent (coalesce (xj_savedReportId job) "") (xj_exportId job))) ;;
  ana_audit "report_export" (Some (xj_exportId job)) "export_completed" (xj_actorId job) ;;
  mret (xj_exportId job, "completed").

Lemma export_record_delivers job rows body d :
  dwp (export_record job rows body)
    (λ o d', match o with Ok _ => delivered job rows body d' | Throw _ => True end) d.
Proof.
  unfold export_record. dwp_step; [done|]. apply dwp_bind, dwp_now. intros now. dwp_step; [done|].
  match goal with |- dwp _ _ ?D => assert (delivered job rows body D) as Hd end.
  { match goal with R : r ∈ _, Ek : pk T_ReportExport r = _ |- _ =>
      eexists (set_export _ _ _ _ _ r), _; split_and!;
        [rewrite view_put; apply list_elem_of_fmap; exists r; split; [by rewrite Ek, String.eqb_refl|exact R]
        |exact Ek|done|done| |done|done|done|done|done] end.
    change (view L_MediaFile (put (tbl T_ReportExport) ?l ?d)) with (view L_MediaFile d).
    rewrite view_put. apply elem_of_app. right. by left. }
  match goal with |- dwp _ _ ?D => revert Hd; generalize D; intros d4 Hd end.
  apply dwp_bind, dwp_emit. apply dwp_bind, dwp_when; intros _; [apply dwp_emit|]; cbv beta iota;
    unfold ana_audit; (dwp_step; [done|dwp_step; dwp_step; exact Hd]).
Qed.

(** What a job does before its report is read: it takes its lock and marks its row. *)
Definition export_started (job : ExportJob) : M (St Db) () :=
  _ ← LockService.acquire (LockService.resourceKey ["analytics"; "export"; xj_exportId job]) (ttl_only 120000);
  _ ← db_update T_ReportExport (xj_exportId job) (set_export xs_processing None None None None);
  mret tt.

(** (C29) A delivered export is there: when the worker reports success, its row was
    first marked as processing, then the rows of the report were resolved and rendered,
    exactly this text was put into the storage under the key and with the type of its
    format, and the put returned; the export row is completed with the number of these
    rows and refers to a live file of that key, type and size. *)
Theorem export_delivered (job : ExportJob) (s s' : St Db) (r : string * string) :
  processExport job s = (Ok r, s') →
  ∃ s1 rows s2 body s3 e,
    export_started job s = (Ok tt, s1)
    ∧ resolveReportData (xj_savedReportId job) s1 = (Ok rows, s2)
    ∧ render (xj_format job) rows s2 = (Ok body, s3)
    ∧ storage_put (export_key job) (export_mime (xj_format job)) (body_text body) (env s3) = (Ok tt, e)
    ∧ delivered job rows body (tables s').
Proof.
  unfold processExport. intros (token & s0 & s4 & Hlock & _ & E & ->)%LockService.withLock_Ok.
  apply bind_Ok in E as (row & s1 & Hmark & E).
  destruct (export_body job s1) as [[r'|err] s5] eqn:Eb; unfold try_catch in E; rewrite Eb in E.
  2: { exfalso. unfold export_failed in E. run_inv. }
  injection E as _ <-.
  apply bind_Ok in Eb as (rows & s2 & Hrows & E). apply bind_Ok in E as (body & s3 & Hbody & E).
  apply bind_Ok in E as ([] & s6 & Hput & E). unfold gateway in Hput.
  destruct (storage_put _ _ _ (env s3)) as [[[]|err] e] eqn:Es; [|done]. injection Hput as <-.
  exists s1, rows, s2, body, s3, e. split_and!; [|done..|].
  { unfold export_started. unfold mbind at 1, M_bind at 1. rewrite Hlock.
    unfold mbind at 1, M_bind at 1. rewrite Hmark. done. }
  exact (dwp_elim _ _ _ _ _ (export_record_delivers job rows body _) E).
Qed.
End rules.

(** ** Runs *)
Section runs.
#[local] Existing Instances gmap_redis counting_crypto sample_postgres.
#[local] Instance js0 : JsLibrary := {
  Date_parse _ := None; localeCompare _ _ := 0;
  regex_test _ _ := None; string_to_number _ := None; array_to_number _ := None;
}.
#[local] Instance iso0 : DateText := λ t, "1970-01-" +:+ pretty (t / 86400000 + 1).
#[local] Instance number0 : NumberText := λ q, pretty (Qnum q / Zpos (Qden q)).
#[local] Instance json0 : JsonText :=
  λ j, match j with JStr s => quote_ +:+ s +:+ quote_ | _ => "{}" end.
#[local] Instance client0 : ClientText := λ _, "db".
#[local] Instance storage0 : CatalogStorage := {|
  storage_publicUrl := None; storage_bucket := None; storage_put _ _ _ e := (Ok tt, e);
  random_uuid n := "u" +:+ pretty n |}.
#[local] Instance trail0 : AuditTrail := λ _, [].

Definition odd_rows : list Row :=
  [[("name", cell_str "a,b"); ("note", cell_str ("say " +:+ quote_ +:+ "hi" +:+ quote_))];
   [("name", cell_str ""); ("size", cell_int 3)]].

Lemma csv_reads_back_witness :
  csv_read (rowsToCsv odd_rows)
  = [["name"; "note"; "size"]; ["a,b"; "say " +:+ quote_ +:+ "hi" +:+ quote_; ""]; [""; ""; "3"]].
Proof.
  refine (eq_trans (csv_reads_back odd_rows _ _) _); [done|repeat constructor|vm_compute; reflexivity].
Defined.

(** A rule on failed payments that fired an hour ago. *)
Definition watched : St Db :=
  mkSt (env sample)
    (put L_AlertRule [mkAlertRule "ar" "FAILED" "Failed payments" sv_warning
        (JObj [("field", JStr "payments.failed"); ("gte", JInt 5)]) 15 true rs_active 0 None]
      (put L_AlertHistory [mkAlertHistory "ah" "ar" sv_warning "Alert FAILED triggered"
          (clock (env sample) - 3600000)] (tables sample))).
Definition failing_facts : fields_ := [("payments.failed", FNum 7); ("payments", FObj [("failed", FNum 7)])].

Lemma watched_cooled : cooled (tables watched).
Proof.
  split; [apply NoDup_singleton|]. intros r ->%list_elem_of_singleton. repeat constructor.
Qed.

Lemma alerts_cool_down_witness : cooled (tables (snd (evaluateAll failing_facts watched))).
Proof. apply (alerts_cool_down failing_facts watched). exact watched_cooled. Defined.

(** The rule fires once and not again at the same moment. *)
Example fires_once :
  let again := r ← evaluateAll failing_facts; r' ← evaluateAll failing_facts; mret (length r, length r') in
  fst (again watched) = Ok (1%nat, 0%nat).
Proof. vm_compute. reflexivity. Qed.

Definition refreshed : St Db := snd (computeFromDomainTables (Some "sales") sample).

Lemma computed_once_witness :
  (∃ e, fst (computeFromDomainTables (Some "sales") refreshed) = Throw e)
  ∧ tables (snd (computeFromDomainTables (Some "sales") refreshed)) = tables refreshed.
Proof.
  eapply (computed_once (Some "sales") sample refreshed refreshed).
  - apply run_eta. vm_compute. reflexivity.
  - vm_compute. reflexivity.
  - done.
Defined.

(** The job that a refresh leaves in the queue can only fail. *)
Example refresh_collides :
  fst ((_ ← kpi_refresh (Some "sales"); analytics_process ANALYTICS_JOBS.KPI_REFRESH (JObj [("domain", JStr "sales")]))
         sample)
  = Throw (DbError (ConstraintViolation "uq_kpi_snapshots_date_period_domain_active")).
Proof. vm_compute. reflexivity. Qed.

(** A queued export of the scorecards. *)
Definition queued_state : St Db :=
  mkSt (env sample) (put L_ReportExport
    [mkReportExport "x1" None xf_csv xs_queued None None None None (Some "u") None] (tables sample)).
Definition x1_job : ExportJob := mkExportJob "x1" None xf_csv (Some "u").

Lemma export_delivered_witness :
  ∃ rows body, delivered x1_job rows body (tables (snd (processExport x1_job queued_state))).
Proof.
  destruct (export_delivered x1_job queued_state (snd (processExport x1_job queued_state)) ("x1", "completed"))
    as (_ & rows & _ & body & _ & _ & _ & _ & _ & _ & D); [apply run_eta; vm_compute; reflexivity|].
  exists rows, body. exact D.
Defined.

(** An export that the queue delivers again fails, and the row that was completed says failed: the
    key of its file is taken. *)
Example export_again :
  let s' := snd ((_ ← processExport x1_job; processExport x1_job) queued_state) in
  map (λ r, (rex_export_status r, rex_row_count r)) (view L_ReportExport (tables s')) = [(xs_failed, Some 0)].
Proof. vm_compute. reflexivity. Qed.

(** The recalculation of trends deletes a key that no trend is cached under: the old rows are
    answered. *)
Definition sales_day (id : string) (revenue : Z) : SalesMetrics :=
  mkSalesMetrics id 0 pd_daily 1 revenue 0 None "INR" 0 None.
Definition add_sales (id : string) (revenue : Z) : M (St Db) () :=
  modify (λ s, mkSt (env s) (put L_SalesMetrics (view L_SalesMetrics (tables s) ++ [sales_day id revenue]) (tables s))).

Example trends_stale :
  let run := before ← trends "sales" pd_daily 30;
             add_sales "m1" 500 ;;
             analytics_process ANALYTICS_JOBS.TREND_CALC (JObj [("domain", JStr "sales")]) ;;
             after ← trends "sales" pd_daily 30;
             fresh ← computeTrends "sales" pd_daily 30;
             mret (length before, length after, length fresh) in
  fst (run sample) = Ok (0%nat, 0%nat, 1%nat).
Proof. vm_compute. reflexivity. Qed.

(** A date is exported with quotes of JSON the first time and without once it was cached. *)
Example csv_depends_on_cache :
  let run := _ ← computeFromDomainTables (Some "sales");
             cold ← resolveReportData None;
             warm ← resolveReportData None;
             mret (map (λ r, cell_text (column "metricDate" (flattenRow r))) cold,
                   map (λ r, cell_text (column "metricDate" (flattenRow r))) warm) in
  fst (run sample) = Ok ([quote_ +:+ "1970-01-1" +:+ quote_], ["1970-01-1"]).
Proof. vm_compute. reflexivity. Qed.

(** A widget that is placed again without its grid is moved to the corner. *)
Example grid_reset :
  let w x := mkWidgetInput "w" None x None None None None in
  let run := _ ← patchLayout "u" (mkLayoutInput "main" None None (Some [w (Some 6)]));
             _ ← patchLayout "u" (mkLayoutInput "main" None None (Some [w None]));
             gets (λ s, map dwi_grid_x (view L_DashboardWidgetInstance (tables s))) in
  fst (run sample) = Ok [0].
Proof. vm_compute. reflexivity. Qed.

(** A name with a comma splits the header of the table. *)
Example header_not_escaped :
  rowsToCsv [[("a,b", cell_int 1)]] = "a,b" +:+ newline +:+ "1".
Proof. vm_compute. reflexivity. Qed.
End runs.
