(* ===== verification/Metrics.v ===== *)
(** * Metrics

    Models [backend/src/shared/metrics] (the emission API, its buffer, its histograms and
    the filter of metadata) and the analytics module's side of it: the writer of live
    metrics [services/live-metric.writer.ts] and the subscriber
    [events/analytics-metrics.ingestor.ts]. The application wires the buffer to the event
    publisher; publishing is fire and forget. *)
From S2P Require Import Prelude Core Effects Redis Lock JsNumber Rules Database Tables Payments Coupons Growth CatalogStores Carrier Webhooks Schema Insights Analytics.
From Stdlib Require Import QArith.

#[local] Open Scope Z_scope.

(** ** Types ([types/metric.types.ts]) *)

Inductive MetricKind := mk_counter | mk_gauge | mk_timing | mk_histogram | mk_kpi | mk_telemetry.
Definition MetricKind_text (k : MetricKind) : string :=
  match k with
  | mk_counter => "counter" | mk_gauge => "gauge" | mk_timing => "timing" | mk_histogram => "histogram"
  | mk_kpi => "kpi" | mk_telemetry => "telemetry"
  end.

Definition MetricTags := list (string * Json).
(** The properties of a context; one may be present and [undefined]. *)
Definition MetricContextFields := list (string * option string).
Definition ctx_get (k : string) (c : MetricContextFields) : option string :=
  match find_first (λ kv, String.eqb (fst kv) k) c with Some kv => snd kv | None => None end.

Record FunnelFields := mkFunnelFields {
  fn_funnel : option string; fn_step : option string; fn_sequence : option Z;
  fn_conversion : option bool; fn_abVariant : option string; fn_campaignId : option string;
}.
Definition no_funnel : FunnelFields := mkFunnelFields None None None None None None.

Record MetricRecord := mkMetricRecord {
  mr_kind : MetricKind; mr_name : string; mr_value : Q; mr_tags : option MetricTags;
  mr_unit : option string; mr_timestamp : Z; mr_context : MetricContextFields;
  mr_metadata : option fields_; mr_funnel : FunnelFields;
}.

Record TelemetryEventInput := mkTelemetryEventInput {
  ti_name : string; ti_category : option string; ti_action : option string; ti_subject : option string;
  ti_outcome : option string; ti_timestamp : option Z; ti_metadata : option fields_;
  ti_tags : option MetricTags; ti_funnel : FunnelFields; ti_context : MetricContextFields;
}.

Record TelemetryEvent := mkTelemetryEvent {
  te_name : string; te_category : option string; te_action : option string; te_subject : option string;
  te_outcome : option string; te_timestamp : Z; te_metadata : option fields_; te_tags : option MetricTags;
  te_funnel : FunnelFields; te_context : MetricContextFields;
}.

Record MetricEmitOptions := mkMetricEmitOptions {
  mo_immediate : bool; mo_context : MetricContextFields; mo_unit : option string;
}.
Definition no_emit_options : MetricEmitOptions := mkMetricEmitOptions false [] None.

(** ** Context and metadata *)

Definition CONTEXT_KEYS : list string :=
  ["correlationId"; "workflowId"; "requestId"; "userId"; "sessionId"; "tenantId"].

(** [mergeMetricContext]: all six properties, an override before the snapshot. *)
Definition mergeMetricContext (snap override : MetricContextFields) : MetricContextFields :=
  map (λ k, (k, keep (ctx_get k override) (ctx_get k snap))) CONTEXT_KEYS.

(** [{ ...a, ...b }] *)
Definition ctx_spread (a b : MetricContextFields) : MetricContextFields :=
  b ++ where_ (λ kv, negb (existsb (λ kv', String.eqb (fst kv') (fst kv)) b)) a.

(** [s.includes(sub)] regardless of case, for a [sub] in lower case. *)
Fixpoint includes (sub s : string) : bool :=
  String.prefix sub s || match s with "" => false | String _ rest => includes sub rest end.

(** [SENSITIVE_KEY]: the alternatives of the expression. *)
Definition SENSITIVE : list string :=
  ["password"; "passwd"; "secret"; "token"; "jwt"; "authorization"; "apikey"; "api_key"; "api-key"; "card";
   "cvv"; "pan"; "ssn"; "otp"].
Definition sensitive (k : string) : bool := existsb (λ w, includes w (toLowerCase k)) SENSITIVE.

(** [sanitizeMetadata] of a property and of an object: objects are filtered at every
    depth, arrays and dates are kept as they are. *)
Fixpoint sanitize_value (v : FactValue) : FactValue :=
  match v with
  | FObj fs => FObj (flat_map (λ kv, if sensitive (fst kv) then [] else [(fst kv, sanitize_value (snd kv))]) fs)
  | _ => v
  end.
Definition sanitize (fs : fields_) : fields_ :=
  flat_map (λ kv, if sensitive (fst kv) then [] else [(fst kv, sanitize_value (snd kv))]) fs.
Definition sanitizeMetadata (input : option fields_) : option fields_ := option_map sanitize input.

Definition createMetricRecord (kind : MetricKind) (name : string) (value : Q) (tags : option MetricTags)
  (unit : option string) (context : MetricContextFields) (metadata : option fields_) (now : Z) : MetricRecord :=
  mkMetricRecord kind name value tags unit now context metadata no_funnel.

Definition createTelemetryEvent (input : TelemetryEventInput) (context : MetricContextFields) (now : Z)
  : TelemetryEvent :=
  mkTelemetryEvent (ti_name input) (ti_category input) (ti_action input) (ti_subject input) (ti_outcome input)
    (coalesce (ti_timestamp input) now) (sanitizeMetadata (ti_metadata input)) (ti_tags input)
    (ti_funnel input) context.

(** ** Exporters *)

Inductive Exported := ex_metric (r : MetricRecord) | ex_event (e : TelemetryEvent).

(** The service, its buffer, and what was published. *)
Record MetricsState := mkMetricsState {
  ms_metrics : list MetricRecord; ms_events : list TelemetryEvent;
  ms_histograms : list (string * list Q); ms_published : list Exported;
}.

(** [new BufferedExporter({ maxSize: 10_000, sink })] *)
Definition maxSize : nat := 10000.

Definition buffer_size (s : MetricsState) : nat := length (ms_metrics s) + length (ms_events s).

(** [trim]: the oldest metrics go first, then the oldest events. *)
Definition trim_buffer (max : nat) (s : MetricsState) : MetricsState :=
  let overflow := (buffer_size s - max)%nat in
  let metrics := drop (Nat.min (length (ms_metrics s)) overflow) (ms_metrics s) in
  let still := (length metrics + length (ms_events s) - max)%nat in
  mkMetricsState metrics (drop (Nat.min (length (ms_events s)) still) (ms_events s)) (ms_histograms s)
    (ms_published s).

Definition buffer_metric (max : nat) (r : MetricRecord) (s : MetricsState) : MetricsState :=
  trim_buffer max (mkMetricsState (ms_metrics s ++ [r]) (ms_events s) (ms_histograms s) (ms_published s)).
Definition buffer_event (max : nat) (e : TelemetryEvent) (s : MetricsState) : MetricsState :=
  trim_buffer max (mkMetricsState (ms_metrics s) (ms_events s ++ [e]) (ms_histograms s) (ms_published s)).

(** [DefaultEventPublisherExporter] *)
Definition publish_exported (x : Exported) (s : MetricsState) : MetricsState :=
  mkMetricsState (ms_metrics s) (ms_events s) (ms_histograms s) (ms_published s ++ [x]).

(** [BufferedExporter.flush] into the publisher. *)
Definition flush (s : MetricsState) : MetricsState :=
  let metrics := ms_metrics s in
  let events := ms_events s in
  let s := mkMetricsState [] [] (ms_histograms s) (ms_published s) in
  let s := foldl (λ s r, publish_exported (ex_metric r) s) s metrics in
  foldl (λ s e, publish_exported (ex_event e) s) s events.

(** ** MetricsService *)

Definition emit_metric (max : nat) (r : MetricRecord) (o : MetricEmitOptions) (s : MetricsState) : MetricsState :=
  if mo_immediate o then publish_exported (ex_metric r) s else buffer_metric max r s.

(** [arr.push(value)], cut to the last thousand when it passes two thousand. *)
Definition push_sample (v : Q) (samples : list Q) : list Q :=
  let samples := samples ++ [v] in
  if (2000 <? Z.of_nat (length samples)) then drop (length samples - 1000) samples else samples.

Fixpoint observe (name : string) (v : Q) (buckets : list (string * list Q)) : list (string * list Q) :=
  match buckets with
  | [] => [(name, push_sample v [])]
  | b :: rest => if String.eqb (fst b) name then (name, push_sample v (snd b)) :: rest
                 else b :: observe name v rest
  end.
Definition observeHistogram (name : string) (v : Q) (s : MetricsState) : MetricsState :=
  mkMetricsState (ms_metrics s) (ms_events s) (observe name v (ms_histograms s)) (ms_published s).

Definition getHistogramSamples (name : string) (s : MetricsState) : list Q :=
  from_option snd [] (find_first (λ b, String.eqb (fst b) name) (ms_histograms s)).

(** The operations of the service, with their arguments. *)
Inductive MetricOp :=
| op_increment (name : string) (value : option Q) (tags : option MetricTags) (o : MetricEmitOptions)
| op_gauge (name : string) (value : Q) (tags : option MetricTags) (o : MetricEmitOptions)
| op_timing (name : string) (durationMs : Q) (tags : option MetricTags) (o : MetricEmitOptions)
| op_histogram (name : string) (value : Q) (tags : option MetricTags) (o : MetricEmitOptions)
| op_kpi (name : string) (value : Q) (tags : option MetricTags) (metadata : option fields_)
         (o : MetricEmitOptions)
| op_record (r : MetricRecord) (o : MetricEmitOptions)
| op_event (input : TelemetryEventInput) (o : MetricEmitOptions)
| op_flush.

Section service.
(** The transaction's context and the clock at the call. *)
Variables (snap : MetricContextFields) (now : Z).

Definition metric_of (kind : MetricKind) (name : string) (value : Q) (tags : option MetricTags)
  (unit : option string) (metadata : option fields_) (o : MetricEmitOptions) : MetricRecord :=
  createMetricRecord kind name value tags unit (mergeMetricContext snap (mo_context o)) metadata now.

Definition enrich (r : MetricRecord) (o : MetricEmitOptions) : MetricRecord :=
  mkMetricRecord (mr_kind r) (mr_name r) (mr_value r) (mr_tags r) (mr_unit r) (mr_timestamp r)
    (ctx_spread (mergeMetricContext snap (mo_context o)) (mr_context r)) (sanitizeMetadata (mr_metadata r))
    (mr_funnel r).

(** [{ ...options?.context, correlationId: input.correlationId, … }]: the input's properties
    override the options', undefined ones included. *)
Definition event_context (input : TelemetryEventInput) (o : MetricEmitOptions) : MetricContextFields :=
  mergeMetricContext snap
    (ctx_spread (mo_context o) (map (λ k, (k, ctx_get k (ti_context input))) CONTEXT_KEYS)).

Definition emit_event (max : nat) (input : TelemetryEventInput) (o : MetricEmitOptions) (s : MetricsState)
  : MetricsState :=
  let evt := createTelemetryEvent input (event_context input o) now in
  if mo_immediate o then publish_exported (ex_event evt) s else buffer_event max evt s.

Definition run_metric (max : nat) (op : MetricOp) (s : MetricsState) : MetricsState :=
  match op with
  | op_increment name value tags o =>
      emit_metric max (metric_of mk_counter name (coalesce value 1%Q) tags (mo_unit o) None o) o s
  | op_gauge name value tags o => emit_metric max (metric_of mk_gauge name value tags (mo_unit o) None o) o s
  | op_timing name ms tags o =>
      observeHistogram name ms
        (emit_metric max (metric_of mk_timing name ms tags (Some (coalesce (mo_unit o) "ms")) None o) o s)
  | op_histogram name value tags o =>
      observeHistogram name value
        (emit_metric max (metric_of mk_histogram name value tags (mo_unit o) None o) o s)
  | op_kpi name value tags metadata o =>
      emit_metric max (metric_of mk_kpi name value tags (mo_unit o) (sanitizeMetadata metadata) o) o s
  | op_record r o => emit_metric max (enrich r o) o s
  | op_event input o => emit_event max input o s
  | op_flush => flush s
  end.
End service.

(** ** Live metrics ([exporters/live-metric.adapter.ts], [services/live-metric.writer.ts]) *)

Record LiveMetricWrite := mkLiveMetricWrite {
  lw_streamCode : option string; lw_metricKey : string; lw_metricValue : Q;
  lw_dimensions : option (list (string * Json)); lw_observedAt : Z;
}.

(** An object as [JSON.stringify] keeps it: a property set to [undefined] is dropped. *)
Definition jdel (k : string) (fs : list (string * Json)) : list (string * Json) :=
  where_ (λ kv, negb (String.eqb (fst kv) k)) fs.
Definition jput (k : string) (v : option Json) (fs : list (string * Json)) : list (string * Json) :=
  match v with Some j => jset k j fs | None => jdel k fs end.
Definition jputs (kvs : list (string * option Json)) (fs : list (string * Json)) : list (string * Json) :=
  foldl (λ fs kv, jput (fst kv) (snd kv) fs) fs kvs.
Definition jtext (v : option string) : option Json := option_map JStr v.
Definition context_props (c : MetricContextFields) : list (string * option Json) :=
  map (λ kv, (fst kv, jtext (snd kv))) c.
Definition tag_props (tags : option MetricTags) : list (string * option Json) :=
  map (λ kv, (fst kv, Some (snd kv))) (coalesce tags []).

Record LiveMetricAdapter := mkLiveMetricAdapter {
  la_buffer : list LiveMetricWrite; la_written : list (list LiveMetricWrite);
}.

Definition adapter_flush (a : LiveMetricAdapter) : LiveMetricAdapter :=
  match la_buffer a with
  | [] => a
  | batch => mkLiveMetricAdapter [] (la_written a ++ [batch])
  end.
Definition adapter_push (batchSize : nat) (w : LiveMetricWrite) (a : LiveMetricAdapter) : LiveMetricAdapter :=
  let a := mkLiveMetricAdapter (la_buffer a ++ [w]) (la_written a) in
  if (batchSize <=? length (la_buffer a))%nat then adapter_flush a else a.

Definition adapter_metric (batchSize : nat) (r : MetricRecord) : LiveMetricAdapter → LiveMetricAdapter :=
  adapter_push batchSize (mkLiveMetricWrite None (mr_name r) (mr_value r)
    (Some (jputs ([("kind", Some (JStr (MetricKind_text (mr_kind r)))); ("tags", option_map JObj (mr_tags r))]
                  ++ context_props (mr_context r)
                  ++ [("funnel", jtext (fn_funnel (mr_funnel r))); ("step", jtext (fn_step (mr_funnel r)))]) []))
    (mr_timestamp r)).
Definition adapter_event (batchSize : nat) (e : TelemetryEvent) : LiveMetricAdapter → LiveMetricAdapter :=
  adapter_push batchSize (mkLiveMetricWrite None ("event." +:+ te_name e) 1
    (Some (jputs ([("category", jtext (te_category e)); ("action", jtext (te_action e));
                   ("outcome", jtext (te_outcome e))] ++ context_props (te_context e)
                  ++ [("funnel", jtext (fn_funnel (te_funnel e))); ("step", jtext (fn_step (te_funnel e)))]) []))
    (te_timestamp e)).

(** What the server keeps of a number in a column of two and of four decimals, the former
    in hundredths. *)
Class ServerNumber := { numeric2 : Q → Z; numeric4 : Q → Q }.

(** The writer's memory: the streams it has met, by their codes. *)
Definition StreamCache := list (string * string).

Definition DEFAULT_METRIC_STREAM : string := "business".

Section ingest.
Context `{Redis, !Postgres, !DateText, !ServerNumber}.

(** What a call may throw, as a value. *)
Definition settled {A} (m : M (St Db) A) : M (St Db) (option A) :=
  try_catch (a ← m; mret (Some a)) (λ _, mret None).

Definition cached_stream (code : string) (cache : StreamCache) : option string :=
  option_map snd (find_first (λ kv, String.eqb (fst kv) code) cache).

(** [resolveStream]: the stream and the memory after it. *)
Definition resolveStream (code : string) (cache : StreamCache) : M (St Db) (string * StreamCache) :=
  match cached_stream code cache ≫= non_empty with
  | Some id => mret (id, cache)
  | None => stream ← ensureMetricStream code; mret (mst_id stream, (code, mst_id stream) :: cache)
  end.

Definition stream_code (w : LiveMetricWrite) : string :=
  coalesce (option_map trim (lw_streamCode w) ≫= non_empty) DEFAULT_METRIC_STREAM.

(** One turn of the loop of [write]: the memory, and whether the loop goes on. *)
Definition write_one (cache : StreamCache) (w : LiveMetricWrite) : M (St Db) (StreamCache * bool) :=
  resolved ← settled (resolveStream (stream_code w) cache);
  match resolved with
  | None => mret (cache, false)
  | Some (streamId, cache) =>
      row ← settled (db_create T_LiveMetric (λ id, mkLiveMetric id streamId (slice0 120 (lw_metricKey w))
              (numeric4 (lw_metricValue w)) (option_map JObj (lw_dimensions w)) (lw_observedAt w)));
      mret (cache, match row with Some _ => true | None => false end)
  end.

(** [write]: the first failure ends the batch and is only logged. *)
Fixpoint write (cache : StreamCache) (batch : list LiveMetricWrite) : M (St Db) StreamCache :=
  match batch with
  | [] => mret cache
  | w :: rest =>
      r ← write_one cache w;
      match r with
      | (cache, true) => write cache rest
      | (cache, false) => mret cache
      end
  end.

(** ** AnalyticsMetricsIngestor *)

Definition conversion_of (r : MetricRecord) (funnel step : string) (now : Z) (id : string) : ConversionEvent :=
  mkConversionEvent id (ctx_get "userId" (mr_context r)) (ctx_get "sessionId" (mr_context r)) (slice0 64 step)
    (match mr_kind r with mk_kpi => Some (numeric2 (mr_value r)) | _ => None end)
    (Some (JObj ([("funnel", JStr funnel); ("metric", JStr (mr_name r));
                  ("conversion", JBool (coalesce (fn_conversion (mr_funnel r)) false))]
                 ++ jopt "campaignId" (fn_campaignId (mr_funnel r))
                 ++ jopt "correlationId" (ctx_get "correlationId" (mr_context r))))) now.

Definition onMetric (cache : StreamCache) (r : MetricRecord) : M (St Db) StreamCache :=
  cache ← write cache [mkLiveMetricWrite (Some DEFAULT_METRIC_STREAM) (mr_name r) (mr_value r)
    (Some (jputs ([("kind", Some (JStr (MetricKind_text (mr_kind r))))] ++ tag_props (mr_tags r)
                  ++ [("funnel", jtext (fn_funnel (mr_funnel r))); ("step", jtext (fn_step (mr_funnel r)));
                      ("correlationId", jtext (ctx_get "correlationId" (mr_context r)))]) []))
    (mr_timestamp r)];
  match fn_funnel (mr_funnel r) ≫= non_empty, fn_step (mr_funnel r) ≫= non_empty with
  | Some funnel, Some step =>
      now ← Date_now;
      _ ← settled (db_create T_ConversionEvent (conversion_of r funnel step now));
      mret cache
  | _, _ => mret cache
  end.

Definition system_event_of (e : TelemetryEvent) (id : string) : SystemEvent :=
  mkSystemEvent id (slice0 64 (te_name e)) "info" (coalesce (te_action e) (te_name e))
    (Some (JObj (jopt "category" (te_category e) ++ jopt "subject" (te_subject e) ++ jopt "outcome" (te_outcome e)
                 ++ [("metadata", coalesce (fact_json (FObj (coalesce (te_metadata e) []))) JNull)]
                 ++ jopt "correlationId" (ctx_get "correlationId" (te_context e))
                 ++ jopt "requestId" (ctx_get "requestId" (te_context e))))).

Definition onTelemetry (cache : StreamCache) (e : TelemetryEvent) : M (St Db) StreamCache :=
  cache ← write cache [mkLiveMetricWrite (Some "telemetry") (slice0 120 (te_name e)) 1
    (Some (jputs ([("category", jtext (te_category e)); ("action", jtext (te_action e));
                   ("subject", jtext (te_subject e)); ("outcome", jtext (te_outcome e))]
                  ++ tag_props (te_tags e)) []))
    (te_timestamp e)];
  _ ← settled (db_create T_SystemEvent (system_event_of e));
  mret cache.

(** The subscriber receives what was published, in order. *)
Definition ingest (cache : StreamCache) (xs : list Exported) : M (St Db) StreamCache :=
  for_fold xs cache (λ cache x, match x with ex_metric r => onMetric cache r | ex_event e => onTelemetry cache e end).
End ingest.
