(* ===== verification/MetricRules.v ===== *)
(** * Rules of metrics

    What the metrics framework guarantees: the filter of metadata removes exactly the
    paths through objects that name a sensitive key; the buffer stays within its bound
    and loses nothing while it does not overflow; and the subscriber of the analytics
    module never throws, whatever the database does. *)
From S2P Require Import Prelude Core Effects Redis Lock JsNumber Rules Database Tables Sample Payments Coupons Growth CatalogStores Carrier Webhooks Schema Insights Analytics Metrics.
From Stdlib Require Import QArith.

#[local] Open Scope Z_scope.

(** ** The filter of metadata *)

(** The value at a path of properties. *)
Fixpoint at_path (path : list string) (v : FactValue) : option FactValue :=
  match path with
  | [] => Some v
  | k :: rest => match v with
                 | FObj fs => option_map snd (find_first (λ kv, String.eqb (fst kv) k) fs) ≫= at_path rest
                 | _ => None
                 end
  end.

Lemma find_sanitized k fs :
  option_map snd (find_first (λ kv, String.eqb (fst kv) k) (sanitize fs))
  = if sensitive k then None
    else option_map sanitize_value (option_map snd (find_first (λ kv, String.eqb (fst kv) k) fs)).
Proof.
  unfold sanitize. induction fs as [|[x v] fs IH]; simpl; [by destruct (sensitive k)|].
  destruct (sensitive x) eqn:Ex; simpl; destruct (String.eqb_spec x k) as [->|N]; rewrite ?IH, ?Ex; done.
Qed.

(** The filter of metadata is exact: of the values that objects lead to, those under a
    path with a sensitive key are removed, and the others are kept, filtered in turn; what
    is no object is kept as it is. *)
Theorem sanitize_exact (path : list string) (fs : fields_) :
  at_path path (FObj (sanitize fs))
  = if existsb sensitive path then None else option_map sanitize_value (at_path path (FObj fs)).
Proof.
  change (FObj (sanitize fs)) with (sanitize_value (FObj fs)). generalize (FObj fs). clear fs.
  induction path as [|k path IH]; intros v; [done|].
  destruct v as [| | | | | |xs|fs]; try by (simpl; destruct (_ || _)). simpl.
  fold (sanitize fs). rewrite find_sanitized. destruct (sensitive k); [done|]. simpl.
  destruct (find_first _ fs) as [[x v]|]; simpl; [apply IH|by destruct (existsb _ _)].
Qed.

(** ** The buffer *)

(** A call: the context and the time it is made in. *)
Definition Call := (MetricContextFields * Z * MetricOp)%type.
Definition run_calls (max : nat) (calls : list Call) (s : MetricsState) : MetricsState :=
  foldl (λ s c, run_metric (fst (fst c)) (snd (fst c)) max (snd c) s) s calls.

Lemma trim_size max s : (buffer_size (trim_buffer max s) <= max)%nat.
Proof. unfold buffer_size, trim_buffer. simpl. rewrite !length_drop. unfold buffer_size. lia. Qed.

Lemma flush_events es s : foldl (λ s e, publish_exported (ex_event e) s) s es
  = mkMetricsState (ms_metrics s) (ms_events s) (ms_histograms s) (ms_published s ++ map ex_event es).
Proof.
  revert s. induction es as [|e es IH]; intros s; simpl; [by rewrite app_nil_r; destruct s|].
  rewrite IH. simpl. by rewrite <- app_assoc.
Qed.

Lemma flush_metrics rs s : foldl (λ s r, publish_exported (ex_metric r) s) s rs
  = mkMetricsState (ms_metrics s) (ms_events s) (ms_histograms s) (ms_published s ++ map ex_metric rs).
Proof.
  revert s. induction rs as [|r rs IH]; intros s; simpl; [by rewrite app_nil_r; destruct s|].
  rewrite IH. simpl. by rewrite <- app_assoc.
Qed.

Lemma flush_spec s : flush s
  = mkMetricsState [] [] (ms_histograms s)
      (ms_published s ++ map ex_metric (ms_metrics s) ++ map ex_event (ms_events s)).
Proof. unfold flush. rewrite flush_metrics, flush_events. simpl. by rewrite <- app_assoc. Qed.

(** What a call hands to the exporters. *)
Definition exported (c : Call) : list Exported :=
  let '(snap, now, op) := c in
  match op with
  | op_increment name value tags o =>
      [ex_metric (metric_of snap now mk_counter name (coalesce value 1%Q) tags (mo_unit o) None o)]
  | op_gauge name value tags o => [ex_metric (metric_of snap now mk_gauge name value tags (mo_unit o) None o)]
  | op_timing name ms tags o =>
      [ex_metric (metric_of snap now mk_timing name ms tags (Some (coalesce (mo_unit o) "ms")) None o)]
  | op_histogram name value tags o =>
      [ex_metric (metric_of snap now mk_histogram name value tags (mo_unit o) None o)]
  | op_kpi name value tags metadata o =>
      [ex_metric (metric_of snap now mk_kpi name value tags (mo_unit o) (sanitizeMetadata metadata) o)]
  | op_record r o => [ex_metric (enrich snap r o)]
  | op_event input o => [ex_event (createTelemetryEvent input (event_context snap input o) now)]
  | op_flush => []
  end.

(** Everything the service holds or has published. *)
Definition account (s : MetricsState) : list Exported :=
  ms_published s ++ map ex_metric (ms_metrics s) ++ map ex_event (ms_events s).

Lemma trim_small max s : (buffer_size s <= max)%nat → trim_buffer max s = s.
Proof.
  intros Hs. unfold trim_buffer. assert (buffer_size s - max = 0)%nat as -> by lia.
  cbv zeta. rewrite !Nat.min_0_r, !drop_0. unfold buffer_size in Hs.
  assert (length (ms_metrics s) + length (ms_events s) - max = 0)%nat as -> by lia.
  rewrite Nat.min_0_r, drop_0. by destruct s.
Qed.

Lemma call_accounted max c s :
  (buffer_size s < max)%nat →
  let s' := run_metric (fst (fst c)) (snd (fst c)) max (snd c) s in
  account s' ≡ₚ account s ++ exported c ∧ (buffer_size s' <= S (buffer_size s))%nat.
Proof.
  intros Hs. destruct c as [[snap now] op].
  assert (∀ r o, let s' := emit_metric max r o s in
    account s' ≡ₚ account s ++ [ex_metric r] ∧ (buffer_size s' <= S (buffer_size s))%nat) as Emit.
  { intros r o. unfold emit_metric, buffer_metric, account. destruct (mo_immediate o).
    - simpl. split; [|by apply le_S]. rewrite <- !app_assoc. apply Permutation_app_head.
      simpl. by rewrite Permutation_cons_append, <- app_assoc.
    - cbn zeta. rewrite trim_small by (unfold buffer_size in *; simpl; rewrite length_app; simpl; lia). simpl. split.
      + rewrite map_app, <- !app_assoc. do 2 apply Permutation_app_head. simpl. apply Permutation_cons_append.
      + unfold buffer_size. simpl. rewrite length_app. simpl. lia. }
  destruct op; simpl; try apply Emit.
  - unfold emit_event, buffer_event, account. set (e := createTelemetryEvent _ _ _). destruct (mo_immediate o).
    + simpl. split; [|by apply le_S]. rewrite <- !app_assoc. apply Permutation_app_head.
      simpl. by rewrite Permutation_cons_append, <- app_assoc.
    + rewrite trim_small by (unfold buffer_size in *; simpl; rewrite length_app; simpl; lia). simpl. split.
      * by rewrite map_app, <- !app_assoc.
      * unfold buffer_size. simpl. rewrite length_app. simpl. lia.
  - rewrite flush_spec. unfold account, buffer_size. simpl. rewrite !app_nil_r. split; [done|lia].
Qed.

Lemma calls_bounded max calls s : (buffer_size s <= max)%nat → (buffer_size (run_calls max calls s) <= max)%nat.
Proof.
  unfold run_calls. revert s. induction calls as [|[[snap now] op] calls IH]; intros s Hs; [done|]. simpl. apply IH.
  assert (∀ r o, (buffer_size (emit_metric max r o s) <= max)%nat) as Emit.
  { intros r o. unfold emit_metric, buffer_metric. destruct (mo_immediate o); [done|apply trim_size]. }
  destruct op; simpl; try apply Emit.
  - unfold emit_event, buffer_event. destruct (mo_immediate o); [done|apply trim_size].
  - rewrite flush_spec. unfold buffer_size. simpl. lia.
Qed.

(** The buffer of metrics stays within its bound whatever is emitted, and while no more calls
    are made than it holds nothing is lost: a flush publishes every metric and event of the
    calls exactly once. *)
Theorem metrics_delivered (max : nat) (calls : list Call) :
  let start := mkMetricsState [] [] [] [] in
  let s := run_calls max calls start in
  (buffer_size s <= max)%nat
  ∧ ((length calls <= max)%nat → ms_published (flush s) ≡ₚ calls ≫= exported).
Proof.
  cbn zeta. set (start := mkMetricsState [] [] [] []). split; [apply calls_bounded; unfold buffer_size; simpl; lia|].
  intros Hlen.
  assert (∀ s, (buffer_size s + length calls <= max)%nat →
    account (run_calls max calls s) ≡ₚ account s ++ (calls ≫= exported)) as Acc.
  { clear. unfold run_calls. induction calls as [|c calls IH]; intros s Hs; [by rewrite app_nil_r|].
    simpl in Hs. destruct (call_accounted max c s) as [P L]; [lia|]. simpl.
    rewrite IH by lia. rewrite P, <- app_assoc. done. }
  rewrite flush_spec. simpl. etrans; [apply (Acc start)|done]. unfold buffer_size. simpl. lia.
Qed.

(** ** The subscriber *)
Section ingest.
Context `{Redis, !Postgres, !DateText, !ServerNumber}.

Definition quiet {A} (m : M (St Db) A) : Prop := ∀ s, ∃ a, fst (m s) = Ok a.

Lemma quiet_ret {A} (a : A) : quiet (mret a).
Proof. intros s. by eexists. Qed.

Lemma quiet_bind {A B} (m : M (St Db) A) (f : A → M (St Db) B) :
  quiet m → (∀ a, quiet (f a)) → quiet (m ≫= f).
Proof.
  intros Hm Hf s. destruct (Hm s) as [a E]. unfold mbind, M_bind. destruct (m s) as [o s'].
  simpl in E. subst o. apply Hf.
Qed.

Lemma quiet_settled {A} (m : M (St Db) A) : quiet (settled m).
Proof.
  intros s. unfold settled, try_catch, mbind, M_bind. destruct (m s) as [[a|e] s']; by eexists.
Qed.

Lemma quiet_write_one cache w : quiet (write_one cache w).
Proof.
  unfold write_one. apply quiet_bind; [apply quiet_settled|]. intros [[id c]|]; [|apply quiet_ret].
  apply quiet_bind; [apply quiet_settled|]. intros ?. apply quiet_ret.
Qed.

Lemma quiet_write batch : ∀ cache, quiet (write cache batch).
Proof.
  induction batch as [|w batch IH]; intros cache; [apply quiet_ret|]. simpl.
  apply quiet_bind; [apply quiet_write_one|]. intros [c []]; [apply IH|apply quiet_ret].
Qed.

(** The metrics never disturb the business: whatever was published and whatever the
    database does, the subscriber takes it without throwing. *)
Theorem ingest_never_throws (cache : StreamCache) (xs : list Exported) (s : St Db) :
  ∃ cache', fst (ingest cache xs s) = Ok cache'.
Proof.
  revert s. change (quiet (ingest cache xs)). unfold ingest. revert cache.
  induction xs as [|x xs IH]; intros cache; [apply quiet_ret|]. simpl.
  apply quiet_bind; [|apply IH]. destruct x as [r|e].
  - unfold onMetric. apply quiet_bind; [apply quiet_write|]. intros c.
    destruct (fn_funnel (mr_funnel r) ≫= non_empty), (fn_step (mr_funnel r) ≫= non_empty); try apply quiet_ret.
    apply quiet_bind; [intros ?; by eexists|]. intros now.
    apply quiet_bind; [apply quiet_settled|]. intros ?. apply quiet_ret.
  - unfold onTelemetry. apply quiet_bind; [apply quiet_write|]. intros c.
    apply quiet_bind; [apply quiet_settled|]. intros ?. apply quiet_ret.
Qed.
End ingest.

(** ** Examples *)

(** A secret inside an array is exported, and a company is not. *)
Example secrets_in_arrays :
  sanitize [("cards", FStr "4111"); ("company", FStr "ACME");
            ("items", FArr [FObj [("password", FStr "hunter2")]])]
  = [("items", FArr [FObj [("password", FStr "hunter2")]])].
Proof. reflexivity. Qed.

(** Until somebody flushes nothing is published. *)
Example nothing_published :
  ms_published (run_calls maxSize
    [([], 0, op_increment "orders" None None no_emit_options);
     ([], 1, op_kpi "revenue" 10 None None no_emit_options)] (mkMetricsState [] [] [] [])) = [].
Proof. reflexivity. Qed.

(** Three calls, one of them published at once. *)
Definition three_calls : list Call :=
  [([], 0, op_increment "orders" None None no_emit_options);
   ([], 1, op_gauge "stock" 4 None (mkMetricEmitOptions true [] None));
   ([], 2, op_increment "orders" (Some 2%Q) None no_emit_options)].

Lemma metrics_delivered_witness :
  length (ms_published (flush (run_calls maxSize three_calls (mkMetricsState [] [] [] [])))) = 3%nat.
Proof.
  pose proof (proj2 (metrics_delivered maxSize three_calls) ltac:(apply Nat.leb_le; vm_compute; reflexivity)) as P.
  apply Permutation_length in P. exact P.
Defined.
