(* ===== verification/Routes.v ===== *)
(** * Routes

    Models the controllers under [backend/src/modules] as the table of routes that the
    framework builds from their decorators: for each handler its verb and paths, the
    decorators that the guards and interceptors read, and the call it delegates to with the
    source of every argument. [dispatch] finds the route of a path as the router does
    (first match, letter case ignored, one trailing slash ignored), and [serve] composes
    what happens to a request before its handler: the allowlist, the router, the guards and
    the idempotency interceptor. Decorators that only document are left out. *)
From S2P Require Import Prelude Core Effects Redis Idempotency Guards.

#[local] Open Scope Z_scope.

(** ** Decorators *)

Inductive HttpMethod := GET | POST | PATCH | DELETE.
Definition verb (m : HttpMethod) : string :=
  match m with GET => "GET" | POST => "POST" | PATCH => "PATCH" | DELETE => "DELETE" end.

(** What the guards and interceptors read; [Idempotent] with its option [required]. *)
Inductive Decorator :=
| Public
| Roles (roles : list string)
| Permissions (permissions : list string)
| Idempotent (required : bool)
| TimeoutMs (ms : Z).

(** Checkout / long workflows. *)
Definition LONG_TIMEOUT_MS : Z := 150000.

(** The source of an argument that a handler passes on. *)
Inductive Arg :=
| user_sub | user_sub_if_any | user_session
| param (name : string) | uuid (name : string)  (* [@Param], without and with [ParseUUIDPipe] *)
| query | query_at (name : string) | query_uuid (name : string)
| body | body_at (name : string)
| header (name : string) | raw_body | uploaded_file | request_meta
| lit (text : string)
| result  (* of the call before *)
| number (a : Arg)  (* [Number(a)] *)
| or_else (a b : Arg)  (* [a ?? b], [a || b] *)
| if_truthy (a b c : Arg)  (* [a ? b : c] *)
| fields (fs : list (string * Arg)).

(** What a handler does: a call [this.service.method(args)]; one of several calls,
    depending on the request; calls in turn; a call after checks that may refuse the
    request; or code of its own that calls no modelled service. *)
Inductive Handler :=
| call (service method : string) (args : list Arg)
| one_of_ (hs : list Handler)
| in_turn (hs : list Handler)
| checked (refusals : list string) (h : Handler)
| own_code.

Record Route := route {
  rt_method : HttpMethod; rt_paths : list string; rt_decorators : list Decorator;
  rt_name : string; rt_handler : Handler;
}.
Record Controller := mkController {
  ct_name : string; ct_prefix : string; ct_decorators : list Decorator; ct_routes : list Route;
}.

(** [Reflector.getAllAndOverride]: what the handler says, or else its class. *)
Definition override {A} (key : Decorator → option A) (c : Controller) (r : Route) : option A :=
  match head (omap key (rt_decorators r)) with
  | Some a => Some a
  | None => head (omap key (ct_decorators c))
  end.

Definition route_meta (c : Controller) (r : Route) : RouteMeta :=
  mkRouteMeta
    (match override (λ d, match d with Public => Some tt | _ => None end) c r with
     | Some _ => true | None => false end)
    (coalesce (override (λ d, match d with Roles rs => Some rs | _ => None end) c r) [])
    (coalesce (override (λ d, match d with Permissions ps => Some ps | _ => None end) c r) []).

Definition idempotent_options (c : Controller) (r : Route) : option IdempotentOptions :=
  override (λ d, match d with
                 | Idempotent required => Some (mkIdempotentOptions (Some required) None)
                 | _ => None
                 end) c r.

(** ** Permissions ([constants] of the modules) *)

Module ANALYTICS_PERMISSIONS.
Definition READ : string := "analytics.read".
Definition WRITE : string := "analytics.write".
End ANALYTICS_PERMISSIONS.
Module REPORT_PERMISSIONS.
Definition READ : string := "report.read".
Definition WRITE : string := "report.write".
End REPORT_PERMISSIONS.
Module CATALOG_PERMISSIONS.
Definition READ : string := "catalog.read".
Definition WRITE : string := "catalog.write".
End CATALOG_PERMISSIONS.
Module INVENTORY_PERMISSIONS.
Definition READ : string := "inventory.read".
Definition WRITE : string := "inventory.write".
End INVENTORY_PERMISSIONS.
Module CMS_PERMISSIONS.
Definition READ : string := "cms.read".
Definition WRITE : string := "cms.write".
End CMS_PERMISSIONS.
Module MARKETING_PERMISSIONS.
Definition READ : string := "marketing.read".
Definition WRITE : string := "marketing.write".
End MARKETING_PERMISSIONS.
Module ORDERS_PERMISSIONS.
Definition READ : string := "orders.read".
Definition WRITE : string := "orders.write".
End ORDERS_PERMISSIONS.
Module PAYMENTS_PERMISSIONS.
Definition READ : string := "payments.read".
Definition WRITE : string := "payments.write".
End PAYMENTS_PERMISSIONS.
Module SHIPPING_PERMISSIONS.
Definition READ : string := "shipping.read".
Definition WRITE : string := "shipping.write".
End SHIPPING_PERMISSIONS.
Module WARRANTY_PERMISSIONS.
Definition READ : string := "warranty.read".
Definition WRITE : string := "warranty.write".
End WARRANTY_PERMISSIONS.
Module SERVICE_PERMISSIONS.
Definition READ : string := "service.read".
Definition WRITE : string := "service.write".
End SERVICE_PERMISSIONS.

(** ** The controllers *)

Definition AdminAnalyticsController : Controller :=
  mkController "AdminAnalyticsController" "admin/analytics" [Roles ["admin"; "super_admin"]] [
   route POST ["reports"] [Permissions [REPORT_PERMISSIONS.WRITE]; Idempotent true] "createOrExportReport"
     (one_of_ [call "reportService" "enqueueGenerate" [user_sub;
       fields [("savedReportId", body_at "savedReportId"); ("format", body_at "format")]];
       call "reportService" "enqueueGenerate" [user_sub; fields [("format", lit "json")]];
       call "reportService" "createSaved" [user_sub; fields [("code", body_at "code");
       ("name", body_at "name"); ("reportType", body_at "reportType"); ("query", body_at "query")]]]);
   route POST ["schedules"] [Permissions [REPORT_PERMISSIONS.WRITE]; Idempotent true] "schedule"
     (call "reportService" "createSchedule" [user_sub; fields [("savedReportId", body_at "savedReportId");
       ("cronExpression", body_at "cronExpression"); ("timezone", body_at "timezone");
       ("recipients", body_at "recipients")]]);
   route POST ["alerts"] [Permissions [ANALYTICS_PERMISSIONS.WRITE]; Idempotent true] "createAlert"
     (call "alerts" "create" [user_sub; fields [("code", body_at "code"); ("name", body_at "name");
       ("severity", body_at "severity"); ("condition", body_at "condition");
       ("cooldownMinutes", body_at "cooldownMinutes"); ("isEnabled", body_at "isEnabled")]]);
   route POST ["kpis"] [Permissions [ANALYTICS_PERMISSIONS.WRITE]; Idempotent true] "kpisEndpoint"
     (one_of_ [call "kpis" "refresh" [body_at "domain"]; call "kpis" "upsert" [user_sub;
       fields [("domain", body_at "domain"); ("period", body_at "period"); ("metrics", body_at "metrics");
       ("threshold", body_at "threshold")]]]);
   route PATCH ["dashboard"] [Permissions [ANALYTICS_PERMISSIONS.WRITE]; Idempotent true] "patchDashboard"
     (call "dashboards" "patchLayout" [user_sub; fields [("code", body_at "code"); ("name", body_at "name");
       ("isDefault", body_at "isDefault"); ("widgets", body_at "widgets")]]);
   route POST ["dashboard/refresh"] [Permissions [ANALYTICS_PERMISSIONS.WRITE];
       Idempotent true] "refreshDashboard"
     (call "dashboards" "refresh" [user_sub; or_else (body_at "code") (lit "executive")]);
   route GET ["system"] [Permissions [ANALYTICS_PERMISSIONS.READ]] "systemHealth" (call "system" "snapshot" []);
   route POST ["alerts/evaluate"] [Permissions [ANALYTICS_PERMISSIONS.WRITE]; Idempotent true] "evaluateAlerts"
     (in_turn [call "alerts" "buildFactsFromMetrics" []; call "alerts" "enqueueEvaluation" [result]])].

Definition AnalyticsController : Controller :=
  mkController "AnalyticsController" "analytics" [Permissions [ANALYTICS_PERMISSIONS.READ]] [
   route GET ["dashboard"] [] "dashboard"
     (call "dashboards" "getDashboard" [or_else (query_at "code") (lit "executive")]);
   route GET ["kpis"] [] "listKpis" (call "kpis" "list" [or_else (query_at "period") (lit "daily")]);
   route GET ["reports"] [Permissions [REPORT_PERMISSIONS.READ]] "listReports" (call "reports" "listSaved" []);
   route GET ["funnels"] [] "funnels" (call "insights" "funnels" []);
   route GET ["trends"] [] "trends"
     (call "insights" "trends" [or_else (query_at "domain") (lit "sales");
       or_else (query_at "period") (lit "daily"); or_else (query_at "days") (lit "30")]);
   route GET ["cohorts"] [] "cohorts" (call "insights" "cohorts" []);
   route GET ["ltv"] [] "ltv" (call "insights" "ltv" []);
   route GET ["rfm"] [] "rfm" (call "insights" "rfm" [])].

Definition AdminCustomersController : Controller :=
  mkController "AdminCustomersController" "admin/customers"
    [Roles ["admin"; "super_admin"]; Permissions [ORDERS_PERMISSIONS.READ]] [
   route GET [""] [] "list"
     (call "customers" "list" [if_truthy (query_at "page") (number (query_at "page")) (lit "1");
       if_truthy (query_at "limit") (number (query_at "limit")) (lit "50")])].

Definition AuthController : Controller :=
  mkController "AuthController" "auth" [] [
   route POST ["register"] [Public] "register" (call "authService" "register" [body; request_meta]);
   route POST ["login"] [Public] "login" (call "authService" "login" [body; request_meta]);
   route POST ["firebase"] [Public] "firebaseLogin"
     (call "authService" "loginWithFirebase" [body_at "idToken"; request_meta]);
   route POST ["refresh"] [Public] "refresh" (call "authService" "refresh" [body_at "refreshToken"]);
   route POST ["logout"] [] "logout"
     (call "authService" "logout" [user_sub; body_at "refreshToken";
       or_else (body_at "sessionId") user_session]);
   route GET ["me"] [] "me" (call "authService" "me" [user_sub; user_session]);
   route PATCH ["profile"] [] "updateProfile" (call "authService" "updateProfile" [user_sub; body]);
   route POST ["change-password"] [] "changePassword"
     (call "authService" "changePassword" [user_sub; body_at "currentPassword"; body_at "newPassword";
       or_else (body_at "keepSessionId") user_session]);
   route POST ["forgot-password"] [Public] "forgotPassword"
     (call "authService" "forgotPassword" [body_at "identifier"]);
   route POST ["reset-password"] [Public] "resetPassword" (call "authService" "resetPassword" [body]);
   route POST ["verify-email"] [Public] "verifyEmail"
     (call "authService" "verifyEmail" [body_at "email"; body_at "code"]);
   route POST ["resend-verification"] [Public] "resendVerification"
     (call "authService" "resendVerification" [body_at "email"]);
   route POST ["send-otp"] [Public] "sendOtp" (call "authService" "sendOtp" [body]);
   route POST ["verify-otp"] [Public] "verifyOtp" (call "authService" "verifyOtp" [body]);
   route GET ["sessions"] [] "listSessions" (call "authService" "listSessions" [user_sub; user_session]);
   route DELETE ["sessions/:id"] [] "revokeSession" (call "authService" "revokeSession" [user_sub; param "id"]);
   route DELETE ["sessions"] [] "revokeAllSessions"
     (call "authService" "revokeAllSessions" [user_sub; user_session])].

Definition AdminCatalogController : Controller :=
  mkController "AdminCatalogController" "admin/catalog"
    [Roles ["admin"; "super_admin"]; Permissions [CATALOG_PERMISSIONS.WRITE]] [
   route POST ["brands"] [Idempotent true] "createBrand" (call "catalog" "createBrand" [body; user_sub]);
   route PATCH ["brands/:id"] [] "updateBrand" (call "catalog" "updateBrand" [uuid "id"; body; user_sub]);
   route DELETE ["brands/:id"] [] "deleteBrand" (call "catalog" "deleteBrand" [uuid "id"]);
   route POST ["categories"] [Idempotent true] "createCategory"
     (call "catalog" "createCategory" [body; user_sub]);
   route PATCH ["categories/:id"] [] "updateCategory"
     (call "catalog" "updateCategory" [uuid "id"; body; user_sub]);
   route DELETE ["categories/:id"] [] "deleteCategory" (call "catalog" "deleteCategory" [uuid "id"]);
   route POST ["collections"] [Idempotent true] "createCollection"
     (call "catalog" "createCollection" [body; user_sub]);
   route PATCH ["collections/:id"] [] "updateCollection"
     (call "catalog" "updateCollection" [uuid "id"; body; user_sub]);
   route POST ["collections/:id/products"] [Idempotent true] "assignCollectionProducts"
     (call "catalog" "assignCollectionProducts" [uuid "id"; body]);
   route DELETE ["collections/:id"] [] "deleteCollection" (call "catalog" "deleteCollection" [uuid "id"]);
   route POST ["products"] [Idempotent true] "createProduct" (call "catalog" "createProduct" [body; user_sub]);
   route PATCH ["products/:id"] [] "updateProduct" (call "catalog" "updateProduct" [uuid "id"; body; user_sub]);
   route DELETE ["products/:id"] [] "deleteProduct" (call "catalog" "deleteProduct" [uuid "id"]);
   route POST ["variants"] [Idempotent true] "createVariant" (call "catalog" "createVariant" [body; user_sub]);
   route PATCH ["variants/:id"] [] "updateVariant" (call "catalog" "updateVariant" [uuid "id"; body; user_sub]);
   route DELETE ["variants/:id"] [] "deleteVariant" (call "catalog" "deleteVariant" [uuid "id"]);
   route POST ["products/:id/media"] [Idempotent true] "attachMedia"
     (call "catalog" "attachMedia" [uuid "id"; body]);
   route DELETE ["products/:productId/media/:mediaId"] [] "deleteMedia"
     (call "catalog" "deleteMedia" [uuid "productId"; uuid "mediaId"]);
   route POST ["products/:id/specifications"] [Idempotent true] "addSpec"
     (call "catalog" "addSpecification" [uuid "id"; body]);
   route DELETE ["products/:productId/specifications/:specId"] [] "deleteSpec"
     (call "catalog" "deleteSpecification" [uuid "productId"; uuid "specId"]);
   route GET ["badges"] [Permissions [CATALOG_PERMISSIONS.READ]] "listBadges" (call "catalog" "listBadges" []);
   route POST ["badges"] [Idempotent true] "createBadge" (call "catalog" "createBadge" [body]);
   route POST ["badges/assign"] [Idempotent true] "assignBadge" (call "catalog" "assignBadge" [body]);
   route POST ["seo"] [Idempotent true] "upsertSeo" (call "catalog" "upsertSeo" [body]);
   route GET ["buying-guides"] [Permissions [CATALOG_PERMISSIONS.READ]] "listGuides"
     (call "catalog" "listBuyingGuides" []);
   route POST ["buying-guides"] [Idempotent true] "createGuide"
     (call "catalog" "createBuyingGuide" [body; user_sub]);
   route DELETE ["buying-guides/:id"] [] "deleteGuide" (call "catalog" "deleteBuyingGuide" [uuid "id"])].

Definition AdminMediaController : Controller :=
  mkController "AdminMediaController" "admin/media"
    [Roles ["admin"; "super_admin"]; Permissions [CATALOG_PERMISSIONS.WRITE]] [
   route POST ["upload"] [] "upload"
     (checked ["Image file is required"; "Only image uploads are allowed"]
         (call "catalog" "uploadMediaFile" [uploaded_file; user_sub]))].

Definition CatalogController : Controller :=
  mkController "CatalogController" "catalog" [] [
   route GET ["brands"] [Public] "listBrands" (call "catalog" "listBrands" []);
   route GET ["product-types"] [Public] "listProductTypes" (call "catalog" "listProductTypes" []);
   route GET ["categories"] [Public] "listCategories" (call "catalog" "listCategories" []);
   route GET ["categories/tree"] [Public] "categoryTree" (call "catalog" "categoryTree" []);
   route GET ["collections"] [Public] "listCollections" (call "catalog" "listCollections" []);
   route GET ["attributes"] [Public] "listAttributes" (call "catalog" "listAttributes" []);
   route GET ["products/search"] [Public] "search" (call "catalog" "searchProducts" [query]);
   route GET ["products/featured"] [Public] "featured" (call "catalog" "featuredProducts" []);
   route GET ["products/new"] [Public] "newest" (call "catalog" "newProducts" []);
   route GET ["products/refurbished"] [Public] "refurbished" (call "catalog" "refurbishedProducts" []);
   route GET ["products"] [Public] "list" (call "catalog" "searchProducts" [query]);
   route GET ["products/:idOrSlug"] [Public] "getOne" (call "catalog" "getProduct" [param "idOrSlug"]);
   route GET ["products/:id/specifications"] [Public] "specifications"
     (call "catalog" "productSpecifications" [uuid "id"]);
   route GET ["products/:id/media"] [Public] "media" (call "catalog" "productMedia" [uuid "id"]);
   route GET ["products/:id/videos"] [Public] "videos" (call "catalog" "productVideos" [uuid "id"]);
   route GET ["products/:id/questions"] [Public] "questions" (call "catalog" "productQuestions" [uuid "id"])].

Definition HealthController : Controller :=
  mkController "HealthController" "health" [] [
   route GET [""] [Public] "getHealth" own_code;
   route GET ["live"] [Public] "live" own_code;
   route GET ["ready"] [Public] "ready" own_code;
   route GET ["db"] [Public] "checkDb" own_code;
   route GET ["redis"] [Public] "checkRedis" own_code;
   route GET ["storage"] [Public] "checkStorage" own_code;
   route GET ["queues"] [Public] "checkQueues" own_code].

Definition AdminInventoryController : Controller :=
  mkController "AdminInventoryController" "admin/inventory"
    [Roles ["admin"; "super_admin"]; Permissions [INVENTORY_PERMISSIONS.WRITE]] [
   route POST ["warehouses"] [Idempotent true] "createWarehouse"
     (call "inventory" "createWarehouse" [body; user_sub]);
   route PATCH ["warehouses/:id"] [] "updateWarehouse"
     (call "inventory" "updateWarehouse" [uuid "id"; body; user_sub]);
   route DELETE ["warehouses/:id"] [] "deleteWarehouse" (call "inventory" "deleteWarehouse" [uuid "id"]);
   route POST ["locations"] [Idempotent true] "createLocation"
     (call "inventory" "createLocation" [body; user_sub]);
   route POST ["reserve"] [Idempotent true] "reserve" (call "inventory" "reserve" [body; user_sub]);
   route POST ["reservations/:id/release"] [] "release"
     (call "inventory" "releaseReservation" [uuid "id"; user_sub]);
   route POST ["adjustments"] [Idempotent true] "adjust" (call "inventory" "adjust" [body; user_sub]);
   route POST ["goods-receipts"] [Idempotent true] "goodsReceipt"
     (call "inventory" "createGoodsReceipt" [body; user_sub]);
   route POST ["transfers"] [Idempotent true] "transfer" (call "inventory" "createTransfer" [body; user_sub]);
   route POST ["purchase-orders"] [Idempotent true] "createPo"
     (call "inventory" "createPurchaseOrder" [body; user_sub]);
   route GET ["purchase-orders"] [Permissions [INVENTORY_PERMISSIONS.READ]] "listPos"
     (call "inventory" "listPurchaseOrders" []);
   route GET ["low-stock-alerts"] [Permissions [INVENTORY_PERMISSIONS.READ]] "lowStock"
     (call "inventory" "listLowStockAlerts" []);
   route GET ["cycle-counts"] [Permissions [INVENTORY_PERMISSIONS.READ]] "cycleCounts"
     (call "inventory" "listCycleCounts" [query_at "warehouseId"]);
   route POST ["cycle-counts"] [Idempotent true] "createCycleCount"
     (call "inventory" "createCycleCount" [body_at "warehouseId"; body_at "jobNumber"; user_sub]);
   route PATCH ["serials/:id/refurbishment"] [] "updateRefurb"
     (call "inventory" "updateRefurbishment" [uuid "id"; body])].

Definition InventoryController : Controller :=
  mkController "InventoryController" "inventory" [] [
   route GET [""] [Public] "list" (call "inventory" "listInventory" [query]);
   route GET ["stock"] [Public] "stock"
     (call "inventory" "getStock" [query_uuid "warehouseId"; query_uuid "variantId"]);
   route GET ["warehouse-availability"] [Public] "availability"
     (call "inventory" "warehouseAvailability" [query_uuid "variantId"]);
   route GET ["warehouses"] [Public] "listWarehouses" (call "inventory" "listWarehouses" []);
   route GET ["warehouses/:id"] [Public] "getWarehouse" (call "inventory" "getWarehouse" [uuid "id"]);
   route GET ["serial/:serial"] [Public] "serialLookup" (call "inventory" "serialLookup" [param "serial"])].

Definition AdminCmsController : Controller :=
  mkController "AdminCmsController" "admin"
    [Roles ["admin"; "super_admin"]; Permissions [CMS_PERMISSIONS.WRITE]] [
   route GET ["settings"] [Permissions [CMS_PERMISSIONS.READ]] "getSettings" (call "cms" "getStoreSettings" []);
   route PATCH ["settings"] [Idempotent true] "patchSettings"
     (call "cms" "upsertStoreSettings" [user_sub; body]);
   route POST ["cms/pages"] [Idempotent true] "createPage" (call "cms" "createPage" [user_sub; body]);
   route PATCH ["cms/pages/:id"] [Idempotent true] "patchPage"
     (call "cms" "patchPage" [user_sub; uuid "id"; body]);
   route POST ["banners"] [Idempotent true] "createBanner" (call "cms" "createBanner" [user_sub; body]);
   route POST ["popups"] [Idempotent true] "createPopup" (call "cms" "createPopup" [user_sub; body]);
   route POST ["blogs"] [Idempotent true] "createBlog" (call "cms" "createBlog" [user_sub; body])].

Definition AdminMarketingController : Controller :=
  mkController "AdminMarketingController" "admin"
    [Roles ["admin"; "super_admin"]; Permissions [MARKETING_PERMISSIONS.WRITE]] [
   route GET ["marketing/dashboard"] [Permissions [MARKETING_PERMISSIONS.READ]] "dash"
     (call "dashboard" "dashboard" []);
   route POST ["campaigns"] [Idempotent true] "createCampaign" (call "campaigns" "create" [user_sub; body]);
   route POST ["coupons"] [Idempotent true] "createCoupon" (call "coupons" "create" [user_sub; body]);
   route POST ["loyalty"] [Idempotent true] "loyalty"
     (one_of_ [call "loyaltyService" "createRewardRule" [user_sub; fields [("code", body_at "code");
       ("name", body_at "name"); ("pointsPerRupee", body_at "pointsPerRupee");
       ("fixedPoints", body_at "fixedPoints"); ("minOrderAmount", body_at "minOrderAmount");
       ("tierRequired", body_at "tierRequired")]]; call "loyaltyService" "earn" [user_sub; body]]);
   route POST ["referrals"] [Idempotent true] "referralsAdmin"
     (one_of_ [call "referrals" "claim" [user_sub; body]; call "referrals" "createProgram" [user_sub; body]]);
   route POST ["feature-flags"] [Idempotent true] "createFlag" (call "flags" "create" [user_sub; body]);
   route POST ["search"] [Idempotent true] "createSearch" (call "search" "createKeyword" [user_sub; body]);
   route POST ["recommendations"] [Idempotent true] "createRec" (call "recs" "create" [user_sub; body]);
   route POST ["ab-tests"] [Idempotent true] "createAb" (call "ab" "create" [user_sub; body])].

Definition CmsPublicController : Controller :=
  mkController "CmsPublicController" "" [] [
   route GET ["cms/pages/:slug"] [Public] "page" (call "cms" "getPageBySlug" [param "slug"]);
   route GET ["blog"] [Public] "blogs" (call "cms" "listBlogs" []);
   route GET ["blog/:slug"] [Public] "blog" (call "cms" "getBlog" [param "slug"]);
   route GET ["guides"] [Public] "guides" (call "cms" "listGuides" []);
   route GET ["banners"] [Public] "banners" (call "cms" "listBanners" []);
   route GET ["navigation"] [Public] "navigation" (call "cms" "getNavigation" [])].

Definition MarketingPublicController : Controller :=
  mkController "MarketingPublicController" "" [] [
   route POST ["coupons/validate"] [] "validate" (call "coupons" "validate" [user_sub; body]);
   route POST ["coupons/apply"] [Idempotent true] "apply" (call "coupons" "apply" [user_sub; body]);
   route GET ["feature-flags"] [Public] "featureFlags" (call "flags" "listAndEvaluate" [user_sub_if_any]);
   route GET ["recommendations"] [Public] "recommendations"
     (call "recs" "list" [query_at "productId"; user_sub_if_any; query_at "type"]);
   route GET ["search/suggestions"] [Public] "suggestions"
     (call "search" "suggestions" [or_else (query_at "q") (lit "")])].

Definition AdminOrdersController : Controller :=
  mkController "AdminOrdersController" "admin/orders"
    [Roles ["admin"; "super_admin"]; Permissions [ORDERS_PERMISSIONS.WRITE]] [
   route GET [""] [Permissions [ORDERS_PERMISSIONS.READ]] "list"
     (call "orders" "adminList" [if_truthy (query_at "page") (number (query_at "page")) (lit "1");
       if_truthy (query_at "limit") (number (query_at "limit")) (lit "20"); query_at "status"]);
   route GET ["invoices"] [Permissions [ORDERS_PERMISSIONS.READ]] "listInvoices"
     (call "orders" "listInvoices" [if_truthy (query_at "page") (number (query_at "page")) (lit "1");
       if_truthy (query_at "limit") (number (query_at "limit")) (lit "50")]);
   route GET [":id"] [Permissions [ORDERS_PERMISSIONS.READ]] "detail" (call "orders" "getOrder" [param "id"]);
   route POST [":id/cancel"] [Idempotent true] "cancel"
     (call "orders" "cancel" [uuid "id"; user_sub; body; lit "true"]);
   route POST [":id/fulfillments"] [Idempotent true] "createFulfillment"
     (call "orders" "createFulfillment" [uuid "id"; body; user_sub]);
   route PATCH ["fulfillments/:id/status"] [Idempotent true] "updateFulfillment"
     (call "orders" "updateFulfillmentStatus" [uuid "id"; body_at "status"]);
   route POST [":id/invoices"] [Idempotent true] "createInvoice"
     (call "orders" "createInvoice" [uuid "id"; user_sub]);
   route GET [":id/risk"] [Permissions [ORDERS_PERMISSIONS.READ]] "risk" (call "orders" "risk" [uuid "id"])].

Definition OrdersController : Controller :=
  mkController "OrdersController" "" [] [
   route GET ["cart"] [Public] "getCart" (call "carts" "getOrCreate" [user_sub_if_any; query_at "sessionKey"]);
   route POST ["cart/items"] [Public] "addCartItem"
     (call "carts" "addItem" [body_at "variantId"; body_at "quantity"; user_sub_if_any; query_at "sessionKey"]);
   route PATCH ["cart/items/:itemId"] [Public] "updateCartItem"
     (call "carts" "updateItem" [uuid "itemId"; body_at "quantity"; user_sub_if_any; query_at "sessionKey"]);
   route DELETE ["cart/items/:itemId"] [Public] "removeCartItem"
     (call "carts" "removeItem" [uuid "itemId"; user_sub_if_any; query_at "sessionKey"]);
   route GET ["wishlist"] [] "getWishlist" (call "orders" "getWishlist" [user_sub]);
   route POST ["wishlist/items"] [] "addWishlist"
     (call "orders" "addWishlistItem" [user_sub; body_at "variantId"]);
   route DELETE ["wishlist/items/:itemId"] [] "removeWishlist"
     (call "orders" "removeWishlistItem" [user_sub; uuid "itemId"]);
   route GET ["addresses"] [] "addresses" (call "orders" "listAddresses" [user_sub]);
   route POST ["checkout"] [Idempotent true; TimeoutMs LONG_TIMEOUT_MS] "checkout"
     (call "checkoutService" "checkout" [user_sub; body]);
   route GET ["orders"] [] "history" (call "orders" "history" [user_sub]);
   route GET ["orders/:idOrNumber"] [] "detail" (call "orders" "getOrder" [param "idOrNumber"; user_sub]);
   route POST ["orders/:id/cancel"] [Idempotent true] "cancel"
     (call "orders" "cancel" [uuid "id"; user_sub; body; lit "false"]);
   route POST ["orders/:id/returns"] [Idempotent true] "requestReturn"
     (call "orders" "requestReturn" [user_sub; uuid "id"; body]);
   route POST ["orders/:id/exchanges"] [Idempotent true] "requestExchange"
     (call "orders" "requestExchange" [user_sub; uuid "id"; body]);
   route GET ["cancellation-reasons"] [Public] "cancellationReasons"
     (call "orders" "listCancellationReasons" [])].

Definition AdminPaymentsController : Controller :=
  mkController "AdminPaymentsController" "admin/payments"
    [Roles ["admin"; "super_admin"]; Permissions [PAYMENTS_PERMISSIONS.WRITE]] [
   route GET ["settlements/list"] [Permissions [PAYMENTS_PERMISSIONS.READ]] "listSettlements"
     (call "settlements" "list" [query_at "gatewayId"]);
   route POST ["settlements"] [Idempotent true] "createSettlement"
     (call "settlements" "createSettlement" [user_sub; body]);
   route GET ["reconciliation/list"] [Permissions [PAYMENTS_PERMISSIONS.READ]] "listReconciliation"
     (call "reconciliation" "list" [query_at "status"]);
   route POST ["reconciliation"] [Idempotent true] "reconcile"
     (call "reconciliation" "reconcile" [user_sub; body]);
   route GET ["reports/failed"] [Permissions [PAYMENTS_PERMISSIONS.READ]] "failedReport"
     (call "reconciliation" "failedTransactionsReport" []);
   route GET ["disputes"] [Permissions [PAYMENTS_PERMISSIONS.READ]] "listDisputes"
     (call "disputes" "list" [query_at "paymentId"]);
   route POST ["disputes"] [Idempotent true] "createDispute" (call "disputes" "create" [user_sub; body]);
   route GET ["disputes/:id"] [Permissions [PAYMENTS_PERMISSIONS.READ]] "getDispute"
     (call "disputes" "get" [uuid "id"]);
   route PATCH ["disputes/:id"] [] "updateDispute" (call "disputes" "update" [uuid "id"; user_sub; body]);
   route GET [""] [Permissions [PAYMENTS_PERMISSIONS.READ]] "byOrder"
     (call "payments" "getByOrder" [query_at "orderId"; user_sub; lit "true"]);
   route GET [":id"] [Permissions [PAYMENTS_PERMISSIONS.READ]] "get"
     (call "payments" "getById" [uuid "id"; user_sub; lit "true"]);
   route POST [":id/capture"] [Idempotent true] "capture"
     (call "payments" "capture" [uuid "id"; user_sub; lit "true"]);
   route POST [":id/refund"] [Idempotent true] "refund"
     (call "refunds" "refund" [uuid "id"; user_sub; body; lit "true"])].

Definition PaymentsController : Controller :=
  mkController "PaymentsController" "payments" [] [
   route POST ["create"] [Idempotent true] "create" (call "payments" "create" [user_sub; body]);
   route POST ["webhooks/razorpay"] [Public; Idempotent true] "razorpayWebhook"
     (checked ["Raw webhook body unavailable — enable Nest rawBody"]
         (call "webhooks" "receiveRazorpay" [fields [("rawBody", raw_body);
       ("signature", or_else (header "x-razorpay-signature") (lit "")); ("payload", body)]]));
   route GET ["methods"] [] "methods" (call "payments" "listMethods" []);
   route GET ["history"] [] "history" (call "payments" "history" [user_sub; query_at "page"; query_at "limit"]);
   route GET ["saved-methods"] [] "saved" (call "payments" "listSaved" [user_sub]);
   route POST ["saved-methods"] [Idempotent true] "saveMethod" (call "payments" "saveMethod" [user_sub; body]);
   route DELETE ["saved-methods/:id"] [] "deleteSaved" (call "payments" "deleteSaved" [user_sub; uuid "id"]);
   route PATCH ["saved-methods/:id/default"] [] "defaultSaved"
     (call "payments" "setDefaultSaved" [user_sub; uuid "id"]);
   route GET ["order/:orderId"] [] "byOrder" (call "payments" "getByOrder" [uuid "orderId"; user_sub]);
   route GET [":id"] [] "get" (call "payments" "getById" [uuid "id"; user_sub]);
   route POST [":id/authorize"] [Idempotent true] "authorize"
     (call "payments" "authorize" [uuid "id"; user_sub]);
   route POST [":id/capture"] [Idempotent true] "capture" (call "payments" "capture" [uuid "id"; user_sub]);
   route POST [":id/cancel"] [Idempotent true] "cancel" (call "payments" "cancel" [uuid "id"; user_sub]);
   route POST [":id/refund"] [Idempotent true] "refund" (call "refunds" "refund" [uuid "id"; user_sub; body]);
   route GET [":id/refunds"] [] "listRefunds" (call "refunds" "listForPayment" [uuid "id"]);
   route POST [":id/retry"] [Idempotent true] "retry" (call "payments" "retry" [uuid "id"; user_sub])].

Definition AdminShippingController : Controller :=
  mkController "AdminShippingController" "admin/shipping"
    [Roles ["admin"; "super_admin"]; Permissions [SHIPPING_PERMISSIONS.WRITE]] [
   route POST ["shipments"] [Idempotent true] "create" (call "shipping" "createShipment" [user_sub; body]);
   route POST ["labels"] [Idempotent true] "label" (call "shipping" "generateLabel" [user_sub; body]);
   route POST ["pickups"] [Idempotent true] "pickup" (call "shipping" "schedulePickup" [user_sub; body]);
   route PATCH ["shipments/:id/status"] [] "status" (call "shipping" "updateStatus" [user_sub; uuid "id"; body]);
   route POST ["reverse"] [Idempotent true] "createReverse" (call "reverse" "createReverse" [user_sub; body]);
   route POST ["rto"] [Idempotent true] "rto" (call "reverse" "createRto" [user_sub; body]);
   route POST ["rates"] [Idempotent true] "createRate" (call "rates" "createRate" [user_sub; body]);
   route POST ["carriers"] [Idempotent true] "createCarrier" (call "rates" "createCarrier" [user_sub; body]);
   route GET ["webhooks"] [Permissions [SHIPPING_PERMISSIONS.READ]] "listWebhooks"
     (call "webhooks" "listRecent" [or_else (number (query_at "limit")) (lit "50")]);
   route POST ["webhooks"] [Idempotent true] "postWebhooks"
     (call "webhooks" "listRecent" [or_else (number (query_at "limit")) (lit "50")]);
   route GET ["logs"] [Permissions [SHIPPING_PERMISSIONS.READ]] "logs"
     (call "webhooks" "listRecent" [or_else (number (query_at "limit")) (lit "50")]);
   route POST ["shipments/:id/sync-tracking"] [] "sync" (call "shipping" "syncTracking" [uuid "id"; user_sub])].

Definition ShippingController : Controller :=
  mkController "ShippingController" "shipping" [] [
   route GET ["methods"] [] "methods" (call "rates" "listMethods" []);
   route GET ["rates"] [] "ratesList"
     (call "rates" "listRates" [query_at "fromPincode"; query_at "toPincode"; query_at "weightKg"]);
   route POST ["estimate"] [] "estimate" (call "rates" "estimate" [body]);
   route POST ["shipments"] [Idempotent true] "create" (call "shipping" "createShipment" [user_sub; body]);
   route GET ["shipments/:id"] [] "get" (call "shipping" "getShipment" [uuid "id"]);
   route GET ["shipments/:id/tracking"] [] "tracking" (call "shipping" "getTracking" [uuid "id"]);
   route GET ["delivery-slots"] [] "slots" (call "rates" "listDeliverySlots" []);
   route GET ["pickup-points"] [] "pickupPoints" (call "rates" "listPickupPoints" []);
   route POST ["webhooks/tracking"; "webhooks/shiprocket"] [Public; Idempotent false] "shiprocketWebhook"
     (checked ["Raw webhook body unavailable — enable Nest rawBody"]
         (call "webhooks" "receiveShiprocket" [fields [("rawBody", raw_body);
       ("signature", or_else (header "x-api-hmac-sha256") (or_else (header "x-api-key") (lit "")));
       ("payload", body)]]))].

Definition TemplateController : Controller :=
  mkController "TemplateController" "template" [] [
   route GET ["ping"] [Public] "ping" (call "templateService" "ping" []);
   route POST ["echo"] [Public; Idempotent true] "echo" own_code].

Definition AdminWarrantyController : Controller :=
  mkController "AdminWarrantyController" "admin/warranty"
    [Roles ["admin"; "super_admin"]; Permissions [WARRANTY_PERMISSIONS.WRITE]] [
   route POST ["plans"] [Idempotent true] "createPlan" (call "warranty" "createPlan" [user_sub; body]);
   route PATCH ["claims/:id"] [Idempotent true] "patchClaim"
     (call "warranty" "patchClaim" [user_sub; uuid "id"; body]);
   route POST ["extend"] [Idempotent true] "extend"
     (call "warranty" "extend" [user_sub; body_at "registrationId"; body_at "planId"; body_at "purchaseAmount"]);
   route POST ["transfer"] [Idempotent true] "transfer"
     (call "warranty" "transfer" [user_sub; body_at "registrationId"; body_at "toCustomerId"]);
   route PATCH ["rma/:id"] [Idempotent true] "patchRma" (call "rma" "patch" [user_sub; uuid "id"; body]);
   route POST ["rma/:id/refund"] [Idempotent true] "refundRma"
     (call "rma" "requestRefund" [user_sub; uuid "id"; body])].

Definition AdminServiceController : Controller :=
  mkController "AdminServiceController" "admin/service"
    [Roles ["admin"; "super_admin"]; Permissions [SERVICE_PERMISSIONS.WRITE]] [
   route GET ["dashboard"] [Permissions [SERVICE_PERMISSIONS.READ]] "dashboard" (call "ops" "dashboard" []);
   route POST ["assign"] [Idempotent true] "assign" (call "ops" "assignTechnician" [user_sub; body]);
   route POST ["jobs"] [Idempotent true] "createJob" (call "ops" "createRepairJob" [user_sub; body]);
   route PATCH ["jobs/:id"] [Idempotent true] "patchJob"
     (call "ops" "patchRepairJob" [user_sub; uuid "id"; body]);
   route POST ["diagnostics"] [Idempotent true] "diagnostics" (call "ops" "createDiagnostic" [user_sub; body]);
   route POST ["loan-devices"] [Idempotent true] "loan" (call "ops" "allocateLoanDevice" [user_sub; body]);
   route POST ["spare-parts"] [Idempotent true] "spareParts" (call "ops" "useSparePart" [user_sub; body]);
   route POST ["tickets"] [Idempotent true] "createTicket" (call "ops" "createTicket" [user_sub; body])].

Definition WarrantyController : Controller :=
  mkController "WarrantyController" "warranty" [] [
   route GET ["plans"] [Public] "listPlans" (call "warranty" "listPlans" []);
   route GET ["check/:serial"] [Public] "check" (call "warranty" "checkBySerial" [param "serial"]);
   route POST ["register"] [Idempotent true] "register" (call "warranty" "register" [user_sub; body]);
   route POST ["claims"] [Idempotent true] "createClaim" (call "warranty" "createClaim" [user_sub; body]);
   route GET ["claims/:id"] [] "getClaim" (call "warranty" "getClaim" [uuid "id"; user_sub]);
   route POST ["rma"] [Idempotent true] "createRma" (call "rma" "create" [user_sub; body])].

Definition ServiceController : Controller :=
  mkController "ServiceController" "service" [] [
   route GET ["tickets"] [] "listTickets" (call "ops" "listTickets" [user_sub]);
   route POST ["tickets"] [Idempotent true] "createTicket" (call "ops" "createTicket" [user_sub; body]);
   route GET ["jobs/:id"] [] "getJob" (call "ops" "getRepairJob" [uuid "id"]);
   route GET ["appointments"] [] "appointments" (call "ops" "listAppointments" [user_sub])].

(** ** The router *)

(** The controllers in the order of the modules that [app.module.ts] imports. *)
Definition app_controllers : list Controller :=
  [AuthController; AdminCustomersController;
   CatalogController; AdminCatalogController; AdminMediaController;
   InventoryController; AdminInventoryController;
   OrdersController; AdminOrdersController;
   PaymentsController; AdminPaymentsController;
   ShippingController; AdminShippingController;
   WarrantyController; ServiceController; AdminWarrantyController; AdminServiceController;
   CmsPublicController; MarketingPublicController; AdminCmsController; AdminMarketingController;
   AnalyticsController; AdminAnalyticsController;
   HealthController; TemplateController].

(** The texts between slashes. *)
Fixpoint split_slash (acc s : string) : list string :=
  match s with
  | "" => [acc]
  | String c rest => if Ascii.eqb c "/" then acc :: split_slash "" rest
                     else split_slash (acc +:+ String c "") rest
  end.

(** A path as the router sees it: without its leading and one trailing slash. *)
Definition drop_trailing (segs : list string) : list string :=
  match reverse segs with "" :: ((_ :: _) as rest) => reverse rest | _ => segs end.
Definition segments (path : string) : list string :=
  drop_trailing (match split_slash "" path with "" :: rest => rest | segs => segs end).

(** [app.setGlobalPrefix(apiPrefix)] *)
Definition apiPrefix : string := "api".

(** A row of the router's table; the pattern's empty parts are dropped. *)
Record Entry := mkEntry { en_controller : Controller; en_route : Route; en_pattern : list string }.

Definition entries_of (c : Controller) : list Entry :=
  r ← ct_routes c;
  p ← rt_paths r;
  [mkEntry c r (filter (λ x, x ≠ "") (apiPrefix :: split_slash "" (ct_prefix c) ++ split_slash "" p))].
Definition table : list Entry := app_controllers ≫= entries_of.

Definition is_param (seg : string) : bool := String.prefix ":" seg.

Definition seg_matches (pat seg : string) : bool :=
  if is_param pat then negb (String.eqb seg "") else String.eqb (toLowerCase pat) (toLowerCase seg).

Fixpoint matches (pat segs : list string) : bool :=
  match pat, segs with
  | [], [] => true
  | p :: pat, x :: segs => seg_matches p x && matches pat segs
  | _, _ => false
  end.

Definition method_eqb (a b : HttpMethod) : bool := String.eqb (verb a) (verb b).

Definition serves (m : HttpMethod) (path : string) (e : Entry) : bool :=
  method_eqb (rt_method (en_route e)) m && matches (en_pattern e) (segments path).

Definition dispatch (m : HttpMethod) (path : string) : option Entry := find_first (serves m path) table.

(** ** A request up to its handler *)

Record Incoming := mkIncoming {
  in_method : HttpMethod; in_url : string; in_path : string;
  in_authorization : option string; in_forwarded : option string; in_ip : option string;
  in_key : option string; in_body : option Json;
}.

Definition entry_meta (e : Entry) : RouteMeta := route_meta (en_controller e) (en_route e).

(** What the idempotency interceptor reads of the request. *)
Definition keyed_request (e : Entry) (r : Incoming) (user : option AuthUser) : Request :=
  mkRequest (verb (in_method r)) (in_url r) (in_path r)
    (Some ("/" +:+ join "/" (en_pattern e))) (option_map usr_sub user) (in_key r) (in_body r).

Definition NOT_FOUND_ROUTE : exn := AppException NOT_FOUND "Cannot find route" 404.

Section serve.
Context `{Redis, !Crypto, !DateText, !JsonText, !JwtVerify} {D : Type}.
(** [security.enforceAdminAllowlist] and [security.adminIpAllowlist]; what the handlers do. *)
Context (enforce : bool) (allow : list string) (handle : Entry → option AuthUser → Incoming → M (St D) (Z * Json)).

Definition serve (r : Incoming) : M (St D) (Z * Json) :=
  match admin_allowlist enforce allow (in_url r) (clientIp (in_forwarded r) (in_ip r) None) with
  | Throw e => throw e
  | Ok _ =>
      match dispatch (in_method r) (in_path r) with
      | None => throw NOT_FOUND_ROUTE
      | Some e =>
          match guarded (entry_meta e) (in_authorization r) with
          | Throw e => throw e
          | Ok user => intercept (idempotent_options (en_controller e) (en_route e)) (keyed_request e r user)
                         (handle e user r)
          end
      end
  end.
End serve.

Example segments_read :
  segments "/api/cart/items/" = ["api"; "cart"; "items"] ∧ segments "/api//cart" = ["api"; ""; "cart"]
  ∧ segments "/" = [""].
Proof. by vm_compute. Qed.
