(* ===== verification/RouteRules.v ===== *)
(** * Rules of the routes

    The router finds for a path the most specific of the routes that accept it, and every
    route can be reached; nobody but an administrator with the permission that a route
    names gets behind a path of [/api/admin]; and the modules that start up let their
    administrators in. The examples follow requests that go wrong. *)
From S2P Require Import Prelude Core Effects Redis Idempotency Schema Database Tables Sample Auth.
From S2P Require Import Permissions Guards GuardRules Routes.

#[local] Open Scope Z_scope.

(** ** The router *)

(** The parameters that a handler parses as UUIDs. *)
Fixpoint uuids_of_arg (a : Arg) : list string :=
  match a with
  | uuid n => [n]
  | number a => uuids_of_arg a
  | or_else a b => uuids_of_arg a ++ uuids_of_arg b
  | if_truthy a b c => uuids_of_arg a ++ uuids_of_arg b ++ uuids_of_arg c
  | _ => []
  end.
Fixpoint uuids_of (h : Handler) : list string :=
  match h with
  | call _ _ args => args ≫= uuids_of_arg
  | one_of_ hs | in_turn hs => hs ≫= uuids_of
  | checked _ h => uuids_of h
  | own_code => []
  end.
Definition parses_uuid (e : Entry) (pat : string) : bool :=
  is_param pat && includes_string (uuids_of (rt_handler (en_route e))) (String.substring 1 (String.length pat) pat).

(** [p'] is [p], or has a fixed text where [p] has a parameter. *)
Definition seg_specific (p' p : string) : bool :=
  is_param p || (negb (is_param p') && String.eqb (toLowerCase p') (toLowerCase p)).
Definition more_specific (p' p : list string) : Prop := Forall2 (λ a b, seg_specific a b = true) p' p.

Section router.
(** A UUID has thirty-six characters. *)
Context (is_uuid : string → bool) (uuid_length : ∀ s, is_uuid s = true → String.length s = 36%nat).

(** The route matches the path and its handler takes the parameters. *)
Definition accepts (m : HttpMethod) (path : string) (e : Entry) : Prop :=
  serves m path e = true
  ∧ Forall2 (λ p x, parses_uuid e p = true → is_uuid x = true) (en_pattern e) (segments path).

(** A path that the first route matches and the second accepts: each pair of parts has a
    parameter or the same text, and no text of the first meets a UUID of the second. *)
Definition seg_meets (e' : Entry) (p p' : string) : bool :=
  if is_param p then true
  else if is_param p' then if parses_uuid e' p' then Nat.eqb (String.length p) 36 else true
  else String.eqb (toLowerCase p) (toLowerCase p').
Fixpoint meets (e' : Entry) (ps ps' : list string) : bool :=
  match ps, ps' with
  | [], [] => true
  | p :: ps, p' :: ps' => seg_meets e' p p' && meets e' ps ps'
  | _, _ => false
  end.
Fixpoint specific (ps' ps : list string) : bool :=
  match ps', ps with
  | [], [] => true
  | p' :: ps', p :: ps => seg_specific p' p && specific ps' ps
  | _, _ => false
  end.

(** Two routes of one verb whose patterns have the same length. *)
Definition comparable (e e' : Entry) : bool :=
  if Nat.eqb (length (en_pattern e)) (length (en_pattern e'))
  then method_eqb (rt_method (en_route e)) (rt_method (en_route e')) else false.

(** Of two routes of the table that may match the same path the first is more specific. *)
Fixpoint ordered (t : list Entry) : bool :=
  match t with
  | [] => true
  | e :: t =>
      forallb (λ e', if comparable e e' then
                       if meets e' (en_pattern e) (en_pattern e')
                       then specific (en_pattern e) (en_pattern e') else true
                     else true) t
      && ordered t
  end.

(** A path of the route, and that no route before it takes it. *)
Definition sample_path (e : Entry) : string :=
  "/" +:+ join "/" (map (λ p, if is_param p then "x" else p) (en_pattern e)).
Fixpoint reached (before : list Entry) (t : list Entry) : bool :=
  match t with
  | [] => true
  | e :: t =>
      let m := rt_method (en_route e) in
      let segs := segments (sample_path e) in
      matches (en_pattern e) segs
      && forallb (λ e', if Nat.eqb (length (en_pattern e')) (length segs)
                        then negb (if matches (en_pattern e') segs then method_eqb (rt_method (en_route e')) m
                                   else false)
                        else true) before
      && reached (e :: before) t
  end.

Lemma toLowerCase_length s : String.length (toLowerCase s) = String.length s.
Proof. unfold toLowerCase. induction s as [|c s IH]; simpl; [done|by f_equal]. Qed.

Lemma matches_length pat segs : matches pat segs = true → length pat = length segs.
Proof.
  revert segs. induction pat as [|p pat IH]; intros [|x segs]; simpl; try done.
  intros [_ ?]%andb_true_iff. f_equal. auto.
Qed.

Lemma specific_spec ps' ps : specific ps' ps = true → more_specific ps' ps.
Proof.
  revert ps. induction ps' as [|p' ps' IH]; intros [|p ps]; simpl; try done; [constructor|].
  intros [? ?]%andb_true_iff. constructor; [done|by apply IH].
Qed.

Lemma seg_meets_both e' p p' x : seg_matches p x = true → seg_matches p' x = true →
  (parses_uuid e' p' = true → is_uuid x = true) → seg_meets e' p p' = true.
Proof.
  unfold seg_matches, seg_meets. intros Hp Hp' Hu. destruct (is_param p) eqn:P; [done|].
  apply String.eqb_eq in Hp. destruct (is_param p') eqn:P'.
  - destruct (parses_uuid e' p'); [|done]. apply Nat.eqb_eq.
    rewrite <- (uuid_length x), <- (toLowerCase_length p), Hp, toLowerCase_length; auto.
  - apply String.eqb_eq in Hp'. apply String.eqb_eq. congruence.
Qed.

Lemma meets_both e' ps ps' segs : matches ps segs = true → matches ps' segs = true →
  Forall2 (λ p x, parses_uuid e' p = true → is_uuid x = true) ps' segs → meets e' ps ps' = true.
Proof.
  revert ps' segs. induction ps as [|p ps IH]; intros [|p' ps'] [|x segs]; simpl; try done.
  intros [? ?]%andb_true_iff [? ?]%andb_true_iff [? ?]%Forall2_cons.
  apply andb_true_iff. split; [by eapply seg_meets_both|by eapply IH].
Qed.

Lemma method_eqb_eq a b : method_eqb a b = true ↔ a = b.
Proof. by destruct a, b. Qed.

Lemma serves_spec m path e :
  serves m path e = true ↔ rt_method (en_route e) = m ∧ matches (en_pattern e) (segments path) = true.
Proof. unfold serves. by rewrite andb_true_iff, method_eqb_eq. Qed.

Lemma ordered_first t m path e e' : ordered t = true → find_first (serves m path) t = Some e →
  e' ∈ t → accepts m path e' → e = e' ∨ more_specific (en_pattern e) (en_pattern e').
Proof.
  intros Ho Hf Hin [Hs Hu]. induction t as [|x t IH]; [done|]. simpl in Ho, Hf.
  apply andb_true_iff in Ho as [Hx Ho]. destruct (serves m path x) eqn:Sx.
  - injection Hf as ->. apply elem_of_cons in Hin as [->|Hin]; [auto|]. right.
    rewrite forallb_forall in Hx. specialize (Hx e' (proj1 (list_elem_of_In _ _) Hin)).
    apply serves_spec in Sx as [M1 P1]. apply serves_spec in Hs as [M2 P2].
    apply specific_spec. unfold comparable in Hx.
    rewrite (proj2 (Nat.eqb_eq _ _)) in Hx
      by (rewrite (matches_length _ _ P1), (matches_length _ _ P2); done).
    rewrite (proj2 (method_eqb_eq _ _)) in Hx by congruence.
    by rewrite (meets_both e' _ _ _ P1 P2 Hu) in Hx.
  - apply elem_of_cons in Hin as [->|Hin]; [congruence|]. by apply IH.
Qed.

Lemma reached_all before t e : reached before t = true → e ∈ t →
  find_first (serves (rt_method (en_route e)) (sample_path e)) (reverse before ++ t) = Some e.
Proof.
  revert before. induction t as [|x t IH]; intros before Hr Hin; [by apply not_elem_of_nil in Hin|].
  cbn [reached] in Hr. apply andb_true_iff in Hr as [[Hx Hb]%andb_true_iff Hr].
  apply elem_of_cons in Hin as [->|Hin].
  - clear IH Hr. rewrite forallb_forall in Hb.
    assert (∀ y, y ∈ reverse before → serves (rt_method (en_route x)) (sample_path x) y = false) as Hn.
    { intros y Hy%elem_of_reverse%list_elem_of_In%Hb. apply not_true_iff_false. intros [M P]%serves_spec.
      rewrite (proj2 (Nat.eqb_eq _ _) (matches_length _ _ P)), P, (proj2 (method_eqb_eq _ _) M) in Hy.
      done. }
    revert Hn. generalize (reverse before) as l. intros l. induction l as [|y l IHl]; intros Hn; simpl.
    + by rewrite (proj2 (serves_spec _ _ _) (conj eq_refl Hx)).
    + rewrite Hn by left. apply IHl. intros z Hz. apply Hn. by right.
  - specialize (IH (x :: before) Hr Hin). by rewrite reverse_cons, <- app_assoc in IH.
Qed.

(** The table is in order; each route is reached. *)
Lemma table_ordered : ordered table = true.
Proof. vm_compute. reflexivity. Qed.
Lemma table_reached : reached [] table = true.
Proof. vm_compute. reflexivity. Qed.

(** (C34) The router finds what a path is for: a path that a route accepts (it matches the
    pattern, and the parameters that the handler parses as UUIDs are UUIDs) is given to
    that route or to one that has a fixed text where it has a parameter; and every route of
    the application is reached by some path. *)
Theorem routes_found :
  (∀ m path e, e ∈ table → accepts m path e →
     ∃ e', dispatch m path = Some e' ∧ (e' = e ∨ more_specific (en_pattern e') (en_pattern e)))
  ∧ ∀ e, e ∈ table → ∃ path, dispatch (rt_method (en_route e)) path = Some e.
Proof.
  split.
  - intros m path e Hin Ha. unfold dispatch. destruct (find_first _ _) as [e'|] eqn:F.
    + exists e'. split; [done|]. eapply ordered_first; eauto. apply table_ordered.
    + apply find_first_None in F. rewrite Forall_forall in F. destruct Ha as [Hs _].
      rewrite F in Hs; [done|done].
  - intros e Hin. exists (sample_path e). by apply (reached_all [] table e table_reached).
Qed.
End router.

(** ** Behind [/api/admin] *)

Definition admin_path (path : string) : bool :=
  match segments path with
  | _ :: x :: _ => String.eqb (toLowerCase x) "admin"
  | _ => false
  end.

Definition ADMINS : list string := ["admin"; "super_admin"].

(** The route needs an administrator and a permission. *)
Definition closed (meta : RouteMeta) : bool :=
  negb (rm_public meta) && bool_decide (rm_roles meta = ADMINS) && negb (is_nil (rm_permissions meta)).

Definition admin_entry (e : Entry) : bool :=
  match en_pattern e with
  | _ :: p :: _ => negb (is_param p) && (negb (String.eqb (toLowerCase p) "admin") || closed (entry_meta e))
  | _ => true
  end.

Lemma table_closed : forallb admin_entry table = true.
Proof. vm_compute. reflexivity. Qed.

Lemma dispatch_Some m path e : dispatch m path = Some e → e ∈ table ∧ serves m path e = true.
Proof. apply find_first_Some. Qed.

Lemma admin_dispatch m path e : dispatch m path = Some e → admin_path path = true →
  closed (entry_meta e) = true.
Proof.
  intros [Hin [_ Hm]%serves_spec]%dispatch_Some Ha. pose proof table_closed as Hc.
  rewrite forallb_forall in Hc. specialize (Hc e (proj1 (list_elem_of_In _ _) Hin)).
  unfold admin_entry, admin_path in *.
  destruct (segments path) as [|a [|x segs]], (en_pattern e) as [|b [|p pat]]; simpl in Hm; try done;
    [by rewrite andb_false_r in Hm|].
  apply andb_true_iff in Hm as [_ [Hx _]%andb_true_iff]. apply andb_true_iff in Hc as [Hp Hc].
  unfold seg_matches in Hx. apply negb_true_iff in Hp. rewrite Hp in Hx.
  apply String.eqb_eq in Hx, Ha. rewrite Hx, Ha, String.eqb_refl in Hc. exact Hc.
Qed.

Section admitted.
Context `{!JwtVerify}.

(** (C36) Nobody but an administrator gets behind [/api/admin], in whatever letter case the path
    is written: a request for such a path that the guards let through to a handler carries
    a valid token of a user who is an administrator and has every permission that the
    route names, of which there is one at least. *)
Theorem admin_closed m path authorization e user :
  dispatch m path = Some e → admin_path path = true →
  guarded (entry_meta e) authorization = Ok user →
  ∃ u p, user = Some u ∧ bearer authorization = Some u
    ∧ ("admin" ∈ usr_roles u ∨ "super_admin" ∈ usr_roles u)
    ∧ p ∈ rm_permissions (entry_meta e) ∧ ∀ p, p ∈ rm_permissions (entry_meta e) → p ∈ usr_permissions u.
Proof.
  intros Hd Ha (-> & Hk & Hr & Hp)%guarded_Ok. pose proof (admin_dispatch m path e Hd Ha) as C.
  unfold closed in C. apply andb_true_iff in C as [[Cp Cr]%andb_true_iff Cn].
  apply bool_decide_eq_true in Cr. rewrite Cr in Hr.
  destruct Hk as [Hk|[u Hu]]; [by rewrite Hk in Cp|]. rewrite Hu in Hr, Hp. cbn [from_option] in Hr, Hp.
  destruct (rm_permissions (entry_meta e)) as [|p ps]; [done|]. exists u, p.
  split_and!; [done|done| |left|exact Hp]. destruct Hr as [?|(r & Hin & Hr)]; [done|].
  apply elem_of_cons in Hin as [->|Hin]; [auto|]. apply list_elem_of_singleton in Hin as ->. auto.
Qed.
End admitted.

(** ** From the start-up to the guards *)

(** The permissions that the modules see to when they start. *)
Definition STARTUP : list PermissionDef :=
  PAYMENTS_PERMISSIONS ++ SHIPPING_PERMISSIONS ++ WARRANTY_PERMISSIONS ++ MARKETING_PERMISSIONS
  ++ ANALYTICS_PERMISSIONS.

(** The user is an administrator: he has a live, active role of that kind. The rows of
    roles and permissions are told apart by their ids, and no live one is suspended. *)
Record administers (d : Db) (userId : string) (r : Role) : Prop := {
  ad_role : role_of d (ro_id r) = Some r;
  ad_kind : admin_role r = true;
  ad_active : ro_status r = rs_active;
  ad_user : ∃ ur, ur ∈ view L_UserRole d ∧ ur_role_id ur = ro_id r ∧ ur_user_id ur = userId
    ∧ ur_status ur = rs_active ∧ ur_deleted_at ur = None;
  ad_permissions : ∀ p, p ∈ view L_Permission d → pn_deleted_at p = None →
    permission_of d (pn_id p) = Some p ∧ pn_status p = rs_active;
  ad_links : ∀ l, l ∈ view L_RolePermission d → rp_deleted_at l = None → rp_status l = rs_active;
}.

Lemma distinct_keeps seen rows l : l ∈ rows → rp_permission_id l ∉ seen →
  ∃ l', l' ∈ distinct_permissions seen rows ∧ rp_permission_id l' = rp_permission_id l.
Proof.
  revert seen. induction rows as [|x rows IH]; intros seen Hin Hs; [by apply not_elem_of_nil in Hin|].
  simpl. destruct (existsb (String.eqb (rp_permission_id x)) seen) eqn:Ex.
  - apply elem_of_cons in Hin as [->|Hin]; [|by apply IH].
    exfalso. apply Hs. apply existsb_exists in Ex as (y & Hy%list_elem_of_In & ->%String.eqb_eq). done.
  - destruct (decide (rp_permission_id l = rp_permission_id x)) as [E|E].
    + exists x. split; [left|done].
    + apply elem_of_cons in Hin as [->|Hin]; [done|].
      destruct (IH (rp_permission_id x :: seen) Hin) as (l' & ? & ?); [set_solver|].
      exists l'. split; [by right|done].
Qed.

Section claims.
Context `{!Postgres}.

Lemma admin_has_permission d userId r x : administers d userId r → granted STARTUP d → x ∈ STARTUP →
  df_code x ∈ permission_codes d userId.
Proof.
  intros A [Gp Gl] Hx. destruct (Gp x Hx) as (p & Hp & Hc).
  destruct A as [Ar Ak Aa (ur & Hur & U1 & U2 & U3 & U4) Ap Al].
  assert (r ∈ view L_Role d) as Hr by (by apply find_first_Some in Ar as [? _]).
  destruct (Gl r p x Hr Ak Hx Hp Hc) as (l & Hl & E).
  unfold links, has_code in *. rewrite !andb_true_iff, !String.eqb_eq in E.
  destruct E as [[E1 E2] E3]. apply andb_true_iff in Hc as [Hc%String.eqb_eq Hlive].
  unfold live in *. destruct (rp_deleted_at l) eqn:Dl, (pn_deleted_at p) eqn:Dp; try done.
  destruct (Ap p Hp Dp) as [Pf Ps]. pose proof (Al l Hl Dl) as Ls.
  assert (permits d userId l = true) as Pm.
  { unfold permits. rewrite E1, E2, Ar, Pf, Dl, Ls, Dp, Ps. cbn.
    unfold role_on, admin_role in *. apply andb_true_iff in Ak as [_ ->]. rewrite Aa. cbn.
    rewrite andb_true_r. apply existsb_exists. exists ur.
    split; [by apply list_elem_of_In|]. by rewrite U1, U2, U3, U4, !String.eqb_refl. }
  destruct (distinct_keeps [] (scan (where_ (permits d userId) (view L_RolePermission d))) l)
    as (l' & Hl' & El); [|set_solver|].
  { rewrite scan_perm. by apply elem_of_where. }
  unfold permission_codes. apply list_elem_of_omap. exists l'. split; [done|].
  by rewrite El, E2, Pf, <- Hc.
Qed.

Lemma admin_has_role d userId r : administers d userId r → ro_code r ∈ role_codes d userId.
Proof.
  intros [Ar Ak Aa (ur & Hur & U1 & U2 & U3 & U4) _ _]. unfold role_codes.
  apply list_elem_of_omap. exists ur. split; [|by rewrite U1, Ar].
  rewrite scan_perm. apply elem_of_where. split; [done|].
  unfold grants. rewrite U1, U2, U3, U4, Ar, String.eqb_refl. cbn.
  unfold role_on, admin_role in *. apply andb_true_iff in Ak as [_ ->]. by rewrite Aa.
Qed.

(** The claims of the token that a login or an exchange signs. *)
Lemma pair_signs `{!Redis, !Crypto, !AuthLibraries} user meta sessionId familyId d :
  dwp (createRefreshPair user meta sessionId familyId)
    (λ o _, match o with
            | Ok r => ∃ family, at_accessToken (tp_tokens r) = jwt_sign (mkJwtPayload (us_id user)
                (us_email user) (us_mobile user) (role_codes d (us_id user))
                (permission_codes d (us_id user)) sessionId (Some family))
            | Throw _ => True
            end) d.
Proof.
  assert (dwp random_hex (λ o d', d' = d ∧ ∃ f, o = Ok f) d) as Hx by (intros s Hs; cbn; eauto).
  unfold createRefreshPair, generateRawToken, token_create. apply dwp_bind.
  eapply (dwp_mono _ (λ o d', d' = d ∧ ∃ f, o = Ok f));
    [destruct familyId; [apply dwp_ret; eauto|apply Hx]|].
  intros o d' [-> [f ->]]. apply dwp_bind. eapply dwp_mono; [apply Hx|]. intros o d' [-> [raw ->]].
  apply dwp_bind, dwp_now. intros t.
  apply dwp_bind, (dwp_gets (λ d, role_codes d (us_id user))).
  apply dwp_bind, (dwp_gets (λ d, permission_codes d (us_id user))). dwp_step; [done|]. dwp_step. eauto.
Qed.
End claims.

(** ** Admission *)
Section admission.
Context `{!Redis, !Crypto, !Postgres, !AuthLibraries, !JwtVerify}.

(** A token that was signed here and has not expired is verified, with the claims that it
    was signed with; it is a text without blanks at its ends. *)
Definition claims_of (p : JwtPayload) : TokenPayload :=
  mkTokenPayload (Some (jp_sub p)) (jp_email p) (jp_mobile p) (Some (jp_roles p)) (Some (jp_permissions p))
    (jp_sessionId p) (jp_tokenFamilyId p).
Context (verify_signed : ∀ p, jwt_verify (jwt_sign p) = Some (claims_of p)).
Context (signed_text : ∀ p, trim (jwt_sign p) = jwt_sign p ∧ jwt_sign p ≠ "").

Lemma substring_all (t : string) : String.substring 0 (String.length t) t = t.
Proof. induction t as [|c t IH]; simpl; [done|by f_equal]. Qed.

Lemma extract_bearer t : trim t = t → t ≠ "" → extractBearerToken (Some ("Bearer " +:+ t)) = Some t.
Proof.
  intros Ht Hn. unfold extractBearerToken.
  assert (String.prefix "Bearer " ("Bearer " +:+ t) = true) as -> by (by destruct t).
  assert (String.substring 7 (String.length ("Bearer " +:+ t) - 7) ("Bearer " +:+ t) = t) as ->.
  { change (String.substring 0 (String.length t - 0) t = t). by rewrite Nat.sub_0_r, substring_all. }
  rewrite Ht. by destruct t.
Qed.

Lemma table_roles : forallb (λ e, bool_decide (rm_roles (entry_meta e) = [])
  || bool_decide (rm_roles (entry_meta e) = ADMINS)) table = true.
Proof. vm_compute. reflexivity. Qed.

(** (C30) Who administers gets in: when the start-ups granted their permissions, a user with an
    administrator's role signs in (or exchanges his token) and gets an access token with
    which, while it is valid, the guards let him through to every route whose permissions
    are those of the start-ups. *)
Theorem administrators_admitted user meta sessionId familyId s s' r role e :
  administers (tables s) (us_id user) role → granted STARTUP (tables s) →
  createRefreshPair user meta sessionId familyId s = (Ok r, s') →
  e ∈ table → (∀ p, p ∈ rm_permissions (entry_meta e) → p ∈ map df_code STARTUP) →
  ∃ u, guarded (entry_meta e) (Some ("Bearer " +:+ at_accessToken (tp_tokens r))) = Ok (Some u)
    ∧ usr_sub u = us_id user.
Proof.
  intros A G E Hin Hp.
  destruct (dwp_elim _ _ _ _ _ (pair_signs user meta sessionId familyId (tables s)) E) as (f & ->).
  set (pl := mkJwtPayload _ _ _ _ _ _ _). destruct (signed_text pl) as [Ht Hn].
  exists (user_of_payload (claims_of pl)). split; [|done]. apply guarded_Ok.
  assert (bearer (Some ("Bearer " +:+ jwt_sign pl)) = Some (user_of_payload (claims_of pl))) as B.
  { unfold bearer. rewrite (extract_bearer _ Ht Hn). cbn. by rewrite verify_signed. }
  split; [done|]. split; [right; rewrite B; eauto|]. split; cbn [from_option].
  - pose proof table_roles as R. rewrite forallb_forall in R.
    specialize (R e (proj1 (list_elem_of_In _ _) Hin)).
    apply orb_true_iff in R as [R|R]; apply bool_decide_eq_true in R; [by left|]. right.
    exists (ro_code role). split; [|apply (admin_has_role _ _ _ A)]. rewrite R.
    destruct A as [_ Ak _ _ _ _]. unfold admin_role, one_of in Ak.
    apply andb_true_iff in Ak as [Ak _]. by apply includes_string_spec.
  - intros p [x [-> Hx]]%Hp%list_elem_of_fmap. by eapply admin_has_permission.
Qed.
End admission.

(** ** Runs *)
Section runs.
#[local] Existing Instances gmap_redis counting_crypto sample_postgres.

(** Tokens as bits: an encoding of the claims that can be read back. *)
Fixpoint bits (p : BinNums.positive) : string :=
  match p with
  | xH => "1"
  | xO p => String "0" (bits p)
  | xI p => String "1" (bits p)
  end.
Fixpoint of_bits (s : string) : option BinNums.positive :=
  match s with
  | "1" => Some xH
  | String "0" s => option_map xO (of_bits s)
  | String "1" s => option_map xI (of_bits s)
  | _ => None
  end.
Lemma bits_ends p : ∃ c s, bits p = String c s.
Proof. destruct p; cbn; eauto. Qed.
Lemma of_bits_bits p : of_bits (bits p) = Some p.
Proof.
  induction p as [p IH|p IH|]; cbn; [|by rewrite IH|done].
  destruct (bits_ends p) as (c & s & E). rewrite E in *. by rewrite IH.
Qed.
Lemma bits_trim p : trim (bits p) = bits p ∧ bits p ≠ "".
Proof.
  split; [|by destruct p].
  assert (∀ cs, Forall (λ c, c = "0"%char ∨ c = "1"%char) cs → trimStart cs = cs) as Ht.
  { intros [|c cs]; [done|]. by intros [[-> | ->] _]%Forall_cons. }
  assert (Forall (λ c, c = "0"%char ∨ c = "1"%char) (String.list_ascii_of_string (bits p))) as Hb.
  { induction p as [p IH|p IH|]; cbn; (constructor; [auto|]); done. }
  unfold trim. rewrite (Ht _ Hb), Ht by (by apply Forall_reverse).
  rewrite reverse_involutive. apply String.string_of_list_ascii_of_string.
Qed.

Definition payload_tuple (p : JwtPayload) :=
  (jp_sub p, jp_email p, jp_mobile p, jp_roles p, jp_permissions p, jp_sessionId p, jp_tokenFamilyId p).
#[local] Instance payload_countable : EqDecision JwtPayload.
Proof. solve_decision. Defined.
#[local] Instance payload_encoding : Countable JwtPayload.
Proof.
  refine (inj_countable' payload_tuple
    (λ '(a, b, c, d, e, f, g), mkJwtPayload a b c d e f g) _). by intros [].
Defined.

#[local] Instance encoding_auth : AuthLibraries := {|
  argon2_hash _ p := p; argon2_verify h p := Ok (String.eqb h p); argon2_sound n p := f_equal Ok (String.eqb_refl p);
  jwt_sign p := bits (encode p); jwt_accessExpiresIn := "2h";
  randomInt lo _ _ := lo; randomInt_range lo hi n Hr := conj (Z.le_refl lo) Hr;
  firebaseProjectId := None; FIREBASE_PROJECT_ID := None;
  jwtVerify _ _ _ := Throw (JsError "no"); sendMail _ := Ok tt |}.
#[local] Instance encoding_verify : JwtVerify := λ t, claims_of <$> (of_bits t ≫= decode).

Lemma encoding_verified p : jwt_verify (jwt_sign p) = Some (claims_of p).
Proof. cbn. unfold encoding_verify. rewrite of_bits_bits. cbn. by rewrite decode_encode. Qed.

(** The shop opens with an administrator, who is Alice, and starts. *)
Definition opened : St Db :=
  let d := put L_Role [mkRole "r1" "admin" rs_active None]
             (put L_UserRole [mkUserRole "ur1" "alice" "r1" rs_active None]
               (put L_Permission [] (put L_RolePermission [] sample_db))) in
  let s := mkSt (env sample) d in
  snd (analytics_onModuleInit (snd (marketing_onModuleInit (snd (warranty_onModuleInit
    (snd (shipping_onModuleInit (snd (payments_onModuleInit s))))))))).

Definition opened_role : Role := mkRole "r1" "admin" rs_active None.

Lemma opened_administered : administers (tables opened) "alice" opened_role.
Proof.
  split; [vm_compute; reflexivity..| | |].
  - exists (mkUserRole "ur1" "alice" "r1" rs_active None). split; [|done]. vm_compute. left.
  - assert (Forall (λ p, permission_of (tables opened) (pn_id p) = Some p ∧ pn_status p = rs_active)
      (view L_Permission (tables opened))) as F.
    { vm_compute. repeat constructor. }
    intros p Hp _. rewrite Forall_forall in F. by apply F.
  - assert (Forall (λ l, rp_status l = rs_active) (view L_RolePermission (tables opened))) as F.
    { vm_compute. repeat constructor. }
    intros l Hl _. rewrite Forall_forall in F. by apply F.
Qed.

(** [granted] as a test. *)
Definition grants_all (defs : list PermissionDef) (d : Db) : bool :=
  forallb (λ x, existsb (has_code (df_code x)) (view L_Permission d)) defs
  && forallb (λ r, forallb (λ x, forallb (λ p,
       if has_code (df_code x) p then existsb (links (ro_id r) (pn_id p)) (view L_RolePermission d) else true)
       (view L_Permission d)) defs) (view L_Role d).

Lemma grants_all_granted defs d : grants_all defs d = true → granted defs d.
Proof.
  unfold grants_all. intros [F1 F2]%andb_true_iff. rewrite forallb_forall in F1.
  rewrite forallb_forall in F2. split.
  - intros x Hx%list_elem_of_In%F1. apply existsb_exists in Hx as (p & Hp%list_elem_of_In & E). eauto.
  - intros r p x Hr%list_elem_of_In%F2 _ Hx%list_elem_of_In Hp%list_elem_of_In E.
    rewrite forallb_forall in Hr. specialize (Hr x Hx). rewrite forallb_forall in Hr.
    specialize (Hr p Hp). cbn beta in Hr. rewrite E in Hr.
    apply existsb_exists in Hr as (l & Hl%list_elem_of_In & El). eauto.
Qed.

Lemma opened_granted : granted STARTUP (tables opened).
Proof. apply grants_all_granted. vm_compute. reflexivity. Qed.

(** The entry of a path that is served. *)
Definition entry_at (m : HttpMethod) (path : string) : Entry :=
  match dispatch m path with Some e => e | None => mkEntry HealthController (route GET [] [] "" own_code) [] end.

Definition settlements : Entry := entry_at POST "/api/admin/payments/settlements".
Definition alice_user : User :=
  mkUser "alice" (Some "alice@example.com") None None None None ut_customer ap_local None None 0 None rs_active 0 None.
Definition no_meta : RequestMeta := mkRequestMeta None None None.
Definition alice_pair : outcome TokenPairResult := fst (createRefreshPair alice_user no_meta None None opened).

Lemma administrators_admitted_witness :
  match alice_pair with
  | Ok r => ∃ u, guarded (entry_meta settlements) (Some ("Bearer " +:+ at_accessToken (tp_tokens r))) = Ok (Some u)
      ∧ usr_sub u = "alice"
  | Throw _ => False
  end.
Proof.
  unfold alice_pair.
  destruct (createRefreshPair alice_user no_meta None None opened) as [[r|e] s'] eqn:E; cbn [fst].
  - apply (administrators_admitted encoding_verified (λ p, bits_trim (encode p)) alice_user no_meta None None
      opened s' r opened_role settlements opened_administered opened_granted E).
    + apply (proj1 (dispatch_Some POST "/api/admin/payments/settlements" settlements eq_refl)).
    + intros p Hp. vm_compute in Hp. apply list_elem_of_singleton in Hp as ->. vm_compute. right. left.
  - exfalso. assert (match fst (createRefreshPair alice_user no_meta None None opened) with
      | Ok _ => true | Throw _ => false end = true) as X by (vm_compute; reflexivity).
    rewrite E in X. discriminate.
Defined.

Lemma routes_found_witness : ∃ e', dispatch GET "/api/orders/EC-1" = Some e'
  ∧ (e' = entry_at GET "/api/orders/EC-1" ∨ more_specific (en_pattern e') (en_pattern (entry_at GET "/api/orders/EC-1"))).
Proof.
  apply (proj1 (routes_found (λ s, Nat.eqb (String.length s) 36) (λ s, proj1 (Nat.eqb_eq _ _)))).
  - apply (proj1 (dispatch_Some GET "/api/orders/EC-1" (entry_at GET "/api/orders/EC-1") eq_refl)).
  - split; [vm_compute; reflexivity|]. vm_compute. repeat constructor; discriminate.
Defined.

(** A clerk's token: no administrator, so the guards refuse him; and the root's. *)
Definition root : AuthUser :=
  mkAuthUser "root" None None ["super_admin"] ["payments.read"; "payments.write"] None None.
#[local] Instance two_tokens : JwtVerify := λ t,
  if String.eqb t "root" then Some (mkTokenPayload (Some "root") None None (Some ["super_admin"])
                                    (Some ["payments.read"; "payments.write"]) None None)
  else if String.eqb t "clerk" then Some (mkTokenPayload (Some "clerk") None None (Some ["clerk"])
                                           (Some ["payments.write"]) None None)
  else None.

Lemma admin_closed_witness : ∃ u p, Some root = Some u ∧ bearer (Some "Bearer root") = Some u
  ∧ ("admin" ∈ usr_roles u ∨ "super_admin" ∈ usr_roles u)
  ∧ p ∈ rm_permissions (entry_meta settlements)
  ∧ ∀ p, p ∈ rm_permissions (entry_meta settlements) → p ∈ usr_permissions u.
Proof.
  apply (admin_closed POST "/API/Admin/Payments/settlements/" (Some "Bearer root") settlements (Some root));
    vm_compute; reflexivity.
Defined.

(** ** Examples *)

(** The allowlist compares the path as it is written, the router does not. *)
Example allowlist_passed_by :
  admin_allowlist true ["10.0.0.1"] "/api/Admin/payments/settlements" "203.0.113.9" = Ok tt
  ∧ dispatch POST "/api/Admin/payments/settlements" = Some settlements.
Proof. vm_compute. done. Qed.

(** The calls of a handler, and the routes that may make a call. *)
Fixpoint calls_of (h : Handler) : list (string * string * list Arg) :=
  match h with
  | call service method args => [(service, method, args)]
  | one_of_ hs | in_turn hs => hs ≫= calls_of
  | checked _ h => calls_of h
  | own_code => []
  end.
Definition routes_calling (service method : string) : list Entry :=
  filter (λ e, existsb (λ c, String.eqb (fst (fst c)) service && String.eqb (snd (fst c)) method)
                 (calls_of (rt_handler (en_route e))) = true) table.

(** No request reaches these operations. *)
Example unrouted :
  forallb (λ c, is_nil (routes_calling (fst c) (snd c)))
    [("loyaltyService", "redeem"); ("ops", "closeTicket"); ("ops", "createReplacement");
     ("reverse", "advanceRto"); ("reverse", "scheduleReversePickup"); ("ab", "expose")] = true.
Proof. vm_compute. reflexivity. Qed.

(** A referral is claimed for the user who asks, and only an administrator can ask. *)
Example referrals_claimed_by_administrators :
  map (λ e, (rt_handler (en_route e), closed (entry_meta e))) (routes_calling "referrals" "claim")
  = [(one_of_ [call "referrals" "claim" [user_sub; body]; call "referrals" "createProgram" [user_sub; body]], true)].
Proof. vm_compute. reflexivity. Qed.

(** Routes that are open to every customer, name a row by its id and do not tell the service
    who asks. *)
Definition tells_user (h : Handler) : bool :=
  existsb (λ c, existsb (λ a, match a with user_sub | user_sub_if_any => true | _ => false end) (snd c))
    (calls_of h).
Example rows_shown_to_anyone :
  map (λ e, (verb (rt_method (en_route e)), join "/" (en_pattern e)))
    (filter (λ e, let m := entry_meta e in
       negb (rm_public m) && is_nil (rm_roles m) && is_nil (rm_permissions m)
       && existsb is_param (en_pattern e) && negb (tells_user (rt_handler (en_route e))) = true) table)
  = [("GET", "api/payments/:id/refunds"); ("GET", "api/shipping/shipments/:id");
     ("GET", "api/shipping/shipments/:id/tracking"); ("GET", "api/service/jobs/:id")].
Proof. vm_compute. reflexivity. Qed.

(** The gateway sends no idempotency key, so each of its webhooks is refused, whatever it
    says and whatever the handler would do. *)
Lemma serve_unkeyed `{!Redis, !Crypto, !DateText, !JsonText, !JwtVerify} {D} enforce allow
    (handle : Entry → option AuthUser → Incoming → M (St D) (Z * Json)) r s e u :
  admin_allowlist enforce allow (in_url r) (clientIp (in_forwarded r) (in_ip r) None) = Ok tt →
  dispatch (in_method r) (in_path r) = Some e → guarded (entry_meta e) (in_authorization r) = Ok u →
  idempotent_options (en_controller e) (en_route e) = Some (mkIdempotentOptions (Some true) None) →
  in_method r ≠ GET → in_key r = None →
  serve enforce allow handle r s = (Throw (AppException IDEMPOTENCY_KEY_REQUIRED
    "Idempotency-Key header is required for this operation" 400), s).
Proof.
  intros Ha Hd Hg Ho Hm Hk. unfold serve. rewrite Ha, Hd, Hg, Ho. unfold intercept, keyed_request, prepare.
  cbn [rq_method rq_key]. rewrite Hk. by destruct (in_method r).
Qed.

Example gateway_webhook_refused `{!Redis, !Crypto, !DateText, !JsonText} {D}
    (handle : Entry → option AuthUser → Incoming → M (St D) (Z * Json)) forwarded ip body s :
  serve false [] handle (mkIncoming POST "/api/payments/webhooks/razorpay" "/api/payments/webhooks/razorpay"
    None forwarded ip None body) s
  = (Throw (AppException IDEMPOTENCY_KEY_REQUIRED "Idempotency-Key header is required for this operation" 400), s).
Proof.
  apply (serve_unkeyed _ _ _ _ _ (entry_at POST "/api/payments/webhooks/razorpay") None);
    [done|reflexivity|vm_compute; reflexivity|vm_compute; reflexivity|done|done].
Qed.
End runs.
