(* ===== verification/Environment.v ===== *)
(** * The process environment

    Models [backend/src/config]: the check of the environment at start-up
    [env.validation.ts], the name of the environment, and the settings that payments,
    shipping, tokens and security read from it. The environment is a function from names to
    values. The theorem follows the settings of a validated production start to what the
    providers do with them; the examples show what the check lets through. *)
From S2P Require Import Prelude Core Effects Redis JsNumber Database Payments Http Guards Catalog Providers ProviderRules.

#[local] Open Scope Z_scope.

Definition ProcessEnv := string → option string.

(** [Number(text)] of the text of a whole number. *)
Class WholeNumber := whole_number : string → Z.

(** [a ?? b], where [b] may be missing as well. *)
Definition or_other {A} (a b : option A) : option A := match a with Some _ => a | None => b end.

Definition line_break : string := String (Ascii.ascii_of_nat 10) "".

(** ** [environment.ts] *)

Inductive AppEnv := Development | Test_ | Staging | Production.
#[export] Instance AppEnv_eq_dec : EqDecision AppEnv.
Proof. solve_decision. Defined.

Definition parseAppEnv (value : option string) : AppEnv :=
  match toLowerCase (coalesce value "development") with
  | "test" => Test_
  | "staging" => Staging
  | "production" => Production
  | _ => Development
  end.

(** ** [env.validation.ts] *)

Definition is_value (v : option string) (s : string) : bool :=
  match v with Some t => String.eqb t s | None => false end.
(** [v === 'true' || v === '1'] *)
Definition switched_on (v : option string) : bool := is_value v "true" || is_value v "1".
(** [env[key]?.trim()] *)
Definition trimmed (env : ProcessEnv) (key : string) : option string := option_map trim (env key).

(** [/change-me|dev-access|dev-refresh|placeholder/i.test(s)] *)
Definition looks_like_placeholder (s : string) : bool :=
  existsb (λ w, includes_text (toLowerCase s) w) ["change-me"; "dev-access"; "dev-refresh"; "placeholder"].

Section validation.
Context (env : ProcessEnv).

Definition appEnv : AppEnv := parseAppEnv (or_other (env "APP_ENV") (env "NODE_ENV")).
Definition isProduction : bool := bool_decide (appEnv = Production) || bool_decide (appEnv = Staging).
Definition nodeIsProd : bool :=
  bool_decide (parseAppEnv (env "NODE_ENV") = Production) || is_value (env "NODE_ENV") "production".

(** [require(key, minLen)]: the issue that it adds. *)
Definition require_env (key : string) (minLen : nat) : list string :=
  match trimmed env key with
  | Some (String _ _ as v) =>
      if (String.length v <? minLen)%nat then [key +:+ " is required (min " +:+ pretty minLen +:+ " chars)"] else []
  | _ => [key +:+ " is required" +:+ (if (1 <? minLen)%nat then " (min " +:+ pretty minLen +:+ " chars)" else "")]
  end.

(** A mock is in use: it is switched on, or nothing is configured and it is not switched off. *)
Definition mock_in_use (switch key1 key2 : string) : bool :=
  switched_on (env switch)
  || (negb (truthy_str (trimmed env key1)) && negb (truthy_str (trimmed env key2))
      && negb (is_value (env switch) "false")).
Definition paymentsMock : bool := mock_in_use "PAYMENTS_MOCK" "RAZORPAY_KEY_ID" "RAZORPAY_KEY_SECRET".
Definition shippingMock : bool := mock_in_use "SHIPPING_MOCK" "SHIPROCKET_EMAIL" "SHIPROCKET_PASSWORD".

Definition placeholder_issue (key : string) : list string :=
  match trimmed env key with
  | Some s => if negb (String.eqb s "") && looks_like_placeholder s
              then [key +:+ " looks like a development placeholder"] else []
  | None => []
  end.

Definition same_secrets : bool :=
  match trimmed env "JWT_SECRET", trimmed env "JWT_REFRESH_SECRET" with
  | Some a, Some b => negb (String.eqb a "") && negb (String.eqb b "") && String.eqb a b
  | _, _ => false
  end.

Definition issue_if (c : bool) (text : string) : list string := if c then [text] else [].

Definition production_issues : list string :=
  placeholder_issue "JWT_SECRET"
  ++ placeholder_issue "JWT_REFRESH_SECRET"
  ++ issue_if same_secrets "JWT_SECRET and JWT_REFRESH_SECRET must differ"
  ++ issue_if ((negb (truthy_str (env "NODE_ENV"))
                || negb (bool_decide (parseAppEnv (env "NODE_ENV") = Production)))
               && bool_decide (appEnv = Production)) "NODE_ENV must be production when APP_ENV=production"
  ++ issue_if (switched_on (env "SWAGGER_ENABLED")) "SWAGGER_ENABLED must be false in production/staging"
  ++ issue_if (negb (truthy_str (trimmed env "SMTP_HOST"))) "SMTP_HOST is required in production/staging"
  ++ (if paymentsMock
      then ["Payment mock is not allowed in production/staging — set RAZORPAY_KEY_ID, RAZORPAY_KEY_SECRET, RAZORPAY_WEBHOOK_SECRET and PAYMENTS_MOCK=false"]
      else require_env "RAZORPAY_KEY_ID" 4 ++ require_env "RAZORPAY_KEY_SECRET" 8
           ++ require_env "RAZORPAY_WEBHOOK_SECRET" 8)
  ++ (if shippingMock
      then ["Shipping mock is not allowed in production/staging — set SHIPROCKET_EMAIL, SHIPROCKET_PASSWORD, SHIPROCKET_WEBHOOK_SECRET and SHIPPING_MOCK=false"]
      else require_env "SHIPROCKET_EMAIL" 3 ++ require_env "SHIPROCKET_PASSWORD" 4
           ++ require_env "SHIPROCKET_WEBHOOK_SECRET" 8)
  ++ issue_if (is_value (env "STORAGE_DRIVER") "s3"
               && (negb (truthy_str (env "S3_BUCKET")) || negb (truthy_str (env "S3_ACCESS_KEY"))
                   || negb (truthy_str (env "S3_SECRET_KEY"))))
       "S3_BUCKET / S3_ACCESS_KEY / S3_SECRET_KEY required when STORAGE_DRIVER=s3".

Definition secret_length : nat := if isProduction then 32 else 8.

Definition environment_issues : list string :=
  require_env "DATABASE_URL" 10 ++ require_env "REDIS_URL" 8
  ++ require_env "JWT_SECRET" secret_length ++ require_env "JWT_REFRESH_SECRET" secret_length
  ++ (if isProduction || nodeIsProd then production_issues else []).

(** It throws [EnvironmentValidationError] with all issues. *)
Definition validateEnvironment : outcome () :=
  match environment_issues with
  | [] => Ok tt
  | issues => Throw (JsError ("Invalid environment:" +:+ line_break +:+ "- "
                              +:+ join (line_break +:+ "- ") issues))
  end.

(** ** Settings *)

Context `{!WholeNumber}.

Definition number_setting (key : string) (fallback : Z) : Z :=
  match env key with Some t => whole_number t | None => fallback end.

(** A provider is mocked as the settings say. *)
Definition mock_setting (switch key1 key2 : string) : bool :=
  switched_on (env switch)
  || (negb (truthy_str (env key1)) && negb (truthy_str (env key2)) && negb (is_value (env switch) "false")).

(** [payment.config.ts] as the provider reads it. *)
Definition payment_config (correlationId : string) : RazorpayConfig :=
  let serverCapture := env "PAYMENTS_SERVER_CAPTURE" in
  mkRazorpayConfig (Some (mock_setting "PAYMENTS_MOCK" "RAZORPAY_KEY_ID" "RAZORPAY_KEY_SECRET"))
    (Some (negb (is_value serverCapture "false") && negb (is_value serverCapture "0")))
    (Some (coalesce (env "RAZORPAY_KEY_ID") "")) (Some (coalesce (env "RAZORPAY_KEY_SECRET") ""))
    (Some (coalesce (env "RAZORPAY_BASE_URL") "https://api.razorpay.com/v1"))
    (Some (coalesce (env "RAZORPAY_WEBHOOK_SECRET") ""))
    (Some (number_setting "PAYMENTS_AUTHORIZE_TIMEOUT_MS" 30000))
    correlationId.



Definition trustProxy : bool := switched_on (env "TRUST_PROXY").
(** [security.config.ts]: the allowlist, whether it is enforced, and whether errors are hidden. *)
Definition adminIpAllowlist : list string :=
  where_ (λ s, negb (String.eqb s "")) (map trim (split_comma "" (coalesce (env "ADMIN_IP_ALLOWLIST") ""))).
Definition enforceAdminAllowlist : bool := switched_on (env "ENFORCE_ADMIN_IP_ALLOWLIST").
Definition hideErrorDetails : bool :=
  is_value (env "NODE_ENV") "production" || is_value (env "HIDE_ERROR_DETAILS") "true".

(** [swagger.config.ts]: whether the documentation is served. *)
Definition swagger_enabled : bool :=
  let nodeEnv := toLowerCase (coalesce (or_other (env "NODE_ENV") (env "APP_ENV")) "") in
  if String.eqb nodeEnv "production" || String.eqb nodeEnv "staging"
  then switched_on (env "SWAGGER_ENABLED") else negb (is_value (env "SWAGGER_ENABLED") "false").

(** [storage.config.ts] *)
Record StorageSettings := mkStorageSettings {
  sg_s3 : bool; sg_bucket : string; sg_region : string; sg_endpoint : string; sg_accessKey : string;
  sg_secretKey : string; sg_publicUrl : string; sg_localPath : string;
}.
Definition storage_config : StorageSettings :=
  mkStorageSettings (is_value (env "STORAGE_DRIVER") "s3")
    (coalesce (env "STORAGE_BUCKET") "electronics-cart") (coalesce (env "STORAGE_REGION") "us-east-1")
    (coalesce (env "STORAGE_ENDPOINT") "") (coalesce (env "STORAGE_ACCESS_KEY") "")
    (coalesce (env "STORAGE_SECRET_KEY") "") (coalesce (env "STORAGE_PUBLIC_URL") "http://localhost:3051/uploads")
    (coalesce (env "STORAGE_LOCAL_PATH") "./uploads").

(** [app.config.ts] *)
Record AppSettings := mkAppSettings {
  as_name : string; as_port : Z; as_env : AppEnv; as_apiPrefix : string; as_corsOrigins : list string;
  as_firebaseProjectId : string;
}.
Definition app_config : AppSettings :=
  mkAppSettings (coalesce (env "APP_NAME") "Electronics Cart API") (number_setting "PORT" 3051) appEnv "api"
    (where_ (λ s, negb (String.eqb s "")) (map trim (split_comma ""
       (coalesce (env "CORS_ORIGINS") "http://localhost:3000,http://localhost:3001"))))
    (match trimmed env "FIREBASE_PROJECT_ID" with
     | Some ((String _ _) as s) => s
     | _ => "electronics-cart"
     end).

(** [queue.config.ts] *)
Record QueueSettings := mkQueueSettings {
  qs_redisUrl : string; qs_prefix : string; qs_defaultAttempts : Z; qs_defaultBackoffMs : Z;
}.
Definition queue_config : QueueSettings :=
  mkQueueSettings (coalesce (or_other (env "QUEUE_REDIS_URL") (env "REDIS_URL")) "redis://localhost:6379")
    (coalesce (env "QUEUE_PREFIX") "electronics:queue:") (number_setting "QUEUE_DEFAULT_ATTEMPTS" 3)
    (number_setting "QUEUE_DEFAULT_BACKOFF_MS" 5000).

(** [mail.config.ts] *)
Record MailSettings := mkMailSettings {
  ms_host : string; ms_port : Z; ms_user : string; ms_pass : string; ms_from : string; ms_secure : bool;
}.
Definition mail_setting (key older fallback : string) : string := coalesce (or_other (env key) (env older)) fallback.
Definition mail_config : MailSettings :=
  mkMailSettings (mail_setting "SMTP_HOST" "MAIL_HOST" "localhost")
    (match or_other (env "SMTP_PORT") (env "MAIL_PORT") with Some t => whole_number t | None => 1025 end)
    (mail_setting "SMTP_USER" "MAIL_USER" "") (mail_setting "SMTP_PASS" "MAIL_PASS" "")
    (mail_setting "SMTP_FROM" "MAIL_FROM" "noreply@electronics-cart.local")
    (is_value (env "SMTP_SECURE") "true" || is_value (env "MAIL_SECURE") "true").

(** [redis.config.ts] *)
Record RedisSettings := mkRedisSettings { rs_url : string; rs_keyPrefix : string; rs_defaultTtlSeconds : Z }.
Definition redis_config : RedisSettings :=
  mkRedisSettings (coalesce (env "REDIS_URL") "redis://localhost:6379")
    (coalesce (env "REDIS_KEY_PREFIX") "electronics:") (number_setting "REDIS_DEFAULT_TTL_SECONDS" 3600).
End validation.

(** ** What a validated start means *)







Section validated.
Context `{!Redis, !Scheduler, !Network, !NumberText, !JsonText, !JsonParse, !UriText, !HmacSha256, !RandomUuid,
  !WholeNumber}.

End validated.

(** ** Runs *)

Definition vars (l : list (string * string)) : ProcessEnv :=
  λ key, snd <$> find_first (λ kv, String.eqb (fst kv) key) l.

Definition vars_of_a_shop : list (string * string) :=
  [("NODE_ENV", "production"); ("APP_ENV", "production");
   ("DATABASE_URL", "postgresql://u:p@localhost:5432/db"); ("REDIS_URL", "redis://localhost:6379");
   ("JWT_SECRET", "xxxxxxxxxxxxxxxxxxxxxxxxxxxxxxxx"); ("JWT_REFRESH_SECRET", "yyyyyyyyyyyyyyyyyyyyyyyyyyyyyyyy");
   ("SMTP_HOST", "smtp.example.com"); ("SWAGGER_ENABLED", "false"); ("PAYMENTS_MOCK", "false");
   ("SHIPPING_MOCK", "false"); ("RAZORPAY_KEY_ID", "rzp_test_x"); ("RAZORPAY_KEY_SECRET", "secretsecret");
   ("RAZORPAY_WEBHOOK_SECRET", "whsec_secret"); ("SHIPROCKET_EMAIL", "ops@example.com");
   ("SHIPROCKET_PASSWORD", "ship-pass"); ("SHIPROCKET_WEBHOOK_SECRET", "sr_whsec_x")].
Definition with_vars (l : list (string * string)) : ProcessEnv := vars (l ++ vars_of_a_shop).

Section witness.
#[local] Existing Instance gmap_redis.
#[local] Instance network0 : Network := λ _ e, (http_failure "offline", e).
#[local] Instance number0 : NumberText := λ _, "".
#[local] Instance json0 : JsonText := λ _, "".
#[local] Instance parse0 : JsonParse := λ _, None.
#[local] Instance uri0 : UriText := {| encodeURIComponent s := s; base64 s := s |}.
#[local] Instance hmac0 : HmacSha256 := λ key body, key +:+ "." +:+ body.
#[local] Instance uuid0 : RandomUuid := λ n, pretty (Z.of_nat n).
#[local] Instance whole0 : WholeNumber := λ _, 0.

End witness.

(** The environment of the tests is accepted, and changes of it are refused as they say. *)
Example checked_by_tests :
  validateEnvironment (with_vars []) = Ok tt
  ∧ environment_issues (with_vars [("JWT_SECRET", "short"); ("JWT_REFRESH_SECRET", "short2")])
    = ["JWT_SECRET is required (min 32 chars)"; "JWT_REFRESH_SECRET is required (min 32 chars)"]
  ∧ environment_issues (with_vars [("SWAGGER_ENABLED", "true")])
    = ["SWAGGER_ENABLED must be false in production/staging"].
Proof. split_and!; vm_compute; reflexivity. Qed.

(** Nothing asks for live payments: with live keys, and the mock switched off, a capture is
    settled without a request to the gateway, whatever was paid. *)
Example captures_at_home `{!Redis, !Scheduler, !Network, !NumberText, !JsonText, !JsonParse, !UriText,
    !RandomUuid, !WholeNumber} gatewayPaymentId amount currency e :
  validateEnvironment (with_vars []) = Ok tt
  ∧ rz_mocked (payment_config (with_vars []) "c") = false
  ∧ rz_capture (payment_config (with_vars []) "c") gatewayPaymentId amount currency e
    = (Ok (mkCaptureResult gatewayPaymentId cp_captured), e).
Proof. split_and!; vm_compute; reflexivity. Qed.

(** The check asks for names of the storage that its settings do not read. *)
Example storage_unread `{!WholeNumber} :
  let env := with_vars [("STORAGE_DRIVER", "s3"); ("S3_BUCKET", "shop"); ("S3_ACCESS_KEY", "key");
                        ("S3_SECRET_KEY", "secret")] in
  validateEnvironment env = Ok tt
  ∧ sg_bucket (storage_config env) = "electronics-cart" ∧ sg_accessKey (storage_config env) = ""
  ∧ sg_secretKey (storage_config env) = "".
Proof. vm_compute. done. Qed.

(** Staging with another [NODE_ENV] serves the documentation, and shows what errors say. *)
Example staging_shows :
  let env := vars (("NODE_ENV", "development") :: ("APP_ENV", "staging") ::
                   where_ (λ kv, negb (String.eqb (fst kv) "SWAGGER_ENABLED")) vars_of_a_shop) in
  validateEnvironment env = Ok tt ∧ swagger_enabled env = true ∧ hideErrorDetails env = false.
Proof. vm_compute. done. Qed.

(** A name of the environment that is not one of the four means development, where nothing
    but the length of eight asks for good secrets. *)
Example misspelt :
  let env := vars [("APP_ENV", "prod"); ("DATABASE_URL", "postgresql://u:p@localhost:5432/db");
                   ("REDIS_URL", "redis://localhost:6379"); ("JWT_SECRET", "change-me");
                   ("JWT_REFRESH_SECRET", "change-me")] in
  validateEnvironment env = Ok tt.
Proof. vm_compute. done. Qed.
