(* ===== verification/PlatformRules.v ===== *)
(** * Rules of contexts, queues, workers and the event bus

    A context that a job is enqueued with is in force while the job is processed, and only
    then; a job is processed or becomes one dead letter; whatever a handler of an event does,
    the others run and the publisher goes on; the handler of dead letters keeps the last
    hundred. The examples show what gets lost. *)
From S2P Require Import Prelude Core Effects Redis Http Platform.

#[local] Open Scope Z_scope.

(** ** Contexts *)

Lemma context_roundtrip c : context_of_json (context_json c) = c.
Proof. by destruct c as [[] [] [] [] [] []]. Qed.

Lemma get_set_member k v fields : jget k (JObj (set_member k v fields)) = Some v.
Proof.
  simpl. induction fields as [|[k' v'] fields IH]; simpl; [by rewrite String.eqb_refl|].
  destruct (String.eqb_spec k' k) as [->|N]; simpl; [by rewrite String.eqb_refl|].
  apply String.eqb_neq in N. by rewrite N.
Qed.

Lemma fromSnapshot_traced c a b : traced c → TransactionContext.fromSnapshot (Some c) a b = c.
Proof. intros [[x E] [y F]]. destruct c. simpl in *. by subst. Qed.

Section contexts.
Context `{!Redis, !RandomUuid, !ClientText, !DateText} {D : Type}.
Notation Run := (M (St (Scoped D))).
Implicit Types s : St (Scoped D).

(** The state with another context in force. *)
Definition in_scope (c : option TransactionContextData) (s : St (Scoped D)) : St (Scoped D) :=
  mkSt (env s) (mkScoped c (below (tables s))).

Lemma run_spec {A} c (fn : Run A) s :
  TransactionContext.run c fn s
  = (fst (fn (in_scope (Some c) s)), in_scope (scope (tables s)) (snd (fn (in_scope (Some c) s)))).
Proof.
  unfold TransactionContext.run, TransactionContext.get, TransactionContext.set_scope, try_finally.
  unfold mbind, M_bind, gets, modify. cbn [scope tables env below].
  change (mkSt (env s) (mkScoped (Some c) (below (tables s)))) with (in_scope (Some c) s).
  by destruct (fn (in_scope (Some c) s)) as [o s'].
Qed.

(** A copy of the context is in force inside only: whatever [fn] does to its context and
    however it ends, the one in force after is the one before. *)
Theorem run_isolated {A} c (fn : Run A) s :
  scope (tables (snd (TransactionContext.run c fn s))) = scope (tables s).
Proof. by rewrite run_spec. Qed.

(** The state after an id is drawn. *)
Definition drawn s : St (Scoped D) := snd (generateUuid s).

Lemma handle_spec process job s :
  handleJob process job s
  = TransactionContext.run
      (TransactionContext.fromSnapshot (context_of_payload (qj_data job)) (uuid_text (entropy (env s)))
         (uuid_text (entropy (env s)))) (process job) (drawn s).
Proof. reflexivity. Qed.

(** A job that was enqueued while a context was in force is processed with that context in
    force, and leaves the worker's as it was. *)
Theorem context_travels c fields process job s : traced c →
  qj_data job = with_context c (JObj fields) →
  fst (handleJob process job s) = fst (process job (in_scope (Some c) (drawn s)))
  ∧ scope (tables (snd (handleJob process job s))) = scope (tables s).
Proof.
  intros T E. rewrite handle_spec, E. unfold context_of_payload, with_context.
  rewrite get_set_member. cbn [option_map]. rewrite context_roundtrip, fromSnapshot_traced by done.
  by rewrite run_spec.
Qed.

(** ** Jobs *)

(** What [onFailed] records for the error at the time. *)
Definition dead_job (queueName : string) (job : QueuedJob) (e : exn) (at_ : Z) : Job :=
  mkJob "dlq" (queueName +:+ ":" +:+ qj_name job)
    (with_context no_context (dead_letter queueName job (errMsg e) (iso_text at_) no_context)).

(** The job after its last attempt. *)
Definition spent (job : QueuedJob) (n : Z) : QueuedJob :=
  mkQueuedJob (qj_id job) (qj_name job) (qj_data job) (qj_attempts job) n.

Section worker.
Variable queueName : string.
Variable process : QueuedJob → Run ().
(** The processor enqueues nothing, and Redis stays reachable. *)
Hypothesis quiet : ∀ job s, jobs (env (snd (process job s))) = jobs (env s)
  ∧ redis_up (env (snd (process job s))) = redis_up (env s).

Lemma handle_quiet job s :
  jobs (env (snd (handleJob process job s))) = jobs (env s)
  ∧ redis_up (env (snd (handleJob process job s))) = redis_up (env s)
  ∧ scope (tables (snd (handleJob process job s))) = scope (tables s).
Proof.
  rewrite handle_spec, run_spec. split_and!; [..|reflexivity].
  - exact (proj1 (quiet job (in_scope _ (drawn s)))).
  - exact (proj2 (quiet job (in_scope _ (drawn s)))).
Qed.

Lemma failed_early job e s : qj_attemptsMade job < coalesce (qj_attempts job) 1 →
  onFailed queueName job e s = (Ok tt, s).
Proof. intros L. unfold onFailed. by apply Z.ltb_lt in L as ->. Qed.

Lemma failed_last job e s : ¬ qj_attemptsMade job < coalesce (qj_attempts job) 1 →
  scope (tables s) = None → redis_up (env s) = true →
  fst (onFailed queueName job e s) = Ok tt
  ∧ jobs (env (snd (onFailed queueName job e s))) = jobs (env s) ++ [dead_job queueName job e (clock (env s))].
Proof.
  intros L S R. unfold onFailed. apply Z.ltb_nlt in L as ->.
  unfold enqueueDlq, QueueService_enqueue, TransactionContext.snapshot, TransactionContext.get, Date_now, enqueue.
  unfold mbind, M_bind, gets, mret, M_ret. rewrite S. by rewrite R.
Qed.

Definition failing (job : QueuedJob) : QueuedJob := spent job (qj_attemptsMade job + 1).

Lemma attempts_step n job s :
  attempts_at (S n) queueName process job s
  = match handleJob process job s with
    | (Ok _, s1) => (Ok true, s1)
    | (Throw e, s1) => attempts_at n queueName process (failing job) (snd (onFailed queueName (failing job) e s1))
    end.
Proof.
  cbn [attempts_at]. unfold failing, spent, try_catch, mbind, M_bind, mret, M_ret.
  destruct (handleJob process job s) as [[[]|e] s1]; [done|].
  by destruct (onFailed queueName _ e s1) as [[[]|e'] s2].
Qed.

Lemma attempts_end n job s : n = Z.to_nat (coalesce (qj_attempts job) 1 - qj_attemptsMade job) →
  (0 < n)%nat → scope (tables s) = None → redis_up (env s) = true →
  ∃ o, fst (attempts_at n queueName process job s) = Ok o
  ∧ if o then jobs (env (snd (attempts_at n queueName process job s))) = jobs (env s)
    else ∃ e at_, jobs (env (snd (attempts_at n queueName process job s)))
           = jobs (env s) ++ [dead_job queueName (spent job (coalesce (qj_attempts job) 1)) e at_].
Proof.
  revert job s. induction n as [|n IH]; intros job s En Pos Sc Up; [lia|].
  rewrite attempts_step. destruct (handle_quiet job s) as (Hj & Hr & Hs).
  destruct (handleJob process job s) as [[[]|e] s1]; cbn [fst snd] in *.
  { exists true. split; [done|]. exact Hj. }
  rewrite Sc in Hs. rewrite Up in Hr.
  destruct (decide (qj_attemptsMade (failing job) < coalesce (qj_attempts (failing job)) 1)) as [L|L].
  - rewrite failed_early by done. cbn [snd]. destruct (IH (failing job) s1) as (o & Ho & Ht); [cbn in *; lia|cbn in *; lia|done..|].
    exists o. split; [done|]. destruct o; [by rewrite Ht|]. destruct Ht as (e' & t & Ht). exists e', t. rewrite Ht, Hj.
    done.
  - destruct (failed_last (failing job) e s1 L Hs Hr) as [_ J]. assert (n = 0)%nat as -> by (cbn in *; lia). exists false. split; [done|].
    exists e, (clock (env s1)). cbn [attempts_at]. unfold mret, M_ret. cbn [snd]. rewrite J, Hj.
    replace (coalesce (qj_attempts job) 1) with (qj_attemptsMade job + 1) by (cbn in *; lia). done.
Qed.

(** A worker processes a job within its attempts, or it writes one dead letter with its data
    after the last of them. *)
Theorem processed_or_dead job s : qj_attemptsMade job < coalesce (qj_attempts job) 1 →
  scope (tables s) = None → redis_up (env s) = true →
  ∃ processed, fst (deliver queueName process job s) = Ok processed
  ∧ if processed then jobs (env (snd (deliver queueName process job s))) = jobs (env s)
    else ∃ e at_, jobs (env (snd (deliver queueName process job s)))
           = jobs (env s) ++ [dead_job queueName (spent job (coalesce (qj_attempts job) 1)) e at_].
Proof. intros L Sc Up. apply attempts_end; [done|lia|done..]. Qed.
End worker.
End contexts.

(** ** Dead letters and events *)

Definition last_ {A} (n : nat) (l : list A) : list A := drop (length l - n) l.

Lemma remember_last ls l : remember (last_ 100 ls) l = last_ 100 (ls ++ [l]).
Proof.
  unfold remember, last_. rewrite !length_app, length_drop. cbn [length].
  destruct (Nat.ltb_spec 100 (length ls - (length ls - 100) + 1)) as [L|L].
  - rewrite !drop_app_le by (rewrite ?length_drop; lia). rewrite drop_drop. do 2 f_equal. lia.
  - replace (length ls - 100)%nat with 0%nat by lia. by replace (length ls + 1 - 100)%nat with 0%nat by lia.
Qed.

(** The handler of dead letters keeps the last hundred, in their order. *)
Theorem last_hundred ls : foldl remember [] ls = last_ 100 ls.
Proof.
  induction ls as [|l ls IH] using rev_ind; [done|]. by rewrite foldl_snoc, IH, remember_last.
Qed.

Section bus.
Context {S : Type} `{!ClientText}.
Variable now : S → Z.

Lemma notify_spec event (l : Listener S) b :
  fst (notify now event l b) = Ok tt ∧ rest (snd (notify now event l b)) = snd (li_handler l event (rest b))
  ∧ listeners (snd (notify now event l b)) = listeners b.
Proof.
  unfold notify, try_catch, beside, DeadLetterHandler_handle, modify.
  by destruct (li_handler l event (rest b)) as [[[]|e] s].
Qed.

Lemma notify_all event ls b :
  fst (for_each ls (notify now event) b) = Ok tt
  ∧ rest (snd (for_each ls (notify now event) b)) = foldl (λ s l, snd (li_handler l event s)) (rest b) ls.
Proof.
  revert b. induction ls as [|l ls IH]; intros b; [done|]. cbn [for_each foldl].
  destruct (notify_spec event l b) as (O & R & _). unfold mbind, M_bind.
  destruct (notify now event l b) as [o b']. cbn [fst snd] in *. subst o. rewrite <- R. apply IH.
Qed.

(** Every handler of the event's name gets it, in the order of subscription and whatever the
    handlers before it do, and the publisher goes on. *)
Theorem published event (b : Bus S) :
  fst (publish now event b) = Ok tt
  ∧ rest (snd (publish now event b))
    = foldl (λ s l, snd (li_handler l event s)) (rest b)
        (where_ (λ l, String.eqb (li_name l) (ee_name event)) (listeners b)).
Proof. apply notify_all. Qed.

Lemma off_none name f (ls : list (Listener S)) : Forall (λ l, li_function l ≠ f) ls → off name f ls = ls.
Proof.
  induction 1 as [|l ls N _ IH]; simpl; [done|]. apply Nat.eqb_neq in N. rewrite N, andb_false_r. by rewrite IH.
Qed.

(** A function that was there before its subscription cannot be unsubscribed: the bus has
    registered another one. *)
Theorem never_unsubscribed name f handler (b : Bus S) :
  (f < functions b)%nat → Forall (λ l, li_function l ≠ f) (listeners b) →
  listeners (snd ((subscribe name handler ;; unsubscribe name f) b))
  = listeners b ++ [mkListener name (functions b) handler].
Proof.
  intros L F. unfold subscribe, unsubscribe, modify, mbind, M_bind. cbn [snd listeners].
  apply off_none, Forall_app. split; [done|]. apply Forall_singleton. cbn. lia.
Qed.
End bus.

(** ** Examples *)

(** The dead letter of a job does not carry the job's context, whose place is taken by that
    of the worker, which has none. *)
Example context_of_dead_letter `{!Redis, !RandomUuid, !ClientText, !DateText} queueName job e at_ :
  jget "__tx" (jobData (dead_job queueName job e at_)) = Some (JObj []).
Proof. reflexivity. Qed.

(** Without options a job is attempted once, whatever the settings of queues say. *)
Example attempted_once `{!Redis, !RandomUuid, !ClientText, !DateText} {D} queueName id name data
    (s : St (Scoped D)) : scope (tables s) = None → redis_up (env s) = true →
  jobs (env (snd (deliver queueName (λ _, throw (JsError "down")) (mkQueuedJob id name data None 0) s)))
  = jobs (env s) ++ [dead_job queueName (mkQueuedJob id name data None 1) (JsError "down") (clock (env s))].
Proof. destruct s as [[c st u b js en] [sc d]]. cbn. intros -> ->. reflexivity. Qed.

(** [peek(0)] shows all. *)
Example peek_none l : peek [l] 0 = [l].
Proof. reflexivity. Qed.
